(* ===== verification/_CoqProject ===== *)
-Q . S2P
Prelude.v
Crc16.v
Rtime.v
Rstats.v
Port.v
PacketBuf.v
PacketRcv.v
AddrMap.v
Command.v
CommandList.v
Connect.v
ConnectEncode.v
ConnectDecode.v
ConnectExec.v
Link.v
Server.v
FileFd.v
Url.v
Rtools.v
VirtDisk.v
UnitDisk.v
Stream.v
VirtTape.v
TapeSpec.v
TapeSafe.v
Cpu.v
CpuMem.v
LoadAbs.v
Rdma.v
LinkCore.v
RdmaSpec.v
Cntl.v
Rk11.v
CntlSpec.v
MemOps.v
PdpBus.v
FifoBus.v
RkSpec.v
RkDisk.v
Reth.v
Deuna.v
DeunaInv.v
DeunaRing.v
Tm11.v
TmSpec.v
TmTape.v
TmDma.v
Lp11.v
LpSpec.v
