(* ===== verification/Prelude.v ===== *)
(** * Verification library for the w11 rlink backend (tools/src)

    The w11 is a PDP-11 system on an FPGA.  A backend program on a host gives
    it its disks, tapes and consoles: it reaches the FPGA through a byte port
    (serial line, USB, FIFO), over which command lists are exchanged for
    responses (the rlink protocol), and receives attentions, 16 bits by which
    devices of the FPGA call for service.  This library models the C++ code of
    that program, from the byte framing up to disk and tape transfers, ethernet
    frames and printed lines.

    == The parts, from the wire up, and the files that model them ==

    - [Crc16]: [librlink/RlinkCrc16].  [Rtime], [Rstats]: [librtools/Rtime],
      [librtools/Rstats].  [Port]: [librlink/RlinkPort], the byte port as a
      class with laws, implemented by a port that replays chunks of bytes.
    - [PacketBuf]: [RlinkPacketBuf], [RlinkPacketBufSnd], packets to bytes.
      [PacketRcv]: [RlinkPacketBufRcv], bytes to packets, a state machine.
    - [AddrMap], [Command], [CommandList]: [RlinkAddrMap], [RlinkCommand] with
      [RlinkCommandExpect] and [RlinkContext], [RlinkCommandList].
    - [Connect]: [RlinkConnect].  [ConnectEncode] and [ConnectDecode] treat
      [EncodeRequest] and [DecodeResponse], [ConnectExec] the whole of [Exec].
    - [Link]: [RlinkServer::Exec], and what its callers rely on, as a contract
      ([LinkLaws]): a list has the effect of its bus accesses in order.
      [LinkCore] puts an rlink core behind a port and proves that contract for
      the program's own connection, from the encoder, the framing, the
      receiver and the decoder.
    - [Server]: [RlinkServer] and [RlinkServerEventLoop], the attention handlers
      and the list of actions.
    - [FileFd], [Url]: [librtools/RfileFd], [Rfd], [RparseUrl].  [Rtools]:
      [librtools/Rtools], numbers in texts and the backups of files.
    - [VirtDisk]: [librw11/Rw11VirtDisk] and its file, overlay and ram
      containers.  [UnitDisk]: [Rw11UnitDisk], [Rw11UnitVirt].
    - [VirtTape]: [Rw11VirtTape], [Rw11VirtTapeTap], [Rw11UnitTape]; its
      specification is in [TapeSpec], arbitrary files in [TapeSafe].
    - [Stream]: [Rw11VirtStream], [Rw11UnitStream], files of the C library that
      are read or written from the front.
    - [Cpu]: [Rw11Cpu], [Rw11Probe]; [CpuMem] describes the control port of the
      cpu ([CpuBus]) and proves the memory accesses; [LoadAbs] is the absolute
      loader [Rw11Cpu::LoadAbs].
    - [Rdma]: [Rw11Rdma], [Rw11RdmaDisk], transfers between a buffer and the
      memory of the cpu, chunk by chunk; [RdmaSpec] proves them.
    - [Cntl]: [Rw11Cntl], [Rw11CntlBase], what all controllers have, and the
      attention handler of [Rw11];
      [CntlSpec] describes a bus with device registers ([RegDev]) and proves what
      the command lists of a controller do.  [Rk11]: [Rw11CntlRK11],
      [Rw11UnitRK11], the disk controller; [RkSpec] specifies the device in
      arithmetic and proves the attention handler and the callbacks, [RkDisk]
      has the theorems on whole commands.
    - [Tm11]: [Rw11CntlTM11], [Rw11UnitTM11], [Rw11UnitTapeBase], the tape
      controller; [TmSpec] has its registers in arithmetic and the steps of the
      handler, [TmTape] the theorems on functions without a transfer, [TmDma]
      those on READ and WRITE.
    - [Reth]: [librw11/RethTools], [RethBuf], [Rw11VirtEthTap], mac addresses,
      frames and the tap device.  [Deuna]: [Rw11CntlDEUNA], [Rw11UnitDEUNA], the
      ethernet controller; [DeunaInv] has its invariant, [DeunaRing] what the
      turns of its rings do.  [MemOps] describes command lists of memory and
      register accesses as operations on the memory of a cpu, [PdpBus] is a bus
      with a cpu and device registers, [FifoBus] describes a bus with a register
      that delivers waiting characters.
    - [Lp11]: [Rw11CntlLP11], [Rw11UnitLP11], [Rw11UnitStreamBase], the line
      printer; [LpSpec] has what it prints, as an invariant over the steps of
      device, handler and queued action.

    == How the model corresponds to the code ==

    A class is a record with the data members of the code under their names; a
    method is a definition of the same name, a state transformer in the monad
    [M] of this file: [Ret], the exception the code throws ([Exc]), or
    [NoFuel] when a bound on a loop is used up.  Methods that return [bool] and
    set an [RerrMsg] are in the monad [E] of [FileFd] or return the pair.
    Integers keep their width: [u8], [u16], [u32], [u64] and their signed forms
    are written out where the code wraps; [size_t] indices of containers are
    [nat] or [Z].  What C++ leaves undefined is an exception [undefined], and
    the theorems say that it does not occur.  Data of the caller that commands
    point to is in a memory ([Mem]) that is part of the state, so aliasing is
    visible.  Classes with virtual methods are sums ([Rw11VirtDisk]) or type
    classes (ports, links, devices, disk containers).

    Loops have structural recursion where the code walks a container.  Others
    carry a bound: the reads of a response ([ConnectExec]: a bound above the
    number of chunks is enough), tape spacing ([TapeSafe]: the file size is
    enough), the handler loop ([Server]: the number of handlers is enough), the
    loader ([LoadAbs]: the tape length is enough), [mem_loop] ([CpuMem]: the
    number of words).  [LinkCore] chooses the bound of an exchange from the lengths of
    its responses.  A theorem on such a loop states that it returns.

    == What the theorems show ==

    - Wire: the crc table is polynomial division and detects corrupted words;
      framing and the receive automaton are inverse, for every chunking of the
      input; the encoder writes what a reference parser reads; the decoder
      stores what the responses say and never reads behind a packet, nor behind a
      block unless a longer one is expected than was read; [Exec]
      ends with the commands answered, in the presence of attentions.
      Over a port with an rlink core, a list has exactly the effect of its
      accesses on the bus of the core, which is all that the layers above use.
    - Server: every attention is handled, harvested or still pending, as far as
      handlers have masks of a single bit, which those of the program have.
    - Containers: each disk is a store of blocks, overlays keep the file; the
      tape container is a sequence of records and marks while no record is read
      short, and all its calls return on arbitrary files.  Backups of a file are
      rotated without loss.
    - Cpu and transfers: memory written is read back, a paper tape is loaded
      byte for byte, and a disk transfer moves the right words, those below the
      end of memory when not all are, ends after the expected number of actions,
      and pads the last block; a write check finds the first difference.
    - Controller RK11: the attention handler does what a specification of the
      device says, on every function and error; each command is completed once;
      READ, WRITE and WRITE CHECK run from the attention to the last action of the
      server, move or compare the right words, and leave the registers behind as
      the manual says, errors included.
    - Controller TM11: spacing, file marks and rewinding move the tape as its
      specification says; READ stores a record in memory, its odd last byte too,
      WRITE makes a record of memory; each tells the device once where it ended;
      what cannot be done is refused and changes nothing.
    - Controller DEUNA: an invariant of all states that calls reach; a turn of
      the transmit ring sends the frame of its descriptor, a turn of the receive
      ring stores one, and both give the descriptor back and go to the next.
    - Controller LP11: over every interleaving, what the device was given is what
      was printed followed by what waits; the handler and one action empty the
      fifo; without a stream characters are counted and the device is told.
    - Leaves: mac addresses, address maps, commands, expectations, times, statistics, urls.
    - Behaviour at the edges, which the code has and which its callers have to
      know: stale check flags, attentions that wait in the input buffer, and the
      others named as error properties.

    == Assumptions ==

    All are classes with an instance, or hypotheses with a witness: the laws of
    a port ([RlinkPortLaws]), of the POSIX file calls ([PosixFileLaws]), of the
    calls on names of files ([PosixNamesLaws]), of the streams of the C library
    ([StdioLaws], for a stream without errors), of a
    link ([LinkLaws], proved in [LinkCore] for a core whose registers keep their
    widths, [BusWidths]), of the control port of the cpu ([CpuBus]), of a disk
    container ([VirtDiskSpec], proved for the three of the code), of the
    callbacks of a controller ([RdmaChunks] on the way and [RdmaClient] at the end,
    proved for the RK11; for the TM11 the end is in [TmDma]), and of the
    registers of its device ([RegDev]: reads do not disturb, writes are seen in
    order; the log [cp_log] of the port records them), and of a register with a
    fifo ([FifoBus]).  The core of [LinkCore] answers each list by itself, as long
    as its responses fit: it has no overflow of the retransmit buffer, and a list
    abort ends with its list.

    == What is not modelled ==

    Threads, locks and condition variables (the program serialises on the lock
    of the connection); [poll] and its handlers; the ports themselves (termios,
    libusb, fifos), the terminal devices and the opening of the tap device,
    which are system calls; printing, dumps and the log, except that [Connect]
    records which log entries are written; the Tcl bindings.  Of the controllers,
    RL11, RHRP, PC11, DL11 and DZ11: [Rw11Sys], [Cntl] and [RdmaClient] are made
    for the disks among them, [Stream] and [FifoBus] for the paper tape.  The
    read of an erased node in [AddrMap] is a parameter.  In [Deuna], a refused frame of the unit is not
    logged, and random numbers and clocks are what the state holds. *)

From stdpp Require Export base tactics list gmap strings numbers.
From Stdlib Require Export ZArith Lia.

Declare Scope w11_scope.
Delimit Scope w11_scope with w11.
Open Scope Z_scope.

(** ** Record update, projection style

    [Eta R] names the constructor of [R] applied to its projections; the
    instance of [Setter f] for a projection [f] is computed from it.  The
    setter is a term [mk (f1 r) .. (g (f r)) .. (fn r)], hence a projection of
    an updated record reduces without a case analysis on the record. *)
Class Eta (R : Type) := eta_expand : R → R.
Class Setter {R E : Type} (f : R → E) := setter : (E → E) → R → R.

Ltac build_setter R E f :=
  let inst := constr:(_ : Eta R) in
  let e := eval hnf in inst in
  let t := constr:(fun (g : E → E) (r : R) => ltac:(
     let b := eval cbv beta in (e r) in
     let p := eval pattern (f r) in b in
     lazymatch p with ?h _ => let c := eval cbv beta in (h (g (f r))) in exact c end)) in
  exact t.
#[export] Hint Extern 1 (@Setter ?R ?E ?f) => build_setter R E f : typeclass_instances.

Definition update {R E : Type} (f : R → E) {s : Setter f} (g : E → E) (r : R) : R := s g r.
Arguments update {R E} f {s} g r /.

Notation "r <| f ::= g |>" := (update f g r)
  (at level 12, f at next level, left associativity, format "r  <| f  ::=  g |>") : w11_scope.
Notation "r <| f := v |>" := (update f (λ _, v) r)
  (at level 12, f at next level, left associativity, format "r  <| f  :=  v |>") : w11_scope.
Open Scope w11_scope.

(** ** Machine words

    Unsigned integers of the C++ code are [Z]; a conversion to a narrower type
    is the explicit reduction below. *)
Definition u8  (z : Z) : Z := Z.land z 0xff.
Definition u16 (z : Z) : Z := Z.land z 0xffff.
Definition u32 (z : Z) : Z := Z.land z 0xffffffff.
(** [~x] of a [uint32_t] mask. *)
Definition not32 (z : Z) : Z := u32 (Z.lnot z).

Definition is_u8  (z : Z) : Prop := 0 <= z < 2 ^ 8.
Definition is_u16 (z : Z) : Prop := 0 <= z < 2 ^ 16.
Definition is_u32 (z : Z) : Prop := 0 <= z < 2 ^ 32.

Definition lo8 (w : Z) : Z := Z.land w 0xff.
Definition hi8 (w : Z) : Z := Z.land (Z.shiftr w 8) 0xff.
Definition word_of (l h : Z) : Z := Z.lor l (Z.shiftl h 8).
(** Words in memory, least significant byte first. *)
Definition words_bytes (ws : list Z) : list Z := concat (map (λ w, [lo8 w; hi8 w]) ws).

(** Words of bytes in memory; an odd byte at the end is left out. *)
Fixpoint pair_words (bs : list Z) : list Z :=
  match bs with
  | b1 :: b2 :: bs => word_of b1 b2 :: pair_words bs
  | _ => []
  end.

(** [below n P] decides [P] on all integers in [0, n). *)
Definition below (n : nat) (P : Z → bool) : bool := forallb (λ i, P (Z.of_nat i)) (seq 0 n).

(** ** Exceptions and state

    A method is a function from the object state to an outcome and the state it
    leaves behind: an exception keeps the effects made before the throw.  The
    outcome [NoFuel] marks a loop whose bound was exhausted. *)
Inductive exn :=
| Rexception (meth text : string)
| out_of_range                    (** [std::out_of_range] of [at] *)
| undefined (what : string).      (** the code reads or writes out of bounds *)

Inductive outcome (A : Type) :=
| Ret (a : A)
| Exc (e : exn)
| NoFuel.
Arguments Ret {A} a.
Arguments Exc {A} e.
Arguments NoFuel {A}.

Definition M (S A : Type) : Type := S → outcome A * S.

#[export] Instance M_ret {S} : MRet (M S) := λ A a s, (Ret a, s).
#[export] Instance M_bind {S} : MBind (M S) := λ A B k m s,
  match m s with
  | (Ret a, s') => k a s'
  | (Exc e, s') => (Exc e, s')
  | (NoFuel, s') => (NoFuel, s')
  end.

Definition gets {S A} (f : S → A) : M S A := λ s, (Ret (f s), s).
Definition modify {S} (g : S → S) : M S () := λ s, (Ret (), g s).
Definition throw {S A} (e : exn) : M S A := λ s, (Exc e, s).
Definition throw_if {S} (b : bool) (meth text : string) : M S () :=
  if b then throw (Rexception meth text) else mret ().

(** A method of a member object, run on the enclosing object. *)
Definition zoom {S T A} (f : S → T) `{!Setter f} (m : M T A) : M S A := λ s,
  let '(r, t) := m (f s) in (r, s <| f := t |>).

(** [while (cond) body]; the body ends an iteration with [None] and leaves the
    enclosing function with [Some r]. *)
Fixpoint while_ {S R} (n : nat) (cond : S → bool) (body : M S (option R)) : M S (option R) := λ s,
  if cond s then
    match n with
    | O => (NoFuel, s)
    | Datatypes.S n' =>
        match body s with
        | (Ret None, s') => while_ n' cond body s'
        | (Ret (Some r), s') => (Ret (Some r), s')
        | (Exc e, s') => (Exc e, s')
        | (NoFuel, s') => (NoFuel, s')
        end
    end
  else (Ret None, s).

(** [for (i : l) body], with early return. *)
Fixpoint for_ {S A R} (l : list A) (body : A → M S (option R)) : M S (option R) :=
  match l with
  | [] => mret None
  | x :: l' => r ← body x; match r with Some v => mret (Some v) | None => for_ l' body end
  end.

(** [while (true) body] with [break] and [return]. *)
Inductive ctl (R : Type) :=
| Continue
| Break
| Return (r : R).
Arguments Continue {R}.
Arguments Break {R}.
Arguments Return {R} r.

Fixpoint loop {S R} (n : nat) (body : M S (ctl R)) : M S (option R) := λ s,
  match n with
  | O => (NoFuel, s)
  | Datatypes.S n' =>
      match body s with
      | (Ret Continue, s') => loop n' body s'
      | (Ret Break, s') => (Ret None, s')
      | (Ret (Return r), s') => (Ret (Some r), s')
      | (Exc e, s') => (Exc e, s')
      | (NoFuel, s') => (NoFuel, s')
      end
  end.

(** ** Collaborators shared by all components *)

(** librtools/RerrMsg: an error message with the method that raised it. *)
Record RerrMsg := mkRerrMsg { em_meth : string; em_text : string }.
Definition emsg_none : RerrMsg := mkRerrMsg EmptyString EmptyString.

(** librtools/RlogMsg: one line of the log, with its tag. *)
Record RlogMsg := mkRlogMsg { lm_tag : string; lm_text : string }.

(** ** Memory of the caller

    A buffer the caller owns and passes by pointer: an array of [uint16_t], so
    that what is read from it has 16 bits. *)
Notation Mem := (gmap Z Z).
Fixpoint mem_get (m : Mem) (p : Z) (n : nat) : list Z :=
  match n with
  | O => []
  | S n => u16 (default 0 (m !! p)) :: mem_get m (p + 1) n
  end.
Fixpoint mem_put (p : Z) (ws : list Z) (m : Mem) : Mem :=
  match ws with
  | [] => m
  | w :: ws => mem_put (p + 1) ws (<[p := w]> m)
  end.

(** ** Loops: the rule of total correctness

    [I] is the invariant, [m] a measure that bounds the remaining iterations;
    [Q] holds of every way the loop ends. *)
Lemma while_rule {S R} (I : S → Prop) (Q : outcome (option R) → S → Prop) (m : S → nat)
    (cond : S → bool) (body : M S (option R)) :
  (∀ s, I s → cond s = false → Q (Ret None) s) →
  (∀ s, I s → cond s = true → (0 < m s)%nat ∧
     match body s with
     | (Ret None, s') => I s' ∧ (m s' < m s)%nat
     | (o, s') => Q o s'
     end) →
  ∀ n s, I s → (m s <= n)%nat → Q (while_ n cond body s).1 (while_ n cond body s).2.
Proof.
  intros Hend Hbody n. induction n as [|n IH]; intros s HI Hm; simpl.
  - destruct (cond s) eqn:E; [|by apply Hend]. destruct (Hbody s HI E). lia.
  - destruct (cond s) eqn:E; [|by apply Hend]. destruct (Hbody s HI E) as [_ Hb].
    destruct (body s) as [[[r|]|e|] s']; [done| |done|done].
    destruct Hb. apply IH; [done|lia].
Qed.

Lemma for_rule {S A R} (I : list A → S → Prop) (Q : outcome (option R) → S → Prop)
    (body : A → M S (option R)) :
  (∀ s, I [] s → Q (Ret None) s) →
  (∀ x l s, I (x :: l) s →
     match body x s with
     | (Ret None, s') => I l s'
     | (o, s') => Q o s'
     end) →
  ∀ l s, I l s → Q (for_ l body s).1 (for_ l body s).2.
Proof.
  intros Hend Hbody l. induction l as [|x l IH]; intros s HI; [by apply Hend|].
  simpl. unfold mbind, M_bind. specialize (Hbody x l s HI).
  destruct (body x s) as [[[r|]|e|] s']; [done| |done|done]. by apply IH.
Qed.

(** ** Running a method step by step *)

Lemma bind_Ret {S A B} (m : M S A) (k : A → M S B) s a s' :
  m s = (Ret a, s') → (m ≫= k) s = k a s'.
Proof. unfold mbind, M_bind. by intros ->. Qed.

Lemma bind_assoc {S A B C} (m : M S A) (f : A → M S B) (g : B → M S C) s :
  ((m ≫= f) ≫= g) s = (m ≫= λ a, f a ≫= g) s.
Proof. unfold mbind, M_bind. by destruct (m s) as [[?|?|] ?]. Qed.
Lemma bind_mret {S A B} (a : A) (k : A → M S B) s : (mret a ≫= k) s = k a s.
Proof. done. Qed.
Lemma bind_gets {S A B} (f : S → A) (k : A → M S B) s : (gets f ≫= k) s = k (f s) s.
Proof. done. Qed.
Lemma bind_modify {S B} (f : S → S) (k : () → M S B) s : (modify f ≫= k) s = k () (f s).
Proof. done. Qed.
Lemma bind_throw {S A B} e (k : A → M S B) s : (throw e ≫= k) s = (Exc e, s).
Proof. done. Qed.
(** Symbolic execution: rewrite the first call of a method by its effect. *)
#[export] Hint Rewrite @bind_assoc @bind_mret @bind_gets @bind_modify @bind_throw : run.

(** Programs on described states: from a state that [x] describes, [m] returns [b]
    in one that [x'] describes. *)
Section Returns.
Context {S X : Type} (R : X → S → Prop).
Definition returns {B} (m : M S B) (x : X) (b : B) (x' : X) : Prop :=
  ∀ s, R x s → ∃ s', m s = (Ret b, s') ∧ R x' s'.
Lemma returns_ret {B} (b : B) x : returns (mret b) x b x.
Proof. intros s Hs. by exists s. Qed.
Lemma returns_bind {A B} (m : M S A) (k : A → M S B) x a x1 b x' :
  returns m x a x1 → returns (k a) x1 b x' → returns (m ≫= k) x b x'.
Proof.
  intros Hm Hk s Hs. destruct (Hm s Hs) as (s1 & E1 & H1). destruct (Hk s1 H1) as (s2 & E2 & H2).
  exists s2. by rewrite (bind_Ret _ _ _ _ _ E1).
Qed.
End Returns.

Lemma loop_rule {S R} (I : S → Prop) (Q : outcome (option R) → S → Prop) (m : S → nat)
    (body : M S (ctl R)) :
  (∀ s, I s →
     match body s with
     | (Ret Continue, s') => I s' ∧ (m s' < m s)%nat
     | (Ret Break, s') => Q (Ret None) s'
     | (Ret (Return r), s') => Q (Ret (Some r)) s'
     | (Exc e, s') => Q (Exc e) s'
     | (NoFuel, s') => Q NoFuel s'
     end) →
  ∀ n s, I s → (m s < n)%nat → Q (loop n body s).1 (loop n body s).2.
Proof.
  intros Hbody n. induction n as [|n IH]; intros s HI Hm; [lia|]. simpl.
  specialize (Hbody s HI). destruct (body s) as [[[| |r]|e|] s']; try done.
  destruct Hbody. apply IH; [done|lia].
Qed.

(** ** Memory: lemmas *)

Lemma mem_put_before p ws m q : q < p → mem_put p ws m !! q = m !! q.
Proof.
  revert p m. induction ws as [|w ws IH]; intros p m Hq; simpl; [done|].
  rewrite IH by lia. by rewrite lookup_insert_ne by lia.
Qed.

Lemma length_mem_get m p n : length (mem_get m p n) = n.
Proof. revert p. induction n; intros p; simpl; auto. Qed.

(** ** Words: lemmas *)

(** Linear arithmetic over words: ranges unfolded, [/] and [mod] eliminated. *)
Ltac words :=
  unfold is_u8, is_u16, is_u32 in *;
  change (2 ^ 8) with 256 in *; change (2 ^ 16) with 65536 in *;
  change (2 ^ 32) with 4294967296 in *;
  Z.div_mod_to_equations; lia.

Lemma below_spec (n : nat) (P : Z → bool) :
  below n P = true → ∀ z, 0 <= z < Z.of_nat n → P z = true.
Proof.
  intros H z Hz. unfold below in H. rewrite forallb_forall in H.
  specialize (H (Z.to_nat z)). rewrite Z2Nat.id in H by lia.
  apply H, in_seq. lia.
Qed.

Lemma u8_mod z : u8 z = z mod 2 ^ 8.
Proof. apply (Z.land_ones z 8). lia. Qed.
Lemma u16_mod z : u16 z = z mod 2 ^ 16.
Proof. apply (Z.land_ones z 16). lia. Qed.
Lemma u32_mod z : u32 z = z mod 2 ^ 32.
Proof. apply (Z.land_ones z 32). lia. Qed.

Lemma u8_range z : is_u8 (u8 z).
Proof. rewrite u8_mod. apply Z.mod_pos_bound. lia. Qed.
Lemma u16_range z : is_u16 (u16 z).
Proof. rewrite u16_mod. apply Z.mod_pos_bound. lia. Qed.
Lemma u32_range z : is_u32 (u32 z).
Proof. rewrite u32_mod. apply Z.mod_pos_bound. lia. Qed.

Lemma u8_id z : is_u8 z → u8 z = z.
Proof. intros. rewrite u8_mod. by apply Z.mod_small. Qed.
Lemma u16_id z : is_u16 z → u16 z = z.
Proof. intros. rewrite u16_mod. by apply Z.mod_small. Qed.
Lemma u32_id z : is_u32 z → u32 z = z.
Proof. intros. rewrite u32_mod. by apply Z.mod_small. Qed.

Lemma lo8_range w : is_u8 (lo8 w).
Proof. apply u8_range. Qed.
Lemma hi8_range w : is_u8 (hi8 w).
Proof. apply u8_range. Qed.

Create HintDb w11.
Lemma mem_get_put_u16 ws p m : mem_get (mem_put p ws m) p (length ws) = map u16 ws.
Proof.
  revert p m. induction ws as [|w ws IH]; intros p m; simpl; [done|].
  by rewrite IH, mem_put_before, lookup_insert_eq by lia.
Qed.
Lemma map_u16_id ws : Forall is_u16 ws → map u16 ws = ws.
Proof. induction 1 as [|w ws Hw _ IH]; simpl; [done|]. by rewrite IH, u16_id. Qed.
Lemma mem_get_put ws p m : Forall is_u16 ws → mem_get (mem_put p ws m) p (length ws) = ws.
Proof. intros Hw. by rewrite mem_get_put_u16, map_u16_id. Qed.
Lemma mem_get_u16 m p n : Forall is_u16 (mem_get m p n).
Proof. revert p. induction n as [|n IH]; intros p; simpl; constructor; [apply u16_range|apply IH]. Qed.

#[export] Hint Resolve u8_range u16_range u32_range lo8_range hi8_range : w11.

Lemma testbit_high z n i : 0 <= z < 2 ^ n → n <= i → Z.testbit z i = false.
Proof.
  intros Hz Hi. destruct (decide (n < 0)) as [?|?].
  { rewrite Z.pow_neg_r in Hz by lia. lia. }
  rewrite <- (Z.mod_small z (2 ^ n)) by done.
  apply Z.mod_pow2_bits_high. lia.
Qed.

Lemma word_of_add l h : is_u8 l → word_of l h = l + 2 ^ 8 * h.
Proof.
  intros Hl. unfold word_of. rewrite Z.shiftl_mul_pow2 by lia.
  rewrite (Z.mul_comm h). rewrite <- Z.add_nocarry_lor; [done|].
  apply Z.bits_inj'. intros i Hi. rewrite Z.land_spec, Z.bits_0, (Z.mul_comm (2 ^ 8)).
  destruct (decide (i < 8)).
  - rewrite Z.mul_pow2_bits_low by lia. apply andb_false_r.
  - by rewrite (testbit_high l 8) by (auto; lia).
Qed.

Lemma lo8_mod w : lo8 w = w mod 2 ^ 8.
Proof. apply u8_mod. Qed.
Lemma hi8_div w : hi8 w = (w / 2 ^ 8) mod 2 ^ 8.
Proof. unfold hi8. by rewrite (Z.land_ones _ 8), Z.shiftr_div_pow2 by lia. Qed.

(** Two bytes make a 16 bit word and come back. *)
Lemma word_of_lo_hi w : is_u16 w → word_of (lo8 w) (hi8 w) = w.
Proof.
  intros Hw. rewrite word_of_add by auto with w11.
  rewrite lo8_mod, hi8_div. words.
Qed.

Lemma lo8_word_of l h : is_u8 l → lo8 (word_of l h) = l.
Proof.
  intros. rewrite word_of_add, lo8_mod by done. words.
Qed.

Lemma hi8_word_of l h : is_u8 l → is_u8 h → hi8 (word_of l h) = h.
Proof.
  intros Hl Hh. rewrite word_of_add, hi8_div by done. words.
Qed.

Lemma word_of_range l h : is_u8 l → is_u8 h → is_u16 (word_of l h).
Proof.
  intros Hl Hh. rewrite word_of_add by done. words.
Qed.
#[export] Hint Resolve word_of_range : w11.

Lemma pair_ind (P : list Z → Prop) :
  P [] → (∀ b, P [b]) → (∀ b1 b2 bs, P bs → P (b1 :: b2 :: bs)) → ∀ bs, P bs.
Proof.
  intros H0 H1 H2. fix go 1. intros [|b1 [|b2 bs]]; [exact H0|exact (H1 b1)|].
  exact (H2 b1 b2 bs (go bs)).
Qed.
Lemma pair_words_u16 bs : Forall is_u8 bs → Forall is_u16 (pair_words bs).
Proof.
  induction bs as [| |b1 b2 bs IH] using pair_ind; intros H; simpl; try constructor.
  - apply Forall_cons_iff in H as [H1 H]. apply Forall_cons_iff in H as [H2 H]. auto with w11.
  - apply Forall_cons_iff in H as [H1 H]. apply Forall_cons_iff in H as [H2 H]. auto.
Qed.
Lemma pair_words_words_bytes ws : Forall is_u16 ws → pair_words (words_bytes ws) = ws.
Proof.
  induction 1 as [|w ws Hw _ IH]; [done|]. unfold words_bytes in *. simpl.
  by rewrite IH, word_of_lo_hi.
Qed.
Lemma words_bytes_pair_words bs :
  Forall is_u8 bs → Nat.even (length bs) = true → words_bytes (pair_words bs) = bs.
Proof.
  induction bs as [|b|b1 b2 bs IH] using pair_ind; intros H He; [done|done|].
  apply Forall_cons_iff in H as [H1 H]. apply Forall_cons_iff in H as [H2 H].
  simpl pair_words. unfold words_bytes in *. simpl. rewrite IH, lo8_word_of, hi8_word_of by done. done.
Qed.
Lemma length_pair_words bs : Nat.even (length bs) = true → (2 * length (pair_words bs) = length bs)%nat.
Proof. induction bs as [|b|b1 b2 bs IH] using pair_ind; simpl; intros He; try done. specialize (IH He). lia. Qed.
Lemma length_words_bytes ws : length (words_bytes ws) = (2 * length ws)%nat.
Proof. unfold words_bytes. induction ws; simpl; lia. Qed.
Lemma words_bytes_u8 ws : Forall is_u8 (words_bytes ws).
Proof.
  unfold words_bytes. apply Forall_concat, Forall_map, Forall_forall.
  intros w _. repeat constructor; auto with w11; apply u8_range.
Qed.
