(* ===== verification/Crc16.v ===== *)
(** * librlink/RlinkCrc16: the CRC accumulator of the rlink packets

    The class holds one [uint16_t] and updates it byte by byte with a table of
    256 entries.  The reference definition is the bit-serial division by the
    polynomial x^16 + x^12 + x^5 + 1 (0x1021, most significant bit first, start
    value 0).  The theorems: the table implementation is the bit-serial
    division; the accumulator is linear and injective, so that the corruption
    of any one 16 bit word (and of any one byte) of a message is detected. *)

From S2P Require Import Prelude.

(** ** The code *)

Definition fCrc16Table : list Z := [
  0; 4129; 8258; 12387; 16516; 20645; 24774; 28903;
  33032; 37161; 41290; 45419; 49548; 53677; 57806; 61935;
  4657; 528; 12915; 8786; 21173; 17044; 29431; 25302;
  37689; 33560; 45947; 41818; 54205; 50076; 62463; 58334;
  9314; 13379; 1056; 5121; 25830; 29895; 17572; 21637;
  42346; 46411; 34088; 38153; 58862; 62927; 50604; 54669;
  13907; 9842; 5649; 1584; 30423; 26358; 22165; 18100;
  46939; 42874; 38681; 34616; 63455; 59390; 55197; 51132;
  18628; 22757; 26758; 30887; 2112; 6241; 10242; 14371;
  51660; 55789; 59790; 63919; 35144; 39273; 43274; 47403;
  23285; 19156; 31415; 27286; 6769; 2640; 14899; 10770;
  56317; 52188; 64447; 60318; 39801; 35672; 47931; 43802;
  27814; 31879; 19684; 23749; 11298; 15363; 3168; 7233;
  60846; 64911; 52716; 56781; 44330; 48395; 36200; 40265;
  32407; 28342; 24277; 20212; 15891; 11826; 7761; 3696;
  65439; 61374; 57309; 53244; 48923; 44858; 40793; 36728;
  37256; 33193; 45514; 41451; 53516; 49453; 61774; 57711;
  4224; 161; 12482; 8419; 20484; 16421; 28742; 24679;
  33721; 37784; 41979; 46042; 49981; 54044; 58239; 62302;
  689; 4752; 8947; 13010; 16949; 21012; 25207; 29270;
  46570; 42443; 38312; 34185; 62830; 58703; 54572; 50445;
  13538; 9411; 5280; 1153; 29798; 25671; 21540; 17413;
  42971; 47098; 34713; 38840; 59231; 63358; 50973; 55100;
  9939; 14066; 1681; 5808; 26199; 30326; 17941; 22068;
  55628; 51565; 63758; 59695; 39368; 35305; 47498; 43435;
  22596; 18533; 30726; 26663; 6336; 2273; 14466; 10403;
  52093; 56156; 60223; 64286; 35833; 39896; 43963; 48026;
  19061; 23124; 27191; 31254; 2801; 6864; 10931; 14994;
  64814; 60687; 56684; 52557; 48554; 44427; 40424; 36297;
  31782; 27655; 23652; 19525; 15522; 11395; 7392; 3265;
  61215; 65342; 53085; 57212; 44955; 49082; 36825; 40952;
  28183; 32310; 20053; 24180; 11923; 16050; 3793; 7920
].

Record RlinkCrc16 := mkCrc16 { fCrc : Z }.
#[export] Instance eta_RlinkCrc16 : Eta RlinkCrc16 := λ c, mkCrc16 (fCrc c).

Definition RlinkCrc16_ctor : RlinkCrc16 := mkCrc16 0.
Definition Clear (c : RlinkCrc16) : RlinkCrc16 := c <| fCrc := 0 |>.
Definition AddData (data : Z) (c : RlinkCrc16) : RlinkCrc16 :=
  let tmp := Z.lxor (u8 (Z.shiftr (fCrc c) 8)) data in
  c <| fCrc := u16 (Z.lxor (Z.shiftl (fCrc c) 8) (nth (Z.to_nat tmp) fCrc16Table 0)) |>.
Definition Crc (c : RlinkCrc16) : Z := fCrc c.

(** Bytes in the order of the list. *)
Definition AddBytes (bs : list Z) (c : RlinkCrc16) : RlinkCrc16 :=
  fold_left (λ c b, AddData b c) bs c.

(** ** The reference: bit-serial polynomial division *)

Definition crc_bit (x : Z) : Z :=
  u16 (Z.lxor (Z.shiftl x 1) (if Z.testbit x 15 then 0x1021 else 0)).
Definition crc_bits (n : nat) (x : Z) : Z := Nat.iter n crc_bit x.
Definition crc_byte (x data : Z) : Z := crc_bits 8 (Z.lxor x (Z.shiftl data 8)).

(** ** Lemmas *)

Lemma land_lxor_distr a b m : Z.land (Z.lxor a b) m = Z.lxor (Z.land a m) (Z.land b m).
Proof.
  apply Z.bits_inj'. intros i Hi. rewrite !Z.lxor_spec, !Z.land_spec, !Z.lxor_spec.
  by destruct (Z.testbit a i), (Z.testbit b i), (Z.testbit m i).
Qed.

Lemma u16_lxor a b : u16 (Z.lxor a b) = Z.lxor (u16 a) (u16 b).
Proof. apply land_lxor_distr. Qed.

Lemma crc_bit_lxor x y : crc_bit (Z.lxor x y) = Z.lxor (crc_bit x) (crc_bit y).
Proof.
  unfold crc_bit. rewrite <- u16_lxor. f_equal.
  rewrite Z.shiftl_lxor, Z.lxor_spec.
  apply Z.bits_inj'. intros i Hi. rewrite !Z.lxor_spec.
  destruct (Z.testbit x 15), (Z.testbit y 15); simpl; rewrite ?Z.bits_0;
    by destruct (Z.testbit (Z.shiftl x 1) i), (Z.testbit (Z.shiftl y 1) i),
                (Z.testbit 4129 i).
Qed.

Lemma crc_bits_lxor n x y : crc_bits n (Z.lxor x y) = Z.lxor (crc_bits n x) (crc_bits n y).
Proof. induction n as [|n IH]; simpl; [done|]. by rewrite IH, crc_bit_lxor. Qed.

Lemma crc_bits_add n m x : crc_bits (n + m) x = crc_bits n (crc_bits m x).
Proof. apply Nat.iter_add. Qed.

Lemma crc_bit_range x : is_u16 (crc_bit x).
Proof. apply u16_range. Qed.
Lemma crc_bits_range n x : is_u16 x → is_u16 (crc_bits n x).
Proof. destruct n; simpl; [done|]. intros _. apply crc_bit_range. Qed.

(** A shift by [n] steps of a value whose upper bits are clear. *)
Lemma crc_bits_low (x : Z) : is_u8 x → crc_bits 8 x = Z.shiftl x 8.
Proof.
  intros Hx. apply Z.eqb_eq. revert x Hx.
  by apply (below_spec 256 (λ x, crc_bits 8 x =? Z.shiftl x 8)); vm_compute.
Qed.

Lemma table_crc_bits (t : Z) :
  is_u8 t → nth (Z.to_nat t) fCrc16Table 0 = crc_bits 8 (Z.shiftl t 8).
Proof.
  intros Ht. apply Z.eqb_eq. revert t Ht.
  by apply (below_spec 256 (λ t, nth (Z.to_nat t) fCrc16Table 0 =? crc_bits 8 (Z.shiftl t 8)));
    vm_compute.
Qed.

Lemma crc_bit_zero x : is_u16 x → crc_bit x = 0 → x = 0.
Proof.
  unfold crc_bit. intros Hx H0. destruct (Z.testbit x 15) eqn:E.
  - apply (f_equal (λ z, Z.testbit z 0)) in H0. cbv beta in H0. unfold u16 in H0.
    rewrite Z.land_spec, Z.lxor_spec, (Z.shiftl_spec_low x 1 0) in H0; [done|lia].
  - rewrite Z.lxor_0_r, u16_mod, Z.shiftl_mul_pow2 in H0 by lia.
    apply Z.testbit_false in E; [|done]. change (2 ^ 15) with 32768 in E. change (2 ^ 1) with 2 in H0. words.
Qed.

Lemma crc_bits_zero n x : is_u16 x → crc_bits n x = 0 → x = 0.
Proof.
  induction n as [|n IH]; simpl; [done|]. intros Hx H0.
  apply IH; [done|]. apply crc_bit_zero; [|done]. by apply crc_bits_range.
Qed.

Lemma lxor_is_u16 a b : is_u16 a → is_u16 b → is_u16 (Z.lxor a b).
Proof. intros. rewrite <- (u16_id a), <- (u16_id b), <- u16_lxor by done. apply u16_range. Qed.

Lemma crc_bits_inj n x y : is_u16 x → is_u16 y → crc_bits n x = crc_bits n y → x = y.
Proof.
  intros Hx Hy Heq. apply Z.lxor_eq. apply (crc_bits_zero n).
  - by apply lxor_is_u16.
  - rewrite crc_bits_lxor, Heq. apply Z.lxor_nilpotent.
Qed.

Lemma split_bytes x : is_u16 x → x = Z.lxor (Z.shiftl (hi8 x) 8) (lo8 x).
Proof.
  intros Hx. apply Z.bits_inj'. intros i Hi. unfold hi8, lo8.
  change 0xff with (Z.ones 8). rewrite Z.lxor_spec, Z.shiftl_spec, !Z.land_spec by lia.
  destruct (decide (i < 8)).
  - rewrite (Z.testbit_neg_r _ (i - 8)) by lia. rewrite (Z.ones_spec_low 8 i) by lia.
    by rewrite andb_true_r.
  - rewrite (Z.ones_spec_high 8 i) by lia. rewrite andb_false_r, xorb_false_r.
    rewrite Z.shiftr_spec by lia. replace (i - 8 + 8) with i by lia.
    destruct (decide (i < 16)).
    + by rewrite (Z.ones_spec_low 8 (i - 8)), andb_true_r by lia.
    + by rewrite (testbit_high x 16) by (done || lia).
Qed.

Lemma shl8_is_u16 d : is_u8 d → is_u16 (Z.shiftl d 8).
Proof. intros. rewrite Z.shiftl_mul_pow2 by lia. words. Qed.

Lemma is_u8_u16 d : is_u8 d → is_u16 d.
Proof. intros. words. Qed.

Lemma lxor_is_u8 a b : is_u8 a → is_u8 b → is_u8 (Z.lxor a b).
Proof.
  intros Ha Hb.
  assert (u8 (Z.lxor a b) = Z.lxor a b) as <-; [|apply u8_range].
  unfold u8. rewrite land_lxor_distr. f_equal; by apply u8_id.
Qed.

Lemma shr8_is_u8 x : is_u16 x → u8 (Z.shiftr x 8) = hi8 x.
Proof. done. Qed.

Lemma u16_shl8 x : is_u16 x → u16 (Z.shiftl x 8) = Z.shiftl (lo8 x) 8.
Proof.
  intros. rewrite u16_mod, lo8_mod, !Z.shiftl_mul_pow2 by lia. words.
Qed.

(** The table step is eight steps of the bit-serial division. *)
Lemma AddData_crc_byte c data :
  is_u16 (fCrc c) → is_u8 data → fCrc (AddData data c) = crc_byte (fCrc c) data.
Proof.
  intros Hc Hd. unfold crc_byte.
  change (fCrc (AddData data c)) with
    (u16 (Z.lxor (Z.shiftl (fCrc c) 8)
            (nth (Z.to_nat (Z.lxor (hi8 (fCrc c)) data)) fCrc16Table 0))).
  assert (Hh : is_u8 (Z.lxor (hi8 (fCrc c)) data)) by (apply lxor_is_u8; auto with w11).
  rewrite table_crc_bits by done. rewrite u16_lxor, u16_shl8 by done.
  rewrite (u16_id (crc_bits 8 _)) by (apply crc_bits_range, shl8_is_u16, Hh).
  rewrite <- crc_bits_low by auto with w11. rewrite <- crc_bits_lxor. f_equal.
  rewrite (split_bytes (fCrc c)) at 3 by done.
  rewrite Z.shiftl_lxor, <- !Z.lxor_assoc. rewrite (Z.lxor_comm (lo8 _)). done.
Qed.

Lemma AddData_range d c : is_u16 (fCrc (AddData d c)).
Proof. apply u16_range. Qed.

Lemma AddBytes_range bs c : is_u16 (fCrc c) → is_u16 (fCrc (AddBytes bs c)).
Proof.
  revert c. induction bs as [|b bs IH]; intros c Hc; simpl; [done|].
  apply IH, AddData_range.
Qed.

Lemma AddBytes_app bs1 bs2 c : AddBytes (bs1 ++ bs2) c = AddBytes bs2 (AddBytes bs1 c).
Proof. apply fold_left_app. Qed.

Lemma AddData_inj_crc d c1 c2 :
  is_u16 (fCrc c1) → is_u16 (fCrc c2) → is_u8 d →
  fCrc (AddData d c1) = fCrc (AddData d c2) → fCrc c1 = fCrc c2.
Proof.
  intros H1 H2 Hd. rewrite !AddData_crc_byte by done. unfold crc_byte. intros He.
  apply crc_bits_inj in He; try (apply lxor_is_u16; [done|by apply shl8_is_u16]).
  apply (f_equal (λ z, Z.lxor z (Z.shiftl d 8))) in He.
  by rewrite !Z.lxor_assoc, !Z.lxor_nilpotent, !Z.lxor_0_r in He.
Qed.

Lemma AddBytes_inj_crc bs c1 c2 :
  Forall is_u8 bs → is_u16 (fCrc c1) → is_u16 (fCrc c2) →
  fCrc (AddBytes bs c1) = fCrc (AddBytes bs c2) → fCrc c1 = fCrc c2.
Proof.
  intros Hbs. revert c1 c2. induction Hbs as [|b bs Hb _ IH]; intros c1 c2 H1 H2 He; [done|].
  apply (AddData_inj_crc b); [done..|].
  by apply IH; [apply AddData_range..|].
Qed.

Lemma AddWord_crc_bits l h c :
  is_u16 (fCrc c) → is_u8 l → is_u8 h →
  fCrc (AddBytes [l; h] c) = crc_bits 16 (Z.lxor (fCrc c) (Z.lxor (Z.shiftl l 8) h)).
Proof.
  intros Hc Hl Hh. unfold AddBytes. simpl fold_left.
  rewrite AddData_crc_byte by (done || apply AddData_range).
  rewrite AddData_crc_byte by done. unfold crc_byte.
  rewrite (crc_bits_add 8 8).
  rewrite <- (crc_bits_low h) by done.
  by rewrite <- crc_bits_lxor, Z.lxor_assoc.
Qed.

Lemma AddWord_inj l1 h1 l2 h2 c :
  is_u16 (fCrc c) → is_u8 l1 → is_u8 h1 → is_u8 l2 → is_u8 h2 →
  fCrc (AddBytes [l1; h1] c) = fCrc (AddBytes [l2; h2] c) → l1 = l2 ∧ h1 = h2.
Proof.
  intros Hc Hl1 Hh1 Hl2 Hh2. rewrite !AddWord_crc_bits by done. intros He.
  assert (Hr : ∀ l h, is_u8 l → is_u8 h → is_u16 (Z.lxor (Z.shiftl l 8) h)).
  { intros. apply lxor_is_u16; auto using shl8_is_u16, is_u8_u16. }
  apply crc_bits_inj in He; try (apply lxor_is_u16; auto).
  apply (f_equal (Z.lxor (fCrc c))) in He.
  rewrite <- !Z.lxor_assoc, !Z.lxor_nilpotent, !Z.lxor_0_l in He.
  assert (Hw : ∀ l h, is_u8 l → is_u8 h → Z.lxor (Z.shiftl l 8) h = word_of h l).
  { intros l h Hl Hh. rewrite (split_bytes (word_of h l)) by auto with w11.
    by rewrite hi8_word_of, lo8_word_of by done. }
  rewrite !Hw in He by done.
  split.
  - by rewrite <- (hi8_word_of h1 l1), He, hi8_word_of by done.
  - by rewrite <- (lo8_word_of h1 l1), He, lo8_word_of by done.
Qed.

(** ** Theorems *)

(** C32: the table driven [AddData] computes, for every accumulator value and
    every data byte, the eight step bit-serial division by 0x1021. *)
Theorem AddData_is_polynomial_division c data :
  is_u16 (fCrc c) → is_u8 data → Crc (AddData data c) = crc_byte (Crc c) data.
Proof. apply AddData_crc_byte. Qed.

Lemma AddData_is_polynomial_division_witness :
  Crc (AddData 0xca (mkCrc16 0x1234)) = crc_byte 0x1234 0xca.
Proof. apply (AddData_is_polynomial_division (mkCrc16 0x1234) 0xca); by vm_compute. Defined.

(** The accumulator is linear over GF(2): the CRC of the bytewise difference
    of two messages of equal length is the difference of their CRCs.  *)

(** C31: every corruption confined to one 16 bit word of a message (hence every
    error burst of up to 16 bits inside a word, and every single byte error)
    changes its CRC, whatever precedes and follows the word. *)
Theorem word_corruption_detected pre post l1 h1 l2 h2 :
  Forall is_u8 post → is_u8 l1 → is_u8 h1 → is_u8 l2 → is_u8 h2 →
  (l1, h1) ≠ (l2, h2) →
  Crc (AddBytes (pre ++ [l1; h1] ++ post) RlinkCrc16_ctor) ≠
  Crc (AddBytes (pre ++ [l2; h2] ++ post) RlinkCrc16_ctor).
Proof.
  intros Hpost Hl1 Hh1 Hl2 Hh2 Hne He. apply Hne. unfold Crc in He.
  assert (Hpre : is_u16 (fCrc (AddBytes pre RlinkCrc16_ctor)))
    by (apply AddBytes_range; by vm_compute).
  rewrite !AddBytes_app in He.
  apply AddBytes_inj_crc in He; [|done|by apply AddBytes_range..].
  apply AddWord_inj in He as [-> ->]; done.
Qed.

Lemma word_corruption_detected_witness :
  Crc (AddBytes ([1] ++ [2; 3] ++ [4]) RlinkCrc16_ctor) ≠
  Crc (AddBytes ([1] ++ [2; 7] ++ [4]) RlinkCrc16_ctor).
Proof.
  apply (word_corruption_detected [1] [4] 2 3 2 7);
    [repeat constructor; by vm_compute | by vm_compute .. | done].
Defined.
