(* ===== verification/Rtime.v ===== *)
(** * librtools/Rtime: time stamps and time differences

    A [struct timespec] kept in the normal form [0 <= tv_nsec < 10^9].  The
    abstract value of a time is its number of nanoseconds [ns]; the theorems
    say that the operators preserve the normal form and are addition,
    subtraction and comparison of that value.  [time_t] and [long] are 64 bit
    integers, modelled without overflow (the rlink times stay below 2^40 s);
    the conversion to [int] of [ToMSec] wraps.  The conversions from and to
    [double], clock access and printing are not modelled. *)

From S2P Require Import Prelude.

Record Rtime := mkRtime { tv_sec : Z; tv_nsec : Z }.
#[export] Instance eta_Rtime : Eta Rtime := λ t, mkRtime (tv_sec t) (tv_nsec t).
#[export] Instance Rtime_eq_dec : EqDecision Rtime.
Proof. solve_decision. Defined.

Definition Rtime_ctor : Rtime := mkRtime 0 0.

(** [SetNSec] throws on a value outside [0, 999999999]. *)
Definition SetNSec (nsec : Z) : M Rtime () :=
  throw_if ((nsec <? 0) || (999999999 <? nsec))
    "Rtime::SetNSec()" "bad args: <0 or >999999999 " ;;
  modify (λ t, t <| tv_nsec := nsec |>).
Definition SetSec (sec : Z) (t : Rtime) : Rtime := t <| tv_sec := sec |>.
Definition Clear (t : Rtime) : Rtime := t <| tv_sec := 0 |> <| tv_nsec := 0 |>.

Definition IsZero (t : Rtime) : bool := (tv_sec t =? 0) && (tv_nsec t =? 0).
Definition IsPositive (t : Rtime) : bool :=
  (0 <? tv_sec t) || ((tv_sec t =? 0) && (0 <? tv_nsec t)).
Definition IsNegative (t : Rtime) : bool := tv_sec t <? 0.

(** Conversion to a 32 bit [int]. *)
Definition int32 (z : Z) : Z := (z + 2 ^ 31) mod 2 ^ 32 - 2 ^ 31.
(** C++ division of integers truncates. *)
Definition ToMSec (t : Rtime) : Z :=
  int32 (1000 * tv_sec t + Z.quot (tv_nsec t + 999999) 1000000).

Definition Fixup (t : Rtime) : Rtime :=
  if 1000000000 <=? tv_nsec t then
    t <| tv_nsec ::= (λ n, n - 1000000000) |> <| tv_sec ::= Z.add 1 |>
  else if tv_nsec t <? 0 then
    t <| tv_nsec ::= Z.add 1000000000 |> <| tv_sec ::= (λ s, s - 1) |>
  else t.

Definition op_pluseq (t rhs : Rtime) : Rtime :=
  Fixup (t <| tv_sec ::= Z.add (tv_sec rhs) |> <| tv_nsec ::= Z.add (tv_nsec rhs) |>).
Definition op_minuseq (t rhs : Rtime) : Rtime :=
  Fixup (t <| tv_sec ::= (λ s, s - tv_sec rhs) |> <| tv_nsec ::= (λ n, n - tv_nsec rhs) |>).
Definition op_plus (x y : Rtime) : Rtime := op_pluseq x y.
Definition op_minus (x y : Rtime) : Rtime := op_minuseq x y.

Definition op_eq (t rhs : Rtime) : bool :=
  (tv_sec t =? tv_sec rhs) && (tv_nsec t =? tv_nsec rhs).
Definition op_lt (t rhs : Rtime) : bool :=
  (tv_sec t <? tv_sec rhs) || ((tv_sec t =? tv_sec rhs) && (tv_nsec t <? tv_nsec rhs)).
Definition op_le (t rhs : Rtime) : bool :=
  (tv_sec t <? tv_sec rhs) || ((tv_sec t =? tv_sec rhs) && (tv_nsec t <=? tv_nsec rhs)).

(** ** Abstraction: nanoseconds, and the normal form *)

Definition ns (t : Rtime) : Z := 1000000000 * tv_sec t + tv_nsec t.
Definition Normal (t : Rtime) : Prop := 0 <= tv_nsec t < 1000000000.

Lemma Fixup_spec t :
  -1000000000 <= tv_nsec t < 2000000000 → Normal (Fixup t) ∧ ns (Fixup t) = ns t.
Proof.
  unfold Fixup, Normal, ns. intros Ht.
  destruct (1000000000 <=? tv_nsec t) eqn:E; [apply Z.leb_le in E; simpl; lia|].
  apply Z.leb_gt in E.
  destruct (tv_nsec t <? 0) eqn:E2; [apply Z.ltb_lt in E2; simpl; lia|].
  apply Z.ltb_ge in E2. lia.
Qed.

Lemma op_plus_spec x y :
  Normal x → Normal y → Normal (op_plus x y) ∧ ns (op_plus x y) = ns x + ns y.
Proof.
  unfold Normal. intros Hx Hy. destruct (Fixup_spec
    (x <| tv_sec ::= Z.add (tv_sec y) |> <| tv_nsec ::= Z.add (tv_nsec y) |>)) as [HN Hns].
  { simpl. lia. }
  split; [exact HN|]. unfold op_plus, op_pluseq. rewrite Hns. unfold ns. simpl. lia.
Qed.

Lemma op_minus_spec x y :
  Normal x → Normal y → Normal (op_minus x y) ∧ ns (op_minus x y) = ns x - ns y.
Proof.
  unfold Normal. intros Hx Hy. destruct (Fixup_spec
    (x <| tv_sec ::= (λ s, s - tv_sec y) |> <| tv_nsec ::= (λ n, n - tv_nsec y) |>))
    as [HN Hns].
  { simpl. lia. }
  split; [exact HN|]. unfold op_minus, op_minuseq. rewrite Hns. unfold ns. simpl. lia.
Qed.

Ltac bool_cases :=
  repeat match goal with
  | |- context [?a <? ?b] => destruct (Z.ltb_spec a b)
  | |- context [?a <=? ?b] => destruct (Z.leb_spec a b)
  | |- context [?a =? ?b] => destruct (Z.eqb_spec a b)
  end; simpl; try reflexivity; try lia.

Lemma op_lt_spec x y : Normal x → Normal y → op_lt x y = (ns x <? ns y).
Proof. unfold Normal, op_lt, ns. intros. bool_cases. Qed.

Lemma op_le_spec x y : Normal x → Normal y → op_le x y = (ns x <=? ns y).
Proof. unfold Normal, op_le, ns. intros. bool_cases. Qed.

Lemma IsPositive_spec t : Normal t → IsPositive t = (0 <? ns t).
Proof. unfold Normal, IsPositive, ns. intros. bool_cases. Qed.

Lemma IsZero_spec t : Normal t → IsZero t = (ns t =? 0).
Proof. unfold Normal, IsZero, ns. intros. bool_cases. Qed.

(** ** Theorems *)

(** [Rtime] arithmetic is arithmetic of nanoseconds: on normal times the sum
    and the difference are normal, their values are the sum and the difference
    of the values, and [<], [<=], [IsPositive], [IsZero] compare the values. *)
Theorem Rtime_refines_nanoseconds x y :
  Normal x → Normal y →
  Normal (op_plus x y) ∧ ns (op_plus x y) = ns x + ns y ∧
  Normal (op_minus x y) ∧ ns (op_minus x y) = ns x - ns y ∧
  op_lt x y = (ns x <? ns y) ∧ op_le x y = (ns x <=? ns y) ∧
  IsPositive x = (0 <? ns x) ∧ IsZero x = (ns x =? 0) ∧ (ns x = ns y → x = y).
Proof.
  intros Hx Hy. destruct (op_plus_spec x y) as [? ?], (op_minus_spec x y) as [? ?]; [done..|].
  do 4 (split; [done|]).
  split; [by apply op_lt_spec|]. split; [by apply op_le_spec|].
  split; [by apply IsPositive_spec|]. split; [by apply IsZero_spec|].
  unfold ns, Normal in *. destruct x, y; simpl in *. intros. f_equal; lia.
Qed.

Lemma Rtime_refines_nanoseconds_witness :
  ns (op_minus (mkRtime 5 100) (mkRtime 3 200)) = 1999999900.
Proof.
  destruct (Rtime_refines_nanoseconds (mkRtime 5 100) (mkRtime 3 200)) as (_ & _ & _ & H & _);
    [unfold Normal; simpl; lia..|]. exact H.
Defined.

(** [ToMSec] rounds up: for a non-negative time below 2^31 ms it is the least
    number of milliseconds that is not shorter than the time, so a poll with
    that timeout never returns before the requested time. *)
Theorem ToMSec_rounds_up t :
  Normal t → 0 <= tv_sec t < 2000000 →
  1000000 * (ToMSec t - 1) < ns t <= 1000000 * ToMSec t.
Proof.
  unfold Normal, ToMSec, ns, int32. intros Hn Hs.
  rewrite Z.quot_div_nonneg by lia.
  rewrite Z.mod_small; change (2 ^ 31) with 2147483648; change (2 ^ 32) with 4294967296;
    Z.div_mod_to_equations; lia.
Qed.

Lemma ToMSec_rounds_up_witness :
  1000000 * (ToMSec (mkRtime 1 1) - 1) < ns (mkRtime 1 1) <= 1000000 * ToMSec (mkRtime 1 1).
Proof. apply (ToMSec_rounds_up (mkRtime 1 1)); unfold Normal; simpl; lia. Defined.
