(* ===== verification/Rstats.v ===== *)
(** * librtools/Rstats: named statistics counters

    A vector of counters with name and text, and a hash over all names and
    texts which decides whether two sets are assignable.  The counters are
    [double] in the code and only ever receive integral values; they are
    modelled by [Z] (exact up to 2^53).  Formatting (Print, Dump) and the
    number formats it uses are not modelled. *)

From S2P Require Import Prelude.

Record Rstats := mkRstats {
  fValue : list Z;
  fName  : list string;
  fText  : list string;
  fHash  : Z }.
#[export] Instance eta_Rstats : Eta Rstats :=
  λ s, mkRstats (fValue s) (fName s) (fText s) (fHash s).

Definition Rstats_ctor : Rstats := mkRstats [] [] [] 0.
Definition Size (s : Rstats) : nat := length (fValue s).

(** [uint32_t(c)] of a [char]; names and texts are 7 bit ASCII. *)
Definition char_code (c : Ascii.ascii) : Z := Z.of_N (Ascii.N_of_ascii c).
Fixpoint hash_string (h : Z) (str : string) : Z :=
  match str with
  | EmptyString => h
  | String c r => hash_string (u32 (69069 * h + char_code c)) r
  end.

(** [std::vector::resize] with default fill. *)
Definition vec_resize {A} (n : nat) (d : A) (l : list A) : list A :=
  take n l ++ replicate (n - length l) d.

Definition Define (ind : nat) (name text : string) (s : Rstats) : Rstats :=
  let s := s <| fHash ::= λ h, hash_string h name |> in
  let s := s <| fHash ::= λ h, hash_string h text |> in
  if (ind =? Size s)%nat then
    s <| fValue ::= λ l, l ++ [0] |> <| fName ::= λ l, l ++ [name] |>
      <| fText ::= λ l, l ++ [text] |>
  else
    let s := if (Size s <=? ind)%nat then
        s <| fValue ::= vec_resize (ind + 1) 0 |>
          <| fName ::= vec_resize (ind + 1) EmptyString |>
          <| fText ::= vec_resize (ind + 1) EmptyString |>
      else s in
    s <| fValue ::= λ l, <[ind := 0]> l |> <| fName ::= λ l, <[ind := name]> l |>
      <| fText ::= λ l, <[ind := text]> l |>.

(** The [Define] calls of a constructor: consecutive indices from 0. *)
Definition Define_all (tab : list (string * string)) : Rstats :=
  fold_left (λ s nt, Define (Size s) nt.1 nt.2 s) tab Rstats_ctor.

Definition Reset (s : Rstats) : Rstats := s <| fValue ::= map (λ _, 0) |>.

(** [fValue.at(ind) += val] throws on an undefined counter. *)
Definition Inc (ind : nat) (val : Z) : M Rstats () := λ s,
  if (ind <? Size s)%nat then (Ret (), s <| fValue ::= alter (Z.add val) ind |>)
  else (Exc out_of_range, s).
(** The same on a defined counter. *)
Definition inc (ind : nat) (val : Z) (s : Rstats) : Rstats :=
  s <| fValue ::= alter (Z.add val) ind |>.
Definition Set_ (ind : nat) (val : Z) : M Rstats () := λ s,
  if (ind <? Size s)%nat then (Ret (), s <| fValue ::= λ l, <[ind := val]> l |>)
  else (Exc out_of_range, s).
Definition Value (ind : nat) : M Rstats Z := λ s,
  match fValue s !! ind with Some v => (Ret v, s) | None => (Exc out_of_range, s) end.

(** Logarithmic histogram: the loop runs over the counters from [ind] up. *)
Fixpoint IncLogHist_loop (n ind : nat) (mask masklast val : Z) (s : Rstats) : Rstats :=
  match n with
  | O => s
  | S n' =>
      if (ind <? Size s)%nat then
        if (val <=? mask) || (masklast <=? mask) then inc ind 1 s
        else IncLogHist_loop n' (ind + 1) (Z.lor (Z.shiftl mask 1) 1) masklast val s
      else s
  end.
Definition IncLogHist (ind : nat) (maskfirst masklast val : Z) (s : Rstats) : Rstats :=
  if val =? 0 then s else IncLogHist_loop (Size s - ind) ind maskfirst masklast val s.

(** Assignment: a full copy into a fresh object, otherwise only the values,
    and only between sets with equal size and hash. *)
Definition op_assign (rhs : Rstats) : M Rstats () := λ s,
  if (Size s =? 0)%nat then
    (Ret (), s <| fValue := fValue rhs |> <| fName := fName rhs |> <| fText := fText rhs |>
               <| fHash := fHash rhs |>)
  else if negb (Size s =? Size rhs)%nat || negb (fHash s =? fHash rhs) then
    (Exc (Rexception "Rstats::oper=()" "Bad args: assign incompatible stats"), s)
  else (Ret (), s <| fValue := fValue rhs |>).

(** ** Lemmas *)

Lemma Inc_inc ind val s : (ind < Size s)%nat → Inc ind val s = (Ret (), inc ind val s).
Proof. intros H. unfold Inc. apply Nat.ltb_lt in H. by rewrite H. Qed.

Lemma Size_inc ind val s : Size (inc ind val s) = Size s.
Proof. unfold Size, inc. simpl. apply length_alter. Qed.

Lemma value_inc_eq ind val s v :
  fValue s !! ind = Some v → fValue (inc ind val s) !! ind = Some (val + v).
Proof. intros H. simpl. by rewrite list_lookup_alter_eq, H. Qed.

Lemma value_inc_ne ind ind' val s : ind ≠ ind' → fValue (inc ind val s) !! ind' = fValue s !! ind'.
Proof. intros H. simpl. by rewrite list_lookup_alter_ne. Qed.

Lemma inc_inc ind v1 v2 s : inc ind v1 (inc ind v2 s) = inc ind (v1 + v2) s.
Proof.
  unfold inc. simpl. f_equal. apply list_eq. intros j. rewrite !list_lookup_alter.
  case_decide; [|done]. rewrite decide_True by done.
  destruct (fValue s !! ind); simpl; [f_equal; lia|done].
Qed.

Lemma inc_comm i j v1 v2 s : inc i v1 (inc j v2 s) = inc j v2 (inc i v1 s).
Proof.
  destruct (decide (i = j)) as [->|Hne]; [by rewrite !inc_inc, Z.add_comm|].
  unfold inc. simpl. f_equal. apply list_eq. intros k. rewrite !list_lookup_alter.
  repeat case_decide; congruence.
Qed.

Lemma Define_next name text s :
  Define (Size s) name text s =
  mkRstats (fValue s ++ [0]) (fName s ++ [name]) (fText s ++ [text])
           (hash_string (hash_string (fHash s) name) text).
Proof. unfold Define. by rewrite Nat.eqb_refl. Qed.

Lemma Size_Define_all tab : Size (Define_all tab) = length tab.
Proof.
  unfold Define_all. induction tab as [|nt l IH] using rev_ind; [done|].
  rewrite fold_left_app, length_app. simpl. rewrite Define_next.
  unfold Size at 1. simpl. by rewrite length_app, <- IH.
Qed.

(** ** Theorems *)

Lemma IncLogHist_loop_spec n ind mask masklast val s :
  (ind + n = Size s)%nat →
  ∃ k, (k = n ∧ IncLogHist_loop n ind mask masklast val s = s) ∨
       (k < n)%nat ∧ IncLogHist_loop n ind mask masklast val s = inc (ind + k) 1 s.
Proof.
  revert ind mask. induction n as [|n IH]; intros ind mask Hs.
  { exists 0%nat. by left. }
  simpl. rewrite (proj2 (Nat.ltb_lt _ _)) by lia.
  destruct ((val <=? mask) || (masklast <=? mask)).
  { exists 0%nat. right. rewrite Nat.add_0_r. split; [lia|done]. }
  destruct (IH (ind + 1)%nat (Z.lor (mask ≪ 1) 1)) as [k [[-> Hk]|[Hk Hr]]]; [lia|..].
  - exists (S n). by left.
  - exists (S k). right. split; [lia|]. rewrite Hr. f_equal. lia.
Qed.

(** [IncLogHist] increments at most one counter, by one, and that counter
    lies in the histogram range of existing counters at or above [ind]: it
    never throws and never touches a lower counter. *)
Theorem IncLogHist_one_bin ind maskfirst masklast val s :
  IncLogHist ind maskfirst masklast val s = s ∨
  ∃ k, (ind <= k < Size s)%nat ∧ IncLogHist ind maskfirst masklast val s = inc k 1 s.
Proof.
  unfold IncLogHist. destruct (val =? 0); [by left|].
  destruct (decide (ind <= Size s)%nat) as [Hle|Hgt].
  - destruct (IncLogHist_loop_spec (Size s - ind) ind maskfirst masklast val s)
      as [k [[_ Hk]|[Hk Hr]]]; [lia|by left|]. right. exists (ind + k)%nat. split; [lia|done].
  - left. by replace (Size s - ind)%nat with 0%nat by lia.
Qed.
