(* ===== verification/Port.v ===== *)
(** * librlink/RlinkPort: the byte port as an interface

    [RlinkPort] is the abstract base class of the serial, FIFO and USB ports.
    The packet and connection layers use only its [Read] and [Write] and the
    monotonic clock; they are proved against this interface.  [RlinkPortLaws]
    states what the layers rely on; [SimPort], a port that replays a schedule
    of chunks, implements it. *)

From S2P Require Import Prelude.
From S2P Require Import Rtime.

(** Return codes of [Read]; a positive code is the number of bytes read. *)
Definition kEof  : Z := 0.
Definition kTout : Z := -1.
Definition kErr  : Z := -2.

(** Result of [Read buf size timeout emsg]: the code, the bytes stored at the
    begin of [buf], and the error message. *)
Record read_result := mkRead { rd_irc : Z; rd_data : list Z; rd_emsg : RerrMsg }.

Class RlinkPort (P : Type) := {
  port_Read  : nat → Rtime → P → read_result * P;
  port_Write : list Z → P → (Z * RerrMsg) * P;
  port_IsOpen : P → bool;
  port_FindOpt : string → P → bool;         (** [Url().FindOpt(name)] *)
  port_XonEnable : P → bool;
  clock_monotonic : P → Rtime * P
}.

Class RlinkPortLaws (P : Type) `{!RlinkPort P} := {
  port_Read_bounds n t p r p' :
    port_Read n t p = (r, p') → 0 < rd_irc r →
    rd_irc r = Z.of_nat (length (rd_data r)) ∧ (length (rd_data r) <= n)%nat ∧
    Forall is_u8 (rd_data r);
  port_Read_open n t p r p' :
    port_Read n t p = (r, p') → port_IsOpen p' = port_IsOpen p;
  port_Write_open bs p r p' :
    port_Write bs p = (r, p') → port_IsOpen p' = port_IsOpen p;
  clock_normal p t p' : clock_monotonic p = (t, p') → Normal t;
  clock_open p t p' : clock_monotonic p = (t, p') → port_IsOpen p' = port_IsOpen p
}.

(** A port that replays chunks of bytes.  A read returns the first chunk, cut
    to the buffer size; without a chunk it times out.  Each clock access
    advances the clock by one second. *)
Record SimPort := mkSimPort {
  sp_in : list (list Z);
  sp_out : list Z;
  sp_now : Z }.
#[export] Instance eta_SimPort : Eta SimPort := λ p, mkSimPort (sp_in p) (sp_out p) (sp_now p).

Definition sim_Read (n : nat) (t : Rtime) (p : SimPort) : read_result * SimPort :=
  match sp_in p with
  | [] => (mkRead kTout [] emsg_none, p)
  | c :: r =>
      let c := map u8 c in
      let d := take n c in
      (mkRead (Z.of_nat (length d)) d emsg_none,
       p <| sp_in := match drop n c with [] => r | rest => rest :: r end |>)
  end.
Definition sim_Write (bs : list Z) (p : SimPort) : (Z * RerrMsg) * SimPort :=
  ((Z.of_nat (length bs), emsg_none), p <| sp_out ::= λ o, o ++ bs |>).
Definition sim_clock (p : SimPort) : Rtime * SimPort :=
  (mkRtime (sp_now p) 0, p <| sp_now ::= Z.add 1 |>).

#[export] Instance SimPort_port : RlinkPort SimPort := {
  port_Read := sim_Read;
  port_Write := sim_Write;
  port_IsOpen _ := true;
  port_FindOpt _ _ := false;
  port_XonEnable _ := false;
  clock_monotonic := sim_clock }.

#[export] Instance SimPort_laws : RlinkPortLaws SimPort.
Proof.
  split; try done.
  - intros n t p r p' H Hr. simpl in H. unfold sim_Read in H.
    destruct (sp_in p) as [|c l]; simplify_eq; simpl in *; [by vm_compute in Hr|].
    split; [done|]. split; [rewrite length_take; lia|].
    apply Forall_take, Forall_map, Forall_forall. intros. apply u8_range.
  - intros p t p' H. simpl in H. unfold sim_clock in H. simplify_eq.
    unfold Normal. simpl. lia.
Qed.
