(* ===== verification/PacketBuf.v ===== *)
(** * librlink/RlinkPacketBuf and RlinkPacketBufSnd: framing of outgoing packets

    The base class holds the packet bytes, the CRC accumulator, the flags and
    the statistics; the send side adds the raw buffer into which a packet is
    framed with start and end commas and byte escapes.  The theorems bound the
    framed size by the capacity reserved in [SndPacket], show that with
    [fXonEscape] no XON or XOFF byte is ever transmitted.  The round trip with
    the receive side is in PacketRcv. *)

From S2P Require Import Prelude.
From S2P Require Import Rtime.
From S2P Require Import Rstats.
From S2P Require Import Crc16.
From S2P Require Import Port.

(** ** RlinkPacketBuf: constants and base class *)

Definition kFlagSopSeen    : Z := Z.shiftl 1 0.
Definition kFlagEopSeen    : Z := Z.shiftl 1 1.
Definition kFlagNakSeen    : Z := Z.shiftl 1 2.
Definition kFlagAttnSeen   : Z := Z.shiftl 1 3.
Definition kFlagErrTout    : Z := Z.shiftl 1 16.
Definition kFlagErrIO      : Z := Z.shiftl 1 17.
Definition kFlagErrFrame   : Z := Z.shiftl 1 18.
Definition kFlagErrClobber : Z := Z.shiftl 1 19.

Definition kSymEsc    : Z := 0xCA.
Definition kSymFill   : Z := 0xD5.
Definition kSymXon    : Z := 0x11.
Definition kSymXoff   : Z := 0x13.
Definition kSymEdPref : Z := 0x40.
Definition kEcSop     : Z := 0x00.
Definition kEcEop     : Z := 0x01.
Definition kEcNak     : Z := 0x02.
Definition kEcAttn    : Z := 0x03.
Definition kEcXon     : Z := 0x04.
Definition kEcXoff    : Z := 0x05.
Definition kEcFill    : Z := 0x06.
Definition kEcEsc     : Z := 0x07.
Definition kEcClobber : Z := 0xff.
Definition kNcCcrc    : Z := 0x00.
Definition kNcDcrc    : Z := 0x01.
Definition kNcFrame   : Z := 0x02.
Definition kNcUnused  : Z := 0x03.
Definition kNcCmd     : Z := 0x04.
Definition kNcCnt     : Z := 0x05.
Definition kNcRtOvlf  : Z := 0x06.
Definition kNcRtWblk  : Z := 0x07.
Definition kNcInval   : Z := 0x08.

(** The member [fCrc] of the class is [fPktCrc] here. *)
Record RlinkPacketBuf := mkPacketBuf {
  fPktBuf : list Z;
  fPktCrc : RlinkCrc16;
  fFlags  : Z;
  fStats  : Rstats }.
#[export] Instance eta_RlinkPacketBuf : Eta RlinkPacketBuf :=
  λ b, mkPacketBuf (fPktBuf b) (fPktCrc b) (fFlags b) (fStats b).

Definition RlinkPacketBuf_ctor : RlinkPacketBuf :=
  mkPacketBuf [] RlinkCrc16_ctor 0 Rstats_ctor.
Definition PktSize (b : RlinkPacketBuf) : nat := length (fPktBuf b).
Definition SetFlagBit (mask : Z) (b : RlinkPacketBuf) : RlinkPacketBuf :=
  b <| fFlags ::= λ f, Z.lor f mask |>.
Definition ClearFlagBit (mask : Z) (b : RlinkPacketBuf) : RlinkPacketBuf :=
  b <| fFlags ::= λ f, Z.land f (not32 mask) |>.
Definition TestFlag (mask : Z) (b : RlinkPacketBuf) : bool :=
  negb (Z.land (fFlags b) mask =? 0).

(** ** RlinkPacketBufSnd *)

Definition kStatNTxPktByt : nat := 0.
Definition kStatNTxEsc    : nat := 1.
Definition kStatNTxXEsc   : nat := 2.

Record RlinkPacketBufSnd := mkSnd {
  sb : RlinkPacketBuf;
  fXonEscape : bool;
  fRawBuf : list Z }.
#[export] Instance eta_RlinkPacketBufSnd : Eta RlinkPacketBufSnd :=
  λ s, mkSnd (sb s) (fXonEscape s) (fRawBuf s).

Definition RlinkPacketBufSnd_ctor : RlinkPacketBufSnd :=
  mkSnd (RlinkPacketBuf_ctor <| fStats := Define_all
    [("NTxPktByt", "Tx packet bytes send"); ("NTxEsc", "Tx esc escapes");
     ("NTxXEsc", "Tx xon escapes")]%string |>) false [].

Definition Init (s : RlinkPacketBufSnd) : RlinkPacketBufSnd :=
  s <| sb ::= λ b, b <| fPktBuf := [] |> |> <| fRawBuf := [] |>
    <| sb ::= λ b, b <| fPktCrc ::= Crc16.Clear |> <| fFlags := 0 |> |>.
Definition SetXonEscape (xon : bool) (s : RlinkPacketBufSnd) : RlinkPacketBufSnd :=
  s <| fXonEscape := xon |>.
Definition RawSize (s : RlinkPacketBufSnd) : nat := length (fRawBuf s).

(** The three overloads of [PutWithCrc]. *)
Definition PutWithCrc8 (data : Z) (s : RlinkPacketBufSnd) : RlinkPacketBufSnd :=
  s <| sb ::= λ b, b <| fPktBuf ::= λ l, l ++ [data] |> <| fPktCrc ::= AddData data |> |>.
Definition PutWithCrc16 (data : Z) (s : RlinkPacketBufSnd) : RlinkPacketBufSnd :=
  let datl := lo8 data in
  let dath := hi8 data in
  s <| sb ::= λ b, b <| fPktBuf ::= λ l, l ++ [datl] ++ [dath] |>
       <| fPktCrc ::= λ c, AddData dath (AddData datl c) |> |>.
Definition PutWithCrcBlk (data : list Z) (s : RlinkPacketBufSnd) : RlinkPacketBufSnd :=
  fold_left (λ s w, PutWithCrc16 w s) data s.
Definition PutCrc (s : RlinkPacketBufSnd) : RlinkPacketBufSnd :=
  let data := Crc (fPktCrc (sb s)) in
  s <| sb ::= λ b, b <| fPktBuf ::= λ l, l ++ [lo8 data] ++ [hi8 data] |> |>.

(** The byte that follows the escape symbol for ecode [ec]. *)
Definition escaped (ec : Z) : Z :=
  u8 (Z.lor (Z.lor kSymEdPref (Z.shiftl (Z.land (Z.lnot ec) 0x7) 3)) ec).
Definition PutRawEsc (ec : Z) (s : RlinkPacketBufSnd) : RlinkPacketBufSnd :=
  s <| fRawBuf ::= λ l, l ++ [kSymEsc] ++ [escaped ec] |>.
Definition PutRaw (c : Z) (s : RlinkPacketBufSnd) : RlinkPacketBufSnd :=
  s <| fRawBuf ::= λ l, l ++ [c] |>.

(** The framing loop of [SndPacket]; returns the two escape counts. *)
Fixpoint SndPacket_loop (pkt : list Z) (nesc nxesc : Z) (s : RlinkPacketBufSnd)
    : RlinkPacketBufSnd * Z * Z :=
  match pkt with
  | [] => (s, nesc, nxesc)
  | c :: pkt' =>
      if c =? kSymEsc then SndPacket_loop pkt' (nesc + 1) nxesc (PutRawEsc kEcEsc s)
      else if fXonEscape s && (c =? kSymXon) then
        SndPacket_loop pkt' nesc (nxesc + 1) (PutRawEsc kEcXon s)
      else if fXonEscape s && (c =? kSymXoff) then
        SndPacket_loop pkt' nesc (nxesc + 1) (PutRawEsc kEcXoff s)
      else SndPacket_loop pkt' nesc nxesc (PutRaw c s)
  end.

(** [SndPacket] up to the call of [SndRaw]: the framed packet. *)
Definition FramePacket (s : RlinkPacketBufSnd) : RlinkPacketBufSnd :=
  let s := s <| fRawBuf := [] |> in
  let s := PutRawEsc kEcSop s in
  let '(s, nesc, nxesc) := SndPacket_loop (fPktBuf (sb s)) 0 0 s in
  let s := PutRawEsc kEcEop s in
  s <| sb ::= λ b, b <| fStats ::= λ t, inc kStatNTxXEsc nxesc (inc kStatNTxEsc nesc t) |> |>.

Section WithPort.
Context {P : Type} `{!RlinkPort P}.

Definition SndRaw (s : RlinkPacketBufSnd) (p : P) : (bool * RerrMsg) * P :=
  let rawbufsize := length (fRawBuf s) in
  let '((irc, em), p) := port_Write (fRawBuf s) p in
  if irc <? 0 then ((false, em), p)
  else if negb (irc =? Z.of_nat rawbufsize) then
    ((false, mkRerrMsg "RlinkPacketBufSnd::SndRaw()" "failed to write all data"), p)
  else ((true, em), p).

Definition SndPacket (s : RlinkPacketBufSnd) (p : P)
    : (bool * RerrMsg) * RlinkPacketBufSnd * P :=
  let s := FramePacket s in
  let '((sndok, em), p) := SndRaw s p in
  let s := if sndok
           then s <| sb ::= λ b, b <| fStats ::= inc kStatNTxPktByt (Z.of_nat (PktSize b)) |> |>
           else s in
  ((sndok, em), s, p).

Definition oob_bytes (addr data : Z) : list Z :=
  [ kSymEsc; kSymEsc;
    u8 (Z.land addr 0xf); u8 (Z.land (Z.shiftr addr 4) 0xf);
    u8 (Z.land data 0xf); u8 (Z.land (Z.shiftr data 4) 0xf);
    u8 (Z.land (Z.shiftr data 8) 0xf); u8 (Z.land (Z.shiftr data 12) 0xf);
    0; 0 ].
Definition SndOob (addr data : Z) (s : RlinkPacketBufSnd) (p : P)
    : (bool * RerrMsg) * RlinkPacketBufSnd * P :=
  let s := Init s in
  let s := s <| fRawBuf := oob_bytes addr data |> in
  let '(r, p) := SndRaw s p in (r, s, p).
Definition SndKeep (s : RlinkPacketBufSnd) (p : P) : (bool * RerrMsg) * RlinkPacketBufSnd * P :=
  let s := Init s in
  let s := s <| fRawBuf := [kSymEsc; kSymEsc] |> in
  let '(r, p) := SndRaw s p in (r, s, p).
(** [SndAttn], [SndNak] and [SndUnJam] send one comma. *)
Definition SndComma (ec : Z) (s : RlinkPacketBufSnd) (p : P)
    : (bool * RerrMsg) * RlinkPacketBufSnd * P :=
  let s := Init s in
  let s := PutRawEsc ec (s <| fRawBuf := [] |>) in
  let '(r, p) := SndRaw s p in (r, s, p).
Definition SndAttn := SndComma kEcAttn.
Definition SndNak := SndComma kEcNak.
Definition SndUnJam := SndComma kEcEop.
End WithPort.

(** ** Reference: framing as a map over the packet bytes *)

Definition frame_byte (xon : bool) (c : Z) : list Z :=
  if c =? kSymEsc then [kSymEsc; escaped kEcEsc]
  else if xon && (c =? kSymXon) then [kSymEsc; escaped kEcXon]
  else if xon && (c =? kSymXoff) then [kSymEsc; escaped kEcXoff]
  else [c].
Definition frame (xon : bool) (pkt : list Z) : list Z :=
  [kSymEsc; escaped kEcSop] ++ concat (map (frame_byte xon) pkt) ++ [kSymEsc; escaped kEcEop].

(** ** Lemmas *)

Lemma SndPacket_loop_spec pkt n m s :
  let '(s', n', m') := SndPacket_loop pkt n m s in
  fRawBuf s' = fRawBuf s ++ concat (map (frame_byte (fXonEscape s)) pkt) ∧
  sb s' = sb s ∧ fXonEscape s' = fXonEscape s ∧
  n' + m' + Z.of_nat (length pkt) + Z.of_nat (length (fRawBuf s)) =
    n + m + Z.of_nat (length (fRawBuf s')).
Proof.
  revert n m s. induction pkt as [|c pkt IH]; intros n m s.
  { simpl. rewrite app_nil_r. repeat split; lia. }
  cbn [SndPacket_loop concat map]. unfold frame_byte at 1.
  destruct (c =? kSymEsc); [|destruct (fXonEscape s && (c =? kSymXon));
    [|destruct (fXonEscape s && (c =? kSymXoff))]];
    match goal with |- context [SndPacket_loop pkt ?n ?m ?s0] =>
      specialize (IH n m s0); destruct (SndPacket_loop pkt n m s0) as [[s' n'] m'] end;
    destruct IH as (Hr & Hb & Hx & Hn); simpl in *; rewrite Hr, Hb, Hx;
    rewrite <- !app_assoc; (repeat split; auto);
    rewrite Hr, ?length_app in Hn; simpl in Hn; rewrite !length_app; simpl; lia.
Qed.

Lemma FramePacket_raw s : fRawBuf (FramePacket s) = frame (fXonEscape s) (fPktBuf (sb s)).
Proof.
  unfold FramePacket.
  pose proof (SndPacket_loop_spec (fPktBuf (sb s)) 0 0
                (PutRawEsc kEcSop (s <| fRawBuf := [] |>))) as H.
  simpl in *. destruct (SndPacket_loop _ _ _ _) as [[s' n'] m'].
  destruct H as (Hr & _ & _ & _). simpl. by rewrite Hr.
Qed.

Lemma FramePacket_pkt s :
  fPktBuf (sb (FramePacket s)) = fPktBuf (sb s) ∧ fPktCrc (sb (FramePacket s)) = fPktCrc (sb s) ∧
  fXonEscape (FramePacket s) = fXonEscape s.
Proof.
  unfold FramePacket.
  pose proof (SndPacket_loop_spec (fPktBuf (sb s)) 0 0
                (PutRawEsc kEcSop (s <| fRawBuf := [] |>))) as H.
  simpl in *. destruct (SndPacket_loop _ _ _ _) as [[s' n'] m'].
  destruct H as (_ & Hb & Hx & _). simpl. by rewrite Hb.
Qed.

Lemma length_frame_byte xon c : (1 <= length (frame_byte xon c) <= 2)%nat.
Proof. unfold frame_byte. repeat case_match; simpl; lia. Qed.

Lemma length_frame xon pkt :
  (length pkt + 4 <= length (frame xon pkt) <= 2 * length pkt + 4)%nat.
Proof.
  unfold frame. rewrite !length_app. simpl.
  induction pkt as [|c pkt IH]; simpl; [lia|].
  rewrite length_app. pose proof (length_frame_byte xon c). lia.
Qed.

Lemma PutWithCrcBlk_spec ws s :
  let bs := concat (map (λ w, [lo8 w; hi8 w]) ws) in
  PutWithCrcBlk ws s =
  s <| sb ::= λ b, b <| fPktBuf ::= λ l, l ++ bs |> <| fPktCrc ::= AddBytes bs |> |>.
Proof.
  revert s. induction ws as [|w ws IH]; intros s; simpl.
  { rewrite app_nil_r. by destruct s as [[? ? ? ?] ? ?]. }
  rewrite IH. simpl. by rewrite <- app_assoc.
Qed.

Lemma Forall_frame (Q : Z → Prop) xon pkt :
  (∀ c, c ∈ pkt → Forall Q (frame_byte xon c)) →
  Q kSymEsc → Q (escaped kEcSop) → Q (escaped kEcEop) → Forall Q (frame xon pkt).
Proof.
  intros Hp He Hs Heo. unfold frame. rewrite !Forall_app.
  split; [by repeat constructor|]. split; [|by repeat constructor].
  apply Forall_concat, Forall_map, Forall_forall. intros c Hc. by apply Hp, list_elem_of_In.
Qed.

Definition not_flow_control (c : Z) : Prop := c ≠ kSymXon ∧ c ≠ kSymXoff.
#[export] Instance not_flow_control_dec c : Decision (not_flow_control c).
Proof. unfold not_flow_control. apply _. Defined.

Lemma frame_byte_flow_control c : Forall not_flow_control (frame_byte true c).
Proof.
  unfold frame_byte. destruct (c =? kSymEsc) eqn:E1; [by repeat constructor|].
  destruct (c =? kSymXon) eqn:E2; [by repeat constructor|].
  destruct (c =? kSymXoff) eqn:E3; [by repeat constructor|].
  simpl. apply Z.eqb_neq in E2, E3. by repeat constructor.
Qed.

Lemma nibble_flow_control z : not_flow_control (u8 (Z.land z 0xf)).
Proof.
  assert (0 <= Z.land z 0xf < 16) as Hz.
  { change 0xf with (Z.ones 4). rewrite Z.land_ones by lia. by apply Z.mod_pos_bound. }
  rewrite u8_id by (unfold is_u8; lia).
  unfold not_flow_control, kSymXon, kSymXoff. lia.
Qed.

(** ** Theorems *)

(** C29: the framed packet fits the capacity [2*size+4] that [SndPacket]
    reserves, and is at least two commas longer than the packet. *)
Theorem FramePacket_size_bound s :
  (PktSize (sb s) + 4 <= RawSize (FramePacket s) <= 2 * PktSize (sb s) + 4)%nat.
Proof. unfold RawSize. rewrite FramePacket_raw. apply length_frame. Qed.

(** C28: with XON escaping enabled no transmitted byte is XON or XOFF, for a
    framed packet with arbitrary content and for an out-of-band message with
    arbitrary address and data: software flow control on the line is safe. *)
Theorem xon_transparency s addr data :
  fXonEscape s = true →
  Forall not_flow_control (fRawBuf (FramePacket s)) ∧
  Forall not_flow_control (oob_bytes addr data).
Proof.
  intros Hx. rewrite FramePacket_raw, Hx. split.
  - apply Forall_frame; [intros; apply frame_byte_flow_control|done..].
  - unfold oob_bytes. repeat constructor; try apply nibble_flow_control; done.
Qed.

Lemma xon_transparency_witness :
  Forall not_flow_control (fRawBuf (FramePacket
    (PutWithCrc8 0x11 (SetXonEscape true RlinkPacketBufSnd_ctor)))).
Proof.
  apply (xon_transparency (PutWithCrc8 0x11 (SetXonEscape true RlinkPacketBufSnd_ctor)) 0 0).
  reflexivity.
Defined.
