(* ===== verification/PacketRcv.v ===== *)
(** * librlink/RlinkPacketBufRcv: the receive state machine

    Raw bytes are read from the port into [fRawBuf] (4096 bytes); [ProcessData]
    runs the state machine over the unprocessed part of the buffer until the
    buffer is exhausted or a packet is complete or broken.  The definitions
    follow the index based loops of the code.  The specification is an
    automaton that consumes one byte at a time ([rx_byte], [rx_run]); the
    refinement theorem says that [ProcessData] never throws, terminates, and
    does on the buffer what the automaton does on the bytes.  Round trip with
    the framing of PacketBuf and independence of the chunking of the input
    follow from properties of the automaton. *)

From S2P Require Import Prelude.
From S2P Require Import Rtime.
From S2P Require Import Rstats.
From S2P Require Import Crc16.
From S2P Require Import Port.
From S2P Require Import PacketBuf.

(** ** Data *)

Definition kStatNRxPktByt    : nat := 0.
Definition kStatNRxDrop      : nat := 1.
Definition kStatNRxSop       : nat := 2.
Definition kStatNRxEop       : nat := 3.
Definition kStatNRxNak       : nat := 4.
Definition kStatNRxAttn      : nat := 5.
Definition kStatNRxEsc       : nat := 6.
Definition kStatNRxClobber   : nat := 7.
Definition kStatNRxNakCcrc   : nat := 8.
Definition kStatNRxNakInval  : nat := 16.

Inductive rcv_state := kRcvIdle | kRcvFill | kRcvDone | kRcvError.
#[export] Instance rcv_state_eq_dec : EqDecision rcv_state.
Proof. solve_decision. Defined.
Inductive pkt_state := kPktPend | kPktResp | kPktAttn | kPktError.
#[export] Instance pkt_state_eq_dec : EqDecision pkt_state.
Proof. solve_decision. Defined.

Definition RawBufSize : nat := 4096.

Record RlinkPacketBufRcv := mkRcv {
  rb : RlinkPacketBuf;
  fRawBuf : list Z;
  fRawBufSize : nat;
  fRawBufDone : nat;
  fRcvState : rcv_state;
  fNDone : nat;
  fEscSeen : bool;
  fNakIndex : Z;
  fNakCode : Z;
  fDropData : list Z }.
#[export] Instance eta_RlinkPacketBufRcv : Eta RlinkPacketBufRcv := λ r,
  mkRcv (rb r) (fRawBuf r) (fRawBufSize r) (fRawBufDone r) (fRcvState r) (fNDone r)
        (fEscSeen r) (fNakIndex r) (fNakCode r) (fDropData r).
Notation Rcv := RlinkPacketBufRcv.

Definition rcv_stat_table : list (string * string) := [
  ("NRxPktByt", "Rx packet bytes rcvd"); ("NRxDrop", "Rx bytes dropped");
  ("NRxSop", "Rx SOP commas seen"); ("NRxEop", "Rx EOP commas seen");
  ("NRxNak", "Rx NAK commas seen"); ("NRxAttn", "Rx ATTN commas seen");
  ("NRxEsc", "Rx data escapes"); ("NRxClobber", "Rx clobbered escapes");
  ("NRxNakCcrc", "Rx NAK Ccrc seen"); ("NRxNakDcrc", "Rx NAK Dcrc seen");
  ("NRxNakFrame", "Rx NAK Frame seen"); ("NRxNakUnused", "Rx NAK Unused seen");
  ("NRxNakCmd", "Rx NAK Cmd seen"); ("NRxNakCnt", "Rx NAK Cnt seen");
  ("NRxNakRtOvlf", "Rx NAK RtOvlf seen"); ("NRxNakRtWblk", "Rx NAK RtWblk seen");
  ("NRxNakInval", "Rx NAK invalid seen") ]%string.

(** The array [fRawBuf] is not initialised by the constructor. *)
Definition RlinkPacketBufRcv_ctor : Rcv :=
  mkRcv (RlinkPacketBuf_ctor <| fStats := Define_all rcv_stat_table |>)
        (replicate RawBufSize 0) 0 0 kRcvIdle 0 false (-1) 0 [].

Definition stat_inc (ind : nat) (val : Z) (st : Rcv) : Rcv :=
  st <| rb ::= λ b, b <| fStats ::= inc ind val |> |>.
Definition set_flag (mask : Z) (st : Rcv) : Rcv := st <| rb ::= SetFlagBit mask |>.
Definition push_pkt (bs : list Z) (st : Rcv) : Rcv :=
  st <| rb ::= λ b, b <| fPktBuf ::= λ l, l ++ bs |> |>.
Definition fFlags_ (st : Rcv) : Z := fFlags (rb st).
Definition fPktBuf_ (st : Rcv) : list Z := fPktBuf (rb st).

(** ** Operations *)

Definition AcceptPacket (st : Rcv) : Rcv :=
  st <| rb ::= λ b, b <| fPktBuf := [] |> <| fPktCrc ::= Crc16.Clear |> <| fFlags := 0 |> |>
     <| fRcvState := kRcvIdle |> <| fNDone := 0%nat |> <| fNakIndex := -1 |>
     <| fNakCode := 0 |> <| fDropData := [] |>.
Definition FlushRaw (st : Rcv) : Rcv :=
  st <| fRawBufSize := 0%nat |> <| fRawBufDone := 0%nat |> <| fEscSeen := false |>.

Definition PacketState (st : Rcv) : pkt_state :=
  match fRcvState st with
  | kRcvIdle | kRcvFill => kPktPend
  | kRcvDone => if TestFlag kFlagSopSeen (rb st) then kPktResp else kPktAttn
  | kRcvError => kPktError
  end.

(** The ecode of the byte [c] that follows an escape symbol. *)
Definition ecode (c : Z) : Z :=
  let ec := Z.land c 0x7 in
  if negb (Z.land c 0xC0 =? kSymEdPref) || negb (Z.land (Z.shiftr (Z.lnot c) 3) 0x7 =? ec)
  then kEcClobber else ec.
Definition ecode_stat (ec : Z) : nat :=
  if ec =? kEcSop then kStatNRxSop
  else if ec =? kEcEop then kStatNRxEop
  else if ec =? kEcNak then kStatNRxNak
  else if ec =? kEcAttn then kStatNRxAttn
  else if ec =? kEcClobber then kStatNRxClobber
  else kStatNRxEsc.

Definition raw_at (i : nat) (st : Rcv) : Z := nth i (fRawBuf st) 0.

Definition GetEcode : M Rcv Z := λ st,
  if negb (fEscSeen st) || (fRawBufSize st <=? fRawBufDone st)%nat then
    (Exc (Rexception "RlinkPacketBufRcv::GetEcode()" "Bad state"), st)
  else
    let c := raw_at (fRawBufDone st) st in
    let st := st <| fEscSeen := false |> <| fRawBufDone ::= S |> in
    let ec := ecode c in
    (Ret ec, stat_inc (ecode_stat ec) 1 st).

(** The plain data loop [while (pi < pend)]: bytes up to and including the next
    escape symbol.  Returns the data bytes, the number of bytes consumed and
    whether an escape symbol was seen. *)
Fixpoint scan_plain (bs : list Z) : list Z * nat * bool :=
  match bs with
  | [] => ([], 0%nat, false)
  | c :: r =>
      if c =? kSymEsc then ([], 1%nat, true)
      else let '(l, n, e) := scan_plain r in (c :: l, S n, e)
  end.

(** The unprocessed bytes of the raw buffer. *)
Definition pending (st : Rcv) : list Z :=
  drop (fRawBufDone st) (take (fRawBufSize st) (fRawBuf st)).
Definition more (st : Rcv) : bool := (fRawBufDone st <? fRawBufSize st)%nat.
Definition todo (st : Rcv) : nat := fRawBufSize st - fRawBufDone st.

Definition idle_plain (st : Rcv) : Rcv :=
  let '(l, n, e) := scan_plain (pending st) in
  stat_inc kStatNRxDrop (Z.of_nat (length l))
    (st <| fDropData ::= λ d, d ++ l |> <| fEscSeen ::= λ e', e || e' |>
        <| fRawBufDone ::= λ d, (d + n)%nat |>).

Definition idle_escape : M Rcv (option ()) := λ st,
  if fEscSeen st then
    (ec ← GetEcode;
     if ec =? kEcSop then
       modify (λ st, set_flag kFlagSopSeen st <| fRcvState := kRcvFill |>) ;; mret (Some ())
     else if ec =? kEcAttn then
       modify (λ st, set_flag kFlagAttnSeen st <| fRcvState := kRcvFill |>) ;; mret (Some ())
     else
       modify (λ st, stat_inc kStatNRxDrop 2
         (st <| fDropData ::= λ d, d ++ [kSymEsc; raw_at (fRawBufDone st - 1) st] |>)) ;;
       mret None) st
  else (Ret None, st).

Definition idle_body : M Rcv (option ()) :=
  r ← idle_escape;
  match r with
  | Some x => mret (Some x)
  | None => modify idle_plain ;; mret None
  end.
Definition ProcessDataIdle : M Rcv () := λ st,
  (while_ (todo st) more idle_body ;; mret ()) st.

(** The code of the current NAK: it is looked up in the raw buffer. *)
Definition nak_code (st : Rcv) : Z :=
  if (fRawBufDone st + 1 <? fRawBufSize st)%nat then
    let nc := raw_at (fRawBufDone st) st in
    let ncpre := Z.land nc 0xc0 in
    let ncneg := Z.land (Z.shiftr (Z.lnot nc) 3) 0x07 in
    let ncpos := Z.land nc 0x07 in
    if (ncpre =? 0x80) && (ncneg =? ncpos) then ncpos else kNcInval
  else kNcInval.

(** The counters of the NAK codes 0 to 8 are consecutive. *)
Definition fill_nak (st : Rcv) : Rcv :=
  let st := set_flag kFlagNakSeen st in
  let st := st <| fNakIndex := Z.of_nat (PktSize (rb st)) |> in
  let st := st <| fNakCode := nak_code st |> in
  stat_inc (kStatNRxNakCcrc + Z.to_nat (fNakCode st)) 1 st.

Definition fill_plain (st : Rcv) : Rcv :=
  let '(l, n, e) := scan_plain (pending st) in
  push_pkt l st <| fEscSeen ::= λ e', e || e' |> <| fRawBufDone ::= λ d, (d + n)%nat |>.

Definition fill_error (flag : Z) (st : Rcv) : Rcv :=
  set_flag flag st <| fRcvState := kRcvError |>.

Definition fill_escape : M Rcv (option ()) := λ st,
  if fEscSeen st then
    (ec ← GetEcode;
     if ec =? kEcEop then
       modify (λ st, let st := set_flag kFlagEopSeen st <| fRcvState := kRcvDone |> in
                     stat_inc kStatNRxPktByt (Z.of_nat (PktSize (rb st))) st) ;;
       mret (Some ())
     else if ec =? kEcNak then
       b ← gets (λ st, TestFlag (Z.lor kFlagAttnSeen kFlagNakSeen) (rb st));
       if (b : bool) then modify (fill_error kFlagErrFrame) ;; mret (Some ())
       else modify fill_nak ;; mret None
     else if ec =? kEcXon then modify (push_pkt [kSymXon]) ;; mret None
     else if ec =? kEcXoff then modify (push_pkt [kSymXoff]) ;; mret None
     else if ec =? kEcFill then modify (push_pkt [kSymFill]) ;; mret None
     else if ec =? kEcEsc then modify (push_pkt [kSymEsc]) ;; mret None
     else if ec =? kEcClobber then modify (fill_error kFlagErrClobber) ;; mret (Some ())
     else modify (fill_error kFlagErrFrame) ;; mret (Some ())) st
  else (Ret None, st).

Definition fill_body : M Rcv (option ()) :=
  r ← fill_escape;
  match r with
  | Some x => mret (Some x)
  | None => modify fill_plain ;; mret None
  end.
Definition ProcessDataFill : M Rcv () := λ st,
  (while_ (todo st) more fill_body ;; mret ()) st.

Definition process_body : M Rcv (option bool) := λ st,
  match fRcvState st with
  | kRcvIdle => (ProcessDataIdle ;; mret None) st
  | kRcvFill => (ProcessDataFill ;; mret None) st
  | _ => (Ret (Some true), st)
  end.
Definition ProcessData : M Rcv bool := λ st,
  if (fRawBufDone st =? fRawBufSize st)%nat then (Ret false, st)
  else (while_ (todo st) more process_body ;; mret true) st.

Definition CheckNak (st : Rcv) : bool :=
  (0 <=? fNakIndex st) && (Z.of_nat (fNDone st) =? fNakIndex st).
(** [size_t] subtraction: wraps when more was taken than received. *)
Definition CheckSize (nbyte : nat) (st : Rcv) : bool :=
  Z.of_nat nbyte <=? (Z.of_nat (PktSize (rb st)) - Z.of_nat (fNDone st)) mod 2 ^ 64.

(** The getters read [fPktBuf[fNDone++]] without a bounds check; [None] marks
    a read past the end of the vector. *)
Definition GetByte (st : Rcv) : option (Z * Rcv) :=
  c ← fPktBuf_ st !! fNDone st; Some (c, st <| fNDone ::= S |>).
Definition add_crc (bs : list Z) (st : Rcv) : Rcv :=
  st <| rb ::= λ b, b <| fPktCrc ::= AddBytes bs |> |>.
Definition GetWithCrc8 (st : Rcv) : option (Z * Rcv) :=
  '(data, st) ← GetByte st; Some (data, add_crc [data] st).
Definition GetWithCrc16 (st : Rcv) : option (Z * Rcv) :=
  '(datl, st) ← GetByte st; '(dath, st) ← GetByte st;
  Some (word_of datl dath, add_crc [datl; dath] st).
Fixpoint GetWithCrcBlk (count : nat) (st : Rcv) : option (list Z * Rcv) :=
  match count with
  | O => Some ([], st)
  | S n => '(w, st) ← GetWithCrc16 st; '(ws, st) ← GetWithCrcBlk n st; Some (w :: ws, st)
  end.
Definition CheckCrc (st : Rcv) : option (bool * Rcv) :=
  '(datl, st) ← GetByte st; '(dath, st) ← GetByte st;
  Some (word_of datl dath =? Crc (fPktCrc (rb st)), st).

Section WithPort.
Context {P : Type} `{!RlinkPort P}.

(** [ReadData]: read into the raw buffer; code, error message, state, port. *)
Definition ReadData (timeout : Rtime) (st : Rcv) (p : P)
    : outcome (Z * RerrMsg) * Rcv * P :=
  if negb (fRawBufDone st =? fRawBufSize st)%nat then
    (Exc (Rexception "RlinkPacketBufRcv::ReadData()"
            "Bad state: called while data pending in buffer"), st, p)
  else
    let st := st <| fRawBufDone := 0%nat |> <| fRawBufSize := 0%nat |> in
    let '(r, p) := port_Read RawBufSize timeout p in
    let irc := rd_irc r in
    let st := st <| fRawBuf ::= λ old, rd_data r ++ drop (length (rd_data r)) old |> in
    if IsZero timeout && (irc =? kTout) then (Ret (0, rd_emsg r), st, p)
    else if irc <=? 0 then
      if irc =? kTout then (Ret (irc, rd_emsg r), set_flag kFlagErrTout st, p)
      else
        let em := if irc =? kEof
                  then mkRerrMsg "RlinkPacketBuf::ReadData()" "eof on read" else rd_emsg r in
        (Ret (irc, em), set_flag kFlagErrIO st, p)
    else (Ret (irc, rd_emsg r), st <| fRawBufSize := Z.to_nat irc |>, p).
End WithPort.

(** ** Specification: a byte automaton *)

(** The part of the state that depends on the byte stream only. *)
Record rx := mkRx {
  rx_state : rcv_state;
  rx_esc : bool;
  rx_pkt : list Z;
  rx_flags : Z;
  rx_nak : Z;
  rx_drop : list Z }.
#[export] Instance eta_rx : Eta rx := λ r,
  mkRx (rx_state r) (rx_esc r) (rx_pkt r) (rx_flags r) (rx_nak r) (rx_drop r).

Definition rx_flag (m : Z) (r : rx) : rx := r <| rx_flags ::= λ f, Z.lor f m |>.
Definition rx_push (c : Z) (r : rx) : rx := r <| rx_pkt ::= λ l, l ++ [c] |>.

(** An escape pair, by ecode [ec]; [c] is its second byte. *)
Definition rx_escape (c : Z) (r : rx) : rx :=
  let ec := ecode c in
  let r := r <| rx_esc := false |> in
  match rx_state r with
  | kRcvIdle =>
      if ec =? kEcSop then rx_flag kFlagSopSeen r <| rx_state := kRcvFill |>
      else if ec =? kEcAttn then rx_flag kFlagAttnSeen r <| rx_state := kRcvFill |>
      else r <| rx_drop ::= λ d, d ++ [kSymEsc; c] |>
  | kRcvFill =>
      if ec =? kEcEop then rx_flag kFlagEopSeen r <| rx_state := kRcvDone |>
      else if ec =? kEcNak then
        if negb (Z.land (rx_flags r) (Z.lor kFlagAttnSeen kFlagNakSeen) =? 0)
        then rx_flag kFlagErrFrame r <| rx_state := kRcvError |>
        else rx_flag kFlagNakSeen r <| rx_nak := Z.of_nat (length (rx_pkt r)) |>
      else if ec =? kEcXon then rx_push kSymXon r
      else if ec =? kEcXoff then rx_push kSymXoff r
      else if ec =? kEcFill then rx_push kSymFill r
      else if ec =? kEcEsc then rx_push kSymEsc r
      else if ec =? kEcClobber then rx_flag kFlagErrClobber r <| rx_state := kRcvError |>
      else rx_flag kFlagErrFrame r <| rx_state := kRcvError |>
  | _ => r
  end.

Definition rx_byte (c : Z) (r : rx) : rx :=
  if rx_esc r then rx_escape c r
  else if c =? kSymEsc then r <| rx_esc := true |>
  else match rx_state r with
       | kRcvIdle => r <| rx_drop ::= λ d, d ++ [c] |>
       | kRcvFill => rx_push c r
       | _ => r
       end.

Definition rx_active (r : rx) : bool :=
  match rx_state r with kRcvIdle | kRcvFill => true | _ => false end.

(** Run over a stream: the state reached and the bytes left over. *)
Fixpoint rx_run (bs : list Z) (r : rx) : rx * list Z :=
  if rx_active r then
    match bs with
    | [] => (r, [])
    | c :: bs' => rx_run bs' (rx_byte c r)
    end
  else (r, bs).

Definition view (st : Rcv) : rx :=
  mkRx (fRcvState st) (fEscSeen st) (fPktBuf_ st) (fFlags_ st) (fNakIndex st) (fDropData st).
(** What the automaton makes of the rest of the buffer. *)
Definition future (st : Rcv) : rx * list Z := rx_run (pending st) (view st).

(** Invariant of the raw buffer indices. *)
Definition RawInv (st : Rcv) : Prop :=
  length (fRawBuf st) = RawBufSize ∧ (fRawBufDone st <= fRawBufSize st <= RawBufSize)%nat.

(** ** Lemmas: the automaton *)

Lemma rx_run_stop bs r : rx_active r = false → rx_run bs r = (r, bs).
Proof. destruct bs; simpl; intros ->; done. Qed.

Lemma rx_run_nil r : rx_run [] r = (r, []).
Proof. simpl. by destruct (rx_active r). Qed.

Lemma rx_run_cons c bs r : rx_active r = true → rx_run (c :: bs) r = rx_run bs (rx_byte c r).
Proof. simpl. by intros ->. Qed.

(** Feeding a stream in two parts. *)
Lemma rx_run_app bs1 bs2 r :
  rx_run (bs1 ++ bs2) r =
  let '(r', rest) := rx_run bs1 r in
  if rx_active r' then rx_run bs2 r' else (r', rest ++ bs2).
Proof.
  revert r. induction bs1 as [|c bs1 IH]; intros r.
  { rewrite rx_run_nil. simpl. destruct (rx_active r) eqn:E; [done|]. by apply rx_run_stop. }
  destruct (rx_active r) eqn:E.
  - change ((c :: bs1) ++ bs2) with (c :: (bs1 ++ bs2)). by rewrite !rx_run_cons.
  - rewrite !rx_run_stop by done. by rewrite E.
Qed.

Lemma rx_run_scan (f : list Z → rx → rx) bs r :
  rx_active r = true → rx_esc r = false →
  (∀ c r, rx_active r = true → rx_esc r = false → rx_state (f [c] r) = rx_state r ∧ rx_esc (f [c] r) = false) →
  (∀ c r', rx_state r' = rx_state r → rx_esc r' = false → (c =? kSymEsc) = false → rx_byte c r' = f [c] r') →
  (∀ r', f [] r' = r') →
  (∀ l1 l2 r', f l2 (f l1 r') = f (l1 ++ l2) r') →
  let '(l, n, e) := scan_plain bs in
  rx_run bs r = rx_run (drop n bs) (f l r <| rx_esc := e |>).
Proof.
  intros Ha He Hfs Hf Hf0 Hfapp. revert r Ha He Hf.
  induction bs as [|c bs IH]; intros r Ha He Hf.
  { cbn [scan_plain drop]. rewrite Hf0. f_equal. destruct r; simpl in *; by subst. }
  cbn [scan_plain]. rewrite rx_run_cons by done.
  destruct (c =? kSymEsc) eqn:E.
  { cbn [drop]. rewrite Hf0. unfold rx_byte. by rewrite He, E. }
  destruct (Hfs c r Ha He) as [Hs He'].
  specialize (IH (f [c] r)). destruct (scan_plain bs) as [[l n] e].
  rewrite (Hf c r) by done. cbn [drop]. rewrite IH.
  - by rewrite Hfapp.
  - unfold rx_active in *. by rewrite Hs.
  - done.
  - intros c' r' Hr'. apply Hf. by rewrite Hr', Hs.
Qed.

Lemma rx_run_idle bs r :
  rx_state r = kRcvIdle → rx_esc r = false →
  let '(l, n, e) := scan_plain bs in
  rx_run bs r = rx_run (drop n bs) (r <| rx_drop ::= λ d, d ++ l |> <| rx_esc := e |>).
Proof.
  intros Hs He. apply (rx_run_scan (λ l r, r <| rx_drop ::= λ d, d ++ l |>)).
  - unfold rx_active. by rewrite Hs.
  - done.
  - by intros.
  - intros c r' Hr' He' Hc. unfold rx_byte. by rewrite He', Hc, Hr', Hs.
  - intros [? ? ? ? ? ?]. simpl. by rewrite app_nil_r.
  - intros l1 l2 [? ? ? ? ? ?]. simpl. by rewrite app_assoc.
Qed.

Lemma rx_run_fill bs r :
  rx_state r = kRcvFill → rx_esc r = false →
  let '(l, n, e) := scan_plain bs in
  rx_run bs r = rx_run (drop n bs) (r <| rx_pkt ::= λ d, d ++ l |> <| rx_esc := e |>).
Proof.
  intros Hs He. apply (rx_run_scan (λ l r, r <| rx_pkt ::= λ d, d ++ l |>)).
  - unfold rx_active. by rewrite Hs.
  - done.
  - by intros.
  - intros c r' Hr' He' Hc. unfold rx_byte. by rewrite He', Hc, Hr', Hs.
  - intros [? ? ? ? ? ?]. simpl. by rewrite app_nil_r.
  - intros l1 l2 [? ? ? ? ? ?]. simpl. by rewrite app_assoc.
Qed.

Lemma scan_plain_bounds bs :
  let '(l, n, e) := scan_plain bs in
  (n <= length bs)%nat ∧ (bs ≠ [] → 0 < n)%nat ∧ (e = false → n = length bs).
Proof.
  induction bs as [|c bs IH]; simpl; [done|].
  destruct (c =? kSymEsc); [simpl; repeat split; by (done || lia)|].
  destruct (scan_plain bs) as [[l n] e]. destruct IH as (? & ? & ?).
  simpl. repeat split; [lia|lia|intros ->; f_equal; auto].
Qed.

(** ** Lemmas: the buffer window *)

Lemma length_pending st : RawInv st → length (pending st) = todo st.
Proof.
  intros [Hl [H1 H2]]. unfold pending, todo. rewrite length_drop, length_take. lia.
Qed.

Lemma more_true st : more st = true ↔ (0 < todo st)%nat.
Proof. unfold more, todo. rewrite Nat.ltb_lt. lia. Qed.

Lemma pending_cons st :
  RawInv st → more st = true →
  pending st = raw_at (fRawBufDone st) st :: drop (S (fRawBufDone st)) (take (fRawBufSize st) (fRawBuf st)).
Proof.
  intros [Hl [H1 H2]] Hm. unfold more in Hm. apply Nat.ltb_lt in Hm.
  unfold pending, raw_at. apply drop_S. rewrite lookup_take_lt by lia.
  rewrite nth_lookup. destruct (fRawBuf st !! fRawBufDone st) eqn:E; [done|].
  apply lookup_ge_None in E. lia.
Qed.

(** ** Lemmas: one iteration of the loops *)

(** What the loop bodies preserve: the future, and the buffer content. *)
Record step_ok (st st' : Rcv) : Prop := {
  so_future : future st' = future st;
  so_inv : RawInv st';
  so_raw : fRawBuf st' = fRawBuf st ∧ fRawBufSize st' = fRawBufSize st;
  so_done : (fRawBufDone st <= fRawBufDone st')%nat;
  so_crc : fPktCrc (rb st') = fPktCrc (rb st) ∧ fNDone st' = fNDone st }.

Lemma step_ok_refl st : RawInv st → step_ok st st.
Proof. by split. Qed.

Lemma step_ok_trans a b c : step_ok a b → step_ok b c → step_ok a c.
Proof.
  intros [? ? [? ?] ? [? ?]] [? ? [? ?] ? [? ?]]. split; [congruence|done|split; congruence|lia|].
  split; congruence.
Qed.

Lemma GetEcode_ok st :
  fEscSeen st = true → more st = true →
  GetEcode st =
  (Ret (ecode (raw_at (fRawBufDone st) st)),
   stat_inc (ecode_stat (ecode (raw_at (fRawBufDone st) st))) 1
     (st <| fEscSeen := false |> <| fRawBufDone ::= S |>)).
Proof.
  intros He Hm. unfold GetEcode. rewrite He. simpl.
  unfold more in Hm. apply Nat.ltb_lt in Hm.
  by rewrite (proj2 (Nat.leb_gt _ _)) by lia.
Qed.

(** A state change that consumes the byte after an escape symbol. *)
Lemma escape_step st st' :
  RawInv st → more st = true → fEscSeen st = true → rx_active (view st) = true →
  fRawBuf st' = fRawBuf st → fRawBufSize st' = fRawBufSize st →
  fRawBufDone st' = S (fRawBufDone st) →
  fPktCrc (rb st') = fPktCrc (rb st) → fNDone st' = fNDone st →
  view st' = rx_escape (raw_at (fRawBufDone st) st) (view st) →
  step_ok st st'.
Proof.
  intros Hi Hm He Ha H1 H2 H3 H4 H5 Hv. split.
  - unfold future. rewrite (pending_cons st) by done. rewrite rx_run_cons by done.
    rewrite Hv. unfold pending at 1. rewrite H1, H2, H3. f_equal.
    unfold rx_byte. change (rx_esc (view st)) with (fEscSeen st). by rewrite He.
  - destruct Hi as [? [? ?]]. unfold more in Hm. apply Nat.ltb_lt in Hm.
    split; [congruence|]. lia.
  - done.
  - lia.
  - done.
Qed.

(** A state change by the plain data loop. *)
Lemma plain_step st st' n :
  RawInv st → fRawBuf st' = fRawBuf st → fRawBufSize st' = fRawBufSize st →
  fRawBufDone st' = (fRawBufDone st + n)%nat → (n <= length (pending st))%nat →
  fPktCrc (rb st') = fPktCrc (rb st) → fNDone st' = fNDone st →
  rx_run (pending st) (view st) = rx_run (drop n (pending st)) (view st') →
  step_ok st st'.
Proof.
  intros Hi H1 H2 H3 Hn H4 H5 Hv. rewrite length_pending in Hn by done. unfold todo in Hn. split.
  - unfold future. rewrite Hv. f_equal. unfold pending. by rewrite H1, H2, H3, drop_drop.
  - destruct Hi as [? [? ?]]. split; [congruence|]. lia.
  - done.
  - lia.
  - done.
Qed.

Lemma idle_plain_ok st :
  RawInv st → fRcvState st = kRcvIdle → fEscSeen st = false →
  step_ok st (idle_plain st) ∧ fRcvState (idle_plain st) = kRcvIdle ∧
  (more st = true → fRawBufDone st < fRawBufDone (idle_plain st))%nat.
Proof.
  intros Hi Hs He. pose proof (scan_plain_bounds (pending st)) as Hb.
  pose proof (rx_run_idle (pending st) (view st) Hs He) as Hr.
  pose proof (length_pending st Hi) as Hl. unfold idle_plain.
  destruct (scan_plain (pending st)) as [[l n] e]. destruct Hb as (Hb1 & Hb2 & Hb3).
  split; [|split; [done|]].
  - apply (plain_step st _ n); try done. rewrite Hr. f_equal. unfold view. simpl. by rewrite He, orb_false_r.
  - rewrite more_true, <- Hl. simpl. intros Hm. destruct (pending st); simpl in *; [lia|].
    specialize (Hb2 ltac:(done)). lia.
Qed.

Lemma fill_plain_ok st :
  RawInv st → fRcvState st = kRcvFill → fEscSeen st = false →
  step_ok st (fill_plain st) ∧ fRcvState (fill_plain st) = kRcvFill ∧
  (more st = true → fRawBufDone st < fRawBufDone (fill_plain st))%nat.
Proof.
  intros Hi Hs He. pose proof (scan_plain_bounds (pending st)) as Hb.
  pose proof (rx_run_fill (pending st) (view st) Hs He) as Hr.
  pose proof (length_pending st Hi) as Hl. unfold fill_plain.
  destruct (scan_plain (pending st)) as [[l n] e]. destruct Hb as (Hb1 & Hb2 & Hb3).
  split; [|split; [done|]].
  - apply (plain_step st _ n); try done. rewrite Hr. f_equal. unfold view. simpl. by rewrite He, orb_false_r.
  - rewrite more_true, <- Hl. simpl. intros Hm. destruct (pending st); simpl in *; [lia|].
    specialize (Hb2 ltac:(done)). lia.
Qed.

(** Decide the tests whose outcome is a hypothesis. *)
Ltac rewrite_tests :=
  repeat match goal with H : (_ =? _) = _ |- _ => rewrite H; clear H end.

(** Outcome of the escape part of an iteration: the loop either goes on in
    the same state with no escape pending, or returns in another state. *)
Lemma idle_escape_ok st :
  RawInv st → more st = true → fRcvState st = kRcvIdle →
  ∃ r st', idle_escape st = (Ret r, st') ∧ step_ok st st' ∧
    match r with
    | None => fRcvState st' = kRcvIdle ∧ fEscSeen st' = false ∧ (fEscSeen st = true ∨ st' = st)
              ∧ (fEscSeen st = true → fRawBufDone st < fRawBufDone st')%nat
    | Some _ => fRcvState st' = kRcvFill ∧ (fRawBufDone st < fRawBufDone st')%nat
    end.
Proof.
  intros Hi Hm Hs. unfold idle_escape. destruct (fEscSeen st) eqn:He.
  2:{ exists None, st. split; [done|]. split; [by apply step_ok_refl|]. naive_solver. }
  unfold mbind, M_bind. rewrite GetEcode_ok by done.
  set (c := raw_at _ _). destruct (ecode c =? kEcSop) eqn:E1; [|destruct (ecode c =? kEcAttn) eqn:E2].
  all: eexists _, _; split; [reflexivity|].
  all: split; [apply escape_step; try done;
    [unfold rx_active; simpl; by rewrite Hs|
     unfold rx_escape; simpl; rewrite Hs; fold c; rewrite_tests; unfold view; simpl; rewrite ?Hs;
     rewrite ?Nat.sub_0_r; done]|].
  all: unfold fill_nak; simpl; split_and?; auto; lia.
Qed.

Lemma fill_escape_ok st :
  RawInv st → more st = true → fRcvState st = kRcvFill →
  ∃ r st', fill_escape st = (Ret r, st') ∧ step_ok st st' ∧
    match r with
    | None => fRcvState st' = kRcvFill ∧ fEscSeen st' = false ∧ (fEscSeen st = true ∨ st' = st)
              ∧ (fEscSeen st = true → fRawBufDone st < fRawBufDone st')%nat
    | Some _ => rx_active (view st') = false ∧ (fRawBufDone st < fRawBufDone st')%nat
    end.
Proof.
  intros Hi Hm Hs. unfold fill_escape. destruct (fEscSeen st) eqn:He.
  2:{ exists None, st. split; [done|]. split; [by apply step_ok_refl|]. naive_solver. }
  unfold mbind, M_bind. rewrite GetEcode_ok by done.
  set (c := raw_at _ _).
  assert (Hv : ∀ st', fRawBuf st' = fRawBuf st → fRawBufSize st' = fRawBufSize st →
    fRawBufDone st' = S (fRawBufDone st) → fPktCrc (rb st') = fPktCrc (rb st) →
    fNDone st' = fNDone st → view st' = rx_escape c (view st) → step_ok st st').
  { intros. apply escape_step; try done. unfold rx_active. simpl. by rewrite Hs. }
  destruct (ecode c =? kEcEop) eqn:E1; [|destruct (ecode c =? kEcNak) eqn:E2;
   [|destruct (ecode c =? kEcXon) eqn:E3; [|destruct (ecode c =? kEcXoff) eqn:E4;
   [|destruct (ecode c =? kEcFill) eqn:E5; [|destruct (ecode c =? kEcEsc) eqn:E6;
   [|destruct (ecode c =? kEcClobber) eqn:E7]]]]]].
  2:{ unfold gets. simpl. unfold TestFlag. simpl.
      destruct (Z.land (fFlags (rb st)) _ =? 0) eqn:Ef; simpl.
      all: eexists _, _; split; [reflexivity|].
      all: split; [apply Hv; try done; unfold rx_escape; simpl; rewrite Hs, E1, E2;
        change (fFlags_ st) with (fFlags (rb st)); rewrite Ef; unfold view; simpl; rewrite ?Hs; done|].
      all: unfold fill_nak; simpl; split_and?; auto; lia. }
  all: eexists _, _; split; [reflexivity|].
  all: split; [apply Hv; try done; unfold rx_escape; simpl;
    rewrite Hs; rewrite_tests; unfold view; simpl; rewrite ?Hs; done|].
  all: unfold fill_nak; simpl; split_and?; auto; lia.
Qed.

(** ** Lemmas: the loops *)

(** The common shape of [ProcessDataIdle] and [ProcessDataFill]: an escape part
    and a plain part that stay in state [s0], until the buffer is exhausted or
    the escape part leaves the state into one satisfying [gone]. *)
Section ProcessLoop.
Context (esc : M Rcv (option ())) (plain : Rcv → Rcv) (s0 : rcv_state) (gone : Rcv → Prop).
Hypothesis Hesc : ∀ st, RawInv st → more st = true → fRcvState st = s0 →
  ∃ r st', esc st = (Ret r, st') ∧ step_ok st st' ∧
    match r with
    | None => fRcvState st' = s0 ∧ fEscSeen st' = false ∧ (fEscSeen st = true ∨ st' = st)
              ∧ (fEscSeen st = true → fRawBufDone st < fRawBufDone st')%nat
    | Some _ => gone st' ∧ (fRawBufDone st < fRawBufDone st')%nat
    end.
Hypothesis Hplain : ∀ st, RawInv st → fRcvState st = s0 → fEscSeen st = false →
  step_ok st (plain st) ∧ fRcvState (plain st) = s0 ∧
  (more st = true → fRawBufDone st < fRawBufDone (plain st))%nat.

Definition loop_body : M Rcv (option ()) :=
  r ← esc; match r with Some x => mret (Some x) | None => modify plain ;; mret None end.

Lemma loop_body_ok s :
  RawInv s → more s = true → fRcvState s = s0 →
  match loop_body s with
  | (Ret None, s') => step_ok s s' ∧ fRcvState s' = s0 ∧ (fRawBufDone s < fRawBufDone s')%nat
  | (Ret (Some _), s') => step_ok s s' ∧ gone s' ∧ (fRawBufDone s < fRawBufDone s')%nat
  | _ => False
  end.
Proof.
  intros Hi Hm Hs. destruct (Hesc s Hi Hm Hs) as (r & s1 & Hr & Ho1 & Hc).
  unfold loop_body, mbind, M_bind. rewrite Hr. destruct r as [[]|]; [by destruct Hc|].
  destruct Hc as (Hc1 & Hc2 & Hc3 & Hc4). unfold modify. simpl.
  destruct (Hplain s1 (so_inv _ _ Ho1) Hc1 Hc2) as (Ho2 & Hs2 & Hd2).
  split; [by eapply step_ok_trans|]. split; [done|].
  pose proof (so_done _ _ Ho2). destruct Hc3 as [He| ->]; [specialize (Hc4 He); lia|auto].
Qed.

Lemma ProcessLoop_ok st :
  RawInv st → fRcvState st = s0 →
  ∃ st', (while_ (todo st) more loop_body ;; mret ()) st = (Ret (), st') ∧ step_ok st st' ∧
    (fRcvState st' = s0 ∧ more st' = false ∨ gone st') ∧
    (more st = true → fRawBufDone st < fRawBufDone st')%nat.
Proof.
  intros Hi Hs. unfold mbind, M_bind.
  set (I := λ s, step_ok st s ∧ fRcvState s = s0 ∧
                 (s = st ∨ (fRawBufDone st < fRawBufDone s)%nat)).
  set (Q := λ (o : outcome (option ())) s, ∃ r, o = Ret r ∧ step_ok st s ∧
    (fRcvState s = s0 ∧ more s = false ∨ gone s) ∧
    (more st = true → fRawBufDone st < fRawBufDone s)%nat).
  assert (HQ : Q (while_ (todo st) more loop_body st).1 (while_ (todo st) more loop_body st).2).
  { apply (while_rule I Q todo); [..|by split; [apply step_ok_refl|auto]|lia].
    - intros s (Ho & Hs' & Hd) Hm. exists None. split_and!; [done|done|by left|].
      destruct Hd as [->|]; [congruence|done].
    - intros s (Ho & Hs' & Hd) Hm. split; [by apply more_true|].
      pose proof (loop_body_ok s (so_inv _ _ Ho) Hm Hs') as Hb.
      destruct (loop_body s) as [[[[]|]|e|] s1]; [| |done|done]; destruct Hb as (Ho1 & Hc & Hlt).
      + exists (Some ()). split_and!; [done|by eapply step_ok_trans|by right|].
        intros _. destruct Hd as [->|]; lia.
      + split; [split_and!; [by eapply step_ok_trans|done|right; destruct Hd as [->|]; lia]|].
        apply more_true in Hm. unfold todo in *. pose proof (so_raw _ _ Ho1) as [_ ->]. lia. }
  destruct HQ as (r & Hr & HQ). destruct (while_ _ _ _ _) as [o s']. simpl in *. subst o.
  exists s'. by split.
Qed.
End ProcessLoop.

Lemma ProcessDataIdle_ok st :
  RawInv st → fRcvState st = kRcvIdle →
  ∃ st', ProcessDataIdle st = (Ret (), st') ∧ step_ok st st' ∧
    (fRcvState st' = kRcvIdle ∧ more st' = false ∨ fRcvState st' = kRcvFill) ∧
    (more st = true → fRawBufDone st < fRawBufDone st')%nat.
Proof.
  apply (ProcessLoop_ok idle_escape idle_plain kRcvIdle (λ s, fRcvState s = kRcvFill));
    auto using idle_escape_ok, idle_plain_ok.
Qed.

Lemma ProcessDataFill_ok st :
  RawInv st → fRcvState st = kRcvFill →
  ∃ st', ProcessDataFill st = (Ret (), st') ∧ step_ok st st' ∧
    (fRcvState st' = kRcvFill ∧ more st' = false ∨ rx_active (view st') = false) ∧
    (more st = true → fRawBufDone st < fRawBufDone st')%nat.
Proof.
  apply (ProcessLoop_ok fill_escape fill_plain kRcvFill (λ s, rx_active (view s) = false));
    auto using fill_escape_ok, fill_plain_ok.
Qed.

(** [ProcessData] ends with an exhausted buffer or a stopped state machine. *)
Lemma ProcessData_ok st :
  RawInv st →
  ∃ st', ProcessData st = (Ret (more st), st') ∧ step_ok st st' ∧
    (more st' = false ∨ rx_active (view st') = false).
Proof.
  intros Hi. unfold ProcessData, mbind, M_bind.
  destruct (Nat.eqb_spec (fRawBufDone st) (fRawBufSize st)) as [He|Hne].
  { exists st. assert (more st = false) by (unfold more; apply Nat.ltb_ge; lia).
    split_and!; [congruence|by apply step_ok_refl|by left]. }
  assert (Hm : more st = true).
  { destruct Hi as [_ [? ?]]. unfold more. apply Nat.ltb_lt. lia. }
  set (Q := λ (o : outcome (option bool)) s, (o = Ret None ∨ o = Ret (Some true)) ∧ step_ok st s ∧
    (more s = false ∨ rx_active (view s) = false)).
  assert (HQ : Q (while_ (todo st) more process_body st).1
                 (while_ (todo st) more process_body st).2).
  { apply (while_rule (step_ok st) Q todo); [..|by apply step_ok_refl|lia].
    - intros s Ho Hm'. split_and!; auto.
    - intros s Ho Hm'. split; [by apply more_true|]. pose proof (so_inv _ _ Ho) as Hi'.
      unfold process_body, mbind, M_bind. destruct (fRcvState s) eqn:Hs.
      + destruct (ProcessDataIdle_ok s Hi' Hs) as (s1 & -> & Ho1 & _ & Hd).
        split; [by eapply step_ok_trans|]. specialize (Hd Hm').
        apply more_true in Hm'. unfold todo in *. pose proof (so_raw _ _ Ho1) as [_ ->]. lia.
      + destruct (ProcessDataFill_ok s Hi' Hs) as (s1 & -> & Ho1 & _ & Hd).
        split; [by eapply step_ok_trans|]. specialize (Hd Hm').
        apply more_true in Hm'. unfold todo in *. pose proof (so_raw _ _ Ho1) as [_ ->]. lia.
      + split_and!; [by right|done|right]. unfold rx_active. simpl. by rewrite Hs.
      + split_and!; [by right|done|right]. unfold rx_active. simpl. by rewrite Hs. }
  destruct HQ as ([Hr|Hr] & HQ1 & HQ2); destruct (while_ _ _ _ _) as [o s']; simpl in *; subst o;
    exists s'; (split; [|by split]); rewrite Hm; done.
Qed.

Lemma ProcessData_run st :
  RawInv st →
  ∃ st', ProcessData st = (Ret (more st), st') ∧ step_ok st st' ∧
         rx_run (pending st) (view st) = (view st', pending st').
Proof.
  intros Hi. destruct (ProcessData_ok st Hi) as (st' & Hp & Ho & Hend).
  exists st'. split_and!; [done|done|].
  fold (future st). rewrite <- (so_future _ _ Ho). unfold future.
  destruct Hend as [Hend|Hend]; [|by apply rx_run_stop].
  assert (pending st' = []) as ->; [|by rewrite rx_run_nil].
  apply length_zero_iff_nil. rewrite length_pending by apply Ho.
  unfold more in Hend. apply Nat.ltb_ge in Hend. unfold todo. lia.
Qed.

(** A run either stops the automaton or takes all bytes; it takes at least one. *)
Lemma rx_run_rest bs r r' rest :
  rx_run bs r = (r', rest) → rx_active r' = true → rest = [].
Proof.
  revert r. induction bs as [|c bs IH]; intros r; [rewrite rx_run_nil; by intros [= <- <-]|].
  destruct (rx_active r) eqn:E; [rewrite rx_run_cons by done; apply IH|].
  rewrite rx_run_stop by done. intros [= <- <-]. congruence.
Qed.

Lemma rx_run_length bs r r' rest : rx_run bs r = (r', rest) → (length rest <= length bs)%nat.
Proof.
  revert r. induction bs as [|c bs IH]; intros r; [rewrite rx_run_nil; by intros [= <- <-]|].
  destruct (rx_active r) eqn:E; [rewrite rx_run_cons by done|].
  - intros H%IH. simpl. lia.
  - rewrite rx_run_stop by done. by intros [= <- <-].
Qed.

Lemma rx_run_progress bs r r' rest :
  rx_run bs r = (r', rest) → rx_active r = true → bs ≠ [] → (length rest < length bs)%nat.
Proof.
  destruct bs as [|c bs]; [done|]. intros H Ha _. rewrite rx_run_cons in H by done.
  apply rx_run_length in H. simpl. lia.
Qed.

(** ** Lemmas: framed packets *)

Lemma ecode_escaped ec : 0 <= ec < 8 → ecode (escaped ec) = ec.
Proof.
  intros H. apply Z.eqb_eq. revert ec H.
  by apply (below_spec 8 (λ ec, ecode (escaped ec) =? ec)); vm_compute.
Qed.

Lemma rx_run_frame_byte xon c bs r :
  rx_state r = kRcvFill → rx_esc r = false →
  rx_run (frame_byte xon c ++ bs) r = rx_run bs (rx_push c r).
Proof.
  intros Hs He. destruct r as [rs re rp rf rn rd]. simpl in Hs, He. subst.
  unfold frame_byte.
  destruct (Z.eqb_spec c kSymEsc) as [->|Hne]; [reflexivity|].
  destruct (xon && (c =? kSymXon)) eqn:E1.
  { apply andb_true_iff in E1 as [_ ->%Z.eqb_eq]. reflexivity. }
  destruct (xon && (c =? kSymXoff)) eqn:E2.
  { apply andb_true_iff in E2 as [_ ->%Z.eqb_eq]. reflexivity. }
  change ([c] ++ bs) with (c :: bs). rewrite rx_run_cons by done.
  unfold rx_byte. apply Z.eqb_neq in Hne. by rewrite Hne.
Qed.

Lemma rx_run_frame_bytes xon pkt bs r :
  rx_state r = kRcvFill → rx_esc r = false →
  rx_run (concat (map (frame_byte xon) pkt) ++ bs) r = rx_run bs (r <| rx_pkt ::= λ l, l ++ pkt |>).
Proof.
  revert r. induction pkt as [|c pkt IH]; intros r Hs He.
  { destruct r. simpl. by rewrite app_nil_r. }
  cbn [map concat]. rewrite <- app_assoc, rx_run_frame_byte, IH by done.
  destruct r; simpl. by rewrite <- app_assoc.
Qed.

(** A complete frame takes the idle automaton to [kRcvDone]. *)
Lemma rx_run_frame xon pkt bs r :
  rx_state r = kRcvIdle → rx_esc r = false →
  rx_run (frame xon pkt ++ bs) r =
  (rx_flag kFlagEopSeen (rx_flag kFlagSopSeen r) <| rx_pkt ::= λ l, l ++ pkt |>
     <| rx_state := kRcvDone |>, bs).
Proof.
  intros Hs He. destruct r as [rs re rp rf rn rd]. simpl in Hs, He. subst.
  unfold frame. rewrite <- !app_assoc.
  change (rx_run ([kSymEsc; escaped kEcSop] ++ ?x) ?r) with
    (rx_run x (rx_byte (escaped kEcSop) (rx_byte kSymEsc r))).
  rewrite rx_run_frame_bytes by reflexivity.
  change (rx_run ([kSymEsc; escaped kEcEop] ++ ?x) ?r) with
    (rx_run x (rx_byte (escaped kEcEop) (rx_byte kSymEsc r))).
  rewrite rx_run_stop by reflexivity. reflexivity.
Qed.

Lemma rx_run_garbage g bs r :
  rx_state r = kRcvIdle → rx_esc r = false → Forall (λ c, c ≠ kSymEsc) g →
  rx_run (g ++ bs) r = rx_run bs (r <| rx_drop ::= λ d, d ++ g |>).
Proof.
  intros Hs He Hg. revert r Hs He. induction Hg as [|c g Hc _ IH]; intros r Hs He.
  { destruct r. simpl. by rewrite app_nil_r. }
  change ((c :: g) ++ bs) with (c :: (g ++ bs)).
  rewrite rx_run_cons by (unfold rx_active; by rewrite Hs).
  unfold rx_byte. apply Z.eqb_neq in Hc. rewrite He, Hc, Hs, IH by done.
  destruct r; simpl. by rewrite <- app_assoc.
Qed.

(** ** The read loop, reduced to its two calls *)

Section Receive.
Context {P : Type} `{!RlinkPort P}.

Fixpoint receive (n : nat) (timeout : Rtime) (st : Rcv) (p : P) : outcome () * Rcv * P :=
  match n with
  | O => (Ret (), st, p)
  | S n =>
      match ReadData timeout st p with
      | (Ret _, st, p) =>
          match ProcessData st with
          | (Ret _, st) => receive n timeout st p
          | (Exc e, st) => (Exc e, st, p)
          | (NoFuel, st) => (NoFuel, st, p)
          end
      | (Exc e, st, p) => (Exc e, st, p)
      | (NoFuel, st, p) => (NoFuel, st, p)
      end
  end.

(** A successful read loads its data, a failed one leaves an empty buffer. *)
Lemma ReadData_ok `{!RlinkPortLaws P} timeout st p r p' :
  RawInv st → more st = false → port_Read RawBufSize timeout p = (r, p') →
  ∃ st', ReadData timeout st p =
      (Ret (if IsZero timeout && (rd_irc r =? kTout) then (0, rd_emsg r) else
            (rd_irc r, if rd_irc r =? kEof
               then mkRerrMsg "RlinkPacketBuf::ReadData()" "eof on read" else rd_emsg r)), st', p')
    ∧ fRcvState st' = fRcvState st ∧ fEscSeen st' = fEscSeen st ∧ fNDone st' = fNDone st
    ∧ (0 < rd_irc r → RawInv st' ∧ view st' = view st ∧ rb st' = rb st ∧ pending st' = rd_data r)
    ∧ (rd_irc r <= 0 → pending st' = [] ∧ more st' = false).
Proof.
  intros [Hl [H1 H2]] Hm Hr. unfold more in Hm. apply Nat.ltb_ge in Hm.
  unfold ReadData. rewrite (proj2 (Nat.eqb_eq _ _)) by lia. simpl. rewrite Hr.
  destruct (Z.leb_spec (rd_irc r) 0) as [Hle|Hlt].
  - destruct (IsZero timeout && (rd_irc r =? kTout)) eqn:E.
    { eexists. split_and!; try done. intros. lia. }
    destruct (Z.eqb_spec (rd_irc r) kTout) as [Ht|Ht].
    + eexists. rewrite Ht in *. simpl. split_and!; try done.
    + eexists. split_and!; try done. intros. lia.
  - destruct (port_Read_bounds _ _ _ _ _ Hr Hlt) as (Hi & Hn & Hu).
    assert (rd_irc r =? kTout = false) as -> by (apply Z.eqb_neq; unfold kTout; lia).
    assert (rd_irc r =? kEof = false) as -> by (apply Z.eqb_neq; unfold kEof; lia).
    rewrite andb_false_r. eexists. split_and!; try done; [|intros; lia].
    intros _. unfold RawInv, pending. simpl. rewrite Hi, Nat2Z.id.
    split_and!; try done; try lia.
    + rewrite length_app, length_drop. unfold RawBufSize in *. lia.
    + rewrite drop_0. apply take_app_length.
Qed.
End Receive.

(** Reading the chunks of a [SimPort] one after the other. *)
Lemma receive_chunks cs out now timeout st r :
  RawInv st → more st = false →
  Forall (λ c, 0 < length c <= RawBufSize)%nat cs → Forall is_u8 (concat cs) →
  rx_run (concat cs) (view st) = (r, []) →
  ∃ st' p', receive (length cs) timeout st (mkSimPort cs out now) = (Ret (), st', p') ∧
    RawInv st' ∧ more st' = false ∧ view st' = r ∧
    fPktCrc (rb st') = fPktCrc (rb st) ∧ fNDone st' = fNDone st.
Proof.
  revert st. induction cs as [|c cs IH]; intros st Hi Hm Hcs Hu Hr.
  { cbn [concat] in Hr. rewrite rx_run_nil in Hr. simplify_eq. simpl. by eauto 10. }
  apply Forall_cons_iff in Hcs as [Hc Hcs]. simpl in Hu. apply Forall_app in Hu as [Huc Hu].
  assert (Hread : port_Read RawBufSize timeout (mkSimPort (c :: cs) out now) =
    (mkRead (Z.of_nat (length c)) c emsg_none, mkSimPort cs out now)).
  { simpl. unfold sim_Read. simpl.
    assert (map u8 c = c) as ->.
    { clear -Huc. induction Huc; simpl; [done|]. rewrite u8_id by done. by f_equal. }
    rewrite drop_ge, take_ge by lia. done. }
  destruct (ReadData_ok timeout st _ _ _ Hi Hm Hread) as (s1 & Hrd & _ & _ & Hn & Hpos & _).
  simpl in Hpos. destruct Hpos as (Hi1 & Hv1 & Hb1 & Hp1); [lia|].
  destruct (ProcessData_ok s1 Hi1) as (s2 & Hpd & Ho & Hend).
  simpl. rewrite Hrd, Hpd.
  cbn [concat] in Hr. rewrite rx_run_app in Hr.
  assert (Hrun : rx_run c (view st) = (view s2, pending s2)).
  { rewrite <- Hv1, <- Hp1. fold (future s1). rewrite <- (so_future _ _ Ho). unfold future.
    destruct Hend as [Hend|Hend]; [|by apply rx_run_stop].
    assert (pending s2 = []) as ->; [|by rewrite rx_run_nil].
    apply length_zero_iff_nil. rewrite length_pending by apply Ho.
    unfold more in Hend. apply Nat.ltb_ge in Hend. unfold todo. lia. }
  rewrite Hrun in Hr.
  assert (more s2 = false ∧ rx_run (concat cs) (view s2) = (r, [])) as [Hm2 Hr2].
  { destruct (rx_active (view s2)) eqn:Ea.
    - destruct Hend as [Hend|Hend]; [done|congruence].
    - simplify_eq. apply app_nil in H0 as [Hp2 Hcat]. rewrite Hcat.
      rewrite rx_run_nil. split; [|done]. destruct (more s2) eqn:E; [|done].
      apply more_true in E. rewrite <- length_pending, Hp2 in E by apply Ho. simpl in E. lia. }
  destruct (IH s2) as (s3 & p3 & H3 & Hi3 & Hm3 & Hv3 & Hc3 & Hd3); try done; [apply Ho|].
  destruct (so_crc _ _ Ho) as [Hoc Hod].
  exists s3, p3. split_and!; try done; congruence.
Qed.

(** ** Fields of a packet: what the put and get methods exchange *)

Inductive field :=
| F8 (b : Z)            (** PutWithCrc/GetWithCrc of a byte *)
| F16 (w : Z)           (** ... of a 16 bit word *)
| FBlk (ws : list Z)    (** ... of a block of words *)
| FCrc.                 (** PutCrc/CheckCrc *)
Definition field_ok (f : field) : Prop :=
  match f with
  | F8 b => is_u8 b
  | F16 w => is_u16 w
  | FBlk ws => Forall is_u16 ws
  | FCrc => True
  end.

Definition put_field (s : RlinkPacketBufSnd) (f : field) : RlinkPacketBufSnd :=
  match f with
  | F8 b => PutWithCrc8 b s
  | F16 w => PutWithCrc16 w s
  | FBlk ws => PutWithCrcBlk ws s
  | FCrc => PutCrc s
  end.
(** Read a field and compare it with the one expected. *)
Definition get_field (f : field) (st : Rcv) : option (bool * Rcv) :=
  match f with
  | F8 b => '(d, st) ← GetWithCrc8 st; Some (d =? b, st)
  | F16 w => '(d, st) ← GetWithCrc16 st; Some (d =? w, st)
  | FBlk ws => '(ds, st) ← GetWithCrcBlk (length ws) st; Some (bool_decide (ds = ws), st)
  | FCrc => CheckCrc st
  end.
Fixpoint get_fields (fs : list field) (st : Rcv) : option (bool * Rcv) :=
  match fs with
  | [] => Some (true, st)
  | f :: fs => '(b, st) ← get_field f st;
               if (b : bool) then get_fields fs st else Some (false, st)
  end.

Definition field_data (f : field) : list Z :=
  match f with
  | F8 b => [b]
  | F16 w => [lo8 w; hi8 w]
  | FBlk ws => words_bytes ws
  | FCrc => []
  end.
Definition field_bytes (c : RlinkCrc16) (f : field) : list Z :=
  match f with FCrc => [lo8 (Crc c); hi8 (Crc c)] | _ => field_data f end.
(** The CRC accumulator runs over the data of a whole packet: a CRC field
    neither enters nor resets it. *)
Fixpoint fields_bytes (c : RlinkCrc16) (fs : list field) : list Z :=
  match fs with
  | [] => []
  | f :: fs => field_bytes c f ++ fields_bytes (AddBytes (field_data f) c) fs
  end.

Lemma put_fields_spec fs s :
  fPktBuf (sb (fold_left put_field fs s)) =
    fPktBuf (sb s) ++ fields_bytes (fPktCrc (sb s)) fs ∧
  fPktCrc (sb (fold_left put_field fs s)) = AddBytes (concat (map field_data fs)) (fPktCrc (sb s)) ∧
  fXonEscape (fold_left put_field fs s) = fXonEscape s.
Proof.
  revert s. induction fs as [|f fs IH]; intros s; [simpl; by rewrite app_nil_r|].
  cbn [fold_left fields_bytes map concat]. destruct (IH (put_field s f)) as (-> & -> & ->).
  rewrite AddBytes_app.
  destruct f as [b|w|ws|]; cbn [put_field field_bytes field_data].
  - simpl. by rewrite <- app_assoc.
  - simpl. by rewrite <- app_assoc.
  - rewrite PutWithCrcBlk_spec. simpl. by rewrite <- app_assoc.
  - simpl. by rewrite <- app_assoc.
Qed.

(** The receiver is about to read [bs]. *)
Definition at_bytes (bs : list Z) (st : Rcv) : Prop := drop (fNDone st) (fPktBuf_ st) = bs.

Lemma GetByte_ok c bs st :
  at_bytes (c :: bs) st →
  ∃ st', GetByte st = Some (c, st') ∧ at_bytes bs st' ∧ fPktCrc (rb st') = fPktCrc (rb st) ∧
         fNDone st' = S (fNDone st) ∧ fPktBuf_ st' = fPktBuf_ st.
Proof.
  unfold at_bytes, GetByte. intros H.
  assert (fPktBuf_ st !! fNDone st = Some c) as ->.
  { by rewrite <- (Nat.add_0_r (fNDone st)), <- lookup_drop, H. }
  eexists. split_and!; try done. simpl. change (fPktBuf_ _) with (fPktBuf_ st) at 1.
  rewrite <- Nat.add_1_r, <- drop_drop, H. done.
Qed.

Lemma GetWithCrc16_ok w bs st :
  is_u16 w → at_bytes (lo8 w :: hi8 w :: bs) st →
  ∃ st', GetWithCrc16 st = Some (w, st') ∧ at_bytes bs st' ∧
         fPktCrc (rb st') = AddBytes [lo8 w; hi8 w] (fPktCrc (rb st)) ∧
         fNDone st' = (2 + fNDone st)%nat ∧ fPktBuf_ st' = fPktBuf_ st.
Proof.
  intros Hw H. destruct (GetByte_ok _ _ _ H) as (s1 & H1 & Ha1 & Hc1 & Hn1 & Hp1).
  destruct (GetByte_ok _ _ _ Ha1) as (s2 & H2 & Ha2 & Hc2 & Hn2 & Hp2).
  unfold GetWithCrc16. rewrite H1. simpl. rewrite H2. simpl.
  eexists. split; [by rewrite word_of_lo_hi|].
  split; [exact Ha2|]. simpl. rewrite Hc2, Hc1, Hn2, Hn1. split_and!; try done.
  unfold fPktBuf_. simpl. unfold fPktBuf_ in *. congruence.
Qed.

Lemma GetWithCrcBlk_ok ws bs st :
  Forall is_u16 ws → at_bytes (words_bytes ws ++ bs) st →
  ∃ st', GetWithCrcBlk (length ws) st = Some (ws, st') ∧ at_bytes bs st' ∧
         fPktCrc (rb st') = AddBytes (words_bytes ws) (fPktCrc (rb st)) ∧
         fNDone st' = (2 * length ws + fNDone st)%nat ∧ fPktBuf_ st' = fPktBuf_ st.
Proof.
  intros Hws. revert st. induction Hws as [|w ws Hw _ IH]; intros st H.
  { exists st. by split_and!. }
  unfold words_bytes in H. cbn [map concat] in H. rewrite <- app_assoc in H.
  destruct (GetWithCrc16_ok w _ st Hw H) as (s1 & H1 & Ha1 & Hc1 & Hn1 & Hp1).
  destruct (IH s1 Ha1) as (s2 & H2 & Ha2 & Hc2 & Hn2 & Hp2).
  exists s2. cbn [length GetWithCrcBlk]. rewrite H1. simpl. rewrite H2.
  split_and!; try done; try congruence; [|lia].
  rewrite Hc2, Hc1, <- AddBytes_app. done.
Qed.

Lemma get_field_ok f bs st :
  field_ok f → is_u16 (Crc (fPktCrc (rb st))) →
  at_bytes (field_bytes (fPktCrc (rb st)) f ++ bs) st →
  ∃ st', get_field f st = Some (true, st') ∧ at_bytes bs st' ∧
         fPktCrc (rb st') = AddBytes (field_data f) (fPktCrc (rb st)).
Proof.
  intros Hf Hc H. destruct f as [b|w|ws|]; cbn [get_field field_bytes field_data app] in *.
  - destruct (GetByte_ok _ _ _ H) as (s1 & H1 & Ha1 & Hc1 & _).
    unfold GetWithCrc8. rewrite H1. simpl. rewrite Z.eqb_refl.
    eexists. split_and!; [done|exact Ha1|]. simpl. by rewrite Hc1.
  - destruct (GetWithCrc16_ok _ _ _ Hf H) as (s1 & H1 & Ha1 & Hc1 & _).
    rewrite H1. simpl. rewrite Z.eqb_refl. by eauto.
  - destruct (GetWithCrcBlk_ok _ _ _ Hf H) as (s1 & H1 & Ha1 & Hc1 & _).
    rewrite H1. simpl. rewrite bool_decide_true by done. by eauto.
  - destruct (GetByte_ok _ _ _ H) as (s1 & H1 & Ha1 & Hc1 & _).
    destruct (GetByte_ok _ _ _ Ha1) as (s2 & H2 & Ha2 & Hc2 & _).
    unfold CheckCrc. rewrite H1. simpl. rewrite H2. simpl.
    exists s2. rewrite Hc2, Hc1, word_of_lo_hi, Z.eqb_refl by done. done.
Qed.

Lemma get_fields_ok fs st :
  Forall field_ok fs → is_u16 (Crc (fPktCrc (rb st))) →
  at_bytes (fields_bytes (fPktCrc (rb st)) fs) st →
  ∃ st', get_fields fs st = Some (true, st') ∧ at_bytes [] st'.
Proof.
  intros Hfs. revert st. induction Hfs as [|f fs Hf _ IH]; intros st Hc H; [by exists st|].
  cbn [fields_bytes] in H.
  destruct (get_field_ok f _ st Hf Hc H) as (s1 & H1 & Ha1 & Hc1).
  cbn [get_fields]. rewrite H1. simpl. apply IH.
  - rewrite Hc1. by apply AddBytes_range.
  - by rewrite Hc1.
Qed.

Lemma fields_bytes_u8 c fs : Forall field_ok fs → Forall is_u8 (fields_bytes c fs).
Proof.
  intros Hfs. revert c. induction Hfs as [|f fs Hf _ IH]; intros c; simpl; [done|].
  apply Forall_app. split; [|apply IH].
  destruct f as [b|w|ws|]; simpl in Hf |- *.
  - apply Forall_singleton. done.
  - repeat constructor; apply u8_range.
  - apply words_bytes_u8.
  - repeat constructor; apply u8_range.
Qed.

Lemma frame_u8 xon pkt : Forall is_u8 pkt → Forall is_u8 (frame xon pkt).
Proof.
  intros H. apply Forall_frame; try by vm_compute.
  intros c Hc. apply list_elem_of_In in Hc. rewrite Forall_forall in H. specialize (H c Hc).
  unfold frame_byte. repeat case_match; repeat (apply List.Forall_cons; [done|]); done.
Qed.

(** ** A receiver ready for the next packet *)

Definition ready (st : Rcv) : Prop :=
  RawInv st ∧ more st = false ∧ view st = mkRx kRcvIdle false [] 0 (-1) [] ∧
  fPktCrc (rb st) = RlinkCrc16_ctor ∧ fNDone st = 0%nat.

Lemma ready_ctor : ready RlinkPacketBufRcv_ctor.
Proof. by vm_compute; repeat split; try lia. Qed.

Lemma ready_AcceptPacket st :
  RawInv st → more st = false → fEscSeen st = false → ready (AcceptPacket st).
Proof.
  intros Hi Hm He. split_and!; try done. unfold view. simpl. by rewrite He.
Qed.

(** A frame behind garbage, in arbitrary chunks. *)
Lemma receive_frame xon g pkt cs out now timeout st :
  ready st → Forall is_u8 pkt → Forall is_u8 g → Forall (λ c, c ≠ kSymEsc) g →
  Forall (λ c, 0 < length c <= RawBufSize)%nat cs → concat cs = g ++ frame xon pkt →
  ∃ st' p', receive (length cs) timeout st (mkSimPort cs out now) = (Ret (), st', p') ∧
    RawInv st' ∧ more st' = false ∧
    view st' = mkRx kRcvDone false pkt (Z.lor kFlagSopSeen kFlagEopSeen) (-1) g ∧
    fPktCrc (rb st') = RlinkCrc16_ctor ∧ fNDone st' = 0%nat.
Proof.
  intros (Hi & Hm & Hv & Hc & Hn) Hp Hgu Hg Hcs Hcat.
  assert (Forall is_u8 (concat cs)).
  { rewrite Hcat. apply Forall_app. split; [done|by apply frame_u8]. }
  assert (rx_run (concat cs) (view st) =
    (mkRx kRcvDone false pkt (Z.lor kFlagSopSeen kFlagEopSeen) (-1) g, [])) as Hr.
  { rewrite Hcat, Hv, rx_run_garbage by done.
    rewrite <- (app_nil_r (frame xon pkt)), rx_run_frame by done. done. }
  destruct (receive_chunks cs out now timeout st _ Hi Hm Hcs H Hr)
    as (st' & p' & H1 & H2 & H3 & H4 & H5 & H6).
  exists st', p'. split_and!; congruence || done.
Qed.

(** ** Theorems *)

(** C25: from every state with valid buffer indices [ProcessData] terminates
    without exception, reports whether there were bytes to process, keeps the
    indices valid, and does on the buffer exactly what the byte automaton does
    on the pending bytes: same state, packet, flags and dropped data, and the
    same bytes left in the buffer. *)
Theorem ProcessData_refines_automaton st :
  RawInv st →
  ∃ st', ProcessData st = (Ret (more st), st') ∧ RawInv st' ∧
         rx_run (pending st) (view st) = (view st', pending st').
Proof.
  intros Hi. destruct (ProcessData_run st Hi) as (st' & Hp & Ho & Hr).
  exists st'. split_and!; [done|apply Ho|done].
Qed.

Lemma ProcessData_refines_automaton_witness :
  ∃ st', ProcessData (RlinkPacketBufRcv_ctor <| fRawBufSize := 5%nat |>) = (Ret true, st') ∧
    RawInv st' ∧ fDropData st' = [0; 0; 0; 0; 0].
Proof.
  destruct (ProcessData_refines_automaton (RlinkPacketBufRcv_ctor <| fRawBufSize := 5%nat |>))
    as (st' & H1 & H2 & H3).
  { split; [reflexivity|]. vm_compute. lia. }
  exists st'. split; [exact H1|]. split; [exact H2|].
  apply (f_equal (λ x, rx_drop (fst x))) in H3. vm_compute in H3. by rewrite H3.
Defined.

(** C26: a packet framed by the send side, behind line noise without escape
    symbols and cut into read chunks at arbitrary positions, is received as a
    complete response packet with exactly the bytes sent; the noise ends up in
    the drop buffer. *)
Theorem framed_packet_received s g cs out now timeout st :
  ready st → Forall is_u8 (fPktBuf (sb s)) → Forall is_u8 g → Forall (λ c, c ≠ kSymEsc) g →
  Forall (λ c, 0 < length c <= RawBufSize)%nat cs →
  concat cs = g ++ PacketBuf.fRawBuf (FramePacket s) →
  ∃ st' p', receive (length cs) timeout st (mkSimPort cs out now) = (Ret (), st', p') ∧
    PacketState st' = kPktResp ∧ fPktBuf_ st' = fPktBuf (sb s) ∧ fDropData st' = g.
Proof.
  intros Hrd Hp Hgu Hg Hcs Hcat. rewrite FramePacket_raw in Hcat.
  destruct (receive_frame _ g _ cs out now timeout st Hrd Hp Hgu Hg Hcs Hcat)
    as (st' & p' & Hr & _ & _ & Hv & _).
  exists st', p'. split; [done|]. unfold view, fFlags_ in Hv. injection Hv as H1 _ H2 H3 _ H4.
  split_and!; try done. unfold PacketState, TestFlag. by rewrite H1, H3.
Qed.

Definition sample_snd : RlinkPacketBufSnd := PutWithCrc8 0xCA RlinkPacketBufSnd_ctor.

Lemma framed_packet_received_witness :
  ∃ st' p', receive 2 (mkRtime 1 0) RlinkPacketBufRcv_ctor
      (mkSimPort [[0x41; 0xCA; escaped kEcSop; 0xCA]; [escaped kEcEsc; 0xCA; escaped kEcEop]] [] 0)
      = (Ret (), st', p') ∧
    PacketState st' = kPktResp ∧ fPktBuf_ st' = [0xCA] ∧ fDropData st' = [0x41].
Proof.
  apply (framed_packet_received sample_snd [0x41]
    [[0x41; 0xCA; escaped kEcSop; 0xCA]; [escaped kEcEsc; 0xCA; escaped kEcEop]]).
  - apply ready_ctor.
  - repeat constructor; by vm_compute.
  - repeat constructor; by vm_compute.
  - by repeat constructor.
  - repeat constructor; vm_compute; lia.
  - reflexivity.
Defined.

(** C27: for an arbitrary byte stream that does not extend beyond the end of its
    first packet, the state, packet bytes, flags and drop buffer the receiver
    ends with do not depend on how the stream is cut into read chunks. *)
Theorem receive_chunk_independent cs1 cs2 r out now timeout st :
  RawInv st → more st = false → Forall is_u8 (concat cs1) → concat cs1 = concat cs2 →
  Forall (λ c, 0 < length c <= RawBufSize)%nat (cs1 ++ cs2) →
  rx_run (concat cs1) (view st) = (r, []) →
  ∃ st1 p1 st2 p2,
    receive (length cs1) timeout st (mkSimPort cs1 out now) = (Ret (), st1, p1) ∧
    receive (length cs2) timeout st (mkSimPort cs2 out now) = (Ret (), st2, p2) ∧
    view st1 = r ∧ view st2 = r.
Proof.
  intros Hi Hm Hu Hcat [Hc1 Hc2]%Forall_app Hr.
  destruct (receive_chunks cs1 out now timeout st r Hi Hm Hc1 Hu Hr)
    as (st1 & p1 & H1 & _ & _ & Hv1 & _).
  rewrite Hcat in *.
  destruct (receive_chunks cs2 out now timeout st r Hi Hm Hc2 Hu Hr)
    as (st2 & p2 & H2 & _ & _ & Hv2 & _).
  by exists st1, p1, st2, p2.
Qed.

Lemma receive_chunk_independent_witness :
  ∃ st1 p1 st2 p2,
    receive 1 (mkRtime 1 0) RlinkPacketBufRcv_ctor (mkSimPort [[0xCA; escaped kEcAttn; 7]] [] 0)
      = (Ret (), st1, p1) ∧
    receive 3 (mkRtime 1 0) RlinkPacketBufRcv_ctor (mkSimPort [[0xCA]; [escaped kEcAttn]; [7]] [] 0)
      = (Ret (), st2, p2) ∧
    view st1 = mkRx kRcvFill false [7] kFlagAttnSeen (-1) [] ∧
    view st2 = mkRx kRcvFill false [7] kFlagAttnSeen (-1) [].
Proof.
  apply (receive_chunk_independent [[0xCA; escaped kEcAttn; 7]] [[0xCA]; [escaped kEcAttn]; [7]]).
  - split; [reflexivity|]. vm_compute. lia.
  - reflexivity.
  - repeat constructor; by vm_compute.
  - reflexivity.
  - repeat constructor; vm_compute; lia.
  - reflexivity.
Defined.

(** What is put into a packet field by field (bytes, words, blocks and
    checksums), framed, cut into chunks and received, is read back by the
    corresponding getters with every checksum verified, and nothing is left. *)
Theorem packet_fields_roundtrip s fs cs out now timeout st :
  ready st → Forall field_ok fs →
  Forall (λ c, 0 < length c <= RawBufSize)%nat cs →
  concat cs = PacketBuf.fRawBuf (FramePacket (fold_left put_field fs (Init s))) →
  ∃ st' p', receive (length cs) timeout st (mkSimPort cs out now) = (Ret (), st', p') ∧
    ∃ st'', get_fields fs st' = Some (true, st'') ∧ drop (fNDone st'') (fPktBuf_ st'') = [].
Proof.
  intros Hrd Hfs Hcs Hcat. rewrite FramePacket_raw in Hcat.
  destruct (put_fields_spec fs (Init s)) as (Hp & _ & _). rewrite Hp in Hcat. simpl in Hcat.
  destruct (receive_frame _ [] _ cs out now timeout st Hrd (fields_bytes_u8 _ _ Hfs)
    (List.Forall_nil _) (List.Forall_nil _) Hcs Hcat)
    as (st' & p' & Hr & _ & _ & Hv & Hc & Hn).
  exists st', p'. split; [done|]. apply get_fields_ok; [done|by rewrite Hc|].
  unfold at_bytes. rewrite Hn, Hc, drop_0. by apply (f_equal rx_pkt) in Hv.
Qed.

Lemma packet_fields_roundtrip_witness :
  ∃ st' p', receive 1 (mkRtime 1 0) RlinkPacketBufRcv_ctor (mkSimPort
      [PacketBuf.fRawBuf (FramePacket (PutCrc (PutWithCrc16 0x1234
          (PutWithCrc8 0xCA (Init RlinkPacketBufSnd_ctor)))))] [] 0) = (Ret (), st', p') ∧
    ∃ st'', get_fields [F8 0xCA; F16 0x1234; FCrc] st' = Some (true, st'') ∧
            drop (fNDone st'') (fPktBuf_ st'') = [].
Proof.
  apply (packet_fields_roundtrip RlinkPacketBufSnd_ctor [F8 0xCA; F16 0x1234; FCrc]
    [PacketBuf.fRawBuf (FramePacket (PutCrc (PutWithCrc16 0x1234
          (PutWithCrc8 0xCA (Init RlinkPacketBufSnd_ctor)))))]).
  - apply ready_ctor.
  - repeat constructor; by vm_compute.
  - repeat constructor; vm_compute; lia.
  - reflexivity.
Defined.

(** The NAK code is not a function of the byte stream.  It is looked up in
    the raw buffer behind the NAK comma, and only when at least two bytes
    follow: with the same stream in one chunk and with a cut right behind the
    code byte, the first receiver records code [kNcFrame], the second
    [kNcInval]. *)
Theorem nak_code_depends_on_chunking :
  let bs := [kSymEsc; escaped kEcSop; kSymEsc; escaped kEcNak; 0xAA] in
  let eop := [kSymEsc; escaped kEcEop] in
  let run cs := receive (length cs) (mkRtime 1 0) RlinkPacketBufRcv_ctor (mkSimPort cs [] 0) in
  let st1 := (run [bs ++ eop]).1.2 in
  let st2 := (run [bs; eop]).1.2 in
  view st1 = view st2 ∧ PacketState st1 = kPktResp ∧
  fNakCode st1 = kNcFrame ∧ fNakCode st2 = kNcInval.
Proof. by vm_compute. Qed.
