(* ===== verification/AddrMap.v ===== *)
(** * librlink/RlinkAddrMap: the bidirectional name/address table

    Two maps that must stay inverse to each other, and a cached maximal name
    length.  [Erase] dereferences the iterator of the entry it has just erased;
    the value this read yields is an argument of the definitions.  The theorems
    show that the table is a partial bijection as long as these reads yield the
    values of the erased nodes, that an erase destroys it otherwise, and what the
    cache promises. *)

From S2P Require Import Prelude.

(** ** Data and operations *)

Record RlinkAddrMap := mkAddrMap {
  fNameMap : gmap string Z;
  fAddrMap : gmap Z string;
  fMaxLength : nat }.
#[export] Instance eta_RlinkAddrMap : Eta RlinkAddrMap :=
  λ m, mkAddrMap (fNameMap m) (fAddrMap m) (fMaxLength m).

Definition RlinkAddrMap_ctor : RlinkAddrMap := mkAddrMap ∅ ∅ 0.

Definition Clear : M RlinkAddrMap () :=
  modify (λ m, m <| fNameMap := ∅ |> <| fAddrMap := ∅ |>).

Definition Insert (name : string) (addr : Z) : M RlinkAddrMap bool := λ m,
  if bool_decide (is_Some (fNameMap m !! name)) then (Ret false, m)
  else if bool_decide (is_Some (fAddrMap m !! addr)) then (Ret false, m)
  else (Ret true,
        m <| fNameMap ::= <[name := addr]> |> <| fAddrMap ::= <[addr := name]> |>
          <| fMaxLength ::= λ l, (l `max` String.length name)%nat |>).

(** [dangling] is what [it->second] yields after the entry is erased. *)
Definition Erase_name (dangling : Z → Z) (name : string) : M RlinkAddrMap bool := λ m,
  match fNameMap m !! name with
  | None => (Ret false, m)
  | Some addr =>
      let m := m <| fMaxLength := 0%nat |> in
      let m := m <| fNameMap ::= delete name |> in
      let addr := dangling addr in
      if bool_decide (is_Some (fAddrMap m !! addr))
      then (Ret true, m <| fAddrMap ::= delete addr |>)
      else (Exc (Rexception "RlinkAddrMap::Erase()" "BugCheck: fAddrMap erase failed"), m)
  end.
Definition Erase_addr (dangling : string → string) (addr : Z) : M RlinkAddrMap bool := λ m,
  match fAddrMap m !! addr with
  | None => (Ret false, m)
  | Some name =>
      let m := m <| fMaxLength := 0%nat |> in
      let m := m <| fAddrMap ::= delete addr |> in
      let name := dangling name in
      if bool_decide (is_Some (fNameMap m !! name))
      then (Ret true, m <| fNameMap ::= delete name |>)
      else (Exc (Rexception "RlinkAddrMap::Erase()" "BugCheck: fNameMap erase failed"), m)
  end.

Definition Find_name (name : string) (m : RlinkAddrMap) : option Z := fNameMap m !! name.
Definition Find_addr (addr : Z) (m : RlinkAddrMap) : option string := fAddrMap m !! addr.

Definition max_length (m : gmap Z string) : nat :=
  map_fold (λ _ (n : string) l, (l `max` String.length n)%nat) 0%nat m.
(** The member is mutable: the call updates the cache. *)
Definition MaxNameLength : M RlinkAddrMap nat := λ m,
  let m := if (fMaxLength m =? 0)%nat then m <| fMaxLength := max_length (fAddrMap m) |> else m in
  (Ret (fMaxLength m), m).

(** ** Histories *)

Inductive op :=
| OpClear
| OpInsert (name : string) (addr : Z)
| OpEraseName (dangling : Z → Z) (name : string)
| OpEraseAddr (dangling : string → string) (addr : Z)
| OpMaxNameLength.

(** The state behind an operation. *)
Definition apply_op (o : op) (m : RlinkAddrMap) : RlinkAddrMap :=
  match o with
  | OpClear => (Clear m).2
  | OpInsert name addr => (Insert name addr m).2
  | OpEraseName d name => (Erase_name d name m).2
  | OpEraseAddr d addr => (Erase_addr d addr m).2
  | OpMaxNameLength => (MaxNameLength m).2
  end.
Definition history (ops : list op) : RlinkAddrMap :=
  fold_left (λ m o, apply_op o m) ops RlinkAddrMap_ctor.
(** The reads of erased nodes yield what was in them. *)
Definition reads_erased (o : op) : Prop :=
  match o with
  | OpEraseName d _ => ∀ addr, d addr = addr
  | OpEraseAddr d _ => ∀ name, d name = name
  | _ => True
  end.

(** ** Lemmas *)

Definition Bijection (m : RlinkAddrMap) : Prop :=
  ∀ name addr, fNameMap m !! name = Some addr ↔ fAddrMap m !! addr = Some name.

(** Unfold a map operation at a point. *)
Ltac point := rewrite ?lookup_insert_Some, ?lookup_delete_Some in *.

Lemma Insert_bij name addr m : Bijection m → Bijection (Insert name addr m).2.
Proof.
  intros Hb. unfold Insert. repeat case_bool_decide; [done..|]. intros n a. simpl.
  rewrite !lookup_insert_Some, (Hb n a).
  apply eq_None_not_Some in H, H0. split.
  - intros [[-> ->]|[Hn Ha]]; [by left|right]. split; [|done]. intros ->. congruence.
  - intros [[-> ->]|[Hn Ha]]; [by left|right]. split; [|done]. intros ->. apply Hb in Ha. congruence.
Qed.

(** An erase keeps the bijection exactly when it reads what it erased. *)
Lemma Erase_name_bij d name m : Bijection m →
  Bijection (Erase_name d name m).2 ↔ ∀ addr, Find_name name m = Some addr → d addr = addr.
Proof.
  intros Hb. unfold Erase_name, Find_name. destruct (fNameMap m !! name) as [addr|] eqn:E; [|split; [done|by intros]].
  simpl. pose proof (proj1 (Hb _ _) E) as Ea. split.
  - intros Hb' ? [= <-]. destruct (decide (d addr = addr)) as [Ed|Ed]; [done|].
    specialize (Hb' name addr). revert Hb'. case_bool_decide; simpl; rewrite lookup_delete_eq, ?lookup_delete_ne, Ea by done;
      by intros [_ Hb']; discriminate Hb'.
  - intros Hd. rewrite (Hd addr eq_refl), bool_decide_true by (by eexists).
    intros n a. simpl. rewrite !lookup_delete_Some, (Hb n a).
    split; intros [Hn Ha]; split; try done; intros ->; [congruence|]. apply Hb in Ha. congruence.
Qed.
Lemma Erase_addr_bij d addr m : Bijection m →
  Bijection (Erase_addr d addr m).2 ↔ ∀ name, Find_addr addr m = Some name → d name = name.
Proof.
  intros Hb. unfold Erase_addr, Find_addr. destruct (fAddrMap m !! addr) as [name|] eqn:E; [|split; [done|by intros]].
  simpl. pose proof (proj2 (Hb _ _) E) as En. split.
  - intros Hb' ? [= <-]. destruct (decide (d name = name)) as [Ed|Ed]; [done|].
    specialize (Hb' name addr). revert Hb'. case_bool_decide; simpl; rewrite lookup_delete_eq, ?lookup_delete_ne, En by done;
      by intros [Hb' _]; discriminate Hb'.
  - intros Hd. rewrite (Hd name eq_refl), bool_decide_true by (by eexists).
    intros n a. simpl. rewrite !lookup_delete_Some, (Hb n a).
    split; intros [Hn Ha]; split; try done; intros ->; [congruence|]. apply Hb in E, Ha. congruence.
Qed.

Lemma apply_op_bij o m : reads_erased o → Bijection m → Bijection (apply_op o m).
Proof.
  intros Ho Hb. destruct o; simpl in *.
  - intros n a. simpl. by rewrite !lookup_empty.
  - by apply Insert_bij.
  - apply Erase_name_bij; auto.
  - apply Erase_addr_bij; auto.
  - by case_match.
Qed.
Lemma history_bij ops : Forall reads_erased ops → Bijection (history ops).
Proof.
  intros Ho. unfold history. assert (H0 : Bijection RlinkAddrMap_ctor) by (intros n a; simpl; by rewrite !lookup_empty).
  revert H0. generalize RlinkAddrMap_ctor. induction Ho as [|o ops Ho _ IH]; intros m Hm; simpl; [done|].
  by apply IH, apply_op_bij.
Qed.

Lemma max_length_insert addr name (m : gmap Z string) :
  m !! addr = None → max_length (<[addr := name]> m) = (max_length m `max` String.length name)%nat.
Proof.
  intros Hm. unfold max_length.
  rewrite (map_fold_insert_L (λ _ (n : string) l, (l `max` String.length n)%nat)); [done| |done].
  intros. lia.
Qed.

(** An insert into a table whose cache is exact keeps it exact. *)
Lemma Insert_max name addr m :
  fMaxLength m = max_length (fAddrMap m) →
  fMaxLength (Insert name addr m).2 = max_length (fAddrMap (Insert name addr m).2).
Proof.
  intros Hm. unfold Insert. repeat case_bool_decide; [done..|]. simpl.
  rewrite max_length_insert by (by apply eq_None_not_Some). by rewrite Hm.
Qed.

(** ** Theorems *)

(** C33: the two lookups stay inverse.  After any sequence of inserts, clears and
    erases (by name or address), a name finds an address exactly when the address
    finds the name, provided that each erase, which reads the entry behind its
    erasure, read what was in it; and a further erase, whatever it reads, leaves
    the lookups inverse exactly when what it erased is what it read. *)
Theorem AddrMap_bijection ops dname daddr :
  Forall reads_erased ops → let m := history ops in
  (∀ name addr, Find_name name m = Some addr ↔ Find_addr addr m = Some name) ∧
  (∀ name, Bijection (Erase_name dname name m).2 ↔ ∀ addr, Find_name name m = Some addr → dname addr = addr) ∧
  (∀ addr, Bijection (Erase_addr daddr addr m).2 ↔ ∀ name, Find_addr addr m = Some name → daddr name = name).
Proof.
  intros Ho m. pose proof (history_bij ops Ho) as Hb.
  split; [done|]. split; [intros name; by apply Erase_name_bij|intros addr; by apply Erase_addr_bij].
Qed.
(** An erase that reads 0 for the address 3 breaks the table. *)
Lemma AddrMap_bijection_witness :
  let m := history [OpInsert "a" 1; OpInsert "b" 2; OpEraseName id "a"; OpInsert "c" 3] in
  Find_name "c" m = Some 3 ∧ Find_addr 3 m = Some "c"%string ∧ ¬ Bijection (Erase_name (λ _, 0) "c" m).2.
Proof.
  destruct (AddrMap_bijection [OpInsert "a" 1; OpInsert "b" 2; OpEraseName id "a"; OpInsert "c" 3] (λ _, 0) id) as (H1 & H2 & _).
  { by repeat constructor. }
  split; [done|]. split; [by apply H1|]. intros Hb. pose proof (proj1 (H2 "c"%string) Hb 3 eq_refl) as E. discriminate E.
Defined.

(** [Insert] accepts exactly the entries whose name and address are both
    new, an accepted entry is found both ways and other entries are kept; a
    rejected one changes nothing.  An erase by name accepts exactly known names
    and removes the entry in both directions, without BugCheck exception. *)
Theorem AddrMap_insert_erase ops name addr :
  Forall reads_erased ops →
  let m := history ops in
  let free := bool_decide (Find_name name m = None ∧ Find_addr addr m = None) in
  (Insert name addr m).1 = Ret free ∧
  (if free then Find_name name (Insert name addr m).2 = Some addr
   else (Insert name addr m).2 = m) ∧
  (∀ n, n ≠ name → Find_name n (Insert name addr m).2 = Find_name n m) ∧
  (Erase_name id name m).1 = Ret (bool_decide (is_Some (Find_name name m))) ∧
  (Find_name name (Erase_name id name m).2 = None ∧
   ∀ a, Find_addr a (Erase_name id name m).2 ≠ Some name).
Proof.
  intros Ho m free. pose proof (history_bij ops Ho : Bijection m) as Hb.
  pose proof (proj2 (Erase_name_bij id name m Hb) (λ _ _, eq_refl)) as Hb'. unfold Find_name, Find_addr.
  assert (Hf : free = negb (bool_decide (is_Some (fNameMap m !! name))) &&
                      negb (bool_decide (is_Some (fAddrMap m !! addr)))).
  { unfold free, Find_name, Find_addr. repeat case_bool_decide; try done;
      rewrite ?eq_None_not_Some in *; tauto. }
  split_and!.
  - unfold Insert. rewrite Hf. by repeat case_bool_decide.
  - unfold Insert. rewrite Hf. repeat case_bool_decide; simpl; [done..|]. by rewrite lookup_insert_eq.
  - intros n Hn. unfold Insert. repeat case_bool_decide; simpl; [done..|].
    by rewrite lookup_insert_ne.
  - unfold Erase_name. destruct (fNameMap m !! name) as [a|] eqn:E; simpl; [|done].
    by rewrite bool_decide_true by (apply Hb in E; by eexists).
  - unfold Erase_name. destruct (fNameMap m !! name) as [a|] eqn:E; simpl; [|done].
    (match goal with |- context [bool_decide ?P] => destruct (bool_decide P) end); simpl; by rewrite lookup_delete_eq.
  - intros a Ha%Hb'. revert Ha. unfold Erase_name.
    destruct (fNameMap m !! name) as [a'|] eqn:E; simpl; [|congruence].
    (match goal with |- context [bool_decide ?P] => destruct (bool_decide P) end); simpl; by rewrite lookup_delete_eq.
Qed.

(** [MaxNameLength] is the length of the longest name for a table filled by
    inserts only; after an erase the next insert replaces the zeroed cache by
    the length of the new name alone, and after a clear the cache is stale: in
    both cases the reported length is wrong. *)
Theorem MaxNameLength_cache (entries : list (string * Z)) :
  let m := history (map (λ e, OpInsert e.1 e.2) entries) in
  (MaxNameLength m).1 = Ret (max_length (fAddrMap m)) ∧
  (let m := history [OpInsert "a" 1; OpInsert "longname" 2; OpEraseName id "a"; OpInsert "b" 3] in
   (MaxNameLength m).1 = Ret 1%nat ∧ max_length (fAddrMap m) = 8%nat) ∧
  (let m := history [OpInsert "longname" 2; OpClear] in
   (MaxNameLength m).1 = Ret 8%nat ∧ max_length (fAddrMap m) = 0%nat).
Proof.
  intros m. split; [|by vm_compute].
  assert (H : fMaxLength m = max_length (fAddrMap m)).
  { unfold m, history. assert (H : fMaxLength RlinkAddrMap_ctor = max_length (fAddrMap RlinkAddrMap_ctor))
      by by vm_compute. revert H. generalize RlinkAddrMap_ctor.
    induction entries as [|[n a] es IH]; intros m0 H0; [done|]. simpl. by apply IH, Insert_max. }
  unfold MaxNameLength. destruct (Nat.eqb_spec (fMaxLength m) 0) as [E|E]; simpl; congruence.
Qed.

(** When the read through the dangling iterator yields an address the table
    does not hold, [Erase] by name throws with the name already removed and the
    address entry left behind: the table is no longer a bijection. *)
Theorem Erase_dangling_iterator :
  let m := history [OpInsert "a" 1] in
  let '(r, m') := Erase_name (λ _, 0) "a" m in
  r = Exc (Rexception "RlinkAddrMap::Erase()" "BugCheck: fAddrMap erase failed") ∧
  Find_name "a" m' = None ∧ Find_addr 1 m' = Some "a"%string.
Proof. by vm_compute. Qed.
