(* ===== verification/Command.v ===== *)
(** * librlink/RlinkCommand, RlinkCommandExpect, RlinkContext

    One rlink command with its request fields, its result fields, its state
    flags and the expectations it is checked against.  Block data lives in the
    command ([fBlock]) or in memory of the caller ([fpBlockExt]). *)

From S2P Require Import Prelude.

(** ** RlinkCommandExpect *)

Record RlinkCommandExpect := mkExpect {
  fDataVal : Z;
  fDataMsk : Z;
  fBlockVal : list Z;
  fBlockMsk : list Z }.
#[export] Instance eta_RlinkCommandExpect : Eta RlinkCommandExpect :=
  λ e, mkExpect (fDataVal e) (fDataMsk e) (fBlockVal e) (fBlockMsk e).

(** The constructors. *)
Definition Expect_ctor : RlinkCommandExpect := mkExpect 0 0 [] [].
Definition Expect_data (data datamsk : Z) : RlinkCommandExpect := mkExpect data datamsk [] [].
Definition Expect_block (block blockmsk : list Z) : RlinkCommandExpect := mkExpect 0 0 block blockmsk.

Definition SetData_exp (data datamsk : Z) (e : RlinkCommandExpect) : RlinkCommandExpect :=
  e <| fDataVal := data |> <| fDataMsk := datamsk |>.
Definition SetDone (done : Z) (check : bool) (e : RlinkCommandExpect) : RlinkCommandExpect :=
  e <| fDataVal := done |> <| fDataMsk := if check then 0xffff else 0 |>.
Definition SetBlock (block : list Z) (e : RlinkCommandExpect) : RlinkCommandExpect :=
  e <| fBlockVal := block |> <| fBlockMsk := [] |>.
Definition SetBlock_msk (block blockmsk : list Z) (e : RlinkCommandExpect) : RlinkCommandExpect :=
  e <| fBlockVal := block |> <| fBlockMsk := blockmsk |>.

Definition DataCheck (val : Z) (e : RlinkCommandExpect) : bool :=
  Z.land val (fDataMsk e) =? fDataVal e.
Definition DataIsChecked (e : RlinkCommandExpect) : bool := negb (fDataMsk e =? 0).
Definition DoneIsChecked (e : RlinkCommandExpect) : bool := negb (fDataMsk e =? 0).
Definition DoneCheck (val : Z) (e : RlinkCommandExpect) : bool :=
  negb (DoneIsChecked e) || (val =? fDataVal e).

(** [BlockCheck(ind,val)] *)
Definition BlockCheck_at (ind : nat) (val : Z) (e : RlinkCommandExpect) : bool :=
  if (length (fBlockVal e) <=? ind)%nat then true
  else
    let eval := nth ind (fBlockVal e) 0 in
    let emsk := if (ind <? length (fBlockMsk e))%nat then nth ind (fBlockMsk e) 0 else 0xffff in
    Z.land val emsk =? eval.
Definition BlockIsChecked (ind : nat) (e : RlinkCommandExpect) : bool :=
  if (length (fBlockVal e) <=? ind)%nat then false
  else if (length (fBlockMsk e) <=? ind)%nat then true
  else negb (nth ind (fBlockMsk e) 0 =? 0).

(** The loop of [BlockCheck(pval,size)]; [pval] lists the readable words, [None]
    marks a read behind them. *)
Fixpoint BlockCheck_loop (vals msks pval : list Z) (size nerr : nat) : option nat :=
  match size, vals with
  | O, _ | _, [] => Some nerr
  | S size, eval :: vals =>
      match pval with
      | [] => None
      | v :: pval =>
          let emsk := match msks with [] => 0xffff | m :: _ => m end in
          BlockCheck_loop vals (tail msks) pval size
            (if negb (Z.land v emsk =? eval) then S nerr else nerr)
      end
  end.
Definition BlockCheck (pval : list Z) (size : nat) (e : RlinkCommandExpect) : option nat :=
  BlockCheck_loop (fBlockVal e) (fBlockMsk e) pval size 0.

(** ** RlinkCommand *)

Definition kCmdRreg : Z := 0.
Definition kCmdRblk : Z := 1.
Definition kCmdWreg : Z := 2.
Definition kCmdWblk : Z := 3.
Definition kCmdLabo : Z := 4.
Definition kCmdAttn : Z := 5.
Definition kCmdInit : Z := 6.

Definition kFlagInit    : Z := Z.shiftl 1 0.
Definition kFlagSend    : Z := Z.shiftl 1 1.
Definition kFlagDone    : Z := Z.shiftl 1 2.
Definition kFlagLabo    : Z := Z.shiftl 1 3.
Definition kFlagPktBeg  : Z := Z.shiftl 1 4.
Definition kFlagPktEnd  : Z := Z.shiftl 1 5.
Definition kFlagErrNak  : Z := Z.shiftl 1 8.
Definition kFlagErrDec  : Z := Z.shiftl 1 9.
Definition kFlagChkStat : Z := Z.shiftl 1 12.
Definition kFlagChkData : Z := Z.shiftl 1 13.
Definition kFlagChkDone : Z := Z.shiftl 1 14.

Definition kStat_M_Stat   : Z := 0xf0.
Definition kStat_M_Attn   : Z := 0x08.
Definition kStat_M_RbTout : Z := 0x04.
Definition kStat_M_RbNak  : Z := 0x02.
Definition kStat_M_RbErr  : Z := 0x01.

Record RlinkCommand := mkCommand {
  fRequest : Z;
  fAddress : Z;
  fData : Z;
  fBlock : list Z;
  fpBlockExt : option Z;
  fBlockExtSize : nat;
  fBlockDone : nat;
  fStatus : Z;
  fFlags : Z;
  fRcvSize : nat;
  fExpectStatusSet : bool;
  fExpectStatusVal : Z;
  fExpectStatusMsk : Z;
  fupExpect : option RlinkCommandExpect }.
#[export] Instance eta_RlinkCommand : Eta RlinkCommand := λ c,
  mkCommand (fRequest c) (fAddress c) (fData c) (fBlock c) (fpBlockExt c) (fBlockExtSize c)
    (fBlockDone c) (fStatus c) (fFlags c) (fRcvSize c) (fExpectStatusSet c)
    (fExpectStatusVal c) (fExpectStatusMsk c) (fupExpect c).

Definition RlinkCommand_ctor : RlinkCommand :=
  mkCommand 0 0 0 [] None 0 0 0 0 0 false 0 0 None.

Definition SetCommand (cmd addr data : Z) : M RlinkCommand () :=
  throw_if (kCmdInit <? cmd) "RlinkCommand::SetCommand()" "Bad args: invalid cmd" ;;
  modify (λ c, c <| fRequest := cmd |> <| fAddress := addr |> <| fData := data |>
    <| fpBlockExt := None |> <| fBlockExtSize := 0%nat |> <| fBlockDone := 0%nat |>
    <| fStatus := 0 |> <| fFlags := kFlagInit |> <| fRcvSize := 0%nat |>
    <| fupExpect := None |>).

Definition bad_block_size (size : nat) : bool := 
  (Z.of_nat size =? 0) || (65535 <? Z.of_nat size).
Definition SetBlockWrite (block : list Z) : M RlinkCommand () :=
  throw_if (bad_block_size (length block))
    "RlinkCommand::SetBlockWrite()" "Bad args: invalid block size" ;;
  modify (λ c, c <| fBlock := block |> <| fpBlockExt := None |> <| fBlockExtSize := 0%nat |>
                 <| fBlockDone := 0%nat |>).
Definition SetBlockRead (size : nat) : M RlinkCommand () :=
  throw_if (bad_block_size size)
    "RlinkCommand::SetBlockRead()" "Bad args: invalid block size" ;;
  modify (λ c, c <| fBlock := replicate size 0 |> <| fpBlockExt := None |>
                 <| fBlockExtSize := 0%nat |> <| fBlockDone := 0%nat |>).
Definition SetBlockExt (pblock : option Z) (size : nat) : M RlinkCommand () :=
  throw_if (bool_decide (pblock = None))
    "RlinkCommand::SetBlockExt()" "Bad args: pblock is null" ;;
  throw_if (bad_block_size size)
    "RlinkCommand::SetBlockExt()" "Bad args: invalid block size" ;;
  modify (λ c, c <| fpBlockExt := pblock |> <| fBlockExtSize := size |> <| fBlockDone := 0%nat |>).

Definition CmdRreg (addr : Z) : M RlinkCommand () := SetCommand kCmdRreg addr 0.
Definition CmdWreg (addr data : Z) : M RlinkCommand () := SetCommand kCmdWreg addr data.
Definition CmdLabo : M RlinkCommand () := SetCommand kCmdLabo 0 0.
Definition CmdAttn : M RlinkCommand () := SetCommand kCmdAttn 0 0.
Definition CmdInit (addr data : Z) : M RlinkCommand () := SetCommand kCmdInit addr data.
Definition CmdRblk (addr : Z) (size : nat) : M RlinkCommand () :=
  SetCommand kCmdRblk addr 0 ;; SetBlockRead size.
Definition CmdRblk_ext (addr : Z) (pblock : option Z) (size : nat) : M RlinkCommand () :=
  SetCommand kCmdRblk addr 0 ;; SetBlockExt pblock size.
Definition CmdWblk (addr : Z) (block : list Z) : M RlinkCommand () :=
  SetCommand kCmdWblk addr 0 ;; SetBlockWrite block.
Definition CmdWblk_ext (addr : Z) (pblock : option Z) (size : nat) : M RlinkCommand () :=
  SetCommand kCmdWblk addr 0 ;; SetBlockExt pblock size.

Definition SetSeqNumber (snum : Z) (c : RlinkCommand) : RlinkCommand :=
  c <| fRequest := u8 (Z.lor (Z.shiftl snum 3) (Z.land (fRequest c) 0x07)) |>.
Definition SetAddress (addr : Z) (c : RlinkCommand) : RlinkCommand := c <| fAddress := addr |>.
Definition SetData (data : Z) (c : RlinkCommand) : RlinkCommand := c <| fData := data |>.
Definition SetBlockDone (dcnt : Z) (c : RlinkCommand) : RlinkCommand :=
  c <| fBlockDone := Z.to_nat dcnt |>.
Definition SetStatus (stat : Z) (c : RlinkCommand) : RlinkCommand := c <| fStatus := stat |>.
Definition SetFlagBit (mask : Z) (c : RlinkCommand) : RlinkCommand :=
  c <| fFlags ::= λ f, Z.lor f mask |>.
Definition ClearFlagBit (mask : Z) (c : RlinkCommand) : RlinkCommand :=
  c <| fFlags ::= λ f, Z.land f (not32 mask) |>.
Definition SetRcvSize (rsize : nat) (c : RlinkCommand) : RlinkCommand := c <| fRcvSize := rsize |>.
Definition SetExpect (exp : option RlinkCommandExpect) (c : RlinkCommand) : RlinkCommand :=
  c <| fupExpect := exp |>.
(** [EnsureExpect().f()]: a method applied to the expect object, created if missing. *)
Definition EnsureExpect (f : RlinkCommandExpect → RlinkCommandExpect) (c : RlinkCommand) : RlinkCommand :=
  c <| fupExpect ::= λ e, Some (f (default Expect_ctor e)) |>.
Definition SetExpectStatus (stat statmsk : Z) (c : RlinkCommand) : RlinkCommand :=
  c <| fExpectStatusSet := true |> <| fExpectStatusVal := stat |> <| fExpectStatusMsk := statmsk |>.
Definition SetExpectStatusDefault (stat statmsk : Z) (c : RlinkCommand) : RlinkCommand :=
  c <| fExpectStatusSet := false |> <| fExpectStatusVal := stat |> <| fExpectStatusMsk := statmsk |>.

Definition Command (c : RlinkCommand) : Z := Z.land (fRequest c) 0x07.
Definition SeqNumber (c : RlinkCommand) : Z := Z.shiftr (fRequest c) 3.
Definition HasBlockExt (c : RlinkCommand) : bool := bool_decide (is_Some (fpBlockExt c)).
Definition BlockSize (c : RlinkCommand) : nat :=
  if HasBlockExt c then fBlockExtSize c else length (fBlock c).
Definition BlockDoneAll (c : RlinkCommand) : bool := (fBlockDone c =? BlockSize c)%nat.
Definition TestFlagAny (mask : Z) (c : RlinkCommand) : bool := negb (Z.land (fFlags c) mask =? 0).
Definition TestFlagAll (mask : Z) (c : RlinkCommand) : bool := Z.land (fFlags c) mask =? fFlags c.
Definition StatusCheck (c : RlinkCommand) : bool :=
  Z.land (fStatus c) (fExpectStatusMsk c) =? fExpectStatusVal c.
Definition StatusIsChecked (c : RlinkCommand) : bool := negb (fExpectStatusMsk c =? 0).

(** Reading [BlockPointer()[0..n)]: the words readable through the pointer. *)
Definition block_read (m : Mem) (n : nat) (c : RlinkCommand) : list Z :=
  match fpBlockExt c with
  | Some p => mem_get m p n
  | None => take n (fBlock c)
  end.
(** Writing [BlockSize] words through [BlockPointer()]. *)
Definition block_write (ws : list Z) (c : RlinkCommand) (m : Mem) : RlinkCommand * Mem :=
  match fpBlockExt c with
  | Some p => (c, mem_put p ws m)
  | None => (c <| fBlock := ws |>, m)
  end.

(** ** RlinkContext *)

Record RlinkContext := mkContext {
  fStatusVal : Z;
  fStatusMsk : Z;
  fErrCnt : nat }.
#[export] Instance eta_RlinkContext : Eta RlinkContext :=
  λ c, mkContext (fStatusVal c) (fStatusMsk c) (fErrCnt c).
Definition RlinkContext_ctor : RlinkContext := mkContext 0 0 0.
Definition SetStatus_cntx (stat statmsk : Z) (c : RlinkContext) : RlinkContext :=
  c <| fStatusVal := stat |> <| fStatusMsk := statmsk |>.
Definition StatusIsChecked_cntx (c : RlinkContext) : bool := negb (fStatusMsk c =? 0).
Definition StatusCheck_cntx (val : Z) (c : RlinkContext) : bool :=
  Z.land val (fStatusMsk c) =? fStatusVal c.
Definition IncErrorCount (inc : nat) (c : RlinkContext) : RlinkContext :=
  c <| fErrCnt ::= λ n, (n + inc)%nat |>.
Definition ClearErrorCount (c : RlinkContext) : RlinkContext := c <| fErrCnt := 0%nat |>.

(** The setup methods by command: their arguments and the method they select. *)
Inductive setup :=
| S_rreg (addr : Z) | S_wreg (addr data : Z) | S_labo | S_attn | S_init (addr data : Z)
| S_rblk (addr : Z) (size : nat) | S_rblk_ext (addr : Z) (pblock : option Z) (size : nat)
| S_wblk (addr : Z) (block : list Z) | S_wblk_ext (addr : Z) (pblock : option Z) (size : nat).
Definition Cmd (s : setup) : M RlinkCommand () :=
  match s with
  | S_rreg addr => CmdRreg addr
  | S_wreg addr data => CmdWreg addr data
  | S_labo => CmdLabo
  | S_attn => CmdAttn
  | S_init addr data => CmdInit addr data
  | S_rblk addr size => CmdRblk addr size
  | S_rblk_ext addr pblock size => CmdRblk_ext addr pblock size
  | S_wblk addr block => CmdWblk addr block
  | S_wblk_ext addr pblock size => CmdWblk_ext addr pblock size
  end.
Definition setup_code (s : setup) : Z :=
  match s with
  | S_rreg _ => kCmdRreg | S_wreg _ _ => kCmdWreg | S_labo => kCmdLabo | S_attn => kCmdAttn
  | S_init _ _ => kCmdInit | S_rblk _ _ | S_rblk_ext _ _ _ => kCmdRblk
  | S_wblk _ _ | S_wblk_ext _ _ _ => kCmdWblk
  end.
(** The argument types of the methods. *)
Definition setup_typed (s : setup) : Prop :=
  match s with
  | S_rreg addr | S_rblk addr _ | S_rblk_ext addr _ _ | S_wblk_ext addr _ _ => is_u16 addr
  | S_wreg addr data | S_init addr data => is_u16 addr ∧ is_u16 data
  | S_wblk addr block => is_u16 addr ∧ Forall is_u16 block
  | S_labo | S_attn => True
  end.
(** The arguments the methods accept. *)
Definition setup_valid (s : setup) : bool :=
  match s with
  | S_rblk _ size => negb (bad_block_size size)
  | S_wblk _ block => negb (bad_block_size (length block))
  | S_rblk_ext _ p size | S_wblk_ext _ p size =>
      bool_decide (is_Some p) && negb (bad_block_size size)
  | _ => true
  end.

(** ** Lemmas *)

(** A flag is one bit. *)
Lemma land_bit f n : 0 <= n → Z.land f (Z.shiftl 1 n) = if Z.testbit f n then Z.shiftl 1 n else 0.
Proof.
  intros Hn. rewrite Z.shiftl_1_l. apply Z.bits_inj'. intros i Hi.
  rewrite Z.land_spec, Z.pow2_bits_eqb by done. destruct (Z.eqb_spec n i) as [->|Hne].
  - destruct (Z.testbit f i); simpl; [|by rewrite Z.bits_0]. by rewrite Z.pow2_bits_true.
  - rewrite andb_false_r. destruct (Z.testbit f n); [|by rewrite Z.bits_0].
    by rewrite Z.pow2_bits_false.
Qed.
Lemma flag_bit f n : 0 <= n → negb (Z.land f (Z.shiftl 1 n) =? 0) = Z.testbit f n.
Proof.
  intros Hn. rewrite land_bit by done. destruct (Z.testbit f n); [|done].
  rewrite Z.shiftl_1_l. rewrite (proj2 (Z.eqb_neq _ _)); [done|]. pose proof (Z.pow_pos_nonneg 2 n). lia.
Qed.

(** What the setup methods leave: a known command code, the block sizes the
    wire format can express, and the flags of a fresh command. *)
Record cmd_wf (c : RlinkCommand) : Prop := {
  wf_command : 0 <= Command c <= kCmdInit;
  wf_request : is_u8 (fRequest c);
  wf_address : is_u16 (fAddress c);
  wf_data : is_u16 (fData c);
  wf_block : Forall is_u16 (fBlock c);
  wf_size : Command c = kCmdRblk ∨ Command c = kCmdWblk → 0 < Z.of_nat (BlockSize c) <= 65535;
  wf_init : TestFlagAny kFlagInit c = true }.

Lemma Command_SetSeqNumber snum c : Command (SetSeqNumber snum c) = Command c.
Proof.
  unfold Command, SetSeqNumber, u8. simpl. change 7 with (Z.ones 3). change 0xff with (Z.ones 8).
  apply Z.bits_inj'. intros i Hi. rewrite !Z.land_spec, Z.lor_spec.
  destruct (decide (i < 3)).
  - rewrite Z.shiftl_spec_low by lia. rewrite Z.land_spec.
    rewrite (Z.ones_spec_low 3 i), (Z.ones_spec_low 8 i) by lia. by rewrite !andb_true_r.
  - rewrite (Z.ones_spec_high 3 i) by lia. by rewrite !andb_false_r.
Qed.

(** The state behind [SetCommand], and what the block setters add to it. *)
Definition fresh_command (cmd addr data : Z) (blk : list Z) (ext : option Z) (n : nat) : RlinkCommand :=
  mkCommand cmd addr data blk ext n 0 0 kFlagInit 0 false 0 0 None.

Lemma fresh_command_wf cmd addr data blk ext n :
  0 <= cmd <= kCmdInit → is_u16 addr → is_u16 data → Forall is_u16 blk →
  (cmd = kCmdRblk ∨ cmd = kCmdWblk →
   0 < Z.of_nat (match ext with Some _ => n | None => length blk end) <= 65535) →
  cmd_wf (fresh_command cmd addr data blk ext n) ∧ Command (fresh_command cmd addr data blk ext n) = cmd.
Proof.
  intros Hc Ha Hd Hb Hs. unfold kCmdInit in Hc.
  assert (HC : Command (fresh_command cmd addr data blk ext n) = cmd).
  { unfold Command. simpl. change 7 with (Z.ones 3). rewrite Z.land_ones by lia.
    apply Z.mod_small. lia. }
  split; [|done]. split; rewrite ?HC; try done.
  - simpl. unfold is_u8. lia.
  - intros H. specialize (Hs H). unfold BlockSize, HasBlockExt. simpl. destruct ext; simpl; done.
Qed.

Lemma bad_block_size_false n : bad_block_size n = false ↔ 0 < Z.of_nat n <= 65535.
Proof. unfold bad_block_size. rewrite orb_false_iff, Z.eqb_neq, Z.ltb_ge. lia. Qed.

(** The positions of [l] at which the single word check fails. *)
Definition mismatches (pval : list Z) (e : RlinkCommandExpect) (l : list nat) : list nat :=
  filter (λ i, BlockCheck_at i (nth i pval 0) e = false) l.

Lemma SetCommand_new cmd addr data :
  0 <= cmd <= kCmdInit →
  SetCommand cmd addr data RlinkCommand_ctor = (Ret (), fresh_command cmd addr data [] None 0).
Proof.
  intros Hc. unfold SetCommand. rewrite (proj2 (Z.ltb_ge kCmdInit cmd)) by lia. reflexivity.
Qed.

Lemma throw_if_ok {S} b meth text (s : S) :
  throw_if b meth text s = if b then (Exc (Rexception meth text), s) else (Ret (), s).
Proof. by destruct b. Qed.

Definition is_block (cmd : Z) : Prop := cmd = kCmdRblk ∨ cmd = kCmdWblk.

Lemma Cmd_simple cmd addr data :
  0 <= cmd <= kCmdInit → is_u16 addr → is_u16 data → ¬ is_block cmd →
  ∃ c, SetCommand cmd addr data RlinkCommand_ctor = (Ret (), c) ∧ cmd_wf c ∧ Command c = cmd.
Proof.
  intros. rewrite SetCommand_new by done. eexists. split; [done|].
  apply fresh_command_wf; tauto || done.
Qed.

Lemma Cmd_block cmd addr (m : M RlinkCommand ()) blk ext n (ok : bool) :
  is_block cmd → is_u16 addr → Forall is_u16 blk →
  (if ok then m (fresh_command cmd addr 0 [] None 0) = (Ret (), fresh_command cmd addr 0 blk ext n)
     ∧ 0 < Z.of_nat (match ext with Some _ => n | None => length blk end) <= 65535
   else ∃ e c, m (fresh_command cmd addr 0 [] None 0) = (Exc e, c)) →
  if ok then ∃ c, (SetCommand cmd addr 0 ;; m) RlinkCommand_ctor = (Ret (), c) ∧
    cmd_wf c ∧ Command c = cmd
  else ∃ e c, (SetCommand cmd addr 0 ;; m) RlinkCommand_ctor = (Exc e, c).
Proof.
  intros Hc Ha Hb Hm.
  assert (0 <= cmd <= kCmdInit) by (unfold is_block, kCmdInit, kCmdRblk, kCmdWblk in *; lia).
  unfold mbind, M_bind. rewrite SetCommand_new by done.
  destruct ok; [|done]. destruct Hm as [-> Hs]. eexists. split; [done|].
  by apply fresh_command_wf.
Qed.

(** Every setup method succeeds exactly on its valid arguments, and leaves a
    well-formed command of its code. *)
Lemma Cmd_new s :
  setup_typed s →
  if setup_valid s
  then ∃ c, Cmd s RlinkCommand_ctor = (Ret (), c) ∧ cmd_wf c ∧ Command c = setup_code s
  else ∃ e c, Cmd s RlinkCommand_ctor = (Exc e, c).
Proof.
  intros Ht.
  destruct s as [a|a d| | |a d|a n|a p n|a b|a p n]; simpl in Ht; cbn [setup_valid Cmd setup_code].
  1-5: unfold CmdRreg, CmdWreg, CmdLabo, CmdAttn, CmdInit; apply Cmd_simple;
    try tauto; try done; unfold is_block, kCmdInit, kCmdRreg, kCmdWreg, kCmdLabo, kCmdAttn,
    kCmdRblk, kCmdWblk; lia.
  - unfold CmdRblk. apply (Cmd_block _ _ _ (replicate n 0) None 0%nat); [by left|done|by apply Forall_replicate|].
    unfold SetBlockRead, mbind, M_bind. rewrite throw_if_ok.
    destruct (bad_block_size n) eqn:Eb; simpl; [by eauto|].
    rewrite length_replicate. apply bad_block_size_false in Eb. by split.
  - unfold CmdRblk_ext. apply (Cmd_block _ _ _ [] p n); [by left|done|done|].
    unfold SetBlockExt, mbind, M_bind. rewrite throw_if_ok. destruct p as [p|]; simpl; [|by eauto].
    rewrite throw_if_ok. destruct (bad_block_size n) eqn:Eb; simpl; [by eauto|].
    apply bad_block_size_false in Eb. by split.
  - destruct Ht. unfold CmdWblk. apply (Cmd_block _ _ _ b None 0%nat); [by right|done|done|].
    unfold SetBlockWrite, mbind, M_bind. rewrite throw_if_ok.
    destruct (bad_block_size (length b)) eqn:Eb; simpl; [by eauto|].
    apply bad_block_size_false in Eb. by split.
  - unfold CmdWblk_ext. apply (Cmd_block _ _ _ [] p n); [by right|done|done|].
    unfold SetBlockExt, mbind, M_bind. rewrite throw_if_ok. destruct p as [p|]; simpl; [|by eauto].
    rewrite throw_if_ok. destruct (bad_block_size n) eqn:Eb; simpl; [by eauto|].
    apply bad_block_size_false in Eb. by split.
Qed.

Lemma BlockCheck_loop_spec vals msks pval size nerr :
  (size `min` length vals <= length pval)%nat →
  BlockCheck_loop vals msks pval size nerr =
  Some (nerr + length (mismatches pval (mkExpect 0 0 vals msks)
                         (seq 0 (size `min` length vals))))%nat.
Proof.
  revert msks pval size nerr.
  induction vals as [|ev vals IH]; intros msks pval size nerr Hp.
  { destruct size; simpl; f_equal; lia. }
  destruct size as [|size]; [simpl; f_equal; lia|].
  destruct pval as [|v pval]; [simpl in Hp; lia|].
  cbn [BlockCheck_loop length]. simpl in Hp. rewrite IH by lia. f_equal.
  rewrite <- Nat.succ_min_distr. cbn [seq]. unfold mismatches at 2. rewrite filter_cons, <- fmap_S_seq.
  assert (Hs : ∀ l, length (mismatches (v :: pval) (mkExpect 0 0 (ev :: vals) msks) (S <$> l)) =
                    length (mismatches pval (mkExpect 0 0 vals (tail msks)) l)).
  { unfold mismatches. induction l as [|i l IHl]; [done|]. rewrite fmap_cons, !filter_cons.
    assert (BlockCheck_at (S i) (nth (S i) (v :: pval) 0) (mkExpect 0 0 (ev :: vals) msks) =
            BlockCheck_at i (nth i pval 0) (mkExpect 0 0 vals (tail msks))) as ->.
    { unfold BlockCheck_at. simpl. destruct msks as [|m msks]; simpl; [|done].
      by destruct i. }
    case_decide; [cbn [length]; f_equal|]; apply IHl. }
  assert (H0 : BlockCheck_at 0 (nth 0 (v :: pval) 0) (mkExpect 0 0 (ev :: vals) msks) =
          (Z.land v (match msks with [] => 0xffff | m :: _ => m end) =? ev)).
  { unfold BlockCheck_at. simpl. by destruct msks. }
  unfold mismatches in Hs |- *.
  rewrite H0.
  destruct (Z.land v _ =? ev); case_decide; try done; cbn [negb length]; rewrite Hs; lia.
Qed.

(** ** Theorems *)

(** The block form of [BlockCheck] counts exactly the positions at which the
    single word form fails, over the words that are both received and expected. *)
Theorem BlockCheck_counts e pval size :
  (size `min` length (fBlockVal e) <= length pval)%nat →
  BlockCheck pval size e =
  Some (length (filter (λ i, BlockCheck_at i (nth i pval 0) e = false)
                       (seq 0 (size `min` length (fBlockVal e))))).
Proof. intros H. unfold BlockCheck. by rewrite BlockCheck_loop_spec. Qed.

Lemma BlockCheck_counts_witness :
  BlockCheck [1; 2; 3] 3 (Expect_block [1; 0; 7] [0xffff; 0]) = Some 1%nat.
Proof.
  exact (BlockCheck_counts (Expect_block [1; 0; 7] [0xffff; 0]) [1; 2; 3] 3
    ltac:(simpl; lia)).
Defined.

(** [TestFlagAll] does not test that all flags of the mask are set: a fresh
    command passes it for the mask [kFlagInit|kFlagDone] although it is not
    done, and a done one fails it for the mask [kFlagDone]. *)
Theorem TestFlagAll_is_subset_test :
  let fresh := (CmdRreg 0 RlinkCommand_ctor).2 in
  TestFlagAll (Z.lor kFlagInit kFlagDone) fresh = true ∧ TestFlagAny kFlagDone fresh = false ∧
  TestFlagAll kFlagDone (SetFlagBit kFlagDone fresh) = false.
Proof. by vm_compute. Qed.
