(* ===== verification/CommandList.v ===== *)
(** * librlink/RlinkCommandList

    An ordered list of commands, built by [Add...] calls and refined by
    [SetLastExpect...] calls, with the index of an active list abort.  A list
    owns its commands ([unique_ptr]): adding a command adds a deep copy. *)

From S2P Require Import Prelude.
From S2P Require Import Command.

Record RlinkCommandList := mkCommandList {
  fList : list RlinkCommand;
  fLaboIndex : Z }.
#[export] Instance eta_RlinkCommandList : Eta RlinkCommandList :=
  λ l, mkCommandList (fList l) (fLaboIndex l).

Definition RlinkCommandList_ctor : RlinkCommandList := mkCommandList [] (-1).

(** ** Operations *)

Definition AddCommand (c : RlinkCommand) : M RlinkCommandList nat := λ l,
  let ind := length (fList l) in
  (Ret ind, l <| fList ::= λ cs, cs ++ [c] |>).
(** [AddCommand(clist)], for a list other than the receiver. *)
Definition AddCommand_list (cl : RlinkCommandList) : M RlinkCommandList nat := λ l,
  let ind := length (fList l) in
  (for_ (fList cl) (λ c, AddCommand c ;; mret (None : option nat)) ;; mret ind) l.

(** The body the [Add...] methods share: a new command, its setup, [AddCommand]. *)
Definition Add_new (m : M RlinkCommand ()) : M RlinkCommandList nat := λ l,
  match m RlinkCommand_ctor with
  | (Ret _, c) => AddCommand c l
  | (Exc e, _) => (Exc e, l)
  | (NoFuel, _) => (NoFuel, l)
  end.
Definition AddRreg (addr : Z) := Add_new (CmdRreg addr).
Definition AddRblk (addr : Z) (size : nat) := Add_new (CmdRblk addr size).
Definition AddRblk_ext (addr : Z) (block : option Z) (size : nat) := Add_new (CmdRblk_ext addr block size).
Definition AddWreg (addr data : Z) := Add_new (CmdWreg addr data).
Definition AddWblk (addr : Z) (block : list Z) := Add_new (CmdWblk addr block).
Definition AddWblk_ext (addr : Z) (block : option Z) (size : nat) := Add_new (CmdWblk_ext addr block size).
Definition AddLabo := Add_new CmdLabo.
Definition AddAttn := Add_new CmdAttn.
Definition AddInit (addr data : Z) := Add_new (CmdInit addr data).

(** [fList.back()->f()], guarded. *)
Definition SetLast (meth : string) (f : RlinkCommand → RlinkCommand) : M RlinkCommandList () := λ l,
  match list.last (fList l) with
  | None => (Exc (Rexception meth "Bad state: list empty"), l)
  | Some c => (Ret (), l <| fList ::= λ cs, removelast cs ++ [f c] |>)
  end.
Definition SetLastExpectStatus (stat statmsk : Z) :=
  SetLast "RlinkCommandList::SetLastExpectStatus()" (SetExpectStatus stat statmsk).
Definition SetLastExpectData (data datamsk : Z) :=
  SetLast "RlinkCommandList::SetLastExpectData()" (EnsureExpect (SetData_exp data datamsk)).
Definition SetLastExpectDone (done : Z) :=
  SetLast "RlinkCommandList::SetLastExpectDone()" (EnsureExpect (SetDone done true)).
Definition SetLastExpectBlock (block : list Z) :=
  SetLast "RlinkCommandList::SetLastExpectBlock()" (EnsureExpect (SetBlock block)).
Definition SetLastExpectBlock_msk (block blockmsk : list Z) :=
  SetLast "RlinkCommandList::SetLastExpectBlock()" (EnsureExpect (SetBlock_msk block blockmsk)).
Definition SetLastExpect (exp : option RlinkCommandExpect) :=
  SetLast "RlinkCommandList::SetLastExpect()" (SetExpect exp).

Definition Clear_list (l : RlinkCommandList) : RlinkCommandList :=
  l <| fList := [] |> <| fLaboIndex := -1 |>.
(** [operator=] and the copy constructor: deep copies. *)
Definition assign (rhs l : RlinkCommandList) : RlinkCommandList :=
  let l := l <| fList := [] |> in
  let l := (AddCommand_list rhs l).2 in
  l <| fLaboIndex := fLaboIndex rhs |>.
Definition at_ (ind : nat) (l : RlinkCommandList) : outcome RlinkCommand :=
  match fList l !! ind with Some c => Ret c | None => Exc out_of_range end.

Definition SetLaboIndex (ind : Z) (l : RlinkCommandList) : RlinkCommandList := l <| fLaboIndex := ind |>.
Definition ClearLaboIndex (l : RlinkCommandList) : RlinkCommandList := l <| fLaboIndex := -1 |>.
Definition LaboActive (l : RlinkCommandList) : bool := 0 <=? fLaboIndex l.
Definition Size (l : RlinkCommandList) : nat := length (fList l).

(** ** Building a list: the calls a client makes *)

Inductive build_op :=
| B_add (s : setup)
| B_status (stat statmsk : Z)
| B_data (data datamsk : Z)
| B_done (done : Z)
| B_block (block : list Z)
| B_block_msk (block blockmsk : list Z)
| B_expect (exp : option RlinkCommandExpect).
Definition Add (s : setup) : M RlinkCommandList nat :=
  match s with
  | S_rreg addr => AddRreg addr
  | S_wreg addr data => AddWreg addr data
  | S_labo => AddLabo
  | S_attn => AddAttn
  | S_init addr data => AddInit addr data
  | S_rblk addr size => AddRblk addr size
  | S_rblk_ext addr pblock size => AddRblk_ext addr pblock size
  | S_wblk addr block => AddWblk addr block
  | S_wblk_ext addr pblock size => AddWblk_ext addr pblock size
  end.
(** The state behind a call; a call that throws has left the list alone. *)
Definition build_step (l : RlinkCommandList) (o : build_op) : RlinkCommandList :=
  match o with
  | B_add s => (Add s l).2
  | B_status stat statmsk => (SetLastExpectStatus stat statmsk l).2
  | B_data data datamsk => (SetLastExpectData data datamsk l).2
  | B_done done => (SetLastExpectDone done l).2
  | B_block block => (SetLastExpectBlock block l).2
  | B_block_msk block blockmsk => (SetLastExpectBlock_msk block blockmsk l).2
  | B_expect exp => (SetLastExpect exp l).2
  end.
Definition build (ops : list build_op) : RlinkCommandList :=
  fold_left build_step ops RlinkCommandList_ctor.
Definition build_typed (o : build_op) : Prop :=
  match o with B_add s => setup_typed s | _ => True end.

(** ** Lemmas *)

Lemma Add_eq s l : Add s l = Add_new (Cmd s) l.
Proof. by destruct s. Qed.

Lemma Add_ok s l :
  setup_typed s →
  if setup_valid s
  then ∃ c, Add s l = (Ret (Size l), l <| fList ::= λ cs, cs ++ [c] |>) ∧
         Cmd s RlinkCommand_ctor = (Ret (), c) ∧ cmd_wf c ∧ Command c = setup_code s
  else ∃ e, Add s l = (Exc e, l).
Proof.
  intros Ht. rewrite Add_eq. pose proof (Cmd_new s Ht) as H. unfold Add_new.
  destruct (setup_valid s).
  - destruct H as (c & -> & Hc). by exists c.
  - destruct H as (e & c & ->). by exists e.
Qed.

Lemma SetLast_wf meth f l :
  (∀ c, cmd_wf c → cmd_wf (f c)) → Forall cmd_wf (fList l) → Forall cmd_wf (fList (SetLast meth f l).2).
Proof.
  intros Hf Hl. unfold SetLast. destruct (list.last (fList l)) as [c|] eqn:E; [|done]. simpl.
  apply last_Some in E as [cs E]. rewrite E in *. rewrite removelast_last.
  apply Forall_app in Hl as [H1 H2]. apply Forall_app. split; [done|].
  rewrite Forall_singleton in H2 |- *. by apply Hf.
Qed.

(** The expectations are no part of well-formedness. *)
Lemma expect_wf c c' :
  fRequest c' = fRequest c → fAddress c' = fAddress c → fData c' = fData c →
  fBlock c' = fBlock c → fpBlockExt c' = fpBlockExt c → fBlockExtSize c' = fBlockExtSize c →
  fFlags c' = fFlags c → cmd_wf c → cmd_wf c'.
Proof.
  intros H1 H2 H3 H4 H5 H6 H7 []. split; unfold Command, BlockSize, HasBlockExt, TestFlagAny in *;
    rewrite ?H1, ?H2, ?H3, ?H4, ?H5, ?H6, ?H7; done.
Qed.

Lemma build_step_wf l o :
  build_typed o → Forall cmd_wf (fList l) → Forall cmd_wf (fList (build_step l o)).
Proof.
  intros Ht Hl. destruct o as [s| | | | | |]; cbn [build_step];
    [|apply SetLast_wf; [|done]; intros c; by apply expect_wf..].
  pose proof (Add_ok s l Ht) as H. destruct (setup_valid s).
  - destruct H as (c & -> & _ & Hc & _). simpl. apply Forall_app. by rewrite Forall_singleton.
  - by destruct H as [e ->].
Qed.

Lemma build_wf ops : Forall build_typed ops → Forall cmd_wf (fList (build ops)).
Proof.
  intros Ht. unfold build. assert (H : Forall cmd_wf (fList RlinkCommandList_ctor)) by done.
  revert H. generalize RlinkCommandList_ctor.
  induction Ht as [|o ops Ho _ IH]; intros l Hl; [done|]. by apply IH, build_step_wf.
Qed.

Lemma AddCommand_for cs l :
  for_ cs (λ c, AddCommand c ;; mret (None : option nat)) l = (Ret None, l <| fList ::= λ cs', cs' ++ cs |>).
Proof.
  revert l. induction cs as [|c cs IH]; intros l; simpl.
  - rewrite app_nil_r. by destruct l.
  - unfold mbind, M_bind in *. simpl. rewrite IH. simpl. by rewrite <- app_assoc.
Qed.

(** ** Theorems *)

(** C30: every list a client builds with the [Add] and [SetLastExpect] methods
    holds well-formed commands only: known command codes, block sizes between
    1 and 65535, fields in the range of their wire format, setup flag set.
    An [Add] call with valid arguments returns the index under which the new
    command is found and keeps all others; an invalid one throws and changes
    nothing. *)
Theorem built_list_wf ops s :
  Forall build_typed ops → setup_typed s →
  let l := build ops in
  Forall cmd_wf (fList l) ∧
  if setup_valid s
  then ∃ l' c, Add s l = (Ret (Size l), l') ∧ at_ (Size l) l' = Ret c ∧ cmd_wf c ∧
         Command c = setup_code s ∧ ∀ i, (i < Size l)%nat → at_ i l' = at_ i l
  else ∃ e, Add s l = (Exc e, l).
Proof.
  intros Ht Hs. split; [by apply build_wf|].
  pose proof (Add_ok s (build ops) Hs) as H. destruct (setup_valid s); [|done].
  destruct H as (c & -> & _ & Hc & Hcode). exists (build ops <| fList ::= λ cs, cs ++ [c] |>), c.
  unfold at_, Size. simpl. split_and!; try done.
  - by rewrite list_lookup_middle.
  - intros i Hi. by rewrite lookup_app_l.
Qed.

Lemma built_list_wf_witness :
  let l := build [B_add (S_rreg 0x10); B_status 0 0; B_add (S_rblk 4 0)] in
  Forall cmd_wf (fList l) ∧ ∃ e, Add (S_wblk_ext 7 None 2) l = (Exc e, l).
Proof.
  apply (built_list_wf [B_add (S_rreg 0x10); B_status 0 0; B_add (S_rblk 4 0)] (S_wblk_ext 7 None 2)).
  - repeat constructor; by vm_compute.
  - by vm_compute.
Defined.

(** Assigning a list copies its commands and its abort index, and appending
    a list returns the index of its first command and keeps the order. *)
Theorem list_copy rhs l :
  assign rhs l = rhs ∧
  AddCommand_list rhs l = (Ret (Size l), l <| fList ::= λ cs, cs ++ fList rhs |>).
Proof.
  unfold assign, AddCommand_list, mbind, M_bind. rewrite !AddCommand_for. simpl.
  split; [by destruct rhs|done].
Qed.
