(* ===== verification/Connect.v ===== *)
(** * librlink/RlinkConnect: executing command lists over a port

    [Exec] checks a list, encodes it into one packet, sends it, waits for the
    response packet while handling attention notifies, decodes the response
    into the commands and accounts for failed checks.  Methods are state
    transformers on the connection; those that work on a command list act on
    the pair of connection and list, their loop bodies on the pair of
    connection and current command ([RlinkCommand& cmd = clist[i]]).

    The port is an instance of [RlinkPort].  The server, when attached, is seen
    through its activity state and the calls made to it.  Rendering of command
    lists into the log is left out: a log entry records that it happens. *)

From S2P Require Import Prelude.
From S2P Require Import Rtime.
From S2P Require Import Rstats.
From S2P Require Import Crc16.
From S2P Require Import Port.
From S2P Require Import PacketBuf.
From S2P Require Import PacketRcv.
From S2P Require Import AddrMap.
From S2P Require Import Command.
From S2P Require Import CommandList.

(** ** Data *)

Definition kRbaddr_RLCNTL : Z := 0xffff.
Definition kRbaddr_RLSTAT : Z := 0xfffe.
Definition kRbaddr_RLID1  : Z := 0xfffd.
Definition kRbaddr_RLID0  : Z := 0xfffc.
Definition kRbaddr_RLUA1  : Z := 0xfffb.
Definition kRbaddr_RLUA0  : Z := 0xfffa.
Definition kRbaddr_RMBASE : Z := 0xffe8.
Definition kRLSTAT_M_RBSize : Z := 0x0007.
Definition kRbufBlkDelta : Z := 16.
Definition kRbufPrudentDelta : Z := 512.

Definition kStatNExec     : nat := 0.
Definition kStatNExecPart : nat := 1.
Definition kStatNCmd      : nat := 2.
Definition kStatNRreg     : nat := 3.
Definition kStatNRblk     : nat := 4.
Definition kStatNWreg     : nat := 5.
Definition kStatNWblk     : nat := 6.
Definition kStatNLabo     : nat := 7.
Definition kStatNAttn     : nat := 8.
Definition kStatNInit     : nat := 9.
Definition kStatNRblkWord : nat := 10.
Definition kStatNWblkWord : nat := 11.
Definition kStatNExpData  : nat := 12.
Definition kStatNExpDone  : nat := 13.
Definition kStatNExpStat  : nat := 14.
Definition kStatNNoExpStat: nat := 15.
Definition kStatNChkData  : nat := 16.
Definition kStatNChkDone  : nat := 17.
Definition kStatNChkStat  : nat := 18.
Definition kStatNSndOob   : nat := 19.
Definition kStatNErrMiss  : nat := 20.
Definition kStatNErrCmd   : nat := 21.
Definition kStatNErrLen   : nat := 22.
Definition kStatNErrCrc   : nat := 23.
Definition kStatNErrNak   : nat := 24.

(** What the connection sees of an attached server: whether it is active,
    whether the caller is the server thread, and the calls made to it. *)
Record ServerView := mkServerView {
  sv_active : bool;
  sv_inside : bool;
  sv_signals : list Z;
  sv_stops : nat }.
#[export] Instance eta_ServerView : Eta ServerView :=
  λ s, mkServerView (sv_active s) (sv_inside s) (sv_signals s) (sv_stops s).

(** An entry of the log: a message, or a printed or dumped command list. *)
Inductive logev :=
| Lmsg (m : RlogMsg)
| LclistPrint
| LclistDump.

Record RlinkConnect (P : Type) := mkConnect {
  fupPort : option P;
  fLinkInitDeferred : bool;
  fLinkInitDone : bool;
  fpServ : option ServerView;
  fSeqNumber : list Z;
  fSndPkt : RlinkPacketBufSnd;
  fRcvPkt : RlinkPacketBufRcv;
  fContext : RlinkContext;
  fAddrMap : RlinkAddrMap;
  fCnStats : Rstats;
  fLogBaseAddr : Z;
  fLogBaseData : Z;
  fLogBaseStat : Z;
  fPrintLevel : Z;
  fDumpLevel : Z;
  fTraceLevel : Z;
  fTimeout : Rtime;
  fspLog : list logev;
  fAttnNotiPatt : Z;
  fTsLastAttnNoti : Rtime;
  fSysId : Z;
  fUsrAcc : Z;
  fRbufSize : Z;
  fHasRbmon : bool;
  memory : Mem }.
Arguments fupPort {P}. Arguments fLinkInitDeferred {P}. Arguments fLinkInitDone {P}.
Arguments fpServ {P}. Arguments fSeqNumber {P}. Arguments fSndPkt {P}. Arguments fRcvPkt {P}.
Arguments fContext {P}. Arguments fAddrMap {P}. Arguments fCnStats {P}. Arguments fLogBaseAddr {P}.
Arguments fLogBaseData {P}. Arguments fLogBaseStat {P}. Arguments fPrintLevel {P}.
Arguments fDumpLevel {P}. Arguments fTraceLevel {P}. Arguments fTimeout {P}. Arguments fspLog {P}.
Arguments fAttnNotiPatt {P}. Arguments fTsLastAttnNoti {P}. Arguments fSysId {P}.
Arguments fUsrAcc {P}. Arguments fRbufSize {P}. Arguments fHasRbmon {P}. Arguments memory {P}.
Arguments mkConnect {P}.
#[export] Instance eta_RlinkConnect P : Eta (RlinkConnect P) := λ c,
  mkConnect (fupPort c) (fLinkInitDeferred c) (fLinkInitDone c) (fpServ c) (fSeqNumber c)
    (fSndPkt c) (fRcvPkt c) (fContext c) (fAddrMap c) (fCnStats c) (fLogBaseAddr c)
    (fLogBaseData c) (fLogBaseStat c) (fPrintLevel c) (fDumpLevel c) (fTraceLevel c)
    (fTimeout c) (fspLog c) (fAttnNotiPatt c) (fTsLastAttnNoti c) (fSysId c) (fUsrAcc c)
    (fRbufSize c) (fHasRbmon c) (memory c).

Definition connect_stat_table : list (string * string) := [
  ("NExec", "Exec() calls"); ("NExecPart", "ExecPart() calls"); ("NCmd", "commands executed");
  ("NRreg", "rreg commands"); ("NRblk", "rblk commands"); ("NWreg", "wreg commands");
  ("NWblk", "wblk commands"); ("NLabo", "labo commands"); ("NAttn", "attn commands");
  ("NInit", "init commands"); ("NRblkWord", "words rcvd with rblk");
  ("NWblkWord", "words send with wblk"); ("NExpData", "expect for data defined");
  ("NExpDone", "expect for done defined"); ("NExpStat", "expect for stat explicit");
  ("NNoExpStat", "no expect for stat"); ("NChkData", "expect data failed");
  ("NChkDone", "expect done failed"); ("NChkStat", "expect stat failed");
  ("NSndOob", "SndOob() calls"); ("NErrMiss", "decode: missing data");
  ("NErrCmd", "decode: command mismatch"); ("NErrLen", "decode: length mismatch");
  ("NErrCrc", "decode: crc mismatch"); ("NErrNak", "decode: nak seen") ]%string.

Definition staterr : Z := Z.lor (Z.lor kStat_M_RbTout kStat_M_RbNak) kStat_M_RbErr.

Definition RlinkConnect_ctor {P} : RlinkConnect P :=
  mkConnect None false false None (replicate 8 0) RlinkPacketBufSnd_ctor RlinkPacketBufRcv_ctor
    (SetStatus_cntx 0 staterr RlinkContext_ctor) RlinkAddrMap_ctor (Define_all connect_stat_table)
    16 16 16 2 0 0 (mkRtime 10 0) [] 0 Rtime_ctor 0xffffffff 0 2048 false ∅.

(** A list being executed, and the current command of a loop over it. *)
Record onlist (P : Type) := mkOnList { cn : RlinkConnect P; cl : RlinkCommandList }.
Arguments cn {P}. Arguments cl {P}. Arguments mkOnList {P}.
#[export] Instance eta_onlist P : Eta (onlist P) := λ s, mkOnList (cn s) (cl s).
Record oncmd (P : Type) := mkOnCmd { cnx : RlinkConnect P; cmd : RlinkCommand }.
Arguments cnx {P}. Arguments cmd {P}. Arguments mkOnCmd {P}.
#[export] Instance eta_oncmd P : Eta (oncmd P) := λ s, mkOnCmd (cnx s) (cmd s).

Section Connect.
Context {P : Type} `{!RlinkPort P}.
Notation Conn := (RlinkConnect P).

(** ** Accessors and small methods *)

Definition HasPort (c : Conn) : bool := bool_decide (is_Some (fupPort c)).
Definition IsOpen (c : Conn) : bool :=
  match fupPort c with Some p => port_IsOpen p | None => false end.
(** A call on [Port()]: dereferences the port pointer. *)
Definition with_port {A} (f : P → A * P) : M Conn A := λ c,
  match fupPort c with
  | None => (Exc (undefined "null port"), c)
  | Some p => let '(a, p) := f p in (Ret a, c <| fupPort := Some p |>)
  end.
(** Reading [CLOCK_MONOTONIC]; the clock is reached through the port instance. *)
Definition GetClock : M Conn Rtime := with_port clock_monotonic.

Definition ServerActive (c : Conn) : bool :=
  match fpServ c with Some s => sv_active s | None => false end.
Definition ServerActiveInside (c : Conn) : bool :=
  match fpServ c with Some s => sv_active s && sv_inside s | None => false end.
Definition ServerActiveOutside (c : Conn) : bool :=
  match fpServ c with Some s => sv_active s && negb (sv_inside s) | None => false end.

Definition stat (ind : nat) (val : Z) (c : Conn) : Conn := c <| fCnStats ::= inc ind val |>.
Definition log (tag : string) (text : string) : M Conn () :=
  modify (λ c, c <| fspLog ::= λ l, l ++ [Lmsg (mkRlogMsg tag text)] |>).
Definition BadPort {A} (meth : string) : M Conn A :=
  throw (Rexception meth "Bad state: port not open").
Definition need_open (meth : string) : M Conn () := λ c,
  if IsOpen c then (Ret (), c) else BadPort meth c.

Definition BlockSizeMax (c : Conn) : Z := (fRbufSize c - kRbufBlkDelta) / 2.
Definition BlockSizePrudent (c : Conn) : Z := (fRbufSize c - kRbufPrudentDelta) / 2.

Definition bad_base (base : Z) : bool :=
  negb (base =? 2) && negb (base =? 8) && negb (base =? 16).
Definition SetLogBaseAddr (base : Z) : M Conn () :=
  throw_if (bad_base base) "RlinkConnect::SetLogBaseAddr()" "Bad args: base != 2,8,16" ;;
  modify (λ c, c <| fLogBaseAddr := base |>).
Definition SetLogBaseData (base : Z) : M Conn () :=
  throw_if (bad_base base) "RlinkConnect::SetLogBaseData()" "Bad args: base != 2,8,16" ;;
  modify (λ c, c <| fLogBaseData := base |>).
Definition SetLogBaseStat (base : Z) : M Conn () :=
  throw_if (bad_base base) "RlinkConnect::SetLogBaseStat()" "Bad args: base != 2,8,16" ;;
  modify (λ c, c <| fLogBaseStat := base |>).
Definition SetPrintLevel (lvl : Z) : M Conn () := modify (λ c, c <| fPrintLevel := lvl |>).
Definition SetDumpLevel (lvl : Z) : M Conn () := modify (λ c, c <| fDumpLevel := lvl |>).
Definition SetTraceLevel (lvl : Z) : M Conn () := modify (λ c, c <| fTraceLevel := lvl |>).
Definition SetTimeout (timeout : Rtime) : M Conn () :=
  throw_if (negb (IsPositive timeout)) "RlinkConnect::SetTimeout()" "Bad args: timeout <= 0" ;;
  modify (λ c, c <| fTimeout := timeout |>).

Definition AddrMapInsert (name : string) (addr : Z) : M Conn bool := zoom fAddrMap (Insert name addr).

(** ** Send and receive packets through the connection *)

Definition SndPacket_cn : M Conn (bool * RerrMsg) := λ c,
  match fupPort c with
  | None => (Exc (undefined "null port"), c)
  | Some p => let '(r, s, p) := SndPacket (fSndPkt c) p in
              (Ret r, c <| fSndPkt := s |> <| fupPort := Some p |>)
  end.
Definition ReadData_cn (timeout : Rtime) : M Conn (Z * RerrMsg) := λ c,
  match fupPort c with
  | None => (Exc (undefined "null port"), c)
  | Some p => let '(r, s, p) := ReadData timeout (fRcvPkt c) p in
              (r, c <| fRcvPkt := s |> <| fupPort := Some p |>)
  end.
(** A getter of the receive packet; [None] is a read behind the packet. *)
Definition get_rcv {A} (f : Rcv → option (A * Rcv)) : M Conn A := λ c,
  match f (fRcvPkt c) with
  | None => (Exc (undefined "read behind packet"), c)
  | Some (a, s) => (Ret a, c <| fRcvPkt := s |>)
  end.
Definition AcceptPacket_cn : M Conn () := modify (λ c, c <| fRcvPkt ::= AcceptPacket |>).

Definition SndOob_cn (addr data : Z) : M Conn (bool * RerrMsg) := λ c,
  if IsOpen c then
    let c := stat kStatNSndOob 1 c in
    match fupPort c with
    | None => (Exc (undefined "null port"), c)
    | Some p => let '(r, s, p) := SndOob addr data (fSndPkt c) p in
                (Ret r, c <| fSndPkt := s |> <| fupPort := Some p |>)
    end
  else BadPort "RlinkConnect::SndOob" c.
Definition SndAttn_cn : M Conn (bool * RerrMsg) := λ c,
  if IsOpen c then
    match fupPort c with
    | None => (Exc (undefined "null port"), c)
    | Some p => let '(r, s, p) := SndAttn (fSndPkt c) p in
                (Ret r, c <| fSndPkt := s |> <| fupPort := Some p |>)
    end
  else BadPort "RlinkConnect::SndAttn" c.

(** ** Attention notifies *)

(** [None]: decode failed. *)
Definition DecodeAttnNotify : M Conn (option Z) :=
  ok ← gets (λ c, CheckSize (2 + 2) (fRcvPkt c));
  if negb ok then
    modify (stat kStatNErrMiss 1) ;;
    log "E" "DecodeAttnNotify: not enough data for data+crc" ;; mret None
  else
    apat ← get_rcv GetWithCrc16;
    ok ← get_rcv CheckCrc;
    if negb ok then
      modify (stat kStatNErrCrc 1) ;; log "E" "DecodeAttnNotify: crc mismatch" ;; mret None
    else mret (Some apat).

Definition SignalAttnNotify (apat : Z) (c : Conn) : Conn :=
  c <| fpServ ::= fmap (λ s, s <| sv_signals ::= λ l, l ++ [apat] |>) |>.

Definition ProcessAttnNotify : M Conn () :=
  r ← DecodeAttnNotify;
  AcceptPacket_cn ;;
  match r with
  | None => mret ()
  | Some apat =>
      (if negb (apat =? 0) then
         modify (λ c, if ServerActive c then SignalAttnNotify apat c
                      else c <| fAttnNotiPatt ::= λ p, Z.lor p apat |>)
       else log "W" "ProcessAttnNotify: zero attn notify received") ;;
      lvl ← gets fPrintLevel;
      if lvl =? 3 then
        log "I" "ATTN notify apat" ;;
        tnow ← GetClock; modify (λ c, c <| fTsLastAttnNoti := tnow |>)
      else mret ()
  end.

(** Packets taken from the input buffer by one run of [ProcessData]. *)
Definition ProcessData_cn : M Conn bool := zoom fRcvPkt ProcessData.
Definition PacketState_cn : M Conn pkt_state := gets (λ c, PacketState (fRcvPkt c)).
(** Iterations of [while (fRcvPkt.ProcessData())] that suffice for the bytes in
    the buffer: each takes a byte or a packet. *)
Definition packet_fuel (c : Conn) : nat := S (S (2 * todo (fRcvPkt c))).

Definition unsolicited_body : M Conn (ctl ()) :=
  b ← ProcessData_cn;
  if negb b then mret Break
  else
    irc ← PacketState_cn;
    match irc with
    | kPktPend => mret Break
    | kPktAttn => ProcessAttnNotify ;; mret Continue
    | _ => AcceptPacket_cn ;;
           log "E" "ProcessUnsolicitedData: dropped spurious packet" ;; mret Continue
    end.
Definition ProcessUnsolicitedData : M Conn () := λ c,
  (loop (packet_fuel c) unsolicited_body ;; mret ()) c.

Definition AcceptResponse : M Conn () := AcceptPacket_cn ;; ProcessUnsolicitedData.

Definition HandleUnsolicitedData : M Conn () := λ c,
  if negb (ServerActiveInside c) then
    (Exc (Rexception "RlinkConnect::HandleUnsolicitedData()" "only allowed inside active server"), c)
  else
    (need_open "RlinkConnect::HandleUnsolicitedData" ;;
     '(irc, emsg) ← ReadData_cn Rtime_ctor;
     if irc =? 0 then mret ()
     else
       (if irc <? 0 then log "E" ("HandleUnsolicitedData: IO error: " ++ em_text emsg)%string else mret ()) ;;
       ProcessUnsolicitedData) c.

(** ** Waiting for packets *)

Definition response_body : M Conn (ctl bool) :=
  b ← ProcessData_cn;
  if negb b then mret Break
  else
    irc ← PacketState_cn;
    match irc with
    | kPktPend => mret Break
    | kPktAttn => ProcessAttnNotify ;; mret Continue
    | kPktResp => mret (Return true)
    | kPktError => log "E" "ReadResponse: dropped spurious packet" ;; AcceptPacket_cn ;; mret Continue
    end.

Definition response_packets : M Conn (option bool) := λ c, loop (packet_fuel c) response_body c.

(** One turn of [while (tnow < tend)]: read, process; the next [tnow]. *)
Definition response_turn (tend tnow : Rtime) : M Conn (Rtime + (bool * RerrMsg)) :=
  need_open "RlinkConnect::ReadResponse" ;;
  '(irc, emsg) ← ReadData_cn (op_minus tend tnow);
  if irc <=? 0 then
    log "E" ("ReadResponse: IO error or timeout: " ++ em_text emsg)%string ;;
    mret (inr (false, emsg))
  else
    r ← response_packets;
    match r with
    | Some ok => mret (inr (ok, emsg))
    | None => tnow ← GetClock; mret (inl tnow)
    end.
Fixpoint response_loop (n : nat) (tend tnow : Rtime) : M Conn (option (bool * RerrMsg)) := λ c,
  if op_lt tnow tend then
    match n with
    | O => (NoFuel, c)
    | S n =>
        (r ← response_turn tend tnow;
         match r with
         | inl tnow => response_loop n tend tnow
         | inr x => mret (Some x)
         end) c
    end
  else (Ret None, c).
Definition ReadResponse (n : nat) (timeout : Rtime) : M Conn (bool * RerrMsg) :=
  tnow ← GetClock;
  r ← response_loop n (op_plus tnow timeout) tnow;
  match r with
  | Some x => mret x
  | None => log "E" "ReadResponse: timeout" ;; AcceptPacket_cn ;; mret (false, emsg_none)
  end.

(** Result of [WaitAttn]: the return code and the out parameters. *)
Record wait_result := mkWait { wr_rc : Z; wr_twait : Rtime; wr_apat : Z; wr_emsg : RerrMsg }.

Definition harvest : M Conn Z := λ c, (Ret (fAttnNotiPatt c), c <| fAttnNotiPatt := 0 |>).
Definition wait_body : M Conn (ctl Z) :=
  b ← ProcessData_cn;
  if negb b then mret Break
  else
    irc ← PacketState_cn;
    match irc with
    | kPktPend => mret Break
    | kPktAttn =>
        ProcessAttnNotify ;;
        p ← gets fAttnNotiPatt;
        if negb (p =? 0) then apat ← harvest; mret (Return apat) else mret Continue
    | _ => log "E" "WaitAttn: dropped spurious packet" ;; AcceptPacket_cn ;; mret Continue
    end.
Definition wait_packets : M Conn (option Z) := λ c, loop (packet_fuel c) wait_body c.
Definition wait_turn (tbeg tend tnow : Rtime) : M Conn (Rtime + wait_result) :=
  need_open "RlinkConnect::WaitAttn" ;;
  '(irc, emsg) ← ReadData_cn (op_minus tend tnow);
  if irc =? kTout then mret (inr (mkWait (-1) Rtime_ctor 0 emsg))
  else if irc =? kErr then mret (inr (mkWait (-2) Rtime_ctor 0 emsg))
  else
    tnow ← GetClock;
    r ← wait_packets;
    match r with
    | Some apat => mret (inr (mkWait 1 (op_minus tnow tbeg) apat emsg))
    | None => mret (inl tnow)
    end.
Fixpoint wait_loop (n : nat) (tbeg tend tnow : Rtime) : M Conn (option wait_result) := λ c,
  if op_lt tnow tend then
    match n with
    | O => (NoFuel, c)
    | S n =>
        (r ← wait_turn tbeg tend tnow;
         match r with
         | inl tnow => wait_loop n tbeg tend tnow
         | inr x => mret (Some x)
         end) c
    end
  else (Ret None, c).
Definition WaitAttn (n : nat) (timeout : Rtime) : M Conn wait_result := λ c,
  if ServerActiveOutside c then
    (Exc (Rexception "RlinkConnect::WaitAttn()" "not allowed outside active server"), c)
  else if negb (fAttnNotiPatt c =? 0) then
    (apat ← harvest; mret (mkWait 0 Rtime_ctor apat emsg_none)) c
  else if negb (IsPositive timeout) then (Ret (mkWait 0 Rtime_ctor 0 emsg_none), c)
  else
    (tnow ← GetClock;
     r ← wait_loop n tnow (op_plus tnow timeout) tnow;
     mret (default (mkWait (-1) Rtime_ctor 0 emsg_none) r)) c.

(** ** EncodeRequest *)

Definition on_cn {A} (m : M Conn A) : M (oncmd P) A := zoom cnx m.
Definition on_cmd (f : RlinkCommand → RlinkCommand) : M (oncmd P) () := modify (λ s, s <| cmd ::= f |>).
Definition put (f : RlinkPacketBufSnd → RlinkPacketBufSnd) : M (oncmd P) () :=
  modify (λ s, s <| cnx ::= λ c, c <| fSndPkt ::= f |> |>).
Definition xstat (ind : nat) (val : Z) : M (oncmd P) () := modify (λ s, s <| cnx ::= stat ind val |>).
Definition put_addr : M (oncmd P) () := a ← gets (λ s, fAddress (cmd s)); put (PutWithCrc16 a).
Definition put_data : M (oncmd P) () := a ← gets (λ s, fData (cmd s)); put (PutWithCrc16 a).

(** [fSeqNumber[ccode]++]; yields the old value. *)
Definition next_seq (ccode : Z) : M Conn Z := λ c,
  (Ret (nth (Z.to_nat ccode) (fSeqNumber c) 0),
   c <| fSeqNumber ::= alter (λ n, u8 (n + 1)) (Z.to_nat ccode) |>).

(** The switch over the command code. *)
Definition encode_body (ccode : Z) (ndata : nat) : M (oncmd P) () :=
  if ccode =? kCmdRreg then
    xstat kStatNRreg 1 ;; on_cmd (SetRcvSize (1 + 2 + 1 + 2)) ;; put_addr
  else if ccode =? kCmdRblk then
    xstat kStatNRblk 1 ;; xstat kStatNRblkWord (Z.of_nat ndata) ;;
    on_cmd (SetRcvSize (1 + 2 + 2 * ndata + 2 + 1 + 2)) ;;
    put_addr ;; put (PutWithCrc16 (u16 (Z.of_nat ndata)))
  else if ccode =? kCmdWreg then
    xstat kStatNWreg 1 ;; on_cmd (SetRcvSize (1 + 1 + 2)) ;; put_addr ;; put_data
  else if ccode =? kCmdWblk then
    xstat kStatNWblk 1 ;; xstat kStatNWblkWord (Z.of_nat ndata) ;;
    on_cmd (SetRcvSize (1 + 2 + 1 + 2)) ;;
    put_addr ;; put (PutWithCrc16 (u16 (Z.of_nat ndata))) ;; put PutCrc ;;
    pdata ← gets (λ s, block_read (memory (cnx s)) ndata (cmd s)); put (PutWithCrcBlk pdata)
  else if ccode =? kCmdLabo then
    xstat kStatNLabo 1 ;; on_cmd (SetRcvSize (1 + 1 + 1 + 2))
  else if ccode =? kCmdAttn then
    xstat kStatNAttn 1 ;; on_cmd (SetRcvSize (1 + 2 + 1 + 2))
  else if ccode =? kCmdInit then
    xstat kStatNInit 1 ;; on_cmd (SetRcvSize (1 + 1 + 2)) ;; put_addr ;; put_data
  else throw (Rexception "RlinkConnect::Exec()" "BugCheck: invalid command").

Definition encode_cmd : M (oncmd P) () :=
  ccode ← gets (λ s, Command (cmd s));
  ndata ← gets (λ s, BlockSize (cmd s));
  xstat kStatNCmd 1 ;;
  snum ← on_cn (next_seq ccode);
  on_cmd (SetSeqNumber snum) ;;
  on_cmd (Command.ClearFlagBit (Z.lor Command.kFlagPktBeg Command.kFlagPktEnd)) ;;
  req ← gets (λ s, fRequest (cmd s));
  put (PutWithCrc8 req) ;;
  encode_body ccode ndata ;;
  put PutCrc ;;
  on_cmd (Command.SetFlagBit kFlagSend).

(** [RlinkCommand& cmd = clist[i]]: the element is updated in place. *)
Definition with_cmd {A} (i : nat) (m : M (oncmd P) A) : M (onlist P) A := λ s,
  match fList (cl s) !! i with
  | None => (Exc out_of_range, s)
  | Some c =>
      let '(r, x) := m (mkOnCmd (cn s) c) in
      (r, mkOnList (cnx x) (cl s <| fList ::= <[i := cmd x]> |>))
  end.
Definition for_cmds {R} (ibeg iend : nat) (body : nat → M (onlist P) (option R)) : M (onlist P) (option R) :=
  for_ (seq ibeg (S iend - ibeg)) body.

Definition EncodeRequest (ibeg iend : nat) : M (onlist P) () :=
  modify (λ s, s <| cn ::= λ c, c <| fSndPkt ::= Init |> |>) ;;
  for_cmds ibeg iend (λ i, with_cmd i encode_cmd ;; mret (None : option ())) ;;
  with_cmd ibeg (on_cmd (Command.SetFlagBit Command.kFlagPktBeg)) ;;
  with_cmd iend (on_cmd (Command.SetFlagBit Command.kFlagPktEnd)).

(** ** DecodeResponse *)

Definition nak_name (code : Z) : string :=
  if code =? kNcCcrc then "Ccrc" else if code =? kNcDcrc then "Dcrc"
  else if code =? kNcFrame then "Frame" else if code =? kNcUnused then "Unused"
  else if code =? kNcCmd then "Cmd" else if code =? kNcCnt then "Cnt"
  else if code =? kNcRtOvlf then "RtOvlf" else if code =? kNcRtWblk then "RtWblk"
  else if code =? kNcInval then "Inval" else EmptyString.

(** An error exit: flag, counter, log line; the caller returns -1. *)
Definition decode_fail (flag : Z) (ind : nat) (text : string) : M (oncmd P) bool :=
  on_cmd (Command.SetFlagBit flag) ;; xstat ind 1 ;; on_cn (log "E" text) ;; mret false.

(** The switch over the command code; [false]: the method returns -1. *)
Definition decode_data (ccode : Z) : M (oncmd P) bool :=
  if ccode =? kCmdRreg then
    rdata ← on_cn (get_rcv GetWithCrc16); on_cmd (SetData rdata) ;; mret true
  else if ccode =? kCmdRblk then
    rdata ← on_cn (get_rcv GetWithCrc16);
    size ← gets (λ s, BlockSize (cmd s));
    if negb (rdata =? u16 (Z.of_nat size)) then
      decode_fail kFlagErrDec kStatNErrLen "DecodeResponse: rblk length mismatch"
    else
      ws ← on_cn (get_rcv (GetWithCrcBlk size));
      modify (λ s, let '(c, m) := block_write ws (cmd s) (memory (cnx s)) in
                   s <| cmd := c |> <| cnx ::= λ c, c <| memory := m |> |>) ;;
      rdata ← on_cn (get_rcv GetWithCrc16); on_cmd (SetBlockDone rdata) ;; mret true
  else if ccode =? kCmdWreg then mret true
  else if ccode =? kCmdWblk then
    rdata ← on_cn (get_rcv GetWithCrc16); on_cmd (SetBlockDone rdata) ;; mret true
  else if ccode =? kCmdLabo then
    rdata8 ← on_cn (get_rcv GetWithCrc8); on_cmd (SetData rdata8) ;; mret true
  else if ccode =? kCmdAttn then
    rdata ← on_cn (get_rcv GetWithCrc16); on_cmd (SetData rdata) ;; mret true
  else mret true.

(** From the NAK check to the checksum of the command. *)
Definition decode_fetch : M (oncmd P) bool :=
  ccode ← gets (λ s, Command (cmd s));
  nak ← gets (λ s, CheckNak (fRcvPkt (cnx s)));
  if (nak : bool) then
    code ← gets (λ s, fNakCode (fRcvPkt (cnx s)));
    decode_fail kFlagErrNak kStatNErrNak ("DecodeResponse: NAK seen, code " ++ nak_name code)%string
  else
  ok ← gets (λ s, CheckSize (fRcvSize (cmd s)) (fRcvPkt (cnx s)));
  if negb ok then
    decode_fail kFlagErrDec kStatNErrMiss "DecodeResponse: not enough data for cmd"
  else
  rdata8 ← on_cn (get_rcv GetWithCrc8);
  req ← gets (λ s, fRequest (cmd s));
  if negb (rdata8 =? req) then
    decode_fail kFlagErrDec kStatNErrCmd "DecodeResponse: command mismatch"
  else
  ok ← decode_data ccode;
  if negb ok then mret false
  else
  rdata8 ← on_cn (get_rcv GetWithCrc8);
  on_cmd (SetStatus rdata8) ;;
  ok ← on_cn (get_rcv CheckCrc);
  if negb ok then
    decode_fail kFlagErrDec kStatNErrCrc "DecodeResponse: crc mismatch"
  else
  on_cmd (Command.SetFlagBit kFlagDone) ;; mret true.

Definition is_blk (ccode : Z) : bool := (ccode =? kCmdRblk) || (ccode =? kCmdWblk).
Definition xstat_if (b : bool) (ind : nat) : M (oncmd P) () := if b then xstat ind 1 else mret ().
(** A failed check: counter and flag. *)
Definition check_fail (b : bool) (ind : nat) (flag : Z) : M (oncmd P) () :=
  if b then xstat ind 1 ;; on_cmd (Command.SetFlagBit flag) else mret ().

Definition decode_expect : M (oncmd P) () := λ s,
  match fupExpect (cmd s) with
  | None => (Ret (), s)
  | Some expect =>
    (ccode ← gets (λ s, Command (cmd s));
     (if is_blk ccode then
        xstat_if (negb (length (fBlockVal expect) =? 0)%nat) kStatNExpData ;;
        xstat_if (DoneIsChecked expect) kStatNExpDone
      else xstat_if (DataIsChecked expect) kStatNExpData) ;;
     (if (ccode =? kCmdRreg) || (ccode =? kCmdLabo) || (ccode =? kCmdAttn) then
        d ← gets (λ s, fData (cmd s));
        check_fail (negb (DataCheck d expect)) kStatNChkData kFlagChkData
      else if ccode =? kCmdRblk then
        done ← gets (λ s, fBlockDone (cmd s));
        pval ← gets (λ s, block_read (memory (cnx s)) done (cmd s));
        match BlockCheck pval done expect with
        | None => throw (undefined "read behind block")
        | Some nerr => check_fail (negb (nerr =? 0)%nat) kStatNChkData kFlagChkData
        end
      else mret ()) ;;
     if is_blk ccode then
       done ← gets (λ s, fBlockDone (cmd s));
       check_fail (negb (DoneCheck (Z.of_nat done) expect)) kStatNChkDone kFlagChkDone
     else mret ()) s
  end.
Definition decode_status : M (oncmd P) () := λ s,
  (xstat_if (fExpectStatusSet (cmd s)) kStatNExpStat ;;
   xstat_if (negb (StatusIsChecked (cmd s))) kStatNNoExpStat ;;
   check_fail (negb (StatusCheck (cmd s))) kStatNChkStat kFlagChkStat) s.

(** One iteration; [Some rc]: the method returns [rc]. *)
Definition decode_step (i : nat) : M (onlist P) (option Z) := λ s,
  if LaboActive (cl s) then
    (with_cmd i (on_cmd (Command.SetFlagBit (Z.lor kFlagDone kFlagLabo))) ;; mret None) s
  else
    (ok ← with_cmd i decode_fetch;
     if negb ok then mret (Some (-1))
     else
       labo ← with_cmd i (gets (λ s, (Command (cmd s) =? kCmdLabo) && negb (fData (cmd s) =? 0)));
       (if (labo : bool) then modify (λ s, s <| cl ::= SetLaboIndex (Z.of_nat i) |>) else mret ()) ;;
       with_cmd i decode_expect ;; with_cmd i decode_status ;; mret None) s.
Fixpoint decode_loop (is_ : list nat) (ncmd : Z) : M (onlist P) Z :=
  match is_ with
  | [] => mret ncmd
  | i :: is_ => r ← decode_step i;
                match r with Some rc => mret rc | None => decode_loop is_ (ncmd + 1) end
  end.
Definition DecodeResponse (ibeg iend : nat) : M (onlist P) Z := decode_loop (seq ibeg (S iend - ibeg)) 0.

(** ** ExecPart and Exec *)

Definition on_list {A} (m : M Conn A) : M (onlist P) A := zoom cn m.
Definition lstat (ind : nat) : M (onlist P) () := modify (λ s, s <| cn ::= stat ind 1 |>).

Definition ExecPart (n : nat) (ibeg iend : nat) : M (onlist P) (bool * RerrMsg) := λ s,
  if (iend <? ibeg)%nat || (Size (cl s) <=? iend)%nat then
    (Exc (Rexception "RlinkConnect::ExecPart()" "Bad args: ibeg or iend invalid"), s)
  else if negb (IsOpen (cn s)) then
    (Exc (Rexception "RlinkConnect::ExecPart()" "Bad state: port not open"), s)
  else
    (lstat kStatNExecPart ;;
     EncodeRequest ibeg iend ;;
     '(ok, emsg) ← on_list SndPacket_cn;
     if negb ok then mret (false, emsg)
     else
       timeout ← gets (λ s, fTimeout (cn s));
       (* the result is tested, but the exception object built is not thrown *)
       '(_, emsg) ← on_list (ReadResponse n timeout);
       ncmd ← DecodeResponse ibeg iend;
       if negb (ncmd =? Z.of_nat (iend - ibeg + 1)) then
         throw (Rexception "RlinkConnect::ExecPart()" "incomplete response")
       else on_list AcceptResponse ;; mret (true, emsg)) s.

Definition exec_clear_mask : Z :=
  Z.lor (Z.lor (Z.lor (Z.lor (Z.lor (Z.lor kFlagSend kFlagDone) kFlagLabo) Command.kFlagPktBeg)
    Command.kFlagPktEnd) kFlagErrNak) kFlagErrDec.
(** The checks and the flag reset before execution. *)
Definition prepare_cmd (cntx : RlinkContext) : M (oncmd P) () := λ s,
  if negb (TestFlagAny Command.kFlagInit (cmd s)) then
    (Exc (Rexception "RlinkConnect::Exec()" "BugCheck: command not initialized"), s)
  else if kCmdInit <? Command (cmd s) then
    (Exc (Rexception "RlinkConnect::Exec()" "BugCheck: invalid command code"), s)
  else if (Command (cmd s) =? kCmdAttn) && ServerActiveOutside (cnx s) then
    (Exc (Rexception "RlinkConnect::Exec()" "attn command not allowed outside active server"), s)
  else
    (on_cmd (Command.ClearFlagBit exec_clear_mask) ;;
     on_cmd (λ c, if negb (fExpectStatusSet c)
                  then SetExpectStatusDefault (fStatusVal cntx) (fStatusMsk cntx) c else c)) s.

Definition check_mask : Z := Z.lor (Z.lor kFlagChkStat kFlagChkData) kFlagChkDone.
Definition error_mask : Z := Z.lor kFlagErrNak kFlagErrDec.
(** The accounting loop: [checkseen], [errorseen] and the context. *)
Definition account (acc : bool * bool * RlinkContext) (c : RlinkCommand) : bool * bool * RlinkContext :=
  let '(checkseen, errorseen, cntx) := acc in
  let checkfound := TestFlagAny check_mask c in
  let errorfound := TestFlagAny error_mask c in
  (checkseen || checkfound, errorseen || errorfound,
   if checkfound || errorfound then IncErrorCount 1 cntx else cntx).

Definition Exec (n : nat) (cntx : RlinkContext) : M (onlist P) ((bool * RerrMsg) * RlinkContext) := λ s,
  if (Size (cl s) =? 0)%nat then
    (Exc (Rexception "RlinkConnect::Exec()" "Bad state: clist empty"), s)
  else if negb (IsOpen (cn s)) then
    (Exc (Rexception "RlinkConnect::Exec()" "Bad state: port not open"), s)
  else
    (lstat kStatNExec ;;
     modify (λ s, s <| cl ::= ClearLaboIndex |>) ;;
     size ← gets (λ s, Size (cl s));
     for_cmds 0 (size - 1) (λ i, with_cmd i (prepare_cmd cntx) ;; mret (None : option ())) ;;
     '(rc, emsg) ← ExecPart n 0 (size - 1);
     if negb rc then mret ((rc, emsg), cntx)
     else
       cmds ← gets (λ s, fList (cl s));
       let '(checkseen, errorseen, cntx) := fold_left account cmds (false, false, cntx) in
       let loglevel := if (errorseen : bool) then 1 else if (checkseen : bool) then 2 else 3 in
       modify (λ s, if loglevel <=? fPrintLevel (cn s)
                    then s <| cn ::= λ c, c <| fspLog ::= λ l, l ++ [LclistPrint] |> |> else s) ;;
       modify (λ s, if loglevel <=? fDumpLevel (cn s)
                    then s <| cn ::= λ c, c <| fspLog ::= λ l, l ++ [LclistDump] |> |> else s) ;;
       mret ((true, emsg), cntx)) s.
(** The overload that throws on failure. *)
Definition Exec_throw (n : nat) (cntx : RlinkContext) : M (onlist P) RlinkContext :=
  '(rc, emsg, cntx) ← Exec n cntx;
  if negb rc then
    on_list (log "F" (em_text emsg)) ;;
    modify (λ s, s <| cn ::= λ c, c <| fspLog ::= λ l, l ++ [LclistDump] |> |>) ;;
    throw (Rexception "RlinkConnect::Exec" ("Exec() failed: " ++ em_text emsg)%string)
  else mret cntx.
(** [Exec(clist,emsg)]: the default context is updated in place. *)
Definition Exec_default (n : nat) : M (onlist P) (bool * RerrMsg) :=
  cntx ← gets (λ s, fContext (cn s));
  '(r, cntx) ← Exec n cntx;
  modify (λ s, s <| cn ::= λ c, c <| fContext := cntx |> |>) ;; mret r.

(** ** Open, Close, LinkInit *)

Definition linkinit_list : RlinkCommandList := build
  [B_add (S_rreg kRbaddr_RLSTAT); B_add (S_rreg kRbaddr_RLID1); B_add (S_rreg kRbaddr_RLID0);
   B_add (S_rreg kRbaddr_RLUA1); B_status 0 0; B_add (S_rreg kRbaddr_RLUA0); B_status 0 0;
   B_add (S_rreg kRbaddr_RMBASE); B_status 0 0].
Definition nth_cmd (i : nat) (l : RlinkCommandList) : RlinkCommand := nth i (fList l) RlinkCommand_ctor.
(** What [LinkInit] keeps of the registers it has read. *)
Definition linkinit_store (l : RlinkCommandList) : M Conn () :=
  let rlstat := fData (nth_cmd 0 l) in
  let rlid1 := fData (nth_cmd 1 l) in
  let rlid0 := fData (nth_cmd 2 l) in
  modify (λ c, c <| fRbufSize := Z.shiftl 1 (10 + Z.land rlstat kRLSTAT_M_RBSize) |>
                 <| fSysId := Z.lor (u32 (Z.shiftl rlid1 16)) rlid0 |>) ;;
  (if (Z.land (fStatus (nth_cmd 3 l)) staterr =? 0) && (Z.land (fStatus (nth_cmd 4 l)) staterr =? 0) then
     AddrMapInsert "rl.ua1" kRbaddr_RLUA1 ;; AddrMapInsert "rl.ua0" kRbaddr_RLUA0 ;;
     modify (λ c, c <| fUsrAcc := Z.lor (u32 (Z.shiftl (fData (nth_cmd 3 l)) 16)) (fData (nth_cmd 4 l)) |>)
   else mret ()) ;;
  if Z.land (fStatus (nth_cmd 5 l)) staterr =? 0
  then modify (λ c, c <| fHasRbmon := true |>) else mret ().
Definition LinkInit (n : nat) : M Conn (bool * RerrMsg) := λ c,
  if fLinkInitDone c then (Ret (true, emsg_none), c)
  else
    match Exec_default n (mkOnList c linkinit_list) with
    | (Ret (rc, emsg), s) =>
        if negb rc then (Ret (false, emsg), cn s)
        else
          (modify (λ c, c <| fLinkInitDone := true |>) ;;
           AddrMapInsert "rl.cntl" kRbaddr_RLCNTL ;; AddrMapInsert "rl.stat" kRbaddr_RLSTAT ;;
           AddrMapInsert "rl.id1" kRbaddr_RLID1 ;; AddrMapInsert "rl.id0" kRbaddr_RLID0 ;;
           linkinit_store (cl s) ;; mret (true, emsg)) (cn s)
    | (Exc e, s) => (Exc e, cn s)
    | (NoFuel, s) => (NoFuel, cn s)
    end.

Definition Close_cn : M Conn () := λ c,
  match fupPort c with
  | None => (Ret (), c)
  | Some p =>
      let c := c <| fpServ ::= fmap (λ s, s <| sv_stops ::= S |>) |> in
      let c := if IsOpen c && port_FindOpt "keep" p
               then let '(_, s, p) := SndKeep (fSndPkt c) p in c <| fSndPkt := s |> <| fupPort := Some p |>
               else c in
      (Ret (), c <| fupPort := None |>)
  end.

(** [port] and [emsg]: the result of [RlinkPortFactory::Open(name, emsg)]. *)
Definition Open (n : nat) (port : option P) (emsg : RerrMsg) : M Conn (bool * RerrMsg) :=
  Close_cn ;;
  modify (λ c, c <| fupPort := port |>) ;;
  match port with
  | None => mret (false, emsg)
  | Some p =>
      modify (λ c, c <| fSndPkt ::= SetXonEscape (port_XonEnable p) |> <| fLinkInitDone := false |>
        <| fRbufSize := 2048 |> <| fSysId := 0xffffffff |> <| fUsrAcc := 0 |>) ;;
      if negb (port_FindOpt "noinit" p) then
        '(ok, emsg) ← LinkInit n;
        if negb ok then Close_cn ;; mret (false, emsg) else mret (true, emsg)
      else mret (true, emsg)
  end.
End Connect.
