(* ===== verification/ConnectEncode.v ===== *)
(** * RlinkConnect::EncodeRequest: the request packet

    The request format as a list of fields per command, a reference parser of
    request packets that shares no code with the encoder, and the theorem that
    the parser recovers from the bytes of the packet what the commands ask for.
    The lemmas on loops over the commands of a list are used by the other
    theorems on the connection as well. *)

From S2P Require Import Prelude.
From S2P Require Import Rtime.
From S2P Require Import Rstats.
From S2P Require Import Crc16.
From S2P Require Import Port.
From S2P Require Import PacketBuf.
From S2P Require Import PacketRcv.
From S2P Require Import AddrMap.
From S2P Require Import Command.
From S2P Require Import CommandList.
From S2P Require Import Connect.

(** ** The request format *)

(** Expected size of the response to a command. *)
Definition rcv_size (c : RlinkCommand) : nat :=
  let ccode := Command c in
  if ccode =? kCmdRblk then 1 + 2 + 2 * BlockSize c + 2 + 1 + 2
  else if (ccode =? kCmdWreg) || (ccode =? kCmdInit) then 4
  else if ccode =? kCmdLabo then 5
  else 6.

(** The command as it leaves [encode_cmd], for sequence number [snum]. *)
Definition encoded (snum : Z) (c : RlinkCommand) : RlinkCommand :=
  Command.SetFlagBit kFlagSend (SetRcvSize (rcv_size c)
    (Command.ClearFlagBit (Z.lor Command.kFlagPktBeg Command.kFlagPktEnd) (SetSeqNumber snum c))).

Definition req_fields (m : Mem) (c : RlinkCommand) : list field :=
  let ccode := Command c in
  let cnt := F16 (u16 (Z.of_nat (BlockSize c))) in
  [F8 (fRequest c)] ++
  (if ccode =? kCmdRreg then [F16 (fAddress c)]
   else if ccode =? kCmdRblk then [F16 (fAddress c); cnt]
   else if (ccode =? kCmdWreg) || (ccode =? kCmdInit) then [F16 (fAddress c); F16 (fData c)]
   else if ccode =? kCmdWblk then
     [F16 (fAddress c); cnt; FCrc; FBlk (block_read m (BlockSize c) c)]
   else []) ++ [FCrc].

(** ** A reference parser *)

Inductive request :=
| Rq_rreg (seq addr : Z)
| Rq_rblk (seq addr cnt : Z)
| Rq_wreg (seq addr data : Z)
| Rq_wblk (seq addr : Z) (data : list Z)
| Rq_labo (seq : Z)
| Rq_attn (seq : Z)
| Rq_init (seq addr data : Z).

(** Parser state: the checksum so far and the bytes left. *)
Definition pst : Type := Z * list Z.
Definition p8 (s : pst) : option (Z * pst) :=
  match s.2 with b :: bs => Some (b, (crc_byte s.1 b, bs)) | [] => None end.
Definition p16 (s : pst) : option (Z * pst) :=
  '(l, s) ← p8 s; '(h, s) ← p8 s; Some (l + 256 * h, s).
Fixpoint pblk (n : nat) (s : pst) : option (list Z * pst) :=
  match n with
  | O => Some ([], s)
  | S n => '(w, s) ← p16 s; '(ws, s) ← pblk n s; Some (w :: ws, s)
  end.
Definition pcrc (s : pst) : option pst :=
  match s.2 with
  | l :: h :: bs => if l + 256 * h =? s.1 then Some (s.1, bs) else None
  | _ => None
  end.
Definition parse_request (s : pst) : option (request * pst) :=
  '(req, s) ← p8 s;
  let seq := req / 8 in
  '(r, s) ← match req mod 8 with
    | 0 => '(a, s) ← p16 s; Some (Rq_rreg seq a, s)
    | 1 => '(a, s) ← p16 s; '(n, s) ← p16 s; Some (Rq_rblk seq a n, s)
    | 2 => '(a, s) ← p16 s; '(d, s) ← p16 s; Some (Rq_wreg seq a d, s)
    | 3 => '(a, s) ← p16 s; '(n, s) ← p16 s; s ← pcrc s;
           '(ws, s) ← pblk (Z.to_nat n) s; Some (Rq_wblk seq a ws, s)
    | 4 => Some (Rq_labo seq, s)
    | 5 => Some (Rq_attn seq, s)
    | 6 => '(a, s) ← p16 s; '(d, s) ← p16 s; Some (Rq_init seq a d, s)
    | _ => None
    end;
  s ← pcrc s; Some (r, s).
(** A packet of [n] commands. *)
Fixpoint parse_requests (n : nat) (s : pst) : option (list request) :=
  match n with
  | O => match s.2 with [] => Some [] | _ => None end
  | S n => '(r, s) ← parse_request s; rs ← parse_requests n s; Some (r :: rs)
  end.

(** What a command asks for. *)
Definition request_of (m : Mem) (c : RlinkCommand) : request :=
  let seq := SeqNumber c in
  let ccode := Command c in
  if ccode =? kCmdRreg then Rq_rreg seq (fAddress c)
  else if ccode =? kCmdRblk then Rq_rblk seq (fAddress c) (Z.of_nat (BlockSize c))
  else if ccode =? kCmdWreg then Rq_wreg seq (fAddress c) (fData c)
  else if ccode =? kCmdWblk then Rq_wblk seq (fAddress c) (block_read m (BlockSize c) c)
  else if ccode =? kCmdLabo then Rq_labo seq
  else if ccode =? kCmdAttn then Rq_attn seq
  else Rq_init seq (fAddress c) (fData c).

(** ** Lemmas: loops over the commands of a list *)

Section Loops.
Context {P : Type}.
Notation Conn := (RlinkConnect P).

(** Run [m] on the commands one after the other. *)
Fixpoint run_cmds (m : M (oncmd P) ()) (l : list RlinkCommand) (c : Conn) : Conn * list RlinkCommand :=
  match l with
  | [] => (c, [])
  | x :: l => let r := (m (mkOnCmd c x)).2 in
              let '(c', l') := run_cmds m l (cnx r) in (c', cmd r :: l')
  end.

Lemma length_run_cmds m l c : length (run_cmds m l c).2 = length l.
Proof.
  revert c. induction l as [|x l IH]; intros c; simpl; [done|].
  specialize (IH (cnx (m (mkOnCmd c x)).2)). destruct (run_cmds _ _ _). simpl in *. by rewrite IH.
Qed.

(** The loop [for (i...) { cmd = clist[i]; m }] over the rest of a list. *)
Lemma for_run_cmds (J : Conn → Prop) (ok : RlinkCommand → Prop) (m : M (oncmd P) ()) :
  (∀ c x, J c → ok x → (m (mkOnCmd c x)).1 = Ret () ∧ J (cnx (m (mkOnCmd c x)).2)) →
  ∀ l pre c lst, J c → Forall ok l → fList lst = pre ++ l →
  for_ (seq (length pre) (length l)) (λ i, with_cmd i m ;; mret (None : option ())) (mkOnList c lst) =
  (Ret None, mkOnList (run_cmds m l c).1 (lst <| fList := pre ++ (run_cmds m l c).2 |>)) ∧
  J (run_cmds m l c).1.
Proof.
  intros Hm l. induction l as [|x l IH]; intros pre c lst HJ Hl Hlst.
  { simpl. split; [|done]. f_equal. f_equal. destruct lst; simpl in *. by rewrite Hlst. }
  apply Forall_cons_iff in Hl as [Hx Hl]. destruct (Hm c x HJ Hx) as [Hr HJ'].
  cbn [length seq for_ run_cmds]. unfold mbind, M_bind in *. unfold with_cmd at 1. simpl.
  assert (fList lst !! length pre = Some x) as -> by (by rewrite Hlst, list_lookup_middle).
  destruct (m (mkOnCmd c x)) as [o [c' x']]. simpl in *. subst o. simpl.
  destruct (IH (pre ++ [x']) c' (lst <| fList ::= <[length pre := x']> |>) HJ' Hl) as [IH1 IH2].
  { simpl. rewrite Hlst, insert_app_r_alt, Nat.sub_diag by lia. simpl. by rewrite <- app_assoc. }
  rewrite length_app, Nat.add_1_r in IH1.
  destruct (run_cmds m l c') as [c'' l']. simpl in *. rewrite IH1. by rewrite <- app_assoc.
Qed.
End Loops.

(** ** Lemmas: encoding *)

Lemma Command_encoded n c : Command (encoded n c) = Command c.
Proof. exact (Command_SetSeqNumber n c). Qed.

(** Case analysis over the command codes. *)
Lemma command_range_cases c :
  0 <= Command c <= kCmdInit →
  Command c = kCmdRreg ∨ Command c = kCmdRblk ∨ Command c = kCmdWreg ∨ Command c = kCmdWblk ∨
  Command c = kCmdLabo ∨ Command c = kCmdAttn ∨ Command c = kCmdInit.
Proof.
  unfold kCmdRreg, kCmdRblk, kCmdWreg, kCmdWblk, kCmdLabo, kCmdAttn, kCmdInit in *. lia.
Qed.
Definition command_cases c (Hw : cmd_wf c) := command_range_cases c (wf_command c Hw).

Section Encode.
Context {P : Type} `{!RlinkPort P}.
Notation Conn := (RlinkConnect P).

(** ** Symbolic execution of methods on the current command *)

Definition put_snd (f : RlinkPacketBufSnd → RlinkPacketBufSnd) (a : Conn) : Conn := a <| fSndPkt ::= f |>.
Definition bump_seq (ccode : Z) (a : Conn) : Conn :=
  a <| fSeqNumber ::= alter (λ n, u8 (n + 1)) (Z.to_nat ccode) |>.

Lemma run_xstat {B} i v (k : () → M (oncmd P) B) a b :
  (xstat i v ≫= k) (mkOnCmd a b) = k () (mkOnCmd (stat i v a) b).
Proof. done. Qed.
Lemma run_on_cmd {B} f (k : () → M (oncmd P) B) a b :
  (on_cmd f ≫= k) (mkOnCmd a b) = k () (mkOnCmd a (f b)).
Proof. done. Qed.
Lemma run_put {B} f (k : () → M (oncmd P) B) a b :
  (put f ≫= k) (mkOnCmd a b) = k () (mkOnCmd (put_snd f a) b).
Proof. done. Qed.
Lemma run_next_seq {B} ccode (k : Z → M (oncmd P) B) a b :
  (on_cn (next_seq ccode) ≫= k) (mkOnCmd a b) =
  k (nth (Z.to_nat ccode) (fSeqNumber a) 0) (mkOnCmd (bump_seq ccode a) b).
Proof. done. Qed.
Lemma run_put_addr {B} (k : () → M (oncmd P) B) a b :
  (put_addr ≫= k) (mkOnCmd a b) = k () (mkOnCmd (put_snd (PutWithCrc16 (fAddress b)) a) b).
Proof. done. Qed.
Lemma run_put_data {B} (k : () → M (oncmd P) B) a b :
  (put_data ≫= k) (mkOnCmd a b) = k () (mkOnCmd (put_snd (PutWithCrc16 (fData b)) a) b).
Proof. done. Qed.
Lemma run_on_cmd_end f (a : Conn) b : on_cmd f (mkOnCmd a b) = (Ret (), mkOnCmd a (f b)).
Proof. done. Qed.
Hint Rewrite @run_xstat @run_on_cmd @run_put @run_next_seq @run_put_addr @run_put_data
  @run_on_cmd_end : run.

(** Normal form of the connection during encoding. *)
Definition eff (sq : list Z) (snd : RlinkPacketBufSnd) (st : Rstats) (a : Conn) : Conn :=
  a <| fSeqNumber := sq |> <| fSndPkt := snd |> <| fCnStats := st |>.
Lemma eff_id a : a = eff (fSeqNumber a) (fSndPkt a) (fCnStats a) a.
Proof. by destruct a. Qed.
Lemma eff_put f q s t a : put_snd f (eff q s t a) = eff q (f s) t a.
Proof. done. Qed.
Lemma eff_stat i v q s t a : stat i v (eff q s t a) = eff q s (inc i v t) a.
Proof. done. Qed.
Lemma eff_bump k q s t a : bump_seq k (eff q s t a) = eff (alter (λ n, u8 (n + 1)) (Z.to_nat k) q) s t a.
Proof. done. Qed.
Lemma eff_seq q s t a : fSeqNumber (eff q s t a) = q.
Proof. done. Qed.
Lemma eff_memory q s t a : memory (eff q s t a) = memory a.
Proof. done. Qed.
Hint Rewrite eff_put eff_stat eff_bump eff_seq eff_memory : eff.

(** The connection behind the encoding of [c], up to the statistics. *)
Definition encode_effect (c : RlinkCommand) (n : Z) (cnn : Conn) (st : Rstats) : Conn :=
  eff (alter (λ n, u8 (n + 1)) (Z.to_nat (Command c)) (fSeqNumber cnn))
      (fold_left put_field (req_fields (memory cnn) (encoded n c)) (fSndPkt cnn)) st cnn.

Lemma encode_cmd_ok cnn c :
  cmd_wf c →
  let n := nth (Z.to_nat (Command c)) (fSeqNumber cnn) 0 in
  ∃ st, encode_cmd (mkOnCmd cnn c) = (Ret (), mkOnCmd (encode_effect c n cnn st) (encoded n c)).
Proof.
  intros Hw. cbv zeta. unfold encode_effect.
  replace (mkOnCmd cnn c) with (mkOnCmd (eff (fSeqNumber cnn) (fSndPkt cnn) (fCnStats cnn) cnn) c)
    by (by rewrite <- eff_id).
  unfold encode_cmd, encode_body, req_fields. autorewrite with run. cbn [cmd]. rewrite Command_encoded.
  destruct (command_cases c Hw) as [E|[E|[E|[E|[E|[E|E]]]]]]; rewrite !E; eexists;
    cbn [Z.eqb kCmdRreg kCmdRblk kCmdWreg kCmdWblk kCmdLabo kCmdAttn kCmdInit Pos.eqb orb
         fold_left app put_field];
    autorewrite with run; cbn [cnx cmd]; autorewrite with eff; unfold encoded, rcv_size; rewrite E;
    reflexivity.
Qed.
End Encode.
#[export] Hint Rewrite @run_xstat @run_on_cmd @run_put @run_next_seq @run_put_addr @run_put_data
  @run_on_cmd_end : run.
#[export] Hint Rewrite @eff_put @eff_stat @eff_bump @eff_seq @eff_memory : eff.

(** ** Lemmas: the request packet *)

(** The fields of a command are in range of the wire format. *)
Lemma block_read_u16 m n c : Forall is_u16 (fBlock c) → Forall is_u16 (block_read m n c).
Proof.
  intros Hc. unfold block_read. destruct (fpBlockExt c); [apply mem_get_u16|by apply Forall_take].
Qed.

Lemma length_block_read m c : length (block_read m (BlockSize c) c) = BlockSize c.
Proof.
  unfold block_read, BlockSize, HasBlockExt. destruct (fpBlockExt c); simpl.
  - apply length_mem_get.
  - rewrite length_take. lia.
Qed.

Lemma AddBytes_fields c f : fCrc (AddBytes (field_data f) c) = Crc (AddBytes (field_data f) c).
Proof. done. Qed.

Lemma fields_bytes_app c fs1 fs2 :
  fields_bytes c (fs1 ++ fs2) =
  fields_bytes c fs1 ++ fields_bytes (AddBytes (concat (map field_data fs1)) c) fs2.
Proof.
  revert c. induction fs1 as [|f fs1 IH]; intros c; [done|].
  cbn [app fields_bytes map concat]. by rewrite IH, AddBytes_app, app_assoc.
Qed.

Lemma p8_ok c b bs :
  is_u16 (fCrc c) → is_u8 b → p8 (fCrc c, b :: bs) = Some (b, (fCrc (AddBytes [b] c), bs)).
Proof. intros Hc Hb. change (AddBytes [b] c) with (AddData b c). by rewrite AddData_crc_byte. Qed.

Lemma word_sum w : is_u16 w → lo8 w + 256 * hi8 w = w.
Proof.
  intros Hw. rewrite <- (word_of_lo_hi w) at 3 by done.
  rewrite word_of_add by apply lo8_range. done.
Qed.

Lemma p16_ok c w bs :
  is_u16 (fCrc c) → is_u16 w →
  p16 (fCrc c, lo8 w :: hi8 w :: bs) = Some (w, (fCrc (AddBytes [lo8 w; hi8 w] c), bs)).
Proof.
  intros Hc Hw. unfold p16. rewrite p8_ok by auto with w11. cbn [mbind option_bind].
  rewrite p8_ok by auto using AddBytes_range with w11. cbn [mbind option_bind].
  rewrite word_sum by done. by rewrite <- AddBytes_app.
Qed.

Lemma pblk_ok c ws bs :
  is_u16 (fCrc c) → Forall is_u16 ws →
  pblk (length ws) (fCrc c, words_bytes ws ++ bs) =
  Some (ws, (fCrc (AddBytes (words_bytes ws) c), bs)).
Proof.
  intros Hc Hws. revert c Hc. induction Hws as [|w ws Hw _ IH]; intros c Hc; [done|].
  unfold words_bytes. cbn [length pblk map concat app].
  rewrite p16_ok by done. cbn [mbind option_bind].
  fold (words_bytes ws). rewrite IH by (by apply AddBytes_range). cbn [mbind option_bind].
  by rewrite <- AddBytes_app.
Qed.

Lemma pcrc_ok c bs :
  is_u16 (fCrc c) → pcrc (fCrc c, lo8 (fCrc c) :: hi8 (fCrc c) :: bs) = Some (fCrc c, bs).
Proof. intros Hc. unfold pcrc. cbn [fst snd]. by rewrite word_sum, Z.eqb_refl. Qed.

Lemma Command_mod c : fRequest c mod 8 = Command c.
Proof. unfold Command. change 7 with (Z.ones 3). by rewrite Z.land_ones by lia. Qed.
Lemma SeqNumber_div c : fRequest c / 8 = SeqNumber c.
Proof. unfold SeqNumber. by rewrite Z.shiftr_div_pow2 by lia. Qed.

Lemma AddBytes_nil c : AddBytes [] c = c.
Proof. done. Qed.

(** The checksum behind a list of fields. *)
Definition crc_after (c : RlinkCrc16) (fs : list field) : RlinkCrc16 :=
  fold_left (λ c f, AddBytes (field_data f) c) fs c.

Lemma crc_after_AddBytes c fs : crc_after c fs = AddBytes (concat (map field_data fs)) c.
Proof.
  revert c. induction fs as [|f fs IH]; intros c; [done|].
  cbn [map concat]. rewrite AddBytes_app, <- IH. done.
Qed.

Lemma crc_after_app c fs1 fs2 : crc_after c (fs1 ++ fs2) = crc_after (crc_after c fs1) fs2.
Proof. apply fold_left_app. Qed.

Lemma fields_bytes_app' c fs1 fs2 :
  fields_bytes c (fs1 ++ fs2) = fields_bytes c fs1 ++ fields_bytes (crc_after c fs1) fs2.
Proof. by rewrite crc_after_AddBytes, fields_bytes_app. Qed.

Lemma crc_after_range c fs : is_u16 (fCrc c) → is_u16 (fCrc (crc_after c fs)).
Proof. rewrite crc_after_AddBytes. apply AddBytes_range. Qed.

(** Unfold the fields of a command whose code is known. *)
Ltac unfold_fields E :=
  rewrite ?E; cbn [Z.eqb kCmdRreg kCmdRblk kCmdWreg kCmdWblk kCmdLabo kCmdAttn kCmdInit Pos.eqb
    orb app fields_bytes field_bytes field_data crc_after fold_left Crc].

Lemma parse_request_ok m x c bs :
  cmd_wf x → is_u16 (fCrc c) →
  parse_request (fCrc c, fields_bytes c (req_fields m x) ++ bs) =
  Some (request_of m x, (fCrc (crc_after c (req_fields m x)), bs)).
Proof.
  intros Hw Hc. pose proof Hw as [_ Hr Ha Hd Hb Hs _].
  assert (Hblk : Command x = kCmdRblk ∨ Command x = kCmdWblk →
    u16 (Z.of_nat (BlockSize x)) = Z.of_nat (BlockSize x)).
  { intros H. apply u16_id. specialize (Hs H). unfold is_u16. lia. }
  pose proof (u16_range (Z.of_nat (BlockSize x))) as Hn.
  pose proof (block_read_u16 m (BlockSize x) x Hb) as Hbr.
  pose proof (length_block_read m x) as Hlen.
  unfold parse_request, req_fields, request_of.
  destruct (command_cases x Hw) as [E|[E|[E|[E|[E|[E|E]]]]]]; unfold_fields E; unfold Crc;
    rewrite !p8_ok by done; cbn [mbind option_bind];
    rewrite Command_mod, SeqNumber_div, E; cbv beta iota delta [kCmdRreg kCmdRblk kCmdWreg kCmdWblk
      kCmdLabo kCmdAttn kCmdInit]; cbn [mbind option_bind];
    repeat (first [rewrite p16_ok by auto using AddBytes_range
                  |rewrite pcrc_ok by auto using AddBytes_range]; cbn [mbind option_bind]).
  all: rewrite ?AddBytes_nil.
  1, 3, 5, 6, 7: reflexivity.
  - by rewrite Hblk by auto.
  - rewrite Hblk, Nat2Z.id by auto. rewrite <- Hlen at 1. rewrite <- app_assoc.
    rewrite pblk_ok by auto using AddBytes_range. cbn [mbind option_bind app].
    by rewrite pcrc_ok by auto using AddBytes_range.
Qed.

Lemma parse_requests_ok m l c :
  Forall cmd_wf l → is_u16 (fCrc c) →
  parse_requests (length l) (fCrc c, fields_bytes c (concat (map (req_fields m) l))) =
  Some (map (request_of m) l).
Proof.
  intros Hl. revert c. induction Hl as [|x l Hx _ IH]; intros c Hc; [done|].
  cbn [length parse_requests map concat]. rewrite fields_bytes_app'.
  rewrite parse_request_ok by done. cbn [mbind option_bind].
  by rewrite IH by (by apply crc_after_range).
Qed.

(** ** Lemmas: the whole request *)

(** The commands with their sequence numbers, from the counters [sq]. *)
Fixpoint assign (sq : list Z) (l : list RlinkCommand) : list RlinkCommand :=
  match l with
  | [] => []
  | c :: l => let k := Z.to_nat (Command c) in
              encoded (nth k sq 0) c :: assign (alter (λ n, u8 (n + 1)) k sq) l
  end.
Definition mark_ends (l : list RlinkCommand) : list RlinkCommand :=
  alter (Command.SetFlagBit Command.kFlagPktEnd) (length l - 1)%nat
    (alter (Command.SetFlagBit Command.kFlagPktBeg) 0%nat l).

Lemma length_assign sq l : length (assign sq l) = length l.
Proof. revert sq. induction l; intros sq; simpl; auto. Qed.

Lemma insert_alter {A} (f : A → A) (i : nat) (l : list A) x : l !! i = Some x → <[i := f x]> l = alter f i l.
Proof.
  revert i. induction l as [|y l IH]; intros [|i] H; simplify_eq/=; [done|]. f_equal. by apply IH.
Qed.

Lemma map_alter {A B} (g : A → B) (f : A → A) (i : nat) (l : list A) : (∀ x, g (f x) = g x) → map g (alter f i l) = map g l.
Proof.
  intros H. revert i. induction l as [|y l IH]; intros [|i]; simpl; f_equal; [done|]. apply IH.
Qed.

Lemma map_mark_ends {B} (g : RlinkCommand → B) l :
  (∀ m x, g (Command.SetFlagBit m x) = g x) → map g (mark_ends l) = map g l.
Proof. intros H. unfold mark_ends. by rewrite !map_alter. Qed.

Lemma length_mark_ends l : length (mark_ends l) = length l.
Proof. unfold mark_ends. by rewrite !length_alter. Qed.

Lemma fRequest_SetSeqNumber n c : 0 <= n → fRequest (SetSeqNumber n c) = (8 * n + Command c) mod 2 ^ 8.
Proof.
  intros Hn. rewrite <- u8_mod. unfold SetSeqNumber. simpl. f_equal. unfold Command.
  rewrite Z.shiftl_mul_pow2 by lia. rewrite <- Z.add_nocarry_lor; [lia|].
  apply Z.bits_inj'. intros i Hi. rewrite !Z.land_spec, Z.bits_0.
  change 7 with (Z.ones 3). destruct (decide (i < 3)).
  - by rewrite Z.mul_pow2_bits_low.
  - rewrite (Z.ones_spec_high 3 i) by lia. by rewrite !andb_false_r.
Qed.

Lemma SeqNumber_encoded n c : 0 <= n → SeqNumber (encoded n c) = n mod 32.
Proof.
  intros Hn. rewrite <- SeqNumber_div. change (fRequest (encoded n c)) with (fRequest (SetSeqNumber n c)).
  rewrite fRequest_SetSeqNumber by done.
  assert (0 <= Command c < 8).
  { unfold Command. change 7 with (Z.ones 3). rewrite Z.land_ones by lia. by apply Z.mod_pos_bound. }
  change (2 ^ 8) with 256. Z.div_mod_to_equations. lia.
Qed.

Lemma encoded_wf n c : cmd_wf c → cmd_wf (encoded n c).
Proof.
  intros Hw. pose proof Hw as []. split; try done.
  - by rewrite Command_encoded.
  - apply u8_range.
  - rewrite Command_encoded. done.
  - unfold TestFlagAny, Command.kFlagInit in *. rewrite flag_bit in * by done.
    change (Command.fFlags (encoded n c)) with (Z.lor (Z.land (Command.fFlags c)
      (not32 (Z.lor Command.kFlagPktBeg Command.kFlagPktEnd))) kFlagSend).
    by rewrite Z.lor_spec, Z.land_spec, wf_init.
Qed.

Lemma assign_wf sq l : Forall cmd_wf l → Forall cmd_wf (assign sq l).
Proof. intros Hl. revert sq. induction Hl; intros sq; simpl; constructor; auto using encoded_wf. Qed.

(** Occurrences of the command code [k] in a list. *)
Definition occurrences (k : Z) (l : list RlinkCommand) : nat := length (filter (λ c, Command c = k) l).

Lemma nth_alter (f : Z → Z) (sq : list Z) (k j : nat) :
  nth j (alter f k sq) 0 =
  if decide (j = k ∧ (k < length sq)%nat) then f (nth k sq 0) else nth j sq 0.
Proof.
  rewrite !nth_lookup. destruct (decide (j = k)) as [->|Hne].
  - rewrite list_lookup_alter_eq. destruct (sq !! k) eqn:E; simpl.
    + apply lookup_lt_Some in E. by rewrite decide_True.
    + apply lookup_ge_None in E. rewrite decide_False by lia. done.
  - rewrite list_lookup_alter_ne by done. rewrite decide_False by tauto. done.
Qed.

Lemma assign_seq sq l i c :
  Forall is_u8 sq → Forall cmd_wf l → length sq = 8%nat → assign sq l !! i = Some c →
  SeqNumber c = (nth (Z.to_nat (Command c)) sq 0 + Z.of_nat (occurrences (Command c) (take i l))) mod 32.
Proof.
  intros Hsq Hl. revert sq i Hsq. induction Hl as [|x l Hx _ IH]; intros sq i Hsq Hlen Hi; [done|].
  assert (Hrange : ∀ k, 0 <= nth k sq 0 < 256).
  { intros k. destruct (nth_in_or_default k sq 0) as [Hin| ->]; [|lia].
    rewrite Forall_forall in Hsq. apply (Hsq _ Hin). }
  destruct i as [|i]; simpl in Hi; simplify_eq.
  { rewrite Command_encoded. simpl. rewrite SeqNumber_encoded by apply Hrange.
    f_equal. unfold occurrences. simpl. lia. }
  apply IH in Hi; [|by apply Forall_alter; [|intros; apply u8_range]|by rewrite length_alter].
  rewrite Hi. cbn [take]. unfold occurrences. rewrite filter_cons.
  pose proof (wf_command _ Hx) as Hcx. unfold kCmdInit in Hcx.
  rewrite nth_alter. case_decide as H1; case_decide as H2.
  - destruct H1 as [_ H1]. rewrite <- H2. rewrite u8_mod. change (2 ^ 8) with 256.
    simpl length. Z.div_mod_to_equations. lia.
  - exfalso. apply H2. destruct H1 as [H1 _].
    assert (0 <= Command c) by (unfold Command; apply Z.land_nonneg; lia). lia.
  - exfalso. apply H1. split; [congruence|lia].
  - done.
Qed.

Section EncodeAll.
Context {P : Type} `{!RlinkPort P}.
Notation Conn := (RlinkConnect P).

Lemma run_encode l (cnn : Conn) :
  Forall cmd_wf l →
  ∃ sq st, run_cmds encode_cmd l cnn =
    (eff sq (fold_left put_field (concat (map (req_fields (memory cnn)) (assign (fSeqNumber cnn) l)))
              (fSndPkt cnn)) st cnn, assign (fSeqNumber cnn) l).
Proof.
  intros Hl. revert cnn. induction Hl as [|x l Hx _ IH]; intros cnn.
  { do 2 eexists. simpl. f_equal. apply eff_id. }
  destruct (encode_cmd_ok cnn x Hx) as [st1 H1]. cbn [run_cmds]. rewrite H1. cbn [snd cnx cmd].
  destruct (IH (encode_effect x (nth (Z.to_nat (Command x)) (fSeqNumber cnn) 0) cnn st1))
    as (sq & st & ->).
  unfold encode_effect. autorewrite with eff. cbn [assign map concat].
  exists sq, st. rewrite fold_left_app. reflexivity.
Qed.

Lemma with_on_cmd i f (cnn : Conn) lst :
  (i < Size lst)%nat →
  with_cmd i (on_cmd f) (mkOnList cnn lst) = (Ret (), mkOnList cnn (lst <| fList ::= alter f i |>)).
Proof.
  intros Hi. apply lookup_lt_is_Some in Hi as [x Hx]. unfold with_cmd. cbn [cl]. rewrite Hx. simpl.
  by rewrite (insert_alter f i _ x Hx).
Qed.

Lemma EncodeRequest_ok (cnn : Conn) lst :
  Forall cmd_wf (fList lst) → fList lst ≠ [] →
  let l' := assign (fSeqNumber cnn) (fList lst) in
  ∃ sq st, EncodeRequest 0 (Size lst - 1) (mkOnList cnn lst) =
    (Ret (), mkOnList
       (eff sq (fold_left put_field (concat (map (req_fields (memory cnn)) l')) (Init (fSndPkt cnn))) st cnn)
       (lst <| fList := mark_ends l' |>)).
Proof.
  intros Hl Hne l'. assert (0 < Size lst)%nat as Hs.
  { unfold Size. destruct (fList lst); [done|simpl; lia]. }
  unfold EncodeRequest. rewrite bind_modify. cbn [update setter cn cl].
  unfold for_cmds. replace (S (Size lst - 1) - 0)%nat with (length (fList lst)) by (unfold Size in *; lia).
  set (c0 := cnn <| fSndPkt ::= Init |>).
  assert (Hm : ∀ (c : Conn) x, True → cmd_wf x → (encode_cmd (mkOnCmd c x)).1 = Ret () ∧ True).
  { intros c x _ Hx. destruct (encode_cmd_ok c x Hx) as [st ->]. done. }
  destruct (for_run_cmds (λ _, True) cmd_wf encode_cmd Hm (fList lst) [] c0 lst I Hl eq_refl)
    as [Hfor _].
  change (length (@nil RlinkCommand)) with 0%nat in Hfor.
  rewrite (bind_Ret _ _ _ _ _ Hfor).
  destruct (run_encode (fList lst) c0 Hl) as (sq & st & ->). cbn [fst snd app].
  change (fSeqNumber c0) with (fSeqNumber cnn). fold l'.
  assert (Hlen : length l' = Size lst) by apply length_assign.
  assert (Hs' : (0 < Size (lst <| fList := l' |>))%nat) by (unfold Size at 1; simpl; lia).
  rewrite (bind_Ret _ _ _ _ _ (with_on_cmd _ _ _ _ Hs')).
  exists sq, st. rewrite with_on_cmd by (unfold Size at 2; simpl; rewrite length_alter; lia).
  f_equal. f_equal. unfold mark_ends. rewrite Hlen. done.
Qed.
End EncodeAll.

(** ** Theorem *)

Definition same_request (c c' : RlinkCommand) : Prop :=
  Command c' = Command c ∧ fAddress c' = fAddress c ∧ fData c' = fData c ∧ fBlock c' = fBlock c ∧
  fpBlockExt c' = fpBlockExt c ∧ BlockSize c' = BlockSize c ∧ fRcvSize c' = rcv_size c.

(** C18: encoding a list of well-formed commands succeeds, and a parser of the
    wire format recovers from the packet exactly the requests of the commands
    in order, all checksums correct.  The commands keep code, address, data and
    block, know the size of their response, and get consecutive sequence
    numbers per command code (five bits, counted across packets). *)
Theorem EncodeRequest_wire {P} `{!RlinkPort P} (cnn : RlinkConnect P) lst :
  Forall cmd_wf (fList lst) → fList lst ≠ [] →
  Forall is_u8 (fSeqNumber cnn) → length (fSeqNumber cnn) = 8%nat →
  ∃ s', EncodeRequest 0 (Size lst - 1) (mkOnList cnn lst) = (Ret (), s') ∧
    parse_requests (Size lst) (0, fPktBuf (sb (fSndPkt (cn s')))) =
      Some (map (request_of (memory cnn)) (fList (cl s'))) ∧
    Forall2 same_request (fList lst) (fList (cl s')) ∧
    ∀ i c, fList (cl s') !! i = Some c →
      SeqNumber c = (nth (Z.to_nat (Command c)) (fSeqNumber cnn) 0 +
                     Z.of_nat (occurrences (Command c) (take i (fList lst)))) mod 32.
Proof.
  intros Hl Hne Hsq Hlen. destruct (EncodeRequest_ok cnn lst Hl Hne) as (sq & st & ->).
  eexists. split; [done|]. cbn [cn cl]. simpl fList.
  set (l' := assign (fSeqNumber cnn) (fList lst)).
  pose proof (assign_wf (fSeqNumber cnn) _ Hl : Forall cmd_wf l') as Hl'.
  split_and!.
  - rewrite map_mark_ends by done. change (fSndPkt (eff _ ?s _ _)) with s.
    destruct (put_fields_spec (concat (map (req_fields (memory cnn)) l')) (Init (fSndPkt cnn)))
      as (-> & _ & _).
    change (fPktBuf (sb (Init _))) with (@nil Z). cbn [app].
    change (fPktCrc (sb (Init _))) with RlinkCrc16_ctor.
    unfold Size. rewrite <- (length_assign (fSeqNumber cnn)). by apply (parse_requests_ok _ _ RlinkCrc16_ctor).
  - unfold mark_ends. do 2 (apply Forall2_alter_r; [|done]).
    unfold l'. clear. generalize (fSeqNumber cnn). induction (fList lst) as [|c l IH]; intros q;
      simpl; constructor; [|apply IH]. split_and!; try done. apply Command_encoded.
  - intros i c Hi.
    assert (Hg : map (λ c, (SeqNumber c, Command c)) (mark_ends l') !! i = Some (SeqNumber c, Command c)).
    { by rewrite list_lookup_fmap, Hi. }
    rewrite map_mark_ends in Hg by done. rewrite list_lookup_fmap in Hg.
    destruct (l' !! i) as [c0|] eqn:E; [|done]. simplify_eq/=.
    apply (assign_seq _ _ _ _ Hsq Hl Hlen) in E. congruence.
Qed.

Lemma EncodeRequest_wire_witness :
  ∃ s', EncodeRequest 0 1 (mkOnList (RlinkConnect_ctor : RlinkConnect SimPort)
          (build [B_add (S_wreg 0x10 0x1234); B_add (S_rblk 0x12 2)])) = (Ret (), s') ∧
    parse_requests 2 (0, fPktBuf (sb (fSndPkt (cn s')))) =
      Some [Rq_wreg 0 0x10 0x1234; Rq_rblk 0 0x12 2].
Proof.
  destruct (EncodeRequest_wire (RlinkConnect_ctor : RlinkConnect SimPort)
    (build [B_add (S_wreg 0x10 0x1234); B_add (S_rblk 0x12 2)])) as (s' & H1 & H2 & _).
  - apply build_wf. repeat constructor; by vm_compute.
  - done.
  - repeat constructor; by vm_compute.
  - done.
  - exists s'. split; [exact H1|].
    assert (s' = (EncodeRequest 0 1 (mkOnList (RlinkConnect_ctor : RlinkConnect SimPort)
          (build [B_add (S_wreg 0x10 0x1234); B_add (S_rblk 0x12 2)]))).2) as ->
      by (exact (eq_sym (f_equal snd H1))).
    vm_compute. reflexivity.
Defined.
