(* ===== verification/ConnectDecode.v ===== *)
(** * RlinkConnect::DecodeResponse: the response packet

    The response format as a list of fields per command, and two theorems about
    the decoder: on a packet of well-formed responses it stores in the commands
    exactly what the responses say, also when an active list abort ends the
    packet early; on an arbitrary packet it never reads behind the packet, and
    a negative result comes with an error flag in a command. *)

From S2P Require Import Prelude.
From S2P Require Import Rtime.
From S2P Require Import Rstats.
From S2P Require Import Crc16.
From S2P Require Import Port.
From S2P Require Import PacketBuf.
From S2P Require Import PacketRcv.
From S2P Require Import AddrMap.
From S2P Require Import Command.
From S2P Require Import CommandList.
From S2P Require Import Connect.
From S2P Require Import ConnectEncode.

(** ** The response format *)

Record response := mkResponse {
  rs_data : Z;
  rs_block : list Z;
  rs_done : Z;
  rs_stat : Z }.

Definition resp_fields (c : RlinkCommand) (r : response) : list field :=
  let ccode := Command c in
  [F8 (fRequest c)] ++
  (if (ccode =? kCmdRreg) || (ccode =? kCmdAttn) then [F16 (rs_data r)]
   else if ccode =? kCmdRblk then
     [F16 (u16 (Z.of_nat (BlockSize c))); FBlk (rs_block r); F16 (rs_done r)]
   else if ccode =? kCmdWblk then [F16 (rs_done r)]
   else if ccode =? kCmdLabo then [F8 (rs_data r)]
   else []) ++ [F8 (rs_stat r); FCrc].

Record resp_ok (c : RlinkCommand) (r : response) : Prop := {
  ro_data : if Command c =? kCmdLabo then is_u8 (rs_data r) else is_u16 (rs_data r);
  ro_block : Forall is_u16 (rs_block r);
  ro_size : Command c = kCmdRblk → length (rs_block r) = BlockSize c;
  ro_done : is_u16 (rs_done r);
  ro_done_max : Command c = kCmdRblk → rs_done r <= Z.of_nat (BlockSize c);
  ro_stat : is_u8 (rs_stat r) }.

(** The response ends the packet: an active list abort. *)
Definition aborts (c : RlinkCommand) (r : response) : bool :=
  (Command c =? kCmdLabo) && negb (rs_data r =? 0).
Fixpoint resp_fields_all (cs : list RlinkCommand) (rs : list response) : list field :=
  match cs, rs with
  | c :: cs, r :: rs => resp_fields c r ++ (if aborts c r then [] else resp_fields_all cs rs)
  | _, _ => []
  end.
Fixpoint resp_all_ok (cs : list RlinkCommand) (rs : list response) : Prop :=
  match cs, rs with
  | [], _ => True
  | c :: cs, r :: rs => resp_ok c r ∧ (if aborts c r then True else resp_all_ok cs rs)
  | _ :: _, [] => False
  end.

(** ** What decoding does to a command *)

Definition fetch_data (m : Mem) (c : RlinkCommand) (r : response) : RlinkCommand * Mem :=
  let ccode := Command c in
  if (ccode =? kCmdRreg) || (ccode =? kCmdAttn) || (ccode =? kCmdLabo) then (SetData (rs_data r) c, m)
  else if ccode =? kCmdRblk then
    let '(c, m) := block_write (rs_block r) c m in (SetBlockDone (rs_done r) c, m)
  else if ccode =? kCmdWblk then (SetBlockDone (rs_done r) c, m)
  else (c, m).
Definition fetched (m : Mem) (c : RlinkCommand) (r : response) : RlinkCommand * Mem :=
  let '(c, m) := fetch_data m c r in
  (Command.SetFlagBit kFlagDone (SetStatus (rs_stat r) c), m).

(** The checks against the expectations. *)
Definition chk_data (m : Mem) (c : RlinkCommand) : bool :=
  match fupExpect c with
  | None => false
  | Some e =>
      let ccode := Command c in
      if (ccode =? kCmdRreg) || (ccode =? kCmdLabo) || (ccode =? kCmdAttn)
      then negb (DataCheck (fData c) e)
      else if ccode =? kCmdRblk then
        negb (length (mismatches (block_read m (fBlockDone c) c) e
                        (seq 0 (fBlockDone c `min` length (fBlockVal e)))) =? 0)%nat
      else false
  end.
Definition chk_done (c : RlinkCommand) : bool :=
  match fupExpect c with
  | None => false
  | Some e => is_blk (Command c) && negb (DoneCheck (Z.of_nat (fBlockDone c)) e)
  end.
Definition add_flag (b : bool) (flag : Z) (c : RlinkCommand) : RlinkCommand :=
  if b then Command.SetFlagBit flag c else c.
Definition checked (m : Mem) (c : RlinkCommand) : RlinkCommand :=
  add_flag (negb (StatusCheck c)) kFlagChkStat
    (add_flag (chk_done c) kFlagChkDone (add_flag (chk_data m c) kFlagChkData c)).
Definition canceled (c : RlinkCommand) : RlinkCommand :=
  Command.SetFlagBit (Z.lor kFlagDone kFlagLabo) c.

(** The commands behind the decoder, and the memory of the caller. *)
Fixpoint decoded (m : Mem) (cs : list RlinkCommand) (rs : list response) : list RlinkCommand * Mem :=
  match cs, rs with
  | c :: cs, r :: rs =>
      let '(c', m) := fetched m c r in
      if aborts c r then (checked m c' :: map canceled cs, m)
      else let '(cs, m') := decoded m cs rs in (checked m c' :: cs, m')
  | _, _ => (cs, m)
  end.

(** ** Lemmas: the getters *)

(** The receiver [st] with read position [n] and checksum [c]. *)
Definition rd_at (st : Rcv) (n : nat) (c : RlinkCrc16) : Rcv :=
  st <| fNDone := n |> <| rb ::= λ b, b <| fPktCrc := c |> |>.

Lemma rd_at_id st : st = rd_at st (fNDone st) (fPktCrc (rb st)).
Proof. by destruct st as [[]]. Qed.

Lemma drop_nth (l : list Z) n b bs : drop n l = b :: bs → l !! n = Some b ∧ drop (S n) l = bs.
Proof.
  intros H. split.
  - by rewrite <- (Nat.add_0_r n), <- lookup_drop, H.
  - by rewrite <- Nat.add_1_r, <- drop_drop, H.
Qed.

Lemma GetByte_at st n c b :
  fPktBuf_ st !! n = Some b → GetByte (rd_at st n c) = Some (b, rd_at st (S n) c).
Proof. intros H. unfold GetByte. change (fPktBuf_ (rd_at st n c)) with (fPktBuf_ st).
  cbn [rd_at fNDone update setter]. simpl fNDone. by rewrite H. Qed.

Lemma GetWithCrc8_at st n c b :
  fPktBuf_ st !! n = Some b → GetWithCrc8 (rd_at st n c) = Some (b, rd_at st (S n) (AddBytes [b] c)).
Proof. intros H. unfold GetWithCrc8. by rewrite (GetByte_at _ _ _ _ H). Qed.

Lemma GetWithCrc16_at st n c l h :
  fPktBuf_ st !! n = Some l → fPktBuf_ st !! S n = Some h →
  GetWithCrc16 (rd_at st n c) = Some (word_of l h, rd_at st (S (S n)) (AddBytes [l; h] c)).
Proof.
  intros Hl Hh. unfold GetWithCrc16. rewrite (GetByte_at _ _ _ _ Hl). cbn [mbind option_bind].
  by rewrite (GetByte_at _ _ _ _ Hh).
Qed.

Lemma CheckCrc_at st n c l h :
  fPktBuf_ st !! n = Some l → fPktBuf_ st !! S n = Some h →
  CheckCrc (rd_at st n c) = Some (word_of l h =? Crc c, rd_at st (S (S n)) c).
Proof.
  intros Hl Hh. unfold CheckCrc. rewrite (GetByte_at _ _ _ _ Hl). cbn [mbind option_bind].
  by rewrite (GetByte_at _ _ _ _ Hh).
Qed.

(** The getters on what the put methods have written. *)
Section Fields.
Context (st : Rcv) (n : nat) (c : RlinkCrc16) (bs : list Z).

Lemma get8_field b :
  drop n (fPktBuf_ st) = b :: bs →
  GetWithCrc8 (rd_at st n c) = Some (b, rd_at st (S n) (AddBytes [b] c)) ∧
  drop (S n) (fPktBuf_ st) = bs.
Proof. intros [H1 H2]%drop_nth. split; [by apply GetWithCrc8_at|done]. Qed.

Lemma get16_field w :
  is_u16 w → drop n (fPktBuf_ st) = lo8 w :: hi8 w :: bs →
  GetWithCrc16 (rd_at st n c) = Some (w, rd_at st (S (S n)) (AddBytes [lo8 w; hi8 w] c)) ∧
  drop (S (S n)) (fPktBuf_ st) = bs.
Proof.
  intros Hw [H1 [H2 H3]%drop_nth]%drop_nth. split; [|done].
  by rewrite (GetWithCrc16_at _ _ _ _ _ H1 H2), word_of_lo_hi.
Qed.

Lemma crc_field :
  is_u16 (Crc c) → drop n (fPktBuf_ st) = lo8 (Crc c) :: hi8 (Crc c) :: bs →
  CheckCrc (rd_at st n c) = Some (true, rd_at st (S (S n)) c) ∧ drop (S (S n)) (fPktBuf_ st) = bs.
Proof.
  intros Hc [H1 [H2 H3]%drop_nth]%drop_nth. split; [|done].
  by rewrite (CheckCrc_at _ _ _ _ _ H1 H2), word_of_lo_hi, Z.eqb_refl.
Qed.
End Fields.

Lemma getblk_field st n c bs ws :
  Forall is_u16 ws → drop n (fPktBuf_ st) = words_bytes ws ++ bs →
  GetWithCrcBlk (length ws) (rd_at st n c) =
    Some (ws, rd_at st (2 * length ws + n) (AddBytes (words_bytes ws) c)) ∧
  drop (2 * length ws + n) (fPktBuf_ st) = bs.
Proof.
  intros Hws. revert n c. induction Hws as [|w ws Hw _ IH]; intros n c H; [done|].
  unfold words_bytes in H. cbn [map concat] in H. rewrite <- app_assoc in H.
  destruct (get16_field st n c _ w Hw H) as [H1 H2]. destruct (IH _ (AddBytes [lo8 w; hi8 w] c) H2) as [H3 H4].
  cbn [length GetWithCrcBlk]. rewrite H1. cbn [mbind option_bind]. rewrite H3. cbn [mbind option_bind].
  replace (2 * S (length ws) + n)%nat with (2 * length ws + S (S n))%nat by lia.
  by rewrite <- AddBytes_app.
Qed.

(** ** Lemmas: decoding one response *)


Lemma length_resp x r c :
  cmd_wf x → resp_ok x r → length (fields_bytes c (resp_fields x r)) = rcv_size x.
Proof.
  intros Hw Hr. unfold resp_fields, rcv_size.
  destruct (command_cases x Hw) as [E|[E|[E|[E|[E|[E|E]]]]]]; unfold_fields E; try done.
  cbn [length]. rewrite length_app, length_words_bytes, (ro_size _ _ Hr E). simpl. lia.
Qed.

Lemma CheckSize_at st n c k :
  Z.of_nat (length (fPktBuf_ st)) < 2 ^ 64 → (n <= length (fPktBuf_ st))%nat →
  CheckSize k (rd_at st n c) = (k <=? length (fPktBuf_ st) - n)%nat.
Proof.
  intros Hl Hn. unfold CheckSize, PktSize. simpl fNDone. change (fPktBuf (rb (rd_at st n c))) with (fPktBuf_ st).
  rewrite Z.mod_small by lia. apply eq_bool_prop_intro. rewrite !Is_true_true, Z.leb_le, Nat.leb_le. lia.
Qed.

Lemma drop_app_le (l : list Z) n xs bs : drop n l = xs ++ bs → xs ≠ [] → (n + length xs <= length l)%nat.
Proof.
  intros H Hx. apply (f_equal length) in H. rewrite length_drop, length_app in H.
  destruct xs; [done|]. simpl in *. lia.
Qed.

Section Decode.
Context {P : Type} `{!RlinkPort P}.
Notation Conn := (RlinkConnect P).

(** Normal form of the connection during decoding. *)
Definition deff (st : Rcv) (n : nat) (c : RlinkCrc16) (m : Mem) (a : Conn) : Conn :=
  a <| fRcvPkt := rd_at st n c |> <| memory := m |>.
Lemma deff_id a : a = deff (fRcvPkt a) (fNDone (fRcvPkt a)) (fPktCrc (rb (fRcvPkt a))) (memory a) a.
Proof. unfold deff. rewrite <- rd_at_id. by destruct a. Qed.
Lemma deff_rcv st n c m a : fRcvPkt (deff st n c m a) = rd_at st n c.
Proof. done. Qed.
Lemma deff_memory st n c m a : memory (deff st n c m a) = m.
Proof. done. Qed.

Lemma deff_block st n c m m' a x x' :
  mkOnCmd (deff st n c m a) x <| cmd := x' |> <| cnx ::= λ c : Conn, c <| memory := m' |> |> =
  mkOnCmd (deff st n c m' a) x'.
Proof. done. Qed.

Lemma run_get {A B} (f : Rcv → option (A * Rcv)) (k : A → M (oncmd P) B) st n c m a b v n' c' :
  f (rd_at st n c) = Some (v, rd_at st n' c') →
  (on_cn (get_rcv f) ≫= k) (mkOnCmd (deff st n c m a) b) = k v (mkOnCmd (deff st n' c' m a) b).
Proof.
  intros H. apply bind_Ret. unfold on_cn, zoom, get_rcv. cbn [cnx]. by rewrite deff_rcv, H.
Qed.

(** Read the next field: [H] says what the packet holds. *)
Ltac next_field lem H :=
  let H1 := fresh "G" in
  eapply lem in H as [H1 H];
    [rewrite (run_get _ _ _ _ _ _ _ _ _ _ _ H1); clear H1; cbn [negb]; autorewrite with run; cbn [negb]
    |try done; try (repeat apply AddBytes_range; done)..].

(** Status and checksum, at the end of every response. *)
Ltac finish Hd :=
  next_field get8_field Hd; next_field crc_field Hd; rewrite ?AddBytes_nil;
  eexists; split; [reflexivity|exact Hd].

Lemma decode_fetch_ok st n c m (a : Conn) x r bs :
  cmd_wf x → resp_ok x r → fRcvSize x = rcv_size x → fNakIndex st = -1 → is_u16 (Crc c) →
  Z.of_nat (length (fPktBuf_ st)) < 2 ^ 64 →
  drop n (fPktBuf_ st) = fields_bytes c (resp_fields x r) ++ bs →
  ∃ n', decode_fetch (mkOnCmd (deff st n c m a) x) =
      (Ret true, mkOnCmd (deff st n' (crc_after c (resp_fields x r)) (fetched m x r).2 a)
                         (fetched m x r).1) ∧
    drop n' (fPktBuf_ st) = bs.
Proof.
  intros Hw Hr Hsz Hnak Hc Hlen Hd. unfold decode_fetch. rewrite !bind_gets. cbn [cnx cmd].
  rewrite deff_rcv. unfold CheckNak at 1. change (fNakIndex (rd_at st n c)) with (fNakIndex st).
  rewrite Hnak. cbn [Z.leb Z.compare andb]. rewrite bind_gets. cbn [cnx cmd]. rewrite deff_rcv.
  pose proof (length_resp x r c Hw Hr) as Hl.
  assert (Hle : (n + rcv_size x <= length (fPktBuf_ st))%nat).
  { rewrite <- Hl. eapply drop_app_le; [done|]. intros H. by rewrite H in Hl; destruct x. }
  rewrite CheckSize_at, Hsz by lia. rewrite (proj2 (Nat.leb_le _ _)) by lia. cbn [negb].
  unfold resp_fields in *. unfold decode_data, fetched, fetch_data.
  destruct (command_cases x Hw) as [E|[E|[E|[E|[E|[E|E]]]]]]; revert Hd; unfold_fields E; intros Hd;
    next_field get8_field Hd; cbn [cmd]; rewrite Z.eqb_refl; cbn [negb]; autorewrite with run; cbn [negb].
  all: pose proof (ro_data _ _ Hr) as Hdat; rewrite E in Hdat.
  - next_field get16_field Hd. finish Hd.
  - next_field get16_field Hd; [|apply u16_range]. cbn [cmd]. rewrite Z.eqb_refl. cbn [negb].
    autorewrite with run. rewrite <- (ro_size _ _ Hr E) in *. rewrite <- app_assoc in Hd.
    next_field getblk_field Hd; [|apply Hr].
    cbn [cmd cnx]. rewrite deff_memory. destruct (block_write (rs_block r) x m) as [x' m'].
    rewrite deff_block. next_field get16_field Hd; [|apply Hr]. finish Hd.
  - finish Hd.
  - next_field get16_field Hd; [|apply Hr]. finish Hd.
  - next_field get8_field Hd. finish Hd.
  - next_field get16_field Hd. finish Hd.
  - finish Hd.
Qed.
(** ** Lemmas: checks and the loop *)

Definition dst (st : Rstats) (a : Conn) : Conn := a <| fCnStats := st |>.
Lemma dst_stat i v st a : stat i v (dst st a) = dst (inc i v st) a.
Proof. done. Qed.
Lemma dst_dst st st' a : dst st (dst st' a) = dst st a.
Proof. done. Qed.
Lemma dst_id a : a = dst (fCnStats a) a.
Proof. by destruct a. Qed.

Lemma run_xstat_if {B} b i (k : () → M (oncmd P) B) st a x :
  (xstat_if b i ≫= k) (mkOnCmd (dst st a) x) =
  k () (mkOnCmd (dst (if b then inc i 1 st else st) a) x).
Proof. by destruct b. Qed.
Lemma run_check_fail {B} b i flag (k : () → M (oncmd P) B) st a x :
  (check_fail b i flag ≫= k) (mkOnCmd (dst st a) x) =
  k () (mkOnCmd (dst (if b then inc i 1 st else st) a) (add_flag b flag x)).
Proof. by destruct b. Qed.
Lemma run_check_fail_end b i flag st a x :
  check_fail b i flag (mkOnCmd (dst st a) x) =
  (Ret (), mkOnCmd (dst (if b then inc i 1 st else st) a) (add_flag b flag x)).
Proof. by destruct b. Qed.

Lemma add_flag_done b flag x : fBlockDone (add_flag b flag x) = fBlockDone x.
Proof. by destruct b. Qed.

(** The words compared with an expected block are inside the block. *)
Definition block_safe (x : RlinkCommand) : Prop :=
  Command x = kCmdRblk → ∀ e, fupExpect x = Some e →
  (fBlockDone x `min` length (fBlockVal e) <= BlockSize x)%nat.

Lemma length_block_read_min m x k :
  (k `min` BlockSize x <= length (block_read m k x))%nat.
Proof.
  unfold block_read, BlockSize, HasBlockExt. destruct (fpBlockExt x); simpl.
  - rewrite length_mem_get. lia.
  - rewrite length_take. lia.
Qed.

Lemma BlockCheck_mismatches pval size e :
  (size `min` length (fBlockVal e) <= length pval)%nat →
  BlockCheck pval size e = Some (length (mismatches pval e (seq 0 (size `min` length (fBlockVal e))))).
Proof. intros H. unfold BlockCheck. by rewrite BlockCheck_loop_spec. Qed.

Lemma decode_expect_ok a x :
  block_safe x → 0 <= Command x <= kCmdInit →
  ∃ st, decode_expect (mkOnCmd a x) =
    (Ret (), mkOnCmd (dst st a) (add_flag (chk_done x) kFlagChkDone (add_flag (chk_data (memory a) x) kFlagChkData x))).
Proof.
  intros Hs Hw. unfold decode_expect, chk_done, chk_data. cbn [cmd].
  destruct (fupExpect x) as [e|] eqn:Ex; [|exists (fCnStats a); by rewrite <- dst_id].
  replace (mkOnCmd a x) with (mkOnCmd (dst (fCnStats a) a) x) by (by rewrite <- dst_id).
  rewrite bind_gets. cbn [cmd]. unfold is_blk.
  destruct (command_range_cases x Hw) as [E|[E|[E|[E|[E|[E|E]]]]]]; unfold_fields E; cbn [orb andb];
    rewrite ?bind_assoc, ?run_xstat_if; autorewrite with run;
    rewrite ?run_xstat_if; autorewrite with run; cbn [cmd cnx];
    rewrite ?run_check_fail; autorewrite with run; cbn [add_flag]; try (by eexists).
  - assert (Hl : (fBlockDone x `min` length (fBlockVal e) <=
                  length (block_read (memory a) (fBlockDone x) x))%nat).
    { pose proof (length_block_read_min (memory a) x (fBlockDone x)). specialize (Hs E e Ex). lia. }
    change (memory (dst ?s a)) with (memory a).
    rewrite (BlockCheck_mismatches _ _ _ Hl), run_check_fail. autorewrite with run.
    rewrite run_check_fail_end. cbn [cmd]. rewrite add_flag_done. by eexists.
  - rewrite run_check_fail_end. by eexists.
Qed.

(** What the comparison with a longer block ends with. *)
Definition behind_block : exn := undefined "read behind block".
(** Of any command: the checks end, or a comparison leaves the block. *)
Lemma decode_expect_any a x : 0 <= Command x <= kCmdInit →
  (∃ st b1 b2, decode_expect (mkOnCmd a x) =
    (Ret (), mkOnCmd (dst st a) (add_flag b1 kFlagChkDone (add_flag b2 kFlagChkData x)))) ∨
  (∃ s, decode_expect (mkOnCmd a x) = (Exc behind_block, s)) ∧ ¬ block_safe x.
Proof.
  intros Hw. assert (Hd : block_safe x ∨ (Command x = kCmdRblk ∧ ∃ e, fupExpect x = Some e ∧
    (BlockSize x < fBlockDone x `min` length (fBlockVal e))%nat)).
  { unfold block_safe. destruct (decide (Command x = kCmdRblk)) as [E|E]; [|by left].
    destruct (fupExpect x) as [e|]; [|by left].
    destruct (decide (fBlockDone x `min` length (fBlockVal e) <= BlockSize x)%nat); [left; intros _ ? [= <-]; done|].
    right. split; [done|]. exists e. split; [done|lia]. }
  destruct Hd as [Hs|(E & e & Ex & Hlt)].
  { left. destruct (decode_expect_ok a x Hs Hw) as [st H]. by eexists _, _, _. }
  assert (Hn : ¬ block_safe x) by (intros Hs; specialize (Hs E e Ex); lia).
  unfold decode_expect. cbn [cmd]. rewrite Ex. replace (mkOnCmd a x) with (mkOnCmd (dst (fCnStats a) a) x) by (by rewrite <- dst_id).
  rewrite bind_gets. cbn [cmd]. unfold is_blk. unfold_fields E. cbn [orb andb].
  rewrite ?bind_assoc, ?run_xstat_if. autorewrite with run. rewrite ?run_xstat_if. autorewrite with run. cbn [cmd cnx].
  destruct (BlockCheck _ _ e) as [nerr|].
  - left. rewrite run_check_fail. autorewrite with run. rewrite run_check_fail_end. by eexists _, _, _.
  - right. split; [by eexists|done].
Qed.

Lemma decode_status_ok a x :
  ∃ st, decode_status (mkOnCmd a x) =
    (Ret (), mkOnCmd (dst st a) (add_flag (negb (StatusCheck x)) kFlagChkStat x)).
Proof.
  unfold decode_status. replace (mkOnCmd a x) with (mkOnCmd (dst (fCnStats a) a) x) by (by rewrite <- dst_id).
  rewrite !run_xstat_if, run_check_fail_end. by eexists.
Qed.
Lemma with_cmd_ok {A} (m : M (oncmd P) A) (a a' : Conn) pre x x' l lst i v :
  fList lst = pre ++ x :: l → i = length pre → m (mkOnCmd a x) = (Ret v, mkOnCmd a' x') →
  with_cmd i m (mkOnList a lst) = (Ret v, mkOnList a' (lst <| fList := pre ++ x' :: l |>)).
Proof.
  intros Hl -> Hm. unfold with_cmd. cbn [cl cn]. rewrite Hl, list_lookup_middle, Hm by done. simpl.
  by rewrite Hl, insert_app_r_alt, Nat.sub_diag by lia.
Qed.

(** A decoded command: well-formed, same code and sizes. *)
Lemma fetched_wf m x r :
  cmd_wf x → resp_ok x r →
  cmd_wf (fetched m x r).1 ∧ Command (fetched m x r).1 = Command x ∧ block_safe (fetched m x r).1 ∧
  (Command x = kCmdLabo → fData (fetched m x r).1 = rs_data r).
Proof.
  intros Hw Hr. pose proof Hw as [Hwc Hwr Hwa Hwd Hwb Hws Hwi].
  pose proof Hr as [Hrd Hrb Hrs Hro Hrm Hrst].
  assert (Hflag : ∀ y, TestFlagAny Command.kFlagInit y = true →
    TestFlagAny Command.kFlagInit (Command.SetFlagBit kFlagDone (SetStatus (rs_stat r) y)) = true).
  { unfold TestFlagAny, Command.kFlagInit. intros y. rewrite !flag_bit by done.
    change (Command.fFlags (Command.SetFlagBit kFlagDone (SetStatus (rs_stat r) y))) with
      (Z.lor (Command.fFlags y) kFlagDone). intros H. by rewrite Z.lor_spec, H. }
  assert (Hd16 : is_u16 (rs_data r)).
  { destruct (Command x =? kCmdLabo); [by apply is_u8_u16|done]. }
  unfold fetched, fetch_data.
  destruct (command_cases x Hw) as [E|[E|[E|[E|[E|[E|E]]]]]]; unfold_fields E; cbn [orb fst].
  2:{ unfold block_write. specialize (Hrs E). specialize (Hrm E). specialize (Hws (or_introl E)).
      destruct (fpBlockExt x) as [p|] eqn:Ep; cbn [fst];
      (split_and!; [|done| |by intros H; vm_compute in H]);
      [split; try done; by apply Hflag| | |].
      - intros _ e _. simpl fBlockDone. unfold BlockSize, HasBlockExt in *. simpl. rewrite Ep in *.
        simpl in *. lia.
      - split; try done; [..|by apply Hflag]. intros _. unfold BlockSize, HasBlockExt in *. simpl.
        rewrite Ep in *. simpl in *. lia.
      - intros _ e _. simpl fBlockDone. unfold BlockSize, HasBlockExt in *. simpl. rewrite Ep in *.
        simpl in *. lia. }
  all: split_and!; try done; try (by intros H; vm_compute in H);
    try (by intros H; change (Command x = kCmdRblk) in H; rewrite E in H);
    split; try done; by apply Hflag.
Qed.

Lemma checked_fields m x : Command (checked m x) = Command x ∧ fData (checked m x) = fData x.
Proof. unfold checked, add_flag. by repeat case_match. Qed.
Lemma dst_deff stt st n c m a : dst stt (deff st n c m a) = deff st n c m (dst stt a).
Proof. done. Qed.

(** The receiver is inside the response packet of the commands [l]. *)
Record decoding (st : Rcv) : Prop := {
  dc_nak : fNakIndex st = -1;
  dc_len : Z.of_nat (length (fPktBuf_ st)) < 2 ^ 64 }.

Lemma decode_step_ok st n c m (a : Conn) lst pre x l r bs :
  decoding st → fList lst = pre ++ x :: l → LaboActive lst = false → cmd_wf x → resp_ok x r →
  fRcvSize x = rcv_size x → is_u16 (Crc c) →
  drop n (fPktBuf_ st) = fields_bytes c (resp_fields x r) ++ bs →
  ∃ stt n', decode_step (length pre) (mkOnList (deff st n c m a) lst) =
      (Ret None, mkOnList (deff st n' (crc_after c (resp_fields x r)) (fetched m x r).2 (dst stt a))
         (mkCommandList (pre ++ checked (fetched m x r).2 (fetched m x r).1 :: l)
            (if aborts x r then Z.of_nat (length pre) else fLaboIndex lst))) ∧
    drop n' (fPktBuf_ st) = bs.
Proof.
  intros [Hnak Hlen] Hl Hla Hw Hr Hsz Hc Hd.
  destruct (decode_fetch_ok st n c m a x r bs Hw Hr Hsz Hnak Hc Hlen Hd) as (n' & Hf & Hn').
  destruct (fetched_wf m x r Hw Hr) as (Hw1 & Hcmd1 & Hsafe1 & Hdata1).
  destruct (fetched m x r) as [x1 m1] eqn:Ef. cbn [fst snd] in *.
  unfold decode_step. cbn [cl]. rewrite Hla.
  rewrite (bind_Ret _ _ _ _ _ (with_cmd_ok _ _ _ _ _ _ _ _ _ _ Hl eq_refl Hf)). cbn [negb].
  set (c1 := crc_after c (resp_fields x r)). set (a1 := deff st n' c1 m1 a).
  set (lst1 := lst <| fList := pre ++ x1 :: l |>).
  assert (Hl1 : fList lst1 = pre ++ x1 :: l) by done.
  rewrite (bind_Ret _ _ _ _ _ (with_cmd_ok (gets _) a1 a1 pre x1 x1 l lst1 _ _ Hl1 eq_refl eq_refl)).
  cbn [cmd]. rewrite Hcmd1.
  assert (Hab : (Command x =? kCmdLabo) && negb (fData x1 =? 0) = aborts x r).
  { unfold aborts. destruct (Z.eqb_spec (Command x) kCmdLabo); [|done]. by rewrite Hdata1. }
  rewrite Hab.
  set (lst2 := if aborts x r then SetLaboIndex (Z.of_nat (length pre)) lst1 else lst1).
  assert (Hl2 : fList lst2 = pre ++ x1 :: l) by (unfold lst2; by destruct (aborts x r)).
  erewrite bind_Ret with (s' := mkOnList a1 lst2).
  2:{ unfold lst2. subst lst1. by destruct (aborts x r). }
  destruct (decode_expect_ok a1 x1 Hsafe1 (wf_command _ Hw1)) as [stt1 He].
  change (memory a1) with m1 in He.
  rewrite (bind_Ret _ _ _ _ _ (with_cmd_ok _ _ _ _ _ _ _ _ _ _ Hl2 eq_refl He)).
  set (x2 := add_flag (chk_done x1) kFlagChkDone (add_flag (chk_data m1 x1) kFlagChkData x1)).
  destruct (decode_status_ok (dst stt1 a1) x2) as [stt2 Hst].
  set (lst3 := lst2 <| fList := pre ++ x2 :: l |>).
  assert (Hl3 : fList lst3 = pre ++ x2 :: l) by done.
  rewrite (bind_Ret _ _ _ _ _ (with_cmd_ok _ _ _ _ _ _ _ _ _ _ Hl3 eq_refl Hst)).
  exists stt2, n'. split; [|done]. unfold mret, M_ret. f_equal. rewrite dst_dst. unfold a1.
  rewrite dst_deff. f_equal.
  assert (StatusCheck x2 = StatusCheck x1) as -> by (unfold x2, add_flag; by repeat case_match).
  unfold lst3, lst2, lst1. destruct (aborts x r); reflexivity.
Qed.

(** Commands behind an active list abort. *)
Lemma decode_canceled l : ∀ pre (a : Conn) lst k,
  fList lst = pre ++ l → LaboActive lst = true →
  decode_loop (seq (length pre) (length l)) k (mkOnList a lst) =
  (Ret (k + Z.of_nat (length l)), mkOnList a (lst <| fList := pre ++ map canceled l |>)).
Proof.
  induction l as [|x l IH]; intros pre a lst k Hl Hla.
  { simpl. rewrite Z.add_0_r. unfold mret, M_ret. do 2 f_equal. destruct lst; simpl in *. by rewrite Hl. }
  cbn [length seq decode_loop].
  erewrite bind_Ret.
  2:{ unfold decode_step. cbn [cl]. rewrite Hla.
      rewrite (bind_Ret _ _ _ _ _ (with_cmd_ok (on_cmd (Command.SetFlagBit (Z.lor kFlagDone kFlagLabo)))
        a a pre x (canceled x) l lst _ () Hl eq_refl eq_refl)). reflexivity. }
  cbv beta iota.
  specialize (IH (pre ++ [canceled x]) a (lst <| fList := pre ++ canceled x :: l |>) (k + 1)).
  rewrite length_app, Nat.add_1_r in IH. rewrite IH; [|simpl; by rewrite <- app_assoc|done].
  f_equal; [f_equal; lia|]. simpl. by rewrite <- app_assoc.
Qed.

Lemma decode_loop_ok l : ∀ rs pre st n c m (a : Conn) lst k bs,
  decoding st → fList lst = pre ++ l → LaboActive lst = false → Forall cmd_wf l →
  Forall (λ x, fRcvSize x = rcv_size x) l → resp_all_ok l rs → is_u16 (Crc c) →
  drop n (fPktBuf_ st) = fields_bytes c (resp_fields_all l rs) ++ bs →
  ∃ stt n' c' labo, decode_loop (seq (length pre) (length l)) k (mkOnList (deff st n c m a) lst) =
      (Ret (k + Z.of_nat (length l)),
       mkOnList (deff st n' c' (decoded m l rs).2 (dst stt a))
                (mkCommandList (pre ++ (decoded m l rs).1) labo)) ∧
    drop n' (fPktBuf_ st) = bs.
Proof.
  induction l as [|x l IH]; intros rs pre st n c m a lst k bs Hdc Hl Hla Hw Hsz Hr Hc Hd.
  { exists (fCnStats a), n, c, (fLaboIndex lst). split; [|by destruct rs].
    simpl. rewrite Z.add_0_r, <- dst_id. unfold mret, M_ret. do 2 f_equal. destruct lst; simpl in *.
    rewrite Hl. by destruct rs. }
  destruct rs as [|r rs]; [done|]. destruct Hr as [Hr Hrs].
  apply Forall_cons_iff in Hw as [Hwx Hw]. apply Forall_cons_iff in Hsz as [Hszx Hsz].
  cbn [resp_fields_all] in Hd. rewrite fields_bytes_app', <- app_assoc in Hd.
  destruct (decode_step_ok st n c m a lst pre x l r _ Hdc Hl Hla Hwx Hr Hszx Hc Hd)
    as (stt & n1 & Hstep & Hd1).
  cbn [length seq decode_loop decoded]. rewrite (bind_Ret _ _ _ _ _ Hstep). cbv beta iota.
  destruct (fetched m x r) as [x1 m1]. cbn [fst snd] in *.
  set (lst1 := mkCommandList _ _).
  assert (Hl1 : fList lst1 = (pre ++ [checked m1 x1]) ++ l) by (simpl; by rewrite <- app_assoc).
  assert (Hlen : S (length pre) = length (pre ++ [checked m1 x1])) by (rewrite length_app; simpl; lia).
  replace (k + Z.of_nat (S (length l))) with (k + 1 + Z.of_nat (length l)) by lia.
  rewrite Hlen. destruct (aborts x r) eqn:Eab.
  - rewrite decode_canceled; [|done|unfold lst1, LaboActive; simpl; apply Z.leb_le; lia].
    do 4 eexists. split; [cbn [fst snd]; unfold lst1; simpl; rewrite <- app_assoc; reflexivity|exact Hd1].
  - destruct (IH rs (pre ++ [checked m1 x1]) st n1 (crc_after c (resp_fields x r)) m1 (dst stt a) lst1
      (k + 1) bs Hdc Hl1 Hla Hw Hsz Hrs (crc_after_range _ _ Hc) Hd1) as (stt2 & n2 & c2 & labo & -> & Hd2).
    destruct (decoded m1 l rs) as [l' m'] eqn:Ed. cbn [fst snd].
    exists stt2, n2, c2, labo. split; [|done]. by rewrite <- app_assoc.
Qed.

(** ** Lemmas: decoding an arbitrary packet *)

Lemma getblk_at st k : ∀ n c,
  (n + 2 * k <= length (fPktBuf_ st))%nat →
  ∃ ws c', GetWithCrcBlk k (rd_at st n c) = Some (ws, rd_at st (n + 2 * k) c') ∧ length ws = k.
Proof.
  induction k as [|k IH]; intros n c H; [exists [], c; by rewrite Nat.add_0_r|].
  destruct (lookup_lt_is_Some_2 (fPktBuf_ st) n) as [b1 H1]; [lia|].
  destruct (lookup_lt_is_Some_2 (fPktBuf_ st) (S n)) as [b2 H2]; [lia|].
  destruct (IH (S (S n)) (AddBytes [b1; b2] c)) as (ws & c' & H3 & Hws); [lia|].
  exists (word_of b1 b2 :: ws), c'. cbn [GetWithCrcBlk length].
  rewrite (GetWithCrc16_at _ _ _ _ _ H1 H2). cbn [mbind option_bind]. rewrite H3. cbn [mbind option_bind].
  replace (n + 2 * S k)%nat with (S (S n) + 2 * k)%nat by lia. by rewrite Hws.
Qed.

(** Read the next byte, word or checksum, which the packet is long enough for. *)
Ltac any_byte st n b H :=
  let Hb := fresh in destruct (lookup_lt_is_Some_2 (fPktBuf_ st) n) as [b H]; [lia|].
Ltac any8 st n := let b := fresh "b" in let H := fresh in any_byte st n b H;
  rewrite (run_get _ _ _ _ _ _ _ _ _ _ _ (GetWithCrc8_at _ _ _ _ H)); clear H; autorewrite with run; cbn [negb].
Ltac any16 st n := let b := fresh "b" in let H := fresh in let b' := fresh "b" in let H' := fresh in
  any_byte st n b H; any_byte st (S n) b' H';
  rewrite (run_get _ _ _ _ _ _ _ _ _ _ _ (GetWithCrc16_at _ _ _ _ _ H H')); clear H H';
  autorewrite with run; cbn [negb].
Ltac any_crc st n := let b := fresh "b" in let H := fresh in let b' := fresh "b" in let H' := fresh in
  any_byte st n b H; any_byte st (S n) b' H';
  rewrite (run_get _ _ _ _ _ _ _ _ _ _ _ (CheckCrc_at _ _ _ _ _ H H')); clear H H'.

(** What a step leaves of a command. *)
Record kept (x x' : RlinkCommand) : Prop := {
  kp_command : Command x' = Command x;
  kp_size : BlockSize x' = BlockSize x;
  kp_expect : fupExpect x' = fupExpect x }.

Definition fail_effect (ind : nat) (text : string) (a : Conn) : Conn :=
  stat ind 1 a <| fspLog ::= λ l, l ++ [Lmsg (mkRlogMsg "E" text)] |>.
Lemma decode_fail_eq flag ind text st n c m a x :
  decode_fail flag ind text (mkOnCmd (deff st n c m a) x) =
  (Ret false, mkOnCmd (deff st n c m (fail_effect ind text a)) (Command.SetFlagBit flag x)).
Proof. done. Qed.

Lemma bind_decode_fail {B} flag ind text st n c m a x (k : bool → M (oncmd P) B) :
  (decode_fail flag ind text ≫= k) (mkOnCmd (deff st n c m a) x) =
  k false (mkOnCmd (deff st n c m (fail_effect ind text a)) (Command.SetFlagBit flag x)).
Proof. done. Qed.

Lemma error_flag flag x :
  flag = kFlagErrDec ∨ flag = kFlagErrNak → TestFlagAny error_mask (Command.SetFlagBit flag x) = true.
Proof.
  intros H. unfold TestFlagAny. apply negb_true_iff, Z.eqb_neq. intros H0.
  change (Command.fFlags (Command.SetFlagBit flag x)) with (Z.lor (Command.fFlags x) flag) in H0.
  destruct H as [-> | ->];
    [apply (f_equal (λ z, Z.testbit z 9)) in H0|apply (f_equal (λ z, Z.testbit z 8)) in H0];
    cbv beta in H0; rewrite Z.land_spec, Z.lor_spec in H0; vm_compute (Z.testbit kFlagErrDec 9) in H0;
    vm_compute (Z.testbit kFlagErrNak 8) in H0; rewrite orb_true_r in H0; by vm_compute in H0.
Qed.

Lemma done_flag x : TestFlagAny kFlagDone (Command.SetFlagBit kFlagDone x) = true.
Proof.
  unfold TestFlagAny, kFlagDone. rewrite flag_bit by done.
  change (Command.fFlags (Command.SetFlagBit (Z.shiftl 1 2) x)) with (Z.lor (Command.fFlags x) (Z.shiftl 1 2)).
  rewrite Z.lor_spec. apply orb_true_r.
Qed.

Lemma kept_refl x : kept x x.
Proof. done. Qed.

(** Status and checksum; [Hk]: what is known of the command so far. *)
Ltac any_tail st n Hk :=
  any8 st n; any_crc st (S n); autorewrite with run;
  match goal with |- context [negb ?b] => destruct b end; cbn [negb];
  [autorewrite with run; do 6 eexists; (split; [reflexivity|]);
   split_and!; [lia|first [done|by (destruct Hk; split)]|apply done_flag]
  |rewrite decode_fail_eq; do 6 eexists; (split; [reflexivity|]);
   split_and!; [lia|first [done|by (destruct Hk; split)]|apply error_flag; by left]].

Lemma decode_fetch_safe st n c m (a : Conn) x :
  0 <= Command x <= kCmdInit → fRcvSize x = rcv_size x → Z.of_nat (length (fPktBuf_ st)) < 2 ^ 64 →
  (n <= length (fPktBuf_ st))%nat →
  ∃ ok n' c' m' a' x', decode_fetch (mkOnCmd (deff st n c m a) x) =
      (Ret ok, mkOnCmd (deff st n' c' m' a') x') ∧
    (n' <= length (fPktBuf_ st))%nat ∧ kept x x' ∧
    (if (ok : bool) then TestFlagAny kFlagDone x' = true else TestFlagAny error_mask x' = true).
Proof.
  intros Hw Hsz Hlen Hn. unfold decode_fetch. rewrite !bind_gets. cbn [cnx cmd].
  destruct (CheckNak _).
  { rewrite bind_gets, decode_fail_eq. do 6 eexists. split; [reflexivity|]. split_and!; [lia|done|].
    apply error_flag. by right. }
  rewrite bind_gets. cbn [cnx cmd]. rewrite deff_rcv, CheckSize_at by done.
  destruct (Nat.leb_spec (fRcvSize x) (length (fPktBuf_ st) - n)) as [Hle|]; cbn [negb].
  2:{ rewrite decode_fail_eq. do 6 eexists. split; [reflexivity|]. split_and!; [lia|done|].
      apply error_flag. by left. }
  rewrite Hsz in Hle. unfold rcv_size in Hle. unfold decode_data.
  destruct (command_range_cases x Hw) as [E|[E|[E|[E|[E|[E|E]]]]]]; revert Hle; unfold_fields E; intros Hle.
  all: any8 st n; cbn [cmd]; destruct (b =? fRequest x); cbn [negb];
    [|rewrite decode_fail_eq; do 6 eexists; split; [reflexivity|]; split_and!; [lia|done|];
      apply error_flag; by left].
  all: autorewrite with run; cbn [negb].
  2:{ any16 st (S n). cbn [cmd]. destruct (negb _).
      { rewrite bind_decode_fail. do 6 eexists. split; [reflexivity|]. split_and!; [lia|done|].
        apply error_flag. by left. }
      autorewrite with run.
      destruct (getblk_at st (BlockSize x) (S (S (S n))) (AddBytes [b0; b1] (AddBytes [b] c)))
        as (ws & c2 & Hws & Hwl); [lia|].
      rewrite (run_get _ _ _ _ _ _ _ _ _ _ _ Hws). autorewrite with run. cbn [cmd cnx].
      rewrite deff_memory. destruct (block_write ws x m) as [x' m'] eqn:Eb. rewrite deff_block.
      any16 st (S (S (S n)) + 2 * BlockSize x)%nat.
      assert (Hk : kept x x').
      { unfold block_write in Eb. destruct (fpBlockExt x) eqn:Ex; simplify_eq; [done|].
        split; try done. unfold BlockSize, HasBlockExt in *. simpl. by rewrite Ex in *. }
      any_tail st (S (S (S (S (S n)) + 2 * BlockSize x)))%nat Hk. }
  - any16 st (S n). any_tail st (S (S (S n))) I.
  - any_tail st (S n) I.
  - any16 st (S n). any_tail st (S (S (S n))) I.
  - any8 st (S n). any_tail st (S (S n)) I.
  - any16 st (S n). any_tail st (S (S (S n))) I.
  - any_tail st (S n) I.
Qed.

Lemma done_mono b flag x : TestFlagAny kFlagDone x = true → TestFlagAny kFlagDone (add_flag b flag x) = true.
Proof.
  destruct b; [|done]. unfold TestFlagAny, kFlagDone. rewrite !flag_bit by done. simpl add_flag.
  change (Command.fFlags (Command.SetFlagBit flag x)) with (Z.lor (Command.fFlags x) flag).
  intros H. by rewrite Z.lor_spec, H.
Qed.

(** The block expected is no longer than the block received. *)
Definition expect_fits (x : RlinkCommand) : Prop :=
  Command x = kCmdRblk → ∀ e, fupExpect x = Some e → (length (fBlockVal e) <= BlockSize x)%nat.
(** A command as it was encoded. *)
Record decodable (x : RlinkCommand) : Prop := {
  dx_command : 0 <= Command x <= kCmdInit;
  dx_size : fRcvSize x = rcv_size x }.
(** How a step or the loop ends for the commands [xs]; [good], [bad]: for a result. *)
Definition ends {A B} (xs : list RlinkCommand) (good : A → B → Prop) (o : outcome A * B) : Prop :=
  match o with
  | (Ret a, s) => good a s
  | (Exc e, _) => e = behind_block ∧ Exists (λ x, ¬ expect_fits x) xs
  | (NoFuel, _) => False
  end.
Lemma with_cmd_exc {A} (m : M (oncmd P) A) (a : Conn) pre x l lst i e s :
  fList lst = pre ++ x :: l → i = length pre → m (mkOnCmd a x) = (Exc e, s) →
  ∃ s', with_cmd i m (mkOnList a lst) = (Exc e, s').
Proof. intros Hl -> Hm. unfold with_cmd. cbn [cl cn]. rewrite Hl, list_lookup_middle, Hm by done. destruct s. by eexists. Qed.
Lemma bind_Exc {S A B} (m : M S A) (k : A → M S B) s e s' : m s = (Exc e, s') → (m ≫= k) s = (Exc e, s').
Proof. intros H. unfold mbind, M_bind. by rewrite H. Qed.

(** The state behind a step: the read position inside the packet, one command
    replaced. *)
Definition stepped (st : RlinkPacketBufRcv) pre (l : list RlinkCommand) (rc : option Z) (s : onlist P) : Prop :=
  ∃ n' c' m' (a' : Conn) x' labo, s = mkOnList (deff st n' c' m' a') (mkCommandList (pre ++ x' :: l) labo) ∧
    (n' <= length (fPktBuf_ st))%nat ∧
    match rc with
    | None => TestFlagAny kFlagDone x' = true
    | Some rc => rc = -1 ∧ TestFlagAny error_mask x' = true
    end.
Lemma decode_step_safe st n c m (a : Conn) lst pre x l :
  Z.of_nat (length (fPktBuf_ st)) < 2 ^ 64 → (n <= length (fPktBuf_ st))%nat →
  fList lst = pre ++ x :: l → decodable x →
  ends [x] (stepped st pre l) (decode_step (length pre) (mkOnList (deff st n c m a) lst)).
Proof.
  intros Hlen Hn Hl [Hw Hsz]. unfold decode_step. cbn [cl]. destruct (LaboActive lst).
  { rewrite (bind_Ret _ _ _ _ _ (with_cmd_ok (on_cmd (Command.SetFlagBit (Z.lor kFlagDone kFlagLabo)))
      _ _ pre x (canceled x) l lst _ () Hl eq_refl eq_refl)).
    exists n, c, m, a, (canceled x), (fLaboIndex lst). split_and!; [done|done|].
    unfold canceled, TestFlagAny, kFlagDone. rewrite flag_bit by done.
    change (Command.fFlags (Command.SetFlagBit ?f x)) with (Z.lor (Command.fFlags x) f).
    rewrite Z.lor_spec. apply orb_true_r. }
  destruct (decode_fetch_safe st n c m a x Hw Hsz Hlen Hn)
    as (ok & n1 & c1 & m1 & a1 & x1 & Hf & Hn1 & [Hk1 Hk2 Hk3] & Hflag).
  rewrite (bind_Ret _ _ _ _ _ (with_cmd_ok _ _ _ _ _ _ _ _ _ _ Hl eq_refl Hf)).
  destruct ok; cbn [negb]; [|by exists n1, c1, m1, a1, x1, (fLaboIndex lst)].
  set (lst1 := lst <| fList := pre ++ x1 :: l |>).
  assert (Hl1 : fList lst1 = pre ++ x1 :: l) by done.
  set (b1 := deff st n1 c1 m1 a1).
  rewrite (bind_Ret _ _ _ _ _ (with_cmd_ok (gets _) b1 b1 pre x1 x1 l lst1 _ _ Hl1 eq_refl eq_refl)).
  set (lb := (_ =? kCmdLabo) && _).
  set (lst2 := if lb then SetLaboIndex (Z.of_nat (length pre)) lst1 else lst1).
  assert (Hl2 : fList lst2 = pre ++ x1 :: l) by (unfold lst2; by destruct lb).
  erewrite bind_Ret with (s' := mkOnList b1 lst2).
  2:{ unfold lst2. subst lst1. by destruct lb. }
  destruct (decode_expect_any b1 x1 ltac:(by rewrite Hk1)) as [(stt1 & f1 & f2 & Hex)|[[s Hex] Hns]].
  2:{ destruct (with_cmd_exc _ _ _ _ _ _ _ _ _ Hl2 eq_refl Hex) as [s' Hs']. rewrite (bind_Exc _ _ _ _ _ Hs').
      split; [done|]. left. intros He. apply Hns. intros HC e Hx. rewrite Hk1 in HC. rewrite Hk2. rewrite Hk3 in Hx.
      specialize (He HC e Hx). lia. }
  rewrite (bind_Ret _ _ _ _ _ (with_cmd_ok _ _ _ _ _ _ _ _ _ _ Hl2 eq_refl Hex)).
  set (x2 := add_flag _ _ _). set (lst3 := lst2 <| fList := pre ++ x2 :: l |>).
  destruct (decode_status_ok (dst stt1 b1) x2) as [stt2 Hst].
  assert (Hl3 : fList lst3 = pre ++ x2 :: l) by done.
  rewrite (bind_Ret _ _ _ _ _ (with_cmd_ok _ _ _ _ _ _ _ _ _ _ Hl3 eq_refl Hst)).
  exists n1, c1, m1, (dst stt2 (dst stt1 a1)). do 2 eexists. split; [reflexivity|].
  split; [done|]. by repeat apply done_mono.
Qed.

(** What the loop ends with, counting from [k]. *)
Definition decoded_all pre k (l : list RlinkCommand) (rc : Z) (s : onlist P) : Prop := ∃ l',
  fList (cl s) = pre ++ l' ∧
  (rc = k + Z.of_nat (length l) ∧ Forall (λ x, TestFlagAny kFlagDone x = true) l' ∨
   rc = -1 ∧ Exists (λ x, TestFlagAny error_mask x = true) l').
Lemma decode_loop_safe l : ∀ pre st n c m (a : Conn) lst k,
  Z.of_nat (length (fPktBuf_ st)) < 2 ^ 64 → (n <= length (fPktBuf_ st))%nat →
  fList lst = pre ++ l → Forall decodable l →
  ends l (decoded_all pre k l) (decode_loop (seq (length pre) (length l)) k (mkOnList (deff st n c m a) lst)).
Proof.
  induction l as [|x l IH]; intros pre st n c m a lst k Hlen Hn Hl Hx.
  { exists []. split; [done|]. left. simpl. split; [lia|done]. }
  apply Forall_cons_iff in Hx as [Hx Hxs]. pose proof (decode_step_safe st n c m a lst pre x l Hlen Hn Hl Hx) as Hs.
  cbn [length seq decode_loop].
  destruct (decode_step (length pre) (mkOnList (deff st n c m a) lst)) as [[rc|e|] s1] eqn:E; [| |done].
  2:{ rewrite (bind_Exc _ _ _ _ _ E). destruct Hs as [He Hs]. split; [done|]. apply Exists_cons in Hs as [Hs|Hs]; [by left|].
      by apply Exists_nil in Hs. }
  rewrite (bind_Ret _ _ _ _ _ E). destruct Hs as (n1 & c1 & m1 & a1 & x1 & labo & -> & Hn1 & Hout). destruct rc as [rc|].
  - destruct Hout as [-> Herr]. exists (x1 :: l). split; [done|]. right. split; [done|]. by left.
  - pose proof (IH (pre ++ [x1]) st n1 c1 m1 a1 (mkCommandList (pre ++ x1 :: l) labo) (k + 1) Hlen Hn1) as H1.
    rewrite length_app, Nat.add_1_r in H1.
    specialize (H1 ltac:(simpl; by rewrite <- app_assoc) Hxs).
    destruct (decode_loop _ _ _) as [[rc|e|] s2]; [|destruct H1 as [He H1]; split; [done|by right]|done].
    destruct H1 as (l' & H2 & H3). exists (x1 :: l'). split; [by rewrite H2, <- app_assoc|].
    destruct H3 as [[-> Hd]|[-> He]]; [left|right].
    + split; [simpl; lia|]. by constructor.
    + split; [done|]. by right.
Qed.
End Decode.

(** ** Theorems *)

(** C4: decoding the response packet of a list of encoded commands, one
    response per command up to the first list abort that is active, returns
    success, stores status, data and block of each response in its command (or
    in the memory of the caller) together with the outcome of its checks, marks
    the commands behind the abort as canceled, and consumes the packet to its
    end. *)
Theorem DecodeResponse_roundtrip {P} `{!RlinkPort P} (cnn : RlinkConnect P) lst rs :
  Forall cmd_wf (fList lst) → Forall (λ x, fRcvSize x = rcv_size x) (fList lst) → fList lst ≠ [] →
  fLaboIndex lst = -1 → resp_all_ok (fList lst) rs → decoding (fRcvPkt cnn) →
  is_u16 (Crc (fPktCrc (rb (fRcvPkt cnn)))) →
  at_bytes (fields_bytes (fPktCrc (rb (fRcvPkt cnn))) (resp_fields_all (fList lst) rs)) (fRcvPkt cnn) →
  ∃ s', DecodeResponse 0 (Size lst - 1) (mkOnList cnn lst) = (Ret (Z.of_nat (Size lst)), s') ∧
    fList (cl s') = (decoded (memory cnn) (fList lst) rs).1 ∧
    memory (cn s') = (decoded (memory cnn) (fList lst) rs).2 ∧ at_bytes [] (fRcvPkt (cn s')).
Proof.
  intros Hw Hsz Hne Hlabo Hr Hdc Hc Hd. unfold DecodeResponse.
  assert (0 < length (fList lst))%nat by (destruct (fList lst); [done|simpl; lia]).
  replace (S (Size lst - 1) - 0)%nat with (length (fList lst)) by (unfold Size; lia).
  rewrite (deff_id cnn).
  destruct (decode_loop_ok (fList lst) rs [] (fRcvPkt cnn) (fNDone (fRcvPkt cnn))
    (fPktCrc (rb (fRcvPkt cnn))) (memory cnn) cnn lst 0 [])
    as (stt & n' & c' & labo & Hok & Hn'); try done.
  { unfold LaboActive. by rewrite Hlabo. }
  { by rewrite app_nil_r. }
  eexists. split; [exact Hok|]. done.
Qed.

(** C17: an arbitrary response packet is decoded safely.  For a list of encoded
    commands, the decoder does not read behind the packet, and ends in one of
    three ways: all commands are done; the result is -1 and a command carries an
    error flag; or, and only if some block read expects a longer block than it
    reads, a comparison reads behind a block (undefined behaviour).  Nothing is
    thrown. *)
Theorem DecodeResponse_safe {P} `{!RlinkPort P} (cnn : RlinkConnect P) lst :
  Forall decodable (fList lst) → fList lst ≠ [] →
  Z.of_nat (length (fPktBuf_ (fRcvPkt cnn))) < 2 ^ 64 →
  (fNDone (fRcvPkt cnn) <= length (fPktBuf_ (fRcvPkt cnn)))%nat →
  match DecodeResponse 0 (Size lst - 1) (mkOnList cnn lst) with
  | (Ret rc, s') =>
      rc = Z.of_nat (Size lst) ∧ Forall (λ x, TestFlagAny kFlagDone x = true) (fList (cl s')) ∨
      rc = -1 ∧ Exists (λ x, TestFlagAny error_mask x = true) (fList (cl s'))
  | (Exc e, _) => e = behind_block ∧ Exists (λ x, ¬ expect_fits x) (fList lst)
  | (NoFuel, _) => False
  end.
Proof.
  intros Hx Hne Hlen Hn. unfold DecodeResponse.
  assert (0 < length (fList lst))%nat by (destruct (fList lst); [done|simpl; lia]).
  replace (S (Size lst - 1) - 0)%nat with (length (fList lst)) by (unfold Size; lia).
  rewrite (deff_id cnn).
  pose proof (decode_loop_safe (fList lst) [] (fRcvPkt cnn) (fNDone (fRcvPkt cnn))
    (fPktCrc (rb (fRcvPkt cnn))) (memory cnn) cnn lst 0 Hlen Hn eq_refl Hx) as Hs.
  unfold ends, decoded_all in Hs. simpl length in Hs.
  destruct (decode_loop _ _ _) as [[rc|e|] s']; [|exact Hs|exact Hs].
  destruct Hs as (l' & Hl' & Hres). simpl in Hl'. by rewrite Hl'.
Qed.

(** ** Witnesses *)

(** A register read, an active list abort, and a write behind it. *)
Definition sample_list : RlinkCommandList :=
  mkCommandList (assign (replicate 8 0)
    (fList (build [B_add (S_rreg 0x10); B_data 0x1234 0xffff; B_add S_labo; B_add (S_wreg 0x12 7)]))) (-1).
Definition sample_resp : list response := [mkResponse 0x1234 [] 0 0; mkResponse 1 [] 0 0].
Definition connect_with_packet (pkt : list Z) : RlinkConnect SimPort :=
  RlinkConnect_ctor <| fRcvPkt ::= push_pkt pkt |>.

Lemma DecodeResponse_roundtrip_witness :
  let cnn := connect_with_packet (fields_bytes RlinkCrc16_ctor (resp_fields_all (fList sample_list) sample_resp)) in
  ∃ s', DecodeResponse 0 2 (mkOnList cnn sample_list) = (Ret 3, s') ∧
    map fData (fList (cl s')) = [0x1234; 1; 7] ∧
    map (TestFlagAny kFlagLabo) (fList (cl s')) = [false; false; true].
Proof.
  intros cnn.
  destruct (DecodeResponse_roundtrip cnn sample_list sample_resp) as (s' & H1 & H2 & _).
  - apply assign_wf, build_wf. repeat constructor; by vm_compute.
  - repeat constructor.
  - done.
  - done.
  - by repeat split; vm_compute.
  - split; [done|by vm_compute].
  - done.
  - reflexivity.
  - exists s'. split; [exact H1|]. rewrite H2. split; by vm_compute.
Defined.

(** Three bytes are no response. *)
Lemma DecodeResponse_safe_witness : ∃ rc s',
  DecodeResponse 0 2 (mkOnList (connect_with_packet [1; 2; 3]) sample_list) = (Ret rc, s') ∧
    (rc = 3 ∧ Forall (λ x, TestFlagAny kFlagDone x = true) (fList (cl s')) ∨
     rc = -1 ∧ Exists (λ x, TestFlagAny error_mask x = true) (fList (cl s'))).
Proof.
  assert (H : match DecodeResponse 0 2 (mkOnList (connect_with_packet [1; 2; 3]) sample_list) with
    | (Ret rc, s') =>
      rc = 3 ∧ Forall (λ x, TestFlagAny kFlagDone x = true) (fList (cl s')) ∨
      rc = -1 ∧ Exists (λ x, TestFlagAny error_mask x = true) (fList (cl s'))
    | (Exc e, _) => e = behind_block ∧ Exists (λ x, ¬ expect_fits x) (fList sample_list)
    | (NoFuel, _) => False
    end).
  { apply (DecodeResponse_safe (connect_with_packet [1; 2; 3]) sample_list).
    - repeat constructor; by vm_compute.
    - done.
    - by vm_compute.
    - vm_compute. lia. }
  revert H. destruct (DecodeResponse _ _ _) as [[rc|e|] s'] eqn:E; [by exists rc, s'| |done].
  apply (f_equal (λ o, match o.1 with Exc _ => false | _ => true end)) in E. vm_compute in E. discriminate E.
Defined.

(** The last case occurs: the count of valid words is taken from the response and
    used unchecked as the length of the comparison with the expected block. *)
Theorem rblk_done_count_unchecked :
  let lst := mkCommandList (assign (replicate 8 0)
    (fList (build [B_add (S_rblk 0x10 1); B_block [1; 2; 3]]))) (-1) in
  let r := mkResponse 0 [1] 3 0 in
  let cnn := connect_with_packet (fields_bytes RlinkCrc16_ctor (resp_fields_all (fList lst) [r])) in
  (DecodeResponse 0 0 (mkOnList cnn lst)).1 = Exc (undefined "read behind block").
Proof. by vm_compute. Qed.
