(* ===== verification/ConnectExec.v ===== *)
(** * RlinkConnect::Exec, end to end over a port

    The read loop [ReadResponse] against the stream of packets the port
    delivers in arbitrary chunks, with attention notifies before the response,
    and the composition of all steps of [Exec]: what goes out on the port, what
    ends up in the commands, and that the connection is ready for the next
    call.  Further theorems show behaviours at the edges: stale check flags of a
    list executed twice, and attention notifies left in the input buffer. *)

From S2P Require Import Prelude.
From S2P Require Import Rtime.
From S2P Require Import Rstats.
From S2P Require Import Crc16.
From S2P Require Import Port.
From S2P Require Import PacketBuf.
From S2P Require Import PacketRcv.
From S2P Require Import AddrMap.
From S2P Require Import Command.
From S2P Require Import CommandList.
From S2P Require Import Connect.
From S2P Require Import ConnectEncode.
From S2P Require Import ConnectDecode.

(** ** The stream *)

Definition attn_packet (apat : Z) : list Z := fields_bytes RlinkCrc16_ctor [F16 apat; FCrc].
Definition attn_frame (apat : Z) : list Z :=
  [kSymEsc; escaped kEcAttn] ++ concat (map (frame_byte false) (attn_packet apat)) ++
  [kSymEsc; escaped kEcEop].
(** Attention notifies, then the response packet [pkt]. *)
Definition stream (apats : list Z) (pkt : list Z) : list Z :=
  concat (map attn_frame apats) ++ frame false pkt.

Definition rx_idle : rx := mkRx kRcvIdle false [] 0 (-1) [].
Definition rx_attn (apat : Z) : rx :=
  mkRx kRcvDone false (attn_packet apat) (Z.lor kFlagAttnSeen kFlagEopSeen) (-1) [].
Definition rx_resp (pkt : list Z) : rx :=
  mkRx kRcvDone false pkt (Z.lor kFlagSopSeen kFlagEopSeen) (-1) [].

(** ** Lemmas: the automaton on the stream *)

Lemma rx_run_attn apat bs : rx_run (attn_frame apat ++ bs) rx_idle = (rx_attn apat, bs).
Proof.
  unfold attn_frame. rewrite <- !app_assoc.
  change (rx_run ([kSymEsc; escaped kEcAttn] ++ ?x) ?r) with
    (rx_run x (rx_byte (escaped kEcAttn) (rx_byte kSymEsc r))).
  rewrite rx_run_frame_bytes by reflexivity.
  change (rx_run ([kSymEsc; escaped kEcEop] ++ ?x) ?r) with
    (rx_run x (rx_byte (escaped kEcEop) (rx_byte kSymEsc r))).
  rewrite rx_run_stop by reflexivity. reflexivity.
Qed.

Lemma rx_run_resp pkt : rx_run (frame false pkt) rx_idle = (rx_resp pkt, []).
Proof. rewrite <- (app_nil_r (frame false pkt)). by rewrite rx_run_frame. Qed.

Lemma rx_run_stream apats pkt :
  rx_run (stream apats pkt) rx_idle =
  match apats with
  | [] => (rx_resp pkt, [])
  | a :: apats => (rx_attn a, stream apats pkt)
  end.
Proof.
  unfold stream. destruct apats as [|a apats]; cbn [map concat]; [apply rx_run_resp|].
  by rewrite <- app_assoc, rx_run_attn.
Qed.

(** ** Lemmas: reading the response *)

(** A chunk fits the read buffer. *)
Definition chunk_ok (c : list Z) : Prop := (0 < length c <= RawBufSize)%nat ∧ Forall is_u8 c.

(** A port in the state [feed cs x now] has the chunks [cs] waiting, its clock
    shows [now], and [x] stands for what is behind it.  Bytes written change
    [x], and [reply] are the chunks that arrive for them.  Reading the clock
    takes [tick] seconds. *)
Class PortFeed (P X : Type) `{!RlinkPort P} := {
  feed : list (list Z) → X → Z → P;
  reply : list Z → X → list (list Z);
  after : list Z → X → X;
  tick : Z;
  tick_range : 0 <= tick <= 1;
  feed_open cs x now : port_IsOpen (feed cs x now) = true;
  feed_read c cs x now t : chunk_ok c →
    port_Read RawBufSize t (feed (c :: cs) x now) =
    (mkRead (Z.of_nat (length c)) c emsg_none, feed cs x now);
  feed_write bs cs x now :
    port_Write bs (feed cs x now) =
    ((Z.of_nat (length bs), emsg_none), feed (cs ++ reply bs x) (after bs x) now);
  feed_clock cs x now : clock_monotonic (feed cs x now) = (mkRtime now 0, feed cs x (tick + now)) }.

(** Chunks that arrive in time, when reading the clock takes [tk] seconds. *)
Record arrives (tk : Z) (timeout : Rtime) (cs : list (list Z)) : Prop := {
  ar_chunks : Forall chunk_ok cs;
  ar_enough : tk * Z.of_nat (length cs) <= tv_sec timeout;
  ar_time : 0 < tv_sec timeout }.

Definition sim (cs : list (list Z)) (out : list Z) (now : Z) : SimPort := mkSimPort cs out now.
Lemma map_u8_id l : Forall is_u8 l → map u8 l = l.
Proof. induction 1 as [|x l Hx _ IH]; simpl; [done|]. by rewrite IH, u8_id. Qed.
#[export] Instance SimPort_feed : PortFeed SimPort (list Z).
Proof.
  refine {| feed := sim; reply _ _ := []; after bs out := out ++ bs; tick := 1 |}; try done.
  - intros c cs x now t [Hl Hu]. cbn [port_Read SimPort_port sim sim_Read sp_in]. rewrite map_u8_id by done.
    rewrite take_ge, drop_ge by lia. done.
  - intros bs cs x now. by rewrite app_nil_r.
Defined.

Section Read.
Context {P X : Type} `{!RlinkPort P, !RlinkPortLaws P, !PortFeed P X}.
Notation ticks := (tick (P := P) (X := X)).
Notation Conn := (RlinkConnect P).

(** Normal form of the connection while reading. *)
Definition reff (st : Rcv) (p : P) (pat : Z) (a : Conn) : Conn :=
  a <| fRcvPkt := st |> <| fupPort := Some p |> <| fAttnNotiPatt := pat |>.

(** The connection handles notifies itself and does not print them. *)
Definition quiet (a : Conn) : Prop := ServerActive a = false ∧ fPrintLevel a ≠ 3.

(** The receiver has [r] in view; nothing of the packet has been taken. *)
Record receiving (st : Rcv) : Prop := {
  rc_inv : RawInv st;
  rc_crc : fPktCrc (rb st) = RlinkCrc16_ctor;
  rc_done : fNDone st = 0%nat }.

Lemma AcceptPacket_receiving st : receiving st → receiving (AcceptPacket st).
Proof. intros []. by split. Qed.

Lemma view_AcceptPacket st : fEscSeen st = false → view (AcceptPacket st) = rx_idle.
Proof. intros He. unfold view. simpl. by rewrite He. Qed.

Lemma run_get_conn {A B} (f : Rcv → option (A * Rcv)) (k : A → M Conn B) st st' p pat a v :
  f st = Some (v, st') → (get_rcv f ≫= k) (reff st p pat a) = k v (reff st' p pat a).
Proof. intros H. apply bind_Ret. unfold get_rcv. by change (fRcvPkt (reff st p pat a)) with st; rewrite H. Qed.

Lemma ProcessAttnNotify_ok st p pat a apat :
  quiet a → receiving st → view st = rx_attn apat → is_u16 apat → apat ≠ 0 →
  ProcessAttnNotify (reff st p pat a) = (Ret (), reff (AcceptPacket st) p (Z.lor pat apat) a).
Proof.
  intros [Hs Hp] [_ Hc Hn] Hv Ha Hne.
  assert (Hpkt : fPktBuf_ st = attn_packet apat) by (by apply (f_equal rx_pkt) in Hv).
  pose proof (AddBytes_range [lo8 apat; hi8 apat] RlinkCrc16_ctor) as Hcr.
  assert (Hd : drop 0 (fPktBuf_ st) = lo8 apat :: hi8 apat ::
    [lo8 (Crc (AddBytes [lo8 apat; hi8 apat] RlinkCrc16_ctor));
     hi8 (Crc (AddBytes [lo8 apat; hi8 apat] RlinkCrc16_ctor))]) by (by rewrite drop_0, Hpkt).
  rewrite (rd_at_id st), Hc, Hn.
  destruct (get16_field st 0 RlinkCrc16_ctor _ _ Ha Hd) as [H1 Hd1].
  destruct (crc_field st 2 _ [] (Hcr ltac:(done)) Hd1) as [H2 Hd2].
  unfold ProcessAttnNotify, DecodeAttnNotify. autorewrite with run.
  change (fRcvPkt (reff ?st _ _ _)) with st. rewrite CheckSize_at by (rewrite Hpkt; simpl; lia).
  rewrite Hpkt. cbn [length attn_packet fields_bytes field_bytes field_data app Nat.sub Nat.leb Nat.add negb].
  autorewrite with run. rewrite (run_get_conn _ _ _ _ _ _ _ _ H1). autorewrite with run.
  rewrite (run_get_conn _ _ _ _ _ _ _ _ H2). cbn [negb]. autorewrite with run.
  unfold AcceptPacket_cn. autorewrite with run.
  rewrite (proj2 (Z.eqb_neq apat 0)) by done. cbn [negb]. autorewrite with run.
  change (reff (rd_at st 4 ?c) p pat a <| fRcvPkt ::= AcceptPacket |>) with (reff (AcceptPacket st) p pat a).
  change (ServerActive (reff (AcceptPacket st) p pat a)) with (ServerActive a). rewrite Hs.
  change (fPrintLevel _) with (fPrintLevel a) at 1.
  rewrite (proj2 (Z.eqb_neq _ 3)) by done. reflexivity.
Qed.

Lemma ProcessData_cn_ok st p pat a :
  receiving st →
  ∃ st', ProcessData_cn (reff st p pat a) = (Ret (more st), reff st' p pat a) ∧ receiving st' ∧
    rx_run (pending st) (view st) = (view st', pending st').
Proof.
  intros [Hi Hc Hn]. destruct (ProcessData_run st Hi) as (st' & Hp & Ho & Hr). exists st'.
  destruct (so_crc _ _ Ho) as [Hc' Hn']. split_and!; [|split; [apply Ho|congruence..]|done].
  unfold ProcessData_cn, zoom. change (fRcvPkt (reff st p pat a)) with st. by rewrite Hp.
Qed.

Lemma PacketState_view st :
  PacketState st =
  match rx_state (view st) with
  | kRcvIdle | kRcvFill => kPktPend
  | kRcvDone => if negb (Z.land (rx_flags (view st)) kFlagSopSeen =? 0) then kPktResp else kPktAttn
  | kRcvError => kPktError
  end.
Proof. done. Qed.

Definition apats_ok (apats : list Z) : Prop := Forall (λ x, is_u16 x ∧ x ≠ 0) apats.

(** The receiver is on the way through the stream, with [rest] still in the port. *)
Definition on_stream (apats : list Z) (pkt rest : list Z) (st : Rcv) : Prop :=
  rx_run (pending st ++ rest) (view st) = rx_run (stream apats pkt) rx_idle.

(** What the packet loop leaves, for the return value [r]. *)
Definition packets_post (pkt rest : list Z) (r : option bool) (apats : list Z) (st : Rcv) : Prop :=
  match r with
  | Some ok => ok = true ∧ apats = [] ∧ view st = rx_resp pkt ∧ pending st = [] ∧ rest = []
  | None => more st = false ∧ rx_active (view st) = true ∧ on_stream apats pkt rest st
  end.

Lemma pending_nil st : RawInv st → more st = false → pending st = [].
Proof.
  intros Hi Hm. apply length_zero_iff_nil. rewrite length_pending by done.
  unfold more in Hm. apply Nat.ltb_ge in Hm. unfold todo. lia.
Qed.

Lemma more_nil st : RawInv st → pending st = [] → more st = false.
Proof.
  intros Hi Hp. apply not_true_iff_false. intros Hm%more_true.
  rewrite <- length_pending, Hp in Hm by done. simpl in Hm. lia.
Qed.

(** One packet of the stream, when [ProcessData] stops at its end. *)
Lemma on_stream_step apats pkt rest st st' :
  on_stream apats pkt rest st → rx_run (pending st) (view st) = (view st', pending st') →
  if rx_active (view st') then pending st' = [] ∧ rx_run rest (view st') = rx_run (stream apats pkt) rx_idle
  else match apats with
       | [] => view st' = rx_resp pkt ∧ pending st' = [] ∧ rest = []
       | a :: apats => view st' = rx_attn a ∧ pending st' ++ rest = stream apats pkt
       end.
Proof.
  unfold on_stream. intros Hs Hr. rewrite rx_run_app, Hr in Hs.
  destruct (rx_active (view st')) eqn:E.
  - split; [|done]. by eapply rx_run_rest.
  - rewrite rx_run_stream in Hs.
    assert (Hv := f_equal fst Hs). assert (Hp := f_equal snd Hs). cbn [fst snd] in Hv, Hp.
    destruct apats; [|done]. by apply app_nil in Hp as [-> ->].
Qed.

Lemma response_packets_ok st p pat a apats pkt rest :
  quiet a → receiving st → rx_active (view st) = true → apats_ok apats → on_stream apats pkt rest st →
  ∃ r st' pat' apats', response_packets (reff st p pat a) = (Ret r, reff st' p pat' a) ∧
    receiving st' ∧ apats_ok apats' ∧ fold_left Z.lor apats pat = fold_left Z.lor apats' pat' ∧
    packets_post pkt rest r apats' st'.
Proof.
  intros Hq Hrc Hact Hap Hs. unfold response_packets.
  set (I := λ s : Conn, ∃ st pat' apats', s = reff st p pat' a ∧ receiving st ∧
    rx_active (view st) = true ∧ apats_ok apats' ∧ on_stream apats' pkt rest st ∧
    fold_left Z.lor apats pat = fold_left Z.lor apats' pat').
  set (Q := λ (o : outcome (option bool)) (s : Conn), ∃ r st' pat' apats', o = Ret r ∧
    s = reff st' p pat' a ∧ receiving st' ∧ apats_ok apats' ∧
    fold_left Z.lor apats pat = fold_left Z.lor apats' pat' ∧ packets_post pkt rest r apats' st').
  assert (HQ : Q (loop (packet_fuel (reff st p pat a)) response_body (reff st p pat a)).1
                 (loop (packet_fuel (reff st p pat a)) response_body (reff st p pat a)).2).
  { apply (loop_rule I Q (λ s, todo (fRcvPkt s))).
    2:{ exists st, pat, apats. by split_and!. }
    2:{ unfold packet_fuel. lia. }
    intros s (st0 & pat0 & ap0 & -> & Hrc0 & Hact0 & Hap0 & Hs0 & Hf0).
    destruct (ProcessData_cn_ok st0 p pat0 a Hrc0) as (st1 & Hp & Hrc1 & Hr1).
    unfold response_body. rewrite (bind_Ret _ _ _ _ _ Hp).
    pose proof (on_stream_step _ _ _ _ _ Hs0 Hr1) as Hstep.
    destruct (more st0) eqn:Em; cbn [negb].
    2:{ exists None, st1, pat0, ap0. split_and!; try done.
        rewrite (pending_nil st0) in Hr1 by (by apply Hrc0 || done).
        rewrite rx_run_nil in Hr1.
        assert (Hv := f_equal fst Hr1). assert (Hpn := f_equal snd Hr1). cbn [fst snd] in Hv, Hpn.
        rewrite <- Hv, Hact0 in Hstep. destruct Hstep as [_ Hstep].
        split_and!; [apply more_nil; [apply Hrc1|done]|by rewrite <- Hv|].
        unfold on_stream. by rewrite <- Hpn, <- Hv. }
    unfold PacketState_cn. rewrite bind_gets.
    change (fRcvPkt (reff st1 p pat0 a)) with st1. rewrite PacketState_view.
    assert (Hlt : (todo st1 < todo st0)%nat).
    { rewrite <- !length_pending by (apply Hrc1 || apply Hrc0). eapply rx_run_progress; [done|done|].
      intros H0. apply more_true in Em. rewrite <- length_pending, H0 in Em by apply Hrc0. simpl in Em. lia. }
    destruct (rx_active (view st1)) eqn:Ea.
    - destruct Hstep as [Hp1 Hs1].
      assert (Hbreak : Q (Ret None) (reff st1 p pat0 a)).
      { exists None, st1, pat0, ap0. split_and!; try done.
        split_and!; [apply more_nil; [apply Hrc1|done]|done|]. unfold on_stream. by rewrite Hp1. }
      unfold rx_active in Ea. destruct (rx_state (view st1)); done.
    - destruct ap0 as [|ap ap0].
      + destruct Hstep as (Hv & Hp1 & Hrest). rewrite Hv. cbn [rx_state rx_resp rx_flags].
        exists (Some true), st1, pat0, []. by split_and!.
      + destruct Hstep as (Hv & Hp1). rewrite Hv. cbn [rx_state rx_attn rx_flags].
        apply Forall_cons_iff in Hap0 as [[Hu Hne] Hap0].
        change (negb (Z.land (Z.lor kFlagAttnSeen kFlagEopSeen) kFlagSopSeen =? 0)) with false. cbv iota.
        rewrite (bind_Ret _ _ _ _ _ (ProcessAttnNotify_ok st1 p pat0 a ap Hq Hrc1 Hv Hu Hne)).
        assert (He : fEscSeen st1 = false) by (by apply (f_equal rx_esc) in Hv).
        split; [|done]. exists (AcceptPacket st1), (Z.lor pat0 ap), ap0.
        split_and!; [done|by apply AcceptPacket_receiving| | |
          unfold on_stream; rewrite view_AcceptPacket by done; f_equal; exact Hp1|done].
        * by rewrite view_AcceptPacket.
        * done. }
  destruct HQ as (r & st' & pat' & ap' & Ho & Hs' & HQ). destruct (loop _ _ _) as [o s]. simpl in *.
  subst. exists r, st', pat', ap'. by split.
Qed.

(** Reading the next chunk. *)
Lemma ReadData_cn_ok t st c cs io now pat a :
  receiving st → more st = false → chunk_ok c →
  ∃ st' em, ReadData_cn t (reff st (feed (c :: cs) io now) pat a) =
      (Ret (Z.of_nat (length c), em), reff st' (feed cs io now) pat a) ∧
    receiving st' ∧ view st' = view st ∧ pending st' = c.
Proof.
  intros [Hi Hc Hn] Hm Hck. pose proof Hck as [Hl Hu].
  destruct (ReadData_ok t st _ _ _ Hi Hm (feed_read (P := P) c cs io now t Hck))
    as (st' & Hrd & _ & _ & Hn' & Hpos & _).
  simpl in Hpos. destruct Hpos as (Hi' & Hv & Hb & Hp); [lia|].
  simpl rd_irc in Hrd. simpl rd_emsg in Hrd.
  assert (Hk : Z.of_nat (length c) =? kTout = false) by (apply Z.eqb_neq; unfold kTout; lia).
  rewrite Hk, andb_false_r in Hrd.
  exists st'. eexists. split_and!; [|split; congruence|done|done].
  unfold ReadData_cn. change (fupPort (reff ?st (feed ?cs io now) pat a)) with (Some (feed cs io now)).
  cbv iota beta. change (fRcvPkt (reff st ?p pat a)) with st. rewrite Hrd. reflexivity.
Qed.

Lemma GetClock_ok st cs io now pat a :
  GetClock (reff st (feed cs io now) pat a) = (Ret (mkRtime now 0), reff st (feed cs io (ticks + now)) pat a).
Proof. unfold GetClock, with_port. cbn [reff fupPort update]. by rewrite feed_clock. Qed.

Definition sec (t : Z) : Rtime := mkRtime t 0.
Lemma sec_normal t : Normal (sec t).
Proof. done. Qed.

Lemma response_loop_ok cs : ∀ n st pat t io a apats pkt tend,
  quiet a → receiving st → more st = false → rx_active (view st) = true → apats_ok apats →
  on_stream apats pkt (concat cs) st → Forall chunk_ok cs → Normal tend →
  ns (sec t) + 1000000000 * (ticks * (Z.of_nat (length cs) - 1)) < ns tend → (length cs <= n)%nat →
  ∃ em st' t', response_loop n tend (sec t) (reff st (feed cs io (ticks + t)) pat a) =
      (Ret (Some (true, em)), reff st' (feed [] io t') (fold_left Z.lor apats pat) a) ∧
    receiving st' ∧ view st' = rx_resp pkt ∧ pending st' = [].
Proof.
  induction cs as [|c cs IH]; intros n st pat t io a apats pkt tend Hq Hrc Hm Hact Hap Hs Hck Hte Htime Hn.
  { exfalso. unfold on_stream in Hs. rewrite (pending_nil st) in Hs by (by apply Hrc || done).
    cbn [concat app] in Hs. rewrite rx_run_nil, rx_run_stream in Hs.
    apply (f_equal (λ x, rx_active (fst x))) in Hs. cbn [fst] in Hs. rewrite Hact in Hs.
    by destruct apats. }
  apply Forall_cons_iff in Hck as [Hc Hcs]. destruct n as [|n]; [simpl in Hn; lia|].
  cbn [length] in Htime. simpl length in Hn.
  assert (Hlt : op_lt (sec t) tend = true).
  { rewrite op_lt_spec by done. apply Z.ltb_lt. pose proof (tick_range (P := P) (X := X)). unfold ns, sec in *. simpl in *. nia. }
  destruct (ReadData_cn_ok (op_minus tend (sec t)) st c cs io (ticks + t) pat a Hrc Hm Hc)
    as (st1 & em & Hrd & Hrc1 & Hv1 & Hp1).
  assert (Hs1 : on_stream apats pkt (concat cs) st1).
  { unfold on_stream in *. rewrite Hp1, Hv1. rewrite (pending_nil st) in Hs by (by apply Hrc || done).
    exact Hs. }
  destruct (response_packets_ok st1 (feed cs io (ticks + t)) pat a apats pkt (concat cs) Hq Hrc1
    ltac:(by rewrite Hv1) Hap Hs1) as (r & st2 & pat2 & ap2 & Hpk & Hrc2 & Hap2 & Hf & Hpost).
  cbn [response_loop]. rewrite Hlt. unfold response_turn.
  rewrite bind_assoc. rewrite (bind_Ret _ _ _ () (reff st (feed (c :: cs) io (ticks + t)) pat a))
    by (unfold need_open, IsOpen; cbn [reff fupPort update]; by rewrite feed_open).
  rewrite bind_assoc, (bind_Ret _ _ _ _ _ Hrd). cbv beta iota.
  assert (Hk : Z.of_nat (length c) <=? 0 = false) by (destruct Hc; apply Z.leb_gt; lia).
  rewrite Hk. rewrite bind_assoc, (bind_Ret _ _ _ _ _ Hpk).
  destruct r as [ok|]; cbn [packets_post] in Hpost.
  - destruct Hpost as (-> & -> & Hv2 & Hp2 & Hrest). rewrite !bind_mret.
    assert (cs = []) as ->.
    { destruct cs as [|c' cs]; [done|]. apply Forall_cons_iff in Hcs as [[Hl _] _].
      simpl in Hrest. apply app_nil in Hrest as [-> _]. simpl in Hl. lia. }
    exists em, st2, (ticks + t). split_and!; [|done..]. by rewrite Hf.
  - destruct Hpost as (Hm2 & Ha2 & Hs2).
    rewrite bind_assoc, (bind_Ret _ _ _ _ _ (GetClock_ok st2 cs io (ticks + t) pat2 a)), bind_mret.
    cbv iota beta.
    destruct (IH n st2 pat2 (ticks + t) io a ap2 pkt tend) as (em' & st3 & t3 & H3 & Hrest);
      try done; [unfold ns, sec in *; simpl in *; lia|lia|].
    exists em', st3, t3. split; [|done]. by rewrite Hf.
Qed.

Lemma ReadResponse_ok n timeout st cs io now pat a apats pkt :
  quiet a → receiving st → more st = false → view st = rx_idle → apats_ok apats →
  concat cs = stream apats pkt → Normal timeout →
  arrives ticks timeout cs → (length cs <= n)%nat →
  ∃ em st' now', ReadResponse n timeout (reff st (feed cs io now) pat a) =
      (Ret (true, em), reff st' (feed [] io now') (fold_left Z.lor apats pat) a) ∧
    receiving st' ∧ view st' = rx_resp pkt ∧ pending st' = [].
Proof.
  intros Hq Hrc Hm Hv Hap Hcat Hto [Hck Hlen Hpos] Hn. unfold ReadResponse.
  rewrite (bind_Ret _ _ _ _ _ (GetClock_ok st cs io now pat a)).
  destruct (op_plus_spec (sec now) timeout (sec_normal now) Hto) as [Hte Hns].
  destruct (response_loop_ok cs n st pat now io a apats pkt (op_plus (sec now) timeout))
    as (em & st' & t' & Hl & Hrest); try done.
  - by rewrite Hv.
  - unfold on_stream. rewrite (pending_nil st) by (by apply Hrc || done). by rewrite Hv, Hcat.
  - rewrite Hns. pose proof (tick_range (P := P) (X := X)). unfold Normal in Hto. unfold ns. simpl. nia.
  - exists em, st', t'. split; [|done].
    by rewrite (bind_Ret _ _ _ _ _ Hl).
Qed.

(** ** Lemmas: the other steps of [Exec] *)

Lemma reff_id a p : fupPort a = Some p → a = reff (fRcvPkt a) p (fAttnNotiPatt a) a.
Proof. intros H. unfold reff. destruct a. simpl in *. by subst. Qed.

Lemma SndPacket_feed s cs io now : let bs := frame (fXonEscape s) (fPktBuf (sb s)) in
  ∃ s', SndPacket s (feed cs io now) =
    ((true, emsg_none), s', feed (cs ++ reply (P := P) bs io) (after (P := P) bs io) now) ∧
    fXonEscape s' = fXonEscape s.
Proof.
  intros bs. unfold SndPacket, SndRaw. rewrite FramePacket_raw, feed_write.
  rewrite (proj2 (Z.ltb_ge _ 0)) by lia. rewrite Z.eqb_refl. cbn [negb].
  eexists. split; [reflexivity|]. apply FramePacket_pkt.
Qed.

Lemma ProcessUnsolicitedData_empty (c : Conn) :
  RawInv (fRcvPkt c) → more (fRcvPkt c) = false → ProcessUnsolicitedData c = (Ret (), c).
Proof.
  intros [_ [Hi _]] Hm. unfold more in Hm. apply Nat.ltb_ge in Hm.
  unfold ProcessUnsolicitedData, packet_fuel.
  assert (Hp : ProcessData_cn c = (Ret false, c)).
  { unfold ProcessData_cn, zoom, ProcessData. rewrite (proj2 (Nat.eqb_eq _ _)) by lia. by destruct c. }
  erewrite bind_Ret; [reflexivity|]. cbn [loop]. unfold unsolicited_body.
  by rewrite (bind_Ret _ _ _ _ _ Hp).
Qed.

(** The command as it leaves [prepare_cmd]. *)
Definition prepared (cntx : RlinkContext) (c : RlinkCommand) : RlinkCommand :=
  let c := Command.ClearFlagBit exec_clear_mask c in
  if negb (fExpectStatusSet c) then SetExpectStatusDefault (fStatusVal cntx) (fStatusMsk cntx) c else c.

Lemma prepare_cmd_ok cntx (a : Conn) x :
  ServerActive a = false → cmd_wf x → prepare_cmd cntx (mkOnCmd a x) = (Ret (), mkOnCmd a (prepared cntx x)).
Proof.
  intros Ha [Hc _ _ _ _ _ Hi]. unfold prepare_cmd. cbn [cmd cnx]. rewrite Hi. cbn [negb].
  rewrite (proj2 (Z.ltb_ge _ _)) by lia.
  assert (ServerActiveOutside a = false) as ->.
  { unfold ServerActive, ServerActiveOutside in *. destruct (fpServ a); [|done]. by rewrite Ha. }
  by rewrite andb_false_r.
Qed.

Lemma run_prepare cntx l (a : Conn) :
  ServerActive a = false → Forall cmd_wf l → run_cmds (prepare_cmd cntx) l a = (a, map (prepared cntx) l).
Proof.
  intros Ha. induction 1 as [|x l Hx _ IH]; [done|]. cbn [run_cmds map].
  rewrite prepare_cmd_ok by done. cbn [snd cnx cmd]. by rewrite IH.
Qed.

Lemma prepared_wf cntx x : cmd_wf x → cmd_wf (prepared cntx x).
Proof.
  intros [H1 H2 H3 H4 H5 H6 H7].
  assert (Hf : Command.fFlags (prepared cntx x) = Z.land (Command.fFlags x) (not32 exec_clear_mask)).
  { unfold prepared. by destruct (negb _). }
  assert (TestFlagAny Command.kFlagInit (prepared cntx x) = true).
  { unfold TestFlagAny, Command.kFlagInit in *. rewrite flag_bit in * by done.
    by rewrite Hf, Z.land_spec, H7. }
  unfold prepared in *. destruct (negb _); by split.
Qed.

Lemma Forall_mark_ends (Q : RlinkCommand → Prop) l :
  (∀ m x, Q x → Q (Command.SetFlagBit m x)) → Forall Q l → Forall Q (mark_ends l).
Proof. intros H Hl. unfold mark_ends. do 2 (apply Forall_alter; [|intros; by apply H]). done. Qed.

Lemma SetFlagBit_init_wf m x : cmd_wf x → cmd_wf (Command.SetFlagBit m x).
Proof.
  intros [H1 H2 H3 H4 H5 H6 H7]. split; try done.
  unfold TestFlagAny, Command.kFlagInit in *. rewrite flag_bit in * by done.
  change (Command.fFlags (Command.SetFlagBit m x)) with (Z.lor (Command.fFlags x) m).
  by rewrite Z.lor_spec, H7.
Qed.

Lemma assign_rcv_size sq l : Forall (λ x, fRcvSize x = rcv_size x) (assign sq l).
Proof.
  revert sq. induction l as [|x l IH]; intros sq; simpl; constructor; [|apply IH].
  change (fRcvSize (encoded ?n x)) with (rcv_size x). unfold rcv_size. by rewrite Command_encoded.
Qed.

(** ** Exec *)

(** The list as it is sent. *)
Definition sent (cnn : Conn) (cntx : RlinkContext) (l : list RlinkCommand) : list RlinkCommand :=
  mark_ends (assign (fSeqNumber cnn) (map (prepared cntx) l)).

Lemma sent_wf cnn cntx l : Forall cmd_wf l → Forall cmd_wf (sent cnn cntx l).
Proof.
  intros Hl. apply Forall_mark_ends; [apply SetFlagBit_init_wf|]. apply assign_wf, Forall_map.
  eapply Forall_impl; [|exact Hl]. intros x. apply prepared_wf.
Qed.

Lemma sent_rcv_size cnn cntx l : Forall (λ x, fRcvSize x = rcv_size x) (sent cnn cntx l).
Proof. apply Forall_mark_ends; [done|]. apply assign_rcv_size. Qed.

Lemma length_sent cnn cntx l : length (sent cnn cntx l) = length l.
Proof. unfold sent. by rewrite length_mark_ends, length_assign, length_map. Qed.

(** The port is open, the server not running, and nothing is pending. *)
Record link_up (cnn : Conn) (cs : list (list Z)) (io : X) (now : Z) : Prop := {
  lu_port : fupPort cnn = Some (feed cs io now);
  lu_quiet : quiet cnn;
  lu_ready : ready (fRcvPkt cnn);
  lu_timeout : Normal (fTimeout cnn) }.

(** What a call of [Exec] does not change. *)
Definition settings (cnn : Conn) : option ServerView * Z * Rtime * Z * bool :=
  (fpServ cnn, fPrintLevel cnn, fTimeout cnn, fRbufSize cnn, fXonEscape (fSndPkt cnn)).
(** The bytes of the request for the commands [l1]. *)
Definition request_frame (cnn : Conn) (l1 : list RlinkCommand) : list Z :=
  frame (fXonEscape (fSndPkt cnn)) (fields_bytes RlinkCrc16_ctor (concat (map (req_fields (memory cnn)) l1))).

(** What a successful execution leaves: the connection and the commands. *)
Record executed (cnn : Conn) (l1 : list RlinkCommand) (rs : list response) (apats : list Z)
    (io : X) (s' : onlist P) : Prop := {
  ex_cmds : fList (cl s') = (decoded (memory cnn) l1 rs).1;
  ex_memory : memory (cn s') = (decoded (memory cnn) l1 rs).2;
  ex_port : ∃ now', fupPort (cn s') = Some (feed [] (after (P := P) (request_frame cnn l1) io) now');
  ex_attn : fAttnNotiPatt (cn s') = fold_left Z.lor apats (fAttnNotiPatt cnn);
  ex_ready : ready (fRcvPkt (cn s'));
  ex_settings : settings (cn s') = settings cnn }.

Lemma ExecPart_ok n (cnn : Conn) lst cs0 cs io now apats rs :
  let l1 := mark_ends (assign (fSeqNumber cnn) (fList lst)) in
  let pkt := fields_bytes RlinkCrc16_ctor (resp_fields_all l1 rs) in
  Forall cmd_wf (fList lst) → fList lst ≠ [] → fLaboIndex lst = -1 →
  link_up cnn cs0 io now → apats_ok apats → resp_all_ok l1 rs → arrives ticks (fTimeout cnn) cs →
  cs = cs0 ++ reply (P := P) (request_frame cnn l1) io →
  Z.of_nat (length pkt) < 2 ^ 64 → concat cs = stream apats pkt → (length cs <= n)%nat →
  ∃ em s', ExecPart n 0 (Size lst - 1) (mkOnList cnn lst) = (Ret (true, em), s') ∧
    executed cnn l1 rs apats io s'.
Proof.
  intros l1 pkt Hw Hne Hlabo [Hport Hq Hrdy Hto] Hap Hrs Harr Hcs Hlen Hcat Hn.
  assert (Hs : (0 < Size lst)%nat) by (unfold Size; destruct (fList lst); [done|simpl; lia]).
  unfold ExecPart. cbn [cn cl].
  rewrite (proj2 (Nat.ltb_ge _ _)), (proj2 (Nat.leb_gt _ _)) by lia. cbn [orb].
  unfold IsOpen. rewrite Hport, feed_open. cbn [negb].
  unfold lstat. rewrite bind_modify. cbn [update setter cn cl].
  set (c1 := stat kStatNExecPart 1 cnn).
  destruct (EncodeRequest_ok c1 lst Hw Hne) as (sq & st1 & Henc).
  rewrite (bind_Ret _ _ _ _ _ Henc).
  set (snd1 := fold_left put_field _ _). set (c2 := eff sq snd1 st1 c1).
  set (lst1 := lst <| fList := mark_ends (assign (fSeqNumber c1) (fList lst)) |>).
  destruct (put_fields_spec (concat (map (req_fields (memory c1)) (assign (fSeqNumber c1) (fList lst))))
    (Init (fSndPkt c1))) as (Hsp & _ & Hsx). fold snd1 in Hsp, Hsx.
  destruct (SndPacket_feed snd1 cs0 io now) as (snd2 & Hsnd & Hxon2).
  assert (Hfr : frame (fXonEscape snd1) (fPktBuf (sb snd1)) = request_frame cnn l1).
  { rewrite Hsp, Hsx. unfold request_frame, l1. by rewrite map_mark_ends. }
  rewrite Hfr, <- Hcs in Hsnd. set (io1 := after _ io) in Hsnd.
  set (c3 := c2 <| fSndPkt := snd2 |> <| fupPort := Some (feed cs io1 now) |>).
  rewrite (bind_Ret _ _ _ (true, emsg_none) (mkOnList c3 lst1)).
  2:{ unfold on_list, zoom, SndPacket_cn. cbn [cn]. change (fupPort c2) with (fupPort cnn).
      rewrite Hport. change (fSndPkt c2) with snd1. by rewrite Hsnd. }
  cbn [negb]. rewrite bind_gets. cbn [cn]. change (fTimeout c3) with (fTimeout cnn).
  destruct Hrdy as (Hri & Hrm & Hrv & Hrc & Hrn).
  destruct (ReadResponse_ok n (fTimeout cnn) (fRcvPkt cnn) cs io1 now (fAttnNotiPatt cnn) c3 apats pkt)
    as (em & st' & now' & Hrr & [Hi' Hc' Hn'] & Hv' & Hp'); try done.
  change (reff (fRcvPkt cnn) (feed cs io1 now) (fAttnNotiPatt cnn) c3) with c3 in Hrr.
  set (c4 := reff st' _ _ c3) in Hrr.
  rewrite (bind_Ret _ _ _ (true, em) (mkOnList c4 lst1)).
  2:{ unfold on_list, zoom. cbn [cn]. by rewrite Hrr. }
  cbv beta iota.
  assert (Hw1 : Forall cmd_wf l1).
  { apply Forall_mark_ends; [apply SetFlagBit_init_wf|]. by apply assign_wf. }
  assert (Hsz1 : Forall (λ x, fRcvSize x = rcv_size x) l1).
  { apply Forall_mark_ends; [done|]. apply assign_rcv_size. }
  assert (Hlen1 : length l1 = Size lst) by (unfold l1; rewrite length_mark_ends; apply length_assign).
  assert (Hpk : fPktBuf_ st' = pkt) by (by apply (f_equal rx_pkt) in Hv').
  assert (Hdc : decoding st').
  { split; [by apply (f_equal rx_nak) in Hv'|by rewrite Hpk]. }
  destruct (decode_loop_ok l1 rs [] st' 0 RlinkCrc16_ctor (memory cnn) c4 lst1 0 [] Hdc eq_refl)
    as (stt & n' & c' & labo & Hdec & Hdn); try done.
  { unfold LaboActive, lst1. simpl. by rewrite Hlabo. }
  { by rewrite drop_0, Hpk, app_nil_r. }
  assert (Hc4 : deff st' 0 RlinkCrc16_ctor (memory cnn) c4 = c4).
  { unfold deff. rewrite <- Hc', <- Hn', <- rd_at_id. reflexivity. }
  rewrite Hc4 in Hdec.
  set (c5 := deff st' n' c' _ _) in Hdec. cbn [length app] in Hdec.
  unfold DecodeResponse. replace (S (Size lst - 1) - 0)%nat with (length l1) by lia.
  rewrite (bind_Ret _ _ _ _ _ Hdec).
  replace (0 + Z.of_nat (length l1) =? Z.of_nat (Size lst - 1 - 0 + 1)) with true
    by (symmetry; apply Z.eqb_eq; lia).
  cbn [negb]. set (c6 := c5 <| fRcvPkt := AcceptPacket st' |>).
  assert (Hm' : more st' = false) by (by apply more_nil).
  set (lst2 := mkCommandList _ _).
  rewrite (bind_Ret _ _ _ () (mkOnList c6 lst2)).
  2:{ unfold on_list, zoom, AcceptResponse, AcceptPacket_cn. cbn [cn]. rewrite bind_modify.
      change (c5 <| fRcvPkt ::= AcceptPacket |>) with c6. by rewrite ProcessUnsolicitedData_empty. }
  exists em, (mkOnList c6 lst2). split; [done|]. split; try done.
  - by exists now'.
  - change (fRcvPkt (cn (mkOnList c6 lst2))) with (AcceptPacket st').
    apply ready_AcceptPacket; [done|done|]. by apply (f_equal rx_esc) in Hv'.
  - unfold settings. change (fXonEscape (fSndPkt (cn (mkOnList c6 lst2)))) with (fXonEscape snd2).
    by rewrite Hxon2, Hsx.
Qed.

Definition failed (c : RlinkCommand) : bool := TestFlagAny check_mask c || TestFlagAny error_mask c.

Lemma account_spec l b1 b2 cntx :
  ∃ b1' b2', fold_left account l (b1, b2, cntx) =
    (b1', b2', IncErrorCount (length (filter (λ c, failed c = true) l)) cntx).
Proof.
  revert b1 b2 cntx. induction l as [|c l IH]; intros b1 b2 cntx.
  { exists b1, b2. simpl. unfold IncErrorCount. destruct cntx. simpl. by rewrite Nat.add_0_r. }
  cbn [fold_left account].
  destruct (IH (b1 || TestFlagAny check_mask c) (b2 || TestFlagAny error_mask c)
    (if TestFlagAny check_mask c || TestFlagAny error_mask c then IncErrorCount 1 cntx else cntx))
    as (b1' & b2' & ->).
  exists b1', b2'. f_equal. rewrite filter_cons. fold (failed c).
  destruct (failed c); [rewrite decide_True by done|rewrite decide_False by done; done].
  unfold IncErrorCount. simpl. f_equal. lia.
Qed.
(** [Exec] over any port that feeds the response. *)
Lemma Exec_ok n (cnn : Conn) lst cntx cs0 cs io now apats rs :
  let l1 := sent cnn cntx (fList lst) in
  let pkt := fields_bytes RlinkCrc16_ctor (resp_fields_all l1 rs) in
  Forall cmd_wf (fList lst) → fList lst ≠ [] → link_up cnn cs0 io now →
  apats_ok apats → resp_all_ok l1 rs → arrives ticks (fTimeout cnn) cs →
  cs = cs0 ++ reply (P := P) (request_frame cnn l1) io →
  Z.of_nat (length pkt) < 2 ^ 64 → concat cs = stream apats pkt → (length cs <= n)%nat →
  ∃ em s', Exec n cntx (mkOnList cnn lst) =
      (Ret ((true, em), IncErrorCount (length (filter (λ c, failed c = true) (fList (cl s')))) cntx), s') ∧
    executed cnn l1 rs apats io s'.
Proof.
  intros l1 pkt Hw Hne Hrdy Hap Hrs Harr Hcs Hlen Hcat Hn.
  assert (Hs : (0 < Size lst)%nat) by (unfold Size; destruct (fList lst); [done|simpl; lia]).
  pose proof Hrdy as [Hport [Hsrv Hlvl] _ _].
  unfold Exec. cbn [cn cl]. rewrite (proj2 (Nat.eqb_neq _ _)) by lia.
  unfold IsOpen. rewrite Hport, feed_open. cbn [negb].
  unfold lstat. autorewrite with run. cbn [update setter cn cl].
  set (c1 := stat kStatNExec 1 cnn).
  change (Size (ClearLaboIndex lst)) with (Size lst).
  unfold for_cmds. replace (S (Size lst - 1) - 0)%nat with (length (fList lst)) by (unfold Size in *; lia).
  assert (Hm : ∀ (c : Conn) x, ServerActive c = false → cmd_wf x →
    (prepare_cmd cntx (mkOnCmd c x)).1 = Ret () ∧ ServerActive (cnx (prepare_cmd cntx (mkOnCmd c x)).2) = false).
  { intros c x Hc Hx. by rewrite prepare_cmd_ok. }
  destruct (for_run_cmds (λ c, ServerActive c = false) cmd_wf (prepare_cmd cntx) Hm (fList lst) [] c1
    (ClearLaboIndex lst) Hsrv Hw eq_refl) as [Hfor _].
  rewrite run_prepare in Hfor by done. cbn [length app fst snd] in Hfor.
  rewrite (bind_Ret _ _ _ _ _ Hfor). clear Hfor Hm.
  set (lst1 := ClearLaboIndex lst <| fList := map (prepared cntx) (fList lst) |>).
  assert (Hsz : Size lst1 = Size lst) by apply length_map.
  assert (Hrdy1 : link_up c1 cs0 io now) by (destruct Hrdy; by split).
  destruct (ExecPart_ok n c1 lst1 cs0 cs io now apats rs) as (em & s' & Hpart & Hex); try done.
  { apply Forall_map. eapply Forall_impl; [|exact Hw]. intros x. apply prepared_wf. }
  { intros H0. apply map_eq_nil in H0. done. }
  rewrite Hsz in Hpart. rewrite (bind_Ret _ _ _ _ _ Hpart). cbn [negb]. rewrite bind_gets.
  destruct (account_spec (fList (cl s')) false false cntx) as (b1 & b2 & ->).
  autorewrite with run.
  set (s1 := if _ <=? fPrintLevel _ then _ else s').
  set (s2 := if _ <=? fDumpLevel _ then _ else s1).
  assert (Hcl : cl s2 = cl s') by (unfold s2, s1; by repeat case_match).
  exists em, s2. split; [by rewrite Hcl|].
  destruct Hex as [He1 He2 He3 He4 He5 He6]. unfold s2, s1. by repeat case_match; split.
Qed.
End Read.

(** The connection may execute over a port that replays [cs]. *)
Record exec_ready (cnn : RlinkConnect SimPort) (cs : list (list Z)) (out : list Z) (now : Z) : Prop := {
  er_port : fupPort cnn = Some (sim cs out now);
  er_quiet : quiet cnn;
  er_ready : ready (fRcvPkt cnn);
  er_timeout : Normal (fTimeout cnn);
  er_chunks : Forall chunk_ok cs;
  er_enough : Z.of_nat (length cs) <= tv_sec (fTimeout cnn) }.

(** ** Theorems *)

(** C3: [Exec] end to end.  Given an open port that delivers, in chunks cut at
    arbitrary positions, any number of attention notifies and then the response
    packet, [Exec] terminates and succeeds for every list of well-formed
    commands: the bytes sent are the framed request packet of the list, the
    commands hold what the responses say, the notified patterns are or-ed into
    the pending pattern, the error count of the context grows by the number of
    commands with a failed check, and the connection is ready for the next
    call. *)
Theorem Exec_end_to_end (cnn : RlinkConnect SimPort) lst cntx cs out now apats rs n :
  let l1 := sent cnn cntx (fList lst) in
  let pkt := fields_bytes RlinkCrc16_ctor (resp_fields_all l1 rs) in
  Forall cmd_wf (fList lst) → fList lst ≠ [] → exec_ready cnn cs out now →
  apats_ok apats → resp_all_ok l1 rs → Z.of_nat (length pkt) < 2 ^ 64 →
  concat cs = stream apats pkt → (length cs <= n)%nat →
  ∃ em s', Exec n cntx (mkOnList cnn lst) =
      (Ret ((true, em), IncErrorCount (length (filter (λ c, failed c = true) (fList (cl s')))) cntx), s') ∧
    executed cnn l1 rs apats out s'.
Proof.
  intros l1 pkt Hw Hne [Hport Hq Hrdy Hto Hck Hen] Hap Hrs Hlen Hcat Hn.
  apply (Exec_ok n cnn lst cntx cs cs out now apats rs); try done; [|by rewrite app_nil_r].
  split; [done|cbn; lia|]. destruct cs; [|simpl in Hen; lia].
  symmetry in Hcat. unfold stream in Hcat. apply app_nil in Hcat as [_ Hcat]. done.
Qed.

(** ** Witness, and behaviours at the edges *)

#[export] Instance is_u8_dec z : Decision (is_u8 z).
Proof. unfold is_u8. apply _. Defined.
#[export] Instance is_u16_dec z : Decision (is_u16 z).
Proof. unfold is_u16. apply _. Defined.
#[export] Instance chunk_ok_dec c : Decision (chunk_ok c).
Proof. unfold chunk_ok. apply _. Defined.
#[export] Instance apats_ok_dec l : Decision (apats_ok l).
Proof. unfold apats_ok. apply _. Defined.

Definition open_connect (cs : list (list Z)) : RlinkConnect SimPort :=
  RlinkConnect_ctor <| fupPort := Some (sim cs [] 0) |>.
Definition response_bytes (cnn : RlinkConnect SimPort) (l : list RlinkCommand) (rs : list response) : list Z :=
  fields_bytes RlinkCrc16_ctor (resp_fields_all (sent cnn (fContext cnn) l) rs).

Definition sample_cmds : RlinkCommandList :=
  build [B_add (S_rreg 0x10); B_data 0x1234 0xffff; B_add (S_wblk 0x12 [1; 2])].
Definition sample_rs : list response := [mkResponse 0x1235 [] 0 0; mkResponse 0 [] 2 0].
Definition sample_stream : list Z :=
  stream [4; 8] (response_bytes (open_connect []) (fList sample_cmds) sample_rs).
Definition sample_chunks : list (list Z) := [take 13 sample_stream; drop 13 sample_stream].

Lemma Exec_end_to_end_witness :
  ∃ em s', Exec 2 (fContext (open_connect [])) (mkOnList (open_connect sample_chunks) sample_cmds) =
      (Ret ((true, em), IncErrorCount 1 (fContext (open_connect []))), s') ∧
    map fData (fList (cl s')) = [0x1235; 0] ∧ fAttnNotiPatt (cn s') = 12.
Proof.
  destruct (Exec_end_to_end (open_connect sample_chunks) sample_cmds (fContext (open_connect []))
    sample_chunks [] 0 [4; 8] sample_rs 2) as (em & s' & H1 & [H2 H3 H4 H5 H6]).
  - apply build_wf. repeat constructor; by vm_compute.
  - done.
  - split; [done|by split; vm_compute|apply ready_ctor|done| |by vm_compute].
    apply (bool_decide_unpack _). by vm_compute.
  - apply (bool_decide_unpack _). by vm_compute.
  - by repeat split; vm_compute.
  - by vm_compute.
  - by vm_compute.
  - vm_compute. lia.
  - exists em, s'. rewrite H5, H2. split; [|split; by vm_compute].
    rewrite H1, H2. vm_compute. reflexivity.
Defined.

(** The flags of failed checks are not among the flags [Exec] clears: a list
    executed a second time, with a response that passes all checks, is counted
    as failed again. *)
Theorem Exec_keeps_check_flags :
  let lst := build [B_add (S_rreg 0x10)] in
  let cs k stat := [stream [] (fields_bytes RlinkCrc16_ctor
    (resp_fields_all (map (encoded k) (fList lst)) [mkResponse 0 [] 0 stat]))] in
  let cnn := open_connect (cs 0 kStat_M_RbErr ++ cs 1 0) in
  let run s := Exec 1 (fContext (cn s)) s in
  let '(r1, s1) := run (mkOnList cnn lst) in
  let '(r2, s2) := run s1 in
  (∃ em, r1 = Ret ((true, em), IncErrorCount 1 (fContext cnn))) ∧
  (∃ em, r2 = Ret ((true, em), IncErrorCount 1 (fContext cnn))) ∧
  map StatusCheck (fList (cl s2)) = [true].
Proof. vm_compute. split_and!; by eexists. Qed.

(** [WaitAttn] returns at the first notify and leaves the rest of the input
    buffer unprocessed: when two notifies arrive in one read, the first call
    succeeds and the next one throws, since [ReadData] refuses to read while
    data is pending. *)
Theorem WaitAttn_two_notifies :
  let c0 := open_connect [attn_frame 4 ++ attn_frame 8] in
  let '(r1, c1) := WaitAttn 1 (mkRtime 1 0) c0 in
  let '(r2, c2) := WaitAttn 1 (mkRtime 1 0) c1 in
  (∃ tw em, r1 = Ret (mkWait 1 tw 4 em)) ∧
  r2 = Exc (Rexception "RlinkPacketBufRcv::ReadData()"
              "Bad state: called while data pending in buffer").
Proof. vm_compute. split; [by do 2 eexists|done]. Qed.

(** A failed read of the response does not end [ExecPart] with the exception
    meant for it (the exception object is built but not thrown): decoding runs
    on the empty packet, flags the first command, and fails. *)
Theorem ExecPart_faulty_response_not_thrown :
  let '(r, s) := Exec 1 (fContext (open_connect []))
                   (mkOnList (open_connect []) (build [B_add (S_rreg 0x10)])) in
  r = Exc (Rexception "RlinkConnect::ExecPart()" "incomplete response") ∧
  map (TestFlagAny kFlagErrDec) (fList (cl s)) = [true].
Proof. by vm_compute. Qed.
