(* ===== verification/Link.v ===== *)
(** * RlinkServer::Exec: the link as its clients see it

    The cpu backend and the controllers do their work by command lists executed
    through the server.  [RlinkExec] is what they use of it; the connection of
    [Connect] with the context of the server is an instance.  [LinkLaws] is the
    contract the theorems about the clients are proved against: a list of
    register and block commands has the effect of its bus accesses in order, on
    whatever device ([Rbus]) is behind the link.  [Bench], a device without a
    link in between, meets the contract. *)

From S2P Require Import Prelude.
From S2P Require Import Port.
From S2P Require Import AddrMap.
From S2P Require Import Command.
From S2P Require Import CommandList.
From S2P Require Import Connect.

Open Scope Z_scope.

(** [S]: the link with everything behind it.  [srv_mem] is the memory of the
    program the blocks of commands may point to. *)
Class RlinkExec (S : Type) := {
  srv_mem : S → Mem;
  srv_set_mem : Mem → S → S;
  srv_exec : RlinkCommandList → M S ((bool * RerrMsg) * RlinkCommandList);
  srv_exec_throw : RlinkCommandList → M S RlinkCommandList;
  srv_blkmax : S → Z;
  srv_blkprudent : S → Z;
  srv_addrmap_insert : string → Z → M S bool }.

(** ** The server over a connection *)

Record RlinkLink (P : Type) := mkLink {
  lk_cn : RlinkConnect P;
  lk_cntx : RlinkContext;       (** [RlinkServer::fContext] *)
  lk_fuel : RlinkCommandList → nat }.   (** reads of a response *)
Arguments mkLink {P} _ _ _.
Arguments lk_cn {P} _.
Arguments lk_cntx {P} _.
Arguments lk_fuel {P} _.
#[export] Instance eta_RlinkLink {P} : Eta (RlinkLink P) := λ s,
  mkLink (lk_cn s) (lk_cntx s) (lk_fuel s).

Section Link.
Context {P : Type} `{!RlinkPort P}.

(** A method of the connection on a list the caller owns. *)
Definition on_connect {A B} (m : M (onlist P) (A * RlinkContext)) (k : A → RlinkCommandList → B)
    (l : RlinkCommandList) : M (RlinkLink P) B := λ s,
  match m (mkOnList (lk_cn s) l) with
  | (Ret (a, cntx), o) => (Ret (k a (cl o)), s <| lk_cn := cn o |> <| lk_cntx := cntx |>)
  | (Exc e, o) => (Exc e, s <| lk_cn := cn o |>)
  | (NoFuel, o) => (NoFuel, s <| lk_cn := cn o |>)
  end.
Definition Server_Exec (l : RlinkCommandList) : M (RlinkLink P) ((bool * RerrMsg) * RlinkCommandList) :=
  λ s, on_connect (Exec (lk_fuel s l) (lk_cntx s)) pair l s.
Definition Server_Exec_throw (l : RlinkCommandList) : M (RlinkLink P) RlinkCommandList :=
  λ s, on_connect (cntx ← Exec_throw (lk_fuel s l) (lk_cntx s); mret ((), cntx)) (λ _ l, l) l s.

#[export] Instance Link_exec : RlinkExec (RlinkLink P) := {
  srv_mem s := memory (lk_cn s);
  srv_set_mem m s := s <| lk_cn ::= λ c, c <| memory := m |> |>;
  srv_exec := Server_Exec;
  srv_exec_throw := Server_Exec_throw;
  srv_blkmax s := BlockSizeMax (lk_cn s);
  srv_blkprudent s := BlockSizePrudent (lk_cn s);
  srv_addrmap_insert name addr := zoom lk_cn (AddrMapInsert name addr) }.
End Link.

(** ** Bus accesses *)

(** A device: status and data of a read, status of a write, the word a block
    read delivers behind an error, status and pattern of an attention harvest,
    and the status of a command without an access. *)
Class Rbus (D : Type) := {
  rb_read : Z → D → (Z * Z) * D;
  rb_write : Z → Z → D → Z * D;
  rb_fill : D → Z;
  rb_attn : D → (Z * Z) * D;
  rb_stat : D → Z }.

Definition bad_stat (st : Z) : bool := negb (Z.land st staterr =? 0).

Section Bus.
Context {D : Type} `{!Rbus D}.

(** Block accesses end at the first error; [st] is the status so far. *)
Fixpoint bus_rblk (a : Z) (n : nat) (st : Z) (d : D) : (list Z * Z) * D :=
  match n with
  | O => (([], st), d)
  | S n =>
      let '((st, x), d) := rb_read a d in
      if bad_stat st then (([], st), d)
      else let '((xs, st), d) := bus_rblk a n st d in ((x :: xs, st), d)
  end.
Fixpoint bus_wblk (a : Z) (ws : list Z) (st : Z) (d : D) : (nat * Z) * D :=
  match ws with
  | [] => ((O, st), d)
  | x :: ws =>
      let '(st, d) := rb_write a x d in
      if bad_stat st then ((O, st), d)
      else let '((k, st), d) := bus_wblk a ws st d in ((S k, st), d)
  end.
(** The effect of a command on command, memory and device.  [m0] is the memory
    when the list was sent: the data of all block writes is taken from it. *)
Definition bus_cmd (m0 : Mem) (c : RlinkCommand) (m : Mem) (d : D) : RlinkCommand * Mem * D :=
  if Command c =? kCmdRreg then
    let '((st, x), d) := rb_read (fAddress c) d in (SetStatus st (SetData x c), m, d)
  else if Command c =? kCmdWreg then
    let '(st, d) := rb_write (fAddress c) (fData c) d in (SetStatus st c, m, d)
  else if Command c =? kCmdRblk then
    let '((xs, st), d') := bus_rblk (fAddress c) (BlockSize c) 0 d in
    let ws := xs ++ replicate (BlockSize c - length xs) (rb_fill d) in
    let '(c, m) := block_write ws c m in
    (SetStatus st (SetBlockDone (Z.of_nat (length xs)) c), m, d')
  else if Command c =? kCmdAttn then
    let '((st, x), d) := rb_attn d in (SetStatus st (SetData x c), m, d)
  else
    let '((k, st), d) := bus_wblk (fAddress c) (block_read m0 (BlockSize c) c) 0 d in
    (SetStatus st (SetBlockDone (Z.of_nat k) c), m, d).
(** [babo]: the last block command was cut short; a [labo] then ends the list. *)
Definition cut_short (babo : bool) (c c' : RlinkCommand) : bool :=
  if (Command c =? kCmdRblk) || (Command c =? kCmdWblk)
  then negb (fBlockDone c' =? BlockSize c)%nat else babo.
Fixpoint bus_run (m0 : Mem) (babo : bool) (cs : list RlinkCommand) (m : Mem) (d : D) : list RlinkCommand * Mem * D :=
  match cs with
  | [] => ([], m, d)
  | c :: cs =>
      if Command c =? kCmdLabo then
        let c := SetStatus (rb_stat d) (SetData (Z.b2z babo) c) in
        if babo then (c :: cs, m, d)
        else let '(cs, m, d) := bus_run m0 babo cs m d in (c :: cs, m, d)
      else
        let '(c', m, d) := bus_cmd m0 c m d in
        let '(cs, m, d) := bus_run m0 (cut_short babo c c') cs m d in (c' :: cs, m, d)
  end.

Lemma bus_run_cons m0 babo c cs m d : (Command c =? kCmdLabo) = false →
  bus_run m0 babo (c :: cs) m d =
  (let '(c', m, d) := bus_cmd m0 c m d in
   let '(cs, m, d) := bus_run m0 (cut_short babo c c') cs m d in (c' :: cs, m, d)).
Proof. cbn [bus_run]. by intros ->. Qed.
End Bus.

(** The widths of the bus: 16 bit data, 8 bit status. *)
Class BusWidths (D : Type) `{!Rbus D} : Prop := {
  bw_read a d : is_u8 (rb_read a d).1.1 ∧ is_u16 (rb_read a d).1.2;
  bw_write a v d : is_u8 (rb_write a v d).1;
  bw_fill d : is_u16 (rb_fill d);
  bw_attn d : is_u8 (rb_attn d).1.1 ∧ is_u16 (rb_attn d).1.2;
  bw_stat d : is_u8 (rb_stat d) }.

Section Widths.
Context {D : Type} `{!Rbus D, !BusWidths D}.

Lemma bus_rblk_range a n : ∀ st (d : D), is_u8 st →
  let '((xs, st'), _) := bus_rblk a n st d in Forall is_u16 xs ∧ (length xs <= n)%nat ∧ is_u8 st'.
Proof.
  induction n as [|n IH]; intros st d Hst; cbn [bus_rblk]; [done|].
  destruct (bw_read a d) as [H1 H2]. destruct (rb_read a d) as [[st1 x] d1]. simpl in H1, H2.
  destruct (bad_stat st1); [split_and!; [done|simpl; lia|done..]|].
  specialize (IH st1 d1 H1). destruct (bus_rblk a n st1 d1) as [[xs st2] d2].
  destruct IH as (IH1 & IH2 & IH3). split_and!; [by constructor|simpl; lia|done..].
Qed.
Lemma block_write_wf ws m c : cmd_wf c → Forall is_u16 ws → length ws = BlockSize c →
  cmd_wf (block_write ws c m).1.
Proof.
  intros [H1 H2 H3 H4 H5 H6 H7] Hws Hlen. unfold block_write.
  destruct (fpBlockExt c) as [p|] eqn:Ep; [by split|]. split; try done.
  intros H. specialize (H6 H). unfold BlockSize, HasBlockExt in *. simpl. rewrite Ep in *. simpl in *. by rewrite Hlen.
Qed.
(** An executed list can be executed again. *)
Lemma bus_cmd_wf m0 c m (d : D) : cmd_wf c → cmd_wf (bus_cmd m0 c m d).1.1.
Proof.
  intros Hc. unfold bus_cmd. destruct (Command c =? kCmdRreg).
  { destruct (bw_read (fAddress c) d) as [_ H]. destruct (rb_read _ d) as [[st x] d1]. by destruct Hc. }
  destruct (Command c =? kCmdWreg); [destruct (rb_write _ _ d); by destruct Hc|].
  destruct (Command c =? kCmdRblk).
  { pose proof (bus_rblk_range (fAddress c) (BlockSize c) 0 d ltac:(by split)) as H.
    destruct (bus_rblk _ _ 0 d) as [[xs st] d1]. destruct H as (H1 & H2 & _).
    pose proof (block_write_wf (xs ++ replicate (BlockSize c - length xs) (rb_fill d)) m c Hc) as Hw.
    destruct (block_write _ c m) as [c1 m1]. simpl in *.
    destruct Hw; [apply Forall_app; split; [done|apply Forall_replicate, bw_fill]|
      rewrite length_app, length_replicate; lia|by split]. }
  destruct (Command c =? kCmdAttn).
  { destruct (bw_attn d) as [_ H]. destruct (rb_attn d) as [[st x] d1]. by destruct Hc. }
  destruct (bus_wblk _ _ 0 d) as [[k st] d1]. by destruct Hc.
Qed.
Lemma bus_run_wf m0 cs : Forall cmd_wf cs → ∀ babo m (d : D), Forall cmd_wf (bus_run m0 babo cs m d).1.1.
Proof.
  induction 1 as [|c cs Hc Hcs IH]; intros babo m d; cbn [bus_run]; [done|].
  destruct (Command c =? kCmdLabo).
  - assert (cmd_wf (SetStatus (rb_stat d) (SetData (Z.b2z babo) c))).
    { destruct Hc; split; try done. by destruct babo. }
    destruct babo; [by constructor|]. specialize (IH false m d).
    destruct (bus_run m0 false cs m d) as [[cs1 m1] d1]. by constructor.
  - pose proof (bus_cmd_wf m0 c m d Hc) as H1. destruct (bus_cmd m0 c m d) as [[c1 m1] d1].
    specialize (IH (cut_short babo c c1) m1 d1).
    destruct (bus_run m0 _ cs m1 d1) as [[cs1 m2] d2]. by constructor.
Qed.
End Widths.

(** All commands but init and signature. *)
Definition bus_code (c : RlinkCommand) : bool := Command c <=? kCmdAttn.
(** What a client looks at in an executed command. *)
Definition answered (c c' : RlinkCommand) : Prop :=
  Command c' = Command c ∧ fAddress c' = fAddress c ∧ fData c' = fData c ∧
  fStatus c' = fStatus c ∧ fBlock c' = fBlock c ∧ fBlockDone c' = fBlockDone c ∧
  fpBlockExt c' = fpBlockExt c ∧ fBlockExtSize c' = fBlockExtSize c.

(** ** The contract *)

(** The lists a link executes. *)
Record list_ok (l : RlinkCommandList) : Prop := {
  lo_some : fList l ≠ [];
  lo_wf : Forall cmd_wf (fList l);
  lo_code : forallb bus_code (fList l) = true;
  lo_length : Z.of_nat (length (fList l)) < 2 ^ 32 }.

Class LinkLaws (S D : Type) `{!RlinkExec S, !Rbus D} := {
  dev : S → D;
  link_ok : S → Prop;           (** the link is up *)
  same_link : S → S → Prop;     (** same block sizes, and still up *)
  same_link_po :: PreOrder same_link;
  same_link_ok s s' : same_link s s' → link_ok s → link_ok s';
  same_link_blk s s' : same_link s s' →
    srv_blkmax s' = srv_blkmax s ∧ srv_blkprudent s' = srv_blkprudent s;
  set_mem_law m s : srv_mem (srv_set_mem m s) = m ∧ dev (srv_set_mem m s) = dev s ∧
    same_link s (srv_set_mem m s);
  exec_law l s : link_ok s → list_ok l →
    let '(cs, m, d) := bus_run (srv_mem s) false (fList l) (srv_mem s) (dev s) in
    ∃ em l' s', srv_exec l s = (Ret ((true, em), l'), s') ∧ Forall2 answered cs (fList l') ∧
      Forall cmd_wf (fList l') ∧ srv_mem s' = m ∧ dev s' = d ∧ same_link s s';
  exec_throw_law l s : link_ok s → list_ok l →
    let '(cs, m, d) := bus_run (srv_mem s) false (fList l) (srv_mem s) (dev s) in
    ∃ l' s', srv_exec_throw l s = (Ret l', s') ∧ Forall2 answered cs (fList l') ∧
      Forall cmd_wf (fList l') ∧ srv_mem s' = m ∧ dev s' = d ∧ same_link s s' }.

(** A device without a link. *)
Record Bench (D : Type) := mkBench {
  bn_dev : D; bn_mem : Mem; bn_max : Z; bn_prudent : Z; bn_map : RlinkAddrMap }.
Arguments mkBench {D} _ _ _ _ _.
Arguments bn_dev {D} _.
Arguments bn_mem {D} _.
Arguments bn_max {D} _.
Arguments bn_prudent {D} _.
Arguments bn_map {D} _.
#[export] Instance eta_Bench {D} : Eta (Bench D) := λ b,
  mkBench (bn_dev b) (bn_mem b) (bn_max b) (bn_prudent b) (bn_map b).

Section Bench.
Context {D : Type} `{!Rbus D}.

Definition bench_exec (l : RlinkCommandList) (b : Bench D) : RlinkCommandList * Bench D :=
  let '(cs, m, d) := bus_run (bn_mem b) false (fList l) (bn_mem b) (bn_dev b) in
  (l <| fList := cs |>, b <| bn_mem := m |> <| bn_dev := d |>).
#[export] Instance Bench_exec : RlinkExec (Bench D) := {
  srv_mem := bn_mem;
  srv_set_mem m b := b <| bn_mem := m |>;
  srv_exec l b := let '(l, b) := bench_exec l b in (Ret ((true, emsg_none), l), b);
  srv_exec_throw l b := let '(l, b) := bench_exec l b in (Ret l, b);
  srv_blkmax := bn_max;
  srv_blkprudent := bn_prudent;
  srv_addrmap_insert name addr := zoom bn_map (Insert name addr) }.

Lemma answered_refl c : answered c c.
Proof. by split_and!. Qed.
Lemma answered_all cs : Forall2 answered cs cs.
Proof. induction cs; constructor; auto using answered_refl. Qed.

#[export] Instance Bench_laws `{!BusWidths D} : LinkLaws (Bench D) D.
Proof.
  refine {| dev := bn_dev; link_ok _ := True;
            same_link b b' := bn_max b' = bn_max b ∧ bn_prudent b' = bn_prudent b |}.
  - split; [by intros b|]. intros ??? [??] [??]. split; congruence.
  - done.
  - by intros s s' [? ?].
  - done.
  - intros l s _ [_ Hw _ _]. pose proof (bus_run_wf (bn_mem s) (fList l) Hw false (bn_mem s) (bn_dev s)) as H.
    simpl. unfold bench_exec.
    destruct (bus_run (bn_mem s) false (fList l) (bn_mem s) (bn_dev s)) as [[cs m] d].
    eexists emsg_none, _, _. split; [reflexivity|]. split_and!; try done. simpl. apply answered_all.
  - intros l s _ [_ Hw _ _]. pose proof (bus_run_wf (bn_mem s) (fList l) Hw false (bn_mem s) (bn_dev s)) as H.
    simpl. unfold bench_exec.
    destruct (bus_run (bn_mem s) false (fList l) (bn_mem s) (bn_dev s)) as [[cs m] d].
    eexists _, _. split; [reflexivity|]. split_and!; try done. simpl. apply answered_all.
Defined.
End Bench.
