(* ===== verification/Server.v ===== *)
(** * librlink/RlinkServer, RlinkServerEventLoop: attentions and actions

    The server keeps handlers for the 16 attention bits of the link and a list
    of actions that is served round robin.  A handler harvests the attentions
    when it reads the state of its device; bits of other devices it finds must
    not be lost.

    Handlers and actions are closures over the objects of the program: here
    they are names, of types [H] and [A], with their meaning on the state [T]
    of the program.  Not modelled: the thread and its locks, the poll handlers
    and the wakeup event, log lines. *)

From S2P Require Import Prelude.
From S2P Require Import Rstats.
From S2P Require Import Command.
From S2P Require Import CommandList.
From S2P Require Import AddrMap.
From S2P Require Import Link.

Open Scope Z_scope.

(** ** Data *)

Definition kStatNEloopWait : nat := 0.
Definition kStatNEloopPoll : nat := 1.
Definition kStatNWakeupEvt : nat := 2.
Definition kStatNRlinkEvt : nat := 3.
Definition kStatNAttnHdl : nat := 4.
Definition kStatNAttnNoti : nat := 5.
Definition kStatNAttnHarv : nat := 6.
Definition kStatNAttn00 : nat := 7.

Record AttnArgs := mkAttnArgs {
  aa_fAttnPatt : Z;
  fAttnMask : Z;
  fAttnHarvest : Z;
  fHarvestDone : bool }.
#[export] Instance eta_AttnArgs : Eta AttnArgs := λ a,
  mkAttnArgs (aa_fAttnPatt a) (fAttnMask a) (fAttnHarvest a) (fHarvestDone a).
Definition AttnArgs_ctor (apatt amask : Z) : AttnArgs := mkAttnArgs apatt amask 0 false.

(** [fCdata]: a pointer. *)
Record AttnId := mkAttnId { fMask : Z; fCdata : Z }.
#[export] Instance AttnId_eq_dec : EqDecision AttnId.
Proof. solve_decision. Defined.

Record AttnDsc (H : Type) := mkAttnDsc { fHandler : H; fId : AttnId }.
Arguments mkAttnDsc {H} _ _.
Arguments fHandler {H} _.
Arguments fId {H} _.

Record RlinkServer (H A : Type) := mkServer {
  fAttnDsc : list (AttnDsc H);
  fActnList : list A;
  fAttnPatt : Z;
  fAttnNotiPatt : Z;
  fStats : Rstats }.
Arguments mkServer {H A}.
Arguments fAttnDsc {H A} _. Arguments fActnList {H A} _. Arguments fAttnPatt {H A} _.
Arguments fAttnNotiPatt {H A} _. Arguments fStats {H A} _.
#[export] Instance eta_RlinkServer {H A} : Eta (RlinkServer H A) := λ s,
  mkServer (fAttnDsc s) (fActnList s) (fAttnPatt s) (fAttnNotiPatt s) (fStats s).

(** The counters of attention bits follow the others. *)
Definition server_stat_table : list (string * string) :=
  ([("NEloopWait", "event loop turns (wait)"); ("NEloopPoll", "event loop turns (poll)");
    ("NWakeupEvt", "Wakeup events"); ("NRlinkEvt", "Rlink data events");
    ("NAttnHdl", "Attn handler calls"); ("NAttnNoti", "Attn notifies processed");
    ("NAttnHarv", "Attn handler restarts");
    ("NAttn00", "Attn bit  0 set"); ("NAttn01", "Attn bit  1 set"); ("NAttn02", "Attn bit  2 set");
    ("NAttn03", "Attn bit  3 set"); ("NAttn04", "Attn bit  4 set"); ("NAttn05", "Attn bit  5 set");
    ("NAttn06", "Attn bit  6 set"); ("NAttn07", "Attn bit  7 set"); ("NAttn08", "Attn bit  8 set");
    ("NAttn09", "Attn bit  9 set"); ("NAttn10", "Attn bit 10 set"); ("NAttn11", "Attn bit 11 set");
    ("NAttn12", "Attn bit 12 set"); ("NAttn13", "Attn bit 13 set"); ("NAttn14", "Attn bit 14 set");
    ("NAttn15", "Attn bit 15 set")])%string.
Definition RlinkServer_ctor {H A} : RlinkServer H A := mkServer [] [] 0 0 (Define_all server_stat_table).

(** ** Handlers and actions *)

Section Server.
Context {H A : Type}.
Notation Server := (RlinkServer H A).

Definition AddAttnHandler (attnhdl : H) (mask cdata : Z) : M Server () := λ s,
  if mask =? 0 then (Exc (Rexception "RlinkServer::AddAttnHandler()" "Bad args: mask == 0"), s)
  else
    let id := mkAttnId mask cdata in
    if existsb (λ d, bool_decide (fId d = id)) (fAttnDsc s)
    then (Exc (Rexception "RlinkServer::AddAttnHandler()" "Bad args: duplicate handler"), s)
    else (Ret (), s <| fAttnDsc ::= λ l, l ++ [mkAttnDsc attnhdl id] |>).
(** Erases the first handler of this id. *)
Fixpoint erase_dsc (id : AttnId) (l : list (AttnDsc H)) : option (list (AttnDsc H)) :=
  match l with
  | [] => None
  | d :: l => if decide (fId d = id) then Some l else cons d <$> erase_dsc id l
  end.
Definition RemoveAttnHandler (mask cdata : Z) : M Server () := λ s,
  match erase_dsc (mkAttnId mask cdata) (fAttnDsc s) with
  | Some l => (Ret (), s <| fAttnDsc := l |>)
  | None => (Exc (Rexception "RlinkServer::RemoveAttnHandler()" "Bad args: unknown handler"), s)
  end.
Definition QueueAction (actnhdl : A) : M Server () := modify (λ s, s <| fActnList ::= λ l, l ++ [actnhdl] |>).
Definition SignalAttnNotify (apat : Z) : M Server () := modify (λ s, s <| fAttnNotiPatt ::= Z.lor apat |>).
Definition AttnPending (s : Server) : bool := negb (Z.lor (fAttnNotiPatt s) (fAttnPatt s) =? 0).
Definition ActnPending (s : Server) : bool := match fActnList s with [] => false | _ => true end.
Definition stat (ind : nat) (s : Server) : Server := s <| fStats ::= inc ind 1 |>.

(** If a notify is pending it is transferred to the pattern, and each pending
    bit is counted. *)
Definition take_notify (s : Server) : Server :=
  let s := stat kStatNAttnHdl s in
  if negb (fAttnNotiPatt s =? 0) then
    stat kStatNAttnNoti s <| fAttnPatt := Z.lor (fAttnPatt s) (fAttnNotiPatt s) |> <| fAttnNotiPatt := 0 |>
  else s.
Definition count_bits (s : Server) : Server :=
  fold_left (λ s i, if Z.testbit (fAttnPatt s) (Z.of_nat i) then stat (kStatNAttn00 + i) s else s)
    (seq 0 16) s.
End Server.

(** ** The event loop *)

Section Host.
Context {S H A T : Type} `{!RlinkExec S}.
Context (srv : T → RlinkServer H A) `{!Setter srv} (lnk : T → S) `{!Setter lnk}.
(** The return code of attention handlers is not used. *)
Context (handler : H → AttnArgs → M T AttnArgs) (action : A → M T Z).

Definition of_outcome {B} (o : outcome B) : M T B := λ t, (o, t).
(** On the list of the caller. *)
Definition GetAttnInfo (args : AttnArgs) (clist : RlinkCommandList) : M T (AttnArgs * RlinkCommandList) := λ t,
  match at_ 0 clist with
  | Ret cmd0 =>
      if negb (Command cmd0 =? kCmdAttn)
      then (Exc (Rexception "RlinkServer::GetAttnInfo" "clist did't start with attn"), t)
      else
        (clist ← zoom lnk (srv_exec_throw clist);
         cmd0 ← of_outcome (at_ 0 clist);
         mret (args <| fAttnHarvest := fData cmd0 |> <| fHarvestDone := true |>, clist)) t
  | Exc e => (Exc e, t)
  | NoFuel => (NoFuel, t)
  end.
Definition GetAttnInfo_default (args : AttnArgs) : M T AttnArgs := λ t,
  match AddAttn RlinkCommandList_ctor with
  | (Ret _, clist) => ('(args, _) ← GetAttnInfo args clist; mret args) t
  | (Exc e, _) => (Exc e, t)
  | (NoFuel, _) => (NoFuel, t)
  end.

Definition dsc_at (i : nat) : M T (AttnDsc H) := λ t,
  match fAttnDsc (srv t) !! i with
  | Some dsc => (Ret dsc, t)
  | None => (Exc (undefined "handler removed while it runs"), t)
  end.
(** The loop over the handlers, from index [i] on.  The exception for a handler
    that did not harvest is constructed and not thrown.  [n] bounds the turns. *)
Fixpoint attn_loop (n i : nat) (hnext hdone : Z) : M T (Z * Z) := λ t,
  match fAttnDsc (srv t) !! i with
  | None => (Ret (hnext, hdone), t)
  | Some dsc =>
      match n with
      | O => (NoFuel, t)
      | Datatypes.S n =>
          let patt := fAttnPatt (srv t) in
          let hmatch := Z.land patt (fMask (fId dsc)) in
          if hmatch =? 0 then attn_loop n (Datatypes.S i) hnext hdone t
          else
            (args ← handler (fHandler dsc) (AttnArgs_ctor patt (fMask (fId dsc)));
             dsc ← dsc_at i;
             let hnew := Z.ldiff (fAttnHarvest args) (fMask (fId dsc)) in
             attn_loop n (Datatypes.S i) (Z.ldiff (Z.lor hnext hnew) hmatch) (Z.lor hdone hmatch)) t
      end
  end.
(** Attentions no handler was called for are harvested; what was harvested and
    not handled is the next pattern. *)
Definition attn_default (hnext : Z) : M T () :=
  rest ← gets (λ t, fAttnPatt (srv t));
  hnext ← (if negb (rest =? 0) then
             args ← GetAttnInfo_default (AttnArgs_ctor rest rest);
             p ← gets (λ t, fAttnPatt (srv t));
             mret (Z.lor hnext (Z.ldiff (fAttnHarvest args) p))
           else mret hnext);
  modify (update srv (λ s, let s := s <| fAttnPatt := hnext |> in
                           if negb (fAttnPatt s =? 0) then stat kStatNAttnHarv s else s)).
Definition CallAttnHandler (n : nat) : M T () :=
  modify (update srv (λ s, count_bits (take_notify s))) ;;
  '(hnext, hdone) ← attn_loop n 0 0 0;
  modify (update srv (λ s, s <| fAttnPatt ::= λ p, Z.ldiff p hdone |>)) ;;
  attn_default hnext.

(** Calls the first action: to the end of the list, or out of it. *)
Definition CallActnHandler : M T () := λ t,
  match fActnList (srv t) with
  | [] => (Ret (), t)
  | a :: _ =>
      (irc ← action a;
       modify (update srv (λ s, s <| fActnList ::= λ l,
         match l with [] => [] | b :: l => if 0 <? irc then l ++ [b] else l end |>))) t
  end.

(** A turn of [RlinkServerEventLoop::EventLoop] behind the poll; [io] stands
    for the calls of poll handlers. *)
Definition EventLoop_turn (n : nat) (io : M T ()) : M T () :=
  wait ← gets (λ t, negb (AttnPending (srv t) || ActnPending (srv t)));
  modify (update srv (stat (if (wait : bool) then kStatNEloopWait else kStatNEloopPoll))) ;;
  io ;;
  attn ← gets (λ t, AttnPending (srv t));
  (if (attn : bool) then CallAttnHandler n else mret ()) ;;
  actn ← gets (λ t, ActnPending (srv t));
  (if (actn : bool) then CallActnHandler else mret ()).
End Host.

(** ** Every attention is served *)

(** Lists of handlers and actions stay. *)
Definition keeps_lists {H A} (g : RlinkServer H A → RlinkServer H A) : Prop := ∀ s,
  fAttnDsc (g s) = fAttnDsc s ∧ fActnList (g s) = fActnList s.
(** Counting leaves the rest of the server alone. *)
Lemma count_bits_keeps {H A} (s : RlinkServer H A) :
  fAttnDsc (count_bits s) = fAttnDsc s ∧ fActnList (count_bits s) = fActnList s ∧
  fAttnPatt (count_bits s) = fAttnPatt s ∧ fAttnNotiPatt (count_bits s) = fAttnNotiPatt s.
Proof.
  unfold count_bits. generalize (seq 0 16) as l. intros l. revert s.
  induction l as [|i l IH]; intros s; cbn [fold_left]; [done|].
  destruct (Z.testbit (fAttnPatt s) (Z.of_nat i)); [|apply IH].
  destruct (IH (stat (kStatNAttn00 + i) s)) as (-> & -> & -> & ->). done.
Qed.
Lemma take_notify_lists {H A} : keeps_lists (λ s : RlinkServer H A, count_bits (take_notify s)).
Proof.
  intros s. destruct (count_bits_keeps (take_notify s)) as (-> & -> & _). unfold take_notify.
  by destruct (negb (fAttnNotiPatt (stat kStatNAttnHdl s) =? 0)).
Qed.
Lemma take_notify_patt {H A} (s : RlinkServer H A) :
  fAttnDsc (take_notify s) = fAttnDsc s ∧
  fAttnPatt (take_notify s) = Z.lor (fAttnPatt s) (fAttnNotiPatt s) ∧ fAttnNotiPatt (take_notify s) = 0.
Proof.
  unfold take_notify. change (fAttnNotiPatt (stat kStatNAttnHdl s)) with (fAttnNotiPatt s).
  destruct (Z.eqb_spec (fAttnNotiPatt s) 0) as [E|E]; simpl; [|done]. by rewrite E, Z.lor_0_r.
Qed.

(** What a handler was called for, its mask and its harvest. *)
Record served := mkServed { sd_match : Z; sd_mask : Z; sd_harvest : Z }.
Definition next_of (tr : list served) (h : Z) : Z :=
  fold_left (λ h e, Z.ldiff (Z.lor h (Z.ldiff (sd_harvest e) (sd_mask e))) (sd_match e)) tr h.
Definition done_of (tr : list served) (h : Z) : Z := fold_left (λ h e, Z.lor h (sd_match e)) tr h.

Lemma done_bit tr : ∀ h b, Z.testbit (done_of tr h) b = true ↔
  Z.testbit h b = true ∨ ∃ e, e ∈ tr ∧ Z.testbit (sd_match e) b = true.
Proof.
  induction tr as [|e tr IH]; intros h b; simpl.
  { split; [by left|]. intros [?|(e & He & _)]; [done|]. by apply elem_of_nil in He. }
  rewrite IH, Z.lor_spec, orb_true_iff. setoid_rewrite elem_of_cons. naive_solver.
Qed.
(** A bit of the next pattern comes from a harvest, or was there. *)
Lemma next_bit_from tr : ∀ h b, Z.testbit (next_of tr h) b = true →
  Z.testbit h b = true ∨ ∃ e, e ∈ tr ∧ Z.testbit (sd_harvest e) b = true.
Proof.
  induction tr as [|e tr IH]; intros h b Hb; simpl in *; [by left|].
  apply IH in Hb as [Hb|(e' & He & Hb)].
  - rewrite Z.ldiff_spec, Z.lor_spec, Z.ldiff_spec in Hb.
    apply andb_true_iff in Hb as [Hb _]. apply orb_true_iff in Hb as [Hb|Hb]; [by left|right].
    apply andb_true_iff in Hb as [Hb _]. exists e. split; [apply elem_of_cons; by left|done].
  - right. exists e'. split; [apply elem_of_cons; by right|done].
Qed.
(** A bit stays until a handler is called for it. *)
Lemma next_bit_kept tr : ∀ h b, Z.testbit h b = true →
  Z.testbit (next_of tr h) b = true ∨ ∃ e, e ∈ tr ∧ Z.testbit (sd_match e) b = true.
Proof.
  induction tr as [|e tr IH]; intros h b Hb; simpl; [by left|].
  destruct (Z.testbit (sd_match e) b) eqn:E.
  { right. exists e. split; [apply elem_of_cons; by left|done]. }
  destruct (IH (Z.ldiff (Z.lor h (Z.ldiff (sd_harvest e) (sd_mask e))) (sd_match e)) b) as [H|(e' & He & H)].
  - by rewrite Z.ldiff_spec, Z.lor_spec, Hb, E.
  - by left.
  - right. exists e'. split; [apply elem_of_cons; by right|done].
Qed.
Lemma next_bit_harvest tr1 e tr2 h b :
  Z.testbit (sd_harvest e) b = true → Z.testbit (sd_mask e) b = false → Z.testbit (sd_match e) b = false →
  Z.testbit (next_of (tr1 ++ e :: tr2) h) b = true ∨ ∃ e', e' ∈ tr2 ∧ Z.testbit (sd_match e') b = true.
Proof.
  intros H1 H2 H3. unfold next_of. rewrite fold_left_app. simpl. apply next_bit_kept.
  by rewrite Z.ldiff_spec, Z.lor_spec, Z.ldiff_spec, H1, H2, H3, orb_true_r.
Qed.

(** A mask of one bit. *)
Definition single (mask : Z) : Prop := ∃ i, 0 <= i ∧ mask = 2 ^ i.
Lemma single_match patt mask b : single mask → Z.land patt mask ≠ 0 → Z.testbit mask b = true → Z.testbit (Z.land patt mask) b = true.
Proof.
  intros (i & Hi & ->) Hne Hb. rewrite Z.land_spec, Hb, andb_true_r.
  assert (Eb : b = i) by (rewrite Z.pow2_bits_eqb in Hb by done; lia). subst b.
  destruct (Z.testbit patt i) eqn:E; [done|]. exfalso. apply Hne. apply Z.bits_inj'. intros j _.
  rewrite Z.land_spec, Z.bits_0, Z.pow2_bits_eqb by done. destruct (Z.eqb_spec i j) as [<-|]; [by rewrite E|apply andb_false_r].
Qed.

(** The link and the server are different parts of the program. *)
Class HostLaws {S H A T} (srv : T → RlinkServer H A) `{!Setter srv} (lnk : T → S) `{!Setter lnk} := {
  srv_srv g t : srv (t <| srv ::= g |>) = g (srv t);
  srv_lnk g t : srv (t <| lnk ::= g |>) = srv t;
  lnk_srv g t : lnk (t <| srv ::= g |>) = lnk t;
  lnk_lnk g t : lnk (t <| lnk ::= g |>) = g (lnk t) }.

Record attn_taken {S D} `{!RlinkExec S, !Rbus D, !LinkLaws S D} (s s' : S) : Prop := {
  at_same : same_link s s';
  at_mem : srv_mem s' = srv_mem s;
  at_dev : dev s' = (rb_attn (dev s)).2 }.
(** What the handlers need to be called: the link is up, and neither the
    bookkeeping of the server nor its harvests destroy it. *)
Class HostInv {S D H A T} `{!RlinkExec S, !Rbus D, !LinkLaws S D} (srv : T → RlinkServer H A) `{!Setter srv}
    (lnk : T → S) `{!Setter lnk} (inv : T → Prop) : Prop := {
  hi_link t : inv t → link_ok (lnk t);
  hi_srv g t : keeps_lists g → inv t → inv (t <| srv ::= g |>);
  hi_lnk s t : inv t → attn_taken (lnk t) s → inv (t <| lnk := s |>) }.

Section Accounting.
Context {S D H A T : Type} `{!RlinkExec S, !Rbus D, !LinkLaws S D}.
Context (srv : T → RlinkServer H A) `{!Setter srv} (lnk : T → S) `{!Setter lnk} `{!HostLaws srv lnk}.
Context (inv : T → Prop) `{!HostInv srv lnk inv}.
Context (handler : H → AttnArgs → M T AttnArgs).

(** A handler that returns, leaves handlers and pattern alone, and can be
    called again. *)
Definition behaves (h : H) : Prop := ∀ args t, inv t → ∃ args' t',
  handler h args t = (Ret args', t') ∧ fAttnDsc (srv t') = fAttnDsc (srv t) ∧
  fAttnPatt (srv t') = fAttnPatt (srv t) ∧ inv t'.

(** The calls of handlers for the pattern [patt], in order. *)
Inductive serves (patt : Z) : list (AttnDsc H) → T → list served → T → Prop :=
| serves_nil t : serves patt [] t [] t
| serves_skip d ds t tr t' : Z.land patt (fMask (fId d)) = 0 →
    serves patt ds t tr t' → serves patt (d :: ds) t tr t'
| serves_call d ds t args t1 tr t' : Z.land patt (fMask (fId d)) ≠ 0 →
    handler (fHandler d) (AttnArgs_ctor patt (fMask (fId d))) t = (Ret args, t1) →
    serves patt ds t1 tr t' →
    serves patt (d :: ds) t
      (mkServed (Z.land patt (fMask (fId d))) (fMask (fId d)) (fAttnHarvest args) :: tr) t'.

Lemma serves_match patt ds t tr t' e b : serves patt ds t tr t' → e ∈ tr →
  Z.testbit (sd_mask e) b = false → Z.testbit (sd_match e) b = false.
Proof.
  induction 1 as [| |d ds t args t1 tr t' _ _ _ IH]; intros He Hb; [by apply elem_of_nil in He|auto|].
  apply elem_of_cons in He as [->|He]; [|auto]. simpl in *. by rewrite Z.land_spec, Hb, andb_false_r.
Qed.

Lemma serves_single patt ds t tr t' e b : serves patt ds t tr t' → e ∈ tr → single (sd_mask e) →
  Z.testbit (sd_mask e) b = true → Z.testbit (sd_match e) b = true.
Proof.
  induction 1 as [| |d ds t args t1 tr t' Hne _ _ IH]; intros He Hs Hb; [by apply elem_of_nil in He|auto|].
  apply elem_of_cons in He as [->|He]; [|auto]. by apply single_match.
Qed.

Lemma attn_loop_ok ds : ∀ pre t n hnext hdone,
  inv t → fAttnDsc (srv t) = pre ++ ds → (length ds <= n)%nat → Forall (λ d, behaves (fHandler d)) ds →
  ∃ tr t', attn_loop srv handler n (length pre) hnext hdone t = (Ret (next_of tr hnext, done_of tr hdone), t') ∧
    serves (fAttnPatt (srv t)) ds t tr t' ∧
    fAttnDsc (srv t') = fAttnDsc (srv t) ∧ fAttnPatt (srv t') = fAttnPatt (srv t) ∧ inv t'.
Proof.
  induction ds as [|d ds IH]; intros pre t n hnext hdone Hi Hd Hn Hb.
  { rewrite app_nil_r in Hd. exists [], t. split; [|by split; [constructor|]].
    destruct n; cbn [attn_loop]; by rewrite Hd, lookup_ge_None_2 by done. }
  apply Forall_cons_iff in Hb as [Hbd Hb]. destruct n as [|n]; [simpl in Hn; lia|]. simpl in Hn.
  assert (Hlk : ∀ t', fAttnDsc (srv t') = fAttnDsc (srv t) → fAttnDsc (srv t') !! length pre = Some d).
  { intros t' ->. by rewrite Hd, list_lookup_middle. }
  assert (Hd' : ∀ t', fAttnDsc (srv t') = fAttnDsc (srv t) → fAttnDsc (srv t') = (pre ++ [d]) ++ ds).
  { intros t' ->. by rewrite Hd, <- app_assoc. }
  assert (Hlen : length (pre ++ [d]) = Datatypes.S (length pre)) by (rewrite length_app; simpl; lia).
  cbn [attn_loop]. rewrite (Hlk t) by done. destruct (Z.eqb_spec (Z.land (fAttnPatt (srv t)) (fMask (fId d))) 0) as [E|E].
  - destruct (IH (pre ++ [d]) t n hnext hdone) as (tr & t' & Hl & Hs & Hk); [done|auto|lia|done|].
    rewrite Hlen in Hl. exists tr, t'. split; [exact Hl|]. by split; [constructor|].
  - destruct (Hbd (AttnArgs_ctor (fAttnPatt (srv t)) (fMask (fId d))) t Hi) as (args & t1 & Hh & Hk1 & Hp1 & Hu1).
    rewrite (bind_Ret _ _ _ _ _ Hh). unfold mbind at 1, M_bind at 1, dsc_at. rewrite (Hlk t1) by done.
    edestruct (IH (pre ++ [d]) t1 n) as (tr & t' & Hl & Hs & Hk & Hp & Hu); [done|auto|lia|done|].
    rewrite Hlen in Hl.
    exists (mkServed (Z.land (fAttnPatt (srv t)) (fMask (fId d))) (fMask (fId d)) (fAttnHarvest args) :: tr), t'.
    split; [exact Hl|].
    rewrite Hp1 in Hs, Hp. split; [by econstructor|]. split_and!; [congruence|congruence|auto].
Qed.

(** The attention command alone. *)
Lemma GetAttnInfo_default_ok args t : link_ok (lnk t) → ∃ args' t',
  GetAttnInfo_default lnk args t = (Ret args', t') ∧ srv t' = srv t ∧
  fAttnHarvest args' = (rb_attn (dev (lnk t))).1.2 ∧ (inv t → inv t').
Proof.
  intros Hup. set (c0 := fresh_command kCmdAttn 0 0 [] None 0). set (l := mkCommandList [c0] (-1)).
  assert (Hwf : list_ok l).
  { split; [done| |done|done]. constructor; [|done]. apply fresh_command_wf; try done. by intros [|]. }
  pose proof (exec_throw_law l (lnk t) Hup Hwf) as Hx. simpl fList in Hx.
  rewrite bus_run_cons in Hx by done.
  change (bus_cmd (srv_mem (lnk t)) c0 (srv_mem (lnk t)) (dev (lnk t))) with
    (let '((st, x), d) := rb_attn (dev (lnk t)) in
     (SetStatus st (SetData x c0), srv_mem (lnk t), d)) in Hx.
  destruct (rb_attn (dev (lnk t))) as [[st x] d] eqn:Hb. simpl bus_run in Hx.
  destruct Hx as (l' & s' & Hx & Ha & _ & Hm & Hd & Hs). apply Forall2_cons_inv_l in Ha as (c' & cs & Ha & _ & Hl).
  destruct Ha as (_ & _ & Hdata & _).
  exists (args <| fAttnHarvest := x |> <| fHarvestDone := true |>), (t <| lnk := s' |>).
  split; [|split_and!; [by apply srv_lnk|done|intros Hi; apply hi_lnk; [done|split; [done|done|by rewrite Hd, Hb]]]].
  unfold GetAttnInfo_default. change (AddAttn RlinkCommandList_ctor) with (Ret (A := nat) O, l). cbn [at_].
  unfold GetAttnInfo. change (at_ 0 l) with (Ret c0). change (Command c0 =? kCmdAttn) with true. cbn [negb].
  unfold mbind, M_bind, zoom, of_outcome. rewrite Hx. unfold at_. rewrite Hl. simpl. by rewrite Hdata.
Qed.

Lemma attn_default_ok hnext t : link_ok (lnk t) → let rest := fAttnPatt (srv t) in
  ∃ hv t', attn_default srv lnk hnext t = (Ret (), t') ∧
    (rest ≠ 0 → hv = (rb_attn (dev (lnk t))).1.2) ∧ (rest = 0 → hv = 0) ∧
    fAttnPatt (srv t') = Z.lor hnext (Z.ldiff hv rest) ∧ fAttnNotiPatt (srv t') = fAttnNotiPatt (srv t) ∧
    (inv t → inv t').
Proof.
  intros Hup rest. unfold attn_default. autorewrite with run.
  assert (Hend : ∀ x t1, let t' := t1 <| srv ::= λ s, let s := s <| fAttnPatt := x |> in
      if negb (fAttnPatt s =? 0) then stat kStatNAttnHarv s else s |> in
    fAttnPatt (srv t') = x ∧ fAttnNotiPatt (srv t') = fAttnNotiPatt (srv t1)).
  { intros x t1 t'. assert (srv t' = _) as -> by exact (srv_srv (srv := srv) (lnk := lnk) _ t1).
    cbn zeta. by case_match. }
  assert (Hk : ∀ x, keeps_lists (λ s : RlinkServer H A, let s := s <| fAttnPatt := x |> in
      if negb (fAttnPatt s =? 0) then stat kStatNAttnHarv s else s)).
  { intros x s. cbn zeta. by case_match. }
  fold rest. destruct (Z.eqb_spec rest 0) as [E|E]; cbn [negb].
  - destruct (Hend hnext t) as [H1 H2]. autorewrite with run. eexists 0, _. split; [reflexivity|].
    split_and!; [done|done| |exact H2|intros Hi; by apply hi_srv]. etrans; [exact H1|]. by rewrite Z.lor_0_r.
  - destruct (GetAttnInfo_default_ok (AttnArgs_ctor rest rest) t Hup) as (args & t1 & Hg & Hs & Hh & Hi).
    autorewrite with run. rewrite (bind_Ret _ _ _ _ _ Hg). autorewrite with run. rewrite Hs. fold rest.
    destruct (Hend (Z.lor hnext (Z.ldiff (fAttnHarvest args) rest)) t1) as [H1 H2].
    eexists (fAttnHarvest args), _. split; [reflexivity|]. rewrite Hs in H2. split_and!; try done. intros Hi0. by apply hi_srv, Hi.
Qed.
End Accounting.

(** C39: No attention is lost, for handlers of a single attention.  When the
    handlers behave, CallAttnHandler returns; every bit of the pattern, notified
    bits included, is served by a handler or by the default harvest for the rest;
    a bit that a handler harvests is one it was called for, or is in the next
    pattern, or was served by a handler called later.  This holds for a bit
    outside the mask of the handler, and for a bit of its mask when the mask is a
    single bit; of other bits of its mask, which the code does not carry on,
    nothing is claimed.  The next pattern holds no bit that was not
    harvested.  The mask of a notify is taken over once.  Afterwards the handlers
    can be called again. *)
Theorem attentions_accounted {S D H A T} `{!RlinkExec S, !Rbus D, !LinkLaws S D}
    (srv : T → RlinkServer H A) `{!Setter srv} (lnk : T → S) `{!Setter lnk, !HostLaws srv lnk}
    (inv : T → Prop) `{!HostInv srv lnk inv} (handler : H → AttnArgs → M T AttnArgs) (n : nat) (t : T) :
  inv t → Forall (λ d, behaves srv inv handler (fHandler d)) (fAttnDsc (srv t)) →
  (length (fAttnDsc (srv t)) <= n)%nat →
  let patt := Z.lor (fAttnPatt (srv t)) (fAttnNotiPatt (srv t)) in
  let t1 := t <| srv ::= λ s, count_bits (take_notify s) |> in
  ∃ tr t2 rest hv t', CallAttnHandler srv lnk handler n t = (Ret (), t') ∧
    fAttnNotiPatt (srv t1) = 0 ∧
    serves handler patt (fAttnDsc (srv t)) t1 tr t2 ∧
    (∀ b, Z.testbit patt b = true →
       (∃ e, e ∈ tr ∧ Z.testbit (sd_match e) b = true) ∨ Z.testbit rest b = true) ∧
    (∀ tr1 e tr2 b, tr = tr1 ++ e :: tr2 →
       Z.testbit (sd_harvest e) b = true → (Z.testbit (sd_mask e) b = true → single (sd_mask e)) →
       Z.testbit (sd_match e) b = true ∨ Z.testbit (fAttnPatt (srv t')) b = true ∨
       ∃ e', e' ∈ tr2 ∧ Z.testbit (sd_match e') b = true) ∧
    (rest ≠ 0 → hv = (rb_attn (dev (lnk t2))).1.2) ∧
    (rest = 0 → hv = 0) ∧
    (∀ b, Z.testbit hv b = true → Z.testbit rest b = false → Z.testbit (fAttnPatt (srv t')) b = true) ∧
    (∀ b, Z.testbit (fAttnPatt (srv t')) b = true →
       (∃ e, e ∈ tr ∧ Z.testbit (sd_harvest e) b = true) ∨ Z.testbit hv b = true) ∧
    fAttnNotiPatt (srv t') = fAttnNotiPatt (srv t2) ∧ inv t'.
Proof.
  intros Hi Hb Hn patt t1. unfold CallAttnHandler. autorewrite with run. fold t1.
  assert (Hs1 : srv t1 = count_bits (take_notify (srv t))) by exact (srv_srv (srv := srv) (lnk := lnk) _ t).
  destruct (count_bits_keeps (take_notify (srv t))) as (Hd1 & _ & Hp1 & Hn1).
  destruct (take_notify_patt (srv t)) as (Hd0 & Hp0 & Hn0).
  rewrite <- Hs1 in Hd1, Hp1, Hn1. rewrite Hd0 in Hd1. rewrite Hp0 in Hp1. fold patt in Hp1.
  assert (Hi1 : inv t1) by (apply (hi_srv (lnk := lnk)); [apply take_notify_lists|done]).
  destruct (attn_loop_ok srv inv handler (fAttnDsc (srv t)) [] t1 n 0 0) as (tr & t2 & Hl & Hs & Hd2 & Hp2 & Hi2);
    [done|done|done|done|]. rewrite Hp1 in Hs, Hp2.
  rewrite (bind_Ret _ _ _ _ _ Hl). autorewrite with run.
  set (rest := Z.ldiff patt (done_of tr 0)).
  set (t3 := t2 <| srv ::= λ s, s <| fAttnPatt ::= λ p, Z.ldiff p (done_of tr 0) |> |>).
  assert (Hs3 : srv t3 = srv t2 <| fAttnPatt := rest |>).
  { unfold rest. rewrite <- Hp2. exact (srv_srv (srv := srv) (lnk := lnk) _ t2). }
  assert (Hl3 : lnk t3 = lnk t2) by exact (lnk_srv (srv := srv) (lnk := lnk) _ t2).
  assert (Hi3 : inv t3) by (by apply (hi_srv (lnk := lnk))).
  destruct (attn_default_ok srv lnk inv (next_of tr 0) t3) as (hv & t' & Hd & Hhv & Hhv0 & Hpatt & Hnoti & Hi');
    [by apply (hi_link (srv := srv) (lnk := lnk))|].
  rewrite Hs3 in Hhv, Hhv0, Hpatt, Hnoti. cbn [update setter fAttnPatt fAttnNotiPatt] in Hhv, Hhv0, Hpatt, Hnoti.
  rewrite Hl3 in Hhv. exists tr, t2, rest, hv, t'. split; [exact Hd|]. split; [by rewrite Hn1|].
  split; [exact Hs|]. split_and!; [| |exact Hhv|exact Hhv0| | |exact Hnoti|by apply Hi'].
  - intros b Hbit. unfold rest. rewrite Z.ldiff_spec, Hbit. destruct (Z.testbit (done_of tr 0) b) eqn:E; [left|by right].
    apply done_bit in E as [E|E]; [by rewrite Z.bits_0 in E|done].
  - intros tr1 e tr2 b -> Hh Hsm.
    assert (Hin : e ∈ tr1 ++ e :: tr2) by (apply elem_of_app; right; apply elem_of_cons; by left).
    destruct (Z.testbit (sd_mask e) b) eqn:Hm; [left; by eapply serves_single; [| |apply Hsm|]|right].
    assert (He : Z.testbit (sd_match e) b = false) by (by eapply serves_match).
    destruct (next_bit_harvest tr1 e tr2 0 b Hh Hm He) as [H1|H1]; [left|by right].
    by rewrite Hpatt, Z.lor_spec, H1.
  - intros b H1 H2. by rewrite Hpatt, Z.lor_spec, Z.ldiff_spec, H1, H2, orb_true_r.
  - intros b H1. rewrite Hpatt, Z.lor_spec, Z.ldiff_spec in H1. apply orb_true_iff in H1 as [H1|H1].
    + left. apply next_bit_from in H1 as [H1|H1]; [by rewrite Z.bits_0 in H1|done].
    + right. by apply andb_true_iff in H1 as [H1 _].
Qed.

(** Two handlers: the first harvests the bits of both and another one. *)
#[local] Instance attn_flags : Rbus Z := {
  rb_read _ d := ((0, 0), d);
  rb_write _ _ d := (0, d);
  rb_fill _ := 0;
  rb_attn d := ((0, u16 d), 0);
  rb_stat _ := 0 }.
#[local] Instance attn_widths : BusWidths Z.
Proof. split; try done. intros d. split; [done|apply u16_range]. Qed.
Record demo_host := mkDemo { dh_srv : RlinkServer Z (); dh_lnk : Bench Z }.
#[local] Instance eta_demo : Eta demo_host := λ h, mkDemo (dh_srv h) (dh_lnk h).
#[local] Instance demo_laws : HostLaws dh_srv dh_lnk.
Proof. by split. Qed.
Definition demo_inv (_ : demo_host) : Prop := True.
#[local] Instance demo_host_inv : HostInv dh_srv dh_lnk demo_inv.
Proof. by split. Qed.
Definition demo_handler (h : Z) (args : AttnArgs) : M demo_host AttnArgs := λ t,
  (Ret (args <| fAttnHarvest := h |> <| fHarvestDone := true |>), t).
Definition demo_start : demo_host :=
  mkDemo (RlinkServer_ctor <| fAttnDsc := [mkAttnDsc 7 (mkAttnId 1 10); mkAttnDsc 2 (mkAttnId 2 11)] |>
                           <| fAttnPatt := 1 |> <| fAttnNotiPatt := 10 |>)
    (mkBench 16 ∅ 4096 1024 RlinkAddrMap_ctor).
Lemma attentions_accounted_witness : ∃ t',
  CallAttnHandler dh_srv dh_lnk demo_handler 2 demo_start = (Ret (), t') ∧
  fAttnPatt (dh_srv t') = 20.
Proof.
  assert (Hb : Forall (λ d, behaves dh_srv demo_inv demo_handler (fHandler d)) (fAttnDsc (dh_srv demo_start))).
  { repeat constructor; intros args t _; by eexists _, t. }
  destruct (attentions_accounted dh_srv dh_lnk demo_inv demo_handler 2 demo_start I Hb (le_n 2)) as
    (tr & t2 & rest & hv & t' & Hc & _).
  exists t'. split; [exact Hc|]. vm_compute in Hc. by injection Hc as <-.
Defined.
