(* ===== verification/FileFd.v ===== *)
(** * librtools/RfileFd, librtools/Rfd: files

    [RfileFd] wraps the POSIX file calls for the virtual disks and tapes.  The
    system calls are not code of this repository: they are the operations of
    the class [PosixFile], and [PosixFileLaws] states what POSIX documents for
    an open regular file.  [MemFile], a file held in memory, implements both.

    A method that returns [bool] and sets an [RerrMsg] on failure is an action
    of the monad [E]: [inr emsg] is the early return of [false]. *)

From S2P Require Import Prelude.

(** ** Methods that fail with a message *)

Definition E (S A : Type) : Type := S → outcome (A + RerrMsg) * S.
#[export] Instance E_ret {S} : MRet (E S) := λ A a s, (Ret (inl a), s).
#[export] Instance E_bind {S} : MBind (E S) := λ A B k m s,
  match m s with
  | (Ret (inl a), s') => k a s'
  | (Ret (inr e), s') => (Ret (inr e), s')
  | (Exc e, s') => (Exc e, s')
  | (NoFuel, s') => (NoFuel, s')
  end.
Definition fail {S A} (e : RerrMsg) : E S A := λ s, (Ret (inr e), s).
Definition fail_if {S} (b : bool) (meth text : string) : E S () :=
  if b then fail (mkRerrMsg meth text) else mret ().
Definition egets {S A} (f : S → A) : E S A := λ s, (Ret (inl (f s)), s).
Definition emodify {S} (g : S → S) : E S () := λ s, (Ret (inl ()), g s).
Definition ethrow {S A} (e : exn) : E S A := λ s, (Exc e, s).
Definition ezoom {S T A} (f : S → T) `{!Setter f} (m : E T A) : E S A := λ s,
  let '(r, t) := m (f s) in (r, s <| f := t |>).
(** [if (!m) return on_fail();]: the handler runs before the return. *)
Definition on_fail {S A} (h : S → S) (m : E S A) : E S A := λ s,
  match m s with
  | (Ret (inr e), s') => (Ret (inr e), h s')
  | r => r
  end.

Lemma ebind_assoc {S A B C} (m : E S A) (f : A → E S B) (g : B → E S C) s :
  ((m ≫= f) ≫= g) s = (m ≫= λ a, f a ≫= g) s.
Proof. unfold mbind, E_bind. by destruct (m s) as [[[?|?]|?|] ?]. Qed.
Lemma ebind_mret {S A B} (a : A) (k : A → E S B) s : (mret a ≫= k) s = k a s.
Proof. done. Qed.
Lemma ebind_egets {S A B} (f : S → A) (k : A → E S B) s : (egets f ≫= k) s = k (f s) s.
Proof. done. Qed.
Lemma ebind_emodify {S B} (f : S → S) (k : () → E S B) s : (emodify f ≫= k) s = k () (f s).
Proof. done. Qed.
Lemma ebind_fail {S A B} e (k : A → E S B) s : (fail e ≫= k) s = (Ret (inr e), s).
Proof. done. Qed.
Lemma ebind_ok {S A B} (m : E S A) (k : A → E S B) s a s' :
  m s = (Ret (inl a), s') → (m ≫= k) s = k a s'.
Proof. unfold mbind, E_bind. by intros ->. Qed.
Lemma ebind_err {S A B} (m : E S A) (k : A → E S B) s e s' :
  m s = (Ret (inr e), s') → (m ≫= k) s = (Ret (inr e), s').
Proof. unfold mbind, E_bind. by intros ->. Qed.
Lemma on_fail_ok {S A} h (m : E S A) s a s' :
  m s = (Ret (inl a), s') → on_fail h m s = (Ret (inl a), s').
Proof. unfold on_fail. by intros ->. Qed.
Lemma on_fail_err {S A} h (m : E S A) s e s' :
  m s = (Ret (inr e), s') → on_fail h m s = (Ret (inr e), h s').
Proof. unfold on_fail. by intros ->. Qed.
#[export] Hint Rewrite @ebind_assoc @ebind_mret @ebind_egets @ebind_emodify @ebind_fail : run.

(** ** POSIX files *)

Definition SEEK_SET : Z := 0.
Definition SEEK_CUR : Z := 1.
Definition O_RDONLY : Z := 0.
Definition O_RDWR : Z := 2.
Definition O_CREAT : Z := 64.
Definition S_IRUSR : Z := 256.
Definition S_IWUSR : Z := 128.
Definition S_IRGRP : Z := 32.

(** The state [F] is the system as the process sees it; a negative return code
    means failure, with the text of [errno] given by [posix_errno]. *)
Class PosixFile (F : Type) := {
  posix_open : string → Z → Z → F → Z * F;            (** path, flags, mode *)
  posix_close : Z → F → Z * F;
  posix_fstat : Z → F → option (Z * Z) * F;           (** st_size, st_mode *)
  posix_lseek : Z → Z → Z → F → Z * F;                (** fd, offset, whence *)
  posix_ftruncate : Z → Z → F → Z * F;
  posix_read : Z → Z → F → (Z * list Z) * F;          (** code, bytes *)
  posix_write : Z → list Z → F → Z * F;
  posix_errno : F → string }.

(** An open regular file: contents, offset, and whether it may be written. *)
Record ofile := mkOfile { of_data : list Z; of_pos : nat; of_write : bool }.

(** A file cut or extended with zeros to [n] bytes. *)
Definition resized (n : nat) (bs : list Z) : list Z := take n (bs ++ replicate (n - length bs) 0).
(** A write at [pos]: a gap behind the end is filled with zeros; a write of no
    bytes has no effect. *)
Definition splice (pos : nat) (d bs : list Z) : list Z :=
  match d with
  | [] => bs
  | _ => resized pos bs ++ d ++ drop (pos + length d) bs
  end.

Class PosixFileLaws (F : Type) `{!PosixFile F} := {
  opened : F → Z → option ofile;
  lseek_law f fd o off whence :
    opened f fd = Some o →
    let target := if whence =? SEEK_SET then off else Z.of_nat (of_pos o) + off in
    0 <= target →
    ∃ f', posix_lseek fd off whence f = (target, f') ∧
      opened f' fd = Some (mkOfile (of_data o) (Z.to_nat target) (of_write o));
  read_law f fd o n :
    opened f fd = Some o → 0 <= n →
    let d := take (Z.to_nat n) (drop (of_pos o) (of_data o)) in
    ∃ f', posix_read fd n f = ((Z.of_nat (length d), d), f') ∧
      opened f' fd = Some (mkOfile (of_data o) (of_pos o + length d)%nat (of_write o));
  write_law f fd o d :
    opened f fd = Some o → of_write o = true →
    ∃ f', posix_write fd d f = (Z.of_nat (length d), f') ∧
      opened f' fd = Some (mkOfile (splice (of_pos o) d (of_data o))
                                   (of_pos o + length d)%nat true);
  write_prot_law f fd o d :
    opened f fd = Some o → of_write o = false → d ≠ [] →
    ∃ rc f', posix_write fd d f = (rc, f') ∧ rc < 0 ∧ opened f' fd = Some o;
  truncate_law f fd o n :
    opened f fd = Some o → of_write o = true → 0 <= n →
    ∃ f', posix_ftruncate fd n f = (0, f') ∧
      opened f' fd = Some (mkOfile (resized (Z.to_nat n) (of_data o))
                                   (of_pos o) true)
}.

(** A system with one file, always open under descriptor 3. *)
Record MemFile := mkMemFile { mf : ofile }.
#[export] Instance eta_MemFile : Eta MemFile := λ m, mkMemFile (mf m).

Definition mem_lseek (off whence : Z) (m : MemFile) : Z * MemFile :=
  let target := if whence =? SEEK_SET then off else Z.of_nat (of_pos (mf m)) + off in
  if target <? 0 then (-1, m)
  else (target, mkMemFile (mkOfile (of_data (mf m)) (Z.to_nat target) (of_write (mf m)))).
Definition mem_read (n : Z) (m : MemFile) : (Z * list Z) * MemFile :=
  let d := take (Z.to_nat n) (drop (of_pos (mf m)) (of_data (mf m))) in
  ((Z.of_nat (length d), d),
   mkMemFile (mkOfile (of_data (mf m)) (of_pos (mf m) + length d)%nat (of_write (mf m)))).
Definition mem_write (d : list Z) (m : MemFile) : Z * MemFile :=
  if of_write (mf m) then
    (Z.of_nat (length d),
     mkMemFile (mkOfile (splice (of_pos (mf m)) d (of_data (mf m)))
                        (of_pos (mf m) + length d)%nat true))
  else (-1, m).
Definition mem_ftruncate (n : Z) (m : MemFile) : Z * MemFile :=
  if of_write (mf m) && (0 <=? n) then
    (0, mkMemFile (mkOfile (resized (Z.to_nat n) (of_data (mf m)))
                           (of_pos (mf m)) true))
  else (-1, m).

#[export] Instance MemFile_posix : PosixFile MemFile := {
  posix_open _ _ _ m := (3, m);
  posix_close _ m := (0, m);
  posix_fstat _ m :=
    (Some (Z.of_nat (length (of_data (mf m))), if of_write (mf m) then S_IWUSR else 0), m);
  posix_lseek _ := mem_lseek;
  posix_ftruncate _ := mem_ftruncate;
  posix_read _ := mem_read;
  posix_write _ := mem_write;
  posix_errno _ := EmptyString }.

#[export] Instance MemFile_laws : PosixFileLaws MemFile.
Proof.
  refine {| opened m fd := if fd =? 3 then Some (mf m) else None |}.
  - intros f fd o off wh Ho tg Ht. destruct (fd =? 3); [|done]. simplify_eq.
    eexists. simpl. unfold mem_lseek. fold tg.
    by rewrite (proj2 (Z.ltb_ge tg 0)) by lia.
  - intros f fd o n Ho Hn d. destruct (fd =? 3); [|done]. simplify_eq. by eexists.
  - intros f fd o d Ho Hw. destruct (fd =? 3); [|done]. simplify_eq.
    eexists. simpl. unfold mem_write. by rewrite Hw.
  - intros f fd o d Ho Hw Hd. destruct (fd =? 3); [|done]. simplify_eq.
    eexists _, _. simpl. unfold mem_write. by rewrite Hw.
  - intros f fd o n Ho Hw Hn. destruct (fd =? 3); [|done]. simplify_eq.
    eexists. simpl. unfold mem_ftruncate. by rewrite Hw, (proj2 (Z.leb_le 0 n)) by lia.
Defined.

(** ** Rfd and RfileFd *)

Record RfileFd (F : Type) := mkRfileFd {
  fFd : Z;              (** -1: not open *)
  fCnam : string;
  sys : F }.
Arguments mkRfileFd {F} _ _ _.
Arguments fFd {F} _.
Arguments fCnam {F} _.
Arguments sys {F} _.
#[export] Instance eta_RfileFd {F} : Eta (RfileFd F) := λ r, mkRfileFd (fFd r) (fCnam r) (sys r).

Section Rfd.
Context {F : Type} `{!PosixFile F}.
Notation Fd := (RfileFd F).

Definition Rfd_ctor (cnam : string) (f : F) : Fd := mkRfileFd (-1) cnam f.
Definition IsOpen (r : Fd) : bool := 0 <=? fFd r.
Definition IsOpenNonStd (r : Fd) : bool := 2 <? fFd r.

(** A system call on the descriptor. *)
Definition call {A} (f : Z → F → A * F) (r : Fd) : A * Fd :=
  let '(a, s) := f (fFd r) (sys r) in (a, r <| sys := s |>).
(** [emsg.InitErrno(fCnam+meth, text, errno)] *)
Definition err (meth text : string) (r : Fd) : RerrMsg :=
  mkRerrMsg (fCnam r ++ meth)%string (text ++ posix_errno (sys r))%string.

Definition fail_errno {A} (meth text : string) : E Fd A := λ r, (Ret (inr (err meth text r)), r).

Definition SetFd (fd : Z) : E Fd bool := λ r,
  if IsOpen r then (Exc (Rexception (fCnam r ++ "Open()")%string "bad state: already open"), r)
  else let r := r <| fFd := fd |> in (Ret (inl (IsOpen r)), r).
Definition Close : Fd → Fd := λ r,
  if IsOpenNonStd r then (call posix_close r).2 <| fFd := -1 |> else r.
(** The overload that reports errors. *)
Definition Close_emsg : E Fd () := λ r,
  if negb (IsOpen r) then
    (Ret (inr (mkRerrMsg (fCnam r ++ "Close()")%string "bad state: not open")), r)
  else if negb (IsOpenNonStd r) then (Ret (inl ()), r <| fFd := -1 |>)
  else
    let '(irc, r) := call posix_close r in
    let r := r <| fFd := -1 |> in
    if irc <? 0 then fail_errno "Close()" "close() failed: " r else (Ret (inl ()), r).

(** [mode] is used by the overload that takes one. *)
Definition Open (fname : string) (flags mode : Z) : E Fd () := λ r,
  let r := Close r in
  let '(fd, r) := call (λ _, posix_open fname flags mode) r in
  (ok ← SetFd fd;
   if (ok : bool) then mret ()
   else fail_errno "Open()" ("open() for '" ++ fname ++ "' failed: ")%string) r.

Definition Stat : E Fd (Z * Z) := λ r,
  let '(st, r) := call posix_fstat r in
  match st with
  | Some s => (Ret (inl s), r)
  | None => fail_errno "Stat()" "stat() failed: " r
  end.
Definition Seek (offset whence : Z) : E Fd () := λ r,
  let '(irc, r) := call (λ fd, posix_lseek fd offset whence) r in
  if irc <? 0 then fail_errno "Seek()" "seek() failed: " r else (Ret (inl ()), r).
Definition Truncate (length : Z) : E Fd () := λ r,
  let '(irc, r) := call (λ fd, posix_ftruncate fd length) r in
  if irc <? 0 then fail_errno "Truncate()" "ftruncate() failed: " r
  else (Ret (inl ()), r).
(** The callers test for [irc < 0] only: that case is the failure. *)
Definition Read (count : Z) : E Fd (Z * list Z) := λ r,
  let '((irc, d), r) := call (λ fd, posix_read fd count) r in
  if irc <? 0 then fail_errno "Read()" "read() failed: " r
  else (Ret (inl (irc, d)), r).
Definition WriteAll (buf : list Z) : E Fd () := λ r,
  let '(irc, r) := call (λ fd, posix_write fd buf) r in
  if irc <? Z.of_nat (length buf)
  then (Ret (inr (mkRerrMsg "WriteAll()" ("write() failed: " ++ posix_errno (sys r)))), r)
  else (Ret (inl ()), r).

(** ** What the methods do on an open regular file *)

Context `{!PosixFileLaws F}.

(** The file behind the descriptor. *)
Definition on_file (r : Fd) (o : ofile) : Prop := opened (sys r) (fFd r) = Some o.

Lemma Seek_ok r o off whence :
  on_file r o →
  let target := if whence =? SEEK_SET then off else Z.of_nat (of_pos o) + off in
  0 <= target →
  ∃ r', Seek off whence r = (Ret (inl ()), r') ∧
    on_file r' (mkOfile (of_data o) (Z.to_nat target) (of_write o)).
Proof.
  intros Ho tg Ht. destruct (lseek_law _ _ _ off whence Ho Ht) as (f' & Hc & Ho').
  exists (r <| sys := f' |>). unfold Seek, call. fold tg in Hc. rewrite Hc.
  rewrite (proj2 (Z.ltb_ge tg 0)) by lia. done.
Qed.

Lemma Read_ok r o n :
  on_file r o → 0 <= n →
  let d := take (Z.to_nat n) (drop (of_pos o) (of_data o)) in
  ∃ r', Read n r = (Ret (inl (Z.of_nat (length d), d)), r') ∧
    on_file r' (mkOfile (of_data o) (of_pos o + length d)%nat (of_write o)).
Proof.
  intros Ho Hn d. destruct (read_law _ _ _ n Ho Hn) as (f' & Hc & Ho').
  exists (r <| sys := f' |>). unfold Read, call. rewrite Hc. fold d.
  rewrite (proj2 (Z.ltb_ge _ 0)) by lia. done.
Qed.

Lemma WriteAll_ok r o d :
  on_file r o → of_write o = true →
  ∃ r', WriteAll d r = (Ret (inl ()), r') ∧
    on_file r' (mkOfile (splice (of_pos o) d (of_data o)) (of_pos o + length d)%nat true).
Proof.
  intros Ho Hw. destruct (write_law _ _ _ d Ho Hw) as (f' & Hc & Ho').
  exists (r <| sys := f' |>). unfold WriteAll, call. rewrite Hc, Z.ltb_irrefl. done.
Qed.

Lemma WriteAll_protected r o d :
  on_file r o → of_write o = false → d ≠ [] →
  ∃ e r', WriteAll d r = (Ret (inr e), r') ∧ on_file r' o.
Proof.
  intros Ho Hw Hd. destruct (write_prot_law _ _ _ d Ho Hw Hd) as (rc & f' & Hc & Hrc & Ho').
  eexists _, (r <| sys := f' |>). unfold WriteAll, call. rewrite Hc.
  rewrite (proj2 (Z.ltb_lt _ _)) by lia. done.
Qed.

Lemma Truncate_ok r o n :
  on_file r o → of_write o = true → 0 <= n <= Z.of_nat (length (of_data o)) →
  ∃ r', Truncate n r = (Ret (inl ()), r') ∧
    on_file r' (mkOfile (take (Z.to_nat n) (of_data o)) (of_pos o) true).
Proof.
  intros Ho Hw Hn. destruct (truncate_law _ _ _ n Ho Hw) as (f' & Hc & Ho'); [lia|].
  exists (r <| sys := f' |>). unfold Truncate, call. rewrite Hc. simpl. split; [done|].
  unfold on_file. simpl. rewrite Ho'. unfold resized.
  rewrite (proj2 (Nat.sub_0_le _ _)) by lia. simpl. by rewrite app_nil_r.
Qed.
End Rfd.

(** ** Contents of a file: windows with zero fill *)

Definition window (l : list Z) (p k : nat) : list Z := map (λ i, nth i l 0) (seq p k).

Lemma length_window l p k : length (window l p k) = k.
Proof. unfold window. by rewrite length_map, length_seq. Qed.
Lemma window_app l p a b : window l p (a + b) = window l p a ++ window l (p + a) b.
Proof. unfold window. by rewrite seq_app, map_app. Qed.
Lemma window_ext l l' p q k :
  (∀ i, (i < k)%nat → nth (p + i) l 0 = nth (q + i) l' 0) → window l p k = window l' q k.
Proof.
  revert p q. induction k as [|k IH]; intros p q H; [done|]. unfold window. simpl. f_equal.
  - specialize (H 0%nat). rewrite !Nat.add_0_r in H. apply H. lia.
  - apply IH. intros i Hi. specialize (H (S i)). rewrite !Nat.add_succ_r in H. apply H. lia.
Qed.
Lemma drop_nth_cons (p : nat) (l : list Z) : (p < length l)%nat → drop p l = nth p l 0 :: drop (S p) l.
Proof.
  revert l. induction p as [|p IH]; intros [|x l] H; simpl in *; try lia; [done|].
  apply IH. lia.
Qed.
(** A read, filled up with zeros. *)
Lemma window_take (l : list Z) (p k : nat) :
  take k (drop p l) ++ replicate (k - length (take k (drop p l))) 0 = window l p k.
Proof.
  revert p. induction k as [|k IH]; intros p; [done|].
  change (window l p (S k)) with (nth p l 0 :: window l (S p) k).
  destruct (decide (p < length l)%nat) as [Hp|Hp].
  - rewrite drop_nth_cons by done. simpl. f_equal. apply IH.
  - rewrite drop_ge by lia. simpl. rewrite nth_overflow by lia. f_equal.
    specialize (IH (S p)). rewrite drop_ge, take_nil in IH by lia. simpl in IH.
    by rewrite Nat.sub_0_r in IH.
Qed.
Lemma window_exact (l : list Z) (p k : nat) :
  (p + k <= length l)%nat → take k (drop p l) = window l p k.
Proof.
  intros H. rewrite <- window_take. rewrite length_take, length_drop.
  replace (k - _)%nat with 0%nat by lia. simpl. by rewrite app_nil_r.
Qed.
Lemma window_beyond l p k : (length l <= p)%nat → window l p k = replicate k 0.
Proof.
  intros H. rewrite <- window_take, drop_ge, take_nil by lia. simpl. by rewrite Nat.sub_0_r.
Qed.

Lemma length_resized n l : length (resized n l) = n.
Proof. unfold resized. rewrite length_take, length_app, length_replicate. lia. Qed.
Lemma nth_take (i n : nat) (l : list Z) : (i < n)%nat → nth i (take n l) 0 = nth i l 0.
Proof.
  revert i l. induction n as [|n IH]; intros i l H; [lia|].
  destruct l as [|x l], i as [|i]; simpl; try done. apply IH. lia.
Qed.
Lemma nth_drop (i n : nat) (l : list Z) : nth i (drop n l) 0 = nth (n + i) l 0.
Proof.
  revert l. induction n as [|n IH]; intros l; [done|]. destruct l as [|x l]; simpl.
  - by destruct i.
  - apply IH.
Qed.
Lemma nth_replicate (i n : nat) : nth i (replicate n 0) 0 = 0.
Proof. revert i. induction n as [|n IH]; intros [|i]; simpl; auto. Qed.
Lemma nth_resized i n l : (i < n)%nat → nth i (resized n l) 0 = nth i l 0.
Proof.
  intros H. unfold resized. rewrite nth_take by done.
  destruct (decide (i < length l)%nat).
  - by rewrite app_nth1.
  - by rewrite app_nth2, nth_replicate, nth_overflow by lia.
Qed.
(** A write changes the bytes it covers and no others. *)
Lemma nth_splice p d l i :
  nth i (splice p d l) 0 =
  if decide (p <= i < p + length d)%nat then nth (i - p) d 0 else nth i l 0.
Proof.
  unfold splice. destruct d as [|x d].
  { rewrite decide_False; [done|simpl; lia]. }
  set (d' := x :: d). destruct (decide (i < p)%nat) as [H|H].
  - rewrite app_nth1, nth_resized, decide_False by (rewrite ?length_resized; lia). done.
  - rewrite app_nth2 by (rewrite length_resized; lia). rewrite length_resized.
    case_decide as Hd.
    + by rewrite app_nth1 by lia.
    + rewrite app_nth2, nth_drop by lia. f_equal. lia.
Qed.
Lemma length_splice p d l :
  d ≠ [] → length (splice p d l) = (p + length d `max` (length l - p))%nat.
Proof.
  intros H. unfold splice. destruct d as [|x d]; [done|].
  rewrite !length_app, length_resized, length_drop. lia.
Qed.
Lemma window_splice_in p d l q k :
  (p <= q)%nat → (q + k <= p + length d)%nat → window (splice p d l) q k = window d (q - p) k.
Proof.
  intros H1 H2. apply window_ext. intros i Hi. rewrite nth_splice, decide_True by lia.
  f_equal. lia.
Qed.
Lemma window_splice_out p d l q k :
  (q + k <= p)%nat ∨ (p + length d <= q)%nat → window (splice p d l) q k = window l q k.
Proof.
  intros H. apply window_ext. intros i Hi. by rewrite nth_splice, decide_False by lia.
Qed.
(** Consecutive blocks make one window. *)
Lemma window_blocks l bs lba n :
  0 <= bs → 0 <= lba → 0 <= n →
  concat (map (λ b, window l (Z.to_nat (b * bs)) (Z.to_nat bs)) (seqZ lba n)) =
  window l (Z.to_nat (lba * bs)) (Z.to_nat (n * bs)).
Proof.
  intros Hbs Hlba Hn. rewrite <- (Z2Nat.id n) by done. generalize (Z.to_nat n). clear n Hn.
  intros n. induction n as [|n IH] in lba, Hlba |- *; [done|].
  rewrite seqZ_cons by lia. simpl.
  replace (Z.pred (Z.of_nat (S n))) with (Z.of_nat n) by lia. rewrite IH by lia.
  replace (Z.to_nat (Z.of_nat (S n) * bs)) with (Z.to_nat bs + Z.to_nat (Z.of_nat n * bs))%nat by lia.
  rewrite window_app. do 2 f_equal. lia.
Qed.
