(* ===== verification/Url.v ===== *)
(** * librtools/RparseUrl: urls of ports, disks and tapes

    [scheme:path?key;key=value;...]; in values a backslash escapes [\] and
    [;].  [Set_url] parses a url against the list of allowed options.  The
    specification is a printer: parsing a printed url yields its parts. *)

From Stdlib Require Import Ascii String.
From S2P Require Import Prelude.
From S2P Require Import FileFd.
From stdpp Require Import strings.

#[local] Open Scope string_scope.
#[local] Open Scope Z_scope.

Notation omap_t := (gmap string string).
Record RparseUrl := mkRparseUrl {
  fUrl : string; fScheme : string; fPath : string; fOptMap : omap_t }.
#[export] Instance eta_RparseUrl : Eta RparseUrl := λ u,
  mkRparseUrl (fUrl u) (fScheme u) (fPath u) (fOptMap u).
Definition RparseUrl_ctor : RparseUrl := mkRparseUrl EmptyString EmptyString EmptyString ∅.

#[local] Arguments String.append !_ _ : simpl nomatch.

(** ** std::string *)

(** [find_first_of(c)] as the text in front of the first [c] and behind it. *)
Fixpoint split_at (c : ascii) (s : string) : option (string * string) :=
  match s with
  | EmptyString => None
  | String a s' =>
      if ascii_dec a c then Some (EmptyString, s')
      else match split_at c s' with Some (x, y) => Some (String a x, y) | None => None end
  end.
(** [find_last_of(c)], likewise. *)
Fixpoint split_last (c : ascii) (s : string) : option (string * string) :=
  match s with
  | EmptyString => None
  | String a s' =>
      match split_last c s' with
      | Some (x, y) => Some (String a x, y)
      | None => if ascii_dec a c then Some (EmptyString, s') else None
      end
  end.
Definition push_back (s : string) (c : ascii) : string := s ++ String c EmptyString.
Definition contains (sub s : string) : bool := bool_decide (is_Some (String.index 0 sub s)).
Definition quote : string := String (ascii_of_nat 34) EmptyString.
Definition is_empty (s : string) : bool := bool_decide (s = EmptyString).

(** [substr(n)]: the text from index [n] on. *)
Fixpoint str_drop (n : nat) (s : string) : string :=
  match n, s with
  | O, _ => s
  | S n, String _ s => str_drop n s
  | S _, EmptyString => EmptyString
  end.

(** ** Parsing *)

Definition FindScheme (url def : string) : string :=
  match split_at ":" url with
  | None => def
  | Some (pre, _) =>
      match split_at "?" pre with Some _ => def | None => pre end
  end.

Definition option_key (key : string) (hasval : bool) : string :=
  "|" ++ key ++ (if hasval then "=" else EmptyString) ++ "|".
Definition AddOpt (key val : string) (hasval : bool) (optlist : string) : E RparseUrl () := λ u,
  let lkey := option_key key hasval in
  if negb (contains lkey optlist) then
    (Ret (inr (mkRerrMsg "RparseUrl::AddOpt()"
      ("invalid field name '" ++ lkey ++ "'; allowed: '" ++ optlist ++ "'"))), u)
  else
    (Ret (inl ()),
     u <| fOptMap ::= λ m, match m !! key with
                           | Some _ => m                    (** [emplace] keeps the first *)
                           | None => <[key := if hasval then val else "1"]> m end |>).

(** The option loop over the text behind the question mark. *)
Fixpoint options_loop (url optlist s key val : string) (hasval : bool) : E RparseUrl () :=
  match s with
  | EmptyString =>
      if negb (is_empty key) || hasval then AddOpt key val hasval optlist else mret ()
  | String c s' =>
      if ascii_dec c ";" then
        AddOpt key val hasval optlist ;;
        options_loop url optlist s' EmptyString EmptyString false
      else if negb hasval then
        if ascii_dec c "=" then options_loop url optlist s' key val true
        else options_loop url optlist s' (push_back key c) val hasval
      else if ascii_dec c "\" then
        match s' with
        | EmptyString =>
            fail (mkRerrMsg "RparseUrl::Set()" ("invalid trailing \ in url '" ++ url ++ "'"))
        | String c s'' =>
            if ascii_dec c "\" then options_loop url optlist s'' key (push_back val c) hasval
            else if ascii_dec c ";" then options_loop url optlist s'' key (push_back val c) hasval
            else fail (mkRerrMsg "RparseUrl::Set()" ("invalid \ escape in url '" ++ url ++ "'"))
        end
      else options_loop url optlist s' key (push_back val c) hasval
  end.

Definition enclosed (optlist : string) : bool :=
  let n := String.length optlist in
  (n =? 0)%nat ||
  negb ((n <? 2)%nat || negb (bool_decide (String.get 0 optlist = Some "|"%char))
        || negb (bool_decide (String.get (n - 1) optlist = Some "|"%char))).

(** [pdel+1]: the index of the path, wrapping to 0 without a scheme. *)
Definition path_begin (url scheme : string) : nat :=
  match scheme, url with
  | EmptyString, String c _ => if ascii_dec c ":" then 1%nat else 0%nat
  | _, _ => S (String.length scheme)
  end.

Definition Set_url (url optlist : string) : E RparseUrl () :=
  emodify (λ u, u <| fUrl := url |> <| fScheme := FindScheme url EmptyString |>
                  <| fPath := EmptyString |> <| fOptMap := ∅ |>) ;;
  fail_if (negb (enclosed optlist)) "RparseUrl::Set()"
    ("optlist " ++ quote ++ optlist ++ quote ++ " not enclosed in '|'") ;;
  scheme ← egets fScheme;
  let rest := str_drop (path_begin url scheme) url in
  match split_at "?" rest with
  | None => emodify (λ u, u <| fPath := rest |>)
  | Some (path, opts) =>
      emodify (λ u, u <| fPath := path |>) ;;
      options_loop url optlist opts EmptyString EmptyString false
  end.
(** The overload with a default scheme. *)
Definition Set_scheme (url optlist scheme : string) : E RparseUrl () :=
  if is_empty (FindScheme url EmptyString) && negb (is_empty scheme)
  then Set_url (scheme ++ ":" ++ url) optlist
  else Set_url url optlist.

Definition SetPath (path : string) (u : RparseUrl) : RparseUrl := u <| fPath := path |>.
Definition Clear (u : RparseUrl) : RparseUrl := RparseUrl_ctor.

Definition DirName (u : RparseUrl) : string :=
  match split_last "/" (fPath u) with None => "." | Some (d, _) => d end.
Definition FileName (u : RparseUrl) : string :=
  match split_last "/" (fPath u) with None => fPath u | Some (_, f) => f end.
Definition FileStem (u : RparseUrl) : string :=
  match split_last "." (FileName u) with None => EmptyString | Some (s, _) => s end.
Definition FileType (u : RparseUrl) : string :=
  match split_last "." (FileName u) with None => EmptyString | Some (_, t) => t end.
Definition FindOpt (name : string) (u : RparseUrl) : bool :=
  bool_decide (is_Some (fOptMap u !! name)).
Definition FindOpt_value (name : string) (u : RparseUrl) : option string := fOptMap u !! name.

(** ** Specification: printing *)

Notation opt := (string * option string)%type.

Fixpoint escape (s : string) : string :=
  match s with
  | EmptyString => EmptyString
  | String c s =>
      if bool_decide (c = "\"%char ∨ c = ";"%char) then String "\" (String c (escape s))
      else String c (escape s)
  end.
Definition print_opt (o : opt) : string :=
  o.1 ++ match o.2 with None => EmptyString | Some v => "=" ++ escape v end.
Fixpoint print_opts (os : list opt) : string :=
  match os with
  | [] => EmptyString
  | [o] => print_opt o
  | o :: os => print_opt o ++ ";" ++ print_opts os
  end.
Definition print_url (scheme path : string) (os : list opt) : string :=
  scheme ++ ":" ++ path ++ match os with [] => EmptyString | _ => "?" ++ print_opts os end.

Definition no_char (c : ascii) (s : string) : Prop := split_at c s = None.
Definition opt_ok (o : opt) : Prop :=
  o.1 ≠ EmptyString ∧ no_char ";" o.1 ∧ no_char "=" o.1.
Definition allowed (optlist : string) (o : opt) : bool :=
  contains (option_key o.1 (bool_decide (is_Some o.2))) optlist.
Definition opt_value (o : opt) : string := default "1" o.2.
(** The value of the first option of that name. *)
Fixpoint first_opt (name : string) (os : list opt) : option string :=
  match os with
  | [] => None
  | o :: os => if bool_decide (o.1 = name) then Some (opt_value o) else first_opt name os
  end.

(** ** Lemmas *)

Lemma split_at_app c a b : no_char c a → split_at c (a ++ String c b) = Some (a, b).
Proof.
  unfold no_char. induction a as [|x a IH]; simpl.
  - by destruct (ascii_dec c c).
  - destruct (ascii_dec x c); [done|]. destruct (split_at c a) as [[??]|]; [done|].
    intros _. by rewrite IH.
Qed.
Lemma no_char_app c a b : no_char c a → no_char c b → no_char c (a ++ b).
Proof.
  unfold no_char. intros Ha Hb. induction a as [|x a IH]; simpl in *; [done|].
  destruct (ascii_dec x c); [done|].
  destruct (split_at c a) as [[??]|] eqn:E; [done|]. by rewrite IH.
Qed.
Lemma no_char_cons c x s : no_char c (String x s) → x ≠ c ∧ no_char c s.
Proof.
  unfold no_char. simpl. destruct (ascii_dec x c); [done|].
  by destruct (split_at c s) as [[??]|].
Qed.
Lemma str_drop_app s x r : str_drop (S (String.length s)) (s ++ String x r) = r.
Proof. induction s as [|c s IH]; [done|]. exact IH. Qed.
Lemma append_nil s : s ++ EmptyString = s.
Proof. induction s as [|c s IH]; simpl; [done|]. by rewrite IH. Qed.
Lemma append_assoc a b c : (a ++ b) ++ c = a ++ (b ++ c).
Proof. induction a as [|x a IH]; simpl; [done|]. by rewrite IH. Qed.
Lemma push_back_app a c s : push_back a c ++ s = a ++ String c s.
Proof. unfold push_back. by rewrite append_assoc. Qed.

(** The loop collects a key up to its end, and a value likewise. *)
Lemma loop_key url ol k s key :
  no_char ";" k → no_char "=" k →
  options_loop url ol (k ++ s) key EmptyString false =
  options_loop url ol s (key ++ k) EmptyString false.
Proof.
  revert key. induction k as [|c k IH]; intros key H1 H2; simpl; [by rewrite append_nil|].
  apply no_char_cons in H1 as [? ?], H2 as [? ?].
  destruct (ascii_dec c ";"); [done|]. destruct (ascii_dec c "="); [done|].
  rewrite IH by done. by rewrite push_back_app.
Qed.
Lemma loop_val url ol v s key val :
  options_loop url ol (escape v ++ s) key val true = options_loop url ol s key (val ++ v) true.
Proof.
  revert val. induction v as [|c v IH]; intros val; simpl; [by rewrite append_nil|].
  case_bool_decide as Hc; simpl.
  - destruct Hc as [-> | ->]; simpl; by rewrite IH, push_back_app.
  - destruct (ascii_dec c ";") as [->|]; [naive_solver|].
    destruct (ascii_dec c "\") as [->|]; [naive_solver|]. by rewrite IH, push_back_app.
Qed.

Definition add_opt (o : opt) (m : omap_t) : omap_t :=
  match m !! o.1 with Some _ => m | None => <[o.1 := opt_value o]> m end.
Definition add_opts (os : list opt) (m : omap_t) : omap_t := fold_left (λ m o, add_opt o m) os m.

Lemma AddOpt_eq o ol u :
  AddOpt o.1 (default EmptyString o.2) (bool_decide (is_Some o.2)) ol u =
  if allowed ol o then (Ret (inl ()), u <| fOptMap ::= add_opt o |>)
  else (Ret (inr (mkRerrMsg "RparseUrl::AddOpt()"
      ("invalid field name '" ++ option_key o.1 (bool_decide (is_Some o.2)) ++ "'; allowed: '"
       ++ ol ++ "'"))), u).
Proof.
  unfold AddOpt, allowed. destruct o as [k [v|]]; simpl;
    by destruct (contains _ ol).
Qed.

(** One option, up to its end. *)
Lemma loop_opt url ol o s :
  opt_ok o →
  options_loop url ol (print_opt o ++ s) EmptyString EmptyString false =
  options_loop url ol s o.1 (default EmptyString o.2) (bool_decide (is_Some o.2)).
Proof.
  intros (_ & H1 & H2). unfold print_opt. rewrite append_assoc, loop_key by done.
  destruct o as [k [v|]]; simpl; [|done].
  by rewrite loop_val.
Qed.

Lemma is_empty_false s : s ≠ EmptyString → is_empty s = false.
Proof. intros. unfold is_empty. by rewrite bool_decide_false. Qed.

Lemma loop_opts url ol os u :
  Forall opt_ok os → os ≠ [] →
  if forallb (allowed ol) os then
    options_loop url ol (print_opts os) EmptyString EmptyString false u =
      (Ret (inl ()), u <| fOptMap ::= add_opts os |>)
  else ∃ e u', options_loop url ol (print_opts os) EmptyString EmptyString false u = (Ret (inr e), u').
Proof.
  revert u. induction os as [|o os IH]; intros u Hok Hne; [done|].
  apply Forall_cons_iff in Hok as [Ho Hok]. destruct os as [|o2 os].
  - simpl. rewrite <- (append_nil (print_opt o)), loop_opt by done. simpl.
    rewrite is_empty_false by apply Ho. simpl. rewrite AddOpt_eq.
    destruct (allowed ol o); simpl; [done|]. eauto.
  - change (print_opts (o :: o2 :: os)) with (print_opt o ++ (";" ++ print_opts (o2 :: os))).
    rewrite loop_opt by done.
    change (";" ++ print_opts (o2 :: os)) with (String ";" (print_opts (o2 :: os))).
    set (rest := print_opts (o2 :: os)) in *.
    change (options_loop url ol (String ";" rest) o.1 (default EmptyString o.2)
              (bool_decide (is_Some o.2)))
      with (AddOpt o.1 (default EmptyString o.2) (bool_decide (is_Some o.2)) ol ;;
            options_loop url ol rest EmptyString EmptyString false).
    change (forallb (allowed ol) (o :: o2 :: os))
      with (allowed ol o && forallb (allowed ol) (o2 :: os)).
    unfold mbind, E_bind. rewrite AddOpt_eq. destruct (allowed ol o); [|simpl; eauto].
    rewrite andb_true_l. specialize (IH (u <| fOptMap ::= add_opt o |>) Hok). fold rest in IH.
    destruct (forallb (allowed ol) (o2 :: os)); [by apply IH|]. by apply IH.
Qed.

Lemma add_opts_lookup os m name :
  add_opts os m !! name = match m !! name with Some v => Some v | None => first_opt name os end.
Proof.
  revert m. induction os as [|o os IH]; intros m; simpl; [by destruct (m !! name)|].
  change (add_opts (o :: os) m) with (add_opts os (add_opt o m)). rewrite IH. unfold add_opt.
  destruct (m !! o.1) eqn:E; case_bool_decide as Hn; subst.
  - by rewrite E.
  - done.
  - by rewrite E, lookup_insert_eq.
  - by rewrite lookup_insert_ne.
Qed.

Lemma FindScheme_printed scheme rest :
  no_char ":" scheme → no_char "?" scheme → FindScheme (scheme ++ String ":" rest) EmptyString = scheme.
Proof. intros H1 H2. unfold FindScheme. rewrite split_at_app by done. by rewrite H2. Qed.

Lemma path_begin_printed scheme rest :
  str_drop (path_begin (scheme ++ String ":" rest) scheme) (scheme ++ String ":" rest) = rest.
Proof. destruct scheme as [|c s]; [done|]. apply (str_drop_app (String c s)). Qed.

(** ** Theorems *)

(** C35: parsing a printed url: the parse succeeds exactly when every option is
    in the list of allowed options; scheme and path are then the printed ones,
    and an option is found with the (unescaped) value of its first occurrence. *)
Theorem Set_url_printed scheme path os optlist u :
  no_char ":" scheme → no_char "?" scheme → no_char "?" path →
  Forall opt_ok os → enclosed optlist = true →
  if forallb (allowed optlist) os then
    ∃ u', Set_url (print_url scheme path os) optlist u = (Ret (inl ()), u') ∧
      fScheme u' = scheme ∧ fPath u' = path ∧
      ∀ name, FindOpt_value name u' = first_opt name os
  else ∃ e u', Set_url (print_url scheme path os) optlist u = (Ret (inr e), u').
Proof.
  intros H1 H2 H3 Hos Hol. unfold Set_url, print_url.
  set (rest := (path ++ _)%string). change (":" ++ rest) with (String ":" rest).
  rewrite FindScheme_printed, Hol by done. simpl negb.
  autorewrite with run. unfold fail_if. autorewrite with run. simpl fScheme.
  rewrite path_begin_printed. destruct os as [|o os].
  - unfold rest. rewrite append_nil. unfold no_char in H3. rewrite H3. simpl. by eexists.
  - unfold rest. change ("?" ++ print_opts (o :: os)) with (String "?" (print_opts (o :: os))).
    rewrite split_at_app by done. autorewrite with run.
    eassert (Hl := loop_opts _ optlist (o :: os) _ Hos ltac:(done)).
    destruct (forallb (allowed optlist) (o :: os)).
    + eexists. split; [exact Hl|]. split_and!; [done..|].
      intros name. apply (eq_trans (add_opts_lookup (o :: os) ∅ name)). by rewrite lookup_empty.
    + exact Hl.
Qed.

Lemma Set_url_printed_witness :
  print_url "tap" "/tmp/a:b.tap" [("e11", None); ("cap", Some "1;0"); ("cap", Some "2")]%string =
    "tap:/tmp/a:b.tap?e11;cap=1\;0;cap=2"%string ∧
  ∃ u', Set_url (print_url "tap" "/tmp/a:b.tap"
                   [("e11", None); ("cap", Some "1;0"); ("cap", Some "2")]) "|wpro|e11|cap=|"
          RparseUrl_ctor = (Ret (inl ()), u') ∧
      fScheme u' = "tap"%string ∧ fPath u' = "/tmp/a:b.tap"%string ∧
      ∀ name, FindOpt_value name u' =
              first_opt name [("e11", None); ("cap", Some "1;0"); ("cap", Some "2")].
Proof.
  split; [reflexivity|].
  apply (Set_url_printed "tap" "/tmp/a:b.tap"
           [("e11", None); ("cap", Some "1;0"); ("cap", Some "2")] "|wpro|e11|cap=|" RparseUrl_ctor);
    [reflexivity..| |reflexivity].
  repeat (apply Forall_cons; split); [..|apply Forall_nil]; repeat split; done.
Defined.

(** The test for allowed options is a substring test of the enclosed key in
    the option list: a key that spans two entries of the list is accepted,
    although it names no option. *)
Theorem AddOpt_accepts_joined_keys :
  let '(r, u) := Set_url "tap:f?wpro|e11" "|wpro|e11|cap=|" RparseUrl_ctor in
  r = Ret (inl ()) ∧ FindOpt "wpro|e11" u = true ∧
  FindOpt "wpro" u = false ∧ FindOpt "e11" u = false.
Proof. by vm_compute. Qed.
