(* ===== verification/Rtools.v ===== *)
(** * librtools/Rtools: numbers in texts, and backups of files

    [String2Long] with the functions of the C library it uses, and
    [CreateBackupFile], which renames [name.ext] to [name_1.ext], [name_1.ext] to
    [name_2.ext] and so on, the oldest first.  The system calls on names of files
    are the operations of the class [PosixNames]; [PosixNamesLaws] states what
    they do for regular files that may be renamed; [NameTable] implements them. *)

From Stdlib Require Import Ascii String.
From stdpp Require Import pretty.
From S2P Require Import Prelude.
From S2P Require Import Rstats.
From S2P Require Import FileFd.
From S2P Require Import Url.

Open Scope Z_scope.
#[local] Open Scope string_scope.
#[local] Open Scope Z_scope.

(** ** Numbers *)

Definition is_digit (c : ascii) : bool := (48 <=? char_code c) && (char_code c <=? 57).
Definition is_space (c : ascii) : bool :=
  (char_code c =? 32) || ((9 <=? char_code c) && (char_code c <=? 13)).
Fixpoint digits (v : Z) (s : string) : Z * string :=
  match s with
  | String c s' => if is_digit c then digits (10 * v + (char_code c - 48)) s' else (v, s)
  | EmptyString => (v, s)
  end.
Fixpoint skip_space (s : string) : string :=
  match s with String c s' => if is_space c then skip_space s' else s | _ => s end.
Definition skip_sign (s : string) : bool * string :=
  match s with
  | String "-" s' => (true, s')
  | String "+" s' => (false, s')
  | _ => (false, s)
  end.
(** The characters of a text in front of a zero byte. *)
Fixpoint c_str (s : string) : string :=
  match s with
  | String c s' => if char_code c =? 0 then EmptyString else String c (c_str s')
  | EmptyString => EmptyString
  end.
(** [strtoul(str, &end, 10)]: value and rest; a text without digits is not
    consumed. *)
Definition strtoul (s : string) : Z * string :=
  let '(neg, s2) := skip_sign (skip_space s) in
  match s2 with
  | String c _ =>
      if is_digit c then
        let '(v, rest) := digits 0 s2 in
        ((if 2 ^ 64 <=? v then 2 ^ 64 - 1 else if neg : bool then (- v) mod 2 ^ 64 else v), rest)
      else (0, s)
  | EmptyString => (0, s)
  end.
(** Base 16: a prefix [0x] is skipped when a digit follows. *)
Definition hex_value (c : ascii) : option Z :=
  let x := char_code c in
  if (48 <=? x) && (x <=? 57) then Some (x - 48)
  else if (97 <=? x) && (x <=? 102) then Some (x - 87)
  else if (65 <=? x) && (x <=? 70) then Some (x - 55)
  else None.
Fixpoint hex_digits (v : Z) (s : string) : Z * string :=
  match s with
  | String c s' => match hex_value c with Some x => hex_digits (16 * v + x) s' | None => (v, s) end
  | EmptyString => (v, s)
  end.
Definition is_hex (s : string) : bool :=
  match s with String c _ => bool_decide (is_Some (hex_value c)) | _ => false end.
Definition skip_0x (s : string) : string :=
  match s with
  | String "0" (String x s') => if bool_decide (x = "x"%char ∨ x = "X"%char) && is_hex s' then s' else s
  | _ => s
  end.
Definition strtoul16 (s : string) : Z * string :=
  let '(neg, s1) := skip_sign (skip_space s) in
  let s1 := skip_0x s1 in
  if is_hex s1 then
    let '(v, rest) := hex_digits 0 s1 in
    ((if 2 ^ 64 <=? v then 2 ^ 64 - 1 else if neg : bool then (- v) mod 2 ^ 64 else v), rest)
  else (0, s).
(** For an [unsigned long]; the texts end at a zero byte. *)
Definition conversion (r : Z * string) (s : string) : Z + RerrMsg :=
  if is_empty r.2 then inl r.1
  else inr (mkRerrMsg "Rtools::String2Long" ("conversion error in '" ++ s ++ "'")).
Definition String2Long (s : string) : Z + RerrMsg := conversion (strtoul (c_str s)) s.
Definition String2Long16 (s : string) : Z + RerrMsg := conversion (strtoul16 (c_str s)) s.

(** ** Names of files *)

(** [px_stat]: whether the file is regular; [None] is a failure.  [px_enoent]:
    [errno] is [ENOENT]. *)
Class PosixNames (F : Type) := {
  px_stat : string → F → option bool * F;
  px_rename : string → string → F → Z * F;
  px_errno : F → string;
  px_enoent : F → bool }.
Class PosixNamesLaws (F : Type) `{!PosixNames F} := {
  file : F → string → option (list Z);
  stat_law n f : ∃ f', px_stat n f = ((λ _, true) <$> file f n, f') ∧ (∀ m, file f' m = file f m) ∧
    (file f n = None → px_enoent f' = true);
  rename_law o n x f : file f o = Some x → ∃ f', px_rename o n f = (0, f') ∧
    ∀ m, file f' m = if decide (m = n) then Some x else if decide (m = o) then None else file f m }.

(** Files by name. *)
Record NameTable := mkNameTable { nt_files : gmap string (list Z) }.
#[export] Instance NameTable_names : PosixNames NameTable := {
  px_stat n f := ((λ _, true) <$> nt_files f !! n, f);
  px_rename o n f :=
    match nt_files f !! o with
    | Some x => (0, mkNameTable (<[n := x]> (delete o (nt_files f))))
    | None => (-1, f)
    end;
  px_errno _ := "errno";
  px_enoent _ := true }.
#[export] Instance NameTable_laws : PosixNamesLaws NameTable.
Proof.
  refine {| file f n := nt_files f !! n |}.
  - intros n f. by exists f.
  - intros o n x f Ho. eexists. split; [cbn; by rewrite Ho|]. intros m. cbn [nt_files].
    destruct (decide (m = n)) as [->|Hn]; [by rewrite lookup_insert_eq|]. rewrite lookup_insert_ne by done.
    destruct (decide (m = o)) as [->|Ho']; [by rewrite lookup_delete_eq|by rewrite lookup_delete_ne].
Defined.

(** ** Backups *)

Section Backup.
Context {F : Type} `{!PosixNames F}.
Notation meth := "Rtools::CreateBackupFile".

(** The names from the oldest to the newest, [k] of them.  The level has at most
    two digits, which fit the buffer of four characters. *)
Definition backup_name (fbase fext : string) (i : nat) : string :=
  match i with
  | O => fbase ++ fext
  | _ => fbase ++ "_" ++ pretty i ++ fext
  end.
(** One turn: what is at level [i-1] moves to level [i]. *)
Definition backup_turn (fnam_old fnam_new : string) : E F () := λ f,
  match px_stat fnam_old f with
  | (None, f) =>
      if px_enoent f then (Ret (inl ()), f)
      else (Ret (inr (mkRerrMsg meth ("stat() for '" ++ fnam_old ++ "'failed: " ++ px_errno f))), f)
  | (Some false, f) => (Ret (inr (mkRerrMsg meth "backups only supported for regular files")), f)
  | (Some true, f) =>
      let '(irc, f) := px_rename fnam_old fnam_new f in
      if irc <? 0 then
        (Ret (inr (mkRerrMsg meth
           ("rename() for '" ++ fnam_old ++ "' -> '" ++ fnam_new ++ "'failed: " ++ px_errno f))), f)
      else (Ret (inl ()), f)
  end.
Fixpoint backup_loop (fbase fext : string) (i : nat) : E F () :=
  match i with
  | O => mret ()
  | S k => backup_turn (backup_name fbase fext k) (backup_name fbase fext i) ;; backup_loop fbase fext k
  end.
(** Without a point, [substr(npos)] throws. *)
Definition CreateBackupFile (fname : string) (nbackup : Z) : E F () :=
  if nbackup =? 0 then mret ()
  else
    match split_last "." fname with
    | None => ethrow out_of_range
    | Some (fbase, ext) =>
        if 99 <? nbackup then fail (mkRerrMsg meth "only up to 99 backup levels supported")
        else backup_loop fbase (String "." ext) (Z.to_nat nbackup)
    end.
Definition CreateBackupFile_url (purl : RparseUrl) : E F () :=
  match FindOpt_value "bck" purl with
  | Some bck =>
      if FindOpt "app" purl then mret ()
      else
        match String2Long bck with
        | inl nbck => if 0 <? nbck then CreateBackupFile (fPath purl) nbck else mret ()
        | inr e => fail e
        end
  | None => mret ()
  end.
End Backup.

(** ** The rotation *)

Lemma length_append (a b : string) : String.length (a ++ b) = (String.length a + String.length b)%nat.
Proof. induction a as [|c a IH]; [done|]. exact (f_equal S IH). Qed.
Lemma append_inj_r (a b s : string) : a ++ s = b ++ s → a = b.
Proof.
  intros H. assert (Hl : String.length a = String.length b).
  { apply (f_equal String.length) in H. rewrite !length_append in H. lia. }
  revert b H Hl. induction a as [|c a IH]; intros [|d b] H Hl; try done. injection H as -> H.
  f_equal. apply IH; [done|]. by injection Hl.
Qed.
Lemma backup_name_inj fbase fext i j : backup_name fbase fext i = backup_name fbase fext j → i = j.
Proof.
  assert (Hne : ∀ k, fbase ++ fext ≠ fbase ++ "_" ++ pretty (k : nat) ++ fext).
  { intros k H. apply (inj (String.append fbase)), (f_equal String.length) in H.
    rewrite !length_append in H. simpl in H. lia. }
  destruct i as [|i], j as [|j]; cbn [backup_name]; intros H; [done|by apply Hne in H|by symmetry in H; apply Hne in H|].
  apply (inj (String.append fbase)), (inj (String.append "_")), append_inj_r, (inj (A := nat) pretty) in H. done.
Qed.

Section Rotation.
Context {F : Type} `{!PosixNames F, !PosixNamesLaws F}.
Variables (fbase fext : string).
Notation nm := (backup_name fbase fext).

(** What is at the name of level [i] when the levels above [k] are done. *)
Lemma backup_loop_ok k f : ∃ f', backup_loop fbase fext k f = (Ret (inl ()), f') ∧
  (∀ m, (∀ i, (i <= k)%nat → m ≠ nm i) → file f' m = file f m) ∧
  (∀ i, (0 < i < k)%nat → file f' (nm i) = file f (nm (i - 1))) ∧
  ((0 < k)%nat → file f' (nm k) = match file f (nm (k - 1)) with Some x => Some x | None => file f (nm k) end) ∧
  ((0 < k)%nat → file f' (nm 0%nat) = None).
Proof.
  revert f. induction k as [|k IH]; intros f.
  { exists f. split; [done|]. split_and!; try done; lia. }
  assert (Hturn : ∃ f1, backup_turn (nm k) (nm (S k)) f = (Ret (inl ()), f1) ∧ file f1 (nm k) = None ∧
    file f1 (nm (S k)) = (match file f (nm k) with Some x => Some x | None => file f (nm (S k)) end) ∧
    ∀ m, m ≠ nm k → m ≠ nm (S k) → file f1 m = file f m).
  { unfold backup_turn. destruct (stat_law (nm k) f) as (f1 & E1 & Hf1 & Hno). rewrite E1.
    destruct (file f (nm k)) as [x|] eqn:Ex; cbn [fmap option_fmap option_map].
    - rewrite <- Hf1 in Ex. destruct (rename_law (nm k) (nm (S k)) x f1 Ex) as (f2 & E2 & Hf2). rewrite E2. cbn.
      exists f2. split; [done|]. rewrite !Hf2.
      assert (Hne : nm k ≠ nm (S k)) by (intros H; apply backup_name_inj in H; lia).
      split; [by rewrite decide_False, decide_True|]. split; [by rewrite decide_True|].
      intros m H1 H2. by rewrite Hf2, !decide_False.
    - rewrite (Hno eq_refl). exists f1. split; [done|]. rewrite !Hf1. by split_and!. }
  destruct Hturn as (f1 & E1 & H0 & H1 & H2). destruct (IH f1) as (f' & E' & G1 & G2 & G3 & G4).
  exists f'. cbn [backup_loop]. rewrite (ebind_ok _ _ _ _ _ E1). split; [done|].
  assert (Hk : ∀ i, (i < k)%nat → nm i ≠ nm k ∧ nm i ≠ nm (S k)).
  { intros i Hi. split; intros H; apply backup_name_inj in H; lia. }
  assert (HSk : file f' (nm (S k)) = file f1 (nm (S k))).
  { apply G1. intros i Hi H. apply backup_name_inj in H. lia. }
  split_and!.
  - intros m Hm. rewrite G1 by (intros i Hi; apply Hm; lia). apply H2; apply Hm; lia.
  - intros i Hi. destruct (decide (i = k)) as [->|Hne].
    + rewrite G3 by lia. rewrite H0. destruct (Hk (k - 1)%nat) as [A1 A2]; [lia|].
      rewrite (H2 _ A1 A2). by destruct (file f (nm (k - 1))).
    + rewrite G2 by lia. destruct (Hk (i - 1)%nat) as [A1 A2]; [lia|]. by apply H2.
  - intros _. rewrite HSk, H1. by rewrite Nat.sub_succ, Nat.sub_0_r.
  - intros _. destruct (decide (k = 0)%nat) as [->|Hne]; [|apply G4; lia].
    cbn [backup_loop] in E'. unfold mret, E_ret in E'. by injection E' as <-.
Qed.
End Rotation.
Lemma split_last_app c s x y : split_last c s = Some (x, y) → s = x ++ String c y.
Proof.
  revert x. induction s as [|a s IH]; intros x; [done|]. cbn [split_last].
  destruct (split_last c s) as [[x1 y1]|]; [intros [= <- <-]; cbn; by rewrite (IH _ eq_refl)|].
  destruct (ascii_dec a c) as [->|]; [by intros [= <- <-]|done].
Qed.

(** ** Theorem *)

(** C40: Backups rotate.  For a file name with a point and 1 to 99 levels, where the
    files are regular and may be renamed, [CreateBackupFile] succeeds: the name is
    free, every level holds what the level below held, the last level keeps its
    file exactly when there was none below it, and no other file is touched. *)
Theorem CreateBackupFile_rotates {F} `{!PosixNames F, !PosixNamesLaws F} (fname fbase ext : string) (n : nat) (f : F) :
  split_last "." fname = Some (fbase, ext) → (0 < n <= 99)%nat →
  let level := backup_name fbase (String "." ext) in
  ∃ f', CreateBackupFile fname (Z.of_nat n) f = (Ret (inl ()), f') ∧
    file f' fname = None ∧
    (∀ i, (0 < i < n)%nat → file f' (level i) = file f (level (i - 1)%nat)) ∧
    file f' (level n) = (match file f (level (n - 1)%nat) with Some x => Some x | None => file f (level n) end) ∧
    (∀ m, (∀ i, (i <= n)%nat → m ≠ level i) → file f' m = file f m).
Proof.
  intros Hs Hn level. destruct (backup_loop_ok fbase (String "." ext) n f) as (f' & E & H1 & H2 & H3 & H4).
  exists f'. split_and!; [|rewrite (split_last_app _ _ _ _ Hs); apply H4; lia|done|apply H3; lia|done].
  unfold CreateBackupFile. rewrite Hs, (proj2 (Z.eqb_neq _ _)), (proj2 (Z.ltb_ge _ _)) by lia. by rewrite Nat2Z.id.
Qed.
Lemma CreateBackupFile_rotates_witness : ∃ f',
  CreateBackupFile "lp.txt" 2 (mkNameTable {[ "lp.txt" := [1]; "lp_1.txt" := [2]; "lp_2.txt" := [3] ]}) = (Ret (inl ()), f') ∧
  file f' "lp.txt" = None ∧ file f' "lp_1.txt" = Some [1] ∧ file f' "lp_2.txt" = Some [2].
Proof.
  destruct (CreateBackupFile_rotates "lp.txt" "lp" "txt" 2
    (mkNameTable {[ "lp.txt" := [1]; "lp_1.txt" := [2]; "lp_2.txt" := [3] ]}) eq_refl ltac:(lia)) as (f' & E & H0 & H1 & H2 & _).
  exists f'. split_and!; [exact E|exact H0|exact (H1 1%nat ltac:(lia))|exact H2].
Defined.
