(* ===== verification/VirtDisk.v ===== *)
(** * librw11/Rw11VirtDisk: virtual disks

    The three containers behind a disk unit: a file ([VirtDiskFile]), a file
    with an overlay that keeps the file unchanged ([VirtDiskOver]), and a disk
    in memory that generates unwritten blocks from a pattern ([VirtDiskRam]).

    [VirtDisk] is the interface of the clients (Read and Write of blocks) and
    [VirtDiskSpec] its contract: a container is a function from block numbers
    to blocks.  The three containers are instances; what is proved for a client
    against the contract holds for each of them. *)

From S2P Require Import Prelude.
From S2P Require Import Rstats.
From S2P Require Import FileFd.
From S2P Require Import Url.
From stdpp Require Import pretty sorting.

Open Scope Z_scope.

(** ** The contract *)

(** Blocks [lba], [lba+1], .. of [n] blocks. *)
Definition blocks (lba nblk : Z) : list Z := seqZ lba nblk.
(** Block [i] of [data], with blocks of [bs] bytes: [data+i*fBlkSize]. *)
Definition slice (bs : Z) (i : Z) (data : list Z) : list Z :=
  take (Z.to_nat bs) (drop (Z.to_nat (i * bs)) data).
(** A store of blocks overwritten at [lba]. *)
Definition store_write (bs lba nblk : Z) (data : list Z) (d : Z → list Z) : Z → list Z := λ b,
  if (lba <=? b) && (b <? lba + nblk) then slice bs (b - lba) data else d b.

Class VirtDiskOps (D : Type) := {
  vd_Read : Z → Z → E D (list Z);               (** lba, nblk *)
  vd_Write : Z → Z → list Z → E D () }.

Class VirtDiskSpec (D : Type) `{!VirtDiskOps D} := {
  vd_bs : D → Z;
  vd_ok : D → Prop;
  vd_block : D → Z → list Z;
  vd_len d b : vd_ok d → 0 <= b → 0 < vd_bs d ∧ Z.of_nat (length (vd_block d b)) = vd_bs d;
  vd_read_law d lba nblk :
    vd_ok d → 0 <= lba → 0 < nblk →
    ∃ d', vd_Read lba nblk d = (Ret (inl (concat (map (vd_block d) (blocks lba nblk)))), d') ∧
      vd_ok d' ∧ vd_bs d' = vd_bs d ∧ ∀ b, 0 <= b → vd_block d' b = vd_block d b;
  vd_write_law d lba nblk data :
    vd_ok d → 0 <= lba → 0 < nblk → Z.of_nat (length data) = nblk * vd_bs d →
    ∃ d', vd_Write lba nblk data d = (Ret (inl ()), d') ∧
      vd_ok d' ∧ vd_bs d' = vd_bs d ∧
      ∀ b, 0 <= b → vd_block d' b = store_write (vd_bs d) lba nblk data (vd_block d) b
}.

(** ** Rw11VirtDiskBuffer: one block *)

Record Rw11VirtDiskBuffer := mkBuffer { fBuf : list Z; fNWrite : Z }.
Definition Buffer_ctor (blksize : Z) : Rw11VirtDiskBuffer :=
  mkBuffer (replicate (Z.to_nat blksize) 0) 0.
Definition Buffer_Read (b : Rw11VirtDiskBuffer) : list Z := fBuf b.
(** The counter stops at its maximum. *)
Definition Buffer_Write (data : list Z) (b : Rw11VirtDiskBuffer) : Rw11VirtDiskBuffer :=
  let n := u32 (fNWrite b + 1) in
  mkBuffer (take (length (fBuf b)) data) (if n =? 0 then u32 (n - 1) else n).

(** ** Rw11Virt and Rw11VirtDisk: the base classes *)

Record VirtDisk := mkVirtDisk {
  fUrl : RparseUrl;
  fWProt : bool;
  fStats : Rstats;
  fBlkSize : Z;
  fNBlock : Z;
  fNCyl : Z;
  fNHead : Z;
  fNSect : Z }.
#[export] Instance eta_VirtDisk : Eta VirtDisk := λ d,
  mkVirtDisk (fUrl d) (fWProt d) (fStats d) (fBlkSize d) (fNBlock d) (fNCyl d) (fNHead d) (fNSect d).

Definition kStatNVDRead : nat := 0.
Definition kStatNVDReadBlk : nat := 1.
Definition kStatNVDWrite : nat := 2.
Definition kStatNVDWriteBlk : nat := 3.
Definition vd_stat_table : list (string * string) := [
  ("NVDRead", "Read() calls"); ("NVDReadBlk", "blocks read");
  ("NVDWrite", "Write() calls"); ("NVDWriteBlk", "blocks written")]%string.

Definition VirtDisk_ctor (tab : list (string * string)) : VirtDisk :=
  mkVirtDisk RparseUrl_ctor false (Define_all tab) 0 0 0 0 0.
Definition Setup (blksize nblock ncyl nhead nsect : Z) (d : VirtDisk) : VirtDisk :=
  d <| fBlkSize := blksize |> <| fNBlock := nblock |> <| fNCyl := ncyl |>
    <| fNHead := nhead |> <| fNSect := nsect |>.
Definition WProt (d : VirtDisk) : bool := fWProt d.
Definition vstat (ind : nat) (val : Z) (d : VirtDisk) : VirtDisk := d <| fStats ::= inc ind val |>.

(** ** Rw11VirtDiskFile *)

Record DiskFile (F : Type) := mkDiskFile {
  base : VirtDisk; fFd : RfileFd F; fSize : Z }.
Arguments mkDiskFile {F} _ _ _.
Arguments base {F} _.
Arguments fFd {F} _.
Arguments fSize {F} _.
#[export] Instance eta_DiskFile {F} : Eta (DiskFile F) := λ d, mkDiskFile (base d) (fFd d) (fSize d).

Section DiskFile.
Context {F : Type} `{!PosixFile F}.
Notation D := (DiskFile F).

Definition DiskFile_ctor (tab : list (string * string)) (f : F) : D :=
  mkDiskFile (VirtDisk_ctor tab) (Rfd_ctor "Rw11VirtDiskFile::fFd." f) 0.

Definition DiskFile_Open (url scheme : string) : E D () :=
  ezoom base (ezoom fUrl (Set_scheme url "|wpro|" scheme)) ;;
  emodify (λ d, d <| base ::= λ b, b <| fWProt := FindOpt "wpro" (fUrl b) |> |>) ;;
  b ← egets base;
  ezoom fFd (FileFd.Open (fPath (fUrl b)) (if fWProt b then O_RDONLY else O_RDWR) 0) ;;
  '(size, mode) ← on_fail (λ d, d <| fFd ::= Close |>) (ezoom fFd Stat);
  (if Z.land mode S_IWUSR =? 0 then emodify (λ d, d <| base ::= λ b, b <| fWProt := true |> |>)
   else mret ()) ;;
  emodify (λ d, d <| fSize := size |>).

Definition DiskFile_Read (lba nblk : Z) : E D (list Z) := λ d,
  let d := d <| base ::= λ b, vstat kStatNVDReadBlk nblk (vstat kStatNVDRead 1 b) |> in
  let seekpos := fBlkSize (base d) * lba in
  let nbyt := fBlkSize (base d) * nblk in
  if fSize d <=? seekpos then (Ret (inl (replicate (Z.to_nat nbyt) 0)), d)
  else
    (ezoom fFd (Seek seekpos SEEK_SET) ;;
     '(irc, data) ← ezoom fFd (FileFd.Read nbyt);
     mret (if irc <? nbyt then data ++ replicate (Z.to_nat (nbyt - irc)) 0 else data)) d.

Definition DiskFile_Write (lba nblk : Z) (data : list Z) : E D () := λ d,
  let d := d <| base ::= λ b, vstat kStatNVDWriteBlk nblk (vstat kStatNVDWrite 1 b) |> in
  let seekpos := fBlkSize (base d) * lba in
  let nbyt := fBlkSize (base d) * nblk in
  (ezoom fFd (Seek seekpos SEEK_SET) ;;
   ezoom fFd (WriteAll (take (Z.to_nat nbyt) data)) ;;
   emodify (λ d, if fSize d <? seekpos + nbyt then d <| fSize := seekpos + nbyt |> else d)) d.

(** ** The file container meets the contract *)

Context `{!PosixFileLaws F}.

(** The descriptor is open on a file whose size the object knows; [w] asks for
    a writable file. *)
Definition file_ok (w : bool) (d : D) : Prop :=
  0 < fBlkSize (base d) ∧
  ∃ o, on_file (fFd d) o ∧ (w = true → of_write o = true) ∧
       fSize d = Z.of_nat (length (of_data o)).
Definition file_bytes (d : D) : list Z :=
  match opened (sys (fFd d)) (FileFd.fFd (fFd d)) with Some o => of_data o | None => [] end.
Definition file_block (d : D) (b : Z) : list Z :=
  window (file_bytes d) (Z.to_nat (b * fBlkSize (base d))) (Z.to_nat (fBlkSize (base d))).

Lemma ezoom_ok {S T A} (f : S → T) `{!Setter f} (m : E T A) (s : S) (a : A) (t : T) :
  m (f s) = (Ret (inl a), t) → ezoom f m s = (Ret (inl a), s <| f := t |>).
Proof. intros H. unfold ezoom. by rewrite H. Qed.

Lemma on_file_bytes (d : D) o : on_file (fFd d) o → file_bytes d = of_data o.
Proof. unfold on_file, file_bytes. by intros ->. Qed.

Lemma DiskFile_Read_ok w d lba nblk :
  file_ok w d → 0 <= lba → 0 < nblk →
  ∃ d', DiskFile_Read lba nblk d = (Ret (inl (concat (map (file_block d) (blocks lba nblk)))), d') ∧
    file_ok w d' ∧ fBlkSize (base d') = fBlkSize (base d) ∧ file_bytes d' = file_bytes d.
Proof.
  intros (Hbs & o & Ho & Hw & Hsz) Hlba Hn. unfold file_block, blocks.
  rewrite window_blocks, (on_file_bytes _ _ Ho) by lia.
  unfold DiskFile_Read. set (d1 := d <| base ::= _ |>).
  change (fBlkSize (base d1)) with (fBlkSize (base d)). change (fSize d1) with (fSize d).
  assert (Ho1 : on_file (fFd d1) o) by done.
  case_match eqn:E; [apply Z.leb_le in E|apply Z.leb_gt in E].
  - exists d1. rewrite window_beyond by lia. split; [do 4 f_equal; lia|].
    split; [by split; [|exists o]|]. split; [done|]. apply on_file_bytes, Ho.
  - set (seekpos := fBlkSize (base d) * lba) in *. set (nbyt := fBlkSize (base d) * nblk).
    destruct (Seek_ok (fFd d1) o seekpos SEEK_SET Ho1) as (r2 & Hs & Ho2); [simpl; lia|].
    rewrite (ebind_ok _ _ _ _ _ (ezoom_ok _ _ d1 _ _ Hs)). simpl in Ho2.
    set (d2 := d1 <| fFd := r2 |>).
    destruct (Read_ok (fFd d2) _ nbyt Ho2) as (r3 & Hr & Ho3); [lia|]. simpl in Hr, Ho3.
    rewrite (ebind_ok _ _ _ _ _ (ezoom_ok fFd _ d2 _ _ Hr)). simpl.
    set (d3 := d2 <| fFd := r3 |>). exists d3.
    split; [|split; [split; [done|by eexists]|split; [done|by apply (on_file_bytes d3) in Ho3]]].
    unfold mret, E_ret. do 3 f_equal.
    replace (lba * fBlkSize (base d)) with seekpos by lia.
    replace (nblk * fBlkSize (base d)) with nbyt by lia.
    rewrite <- window_take. set (x := take _ _).
    assert (length x <= Z.to_nat nbyt)%nat by (unfold x; rewrite length_take; lia).
    destruct (Z.ltb_spec (Z.of_nat (length x)) nbyt).
    + do 2 f_equal. lia.
    + replace (_ - length x)%nat with 0%nat by lia. simpl. by rewrite app_nil_r.
Qed.

Lemma slice_window bs i (data : list Z) :
  0 <= bs → 0 <= i → (i + 1) * bs <= Z.of_nat (length data) →
  slice bs i data = window data (Z.to_nat (i * bs)) (Z.to_nat bs).
Proof. intros. apply window_exact. lia. Qed.

Lemma DiskFile_Write_ok d lba nblk data :
  file_ok true d → 0 <= lba → 0 < nblk → Z.of_nat (length data) = nblk * fBlkSize (base d) →
  ∃ d', DiskFile_Write lba nblk data d = (Ret (inl ()), d') ∧
    file_ok true d' ∧ fBlkSize (base d') = fBlkSize (base d) ∧
    ∀ b, 0 <= b → file_block d' b =
                  store_write (fBlkSize (base d)) lba nblk data (file_block d) b.
Proof.
  intros (Hbs & o & Ho & Hw & Hsz) Hlba Hn Hlen. unfold DiskFile_Write.
  set (d1 := d <| base ::= _ |>). change (fBlkSize (base d1)) with (fBlkSize (base d)).
  set (bs := fBlkSize (base d)) in *. set (seekpos := bs * lba). set (nbyt := bs * nblk).
  rewrite take_ge by lia.
  destruct (Seek_ok (fFd d1) o seekpos SEEK_SET Ho) as (r2 & Hs & Ho2); [simpl; lia|].
  rewrite (ebind_ok _ _ _ _ _ (ezoom_ok _ _ d1 _ _ Hs)). simpl in Ho2.
  set (d2 := d1 <| fFd := r2 |>).
  destruct (WriteAll_ok (fFd d2) _ data Ho2 (Hw eq_refl)) as (r3 & Hwr & Ho3). simpl in Ho3.
  rewrite (ebind_ok _ _ _ _ _ (ezoom_ok fFd _ d2 _ _ Hwr)). set (d3 := d2 <| fFd := r3 |>).
  assert (Hne : data ≠ []) by (intros ->; simpl in Hlen; nia).
  assert (Hl := length_splice (Z.to_nat seekpos) data (of_data o) Hne).
  eexists. split; [reflexivity|].
  change (fSize d3) with (fSize d). set (d4 := if _ : bool then _ else _).
  assert (Hd4 : fFd d4 = r3 ∧ base d4 = base d3 ∧ fSize d4 = Z.of_nat (length (splice (Z.to_nat seekpos) data (of_data o)))).
  { unfold d4. rewrite Hl.
    destruct (Z.ltb_spec (fSize d) (seekpos + nbyt)); simpl; split_and!; try done; lia. }
  destruct Hd4 as (Hf4 & Hb4 & Hs4). rewrite Hb4. change (fBlkSize (base d3)) with bs.
  split; [|split; [done|]].
  - split; [by rewrite Hb4|]. eexists. rewrite Hf4. split; [exact Ho3|]. done.
  - intros b Hb. unfold file_block. rewrite Hb4. change (fBlkSize (base d3)) with bs. fold bs.
    assert (Hby : file_bytes d4 = splice (Z.to_nat seekpos) data (of_data o)).
    { eapply eq_trans; [apply (on_file_bytes d4); rewrite Hf4; exact Ho3|done]. }
    rewrite Hby, (on_file_bytes _ _ Ho). unfold store_write.
    destruct (Z.leb_spec lba b); [destruct (Z.ltb_spec b (lba + nblk))|]; simpl.
    + rewrite window_splice_in by nia. rewrite slice_window by nia. f_equal. nia.
    + apply window_splice_out. right. nia.
    + apply window_splice_out. left. nia.
Qed.
End DiskFile.

(** ** Rw11VirtDiskOver: a file with an overlay *)

Notation bmap_t := (gmap Z Rw11VirtDiskBuffer).
(** The keys in the order of a [std::map]. *)
Definition sorted_keys (m : bmap_t) : list Z := merge_sort (≤) (elements (dom m)).
Definition lower_bound (m : bmap_t) (lba : Z) : option Z :=
  head (filter (λ k, lba <= k) (sorted_keys m)).
(** [find], [emplace] of an empty buffer if needed, and [Write]. *)
Definition put_block (bs b : Z) (data : list Z) (m : bmap_t) : bmap_t :=
  <[b := Buffer_Write data (default (Buffer_ctor bs) (m !! b))]> m.
(** The write loop of the overlay and of the ram disk. *)
Definition put_blocks (bs lba nblk : Z) (data : list Z) (m : bmap_t) : bmap_t :=
  fold_left (λ m i, put_block bs (lba + i) (slice bs i data) m) (seqZ 0 nblk) m.

Definition kStatNVDORead : nat := 4.
Definition kStatNVDOReadBlkFF : nat := 5.
Definition kStatNVDOReadBlkFP : nat := 6.
Definition kStatNVDOReadBlkO : nat := 7.
Definition kStatNVDOWrite : nat := 8.
Definition kStatNVDOWriteBlk : nat := 9.
Definition kStatNVDOFlush : nat := 10.
Definition over_stat_table : list (string * string) := vd_stat_table ++ [
  ("NVDORead", "over: Read() calls"); ("NVDOReadBlkFF", "over: blocks read file full");
  ("NVDOReadBlkFP", "over: blocks read file part"); ("NVDOReadBlkO", "over: blocks read from over");
  ("NVDOWrite", "over: Write() calls"); ("NVDOWriteBlk", "over: blocks written");
  ("NVDOFlush", "over: Flush() calls")]%string.

Record DiskOver (F : Type) := mkDiskOver { file : DiskFile F; fBlkMap : bmap_t }.
Arguments mkDiskOver {F} _ _.
Arguments file {F} _.
Arguments fBlkMap {F} _.
#[export] Instance eta_DiskOver {F} : Eta (DiskOver F) := λ d, mkDiskOver (file d) (fBlkMap d).

Section DiskOver.
Context {F : Type} `{!PosixFile F}.
Notation D := (DiskOver F).

Definition DiskOver_ctor (f : F) : D := mkDiskOver (DiskFile_ctor over_stat_table f) ∅.
(** From the unit always writable. *)
Definition DiskOver_WProt (d : D) : bool := false.
Definition DiskOver_Open (url : string) : E D () := ezoom file (DiskFile_Open url "over").
Definition ostat (ind : nat) (val : Z) (d : D) : D :=
  d <| file ::= λ f, f <| base ::= vstat ind val |> |>.
Definition over_bs (d : D) : Z := fBlkSize (base (file d)).

Fixpoint over_read (bs : list Z) : E D (list Z) :=
  match bs with
  | [] => mret []
  | b :: bs =>
      m ← egets fBlkMap;
      x ← match m !! b with
          | None => emodify (ostat kStatNVDOReadBlkFP 1) ;; ezoom file (DiskFile_Read b 1)
          | Some buf => emodify (ostat kStatNVDOReadBlkO 1) ;; mret (Buffer_Read buf)
          end;
      y ← over_read bs;
      mret (x ++ y)
  end.
Definition DiskOver_Read (lba nblk : Z) : E D (list Z) :=
  emodify (ostat kStatNVDORead 1) ;;
  m ← egets fBlkMap;
  if match lower_bound m lba with None => true | Some k => lba + nblk <=? k end
  then emodify (ostat kStatNVDOReadBlkFF nblk) ;; ezoom file (DiskFile_Read lba nblk)
  else over_read (blocks lba nblk).
Definition DiskOver_Write (lba nblk : Z) (data : list Z) : E D () :=
  emodify (ostat kStatNVDOWrite 1) ;;
  emodify (ostat kStatNVDOWriteBlk nblk) ;;
  emodify (λ d, d <| fBlkMap ::= put_blocks (over_bs d) lba nblk data |>).

Fixpoint flush_loop (keys : list Z) : E D () :=
  match keys with
  | [] => mret ()
  | k :: keys =>
      m ← egets fBlkMap;
      match m !! k with
      | None => mret ()
      | Some buf => ezoom file (DiskFile_Write k 1 (fBuf buf))
      end ;;
      flush_loop keys
  end.
Definition DiskOver_Flush : E D () :=
  wprot ← egets (λ d, fWProt (base (file d)));
  fail_if wprot "Rw11VirtDiskOver::Flush()" "file write protected" ;;
  emodify (ostat kStatNVDOFlush 1) ;;
  m ← egets fBlkMap;
  flush_loop (sorted_keys m) ;;
  emodify (λ d, d <| fBlkMap := ∅ |>).
End DiskOver.

(** ** Blocks kept in a map *)

Definition bmap_ok (bs : Z) (m : bmap_t) : Prop :=
  map_Forall (λ b buf, 0 <= b ∧ Z.of_nat (length (fBuf buf)) = bs) m.

Lemma sorted_keys_elem m k : k ∈ sorted_keys m ↔ is_Some (m !! k).
Proof. unfold sorted_keys. by rewrite merge_sort_Permutation, elem_of_elements, elem_of_dom. Qed.

Lemma StronglySorted_filter_ge (lba : Z) (l : list Z) :
  StronglySorted (≤) l → StronglySorted (≤) (filter (λ k, lba <= k) l).
Proof.
  induction 1 as [|x l Hs IH Hx]; [constructor|]. rewrite filter_cons.
  case_decide; [|done]. constructor; [done|].
  rewrite list.Forall_forall in *. intros y Hy. apply list_elem_of_filter in Hy as [_ ?]. by apply Hx.
Qed.

(** No block of the range is in the map when the lower bound is behind it. *)
Lemma lower_bound_none m lba n :
  match lower_bound m lba with None => true | Some k => lba + n <=? k end = true →
  ∀ b, lba <= b < lba + n → m !! b = None.
Proof.
  intros H b Hb. destruct (m !! b) eqn:E; [exfalso|done].
  assert (Hin : b ∈ filter (λ k, lba <= k) (sorted_keys m)).
  { apply list_elem_of_filter. split; [lia|]. apply sorted_keys_elem. by eexists. }
  assert (Hs : StronglySorted (≤) (filter (λ k, lba <= k) (sorted_keys m))).
  { apply StronglySorted_filter_ge,  (StronglySorted_merge_sort (≤)). }
  unfold lower_bound in H. destruct (filter _ _) as [|k l]; [by apply elem_of_nil in Hin|].
  simpl in H. apply Z.leb_le in H. apply elem_of_cons in Hin as [->|Hin]; [lia|].
  apply StronglySorted_inv in Hs as [_ Hs]. rewrite list.Forall_forall in Hs.
  specialize (Hs b Hin). lia.
Qed.

Lemma length_slice bs i data :
  0 <= i → 0 <= bs → (i + 1) * bs <= Z.of_nat (length data) → Z.of_nat (length (slice bs i data)) = bs.
Proof. intros. unfold slice. rewrite length_take, length_drop. nia. Qed.

Definition map_block (m : bmap_t) (f : Z → list Z) (b : Z) : list Z :=
  match m !! b with Some buf => fBuf buf | None => f b end.

Lemma put_blocks_snoc bs lba n data m :
  put_blocks bs lba (Z.of_nat (S n)) data m =
  put_block bs (lba + Z.of_nat n) (slice bs (Z.of_nat n) data) (put_blocks bs lba (Z.of_nat n) data m).
Proof.
  unfold put_blocks. replace (Z.of_nat (S n)) with (Z.of_nat n + 1) by lia.
  rewrite seqZ_app, fold_left_app by lia. done.
Qed.

Lemma put_block_ok bs b s m :
  0 < bs → 0 <= b → bmap_ok bs m → Z.of_nat (length s) = bs →
  bmap_ok bs (put_block bs b s m) ∧
  ∀ f c, map_block (put_block bs b s m) f c = if decide (c = b) then s else map_block m f c.
Proof.
  intros Hbs Hb Hm Hs. unfold put_block.
  remember (Buffer_Write s (default (Buffer_ctor bs) (m !! b))) as buf eqn:Eb.
  assert (Hbuf : fBuf buf = s).
  { subst buf. simpl. apply take_ge. destruct (m !! b) as [x|] eqn:E; simpl.
    - apply Hm in E as [_ E]. lia.
    - rewrite length_replicate. lia. }
  split.
  - apply map_Forall_insert_2; [rewrite Hbuf; lia|done].
  - intros f c. unfold map_block. case_decide as Hc; subst.
    + by rewrite lookup_insert_eq, Hbuf.
    + by rewrite lookup_insert_ne by done.
Qed.

Lemma in_range {A} lba b n (x y : A) :
  (if (lba <=? b) && (b <? lba + n) then x else y) = if decide (lba <= b < lba + n) then x else y.
Proof.
  destruct (Z.leb_spec lba b), (Z.ltb_spec b (lba + n)); case_decide; done || lia.
Qed.

Lemma put_blocks_ok bs lba nblk data m :
  0 < bs → 0 <= lba → 0 <= nblk → bmap_ok bs m → nblk * bs <= Z.of_nat (length data) →
  bmap_ok bs (put_blocks bs lba nblk data m) ∧
  ∀ f b, map_block (put_blocks bs lba nblk data m) f b =
         store_write bs lba nblk data (map_block m f) b.
Proof.
  intros Hbs Hlba Hn Hm Hl. rewrite <- (Z2Nat.id nblk) in * by done.
  revert Hl. generalize (Z.to_nat nblk) as n. intros n.
  induction n as [|n IH]; intros Hl.
  - split; [done|]. intros f b. unfold store_write.
    by rewrite in_range, decide_False by lia.
  - destruct IH as [IHm IH]; [lia..|]. rewrite put_blocks_snoc.
    destruct (put_block_ok bs (lba + Z.of_nat n) (slice bs (Z.of_nat n) data) _ Hbs
                ltac:(lia) IHm) as [H1 H2]; [apply length_slice; nia|].
    split; [done|]. intros f b. rewrite H2, IH. unfold store_write.
    rewrite !in_range. repeat case_decide; subst; try done; try lia. f_equal. lia.
Qed.

(** ** The overlay meets the contract *)

Section DiskOverLaws.
Context {F : Type} `{!PosixFile F, !PosixFileLaws F}.
Notation D := (DiskOver F).

Definition over_ok (w : bool) (d : D) : Prop :=
  file_ok w (file d) ∧ bmap_ok (over_bs d) (fBlkMap d).
Definition over_block (d : D) : Z → list Z := map_block (fBlkMap d) (file_block (file d)).

(** The parts of an overlay no read changes. *)
Definition same_over (d d' : D) : Prop :=
  fBlkMap d' = fBlkMap d ∧ over_bs d' = over_bs d ∧ file_bytes (file d') = file_bytes (file d).

Lemma same_over_block d d' b : same_over d d' → over_block d' b = over_block d b.
Proof.
  intros (H1 & H2 & H3). unfold over_block, file_block, over_bs in *. by rewrite H1, H2, H3.
Qed.
Lemma same_over_trans d1 d2 d3 : same_over d1 d2 → same_over d2 d3 → same_over d1 d3.
Proof. intros (?&?&?) (?&?&?). split_and!; congruence. Qed.
Lemma ostat_ok w ind val d : over_ok w d → over_ok w (ostat ind val d) ∧ same_over d (ostat ind val d).
Proof. done. Qed.

(** A read of the file through the overlay object. *)
Lemma over_file_read w d lba nblk :
  over_ok w d → 0 <= lba → 0 < nblk →
  ∃ d', ezoom file (DiskFile_Read lba nblk) d =
      (Ret (inl (concat (map (file_block (file d)) (blocks lba nblk)))), d') ∧
    over_ok w d' ∧ same_over d d'.
Proof.
  intros (Hf & Hm) Hlba Hn.
  destruct (DiskFile_Read_ok _ _ _ _ Hf Hlba Hn) as (f' & Hr & Hf' & Hbs & Hby).
  exists (d <| file := f' |>). split; [by apply ezoom_ok|].
  split; [|by split_and!]. split; [done|]. unfold over_bs. simpl. rewrite Hbs. exact Hm.
Qed.

Lemma over_read_ok w bs d :
  over_ok w d → Forall (λ b, 0 <= b) bs →
  ∃ d', over_read bs d = (Ret (inl (concat (map (over_block d) bs))), d') ∧
    over_ok w d' ∧ same_over d d'.
Proof.
  revert d. induction bs as [|b bs IH]; intros d Hd Hbs; [by exists d|].
  apply Forall_cons_iff in Hbs as [Hb Hbs]. simpl. autorewrite with run.
  assert (Hx : ∃ d1, match fBlkMap d !! b with
      | None => emodify (ostat kStatNVDOReadBlkFP 1) ;; ezoom file (DiskFile_Read b 1)
      | Some buf => emodify (ostat kStatNVDOReadBlkO 1) ;; mret (Buffer_Read buf)
      end d = (Ret (inl (over_block d b)), d1) ∧ over_ok w d1 ∧ same_over d d1).
  { unfold over_block, map_block. destruct (fBlkMap d !! b) as [buf|]; autorewrite with run.
    - by eexists.
    - destruct (over_file_read w (ostat kStatNVDOReadBlkFP 1 d) b 1 Hd Hb ltac:(lia))
        as (d' & Hr & Hok & Hs).
      exists d'. rewrite Hr. unfold blocks. rewrite seqZ_cons by lia. simpl. by rewrite app_nil_r. }
  destruct Hx as (d1 & Hx & Hd1 & Hs1). rewrite (ebind_ok _ _ _ _ _ Hx).
  destruct (IH d1 Hd1 Hbs) as (d2 & Hy & Hd2 & Hs2). rewrite (ebind_ok _ _ _ _ _ Hy).
  exists d2. split; [|split; [done|by eapply same_over_trans]].
  unfold mret, E_ret. do 5 f_equal.
  apply map_ext. intros x. by apply same_over_block.
Qed.

Lemma blocks_nonneg lba nblk : 0 <= lba → Forall (λ b, 0 <= b) (blocks lba nblk).
Proof. intros. apply list.Forall_forall. intros b Hb. apply elem_of_seqZ in Hb. lia. Qed.

Lemma DiskOver_Read_ok w d lba nblk :
  over_ok w d → 0 <= lba → 0 < nblk →
  ∃ d', DiskOver_Read lba nblk d = (Ret (inl (concat (map (over_block d) (blocks lba nblk)))), d') ∧
    over_ok w d' ∧ same_over d d'.
Proof.
  intros Hd Hlba Hn. unfold DiskOver_Read. autorewrite with run.
  change (fBlkMap (ostat kStatNVDORead 1 d)) with (fBlkMap d).
  destruct (match lower_bound (fBlkMap d) lba with None => true | Some k => lba + nblk <=? k end) eqn:E.
  - autorewrite with run.
    destruct (over_file_read w (ostat kStatNVDOReadBlkFF nblk (ostat kStatNVDORead 1 d)) lba nblk)
      as (d' & Hr & Hok & Hs); [done..|].
    exists d'. split; [|done]. rewrite Hr. do 4 f_equal. apply map_ext_in.
    intros b Hb. apply list_elem_of_In, elem_of_seqZ in Hb.
    unfold over_block, map_block. by rewrite (lower_bound_none _ _ _ E b).
  - destruct (over_read_ok w (blocks lba nblk) (ostat kStatNVDORead 1 d) Hd
                (blocks_nonneg lba nblk Hlba)) as (d' & Hr & Hok & Hs).
    exists d'. by rewrite Hr.
Qed.

(** A write goes to the overlay only: the file object is unchanged up to the
    statistics. *)
Lemma DiskOver_Write_ok w d lba nblk data :
  over_ok w d → 0 <= lba → 0 < nblk → Z.of_nat (length data) = nblk * over_bs d →
  ∃ d', DiskOver_Write lba nblk data d = (Ret (inl ()), d') ∧ over_ok w d' ∧
    over_bs d' = over_bs d ∧ fFd (file d') = fFd (file d) ∧
    (∀ b, over_block d' b = store_write (over_bs d) lba nblk data (over_block d) b).
Proof.
  intros (Hf & Hm) Hlba Hn Hl. unfold DiskOver_Write. autorewrite with run.
  eexists. split; [reflexivity|].
  destruct (put_blocks_ok (over_bs d) lba nblk data (fBlkMap d)) as [H1 H2];
    [apply Hf|done|lia|done|lia|].
  split; [split; [exact Hf|exact H1]|]. split; [done|]. split; [done|].
  intros b. apply H2.
Qed.

(** Flushing writes exactly the blocks of the overlay. *)
Lemma flush_loop_ok keys d :
  over_ok true d →
  ∃ d', flush_loop keys d = (Ret (inl ()), d') ∧ over_ok true d' ∧
    fBlkMap d' = fBlkMap d ∧ over_bs d' = over_bs d ∧
    ∀ b, 0 <= b → file_block (file d') b =
                  if decide (b ∈ keys) then over_block d b else file_block (file d) b.
Proof.
  revert d. induction keys as [|k keys IH]; intros d Hd.
  { by exists d. }
  simpl. autorewrite with run.
  assert (Hx : ∃ d1, match fBlkMap d !! k with
      | None => mret () | Some buf => ezoom file (DiskFile_Write k 1 (fBuf buf)) end d =
      (Ret (inl ()), d1) ∧ over_ok true d1 ∧ fBlkMap d1 = fBlkMap d ∧ over_bs d1 = over_bs d ∧
      ∀ b, 0 <= b → file_block (file d1) b =
                    if decide (b = k) then over_block d b else file_block (file d) b).
  { destruct Hd as [Hf Hm]. destruct (fBlkMap d !! k) as [buf|] eqn:E.
    - destruct (Hm _ _ E) as [Hk Hl].
      destruct (DiskFile_Write_ok (file d) k 1 (fBuf buf) Hf Hk) as (f' & Hw & Hf' & Hbs & Hb);
        [lia|unfold over_bs in Hl; lia|..].
      exists (d <| file := f' |>). split; [by apply ezoom_ok|].
      split; [split; [done|]; unfold over_bs; simpl; rewrite Hbs; exact Hm|].
      split; [done|]. split; [exact Hbs|].
      intros b H0. simpl. rewrite Hb by done. unfold store_write. rewrite in_range.
      repeat case_decide; try lia; [|done]. subst. unfold over_block, map_block. rewrite E.
      replace (k - k) with 0 by lia. unfold slice. simpl. apply take_ge.
      unfold over_bs in Hl. lia.
    - exists d. split_and!; try done. intros b H0. case_decide; [|done]. subst.
      unfold over_block, map_block. by rewrite E. }
  destruct Hx as (d1 & Hx & Hd1 & Hm1 & Hb1 & Hf1). rewrite (ebind_ok _ _ _ _ _ Hx).
  destruct (IH d1 Hd1) as (d2 & Hy & Hd2 & Hm2 & Hb2 & Hf2).
  exists d2. split; [exact Hy|]. split; [done|]. split; [congruence|]. split; [congruence|].
  intros b H0. rewrite Hf2, Hf1 by done.
  assert (Ho : over_block d1 b = over_block d b).
  { unfold over_block, map_block. rewrite Hm1. destruct (fBlkMap d !! b) as [buf|] eqn:E; [done|].
    rewrite Hf1 by done. case_decide; [|done]. subst. unfold over_block, map_block. by rewrite E. }
  rewrite Ho. destruct (decide (b = k)) as [->|].
  - rewrite (decide_True _ _ (proj2 (elem_of_cons keys k k) (or_introl eq_refl))).
    by case_decide.
  - repeat case_decide; set_solver.
Qed.

Lemma DiskOver_Flush_ok d :
  over_ok true d → fWProt (base (file d)) = false →
  ∃ d', DiskOver_Flush d = (Ret (inl ()), d') ∧ over_ok true d' ∧ fBlkMap d' = ∅ ∧
    ∀ b, 0 <= b → file_block (file d') b = over_block d b.
Proof.
  intros Hd Hw. unfold DiskOver_Flush. autorewrite with run. rewrite Hw. unfold fail_if.
  autorewrite with run. set (d0 := ostat _ _ d).
  destruct (flush_loop_ok (sorted_keys (fBlkMap d)) d0) as (d1 & Hl & Hd1 & Hm & Hbs & Hb); [done|].
  change (fBlkMap d0) with (fBlkMap d). rewrite (ebind_ok _ _ _ _ _ Hl).
  eexists. split; [reflexivity|]. split; [by split; [apply Hd1|apply map_Forall_empty]|].
  split; [done|]. intros b H0. simpl. rewrite Hb by done.
  case_decide as Hin; [done|]. rewrite sorted_keys_elem in Hin.
  unfold over_block, map_block. destruct (fBlkMap d !! b); [|done]. exfalso. eauto.
Qed.
End DiskOverLaws.

(** ** Rw11VirtDiskRam: a disk in memory *)

Inductive pattyp := kPatZero | kPatOnes | kPatDead | kPatTest.

Definition kStatNVDReadRam : nat := 4.
Definition kStatNVDWriteOver : nat := 5.
Definition ram_stat_table : list (string * string) := vd_stat_table ++ [
  ("NVDReadRam", "ram: blocks read from ram"); ("NVDWriteOver", "ram: blocks overwritten")]%string.

Record DiskRam := mkDiskRam {
  rbase : VirtDisk; fNoBoot : bool; fPatTyp : pattyp; rBlkMap : bmap_t }.
#[export] Instance eta_DiskRam : Eta DiskRam := λ d,
  mkDiskRam (rbase d) (fNoBoot d) (fPatTyp d) (rBlkMap d).
Definition DiskRam_ctor : DiskRam := mkDiskRam (VirtDisk_ctor ram_stat_table) false kPatZero ∅.
Definition rstat (ind : nat) (val : Z) (d : DiskRam) : DiskRam := d <| rbase ::= vstat ind val |>.
Definition ram_bs (d : DiskRam) : Z := fBlkSize (rbase d).

Definition parse_pat (pat : string) : option pattyp :=
  if bool_decide (pat = "zero"%string) then Some kPatZero
  else if bool_decide (pat = "ones"%string) then Some kPatOnes
  else if bool_decide (pat = "dead"%string) then Some kPatDead
  else if bool_decide (pat = "test"%string) then Some kPatTest
  else None.
Definition DiskRam_Open (url scheme : string) : E DiskRam () :=
  ezoom rbase (ezoom fUrl (Set_scheme url "|wpro|noboot|pat=|" scheme)) ;;
  emodify (λ d, d <| rbase ::= λ b, b <| fWProt := FindOpt "wpro" (fUrl b) |> |>) ;;
  emodify (λ d, d <| fNoBoot := FindOpt "noboot" (fUrl (rbase d)) |>) ;;
  emodify (λ d, d <| fPatTyp := kPatZero |>) ;;
  o ← egets (λ d, FindOpt_value "pat" (fUrl (rbase d)));
  match o with
  | None => mret ()
  | Some pat =>
      match parse_pat pat with
      | Some p => emodify (λ d, d <| fPatTyp := p |>)
      | None => fail (mkRerrMsg "Rw11VirtDiskRam::Open()"
                        ("invalid pattern name '" ++ pat ++ "'"))
      end
  end.

Definition bootcode : list Z := [
  (* 012700 000026  start: mov  #text, r0 *)   0x15c0; 0x0016;
  (* 105710         1$:    tstb (r0) *)        0x8bc8;
  (* 001406                beq  3$ *)          0x0306;
  (* 105737 177564  2$:    tstb @#to.csr *)    0x8bdf; 0xff74;
  (* 100375                bpl  2$ *)          0x80fd;
  (* 112037 177566         movb (r0)+,@#to.buf *) 0x941f; 0xff76;
  (* 000770                br   1$ *)          0x01f8;
  (* 000000         3$:    halt *)             0x0000].
Definition crlf : string := String (Ascii.ascii_of_nat 13) (String (Ascii.ascii_of_nat 10) EmptyString).
Definition boottext (d : DiskRam) : string :=
  (crlf ++
   "++======================================++" ++ crlf ++
   "|| This is not a hardware bootable disk ||" ++ crlf ++
   "++======================================++" ++ crlf ++
   crlf ++
   "Virtual disk: CHS=" ++
   pretty (fNCyl (rbase d)) ++ "," ++ pretty (fNHead (rbase d)) ++ "," ++ pretty (fNSect (rbase d)) ++
   " blocks=" ++ pretty (fNBlock (rbase d)) ++ "(" ++ pretty (ram_bs d) ++ ")" ++
   " name=" ++ fPath (fUrl (rbase d)) ++ crlf ++
   "CPU WILL HALT" ++ crlf ++
   crlf)%string.
Definition string_bytes (s : string) : list Z := map char_code (String.list_ascii_of_string s).

(** The boot block: code, text cut to the block, zeros, and a zero at the end.
    [None]: the block is too small for the code. *)
Definition boot_block (d : DiskRam) : option (list Z) :=
  let bs := Z.to_nat (ram_bs d) in
  let data := words_bytes bootcode ++ string_bytes (boottext d) in
  if (bs <=? length (words_bytes bootcode))%nat then None
  else Some (take (bs - 1) (data ++ replicate bs 0) ++ [0]).

(** One turn of the fill loop: the words it stores, with [addr] and the
    geometry; and the number of words per turn. *)
Definition test_words (d : VirtDisk) (lba addr : Z) : list Z := map u16 [
  addr; Z.shiftr addr 16;
  lba / (fNSect d * fNHead d); (lba / fNSect d) mod fNHead d; lba mod fNSect d;
  fNCyl d; fNHead d; fNSect d].
Definition pattern_turn (p : pattyp) (d : VirtDisk) (lba addr : Z) : list Z :=
  match p with
  | kPatZero => [0]
  | kPatOnes => [0xffff]
  | kPatDead => [0xdead; 0xbeaf]
  | kPatTest => test_words d lba addr
  end.
Definition turn_bytes (p : pattyp) : Z :=
  match p with kPatZero | kPatOnes => 2 | kPatDead => 4 | kPatTest => 16 end.
Definition pattern_words (p : pattyp) (d : VirtDisk) (lba : Z) (turns : nat) : list Z :=
  concat (map (λ k, pattern_turn p d lba (lba * fBlkSize d + turn_bytes p * Z.of_nat k))
              (seq 0 turns)).
(** [None]: the code divides by zero or writes behind the block. *)
Definition ReadPattern (lba : Z) (d : DiskRam) : option (list Z) :=
  if (lba =? 0) && fNoBoot d then boot_block d
  else
    let p := fPatTyp d in
    let bs := ram_bs d in
    if match p with
       | kPatTest => (fNSect (rbase d) =? 0) || (fNHead (rbase d) =? 0)
       | _ => false end then None
    else if bs mod turn_bytes p =? 0
    then Some (words_bytes (pattern_words p (rbase d) lba (Z.to_nat (bs / turn_bytes p))))
    else None.

Fixpoint ram_read (bs : list Z) : E DiskRam (list Z) :=
  match bs with
  | [] => mret []
  | b :: bs =>
      d ← egets id;
      x ← match rBlkMap d !! b with
          | None => match ReadPattern b d with
                    | Some x => mret x
                    | None => ethrow (undefined "ReadPattern")
                    end
          | Some buf => emodify (rstat kStatNVDReadRam 1) ;; mret (Buffer_Read buf)
          end;
      y ← ram_read bs;
      mret (x ++ y)
  end.
Definition DiskRam_Read (lba nblk : Z) : E DiskRam (list Z) :=
  emodify (rstat kStatNVDRead 1) ;;
  emodify (rstat kStatNVDReadBlk nblk) ;;
  ram_read (blocks lba nblk).
(** The counter of overwritten blocks grows by [nblk] per overwritten block. *)
Definition ram_write1 (lba nblk i : Z) (data : list Z) (d : DiskRam) : DiskRam :=
  let d := match rBlkMap d !! (lba + i) with
           | None => d | Some _ => rstat kStatNVDWriteOver nblk d end in
  d <| rBlkMap ::= put_block (ram_bs d) (lba + i) (slice (ram_bs d) i data) |>.
Definition DiskRam_Write (lba nblk : Z) (data : list Z) : E DiskRam () :=
  emodify (rstat kStatNVDWrite 1) ;;
  emodify (rstat kStatNVDWriteBlk nblk) ;;
  emodify (λ d, fold_left (λ d i, ram_write1 lba nblk i data d) (seqZ 0 nblk) d).

(** ** The ram disk meets the contract *)

(** The geometry fits the pattern: blocks are whole numbers of pattern turns
    and the boot code fits. *)
Definition ram_ok (d : DiskRam) : Prop :=
  0 < ram_bs d ∧ ram_bs d mod turn_bytes (fPatTyp d) = 0 ∧
  (fNoBoot d = true → 22 < ram_bs d) ∧
  (fPatTyp d = kPatTest → 0 < fNSect (rbase d) ∧ 0 < fNHead (rbase d)) ∧
  bmap_ok (ram_bs d) (rBlkMap d).
Definition ram_block (d : DiskRam) : Z → list Z :=
  map_block (rBlkMap d) (λ b, default [] (ReadPattern b d)).

Lemma length_concat_const {A} (k : nat) (ls : list (list A)) :
  Forall (λ l, length l = k) ls → length (concat ls) = (k * length ls)%nat.
Proof. induction 1; simpl; rewrite ?length_app; lia. Qed.
Lemma length_words_of ws : length (words_bytes ws) = (2 * length ws)%nat.
Proof.
  unfold words_bytes. rewrite (length_concat_const 2), length_map; [lia|].
  by apply Forall_map, list.Forall_forall.
Qed.

Lemma ReadPattern_ok d b :
  ram_ok d → ∃ x, ReadPattern b d = Some x ∧ Z.of_nat (length x) = ram_bs d.
Proof.
  intros (Hbs & Hm & Hboot & Hgeo & _). unfold ReadPattern.
  destruct ((b =? 0) && fNoBoot d) eqn:E.
  - apply andb_true_iff in E as [_ E]. specialize (Hboot E). unfold boot_block.
    change (length (words_bytes bootcode)) with 22%nat.
    rewrite (proj2 (Nat.leb_gt _ _)) by lia. eexists. split; [done|].
    rewrite length_app, length_take, !length_app, length_replicate. simpl. lia.
  - assert (Hg : match fPatTyp d with
                 | kPatTest => (fNSect (rbase d) =? 0) || (fNHead (rbase d) =? 0)
                 | _ => false end = false).
    { destruct (fPatTyp d); try done. destruct Hgeo; [done|].
      rewrite !(proj2 (Z.eqb_neq _ _)) by lia. done. }
    rewrite Hg, (proj2 (Z.eqb_eq _ _) Hm). eexists. split; [done|].
    rewrite length_words_of. unfold pattern_words.
    rewrite (length_concat_const (Z.to_nat (turn_bytes (fPatTyp d) / 2))), length_map, length_seq.
    + destruct (fPatTyp d); unfold turn_bytes in *; change (2/2) with 1; change (4/2) with 2;
        change (16/2) with 8; Z.div_mod_to_equations; lia.
    + apply Forall_map, list.Forall_forall. intros k _. by destruct (fPatTyp d).
Qed.

(** The state a read or write keeps. *)
Definition same_ram (d d' : DiskRam) : Prop :=
  d' = d <| rbase := rbase d' |> ∧ ∃ s, rbase d' = rbase d <| fStats := s |>.
Lemma same_ram_refl d : same_ram d d.
Proof. split; [by destruct d|]. exists (fStats (rbase d)). by destruct d as [[]]. Qed.
Lemma rstat_same d ind val : same_ram d (rstat ind val d).
Proof. split; [by destruct d|]. by eexists. Qed.
Lemma same_ram_trans d1 d2 d3 : same_ram d1 d2 → same_ram d2 d3 → same_ram d1 d3.
Proof.
  intros [H1 [s1 E1]] [H2 [s2 E2]]. split; [|exists s2].
  - rewrite H2. rewrite H1. simpl. by rewrite E2.
  - rewrite E2, E1. done.
Qed.
Lemma same_ram_spec d d' :
  same_ram d d' → ram_bs d' = ram_bs d ∧ rBlkMap d' = rBlkMap d ∧
  (ram_ok d → ram_ok d') ∧ (∀ b, ReadPattern b d' = ReadPattern b d) ∧
  (∀ b, ram_block d' b = ram_block d b).
Proof.
  intros [H [s E]]. rewrite E in H. rewrite H. destruct d as [[] ? ? ?]. done.
Qed.

Lemma ram_read_ok bs d :
  ram_ok d →
  ∃ d', ram_read bs d = (Ret (inl (concat (map (ram_block d) bs))), d') ∧ same_ram d d'.
Proof.
  revert d. induction bs as [|b bs IH]; intros d Hd; [exists d; split; [done|apply same_ram_refl]|].
  simpl. autorewrite with run.
  assert (Hx : ∃ d1, match rBlkMap d !! b with
      | None => match ReadPattern b d with
                | Some x => mret x | None => ethrow (undefined "ReadPattern") end
      | Some buf => emodify (rstat kStatNVDReadRam 1) ;; mret (Buffer_Read buf)
      end d = (Ret (inl (ram_block d b)), d1) ∧ same_ram d d1).
  { unfold ram_block, map_block. destruct (rBlkMap d !! b) as [buf|]; autorewrite with run.
    - eexists. split; [done|]. apply rstat_same.
    - destruct (ReadPattern_ok d b Hd) as (x & Hx & _). rewrite Hx.
      exists d. split; [done|]. apply same_ram_refl. }
  destruct Hx as (d1 & Hx & Hs1). cbn [id] in *. rewrite (ebind_ok _ _ _ _ _ Hx).
  destruct (same_ram_spec _ _ Hs1) as (_ & _ & Hok & _ & Hb).
  destruct (IH d1 (Hok Hd)) as (d2 & Hy & Hs2). rewrite (ebind_ok _ _ _ _ _ Hy).
  exists d2. split; [|by eapply same_ram_trans].
  unfold mret, E_ret. do 5 f_equal. apply map_ext. done.
Qed.

(** The write loop is that of the overlay; only a counter differs. *)
Lemma ram_writes_eq lba nblk data l d :
  ∃ s, fold_left (λ d i, ram_write1 lba nblk i data d) l d =
       d <| rbase ::= λ b, b <| fStats := s |> |>
         <| rBlkMap ::= λ m, fold_left (λ m i, put_block (ram_bs d) (lba + i)
                                          (slice (ram_bs d) i data) m) l m |>.
Proof.
  revert d. induction l as [|i l IH]; intros d.
  - exists (fStats (rbase d)). by destruct d as [[] ? ? ?].
  - simpl fold_left at 1. destruct (IH (ram_write1 lba nblk i data d)) as [s IH'].
    exists s. rewrite IH'. unfold ram_write1.
    destruct (rBlkMap d !! (lba + i)); by destruct d as [[] ? ? ?].
Qed.

Lemma DiskRam_Read_ok d lba nblk :
  ram_ok d →
  ∃ d', DiskRam_Read lba nblk d = (Ret (inl (concat (map (ram_block d) (blocks lba nblk)))), d') ∧
    same_ram d d'.
Proof.
  intros Hd. unfold DiskRam_Read. autorewrite with run.
  set (d0 := rstat kStatNVDReadBlk nblk _).
  assert (Hs : same_ram d d0) by (eapply same_ram_trans; apply rstat_same).
  destruct (same_ram_spec _ _ Hs) as (_ & _ & Hok & _ & Hb).
  destruct (ram_read_ok (blocks lba nblk) d0 (Hok Hd)) as (d' & Hr & Hs').
  exists d'. split; [|by eapply same_ram_trans]. rewrite Hr. do 4 f_equal.
Qed.

Lemma DiskRam_Write_ok d lba nblk data :
  ram_ok d → 0 <= lba → 0 < nblk → Z.of_nat (length data) = nblk * ram_bs d →
  ∃ d', DiskRam_Write lba nblk data d = (Ret (inl ()), d') ∧ ram_ok d' ∧ ram_bs d' = ram_bs d ∧
    ∀ b, ram_block d' b = store_write (ram_bs d) lba nblk data (ram_block d) b.
Proof.
  intros (Hbs & Hm & Hboot & Hgeo & Hmap) Hlba Hn Hl. unfold DiskRam_Write.
  autorewrite with run. eexists. split; [reflexivity|].
  set (d0 := rstat kStatNVDWriteBlk nblk _).
  destruct (ram_writes_eq lba nblk data (seqZ 0 nblk) d0) as [s ->].
  destruct (put_blocks_ok (ram_bs d) lba nblk data (rBlkMap d)) as [H1 H2]; [lia..|done|lia|].
  split; [done|]. split; [done|]. intros b. apply H2.
Qed.

(** ** Rw11VirtDisk: the three containers behind virtual methods *)

Inductive Rw11VirtDisk (F : Type) :=
| VirtDiskFile (d : DiskFile F)
| VirtDiskOver (d : DiskOver F)
| VirtDiskRam (d : DiskRam).
Arguments VirtDiskFile {F} d.
Arguments VirtDiskOver {F} d.
Arguments VirtDiskRam {F} d.

(** A method call on the object behind a constructor. *)
Definition as_ {S T A} (c : S → T) (m : E S A) (s : S) : outcome (A + RerrMsg) * T :=
  let '(r, s) := m s in (r, c s).

Section Rw11VirtDisk.
Context {F : Type} `{!PosixFile F}.
Notation D := (Rw11VirtDisk F).

#[export] Instance Rw11VirtDisk_ops : VirtDiskOps D := {
  vd_Read lba nblk d :=
    match d with
    | VirtDiskFile d => as_ VirtDiskFile (DiskFile_Read lba nblk) d
    | VirtDiskOver d => as_ VirtDiskOver (DiskOver_Read lba nblk) d
    | VirtDiskRam d => as_ VirtDiskRam (DiskRam_Read lba nblk) d
    end;
  vd_Write lba nblk data d :=
    match d with
    | VirtDiskFile d => as_ VirtDiskFile (DiskFile_Write lba nblk data) d
    | VirtDiskOver d => as_ VirtDiskOver (DiskOver_Write lba nblk data) d
    | VirtDiskRam d => as_ VirtDiskRam (DiskRam_Write lba nblk data) d
    end }.

(** The factory: the object when [Open] succeeds, else the message. *)
Definition opened_as {S} (c : S → D) (m : E S ()) (s : S) : outcome (D + RerrMsg) :=
  match m s with
  | (Ret (inl _), s) => Ret (inl (c s))
  | (Ret (inr e), _) => Ret (inr e)
  | (Exc e, _) => Exc e
  | (NoFuel, _) => NoFuel
  end.
Definition New (default_scheme url : string) (f : F) : outcome (D + RerrMsg) :=
  let scheme := FindScheme url default_scheme in
  if bool_decide (scheme = "file"%string) then
    opened_as VirtDiskFile (DiskFile_Open url "file") (DiskFile_ctor vd_stat_table f)
  else if bool_decide (scheme = "over"%string) then
    opened_as VirtDiskOver (DiskOver_Open url) (DiskOver_ctor f)
  else if bool_decide (scheme = "ram"%string) then
    opened_as VirtDiskRam (DiskRam_Open url "file") DiskRam_ctor
  else Ret (inr (mkRerrMsg "Rw11VirtDisk::New"
                   ("Scheme '" ++ scheme ++ "' is not supported"))).

Definition disk_base (d : D) : VirtDisk :=
  match d with
  | VirtDiskFile d => base d
  | VirtDiskOver d => base (file d)
  | VirtDiskRam d => rbase d
  end.
Definition disk_WProt (d : D) : bool :=
  match d with VirtDiskOver d => DiskOver_WProt d | _ => WProt (disk_base d) end.
Definition disk_Setup (blksize nblock ncyl nhead nsect : Z) (d : D) : D :=
  let g := Setup blksize nblock ncyl nhead nsect in
  match d with
  | VirtDiskFile d => VirtDiskFile (d <| base ::= g |>)
  | VirtDiskOver d => VirtDiskOver (d <| file ::= λ f, f <| base ::= g |> |>)
  | VirtDiskRam d => VirtDiskRam (d <| rbase ::= g |>)
  end.

Context `{!PosixFileLaws F}.

(** The file must be writable, the file of an overlay only readable. *)
Definition disk_ok (d : D) : Prop :=
  match d with
  | VirtDiskFile d => file_ok true d
  | VirtDiskOver d => over_ok false d
  | VirtDiskRam d => ram_ok d
  end.
Definition disk_block (d : D) : Z → list Z :=
  match d with
  | VirtDiskFile d => file_block d
  | VirtDiskOver d => over_block d
  | VirtDiskRam d => ram_block d
  end.

Lemma disk_block_len d b :
  disk_ok d → 0 <= b →
  0 < fBlkSize (disk_base d) ∧ Z.of_nat (length (disk_block d b)) = fBlkSize (disk_base d).
Proof.
  intros Hd Hb. destruct d as [d|d|d]; simpl in *.
  - destruct Hd as [Hd _]. unfold file_block. rewrite length_window. lia.
  - destruct Hd as [[Hd _] Hm]. split; [done|]. unfold over_block, map_block.
    destruct (fBlkMap d !! b) as [buf|] eqn:E; [exact (proj2 (Hm _ _ E))|].
    unfold file_block. rewrite length_window. lia.
  - split; [apply Hd|]. unfold ram_block, map_block.
    destruct (rBlkMap d !! b) as [buf|] eqn:E; [by apply (proj2 (proj2 (proj2 (proj2 Hd)))) in E as [_ E]|].
    destruct (ReadPattern_ok d b Hd) as (x & -> & Hl). done.
Qed.

#[export] Instance Rw11VirtDisk_spec : VirtDiskSpec D.
Proof.
  refine {| vd_bs d := fBlkSize (disk_base d); vd_ok := disk_ok; vd_block := disk_block |}.
  - apply disk_block_len.
  - intros [d|d|d] lba nblk Hd Hlba Hn; simpl in *; unfold as_.
    + destruct (DiskFile_Read_ok true d lba nblk Hd Hlba Hn) as (d' & -> & Hok & Hbs & Hby).
      exists (VirtDiskFile d'). split_and!; try done.
      intros b _. simpl. unfold file_block. by rewrite Hbs, Hby.
    + destruct (DiskOver_Read_ok false d lba nblk Hd Hlba Hn) as (d' & -> & Hok & Hs).
      exists (VirtDiskOver d'). split_and!; try done; [apply Hs|].
      intros b _. by apply same_over_block.
    + destruct (DiskRam_Read_ok d lba nblk Hd) as (d' & -> & Hs).
      apply same_ram_spec in Hs as (Hbs & _ & Hok & _ & Hb).
      exists (VirtDiskRam d'). split_and!; [done|by apply Hok|done|]. intros b _. apply Hb.
  - intros [d|d|d] lba nblk data Hd Hlba Hn Hl; simpl in *; unfold as_.
    + destruct (DiskFile_Write_ok d lba nblk data Hd Hlba Hn Hl) as (d' & -> & Hok & Hbs & Hb).
      by exists (VirtDiskFile d').
    + destruct (DiskOver_Write_ok false d lba nblk data Hd Hlba Hn Hl)
        as (d' & -> & Hok & Hbs & _ & Hb).
      exists (VirtDiskOver d'). split_and!; [done..|]. intros b _. apply Hb.
    + destruct (DiskRam_Write_ok d lba nblk data Hd Hlba Hn Hl) as (d' & -> & Hok & Hbs & Hb).
      exists (VirtDiskRam d'). split_and!; [done..|]. intros b _. apply Hb.
Defined.
End Rw11VirtDisk.

(** ** Clients of the contract: a history of reads and writes *)

Inductive disk_op :=
| DRead (lba nblk : Z)
| DWrite (lba nblk : Z) (data : list Z).

Section History.
Context {D : Type} `{!VirtDiskOps D}.

(** The results of the reads. *)
Fixpoint run_disk (ops : list disk_op) : E D (list (list Z)) :=
  match ops with
  | [] => mret []
  | DRead lba nblk :: ops => x ← vd_Read lba nblk; r ← run_disk ops; mret (x :: r)
  | DWrite lba nblk data :: ops => vd_Write lba nblk data ;; run_disk ops
  end.
(** The same on an abstract store. *)
Fixpoint run_store (bs : Z) (ops : list disk_op) (st : Z → list Z) : list (list Z) :=
  match ops with
  | [] => []
  | DRead lba nblk :: ops => concat (map st (blocks lba nblk)) :: run_store bs ops st
  | DWrite lba nblk data :: ops => run_store bs ops (store_write bs lba nblk data st)
  end.
Definition op_ok (bs : Z) (o : disk_op) : Prop :=
  match o with
  | DRead lba nblk => 0 <= lba ∧ 0 < nblk
  | DWrite lba nblk data => 0 <= lba ∧ 0 < nblk ∧ Z.of_nat (length data) = nblk * bs
  end.

Lemma run_store_ext bs ops st st' :
  Forall (op_ok bs) ops → (∀ b, 0 <= b → st b = st' b) →
  run_store bs ops st = run_store bs ops st'.
Proof.
  revert st st'. induction ops as [|[lba n|lba n data] ops IH]; intros st st' Hops Heq;
    simpl; [done|..]; apply Forall_cons_iff in Hops as [Ho Hops]; simpl in Ho.
  - f_equal; [|by apply IH]. f_equal. apply map_ext_in. intros b Hb.
    apply list_elem_of_In, elem_of_seqZ in Hb. apply Heq. lia.
  - apply IH; [done|]. intros b Hb. unfold store_write. by rewrite Heq.
Qed.

Lemma run_disk_refines `{!VirtDiskSpec D} ops (d : D) :
  vd_ok d → Forall (op_ok (vd_bs d)) ops →
  ∃ d', run_disk ops d = (Ret (inl (run_store (vd_bs d) ops (vd_block d))), d') ∧ vd_ok d'.
Proof.
  revert d. induction ops as [|[lba n|lba n data] ops IH]; intros d Hd Hops; [by exists d|..];
    apply Forall_cons_iff in Hops as [Ho Hops]; simpl in Ho; simpl.
  - destruct Ho as [Hlba Hn].
    destruct (vd_read_law d lba n Hd Hlba Hn) as (d1 & Hr & Hd1 & Hbs & Hb).
    rewrite (ebind_ok _ _ _ _ _ Hr). rewrite <- Hbs in Hops.
    destruct (IH d1 Hd1 Hops) as (d2 & Hr2 & Hd2). rewrite (ebind_ok _ _ _ _ _ Hr2).
    exists d2. split; [|done]. unfold mret, E_ret. rewrite <- Hbs. do 4 f_equal.
    by apply run_store_ext.
  - destruct Ho as (Hlba & Hn & Hl).
    destruct (vd_write_law d lba n data Hd Hlba Hn Hl) as (d1 & Hw & Hd1 & Hbs & Hb).
    rewrite (ebind_ok _ _ _ _ _ Hw). rewrite <- Hbs in Hops.
    destruct (IH d1 Hd1 Hops) as (d2 & Hr2 & Hd2).
    exists d2. split; [|done]. rewrite Hr2, <- Hbs. do 3 f_equal.
    apply run_store_ext; [done|]. intros b H0. rewrite Hbs. by apply Hb.
Qed.
End History.

(** ** Histories of the overlay *)

Section OverHistory.
Context {F : Type} `{!PosixFile F, !PosixFileLaws F}.

Lemma over_history ops (d : DiskOver F) :
  over_ok true d → Forall (op_ok (over_bs d)) ops →
  ∃ r d', run_disk ops (VirtDiskOver d) = (Ret (inl r), VirtDiskOver d') ∧
    over_ok true d' ∧ file_bytes (file d') = file_bytes (file d).
Proof.
  revert d. induction ops as [|[lba n|lba n data] ops IH]; intros d Hd Hops;
    [by exists [], d|..]; apply Forall_cons_iff in Hops as [Ho Hops]; simpl in Ho; cbn [run_disk].
  - destruct (DiskOver_Read_ok true d lba n Hd) as (d1 & Hr & Hd1 & Hm & Hbs & Hby); [lia..|].
    assert (Hv : vd_Read lba n (VirtDiskOver d) = as_ VirtDiskOver (DiskOver_Read lba n) d) by done.
    unfold as_ in Hv. rewrite Hr in Hv. rewrite (ebind_ok _ _ _ _ _ Hv).
    rewrite <- Hbs in Hops. destruct (IH d1 Hd1 Hops) as (r & d2 & Hr2 & Hd2 & Hby2).
    rewrite (ebind_ok _ _ _ _ _ Hr2).
    eexists _, d2. split; [reflexivity|]. split; [done|]. congruence.
  - destruct (DiskOver_Write_ok true d lba n data Hd) as (d1 & Hw & Hd1 & Hbs & Hfd & _); [lia..|].
    assert (Hv : vd_Write lba n data (VirtDiskOver d) =
                 as_ VirtDiskOver (DiskOver_Write lba n data) d) by done.
    unfold as_ in Hv. rewrite Hw in Hv. rewrite (ebind_ok _ _ _ _ _ Hv).
    rewrite <- Hbs in Hops. destruct (IH d1 Hd1 Hops) as (r & d2 & Hr2 & Hd2 & Hby2).
    eexists _, d2. split; [exact Hr2|]. split; [done|]. rewrite Hby2.
    unfold file_bytes. by rewrite Hfd.
Qed.
End OverHistory.

(** A disk over a file in memory, for the witnesses. *)
Definition mem_disk (bs : Z) (bytes : list Z) : DiskFile MemFile :=
  mkDiskFile (Setup bs 8 2 2 2 (VirtDisk_ctor over_stat_table))
    (mkRfileFd 3 EmptyString (mkMemFile (mkOfile bytes 0 true))) (Z.of_nat (length bytes)).
Definition sample_ops : list disk_op :=
  [DWrite 1 2 [1;2;3;4;5;6;7;8]; DRead 0 4; DWrite 2 1 [9;9;9;9]; DRead 2 1].
Lemma mem_disk_ok w bs bytes : 0 < bs → file_ok w (mem_disk bs bytes).
Proof. intros H. split; [done|]. by eexists. Qed.
Lemma sample_ops_ok : Forall (op_ok 4) sample_ops.
Proof. repeat constructor; simpl; lia. Qed.

(** ** Theorems *)

(** C19: every container (file, overlay, ram disk) behind the virtual methods
    implements a store of blocks: any sequence of reads and writes terminates
    without error, and each read returns the blocks last written, or else the
    initial ones (zero filled contents of the file, or the pattern). *)
Theorem Rw11VirtDisk_refines_store {F} `{!PosixFile F, !PosixFileLaws F} ops (d : Rw11VirtDisk F) :
  disk_ok d → Forall (op_ok (fBlkSize (disk_base d))) ops →
  ∃ d', run_disk ops d = (Ret (inl (run_store (fBlkSize (disk_base d)) ops (disk_block d))), d') ∧
    disk_ok d'.
Proof. exact (run_disk_refines (VirtDiskSpec0 := Rw11VirtDisk_spec) ops d). Qed.

Lemma Rw11VirtDisk_refines_store_witness :
  let d := VirtDiskFile (mem_disk 4 [255; 254; 253]) in
  run_store 4 sample_ops (disk_block d) =
    [[255;254;253;0; 1;2;3;4; 5;6;7;8; 0;0;0;0]; [9;9;9;9]] ∧
  ∃ d', run_disk sample_ops d = (Ret (inl (run_store 4 sample_ops (disk_block d))), d') ∧ disk_ok d'.
Proof.
  split; [by vm_compute|].
  apply (Rw11VirtDisk_refines_store sample_ops (VirtDiskFile (mem_disk 4 [255; 254; 253])));
    [by apply mem_disk_ok|apply sample_ops_ok].
Defined.

(** C34: an overlay keeps its file: no sequence of reads and writes changes a byte
    of it.  A flush then brings every block of the file to what the overlay
    showed, and empties the overlay. *)
Theorem overlay_isolation {F} `{!PosixFile F, !PosixFileLaws F} ops (d : DiskOver F) :
  over_ok true d → Forall (op_ok (over_bs d)) ops →
  ∃ r d', run_disk ops (VirtDiskOver d) = (Ret (inl r), VirtDiskOver d') ∧
    file_bytes (file d') = file_bytes (file d) ∧
    if fWProt (base (file d')) then
      DiskOver_Flush d' = (Ret (inr (mkRerrMsg "Rw11VirtDiskOver::Flush()" "file write protected")), d')
    else ∃ d'', DiskOver_Flush d' = (Ret (inl ()), d'') ∧ fBlkMap d'' = ∅ ∧
           ∀ b, 0 <= b → file_block (file d'') b = over_block d' b.
Proof.
  intros Hd Hops. destruct (over_history ops d Hd Hops) as (r & d' & Hr & Hd' & Hby).
  exists r, d'. split; [done|]. split; [done|]. destruct (fWProt (base (file d'))) eqn:E.
  - unfold DiskOver_Flush. autorewrite with run. by rewrite E.
  - destruct (DiskOver_Flush_ok d' Hd' E) as (d'' & ? & _ & ? & ?). by exists d''.
Qed.

Lemma overlay_isolation_witness :
  let d := mkDiskOver (mem_disk 4 [255; 254; 253]) ∅ in
  ∃ r d', run_disk sample_ops (VirtDiskOver d) = (Ret (inl r), VirtDiskOver d') ∧
    file_bytes (file d') = file_bytes (file d) ∧
    if fWProt (base (file d')) then
      DiskOver_Flush d' = (Ret (inr (mkRerrMsg "Rw11VirtDiskOver::Flush()" "file write protected")), d')
    else ∃ d'', DiskOver_Flush d' = (Ret (inl ()), d'') ∧ fBlkMap d'' = ∅ ∧
           ∀ b, 0 <= b → file_block (file d'') b = over_block d' b.
Proof.
  apply (overlay_isolation sample_ops (mkDiskOver (mem_disk 4 [255; 254; 253]) ∅));
    [split; [by apply mem_disk_ok|apply map_Forall_empty]|apply sample_ops_ok].
Defined.

(** The count of overwritten blocks of the ram disk grows by the length of
    the transfer for each overwritten block: overwriting four blocks counts
    sixteen. *)
Theorem NVDWriteOver_counts_squares :
  let d := mkDiskRam (Setup 2 8 2 2 2 (VirtDisk_ctor ram_stat_table)) false kPatZero ∅ in
  let w := DiskRam_Write 0 4 [1;2;3;4;5;6;7;8] in
  let d2 := (w (w d).2).2 in
  nth kStatNVDWriteOver (fValue (fStats (rbase d2))) 0 = 16 ∧
  nth kStatNVDWriteBlk (fValue (fStats (rbase d2))) 0 = 8.
Proof. by vm_compute. Qed.
