(* ===== verification/UnitDisk.v ===== *)
(** * librw11/Rw11UnitDisk: disk units

    A disk unit has a geometry and, when one is attached, a container
    ([VirtDisk]).  The theorems are about the block addresses: cylinder, head
    and sector, and the test pattern that labels each block with them. *)

From S2P Require Import Prelude.
From S2P Require Import Rstats.
From S2P Require Import FileFd.
From S2P Require Import Url.
From S2P Require Import VirtDisk.

Open Scope Z_scope.

(** ** Rw11UnitDisk: the unit in front of a container *)

Record Rw11UnitDisk (D : Type) := mkUnitDisk {
  fupVirt : option D;
  ufType : string;
  ufEnabled : bool;
  ufNCyl : Z;
  ufNHead : Z;
  ufNSect : Z;
  ufBlksize : Z;
  ufNBlock : Z;
  ufWProt : bool }.
Arguments mkUnitDisk {D} _ _ _ _ _ _ _ _ _.
Arguments fupVirt {D} _.
Arguments ufType {D} _.
Arguments ufEnabled {D} _.
Arguments ufNCyl {D} _.
Arguments ufNHead {D} _.
Arguments ufNSect {D} _.
Arguments ufBlksize {D} _.
Arguments ufNBlock {D} _.
Arguments ufWProt {D} _.
#[export] Instance eta_UnitDisk {D} : Eta (Rw11UnitDisk D) := λ u,
  mkUnitDisk (fupVirt u) (ufType u) (ufEnabled u) (ufNCyl u) (ufNHead u) (ufNSect u)
    (ufBlksize u) (ufNBlock u) (ufWProt u).

Section UnitDisk.
Context {D : Type} `{!VirtDiskOps D}.
Notation U := (Rw11UnitDisk D).

Definition UnitDisk_ctor : U := mkUnitDisk None EmptyString false 0 0 0 0 0 false.
Definition HasVirt (u : U) : bool := bool_decide (is_Some (fupVirt u)).
Definition SetType (type : string) (u : U) : outcome () :=
  Exc (Rexception "Rw11UnitDisk::SetType" ("Bad args: only type '" ++ ufType u ++ "' supported")).
Definition SetWProt (wprot : bool) (u : U) : U := u <| ufWProt := wprot |>.

(** [Virt().m()], with the message of an empty unit. *)
Definition on_virt {A} (meth : string) (m : E D A) : E U A := λ u,
  match fupVirt u with
  | None => (Ret (inr (mkRerrMsg meth "no disk attached")), u)
  | Some d => let '(r, d) := m d in (r, u <| fupVirt := Some d |>)
  end.
Definition VirtRead (lba nblk : Z) : E U (list Z) :=
  on_virt "Rw11UnitDisk::VirtRead" (vd_Read lba nblk).
Definition VirtWrite (lba nblk : Z) (data : list Z) : E U () :=
  on_virt "Rw11UnitDisk::VirtWrite" (vd_Write lba nblk data).

(** [size_t] arithmetic, truncated by the return type. *)
Definition Chs2Lba (cy hd se : Z) (u : U) : Z := u32 (se + ufNSect u * (hd + ufNHead u * cy)).
Definition Lba2Chs (lba : Z) (u : U) : Z * Z * Z :=
  (u16 (lba / (ufNSect u * ufNHead u)), u16 ((lba / ufNSect u) mod ufNHead u),
   u16 (lba mod ufNSect u)).
(** [2*nwrd] is 32 bit arithmetic. *)
Definition Nwrd2Nblk (nwrd : Z) (u : U) : Z := u32 ((u32 (2 * nwrd) + ufBlksize u - 1) / ufBlksize u).
End UnitDisk.

(** Detach and attach of a container, up to the hooks of the controllers; the
    attached container gets the geometry of the unit. *)
Section Attach.
Context {F : Type} `{!PosixFile F}.

Definition Detach (u : Rw11UnitDisk (Rw11VirtDisk F)) : Rw11UnitDisk (Rw11VirtDisk F) :=
  u <| fupVirt := None |>.
Definition Attach (default_scheme url : string) (f : F) : E (Rw11UnitDisk (Rw11VirtDisk F)) () := λ u,
  let u := if HasVirt u then Detach u else u in
  if negb (ufEnabled u) then
    (Ret (inr (mkRerrMsg "Rw11UnitVirt::Attach" "unit not enabled")), u)
  else
    match New default_scheme url f with
    | Ret (inl d) =>
        (Ret (inl ()), u <| fupVirt := Some (disk_Setup (ufBlksize u) (ufNBlock u) (ufNCyl u)
                                               (ufNHead u) (ufNSect u) d) |>)
    | Ret (inr e) => (Ret (inr e), u)
    | Exc e => (Exc e, u)
    | NoFuel => (NoFuel, u)
    end.
End Attach.

(** ** Geometry *)

Definition geometry_ok {D} (u : Rw11UnitDisk D) : Prop :=
  0 < ufNSect u ∧ 0 < ufNHead u ∧ ufNSect u <= 2 ^ 16 ∧ ufNHead u <= 2 ^ 16 ∧ ufNCyl u <= 2 ^ 16 ∧
  ufNCyl u * (ufNHead u * ufNSect u) <= 2 ^ 32.
#[export] Instance geometry_ok_dec {D} (u : Rw11UnitDisk D) : Decision (geometry_ok u).
Proof. unfold geometry_ok. apply _. Defined.

(** Mixed radix: sector, head, cylinder. *)
Lemma radix (ns nh cy hd se : Z) :
  0 < ns → 0 < nh → 0 <= se < ns → 0 <= hd < nh →
  let lba := se + ns * (hd + nh * cy) in
  lba / (ns * nh) = cy ∧ (lba / ns) mod nh = hd ∧ lba mod ns = se.
Proof.
  intros Hs Hh Hse Hhd lba.
  assert (H1 : lba / ns = hd + nh * cy).
  { symmetry. apply (Z.div_unique_pos lba ns _ se); lia. }
  split; [|split].
  - rewrite <- Z.div_div by lia. rewrite H1. symmetry. apply (Z.div_unique_pos _ nh _ hd); lia.
  - rewrite H1. symmetry. apply (Z.mod_unique_pos _ nh cy hd); lia.
  - symmetry. apply (Z.mod_unique_pos _ ns (hd + nh * cy) se); lia.
Qed.

Lemma Chs2Lba_ok {D} (u : Rw11UnitDisk D) cy hd se :
  geometry_ok u → 0 <= cy < ufNCyl u → 0 <= hd < ufNHead u → 0 <= se < ufNSect u →
  Chs2Lba cy hd se u = se + ufNSect u * (hd + ufNHead u * cy) ∧
  0 <= Chs2Lba cy hd se u < ufNCyl u * (ufNHead u * ufNSect u) ∧
  Lba2Chs (Chs2Lba cy hd se u) u = (cy, hd, se).
Proof.
  intros (Hs & Hh & Hs16 & Hh16 & Hc16 & Ht) Hcy Hhd Hse.
  assert (Hr : 0 <= se + ufNSect u * (hd + ufNHead u * cy) < ufNCyl u * (ufNHead u * ufNSect u)).
  { split; [nia|].
    assert (hd + ufNHead u * cy <= ufNHead u * ufNCyl u - 1) by nia. nia. }
  unfold Chs2Lba. rewrite u32_id by (unfold is_u32; lia). split; [done|]. split; [done|].
  unfold Lba2Chs. destruct (radix (ufNSect u) (ufNHead u) cy hd se) as (-> & -> & ->); try lia.
  rewrite !u16_id by (unfold is_u16; lia). done.
Qed.

Lemma Lba2Chs_ok {D} (u : Rw11UnitDisk D) lba :
  geometry_ok u → 0 <= lba < ufNCyl u * (ufNHead u * ufNSect u) →
  let '(cy, hd, se) := Lba2Chs lba u in
  0 <= cy < ufNCyl u ∧ 0 <= hd < ufNHead u ∧ 0 <= se < ufNSect u ∧ Chs2Lba cy hd se u = lba.
Proof.
  intros (Hs & Hh & Hs16 & Hh16 & Hc16 & Ht) Hlba. unfold Lba2Chs.
  set (ns := ufNSect u) in *. set (nh := ufNHead u) in *. set (nc := ufNCyl u) in *.
  assert (H1 := Z.mod_pos_bound lba ns Hs). assert (H2 := Z.mod_pos_bound (lba / ns) nh Hh).
  assert (H3 : 0 <= lba / (ns * nh) < nc).
  { split; [apply Z.div_pos; nia|]. apply Z.div_lt_upper_bound; nia. }
  rewrite !u16_id by (unfold is_u16; lia). split; [done|]. split; [done|]. split; [done|].
  unfold Chs2Lba. fold ns nh. rewrite <- Z.div_div by lia.
  rewrite (Z.add_comm _ (nh * _)), <- (Z.div_mod (lba / ns) nh) by lia.
  rewrite Z.add_comm, <- Z.div_mod by lia. apply u32_id. unfold is_u32. lia.
Qed.

(** ** Theorems *)

(** Cylinder, head and sector number a disk without gaps: for every geometry
    of up to 2^32 blocks the two conversions are inverse bijections between
    the addresses of the disk and its block numbers. *)
Theorem Chs2Lba_bijection {D} (u : Rw11UnitDisk D) :
  geometry_ok u →
  (∀ cy hd se, 0 <= cy < ufNCyl u → 0 <= hd < ufNHead u → 0 <= se < ufNSect u →
     0 <= Chs2Lba cy hd se u < ufNCyl u * (ufNHead u * ufNSect u) ∧
     Lba2Chs (Chs2Lba cy hd se u) u = (cy, hd, se)) ∧
  (∀ lba, 0 <= lba < ufNCyl u * (ufNHead u * ufNSect u) →
     let '(cy, hd, se) := Lba2Chs lba u in
     0 <= cy < ufNCyl u ∧ 0 <= hd < ufNHead u ∧ 0 <= se < ufNSect u ∧ Chs2Lba cy hd se u = lba).
Proof.
  intros Hu. split.
  - intros cy hd se Hcy Hhd Hse. by destruct (Chs2Lba_ok u cy hd se Hu Hcy Hhd Hse) as (_ & ? & ?).
  - intros lba Hlba. by apply Lba2Chs_ok.
Qed.

(** The rk05 disk. *)
Definition rk05 : Rw11UnitDisk DiskRam :=
  mkUnitDisk None "rk05" true 203 2 12 512 (203 * 2 * 12) false.
Lemma Chs2Lba_bijection_witness :
  Chs2Lba 5 1 3 rk05 = 135 ∧ Lba2Chs 135 rk05 = (5, 1, 3).
Proof.
  destruct (Chs2Lba_bijection rk05) as [H _]; [by apply (bool_decide_unpack _); vm_compute|].
  destruct (H 5 1 3) as [_ H1]; [by vm_compute..|]. split; [reflexivity|exact H1].
Defined.

(** The test pattern of the ram disk labels every block: word group [k] of
    block [lba] holds the byte address of the group modulo 2^32, the
    cylinder, head and sector the unit computes for the block, and the
    geometry; and the unit computes the block number back from them. *)
Theorem test_pattern_labels {D} (u : Rw11UnitDisk D) d lba :
  geometry_ok u → ram_ok d → fPatTyp d = kPatTest → fNoBoot d = false →
  fNCyl (rbase d) = ufNCyl u → fNHead (rbase d) = ufNHead u → fNSect (rbase d) = ufNSect u →
  0 <= lba < ufNCyl u * (ufNHead u * ufNSect u) →
  let '(cy, hd, se) := Lba2Chs lba u in
  Chs2Lba cy hd se u = lba ∧
  ReadPattern lba d = Some (words_bytes (concat (map (λ k,
    let addr := lba * ram_bs d + 16 * Z.of_nat k in
    [u16 addr; u16 (Z.shiftr addr 16); cy; hd; se; u16 (ufNCyl u); u16 (ufNHead u); u16 (ufNSect u)])
    (seq 0 (Z.to_nat (ram_bs d / 16)))))).
Proof.
  intros Hu (Hbs & Hm & _ & Hgeo & _) Hp Hb Hc Hh Hs Hlba.
  assert (Hl := Lba2Chs_ok u lba Hu Hlba). unfold Lba2Chs in *.
  split; [apply Hl|]. unfold ReadPattern. rewrite Hb, andb_false_r, Hp in *.
  destruct Hgeo as [Hg1 Hg2]; [done|].
  rewrite !(proj2 (Z.eqb_neq _ _)) by lia. rewrite orb_false_l, (proj2 (Z.eqb_eq _ _) Hm).
  do 2 f_equal. unfold pattern_words. f_equal. apply map_ext. intros k. cbn [pattern_turn turn_bytes].
  unfold test_words. rewrite Hc, Hh, Hs. done.
Qed.

Definition sample_ram : DiskRam :=
  mkDiskRam (Setup 32 4872 203 2 12 (VirtDisk_ctor ram_stat_table)) false kPatTest ∅.
Lemma test_pattern_labels_witness :
  ReadPattern 135 sample_ram =
    Some (words_bytes [0x10e0; 0; 5; 1; 3; 203; 2; 12; 0x10f0; 0; 5; 1; 3; 203; 2; 12]).
Proof.
  refine (proj2 (test_pattern_labels rk05 sample_ram 135 _ _ eq_refl eq_refl eq_refl eq_refl eq_refl _)).
  - by apply (bool_decide_unpack _); vm_compute.
  - by split_and!.
  - by vm_compute.
Defined.

