(* ===== verification/Stream.v ===== *)
(** * librw11/Rw11VirtStream, Rw11UnitStream: byte streams

    A stream is a file of the C library that is read or written from the front:
    the paper of a printer or puncher, the tape in a reader.  The calls of the
    library are the operations of the class [StdioFile]; [StdioLaws] states what
    the C standard says of them for an open stream without an error; [StdFile], a
    single stream held in memory, implements both.

    A [FILE*] is a number, 0 for the null pointer.  [vs_sys] is the system as the
    stream sees it. *)

From Stdlib Require Import Ascii String.
From S2P Require Import Prelude.
From S2P Require Import Rstats.
From S2P Require Import FileFd.
From S2P Require Import Url.
From S2P Require Import Rtools.

#[local] Open Scope string_scope.
Open Scope Z_scope.

(** ** The C library *)

Definition kSeekSet : Z := 0.
Definition kSeekEnd : Z := 2.
(** [st_fread]: the bytes delivered; [st_fwrite]: how many were taken. *)
Class StdioFile (F : Type) := {
  st_fopen : string → string → F → Z * F;
  st_fread : Z → nat → F → list Z * F;
  st_fwrite : Z → list Z → F → Z * F;
  st_fflush : Z → F → Z * F;
  st_ftell : Z → F → Z * F;
  st_fseek : Z → Z → Z → F → Z * F;
  st_ferror : Z → F → bool;
  st_feof : Z → F → bool;
  st_errno : F → string }.

(** An open stream: contents, position, whether it is written, and whether the end
    was met by a read. *)
Record sfile := mkSfile { sf_data : list Z; sf_pos : nat; sf_write : bool; sf_eof : bool }.
Class StdioLaws (F : Type) `{!StdioFile F} := {
  sopened : F → Z → option sfile;
  fread_law f h o n : sopened f h = Some o → sf_write o = false →
    let d := take n (drop (sf_pos o) (sf_data o)) in
    ∃ f', st_fread h n f = (d, f') ∧
      sopened f' h = Some (mkSfile (sf_data o) (sf_pos o + length d) false (sf_eof o || (length d <? n)%nat));
  fwrite_law f h o d : sopened f h = Some o → sf_write o = true →
    ∃ f', st_fwrite h d f = (Z.of_nat (length d), f') ∧
      sopened f' h = Some (mkSfile (splice (sf_pos o) d (sf_data o)) (sf_pos o + length d) true (sf_eof o));
  fflush_law f h o : sopened f h = Some o → sf_write o = true →
    ∃ f', st_fflush h f = (0, f') ∧ sopened f' h = Some o;
  ferror_law f h o : sopened f h = Some o → st_ferror h f = false;
  feof_law f h o : sopened f h = Some o → st_feof h f = sf_eof o }.

(** A single stream, under handle 1. *)
Record StdFile := mkStdFile { sd_file : sfile }.
Definition std_fopen (mode : string) (f : StdFile) : Z * StdFile :=
  let o := sd_file f in
  (1, mkStdFile (if String.eqb mode "r" then mkSfile (sf_data o) 0 false false
                 else if String.eqb mode "a" then mkSfile (sf_data o) (length (sf_data o)) true false
                 else mkSfile [] 0 true false)).
Definition std_fread (n : nat) (f : StdFile) : list Z * StdFile :=
  let o := sd_file f in
  let d := take n (drop (sf_pos o) (sf_data o)) in
  (d, mkStdFile (mkSfile (sf_data o) (sf_pos o + length d) false (sf_eof o || (length d <? n)%nat))).
Definition std_fwrite (d : list Z) (f : StdFile) : Z * StdFile :=
  let o := sd_file f in
  if sf_write o then
    (Z.of_nat (length d), mkStdFile (mkSfile (splice (sf_pos o) d (sf_data o)) (sf_pos o + length d) true (sf_eof o)))
  else (0, f).
Definition std_fseek (pos whence : Z) (f : StdFile) : Z * StdFile :=
  let o := sd_file f in
  let target := if whence =? kSeekEnd then Z.of_nat (length (sf_data o)) + pos else pos in
  (0, mkStdFile (mkSfile (sf_data o) (Z.to_nat target) (sf_write o) false)).
#[export] Instance StdFile_stdio : StdioFile StdFile := {
  st_fopen _ := std_fopen;
  st_fread _ := std_fread;
  st_fwrite _ := std_fwrite;
  st_fflush _ f := (0, f);
  st_ftell _ f := (Z.of_nat (sf_pos (sd_file f)), f);
  st_fseek _ := std_fseek;
  st_ferror _ _ := false;
  st_feof _ f := sf_eof (sd_file f);
  st_errno _ := "errno" }.
#[export] Instance StdFile_laws : StdioLaws StdFile.
Proof.
  refine {| sopened f h := if h =? 1 then Some (sd_file f) else None |};
    intros f h o; destruct (h =? 1); try done.
  - intros n [= <-] Hw d. by eexists.
  - intros d [= <-] Hw. eexists. cbn. unfold std_fwrite. by rewrite Hw.
  - intros [= <-] Hw. by eexists.
  - by intros [= <-].
Defined.

(** ** Rw11VirtStream *)

Definition kStatNVSRead : nat := 0.
Definition kStatNVSReadByt : nat := 1.
Definition kStatNVSWrite : nat := 2.
Definition kStatNVSWriteByt : nat := 3.
Definition kStatNVSFlush : nat := 4.
Definition kStatNVSTell : nat := 5.
Definition kStatNVSSeek : nat := 6.
Definition stream_stat_table : list (string * string) :=
  [("NVSRead", "Read() calls"); ("NVSReadByt", "bytes read"); ("NVSWrite", "Write() calls");
   ("NVSWriteByt", "bytes written"); ("NVSFlush", "Flush() calls"); ("NVSTell", "Tell() calls");
   ("NVSSeek", "Seek() calls")].

Record Rw11VirtStream (F : Type) := mkVirtStream {
  vs_fUrl : RparseUrl;
  vs_fWProt : bool;
  vs_fStats : Rstats;
  fIStream : bool;
  fOStream : bool;
  fFile : Z;
  vs_sys : F }.
Arguments mkVirtStream {F}. Arguments vs_fUrl {F} _. Arguments vs_fWProt {F} _. Arguments vs_fStats {F} _.
Arguments fIStream {F} _. Arguments fOStream {F} _. Arguments fFile {F} _. Arguments vs_sys {F} _.
#[export] Instance eta_VirtStream {F} : Eta (Rw11VirtStream F) := λ v,
  mkVirtStream (vs_fUrl v) (vs_fWProt v) (vs_fStats v) (fIStream v) (fOStream v) (fFile v) (vs_sys v).
Definition VirtStream_ctor {F} (f : F) : Rw11VirtStream F :=
  mkVirtStream RparseUrl_ctor false (Define_all stream_stat_table) false false 0 f.
(** [int] of a [long]. *)
Definition s32 (z : Z) : Z := if u32 z <? 2 ^ 31 then u32 z else u32 z - 2 ^ 32.

Section Stream.
Context {F : Type} `{!StdioFile F, !PosixNames F}.
Notation VS := (Rw11VirtStream F).

Definition sstat (ind : nat) (n : Z) : E VS () := emodify (λ v : VS, v <| vs_fStats ::= inc ind n |>).
Definition bad_state (meth text : string) : exn := Rexception ("Rw11VirtStream::" ++ meth) ("Bad state: " ++ text).
Definition ethrow_if (b : bool) (e : exn) : E VS () := if b then ethrow e else mret ().
(** A call with the [FILE*]. *)
Definition std_call {A} (f : Z → F → A * F) : E VS A := λ v,
  let '(a, s) := f (fFile v) (vs_sys v) in (Ret (inl a), v <| vs_sys := s |>).
(** [emsg.InitErrno(meth, text, errno); return false;] *)
Definition sfail {A} (meth text : string) : E VS A := λ v,
  (Ret (inr (mkRerrMsg ("Rw11VirtStream::" ++ meth ++ "()") (text ++ st_errno (vs_sys v)))), v).

(** [opts]: the context options of the unit. *)
Definition Open (attachopts url : string) : E VS () := λ v,
  match Set_url attachopts "|ronly|wonly|" RparseUrl_ctor with
  | (Ret (inl ()), opts) =>
      (emodify (λ v : VS, v <| fIStream := FindOpt "ronly" opts |> <| fOStream := FindOpt "wonly" opts |>) ;;
       io ← egets (λ v : VS, xorb (fIStream v) (fOStream v));
       ethrow_if (negb io) (bad_state "Open" "neither ronly nor wonly seen") ;;
       out ← egets (@fOStream F);
       (if (out : bool) then
          ezoom (@vs_fUrl F) (Set_url url "|app|bck=|") ;;
          purl ← egets (@vs_fUrl F);
          ezoom (@vs_sys F) (CreateBackupFile_url purl)
        else
          emodify (λ v : VS, v <| vs_fWProt := true |>) ;;
          ezoom (@vs_fUrl F) (Set_url url EmptyString)) ;;
       purl ← egets (@vs_fUrl F);
       let mode := if (out : bool) then (if FindOpt "app" purl then "a" else "w") else "r" in
       h ← std_call (λ _ : Z, st_fopen (fPath purl) mode);
       emodify (λ v : VS, v <| fFile := h |>) ;;
       if h =? 0 then sfail "Open" ("fopen() for '" ++ fPath purl ++ "' failed: ") else mret ()) v
  | (Ret (inr e), _) => (Ret (inr e), v)
  | (Exc e, _) => (Exc e, v)
  | (NoFuel, _) => (NoFuel, v)
  end.
(** The return code -1 is the failure. *)
Definition Read (count : nat) : E VS (list Z) := λ v,
  (ethrow_if (negb (fIStream v)) (bad_state "Read" "Read() called but fIStream=false") ;;
   ethrow_if (fFile v =? 0) (bad_state "Read" "file not open") ;;
   sstat kStatNVSRead 1 ;;
   d ← std_call (λ h, st_fread h count);
   err ← egets (λ v : VS, st_ferror (fFile v) (vs_sys v));
   if (length d =? 0)%nat && err then sfail "Read" "fread() failed: "
   else sstat kStatNVSReadByt (Z.of_nat (length d)) ;; mret d) v.
Definition Write (d : list Z) : E VS () := λ v,
  (ethrow_if (negb (fOStream v)) (bad_state "Write" "Write() called but fOStream=false") ;;
   ethrow_if (fFile v =? 0) (bad_state "Write" "file not open") ;;
   sstat kStatNVSWrite 1 ;;
   irc ← std_call (λ h, st_fwrite h d);
   if negb (irc =? Z.of_nat (length d)) then sfail "Write" "fwrite() failed: "
   else sstat kStatNVSWriteByt (Z.of_nat (length d))) v.
Definition Flush : E VS () := λ v,
  if negb (fOStream v) then (Ret (inl ()), v)
  else
    (ethrow_if (fFile v =? 0) (bad_state "Write" "file not open") ;;
     sstat kStatNVSFlush 1 ;;
     irc ← std_call st_fflush;
     if negb (irc =? 0) then sfail "Flush" "fflush() failed: " else mret ()) v.
Definition Tell : E VS Z := λ v,
  (ethrow_if (fFile v =? 0) (bad_state "Tell" "file not open") ;;
   sstat kStatNVSTell 1 ;;
   irc ← std_call st_ftell;
   if irc <? 0 then sfail "Tell" "ftell() failed: " else mret (s32 irc)) v.
Definition Seek (pos : Z) : E VS () := λ v,
  (ethrow_if (fFile v =? 0) (bad_state "Seek" "file not open") ;;
   sstat kStatNVSSeek 1 ;;
   let '(p, whence) := if pos <? 0 then (0, kSeekEnd) else (pos, kSeekSet) in
   irc ← std_call (λ h, st_fseek h p whence);
   if irc <? 0 then sfail "Seek" "fseek() failed: " else mret ()) v.
Definition Error (v : VS) : bool := if fFile v =? 0 then true else st_ferror (fFile v) (vs_sys v).
Definition Eof (v : VS) : bool := if fFile v =? 0 then true else st_feof (fFile v) (vs_sys v).

Definition New (attachopts url : string) (f : F) : outcome (VS + RerrMsg) :=
  match Open attachopts url (VirtStream_ctor f) with
  | (Ret (inl ()), v) => Ret (inl v)
  | (Ret (inr e), _) => Ret (inr e)
  | (Exc e, _) => Exc e
  | (NoFuel, _) => NoFuel
  end.
End Stream.

(** ** Rw11UnitStream *)

Definition kStatNPreAttDrop : nat := 0.
Definition kStatNPreAttMiss : nat := 1.
Definition unit_stat_table : list (string * string) :=
  [("NPreAttDrop", "output bytes dropped prior attach"); ("NPreAttMiss", "input bytes missed prior attach")].
Record Rw11UnitStream (F : Type) := mkUnitStream {
  us_fupVirt : option (Rw11VirtStream F);
  us_fAttachOpts : string;
  us_fStats : Rstats }.
Arguments mkUnitStream {F}. Arguments us_fupVirt {F} _. Arguments us_fAttachOpts {F} _. Arguments us_fStats {F} _.
#[export] Instance eta_UnitStream {F} : Eta (Rw11UnitStream F) := λ u,
  mkUnitStream (us_fupVirt u) (us_fAttachOpts u) (us_fStats u).

Section Unit.
Context {F : Type} `{!StdioFile F}.
Notation VS := (Rw11VirtStream F).
Notation US := (Rw11UnitStream F).

(** With the options the derived classes set. *)
Definition UnitStream_ctor (attachopts : string) : US := mkUnitStream None attachopts (Define_all unit_stat_table).
Definition HasVirt (u : US) : bool := bool_decide (is_Some (us_fupVirt u)).
Definition ustat (ind : nat) (n : Z) (u : US) : US := u <| us_fStats ::= inc ind n |>.
(** [Virt().m()]; [drop]: what is counted when no stream is attached. *)
Definition on_virt {A} (drop : US → US) (meth : string) (m : E VS A) : E US A := λ u,
  match us_fupVirt u with
  | None => (Ret (inr (mkRerrMsg ("Rw11UnitStream::" ++ meth) "no stream attached")), drop u)
  | Some v => let '(r, v) := m v in (r, u <| us_fupVirt := Some v |>)
  end.
Definition VirtRead (count : nat) : E US (list Z) := on_virt (ustat kStatNPreAttMiss 1) "VirtRead" (Read count).
Definition VirtWrite (d : list Z) : E US () :=
  on_virt (ustat kStatNPreAttDrop (Z.of_nat (length d))) "VirtWrite" (Write d).
Definition VirtFlush : E US () := on_virt id "VirtFlush" Flush.
(** The message of a failure is thrown. *)
Definition or_throw {A} (m : E US A) : M US A := λ u,
  match m u with
  | (Ret (inl a), u) => (Ret a, u)
  | (Ret (inr e), u) => (Exc (Rexception (em_meth e) (em_text e)), u)
  | (Exc e, u) => (Exc e, u)
  | (NoFuel, u) => (NoFuel, u)
  end.
Definition SetPos (pos : Z) : M US () := or_throw (on_virt id "SetPos" (Seek pos)).
Definition Pos : M US Z := λ u,
  if HasVirt u then
    (irc ← or_throw (on_virt id "Pos" Tell);
     if irc <? 0 then throw (Rexception EmptyString EmptyString) else mret irc) u
  else (Ret (-1), u).
End Unit.

(** ** What the calls do *)

Section Spec.
Context {F : Type} `{!StdioFile F, !StdioLaws F}.
Notation VS := (Rw11VirtStream F).
Notation US := (Rw11UnitStream F).

(** The open file of a unit. *)
Definition holds_file (u : US) (o : sfile) : Prop := ∃ v, us_fupVirt u = Some v ∧
  fFile v ≠ 0 ∧ fOStream v = sf_write o ∧ fIStream v = negb (sf_write o) ∧ sopened (vs_sys v) (fFile v) = Some o.
(** The unit prints behind [data]. *)
Definition prints_at (u : US) (data : list Z) : Prop :=
  ∃ eof, holds_file u (mkSfile data (length data) true eof).
(** The unit has [rest] to read; at the end of the file [eof] is set when a read
    met it. *)
Definition reads_at (u : US) (rest : list Z) (eof : bool) : Prop :=
  ∃ o, holds_file u o ∧ sf_write o = false ∧ drop (sf_pos o) (sf_data o) = rest ∧ sf_eof o = eof ∧
    (eof = true → rest = []).

Lemma splice_behind (d data : list Z) : splice (length data) d data = (data ++ d)%list.
Proof.
  destruct d as [|x d]; [by rewrite app_nil_r|]. unfold splice, resized.
  rewrite Nat.sub_diag, app_nil_r, firstn_all, drop_ge by lia. by rewrite app_nil_r.
Qed.
Lemma holds_virt u o : holds_file u o → ∃ v, us_fupVirt u = Some v ∧ HasVirt u = true ∧ Error v = false ∧ Eof v = sf_eof o.
Proof.
  intros (v & Hv & Hf & _ & _ & Ho). exists v. split; [done|]. split; [by apply bool_decide_eq_true_2; rewrite Hv|].
  unfold Error, Eof. rewrite (proj2 (Z.eqb_neq _ _)) by done. split; [by eapply ferror_law|by apply feof_law].
Qed.
Lemma VirtWrite_ok u data d : prints_at u data → ∃ u', VirtWrite d u = (Ret (inl ()), u') ∧ prints_at u' (data ++ d)%list.
Proof.
  intros (eof & v & Hv & Hf & Ho & Hi & Hs). destruct (fwrite_law _ _ _ d Hs eq_refl) as (f' & E & Hs').
  eexists. split.
  - unfold VirtWrite, on_virt, Write. rewrite Hv, Ho, (proj2 (Z.eqb_neq _ _)) by done. cbn [sf_write negb ethrow_if].
    rewrite !ebind_mret. unfold sstat. rewrite ebind_emodify. unfold std_call, mbind, E_bind. cbn. rewrite E, Z.eqb_refl. reflexivity.
  - exists eof. eexists. split; [reflexivity|]. cbn. split_and!; try done. cbn in Hs'.
    by rewrite splice_behind, length_app in *.
Qed.
Lemma VirtFlush_ok u data : prints_at u data → ∃ u', VirtFlush u = (Ret (inl ()), u') ∧ prints_at u' data.
Proof.
  intros (eof & v & Hv & Hf & Ho & Hi & Hs). destruct (fflush_law _ _ _ Hs eq_refl) as (f' & E & Hs').
  eexists. split.
  - unfold VirtFlush, on_virt, Flush. rewrite Hv, Ho, (proj2 (Z.eqb_neq _ _)) by done. cbn [sf_write negb ethrow_if].
    rewrite !ebind_mret. unfold sstat. rewrite ebind_emodify. unfold std_call, mbind, E_bind. cbn. rewrite E. reflexivity.
  - exists eof. eexists. split; [reflexivity|]. by split_and!.
Qed.
(** A byte at a time. *)
Lemma VirtRead_ok u rest eof : reads_at u rest eof → ∃ u', VirtRead 1 u = (Ret (inl (take 1 rest)), u') ∧
  reads_at u' (drop 1 rest) (eof || bool_decide (rest = [])).
Proof.
  intros (o & (v & Hv & Hf & Ho & Hi & Hs) & Hw & Hr & He & Hend).
  destruct (fread_law _ _ _ 1%nat Hs Hw) as (f' & E & Hs'). rewrite Hr in *.
  eexists. split.
  - unfold VirtRead, on_virt, Read. rewrite Hv, Hi, Hw, (proj2 (Z.eqb_neq _ _)) by done. cbn [sf_write negb ethrow_if].
    rewrite !ebind_mret. unfold sstat. rewrite ebind_emodify. unfold std_call, mbind, E_bind. cbn. rewrite E. cbn.
    erewrite ferror_law by done. rewrite andb_false_r. reflexivity.
  - assert (Hl : length (take 1 rest) = (1 - (if bool_decide (rest = []) then 1 else 0))%nat) by (by destruct rest).
    eexists (mkSfile _ _ false _). split; [eexists; split; [reflexivity|]; split_and!; [done|etrans; [exact Ho|exact Hw]|etrans; [exact Hi|by rewrite Hw]|exact Hs']|].
    cbn. split_and!; [done| | |].
    + rewrite <- drop_drop, Hr, Hl. by destruct rest.
    + rewrite He, Hl. by destruct rest.
    + destruct rest; [done|]. intros ?%orb_true_iff. destruct H as [H|H]; [by apply Hend in H|done].
Qed.
End Spec.
