(* ===== verification/VirtTape.v ===== *)
(** * librw11/Rw11VirtTape, Rw11VirtTapeTap, Rw11UnitTape: virtual tapes

    A tape container in the TAP format of the simh and e11 simulators: a
    record is its length, the data, and the length again; a file mark is a
    zero length; the medium ends at the end of the file or at an all ones
    length.  This file holds the code; [TapeSpec] relates it to a tape as a
    sequence of records and marks.

    Lengths and positions ([size_t]) are [Z]. *)

From Stdlib Require Import Ascii.
From S2P Require Import Prelude.
From S2P Require Import Rstats.
From S2P Require Import FileFd.
From S2P Require Import Url.
From S2P Require Import Rtools.

Open Scope Z_scope.

(** ** Data *)

Inductive OpCode :=
| kOpCodeOK
| kOpCodeBot
| kOpCodeEof
| kOpCodeEom
| kOpCodeRecLenErr
| kOpCodeBadParity
| kOpCodeBadFormat.
#[export] Instance OpCode_eq_dec : EqDecision OpCode.
Proof. solve_decision. Defined.

Definition kMetaEof : Z := 0x00000000.
Definition kMetaEom : Z := 0xffffffff.
Definition kMeta_M_Perr : Z := 0x80000000.
Definition kMeta_M_Mbz : Z := 0x7fff0000.
Definition kMeta_B_Rlen : Z := 0x0000ffff.

Definition kStatNVTReadRec : nat := 0.
Definition kStatNVTReadByt : nat := 1.
Definition kStatNVTReadEof : nat := 2.
Definition kStatNVTReadEom : nat := 3.
Definition kStatNVTReadPErr : nat := 4.
Definition kStatNVTReadLErr : nat := 5.
Definition kStatNVTWriteRec : nat := 6.
Definition kStatNVTWriteByt : nat := 7.
Definition kStatNVTWriteEof : nat := 8.
Definition kStatNVTSpaForw : nat := 9.
Definition kStatNVTSpaBack : nat := 10.
Definition kStatNVTRewind : nat := 11.
Definition tape_stat_table : list (string * string) := [
  ("NVTReadRec", "ReadRecord() calls"); ("NVTReadByt", "bytes read");
  ("NVTReadEof", "eof read"); ("NVTReadEom", "eom read");
  ("NVTReadPErr", "parity error read"); ("NVTReadLErr", "length error read");
  ("NVTWriteRec", "WriteRecord() calls"); ("NVTWriteByt", "bytes written");
  ("NVTWriteEof", "WriteEof() calls"); ("NVTSpaForw", "SpaceForw() calls");
  ("NVTSpaBack", "SpaceBack() calls"); ("NVTRewind", "Rewind() calls")]%string.

(** The members of Rw11Virt, Rw11VirtTape and Rw11VirtTapeTap. *)
Record TapeTap (F : Type) := mkTapeTap {
  fUrl : RparseUrl;
  fWProt : bool;
  fStats : Rstats;
  fCapacity : Z;
  fBot : bool;
  fEot : bool;
  fEom : bool;
  fPosFile : Z;
  fPosRecord : Z;
  fFd : RfileFd F;
  fSize : Z;
  fPos : Z;
  fBad : bool;
  fPadOdd : bool;
  fTruncPend : bool }.
Arguments mkTapeTap {F} _ _ _ _ _ _ _ _ _ _ _ _ _ _ _.
Arguments fUrl {F} _.
Arguments fWProt {F} _.
Arguments fStats {F} _.
Arguments fCapacity {F} _.
Arguments fBot {F} _.
Arguments fEot {F} _.
Arguments fEom {F} _.
Arguments fPosFile {F} _.
Arguments fPosRecord {F} _.
Arguments fFd {F} _.
Arguments fSize {F} _.
Arguments fPos {F} _.
Arguments fBad {F} _.
Arguments fPadOdd {F} _.
Arguments fTruncPend {F} _.
#[export] Instance eta_TapeTap {F} : Eta (TapeTap F) := λ t,
  mkTapeTap (fUrl t) (fWProt t) (fStats t) (fCapacity t) (fBot t) (fEot t) (fEom t)
    (fPosFile t) (fPosRecord t) (fFd t) (fSize t) (fPos t) (fBad t) (fPadOdd t) (fTruncPend t).

(** A call: the object and the output parameters, which the methods also set
    when they fail. *)
Record Call (F : Type) := mkCall {
  tape : TapeTap F; opcode : OpCode; ndone : Z; rdata : list Z }.
Arguments mkCall {F} _ _ _ _.
Arguments tape {F} _.
Arguments opcode {F} _.
Arguments ndone {F} _.
Arguments rdata {F} _.
#[export] Instance eta_Call {F} : Eta (Call F) := λ c,
  mkCall (tape c) (opcode c) (ndone c) (rdata c).

(** Words of 32 bits in the file: least significant byte first. *)
Definition le32 (z : Z) : list Z :=
  [u8 z; u8 (Z.shiftr z 8); u8 (Z.shiftr z 16); u8 (Z.shiftr z 24)].
Definition of_le32 (bs : list Z) : option Z :=
  match bs with
  | [a; b; c; d] => Some (a + 2 ^ 8 * b + 2 ^ 16 * c + 2 ^ 24 * d)
  | _ => None
  end.

Section TapeTap.
Context {F : Type} `{!PosixFile F}.
Notation T := (TapeTap F).
Notation C := (Call F).

Definition TapeTap_ctor (f : F) : T :=
  mkTapeTap RparseUrl_ctor false (Define_all tape_stat_table) 0 false false true (-1) (-1)
    (Rfd_ctor "Rw11VirtTapeTap::fFd." f) 0 0 true false false.
Definition SetCapacity (nbyte : Z) (t : T) : T := t <| fCapacity := nbyte |>.
Definition tstat (ind : nat) (val : Z) (t : T) : T := t <| fStats ::= inc ind val |>.

(** ** Open *)

(** The last character and the text in front of it. *)
Fixpoint split_end (s : string) : option (string * ascii) :=
  match s with
  | EmptyString => None
  | String c s' => match split_end s' with
                   | None => Some (EmptyString, c)
                   | Some (p, x) => Some (String c p, x)
                   end
  end.
(** The capacity option; [None] is the error. *)
Definition parse_cap (str_cap : string) : option Z :=
  match split_end str_cap with
  | None => Some 0
  | Some (pre, clast) =>
      let scaled := λ scale s, match String2Long s with
        | inl c => Some (c * scale mod 2 ^ 64) | inr _ => None end in
      if is_digit clast then scaled 1 str_cap
      else if bool_decide (clast = "k"%char ∨ clast = "K"%char) then scaled 1024 pre
      else if bool_decide (clast = "m"%char ∨ clast = "M"%char) then scaled (1024 * 1024) pre
      else None
  end.

Definition Open (url : string) : E T () :=
  ezoom fUrl (Set_scheme url "|wpro|e11|cap=|" "tap") ;;
  emodify (λ t, t <| fWProt := FindOpt "wpro" (fUrl t) |>
                  <| fPadOdd := FindOpt "e11" (fUrl t) |>) ;;
  o ← egets (λ t, FindOpt_value "cap" (fUrl t));
  capacity ← match o with
             | None => mret 0
             | Some str_cap =>
                 match parse_cap str_cap with
                 | Some c => mret c
                 | None => fail (mkRerrMsg "Rw11VirtTapeTap::Open()"
                                   ("bad capacity option '" ++ str_cap ++ "'"))
                 end
             end;
  t ← egets id;
  ezoom fFd (FileFd.Open (fPath (fUrl t))
               (if fWProt t then O_RDONLY else Z.lor O_CREAT O_RDWR)
               (Z.lor (Z.lor S_IRUSR S_IWUSR) S_IRGRP)) ;;
  '(size, mode) ← on_fail (λ t, t <| fFd ::= Close |>) (ezoom fFd Stat);
  (if Z.land mode S_IWUSR =? 0 then emodify (λ t, t <| fWProt := true |>) else mret ()) ;;
  emodify (λ t, t <| fSize := size |> <| fPos := 0 |> <| fBad := false |>
                  <| fTruncPend := true |> <| fCapacity := capacity |> <| fBot := true |>
                  <| fEot := false |> <| fEom := false |> <| fPosFile := 0 |>
                  <| fPosRecord := 0 |>).

(** ** Primitives *)

Definition UpdatePos (nbyt dir : Z) (t : T) : T :=
  let t := if dir =? 0 then t <| fPos := nbyt |>
           else if 0 <? dir then t <| fPos ::= Z.add nbyt |>
           else t <| fPos ::= λ p, p - nbyt |> in
  t <| fBot := (fPos t =? 0) |>
    <| fEot := if fCapacity t =? 0 then false else fCapacity t <? fPos t |>.
Definition Seek (seekpos dir : Z) : E T () :=
  ezoom fFd (FileFd.Seek (if dir <? 0 then - seekpos else seekpos)
               (if dir =? 0 then SEEK_SET else SEEK_CUR)) ;;
  emodify (UpdatePos seekpos dir).
Definition Read (nbyt : Z) : E T (list Z) :=
  '(irc, d) ← ezoom fFd (FileFd.Read nbyt);
  emodify (UpdatePos nbyt 1) ;;
  mret d.
(** A read into a word: a short read leaves it uninitialised. *)
Definition Read_meta : E T Z :=
  d ← Read 4;
  match of_le32 d with
  | Some m => mret m
  | None => ethrow (undefined "short read of a meta word")
  end.
Definition Write (d : list Z) (back : bool) : E T () :=
  pend ← egets fTruncPend;
  (if pend : bool then
     pos ← egets fPos;
     ezoom fFd (Truncate pos) ;;
     emodify (λ t, t <| fTruncPend := false |> <| fSize := fPos t |>)
   else mret ()) ;;
  ezoom fFd (WriteAll d) ;;
  emodify (UpdatePos (Z.of_nat (length d)) 1) ;;
  emodify (λ t, if fSize t <? fPos t then t <| fSize := fPos t |> else t) ;;
  (if back then Seek (Z.of_nat (length d)) (-1) else mret ()).
Definition CheckSizeForw (nbyt : Z) (text : string) : E T () := λ t,
  fail_if (negb (fPos t + nbyt <=? fSize t)) "Rw11VirtTapeTap::CheckSizeForw()" text t.
Definition CheckSizeBack (nbyt : Z) (text : string) : E T () := λ t,
  fail_if (negb (nbyt <=? fPos t)) "Rw11VirtTapeTap::CheckSizeBack()" text t.
Definition ParseMeta (meta : Z) : E T (Z * bool) :=
  fail_if (negb (Z.land meta kMeta_M_Mbz =? 0)) "Rw11VirtTapeTap::ParseMeta" "bad meta tag" ;;
  mret (Z.land meta kMeta_B_Rlen, negb (Z.land meta kMeta_M_Perr =? 0)).
Definition BytePadding (rlen : Z) (t : T) : Z :=
  if fPadOdd t then Z.land (rlen + 1) 0xfffe else rlen.
Definition IncPosRecord (delta : Z) (t : T) : T :=
  if fPosRecord t =? -1 then t else t <| fPosRecord ::= Z.add delta |>.

(** ** Calls *)

Definition set_bad (c : C) : C := c <| tape ::= λ t, t <| fBad := true |> |>.
(** A primitive without and with [return SetBad()] on failure. *)
Definition on_tape {A} (m : E T A) : E C A := ezoom tape m.
Definition tryp {A} (m : E T A) : E C A := on_fail set_bad (on_tape m).
Definition upd (f : T → T) : E C () := emodify (λ c, c <| tape ::= f |>).
Definition set_op (o : OpCode) : E C () := emodify (λ c, c <| opcode := o |>).
Definition set_ndone (n : Z) : E C () := emodify (λ c, c <| ndone := n |>).
(** [if (fBad) return BadTapeMsg(meth, emsg)] *)
Definition check_bad (meth : string) : E C () := λ c,
  fail_if (fBad (tape c)) ("Rw11VirtTapeTap::" ++ meth) "bad tape format" c.

(** The begin of a forward move: at the end of the medium or at a meta word.
    The end, and the marks, end the call. *)
Inductive forw := F_done | F_meta (meta : Z).
Definition read_forw (eof_stat eom_stat : T → T) : E C forw :=
  t ← egets tape;
  if fPos t =? fSize t then
    upd (λ t, t <| fEom := true |>) ;; set_op kOpCodeEom ;; mret F_done
  else
    tryp (CheckSizeForw 4 "missed metabeg") ;;
    metabeg ← tryp Read_meta;
    if metabeg =? kMetaEof then
      upd eof_stat ;; set_op kOpCodeEof ;;
      upd (λ t, t <| fPosFile ::= Z.add 1 |> <| fPosRecord := 0 |>) ;; mret F_done
    else if metabeg =? kMetaEom then
      tryp (Seek 4 (-1)) ;; upd eom_stat ;;
      upd (λ t, t <| fEom := true |>) ;; set_op kOpCodeEom ;; mret F_done
    else mret (F_meta metabeg).

Definition ReadRecord (nbyt : Z) : E C () :=
  upd (tstat kStatNVTReadRec 1) ;;
  set_op kOpCodeBadFormat ;; set_ndone 0 ;;
  check_bad "ReadRecord()" ;;
  r ← read_forw (tstat kStatNVTReadEof 1) (tstat kStatNVTReadEom 1);
  match r with
  | F_done => mret ()
  | F_meta metabeg =>
      '(rlen, perr) ← tryp (ParseMeta metabeg);
      rlenpad ← egets (λ c, BytePadding rlen (tape c));
      tryp (CheckSizeForw rlenpad "missed data") ;;
      let nd := if rlen <=? nbyt then rlen else nbyt in
      set_ndone nd ;;
      d ← tryp (Read nd);
      emodify (λ c, c <| rdata := d |>) ;;
      (if nd <? rlenpad then tryp (Seek rlenpad 1) else mret ()) ;;
      tryp (CheckSizeForw 4 "missed metaend") ;;
      metaend ← tryp Read_meta;
      if negb (metabeg =? metaend) then
        set_ndone 0 ;;
        on_fail set_bad (fail (mkRerrMsg "Rw11VirtTapeTap::ReadRecord" "metabeg metaend mismatch"))
      else
        upd (IncPosRecord 1) ;; set_op kOpCodeOK ;;
        (if perr : bool then upd (tstat kStatNVTReadPErr 1) ;; set_op kOpCodeBadParity
         else mret ()) ;;
        (if nd <? rlen then upd (tstat kStatNVTReadLErr 1) ;; set_op kOpCodeRecLenErr
         else mret ()) ;;
        upd (tstat kStatNVTReadByt nd)
  end.

Definition WriteRecord (d : list Z) : E C () :=
  let nbyt := Z.of_nat (length d) in
  upd (tstat kStatNVTWriteRec 1) ;; upd (tstat kStatNVTWriteByt nbyt) ;;
  set_op kOpCodeBadFormat ;;
  check_bad "WriteRecord()" ;;
  upd (λ t, t <| fEom := false |>) ;;
  let meta := u32 nbyt in
  tryp (Write (le32 meta) false) ;;
  tryp (Write d false) ;;
  padodd ← egets (λ c, fPadOdd (tape c));
  (if (padodd : bool) && negb (Z.land nbyt 0x01 =? 0) then tryp (Write [0] false) else mret ()) ;;
  tryp (Write (le32 meta) false) ;;
  tryp (Write (le32 kMetaEom) true) ;;
  upd (IncPosRecord 1) ;; set_op kOpCodeOK.

Definition WriteEof : E C () :=
  upd (tstat kStatNVTWriteEof 1) ;;
  check_bad "WriteEof()" ;;
  upd (λ t, t <| fEom := false |>) ;;
  tryp (Write (le32 kMetaEof) false) ;;
  tryp (Write (le32 kMetaEom) true) ;;
  upd (λ t, t <| fPosFile ::= Z.add 1 |> <| fPosRecord := 0 |>).

(** The loops; [n] bounds the number of turns. *)
Fixpoint forw_loop (n : nat) (nrec : Z) : E C () :=
  if nrec <=? 0 then set_op kOpCodeOK
  else
    match n with
    | O => λ c, (NoFuel, c)
    | S n =>
        r ← read_forw id id;
        match r with
        | F_done => mret ()
        | F_meta metabeg =>
            '(rlen, _) ← tryp (ParseMeta metabeg);
            rlenpad ← egets (λ c, BytePadding rlen (tape c));
            tryp (CheckSizeForw (4 + rlenpad) "missed data or metaend") ;;
            tryp (Seek (4 + rlenpad) 1) ;;
            upd (IncPosRecord 1) ;;
            emodify (λ c, c <| ndone ::= Z.add 1 |>) ;;
            forw_loop n (nrec - 1)
        end
    end.
Definition SpaceForw (nrec : Z) : E C () :=
  upd (tstat kStatNVTSpaForw 1) ;;
  set_op kOpCodeBadFormat ;; set_ndone 0 ;;
  check_bad "SpaceForw()" ;;
  n ← egets (λ c, S (Z.to_nat (fSize (tape c) - fPos (tape c))));
  forw_loop n nrec.

Fixpoint back_loop (n : nat) (nrec : Z) : E C () :=
  if nrec <=? 0 then set_op kOpCodeOK
  else
    match n with
    | O => λ c, (NoFuel, c)
    | S n =>
        t ← egets tape;
        if fPos t =? 0 then
          set_op kOpCodeBot ;; upd (λ t, t <| fPosFile := 0 |> <| fPosRecord := 0 |>)
        else
          tryp (CheckSizeBack 4 "missed metaend") ;;
          tryp (Seek 4 (-1)) ;;
          metaend ← tryp Read_meta;
          if metaend =? kMetaEof then
            tryp (Seek 4 (-1)) ;; set_op kOpCodeEof ;;
            upd (λ t, t <| fPosFile ::= (λ p, p - 1) |> <| fPosRecord := -1 |>)
          else if metaend =? kMetaEom then
            on_fail set_bad (fail (mkRerrMsg "Rw11VirtTapeTap::SpaceBack()" "unexpected EOM marker"))
          else
            '(rlen, _) ← tryp (ParseMeta metaend);
            rlenpad ← egets (λ c, BytePadding rlen (tape c));
            tryp (CheckSizeBack (2 * 4 + rlenpad) "missed data or metabeg") ;;
            tryp (Seek (2 * 4 + rlenpad) (-1)) ;;
            upd (IncPosRecord (-1)) ;;
            emodify (λ c, c <| ndone ::= Z.add 1 |>) ;;
            back_loop n (nrec - 1)
    end.
Definition SpaceBack (nrec : Z) : E C () :=
  upd (tstat kStatNVTSpaBack 1) ;;
  set_op kOpCodeBadFormat ;; set_ndone 0 ;;
  check_bad "SpaceBack()" ;;
  upd (λ t, t <| fEom := false |> <| fTruncPend := true |>) ;;
  n ← egets (λ c, S (Z.to_nat (fPos (tape c))));
  back_loop n nrec.

Definition Rewind : E C () :=
  upd (tstat kStatNVTRewind 1) ;;
  set_op kOpCodeBadFormat ;;
  tryp (Seek 0 0) ;;
  upd (λ t, t <| fBot := true |> <| fEot := false |> <| fEom := false |> <| fPosFile := 0 |>
              <| fPosRecord := 0 |> <| fBad := false |> <| fTruncPend := true |>) ;;
  set_op kOpCodeOK.

(** ** Rw11VirtTape: positioning by file and record *)

(** The local variables of a caller: [opcode], [ndone], and no data. *)
Definition fresh (t : T) : C := mkCall t kOpCodeBadFormat 0 [].
(** [if (!rc) throw Rexception("Rw11VirtTape::SetPosFile", emsg.Text())] *)
Definition or_throw {A} (m : E C A) : M C A := λ c,
  match m c with
  | (Ret (inl a), c) => (Ret a, c)
  | (Ret (inr e), c) => (Exc (Rexception "Rw11VirtTape::SetPosFile" (em_text e)), c)
  | (Exc e, c) => (Exc e, c)
  | (NoFuel, c) => (NoFuel, c)
  end.
Definition in_call {A} (m : M C A) : M T A := λ t,
  let '(r, c) := m (fresh t) in (r, tape c).

Fixpoint SetPosFile_loop (n : nat) (posfile : Z) : M C () := λ c,
  if posfile =? fPosFile (tape c) then (Ret (), c)
  else
    match n with
    | O => (NoFuel, c)
    | S n =>
        (or_throw (SpaceForw 1000000000) ;;
         op ← gets opcode;
         if bool_decide (op = kOpCodeEom) then mret () else SetPosFile_loop n posfile) c
    end.
Definition SetPosFile (posfile : Z) : M T () :=
  let posfile := if posfile <? 0 then 0 else posfile in
  in_call (or_throw Rewind ;;
           n ← gets (λ c, S (Z.to_nat (fSize (tape c))));
           SetPosFile_loop n posfile).

Definition SetPosRecord (posrec : Z) : M T () :=
  let posrec := if posrec <? 0 then 0 else posrec in
  in_call (or_throw (SpaceBack 1000000000) ;;
           op ← gets opcode;
           (if bool_decide (op = kOpCodeEof) then or_throw (SpaceForw 1) else mret ()) ;;
           if posrec =? 0 then mret ()
           else
             or_throw (SpaceForw posrec) ;;
             nd ← gets ndone;
             op ← gets opcode;
             if bool_decide (op = kOpCodeEof) then
               or_throw (SpaceBack 1) ;;
               modify (λ c, c <| tape ::= λ t, t <| fPosRecord := nd |> |>)
             else mret ()).
End TapeTap.

(** ** Rw11UnitTape *)

Record Rw11UnitTape (F : Type) := mkUnitTape {
  fupVirt : option (TapeTap F);
  ufType : string;
  ufEnabled : bool;
  ufWProt : bool;
  ufCapacity : Z }.
Arguments mkUnitTape {F} _ _ _ _ _.
Arguments fupVirt {F} _.
Arguments ufType {F} _.
Arguments ufEnabled {F} _.
Arguments ufWProt {F} _.
Arguments ufCapacity {F} _.
#[export] Instance eta_UnitTape {F} : Eta (Rw11UnitTape F) := λ u,
  mkUnitTape (fupVirt u) (ufType u) (ufEnabled u) (ufWProt u) (ufCapacity u).

Section UnitTape.
Context {F : Type} `{!PosixFile F}.
Notation U := (Rw11UnitTape F).

Definition UnitTape_ctor : U := mkUnitTape None EmptyString false false 0.
Definition HasVirt (u : U) : bool := bool_decide (is_Some (fupVirt u)).
Definition unit_SetType (type : string) : M U () := λ u,
  (Exc (Rexception "Rw11UnitTape::SetType" ("Bad args: only type '" ++ ufType u ++ "' supported")), u).
Definition unit_SetWProt (wprot : bool) : M U () := λ u,
  (throw_if (HasVirt u) "Rw11UnitTape::SetWProt" "not allowed when tape attached" ;;
   modify (λ u, u <| ufWProt := wprot |>)) u.
Definition unit_SetCapacity (nbyte : Z) : M U () := λ u,
  (throw_if (HasVirt u) "Rw11UnitTape::SetCapacity" "not allowed when tape attached" ;;
   modify (λ u, u <| ufCapacity := nbyte |>)) u.
(** [Virt().m()] of a method that throws, guarded. *)
Definition virt_throw (meth : string) (m : M (TapeTap F) ()) : M U () := λ u,
  match fupVirt u with
  | None => (Exc (Rexception meth "no tape attached"), u)
  | Some t => let '(r, t) := m t in (r, u <| fupVirt := Some t |>)
  end.
Definition unit_SetPosFile (posfile : Z) : M U () :=
  virt_throw "Rw11UnitTape::SetPosFile" (SetPosFile posfile).
Definition unit_SetPosRecord (posrec : Z) : M U () :=
  virt_throw "Rw11UnitTape::SetPosRecord" (SetPosRecord posrec).
Definition virt_get {A} (d : A) (f : TapeTap F → A) (u : U) : A :=
  match fupVirt u with None => d | Some t => f t end.
Definition unit_Bot : U → bool := virt_get false fBot.
Definition unit_Eot : U → bool := virt_get false fEot.
Definition unit_Eom : U → bool := virt_get false fEom.
Definition unit_PosFile : U → Z := virt_get (-1) fPosFile.
Definition unit_PosRecord : U → Z := virt_get (-1) fPosRecord.
Definition unit_WProt (u : U) : bool := virt_get (ufWProt u) fWProt u.
Definition unit_Capacity (u : U) : Z := virt_get (ufCapacity u) fCapacity u.

(** The outcome of a call through the unit: success or message, and the output
    parameters. *)
Definition result : Type := outcome (() + RerrMsg) * (OpCode * Z * list Z).
Definition on_virt (meth : string) (m : E (Call F) ()) (u : U) : result * U :=
  match fupVirt u with
  | None => ((Ret (inr (mkRerrMsg meth "no tape attached")), (kOpCodeBadFormat, 0, [])), u)
  | Some t =>
      let '(r, c) := m (fresh t) in
      ((r, (opcode c, ndone c, rdata c)), u <| fupVirt := Some (tape c) |>)
  end.
Definition VirtReadRecord (nbyte : Z) : U → result * U :=
  on_virt "Rw11UnitTape::VirtReadRecord" (ReadRecord nbyte).
Definition VirtWriteRecord (d : list Z) : U → result * U :=
  on_virt "Rw11UnitTape::VirtWriteRecord" (WriteRecord d).
Definition VirtWriteEof : U → result * U := on_virt "Rw11UnitTape::VirtWriteEof" WriteEof.
Definition VirtSpaceForw (nrec : Z) : U → result * U :=
  on_virt "Rw11UnitTape::VirtSpaceForw" (SpaceForw nrec).
Definition VirtSpaceBack (nrec : Z) : U → result * U :=
  on_virt "Rw11UnitTape::VirtSpaceBack" (SpaceBack nrec).
Definition VirtRewind : U → result * U := on_virt "Rw11UnitTape::VirtRewind" Rewind.
End UnitTape.

(** [Rw11VirtTape::New]: the container of a url. *)
Definition New {F} `{!PosixFile F} (url : string) (f : F) : outcome (TapeTap F + RerrMsg) :=
  let scheme := FindScheme url "tap" in
  if bool_decide (scheme = "tap"%string) then
    match Open url (TapeTap_ctor f) with
    | (Ret (inl ()), t) => Ret (inl t)
    | (Ret (inr e), _) => Ret (inr e)
    | (Exc e, _) => Exc e
    | (NoFuel, _) => NoFuel
    end
  else Ret (inr (mkRerrMsg "Rw11VirtTape::New" ("Scheme '" ++ scheme ++ "' is not supported"))).
