(* ===== verification/TapeSpec.v ===== *)
(** * The tape container as a tape

    The specification of [VirtTape]: a tape is a sequence of records and marks
    with a head between two of them.  The TAP container refines it: its file
    holds the encoding of the sequence, and each method does to file and
    position what the tape operation does to the sequence.  [TapeSafe] treats
    files with arbitrary contents. *)

From S2P Require Import Prelude.
From S2P Require Import Rstats.
From S2P Require Import FileFd.
From S2P Require Import Url.
From S2P Require Import VirtTape.

Open Scope Z_scope.

(** ** Tapes *)

Inductive item :=
| Rec (perr : bool) (d : list Z)
| Mark.

Definition meta_of (perr : bool) (d : list Z) : Z :=
  Z.of_nat (length d) + (if perr then kMeta_M_Perr else 0).
Definition pad_of (padodd : bool) (d : list Z) : list Z :=
  if padodd && negb (Z.land (Z.of_nat (length d)) 1 =? 0) then [0] else [].
Definition enc_item (padodd : bool) (x : item) : list Z :=
  match x with
  | Rec p d => le32 (meta_of p d) ++ (d ++ pad_of padodd d) ++ le32 (meta_of p d)
  | Mark => le32 kMetaEof
  end.
Definition encs (padodd : bool) (l : list item) : list Z := concat (map (enc_item padodd) l).

(** Records fit the length field; with padding only even records can be read
    back (see [ReadRecord_short_loses_tape]). *)
Definition item_ok (padodd : bool) (x : item) : Prop :=
  match x with
  | Rec _ d => (0 < Z.of_nat (length d) < 2 ^ 16) ∧
               (padodd = true → Z.land (Z.of_nat (length d)) 1 = 0)
  | Mark => True
  end.

(** The tape in front of and behind the head, both nearest first. *)
Definition tape_state : Type := list item * list item.

Inductive tape_op :=
| TRead                       (** of the next record, whole *)
| TWrite (d : list Z)
| TEof
| TForw (n : Z)
| TBack (n : Z)
| TRewind.

(** Opcode, count and data a call leaves in the variables of its caller. *)
Notation tape_res := (OpCode * Z * list Z)%type.

Fixpoint sforw (a : list item) (n : Z) (rb : list item) : OpCode * Z * tape_state :=
  if n <=? 0 then (kOpCodeOK, 0, (rb, a))
  else
    match a with
    | [] => (kOpCodeEom, 0, (rb, a))
    | Mark :: a' => (kOpCodeEof, 0, (Mark :: rb, a'))
    | Rec p d :: a' =>
        let '(op, k, st) := sforw a' (n - 1) (Rec p d :: rb) in (op, k + 1, st)
    end.
Fixpoint sback (rb : list item) (n : Z) (a : list item) : OpCode * Z * tape_state :=
  if n <=? 0 then (kOpCodeOK, 0, (rb, a))
  else
    match rb with
    | [] => (kOpCodeBot, 0, (rb, a))
    | Mark :: rb' => (kOpCodeEof, 0, (rb', Mark :: a))
    | Rec p d :: rb' =>
        let '(op, k, st) := sback rb' (n - 1) (Rec p d :: a) in (op, k + 1, st)
    end.
Definition spec_op (o : tape_op) (st : tape_state) : tape_res * tape_state :=
  let '(rb, a) := st in
  match o with
  | TRead =>
      match a with
      | [] => ((kOpCodeEom, 0, []), st)
      | Mark :: a' => ((kOpCodeEof, 0, []), (Mark :: rb, a'))
      | Rec p d :: a' =>
          ((if p : bool then kOpCodeBadParity else kOpCodeOK, Z.of_nat (length d), d),
           (Rec p d :: rb, a'))
      end
  | TWrite d => ((kOpCodeOK, 0, []), (Rec false d :: rb, []))
  | TEof => ((kOpCodeBadFormat, 0, []), (Mark :: rb, []))   (** no output parameters *)
  | TForw n => let '(op, k, st) := sforw a n rb in ((op, k, []), st)
  | TBack n => let '(op, k, st) := sback rb n a in ((op, k, []), st)
  | TRewind => ((kOpCodeOK, 0, []), ([], rev rb ++ a))
  end.
Fixpoint spec_run (ops : list tape_op) (st : tape_state) : list tape_res * tape_state :=
  match ops with
  | [] => ([], st)
  | o :: ops => let '(r, st) := spec_op o st in
                let '(rs, st) := spec_run ops st in (r :: rs, st)
  end.

(** Files and records in front of the head. *)
Fixpoint marks (rb : list item) : Z :=
  match rb with [] => 0 | Mark :: rb => 1 + marks rb | _ :: rb => marks rb end.
Fixpoint records (rb : list item) : Z :=
  match rb with Rec _ _ :: rb => 1 + records rb | _ => 0 end.

(** ** Bytes *)

Lemma of_le32_le32 z : is_u32 z → of_le32 (le32 z) = Some z.
Proof.
  intros Hz. unfold le32, of_le32. f_equal.
  rewrite !u8_mod, !Z.shiftr_div_pow2 by lia.
  change (2 ^ 24) with 16777216. words.
Qed.
Lemma length_le32 z : length (le32 z) = 4%nat.
Proof. done. Qed.
Lemma of_le32_some bs : length bs = 4%nat → ∃ m, of_le32 bs = Some m.
Proof. intros H. do 5 (destruct bs as [|? bs]; try done). by eexists. Qed.

Lemma encs_app p a b : encs p (a ++ b) = encs p a ++ encs p b.
Proof. unfold encs. by rewrite map_app, concat_app. Qed.
Lemma encs_cons p x l : encs p (x :: l) = enc_item p x ++ encs p l.
Proof. done. Qed.
Lemma encs_rev_cons p x rb : encs p (rev (x :: rb)) = encs p (rev rb) ++ enc_item p x.
Proof. simpl. rewrite encs_app. unfold encs at 2. simpl. by rewrite app_nil_r. Qed.

Lemma meta_u32 p pd d : item_ok pd (Rec p d) → is_u32 (meta_of p d).
Proof. intros [H _]. unfold meta_of, is_u32, kMeta_M_Perr. destruct p; lia. Qed.
(** Reading a meta word back. *)
Lemma meta_fields p pd d :
  item_ok pd (Rec p d) →
  Z.land (meta_of p d) kMeta_M_Mbz = 0 ∧
  Z.land (meta_of p d) kMeta_B_Rlen = Z.of_nat (length d) ∧
  negb (Z.land (meta_of p d) kMeta_M_Perr =? 0) = p ∧
  meta_of p d ≠ kMetaEof ∧ meta_of p d ≠ kMetaEom.
Proof.
  intros [H _]. unfold meta_of. set (n := Z.of_nat (length d)) in *.
  assert (Hb : ∀ i, 16 <= i → Z.testbit n i = false) by (intros i Hi; apply (testbit_high n 16); lia).
  assert (Hl : n + (if p then kMeta_M_Perr else 0) = Z.lor n (if p then kMeta_M_Perr else 0)).
  { destruct p; [|by rewrite Z.lor_0_r, Z.add_0_r]. apply Z.add_nocarry_lor.
    apply Z.bits_inj'. intros i Hi. rewrite Z.land_spec, Z.bits_0.
    destruct (decide (16 <= i)) as [Hi'|Hi']; [by rewrite Hb|].
    change kMeta_M_Perr with (2 ^ 31). rewrite Z.pow2_bits_false by lia. apply andb_false_r. }
  assert (Hm : ∀ m, Z.land n m = Z.land n (Z.land m 0xffff)).
  { intros m. rewrite (Z.land_comm m), Z.land_assoc. f_equal.
    change 0xffff with (Z.ones 16). rewrite Z.land_ones by lia. symmetry. apply Z.mod_small. lia. }
  split_and!.
  - rewrite Hl, Z.land_lor_distr_l, Hm. change (Z.land kMeta_M_Mbz 0xffff) with 0.
    rewrite Z.land_0_r. by destruct p.
  - rewrite Hl, Z.land_lor_distr_l. change kMeta_B_Rlen with (Z.ones 16).
    rewrite Z.land_ones, Z.mod_small by lia. destruct p; by rewrite ?Z.lor_0_r.
  - rewrite Hl, Z.land_lor_distr_l, Hm. change (Z.land kMeta_M_Perr 0xffff) with 0.
    rewrite Z.land_0_r. by destruct p.
  - unfold kMetaEof, kMeta_M_Perr. destruct p; lia.
  - unfold kMetaEom, kMeta_M_Perr. destruct p; lia.
Qed.

(** ** Primitives *)

Section Primitives.
Context {F : Type} `{!PosixFile F, !PosixFileLaws F}.
Notation T := (TapeTap F).
Notation C := (Call F).

(** Size and position as the object knows them. *)
Definition at_ (w : bool) (t : T) (data : list Z) (pos : nat) : Prop :=
  on_file (fFd t) (mkOfile data pos w) ∧ fPos t = Z.of_nat pos ∧
  fSize t = Z.of_nat (length data) ∧ fBot t = (fPos t =? 0).
(** The members no primitive changes, with [fTruncPend] as argument. *)
Definition regs (t : T) := (fBad t, fPadOdd t, fPosFile t, fPosRecord t, fEom t).

Lemma at_regs w t t' data pos :
  at_ w t data pos → fFd t' = fFd t → fPos t' = fPos t → fSize t' = fSize t → fBot t' = fBot t →
  at_ w t' data pos.
Proof. unfold at_. intros Ha E1 E2 E3 E4. by rewrite E1, E2, E3, E4. Qed.

Lemma Seek_at w t data pos s dir (target : nat) :
  at_ w t data pos →
  Z.of_nat target = (if dir =? 0 then s else if dir <? 0 then Z.of_nat pos - s else Z.of_nat pos + s) →
  ∃ t', Seek s dir t = (Ret (inl ()), t') ∧ at_ w t' data target ∧
    regs t' = regs t ∧ fTruncPend t' = fTruncPend t.
Proof.
  intros (Hf & Hp & Hs & _) Ht. unfold Seek.
  set (off := if dir <? 0 then - s else s). set (wh := if dir =? 0 then SEEK_SET else SEEK_CUR).
  assert (Htg : (if wh =? SEEK_SET then off else Z.of_nat pos + off) = Z.of_nat target).
  { unfold wh, off. destruct (Z.eqb_spec dir 0) as [->|]; simpl; [done|].
    destruct (dir <? 0); lia. }
  destruct (FileFd.Seek_ok (fFd t) _ off wh Hf) as (r' & Hr & Hf'); [simpl; rewrite Htg; lia|].
  simpl in Hf'. rewrite Htg, Nat2Z.id in Hf'.
  assert (Hz : ezoom fFd (FileFd.Seek off wh) t = (Ret (inl ()), t <| fFd := r' |>)).
  { unfold ezoom. by rewrite Hr. }
  rewrite (ebind_ok _ _ _ _ _ Hz). eexists. split; [reflexivity|].
  unfold UpdatePos. destruct (Z.eqb_spec dir 0) as [->|Hd]; [|destruct (Z.ltb_spec 0 dir)];
    (split; [|done]); split; try exact Hf'; simpl; split_and!; try done; rewrite ?Hp.
  - rewrite (proj2 (Z.ltb_ge dir 0)) in Ht by lia. lia.
  - rewrite (proj2 (Z.ltb_lt dir 0)) in Ht by lia. lia.
Qed.

Lemma Read_at w t data pos n :
  at_ w t data pos → 0 <= n → (pos + Z.to_nat n <= length data)%nat →
  ∃ t', Read n t = (Ret (inl (take (Z.to_nat n) (drop pos data))), t') ∧
    at_ w t' data (pos + Z.to_nat n) ∧ regs t' = regs t ∧ fTruncPend t' = fTruncPend t.
Proof.
  intros (Hf & Hp & Hs & _) Hn Hl. unfold Read.
  destruct (FileFd.Read_ok (fFd t) _ n Hf Hn) as (r' & Hr & Hf'). simpl in Hr, Hf'.
  assert (Hz : ezoom fFd (FileFd.Read n) t =
    (Ret (inl (Z.of_nat (length (take (Z.to_nat n) (drop pos data))), take (Z.to_nat n) (drop pos data))),
     t <| fFd := r' |>)).
  { unfold ezoom. by rewrite Hr. }
  rewrite (ebind_ok _ _ _ _ _ Hz). autorewrite with run.
  eexists. split; [reflexivity|]. split; [|done].
  rewrite length_take, length_drop in Hf'. replace (_ `min` _)%nat with (Z.to_nat n) in Hf' by lia.
  unfold UpdatePos. simpl. split; [exact Hf'|]. simpl. split_and!; [lia|done|done].
Qed.

Lemma Read_meta_at w t data pos m :
  at_ w t data pos → of_le32 (take 4 (drop pos data)) = Some m →
  ∃ t', Read_meta t = (Ret (inl m), t') ∧ at_ w t' data (pos + 4) ∧
    regs t' = regs t ∧ fTruncPend t' = fTruncPend t.
Proof.
  intros Ha Hm.
  assert (Hl : length (take 4 (drop pos data)) = 4%nat).
  { destruct (take 4 (drop pos data)) as [|? [|? [|? [|? [|]]]]]; by simplify_eq. }
  rewrite length_take, length_drop in Hl.
  destruct (Read_at w t data pos 4 Ha) as (t' & Hr & Ha' & Hg); [lia|simpl; lia|].
  exists t'. unfold Read_meta. change (Z.to_nat 4) with 4%nat in Hr.
  rewrite (ebind_ok _ _ _ _ _ Hr), Hm. done.
Qed.

Lemma splice_end (x tl d : list Z) :
  (length tl <= length d)%nat → splice (length x) d (x ++ tl) = x ++ d.
Proof.
  intros H. unfold splice. destruct d as [|y d].
  - destruct tl; [|simpl in H; lia]. done.
  - unfold resized. rewrite <- app_assoc, take_app_length.
    rewrite drop_ge by (rewrite length_app; simpl in *; lia). by rewrite app_nil_r.
Qed.
Lemma length_splice_in pos (d bs : list Z) :
  (pos <= length bs)%nat → length (splice pos d bs) = Nat.max (length bs) (pos + length d).
Proof.
  intros H. destruct d as [|y d]; [simpl; lia|]. rewrite length_splice by done. lia.
Qed.
(** A write: the first one after a move cuts the file. *)
Lemma Write_splice t data pos d back :
  at_ true t data pos → (pos <= length data)%nat →
  ∃ t', Write d back t = (Ret (inl ()), t') ∧
    at_ true t' (splice pos d (if fTruncPend t then take pos data else data))
      (pos + if back then 0 else length d) ∧
    regs t' = regs t ∧ fTruncPend t' = false.
Proof.
  intros Ha Hd. unfold Write. autorewrite with run.
  (* the truncation *)
  set (data1 := if fTruncPend t then take pos data else data).
  assert (H1 : ∃ t1, (if fTruncPend t then
      pos ← egets fPos; ezoom fFd (Truncate pos) ;;
      emodify (λ t, t <| fTruncPend := false |> <| fSize := fPos t |>) else mret ()) t =
      (Ret (inl ()), t1) ∧ at_ true t1 data1 pos ∧ regs t1 = regs t ∧ fTruncPend t1 = false).
  { unfold data1. destruct (fTruncPend t) eqn:E; [|by exists t].
    destruct Ha as (Hf & Hp & Hs & Hb). autorewrite with run.
    destruct (Truncate_ok (fFd t) _ (fPos t) Hf) as (r' & Hr & Hf'); [done|simpl; clear -Hp Hd; lia|].
    assert (Hz : ezoom fFd (Truncate (fPos t)) t = (Ret (inl ()), t <| fFd := r' |>)).
    { unfold ezoom. by rewrite Hr. }
    rewrite (ebind_ok _ _ _ _ _ Hz). eexists. split; [reflexivity|]. split; [|done].
    simpl in Hf'. rewrite Hp, Nat2Z.id in Hf'.
    split; [exact Hf'|]. simpl. split_and!; [done| |done].
    rewrite length_take, Hp. f_equal. clear -Hd. lia. }
  destruct H1 as (t1 & Ht1 & Ha1 & Hg1 & Hp1). rewrite (ebind_ok _ _ _ _ _ Ht1).
  assert (Hin : (pos <= length data1)%nat).
  { unfold data1. destruct (fTruncPend t); [|done]. rewrite length_take. lia. }
  (* the write *)
  destruct Ha1 as (Hf1 & Hpos1 & Hs1 & Hb1).
  destruct (WriteAll_ok (fFd t1) _ d Hf1 eq_refl) as (r2 & Hr2 & Hf2). simpl in Hf2.
  assert (Hz : ezoom fFd (WriteAll d) t1 = (Ret (inl ()), t1 <| fFd := r2 |>)).
  { unfold ezoom. by rewrite Hr2. }
  rewrite (ebind_ok _ _ _ _ _ Hz). autorewrite with run.
  set (t2 := if fSize _ <? fPos _ then _ else _).
  assert (Ha2 : at_ true t2 (splice pos d data1) (pos + length d) ∧ regs t2 = regs t ∧ fTruncPend t2 = false).
  { unfold t2.
    destruct (Z.ltb_spec (fSize (UpdatePos (Z.of_nat (length d)) 1 (t1 <| fFd := r2 |>)))
                         (fPos (UpdatePos (Z.of_nat (length d)) 1 (t1 <| fFd := r2 |>)))) as [Hlt|Hge];
      unfold UpdatePos in *; simpl in *; (split; [|split; [exact Hg1|exact Hp1]]);
      split; try exact Hf2; simpl; rewrite length_splice_in by done; split_and!; try done; lia. }
  destruct Ha2 as (Ha2 & Hg2 & Hp2). destruct back; [|by exists t2].
  destruct (Seek_at true t2 _ _ (Z.of_nat (length d)) (-1) pos Ha2) as (t3 & Hs & Ha3 & Hg3 & Hp3).
  { simpl. lia. }
  exists t3. rewrite Hs, Nat.add_0_r. split; [done|]. split; [done|]. split; congruence.
Qed.

Lemma Write_at t x tl d back :
  at_ true t (x ++ tl) (length x) → fTruncPend t = true ∨ (length tl <= length d)%nat →
  ∃ t', Write d back t = (Ret (inl ()), t') ∧
    at_ true t' (x ++ d) (length x + if back then 0 else length d) ∧
    regs t' = regs t ∧ fTruncPend t' = false.
Proof.
  intros Ha Hd. destruct (Write_splice t _ _ d back Ha) as (t' & H & Ha' & Hg).
  { rewrite length_app. lia. }
  exists t'. split; [done|]. split; [|done].
  destruct (fTruncPend t) eqn:E.
  - rewrite take_app_length in Ha'. rewrite <- (app_nil_r x) in Ha' at 2.
    rewrite splice_end in Ha' by (simpl; lia). done.
  - destruct Hd as [|Hd]; [done|]. by rewrite splice_end in Ha'.
Qed.

(** A primitive run in a call. *)
Lemma tryp_ok {A} (m : E T A) (c : C) a t' :
  m (tape c) = (Ret (inl a), t') → tryp m c = (Ret (inl a), c <| tape := t' |>).
Proof. intros H. unfold tryp, on_tape, on_fail, ezoom. by rewrite H. Qed.
Lemma tryp_err {A} (m : E T A) (c : C) e t' :
  m (tape c) = (Ret (inr e), t') →
  tryp m c = (Ret (inr e), c <| tape := t' <| fBad := true |> |>).
Proof. intros H. unfold tryp, on_tape, on_fail, ezoom. by rewrite H. Qed.
Lemma CheckSizeForw_ok w t data pos n text :
  at_ w t data pos → Z.of_nat pos + n <= Z.of_nat (length data) →
  CheckSizeForw n text t = (Ret (inl ()), t).
Proof.
  intros (_ & Hp & Hs & _) H. unfold CheckSizeForw. rewrite Hp, Hs, (proj2 (Z.leb_le _ _)) by lia. done.
Qed.
Lemma CheckSizeBack_ok w t data pos n text :
  at_ w t data pos → n <= Z.of_nat pos → CheckSizeBack n text t = (Ret (inl ()), t).
Proof.
  intros (_ & Hp & Hs & _) H. unfold CheckSizeBack. rewrite Hp, (proj2 (Z.leb_le _ _)) by lia. done.
Qed.
End Primitives.

(** ** The file holds the tape *)

Section Refinement.
Context {F : Type} `{!PosixFile F, !PosixFileLaws F}.
Notation T := (TapeTap F).
Notation C := (Call F).

Definition file_of (p : bool) (st : tape_state) (tail : list Z) : list Z :=
  encs p (rev st.1 ++ st.2) ++ tail.
Definition head_of (p : bool) (rb : list item) : nat := length (encs p (rev rb)).
(** What may follow the last item: nothing, or an end of medium word. *)
Definition tail_ok (tail : list Z) : Prop := tail = [] ∨ ∃ r, tail = le32 kMetaEom ++ r.

Record rep (w : bool) (tail : list Z) (t : T) (st : tape_state) : Prop := mkRep {
  rep_at : at_ w t (file_of (fPadOdd t) st tail) (head_of (fPadOdd t) st.1);
  rep_tail : tail_ok tail;
  rep_ok : Forall (item_ok (fPadOdd t)) (rev st.1 ++ st.2);
  rep_trunc : fTruncPend t = false → st.2 = [] ∧ (length tail <= 4)%nat;
  rep_good : fBad t = false;
  rep_files : fPosFile t = marks st.1;
  rep_records : fPosRecord t = -1 ∨ fPosRecord t = records st.1;
  rep_eom : fEom t = true → st.2 = [] }.

Lemma file_of_move p rb x a tail : file_of p (x :: rb, a) tail = file_of p (rb, x :: a) tail.
Proof. unfold file_of. simpl. by rewrite <- app_assoc. Qed.
Lemma head_of_cons p x rb : head_of p (x :: rb) = (head_of p rb + length (enc_item p x))%nat.
Proof. unfold head_of. by rewrite encs_rev_cons, length_app. Qed.
Lemma drop_head p rb a tail : drop (head_of p rb) (file_of p (rb, a) tail) = encs p a ++ tail.
Proof. unfold file_of, head_of. simpl. by rewrite encs_app, <- app_assoc, drop_app_length. Qed.
Lemma length_file p rb a tail :
  length (file_of p (rb, a) tail) = (head_of p rb + length (encs p a ++ tail))%nat.
Proof. unfold file_of, head_of. simpl. rewrite encs_app, !length_app. lia. Qed.
Lemma items_move {A} (rb a : list A) x : rev (x :: rb) ++ a = rev rb ++ x :: a.
Proof. simpl. by rewrite <- app_assoc. Qed.
Lemma take_4 m l : take 4 (le32 m ++ l) = le32 m.
Proof. done. Qed.

(** The next call of a primitive returns as [H] says. *)
Tactic Notation "etryp" uconstr(H) :=
  match goal with
  | |- context [(@tryp ?F ?A ?m ≫= ?k) ?c] =>
      rewrite (ebind_ok (tryp m) k c _ _ (tryp_ok m c _ _ H))
  end.

Definition stat_only (g : T → T) : Prop := ∀ t, g t = t <| fStats := fStats (g t) |>.
Lemma stat_only_id : stat_only id.
Proof. by intros []. Qed.
Lemma stat_only_tstat i v : stat_only (tstat i v).
Proof. done. Qed.
Lemma rep_stats w tail t st s : rep w tail t st → rep w tail (t <| fStats := s |>) st.
Proof. intros []. by constructor. Qed.

(** Padding does nothing to a record that can be read back. *)
Lemma padding_ok p d (t : T) :
  item_ok (fPadOdd t) (Rec p d) →
  pad_of (fPadOdd t) d = [] ∧ BytePadding (Z.of_nat (length d)) t = Z.of_nat (length d).
Proof.
  intros [Hl He]. unfold pad_of, BytePadding. destruct (fPadOdd t); [|done].
  specialize (He eq_refl). rewrite He. split; [done|].
  set (n := Z.of_nat (length d)) in *.
  apply Z.bits_inj'. intros i Hi. change 0xfffe with (Z.land (Z.lnot 1) (Z.ones 16)).
  rewrite Z.land_assoc, (Z.land_ones _ 16) by lia.
  assert (Hn : n mod 2 = 0). { rewrite <- He. symmetry. apply (Z.land_ones n 1). lia. }
  replace (Z.land (n + 1) (Z.lnot 1)) with n; [by rewrite Z.mod_small by lia|].
  rewrite <- Z.ldiff_land, (Z.ldiff_ones_r _ 1), Z.shiftl_mul_pow2, Z.shiftr_div_pow2 by lia.
  change (2 ^ 1) with 2. Z.div_mod_to_equations. lia.
Qed.
Lemma length_rec p pd d :
  item_ok pd (Rec p d) → length (enc_item pd (Rec p d)) = (8 + length d)%nat.
Proof.
  intros [_ H]. cbn [enc_item]. rewrite !length_app, !length_le32. unfold pad_of.
  destruct pd; simpl; [|lia]. rewrite H by done. simpl. lia.
Qed.

(** Moving the head over a record. *)
Lemma rep_forw w tail t t' rb p d a k :
  rep w tail t (rb, Rec p d :: a) →
  at_ w t' (file_of (fPadOdd t) (rb, Rec p d :: a) tail) (head_of (fPadOdd t) (Rec p d :: rb)) →
  regs t' = (false, fPadOdd t, fPosFile t, k, fEom t) →
  fTruncPend t' = fTruncPend t →
  k = (if fPosRecord t =? -1 then -1 else 1 + fPosRecord t) →
  rep w tail t' (Rec p d :: rb, a).
Proof.
  intros [Ha Ht Ho Hp Hb Hf Hr He] Ha' Hg Hpend Hk. injection Hg as E1 E2 E3 E4 E5.
  constructor; cbn [fst snd] in *.
  - by rewrite E2, file_of_move.
  - done.
  - by rewrite E2, items_move.
  - intros H. rewrite Hpend in H. by destruct (Hp H).
  - done.
  - by rewrite E3, Hf.
  - rewrite E4, Hk. simpl. destruct (Z.eqb_spec (fPosRecord t) (-1)); [by left|right].
    destruct Hr; [done|lia].
  - intros H. rewrite E5 in H. by specialize (He H).
Qed.
Lemma rep_back w tail t t' rb p d a k :
  rep w tail t (Rec p d :: rb, a) →
  at_ w t' (file_of (fPadOdd t) (Rec p d :: rb, a) tail) (head_of (fPadOdd t) rb) →
  regs t' = (false, fPadOdd t, fPosFile t, k, false) →
  fTruncPend t' = true →
  k = (if fPosRecord t =? -1 then -1 else -1 + fPosRecord t) →
  rep w tail t' (rb, Rec p d :: a).
Proof.
  intros [Ha Ht Ho Hp Hb Hf Hr He] Ha' Hg Hpend Hk. injection Hg as E1 E2 E3 E4 E5.
  constructor; cbn [fst snd] in *.
  - by rewrite E2, <- file_of_move.
  - done.
  - by rewrite E2, <- items_move.
  - intros H. congruence.
  - done.
  - by rewrite E3, Hf.
  - rewrite E4, Hk. destruct (Z.eqb_spec (fPosRecord t) (-1)); [by left|right].
    destruct Hr as [|Hr]; [done|]. simpl in Hr. lia.
  - intros H. congruence.
Qed.

Lemma at_IncPosRecord w t data pos k : at_ w t data pos → at_ w (IncPosRecord k t) data pos.
Proof. unfold IncPosRecord. by destruct (fPosRecord t =? -1). Qed.
Lemma IncPosRecord_pend k (t : T) : fTruncPend (IncPosRecord k t) = fTruncPend t.
Proof. unfold IncPosRecord. by destruct (fPosRecord t =? -1). Qed.
Lemma regs_IncPosRecord k (t : T) :
  regs (IncPosRecord k t) =
  (fBad t, fPadOdd t, fPosFile t, if fPosRecord t =? -1 then -1 else k + fPosRecord t, fEom t).
Proof.
  unfold IncPosRecord, regs. by destruct (Z.eqb_spec (fPosRecord t) (-1)) as [->|].
Qed.

(** The begin of a forward move in the three cases. *)
Lemma read_forw_end w tail c rb f g :
  rep w tail (tape c) (rb, []) → stat_only g →
  ∃ t', read_forw f g c = (Ret (inl F_done), c <| tape := t' |> <| opcode := kOpCodeEom |>) ∧
    rep w tail t' (rb, []) ∧ fPadOdd t' = fPadOdd (tape c).
Proof.
  intros R Hg. pose proof (rep_at _ _ _ _ R) as Ha.
  unfold read_forw, upd, set_op. autorewrite with run.
  pose proof (length_file (fPadOdd (tape c)) rb [] tail) as Hlen. change (encs _ []) with (@nil Z) in Hlen.
  destruct Ha as (Hf & Hp & Hs & Hb). cbn [fst snd] in *. rewrite Hp, Hs.
  destruct (rep_tail _ _ _ _ R) as [->|[r ->]].
  - rewrite (proj2 (Z.eqb_eq _ _)) by (rewrite Hlen; simpl; lia). autorewrite with run.
    eexists. split; [reflexivity|]. split; [|done]. destruct R. constructor; try done.
  - rewrite (proj2 (Z.eqb_neq _ _)) by (rewrite Hlen; simpl; lia).
    etryp (CheckSizeForw_ok w _ _ _ 4 _ (rep_at _ _ _ _ R) ltac:(cbn [fst]; rewrite Hlen; simpl; lia)).
    destruct (Read_meta_at w _ _ _ kMetaEom (rep_at _ _ _ _ R)) as (t1 & H1 & Ha1 & Hg1 & Hp1).
    { cbn [fst]. by rewrite drop_head. }
    etryp H1. simpl.
    autorewrite with run.
    destruct (Seek_at w t1 _ _ 4 (-1) (head_of (fPadOdd (tape c)) rb) Ha1) as (t2 & H2 & Ha2 & Hg2 & Hp2).
    { simpl. lia. }
    etryp H2.
    autorewrite with run. simpl. rewrite (Hg t2).
    eexists. split; [reflexivity|]. rewrite Hg1 in Hg2. injection Hg2 as E1 E2 E3 E4 E5.
    split; [|exact E2].
    destruct R as [? ? Ho Ht Hbad Hfi Hr He]. cbn [fst snd] in *.
    constructor; simpl; rewrite ?E1, ?E2, ?E3, ?E4, ?Hp2, ?Hp1; try done.
Qed.

Lemma read_forw_mark w tail c rb a f g :
  rep w tail (tape c) (rb, Mark :: a) → stat_only f →
  ∃ t', read_forw f g c = (Ret (inl F_done), c <| tape := t' |> <| opcode := kOpCodeEof |>) ∧
    rep w tail t' (Mark :: rb, a) ∧ fPadOdd t' = fPadOdd (tape c).
Proof.
  intros R Hst. pose proof (rep_at _ _ _ _ R) as Ha.
  unfold read_forw, upd, set_op. autorewrite with run.
  pose proof (length_file (fPadOdd (tape c)) rb (Mark :: a) tail) as Hlen.
  rewrite encs_cons, !length_app in Hlen. simpl in Hlen.
  destruct (Ha) as (Hf & Hp & Hs & Hb). cbn [fst snd] in *. rewrite Hp, Hs.
  rewrite (proj2 (Z.eqb_neq _ _)) by (rewrite Hlen; lia).
  etryp (CheckSizeForw_ok w _ _ _ 4 _ Ha ltac:(rewrite Hlen; lia)).
  destruct (Read_meta_at w _ _ _ kMetaEof Ha) as (t1 & H1 & Ha1 & Hg1 & Hp1).
  { by rewrite drop_head, encs_cons. }
  etryp H1.
  simpl. autorewrite with run. simpl. rewrite (Hst t1).
  eexists. split; [reflexivity|]. injection Hg1 as E1 E2 E3 E4 E5. split; [|exact E2].
  destruct R as [? ? Ho Ht Hbad Hfi Hr He]. cbn [fst snd] in *.
  constructor; cbn -[encs rev Z.add]; rewrite ?E1, ?E2, ?E3, ?E4, ?E5, ?Hp1; try done.
  - rewrite file_of_move, head_of_cons. exact Ha1.
  - by rewrite items_move.
  - intros H. by destruct (Ht H).
  - by rewrite Hfi.
  - by right.
  - intros H. by specialize (He H).
Qed.

Lemma read_forw_rec w tail c rb p d a f g :
  rep w tail (tape c) (rb, Rec p d :: a) →
  ∃ t', read_forw f g c = (Ret (inl (F_meta (meta_of p d))), c <| tape := t' |>) ∧
    at_ w t' (file_of (fPadOdd (tape c)) (rb, Rec p d :: a) tail) (head_of (fPadOdd (tape c)) rb + 4) ∧
    regs t' = regs (tape c) ∧ fTruncPend t' = fTruncPend (tape c).
Proof.
  intros R. pose proof (rep_at _ _ _ _ R) as Ha.
  pose proof (rep_ok _ _ _ _ R) as Hok. apply Forall_app in Hok as [_ [Hok _]%Forall_cons_iff].
  unfold read_forw, upd, set_op. autorewrite with run.
  pose proof (length_file (fPadOdd (tape c)) rb (Rec p d :: a) tail) as Hlen.
  rewrite encs_cons, !length_app, length_rec in Hlen by done. cbn [fst] in *.
  destruct (Ha) as (Hf & Hp & Hs & Hb). rewrite Hp, Hs.
  rewrite (proj2 (Z.eqb_neq _ _)) by (rewrite Hlen; lia).
  etryp (CheckSizeForw_ok w _ _ _ 4 _ Ha ltac:(rewrite Hlen; lia)).
  destruct (Read_meta_at w _ _ _ (meta_of p d) Ha) as (t1 & H1 & Ha1 & Hg1 & Hp1).
  { rewrite drop_head, encs_cons. cbn [enc_item]. rewrite <- !app_assoc, take_4.
    apply of_le32_le32. by eapply meta_u32. }
  etryp H1.
  destruct (meta_fields p _ d Hok) as (_ & _ & _ & N1 & N2).
  rewrite (proj2 (Z.eqb_neq _ _) N1), (proj2 (Z.eqb_neq _ _) N2).
  by exists t1.
Qed.

(** The parts of a record in the file. *)
Lemma rec_parts pd rb p d a tail :
  item_ok pd (Rec p d) →
  let data := file_of pd (rb, Rec p d :: a) tail in
  let h := head_of pd rb in
  let rest := encs pd a ++ tail in
  drop (h + 4) data = d ++ le32 (meta_of p d) ++ rest ∧
  of_le32 (take 4 (drop (h + 4 + length d) data)) = Some (meta_of p d) ∧
  (length data = h + 8 + length d + length rest)%nat ∧
  head_of pd (Rec p d :: rb) = (h + 4 + length d + 4)%nat.
Proof.
  intros Hok data h rest.
  assert (Hpad : pad_of pd d = []).
  { destruct Hok as [_ He]. unfold pad_of. destruct pd; [|done]. by rewrite (He eq_refl). }
  assert (H1 : drop (h + 4) data = d ++ le32 (meta_of p d) ++ rest).
  { unfold data, h, rest. rewrite <- drop_drop, drop_head, encs_cons. cbn [enc_item].
    rewrite Hpad, app_nil_r, <- !app_assoc. done. }
  split_and!; [done| | |].
  - rewrite <- drop_drop, H1, drop_app_length, take_4. eapply of_le32_le32, meta_u32, Hok.
  - unfold data. rewrite length_file, encs_cons, <- app_assoc, length_app, length_rec by done.
    unfold h, rest. lia.
  - rewrite head_of_cons, length_rec by done. unfold h. lia.
Qed.
Lemma ParseMeta_rec pd p d (t : T) :
  item_ok pd (Rec p d) →
  ParseMeta (meta_of p d) t = (Ret (inl (Z.of_nat (length d), p)), t).
Proof.
  intros Hok. destruct (meta_fields p pd d Hok) as (H1 & H2 & H3 & _).
  unfold ParseMeta. rewrite H1, H2, H3. done.
Qed.

(** A call that succeeds with result [r] and leaves the head at [st]. *)
Definition does (w : bool) (m : E C ()) (c : C) (r : tape_res) (st : tape_state) : Prop :=
  ∃ c' tail, m c = (Ret (inl ()), c') ∧ (opcode c', ndone c', rdata c') = r ∧
    fPadOdd (tape c') = fPadOdd (tape c) ∧ rep w tail (tape c') st.

Lemma check_bad_ok w tail c st meth :
  rep w tail (tape c) st → check_bad meth c = (Ret (inl ()), c).
Proof. intros R. unfold check_bad. by rewrite (rep_good _ _ _ _ R). Qed.

(** A buffer of [nbyt] bytes holds the next record. *)
Definition holds_next (nbyt : Z) (st : tape_state) : Prop :=
  match st.2 with Rec _ d :: _ => Z.of_nat (length d) <= nbyt | _ => True end.
Lemma ReadRecord_does w tail t st nbyt :
  rep w tail t st → holds_next nbyt st →
  let '(r, st') := spec_op TRead st in does w (ReadRecord nbyt) (fresh t) r st'.
Proof.
  intros R Hn. destruct st as [rb a]. unfold holds_next in Hn. simpl in Hn. simpl spec_op.
  set (t0 := tstat kStatNVTReadRec 1 t).
  assert (R0 : rep w tail (tape (fresh t0)) (rb, a)) by (by apply rep_stats).
  unfold does, ReadRecord, upd, set_op, set_ndone. autorewrite with run.
  change (fresh t <| tape ::= _ |> <| opcode := _ |> <| ndone := _ |>) with (fresh t0).
  rewrite (ebind_ok _ _ _ _ _ (check_bad_ok _ _ (fresh t0) _ _ R0)).
  destruct a as [|[p d|] a].
  - edestruct read_forw_end as (t1 & H1 & R1 & Hp1); [exact R0|apply (stat_only_tstat kStatNVTReadEom 1)|].
    eexists _, tail. by rewrite (ebind_ok _ _ _ _ _ H1).
  - edestruct read_forw_rec as (t1 & H1 & Ha1 & Hg1 & Hp1); [exact R0|].
    rewrite (ebind_ok _ _ _ _ _ H1). clear H1.
    pose proof (rep_ok _ _ _ _ R0) as Hok. apply Forall_app in Hok as [_ [Hok _]%Forall_cons_iff].
    destruct (rec_parts _ rb p d a tail Hok) as (Hd1 & Hd2 & Hlen & Hhead).
    etryp (ParseMeta_rec _ p d t1 Hok). simpl fst.
    autorewrite with run.
    assert (Hpad1 : fPadOdd t1 = fPadOdd t) by (by injection Hg1).
    change (tape (_ <| tape := t1 |>)) with t1.
    rewrite (proj2 (padding_ok p d t1 ltac:(by rewrite Hpad1))).
    etryp (CheckSizeForw_ok w t1 _ _ (Z.of_nat (length d)) _ Ha1 ltac:(rewrite Hlen; lia)).
    pose proof Hok as [Hl _].
    rewrite (proj2 (Z.leb_le _ _)) by lia. autorewrite with run.
    destruct (Read_at w t1 _ _ (Z.of_nat (length d)) Ha1) as (t2 & H2 & Ha2 & Hg2 & Hp2);
      [lia|rewrite Hlen; lia|].
    rewrite Nat2Z.id, Hd1, take_app_length in H2. rewrite Nat2Z.id in Ha2.
    etryp H2. autorewrite with run. rewrite (proj2 (Z.ltb_ge _ _)) by lia. autorewrite with run.
    etryp (CheckSizeForw_ok w t2 _ _ 4 _ Ha2 ltac:(rewrite Hlen; lia)).
    destruct (Read_meta_at w t2 _ _ (meta_of p d) Ha2 Hd2) as (t3 & H3 & Ha3 & Hg3 & Hp3).
    etryp H3. rewrite Z.eqb_refl. simpl negb.
    autorewrite with run.
    assert (Rn : rep w tail (IncPosRecord 1 t3) (Rec p d :: rb, a)).
    { eapply rep_forw; [exact R0| | |rewrite IncPosRecord_pend; congruence|reflexivity].
      - apply at_IncPosRecord. rewrite Hhead. exact Ha3.
      - rewrite regs_IncPosRecord. rewrite Hg2, Hg1 in Hg3. injection Hg3 as E1 E2 E3 E4 E5.
        pose proof (rep_good _ _ _ _ R0) as G. simpl in G |- *. by rewrite E1, E2, E3, E4, E5, G. }
    assert (Pn : fPadOdd (IncPosRecord 1 t3) = fPadOdd t).
    { pose proof (regs_IncPosRecord 1 t3) as G. rewrite Hg2, Hg1 in Hg3.
      injection G as _ -> _ _ _. by injection Hg3. }
    destruct p; autorewrite with run; eexists _, tail; (split; [reflexivity|]); split_and!; try done.
    + exact (rep_stats _ _ _ _ _ Rn).
    + exact (rep_stats _ _ _ _ _ Rn).
  - edestruct read_forw_mark as (t1 & H1 & R1 & Hp1); [exact R0|apply (stat_only_tstat kStatNVTReadEof 1)|].
    eexists _, tail. by rewrite (ebind_ok _ _ _ _ _ H1).
Qed.

Lemma length_encs p l : (length l <= length (encs p l))%nat.
Proof.
  induction l as [|x l IH]; [simpl; lia|]. rewrite encs_cons, length_app.
  assert (1 <= length (enc_item p x))%nat; [|simpl; lia].
  destruct x; cbn [enc_item]; rewrite ?length_app, length_le32; lia.
Qed.

Lemma forw_step w tail n nrec rb p d a c :
  rep w tail (tape c) (rb, Rec p d :: a) → nrec <=? 0 = false →
  ∃ c2, forw_loop (S n) nrec c = forw_loop n (nrec - 1) c2 ∧
    (ndone c2, rdata c2) = (1 + ndone c, rdata c) ∧
    fPadOdd (tape c2) = fPadOdd (tape c) ∧ rep w tail (tape c2) (Rec p d :: rb, a).
Proof.
  intros R Hnrec. cbn [forw_loop]. rewrite Hnrec.
  destruct (read_forw_rec w tail c rb p d a id id R) as (t1 & H1 & Ha1 & Hg1 & Hp1).
  rewrite (ebind_ok _ _ _ _ _ H1).
  pose proof (rep_ok _ _ _ _ R) as Hok. apply Forall_app in Hok as [_ [Hok _]%Forall_cons_iff].
  destruct (rec_parts _ rb p d a tail Hok) as (_ & _ & Hlen & Hhead).
  etryp (ParseMeta_rec _ p d t1 Hok). autorewrite with run.
  change (tape (_ <| tape := t1 |>)) with t1.
  assert (Hpad1 : fPadOdd t1 = fPadOdd (tape c)) by (by injection Hg1).
  rewrite (proj2 (padding_ok p d t1 ltac:(by rewrite Hpad1))).
  etryp (CheckSizeForw_ok w t1 _ _ (4 + Z.of_nat (length d)) _ Ha1 ltac:(rewrite Hlen; lia)).
  destruct (Seek_at w t1 _ _ (4 + Z.of_nat (length d)) 1 (head_of (fPadOdd (tape c)) (Rec p d :: rb)) Ha1)
    as (t2 & H2 & Ha2 & Hg2 & Hp2); [rewrite Hhead; simpl; lia|].
  etryp H2. unfold upd. autorewrite with run.
  set (c2 := c <| tape := _ |> <| tape := _ |> <| tape := _ |> <| tape := _ |> <| tape ::= _ |> <| ndone ::= _ |>).
  rewrite Hg1 in Hg2. injection Hg2 as E1 E2 E3 E4 E5.
  assert (Rn : rep w tail (tape c2) (Rec p d :: rb, a)).
  { eapply rep_forw; [exact R|by apply at_IncPosRecord| | |reflexivity].
    - unfold c2. simpl. rewrite regs_IncPosRecord. rewrite E1, E2, E3, E4, E5.
      by rewrite (rep_good _ _ _ _ R).
    - unfold c2. simpl. rewrite IncPosRecord_pend. congruence. }
  exists c2. split_and!; [done|done| |done].
  unfold c2. simpl. pose proof (regs_IncPosRecord 1 t2) as G. by injection G as _ -> _ _ _.
Qed.

Lemma forw_loop_does w tail n : ∀ nrec rb a c,
  rep w tail (tape c) (rb, a) → (length a < n)%nat →
  let '(op, k, st) := sforw a nrec rb in
  ∃ c', forw_loop n nrec c = (Ret (inl ()), c') ∧
    (opcode c', ndone c', rdata c') = (op, ndone c + k, rdata c) ∧
    fPadOdd (tape c') = fPadOdd (tape c) ∧ rep w tail (tape c') st.
Proof.
  induction n as [|n IH]; intros nrec rb a c R Hn; [lia|].
  destruct a as [|[p d|] a]; cbn [sforw forw_loop]; destruct (nrec <=? 0) eqn:Hnrec;
    try (eexists; split; [reflexivity|]; simpl; by rewrite Z.add_0_r).
  - destruct (read_forw_end w tail c rb id id R stat_only_id) as (t1 & H1 & R1 & Hp1).
    rewrite (ebind_ok _ _ _ _ _ H1). eexists. split; [reflexivity|]. simpl.
    by rewrite Z.add_0_r.
  - destruct (forw_step w tail n nrec rb p d a c R Hnrec) as (c2 & Hc2 & Hr2 & Hp2 & Rn).
    cbn [forw_loop] in Hc2. rewrite Hnrec in Hc2. rewrite Hc2. injection Hr2 as Hd2 Hrd2.
    assert (Hn' : (length a < n)%nat) by (clear -Hn; simpl in Hn; lia).
    specialize (IH (nrec - 1) (Rec p d :: rb) a c2 Rn Hn').
    destruct (sforw a (nrec - 1) (Rec p d :: rb)) as [[op k] st].
    destruct IH as (c' & Hc & Hr & Hp & R'). exists c'. split; [exact Hc|].
    split; [|split; [congruence|done]]. rewrite Hr, Hd2, Hrd2. do 2 f_equal. ring.
  - destruct (read_forw_mark w tail c rb a id id R stat_only_id) as (t1 & H1 & R1 & Hp1).
    rewrite (ebind_ok _ _ _ _ _ H1). eexists. split; [reflexivity|]. simpl.
    by rewrite Z.add_0_r.
Qed.

Lemma SpaceForw_does w tail t st n :
  rep w tail t st →
  let '(r, st') := spec_op (TForw n) st in does w (SpaceForw n) (fresh t) r st'.
Proof.
  intros R. destruct st as [rb a]. cbn [spec_op].
  set (t0 := tstat kStatNVTSpaForw 1 t).
  assert (R0 : rep w tail (tape (fresh t0)) (rb, a)) by (by apply rep_stats).
  pose proof (length_file (fPadOdd t) rb a tail) as Hlen. rewrite length_app in Hlen.
  pose proof (length_encs (fPadOdd t) a) as Hle.
  destruct (rep_at _ _ _ _ R) as (_ & Hp & Hs & _).
  pose proof (forw_loop_does w tail (S (Z.to_nat (fSize t - fPos t))) n rb a (fresh t0) R0) as H.
  destruct (sforw a n rb) as [[op k] st]. destruct H as (c' & Hc & Hr & Hpad & R').
  { rewrite Hs, Hp. cbn [fst]. rewrite Hlen. clear -Hle. lia. }
  exists c', tail. unfold SpaceForw, upd, set_op, set_ndone. autorewrite with run.
  change (fresh t <| tape ::= _ |> <| opcode := _ |> <| ndone := _ |>) with (fresh t0).
  rewrite (ebind_ok _ _ _ _ _ (check_bad_ok _ _ (fresh t0) _ _ R0)). autorewrite with run.
  by split.
Qed.

Lemma back_step w tail n nrec rb p d a c :
  rep w tail (tape c) (Rec p d :: rb, a) → fEom (tape c) = false → fTruncPend (tape c) = true →
  nrec <=? 0 = false →
  ∃ c2, back_loop (S n) nrec c = back_loop n (nrec - 1) c2 ∧
    (ndone c2, rdata c2) = (1 + ndone c, rdata c) ∧
    (fEom (tape c2) = false ∧ fTruncPend (tape c2) = true ∧ fPadOdd (tape c2) = fPadOdd (tape c)) ∧
    rep w tail (tape c2) (rb, Rec p d :: a).
Proof.
  intros R Heom Hpend Hnrec. cbn [back_loop]. rewrite Hnrec.
  pose proof (rep_at _ _ _ _ R) as Ha. pose proof Ha as (_ & Hp & _ & _). cbn [fst] in *.
  autorewrite with run. rewrite Hp.
  pose proof (rep_ok _ _ _ _ R) as Hok. cbn [fst snd] in Hok. rewrite items_move in Hok.
  apply Forall_app in Hok as [_ [Hok _]%Forall_cons_iff].
  destruct (rec_parts _ rb p d a tail Hok) as (_ & Hd2 & Hlen & Hhead).
  rewrite <- file_of_move in Hd2, Hlen. rewrite (proj2 (Z.eqb_neq _ _)) by (rewrite Hhead; lia).
  etryp (CheckSizeBack_ok w _ _ _ 4 _ Ha ltac:(rewrite Hhead; lia)).
  destruct (Seek_at w _ _ _ 4 (-1) (head_of (fPadOdd (tape c)) rb + 4 + length d) Ha)
    as (t1 & H1 & Ha1 & Hg1 & Hp1); [rewrite Hhead; simpl; lia|].
  etryp H1.
  destruct (Read_meta_at w _ _ _ (meta_of p d) Ha1 Hd2) as (t2 & H2 & Ha2 & Hg2 & Hp2).
  etryp H2. destruct (meta_fields p _ d Hok) as (_ & _ & _ & N1 & N2).
  rewrite (proj2 (Z.eqb_neq _ _) N1), (proj2 (Z.eqb_neq _ _) N2).
  etryp (ParseMeta_rec _ p d t2 Hok). autorewrite with run.
  change (tape (_ <| tape := t2 |>)) with t2.
  rewrite Hg1 in Hg2.
  assert (Hpad2 : fPadOdd t2 = fPadOdd (tape c)) by (by injection Hg2).
  rewrite (proj2 (padding_ok p d t2 ltac:(by rewrite Hpad2))).
  etryp (CheckSizeBack_ok w t2 _ _ (2 * 4 + Z.of_nat (length d)) _ Ha2 ltac:(lia)).
  destruct (Seek_at w t2 _ _ (2 * 4 + Z.of_nat (length d)) (-1) (head_of (fPadOdd (tape c)) rb) Ha2)
    as (t3 & H3 & Ha3 & Hg3 & Hp3); [simpl; lia|].
  etryp H3. unfold upd. autorewrite with run.
  set (c2 := c <| tape := _ |> <| tape := _ |> <| tape := _ |> <| tape := _ |> <| tape := _ |> <| tape := _ |>
               <| tape ::= _ |> <| ndone ::= _ |>).
  rewrite Hg2 in Hg3. injection Hg3 as E1 E2 E3 E4 E5.
  assert (Rn : rep w tail (tape c2) (rb, Rec p d :: a)).
  { eapply rep_back; [exact R|by apply at_IncPosRecord| | |reflexivity].
    - unfold c2. simpl. rewrite regs_IncPosRecord. rewrite E1, E2, E3, E4, E5.
      by rewrite (rep_good _ _ _ _ R), Heom.
    - unfold c2. simpl. rewrite IncPosRecord_pend. congruence. }
  assert (G : fEom (tape c2) = false ∧ fTruncPend (tape c2) = true ∧ fPadOdd (tape c2) = fPadOdd (tape c)).
  { unfold c2. simpl. rewrite IncPosRecord_pend. pose proof (regs_IncPosRecord (-1) t3) as G.
    injection G as _ -> _ _ ->. split_and!; congruence. }
  exists c2. split; [done|]. split; [done|]. by split.
Qed.
Lemma back_mark w tail n nrec rb a c :
  rep w tail (tape c) (Mark :: rb, a) → fEom (tape c) = false → fTruncPend (tape c) = true →
  nrec <=? 0 = false →
  ∃ t', back_loop (S n) nrec c =
      (Ret (inl ()), c <| tape := t' |> <| opcode := kOpCodeEof |>) ∧
    fPadOdd t' = fPadOdd (tape c) ∧ rep w tail t' (rb, Mark :: a).
Proof.
  intros R Heom Hpend Hnrec. cbn [back_loop]. rewrite Hnrec.
  pose proof (rep_at _ _ _ _ R) as Ha. pose proof Ha as (_ & Hp & _ & _). cbn [fst] in *.
  autorewrite with run. rewrite Hp.
  pose proof (head_of_cons (fPadOdd (tape c)) Mark rb) as Hhead. simpl in Hhead.
  rewrite (proj2 (Z.eqb_neq _ _)) by (rewrite Hhead; lia).
  etryp (CheckSizeBack_ok w _ _ _ 4 _ Ha ltac:(rewrite Hhead; lia)).
  destruct (Seek_at w _ _ _ 4 (-1) (head_of (fPadOdd (tape c)) rb) Ha)
    as (t1 & H1 & Ha1 & Hg1 & Hp1); [rewrite Hhead; simpl; lia|].
  etryp H1.
  destruct (Read_meta_at w _ _ _ kMetaEof Ha1) as (t2 & H2 & Ha2 & Hg2 & Hp2).
  { by rewrite file_of_move, drop_head, encs_cons. }
  etryp H2. simpl (_ =? kMetaEof).
  destruct (Seek_at w _ _ _ 4 (-1) (head_of (fPadOdd (tape c)) rb) Ha2)
    as (t3 & H3 & Ha3 & Hg3 & Hp3); [simpl; lia|].
  change (kMetaEof =? kMetaEof) with true. cbv iota.
  etryp H3. unfold set_op, upd. autorewrite with run.
  rewrite Hg2, Hg1 in Hg3. injection Hg3 as E1 E2 E3 E4 E5.
  eexists. split; [reflexivity|]. split; [done|].
  destruct R as [? ? Ho Ht Hbad Hfi Hr He]. cbn [fst snd] in *.
  constructor; cbn -[encs rev Z.add Z.sub]; rewrite ?E1, ?E2, ?E3, ?E5; try done.
  + rewrite <- file_of_move. exact Ha3.
  + by rewrite <- items_move.
  + congruence.
  + rewrite Hfi. simpl. ring.
  + by left.
  + congruence.
Qed.

Lemma back_loop_does w tail n : ∀ nrec rb a c,
  rep w tail (tape c) (rb, a) → fEom (tape c) = false → fTruncPend (tape c) = true →
  (length rb < n)%nat →
  let '(op, k, st) := sback rb nrec a in
  ∃ c', back_loop n nrec c = (Ret (inl ()), c') ∧
    (opcode c', ndone c', rdata c') = (op, ndone c + k, rdata c) ∧
    fPadOdd (tape c') = fPadOdd (tape c) ∧ rep w tail (tape c') st.
Proof.
  induction n as [|n IH]; intros nrec rb a c R Heom Hpend Hn; [lia|].
  destruct rb as [|[p d|] rb]; cbn [sback]; destruct (nrec <=? 0) eqn:Hnrec;
    try (eexists; split; [cbn [back_loop]; rewrite Hnrec; reflexivity|]; simpl; by rewrite Z.add_0_r).
  - (* at the begin *)
    pose proof (rep_at _ _ _ _ R) as (_ & Hp & _ & _). cbn [back_loop].
    rewrite Hnrec. autorewrite with run. rewrite Hp.
    eexists. split; [reflexivity|]. simpl. rewrite Z.add_0_r. split_and!; try done.
    destruct R. constructor; try done. by right.
  - destruct (back_step w tail n nrec rb p d a c R Heom Hpend Hnrec)
      as (c2 & Hc2 & Hr2 & (G1 & G2 & G3) & Rn).
    rewrite Hc2. injection Hr2 as Hd2 Hrd2.
    assert (Hn' : (length rb < n)%nat) by (clear -Hn; simpl in Hn; lia).
    specialize (IH (nrec - 1) rb (Rec p d :: a) c2 Rn G1 G2 Hn').
    destruct (sback rb (nrec - 1) (Rec p d :: a)) as [[op k] st].
    destruct IH as (c' & Hc & Hr & Hpad & R'). exists c'. split; [exact Hc|].
    split; [|split; [congruence|done]]. rewrite Hr, Hd2, Hrd2. do 2 f_equal. ring.
  - destruct (back_mark w tail n nrec rb a c R Heom Hpend Hnrec) as (t' & Hc & Hp & R').
    rewrite Hc. eexists. split; [reflexivity|]. simpl. by rewrite Z.add_0_r.
Qed.

Lemma SpaceBack_does w tail t st n :
  rep w tail t st →
  let '(r, st') := spec_op (TBack n) st in does w (SpaceBack n) (fresh t) r st'.
Proof.
  intros R. destruct st as [rb a]. cbn [spec_op].
  set (t0 := tstat kStatNVTSpaBack 1 t).
  assert (R0 : rep w tail (tape (fresh t0)) (rb, a)) by (by apply rep_stats).
  set (t1 := t0 <| fEom := false |> <| fTruncPend := true |>).
  assert (R1 : rep w tail (tape (fresh t1)) (rb, a)) by (destruct R0; by constructor).
  pose proof (length_encs (fPadOdd t) (rev rb)) as Hle. rewrite length_rev in Hle.
  destruct (rep_at _ _ _ _ R) as (_ & Hp & _ & _).
  pose proof (back_loop_does w tail (S (Z.to_nat (fPos t))) n rb a (fresh t1) R1 eq_refl eq_refl) as H.
  destruct (sback rb n a) as [[op k] st]. destruct H as (c' & Hc & Hr & Hpad & R').
  { rewrite Hp. cbn [fst]. unfold head_of. clear -Hle. lia. }
  exists c', tail. unfold SpaceBack, upd, set_op, set_ndone. autorewrite with run.
  change (fresh t <| tape ::= _ |> <| opcode := _ |> <| ndone := _ |>) with (fresh t0).
  rewrite (ebind_ok _ _ _ _ _ (check_bad_ok _ _ (fresh t0) _ _ R0)). autorewrite with run.
  by split.
Qed.

Lemma Rewind_does w tail t st :
  rep w tail t st →
  let '(r, st') := spec_op TRewind st in does w Rewind (fresh t) r st'.
Proof.
  intros R. destruct st as [rb a]. cbn [spec_op].
  set (t0 := tstat kStatNVTRewind 1 t).
  assert (R0 : rep w tail (tape (fresh t0)) (rb, a)) by (by apply rep_stats).
  unfold does, Rewind, upd, set_op. autorewrite with run.
  change (fresh t <| tape ::= _ |> <| opcode := _ |>) with (fresh t0).
  destruct (Seek_at w _ _ _ 0 0 0%nat (rep_at _ _ _ _ R0)) as (t1 & H1 & Ha1 & Hg1 & Hp1); [done|].
  etryp H1. autorewrite with run. eexists _, tail. split; [reflexivity|].
  injection Hg1 as E1 E2 E3 E4 E5.
  split; [done|]. split; [exact E2|].
  destruct R0 as [? ? Ho Ht Hbad Hfi Hr He]. cbn [fst snd] in *.
  destruct Ha1 as (Hf & Hp & Hs & Hb).
  constructor; simpl; rewrite ?E2; try done.
  - split; [|split_and!]; simpl; [|done| |by rewrite Hp].
    + exact Hf.
    + exact Hs.
  - by right.
Qed.

(** Writing: the first write cuts the file at the head, the next ones append,
    the last one leaves an end of medium word behind the head. *)
Lemma Write_start tail t st m :
  rep true tail t st → (4 <= length m)%nat →
  let x := encs (fPadOdd t) (rev st.1) in
  let t1 := t <| fEom := false |> in
  ∃ t2, Write m false t1 = (Ret (inl ()), t2) ∧ at_ true t2 (x ++ m) (length (x ++ m)) ∧
    regs t2 = regs t1 ∧ fTruncPend t2 = false.
Proof.
  intros [Ha ? Ho Ht _ _ _ _] Hm x t1. destruct st as [rb a]. cbn [fst snd] in *.
  assert (Ha1 : at_ true t1 (x ++ encs (fPadOdd t) a ++ tail) (length x)).
  { unfold file_of in Ha. cbn [fst snd] in Ha. rewrite encs_app, <- app_assoc in Ha. exact Ha. }
  destruct (Write_at t1 _ _ m false Ha1) as (t2 & H2 & Ha2 & Hg2 & Hp2).
  { destruct (fTruncPend t1) eqn:E; [by left|right]. destruct (Ht E) as [-> ?]. simpl. lia. }
  rewrite <- length_app in Ha2. by exists t2.
Qed.
Lemma Write_next t x d back :
  at_ true t x (length x) →
  ∃ t', Write d back t = (Ret (inl ()), t') ∧
    at_ true t' (x ++ d) (length (if back : bool then x else x ++ d)) ∧
    regs t' = regs t ∧ fTruncPend t' = false.
Proof.
  intros Ha. rewrite <- (app_nil_r x) in Ha at 1.
  destruct (Write_at t x [] d back Ha) as (t' & H & Ha' & Hg & Hp); [right; simpl; lia|].
  exists t'. split_and!; try done. destruct back; [by rewrite Nat.add_0_r in Ha'|by rewrite length_app].
Qed.
Lemma rep_written t rb x :
  let y := encs (fPadOdd t) (rev rb) ++ enc_item (fPadOdd t) x in
  at_ true t (y ++ le32 kMetaEom) (length y) →
  Forall (item_ok (fPadOdd t)) rb → item_ok (fPadOdd t) x →
  fBad t = false → fEom t = false → fPosFile t = marks (x :: rb) →
  fPosRecord t = -1 ∨ fPosRecord t = records (x :: rb) →
  rep true (le32 kMetaEom) t (x :: rb, []).
Proof.
  intros y Ha Ho Hx Hb He Hf Hr. unfold y in Ha. constructor; cbn [fst snd]; try done.
  - rewrite file_of_move, head_of_cons. unfold file_of, head_of. cbn [fst snd].
    rewrite encs_app, encs_cons, app_nil_r. rewrite length_app in Ha. exact Ha.
  - right. exists []. by rewrite app_nil_r.
  - rewrite app_nil_r. apply Forall_rev. by constructor.
Qed.
Lemma rep_front w tail t st : rep w tail t st → Forall (item_ok (fPadOdd t)) st.1.
Proof.
  intros R. pose proof (rep_ok _ _ _ _ R) as H. apply Forall_app in H as [H _].
  rewrite <- (rev_involutive st.1). by apply Forall_rev.
Qed.

Lemma WriteEof_does tail t st :
  rep true tail t st →
  let '(r, st') := spec_op TEof st in does true WriteEof (fresh t) r st'.
Proof.
  intros R. destruct st as [rb a]. cbn [spec_op].
  set (t0 := tstat kStatNVTWriteEof 1 t).
  assert (R0 : rep true tail (tape (fresh t0)) (rb, a)) by (by apply rep_stats).
  destruct (Write_start tail t0 _ (le32 kMetaEof) R0) as (t2 & H2 & Ha2 & Hg2 & _); [simpl; lia|].
  destruct (Write_next t2 _ (le32 kMetaEom) true Ha2) as (t3 & H3 & Ha3 & Hg3 & _).
  unfold does, WriteEof, upd. autorewrite with run.
  change (fresh t <| tape ::= _ |>) with (fresh t0).
  rewrite (ebind_ok _ _ _ _ _ (check_bad_ok _ _ (fresh t0) _ _ R0)). autorewrite with run.
  etryp H2. etryp H3. rewrite Hg2 in Hg3. injection Hg3 as E1 E2 E3 E4 E5.
  pose proof (rep_files _ _ _ _ R) as Hf. pose proof (rep_good _ _ _ _ R) as Hb.
  eexists _, (le32 kMetaEom). split; [reflexivity|]. split; [done|]. split; [exact E2|].
  apply rep_written; cbn -[encs rev Z.add]; rewrite ?E1, ?E2, ?E3, ?E5; try done.
  - apply (rep_front _ _ _ _ R).
  - cbn [fst] in Hf. by rewrite Hf.
  - by right.
Qed.

Lemma WriteRecord_does tail t st d :
  rep true tail t st → item_ok (fPadOdd t) (Rec false d) →
  let '(r, st') := spec_op (TWrite d) st in does true (WriteRecord d) (fresh t) r st'.
Proof.
  intros R Hok. destruct st as [rb a]. cbn [spec_op].
  set (n := Z.of_nat (length d)).
  set (t0 := tstat kStatNVTWriteByt n (tstat kStatNVTWriteRec 1 t)).
  assert (R0 : rep true tail (tape (fresh t0)) (rb, a)) by exact (rep_stats _ _ _ _ _ R).
  assert (Hm : u32 n = meta_of false d).
  { unfold meta_of. rewrite Z.add_0_r. apply u32_id. destruct Hok as [Hl _]. fold n in Hl.
    clear -Hl. words. }
  destruct (Write_start tail t0 _ (le32 (meta_of false d)) R0) as (t1 & H1 & Ha1 & Hg1 & _);
    [simpl; lia|].
  destruct (Write_next t1 _ d false Ha1) as (t2 & H2 & Ha2 & Hg2 & _).
  destruct (Write_next t2 _ (le32 (meta_of false d)) false Ha2) as (t3 & H3 & Ha3 & Hg3 & _).
  destruct (Write_next t3 _ (le32 kMetaEom) true Ha3) as (t4 & H4 & Ha4 & Hg4 & _).
  rewrite Hg1 in Hg2. rewrite Hg2 in Hg3. rewrite Hg3 in Hg4.
  unfold does, WriteRecord, upd, set_op. autorewrite with run. fold n.
  change (fresh t <| tape ::= _ |> <| tape ::= _ |> <| opcode := _ |>) with (fresh t0).
  rewrite (ebind_ok _ _ _ _ _ (check_bad_ok _ _ (fresh t0) _ _ R0)). autorewrite with run.
  rewrite Hm. etryp H1. etryp H2. autorewrite with run.
  change (tape (_ <| tape := t2 |>)) with t2.
  assert (Hpad : fPadOdd t2 && negb (Z.land n 1 =? 0) = false).
  { injection Hg2 as _ -> _ _ _. change (fPadOdd (t0 <| fEom := false |>)) with (fPadOdd t).
    destruct Hok as [_ He]. destruct (fPadOdd t); [|done]. unfold n. by rewrite (He eq_refl). }
  rewrite Hpad. autorewrite with run. etryp H3. etryp H4. autorewrite with run.
  injection Hg4 as E1 E2 E3 E4 E5.
  pose proof (rep_files _ _ _ _ R) as Hf. pose proof (rep_good _ _ _ _ R) as Hb.
  pose proof (regs_IncPosRecord 1 t4) as G. rewrite E1, E2, E3, E4, E5 in G.
  injection G as G1 G2 G3 G4 G5.
  eexists _, (le32 kMetaEom). split; [reflexivity|]. split; [done|]. split; [exact G2|].
  apply rep_written; cbn -[encs rev enc_item item_ok Z.add]; rewrite ?G1, ?G2, ?G3, ?G4, ?G5; try done.
  - cbn [enc_item]. rewrite (proj1 (padding_ok false d t Hok)), app_nil_r.
    apply at_IncPosRecord. rewrite <- !app_assoc in *. exact Ha4.
  - apply (rep_front _ _ _ _ R).
  - destruct (Z.eqb_spec (fPosRecord t) (-1)) as [E|E]; simpl; [by left|right].
    pose proof (rep_records _ _ _ _ R) as Hr. cbn [fst] in Hr.
    destruct Hr as [Hr|Hr]; [done|]. cbn [records]. by rewrite Hr.
Qed.
End Refinement.

(** ** The unit refines the tape *)

Section Unit.
Context {F : Type} `{!PosixFile F, !PosixFileLaws F}.
Notation U := (Rw11UnitTape F).

(** The calls of the controller; [nbyt] is the size of its read buffer. *)
Definition unit_op (nbyt : Z) (o : tape_op) : U → result * U :=
  match o with
  | TRead => VirtReadRecord nbyt
  | TWrite d => VirtWriteRecord d
  | TEof => VirtWriteEof
  | TForw n => VirtSpaceForw n
  | TBack n => VirtSpaceBack n
  | TRewind => VirtRewind
  end.
Fixpoint unit_run (nbyt : Z) (ops : list tape_op) (u : U) : list result * U :=
  match ops with
  | [] => ([], u)
  | o :: ops => let '(r, u) := unit_op nbyt o u in
                let '(rs, u) := unit_run nbyt ops u in (r :: rs, u)
  end.

(** Each call with a buffer size of its own. *)
Fixpoint calls_run (ops : list (Z * tape_op)) (u : U) : list result * U :=
  match ops with
  | [] => ([], u)
  | (nbyt, o) :: ops => let '(r, u) := unit_op nbyt o u in
                        let '(rs, u) := calls_run ops u in (r :: rs, u)
  end.
(** Each record read fits its buffer, on a tape of the state [st]. *)
Fixpoint reads_fit (ops : list (Z * tape_op)) (st : tape_state) : Prop :=
  match ops with
  | [] => True
  | (nbyt, o) :: ops => (o = TRead → holds_next nbyt st) ∧ reads_fit ops (spec_op o st).2
  end.

(** A tape of the state [st] is mounted; [w]: it can be written, [p]: with
    padding. *)
Definition mounted (w p : bool) (u : U) (st : tape_state) : Prop :=
  ∃ t tail, fupVirt u = Some t ∧ fPadOdd t = p ∧ rep w tail t st.
Definition op_ok (w p : bool) (o : tape_op) : Prop :=
  match o with
  | TWrite d => w = true ∧ item_ok p (Rec false d)
  | TEof => w = true
  | _ => True
  end.

Lemma on_virt_does w p u t (st' : tape_state) r meth m :
  fupVirt u = Some t → fPadOdd t = p → does w m (fresh t) r st' →
  ∃ u', on_virt meth m u = ((Ret (inl ()), r), u') ∧ mounted w p u' st'.
Proof.
  intros Hu Hp (c & tail & Hm & Hr & Hpad & R). unfold on_virt. rewrite Hu, Hm, Hr.
  eexists. split; [reflexivity|]. exists (tape c), tail. simpl in *. split_and!; [done|congruence|done].
Qed.
Lemma unit_op_does w p nbyt u (st : tape_state) o :
  (o = TRead → holds_next nbyt st) → mounted w p u st → op_ok w p o →
  ∃ u', unit_op nbyt o u = ((Ret (inl ()), (spec_op o st).1), u') ∧ mounted w p u' (spec_op o st).2.
Proof.
  intros Hn (t & tail & Hu & Hp & R) Hok.
  assert (H : ∀ meth m, (let '(r, st') := spec_op o st in does w m (fresh t) r st') →
    ∃ u', on_virt meth m u = ((Ret (inl ()), (spec_op o st).1), u') ∧ mounted w p u' (spec_op o st).2).
  { intros meth m H. destruct (spec_op o st) as [r st']. by eapply on_virt_does. }
  destruct o; cbn [unit_op]; apply H; simpl in Hok.
  - apply (ReadRecord_does w tail); auto.
  - destruct Hok as [-> Hok]. rewrite <- Hp in Hok. by apply (WriteRecord_does tail).
  - subst w. by apply (WriteEof_does tail).
  - by apply (SpaceForw_does w tail).
  - by apply (SpaceBack_does w tail).
  - by apply (Rewind_does w tail).
Qed.

(** C20: a unit with a TAP file behaves as a tape, as long as no record is read
    short.  From a file that encodes a tape, a sequence of calls succeeds with the
    opcodes, counts and data of the tape operations, and the file then encodes the
    tape those operations leave, with the head (and the file and record numbers)
    at their place; provided that each record read fits the buffer of its call,
    that written records have 1 to 65535 bytes, an even number of them when the
    file pads odd records, and that nothing is written to a protected tape.  (The
    records of the mounted tape obey the same rules, and a record read short loses
    the tape: [ReadRecord_short_loses_tape].) *)
Theorem TapeTap_refines_tape w p ops u (st : tape_state) :
  mounted w p u st → Forall (op_ok w p) (map snd ops) → reads_fit ops st →
  ∃ u', calls_run ops u = (map (pair (Ret (inl ()))) (spec_run (map snd ops) st).1, u') ∧
    mounted w p u' (spec_run (map snd ops) st).2.
Proof.
  revert u st. induction ops as [|[nbyt o] ops IH]; intros u st Hm Hops Hfit; [by exists u|].
  cbn [map snd] in Hops. apply Forall_cons_iff in Hops as [Ho Hops]. destruct Hfit as [Hn Hfit].
  destruct (unit_op_does w p nbyt u st o Hn Hm Ho) as (u1 & H1 & Hm1).
  simpl. rewrite H1. destruct (spec_op o st) as [r st1].
  destruct (IH u1 st1 Hm1 Hops Hfit) as (u2 & H2 & Hm2). rewrite H2.
  destruct (spec_run (map snd ops) st1) as [rs st2]. by exists u2.
Qed.
End Unit.

(** A new tape in memory, opened, and the unit it is mounted on. *)
Definition new_tape (url : string) (data : list Z) : TapeTap MemFile :=
  (Open url (TapeTap_ctor (mkMemFile (mkOfile data 0 true)))).2.
Definition new_unit (url : string) (data : list Z) : Rw11UnitTape MemFile :=
  UnitTape_ctor <| fupVirt := Some (new_tape url data) |>.

Definition sample_calls : list (Z * tape_op) :=
  [(0, TWrite [1; 2; 3]); (0, TWrite [4]); (0, TEof); (0, TBack 10); (0, TBack 1); (1, TRead); (0, TForw 7);
   (0, TRewind); (3, TRead)].
Lemma TapeTap_refines_tape_witness :
  ∃ u', calls_run sample_calls (new_unit "new.tap" []) =
    (map (pair (Ret (inl ())))
       [(kOpCodeOK, 0, []); (kOpCodeOK, 0, []); (kOpCodeBadFormat, 0, []); (kOpCodeEof, 0, []);
        (kOpCodeOK, 1, []); (kOpCodeOK, 1, [4]); (kOpCodeEof, 0, []); (kOpCodeOK, 0, []);
        (kOpCodeOK, 3, [1; 2; 3])], u') ∧
    mounted true false u' ([Rec false [1; 2; 3]], [Rec false [4]; Mark]).
Proof.
  refine (TapeTap_refines_tape true false sample_calls (new_unit "new.tap" []) ([], []) _ _ _).
  - exists (new_tape "new.tap" []), []. split_and!; [done|done|].
    constructor; try done; try first [by left|by right|by constructor].
  - unfold sample_calls. repeat constructor; simpl; done || lia.
  - repeat split; unfold holds_next; simpl; intros; done || lia.
Defined.

(** When ReadRecord returns fewer bytes than the record occupies in the
    file, the seek behind the data skips the length of the whole record
    instead of the rest of it.  A record longer than the buffer, and with the
    e11 padding every record of odd length, then marks the tape bad instead of
    ending with the opcodes of a length error and of success. *)
Theorem ReadRecord_short_loses_tape :
  let read nbyt url ops :=
    let u := (unit_run 65535 ops (new_unit url [])).2 in
    let '((r, _), u') := unit_op nbyt TRead u in (r, fBad <$> fupVirt u, fBad <$> fupVirt u') in
  read 2 "t.tap"%string [TWrite [1; 2; 3; 4]; TWrite [5; 6]; TRewind] =
    (Ret (inr (mkRerrMsg "Rw11VirtTapeTap::ReadRecord" "metabeg metaend mismatch")),
     Some false, Some true) ∧
  read 65535 "t.tap?e11"%string [TWrite [1; 2; 3]; TEof; TRewind] =
    (Ret (inr (mkRerrMsg "Rw11VirtTapeTap::ReadRecord" "metabeg metaend mismatch")),
     Some false, Some true).
Proof. vm_compute. done. Qed.
