(* ===== verification/TapeSafe.v ===== *)
(** * The tape container on arbitrary files

    Whatever bytes a container holds, a call of [VirtTape] returns: the loops
    end within their bound, no meta word is used that was not read in full,
    and a call fails only by marking the tape bad, which [Rewind] takes back.

    [safe m c Q]: the call [m] in state [c] returns; a success satisfies [Q],
    a failure leaves a bad tape. *)

From S2P Require Import Prelude.
From S2P Require Import Rstats.
From S2P Require Import FileFd.
From S2P Require Import Url.
From S2P Require Import VirtTape.
From S2P Require Import TapeSpec.

Open Scope Z_scope.

Section Safe.
Context {F : Type} `{!PosixFile F, !PosixFileLaws F}.
Notation T := (TapeTap F).
Notation C := (Call F).
Variable w : bool.

(** The size is known; unless the tape is bad the position is known too, and
    inside the file. *)
Definition inv (t : T) : Prop :=
  ∃ data pos, on_file (fFd t) (mkOfile data pos w) ∧ fSize t = Z.of_nat (length data) ∧
    (fBad t = false → at_ w t data pos ∧ (pos <= length data)%nat).

Definition safe {A} (m : E C A) (c : C) (Q : A → C → Prop) : Prop :=
  ∃ r c', m c = (Ret r, c') ∧
    match r with inl a => Q a c' | inr _ => inv (tape c') ∧ fBad (tape c') = true end.

Lemma safe_bind {A B} (m : E C A) (k : A → E C B) c Q :
  safe m c (λ a c', safe (k a) c' Q) → safe (m ≫= k) c Q.
Proof.
  intros ([a|e] & c' & H & HQ).
  - unfold safe. by rewrite (ebind_ok _ _ _ _ _ H).
  - exists (inr e), c'. by rewrite (ebind_err _ _ _ _ _ H).
Qed.
Lemma safe_ret {A} (a : A) c (Q : A → C → Prop) : Q a c → safe (mret a) c Q.
Proof. intros H. by exists (inl a), c. Qed.
Lemma safe_gets {A} (f : C → A) c (Q : A → C → Prop) : Q (f c) c → safe (egets f) c Q.
Proof. intros H. by exists (inl (f c)), c. Qed.
Lemma safe_modify (f : C → C) c (Q : () → C → Prop) : Q () (f c) → safe (emodify f) c Q.
Proof. intros H. by exists (inl ()), (f c). Qed.
Lemma safe_mono {A} (m : E C A) c (Q Q' : A → C → Prop) :
  safe m c Q → (∀ a c', Q a c' → Q' a c') → safe m c Q'.
Proof. intros ([a|e] & c' & H & HQ) Hi; [exists (inl a)|exists (inr e)]; exists c'; auto. Qed.

(** The state of a call with the head at [pos]. *)
Definition head (c : C) (data : list Z) (pos : nat) : Prop := at_ w (tape c) data pos.

Lemma inv_bad t data pos : at_ w t data pos → inv (t <| fBad := true |>).
Proof. intros (Hf & _ & Hs & _). by exists data, pos. Qed.

(** Failing and passing primitives. *)
Lemma safe_fail {A} (m : E T A) e c data pos Q :
  head c data pos → m (tape c) = (Ret (inr e), tape c) → safe (tryp m) c Q.
Proof.
  intros Ha H. eexists (inr e), _. split; [by apply tryp_err|]. simpl.
  split; [|done]. by eapply inv_bad.
Qed.
Lemma safe_setbad {A} e c data pos (Q : A → C → Prop) :
  head c data pos → safe (on_fail set_bad (fail e)) c Q.
Proof. intros Ha. eexists (inr e), _. split; [done|]. split; [|done]. by eapply inv_bad. Qed.

Lemma safe_check_forw n text c data pos (Q : () → C → Prop) :
  head c data pos → (Z.of_nat pos + n <= Z.of_nat (length data) → Q () c) →
  safe (tryp (CheckSizeForw n text)) c Q.
Proof.
  intros Ha HQ. destruct (Z.le_gt_cases (Z.of_nat pos + n) (Z.of_nat (length data))) as [Hle|Hgt].
  - eexists (inl ()), _. split; [apply tryp_ok; by eapply CheckSizeForw_ok|]. destruct c. by apply HQ.
  - eapply safe_fail; [exact Ha|]. destruct Ha as (_ & Hp & Hs & _).
    unfold CheckSizeForw. rewrite Hp, Hs, (proj2 (Z.leb_gt _ _)) by done. done.
Qed.
Lemma safe_check_back n text c data pos (Q : () → C → Prop) :
  head c data pos → (n <= Z.of_nat pos → Q () c) →
  safe (tryp (CheckSizeBack n text)) c Q.
Proof.
  intros Ha HQ. destruct (Z.le_gt_cases n (Z.of_nat pos)) as [Hle|Hgt].
  - eexists (inl ()), _. split; [apply tryp_ok; by eapply CheckSizeBack_ok|]. destruct c. by apply HQ.
  - eapply safe_fail; [exact Ha|]. destruct Ha as (_ & Hp & _).
    unfold CheckSizeBack. rewrite Hp, (proj2 (Z.leb_gt _ _)) by done. done.
Qed.
Lemma safe_seek s dir target c data pos (Q : () → C → Prop) :
  head c data pos →
  Z.of_nat target = (if dir =? 0 then s else if dir <? 0 then Z.of_nat pos - s else Z.of_nat pos + s) →
  (∀ c', head c' data target → ndone c' = ndone c → Q () c') →
  safe (tryp (Seek s dir)) c Q.
Proof.
  intros Ha Ht HQ. destruct (Seek_at w _ _ _ s dir target Ha Ht) as (t' & H & Ha' & _).
  eexists (inl ()), _. split; [by apply tryp_ok|]. by apply HQ.
Qed.
Lemma safe_read n c data pos (Q : list Z → C → Prop) :
  head c data pos → 0 <= n → Z.of_nat pos + n <= Z.of_nat (length data) →
  (∀ d c', head c' data (pos + Z.to_nat n) → Q d c') → safe (tryp (Read n)) c Q.
Proof.
  intros Ha Hn Hl HQ. destruct (Read_at w _ _ _ n Ha Hn) as (t' & H & Ha' & _); [clear -Hl Hn; lia|].
  eexists (inl _), _. split; [by apply tryp_ok|]. by apply HQ.
Qed.
Lemma safe_meta c data pos (Q : Z → C → Prop) :
  head c data pos → Z.of_nat pos + 4 <= Z.of_nat (length data) →
  (∀ m c', head c' data (pos + 4) → ndone c' = ndone c → Q m c') → safe (tryp Read_meta) c Q.
Proof.
  intros Ha Hl HQ. destruct (of_le32_some (take 4 (drop pos data))) as [m Hm].
  { rewrite length_take, length_drop. clear -Hl. lia. }
  destruct (Read_meta_at w _ _ _ m Ha Hm) as (t' & H & Ha' & _).
  eexists (inl m), _. split; [by apply tryp_ok|]. by apply HQ.
Qed.
(** The length field of a meta word. *)
Lemma safe_parse m c data pos (Q : Z * bool → C → Prop) :
  head c data pos → (∀ rlen perr, 0 <= rlen < 2 ^ 16 → Q (rlen, perr) c) →
  safe (tryp (ParseMeta m)) c Q.
Proof.
  intros Ha HQ. destruct (Z.land m kMeta_M_Mbz =? 0) eqn:E.
  - eexists (inl _), _. split; [apply tryp_ok; unfold ParseMeta; rewrite E; done|].
    destruct c. apply HQ. unfold kMeta_B_Rlen. change 0x0000ffff with (Z.ones 16).
    rewrite Z.land_ones by lia. by apply Z.mod_pos_bound.
  - eapply safe_fail; [exact Ha|]. unfold ParseMeta. by rewrite E.
Qed.
Lemma padding_range rlen (t : T) : 0 <= rlen < 2 ^ 16 → 0 <= BytePadding rlen t.
Proof. intros H. unfold BytePadding. destruct (fPadOdd t); [|lia]. apply Z.land_nonneg. lia. Qed.
Lemma safe_write d back c data pos (Q : () → C → Prop) :
  w = true → head c data pos → (pos <= length data)%nat →
  (∀ c' data' pos', head c' data' pos' → (pos' <= length data')%nat → Q () c') →
  safe (tryp (Write d back)) c Q.
Proof.
  intros Hw Ha Hl HQ. unfold head in *. rewrite Hw in Ha, HQ.
  destruct (Write_splice _ _ _ d back Ha Hl) as (t' & H & Ha' & _).
  eexists (inl ()), _. split; [by apply tryp_ok|]. eapply HQ; [exact Ha'|].
  set (dt := if fTruncPend (tape c) then take pos data else data).
  assert (Hin : (pos <= length dt)%nat).
  { unfold dt. destruct (fTruncPend (tape c)); [rewrite length_take|]; clear -Hl; lia. }
  rewrite length_splice_in by done. destruct back; clear -Hin; lia.
Qed.

(** One step of a call: the primitive, its checks, and the state behind it.
    Updates of the registers keep the head where it is. *)
Lemma head_upd c c' data pos :
  head c data pos → fFd (tape c') = fFd (tape c) → fPos (tape c') = fPos (tape c) →
  fSize (tape c') = fSize (tape c) → fBot (tape c') = fBot (tape c) → head c' data pos.
Proof. apply at_regs. Qed.

Ltac keep := first [eassumption | eapply head_upd; [eassumption|reflexivity..]].
Ltac step :=
  lazymatch goal with
  | |- safe (_ ≫= _) _ _ => apply safe_bind
  | |- safe (if ?b then _ else _) _ _ => destruct b eqn:?
  | |- safe (mret _) _ _ => apply safe_ret
  | |- safe (egets _) _ _ => apply safe_gets
  | |- safe (emodify _) _ _ => apply safe_modify
  | |- safe (upd _) _ _ => apply safe_modify
  | |- safe (set_op _) _ _ => apply safe_modify
  | |- safe (set_ndone _) _ _ => apply safe_modify
  | |- safe (on_fail set_bad (fail _)) _ _ => eapply safe_setbad; keep
  | |- safe (tryp (CheckSizeForw _ _)) _ _ => eapply safe_check_forw; [keep|intros ?]
  | |- safe (tryp (CheckSizeBack _ _)) _ _ => eapply safe_check_back; [keep|intros ?]
  | |- safe (tryp Read_meta) _ _ => eapply safe_meta; [keep| |intros ? ? ? ?]
  | |- safe (tryp (ParseMeta _)) _ _ => eapply safe_parse; [keep|intros ? ? ?]
  end.

Lemma inv_head c data pos : head c data pos → (pos <= length data)%nat → inv (tape c).
Proof. intros H Hl. pose proof H as (Hf & _ & Hs & _). by exists data, pos. Qed.

(** The begin of a forward move: the call is over, or the head is behind a
    complete meta word. *)
Lemma safe_read_forw f g c data pos (Q : forw → C → Prop) :
  (∀ t, fFd (f t) = fFd t ∧ fPos (f t) = fPos t ∧ fSize (f t) = fSize t ∧ fBot (f t) = fBot t) →
  (∀ t, fFd (g t) = fFd t ∧ fPos (g t) = fPos t ∧ fSize (g t) = fSize t ∧ fBot (g t) = fBot t) →
  head c data pos → (pos <= length data)%nat →
  (∀ c', inv (tape c') → Q F_done c') →
  (∀ m c', head c' data (pos + 4) → (pos + 4 <= length data)%nat → ndone c' = ndone c →
           Q (F_meta m) c') →
  safe (read_forw f g) c Q.
Proof.
  intros Hf Hg Ha Hl Hdone Hmeta. unfold read_forw.
  assert (Hinv : ∀ c' p, head c' data p → (p <= length data)%nat → inv (tape c')).
  { intros c' p Hc Hp. by eapply inv_head. }
  repeat step.
  - apply Hdone. eapply Hinv; [|exact Hl]. keep.
  - clear -H. lia.
  - apply Hdone. destruct (Hf (tape c')) as (E1 & E2 & E3 & E4). eapply (Hinv _ (pos + 4)%nat).
    + eapply head_upd; [eassumption|exact E1|exact E2|exact E3|exact E4].
    + clear -H. lia.
  - eapply (safe_seek 4 (-1) pos); [eassumption|simpl; lia|]. intros c2 Hc2 _. repeat step.
    apply Hdone. destruct (Hg (tape c2)) as (E1 & E2 & E3 & E4). eapply Hinv; [|exact Hl].
    eapply head_upd; [eassumption|exact E1|exact E2|exact E3|exact E4].
  - apply Hmeta; [done|clear -H; lia|done].
Qed.

Lemma safe_check_bad meth c (Q : () → C → Prop) :
  inv (tape c) → (∀ data pos, head c data pos → (pos <= length data)%nat → Q () c) →
  safe (check_bad meth) c Q.
Proof.
  intros (data & pos & Hf & Hs & Ha) HQ. unfold check_bad. destruct (fBad (tape c)) eqn:E.
  - exists (inr (mkRerrMsg ("Rw11VirtTapeTap::" ++ meth) "bad tape format")), c.
    split; [by rewrite E|]. split; [|done]. exists data, pos. split_and!; [done|done|congruence].
  - exists (inl ()), c. split; [by rewrite E|]. destruct (Ha eq_refl). by eapply HQ.
Qed.
Lemma inv_upd t t' :
  inv t → fFd t' = fFd t → fPos t' = fPos t → fSize t' = fSize t → fBot t' = fBot t →
  fBad t' = fBad t → inv t'.
Proof.
  intros (data & pos & Hf & Hs & Ha) E1 E2 E3 E4 E5. exists data, pos.
  rewrite E1, E3, E5. split_and!; [done|done|]. intros Hb. destruct (Ha Hb).
  split; [by eapply at_regs|done].
Qed.

(** ** The methods *)

Definition inv_after {A} (_ : A) (c : C) : Prop := inv (tape c).

(** A read over the end of the file comes back short, with the position as if
    it did not; the next check of the size fails. *)
Lemma safe_read_over n c data pos (Q : list Z → C → Prop) :
  head c data pos → Z.of_nat (length data) < Z.of_nat pos + n → (pos <= length data)%nat →
  (∀ d c', on_file (fFd (tape c')) (mkOfile data (length data) w) →
     fSize (tape c') = Z.of_nat (length data) → fSize (tape c') < fPos (tape c') →
     fBot (tape c') = (fPos (tape c') =? 0) → Q d c') →
  safe (tryp (Read n)) c Q.
Proof.
  intros (Hf & Hp & Hs & _) Hn Hl HQ.
  destruct (FileFd.Read_ok (fFd (tape c)) _ n Hf) as (r' & Hr & Hf'); [clear -Hn Hl; lia|].
  simpl in Hr, Hf'.
  eexists (inl _), _. split.
  { apply tryp_ok. unfold Read. erewrite ebind_ok; [|unfold ezoom; rewrite Hr; reflexivity].
    reflexivity. }
  assert (Hlen : (pos + length (take (Z.to_nat n) (drop pos data)) = length data)%nat).
  { rewrite length_take, length_drop. clear -Hn Hl. lia. }
  rewrite Hlen in Hf'. apply HQ; try done.
  unfold UpdatePos. simpl. rewrite Hs, Hp. clear -Hn. lia.
Qed.

(** The end of ReadRecord, behind the data. *)
Lemma read_end_safe (m rlen nd : Z) (perr : bool) c data pos :
  head c data pos →
  safe (tryp (CheckSizeForw 4 "missed metaend") ;;
        metaend ← tryp Read_meta;
        if negb (m =? metaend) then
          set_ndone 0 ;;
          on_fail set_bad (fail (mkRerrMsg "Rw11VirtTapeTap::ReadRecord" "metabeg metaend mismatch"))
        else
          upd (IncPosRecord 1) ;; set_op kOpCodeOK ;;
          (if perr : bool then upd (tstat kStatNVTReadPErr 1) ;; set_op kOpCodeBadParity
           else mret ()) ;;
          (if nd <? rlen then upd (tstat kStatNVTReadLErr 1) ;; set_op kOpCodeRecLenErr
           else mret ()) ;;
          upd (tstat kStatNVTReadByt nd)) c inv_after.
Proof.
  intros Ha. repeat step; try (clear -H; lia).
  all: pose proof (at_IncPosRecord w _ _ _ 1 H0) as Hi; eapply inv_head;
    [unfold head; eapply at_regs; [exact Hi|reflexivity..]|clear -H; lia].
Qed.

Lemma ReadRecord_safe nbyt c : 0 <= nbyt → inv (tape c) → safe (ReadRecord nbyt) c inv_after.
Proof.
  intros Hn Hi. unfold ReadRecord. repeat step.
  apply safe_check_bad; [exact Hi|]. intros data pos Ha Hl.
  apply safe_bind. eapply safe_read_forw; [done|done|exact Ha|exact Hl| |].
  { intros c1 H1. step. exact H1. }
  intros m c1 Hc1 Hl1 _. repeat step.
  pose proof (padding_range rlen (tape c1) ltac:(assumption)) as Hp.
  set (nd := if rlen <=? nbyt then rlen else nbyt).
  assert (Hnd : 0 <= nd). { unfold nd. destruct (rlen <=? nbyt); clear -H Hn; lia. }
  destruct (Z.le_gt_cases (Z.of_nat (pos + 4) + nd) (Z.of_nat (length data))) as [Hin|Hover].
  - eapply safe_read; [keep|exact Hnd|exact Hin|]. intros d c2 Hc2. step. step.
    apply safe_bind. destruct (nd <? _); [|step; eapply read_end_safe; keep].
    eapply safe_seek with (target := (pos + 4 + Z.to_nat nd + Z.to_nat (BytePadding rlen (tape c1)))%nat);
      [keep|simpl; clear -Hp Hnd; lia|]. intros c3 Hc3 _. by eapply read_end_safe.
  - eapply safe_read_over; [keep|exact Hover|exact Hl1|]. intros d c2 Hf Hs Hlt Hb. step. step.
    apply safe_bind. rewrite (proj2 (Z.ltb_ge _ _)) by (clear -Hover H0 Hp; lia). step. step.
    (* the position is behind the end *)
    eexists (inr _), _. split.
    { apply tryp_err. unfold CheckSizeForw.
      rewrite (proj2 (Z.leb_gt _ _)) by (simpl; clear -Hlt; lia). reflexivity. }
    split; [|done]. by exists data, (length data).
Qed.

Lemma WriteRecord_safe d c : w = true → inv (tape c) → safe (WriteRecord d) c inv_after.
Proof.
  intros Hw Hi. unfold WriteRecord. repeat step.
  apply safe_check_bad; [exact Hi|]. intros data pos Ha Hl. repeat step.
  eapply safe_write; [done|keep|exact Hl|]. intros c1 data1 pos1 Ha1 Hl1. repeat step.
  eapply safe_write; [done|keep|exact Hl1|]. intros c2 data2 pos2 Ha2 Hl2. repeat step.
  - eapply safe_write; [done|keep|exact Hl2|]. intros c3 data3 pos3 Ha3 Hl3. repeat step.
    eapply safe_write; [done|keep|exact Hl3|]. intros c4 data4 pos4 Ha4 Hl4. repeat step.
    eapply safe_write; [done|keep|exact Hl4|]. intros c5 data5 pos5 Ha5 Hl5. repeat step.
    pose proof (at_IncPosRecord w _ _ _ 1 Ha5) as H5. by eapply inv_head.
  - eapply safe_write; [done|keep|exact Hl2|]. intros c4 data4 pos4 Ha4 Hl4. repeat step.
    eapply safe_write; [done|keep|exact Hl4|]. intros c5 data5 pos5 Ha5 Hl5. repeat step.
    pose proof (at_IncPosRecord w _ _ _ 1 Ha5) as H5. by eapply inv_head.
Qed.
Lemma WriteEof_safe c : w = true → inv (tape c) → safe WriteEof c inv_after.
Proof.
  intros Hw Hi. unfold WriteEof. repeat step.
  apply safe_check_bad; [exact Hi|]. intros data pos Ha Hl. repeat step.
  eapply safe_write; [done|keep|exact Hl|]. intros c1 data1 pos1 Ha1 Hl1. repeat step.
  eapply safe_write; [done|keep|exact Hl1|]. intros c2 data2 pos2 Ha2 Hl2. repeat step.
  eapply inv_head; [keep|done].
Qed.

(** The loops: every turn moves the head over at least eight bytes. *)
Lemma forw_loop_safe n : ∀ nrec c data pos,
  head c data pos → (pos <= length data)%nat → (length data - pos < n)%nat →
  safe (forw_loop n nrec) c inv_after.
Proof.
  induction n as [|n IH]; intros nrec c data pos Ha Hl Hn; [lia|]. cbn [forw_loop]. repeat step.
  - eapply inv_head; [keep|done].
  - eapply safe_read_forw; [done|done|exact Ha|exact Hl| |].
    { intros c1 H1. step. exact H1. }
    intros m c1 Hc1 Hl1 _. repeat step.
    pose proof (padding_range rlen (tape c1) ltac:(assumption)) as Hp.
    set (rp := BytePadding rlen (tape c1)) in *.
    eapply safe_seek with (target := (pos + 8 + Z.to_nat rp)%nat);
      [keep|simpl; clear -Hp; lia|]. intros c2 Hc2 _. repeat step.
    eapply (IH _ _ data (pos + 8 + Z.to_nat rp)%nat).
    + pose proof (at_IncPosRecord w _ _ _ 1 Hc2) as Hi. exact Hi.
    + clear -H0 Hp. lia.
    + clear -Hn H0 Hp. lia.
Qed.
Lemma back_loop_safe n : ∀ nrec c data pos,
  head c data pos → (pos <= length data)%nat → (pos < n)%nat →
  safe (back_loop n nrec) c inv_after.
Proof.
  induction n as [|n IH]; intros nrec c data pos Ha Hl Hn; [lia|]. cbn [back_loop].
  repeat step; try (eapply inv_head; [keep|done]).
  eapply (safe_seek 4 (-1) (pos - 4)); [exact Ha|simpl; clear -H; lia|]. intros c1 Hc1 _. repeat step.
  { clear -H Hl. lia. }
  all: replace (pos - 4 + 4)%nat with pos in * by (clear -H; lia).
  - eapply (safe_seek 4 (-1) (pos - 4)); [exact H0|simpl; clear -H; lia|].
    intros c2 Hc2 _. repeat step. eapply inv_head; [keep|clear -Hl; lia].
  - pose proof (padding_range rlen (tape c') ltac:(assumption)) as Hp.
    set (rp := BytePadding rlen (tape c')) in *.
    eapply safe_seek with (target := (pos - 8 - Z.to_nat rp)%nat);
      [keep|simpl; clear -Hp H3; lia|]. intros c2 Hc2 _. repeat step.
    eapply (IH _ _ data (pos - 8 - Z.to_nat rp)%nat).
    + pose proof (at_IncPosRecord w _ _ _ (-1) Hc2) as Hi. exact Hi.
    + clear -Hl. lia.
    + clear -Hn H. lia.
Qed.
Lemma SpaceForw_safe nrec c : inv (tape c) → safe (SpaceForw nrec) c inv_after.
Proof.
  intros Hi. unfold SpaceForw. repeat step.
  apply safe_check_bad; [exact Hi|]. intros data pos Ha Hl. repeat step.
  eapply forw_loop_safe; [exact Ha|exact Hl|].
  destruct Ha as (_ & -> & -> & _). clear. lia.
Qed.
Lemma SpaceBack_safe nrec c : inv (tape c) → safe (SpaceBack nrec) c inv_after.
Proof.
  intros Hi. unfold SpaceBack. repeat step.
  apply safe_check_bad; [exact Hi|]. intros data pos Ha Hl. repeat step.
  eapply back_loop_safe; [keep|exact Hl|]. pose proof Ha as (_ & Hp & _).
  simpl in *. rewrite Hp. clear. lia.
Qed.
(** Rewind always succeeds. *)
Lemma Rewind_safe c : inv (tape c) →
  ∃ c', Rewind c = (Ret (inl ()), c') ∧ inv (tape c') ∧ fBad (tape c') = false.
Proof.
  intros (data & pos & Hf & Hs & _). unfold Rewind, upd, set_op. autorewrite with run.
  destruct (FileFd.Seek_ok (fFd (tape c)) _ 0 SEEK_SET Hf) as (r' & Hr & Hf'); [done|].
  erewrite ebind_ok.
  2:{ apply tryp_ok. unfold Seek. erewrite ebind_ok; [|unfold ezoom; simpl; rewrite Hr; reflexivity].
      reflexivity. }
  autorewrite with run. eexists. split; [reflexivity|]. split; [|done].
  exists data, 0%nat. split; [exact Hf'|]. split; [exact Hs|]. intros _. split; [|lia].
  split; [exact Hf'|]. by split_and!.
Qed.
End Safe.

(** ** Calls of the unit *)

Section Unit.
Context {F : Type} `{!PosixFile F, !PosixFileLaws F}.

(** A tape is mounted, of whatever contents. *)
Definition has_tape (w : bool) (u : Rw11UnitTape F) : Prop := ∃ t, fupVirt u = Some t ∧ inv w t.
Definition op_allowed (w : bool) (o : tape_op) : Prop :=
  match o with TWrite _ | TEof => w = true | _ => True end.

Lemma op_safe w nbyt o u :
  0 <= nbyt → has_tape w u → op_allowed w o →
  ∃ r out u', unit_op nbyt o u = ((Ret r, out), u') ∧ has_tape w u' ∧
    (∀ e, r = inr e → fBad <$> fupVirt u' = Some true) ∧
    (o = TRewind → r = inl () ∧ fBad <$> fupVirt u' = Some false).
Proof.
  intros Hn (t & Hu & Hi) Ho.
  assert (H : ∀ meth m, safe w m (fresh t) (inv_after w) →
    ∃ r out u', on_virt meth m u = ((Ret r, out), u') ∧ has_tape w u' ∧
      (∀ e, r = inr e → fBad <$> fupVirt u' = Some true)).
  { intros meth m (r & c & Hm & HQ). unfold on_virt. rewrite Hu, Hm. eexists _, _, _.
    split; [reflexivity|]. split.
    - exists (tape c). split; [done|]. destruct r as [[]|e]; [exact HQ|by destruct HQ].
    - intros e ->. simpl. destruct HQ as [_ HQ]. by rewrite HQ. }
  assert (Hd : o = TRewind ∨ o ≠ TRewind) by (destruct o; (by left) || (by right)).
  destruct Hd as [->|Hne].
  - destruct (Rewind_safe w (fresh t) Hi) as (c & Hm & Hi' & Hb).
    cbn [unit_op]. unfold VirtRewind, on_virt. rewrite Hu, Hm. eexists _, _, _.
    split; [reflexivity|]. split; [by exists (tape c)|]. split; [done|].
    intros _. split; [done|]. simpl. by rewrite Hb.
  - assert (H' : ∃ r out u', unit_op nbyt o u = ((Ret r, out), u') ∧ has_tape w u' ∧
      (∀ e, r = inr e → fBad <$> fupVirt u' = Some true)).
    { destruct o; cbn [unit_op]; try apply H; simpl in Ho.
      - by apply ReadRecord_safe. - by apply WriteRecord_safe. - by apply WriteEof_safe.
      - by apply SpaceForw_safe. - by apply SpaceBack_safe. - done. }
    destruct H' as (r & out & u' & H1 & H2 & H3). by exists r, out, u'.
Qed.

(** C21: on a container with arbitrary contents every sequence of calls returns:
    no loop runs out of its bound, no call uses a meta word it did not read in
    full or ends in an exception; a call that fails leaves the tape marked
    bad, and a rewind succeeds and clears the mark. *)
Theorem TapeTap_calls_return w nbyt ops u :
  0 <= nbyt → has_tape w u → Forall (op_allowed w) ops →
  let '(rs, u') := unit_run nbyt ops u in
  Forall (λ r, ∃ x, r.1 = Ret x) rs ∧ has_tape w u' ∧
  (∀ e, fst <$> list.last rs = Some (Ret (inr e)) → fBad <$> fupVirt u' = Some true) ∧
  (list.last ops = Some TRewind →
   fst <$> list.last rs = Some (Ret (inl ())) ∧ fBad <$> fupVirt u' = Some false).
Proof.
  intros Hn Hu Hops. revert u Hu. induction Hops as [|o ops Ho _ IH]; intros u Hu.
  { by split_and!. }
  destruct (op_safe w nbyt o u Hn Hu Ho) as (r & out & u1 & H1 & Hu1 & Hbad & Hrew).
  simpl. rewrite H1. specialize (IH u1 Hu1).
  destruct ops as [|o' ops].
  { simpl. split_and!; [by repeat econstructor|done| |].
    - intros e [= ->]. by apply (Hbad e).
    - intros [= ->]. destruct (Hrew eq_refl) as [-> ?]. done. }
  destruct (unit_run nbyt (o' :: ops) u1) as [rs u2] eqn:E.
  destruct IH as (Hr & Hu2 & Hb2 & Hw2).
  assert (Hne : rs ≠ []).
  { simpl in E. destruct (unit_op nbyt o' u1) as [? ?], (unit_run nbyt ops _) as [? ?]. by simplify_eq. }
  destruct rs as [|r' rs]; [done|]. split_and!; [|done|exact Hb2|exact Hw2].
  constructor; [by eexists|done].
Qed.
End Unit.

Lemma TapeTap_calls_return_witness :
  let '(rs, u') := unit_run 512 [TRead; TForw 3; TRewind; TWrite [1]; TBack 1; TRewind]
                     (new_unit "junk.tap" [3; 0; 0; 0; 1; 2; 3; 3; 0; 0]) in
  Forall (λ r, ∃ x, r.1 = Ret x) rs ∧ has_tape true u' ∧
  (∀ e, fst <$> list.last rs = Some (Ret (inr e)) → fBad <$> fupVirt u' = Some true) ∧
  (list.last [TRead; TForw 3; TRewind; TWrite [1]; TBack 1; TRewind] = Some TRewind →
   fst <$> list.last rs = Some (Ret (inl ())) ∧ fBad <$> fupVirt u' = Some false).
Proof.
  apply (TapeTap_calls_return true 512 [TRead; TForw 3; TRewind; TWrite [1]; TBack 1; TRewind]
           (new_unit "junk.tap" [3; 0; 0; 0; 1; 2; 3; 3; 0; 0])); [lia| |by repeat constructor].
  exists (new_tape "junk.tap" [3; 0; 0; 0; 1; 2; 3; 3; 0; 0]). split; [done|].
  exists [3; 0; 0; 0; 1; 2; 3; 3; 0; 0], 0%nat. split; [done|]. split; [done|].
  intros _. split; [|simpl; lia]. by split_and!.
Defined.
