(* ===== verification/Cpu.v ===== *)
(** * librw11/Rw11Cpu, Rw11Probe: the cpu backend

    The cpu is controlled by command lists on its control port: address
    register, memory and general registers, run control.  This file holds the
    methods; [CpuMem] states what they do to the memory of the cpu.

    The link is any instance [S] of [RlinkExec].  Methods with an [RerrMsg]
    parameter are in [E], the others in [M].  A vector whose storage a command
    list refers to is kept in the memory of the caller at the address [pd].

    Threads: the mutex and the condition variable of the activity flag are not
    state of the model, and [WaitCpuActDown], which only waits for them, is not
    modelled. *)

From Stdlib Require Import Ascii.
From stdpp Require Import sorting.
From S2P Require Import Prelude.
From S2P Require Import Rstats.
From S2P Require Import AddrMap.
From S2P Require Import Command.
From S2P Require Import CommandList.
From S2P Require Import Connect.
From S2P Require Import Link.
From S2P Require Import FileFd.
From S2P Require Import Rtools.

#[local] Open Scope string_scope.
Open Scope Z_scope.

(** ** Constants *)

Definition kCPCONF : Z := 0x0000.
Definition kCPCNTL : Z := 0x0001.
Definition kCPSTAT : Z := 0x0002.
Definition kCPPSW : Z := 0x0003.
Definition kCPAL : Z := 0x0004.
Definition kCPAH : Z := 0x0005.
Definition kCPMEM : Z := 0x0006.
Definition kCPMEMI : Z := 0x0007.
Definition kCPR0 : Z := 0x0008.
Definition kCPPC : Z := 0x000f.
Definition kCPMEMBE : Z := 0x0010.
Definition kCPFUNC_START : Z := 0x0001.
Definition kCPFUNC_STOP : Z := 0x0002.
Definition kCPFUNC_CRESET : Z := 0x0004.
Definition kCPSTAT_M_CpuSusp : Z := 0x0008.
Definition kCPSTAT_M_CpuGo : Z := 0x0004.
Definition kCPAH_M_ADDR : Z := 0x003f.
Definition kCPAH_M_22BIT : Z := 0x0040.
Definition kCPAH_M_UBMAP : Z := 0x0080.
Definition kCPAH_M_UBM22 : Z := Z.lor kCPAH_M_22BIT kCPAH_M_UBMAP.
Definition kCPMEMBE_M_STICK : Z := 0x0004.
Definition kCPMEMBE_M_BE : Z := 0x0003.
Definition kCPMEMBE_M_BE0 : Z := 0x0001.
Definition kCPMEMBE_M_BE1 : Z := 0x0002.

(** Ibus addresses, in the code in octal. *)
Definition kCPUPSW : Z := 0xfffe.
Definition kCPUSTKLIM : Z := 0xfffc.
Definition kCPUPIRQ : Z := 0xfffa.
Definition kCPUMBRK : Z := 0xfff8.
Definition kCPUERR : Z := 0xfff6.
Definition kCPUSYSID : Z := 0xfff4.
Definition kCPUSDREG : Z := 0xff78.
Definition kMEMHISIZE : Z := 0xfff2.
Definition kMEMLOSIZE : Z := 0xfff0.
Definition kMEMHM : Z := 0xffea.
Definition kMEMMAINT : Z := 0xffe8.
Definition kMEMCNTRL : Z := 0xffe6.
Definition kMEMSYSERR : Z := 0xffe4.
Definition kMEMHIADDR : Z := 0xffe2.
Definition kMEMLOADDR : Z := 0xffe0.
Definition kMMUMMR3 : Z := 0xf54e.
Definition kMMUMMR2 : Z := 0xff7e.
Definition kMMUMMR1 : Z := 0xff7c.
Definition kMMUMMR0 : Z := 0xff7a.
Definition kMMUPDRK : Z := 0xf4c0.
Definition kMMUPARK : Z := 0xf4e0.
Definition kMMUPDRS : Z := 0xf480.
Definition kMMUPARS : Z := 0xf4a0.
Definition kMMUPDRU : Z := 0xff80.
Definition kMMUPARU : Z := 0xffa0.
Definition kSCBASE : Z := 0x0040.
Definition kSCCNTL : Z := 0x0000.
Definition kSCADDR : Z := 0x0001.
Definition kSCDATA : Z := 0x0002.
Definition kCMBASE : Z := 0x0048.
Definition kCMCNTL : Z := 0x0000.
Definition kCMSTAT : Z := 0x0001.
Definition kCMADDR : Z := 0x0002.
Definition kCMDATA : Z := 0x0003.
Definition kCMIADDR : Z := 0x0004.
Definition kCMIPC : Z := 0x0005.
Definition kCMIREG : Z := 0x0006.
Definition kCMIMAL : Z := 0x0007.
Definition kHBBASE : Z := 0x0050.
Definition kHBSIZE : Z := 0x0004.
Definition kHBNMAX : Z := 0x0004.
Definition kHBCNTL : Z := 0x0000.
Definition kHBSTAT : Z := 0x0001.
Definition kHBHILIM : Z := 0x0002.
Definition kHBLOLIM : Z := 0x0003.
Definition kPCBASE : Z := 0x0060.
Definition kPCCNTL : Z := 0x0000.
Definition kPCSTAT : Z := 0x0001.
Definition kPCDATA : Z := 0x0002.
Definition kIMBASE : Z := 0xe000.
Definition kIMCNTL : Z := 0x0000.
Definition kIMSTAT : Z := 0x0002.
Definition kIMHILIM : Z := 0x0004.
Definition kIMLOLIM : Z := 0x0006.
Definition kIMADDR : Z := 0x0008.
Definition kIMDATA : Z := 0x000a.
Definition kITBASE : Z := 0xf000.
Definition kITCNTL : Z := 0x0000.
Definition kITSTAT : Z := 0x0002.
Definition kITDATA : Z := 0x0004.
Definition kITFIFO : Z := 0x0006.
Definition kM9BASE : Z := 0xea00.
Definition kKWLBASE : Z := 0xff66.
Definition kKWPBASE : Z := 0xf560.
Definition kKWPCSR : Z := 0x0000.
Definition kKWPCSB : Z := 0x0002.
Definition kKWPCTR : Z := 0x0004.
Definition kIISTBASE : Z := 0xff40.
Definition kIISTACR : Z := 0x0000.
Definition kIISTADR : Z := 0x0002.

(** ** Data *)

Record Rw11Probe := mkProbe {
  pb_fAddr : Z;
  fProbeInt : bool;
  fProbeRem : bool;
  fProbeDone : bool;
  fFoundInt : bool;
  fFoundRem : bool;
  fDataInt : Z;
  fDataRem : Z }.
#[export] Instance eta_Rw11Probe : Eta Rw11Probe := λ p,
  mkProbe (pb_fAddr p) (fProbeInt p) (fProbeRem p) (fProbeDone p) (fFoundInt p) (fFoundRem p)
    (fDataInt p) (fDataRem p).
Definition Probe_ctor (addr : Z) (probeint proberem : bool) : Rw11Probe :=
  mkProbe addr probeint proberem false false false 0 0.
Definition Found (p : Rw11Probe) : bool :=
  fProbeDone p && negb (fProbeInt p && negb (fFoundInt p)) && negb (fProbeRem p && negb (fFoundRem p)).
Definition IndicatorInt (p : Rw11Probe) : ascii :=
  if negb (fProbeDone p) then "?"%char
  else if negb (fProbeInt p) then "-"%char else if fFoundInt p then "y"%char else "n"%char.
Definition IndicatorRem (p : Rw11Probe) : ascii :=
  if negb (fProbeDone p) then "?"%char
  else if negb (fProbeRem p) then "-"%char else if fFoundRem p then "y"%char else "n"%char.

(** The part of a controller the cpu uses; its boot code, per unit (code, load
    and start address), is that of the derived class. *)
Record Rw11Cntl := mkCntl {
  ct_fName : string;
  ct_fEnable : bool;
  ct_fStarted : bool;
  ct_fProbe : Rw11Probe;
  ct_NUnit : Z;
  ct_BootCode : Z → option (list Z * Z * Z) }.
#[export] Instance eta_Rw11Cntl : Eta Rw11Cntl := λ c,
  mkCntl (ct_fName c) (ct_fEnable c) (ct_fStarted c) (ct_fProbe c) (ct_NUnit c) (ct_BootCode c).

Record Rw11Cpu (S : Type) := mkCpu {
  link : S;
  fType : string;
  fIndex : Z;
  fBase : Z;
  fIBase : Z;
  fMemSize : Z;
  fHasScnt : bool;
  fHasPcnt : bool;
  fHasCmon : bool;
  fHasHbpt : Z;
  fHasIbmon : bool;
  fHasIbtst : bool;
  fHasM9312 : bool;
  fHasKw11l : bool;
  fHasKw11p : bool;
  fHasIist : bool;
  fCpuAct : bool;
  fCpuStat : Z;
  fCntlMap : gmap string Rw11Cntl;
  fIAddrMap : RlinkAddrMap;
  fRAddrMap : RlinkAddrMap }.
Arguments mkCpu {S}.
Arguments link {S} _. Arguments fType {S} _. Arguments fIndex {S} _. Arguments fBase {S} _.
Arguments fIBase {S} _. Arguments fMemSize {S} _. Arguments fHasScnt {S} _.
Arguments fHasPcnt {S} _. Arguments fHasCmon {S} _. Arguments fHasHbpt {S} _.
Arguments fHasIbmon {S} _. Arguments fHasIbtst {S} _. Arguments fHasM9312 {S} _.
Arguments fHasKw11l {S} _. Arguments fHasKw11p {S} _. Arguments fHasIist {S} _.
Arguments fCpuAct {S} _. Arguments fCpuStat {S} _. Arguments fCntlMap {S} _.
Arguments fIAddrMap {S} _. Arguments fRAddrMap {S} _.
#[export] Instance eta_Rw11Cpu {S} : Eta (Rw11Cpu S) := λ c,
  mkCpu (link c) (fType c) (fIndex c) (fBase c) (fIBase c) (fMemSize c) (fHasScnt c) (fHasPcnt c)
    (fHasCmon c) (fHasHbpt c) (fHasIbmon c) (fHasIbtst c) (fHasM9312 c) (fHasKw11l c)
    (fHasKw11p c) (fHasIist c) (fCpuAct c) (fCpuStat c) (fCntlMap c) (fIAddrMap c) (fRAddrMap c).

(** A method in [E] that has no message to fail with, and one run on a new
    command list. *)
Definition lift {S A} (m : M S A) : E S A := λ s,
  match m s with
  | (Ret a, s) => (Ret (inl a), s)
  | (Exc e, s) => (Exc e, s)
  | (NoFuel, s) => (NoFuel, s)
  end.
Definition new_clist {S A} (m : M RlinkCommandList A) : M S (A * RlinkCommandList) := λ s,
  match m RlinkCommandList_ctor with
  | (Ret a, l) => (Ret (a, l), s)
  | (Exc e, _) => (Exc e, s)
  | (NoFuel, _) => (NoFuel, s)
  end.

(** The order of [std::map] keys. *)
Definition name_le (a b : string) : Prop := String.leb a b = true.
#[export] Instance name_le_dec : RelDecision name_le.
Proof. intros a b. unfold name_le. apply _. Defined.

Section Cpu.
Context {S : Type} `{!RlinkExec S}.
Notation Cpu := (Rw11Cpu S).

Definition Cpu_ctor (type : string) (base : Z) (s : S) : Cpu :=
  mkCpu s type 0 base 0x4000 0 false false false 0 false false false false false false false 0 ∅
    RlinkAddrMap_ctor RlinkAddrMap_ctor.

(** ** Controllers *)

Definition TestCntl (name : string) (c : Cpu) : bool := bool_decide (is_Some (fCntlMap c !! name)).
(** [None]: the null pointer. *)
Definition AddCntl (spcntl : option Rw11Cntl) : M Cpu () := λ c,
  match spcntl with
  | None => (Exc (Rexception "Rw11Cpu::AddCntl" "Bad args: spcntl == 0"), c)
  | Some cntl =>
      if TestCntl (ct_fName cntl) c
      then (Exc (Rexception "Rw11Cpu::AddCntl" "Bad state: duplicate controller name"), c)
      else (Ret (), c <| fCntlMap ::= <[ct_fName cntl := cntl]> |>)
  end.
Definition Cntl (name : string) (c : Cpu) : outcome Rw11Cntl :=
  match fCntlMap c !! name with
  | Some cntl => Ret cntl
  | None => Exc (Rexception "Rw11Cpu::Cntl()" ("Bad args: controller name '" ++ name ++ "' unknown"))
  end.
Definition letters : list ascii := map (λ n, ascii_of_nat (97 + n)) (seq 0 26).
Definition NextCntlName (base : string) (c : Cpu) : outcome string :=
  match filter (λ n, fCntlMap c !! n = None) (map (λ l, base ++ String l EmptyString) letters) with
  | n :: _ => Ret n
  | [] => Exc (Rexception "Rw11Cpu::NextCntlName"
                 ("Bad args: all controller letters used for '" ++ base ++ "'"))
  end.

(** ** Command list builders *)

Definition IbusRemoteAddr (ibaddr : Z) (c : Cpu) : Z :=
  u16 (fIBase c + Z.land ibaddr 0x1fff / 2).
Definition bad_ibaddr (ibaddr : Z) : bool := negb (Z.land ibaddr 0xe001 =? 0xe000).
(** [Z.land ibaddr 0160001 != 0160000] with its exception. *)
Definition check_ibaddr (meth : string) (ibaddr : Z) : M RlinkCommandList () :=
  throw_if (bad_ibaddr ibaddr) ("Rw11Cpu::" ++ meth) "ibaddr out of IO page or odd".

Definition AddMembe (be : Z) (stick : bool) (c : Cpu) : M RlinkCommandList nat :=
  let data := Z.land be kCPMEMBE_M_BE in
  let data := if stick then Z.lor data kCPMEMBE_M_STICK else data in
  AddWreg (u16 (fBase c + kCPMEMBE)) data.
Definition AddRibr (ibaddr : Z) (c : Cpu) : M RlinkCommandList nat :=
  check_ibaddr "AddRibr" ibaddr ;; AddRreg (IbusRemoteAddr ibaddr c).
Definition AddWibr (ibaddr data : Z) (c : Cpu) : M RlinkCommandList nat :=
  check_ibaddr "AddWibr" ibaddr ;; AddWreg (IbusRemoteAddr ibaddr c) data.
Definition AddRbibr (ibaddr : Z) (size : nat) (c : Cpu) : M RlinkCommandList nat :=
  check_ibaddr "AddRbibr" ibaddr ;; AddRblk (IbusRemoteAddr ibaddr c) size.
Definition AddWbibr (ibaddr : Z) (block : list Z) (c : Cpu) : M RlinkCommandList nat :=
  check_ibaddr "AddWbibr" ibaddr ;; AddWblk (IbusRemoteAddr ibaddr c) block.

Definition al_of (addr : Z) : Z := u16 addr.
Definition ah_of (addr mode : Z) : Z :=
  Z.lor (Z.land (u16 (Z.shiftr addr 16)) kCPAH_M_ADDR)
        (Z.land mode (Z.lor kCPAH_M_22BIT kCPAH_M_UBMAP)).
Definition AddLalh (addr mode : Z) (c : Cpu) : M RlinkCommandList nat :=
  ind ← AddWreg (u16 (fBase c + kCPAL)) (al_of addr);
  AddWreg (u16 (fBase c + kCPAH)) (ah_of addr mode) ;;
  mret ind.
(** The comparison of an address with [fBase+off] is one of [int]s. *)
Definition writes_reg (off : Z) (c : Cpu) (x : RlinkCommand) : bool :=
  (Command x =? kCmdWreg) && (fAddress x =? fBase c + off).
Definition ModLalh (ind : nat) (addr mode : Z) (c : Cpu) : M RlinkCommandList () := λ l,
  if (Size l <? ind + 1)%nat
  then (Exc (Rexception "Rw11Cpu::ModLalh" "Bad args: ind out of range"), l)
  else
    match fList l !! ind, fList l !! Datatypes.S ind with
    | Some cmdal, Some cmdah =>
        if negb (writes_reg kCPAL c cmdal) || negb (writes_reg kCPAH c cmdah)
        then (Exc (Rexception "Rw11Cpu::ModLalh" "Bad state: not writing cpal/cpah"), l)
        else (Ret (), l <| fList ::= λ cs,
                <[Datatypes.S ind := SetData (ah_of addr mode) cmdah]> (<[ind := SetData (al_of addr) cmdal]> cs) |>)
    | _, _ => (Exc out_of_range, l)
    end.

(** The loop of AddRMem and AddWMem: blocks of at most [blkmax] words from the
    buffer at [buf]; [n] bounds the turns. *)
Fixpoint blocks_loop (add : Z → nat → M RlinkCommandList nat) (n : nat) (blkmax buf size : Z) :
    M RlinkCommandList () :=
  if size <=? 0 then mret ()
  else
    match n with
    | O => λ l, (NoFuel, l)
    | Datatypes.S n =>
        let bsize := if blkmax <? size then blkmax else size in
        add buf (Z.to_nat bsize) ;;
        blocks_loop add n blkmax (buf + bsize) (size - bsize)
    end.
Definition AddMem (meth : string) (add : Z → nat → M RlinkCommandList nat)
    (addr buf size mode : Z) (singleblk : bool) (c : Cpu) : M RlinkCommandList nat :=
  let blkmax := srv_blkmax (link c) in
  throw_if (singleblk && (blkmax <? size)) ("Rw11Cpu::" ++ meth)
    "Bad args: singleblk==true && size > BlockSizeMax()" ;;
  ind ← AddLalh addr mode c;
  blocks_loop add (Z.to_nat size) blkmax buf size ;;
  mret ind.
Definition AddRMem (addr buf size mode : Z) (singleblk : bool) (c : Cpu) : M RlinkCommandList nat :=
  AddMem "AddRMem" (λ p n, AddRblk_ext (u16 (fBase c + kCPMEMI)) (Some p) n) addr buf size mode singleblk c.
Definition AddWMem (addr buf size mode : Z) (singleblk : bool) (c : Cpu) : M RlinkCommandList nat :=
  AddMem "AddWMem" (λ p n, AddWblk_ext (u16 (fBase c + kCPMEMI)) (Some p) n) addr buf size mode singleblk c.

(** ** Execution *)

(** [if (!Server().Exec(clist, emsg)) return false;] *)
Definition ExecE (l : RlinkCommandList) : E Cpu RlinkCommandList := λ c,
  match zoom link (srv_exec l) c with
  | (Ret ((true, _), l), c) => (Ret (inl l), c)
  | (Ret ((false, emsg), _), c) => (Ret (inr emsg), c)
  | (Exc e, c) => (Exc e, c)
  | (NoFuel, c) => (NoFuel, c)
  end.
Definition Exec_ (l : RlinkCommandList) : M Cpu RlinkCommandList := zoom link (srv_exec_throw l).
(** [clist[ind]] of a list executed. *)
Definition cmd_at (ind : nat) (l : RlinkCommandList) : M Cpu RlinkCommand := λ c, (at_ ind l, c).
(** A list built from the cpu, to execute with [ExecE]. *)
Definition clistE {A} (m : Cpu → M RlinkCommandList A) : E Cpu (A * RlinkCommandList) := λ c,
  lift (new_clist (m c)) c.

Definition ExecWibr (ibaddr0 data0 ibaddr1 data1 ibaddr2 data2 : Z) : M Cpu () := λ c,
  ('(_, l) ← new_clist (
     AddWibr ibaddr0 data0 c ;;
     (if 0 <? ibaddr1 then AddWibr ibaddr1 data1 c ;; mret () else mret ()) ;;
     (if 0 <? ibaddr2 then AddWibr ibaddr2 data2 c ;; mret () else mret ()));
   Exec_ l ;; mret ()) c.
Definition ExecRibr (ibaddr : Z) : M Cpu Z := λ c,
  ('(ic, l) ← new_clist (AddRibr ibaddr c);
   l ← Exec_ l;
   x ← cmd_at ic l;
   mret (fData x)) c.

(** The loop of MemRead and MemWrite; [n] bounds the turns. *)
Fixpoint mem_loop (add : Z → nat → Cpu → M RlinkCommandList nat) (n : nat) (addr pd nword ndone : Z) :
    E Cpu () :=
  if nword <=? ndone then mret ()
  else
    match n with
    | O => λ c, (NoFuel, c)
    | Datatypes.S n =>
        blkmax ← egets (λ c, srv_blkprudent (link c));
        let nblk := Z.min blkmax (nword - ndone) in
        '(_, l) ← clistE (λ c,
          AddWreg (u16 (fBase c + kCPAL)) (u16 (addr + 2 * ndone)) ;;
          add (pd + ndone) (Z.to_nat nblk) c);
        ExecE l ;;
        mem_loop add n addr pd nword (ndone + nblk)
    end.
(** The contents of a vector, as its storage at [pd]. *)
Definition set_vector (pd : Z) (data : list Z) : E Cpu () :=
  emodify (λ c, c <| link ::= λ s, srv_set_mem (mem_put pd data (srv_mem s)) s |>).
Definition MemRead (addr pd nword : Z) : E Cpu (list Z) :=
  mem_loop (λ p n c, AddRblk_ext (u16 (fBase c + kCPMEMI)) (Some p) n) (Z.to_nat nword) addr pd nword 0 ;;
  egets (λ c, mem_get (srv_mem (link c)) pd (Z.to_nat nword)).
Definition MemWrite (addr pd : Z) (data : list Z) : E Cpu () :=
  set_vector pd data ;;
  mem_loop (λ p n c, AddWblk_ext (u16 (fBase c + kCPMEMI)) (Some p) n) (length data) addr pd
    (Z.of_nat (length data)) 0.
Definition MemWriteByte (addr data : Z) : E Cpu () :=
  size ← egets fMemSize;
  fail_if (size <=? addr) "Rw11Cpu::MemWriteByte" "addr out of range" ;;
  let be := if Z.land addr 0x01 =? 0 then kCPMEMBE_M_BE0 else kCPMEMBE_M_BE1 in
  let wdata := Z.lor (u16 (Z.shiftl data 8)) data in
  '(_, l) ← clistE (λ c,
    AddLalh (Z.land addr 0x3ffffe) kCPAH_M_22BIT c ;;
    AddMembe be false c ;;
    AddWreg (u16 (fBase c + kCPMEM)) wdata);
  ExecE l ;; mret ().

(** ** Probing *)

Definition no_stat_check : M RlinkCommandList () := SetLastExpectStatus 0 0.
Definition responded (x : RlinkCommand) : bool := Z.land (fStatus x) staterr =? 0.
Definition probe_list (dsc : Rw11Probe) (c : Cpu) : M RlinkCommandList (nat * nat) :=
  iib ← (if fProbeInt dsc then
           AddWreg (u16 (fBase c + kCPAL)) (pb_fAddr dsc) ;;
           iib ← AddRreg (u16 (fBase c + kCPMEM));
           no_stat_check ;; mret iib
         else mret O);
  irb ← (if fProbeRem dsc then
           irb ← AddRibr (pb_fAddr dsc) c;
           no_stat_check ;; mret irb
         else mret O);
  mret (iib, irb).
Definition ProbeCntl (dsc : Rw11Probe) : M Cpu Rw11Probe := λ c,
  if negb (fProbeInt dsc || fProbeRem dsc) || (pb_fAddr dsc =? 0) then
    (Exc (Rexception "Rw11Cpu::Probe" "Bad args: fAddr == 0 or fProbeInt|fProbeRem == false"), c)
  else if fProbeDone dsc then (Ret dsc, c)
  else
    ('(iib, irb, l) ← new_clist (probe_list dsc c);
     l ← Exec_ l;
     dsc ← (if fProbeInt dsc then
              x ← cmd_at iib l;
              mret (dsc <| fFoundInt := responded x |> <| fDataInt := if responded x then fData x else 0 |>)
            else mret (dsc <| fFoundInt := false |> <| fDataInt := 0 |>));
     dsc ← (if fProbeRem dsc then
              x ← cmd_at irb l;
              mret (dsc <| fFoundRem := responded x |> <| fDataRem := if responded x then fData x else 0 |>)
            else mret (dsc <| fFoundRem := false |> <| fDataRem := 0 |>));
     mret (dsc <| fProbeDone := true |>)) c.
(** Starts the controllers found and enabled, by name.  [Start] is the base
    method all controllers begin with. *)
Definition cntl_Start (name : string) : M Cpu () := λ c,
  match fCntlMap c !! name with
  | None => (Ret (), c)
  | Some cntl =>
      (dsc ← ProbeCntl (ct_fProbe cntl);
       let cntl := cntl <| ct_fProbe := dsc |>
                        <| ct_fStarted ::= λ b, if Found dsc && ct_fEnable cntl then true else b |> in
       modify (λ c, c <| fCntlMap ::= <[name := cntl]> |>)) c
  end.

(** ** Activity *)

Definition SetCpuActUp : M Cpu () := modify (λ c, c <| fCpuAct := true |> <| fCpuStat := 0 |>).
Definition SetCpuActDown (stat : Z) : M Cpu () :=
  modify (λ c, if (Z.land stat kCPSTAT_M_CpuGo =? 0) || negb (Z.land stat kCPSTAT_M_CpuSusp =? 0)
               then c <| fCpuAct := false |> <| fCpuStat := stat |> else c).
Definition W11AttnHandler : M Cpu () := λ c,
  ('(_, l) ← new_clist (AddRreg (u16 (fBase c + kCPSTAT)));
   l ← Exec_ l;
   x ← cmd_at 0 l;
   SetCpuActDown (fData x)) c.

(** ** Boot *)

(** The controller name and the text of the unit number. *)
Fixpoint split_unit (s : string) : string * string :=
  match s with
  | EmptyString => (EmptyString, EmptyString)
  | String c s' => if is_digit c then (EmptyString, s)
                   else let '(n, u) := split_unit s' in (String c n, u)
  end.
(** [atoi] of a text that begins with digits (or is empty). *)
Fixpoint atoi_from (v : Z) (s : string) : Z :=
  match s with
  | String c s => if is_digit c then atoi_from (10 * v + (char_code c - 48)) s else v
  | EmptyString => v
  end.
Definition Boot (uname : string) (pd : Z) : E Cpu () :=
  let '(cname, unum) := split_unit uname in
  let uind := atoi_from 0 unum in
  known ← egets (TestCntl cname);
  fail_if (negb known) "Rw11Cpu::Boot" ("controller '" ++ cname ++ "' not known") ;;
  cntl ← (λ c, lift (λ c, (Cntl cname c, c)) c);
  fail_if (ct_NUnit cntl <=? uind) "Rw11Cpu::Boot" ("unit number '" ++ uname ++ "' invalid") ;;
  '(code, aload, astart) ← match ct_BootCode cntl uind with
    | Some ((_ :: _) as code, aload, astart) => mret (code, aload, astart)
    | _ => fail (mkRerrMsg "Rw11Cpu::Boot" ("boot not supported for controller '" ++ cname ++ "'"))
    end;
  '(_, l) ← clistE (λ c,
    AddWreg (u16 (fBase c + kCPCNTL)) kCPFUNC_STOP ;;
    AddWreg (u16 (fBase c + kCPCNTL)) kCPFUNC_CRESET);
  ExecE l ;;
  MemWrite aload pd code ;;
  '(_, l) ← clistE (λ c,
    AddWreg (u16 (fBase c + kCPPC)) astart ;;
    AddWreg (u16 (fBase c + kCPCNTL)) kCPFUNC_START);
  lift SetCpuActUp ;;
  ExecE l ;; mret ().
Definition Start : M Cpu () := λ c,
  (for_ (merge_sort name_le (elements (dom (fCntlMap c))))
        (λ name, cntl_Start name ;; mret (None : option ())) ;; mret ()) c.

(** ** Address maps *)

Definition IAddrMapInsert (name : string) (ibaddr : Z) : M Cpu bool := zoom fIAddrMap (Insert name ibaddr).
(** [dangling]: see [AddrMap.Erase_name]. *)
Definition IAddrMapErase_name dangling (name : string) : M Cpu bool := zoom fIAddrMap (Erase_name dangling name).
Definition IAddrMapErase_addr dangling (ibaddr : Z) : M Cpu bool := zoom fIAddrMap (Erase_addr dangling ibaddr).
Definition IAddrMapClear : M Cpu () := zoom fIAddrMap Clear.
Definition RAddrMapInsert (name : string) (rbaddr : Z) : M Cpu bool := zoom fRAddrMap (Insert name rbaddr).
Definition RAddrMapErase_name dangling (name : string) : M Cpu bool := zoom fRAddrMap (Erase_name dangling name).
Definition RAddrMapErase_addr dangling (rbaddr : Z) : M Cpu bool := zoom fRAddrMap (Erase_addr dangling rbaddr).
Definition RAddrMapClear : M Cpu () := zoom fRAddrMap Clear.
(** [cname += '0'+Index()] appends one character. *)
Definition common_name (prefix : string) (index : Z) (name : string) : string :=
  prefix ++ String (ascii_of_nat (Z.to_nat (u8 (48 + index)))) ("." ++ name).
Definition AllIAddrMapInsert (name : string) (ibaddr : Z) : M Cpu () := λ c,
  (IAddrMapInsert name ibaddr ;;
   RAddrMapInsert name (IbusRemoteAddr ibaddr c) ;;
   zoom link (srv_addrmap_insert (common_name "i" (fIndex c) name) (IbusRemoteAddr ibaddr c)) ;;
   mret ()) c.
Definition AllRAddrMapInsert (name : string) (rbaddr : Z) : M Cpu () := λ c,
  (RAddrMapInsert name rbaddr ;;
   zoom link (srv_addrmap_insert (common_name "c" (fIndex c) name) rbaddr) ;;
   mret ()) c.

(** A table of insertions. *)
Definition insert_all (ins : string → Z → M Cpu ()) (tab : list (string * Z)) : M Cpu () :=
  for_ tab (λ '(n, a), ins n a ;; mret (None : option ())) ;; mret ().

Definition std_rmap (base : Z) : list (string * Z) := [
  ("conf", base + kCPCONF); ("cntl", base + kCPCNTL); ("stat", base + kCPSTAT);
  ("psw", base + kCPPSW); ("al", base + kCPAL); ("ah", base + kCPAH); ("mem", base + kCPMEM);
  ("memi", base + kCPMEMI); ("r0", base + kCPR0); ("r1", base + kCPR0 + 1);
  ("r2", base + kCPR0 + 2); ("r3", base + kCPR0 + 3); ("r4", base + kCPR0 + 4);
  ("r5", base + kCPR0 + 5); ("sp", base + kCPR0 + 6); ("pc", base + kCPR0 + 7);
  ("membe", base + kCPMEMBE)].
Definition std_imap : list (string * Z) := [
  ("psw", kCPUPSW); ("stklim", kCPUSTKLIM); ("pirq", kCPUPIRQ); ("mbrk", kCPUMBRK);
  ("cpuerr", kCPUERR); ("sysid", kCPUSYSID); ("sdreg", kCPUSDREG); ("hisize", kMEMHISIZE);
  ("losize", kMEMLOSIZE); ("hm", kMEMHM); ("maint", kMEMMAINT); ("cntrl", kMEMCNTRL);
  ("syserr", kMEMSYSERR); ("hiaddr", kMEMHIADDR); ("loaddr", kMEMLOADDR); ("mmr3", kMMUMMR3);
  ("mmr2", kMMUMMR2); ("mmr1", kMMUMMR1); ("mmr0", kMMUMMR0)].
Definition seg_imap (i : Z) : list (string * Z) :=
  let n s := s ++ String (ascii_of_nat (Z.to_nat (48 + i))) EmptyString in
  [(n "pdrki.", kMMUPDRK + 2 * i); (n "pdrkd.", kMMUPDRK + 16 + 2 * i);
   (n "parki.", kMMUPARK + 2 * i); (n "parkd.", kMMUPARK + 16 + 2 * i);
   (n "pdrsi.", kMMUPDRS + 2 * i); (n "pdrsd.", kMMUPDRS + 16 + 2 * i);
   (n "parsi.", kMMUPARS + 2 * i); (n "parsd.", kMMUPARS + 16 + 2 * i);
   (n "pdrui.", kMMUPDRU + 2 * i); (n "pdrud.", kMMUPDRU + 16 + 2 * i);
   (n "parui.", kMMUPARU + 2 * i); (n "parud.", kMMUPARU + 16 + 2 * i)].
Definition SetupStd : M Cpu () := λ c,
  (insert_all AllRAddrMapInsert (map (λ '(n, a), (n, u16 a)) (std_rmap (fBase c))) ;;
   insert_all AllIAddrMapInsert std_imap ;;
   insert_all AllIAddrMapInsert (concat (map (λ i, seg_imap (Z.of_nat i)) (seq 0 8)))) c.

(** The probe list of the optional components, with the indices of the
    commands in the order of the code. *)
Record opt_inds := mkOpt {
  ims : nat; isc : nat; icm : nat; ihb : list nat; iim : nat; iit : nat; ipc : nat;
  im9 : nat; ikwl : nat; ikwp : nat; iii : nat }.
Definition AddRreg_probe (addr : Z) : M RlinkCommandList nat :=
  i ← AddRreg (u16 addr); no_stat_check ;; mret i.
Definition AddRibr_probe (ibaddr : Z) (c : Cpu) : M RlinkCommandList nat :=
  i ← AddRibr (u16 ibaddr) c; no_stat_check ;; mret i.
Fixpoint hbpt_probes (is_ : list nat) (c : Cpu) : M RlinkCommandList (list nat) :=
  match is_ with
  | [] => mret []
  | i :: is_ =>
      k ← AddRreg_probe (fBase c + kHBBASE + Z.of_nat i * kHBSIZE + kHBCNTL);
      ks ← hbpt_probes is_ c;
      mret (k :: ks)
  end.
Definition opt_list (c : Cpu) : M RlinkCommandList opt_inds :=
  ims ← AddRibr kMEMLOSIZE c;
  isc ← AddRreg_probe (fBase c + kSCBASE + kSCCNTL);
  icm ← AddRreg_probe (fBase c + kCMBASE + kCMCNTL);
  ihb ← hbpt_probes (seq 0 (Z.to_nat kHBNMAX)) c;
  iim ← AddRibr_probe (kIMBASE + kIMCNTL) c;
  iit ← AddRibr_probe (kITBASE + kITCNTL) c;
  ipc ← AddRreg_probe (fBase c + kPCBASE + kPCCNTL);
  im9 ← AddRibr_probe kM9BASE c;
  ikwl ← AddRibr_probe kKWLBASE c;
  ikwp ← AddRibr_probe (kKWPBASE + kKWPCSR) c;
  iii ← AddRibr_probe (kIISTBASE + kIISTACR) c;
  mret (mkOpt ims isc icm ihb iim iit ipc im9 ikwl ikwp iii).
(** [fHas = responded; if (fHas) insert the table]. *)
Definition opt_comp (set : bool → Cpu → Cpu) (ind : nat) (l : RlinkCommandList)
    (ins : string → Z → M Cpu ()) (tab : list (string * Z)) : M Cpu () :=
  x ← cmd_at ind l;
  modify (set (responded x)) ;;
  if responded x then insert_all ins tab else mret ().
(** Entries relative to a base address. *)
Definition at_base (base : Z) (tab : list (string * Z)) : list (string * Z) :=
  map (λ '(n, off), (n, u16 (base + off))) tab.
Fixpoint hbpt_found (i : Z) (inds : list nat) (l : RlinkCommandList) : M Cpu () :=
  match inds with
  | [] => mret ()
  | ind :: inds =>
      x ← cmd_at ind l;
      if negb (responded x) then mret ()
      else
        modify (λ c, c <| fHasHbpt ::= Z.add 1 |>) ;;
        base ← gets (λ c, u16 (fBase c + kHBBASE + i * kHBSIZE));
        let pref := "hb" ++ String (ascii_of_nat (Z.to_nat (48 + i))) EmptyString in
        insert_all AllRAddrMapInsert (at_base base
          [(pref ++ ".cntl", kHBCNTL); (pref ++ ".stat", kHBSTAT);
           (pref ++ ".hilim", kHBHILIM); (pref ++ ".lolim", kHBLOLIM)]) ;;
        hbpt_found (i + 1) inds l
  end.
Definition SetupOpt : M Cpu () := λ c,
  ('(inds, l) ← new_clist (opt_list c);
   l ← Exec_ l;
   x ← cmd_at (ims inds) l;
   modify (λ c, c <| fMemSize := u32 (Z.shiftl (fData x + 1) 6) |>) ;;
   opt_comp (λ b c, c <| fHasScnt := b |>) (isc inds) l AllRAddrMapInsert
     (at_base (u16 (fBase c + kSCBASE)) [("sc.cntl", kSCCNTL); ("sc.addr", kSCADDR); ("sc.data", kSCDATA)]) ;;
   opt_comp (λ b c, c <| fHasCmon := b |>) (icm inds) l AllRAddrMapInsert
     (at_base (u16 (fBase c + kCMBASE))
        [("cm.cntl", kCMCNTL); ("cm.stat", kCMSTAT); ("cm.addr", kCMADDR); ("cm.data", kCMDATA);
         ("cm.iaddr", kCMIADDR); ("cm.ipc", kCMIPC); ("cm.ireg", kCMIREG); ("cm.imal", kCMIMAL)]) ;;
   modify (λ c, c <| fHasHbpt := 0 |>) ;;
   hbpt_found 0 (ihb inds) l ;;
   opt_comp (λ b c, c <| fHasPcnt := b |>) (ipc inds) l AllRAddrMapInsert
     (at_base (u16 (fBase c + kPCBASE)) [("pc.cntl", kPCCNTL); ("pc.stat", kPCSTAT); ("pc.data", kPCDATA)]) ;;
   opt_comp (λ b c, c <| fHasIbmon := b |>) (iim inds) l AllIAddrMapInsert
     (at_base kIMBASE
        [("im.cntl", kIMCNTL); ("im.stat", kIMSTAT); ("im.hilim", kIMHILIM);
         ("im.lolim", kIMLOLIM); ("im.addr", kIMADDR); ("im.data", kIMDATA)]) ;;
   opt_comp (λ b c, c <| fHasIbtst := b |>) (iit inds) l AllIAddrMapInsert
     (at_base kITBASE
        [("it.cntl", kITCNTL); ("it.stat", kITSTAT); ("it.data", kITDATA); ("it.fifo", kITFIFO)]) ;;
   opt_comp (λ b c, c <| fHasKw11l := b |>) (ikwl inds) l AllIAddrMapInsert [("kwl.csr", kKWLBASE)] ;;
   opt_comp (λ b c, c <| fHasM9312 := b |>) (im9 inds) l AllIAddrMapInsert [("m9.csr", kM9BASE)] ;;
   opt_comp (λ b c, c <| fHasKw11p := b |>) (ikwp inds) l AllIAddrMapInsert
     (at_base kKWPBASE [("kwp.csr", kKWPCSR); ("kwp.csb", kKWPCSB); ("kwp.ctr", kKWPCTR)]) ;;
   opt_comp (λ b c, c <| fHasIist := b |>) (iii inds) l AllIAddrMapInsert
     (at_base kIISTBASE [("iist.acr", kIISTACR); ("iist.adr", kIISTADR)])) c.
(** The back pointer is the enclosing record. *)
Definition Setup : M Cpu () := SetupStd ;; SetupOpt.
End Cpu.
