(* ===== verification/CpuMem.v ===== *)
(** * The memory of the cpu through its control port

    [CpPort] is the control port as its description says: an address register
    that a write to [al] sets and a write to [ah] completes, memory words
    behind [mem] and [memi] (which advances the address), and byte enables
    that hold for one write; it records the writes to registers of other devices
    ([cp_log]).  [CpuBus] states that a bus has such a port;
    against it the memory transfers of [Cpu] are proved correct, however the
    link cuts them into blocks. *)

From S2P Require Import Prelude.
From S2P Require Import AddrMap.
From S2P Require Import Command.
From S2P Require Import CommandList.
From S2P Require Import Connect.
From S2P Require Import Link.
From S2P Require Import FileFd.
From S2P Require Import Cpu.

Open Scope Z_scope.

(** ** The control port *)

Record CpPort := mkCpPort {
  cp_addr : Z;
  cp_22bit : bool;
  cp_ubmap : bool;
  cp_be : Z;
  cp_stick : bool;
  cp_mem : gmap Z Z;        (** words, at even byte addresses *)
  cp_size : Z;
  cp_log : list (Z * Z) }.  (** writes to registers of other devices: address, data *)
#[export] Instance eta_CpPort : Eta CpPort := λ p,
  mkCpPort (cp_addr p) (cp_22bit p) (cp_ubmap p) (cp_be p) (cp_stick p) (cp_mem p) (cp_size p) (cp_log p).

(** The memory an address selects: all of it with 22 bits; below the io page
    with 16 bits, or with 18 bits through the unibus map, which is off. *)
Definition cp_limit (p : CpPort) : Z :=
  if cp_ubmap p then Z.min (cp_size p) 0x3e000
  else if cp_22bit p then cp_size p else Z.min (cp_size p) 0xe000.
(** The address register points into the memory. *)
Definition cp_ok (p : CpPort) : bool := cp_addr p <? cp_limit p.
Definition merge_bytes (be old new : Z) : Z :=
  word_of (lo8 (if Z.testbit be 0 then new else old)) (hi8 (if Z.testbit be 1 then new else old)).
(** A word of memory; it has 16 bits. *)
Definition mword (m : gmap Z Z) (a : Z) : Z := u16 (default 0 (m !! a)).
Definition cp_word (p : CpPort) : Z := mword (cp_mem p) (cp_addr p).
Definition cp_inc (p : CpPort) : CpPort := p <| cp_addr ::= λ a, (a + 2) mod 2 ^ 22 |>.
Definition cp_store (v : Z) (p : CpPort) : CpPort :=
  let p := p <| cp_mem ::= <[cp_addr p := merge_bytes (cp_be p) (cp_word p) v]> |> in
  if cp_stick p then p else p <| cp_be := 3 |>.

(** Registers of other devices are written. *)
Definition logged (ws : list (Z * Z)) (p : CpPort) : CpPort := p <| cp_log ::= λ l, l ++ ws |>.
Lemma logged_nil p : logged [] p = p.
Proof. destruct p. unfold logged. simpl. by rewrite app_nil_r. Qed.

(** Register writes and memory accesses that succeed; [None]: not described
    here. *)
Definition cp_write (off v : Z) (p : CpPort) : option CpPort :=
  if off =? kCPAL then
    Some (p <| cp_addr := Z.land v 0xfffe |> <| cp_22bit := false |> <| cp_ubmap := false |>)
  else if off =? kCPAH then
    Some (p <| cp_addr ::= λ a, Z.land a 0xffff + Z.shiftl (Z.land v 0x3f) 16 |>
            <| cp_22bit := Z.testbit v 6 |> <| cp_ubmap := Z.testbit v 7 |>)
  else if off =? kCPMEMBE then
    Some (p <| cp_be := Z.land v 3 |> <| cp_stick := Z.testbit v 2 |>)
  else if off =? kCPMEM then if cp_ok p then Some (cp_store v p) else None
  else if off =? kCPMEMI then if cp_ok p then Some (cp_inc (cp_store v p)) else None
  else None.
Definition cp_read (off : Z) (p : CpPort) : option (Z * CpPort) :=
  if off =? kCPMEM then if cp_ok p then Some (cp_word p, p) else None
  else if off =? kCPMEMI then if cp_ok p then Some (cp_word p, cp_inc p) else None
  else None.

(** A bus with a control port at [cp_base]. *)
Class CpuBus (D : Type) `{!Rbus D} := {
  cp_base : Z;
  port : D → CpPort;
  cp_write_law off v d p : is_u16 v → cp_write off v (port d) = Some p →
    ∃ st d', rb_write (u16 (cp_base + off)) v d = (st, d') ∧ bad_stat st = false ∧ port d' = p;
  cp_read_law off d x p : cp_read off (port d) = Some (x, p) →
    ∃ st d', rb_read (u16 (cp_base + off)) d = ((st, x), d') ∧ bad_stat st = false ∧ port d' = p;
  (** A memory access outside of the memory is answered with an error. *)
  cp_read_fail off d : off = kCPMEM ∨ off = kCPMEMI → cp_ok (port d) = false →
    ∃ st x d', rb_read (u16 (cp_base + off)) d = ((st, x), d') ∧ bad_stat st = true ∧
      cp_mem (port d') = cp_mem (port d) ∧ cp_size (port d') = cp_size (port d) ∧
      cp_log (port d') = cp_log (port d);
  cp_write_fail off v d : off = kCPMEM ∨ off = kCPMEMI → cp_ok (port d) = false →
    ∃ st d', rb_write (u16 (cp_base + off)) v d = (st, d') ∧ bad_stat st = true ∧
      cp_mem (port d') = cp_mem (port d) ∧ cp_size (port d') = cp_size (port d) ∧
      cp_log (port d') = cp_log (port d) }.

(** The port alone is such a bus. *)
#[export] Instance CpPort_bus : Rbus CpPort := {
  rb_read a p := match cp_read a p with Some (x, p) => ((0, x), p) | None => ((kStat_M_RbErr, 0), p) end;
  rb_write a v p := match cp_write a v p with Some p => (0, p) | None => (kStat_M_RbErr, p) end;
  rb_fill _ := 0;
  rb_attn p := ((0, 0), p);
  rb_stat _ := 0 }.
Ltac off_case :=
  match goal with |- context [?off =? ?k] => destruct (Z.eqb_spec off k) as [->|]; [done|] end.
#[export] Instance CpPort_cpu : CpuBus CpPort.
Proof.
  refine {| cp_base := 0; port p := p |}.
  - intros off v d p _ H. exists 0, p. simpl.
    assert (Ho : u16 (0 + off) = off).
    { revert H. unfold cp_write. by repeat off_case. }
    by rewrite Ho, H.
  - intros off d x p H. exists 0, p. simpl.
    assert (Ho : u16 (0 + off) = off).
    { revert H. unfold cp_read. by repeat off_case. }
    by rewrite Ho, H.
  - intros off d Ho Hp. exists kStat_M_RbErr, 0, d. simpl.
    destruct Ho as [-> | ->]; unfold cp_read; simpl; by rewrite Hp.
  - intros off v d Ho Hp. exists kStat_M_RbErr, d. simpl.
    destruct Ho as [-> | ->]; unfold cp_write; simpl; by rewrite Hp.
Defined.

#[export] Instance CpPort_widths : BusWidths CpPort.
Proof.
  split; try done.
  - intros a d. simpl. unfold cp_read, cp_word, mword.
    pose proof (u16_range (default 0 (cp_mem d !! cp_addr d))). by repeat case_match; simplify_eq.
  - intros a v d. simpl. by case_match.
Qed.
(** ** Words in memory *)

Fixpoint mwords (m : gmap Z Z) (a : Z) (n : nat) : list Z :=
  match n with
  | O => []
  | S n => mword m a :: mwords m (a + 2) n
  end.
Fixpoint mput (a : Z) (ws : list Z) (m : gmap Z Z) : gmap Z Z :=
  match ws with
  | [] => m
  | w :: ws => mput (a + 2) ws (<[a := w]> m)
  end.

Lemma mput_app a xs ys m : mput a (xs ++ ys) m = mput (a + 2 * Z.of_nat (length xs)) ys (mput a xs m).
Proof.
  revert a m. induction xs as [|x xs IH]; intros a m; simpl; [f_equal; lia|].
  rewrite IH. f_equal. lia.
Qed.
Lemma mwords_app m a n k : mwords m a (n + k) = mwords m a n ++ mwords m (a + 2 * Z.of_nat n) k.
Proof.
  revert a. induction n as [|n IH]; intros a; simpl; [f_equal; lia|].
  rewrite IH. do 2 f_equal. f_equal. lia.
Qed.
Lemma mput_other a ws m q : (∀ i, 0 <= i < Z.of_nat (length ws) → q ≠ a + 2 * i) → mput a ws m !! q = m !! q.
Proof.
  revert a m. induction ws as [|w ws IH]; intros a m H; simpl; [done|].
  rewrite IH, lookup_insert_ne; [done| |].
  - specialize (H 0). simpl in H. lia.
  - intros i Hi. specialize (H (i + 1)). simpl length in H. lia.
Qed.
Lemma mwords_mput ws a m : Forall is_u16 ws → mwords (mput a ws m) a (length ws) = ws.
Proof.
  intros Hw. revert a m. induction Hw as [|w ws Hw _ IH]; intros a m; simpl; [done|].
  unfold mword. rewrite IH, mput_other, lookup_insert_eq by lia. simpl. by rewrite u16_id.
Qed.
Lemma mwords_u16 m a n : Forall is_u16 (mwords m a n).
Proof. revert a. induction n; intros a; simpl; constructor; [apply u16_range|done]. Qed.

Lemma merge_bytes_all old new : is_u16 new → merge_bytes 3 old new = new.
Proof. intros H. unfold merge_bytes. simpl. by apply word_of_lo_hi. Qed.

(** ** Block transfers *)

(** The port can transfer [n] words from its address on. *)
Definition fits (p : CpPort) (n : nat) : Prop :=
  0 <= cp_addr p ∧ cp_addr p + 2 * Z.of_nat n <= cp_limit p ∧ cp_size p <= 2 ^ 22.
(** All bytes enabled. *)
Definition idle (p : CpPort) : Prop := cp_be p = 3 ∧ cp_stick p = false.

Lemma fits_ok p n : fits p (S n) → cp_ok p = true.
Proof.
  intros (H0 & H1 & H2). unfold cp_ok. apply Z.ltb_lt. lia.
Qed.
Lemma fits_le p n k : fits p n → (k <= n)%nat → fits p k.
Proof. intros (H0 & H1 & H2) Hk. split_and!; [done|lia|done]. Qed.
Lemma cp_limit_size p : cp_limit p <= cp_size p.
Proof. unfold cp_limit. repeat case_match; lia. Qed.
(** The port behind a transfer of [n] words. *)
Definition advanced (n : nat) (p : CpPort) : CpPort :=
  p <| cp_addr ::= λ a, (a + 2 * Z.of_nat n) mod 2 ^ 22 |>.

Lemma fits_inc p n : fits p (S n) → fits (cp_inc p) n ∨ n = O.
Proof.
  intros (H0 & H1 & H2). destruct n as [|n]; [by right|left].
  pose proof (cp_limit_size p). unfold fits. change (cp_limit (cp_inc p)) with (cp_limit p).
  unfold cp_inc. simpl. rewrite Z.mod_small by lia. split_and!; lia.
Qed.
Lemma advanced_S p n : fits p (S n) → advanced n (cp_inc p) = advanced (S n) p.
Proof.
  intros (H0 & H1 & H2). unfold advanced, cp_inc. simpl. f_equal.
  rewrite Zplus_mod_idemp_l. f_equal. lia.
Qed.
Lemma inc_addr p n : fits p (S (S n)) → cp_addr (cp_inc p) = cp_addr p + 2.
Proof.
  intros (H0 & H1 & H2). pose proof (cp_limit_size p). unfold cp_inc. simpl.
  by rewrite Z.mod_small by lia.
Qed.
Lemma mwords_inc p n : fits p (S n) → mwords (cp_mem p) (cp_addr (cp_inc p)) n = mwords (cp_mem p) (cp_addr p + 2) n.
Proof. intros H. destruct n; [done|]. by rewrite (inc_addr p n). Qed.

Section Transfer.
Context {D : Type} `{!Rbus D, !CpuBus D}.
Notation memi := (u16 (cp_base + kCPMEMI)).

Lemma read_memi d : cp_ok (port d) = true →
  ∃ st d', rb_read memi d = ((st, cp_word (port d)), d') ∧ bad_stat st = false ∧ port d' = cp_inc (port d).
Proof. intros H. apply (cp_read_law kCPMEMI). unfold cp_read. simpl. by rewrite H. Qed.
Lemma write_memi d v : is_u16 v → cp_ok (port d) = true →
  ∃ st d', rb_write memi v d = (st, d') ∧ bad_stat st = false ∧ port d' = cp_inc (cp_store v (port d)).
Proof. intros Hv H. apply (cp_write_law kCPMEMI); [done|]. unfold cp_write. simpl. by rewrite H. Qed.

Lemma rblk_fits n : ∀ d st, fits (port d) n → bad_stat st = false →
  ∃ st' d', bus_rblk memi n st d = ((mwords (cp_mem (port d)) (cp_addr (port d)) n, st'), d') ∧
    bad_stat st' = false ∧ (n = O ∨ port d' = advanced n (port d)).
Proof.
  induction n as [|n IH]; intros d st Hf Hst; [by exists st, d; split_and!; [..|left]|].
  destruct (read_memi d (fits_ok _ _ Hf)) as (st1 & d1 & H1 & Hs1 & Hp1). simpl. rewrite H1, Hs1.
  destruct (fits_inc _ _ Hf) as [Hf1| ->].
  - rewrite <- Hp1 in Hf1. destruct (IH d1 st1 Hf1 Hs1) as (st' & d' & H' & Hs' & Hp').
    rewrite H', Hp1. exists st', d'. split_and!; [|done|right].
    + change (cp_mem (cp_inc (port d))) with (cp_mem (port d)). by rewrite mwords_inc.
    + destruct Hp' as [->|Hp']; [|by rewrite Hp', Hp1, advanced_S].
      simpl in H'. simplify_eq. by rewrite Hp1.
  - simpl. exists st1, d1. by split_and!; [..|right].
Qed.

Lemma fits_store v p n : fits p n → fits (cp_store v p) n.
Proof. intros H. unfold cp_store. simpl. destruct (cp_stick p); exact H. Qed.
Lemma store_idle v p : idle p → is_u16 v →
  cp_store v p = p <| cp_mem ::= <[cp_addr p := v]> |>.
Proof.
  intros [Hb Hs] Hv. unfold cp_store. simpl. rewrite Hs, Hb, merge_bytes_all by done.
  destruct p; simpl in *. by subst.
Qed.
Lemma wblk_fits ws : ∀ d st, fits (port d) (length ws) → idle (port d) → Forall is_u16 ws →
  bad_stat st = false →
  ∃ st' d', bus_wblk memi ws st d = ((length ws, st'), d') ∧ bad_stat st' = false ∧
    (ws = [] ∧ d' = d ∨
     port d' = advanced (length ws) (port d <| cp_mem ::= mput (cp_addr (port d)) ws |>)).
Proof.
  induction ws as [|w ws IH]; intros d st Hf Hi Hw Hst; [by exists st, d; split_and!; [..|left]|].
  apply Forall_cons_iff in Hw as [Hw Hws].
  destruct (write_memi d w Hw (fits_ok _ _ Hf)) as (st1 & d1 & H1 & Hs1 & Hp1).
  cbn [bus_wblk]. rewrite H1, Hs1. rewrite (store_idle w _ Hi Hw) in Hp1.
  set (p1 := port d <| cp_mem ::= <[cp_addr (port d) := w]> |>) in *.
  assert (Hf1 : fits p1 (S (length ws))) by done.
  assert (Hi1 : idle (port d1)) by (rewrite Hp1; done).
  destruct (fits_inc _ _ Hf1) as [Hf2|Hn].
  - rewrite <- Hp1 in Hf2. destruct (IH d1 st1 Hf2 Hi1 Hws Hs1) as (st' & d' & H' & Hs' & Hp').
    rewrite H'. exists st', d'. split_and!; [done|done|right].
    destruct Hp' as [[-> ->]|Hp'].
    + simpl length. rewrite Hp1. unfold cp_inc, advanced, p1. simpl. done.
    + rewrite Hp', Hp1. change (length (w :: ws)) with (S (length ws)). rewrite <- advanced_S by exact Hf.
      unfold advanced, cp_inc. simpl. f_equal.
      destruct ws as [|w' ws]; [done|]. f_equal.
      change (cp_addr (cp_inc p1) = cp_addr p1 + 2). by apply (inc_addr p1 (length ws)).
  - destruct ws; [|done]. simpl. exists st1, d1. split_and!; [done|done|right].
    rewrite Hp1. done.
Qed.

(** *** At the end of the memory *)

(** [k] words from the address on are in the memory, and no more. *)
Definition cut_at (p : CpPort) (k : nat) : Prop :=
  0 <= cp_addr p ∧ (k = O ∨ fits p k) ∧ cp_limit p <= cp_addr p + 2 * Z.of_nat k ∧ cp_limit p < 2 ^ 22.
(** The port behind a failed access, as far as it is known. *)
Definition failed (p p' : CpPort) : Prop :=
  cp_mem p' = cp_mem p ∧ cp_size p' = cp_size p ∧ cp_log p' = cp_log p.
Lemma cut_stop p : cut_at p O → cp_ok p = false.
Proof. intros (_ & _ & H & _). unfold cp_ok. apply Z.ltb_ge. simpl in H. lia. Qed.
Lemma cut_inc p k : cut_at p (S k) → cut_at (cp_inc p) k ∧ cp_addr (cp_inc p) = cp_addr p + 2.
Proof.
  intros (H0 & [?|Hf] & H2 & H3); [done|]. pose proof Hf as (_ & Hl & Hs).
  assert (Ha : cp_addr (cp_inc p) = cp_addr p + 2).
  { unfold cp_inc. simpl. rewrite Z.mod_small by lia. done. }
  split; [|done]. unfold cut_at. rewrite Ha. change (cp_limit (cp_inc p)) with (cp_limit p).
  split_and!; try lia. destruct k as [|k]; [by left|right]. unfold fits. rewrite Ha.
  change (cp_limit (cp_inc p)) with (cp_limit p). split_and!; [lia|lia|done].
Qed.
Lemma rblk_cut k : ∀ n d st, (k < n)%nat → cut_at (port d) k →
  ∃ st' d', bus_rblk memi n st d = ((mwords (cp_mem (port d)) (cp_addr (port d)) k, st'), d') ∧
    failed (port d) (port d').
Proof.
  induction k as [|k IH]; intros [|n] d st Hn Hc; try lia; simpl.
  - destruct (cp_read_fail kCPMEMI d) as (st' & x & d' & H1 & H2 & H3); [by right|by apply cut_stop|].
    rewrite H1, H2. by exists st', d'.
  - destruct (cut_inc _ _ Hc) as [Hc1 Ha]. destruct Hc as (_ & [?|Hf] & _); [done|].
    destruct (read_memi d (fits_ok _ _ Hf)) as (st1 & d1 & H1 & Hs1 & Hp1). rewrite H1, Hs1.
    rewrite <- Hp1 in Hc1, Ha. destruct (IH n d1 st1 ltac:(lia) Hc1) as (st' & d' & H' & Hk).
    rewrite H', Ha. exists st', d'. by rewrite Hp1 in *.
Qed.
Lemma wblk_cut k : ∀ ws d st, (k < length ws)%nat → cut_at (port d) k → idle (port d) → Forall is_u16 ws →
  ∃ st' d', bus_wblk memi ws st d = ((k, st'), d') ∧
    failed (port d <| cp_mem ::= mput (cp_addr (port d)) (take k ws) |>) (port d').
Proof.
  induction k as [|k IH]; intros [|w ws] d st Hn Hc Hi Hw; simpl in Hn; try lia; cbn [bus_wblk].
  - destruct (cp_write_fail kCPMEMI w d) as (st' & d' & H1 & H2 & H3); [by right|by apply cut_stop|].
    rewrite H1, H2. by exists st', d'.
  - apply Forall_cons_iff in Hw as [Hw Hws].
    destruct (cut_inc _ _ Hc) as [Hc1 Ha]. destruct Hc as (_ & [?|Hf] & _); [done|].
    destruct (write_memi d w Hw (fits_ok _ _ Hf)) as (st1 & d1 & H1 & Hs1 & Hp1). rewrite H1, Hs1.
    rewrite (store_idle w _ Hi Hw) in Hp1.
    destruct (IH ws d1 st1 ltac:(lia)) as (st' & d' & H' & Hk); [by rewrite Hp1|by rewrite Hp1|done|].
    rewrite H'. exists st', d'. split; [done|]. rewrite Hp1 in Hk.
    change (cp_addr (cp_inc (port d <| cp_mem ::= <[cp_addr (port d):=w]> |>))) with (cp_addr (cp_inc (port d))) in Hk.
    rewrite Ha in Hk. exact Hk.
Qed.
End Transfer.

(** ** Commands on the port *)

Definition wreg (a v : Z) : RlinkCommand := fresh_command kCmdWreg a v [] None 0.
Definition rblk_ext (a p : Z) (n : nat) : RlinkCommand := fresh_command kCmdRblk a 0 [] (Some p) n.
Definition wblk_ext (a p : Z) (n : nat) : RlinkCommand := fresh_command kCmdWblk a 0 [] (Some p) n.

Lemma AddWreg_run a v l :
  AddWreg a v l = (Ret (Size l), l <| fList ::= λ cs, cs ++ [wreg a v] |>).
Proof. done. Qed.
Lemma AddRblk_ext_run a p n l : 0 < Z.of_nat n <= 65535 →
  AddRblk_ext a (Some p) n l = (Ret (Size l), l <| fList ::= λ cs, cs ++ [rblk_ext a p n] |>).
Proof.
  intros Hn. apply bad_block_size_false in Hn. unfold AddRblk_ext, Add_new, CmdRblk_ext.
  rewrite (bind_Ret _ _ _ _ _ (SetCommand_new kCmdRblk a 0 ltac:(done))). unfold SetBlockExt.
  rewrite bool_decide_eq_false_2 by done. rewrite Hn. done.
Qed.
Lemma AddWblk_ext_run a p n l : 0 < Z.of_nat n <= 65535 →
  AddWblk_ext a (Some p) n l = (Ret (Size l), l <| fList ::= λ cs, cs ++ [wblk_ext a p n] |>).
Proof.
  intros Hn. apply bad_block_size_false in Hn. unfold AddWblk_ext, Add_new, CmdWblk_ext.
  rewrite (bind_Ret _ _ _ _ _ (SetCommand_new kCmdWblk a 0 ltac:(done))). unfold SetBlockExt.
  rewrite bool_decide_eq_false_2 by done. rewrite Hn. done.
Qed.
Lemma wreg_wf a v : is_u16 a → is_u16 v → cmd_wf (wreg a v).
Proof. intros Ha Hv. apply fresh_command_wf; try done. by intros [|]. Qed.
Lemma rblk_ext_wf a p n : is_u16 a → 0 < Z.of_nat n <= 65535 → cmd_wf (rblk_ext a p n).
Proof. intros Ha Hn. by apply fresh_command_wf. Qed.
Lemma wblk_ext_wf a p n : is_u16 a → 0 < Z.of_nat n <= 65535 → cmd_wf (wblk_ext a p n).
Proof. intros Ha Hn. by apply fresh_command_wf. Qed.

(** What they do on the bus, as the first command of a list. *)
Lemma bus_wreg {D} `{!Rbus D} m0 b a v cs m (d : D) :
  bus_run m0 b (wreg a v :: cs) m d =
  (let '(st, d) := rb_write a v d in
   let '(cs, m, d) := bus_run m0 b cs m d in (SetStatus st (wreg a v) :: cs, m, d)).
Proof.
  rewrite bus_run_cons by done.
  change (bus_cmd m0 (wreg a v) m d) with (let '(st, d) := rb_write a v d in (SetStatus st (wreg a v), m, d)).
  by destruct (rb_write a v d).
Qed.
Lemma bus_wblk_ext {D} `{!Rbus D} m0 b a p n cs m (d : D) :
  bus_run m0 b (wblk_ext a p n :: cs) m d =
  (let '((k, st), d) := bus_wblk a (mem_get m0 p n) 0 d in
   let c' := SetStatus st (SetBlockDone (Z.of_nat k) (wblk_ext a p n)) in
   let '(cs, m, d) := bus_run m0 (negb (k =? n)%nat) cs m d in (c' :: cs, m, d)).
Proof.
  rewrite bus_run_cons by done.
  change (bus_cmd m0 (wblk_ext a p n) m d) with
    (let '((k, st), d) := bus_wblk a (mem_get m0 p n) 0 d in
     (SetStatus st (SetBlockDone (Z.of_nat k) (wblk_ext a p n)), m, d)).
  destruct (bus_wblk a (mem_get m0 p n) 0 d) as [[k st] d'].
  unfold cut_short. simpl. by rewrite Nat2Z.id.
Qed.
Lemma bus_rblk_ext {D} `{!Rbus D} m0 b a p n cs m (d : D) :
  bus_run m0 b (rblk_ext a p n :: cs) m d =
  (let '((xs, st), d') := bus_rblk a n 0 d in
   let c' := SetStatus st (SetBlockDone (Z.of_nat (length xs)) (rblk_ext a p n)) in
   let '(cs, m, d) := bus_run m0 (negb (length xs =? n)%nat) cs
                        (mem_put p (xs ++ replicate (n - length xs) (rb_fill d)) m) d' in
   (c' :: cs, m, d)).
Proof.
  rewrite bus_run_cons by done.
  change (bus_cmd m0 (rblk_ext a p n) m d) with
    (let '((xs, st), d') := bus_rblk a n 0 d in
     (SetStatus st (SetBlockDone (Z.of_nat (length xs)) (rblk_ext a p n)),
      mem_put p (xs ++ replicate (n - length xs) (rb_fill d)) m, d')).
  destruct (bus_rblk a n 0 d) as [[xs st] d'].
  unfold cut_short. simpl. by rewrite Nat2Z.id.
Qed.

(** Memory of the caller. *)
Lemma mem_get_app m p a b : mem_get m p (a + b) = mem_get m p a ++ mem_get m (p + Z.of_nat a) b.
Proof.
  revert p. induction a as [|a IH]; intros p; simpl; [f_equal; lia|].
  rewrite IH. do 2 f_equal. f_equal. lia.
Qed.
Lemma mem_get_before m p n q ws : p + Z.of_nat n <= q → mem_get (mem_put q ws m) p n = mem_get m p n.
Proof.
  revert p. induction n as [|n IH]; intros p Hp; simpl; [done|].
  rewrite mem_put_before, IH by lia. done.
Qed.

Section Cpu.
Context {S D : Type} `{!RlinkExec S, !Rbus D, !LinkLaws S D, !CpuBus D}.
Notation Cpu := (Rw11Cpu S).

(** The port of a cpu. *)
Definition cport (c : Cpu) : CpPort := port (dev (link c)).

(** The state of a command list after its execution: [c'] differs from [c] in
    the link only. *)
Definition ran (c c' : Cpu) (m : Mem) (d : D) : Prop :=
  ∃ s', c' = c <| link := s' |> ∧ srv_mem s' = m ∧ dev s' = d ∧ same_link (link c) s'.

Lemma ExecE_run l c cs m d :
  link_ok (link c) → list_ok l →
  bus_run (srv_mem (link c)) false (fList l) (srv_mem (link c)) (dev (link c)) = (cs, m, d) →
  ∃ l' c', ExecE l c = (Ret (inl l'), c') ∧ Forall2 answered cs (fList l') ∧ ran c c' m d.
Proof.
  intros H1 H2 H4. pose proof (exec_law l (link c) H1 H2) as H. rewrite H4 in H.
  destruct H as (em & l' & s' & He & Ha & _ & Hm & Hd & Hs).
  exists l', (c <| link := s' |>). unfold ExecE, zoom. rewrite He. split_and!; [done|done|].
  by exists s'.
Qed.

Lemma list_two_ok c1 c2 : cmd_wf c1 → cmd_wf c2 → bus_code c1 = true → bus_code c2 = true →
  list_ok (mkCommandList [c1; c2] (-1)).
Proof. intros H1 H2 H3 H4. split; simpl; [done| |by rewrite H3, H4|done]. apply Forall_cons_2; [done|]. by apply Forall_cons_2. Qed.

(** The address register set by a write to [al]. *)
Lemma write_al v d : is_u16 v →
  ∃ st d', rb_write (u16 (cp_base + kCPAL)) v d = (st, d') ∧ bad_stat st = false ∧
    port d' = port d <| cp_addr := Z.land v 0xfffe |> <| cp_22bit := false |> <| cp_ubmap := false |>.
Proof. intros Hv. by apply (cp_write_law kCPAL). Qed.

Lemma even_addr v : is_u16 v → v mod 2 = 0 → Z.land v 0xfffe = v.
Proof.
  intros Hv He. change 0xfffe with (Z.land (Z.lnot 1) (Z.ones 16)).
  rewrite Z.land_assoc, (Z.land_ones _ 16) by lia.
  rewrite <- Z.ldiff_land, (Z.ldiff_ones_r _ 1), Z.shiftl_mul_pow2, Z.shiftr_div_pow2 by lia.
  change (2 ^ 1) with 2. words.
Qed.

(** The words of [0, n) from byte address [addr] on are 16 bit addressable. *)
Definition in_low (p : CpPort) (addr n : Z) : Prop :=
  0 <= addr ∧ addr mod 2 = 0 ∧ addr + 2 * n <= Z.min (cp_size p) 0xe000 ∧ cp_size p <= 2 ^ 22.

Lemma low_fits p p1 addr k n :
  in_low p addr n → 0 <= k → k <= n → p1 = p <| cp_addr := addr |> <| cp_22bit := false |> <| cp_ubmap := false |> →
  fits p1 (Z.to_nat k).
Proof. intros (H0 & _ & H1 & H2) Hk Hn ->. split_and!; simpl; [done|unfold cp_limit; simpl; lia|done]. Qed.

(** [c'] is [c] with another state of the link. *)
Definition moved (c c' : Cpu) : Prop := ∃ s', c' = c <| link := s' |> ∧ same_link (link c) s'.
Lemma moved_refl c : moved c c.
Proof. exists (link c). split; [by destruct c|reflexivity]. Qed.
Lemma moved_trans c1 c2 c3 : moved c1 c2 → moved c2 c3 → moved c1 c3.
Proof. intros (s2 & -> & H2) (s3 & -> & H3). exists s3. split; [done|]. by etrans. Qed.

(** The cpu is set up for the port, and the link transfers blocks. *)
Definition cpu_ready (c : Cpu) : Prop :=
  fBase c = cp_base ∧ 0 < srv_blkprudent (link c) <= 65535 ∧ idle (cport c) ∧
  link_ok (link c).
Lemma moved_ready c c' : moved c c' → cpu_ready c → idle (cport c') → cpu_ready c'.
Proof.
  intros (s' & -> & Hs) (Hb & Hp & _ & Hl) Hi. destruct (same_link_blk _ _ Hs) as [_ E].
  split; [done|]. split; [simpl; by rewrite E|]. split; [done|]. by eapply same_link_ok.
Qed.

(** One turn of the loops: the address, and a block. *)
Lemma write_chunk c a p n :
  cpu_ready c → in_low (cport c) a (Z.of_nat n) → is_u16 a → 0 < Z.of_nat n <= 65535 →
  let l := mkCommandList [wreg (u16 (fBase c + kCPAL)) a; wblk_ext (u16 (fBase c + kCPMEMI)) p n] (-1) in
  ∃ l' c', ExecE l c = (Ret (inl l'), c') ∧ moved c c' ∧ srv_mem (link c') = srv_mem (link c) ∧
    cpu_ready c' ∧ cp_size (cport c') = cp_size (cport c) ∧
    cp_mem (cport c') = mput a (mem_get (srv_mem (link c)) p n) (cp_mem (cport c)).
Proof.
  intros Hr Hlow Ha Hn l. pose proof Hr as (Hb & Hp & Hi & Hl).
  destruct (write_al a (dev (link c)) Ha) as (st1 & d1 & H1 & Hs1 & Hp1).
  pose proof Hlow as (_ & He & _). rewrite even_addr in Hp1 by done.
  set (ws := mem_get (srv_mem (link c)) p n) in *.
  assert (Hlen : length ws = n) by apply length_mem_get.
  destruct (wblk_fits ws d1 0) as (st2 & d2 & H2 & Hs2 & Hp2).
  { rewrite Hlen, <- (Nat2Z.id n). eapply low_fits; [exact Hlow|lia|lia|exact Hp1]. }
  { rewrite Hp1. exact Hi. }
  { apply mem_get_u16. } { done. }
  destruct Hp2 as [[E _]|Hp2]; [rewrite E in Hlen; simpl in Hlen; lia|].
  edestruct (ExecE_run l c) as (l' & c' & He' & _ & s' & -> & Hm & Hd & Hs); [done| | |].
  { apply list_two_ok; [apply wreg_wf|apply wblk_ext_wf| |]; auto with w11. }
  { unfold l. cbn [fList]. rewrite bus_wreg, Hb, H1, bus_wblk_ext.
    fold ws. rewrite H2. reflexivity. }
  exists l', (c <| link := s' |>).
  assert (Hc' : cport (c <| link := s' |>) =
    advanced n (cport c <| cp_addr := a |> <| cp_22bit := false |> <| cp_ubmap := false |>
                        <| cp_mem ::= mput a ws |>)).
  { unfold cport. simpl. rewrite Hd, Hp2, Hp1, Hlen. reflexivity. }
  assert (Hmv : moved c (c <| link := s' |>)) by (by exists s').
  split_and!; [done|done|done| | |].
  - eapply moved_ready; [exact Hmv|exact Hr|]. rewrite Hc'. exact Hi.
  - by rewrite Hc'.
  - by rewrite Hc'.
Qed.

Lemma length_mwords m a n : length (mwords m a n) = n.
Proof. revert a. induction n; intros a; simpl; auto. Qed.
Lemma read_chunk c a p n :
  cpu_ready c → in_low (cport c) a (Z.of_nat n) → is_u16 a → 0 < Z.of_nat n <= 65535 →
  let l := mkCommandList [wreg (u16 (fBase c + kCPAL)) a; rblk_ext (u16 (fBase c + kCPMEMI)) p n] (-1) in
  ∃ l' c', ExecE l c = (Ret (inl l'), c') ∧ moved c c' ∧
    srv_mem (link c') = mem_put p (mwords (cp_mem (cport c)) a n) (srv_mem (link c)) ∧
    cpu_ready c' ∧ cp_size (cport c') = cp_size (cport c) ∧ cp_mem (cport c') = cp_mem (cport c).
Proof.
  intros Hr Hlow Ha Hn l. pose proof Hr as (Hb & Hp & Hi & Hl).
  destruct (write_al a (dev (link c)) Ha) as (st1 & d1 & H1 & Hs1 & Hp1).
  pose proof Hlow as (_ & He & _). rewrite even_addr in Hp1 by done.
  destruct (rblk_fits n d1 0) as (st2 & d2 & H2 & Hs2 & Hp2); [|done|].
  { rewrite <- (Nat2Z.id n). eapply low_fits; [exact Hlow|lia|lia|exact Hp1]. }
  destruct Hp2 as [->|Hp2]; [simpl in Hn; lia|].
  rewrite Hp1 in H2. cbn [cp_mem cp_addr update] in H2.
  edestruct (ExecE_run l c) as (l' & c' & He' & _ & s' & -> & Hm & Hd & Hs); [done| | |].
  { apply list_two_ok; [apply wreg_wf|apply rblk_ext_wf| |]; auto with w11. }
  { unfold l. cbn [fList]. rewrite bus_wreg, Hb, H1, bus_rblk_ext, H2. reflexivity. }
  rewrite length_mwords, Nat.sub_diag, app_nil_r in Hm.
  exists l', (c <| link := s' |>).
  assert (Hc' : cport (c <| link := s' |>) =
    advanced n (cport c <| cp_addr := a |> <| cp_22bit := false |> <| cp_ubmap := false |>)).
  { unfold cport. simpl. by rewrite Hd, Hp2, Hp1. }
  assert (Hmv : moved c (c <| link := s' |>)) by (by exists s').
  split_and!; [done|done|done| | |].
  - eapply moved_ready; [exact Hmv|exact Hr|]. rewrite Hc'. exact Hi.
  - by rewrite Hc'.
  - by rewrite Hc'.
Qed.

(** The turns of the loops. *)
Lemma chunk_size c nword ndone :
  cpu_ready c → ndone < nword →
  let nblk := Z.min (srv_blkprudent (link c)) (nword - ndone) in
  0 < nblk <= 65535 ∧ nblk <= nword - ndone.
Proof. intros (_ & Hp & _) H nblk. lia. Qed.
Lemma in_low_at p addr n k j :
  in_low p addr n → 0 <= k → 0 <= j → k + j <= n → in_low p (addr + 2 * k) j ∧ (0 < j → is_u16 (addr + 2 * k)).
Proof.
  intros (H0 & H1 & H2 & H3) Hk Hj Hkj. split; [|unfold is_u16; lia].
  split_and!; [lia| |lia|done]. rewrite Z.mul_comm, Z_mod_plus_full. done.
Qed.

Lemma clist_wblk c a p n : 0 < Z.of_nat n <= 65535 →
  clistE (λ c : Cpu, AddWreg (u16 (fBase c + kCPAL)) a ;;
                     AddWblk_ext (u16 (fBase c + kCPMEMI)) (Some p) n) c =
  (Ret (inl (1%nat, mkCommandList [wreg (u16 (fBase c + kCPAL)) a;
                                   wblk_ext (u16 (fBase c + kCPMEMI)) p n] (-1))), c).
Proof.
  intros Hn. unfold clistE, lift, new_clist.
  by rewrite (bind_Ret _ _ _ _ _ (AddWreg_run _ _ _)), AddWblk_ext_run.
Qed.
Lemma clist_rblk c a p n : 0 < Z.of_nat n <= 65535 →
  clistE (λ c : Cpu, AddWreg (u16 (fBase c + kCPAL)) a ;;
                     AddRblk_ext (u16 (fBase c + kCPMEMI)) (Some p) n) c =
  (Ret (inl (1%nat, mkCommandList [wreg (u16 (fBase c + kCPAL)) a;
                                   rblk_ext (u16 (fBase c + kCPMEMI)) p n] (-1))), c).
Proof.
  intros Hn. unfold clistE, lift, new_clist.
  by rewrite (bind_Ret _ _ _ _ _ (AddWreg_run _ _ _)), AddRblk_ext_run.
Qed.

Lemma write_loop_ok pd addr nword n : ∀ ndone c,
  0 <= ndone <= nword → (Z.to_nat (nword - ndone) <= n)%nat →
  cpu_ready c → in_low (cport c) addr nword →
  ∃ c', mem_loop (λ p n c, AddWblk_ext (u16 (fBase c + kCPMEMI)) (Some p) n) n addr pd nword ndone c =
      (Ret (inl ()), c') ∧
    moved c c' ∧ cpu_ready c' ∧ cp_size (cport c') = cp_size (cport c) ∧
    cp_mem (cport c') = mput (addr + 2 * ndone)
      (mem_get (srv_mem (link c)) (pd + ndone) (Z.to_nat (nword - ndone))) (cp_mem (cport c)).
Proof.
  induction n as [|n IH]; intros ndone c Hd Hn Hr Hlow; cbn [mem_loop].
  - assert (nword = ndone) as -> by lia. rewrite Z.leb_refl, Z.sub_diag.
    exists c. split_and!; [done|apply moved_refl|done|done|done].
  - destruct (Z.leb_spec nword ndone) as [Hle|Hlt].
    { assert (nword = ndone) as -> by lia. rewrite Z.sub_diag.
      exists c. split_and!; [done|apply moved_refl|done|done|done]. }
    autorewrite with run. destruct (chunk_size c nword ndone Hr Hlt) as [Hb1 Hb2].
    set (nblk := Z.min (srv_blkprudent (link c)) (nword - ndone)) in *.
    destruct (in_low_at _ _ _ ndone nblk Hlow) as [Hl1 Ha]; [lia..|]. specialize (Ha ltac:(lia)).
    rewrite (u16_id _ Ha).
    assert (Hsplit : Z.to_nat (nword - ndone) = (Z.to_nat nblk + Z.to_nat (nword - (ndone + nblk)))%nat) by lia.
    destruct (write_chunk c (addr + 2 * ndone) (pd + ndone) (Z.to_nat nblk)) as
      (l' & c1 & He & Hmv & Hm & Hr1 & Hsz & Hmem); [done|by rewrite Z2Nat.id by lia|done|lia|].
    rewrite (ebind_ok _ _ _ _ _ (clist_wblk c _ _ (Z.to_nat nblk) ltac:(lia))). rewrite (ebind_ok _ _ _ _ _ He).
    destruct (IH (ndone + nblk) c1) as (c' & Hc' & Hmv' & Hr' & Hsz' & Hmem'); [lia|lia|done| |].
    { unfold in_low in *. by rewrite Hsz. }
    exists c'. split; [exact Hc'|]. split; [by eapply moved_trans|]. split; [done|].
    split; [congruence|]. rewrite Hmem', Hmem, Hm, Hsplit, mem_get_app, mput_app, length_mem_get, Z2Nat.id by lia.
    replace (addr + 2 * (ndone + nblk)) with (addr + 2 * ndone + 2 * nblk) by ring.
    by rewrite Z.add_assoc.
Qed.

Lemma read_loop_ok pd addr nword n : ∀ ndone c,
  0 <= ndone <= nword → (Z.to_nat (nword - ndone) <= n)%nat →
  cpu_ready c → in_low (cport c) addr nword →
  mem_get (srv_mem (link c)) pd (Z.to_nat ndone) = mwords (cp_mem (cport c)) addr (Z.to_nat ndone) →
  ∃ c', mem_loop (λ p n c, AddRblk_ext (u16 (fBase c + kCPMEMI)) (Some p) n) n addr pd nword ndone c =
      (Ret (inl ()), c') ∧
    moved c c' ∧ cpu_ready c' ∧ cp_size (cport c') = cp_size (cport c) ∧
    cp_mem (cport c') = cp_mem (cport c) ∧
    mem_get (srv_mem (link c')) pd (Z.to_nat nword) = mwords (cp_mem (cport c)) addr (Z.to_nat nword).
Proof.
  induction n as [|n IH]; intros ndone c Hd Hn Hr Hlow Hw; cbn [mem_loop].
  - assert (nword = ndone) as -> by lia. rewrite Z.leb_refl.
    exists c. split_and!; [done|apply moved_refl|done..].
  - destruct (Z.leb_spec nword ndone) as [Hle|Hlt].
    { assert (nword = ndone) as -> by lia.
      exists c. split_and!; [done|apply moved_refl|done..]. }
    autorewrite with run. destruct (chunk_size c nword ndone Hr Hlt) as [Hb1 Hb2].
    set (nblk := Z.min (srv_blkprudent (link c)) (nword - ndone)) in *.
    destruct (in_low_at _ _ _ ndone nblk Hlow) as [Hl1 Ha]; [lia..|]. specialize (Ha ltac:(lia)).
    rewrite (u16_id _ Ha).
    destruct (read_chunk c (addr + 2 * ndone) (pd + ndone) (Z.to_nat nblk)) as
      (l' & c1 & He & Hmv & Hm & Hr1 & Hsz & Hmem); [done|by rewrite Z2Nat.id by lia|done|lia|].
    rewrite (ebind_ok _ _ _ _ _ (clist_rblk c _ _ (Z.to_nat nblk) ltac:(lia))). rewrite (ebind_ok _ _ _ _ _ He).
    destruct (IH (ndone + nblk) c1) as (c' & Hc' & Hmv' & Hr' & Hsz' & Hmem' & Hw'); [lia|lia|done| | |].
    { unfold in_low in *. by rewrite Hsz. }
    { rewrite Z2Nat.inj_add, mem_get_app, mwords_app, Z2Nat.id by lia. rewrite Hm, Hmem.
      rewrite mem_get_before, Hw by (rewrite Z2Nat.id by lia; lia). f_equal.
      rewrite <- (length_mwords (cp_mem (cport c)) (addr + 2 * ndone) (Z.to_nat nblk)) at 2.
      by rewrite mem_get_put by apply mwords_u16. }
    exists c'. split; [exact Hc'|]. split; [by eapply moved_trans|].
    rewrite <- Hmem. split_and!; [done|congruence|done|done].
Qed.

(** MemWrite and MemRead of a range of 16 bit addresses. *)
Lemma MemWrite_ok c addr pd data :
  cpu_ready c → in_low (cport c) addr (Z.of_nat (length data)) → Forall is_u16 data →
  ∃ c', MemWrite addr pd data c = (Ret (inl ()), c') ∧ moved c c' ∧ cpu_ready c' ∧
    cp_size (cport c') = cp_size (cport c) ∧
    cp_mem (cport c') = mput addr data (cp_mem (cport c)).
Proof.
  intros Hr Hlow Hw. unfold MemWrite, set_vector. autorewrite with run.
  set (c0 := c <| link ::= λ s, srv_set_mem (mem_put pd data (srv_mem s)) s |>).
  destruct (set_mem_law (mem_put pd data (srv_mem (link c))) (link c)) as (Hm & Hdv & Hs).
  assert (Hmv : moved c c0) by (by eexists).
  assert (Hp0 : cport c0 = cport c) by (unfold cport; simpl; by rewrite Hdv).
  assert (Hmem0 : srv_mem (link c0) = mem_put pd data (srv_mem (link c))) by done.
  destruct (write_loop_ok pd addr (Z.of_nat (length data)) (length data) 0 c0) as
    (c' & Hc' & Hmv' & Hr' & Hsz & Hmem); [lia|lia| |by rewrite Hp0|].
  { eapply moved_ready; [done|done|]. rewrite Hp0. apply Hr. }
  exists c'. split; [exact Hc'|]. split; [by eapply moved_trans|]. split; [done|].
  split; [congruence|].
  rewrite Hmem, Hp0, Hmem0, Z.mul_0_r, !Z.add_0_r, Z.sub_0_r, Nat2Z.id, mem_get_put by done. done.
Qed.
Lemma MemRead_ok c addr pd nword :
  cpu_ready c → 0 <= nword → in_low (cport c) addr nword →
  ∃ c', MemRead addr pd nword c = (Ret (inl (mwords (cp_mem (cport c)) addr (Z.to_nat nword))), c') ∧
    moved c c' ∧ cpu_ready c' ∧ cp_size (cport c') = cp_size (cport c) ∧
    cp_mem (cport c') = cp_mem (cport c).
Proof.
  intros Hr Hn Hlow.
  destruct (read_loop_ok pd addr nword (Z.to_nat nword) 0 c) as
    (c' & Hc' & Hmv & Hr' & Hsz & Hmem & Hw); [lia|lia|done|done|done|].
  exists c'. unfold MemRead. rewrite (ebind_ok _ _ _ _ _ Hc'). autorewrite with run.
  unfold egets. rewrite Hw. by split_and!.
Qed.

(** ** The full address and single bytes *)

Lemma lalh_bits a mode :
  0 <= a < 2 ^ 22 → a mod 2 = 0 →
  is_u16 (al_of a) ∧ is_u16 (ah_of a mode) ∧
  Z.land (Z.land (al_of a) 0xfffe) 0xffff + Z.shiftl (Z.land (ah_of a mode) 0x3f) 16 = a ∧
  Z.testbit (ah_of a mode) 6 = Z.testbit mode 6 ∧ Z.testbit (ah_of a mode) 7 = Z.testbit mode 7.
Proof.
  intros Ha He. unfold al_of, ah_of, kCPAH_M_ADDR, kCPAH_M_22BIT, kCPAH_M_UBMAP.
  change (Z.lor 0x40 0x80) with 0xc0. set (x := u16 (Z.shiftr a 16)).
  assert (Hx : Z.land x 0x3f = a / 65536).
  { unfold x. rewrite Z.shiftr_div_pow2 by lia. change (2 ^ 16) with 65536.
    change (2 ^ 22) with 4194304 in Ha.
    rewrite u16_id by words. change 0x3f with (Z.ones 6). rewrite Z.land_ones by lia.
    apply Z.mod_small. change (2 ^ 6) with 64. Z.div_mod_to_equations. lia. }
  rewrite Hx.
  assert (Hlow : Z.land (Z.lor (a / 65536) (Z.land mode 0xc0)) 0x3f = a / 65536).
  { rewrite Z.land_lor_distr_l, <- Z.land_assoc. change (Z.land 0xc0 0x3f) with 0.
    rewrite Z.land_0_r, Z.lor_0_r, <- Hx, <- Z.land_assoc. done. }
  split_and!.
  - apply u16_range.
  - assert (H8 : Z.land (Z.lor (a / 65536) (Z.land mode 0xc0)) 0xff = Z.lor (a / 65536) (Z.land mode 0xc0)).
    { rewrite Z.land_lor_distr_l, <- Z.land_assoc. change (Z.land 0xc0 0xff) with 0xc0.
      by rewrite <- Hx, <- Z.land_assoc. }
    rewrite <- H8. pose proof (u8_range (Z.lor (a / 65536) (Z.land mode 0xc0))) as H. unfold u8 in H. words.
  - rewrite Hlow, (even_addr (u16 a)); [|apply u16_range|].
    + rewrite (Z.land_ones _ 16), Z.shiftl_mul_pow2, u16_mod, Z.mod_mod by lia.
      change (2 ^ 16) with 65536. Z.div_mod_to_equations. lia.
    + rewrite u16_mod. change (2 ^ 16) with 65536. Z.div_mod_to_equations. lia.
  - rewrite Z.lor_spec, Z.land_spec, <- Hx, Z.land_spec. simpl.
    by rewrite andb_false_r, andb_true_r.
  - rewrite Z.lor_spec, Z.land_spec, <- Hx, Z.land_spec. simpl.
    by rewrite andb_false_r, andb_true_r.
Qed.

(** Writes of [al] and [ah] as [AddLalh] lists them. *)
Lemma write_lalh a mode d :
  0 <= a < 2 ^ 22 → a mod 2 = 0 →
  ∃ st1 d1 st2 d2, rb_write (u16 (cp_base + kCPAL)) (al_of a) d = (st1, d1) ∧ bad_stat st1 = false ∧
    rb_write (u16 (cp_base + kCPAH)) (ah_of a mode) d1 = (st2, d2) ∧ bad_stat st2 = false ∧
    port d2 = port d <| cp_addr := a |> <| cp_22bit := Z.testbit mode 6 |>
                     <| cp_ubmap := Z.testbit mode 7 |>.
Proof.
  intros Ha He. destruct (lalh_bits a mode Ha He) as (H1 & H2 & H3 & H4 & H5).
  destruct (write_al (al_of a) d H1) as (st1 & d1 & Hw1 & Hs1 & Hp1).
  destruct (cp_write_law kCPAH (ah_of a mode) d1
    (port d <| cp_addr := a |> <| cp_22bit := Z.testbit mode 6 |> <| cp_ubmap := Z.testbit mode 7 |>))
    as (st2 & d2 & Hw2 & Hs2 & Hp2); [done| |].
  - rewrite Hp1. unfold cp_write. cbn -[Z.testbit Z.land Z.shiftl Z.add ah_of al_of]. by rewrite H3, H4, H5.
  - exists st1, d1, st2, d2. by split_and!.
Qed.

Lemma MemWriteByte_ok c a b :
  cpu_ready c → 0 <= a < fMemSize c → a < cp_size (cport c) → cp_size (cport c) <= 2 ^ 22 → is_u8 b →
  let w := a - a mod 2 in
  let be := if a mod 2 =? 0 then 1 else 2 in
  ∃ c', MemWriteByte a b c = (Ret (inl ()), c') ∧ moved c c' ∧ cpu_ready c' ∧
    cp_size (cport c') = cp_size (cport c) ∧
    cp_mem (cport c') = <[w := merge_bytes be (mword (cp_mem (cport c)) w) (word_of b b)]>
                          (cp_mem (cport c)).
Proof.
  intros Hr Ha Hsz Hmax Hb w be. pose proof Hr as (Hbase & _ & Hi & Hup).
  assert (Hw : Z.land a 0x3ffffe = w).
  { change 0x3ffffe with (Z.land (Z.lnot 1) (Z.ones 22)).
    rewrite Z.land_assoc, (Z.land_ones _ 22) by lia.
    rewrite <- Z.ldiff_land, (Z.ldiff_ones_r _ 1), Z.shiftl_mul_pow2, Z.shiftr_div_pow2 by lia.
    change (2 ^ 1) with 2. unfold w. change (2 ^ 22) with 4194304 in *. Z.div_mod_to_equations. lia. }
  assert (Hwr : 0 <= w < 2 ^ 22 ∧ w mod 2 = 0 ∧ w <= a).
  { unfold w. change (2 ^ 22) with 4194304 in *. Z.div_mod_to_equations. lia. }
  destruct Hwr as (Hw0 & Hwe & Hwa).
  assert (Hbe : (if Z.land a 1 =? 0 then kCPMEMBE_M_BE0 else kCPMEMBE_M_BE1) = be).
  { unfold be. rewrite (Z.land_ones a 1 ltac:(lia) : Z.land a 1 = a mod 2 ^ 1). done. }
  assert (Hbes : be = 1 ∨ be = 2) by (unfold be; case_match; auto).
  clearbody be.
  assert (Hdata : Z.lor (u16 (Z.shiftl b 8)) b = word_of b b).
  { unfold word_of. rewrite Z.lor_comm, u16_id; [done|].
    rewrite Z.shiftl_mul_pow2 by lia. words. }
  destruct (write_lalh w kCPAH_M_22BIT (dev (link c)) Hw0 Hwe) as
    (st1 & d1 & st2 & d2 & H1 & Hs1 & H2 & Hs2 & Hp2).
  destruct (cp_write_law kCPMEMBE be d2 (port d2 <| cp_be := be |> <| cp_stick := false |>))
    as (st3 & d3 & H3 & Hs3 & Hp3);
    [destruct Hbes as [-> | ->]; done|destruct Hbes as [-> | ->]; done|].
  assert (Hok : cp_ok (port d3) = true).
  { rewrite Hp3, Hp2. unfold cp_ok, cp_limit. simpl. apply Z.ltb_lt. unfold cport in Hsz. lia. }
  destruct (cp_write_law kCPMEM (word_of b b) d3 (cp_store (word_of b b) (port d3)))
    as (st4 & d4 & H4 & Hs4 & Hp4); [auto with w11|unfold cp_write; simpl; by rewrite Hok|].
  unfold MemWriteByte. autorewrite with run.
  rewrite (proj2 (Z.leb_gt _ _)) by lia. unfold fail_if. autorewrite with run.
  rewrite Hw, Hbe, Hdata.
  set (l := mkCommandList [wreg (u16 (fBase c + kCPAL)) (al_of w);
    wreg (u16 (fBase c + kCPAH)) (ah_of w kCPAH_M_22BIT); wreg (u16 (fBase c + kCPMEMBE)) be;
    wreg (u16 (fBase c + kCPMEM)) (word_of b b)] (-1)).
  assert (Hl : clistE (λ c : Cpu, AddLalh w kCPAH_M_22BIT c ;; AddMembe be false c ;;
                 AddWreg (u16 (fBase c + kCPMEM)) (word_of b b)) c = (Ret (inl (3%nat, l)), c)).
  { unfold l. by destruct Hbes as [-> | ->]. }
  rewrite (ebind_ok _ _ _ _ _ Hl).
  destruct (lalh_bits w kCPAH_M_22BIT Hw0 Hwe) as (Hu1 & Hu2 & _).
  edestruct (ExecE_run l c) as (l' & c' & He' & _ & s' & -> & Hm & Hd & Hs); [done| | |].
  { split; [done| |done|done]. repeat (constructor; [apply wreg_wf; auto with w11|]); [|done].
    by destruct Hbes as [-> | ->]. }
  { unfold l. cbn [fList]. rewrite Hbase, bus_wreg, H1, bus_wreg, H2, bus_wreg, H3, bus_wreg, H4. reflexivity. }
  rewrite (ebind_ok _ _ _ _ _ He'). exists (c <| link := s' |>).
  assert (Hmv : moved c (c <| link := s' |>)) by (by exists s').
  assert (Hc' : cport (c <| link := s' |>) = port d4) by (unfold cport; simpl; by rewrite Hd).
  assert (Hport : cport (c <| link := s' |>) =
    port (dev (link c)) <| cp_addr := w |> <| cp_22bit := true |> <| cp_ubmap := false |> <| cp_be := 3 |>
      <| cp_stick := false |>
      <| cp_mem ::= <[w := merge_bytes be (mword (cp_mem (cport c)) w) (word_of b b)]> |>).
  { rewrite Hc', Hp4, Hp3, Hp2. done. }
  split; [done|]. split; [done|].
  split; [eapply moved_ready; [exact Hmv|exact Hr|]; by rewrite Hport|].
  by rewrite Hport.
Qed.
End Cpu.

(** C37: Words that MemWrite stores and MemRead reads back are the same words,
    for all of the memory that a 16 bit address reaches, whatever the size of
    the blocks the link transfers at once; the write changes exactly these
    words and the read changes none. *)
Theorem MemWrite_MemRead {S D} `{!RlinkExec S, !Rbus D, !LinkLaws S D, !CpuBus D} (c : Rw11Cpu S)
    (addr pd pd' : Z) (data : list Z) :
  cpu_ready c → in_low (cport c) addr (Z.of_nat (length data)) → Forall is_u16 data →
  ∃ c1 c2, MemWrite addr pd data c = (Ret (inl ()), c1) ∧
    cp_mem (cport c1) = mput addr data (cp_mem (cport c)) ∧
    MemRead addr pd' (Z.of_nat (length data)) c1 = (Ret (inl data), c2) ∧
    cp_mem (cport c2) = cp_mem (cport c1) ∧ moved c c2 ∧ cpu_ready c2.
Proof.
  intros Hr Hlow Hw.
  destruct (MemWrite_ok c addr pd data Hr Hlow Hw) as (c1 & H1 & Hm1 & Hr1 & Hs1 & Hmem1).
  assert (Hlow1 : in_low (cport c1) addr (Z.of_nat (length data))) by (unfold in_low in *; by rewrite Hs1).
  destruct (MemRead_ok c1 addr pd' (Z.of_nat (length data)) Hr1 (Nat2Z.is_nonneg _) Hlow1) as (c2 & H2 & Hm2 & Hr2 & _ & Hmem2).
  rewrite Nat2Z.id, Hmem1, mwords_mput in H2 by done.
  exists c1, c2. split_and!; try done. by eapply moved_trans.
Qed.

(** A cpu with 8 kByte of memory behind a device that transfers three words
    at once. *)
Definition bench_cpu : Rw11Cpu (Bench CpPort) :=
  (Cpu_ctor "w11a" 0 (mkBench (mkCpPort 0 false false 3 false ∅ 0x2000 []) ∅ 4096 3 RlinkAddrMap_ctor))
    <| fMemSize := 0x2000 |>.
Lemma bench_ready : cpu_ready bench_cpu.
Proof. done. Qed.
Lemma MemWrite_MemRead_witness : ∃ c1 c2,
  MemWrite 0x1000 100 [1; 2; 0xffff; 4; 5; 6; 7] bench_cpu = (Ret (inl ()), c1) ∧
  cp_mem (cport c1) = mput 0x1000 [1; 2; 0xffff; 4; 5; 6; 7] (cp_mem (cport bench_cpu)) ∧
  MemRead 0x1000 200 (Z.of_nat 7) c1 = (Ret (inl [1; 2; 0xffff; 4; 5; 6; 7]), c2) ∧
  cp_mem (cport c2) = cp_mem (cport c1) ∧ moved bench_cpu c2 ∧ cpu_ready c2.
Proof.
  apply (MemWrite_MemRead bench_cpu 0x1000 100 200 [1; 2; 0xffff; 4; 5; 6; 7]).
  - apply bench_ready.
  - split_and!; by vm_compute.
  - repeat constructor; unfold is_u16; lia.
Defined.
