(* ===== verification/LoadAbs.v ===== *)
(** * Rw11Cpu::LoadAbs: the absolute loader

    The loader reads a paper tape image byte by byte and stores its blocks in
    the memory of the cpu.  A block is a header, a length, a load address, the
    data and a checksum; a block without data ends the tape and gives the start
    address.  Words are written in blocks, odd bytes at either end one by one.

    The output of the trace option is not modelled. *)

From Stdlib Require Import Ascii.
From S2P Require Import Prelude.
From S2P Require Import Command.
From S2P Require Import CommandList.
From S2P Require Import Connect.
From S2P Require Import Link.
From S2P Require Import FileFd.
From S2P Require Import Cpu.
From S2P Require Import CpuMem.

#[local] Open Scope string_scope.
Open Scope Z_scope.

(** ** The loader *)

Inductive states :=
| s_chr0
| s_chr1
| s_cntlow
| s_cnthgh
| s_adrlow
| s_adrhgh
| s_data
| s_chksum.

(** The local variables. *)
Record Loader := mkLoader {
  data : list Z;
  chrnum : Z;
  blknum : Z;
  bytcnt : Z;
  ldaddr : Z;
  chksum : Z;
  addr : Z;
  word : Z;
  firstodd : bool;
  ok : bool;
  go : bool;
  state : states;
  start : Z;
  emsg : RerrMsg }.
#[export] Instance eta_Loader : Eta Loader := λ l,
  mkLoader (data l) (chrnum l) (blknum l) (bytcnt l) (ldaddr l) (chksum l) (addr l) (word l)
    (firstodd l) (ok l) (go l) (state l) (start l) (emsg l).
Definition Loader_init : Loader :=
  mkLoader [] (-1) 0 0 0 0 0 0 false false true s_chr0 (u16 (-1)) emsg_none.

(** [%3.3o] of a byte. *)
Definition octal3 (b : Z) : string :=
  let digit z := ascii_of_nat (Z.to_nat (48 + z)) in
  String (digit (b / 64)) (String (digit (b / 8 mod 8)) (String (digit (b mod 8)) EmptyString)).

Section LoadAbs.
Context {S F : Type} `{!RlinkExec S, !PosixFile F}.
Notation Cpu := (Rw11Cpu S).

(** The cpu, the file system and the variables of the call. *)
Record Abs := mkAbs { ab_cpu : Cpu; ab_sys : F; ab_loc : Loader }.
#[local] Instance eta_Abs : Eta Abs := λ a, mkAbs (ab_cpu a) (ab_sys a) (ab_loc a).

Definition loc (f : Loader → Loader) : M Abs () := modify (λ a, a <| ab_loc ::= f |>).
Definition stop_with (text : string) : M Abs () :=
  loc (λ l, l <| emsg := mkRerrMsg "Rw11Cpu::LoadAbs()" text |> <| go := false |>).
(** [if (!m) go = false;] *)
Definition or_stop (m : E Cpu ()) : M Abs () := λ a,
  match m (ab_cpu a) with
  | (Ret (inl _), c) => (Ret (), a <| ab_cpu := c |>)
  | (Ret (inr e), c) => (Ret (), a <| ab_cpu := c |> <| ab_loc ::= λ l, l <| emsg := e |> <| go := false |> |>)
  | (Exc e, c) => (Exc e, a <| ab_cpu := c |>)
  | (NoFuel, c) => (NoFuel, a <| ab_cpu := c |>)
  end.
Definition is_odd (z : Z) : bool := Z.land z 0x01 =? 1.

(** The [switch] over the state; [pd] is the storage of the vector [data]. *)
Definition load_byte (pd byte : Z) : M Abs () := λ a,
  let l := ab_loc a in
  match state l with
  | s_chr0 =>
      if byte =? 0 then loc (λ l, l <| chrnum := -1 |> <| state := s_chr0 |>) a
      else if byte =? 1 then loc (λ l, l <| state := s_chr1 |>) a
      else stop_with ("unexpected start-of-block " ++ octal3 byte) a
  | s_chr1 =>
      if byte =? 0 then loc (λ l, l <| state := s_cntlow |>) a
      else stop_with ("unexpected 2nd char " ++ octal3 byte) a
  | s_cntlow => loc (λ l, l <| bytcnt := byte |> <| state := s_cnthgh |>) a
  | s_cnthgh =>
      loc (λ l, l <| bytcnt ::= (λ n, Z.lor n (Z.shiftl byte 8)) |> <| state := s_adrlow |>) a
  | s_adrlow => loc (λ l, l <| ldaddr := byte |> <| state := s_adrhgh |>) a
  | s_adrhgh =>
      loc (λ l,
        let l := l <| ldaddr ::= λ n, Z.lor n (Z.shiftl byte 8) |> in
        l <| addr := ldaddr l |> <| word := 0 |> <| firstodd := is_odd (ldaddr l) |>
          <| state := if bytcnt l =? 6 then s_chksum else s_data |>) a
  | s_data =>
      ((if negb (is_odd (addr l)) then loc (λ l, l <| word := byte |>)
        else if firstodd l then
          or_stop (MemWriteByte (addr l) byte) ;;
          loc (λ l, l <| ldaddr ::= (λ n, u16 (n + 1)) |> <| firstodd := false |>)
        else
          loc (λ l, let w := Z.lor (word l) (Z.shiftl byte 8) in
                    l <| word := w |> <| data ::= λ ws, (ws ++ [w])%list |>)) ;;
       loc (λ l, l <| addr ::= λ n, u16 (n + 1) |>
                   <| state := if chrnum l =? bytcnt l - 1 then s_chksum else state l |>)) a
  | s_chksum =>
      ((if negb (chksum l =? 0) then stop_with ("check sum error " ++ octal3 (chksum l))
        else if bytcnt l =? 6 then loc (λ l, l <| start := ldaddr l |> <| go := false |> <| ok := true |>)
        else
          or_stop (MemWrite (ldaddr l) pd (data l)) ;;
          (if is_odd (addr l) then or_stop (MemWriteByte (addr l - 1) (u8 (word l))) else mret ()) ;;
          loc (λ l, l <| data := [] |>)) ;;
       loc (λ l, l <| chrnum := -1 |> <| blknum ::= Z.add 1 |> <| state := s_chr0 |>)) a
  end.

(** The [while (go)] loop; [n] bounds the bytes read. *)
Fixpoint load_loop (n : nat) (fd pd : Z) : M Abs () := λ a,
  if negb (go (ab_loc a)) then (Ret (), a)
  else
    match n with
    | O => (NoFuel, a)
    | Datatypes.S n =>
        let '((irc, d), sys) := posix_read fd 1 (ab_sys a) in
        let a := a <| ab_sys := sys |> in
        if irc =? 0 then
          loc (λ l, match state l with
                    | s_chr0 => l <| ok := true |>
                    | _ => l <| emsg := mkRerrMsg "Rw11Cpu::LoadAbs()" "unexpected EOF" |>
                    end) a
        else if irc <? 0 then
          loc (λ l, l <| emsg := mkRerrMsg "Rw11Cpu::LoadAbs()" ("read() failed: " ++ posix_errno sys) |>) a
        else
          match d with
          | byte :: _ =>
              (loc (λ l, l <| chrnum ::= Z.add 1 |> <| chksum ::= λ s, u8 (s + byte) |>) ;;
               load_byte pd byte ;;
               load_loop n fd pd) a
          | [] => (Exc (undefined "no byte read"), a)
          end
    end.

(** Result: success flag, message and start address. *)
Definition LoadAbs (n : nat) (fname : string) (pd : Z) : M (Cpu * F) (bool * RerrMsg * Z) := λ '(c, sys),
  let '(fd, sys) := posix_open fname O_RDONLY 0 sys in
  if fd <? 0 then
    (Ret (false, mkRerrMsg "Rw11Cpu::LoadAbs()" ("open() for '" ++ fname ++ "' failed: " ++ posix_errno sys),
          u16 (-1)), (c, sys))
  else
    match load_loop n fd pd (mkAbs c sys Loader_init) with
    | (Ret _, a) =>
        let '(_, sys) := posix_close fd (ab_sys a) in
        (Ret (ok (ab_loc a), emsg (ab_loc a), start (ab_loc a)), (ab_cpu a, sys))
    | (Exc e, a) => (Exc e, (ab_cpu a, ab_sys a))
    | (NoFuel, a) => (NoFuel, (ab_cpu a, ab_sys a))
    end.
End LoadAbs.

#[local] Close Scope string_scope.

(** ** Tapes *)

Definition sum_bytes (bs : list Z) : Z := fold_right Z.add 0 bs.
(** A block: header, length of the block without the checksum, address, data;
    the checksum makes the sum of all bytes a multiple of 256. *)
Definition abs_block (a : Z) (bs : list Z) : list Z :=
  let n := 6 + Z.of_nat (length bs) in
  let body := [1; 0; lo8 n; hi8 n; lo8 a; hi8 a] ++ bs in
  body ++ [u8 (- sum_bytes body)].
(** Blocks with leaders of zeros, and an end: the start address with anything
    behind it, or the end of the file. *)
Fixpoint abs_tape (blocks : list (nat * Z * list Z)) (k : nat) (final : option (Z * list Z)) : list Z :=
  match blocks with
  | [] => replicate k 0 ++ match final with Some (s, r) => abs_block s [] ++ r | None => [] end
  | (z, a, bs) :: blocks => replicate z 0 ++ abs_block a bs ++ abs_tape blocks k final
  end.

(** Memory as bytes. *)
Definition byte_at (m : gmap Z Z) (x : Z) : Z :=
  let w := mword m (x - x mod 2) in if x mod 2 =? 0 then lo8 w else hi8 w.
Definition load_at (a : Z) (bs : list Z) (f : Z → Z) : Z → Z := λ x,
  if (a <=? x) && (x <? a + Z.of_nat (length bs)) then nth (Z.to_nat (x - a)) bs 0 else f x.
Fixpoint load_blocks (blocks : list (nat * Z * list Z)) (f : Z → Z) : Z → Z :=
  match blocks with
  | [] => f
  | (_, a, bs) :: blocks => load_blocks blocks (load_at a bs f)
  end.

(** ** Loading a tape *)

(** Data behind an even address: full words, and a byte left over. *)
Fixpoint paired (bs : list Z) : list Z :=
  match bs with
  | b1 :: b2 :: bs => b1 :: b2 :: paired bs
  | _ => []
  end.
Fixpoint unpaired (bs : list Z) : list Z :=
  match bs with
  | _ :: _ :: bs => unpaired bs
  | bs => bs
  end.
Lemma paired_unpaired bs : paired bs ++ unpaired bs = bs.
Proof. induction bs as [| |b1 b2 bs IH] using pair_ind; simpl; [done..|]. by rewrite IH. Qed.
Lemma length_paired bs : length (paired bs) = (2 * length (pair_words bs))%nat.
Proof. induction bs as [| |b1 b2 bs IH] using pair_ind; simpl; lia. Qed.
Lemma unpaired_cases bs : unpaired bs = [] ∨ ∃ x, unpaired bs = [x].
Proof. induction bs as [|b|b1 b2 bs IH] using pair_ind; simpl; eauto. Qed.
(** *** Bytes of memory *)

Lemma load_at_app a xs ys f x :
  load_at a (xs ++ ys) f x = load_at (a + Z.of_nat (length xs)) ys (load_at a xs f) x.
Proof.
  unfold load_at. rewrite length_app, Nat2Z.inj_add.
  destruct (Z.leb_spec a x), (Z.ltb_spec x (a + Z.of_nat (length xs))),
    (Z.leb_spec (a + Z.of_nat (length xs)) x),
    (Z.ltb_spec x (a + Z.of_nat (length xs) + Z.of_nat (length ys))),
    (Z.ltb_spec x (a + (Z.of_nat (length xs) + Z.of_nat (length ys)))); simpl; try lia; try done.
  - by rewrite app_nth1 by lia.
  - rewrite app_nth2 by lia. f_equal. lia.
Qed.
Lemma load_at_nil a f x : load_at a [] f x = f x.
Proof.
  unfold load_at. destruct (Z.leb_spec a x), (Z.ltb_spec x (a + Z.of_nat (length (@nil Z)))); try done.
  simpl in *. lia.
Qed.
Lemma load_at_ext a bs f g x : f x = g x → load_at a bs f x = load_at a bs g x.
Proof. intros H. unfold load_at. by rewrite H. Qed.
Lemma load_blocks_ext blocks f g x : f x = g x → load_blocks blocks f x = load_blocks blocks g x.
Proof.
  revert f g. induction blocks as [|[[z a] bs] blocks IH]; intros f g H; simpl; [done|].
  by apply IH, load_at_ext.
Qed.

Lemma byte_at_insert m w v x : w mod 2 = 0 → is_u16 v →
  byte_at (<[w := v]> m) x = if x =? w then lo8 v else if x =? w + 1 then hi8 v else byte_at m x.
Proof.
  intros Hw Hv. unfold byte_at, mword. destruct (Z.eqb_spec x w) as [->|Hx].
  { rewrite Hw, Z.sub_0_r, lookup_insert_eq. simpl. by rewrite u16_id. }
  destruct (Z.eqb_spec x (w + 1)) as [->|Hx1].
  { assert ((w + 1) mod 2 = 1) as -> by (Z.div_mod_to_equations; lia).
    replace (w + 1 - 1) with w by lia. rewrite lookup_insert_eq. simpl. by rewrite u16_id. }
  rewrite lookup_insert_ne; [done|]. Z.div_mod_to_equations; lia.
Qed.
Lemma byte_at_word m w b1 b2 x : w mod 2 = 0 → is_u8 b1 → is_u8 b2 →
  byte_at (<[w := word_of b1 b2]> m) x = load_at w [b1; b2] (byte_at m) x.
Proof.
  intros Hw H1 H2. rewrite byte_at_insert, lo8_word_of, hi8_word_of by auto with w11. unfold load_at. simpl length.
  destruct (Z.eqb_spec x w) as [->|].
  { rewrite (proj2 (Z.leb_le _ _)), (proj2 (Z.ltb_lt _ _)), Z.sub_diag by lia. done. }
  destruct (Z.eqb_spec x (w + 1)) as [->|].
  { rewrite (proj2 (Z.leb_le _ _)), (proj2 (Z.ltb_lt _ _)) by lia.
    replace (w + 1 - w) with 1 by lia. done. }
  destruct (Z.leb_spec w x), (Z.ltb_spec x (w + Z.of_nat 2)); simpl; try done. lia.
Qed.
Lemma byte_at_merge m a b x : is_u8 b →
  let w := a - a mod 2 in
  byte_at (<[w := merge_bytes (if a mod 2 =? 0 then 1 else 2) (mword m w) (word_of b b)]> m) x =
  load_at a [b] (byte_at m) x.
Proof.
  intros Hb w. assert (Hw : w mod 2 = 0) by (unfold w; Z.div_mod_to_equations; lia).
  set (old := mword m w). unfold merge_bytes.
  rewrite byte_at_insert, lo8_word_of, hi8_word_of by (try case_match; auto with w11).
  assert (Hl : byte_at m w = lo8 old) by (unfold byte_at; by rewrite Hw, Z.sub_0_r).
  assert (Hh : byte_at m (w + 1) = hi8 old).
  { unfold byte_at. assert ((w + 1) mod 2 = 1) as -> by (Z.div_mod_to_equations; lia).
    by replace (w + 1 - 1) with w by lia. }
  assert (Hwa : w = a - a mod 2) by done. clearbody old w.
  unfold load_at. simpl length. change (Z.of_nat 1) with 1.
  destruct (Z.eqb_spec (a mod 2) 0) as [E|E].
  - assert (w = a) as -> by lia. simpl.
    destruct (Z.eqb_spec x a) as [->|].
    { rewrite (proj2 (Z.leb_le _ _)), (proj2 (Z.ltb_lt _ _)), Z.sub_diag, lo8_word_of by (done || lia). done. }
    replace ((a <=? x) && (x <? a + 1)) with false by (symmetry; apply andb_false_iff; rewrite Z.leb_gt, Z.ltb_ge; lia).
    destruct (Z.eqb_spec x (a + 1)) as [->|]; [by rewrite Hh|done].
  - assert (a = w + 1) as -> by (Z.div_mod_to_equations; lia). simpl. clear E Hwa.
    destruct (Z.eqb_spec x w) as [->|].
    { rewrite Hl. rewrite (proj2 (Z.leb_gt _ _)) by lia. done. }
    destruct (Z.eqb_spec x (w + 1)) as [->|].
    { rewrite (proj2 (Z.leb_le _ _)), (proj2 (Z.ltb_lt _ _)), Z.sub_diag, hi8_word_of by (done || lia).
      done. }
    replace ((w + 1 <=? x) && (x <? w + 1 + 1)) with false
      by (symmetry; apply andb_false_iff; rewrite Z.leb_gt, Z.ltb_ge; lia).
    done.
Qed.
Lemma byte_at_mput bs : ∀ e m x, e mod 2 = 0 → Forall is_u8 bs →
  byte_at (mput e (pair_words bs) m) x = load_at e (paired bs) (byte_at m) x.
Proof.
  induction bs as [| |b1 b2 bs IH] using pair_ind; intros e m x He H; simpl mput; simpl paired.
  1,2: by rewrite load_at_nil.
  apply Forall_cons_iff in H as [H1 H]. apply Forall_cons_iff in H as [H2 H].
  rewrite IH; [|Z.div_mod_to_equations; lia|done].
  change (b1 :: b2 :: paired bs) with ([b1; b2] ++ paired bs). rewrite load_at_app. simpl length.
  by apply load_at_ext, byte_at_word.
Qed.

(** *** Bytes fed to the loader *)

Definition sttat (bc k : Z) : states := if k =? bc - 1 then s_chksum else s_data.
(** A loader that has met no error and no end. *)
Notation L ws k blk bc la ck ad wd fo st :=
  (mkLoader ws k blk bc la ck ad wd fo false true st (u16 (-1)) emsg_none).
Definition at_start (l : Loader) : Prop :=
  ∃ blk bc la ad wd fo, l = L [] (-1) blk bc la 0 ad wd fo s_chr0.
Definition bump (b : Z) (l : Loader) : Loader :=
  l <| chrnum ::= Z.add 1 |> <| chksum ::= λ s, u8 (s + b) |>.

Lemma u8_add x y : u8 (u8 x + y) = u8 (x + y).
Proof. rewrite !u8_mod. apply Zplus_mod_idemp_l. Qed.
Lemma is_odd_mod z : is_odd z = (z mod 2 =? 1).
Proof. unfold is_odd. by rewrite (Z.land_ones z 1 ltac:(lia) : Z.land z 0x01 = z mod 2 ^ 1). Qed.

Section Loading.
Context {S D F : Type} `{!RlinkExec S, !Rbus D, !LinkLaws S D, !CpuBus D, !PosixFile F, !PosixFileLaws F}.
Notation Cpu := (Rw11Cpu S).
Notation abs := (mkAbs (S := S) (F := F)).

(** The loader reads bytes, on any file system. *)
Inductive feeds (pd : Z) : list Z → Cpu * Loader → Cpu * Loader → Prop :=
| feeds_nil x : feeds pd [] x x
| feeds_cons b bs c l c1 l1 x : go l = true →
    (∀ sys : F, load_byte pd b (abs c sys (bump b l)) = (Ret (), abs c1 sys l1)) →
    feeds pd bs (c1, l1) x → feeds pd (b :: bs) (c, l) x.

Lemma feeds_app pd bs1 bs2 x y z : feeds pd bs1 x y → feeds pd bs2 y z → feeds pd (bs1 ++ bs2) x z.
Proof. induction 1; intros H2; simpl; [done|]. econstructor; eauto. Qed.
Lemma feeds_eq pd bs x y y' : feeds pd bs x y → y = y' → feeds pd bs x y'.
Proof. by intros H <-. Qed.

Lemma load_loop_feeds pd fd bs x y : feeds pd bs x y → ∀ n sys o rest,
  opened sys fd = Some o → drop (of_pos o) (of_data o) = bs ++ rest →
  ∃ sys' o', load_loop (length bs + n) fd pd (abs x.1 sys x.2) = load_loop n fd pd (abs y.1 sys' y.2) ∧
    opened sys' fd = Some o' ∧ drop (of_pos o') (of_data o') = rest.
Proof.
  induction 1 as [x|b bs c l c1 l1 x Hgo Hb _ IH]; intros n sys o rest Ho Hd; [by exists sys, o|].
  simpl length. cbn [Nat.add load_loop fst snd ab_loc ab_sys]. rewrite Hgo. cbn [negb].
  destruct (read_law sys fd o 1 Ho ltac:(lia)) as (sys1 & Hr & Ho1). rewrite Hd in Hr, Ho1. simpl in Hr, Ho1.
  rewrite take_0 in Hr. rewrite Hr. simpl.
  assert (Hd1 : drop (of_pos o + 1)%nat (of_data o) = bs ++ rest) by (by rewrite <- drop_drop, Hd).
  destruct (IH n sys1 _ rest Ho1 Hd1) as (sys' & o' & He & Ho' & Hd'). exists sys', o'. split; [|done].
  rewrite <- He. unfold mbind at 1, M_bind at 1, loc, modify. simpl.
  rewrite (bind_Ret _ _ _ _ _ (Hb sys1)). done.
Qed.

(** Single bytes of the data. *)
Lemma even_byte pd b ws k blk bc la ck ad wd fo c (sys : F) :
  ad mod 2 = 0 → 0 <= ad < 65535 → k + 1 <= bc - 1 →
  load_byte pd b (abs c sys (bump b (L ws k blk bc la ck ad wd fo s_data))) =
  (Ret (), abs c sys (L ws (k + 1) blk bc la (u8 (ck + b)) (ad + 1) b fo (sttat bc (k + 1)))).
Proof.
  intros He Ha Hk. unfold load_byte, bump, loc, modify. cbn -[Z.add Z.sub Z.eqb u8 u16 is_odd].
  rewrite is_odd_mod, He. change (negb (0 =? 1)) with true. unfold mbind, M_bind. cbn -[Z.add Z.sub Z.eqb u8 u16].
  rewrite (u16_id (ad + 1)) by words.
  by rewrite (Z.add_comm 1 k).
Qed.
Lemma odd_byte pd b ws k blk bc la ck ad wd c (sys : F) :
  ad mod 2 = 1 → 0 <= ad < 65535 → k + 1 <= bc - 1 →
  load_byte pd b (abs c sys (bump b (L ws k blk bc la ck ad wd false s_data))) =
  (Ret (), abs c sys (L (ws ++ [word_of wd b]) (k + 1) blk bc la (u8 (ck + b)) (ad + 1) (word_of wd b) false
                       (sttat bc (k + 1)))).
Proof.
  intros He Ha Hk. unfold load_byte, bump, loc, modify. cbn -[Z.add Z.sub Z.eqb u8 u16 is_odd].
  rewrite is_odd_mod, He. change (negb (1 =? 1)) with false. unfold mbind, M_bind. cbn -[Z.add Z.sub Z.eqb u8 u16].
  rewrite (u16_id (ad + 1)) by words.
  by rewrite (Z.add_comm 1 k).
Qed.
Lemma sttat_data bc k : k < bc - 1 → sttat bc k = s_data.
Proof. intros H. unfold sttat. by rewrite (proj2 (Z.eqb_neq _ _)) by lia. Qed.

(** Data behind an even address. *)
Lemma even_feeds pd bc rest : ∀ ws k blk la ck ad wd c,
  ad mod 2 = 0 → 0 <= ad → ad + Z.of_nat (length rest) <= 65535 → k + Z.of_nat (length rest) <= bc - 1 →
  is_u8 ck →
  ∃ wd', feeds pd rest (c, L ws k blk bc la ck ad wd false (sttat bc k))
    (c, L (ws ++ pair_words rest) (k + Z.of_nat (length rest)) blk bc la (u8 (ck + sum_bytes rest))
          (ad + Z.of_nat (length rest)) wd' false (sttat bc (k + Z.of_nat (length rest)))) ∧
    (∀ x, unpaired rest = [x] → wd' = x).
Proof.
  induction rest as [|b|b1 b2 rest IH] using pair_ind; intros ws k blk la ck ad wd c He Ha Hl Hk Hck;
    simpl length in *.
  - exists wd. split; [|done]. eapply feeds_eq; [constructor|].
    simpl. rewrite app_nil_r, !Z.add_0_r, u8_id; done.
  - exists b. split; [|by intros x [= ->]]. rewrite (sttat_data bc k) by lia. econstructor; [done| |].
    { intros sys. apply even_byte; [done|lia|lia]. }
    eapply feeds_eq; [constructor|]. simpl. rewrite app_nil_r, Z.add_0_r. done.
  - rewrite (sttat_data bc k) by lia.
    destruct (IH (ws ++ [word_of b1 b2]) (k + 1 + 1) blk la (u8 (ck + b1 + b2)) (ad + 1 + 1) (word_of b1 b2) c)
      as (wd' & Hf & Hwd); [Z.div_mod_to_equations; lia|lia|lia|lia|auto with w11|].
    exists wd'. split; [|done]. econstructor; [done|intros sys; apply even_byte; [done|lia|lia]|].
    rewrite (sttat_data bc (k + 1)) by lia.
    econstructor; [done|intros sys; apply odd_byte; [Z.div_mod_to_equations; lia|lia|lia]|].
    rewrite u8_add. eapply feeds_eq; [exact Hf|].
    rewrite <- app_assoc, u8_add. change (sum_bytes (b1 :: b2 :: rest)) with (b1 + (b2 + sum_bytes rest)).
    rewrite !Nat2Z.inj_succ. unfold Z.succ. by rewrite !Z.add_assoc, !(Z.add_shuffle0 _ (Z.of_nat _)).
Qed.

(** Leader and header. *)
Lemma leader_feeds pd z c l : at_start l → feeds pd (replicate z 0) (c, l) (c, l).
Proof.
  intros (blk & bc & la & ad & wd & fo & ->). induction z as [|z IH]; simpl; [constructor|].
  apply (feeds_cons _ _ _ _ _ c (L [] (-1) blk bc la 0 ad wd fo s_chr0)); [done|by intros sys|exact IH].
Qed.
Lemma header_feeds pd n a c l :
  at_start l → is_u16 n → is_u16 a →
  ∃ blk, feeds pd [1; 0; lo8 n; hi8 n; lo8 a; hi8 a] (c, l)
    (c, L [] 5 blk n a (u8 (sum_bytes [1; 0; lo8 n; hi8 n; lo8 a; hi8 a])) a 0 (is_odd a)
          (if n =? 6 then s_chksum else s_data)).
Proof.
  intros (blk & bc & la & ad & wd & fo & ->) Hn Ha. exists blk.
  do 2 (econstructor; [done|intros sys; unfold load_byte, loc, modify; cbn -[Z.add u8]; reflexivity|]).
  do 4 (econstructor; [done|intros sys; unfold load_byte, loc, modify; cbn -[Z.add u8 Z.eqb lo8 hi8 is_odd Z.lor Z.shiftl]; reflexivity|]).
  eapply feeds_eq; [constructor|].
  change (Z.lor (lo8 n) (Z.shiftl (hi8 n) 8)) with (word_of (lo8 n) (hi8 n)).
  change (Z.lor (lo8 a) (Z.shiftl (hi8 a) 8)) with (word_of (lo8 a) (hi8 a)).
  cbn -[Z.add u8 lo8 hi8 u16 word_of is_odd Z.eqb]. rewrite !word_of_lo_hi by done.
  repeat (rewrite u8_add || rewrite <- Z.add_assoc). unfold sum_bytes. simpl fold_right.
  by rewrite (Z.add_0_r (hi8 a)).
Qed.

(** The data of a block on [c], as [c'] is left. *)
Definition stored (a : Z) (bs : list Z) (c c' : Cpu) : Prop :=
  moved c c' ∧ cpu_ready c' ∧ cp_size (cport c') = cp_size (cport c) ∧
  ∀ x, byte_at (cp_mem (cport c')) x = load_at a bs (byte_at (cp_mem (cport c))) x.
Lemma stored_app a xs ys c1 c2 c3 :
  stored a xs c1 c2 → stored (a + Z.of_nat (length xs)) ys c2 c3 → stored a (xs ++ ys) c1 c3.
Proof.
  intros (Hm1 & Hr1 & Hs1 & H1) (Hm2 & Hr2 & Hs2 & H2). split_and!; [by eapply moved_trans|done|congruence|].
  intros x. by rewrite H2, load_at_app, (load_at_ext _ _ _ _ _ (H1 x)).
Qed.
Lemma stored_nil a c : cpu_ready c → stored a [] c c.
Proof. intros H. split_and!; [apply moved_refl|done|done|]. intros x. by rewrite load_at_nil. Qed.

(** Addresses a tape may load. *)
Definition loadable (c : Cpu) (a : Z) (bs : list Z) : Prop :=
  0 <= a ∧ a + Z.of_nat (length bs) <= Z.min (Z.min (cp_size (cport c)) (fMemSize c)) 0xe000 ∧
  cp_size (cport c) <= 2 ^ 22 ∧ Forall is_u8 bs.
Lemma stored_loadable a bs c c' b ys : stored a bs c c' → loadable c b ys → loadable c' b ys.
Proof.
  intros ((s & E & _) & _ & Hs & _) (H1 & H2 & H3 & H4). unfold loadable.
  assert (fMemSize c' = fMemSize c) as -> by (by rewrite E). by rewrite Hs.
Qed.
Lemma loadable_app c a xs ys :
  loadable c a (xs ++ ys) → loadable c a xs ∧ loadable c (a + Z.of_nat (length xs)) ys.
Proof.
  intros (H1 & H2 & H3 & H4). rewrite length_app in H2. apply Forall_app in H4 as [H4 H5].
  split; split_and!; (done || lia).
Qed.

Lemma store_byte c a b : cpu_ready c → loadable c a [b] →
  ∃ c', MemWriteByte a b c = (Ret (inl ()), c') ∧ stored a [b] c c'.
Proof.
  intros Hr (H1 & H2 & H3 & H4). simpl in H2. apply Forall_cons_iff in H4 as [Hb _].
  destruct (MemWriteByte_ok c a b Hr) as (c' & Hc & Hm & Hr' & Hs & Hmem); [lia|lia|done|done|].
  exists c'. split; [done|]. split_and!; [done..|]. intros x. rewrite Hmem. by apply byte_at_merge.
Qed.
Lemma store_words c a pd bs : cpu_ready c → a mod 2 = 0 → loadable c a (paired bs) → Forall is_u8 bs →
  ∃ c', MemWrite a pd (pair_words bs) c = (Ret (inl ()), c') ∧ stored a (paired bs) c c'.
Proof.
  intros Hr He (H1 & H2 & H3 & _) Hu. rewrite length_paired in H2.
  destruct (MemWrite_ok c a pd (pair_words bs) Hr) as (c' & Hc & Hm & Hr' & Hs & Hmem).
  { split_and!; [done|done|lia|done]. }
  { by apply pair_words_u16. }
  exists c'. split; [done|]. split_and!; [done..|]. intros x. rewrite Hmem. by apply byte_at_mput.
Qed.

(** The data bytes. *)
Lemma first_odd_byte pd b blk n a ck c c1 (sys : F) :
  a mod 2 = 1 → 0 <= a < 65535 → MemWriteByte a b c = (Ret (inl ()), c1) →
  load_byte pd b (abs c sys (bump b (L [] 5 blk n a ck a 0 true s_data))) =
  (Ret (), abs c1 sys (L [] 6 blk n (a + 1) (u8 (ck + b)) (a + 1) 0 false (sttat n 6))).
Proof.
  intros Hodd Ha Hw. unfold load_byte, bump, loc, modify. cbn -[Z.sub Z.eqb u8 u16 is_odd].
  rewrite is_odd_mod, Hodd. change (negb (1 =? 1)) with false. unfold mbind, M_bind, or_stop.
  cbn -[Z.sub Z.eqb u8 u16]. rewrite Hw. cbn -[Z.sub Z.eqb u8 u16]. by rewrite (u16_id (a + 1)) by words.
Qed.
Lemma data_feeds pd bs blk a ck c :
  let n := 6 + Z.of_nat (length bs) in
  cpu_ready c → loadable c a bs → bs ≠ [] → is_u8 ck →
  ∃ c1 hd tl wd, feeds pd bs (c, L [] 5 blk n a ck a 0 (is_odd a) s_data)
      (c1, L (pair_words tl) (n - 1) blk n (a + Z.of_nat (length hd)) (u8 (ck + sum_bytes bs))
             (a + Z.of_nat (length bs)) wd false s_chksum) ∧
    bs = hd ++ tl ∧ (a + Z.of_nat (length hd)) mod 2 = 0 ∧ stored a hd c c1 ∧
    (∀ x, unpaired tl = [x] → wd = x).
Proof.
  intros n Hr Hl Hne Hck. pose proof Hl as (H1 & H2 & _ & Hu). rewrite is_odd_mod.
  assert (Hodd : a mod 2 = 0 ∨ a mod 2 = 1) by (Z.div_mod_to_equations; lia).
  destruct Hodd as [E|E]; rewrite E.
  - destruct (even_feeds pd n bs [] 5 blk a ck a 0 c) as (wd & Hf & Hwd); [done|done|lia|lia|done|].
    exists c, [], bs, wd. split_and!; [|done|by rewrite Z.add_0_r|by apply stored_nil|done].
    assert (0 < Z.of_nat (length bs)) by (destruct bs; simpl; [done|lia]).
    rewrite (sttat_data n 5) in Hf by lia. eapply feeds_eq; [exact Hf|].
    replace (5 + Z.of_nat (length bs)) with (n - 1) by lia. unfold sttat. rewrite Z.eqb_refl.
    by rewrite Z.add_0_r.
  - destruct bs as [|b tl]; [done|]. destruct (loadable_app c a [b] tl Hl) as [Hl1 _].
    destruct (store_byte c a b Hr Hl1) as (c1 & Hw & Hst). simpl length in *.
    destruct (even_feeds pd n tl [] 6 blk (a + 1) (u8 (ck + b)) (a + 1) 0 c1) as (wd & Hf & Hwd);
      [Z.div_mod_to_equations; lia|lia|lia|lia|auto with w11|].
    exists c1, [b], tl, wd. split_and!; [|done|simpl; Z.div_mod_to_equations; lia|done|done].
    econstructor; [done|intros sys; apply first_odd_byte; [done|lia|exact Hw]|].
    eapply feeds_eq; [exact Hf|]. rewrite u8_add. change (sum_bytes (b :: tl)) with (b + sum_bytes tl).
    replace (6 + Z.of_nat (length tl)) with (n - 1) by lia. unfold sttat. rewrite Z.eqb_refl.
    replace (a + Z.of_nat (Datatypes.S (length tl))) with (a + 1 + Z.of_nat (length tl)) by lia.
    by rewrite Z.add_assoc.
Qed.

(** The checksum byte stores what is left. *)
Lemma odd_end la tl : la mod 2 = 0 →
  is_odd (la + Z.of_nat (length tl)) = match unpaired tl with [] => false | _ => true end.
Proof.
  intros He. rewrite is_odd_mod, <- (paired_unpaired tl), length_app, length_paired at 1.
  destruct (unpaired_cases tl) as [E|[x E]]; rewrite E; simpl length;
    [apply Z.eqb_neq|apply Z.eqb_eq]; Z.div_mod_to_equations; lia.
Qed.
Lemma chksum_feeds pd b k blk n la ck wd tl c :
  cpu_ready c → loadable c la tl → la mod 2 = 0 → (∀ x, unpaired tl = [x] → wd = x) →
  u8 (ck + b) = 0 → n ≠ 6 →
  ∃ c' l', feeds pd [b] (c, L (pair_words tl) k blk n la ck (la + Z.of_nat (length tl)) wd false s_chksum) (c', l') ∧
    at_start l' ∧ stored la tl c c'.
Proof.
  intros Hr Hl He Hwd Hck Hn. pose proof (odd_end la tl He) as Hodd.
  assert (Hlen : la + Z.of_nat (length (paired tl)) + Z.of_nat (length (unpaired tl)) =
                 la + Z.of_nat (length tl)).
  { rewrite <- (paired_unpaired tl) at 3. rewrite length_app. lia. }
  set (ad := la + Z.of_nat (length tl)) in *. clearbody ad.
  pose proof Hl as (_ & _ & _ & Hu8). rewrite <- (paired_unpaired tl) in Hl.
  destruct (loadable_app _ _ _ _ Hl) as [Hl1 Hl2].
  destruct (store_words c la pd tl Hr He Hl1 Hu8) as (c1 & Hw1 & Hst1).
  assert (Hend : ∃ c2, stored (la + Z.of_nat (length (paired tl))) (unpaired tl) c1 c2 ∧
    (if is_odd ad then MemWriteByte (ad - 1) (u8 wd) c1 = (Ret (inl ()), c2) else c2 = c1)).
  { pose proof Hst1 as (_ & Hr1 & _). apply (stored_loadable _ _ _ _ _ _ Hst1) in Hl2.
    rewrite Hodd. destruct (unpaired_cases tl) as [E|[x E]]; rewrite E in *.
    - exists c1. split; [by apply stored_nil|done].
    - destruct (store_byte c1 _ x Hr1 Hl2) as (c2 & Hw2 & Hst2). exists c2. split; [done|].
      simpl in Hlen. replace (ad - 1) with (la + Z.of_nat (length (paired tl))) by lia.
      rewrite (Hwd x), u8_id; [done| |done]. destruct Hl2 as (_ & _ & _ & Hx). by inversion Hx. }
  destruct Hend as (c2 & Hst2 & Hw2).
  eexists c2, _. split; [|split; [|rewrite <- (paired_unpaired tl); by eapply stored_app]].
  - econstructor; [done| |constructor]. intros sys. unfold load_byte, bump, loc, modify.
    cbn -[Z.sub Z.eqb u8 is_odd]. rewrite Hck. change (negb (0 =? 0)) with false.
    rewrite (proj2 (Z.eqb_neq n 6)) by done. unfold mbind, M_bind, mret, M_ret, or_stop.
    cbn -[Z.sub Z.eqb u8 is_odd Z.add]. rewrite Hw1. cbn -[Z.sub Z.eqb u8 is_odd Z.add].
    destruct (is_odd ad).
    + cbn -[Z.sub u8 Z.add]. rewrite Hw2. cbn -[Z.add]. reflexivity.
    + subst c2. cbn -[Z.add]. reflexivity.
  - by repeat eexists.
Qed.

(** *** Blocks and tapes *)

Lemma sum_bytes_app xs ys : sum_bytes (xs ++ ys) = sum_bytes xs + sum_bytes ys.
Proof. induction xs as [|x xs IH]; simpl; [done|]. unfold sum_bytes in *. simpl. lia. Qed.
Lemma chksum_zero x y : u8 (u8 (u8 x + y) + u8 (- (x + y))) = 0.
Proof. rewrite (u8_add x y), u8_add, Z.add_comm, u8_add, u8_mod. by replace (- (x + y) + (x + y)) with 0 by lia. Qed.

Lemma block_feeds pd a bs c l :
  at_start l → cpu_ready c → loadable c a bs → bs ≠ [] →
  ∃ c' l', feeds pd (abs_block a bs) (c, l) (c', l') ∧ at_start l' ∧ stored a bs c c'.
Proof.
  intros Hl Hr Hla Hne. pose proof Hla as (H1 & H2 & _). set (n := 6 + Z.of_nat (length bs)).
  assert (0 < Z.of_nat (length bs)) by (destruct bs; simpl; [done|lia]).
  assert (Hn : is_u16 n) by (unfold n, is_u16; lia).
  assert (Ha : is_u16 a) by (unfold is_u16; lia).
  destruct (header_feeds pd n a c l Hl Hn Ha) as (blk & Hh).
  rewrite (proj2 (Z.eqb_neq n 6)) in Hh by lia. set (hdr := [1; 0; lo8 n; hi8 n; lo8 a; hi8 a]) in *.
  destruct (data_feeds pd bs blk a (u8 (sum_bytes hdr)) c Hr Hla Hne (u8_range _)) as
    (c1 & hd & tl & wd & Hd & Hbs & He & Hst & Hwd). fold n in Hd.
  assert (Hla1 : loadable c1 (a + Z.of_nat (length hd)) tl).
  { eapply stored_loadable; [exact Hst|]. rewrite Hbs in Hla. by apply loadable_app in Hla as [_ ?]. }
  pose proof Hst as (_ & Hr1 & _).
  destruct (chksum_feeds pd (u8 (- (sum_bytes hdr + sum_bytes bs))) (n - 1) blk n (a + Z.of_nat (length hd))
    (u8 (u8 (sum_bytes hdr) + sum_bytes bs)) wd tl c1) as (c2 & l2 & Hc & Hl2 & Hst2);
    [done|done|done|done|apply chksum_zero|lia|].
  exists c2, l2. split; [|split; [done|rewrite Hbs; by eapply stored_app]].
  unfold abs_block. fold n hdr. rewrite sum_bytes_app, <- app_assoc.
  eapply feeds_app; [exact Hh|]. eapply feeds_app; [exact Hd|].
  replace (a + Z.of_nat (length bs)) with (a + Z.of_nat (length hd) + Z.of_nat (length tl)); [exact Hc|].
  rewrite Hbs, length_app. lia.
Qed.

Definition loadable_blocks (c : Cpu) (blocks : list (nat * Z * list Z)) : Prop :=
  Forall (λ '(_, a, bs), bs ≠ [] ∧ loadable c a bs) blocks.
Lemma blocks_feed pd k final blocks : ∀ c l,
  at_start l → cpu_ready c → loadable_blocks c blocks →
  ∃ pre c' l', abs_tape blocks k final = pre ++ abs_tape [] k final ∧
    feeds pd pre (c, l) (c', l') ∧ at_start l' ∧
    ∀ x, byte_at (cp_mem (cport c')) x = load_blocks blocks (byte_at (cp_mem (cport c))) x.
Proof.
  induction blocks as [|[[z a] bs] blocks IH]; intros c l Hl Hr Hb.
  { exists [], c, l. split_and!; [done|constructor|done|done]. }
  apply Forall_cons_iff in Hb as [[Hne Hla] Hb].
  destruct (block_feeds pd a bs c l Hl Hr Hla Hne) as (c1 & l1 & Hf1 & Hl1 & Hst).
  pose proof Hst as (_ & Hr1 & _ & Hmem).
  destruct (IH c1 l1 Hl1 Hr1) as (pre & c2 & l2 & E & Hf2 & Hl2 & Hmem2).
  { eapply list.Forall_impl; [exact Hb|]. intros [[? ?] ?] [? ?]. split; [done|by eapply stored_loadable]. }
  exists (replicate z 0 ++ abs_block a bs ++ pre), c2, l2. split_and!.
  - change (abs_tape ((z, a, bs) :: blocks) k final)
      with (replicate z 0 ++ abs_block a bs ++ abs_tape blocks k final).
    by rewrite E, <- !app_assoc.
  - eapply feeds_app; [by apply leader_feeds|]. eapply feeds_app; [exact Hf1|exact Hf2].
  - done.
  - intros x. rewrite Hmem2. simpl. by apply load_blocks_ext.
Qed.

(** The end block. *)
Lemma end_feeds pd s c l : at_start l → is_u16 s →
  ∃ l', feeds pd (abs_block s []) (c, l) (c, l') ∧ go l' = false ∧ ok l' = true ∧
    emsg l' = emsg_none ∧ start l' = s.
Proof.
  intros Hl Hs. destruct (header_feeds pd 6 s c l Hl ltac:(done) Hs) as (blk & Hh).
  change (6 =? 6) with true in Hh. set (hdr := [1; 0; lo8 6; hi8 6; lo8 s; hi8 s]) in *.
  eexists. split; [|split_and!].
  - unfold abs_block. change (6 + Z.of_nat (length (@nil Z))) with 6. fold hdr. rewrite app_nil_r.
    eapply feeds_app; [exact Hh|]. econstructor; [done| |constructor]. intros sys.
    unfold load_byte, bump, loc, modify. cbn -[Z.sub Z.eqb u8 Z.add hdr].
    assert (Hz : u8 (u8 (sum_bytes hdr) + u8 (- sum_bytes hdr)) = 0).
    { pose proof (chksum_zero (sum_bytes hdr) 0) as H. rewrite !Z.add_0_r in H.
      by rewrite (u8_id (u8 (sum_bytes hdr))) in H by auto with w11. }
    rewrite Hz. change (negb (0 =? 0)) with false. change (6 =? 6) with true.
    unfold mbind, M_bind. cbn -[Z.add]. reflexivity.
  - done.
  - done.
  - done.
  - done.
Qed.

Lemma turns_split p q n : Datatypes.S (p + q + n) = (p + Datatypes.S (q + n))%nat.
Proof. lia. Qed.
Lemma load_loop_end pd k final n fd : ∀ c l sys o rest,
  at_start l → opened sys fd = Some o → drop (of_pos o) (of_data o) = abs_tape [] k final ++ rest →
  match final with Some (s, _) => is_u16 s | None => rest = [] end →
  ∃ sys' l', load_loop (Datatypes.S (length (abs_tape [] k final) + n)) fd pd (abs c sys l) =
      (Ret (), abs c sys' l') ∧ ok l' = true ∧ emsg l' = emsg_none ∧
    start l' = match final with Some (s, _) => s | None => u16 (-1) end.
Proof.
  intros c l sys o rest Hl Ho Hd Hf.
  set (tail := match final with Some (s, r) => abs_block s [] ++ r | None => [] end).
  change (abs_tape [] k final) with (replicate k 0 ++ tail) in *.
  rewrite <- app_assoc in Hd.
  destruct (load_loop_feeds pd fd _ _ _ (leader_feeds pd k c l Hl) (Datatypes.S (length tail + n)) sys o _ Ho Hd)
    as (sys1 & o1 & He & Ho1 & Hd1).
  rewrite length_app, turns_split.
  cbn [fst snd] in He. rewrite He. clear He. destruct final as [[s r]|].
  - destruct (end_feeds pd s c l Hl Hf) as (l' & Hfe & Hgo & Hok & Hem & Hst).
    unfold tail in *. rewrite <- app_assoc in Hd1.
    destruct (load_loop_feeds pd fd _ _ _ Hfe (Datatypes.S (length r + n)) sys1 o1 _ Ho1 Hd1)
      as (sys2 & o2 & He & _ & _).
    rewrite length_app, turns_split. cbn [fst snd] in He. rewrite He.
    exists sys2, l'. split_and!; try done. cbn [load_loop ab_loc]. by rewrite Hgo.
  - subst rest. destruct (read_law sys1 fd o1 1 Ho1 ltac:(lia)) as (sys2 & Hrd & _).
    rewrite Hd1 in Hrd. simpl in Hrd.
    destruct Hl as (blk & bc & la & ad & wd & fo & ->). eexists sys2, _. split.
    { cbn [load_loop ab_loc go negb ab_sys]. rewrite Hrd. reflexivity. }
    done.
Qed.
End Loading.

(** C36: A tape made of blocks with correct lengths and checksums is loaded as
    it says, wherever the blocks start and however odd they are: every byte of
    memory is that of the last block that covers it, and is unchanged
    otherwise.  The loader returns success with the start address of the end
    block, or [0xffff] when the tape has none; as many turns as the file has
    bytes, and one, are enough. *)
Theorem LoadAbs_loads_tape {S D F} `{!RlinkExec S, !Rbus D, !LinkLaws S D, !CpuBus D, !PosixFile F, !PosixFileLaws F}
    (c : Rw11Cpu S) (sys sys0 : F) (fname : string) (fd pd : Z) (o : ofile)
    (blocks : list (nat * Z * list Z)) (k : nat) (final : option (Z * list Z)) :
  cpu_ready c → loadable_blocks c blocks →
  match final with Some (s, _) => is_u16 s | None => True end →
  posix_open fname O_RDONLY 0 sys = (fd, sys0) → 0 <= fd → opened sys0 fd = Some o →
  of_pos o = O → of_data o = abs_tape blocks k final →
  ∃ c' sys', LoadAbs (Datatypes.S (length (of_data o))) fname pd (c, sys) =
      (Ret (true, emsg_none, match final with Some (s, _) => s | None => 0xffff end), (c', sys')) ∧
    ∀ x, byte_at (cp_mem (cport c')) x = load_blocks blocks (byte_at (cp_mem (cport c))) x.
Proof.
  intros Hr Hb Hf Hop Hfd Ho Hp Hd.
  assert (Hl : at_start Loader_init) by (by repeat eexists).
  destruct (blocks_feed (F := F) pd k final blocks c Loader_init Hl Hr Hb) as (pre & c' & l1 & E & Hf1 & Hl1 & Hmem).
  unfold LoadAbs. rewrite Hop, (proj2 (Z.ltb_ge _ _)), Hd, E, length_app by lia.
  destruct (load_loop_feeds pd fd _ _ _ Hf1 (Datatypes.S (length (abs_tape [] k final) + 0)) sys0 o
    (abs_tape [] k final) Ho) as (sys1 & o1 & He & Ho1 & Hd1); [by rewrite Hp, drop_0, Hd|].
  destruct (load_loop_end pd k final 0 fd c' l1 sys1 o1 [] Hl1 Ho1) as (sys2 & l2 & He2 & Hok & Hem & Hst);
    [by rewrite app_nil_r|by destruct final|].
  rewrite <- (Nat.add_0_r (_ + _)), turns_split.
  cbn [fst snd] in He. rewrite He. cbn [fst snd] in He2. rewrite He2. cbn [ab_loc ab_sys ab_cpu].
  destruct (posix_close fd sys2) as [rc sys3]. exists c', sys3. split; [|done].
  rewrite Hok, Hem, Hst. by destruct final as [[]|].
Qed.

Definition abs_demo : list (nat * Z * list Z) := [(2%nat, 0x101, [1; 2; 3; 4]); (0%nat, 0x104, [9; 10; 11])].
Lemma LoadAbs_loads_tape_witness : ∃ c' sys',
  LoadAbs (Datatypes.S (length (abs_tape abs_demo 1 (Some (0x100, [7]))))) "prog.lda" 300
    (bench_cpu, mkMemFile (mkOfile (abs_tape abs_demo 1 (Some (0x100, [7]))) 0 false)) =
    (Ret (true, emsg_none, 0x100), (c', sys')) ∧
  ∀ x, byte_at (cp_mem (cport c')) x = load_blocks abs_demo (byte_at (cp_mem (cport bench_cpu))) x.
Proof.
  apply (LoadAbs_loads_tape bench_cpu (mkMemFile (mkOfile (abs_tape abs_demo 1 (Some (0x100, [7]))) 0 false))
    (mkMemFile (mkOfile (abs_tape abs_demo 1 (Some (0x100, [7]))) 0 false)) "prog.lda" 3 300
    (mkOfile (abs_tape abs_demo 1 (Some (0x100, [7]))) 0 false) abs_demo 1 (Some (0x100, [7]))); try done.
  repeat constructor; try done; apply Z.leb_le; vm_compute; reflexivity.
Defined.
