(* ===== verification/Rdma.v ===== *)
(** * librw11/Rw11Rdma, Rw11RdmaDisk: memory transfers of the controllers

    A transfer is queued as an action of the server: each call of [RdmaHandler]
    moves one chunk between a buffer and the memory of the cpu, until the
    transfer is done or fails.  A disk transfer reads its blocks into the buffer
    before the first chunk, or writes them behind the last one.  The controller
    sees each chunk through two callbacks, which may add register accesses to
    the command list of a chunk.

    [Rw11Sys] is the part of the program a controller reaches through its
    pointers: the server, the cpu, the units, its transfer, and the fields of
    its own class ([sy_client]).  The buffer is a vector: [fBuf] is the address
    of its storage in the memory of the program. *)

From S2P Require Import Prelude.
From S2P Require Import Rstats.
From S2P Require Import AddrMap.
From S2P Require Import Command.
From S2P Require Import CommandList.
From S2P Require Import Connect.
From S2P Require Import Link.
From S2P Require Import Server.
From S2P Require Import FileFd.
From S2P Require Import VirtDisk.
From S2P Require Import UnitDisk.
From S2P Require Import Cpu.

Open Scope Z_scope.

(** ** Data *)

Inductive status :=
| kStatusDone
| kStatusBusy
| kStatusBusyLast
| kStatusFailRdma.
#[export] Instance status_eq_dec : EqDecision status.
Proof. solve_decision. Defined.
Inductive func :=
| kFuncRead
| kFuncWrite
| kFuncWriteCheck.
#[export] Instance func_eq_dec : EqDecision func.
Proof. solve_decision. Defined.

Definition kStatNQueRMem : nat := 0.
Definition kStatNQueWMem : nat := 1.
Definition kStatNRdmaRMem : nat := 2.
Definition kStatNRdmaWMem : nat := 3.
Definition kStatNExtClist : nat := 4.
Definition kStatNFailRdma : nat := 5.
Definition kStatNWritePadded : nat := 6.
Definition kStatNWChkFail : nat := 7.

Record Rw11Rdma := mkRdma {
  fChunksize : Z;
  fStatus : status;
  fIsWMem : bool;
  fAddr : Z;
  fMode : Z;
  fNWordMax : Z;
  fNWordRest : Z;
  fNWordDone : Z;
  fpBlock : Z;
  fStats : Rstats }.
#[export] Instance eta_Rw11Rdma : Eta Rw11Rdma := λ r,
  mkRdma (fChunksize r) (fStatus r) (fIsWMem r) (fAddr r) (fMode r) (fNWordMax r) (fNWordRest r)
    (fNWordDone r) (fpBlock r) (fStats r).
Definition rdma_stat_table : list (string * string) :=
  ([("NQueRMem", "RMem chains queued"); ("NQueWMem", "WMem chains queued");
    ("NRdmaRMem", "RMem chunks done"); ("NRdmaWMem", "WMem chunks done");
    ("NExtClist", "clist extended"); ("NFailRdma", "Rdma failures")])%string.
Definition Rdma_ctor : Rw11Rdma := mkRdma 0 kStatusDone false 0 0 0 0 0 0 (Define_all rdma_stat_table).

(** The fields of [Rw11RdmaDisk]; [fBufSize]: the size of the vector in words. *)
Record Rw11RdmaDisk := mkRdmaDisk {
  fBuf : Z;
  fBufSize : Z;
  fpUnit : option nat;
  fNWord : Z;
  fNBlock : Z;
  fLba : Z;
  fFunc : func }.
#[export] Instance eta_Rw11RdmaDisk : Eta Rw11RdmaDisk := λ d,
  mkRdmaDisk (fBuf d) (fBufSize d) (fpUnit d) (fNWord d) (fNBlock d) (fLba d) (fFunc d).
Definition RdmaDisk_ctor : Rw11Rdma * Rw11RdmaDisk :=
  (Rdma_ctor <| fStats ::= (λ s, Define (kStatNWChkFail) "NWChkFail" "write check failed"
                                 (Define kStatNWritePadded "NWritePadded" "padded disk write" s)) |>,
   mkRdmaDisk 0 0 None 0 0 0 kFuncRead).

(** [sy_disk]: present when the object is an [Rw11RdmaDisk]; it selects the
    overriding hooks. *)
Record Rw11Sys (S V H A C : Type) := mkSys {
  sy_srv : RlinkServer H A;
  sy_cpu : Rw11Cpu S;
  sy_units : list (Rw11UnitDisk V);
  sy_started : bool;
  sy_rdma : Rw11Rdma;
  sy_disk : option Rw11RdmaDisk;
  sy_client : C }.
Arguments mkSys {S V H A C}.
Arguments sy_srv {S V H A C} _. Arguments sy_cpu {S V H A C} _. Arguments sy_units {S V H A C} _.
Arguments sy_started {S V H A C} _. Arguments sy_rdma {S V H A C} _. Arguments sy_disk {S V H A C} _.
Arguments sy_client {S V H A C} _.
#[export] Instance eta_Rw11Sys {S V H A C} : Eta (Rw11Sys S V H A C) := λ t,
  mkSys (sy_srv t) (sy_cpu t) (sy_units t) (sy_started t) (sy_rdma t) (sy_disk t) (sy_client t).

Definition Message (e : RerrMsg) : string := (em_meth e ++ ": " ++ em_text e)%string.

Section Rdma.
Context {S V H A C : Type} `{!RlinkExec S, !VirtDiskOps V}.
Notation Sys := (Rw11Sys S V H A C).
Notation Unit := (Rw11UnitDisk V).

(** The bound [RdmaHandler], and the callbacks; the list of the chunk may be
    extended by the first. *)
Context (rdma_action : A).
Context (fPreExecCB : status → Z → Z → RlinkCommandList → M Sys RlinkCommandList).
Context (fPostExecCB : status → Z → RlinkCommandList → nat → M Sys ()).

Definition sy_link (t : Sys) : S := link (sy_cpu t).
#[export] Instance set_sy_link : Setter sy_link := λ g t, t <| sy_cpu ::= λ c, c <| link ::= g |> |>.
Definition rdma (f : Rw11Rdma → Rw11Rdma) : M Sys () := modify (λ t, t <| sy_rdma ::= f |>).
Definition rstat (ind : nat) : M Sys () := rdma (λ r, r <| fStats ::= inc ind 1 |>).

(** ** Rw11Rdma *)

Definition SetChunkSize (chunk : Z) : M Sys () := λ t,
  let cmax := if sy_started t then srv_blkprudent (sy_link t) else 0 in
  rdma (λ r, r <| fChunksize := if (chunk =? 0) || (cmax <? chunk) then cmax else chunk |>) t.
Definition IsActive (r : Rw11Rdma) : bool := negb (bool_decide (fStatus r = kStatusDone)).
Definition SetupRdma (iswmem : bool) (addr block size mode : Z) : M Sys () := λ t,
  if IsActive (sy_rdma t)
  then (Exc (Rexception "Rw11Rdma::SetupRdma" "Bad state: Rdma already active"), t)
  else
    let chunksize := if fChunksize (sy_rdma t) =? 0 then srv_blkprudent (sy_link t)
                     else fChunksize (sy_rdma t) in
    rdma (λ r, mkRdma chunksize kStatusBusy iswmem addr mode chunksize size 0 block (fStats r)) t.
Definition QueueRMem (addr block size mode : Z) : M Sys () :=
  rstat kStatNQueRMem ;; SetupRdma false addr block size mode ;; zoom sy_srv (QueueAction rdma_action).
Definition QueueWMem (addr block size mode : Z) : M Sys () :=
  rstat kStatNQueWMem ;; SetupRdma true addr block size mode ;; zoom sy_srv (QueueAction rdma_action).

(** ** Rw11RdmaDisk *)

(** A call on the unit [fpUnit] points to. *)
Definition on_unit {B} (d : Rw11RdmaDisk) (m : E Unit B) : M Sys (B + RerrMsg) := λ t,
  match fpUnit d with
  | None => (Exc (undefined "null pointer"), t)
  | Some i =>
      match sy_units t !! i with
      | None => (Exc (undefined "dangling pointer"), t)
      | Some u => let '(r, u) := m u in (r, t <| sy_units ::= <[i := u]> |>)
      end
  end.
Definition mem_write (p : Z) (ws : list Z) : M Sys () :=
  modify (update sy_link (λ s, srv_set_mem (mem_put p ws (srv_mem s)) s)).
Definition mem_read (p : Z) (n : Z) : M Sys (list Z) :=
  gets (λ t, mem_get (srv_mem (sy_link t)) p (Z.to_nat n)).
(** Block size in words. *)
Definition bszwrd (u : Unit) : Z := ufBlksize u / 2.
Definition unit_bszwrd (d : Rw11RdmaDisk) : M Sys Z := λ t,
  match fpUnit d with
  | Some i => match sy_units t !! i with
              | Some u => (Ret (bszwrd u), t)
              | None => (Exc (undefined "dangling pointer"), t)
              end
  | None => (Exc (undefined "null pointer"), t)
  end.
Definition blocks_for (nwrd bsz : Z) : Z := (nwrd + bsz - 1) / bsz.
Definition throw_emsg {B} (meth text : string) (r : B + RerrMsg) : M Sys B := λ t,
  match r with
  | inl b => (Ret b, t)
  | inr e => (Exc (Rexception meth (text ++ Message e)), t)
  end.

(** [pd]: the storage of the buffer when it has to grow; the old contents are
    moved there. *)
Definition SetupDisk (size lba : Z) (punit : nat) (f : func) (pd : Z) : M Sys () := λ t,
  match sy_disk t with
  | None => (Exc (undefined "no disk transfer"), t)
  | Some d =>
      let d := d <| fpUnit := Some punit |> in
      (modify (λ t, t <| sy_disk := Some d |>) ;;
       bsz ← unit_bszwrd d;
       let nblk := blocks_for size bsz in
       let d := d <| fNWord := size |> <| fNBlock := nblk |> <| fLba := lba |> <| fFunc := f |> in
       let tsize := nblk * bsz in
       (if fBufSize d <? tsize then
          old ← mem_read (fBuf d) (fBufSize d);
          mem_write pd (old ++ replicate (Z.to_nat (tsize - fBufSize d)) 0) ;;
          modify (λ t, t <| sy_disk := Some (d <| fBuf := pd |> <| fBufSize := tsize |>) |>)
        else modify (λ t, t <| sy_disk := Some d |>))) t
  end.
Definition buf_data : M Sys Z := gets (λ t, match sy_disk t with Some d => fBuf d | None => 0 end).
Definition QueueDiskRead (addr size mode lba : Z) (punit : nat) (pd : Z) : M Sys () :=
  SetupDisk size lba punit kFuncRead pd ;; p ← buf_data; QueueWMem addr p size mode.
Definition QueueDiskWrite (addr size mode lba : Z) (punit : nat) (pd : Z) : M Sys () :=
  SetupDisk size lba punit kFuncWrite pd ;; p ← buf_data; QueueRMem addr p size mode.
Definition QueueDiskWriteCheck (addr size mode lba : Z) (punit : nat) (pd : Z) : M Sys () :=
  SetupDisk size lba punit kFuncWriteCheck pd ;; p ← buf_data; QueueRMem addr p size mode.

(** The index of the first difference. *)
Fixpoint first_diff (i : Z) (xs ys : list Z) : option Z :=
  match xs, ys with
  | x :: xs, y :: ys => if x =? y then first_diff (i + 1) xs ys else Some i
  | _, _ => None
  end.
Definition WriteCheck (nwdone : Z) : M Sys Z := λ t,
  match sy_disk t with
  | None => (Exc (undefined "no disk transfer"), t)
  | Some d =>
      if nwdone =? 0 then (Ret 0, t)
      else
        (bsz ← unit_bszwrd d;
         r ← on_unit d (VirtRead (fLba d) (blocks_for nwdone bsz));
         bytes ← throw_emsg "Rw11RdmaDisk::WriteCheck()" "VirtRead() failed: " r;
         mem ← mem_read (fBuf d) nwdone;
         match first_diff 0 (take (Z.to_nat nwdone) (pair_words bytes)) mem with
         | Some i => rstat kStatNWChkFail ;; mret i
         | None => mret nwdone
         end) t
  end.

Definition PreRdmaHook : M Sys () := λ t,
  match sy_disk t with
  | None => (Ret (), t)
  | Some d =>
      if bool_decide (fFunc d ≠ kFuncRead) then (Ret (), t)
      else
        (r ← on_unit d (VirtRead (fLba d) (fNBlock d));
         bytes ← throw_emsg "Rw11RdmaDisk::PreRdmaHook()" "VirtRead() failed: " r;
         mem_write (fBuf d) (pair_words bytes)) t
  end.
(** An incomplete block is padded with hex dead. *)
Definition PostRdmaHook (nwdone : Z) : M Sys () := λ t,
  match sy_disk t with
  | None => (Ret (), t)
  | Some d =>
      if (nwdone =? 0) || bool_decide (fFunc d ≠ kFuncWrite) then (Ret (), t)
      else
        (bsz ← unit_bszwrd d;
         let nblock := blocks_for nwdone bsz in
         let npad := nblock * bsz - nwdone in
         (if negb (npad =? 0) then
            rstat kStatNWritePadded ;;
            mem_write (fBuf d + nwdone) (replicate (Z.to_nat npad) 0xdead)
          else mret ()) ;;
         ws ← mem_read (fBuf d) (nblock * bsz);
         r ← on_unit d (VirtWrite (fLba d) nblock (words_bytes ws));
         throw_emsg "Rw11RdmaDisk::PostRdmaHook()" "VirtWrite() failed: " r) t
  end.

(** ** The handler *)

Definition get_rdma {B} (f : Rw11Rdma → B) : M Sys B := gets (λ t, f (sy_rdma t)).
(** [Cpu().AddWMem] or [AddRMem] on a new list. *)
Definition chunk_list (r : Rw11Rdma) (nwnext : Z) : M Sys (nat * RlinkCommandList) := λ t,
  let add := if fIsWMem r then AddWMem else AddRMem in
  new_clist (add (fAddr r) (fpBlock r) nwnext (fMode r) true (sy_cpu t)) t.
Definition exec_list (l : RlinkCommandList) : M Sys RlinkCommandList := zoom sy_cpu (Exec_ l).
Definition cmd_of (ind : nat) (l : RlinkCommandList) : M Sys RlinkCommand := λ t, (at_ ind l, t).
Definition advance (nwdone : Z) (r : Rw11Rdma) : Rw11Rdma :=
  r <| fAddr ::= λ a, u32 (a + 2 * nwdone) |> <| fNWordRest ::= λ n, n - nwdone |>
    <| fNWordDone ::= Z.add nwdone |> <| fpBlock ::= Z.add nwdone |>.
(** A chunk: words asked for and moved, the number of commands that move them,
    and the list. *)
Definition rdma_chunk : M Sys (Z * Z * nat * RlinkCommandList) :=
  r ← get_rdma id;
  let nwnext := Z.min (fNWordRest r) (fNWordMax r) in
  rstat (if fIsWMem r then kStatNRdmaWMem else kStatNRdmaRMem) ;;
  '(_, clist) ← chunk_list r nwnext;
  let ncmd := CommandList.Size clist in
  (if nwnext =? fNWordRest r then rdma (λ r, r <| fStatus := kStatusBusyLast |>) else mret ()) ;;
  st ← get_rdma fStatus;
  clist ← fPreExecCB st (fNWordDone r) nwnext clist;
  (if negb (CommandList.Size clist =? ncmd)%nat then rstat kStatNExtClist else mret ()) ;;
  clist ← exec_list clist;
  cmd ← cmd_of (ncmd - 1) clist;
  let nwdone := Z.of_nat (fBlockDone cmd) in
  rdma (advance nwdone) ;;
  mret (nwnext, nwdone, ncmd, clist).
(** What follows a chunk. *)
Definition rdma_finish (nwnext nwdone : Z) (ncmd : nat) (clist : RlinkCommandList) : M Sys Z :=
  rest ← get_rdma fNWordRest;
  let islast := negb (nwnext =? nwdone) || (rest =? 0) in
  (if negb (nwnext =? nwdone) then rstat kStatNFailRdma ;; rdma (λ r, r <| fStatus := kStatusFailRdma |>)
   else if rest =? 0 then rdma (λ r, r <| fStatus := kStatusDone |>) else mret ()) ;;
  done ← get_rdma fNWordDone;
  (if islast then PostRdmaHook done else mret ()) ;;
  st ← get_rdma fStatus;
  fPostExecCB st done clist ncmd ;;
  st ← get_rdma fStatus;
  if bool_decide (st = kStatusBusy) then mret 1
  else rdma (λ r, r <| fStatus := kStatusDone |>) ;; mret 0.
Definition RdmaHandler : M Sys Z :=
  done ← get_rdma fNWordDone;
  (if done =? 0 then PreRdmaHook else mret ()) ;;
  '(nwnext, nwdone, ncmd, clist) ← rdma_chunk;
  rdma_finish nwnext nwdone ncmd clist.

(** The only actions are calls of the handler. *)
Definition call_action : M Sys () := CallActnHandler sy_srv (λ _, RdmaHandler).
End Rdma.
