(* ===== verification/LinkCore.v ===== *)
(** * The link over a real connection

    The theorems about the clients of the link are proved against the contract
    [LinkLaws].  Here the contract is proved for the program's own link: the
    server ([Server_Exec]) over the connection ([RlinkConnect::Exec]), its
    encoder, framing, receiver and decoder, and a port with an rlink core
    behind it.

    [CorePort] is such a port.  The core takes the frame of a request, parses
    it with the reference parser of [ConnectEncode], makes the accesses on its
    bus and answers in the response format of [ConnectDecode]; a frame it
    cannot parse it drops.  The answer arrives in chunks of the size of the
    read buffer, without delay.  [init] requests, which no client of the link
    makes, are not part of this core. *)

From S2P Require Import Prelude.
From S2P Require Import Rtime.
From S2P Require Import Crc16.
From S2P Require Import Port.
From S2P Require Import PacketBuf.
From S2P Require Import PacketRcv.
From S2P Require Import AddrMap.
From S2P Require Import Command.
From S2P Require Import CommandList.
From S2P Require Import Connect.
From S2P Require Import ConnectEncode.
From S2P Require Import ConnectDecode.
From S2P Require Import ConnectExec.
From S2P Require Import Link.

Open Scope Z_scope.

(** ** The core *)

Section Core.
Context {D : Type} `{!Rbus D}.

Definition req_byte (seq code : Z) : Z := 8 * seq + code.
(** The answer to a request, and whether a block was cut short so far. *)
Definition serve (babo : bool) (r : request) (d : D) : option (list field * bool * D) :=
  match r with
  | Rq_rreg seq a =>
      let '((st, x), d) := rb_read a d in
      Some ([F8 (req_byte seq kCmdRreg); F16 x; F8 st; FCrc], babo, d)
  | Rq_rblk seq a cnt =>
      let n := Z.to_nat cnt in
      let '((xs, st), d') := bus_rblk a n 0 d in
      let ws := xs ++ replicate (n - length xs) (rb_fill d) in
      Some ([F8 (req_byte seq kCmdRblk); F16 cnt; FBlk ws; F16 (Z.of_nat (length xs)); F8 st; FCrc],
            negb (length xs =? n)%nat, d')
  | Rq_wreg seq a v =>
      let '(st, d) := rb_write a v d in Some ([F8 (req_byte seq kCmdWreg); F8 st; FCrc], babo, d)
  | Rq_wblk seq a ws =>
      let '((k, st), d) := bus_wblk a ws 0 d in
      Some ([F8 (req_byte seq kCmdWblk); F16 (Z.of_nat k); F8 st; FCrc], negb (k =? length ws)%nat, d)
  | Rq_labo seq =>
      Some ([F8 (req_byte seq kCmdLabo); F8 (Z.b2z babo); F8 (rb_stat d); FCrc], babo, d)
  | Rq_attn seq =>
      let '((st, x), d) := rb_attn d in
      Some ([F8 (req_byte seq kCmdAttn); F16 x; F8 st; FCrc], babo, d)
  | Rq_init _ _ _ => None
  end.
Definition is_labo (r : request) : bool := match r with Rq_labo _ => true | _ => false end.
(** A [labo] behind a block that was cut short ends the response. *)
Fixpoint serve_all (babo : bool) (rs : list request) (d : D) : option (list field * D) :=
  match rs with
  | [] => Some ([], d)
  | r :: rs =>
      '(fs, babo', d) ← serve babo r d;
      if is_labo r && babo then Some (fs, d)
      else '(fs', d) ← serve_all babo' rs d; Some (fs ++ fs', d)
  end.

(** All requests of a packet; each takes at least a byte. *)
Fixpoint parse_all (n : nat) (s : pst) : option (list request) :=
  match s.2 with
  | [] => Some []
  | _ => match n with
         | O => None
         | S n => '(r, s) ← parse_request s; rs ← parse_all n s; Some (r :: rs)
         end
  end.
Definition core_request (bs : list Z) : option (list request) :=
  let r := (rx_run bs rx_idle).1 in
  match rx_state r with
  | kRcvDone => parse_all (length (rx_pkt r)) (0, rx_pkt r)
  | _ => None
  end.
(** The response packet to a frame. *)
Definition core_step (bs : list Z) (d : D) : option (list Z * D) :=
  rs ← core_request bs; '(fs, d) ← serve_all false rs d; Some (fields_bytes RlinkCrc16_ctor fs, d).
End Core.

(** ** The port *)

(** A byte stream in pieces of the size of the read buffer. *)
Fixpoint pieces (n : nat) (bs : list Z) : list (list Z) :=
  match n, bs with
  | S n, _ :: _ => take RawBufSize bs :: pieces n (drop RawBufSize bs)
  | _, _ => []
  end.
Definition core_reply {D} `{!Rbus D} (bs : list Z) (d : D) : list (list Z) :=
  match core_step bs d with
  | Some (pkt, _) => let fr := frame false pkt in pieces (length fr) fr
  | None => []
  end.
Definition core_after {D} `{!Rbus D} (bs : list Z) (d : D) : D :=
  match core_step bs d with Some (_, d) => d | None => d end.

Record CorePort (D : Type) := mkCorePort { cr_in : list (list Z); cr_dev : D; cr_now : Z }.
Arguments mkCorePort {D} _ _ _.
Arguments cr_in {D} _.
Arguments cr_dev {D} _.
Arguments cr_now {D} _.
#[export] Instance eta_CorePort {D} : Eta (CorePort D) := λ p, mkCorePort (cr_in p) (cr_dev p) (cr_now p).

Definition core_Read {D} (n : nat) (_ : Rtime) (p : CorePort D) : read_result * CorePort D :=
  match cr_in p with
  | [] => (mkRead kTout [] emsg_none, p)
  | c :: r =>
      let d := map u8 (take n c) in
      (mkRead (Z.of_nat (length d)) d emsg_none,
       p <| cr_in := match drop n c with [] => r | rest => rest :: r end |>)
  end.
#[export] Instance CorePort_port {D} `{!Rbus D} : RlinkPort (CorePort D) := {
  port_Read := core_Read;
  port_Write bs p := ((Z.of_nat (length bs), emsg_none),
    p <| cr_in ::= λ i, i ++ core_reply bs (cr_dev p) |> <| cr_dev ::= core_after bs |>);
  port_IsOpen _ := true;
  port_FindOpt _ _ := false;
  port_XonEnable _ := false;
  clock_monotonic p := (mkRtime (cr_now p) 0, p) }.
#[export] Instance CorePort_laws {D} `{!Rbus D} : RlinkPortLaws (CorePort D).
Proof.
  split; try done.
  - intros n t p r p' H Hr. simpl in H. unfold core_Read in H.
    destruct (cr_in p) as [|c l]; simplify_eq; simpl in *; [by vm_compute in Hr|].
    split; [done|]. split; [rewrite length_map, length_take; lia|].
    apply Forall_map, list.Forall_forall. intros. apply u8_range.
  - intros p t p' H. simpl in H. simplify_eq. unfold Normal. simpl. lia.
Qed.
#[export] Instance CorePort_feed {D} `{!Rbus D} : PortFeed (CorePort D) D.
Proof.
  refine {| feed cs d now := mkCorePort cs d now; reply := core_reply; after := core_after; tick := 0 |};
    try done.
  intros c cs d now t [Hl Hu]. cbn [port_Read CorePort_port core_Read cr_in].
  rewrite take_ge, drop_ge, map_u8_id by (done || lia). done.
Defined.

(** ** Lemmas: a command on the bus and its response *)

#[local] Instance answered_trans : Transitive answered.
Proof.
  intros x y z (A1 & A2 & A3 & A4 & A5 & A6 & A7 & A8) (B1 & B2 & B3 & B4 & B5 & B6 & B7 & B8). split_and!; congruence.
Qed.

Section Serve.
Context {D : Type} `{!Rbus D, !BusWidths D}.

Lemma bus_wblk_range a ws : ∀ st (d : D), is_u8 st →
  let '((k, st'), _) := bus_wblk a ws st d in (k <= length ws)%nat ∧ is_u8 st'.
Proof.
  induction ws as [|w ws IH]; intros st d Hst; cbn [bus_wblk]; [done|].
  pose proof (bw_write a w d) as H1. destruct (rb_write a w d) as [st1 d1]. simpl in H1.
  destruct (bad_stat st1); [split; [simpl; lia|done]|].
  specialize (IH st1 d1 H1). destruct (bus_wblk a ws st1 d1) as [[k st2] d2].
  destruct IH as (IH1 & IH2). split; [simpl; lia|done].
Qed.

Lemma req_byte_of c k : Command c = k → req_byte (SeqNumber c) k = fRequest c.
Proof.
  intros <-. unfold req_byte. rewrite <- SeqNumber_div, <- Command_mod.
  rewrite (Z.div_mod (fRequest c) 8) at 3 by lia. done.
Qed.

Lemma resp_ok_data c x st : Command c ≠ kCmdLabo → Command c ≠ kCmdRblk → is_u16 x → is_u8 st →
  resp_ok c (mkResponse x [] 0 st).
Proof.
  intros H1 H2 Hx Hst. split; simpl; try done. by rewrite (proj2 (Z.eqb_neq _ _)).
Qed.

Lemma serve_cmd m0 m c babo (d : D) :
  cmd_wf c → bus_code c = true → (Command c =? kCmdLabo) = false →
  ∃ r, let '(c', m', d') := bus_cmd m0 c m d in
    serve babo (request_of m0 c) d = Some (resp_fields c r, cut_short babo c c', d') ∧
    resp_ok c r ∧ aborts c r = false ∧
    (c', m') = (let '(c1, m1) := fetch_data m c r in (SetStatus (rs_stat r) c1, m1)).
Proof.
  intros Hw Hc Hl. pose proof (wf_size c Hw) as Hs.
  unfold bus_cmd, request_of, cut_short, resp_fields, fetch_data, aborts. rewrite Hl. unfold bus_code in Hc. apply Z.leb_le in Hc.
  destruct (command_cases c Hw) as [E|[E|[E|[E|[E|[E|E]]]]]]; rewrite E in *; try done;
    cbn [Z.eqb orb andb kCmdRreg kCmdRblk kCmdWreg kCmdWblk kCmdLabo kCmdAttn Pos.eqb].
  - destruct (bw_read (fAddress c) d) as [H1 H2]. cbn [serve]. rewrite (req_byte_of c _ E).
    destruct (rb_read (fAddress c) d) as [[st x] d1]. exists (mkResponse x [] 0 st).
    split_and!; try done. by apply resp_ok_data; rewrite ?E.
  - assert (Hn : 0 < Z.of_nat (BlockSize c) <= 65535) by auto.
    pose proof (bus_rblk_range (fAddress c) (BlockSize c) 0 d ltac:(done)) as H1. pose proof (bw_fill d) as H2.
    cbn [serve]. rewrite (req_byte_of c _ E), Nat2Z.id, u16_id by (unfold is_u16; lia).
    destruct (bus_rblk (fAddress c) (BlockSize c) 0 d) as [[xs st] d1]. destruct H1 as (H3 & H4 & H5).
    set (ws := xs ++ _). exists (mkResponse 0 ws (Z.of_nat (length xs)) st). simpl rs_block. simpl rs_stat. simpl rs_done.
    destruct (block_write ws c m) as [c1 m1]. split_and!; try done.
    + simpl. by rewrite Nat2Z.id.
    + split; simpl; rewrite ?E; try done; try (unfold is_u16; lia).
      * by apply Forall_app_2, Forall_replicate.
      * intros _. unfold ws. rewrite length_app, length_replicate. lia.
  - pose proof (bw_write (fAddress c) (fData c) d) as H1. cbn [serve]. rewrite (req_byte_of c _ E).
    destruct (rb_write (fAddress c) (fData c) d) as [st d1]. exists (mkResponse 0 [] 0 st).
    split_and!; try done. by apply resp_ok_data; rewrite ?E.
  - assert (Hn : 0 < Z.of_nat (BlockSize c) <= 65535) by auto.
    pose proof (bus_wblk_range (fAddress c) (block_read m0 (BlockSize c) c) 0 d ltac:(done)) as H1.
    cbn [serve]. rewrite (req_byte_of c _ E). rewrite length_block_read in *.
    destruct (bus_wblk _ _ 0 d) as [[k st] d1]. destruct H1 as (H3 & H4).
    exists (mkResponse 0 [] (Z.of_nat k) st). split_and!; try done.
    + simpl. by rewrite Nat2Z.id.
    + split; simpl; rewrite ?E; try done. unfold is_u16. lia.
  - destruct (bw_attn d) as [H1 H2]. cbn [serve]. rewrite (req_byte_of c _ E).
    destruct (rb_attn d) as [[st x] d1]. exists (mkResponse x [] 0 st).
    split_and!; try done. by apply resp_ok_data; rewrite ?E.
Qed.

(** Flags, sequence number and expectations make no difference on the bus. *)
Lemma alike_size c c' : answered c c' → BlockSize c' = BlockSize c.
Proof.
  intros (_ & _ & _ & _ & Hb & _ & He & Hs). unfold BlockSize, HasBlockExt. by rewrite He, Hs, Hb.
Qed.
Lemma alike_read m n c c' : answered c c' → block_read m n c' = block_read m n c.
Proof. intros (_ & _ & _ & _ & Hb & _ & He & _). unfold block_read. by rewrite He, Hb. Qed.
Lemma alike_write ws m c c' : answered c c' → ∃ c1 c1' m',
  block_write ws c m = (c1, m') ∧ block_write ws c' m = (c1', m') ∧ answered c1 c1'.
Proof.
  intros Ha. pose proof Ha as (_ & _ & _ & _ & _ & _ & He & _). unfold block_write. rewrite He. destruct (fpBlockExt c); [by eexists _, _, _|].
  destruct Ha as (H1 & H2 & H3 & H4 & H5 & H6 & H7 & H8). eexists _, _, _. by split_and!.
Qed.
Lemma answered_status st c c' : answered c c' → answered (SetStatus st c) (SetStatus st c').
Proof. intros (H1 & H2 & H3 & H4 & H5 & H6 & H7 & H8). by split_and!. Qed.
Lemma answered_data x c c' : answered c c' → answered (SetData x c) (SetData x c').
Proof. intros (H1 & H2 & H3 & H4 & H5 & H6 & H7 & H8). by split_and!. Qed.
Lemma answered_done n c c' : answered c c' → answered (SetBlockDone n c) (SetBlockDone n c').
Proof. intros (H1 & H2 & H3 & H4 & H5 & H6 & H7 & H8). by split_and!. Qed.
Hint Resolve answered_status answered_data answered_done : core.

Lemma cut_short_alike b c c' c1 c1' : answered c c' → answered c1 c1' → cut_short b c' c1' = cut_short b c c1.
Proof.
  intros Ha (_ & _ & _ & _ & _ & Hd & _). pose proof (alike_size _ _ Ha) as Hs. destruct Ha as (Hc & _).
  unfold cut_short. by rewrite Hc, Hs, Hd.
Qed.

Lemma bus_cmd_alike m0 c c' m (d : D) : answered c c' →
  let '(c1, m1, d1) := bus_cmd m0 c m d in ∃ c1', bus_cmd m0 c' m d = (c1', m1, d1) ∧ answered c1 c1'.
Proof.
  intros H. pose proof (alike_size _ _ H) as Hs. pose proof (alike_read m0 (BlockSize c) _ _ H) as Hr.
  pose proof H as (H1 & H2 & H3 & _).
  unfold bus_cmd. rewrite H1, H2, H3, Hs, Hr.
  destruct (Command c =? kCmdRblk); [|by repeat case_match; simplify_eq; eauto].
  destruct (bus_rblk (fAddress c) (BlockSize c) 0 d) as [[xs st] d1].
  destruct (alike_write (xs ++ replicate (BlockSize c - length xs) (rb_fill d)) m c c' H) as (c1 & c1' & m' & -> & -> & Hc).
  repeat case_match; simplify_eq; eauto.
Qed.
Lemma bus_run_alike m0 cs cs' : Forall2 answered cs cs' → ∀ b m (d : D),
  let '(rs, m1, d1) := bus_run m0 b cs m d in
  ∃ rs', bus_run m0 b cs' m d = (rs', m1, d1) ∧ Forall2 answered rs rs'.
Proof.
  induction 1 as [|c c' cs cs' H Hcs IH]; intros b m d; cbn [bus_run]; [by eexists|].
  rewrite (proj1 H). destruct (Command c =? kCmdLabo).
  - destruct b; [by eauto 10|]. specialize (IH false m d). destruct (bus_run m0 false cs m d) as [[rs m1] d1].
    destruct IH as (rs' & -> & HR). eauto 10.
  - pose proof (bus_cmd_alike m0 c c' m d H) as Hb. destruct (bus_cmd m0 c m d) as [[c1 m1] d1].
    destruct Hb as (c1' & -> & Hc1). rewrite (cut_short_alike b c c' c1 c1') by done.
    specialize (IH (cut_short b c c1) m1 d1). destruct (bus_run m0 _ cs m1 d1) as [[rs m2] d2].
    destruct IH as (rs' & -> & HR). eauto 10.
Qed.

Lemma answered_add_flag c c' b f : answered c c' → answered c (add_flag b f c').
Proof. intros H. by destruct b. Qed.
Lemma answered_checked c m f : answered c (checked m (Command.SetFlagBit f c)).
Proof. unfold checked. by repeat apply answered_add_flag. Qed.
Lemma answered_canceled cs : Forall2 answered cs (map canceled cs).
Proof. induction cs; simpl; constructor; by try split_and!. Qed.

(** The core does what [bus_run] says, and the decoder stores it. *)
Lemma serve_all_ok m0 l : Forall cmd_wf l → forallb bus_code l = true → ∀ babo m (d : D),
  let '(cs, m', d') := bus_run m0 babo l m d in
  ∃ rs, serve_all babo (map (request_of m0) l) d = Some (resp_fields_all l rs, d') ∧ resp_all_ok l rs ∧
    Forall2 answered cs (decoded m l rs).1 ∧ (decoded m l rs).2 = m'.
Proof.
  induction 1 as [|c l Hc Hl IH]; intros Hb babo m d; cbn [bus_run map]; [by exists []|].
  cbn [forallb] in Hb. apply andb_true_iff in Hb as [Hbc Hb]. specialize (IH Hb).
  destruct (Command c =? kCmdLabo) eqn:E.
  - pose proof (bw_stat d) as Hst. apply Z.eqb_eq in E.
    set (r := mkResponse (Z.b2z babo) [] 0 (rb_stat d)).
    assert (Hr : resp_ok c r).
    { split; simpl; rewrite ?E; try done. by destruct babo. }
    assert (Hf : fetched m c r = (Command.SetFlagBit kFlagDone (SetStatus (rb_stat d) (SetData (Z.b2z babo) c)), m)).
    { unfold fetched, fetch_data. by rewrite E. }
    assert (Hs : serve babo (request_of m0 c) d = Some (resp_fields c r, babo, d)).
    { unfold request_of, resp_fields. rewrite E. cbn [Z.eqb orb kCmdRreg kCmdRblk kCmdWreg kCmdWblk kCmdLabo kCmdAttn Pos.eqb serve].
      by rewrite (req_byte_of c _ E). }
    assert (Hq : is_labo (request_of m0 c) = true) by (unfold request_of; by rewrite E).
    cbn [serve_all]. rewrite Hs. cbn [mbind option_bind]. rewrite Hq. destruct babo; cbn [andb].
    + exists [r]. cbn [resp_fields_all resp_all_ok decoded]. assert (Ha : aborts c r = true) by (unfold aborts; by rewrite E).
      rewrite Ha, Hf. rewrite app_nil_r. split_and!; try done. constructor; [apply answered_checked|apply answered_canceled].
    + specialize (IH false m d). destruct (bus_run m0 false l m d) as [[cs m'] d'].
      destruct IH as (rs & Hsv & Hok & HR & Hm). exists (r :: rs). cbn [resp_fields_all resp_all_ok decoded].
      assert (Ha : aborts c r = false) by (unfold aborts; by rewrite E).
      rewrite Ha, Hf, Hsv. cbn [mbind option_bind]. destruct (decoded m l rs) as [cs' m1]. simpl in HR, Hm. subst.
      split_and!; try done. constructor; [apply answered_checked|done].
  - destruct (serve_cmd m0 m c babo d Hc Hbc E) as (r & Hr). destruct (bus_cmd m0 c m d) as [[c' m1] d1].
    destruct Hr as (Hs & Hok1 & Ha & Hcm).
    assert (Hq : is_labo (request_of m0 c) = false).
    { unfold request_of. rewrite E. by repeat case_match. }
    specialize (IH (cut_short babo c c') m1 d1). destruct (bus_run m0 _ l m1 d1) as [[cs m'] d'].
    destruct IH as (rs & Hsv & Hok & HR & Hm). exists (r :: rs).
    cbn [serve_all resp_fields_all resp_all_ok decoded]. rewrite Hs. cbn [mbind option_bind].
    rewrite Hq, Ha, Hsv. cbn [andb mbind option_bind]. unfold fetched.
    destruct (fetch_data m c r) as [c1 m2]. simplify_eq. destruct (decoded m2 l rs) as [cs' m3]. simpl in HR.
    split_and!; try done. constructor; [apply answered_checked|done].
Qed.
End Serve.

(** ** Lemmas: frames and packets *)

Lemma parse_all_ok n : ∀ s rs k, parse_requests n s = Some rs → (n <= k)%nat → parse_all k s = Some rs.
Proof.
  induction n as [|n IH]; intros s rs k H Hk; cbn [parse_requests] in H.
  { destruct k; cbn [parse_all]; by destruct s.2. }
  destruct k as [|k]; [lia|]. cbn [parse_all]. destruct (parse_request s) as [[r s1]|] eqn:E; [|done].
  cbn [mbind option_bind] in *. destruct (parse_requests n s1) as [rs1|] eqn:E1; [|done].
  rewrite (IH s1 rs1 k) by (done || lia). destruct s.2 eqn:Es; [|done].
  unfold parse_request, p8 in E. by rewrite Es in E.
Qed.
Lemma length_request_fields m l c : (length l <= length (fields_bytes c (concat (map (req_fields m) l))))%nat.
Proof.
  revert c. induction l as [|x l IH]; intros c; cbn [map concat length]; [lia|].
  rewrite fields_bytes_app'. rewrite length_app.
  assert (1 <= length (fields_bytes c (req_fields m x)))%nat by (unfold req_fields; simpl; lia).
  specialize (IH (crc_after c (req_fields m x))). lia.
Qed.
Lemma core_request_ok {P} (cnn : RlinkConnect P) l1 : Forall cmd_wf l1 →
  core_request (request_frame cnn l1) = Some (map (request_of (memory cnn)) l1).
Proof.
  intros Hw. unfold core_request, request_frame. set (pkt := fields_bytes _ _).
  rewrite <- (app_nil_r (frame _ _)), rx_run_frame by done. cbn [fst rx_state update].
  change (rx_pkt _) with pkt. apply (parse_all_ok (length l1)); [|apply length_request_fields].
  by apply (parse_requests_ok (memory cnn) l1 RlinkCrc16_ctor).
Qed.

Lemma length_resp_all l : ∀ rs c, Forall cmd_wf l → resp_all_ok l rs →
  (length (fields_bytes c (resp_fields_all l rs)) <= sum_list (map rcv_size l))%nat.
Proof.
  induction l as [|x l IH]; intros [|r rs] c Hw Hr; try (simpl; lia).
  apply Forall_cons_iff in Hw as [Hx Hw]. destruct Hr as [Hr1 Hr]. cbn [resp_fields_all map].
  rewrite fields_bytes_app'. rewrite length_app, (length_resp x r c Hx Hr1). simpl sum_list.
  destruct (aborts x r); [simpl; lia|]. specialize (IH rs (crc_after c (resp_fields x r)) Hw Hr). lia.
Qed.
Lemma resp_all_u8 l : ∀ rs c, Forall cmd_wf l → resp_all_ok l rs →
  Forall is_u8 (fields_bytes c (resp_fields_all l rs)).
Proof.
  intros rs c Hw Hr. apply fields_bytes_u8. revert rs Hr.
  induction Hw as [|x l Hx Hw IH]; intros [|r rs] Hr; try done.
  destruct Hr as [[H1 H2 H3 H4 H5 H6] Hr]. cbn [resp_fields_all]. apply Forall_app. split.
  - pose proof (wf_request x Hx). unfold resp_fields. revert H1.
    destruct (command_cases x Hx) as [E|[E|[E|[E|[E|[E|E]]]]]]; unfold_fields E; intros H1;
      repeat (constructor; try done); apply (u16_range (Z.of_nat (BlockSize x))).
  - destruct (aborts x r); [done|]. by apply IH.
Qed.

(** *** Pieces *)

Lemma pieces_concat n : ∀ bs, (length bs <= n)%nat → concat (pieces n bs) = bs.
Proof.
  induction n as [|n IH]; intros [|b bs] H; try done; [simpl in H; lia|].
  cbn [pieces concat]. rewrite IH, take_drop; [done|]. rewrite length_drop. unfold RawBufSize. simpl in *. lia.
Qed.
Lemma pieces_ok n : ∀ bs, Forall is_u8 bs → Forall chunk_ok (pieces n bs).
Proof.
  induction n as [|n IH]; intros [|b bs] H; try done. cbn [pieces]. constructor; [|by apply IH, Forall_drop].
  split; [|by apply Forall_take]. rewrite length_take. simpl length. unfold RawBufSize. lia.
Qed.
Lemma pieces_length n : ∀ bs, (length (pieces n bs) <= n)%nat.
Proof. induction n as [|n IH]; intros [|b bs]; simpl; try lia. apply le_n_S, IH. Qed.

(** ** The contract *)

Section Laws.
Context {D : Type} `{!Rbus D, !BusWidths D, !Inhabited D}.
Notation Link := (RlinkLink (CorePort D)).

(** Reads that are enough for the response to a list. *)
Definition enough (l : RlinkCommandList) : nat := (2 * sum_list (map rcv_size (fList l)) + 4)%nat.
Definition core_dev (s : Link) : D := from_option cr_dev inhabitant (fupPort (lk_cn s)).
(** The link is up: the connection is, its timeout is a second at least, and
    the bound on reads is enough. *)
Definition core_up (s : Link) : Prop :=
  (∃ d now, link_up (lk_cn s) [] d now) ∧ 0 < tv_sec (fTimeout (lk_cn s)) ∧ ∀ l, (enough l <= lk_fuel s l)%nat.
Definition core_same (s s' : Link) : Prop := fRbufSize (lk_cn s') = fRbufSize (lk_cn s) ∧ (core_up s → core_up s').

Lemma sum_rcv_size cnn cntx (l : list RlinkCommand) :
  sum_list (map rcv_size (sent (P := CorePort D) cnn cntx l)) = sum_list (map rcv_size l).
Proof.
  unfold sent. rewrite map_mark_ends by done. generalize (fSeqNumber cnn). induction l as [|c l IH]; intros sq; [done|].
  cbn [map assign sum_list]. rewrite IH. f_equal. unfold rcv_size. rewrite Command_encoded.
  unfold prepared. by destruct (negb _).
Qed.
Lemma sum_rcv_bound l : Forall cmd_wf l → Z.of_nat (sum_list (map rcv_size l)) <= 140000 * Z.of_nat (length l).
Proof.
  induction 1 as [|c l Hw _ IH]; [done|]. cbn [map length].
  change (sum_list (?x :: ?l)) with (x + sum_list l)%nat.
  assert (Z.of_nat (rcv_size c) <= 140000).
  { pose proof (wf_size c Hw) as Hs. unfold rcv_size. destruct (Z.eqb_spec (Command c) kCmdRblk) as [E|_].
    - specialize (Hs (or_introl E)). lia.
    - repeat case_match; lia. }
  lia.
Qed.
Lemma sent_alike (cnn : RlinkConnect (CorePort D)) cntx l : Forall2 answered l (sent cnn cntx l).
Proof.
  unfold sent, mark_ends. do 2 (apply Forall2_alter_r; [|done]).
  generalize (fSeqNumber cnn). induction l as [|c l IH]; intros sq; cbn [map assign]; constructor; [|apply IH].
  unfold answered. rewrite Command_encoded. unfold prepared. by destruct (negb _).
Qed.
Lemma alike_code l l' : Forall2 answered l l' → forallb bus_code l' = forallb bus_code l.
Proof. induction 1 as [|c c' l l' [H _] _ IH]; simpl; [done|]. unfold bus_code at 1. by rewrite H, IH. Qed.

(** The reply of the core is the response of the bus. *)
Lemma core_answers (cnn : RlinkConnect (CorePort D)) cntx l (d : D) :
  Forall cmd_wf l → forallb bus_code l = true →
  let l1 := sent cnn cntx l in
  let '(cs, m, d') := bus_run (memory cnn) false l (memory cnn) d in
  ∃ rs, core_step (request_frame cnn l1) d = Some (fields_bytes RlinkCrc16_ctor (resp_fields_all l1 rs), d') ∧
    resp_all_ok l1 rs ∧ Forall2 answered cs (decoded (memory cnn) l1 rs).1 ∧ (decoded (memory cnn) l1 rs).2 = m.
Proof.
  intros Hw Hb l1. pose proof (sent_alike cnn cntx l) as Ha. fold l1 in Ha.
  assert (Hw1 : Forall cmd_wf l1) by (by apply sent_wf).
  pose proof (bus_run_alike (memory cnn) l l1 Ha false (memory cnn) d) as Hrun.
  destruct (bus_run (memory cnn) false l (memory cnn) d) as [[cs m] d']. destruct Hrun as (cs1 & Hrun & HR).
  pose proof (serve_all_ok (memory cnn) l1 Hw1 (eq_trans (alike_code _ _ Ha) Hb) false (memory cnn) d) as Hs.
  rewrite Hrun in Hs. destruct Hs as (rs & Hs & Hok & HR2 & Hm). exists rs.
  unfold core_step. rewrite core_request_ok by done. cbn [mbind option_bind]. rewrite Hs. cbn [mbind option_bind].
  split_and!; [done|done|by etrans|done].
Qed.

(** The link stays up. *)
Lemma core_stays_up (s s' : Link) d now d' now' :
  link_up (lk_cn s) [] d now → settings (lk_cn s') = settings (lk_cn s) → lk_fuel s' = lk_fuel s →
  fupPort (lk_cn s') = Some (mkCorePort [] d' now') → ready (fRcvPkt (lk_cn s')) → core_same s s'.
Proof.
  intros [_ [Hq1 Hq2] _ Ht] Hset Hf Hp Hr. unfold settings in Hset. injection Hset as Hs Hl Hto Hb _.
  split; [done|]. intros (_ & Ht0 & Hf0). split; [|by rewrite Hto, Hf].
  exists d', now'. split; [done| |done|by rewrite Hto].
  unfold quiet, ServerActive in *. by rewrite Hs, Hl.
Qed.

(** The commands stay well-formed. *)
Lemma decoded_wf l : ∀ rs m, Forall cmd_wf l → resp_all_ok l rs → Forall cmd_wf (decoded m l rs).1.
Proof.
  assert (Hch : ∀ m x, cmd_wf x → cmd_wf (checked m x)).
  { intros m x H. unfold checked, add_flag. repeat case_match; repeat apply SetFlagBit_init_wf; done. }
  induction l as [|x l IH]; intros rs m Hw Hok; [by destruct rs|].
  destruct rs as [|r rs]; [done|]. apply Forall_cons_iff in Hw as [Hx Hw]. destruct Hok as [Hr Hok].
  destruct (fetched_wf m x r Hx Hr) as (H1 & _). cbn [decoded]. destruct (fetched m x r) as [x' m'].
  destruct (aborts x r).
  - constructor; [by apply Hch|]. apply Forall_map. eapply list.Forall_impl; [exact Hw|].
    intros y Hy. by apply SetFlagBit_init_wf.
  - specialize (IH rs m' Hw). destruct (decoded m' l rs) as [cs m2]. simpl in *. constructor; [by apply Hch|]. tauto.
Qed.
(** One call of [Exec]. *)
Lemma core_exec (l : RlinkCommandList) (s : Link) : core_up s → list_ok l →
  let '(cs, m, d) := bus_run (memory (lk_cn s)) false (fList l) (memory (lk_cn s)) (core_dev s) in
  ∃ em cntx o, Exec (lk_fuel s l) (lk_cntx s) (mkOnList (lk_cn s) l) = (Ret ((true, em), cntx), o) ∧
    Forall2 answered cs (fList (cl o)) ∧ Forall cmd_wf (fList (cl o)) ∧
    let s' := s <| lk_cn := cn o |> <| lk_cntx := cntx |> in
    memory (lk_cn s') = m ∧ core_dev s' = d ∧ core_same s s'.
Proof.
  intros ((d & now & Hup) & Ht & Hf) [Hne Hw Hb Hlen].
  set (l1 := sent (lk_cn s) (lk_cntx s) (fList l)).
  pose proof (core_answers (lk_cn s) (lk_cntx s) (fList l) d Hw Hb) as Hans.
  assert (Hd : core_dev s = d) by (unfold core_dev; by rewrite (lu_port _ _ _ _ Hup)). rewrite Hd.
  destruct (bus_run (memory (lk_cn s)) false (fList l) (memory (lk_cn s)) d) as [[cs m] d'].
  destruct Hans as (rs & Hstep & Hok & HR & Hm). fold l1 in Hstep, Hok, HR, Hm.
  set (pkt := fields_bytes _ _) in Hstep.
  assert (Hw1 : Forall cmd_wf l1) by (by apply sent_wf).
  pose proof (length_resp_all l1 rs RlinkCrc16_ctor Hw1 Hok) as Hl. fold pkt in Hl.
  unfold l1 in Hl. rewrite sum_rcv_size in Hl.
  assert (Hre : core_reply (request_frame (lk_cn s) l1) d = pieces (length (frame false pkt)) (frame false pkt)).
  { unfold core_reply. by rewrite Hstep. }
  pose proof (length_frame false pkt) as Hfl.
  edestruct (Exec_ok (P := CorePort D) (X := D) (lk_fuel s l) (lk_cn s) l (lk_cntx s) []
    (core_reply (request_frame (lk_cn s) l1) d) d now [] rs) as (em & o & He & Hex); try done.
  - constructor.
  - rewrite Hre. split; [apply pieces_ok, frame_u8; by apply resp_all_u8|cbn; lia|done].
  - pose proof (sum_rcv_bound _ Hw). fold l1 pkt. lia.
  - by rewrite Hre, pieces_concat.
  - rewrite Hre. etrans; [apply pieces_length|]. etrans; [|apply Hf]. unfold enough. lia.
  - eexists em, _, o. split; [exact He|]. destruct Hex as [E1 E2 (now' & E3) E4 E5 E6].
    fold l1 in E1, E2, E3. split; [by rewrite E1|]. split; [rewrite E1; by apply decoded_wf|]. cbn zeta. split_and!; [by rewrite <- Hm, <- E2| |].
    + unfold core_dev. simpl lk_cn. rewrite E3. change (core_after (request_frame (lk_cn s) l1) d = d').
      unfold core_after. by rewrite Hstep.
    + eapply core_stays_up; [exact Hup|exact E6|done|exact E3|exact E5].
Qed.

#[export] Instance Link_laws : LinkLaws Link D.
Proof.
  refine {| dev := core_dev; link_ok := core_up; same_link := core_same |}.
  - split; [by intros s|]. intros s1 s2 s3 [H1 H2] [H3 H4]. split; [congruence|auto].
  - intros s s' [_ H] Hs. by apply H.
  - intros s s' [H _]. simpl. unfold BlockSizeMax, BlockSizePrudent. by rewrite H.
  - intros m s. split_and!; [done|done|split; [done|]].
    intros ((d & now & Hup) & Ht & Hf). split; [|done]. exists d, now. by destruct Hup.
  - intros l s Hup Hl. pose proof (core_exec l s Hup Hl) as H. simpl srv_mem.
    destruct (bus_run (memory (lk_cn s)) false (fList l) (memory (lk_cn s)) (core_dev s)) as [[cs m] d].
    destruct H as (em & cntx & o & He & Ha & Hw & Hm & Hd & Hs). eexists em, _, _.
    split; [|split; [exact Ha|split_and!; [exact Hw|exact Hm|exact Hd|exact Hs]]].
    simpl srv_exec. unfold Server_Exec, on_connect. by rewrite He.
  - intros l s Hup Hl. pose proof (core_exec l s Hup Hl) as H. simpl srv_mem.
    destruct (bus_run (memory (lk_cn s)) false (fList l) (memory (lk_cn s)) (core_dev s)) as [[cs m] d].
    destruct H as (em & cntx & o & He & Ha & Hw & Hm & Hd & Hs). eexists _, _.
    split; [|split; [exact Ha|split_and!; [exact Hw|exact Hm|exact Hd|exact Hs]]].
    simpl srv_exec_throw. unfold Server_Exec_throw, on_connect, Exec_throw.
    rewrite (bind_Ret _ _ _ cntx o); [done|]. by rewrite (bind_Ret _ _ _ _ _ He).
Defined.
End Laws.

Lemma answered_map cs cs' : Forall2 answered cs cs' → map fData cs' = map fData cs ∧ map fStatus cs' = map fStatus cs.
Proof.
  induction 1 as [|c c' cs cs' (_ & _ & Hd & Hs & _) _ [IH1 IH2]]; simpl; [done|]. by rewrite Hd, Hs, IH1, IH2.
Qed.

(** A link that is up, over a core with device [d]. *)
Definition core_link {D} (d : D) : RlinkLink (CorePort D) :=
  mkLink (RlinkConnect_ctor <| fupPort := Some (mkCorePort [] d 0) |>) RlinkContext_ctor enough.
Lemma core_link_is_up {D} `{!Rbus D} (d : D) : core_up (core_link d).
Proof.
  split; [|by split].
  exists d, 0. split; [done|by split; vm_compute|apply ready_ctor|done].
Qed.

(** C2: The link is the bus.  Over a port with an rlink core behind it, a call of
    the server's [Exec] returns, and has the effect of the accesses of the list
    on the bus of the core, in order: the commands hold the data, block counts
    and status of their accesses, blocks are in the memory of the caller, a list
    abort ends the list, and the link is up for the next call.  Encoding, frame
    escapes, checksums, chunked reading and decoding cancel out.  The data of a
    block write is taken when the list is sent: a block read of the same list
    into the same memory is not seen by it. *)
Theorem Server_Exec_is_bus {D} `{!Rbus D, !BusWidths D, !Inhabited D} (l : RlinkCommandList)
    (s : RlinkLink (CorePort D)) :
  core_up s → list_ok l →
  let m0 := memory (lk_cn s) in
  let '(cs, m, d) := bus_run m0 false (fList l) m0 (core_dev s) in
  ∃ em l' s', Server_Exec l s = (Ret ((true, em), l'), s') ∧ Forall2 answered cs (fList l') ∧
    memory (lk_cn s') = m ∧ core_dev s' = d ∧ core_up s'.
Proof.
  intros Hup Hl m0. pose proof (core_exec l s Hup Hl) as H. fold m0 in H.
  destruct (bus_run m0 false (fList l) m0 (core_dev s)) as [[cs m] d].
  destruct H as (em & cntx & o & He & Ha & _ & Hm & Hd & Hs). eexists em, _, _.
  split; [|split; [exact Ha|split_and!; [exact Hm|exact Hd|by apply Hs]]].
  unfold Server_Exec, on_connect. by rewrite He.
Qed.

(** A register, a block read and a block write on a device of one word. *)
#[local] Instance word_bus : Rbus Z := {
  rb_read a d := if a =? 0 then ((0, u16 d), d) else ((kStat_M_RbNak, 0), d);
  rb_write a v d := if a =? 0 then (0, v) else (kStat_M_RbNak, d);
  rb_fill _ := 0;
  rb_attn d := ((0, 0), d);
  rb_stat _ := 0 }.
#[local] Instance word_widths : BusWidths Z.
Proof.
  split; try done.
  - intros a d. simpl. pose proof (u16_range d). by destruct (a =? 0).
  - intros a v d. simpl. by destruct (a =? 0).
Qed.
Definition word_list : RlinkCommandList := build
  [B_add (S_wreg 0 7); B_add (S_rblk_ext 0 (Some 100) 2); B_add (S_wblk_ext 0 (Some 101) 1);
   B_add (S_rreg 0); B_add (S_rblk 1 2); B_add S_labo; B_add (S_wreg 0 9)].
Lemma Server_Exec_is_bus_witness : ∃ em l' s',
  Server_Exec word_list (core_link 3) = (Ret ((true, em), l'), s') ∧
  map fData (fList l') = [7; 0; 0; 0; 0; 1; 9] ∧ map fStatus (fList l') = [0; 0; 0; 0; kStat_M_RbNak; 0; 0] ∧
  mem_get (memory (lk_cn s')) 100 2 = [7; 7] ∧ core_dev s' = 0.
Proof.
  assert (Hl : list_ok word_list).
  { split; [done| |done|done]. apply build_wf. repeat constructor; by vm_compute. }
  pose proof (Server_Exec_is_bus word_list (core_link 3) (core_link_is_up 3) Hl) as H.
  cbv zeta in H. revert H. set (b := bus_run _ _ _ _ _). vm_compute in b. unfold b.
  intros (em & l' & s' & He & Ha & Hm & Hd & _). exists em, l', s'. split; [exact He|].
  destruct (answered_map _ _ Ha) as [-> ->]. rewrite Hm, Hd. split_and!; vm_compute; reflexivity.
Defined.
