(* ===== verification/RdmaSpec.v ===== *)
(** * Disk transfers move the right words

    A disk transfer, cut into chunks by the actions of the server, stores the
    words of the disk blocks in the memory of the cpu, or the words of memory in
    the blocks, padded to full blocks, or compares them; it stops at the end of
    memory, and the controller is told.  The theorems hold for every cpu port
    ([CpuBus]), every link ([LinkLaws]), every disk container ([VirtDiskSpec])
    and every controller whose callbacks leave the transfer alone
    ([RdmaClient]). *)

From S2P Require Import Prelude.
From S2P Require Import Rstats.
From S2P Require Import AddrMap.
From S2P Require Import Command.
From S2P Require Import CommandList.
From S2P Require Import Connect.
From S2P Require Import Link.
From S2P Require Import LinkCore.
From S2P Require Import Server.
From S2P Require Import FileFd.
From S2P Require Import VirtDisk.
From S2P Require Import UnitDisk.
From S2P Require Import Cpu.
From S2P Require Import CpuMem.
From S2P Require Import Rdma.

Open Scope Z_scope.

(** ** The abstract state of a transfer *)

Record View (A : Type) := mkView {
  v_rdma : Rw11Rdma;              (** without counters *)
  v_disk : option Rw11RdmaDisk;
  v_acts : list A;
  v_port : CpPort;
  v_mem : Mem }.
Arguments mkView {A}.
Arguments v_rdma {A} _. Arguments v_disk {A} _. Arguments v_acts {A} _. Arguments v_port {A} _.
Arguments v_mem {A} _.
#[export] Instance eta_View {A} : Eta (View A) := λ v,
  mkView (v_rdma v) (v_disk v) (v_acts v) (v_port v) (v_mem v).

Section View.
Context {S D V H A C : Type}.
Context `{!RlinkExec S, !Rbus D, !LinkLaws S D, !CpuBus D, !VirtDiskOps V, !VirtDiskSpec V}.
Notation Sys := (Rw11Sys S V H A C).

Definition view (t : Sys) : View A :=
  mkView (sy_rdma t <| fStats := Rstats_ctor |>) (sy_disk t) (fActnList (sy_srv t))
    (cport (sy_cpu t)) (srv_mem (sy_link t)).

(** Unit [i] has a disk with blocks [f] of [bs] bytes. *)
Definition disk_is (t : Sys) (i : nat) (bs : Z) (f : Z → list Z) : Prop :=
  ∃ u v, sy_units t !! i = Some u ∧ fupVirt u = Some v ∧ ufBlksize u = bs ∧ vd_ok v ∧ vd_bs v = bs ∧
    ∀ b, 0 <= b → vd_block v b = f b.

(** From [t] to [t'] the view changes as [g] says, and the disks do not. *)
Definition step (g : View A → View A) (t t' : Sys) : Prop :=
  view t' = g (view t) ∧ moved (sy_cpu t) (sy_cpu t') ∧
  ∀ i bs f, disk_is t i bs f → disk_is t' i bs f.

Lemma step_trans g1 g2 t1 t2 t3 : step g1 t1 t2 → step g2 t2 t3 → step (λ v, g2 (g1 v)) t1 t3.
Proof.
  intros (H1 & Hm1 & Hd1) (H2 & Hm2 & Hd2). split_and!; [by rewrite H2, H1|by eapply moved_trans|auto].
Qed.
Lemma step_eq g g' t t' : step g t t' → g (view t) = g' (view t) → step g' t t'.
Proof. intros (H1 & H2) E. split; [by rewrite H1|done]. Qed.
Lemma step_id (t : Sys) : step (λ v, v) t t.
Proof. split_and!; [done|apply moved_refl|done]. Qed.

(** What the transfer itself leaves alone: the fields of the controller and the
    geometry of the units; an empty unit stays empty, and a disk in order
    stays in order. *)
Definition keeps (o o' : option V) : Prop :=
  match o with
  | None => o' = None
  | Some v => vd_ok v → ∃ v', o' = Some v' ∧ vd_ok v' ∧ vd_bs v' = vd_bs v
  end.
Record kept (us us' : list (Rw11UnitDisk V)) (d d' : option Rw11RdmaDisk) : Prop := {
  kp_unit i u : us !! i = Some u → ∃ v, us' !! i = Some (u <| fupVirt := v |>) ∧ keeps (fupVirt u) v;
  kp_disk : is_Some d' ↔ is_Some d }.
Definition frame (t t' : Sys) : Prop :=
  sy_client t' = sy_client t ∧ moved (sy_cpu t) (sy_cpu t') ∧ kept (sy_units t) (sy_units t') (sy_disk t) (sy_disk t').
Definition estep (g : View A → View A) (t t' : Sys) : Prop := step g t t' ∧ frame t t'.

Lemma keeps_refl o : keeps o o.
Proof. destruct o as [v|]; [|done]. intros Hv. by exists v. Qed.
Lemma keeps_trans o1 o2 o3 : keeps o1 o2 → keeps o2 o3 → keeps o1 o3.
Proof.
  destruct o1 as [v1|]; simpl; [|intros ->; done]. intros H1 H2 Hv.
  destruct (H1 Hv) as (v2 & -> & Hv2 & E2). destruct (H2 Hv2) as (v3 & -> & Hv3 & E3). exists v3. by rewrite E3.
Qed.
Lemma units_refl (t : Sys) : kept (sy_units t) (sy_units t) (sy_disk t) (sy_disk t).
Proof. split; [|done]. intros i u H1. exists (fupVirt u). rewrite H1. split; [by destruct u|apply keeps_refl]. Qed.
Lemma kept_trans us1 us2 us3 d1 d2 d3 : kept us1 us2 d1 d2 → kept us2 us3 d2 d3 → kept us1 us3 d1 d3.
Proof.
  intros [Hu1 Hd1] [Hu2 Hd2]. split; [|by rewrite Hd2].
  intros i u Hu. destruct (Hu1 i u Hu) as (v & Hv & Hn). apply Hu2 in Hv as (v' & Hv' & Hn'). exists v'.
  split; [done|]. by eapply keeps_trans.
Qed.
(** A disk is replaced. *)
Lemma kept_insert us (d : option Rw11RdmaDisk) i u v' : us !! i = Some u → keeps (fupVirt u) v' →
  kept us (<[i := u <| fupVirt := v' |>]> us) d d.
Proof.
  intros Hu Hk. split; [|done]. intros j uj Huj. destruct (decide (j = i)) as [->|Hne].
  - exists v'. rewrite Hu in Huj. simplify_eq. by rewrite list_lookup_insert_eq by (by eapply lookup_lt_Some).
  - exists (fupVirt uj). rewrite list_lookup_insert_ne by done. rewrite Huj. split; [by destruct uj|apply keeps_refl].
Qed.
Lemma frame_disk t t' i bs f : frame t t' → disk_is t i bs f → ∃ f', disk_is t' i bs f'.
Proof.
  intros (_ & _ & Hk & _) (u & v & Hu & Hv & Hb & Hok & Hvb & _).
  destruct (Hk i u Hu) as (v' & Hu' & Hv'). rewrite Hv in Hv'. destruct (Hv' Hok) as (w & -> & Hw & E).
  exists (vd_block w), (u <| fupVirt := Some w |>), w. split_and!; try done. congruence.
Qed.
Lemma frame_trans t1 t2 t3 : frame t1 t2 → frame t2 t3 → frame t1 t3.
Proof.
  intros (H1 & Hm1 & Hu1) (H2 & Hm2 & Hu2).
  split; [congruence|split; [by eapply moved_trans|by eapply kept_trans]].
Qed.
Lemma estep_trans g1 g2 t1 t2 t3 : estep g1 t1 t2 → estep g2 t2 t3 → estep (λ v, g2 (g1 v)) t1 t3.
Proof. intros [H1 F1] [H2 F2]. split; [by eapply step_trans|by eapply frame_trans]. Qed.
Lemma estep_eq g g' t t' : estep g t t' → g (view t) = g' (view t) → estep g' t t'.
Proof. intros [H1 F1] E. split; [by eapply step_eq|done]. Qed.
Lemma estep_id (t : Sys) : estep (λ v, v) t t.
Proof. split; [apply step_id|]. split_and!; [done|apply moved_refl|exact (units_refl t)]. Qed.

(** Changes of the transfer. *)
Lemma rdma_run f (t : Sys) : rdma f t = (Ret (), t <| sy_rdma ::= f |>).
Proof. done. Qed.
Lemma rdma_step f (t : Sys) :
  (∀ r, f r <| fStats := Rstats_ctor |> = f (r <| fStats := Rstats_ctor |>) <| fStats := Rstats_ctor |>) →
  estep (λ v, v <| v_rdma ::= λ r, f r <| fStats := Rstats_ctor |> |>) t (t <| sy_rdma ::= f |>).
Proof.
  intros Hf. split; [|split_and!; [done|apply moved_refl|exact (units_refl t)]].
  split_and!; [|apply moved_refl|done]. unfold view. simpl. f_equal. apply Hf.
Qed.
Lemma rstat_run ind (t : Sys) : rstat ind t = (Ret (), t <| sy_rdma ::= λ r, r <| fStats ::= inc ind 1 |> |>).
Proof. done. Qed.
Lemma rstat_step ind (t : Sys) : estep (λ v, v) t (t <| sy_rdma ::= λ r, r <| fStats ::= inc ind 1 |> |>).
Proof.
  split; [by split_and!; [|apply moved_refl|]|]. split_and!; [done|apply moved_refl|exact (units_refl t)].
Qed.

Lemma opt_rstat (b : bool) ind (t : Sys) :
  ∃ t', (if b then rstat ind else mret ()) t = (Ret (), t') ∧ estep (λ v, v) t t'.
Proof.
  destruct b; [eexists; split; [apply rstat_run|apply rstat_step]|exists t; split; [done|apply estep_id]].
Qed.

(** ** Lists of commands *)

Lemma Exec_run l (c : Rw11Cpu S) cs m d :
  link_ok (link c) → list_ok l →
  bus_run (srv_mem (link c)) false (fList l) (srv_mem (link c)) (dev (link c)) = (cs, m, d) →
  ∃ l' c', Exec_ l c = (Ret l', c') ∧ Forall2 answered cs (fList l') ∧ ran c c' m d.
Proof.
  intros H1 H2 H4. pose proof (exec_throw_law l (link c) H1 H2) as H'. rewrite H4 in H'.
  destruct H' as (l' & s' & He & Ha & _ & Hm & Hd & Hs).
  exists l', (c <| link := s' |>). unfold Exec_, zoom. rewrite He. split_and!; [done|done|].
  by exists s'.
Qed.
Lemma exec_list_run l (t : Sys) cs m d :
  link_ok (sy_link t) → list_ok l →
  bus_run (srv_mem (sy_link t)) false (fList l) (srv_mem (sy_link t)) (dev (sy_link t)) = (cs, m, d) →
  ∃ l' t', exec_list l t = (Ret l', t') ∧ Forall2 answered cs (fList l') ∧
    estep (λ v, v <| v_port := port d |> <| v_mem := m |>) t t'.
Proof.
  intros H1 H2 H4.
  destruct (Exec_run l (sy_cpu t) cs m d H1 H2 H4) as (l' & c' & He & Ha & s' & -> & Hm & Hd & Hs).
  exists l', (t <| sy_cpu := sy_cpu t <| link := s' |> |>). unfold exec_list, zoom. rewrite He.
  split_and!; [done|done|]. split; [|split_and!; [done|by exists s'|exact (units_refl t)]].
  split_and!; [|by exists s'|done]. unfold view, cport, sy_link. simpl. by rewrite Hd, Hm.
Qed.

(** Commands that only write the registers [ws] of other devices. *)
Definition quiet (ws : list (Z * Z)) (cs : list RlinkCommand) : Prop := ∀ (m0 m : Mem) (d : D), ∃ cs' d',
  bus_run m0 false cs m d = (cs', m, d') ∧ port d' = logged ws (port d).

(** Commands with a block between the register writes and the extension. *)
Definition chunk_cmds (base : Z) (w : bool) (addr mode buf : Z) (n : nat) : list RlinkCommand :=
  [wreg (u16 (base + kCPAL)) (al_of addr); wreg (u16 (base + kCPAH)) (ah_of addr mode);
   (if w then wblk_ext else rblk_ext) (u16 (base + kCPMEMI)) buf n].
Lemma chunk_list_run r n (t : Sys) :
  0 < n <= 65535 → n <= srv_blkmax (sy_link t) →
  chunk_list r n t = (Ret (O, mkCommandList (chunk_cmds (fBase (sy_cpu t)) (fIsWMem r) (fAddr r) (fMode r)
                                              (fpBlock r) (Z.to_nat n)) (-1)), t).
Proof.
  intros Hn Hmax. unfold chunk_list, new_clist. fold (sy_link t) in Hmax.
  assert (Hloop : ∀ add l, blocks_loop add (Z.to_nat n) (srv_blkmax (link (sy_cpu t))) (fpBlock r) n l =
    (add (fpBlock r) (Z.to_nat n) ;; mret ()) l).
  { intros add l. destruct (Z.to_nat n) as [|k] eqn:E; [lia|]. cbn [blocks_loop].
    rewrite (proj2 (Z.leb_gt n 0)) by lia. unfold sy_link in Hmax.
    rewrite (proj2 (Z.ltb_ge _ n)) by lia. rewrite E. unfold mbind, M_bind.
    destruct (add (fpBlock r) (Datatypes.S k) l) as [[x|e|] l']; [|done|done].
    rewrite Z.sub_diag. by destruct k. }
  destruct (fIsWMem r) eqn:Ew; [unfold AddWMem|unfold AddRMem]; unfold AddMem, throw_if;
    rewrite (proj2 (Z.ltb_ge _ n)) by exact Hmax; cbn [andb]; autorewrite with run;
    unfold AddLalh; autorewrite with run;
    rewrite (bind_Ret _ _ _ _ _ (AddWreg_run _ _ _)); autorewrite with run;
    rewrite (bind_Ret _ _ _ _ _ (AddWreg_run _ _ _)); autorewrite with run;
    unfold mbind at 1, M_bind at 1; rewrite Hloop.
  - unfold mbind at 1, M_bind at 1. by rewrite AddWblk_ext_run by lia.
  - unfold mbind at 1, M_bind at 1. by rewrite AddRblk_ext_run by lia.
Qed.

(** *** The effect of a chunk *)

Definition addressed (addr mode : Z) (p : CpPort) : CpPort :=
  p <| cp_addr := addr |> <| cp_22bit := Z.testbit mode 6 |> <| cp_ubmap := Z.testbit mode 7 |>.
(** Of [n] words from [addr] on, [k] can be moved: all, or those in the memory. *)
Definition chunk_ok (addr mode : Z) (n k : nat) (p : CpPort) : Prop :=
  0 <= addr < 2 ^ 22 ∧ addr mod 2 = 0 ∧ 0 < Z.of_nat n <= 65535 ∧ idle p ∧
  (k = n ∧ fits (addressed addr mode p) n ∨ (k < n)%nat ∧ cut_at (addressed addr mode p) k).
(** The port behind a chunk with the words [bws]; the registers [ws] of other
    devices are written when the chunk is complete. *)
Record chunk_out (w : bool) (addr : Z) (bws : list Z) (n k : nat) (ws : list (Z * Z)) (p p' : CpPort) : Prop := {
  co_mem : cp_mem p' = if w then mput addr (take k bws) (cp_mem p) else cp_mem p;
  co_size : cp_size p' = cp_size p;
  co_log : cp_log p' = cp_log p ++ (if (k =? n)%nat then ws else []);
  co_idle : k = n → idle p' }.
(** The memory of the caller. *)
Definition chunk_mem (w : bool) (addr buf : Z) (n k : nat) (p : CpPort) (m m' : Mem) : Prop :=
  if w then m' = m
  else ∃ fill, length fill = (n - k)%nat ∧ m' = mem_put buf (mwords (cp_mem p) addr k ++ fill) m.
(** Nothing of an extension is executed behind a block that was cut short. *)
Definition aborts (cs : list RlinkCommand) : Prop := ∀ (m0 m : Mem) (d : D), ∃ cs', bus_run m0 true cs m d = (cs', m, d).

Lemma chunk_read addr mode n k (d2 : D) p : port d2 = addressed addr mode p → chunk_ok addr mode n k p →
  ∃ st d3, bus_rblk (u16 (cp_base + kCPMEMI)) n 0 d2 = ((mwords (cp_mem p) addr k, st), d3) ∧
    failed p (port d3) ∧ (k = n → idle (port d3)).
Proof.
  intros Hp2 (_ & _ & Hn & Hi & [[-> Hf]|[Hk Hc]]); rewrite <- Hp2 in *.
  - destruct (rblk_fits n d2 0 Hf eq_refl) as (st & d3 & H3 & _ & [->|Hp3]); [simpl in Hn; lia|].
    exists st, d3. by rewrite H3, Hp3, Hp2.
  - destruct (rblk_cut k n d2 0 Hk Hc) as (st & d3 & H3 & Hf). exists st, d3.
    rewrite H3. rewrite Hp2 in *. split_and!; [done|done|lia].
Qed.
Lemma chunk_write addr mode n k bws (d2 : D) p : port d2 = addressed addr mode p → chunk_ok addr mode n k p →
  length bws = n → Forall is_u16 bws →
  ∃ st d3, bus_wblk (u16 (cp_base + kCPMEMI)) bws 0 d2 = ((k, st), d3) ∧
    failed (p <| cp_mem ::= mput addr (take k bws) |>) (port d3) ∧ (k = n → idle (port d3)).
Proof.
  intros Hp2 (_ & _ & Hn & Hi & Hc) Hlen Hw. assert (Hi2 : idle (port d2)) by (by rewrite Hp2).
  destruct Hc as [[-> Hf]|[Hk Hc]]; rewrite <- Hp2 in *.
  - rewrite <- Hlen in Hf. destruct (wblk_fits bws d2 0 Hf Hi2 Hw eq_refl) as (st & d3 & H3 & _ & [[-> _]|Hp3]); [simpl in Hlen; lia|].
    exists st, d3. by rewrite H3, Hp3, Hp2, Hlen, take_ge by lia.
  - rewrite <- Hlen in Hk. destruct (wblk_cut k bws d2 0 Hk Hc Hi2 Hw) as (st & d3 & H3 & Hf). exists st, d3.
    rewrite H3. rewrite Hp2 in *. split_and!; [done|done|lia].
Qed.

Lemma chunk_bus w addr mode buf n k ws extra m (d : D) :
  chunk_ok addr mode n k (port d) → quiet ws extra → aborts extra →
  ∃ c1 c2 c3 cs m' d1 d', bus_run m false (chunk_cmds cp_base w addr mode buf n ++ extra) m d = (c1 :: c2 :: c3 :: cs, m', d') ∧
    fBlockDone c3 = k ∧ chunk_out w addr (mem_get m buf n) n k ws (port d) (port d') ∧
    chunk_mem w addr buf n k (port d) m m' ∧ bus_run m (negb (k =? n)%nat) extra m' d1 = (cs, m', d').
Proof.
  intros Hok Hq Hab. pose proof Hok as (Ha & He & Hn & Hi & Hc). unfold chunk_cmds. cbn [app].
  destruct (write_lalh addr mode d Ha He) as (st1 & d1 & st2 & d2 & H1 & Hs1 & H2 & Hs2 & Hp2).
  change (port d2 = addressed addr mode (port d)) in Hp2.
  rewrite bus_wreg, H1, bus_wreg, H2.
  assert (Hext : ∀ m' (d3 : D), ∃ cs d', bus_run m (negb (k =? n)%nat) extra m' d3 = (cs, m', d') ∧
    port d' = if (k =? n)%nat then logged ws (port d3) else port d3).
  { intros m' d3. destruct (k =? n)%nat; [by apply Hq|]. destruct (Hab m m' d3) as (cs & Hcs). by exists cs, d3. }
  assert (Hout : ∀ bws (d3 d' : D), failed (port d <| cp_mem ::= (if w then mput addr (take k bws) else λ m, m) |>) (port d3) →
      (k = n → idle (port d3)) → port d' = (if (k =? n)%nat then logged ws (port d3) else port d3) →
      chunk_out w addr bws n k ws (port d) (port d')).
  { intros bws d3 d' (F1 & F2 & F3) Hid ->. split.
    - transitivity (cp_mem (port d3)); [by destruct (k =? n)%nat|]. rewrite F1. by destruct w.
    - transitivity (cp_size (port d3)); [by destruct (k =? n)%nat|]. by rewrite F2.
    - destruct (k =? n)%nat; [|by rewrite F3, app_nil_r]. change (cp_log (port d3) ++ ws = cp_log (port d) ++ ws). by rewrite F3.
    - intros E. specialize (Hid E). by destruct (k =? n)%nat. }
  destruct w.
  - destruct (chunk_write addr mode n k (mem_get m buf n) d2 (port d) Hp2 Hok) as (st3 & d3 & H3 & Hf & Hid);
      [apply length_mem_get|apply mem_get_u16|].
    destruct (Hext m d3) as (cs & d' & Hcs & Hp').
    rewrite bus_wblk_ext, H3. cbn beta iota zeta. rewrite Hcs. eexists _, _, _, cs, m, d3, d'. split; [reflexivity|].
    split; [apply Nat2Z.id|]. split; [by eapply Hout|]. by split.
  - destruct (chunk_read addr mode n k d2 (port d) Hp2 Hok) as (st3 & d3 & H3 & Hf & Hid).
    rewrite bus_rblk_ext, H3. cbn beta iota zeta. rewrite length_mwords.
    set (m' := mem_put buf (mwords (cp_mem (port d)) addr k ++ replicate (n - k) (rb_fill d2)) m).
    destruct (Hext m' d3) as (cs & d' & Hcs & Hp'). rewrite Hcs.
    eexists _, _, _, cs, m', d3, d'. split; [reflexivity|].
    split; [apply Nat2Z.id|]. split; [by eapply Hout|]. split; [|done].
    exists (replicate (n - k) (rb_fill d2)). by rewrite length_replicate.
Qed.

(** [cs'] are the commands [cs] as an execution left them; [babo]: behind a block
    that was cut short. *)
Definition executed (babo : bool) (cs cs' : list RlinkCommand) : Prop := ∃ m0 m (d : D) cs1 d1,
  bus_run m0 babo cs m d = (cs1, m, d1) ∧ Forall2 answered cs1 cs'.
(** An extension of the list of a chunk, which writes the registers [ws]. *)
Definition ext_ok (ws : list (Z * Z)) (extra : list RlinkCommand) : Prop :=
  Forall cmd_wf extra ∧ forallb bus_code extra = true ∧ Z.of_nat (length extra) < 2 ^ 31 ∧ quiet ws extra ∧ aborts extra.

Lemma chunk_cmds_wf base w addr mode buf n :
  0 <= addr < 2 ^ 22 → addr mod 2 = 0 → 0 < Z.of_nat n <= 65535 →
  Forall cmd_wf (chunk_cmds base w addr mode buf n).
Proof.
  intros Ha He Hn. destruct (lalh_bits addr mode Ha He) as (H1 & H2 & _).
  constructor; [apply wreg_wf; auto with w11|]. constructor; [apply wreg_wf; auto with w11|].
  constructor; [|done]. destruct w; [apply wblk_ext_wf|apply rblk_ext_wf]; auto with w11.
Qed.
Lemma exec_chunk w addr mode buf n k ws extra (t : Sys) :
  link_ok (sy_link t) → chunk_ok addr mode n k (v_port (view t)) → ext_ok ws extra →
  ∃ l' t' c3 p' m', exec_list (mkCommandList (chunk_cmds cp_base w addr mode buf n ++ extra) (-1)) t = (Ret l', t') ∧
    fList l' !! 2%nat = Some c3 ∧ fBlockDone c3 = k ∧
    chunk_out w addr (mem_get (v_mem (view t)) buf n) n k ws (v_port (view t)) p' ∧
    chunk_mem w addr buf n k (v_port (view t)) (v_mem (view t)) m' ∧
    estep (λ v, v <| v_port := p' |> <| v_mem := m' |>) t t' ∧ executed (negb (k =? n)%nat) extra (drop 3 (fList l')).
Proof.
  intros Hup Hok (Hw & Hb & Hl & Hq & Hab). pose proof Hok as (Ha & He & Hn & _).
  destruct (chunk_bus w addr mode buf n k ws extra (srv_mem (sy_link t)) (dev (sy_link t)) Hok Hq Hab) as
    (c1 & c2 & c3 & cs & m' & d1 & d' & Hrun & Hd3 & Hp & Hm & Hx).
  set (l := mkCommandList (chunk_cmds cp_base w addr mode buf n ++ extra) (-1)).
  destruct (exec_list_run l t (c1 :: c2 :: c3 :: cs) m' d') as (l' & t' & Hx' & Ha' & Hs); [done| |exact Hrun|].
  { split; unfold l; cbn [fList]; [done| | |].
    - apply Forall_app. split; [by apply chunk_cmds_wf|done].
    - rewrite forallb_app, Hb. by destruct w.
    - rewrite length_app, Nat2Z.inj_add. simpl length at 1. lia. }
  apply Forall2_cons_inv_l in Ha' as (c1' & l1 & _ & Ha' & E1).
  apply Forall2_cons_inv_l in Ha' as (c2' & l2 & _ & Ha' & E2).
  apply Forall2_cons_inv_l in Ha' as (c3' & l3 & Ha3 & Ha' & E3). subst l1 l2.
  exists l', t', c3', (port d'), m'. split; [exact Hx'|]. rewrite E1. split; [done|]. split.
  { destruct Ha3 as (_ & _ & _ & _ & _ & -> & _). exact Hd3. }
  split; [exact Hp|]. split; [exact Hm|]. split; [exact Hs|]. by eexists _, _, d1, cs, d'.
Qed.

(** ** The controller *)

(** The status a chunk starts and ends with; [babo]: not all its words are moved. *)
Inductive chunk_status : status → status → bool → Prop :=
| cs_more : chunk_status kStatusBusy kStatusBusy false
| cs_done : chunk_status kStatusBusyLast kStatusDone false
| cs_fail st0 : st0 = kStatusBusy ∨ st0 = kStatusBusyLast → chunk_status st0 kStatusFailRdma true.
(** What a write check of [nd] words finds: the first difference between disk and
    buffer. *)
Definition disk_bytes (f : Z → list Z) (lba nblk : Z) : list Z := concat (map f (blocks lba nblk)).
Definition mismatch (f : Z → list Z) (lba bsz nd : Z) (ws : list Z) : option Z :=
  first_diff 0 (take (Z.to_nat nd) (pair_words (disk_bytes f lba (blocks_for nd bsz)))) ws.
Definition check_is (t : Sys) (nd : Z) (wc : option Z) : Prop := ∃ d i bsz f,
  sy_disk t = Some d ∧ fpUnit d = Some i ∧ 0 <= fLba d ∧ 0 < bsz ∧ 0 <= nd ∧ disk_is t i (2 * bsz) f ∧
  wc = mismatch f (fLba d) bsz nd (mem_get (v_mem (view t)) (fBuf d) (Z.to_nat nd)).
(** The callbacks of a controller on the way: they leave the transfer alone, and
    the registers [client_pre] may be written fused to the last chunk. *)
Class RdmaChunks (precb : status → Z → Z → RlinkCommandList → M Sys RlinkCommandList)
    (postcb : status → Z → RlinkCommandList → nat → M Sys ()) := {
  client_inv : Sys → Prop;
  client_ext : status → list RlinkCommand → Prop;
  client_pre : Z → list (Z * Z);
  inv_frame t t' : frame t t' → client_inv t → client_inv t';
  precb_law st nd nn l t : client_inv t → ∃ extra t',
    precb st nd nn l t = (Ret (l <| fList ::= λ cs, cs ++ extra |>), t') ∧
    step (λ v, v) t t' ∧ client_inv t' ∧
    ext_ok (if bool_decide (st = kStatusBusyLast) then client_pre (nd + nn) else []) extra ∧ client_ext st extra;
  busy_law nd l ncmd extra t : client_inv t → client_ext kStatusBusy extra →
    executed false extra (drop ncmd (fList l)) → ∃ t',
    postcb kStatusBusy nd l ncmd t = (Ret (), t') ∧ client_inv t' ∧ step (λ v, v) t t' }.
(** The callback at the end of a disk transfer tells the device that it is done by
    the register writes [client_post], which may depend on whether the transfer
    failed, the number of words, and what a write check finds. *)
Class RdmaClient (precb : status → Z → Z → RlinkCommandList → M Sys RlinkCommandList)
    (postcb : status → Z → RlinkCommandList → nat → M Sys ()) `{!RdmaChunks precb postcb} := {
  client_post : bool → Z → option Z → list (Z * Z);
  postcb_law st0 st babo nd wc l ncmd extra t : client_inv t → chunk_status st0 st babo → client_ext st0 extra →
    executed babo extra (drop ncmd (fList l)) → st ≠ kStatusBusy → check_is t nd wc → ∃ t',
    postcb st nd l ncmd t = (Ret (), t') ∧ client_inv t' ∧
    step (λ v, v <| v_port ::= logged (client_post babo nd wc) |>) t t' }.

(** The cpu is set up for the port, and the link is up. *)
Definition up (t : Sys) : Prop := fBase (sy_cpu t) = cp_base ∧ link_ok (sy_link t).
Lemma step_up g (t t' : Sys) : step g t t' → up t → up t'.
Proof.
  intros (_ & (s & E & Hs) & _) [Hb Hl]. split; [by rewrite E|].
  unfold sy_link. rewrite E. by eapply same_link_ok.
Qed.
Lemma step_blk g (t t' : Sys) : step g t t' →
  srv_blkmax (sy_link t') = srv_blkmax (sy_link t) ∧ srv_blkprudent (sy_link t') = srv_blkprudent (sy_link t).
Proof. intros (_ & (s & E & Hs) & _). unfold sy_link. rewrite E. by apply same_link_blk. Qed.

(** A transfer of [size] words of which [done] are moved. *)
Definition xfer (cs : Z) (st : status) (w : bool) (addr mode buf size max done : Z) : Rw11Rdma :=
  mkRdma cs st w (addr + 2 * done) mode max (size - done) done (buf + done) Rstats_ctor.
Lemma xfer_of (t : Sys) r : v_rdma (view t) = r → sy_rdma t = r <| fStats := fStats (sy_rdma t) |>.
Proof. intros <-. simpl. by destruct (sy_rdma t). Qed.
End View.

Section Chunks.
Context {S D V H A C : Type}.
Context `{!RlinkExec S, !Rbus D, !LinkLaws S D, !CpuBus D, !VirtDiskOps V, !VirtDiskSpec V}.
Notation Sys := (Rw11Sys S V H A C).
Context (precb : status → Z → Z → RlinkCommandList → M Sys RlinkCommandList).
Context (postcb : status → Z → RlinkCommandList → nat → M Sys ()).
Context `{!RdmaChunks precb postcb}.

Section Chunk.
Variables (cs : Z) (w : bool) (addr mode buf size max done : Z) (k : nat) (t : Sys).
Hypothesis Hrdma : v_rdma (view t) = xfer cs kStatusBusy w addr mode buf size max done.
Hypothesis Hdone : 0 <= done < size.
Hypothesis Hmax : 0 < max <= 65535 ∧ max <= srv_blkmax (sy_link t).
Hypothesis Haddr : 0 <= addr ∧ addr + 2 * size < 2 ^ 32.
Let n := Z.min (size - done) max.
Let st0 := if n =? size - done then kStatusBusyLast else kStatusBusy.
Let wr := if n =? size - done then client_pre size else [].
Hypothesis Hok : chunk_ok (addr + 2 * done) mode (Z.to_nat n) k (v_port (view t)).
Hypothesis Hbase : up t.
Hypothesis Hinv : client_inv t.

Lemma rdma_chunk_ok : ∃ t' clist extra p' m',
  rdma_chunk precb t = (Ret (n, Z.of_nat k, 3%nat, clist), t') ∧
  chunk_out w (addr + 2 * done) (mem_get (v_mem (view t)) (buf + done) (Z.to_nat n)) (Z.to_nat n) k wr (v_port (view t)) p' ∧
  chunk_mem w (addr + 2 * done) (buf + done) (Z.to_nat n) k (v_port (view t)) (v_mem (view t)) m' ∧
  step (λ v, v <| v_port := p' |> <| v_mem := m' |>
               <| v_rdma := xfer cs st0 w addr mode buf size max (done + Z.of_nat k) |>) t t' ∧
  client_inv t' ∧ client_ext st0 extra ∧ executed (negb (k =? Z.to_nat n)%nat) extra (drop 3 (fList clist)).
Proof.
  assert (Hn : 0 < n <= 65535 ∧ n <= max ∧ n <= size - done) by (unfold n; lia).
  assert (Hkn : (k <= Z.to_nat n)%nat) by (destruct Hok as (_ & _ & _ & _ & [[-> _]|[? _]]); lia).
  pose proof (xfer_of t _ Hrdma) as Hr. set (s0 := fStats (sy_rdma t)) in Hr. clearbody s0.
  unfold rdma_chunk, get_rdma. autorewrite with run. unfold id.
  assert (Hnx : Z.min (fNWordRest (sy_rdma t)) (fNWordMax (sy_rdma t)) = n) by (by rewrite Hr).
  rewrite Hnx. assert (Hre : fNWordRest (sy_rdma t) = size - done) by (by rewrite Hr). rewrite Hre.
  rewrite (bind_Ret _ _ _ _ _ (rstat_run _ t)).
  match goal with |- context [(chunk_list _ _ ≫= _) ?x] => set (t1 := x) end.
  assert (E1 : estep (λ v, v) t t1) by apply rstat_step.
  destruct (step_blk _ _ _ (proj1 E1)) as [Hb1 _].
  rewrite (bind_Ret _ _ _ _ _ (chunk_list_run _ n t1 ltac:(lia) ltac:(rewrite Hb1; lia))).
  rewrite (proj1 (step_up _ _ _ (proj1 E1) Hbase)), Hr. cbn [fIsWMem fAddr fMode fpBlock fNWordDone xfer update].
  set (cmds := chunk_cmds cp_base w (addr + 2 * done) mode (buf + done) (Z.to_nat n)).
  change (CommandList.Size (mkCommandList cmds (-1))) with 3%nat.
  (* the status *)
  assert (H2 : ∃ t2, (if n =? size - done then rdma (λ r, r <| fStatus := kStatusBusyLast |>) else mret ()) t1 =
      (Ret (), t2) ∧ estep (λ v, v <| v_rdma := xfer cs st0 w addr mode buf size max done |>) t t2).
  { unfold st0. destruct (n =? size - done).
    - eexists. split; [apply rdma_run|]. eapply estep_eq.
      { eapply estep_trans; [exact E1|]. by apply rdma_step. }
      cbn [v_rdma update]. f_equal. by rewrite Hrdma.
    - exists t1. split; [done|]. eapply estep_eq; [exact E1|]. rewrite <- Hrdma. by destruct (view t). }
  destruct H2 as (t2 & H2 & E2). rewrite (bind_Ret _ _ _ _ _ H2). autorewrite with run.
  assert (Hst : fStatus (sy_rdma t2) = st0).
  { change (fStatus (v_rdma (view t2)) = st0). destruct E2 as [[-> _] _]. done. }
  rewrite Hst.
  (* the extension *)
  destruct (precb_law st0 done n (mkCommandList cmds (-1)) t2) as (extra & t3 & H3 & E3 & Hinv3 & Hext & Hcl).
  { by eapply inv_frame; [apply E2|]. }
  rewrite (bind_Ret _ _ _ _ _ H3). cbn [fList update].
  destruct (opt_rstat (negb (CommandList.Size (mkCommandList (cmds ++ extra) (-1)) =? 3)%nat) kStatNExtClist t3)
    as (t4 & H4 & E4).
  rewrite (bind_Ret _ _ _ _ _ H4).
  assert (E24 : step (λ v, v <| v_rdma := xfer cs st0 w addr mode buf size max done |>) t t4).
  { eapply (step_trans _ (λ v, v)); [|apply E4]. eapply (step_trans _ (λ v, v)); [apply E2|exact E3]. }
  (* the execution *)
  assert (Hwr : (if bool_decide (st0 = kStatusBusyLast) then client_pre (done + n) else []) = wr).
  { unfold st0, wr. destruct (Z.eqb_spec n (size - done)) as [E|]; [|done].
    rewrite bool_decide_eq_true_2 by done. rewrite E. f_equal. lia. }
  rewrite Hwr in Hext.
  destruct (exec_chunk w (addr + 2 * done) mode (buf + done) (Z.to_nat n) k wr extra t4) as
    (clist & t5 & c3 & p' & m' & H5 & Hc3 & Hdn & Hp & Hm & E5 & Hx);
    [apply (step_up _ _ _ E24 Hbase)|by destruct E24 as [-> _]|done|].
  assert (Hv4 : v_port (view t4) = v_port (view t) ∧ v_mem (view t4) = v_mem (view t)) by (by destruct E24 as [-> _]).
  destruct Hv4 as [Hv41 Hv42]. rewrite Hv41, Hv42 in *.
  rewrite (bind_Ret _ _ _ _ _ H5). unfold cmd_of, at_ at 1. cbn [Nat.sub].
  unfold mbind at 1, M_bind at 1. rewrite Hc3. autorewrite with run.
  rewrite (bind_Ret _ _ _ _ _ (rdma_run _ t5)), Hdn.
  eexists _, clist, extra, p', m'. split; [reflexivity|].
  assert (E6 : estep (λ v, v <| v_rdma ::= λ r, advance (Z.of_nat k) r <| fStats := Rstats_ctor |> |>) t5
                     (t5 <| sy_rdma ::= advance (Z.of_nat k) |>)) by (by apply rdma_step).
  split; [exact Hp|]. split; [exact Hm|]. split; [|split; [|done]].
  - eapply step_eq; [eapply step_trans; [eapply step_trans; [exact E24|apply E5]|apply E6]|].
    cbn [update setter v_rdma v_port v_mem v_disk v_acts]. f_equal.
    unfold advance, xfer. cbn. rewrite u32_id by (unfold is_u32; lia). f_equal; lia.
  - eapply inv_frame; [|exact Hinv3].
    eapply frame_trans; [apply E4|]. eapply frame_trans; [apply E5|apply E6].
Qed.
End Chunk.

(** *** Behind a chunk *)

Section Finish.
Variables (n k : Z) (ncmd : nat) (clist : RlinkCommandList) (extra : list RlinkCommand) (t : Sys).
Hypothesis Hx : executed (negb (k =? n)) extra (drop ncmd (fList clist)).
Hypothesis Hinv : client_inv t.

Lemma finish_more :
  k = n → fNWordRest (v_rdma (view t)) ≠ 0 → fStatus (v_rdma (view t)) = kStatusBusy → client_ext kStatusBusy extra →
  ∃ t', rdma_finish postcb n k ncmd clist t = (Ret 1, t') ∧ step (λ v, v) t t' ∧ client_inv t'.
Proof.
  intros -> Hrest Hst Hext. rewrite Z.eqb_refl in Hx. unfold rdma_finish, get_rdma. autorewrite with run. rewrite Z.eqb_refl. cbn [negb orb].
  change (fNWordRest (sy_rdma t)) with (fNWordRest (v_rdma (view t))).
  rewrite (proj2 (Z.eqb_neq _ _) Hrest). autorewrite with run.
  change (fStatus (sy_rdma t)) with (fStatus (v_rdma (view t))). rewrite Hst.
  destruct (busy_law (fNWordDone (sy_rdma t)) clist ncmd extra t) as (t' & H1 & Hi & E1); [done..|].
  rewrite (bind_Ret _ _ _ _ _ H1). autorewrite with run.
  assert (fStatus (sy_rdma t') = kStatusBusy) as ->.
  { change (fStatus (v_rdma (view t')) = kStatusBusy). destruct E1 as [-> _]. done. }
  exists t'. by split_and!.
Qed.

(** The status behind the last chunk. *)
Lemma end_status (st : status) : (k = n → st = kStatusDone) → (k ≠ n → st = kStatusFailRdma) →
  (k = n → fNWordRest (v_rdma (view t)) = 0) →
  ∃ tp, (if negb (n =? k) then rstat kStatNFailRdma ;; rdma (λ r, r <| fStatus := kStatusFailRdma |>)
         else if fNWordRest (sy_rdma t) =? 0 then rdma (λ r, r <| fStatus := kStatusDone |>) else mret ()) t = (Ret (), tp) ∧
    estep (λ v, v <| v_rdma ::= λ r, r <| fStatus := st |> <| fStats := Rstats_ctor |> |>) t tp.
Proof.
  intros H1 H2 H3. destruct (Z.eqb_spec n k) as [->|Hne]; cbn [negb].
  - change (fNWordRest (sy_rdma t)) with (fNWordRest (v_rdma (view t))). rewrite H3, H1 by done.
    eexists. split; [apply rdma_run|by apply rdma_step].
  - rewrite H2 by done. rewrite (bind_Ret _ _ _ _ _ (rstat_run _ t)). eexists. split; [apply rdma_run|].
    eapply estep_eq; [eapply estep_trans; [apply rstat_step|by apply rdma_step]|]. done.
Qed.
(** What follows the last chunk. *)
Definition finish_tail (done : Z) : M Sys Z :=
  PostRdmaHook done ;;
  st ← get_rdma fStatus;
  postcb st done clist ncmd ;;
  st ← get_rdma fStatus;
  if bool_decide (st = kStatusBusy) then mret 1
  else rdma (λ r, r <| fStatus := kStatusDone |>) ;; mret 0.
Lemma finish_last (st : status) : (k = n → st = kStatusDone) → (k ≠ n → st = kStatusFailRdma) →
  (k = n → fNWordRest (v_rdma (view t)) = 0) →
  ∃ tp, estep (λ v, v <| v_rdma ::= λ r, r <| fStatus := st |> <| fStats := Rstats_ctor |> |>) t tp ∧
    rdma_finish postcb n k ncmd clist t = finish_tail (fNWordDone (v_rdma (view t))) tp.
Proof.
  intros Hd Hf Hrest. destruct (end_status st Hd Hf Hrest) as (tp & Hp & Ep).
  exists tp. split; [exact Ep|].
  unfold rdma_finish, get_rdma. autorewrite with run. rewrite (bind_Ret _ _ _ _ _ Hp). autorewrite with run.
  assert (Hdone : fNWordDone (sy_rdma tp) = fNWordDone (v_rdma (view t))).
  { change (fNWordDone (v_rdma (view tp)) = fNWordDone (v_rdma (view t))). by destruct Ep as [[-> _] _]. }
  assert (Hlast : negb (n =? k) || (fNWordRest (sy_rdma t) =? 0) = true).
  { destruct (Z.eqb_spec n k) as [E|E]; [|done]. change (fNWordRest (sy_rdma t)) with (fNWordRest (v_rdma (view t))). by rewrite Hrest. }
  by rewrite Hlast, Hdone.
Qed.
(** The callback ends the transfer. *)
Definition retired (u : Sys) : Sys := u <| sy_rdma ::= λ r, r <| fStatus := kStatusDone |> |>.
Lemma retired_step (u : Sys) :
  estep (λ v, v <| v_rdma ::= λ r, r <| fStatus := kStatusDone |> <| fStats := Rstats_ctor |> |>) u (retired u).
Proof. by apply rdma_step. Qed.
Lemma finish_tail_run done st g t1 t2 : PostRdmaHook done t = (Ret (), t1) → fStatus (v_rdma (view t1)) = st →
  st ≠ kStatusBusy → postcb st done clist ncmd t1 = (Ret (), t2) → step g t1 t2 → v_rdma (g (view t1)) = v_rdma (view t1) →
  finish_tail done t = (Ret 0, retired t2).
Proof.
  intros Hpost Hst Hnb H1 E1 Hg. unfold finish_tail. rewrite (bind_Ret _ _ _ _ _ Hpost). unfold get_rdma. autorewrite with run.
  change (fStatus (sy_rdma t1)) with (fStatus (v_rdma (view t1))). rewrite Hst, (bind_Ret _ _ _ _ _ H1). autorewrite with run.
  assert (Hst2 : fStatus (sy_rdma t2) = st).
  { change (fStatus (v_rdma (view t2)) = st). destruct E1 as [-> _]. by rewrite Hg. }
  rewrite Hst2, bool_decide_eq_false_2 by done. by rewrite (bind_Ret _ _ _ _ _ (rdma_run _ t2)).
Qed.
End Finish.

(** ** The disk *)

Lemma mem_write_step p ws (t : Sys) : ∃ t', mem_write p ws t = (Ret (), t') ∧
  estep (λ v, v <| v_mem ::= mem_put p ws |>) t t' ∧ sy_units t' = sy_units t ∧ sy_srv t' = sy_srv t.
Proof.
  eexists. split; [reflexivity|]. split; [|done].
  destruct (set_mem_law (mem_put p ws (srv_mem (sy_link t))) (sy_link t)) as (Hm & Hd & Hs).
  split; [|split_and!; [done|by eexists|exact (units_refl t)]].
  split_and!; [|by eexists|done]. unfold view, cport. simpl. unfold sy_link in *. simpl. by rewrite Hm, Hd.
Qed.
Lemma mem_read_run p n (t : Sys) : mem_read p n t = (Ret (mem_get (v_mem (view t)) p (Z.to_nat n)), t).
Proof. done. Qed.

(** The block size of a disk in words. *)
Lemma unit_bszwrd_run d i bs f (t : Sys) : disk_is t i bs f → fpUnit d = Some i →
  unit_bszwrd d t = (Ret (bs / 2), t).
Proof. intros (u & v & Hu & _ & Hbs & _) Hd. unfold unit_bszwrd. by rewrite Hd, Hu, <- Hbs. Qed.

(** A call on the unit leaves the rest alone. *)
Lemma set_unit_step (t : Sys) i u v' : sy_units t !! i = Some u → keeps (fupVirt u) v' →
  (∀ bs f, disk_is t i bs f → disk_is (t <| sy_units ::= <[i := u <| fupVirt := v' |>]> |>) i bs f) →
  estep (λ v, v) t (t <| sy_units ::= <[i := u <| fupVirt := v' |>]> |>).
Proof.
  intros Hu Hkeep Hdisk. split; (split; [done|split; [apply moved_refl|]]); [|by apply kept_insert].
  intros j bs f Hj. destruct (decide (j = i)) as [->|Hne]; [auto|].
  destruct Hj as (uj & v & Huj & Hrest). exists uj, v. split; [|done].
  simpl. by rewrite list_lookup_insert_ne.
Qed.
Lemma read_unit d i bs f lba nblk (t : Sys) :
  disk_is t i bs f → fpUnit d = Some i → 0 <= lba → 0 < nblk →
  ∃ t', on_unit d (VirtRead lba nblk) t = (Ret (inl (disk_bytes f lba nblk)), t') ∧ estep (λ v, v) t t'.
Proof.
  intros (u & v & Hu & Hv & Hbs & Hok & Hvb & Hf) Hd Hlba Hn. unfold on_unit. rewrite Hd, Hu.
  destruct (vd_read_law v lba nblk Hok Hlba Hn) as (v' & Hr & Hok' & Hbs' & Hf').
  unfold VirtRead, on_virt. rewrite Hv, Hr. eexists. split.
  - do 3 f_equal. unfold disk_bytes. f_equal. apply map_ext_in. intros b Hb. apply Hf.
    apply list_elem_of_In, elem_of_seqZ in Hb. lia.
  - apply set_unit_step; [done|rewrite Hv; intros _; by exists v'|]. intros bs0 f0 (u0 & v0 & Hu0 & Hv0 & Hbs0 & _ & Hvb0 & Hf0).
    rewrite Hu in Hu0. simplify_eq.
    exists (u0 <| fupVirt := Some v' |>), v'. split; [|split_and!; [done|done|done|congruence|]].
    + simpl. by rewrite list_lookup_insert_eq by (by eapply lookup_lt_Some).
    + intros b Hb. by rewrite Hf', Hf0.
Qed.
Lemma write_unit d i bs f lba nblk data (t : Sys) :
  disk_is t i bs f → fpUnit d = Some i → 0 <= lba → 0 < nblk → Z.of_nat (length data) = nblk * bs →
  ∃ t', on_unit d (VirtWrite lba nblk data) t = (Ret (inl ()), t') ∧
    view t' = view t ∧ frame t t' ∧ disk_is t' i bs (store_write bs lba nblk data f) ∧
    ∀ j bs' f', j ≠ i → disk_is t j bs' f' → disk_is t' j bs' f'.
Proof.
  intros (u & v & Hu & Hv & Hbs & Hok & Hvb & Hf) Hd Hlba Hn Hlen. unfold on_unit. rewrite Hd, Hu.
  destruct (vd_write_law v lba nblk data Hok Hlba Hn) as (v' & Hr & Hok' & Hbs' & Hf'); [by rewrite Hvb|].
  unfold VirtWrite, on_virt. rewrite Hv, Hr. eexists. split; [reflexivity|]. split_and!; [done|..].
  - split; [done|]. split; [apply moved_refl|]. apply kept_insert; [done|]. rewrite Hv. intros _. by exists v'.
  - exists (u <| fupVirt := Some v' |>), v'. split; [|split_and!; [done|done|done|congruence|]].
    + simpl. by rewrite list_lookup_insert_eq by (by eapply lookup_lt_Some).
    + intros b Hb. rewrite Hf', Hvb by done. unfold store_write. by rewrite Hf.
  - intros j bs' f' Hne (uj & vj & Huj & Hrest). exists uj, vj. split; [|done].
    simpl. by rewrite list_lookup_insert_ne.
Qed.

Lemma blocks_for_bound n bsz : 0 < n → 0 < bsz → 0 < blocks_for n bsz ∧ 0 <= blocks_for n bsz * bsz - n < bsz.
Proof. intros Hn Hb. unfold blocks_for. Z.div_mod_to_equations. nia. Qed.
Lemma blocks_for_one n bsz : 0 < n <= bsz → blocks_for n bsz = 1.
Proof. intros Hn. unfold blocks_for. symmetry. apply (Z.div_unique_pos _ bsz 1 (n - 1)); lia. Qed.
Lemma blocks_for_more n bsz : 0 < bsz → blocks_for n bsz = 1 + blocks_for (n - bsz) bsz.
Proof.
  intros Hb. unfold blocks_for. replace (n + bsz - 1) with ((n - bsz + bsz - 1) + 1 * bsz) by lia.
  rewrite Z.div_add by lia. lia.
Qed.
(** The write check. *)
Lemma first_diff_bound xs : ∀ ys j i, first_diff j xs ys = Some i → j <= i < j + Z.of_nat (length xs).
Proof.
  induction xs as [|x xs IH]; intros [|y ys] j i; simpl; try done.
  destruct (x =? y); [intros H1; apply IH in H1; lia|intros [= <-]; lia].
Qed.
Lemma mismatch_bound f lba bsz nd ws i : 0 <= nd → mismatch f lba bsz nd ws = Some i → 0 <= i < nd.
Proof. intros Hn Hi. apply first_diff_bound in Hi. rewrite length_take in Hi. lia. Qed.
Lemma WriteCheck_ok nd wc (t : Sys) : check_is t nd wc →
  ∃ t', WriteCheck nd t = (Ret (default nd wc), t') ∧ estep (λ v, v) t t' ∧ ∀ i, wc = Some i → 0 <= i < nd.
Proof.
  intros (d & i & bsz & f & Hd & Hi & Hlba & Hbsz & Hn & Hdk & ->). unfold WriteCheck. rewrite Hd.
  destruct (Z.eqb_spec nd 0) as [->|Hne].
  { exists t. split; [done|]. split; [apply estep_id|]. intros j Hj. by apply mismatch_bound in Hj. }
  destruct (blocks_for_bound nd bsz ltac:(lia) Hbsz) as [Hb _].
  rewrite (bind_Ret _ _ _ _ _ (unit_bszwrd_run d _ _ _ t Hdk Hi)).
  replace (2 * bsz / 2) with bsz by (symmetry; rewrite Z.mul_comm; apply Z.div_mul; lia).
  destruct (read_unit d i _ f (fLba d) (blocks_for nd bsz) t Hdk Hi Hlba Hb) as (t1 & H1 & E1).
  rewrite (bind_Ret _ _ _ _ _ H1). unfold throw_emsg. unfold mbind at 1, M_bind at 1. cbn beta iota.
  rewrite (bind_Ret _ _ _ _ _ (mem_read_run _ _ t1)).
  assert (Hm : v_mem (view t1) = v_mem (view t)) by (by destruct E1 as [[-> _] _]). rewrite Hm.
  fold (mismatch f (fLba d) bsz nd (mem_get (v_mem (view t)) (fBuf d) (Z.to_nat nd))).
  destruct (mismatch f _ _ _ _) as [j|] eqn:Ej.
  - rewrite (bind_Ret _ _ _ _ _ (rstat_run _ t1)). eexists. split; [reflexivity|].
    split; [apply (estep_trans _ _ _ _ _ E1 (rstat_step _ t1))|]. intros j' [= <-]. by eapply mismatch_bound.
  - exists t1. by split_and!.
Qed.

Lemma PreRdmaHook_read d i bs f (t : Sys) :
  v_disk (view t) = Some d → fFunc d = kFuncRead → disk_is t i bs f → fpUnit d = Some i →
  0 <= fLba d → 0 < fNBlock d →
  ∃ t', PreRdmaHook t = (Ret (), t') ∧
    estep (λ v, v <| v_mem ::= mem_put (fBuf d) (pair_words (disk_bytes f (fLba d) (fNBlock d))) |>) t t'.
Proof.
  intros Hd Hf Hdisk Hi Hlba Hn. unfold PreRdmaHook. simpl in Hd. rewrite Hd.
  rewrite bool_decide_eq_false_2 by tauto.
  destruct (read_unit d i bs f (fLba d) (fNBlock d) t Hdisk Hi Hlba Hn) as (t1 & H1 & E1).
  rewrite (bind_Ret _ _ _ _ _ H1). unfold throw_emsg. unfold mbind, M_bind.
  destruct (mem_write_step (fBuf d) (pair_words (disk_bytes f (fLba d) (fNBlock d))) t1) as (t2 & H2 & E2 & _).
  exists t2. split; [exact H2|]. by apply (estep_trans _ _ _ _ _ E1 E2).
Qed.

(** Words padded to full blocks. *)
Definition padding (bsz n : Z) : list Z := replicate (Z.to_nat (blocks_for n bsz * bsz - n)) 0xdead.

Lemma pad_step bsz n p (t : Sys) :
  ∃ t', (if negb (blocks_for n bsz * bsz - n =? 0) then
           rstat kStatNWritePadded ;; mem_write p (replicate (Z.to_nat (blocks_for n bsz * bsz - n)) 0xdead)
         else mret ()) t = (Ret (), t') ∧
    estep (λ v, v <| v_mem ::= mem_put p (padding bsz n) |>) t t'.
Proof.
  unfold padding. destruct (Z.eqb_spec (blocks_for n bsz * bsz - n) 0) as [E|E]; cbn [negb].
  - exists t. split; [done|]. eapply estep_eq; [apply estep_id|]. rewrite E. by destruct (view t).
  - rewrite (bind_Ret _ _ _ _ _ (rstat_run _ t)).
    match goal with |- context [mem_write _ _ ?x] => set (t1 := x) end.
    assert (E1 : estep (λ v, v) t t1) by apply rstat_step.
    edestruct (mem_write_step p (replicate (Z.to_nat (blocks_for n bsz * bsz - n)) 0xdead) t1) as (t2 & H2 & E2 & _).
    exists t2. split; [exact H2|]. exact (estep_trans _ _ _ _ _ E1 E2).
Qed.

(** The state [t'] is [t] with another disk in unit [i]. *)
Definition dstep (g : View A → View A) (i : nat) (bs : Z) (f : Z → list Z) (t t' : Sys) : Prop :=
  view t' = g (view t) ∧ frame t t' ∧ disk_is t' i bs f.

Lemma PostRdmaHook_write d i bsz f n (t : Sys) :
  v_disk (view t) = Some d → fFunc d = kFuncWrite → disk_is t i (2 * bsz) f → fpUnit d = Some i →
  0 <= fLba d → 0 < n → 0 < bsz →
  let ws := mem_get (v_mem (view t)) (fBuf d) (Z.to_nat n) ++ padding bsz n in
  ∃ t', PostRdmaHook n t = (Ret (), t') ∧
    dstep (λ v, v <| v_mem ::= mem_put (fBuf d + n) (padding bsz n) |>) i (2 * bsz)
      (store_write (2 * bsz) (fLba d) (blocks_for n bsz) (words_bytes ws) f) t t'.
Proof.
  intros Hd Hf Hdisk Hi Hlba Hn Hbsz ws. destruct (blocks_for_bound n bsz Hn Hbsz) as [Hb1 Hb2].
  unfold PostRdmaHook. simpl in Hd. rewrite Hd, (proj2 (Z.eqb_neq n 0)) by lia.
  rewrite bool_decide_eq_false_2 by tauto. cbn [orb].
  rewrite (bind_Ret _ _ _ _ _ (unit_bszwrd_run _ _ _ _ _ Hdisk Hi)).
  replace (2 * bsz / 2) with bsz by (symmetry; rewrite Z.mul_comm; apply Z.div_mul; lia).
  destruct (pad_step bsz n (fBuf d + n) t) as (t1 & H1 & E1).
  rewrite (bind_Ret _ _ _ _ _ H1), (bind_Ret _ _ _ _ _ (mem_read_run _ _ t1)).
  assert (Hws : mem_get (v_mem (view t1)) (fBuf d) (Z.to_nat (blocks_for n bsz * bsz)) = ws).
  { destruct E1 as [[-> _] _]. cbn [v_mem update setter].
    replace (Z.to_nat (blocks_for n bsz * bsz)) with (Z.to_nat n + length (padding bsz n))%nat
      by (unfold padding; rewrite length_replicate; lia).
    rewrite mem_get_app, Z2Nat.id, mem_get_put by (lia || apply Forall_replicate; by split). by rewrite mem_get_before by (rewrite Z2Nat.id; lia). }
  rewrite Hws.
  destruct (write_unit d i (2 * bsz) f (fLba d) (blocks_for n bsz) (words_bytes ws) t1) as (t2 & H2 & Hv2 & Hfr & Hd2 & _);
    [by apply E1|done|done|done| |].
  { rewrite length_words_bytes. unfold ws. rewrite length_app, length_mem_get. unfold padding.
    rewrite length_replicate. lia. }
  rewrite (bind_Ret _ _ _ _ _ H2). exists t2. split; [done|].
  split_and!; [rewrite Hv2; apply E1|eapply frame_trans; [apply E1|done]|done].
Qed.

(** ** A whole transfer *)

(** Of a transfer of [size] words, the first [mv] are in the memory: all of them,
    or those below its end. *)
Definition reach (addr mode size mv : Z) (p : CpPort) : Prop :=
  let lim := cp_limit (addressed addr mode p) in
  0 <= addr < 2 ^ 22 ∧ addr mod 2 = 0 ∧ cp_size p <= 2 ^ 22 ∧ idle p ∧ 0 <= mv <= size ∧
  if mv =? size then addr + 2 * size <= lim
  else (mv = 0 ∨ addr + 2 * mv <= lim) ∧ lim <= addr + 2 * mv ∧ lim < 2 ^ 22.

Lemma reach_chunk addr mode size mv done n p :
  reach addr mode size mv p → 0 <= done <= mv → done < size → 0 < n <= 65535 → done + n <= size →
  chunk_ok (addr + 2 * done) mode (Z.to_nat n) (Z.to_nat (Z.min n (mv - done))) p.
Proof.
  intros (H0 & He & H2 & Hi & Hmv & H1) Hd Hds Hn Hs.
  pose proof (cp_limit_size (addressed addr mode p)) as Hl. change (cp_size (addressed addr mode p)) with (cp_size p) in Hl.
  set (lim := cp_limit (addressed addr mode p)) in *. unfold chunk_ok, fits, cut_at, fits.
  change (cp_limit (addressed (addr + 2 * done) mode p)) with lim.
  change (cp_addr (addressed (addr + 2 * done) mode p)) with (addr + 2 * done).
  change (cp_size (addressed (addr + 2 * done) mode p)) with (cp_size p).
  assert (Hev : (addr + 2 * done) mod 2 = 0) by (by rewrite Z.mul_comm, Z_mod_plus_full).
  destruct (Z.eqb_spec mv size) as [->|Hne].
  - split_and!; [lia|lia|done|lia|lia|done|]. left. rewrite Z.min_l by lia. split_and!; lia.
  - destruct H1 as (Ha & Hb & Hc). split_and!; [lia|lia|done|lia|lia|done|].
    destruct (Z.le_gt_cases n (mv - done)) as [Hle|Hgt].
    + left. rewrite Z.min_l by lia. split_and!; lia.
    + right. rewrite Z.min_r by lia. split_and!; try lia.
Qed.
Lemma reach_port addr mode size mv p p' : cp_size p' = cp_size p → idle p' →
  reach addr mode size mv p → reach addr mode size mv p'.
Proof.
  intros Hs Hi (H0 & He & H2 & _ & H1 & H3). unfold reach, cp_limit in *. cbn [addressed update setter cp_ubmap cp_22bit cp_size] in *.
  rewrite Hs. by split_and!; try apply H0; try apply H1; try apply H3.
Qed.

Lemma take_mwords m a n k : (k <= n)%nat → take k (mwords m a n) = mwords m a k.
Proof.
  revert a n. induction k as [|k IH]; intros a [|n] H1; simpl; [done..|lia|]. by rewrite IH by lia.
Qed.
Lemma mem_get_sub m p k n j ws :
  mem_get m p k = ws → (j + n <= k)%nat → mem_get m (p + Z.of_nat j) n = take n (drop j ws).
Proof.
  intros <- Hk. replace k with (j + (n + (k - j - n)))%nat by lia.
  rewrite mem_get_app, drop_app_length', mem_get_app, take_app_length' by (by rewrite length_mem_get). done.
Qed.
Lemma mem_get_put_take m p xs k : Forall is_u16 (take k xs) → (k <= length xs)%nat →
  mem_get (mem_put p xs m) p k = take k xs.
Proof.
  intros Hx Hk. pose proof (mem_get_sub _ p (length xs) k 0 _ (mem_get_put_u16 xs p m) ltac:(lia)) as E.
  rewrite Z.add_0_r, drop_0 in E. rewrite E, firstn_map. by apply map_u16_id.
Qed.

(** *** The actions of the server *)

Lemma acts_step g (t : Sys) :
  estep (λ v, v <| v_acts ::= g |>) t (t <| sy_srv ::= λ s, s <| fActnList ::= g |> |>).
Proof. split; split_and!; try done; try apply moved_refl. exact (units_refl t). Qed.
Definition next_acts (irc : Z) (l : list A) : list A :=
  match l with [] => [] | b :: l => if 0 <? irc then l ++ [b] else l end.
Lemma call_action_run a irc (t t' : Sys) : v_acts (view t) = [a] → RdmaHandler precb postcb t = (Ret irc, t') →
  call_action precb postcb t = (Ret (), t' <| sy_srv ::= λ s, s <| fActnList ::= next_acts irc |> |>).
Proof.
  intros Ha H1. unfold call_action, CallActnHandler. simpl in Ha. rewrite Ha.
  unfold mbind, M_bind. by rewrite H1.
Qed.

Fixpoint repeat_m (k : nat) (m : M Sys ()) : M Sys () :=
  match k with O => mret () | Datatypes.S k => m ;; repeat_m k m end.

Section Core.
(** [w]: the transfer stores the buffer at [buf] in the memory of the cpu; [od]:
    the disk part; [U]: the units are in order; [held]: the memory of the caller
    on the way to the cpu. *)
Variables (cs addr mode size max mv : Z) (w : bool) (buf : Z) (od : option Rw11RdmaDisk) (U : Sys → Prop).
Variable held : Mem → Prop.
Variables (mem0 : Mem) (log0 : list (Z * Z)) (psz : Z) (ws : list Z) (a : A).
Hypothesis HU : ∀ g t t', step g t t' → U t → U t'.
Hypothesis Hsize : 0 < size ∧ addr + 2 * size < 2 ^ 32.
Hypothesis Hmax : 0 < max <= 65535.
Hypothesis Hmv : 0 <= mv <= size.
Hypothesis Hlen : length ws = Z.to_nat size.
Hypothesis Hws : if w then Forall is_u16 ws else ws = mwords mem0 addr (Z.to_nat size).
Hypothesis Hheld : ∀ m, w = true → held m → mem_get m buf (Z.to_nat size) = ws.

(** [done] words are moved, the registers [told] written, and the buffer holds
    what it has to; the memory has [psz] bytes. *)
Definition core (st : status) (done : Z) (told : list (Z * Z)) (t : Sys) : Prop :=
  v_rdma (view t) = xfer cs st w addr mode buf size max done ∧ v_disk (view t) = od ∧
  v_acts (view t) = [a] ∧
  cp_mem (v_port (view t)) = (if w then mput addr (take (Z.to_nat done) ws) mem0 else mem0) ∧
  cp_log (v_port (view t)) = log0 ++ told ∧
  up t ∧ max <= srv_blkmax (sy_link t) ∧ U t ∧ cp_size (v_port (view t)) = psz.
Definition buffer (done : Z) (t : Sys) : Prop :=
  if w then held (v_mem (view t))
  else mem_get (v_mem (view t)) buf (Z.to_nat done) = take (Z.to_nat done) ws.
(** On the way: the next chunk can be executed. *)
Definition running (done : Z) (t : Sys) : Prop :=
  core kStatusBusy done [] t ∧ reach addr mode size mv (v_port (view t)) ∧ client_inv t.
(** A disk transfer fills its buffer before the first chunk. *)
Definition filled (done : Z) (t : Sys) : Prop := od = None ∨ 0 < done → buffer done t.

Lemma core_step st done told (t t' : Sys) : step (λ v, v) t t' → core st done told t → core st done told t'.
Proof.
  intros E (Hx & Hvd & Ha & Hmem & Hlog & Hbase & Hblk & Hu & Hz). pose proof (step_up _ _ _ E Hbase). pose proof (HU _ _ _ E Hu).
  unfold core. rewrite (proj1 E), (proj1 (step_blk _ _ _ E)). by split_and!.
Qed.

(** Words of memory from [done] on. *)
Lemma next_words done n : 0 <= done → 0 <= n → done + n <= size →
  take (Z.to_nat n) (drop (Z.to_nat done) (mwords mem0 addr (Z.to_nat size))) = mwords mem0 (addr + 2 * done) (Z.to_nat n).
Proof.
  intros H1 H2 H3.
  replace (Z.to_nat size) with (Z.to_nat done + (Z.to_nat n + Z.to_nat (size - done - n)))%nat by lia.
  rewrite mwords_app, drop_app_length' by (by rewrite length_mwords). rewrite Z2Nat.id by lia.
  by rewrite mwords_app, take_app_length' by (by rewrite length_mwords).
Qed.
Lemma chunk_turn done t :
  running done t → buffer done t → 0 <= done <= mv → done < size →
  let n := Z.min (size - done) max in
  let k := Z.min n (mv - done) in
  let st0 := if n =? size - done then kStatusBusyLast else kStatusBusy in
  ∃ t' clist extra, rdma_chunk precb t = (Ret (n, k, 3%nat, clist), t') ∧
    core st0 (done + k) (if (k =? n) && (n =? size - done) then client_pre size else []) t' ∧
    (k = n → reach addr mode size mv (v_port (view t'))) ∧ buffer (done + k) t' ∧ client_inv t' ∧
    client_ext st0 extra ∧ executed (negb (k =? n)) extra (drop 3 (fList clist)).
Proof.
  intros ((Hx & Hd & Ha & Hmem & Hlog & Hbase & Hblk & Hdisk & Hz) & Hreg & Hinv) Hbuf Hdone Hlt n k st0. unfold buffer in *.
  assert (Hn : 0 < n <= 65535 ∧ done + n <= size ∧ 0 <= k <= n) by (unfold k, n; lia).
  assert (Hsub : w = true → mem_get (v_mem (view t)) (buf + done) (Z.to_nat n) = take (Z.to_nat n) (drop (Z.to_nat done) ws)).
  { intros Hw. rewrite Hw in Hbuf. apply (Hheld _ Hw) in Hbuf.
    rewrite <- (Z2Nat.id done) at 1 by lia. eapply mem_get_sub; [exact Hbuf|lia]. }
  destruct (rdma_chunk_ok cs w addr mode buf size max done (Z.to_nat k) t) as
      (t' & clist & extra & p' & m' & H1 & [Pm Ps Pl Pi] & Hm & E1 & Hi1 & Hext & Hexe);
    [done|lia|lia|destruct Hreg; lia| |done|done|].
  { apply (reach_chunk _ _ size); [done|lia|lia|unfold n in *; lia|unfold n in *; lia]. }
  fold n in H1, Pm, Pl, Pi, Hm, E1, Hext, Hexe. fold st0 in E1, Hext. rewrite Z2Nat.id in H1, E1 by lia.
  exists t', clist, extra. split; [exact H1|]. pose proof E1 as (Hv & _ & Hdk).
  assert (Hkn : (Z.to_nat k =? Z.to_nat n)%nat = (k =? n)).
  { destruct (Z.eqb_spec k n) as [->|]; [apply Nat.eqb_refl|apply Nat.eqb_neq; lia]. }
  rewrite Hkn in Pl, Hexe.
  assert (Hsplit : Z.to_nat (done + k) = (Z.to_nat done + Z.to_nat k)%nat) by lia.
  assert (Hkk : (Z.to_nat k <= Z.to_nat n)%nat) by lia.
  pose proof (step_up _ _ _ E1 Hbase). unfold core. rewrite Hv, (proj1 (step_blk _ _ _ E1)).
  cbn [update setter v_rdma v_port v_mem v_disk v_acts].
  split; [split; [done|]; split; [done|]; split; [done|]; split; [|split; [|split; [done|split; [done|split; [by eapply HU|by rewrite Ps]]]]]|].
  - rewrite Pm. destruct w eqn:Ew; [|exact Hmem]. rewrite Hsub, take_take, Nat.min_l, Hmem, Hsplit, <- take_take_drop, mput_app, length_take by (done || lia).
    f_equal. lia.
  - rewrite Pl, Hlog, app_nil_r. destruct (k =? n), (n =? size - done); simpl; rewrite ?app_nil_r; done.
  - split; [|split; [|by split_and!]].
    + intros E. apply (reach_port _ _ _ _ (v_port (view t))); [done|apply Pi; by rewrite E|done].
    + unfold chunk_mem in Hm. destruct w eqn:Ew; [by rewrite Hm|]. destruct Hm as (fill & Hfill & ->).
      rewrite Hsplit, mem_get_app, mem_get_before, Hbuf, <- take_take_drop by lia. f_equal.
      rewrite Z2Nat.id by lia. rewrite Hws, Hmem, next_words by lia.
      assert (Ht : take (Z.to_nat k) (mwords mem0 (addr + 2 * done) (Z.to_nat k) ++ fill) = mwords mem0 (addr + 2 * done) (Z.to_nat k))
        by (apply take_app_length'; by rewrite length_mwords).
      rewrite mem_get_put_take; rewrite ?Ht; [done|apply mwords_u16|]. rewrite length_app, length_mwords. lia.
Qed.

(** The words moved and the status to the handler. *)
Lemma done_of done t : core kStatusBusy done [] t → fNWordDone (sy_rdma t) = done.
Proof. intros (Hx & _). change (fNWordDone (v_rdma (view t)) = done). by rewrite Hx. Qed.
Hypothesis Hpre : ∀ done t, running done t → filled done t → 0 <= done →
  ∃ t', (if done =? 0 then PreRdmaHook else mret ()) t = (Ret (), t') ∧ running done t' ∧ buffer done t'.
Lemma handler_more done t :
  running done t → filled done t → 0 <= done → done + max < size → done + max <= mv →
  ∃ t', RdmaHandler precb postcb t = (Ret 1, t') ∧ running (done + max) t' ∧ buffer (done + max) t'.
Proof.
  intros Hc Hb Hd Hlt Hle. unfold RdmaHandler, get_rdma. autorewrite with run. rewrite (done_of done t (proj1 Hc)).
  destruct (Hpre done t Hc Hb Hd) as (t1 & H1 & Hc1 & Hb1).
  rewrite (bind_Ret _ _ _ _ _ H1).
  destruct (chunk_turn done t1 Hc1 Hb1 ltac:(lia) ltac:(lia)) as (t2 & clist & extra & H2 & Hc2 & Hr2 & Hb2 & Hi2 & Hext & Hx).
  rewrite (bind_Ret _ _ _ _ _ H2).
  replace (Z.min (size - done) max) with max in * by lia. rewrite (Z.min_l max) in * by lia.
  rewrite (proj2 (Z.eqb_neq max (size - done))), andb_false_r in * by lia. specialize (Hr2 eq_refl).
  destruct (finish_more max max 3 clist extra t2) as (t3 & H3 & E3 & Hi3); [done|done|done| | |done|].
  { destruct Hc2 as (-> & _). simpl. lia. } { by destruct Hc2 as (-> & _). }
  exists t3. split; [exact H3|]. split; [split; [|split; [|done]]|].
  - by eapply core_step.
  - by destruct E3 as (-> & _).
  - unfold buffer in *. by destruct E3 as (-> & _).
Qed.

(** The last turn, up to the end of the transfer. *)
Definition end_of : status := if mv =? size then kStatusDone else kStatusFailRdma.
Lemma end_not_busy : end_of ≠ kStatusBusy.
Proof. unfold end_of. by destruct (mv =? size). Qed.
Lemma handler_last done t :
  running done t → filled done t → 0 <= done <= mv → done < size →
  (if mv =? size then size <= done + max else mv < done + max) →
  ∃ tp clist extra st0, RdmaHandler precb postcb t = finish_tail 3 clist mv tp ∧
    core end_of mv (if mv =? size then client_pre size else []) tp ∧ buffer mv tp ∧ client_inv tp ∧
    (mv = size → reach addr mode size mv (v_port (view tp))) ∧
    chunk_status st0 end_of (negb (mv =? size)) ∧ client_ext st0 extra ∧
    executed (negb (mv =? size)) extra (drop 3 (fList clist)).
Proof.
  intros Hc Hb Hd Hds Hend. unfold RdmaHandler, get_rdma. autorewrite with run. rewrite (done_of done t (proj1 Hc)).
  destruct (Hpre done t Hc Hb ltac:(lia)) as (t1 & H1 & Hc1 & Hb1).
  rewrite (bind_Ret _ _ _ _ _ H1).
  destruct (chunk_turn done t1 Hc1 Hb1 ltac:(lia) ltac:(lia)) as (t2 & clist & extra & H2 & Hc2 & Hr2 & Hb2 & Hi2 & Hext & Hx).
  rewrite (bind_Ret _ _ _ _ _ H2). set (n := Z.min (size - done) max) in *. set (k := Z.min n (mv - done)) in *.
  assert (Hk : done + k = mv ∧ (k =? n) = (mv =? size) ∧ (mv = size → n = size - done)).
  { unfold k, n. destruct (Z.eqb_spec mv size) as [E|E].
    - split; [lia|]. split; [apply Z.eqb_eq|]; lia.
    - split; [lia|]. split; [apply Z.eqb_neq|]; lia. }
  destruct Hk as (Hk & Hkn & Hkn').
  assert (Hlogk : (if (k =? n) && (n =? size - done) then client_pre size else []) = if mv =? size then client_pre size else []).
  { rewrite Hkn. destruct (Z.eqb_spec mv size) as [E|E]; [|done]. by rewrite (proj2 (Z.eqb_eq _ _) (Hkn' E)). }
  rewrite Hlogk, Hk in Hc2. rewrite Hk in Hb2. rewrite Hkn in Hx.
  set (st0 := if n =? size - done then kStatusBusyLast else kStatusBusy) in *.
  pose proof Hc2 as (Hx2 & Hvd & Ha & Hmem & Hlog & Hbase & Hblk & Hu & Hz).
  assert (Hd2 : fNWordDone (v_rdma (view t2)) = mv) by (by rewrite Hx2).
  destruct (finish_last n k 3 clist extra t2 ltac:(by rewrite Hkn) end_of) as (tp & Ep & Hfin).
  { intros E. unfold end_of. apply Z.eqb_eq in E. by rewrite <- Hkn, E. }
  { intros E. unfold end_of. apply Z.eqb_neq in E. by rewrite <- Hkn, E. }
  { intros E. rewrite Hx2. simpl. apply Z.eqb_eq in E. rewrite Hkn in E. apply Z.eqb_eq in E. lia. }
  rewrite Hd2 in Hfin. pose proof Ep as [Es Hfr]. pose proof Es as (Hv & _).
  exists tp, clist, extra, st0. split; [exact Hfin|].
  split; [|split; [unfold buffer in *; by rewrite Hv|split; [by eapply inv_frame|split; [|split; [|by split]]]]].
  - pose proof (step_up _ _ _ Es Hbase). pose proof (HU _ _ _ Es Hu). unfold core. rewrite Hv, (proj1 (step_blk _ _ _ Es)).
    cbn [update setter v_rdma v_port v_mem v_disk v_acts]. rewrite Hx2. by split_and!.
  - intros E. rewrite Hv. cbn [update setter v_port]. apply Hr2. apply Z.eqb_eq. rewrite Hkn. by apply Z.eqb_eq.
  - unfold end_of, st0. destruct (Z.eqb_spec mv size) as [E|E].
    + rewrite (proj2 (Z.eqb_eq _ _) (Hkn' E)). constructor.
    + constructor. destruct (n =? size - done); auto.
Qed.

Lemma action_more done t :
  running done t → filled done t → 0 <= done → done + max < size → done + max <= mv →
  ∃ t', call_action precb postcb t = (Ret (), t') ∧ running (done + max) t' ∧ buffer (done + max) t'.
Proof.
  intros Hc Hb Hd Hlt Hle. destruct (handler_more done t Hc Hb Hd Hlt Hle) as (t1 & H1 & (Hc1 & Hr1 & Hi1) & Hb1).
  eexists. split; [eapply call_action_run; [apply Hc|exact H1]|].
  pose proof (acts_step (next_acts 1) t1) as [E Hfr]. split; [|exact Hb1].
  split; [|split; [exact Hr1|by eapply inv_frame]].
  destruct Hc1 as (Hx & Hvd & Ha & Hmem & Hlog & Hbase & Hblk & Hu & Hz). pose proof (HU _ _ _ E Hu).
  unfold core. rewrite (proj1 E). cbn [update setter v_rdma v_port v_mem v_disk v_acts]. rewrite Ha.
  by split_and!.
Qed.
(** Actions for [n] words of which [m] are moved. *)
Definition turns (n m : Z) : Z := if m =? n then blocks_for n max else m / max + 1.
Lemma turns_step done : 0 <= done <= mv → done < size →
  if (if mv =? size then size <=? done + max else mv <? done + max) then turns (size - done) (mv - done) = 1
  else done + max < size ∧ done + max <= mv ∧
    turns (size - done) (mv - done) = 1 + turns (size - (done + max)) (mv - (done + max)).
Proof.
  intros Hd Hds. unfold turns. assert (E : ∀ x, (mv - x =? size - x) = (mv =? size)).
  { intros x. destruct (Z.eqb_spec mv size); [apply Z.eqb_eq|apply Z.eqb_neq]; lia. }
  rewrite !E. destruct (Z.eqb_spec mv size) as [->|Hne].
  - destruct (Z.leb_spec size (done + max)) as [Hle|Hgt]; [by rewrite blocks_for_one by lia|].
    split; [lia|]. split; [lia|]. rewrite blocks_for_more by lia. f_equal. f_equal. lia.
  - destruct (Z.ltb_spec mv (done + max)) as [Hlt|Hge]; [by rewrite Z.div_small by lia|].
    split; [lia|]. split; [lia|]. replace (mv - done) with (mv - (done + max) + 1 * max) by lia. rewrite Z.div_add by lia. lia.
Qed.

(** [Gone]: what the last action leaves. *)
Variable Gone : Sys → Prop.
Hypothesis Hend : ∀ done t, running done t → filled done t → 0 <= done <= mv → done < size →
  (if mv =? size then size <= done + max else mv < done + max) →
  ∃ t', call_action precb postcb t = (Ret (), t') ∧ Gone t'.
Lemma actions_run k : ∀ done t,
  running done t → filled done t → 0 <= done <= mv → done < size →
  Z.of_nat k = turns (size - done) (mv - done) →
  ∃ t', repeat_m k (call_action precb postcb) t = (Ret (), t') ∧ Gone t'.
Proof.
  induction k as [|k IH]; intros done t Hc Hb Hd Hds Hk; pose proof (turns_step done Hd Hds) as Ht.
  { exfalso. unfold turns in *. destruct (Z.eqb_spec (mv - done) (size - done)).
    - destruct (blocks_for_bound (size - done) max); lia.
    - pose proof (Z.div_pos (mv - done) max). lia. }
  cbn [repeat_m].
  destruct (if mv =? size then size <=? done + max else mv <? done + max) eqn:E.
  - assert (k = O) as -> by lia. destruct (Hend done t Hc Hb Hd Hds) as (t' & H1 & Hg).
    { destruct (mv =? size); lia. }
    rewrite (bind_Ret _ _ _ _ _ H1). by exists t'.
  - destruct Ht as (H1 & H2 & H3). destruct (action_more done t Hc Hb ltac:(lia) H1 H2) as (t1 & Hr & Hc1 & Hb1).
    rewrite (bind_Ret _ _ _ _ _ Hr). apply (IH (done + max) t1 Hc1 (λ _, Hb1)); lia.
Qed.
End Core.
End Chunks.

(** ** A transfer without a disk *)

Section PlainTransfer.
Context {S D V H A C : Type}.
Context `{!RlinkExec S, !Rbus D, !LinkLaws S D, !CpuBus D, !VirtDiskOps V, !VirtDiskSpec V}.
Notation Sys := (Rw11Sys S V H A C).
Context (precb : status → Z → Z → RlinkCommandList → M Sys RlinkCommandList).
Context (postcb : status → Z → RlinkCommandList → nat → M Sys ()).
Context `{!RdmaChunks precb postcb}.
Variables (cs addr mode size max mv : Z) (w : bool) (buf : Z).
Variable held : Mem → Prop.
Variables (mem0 : Mem) (log0 : list (Z * Z)) (psz : Z) (ws : list Z) (a : A).
Hypothesis Hsize : 0 < size ∧ addr + 2 * size < 2 ^ 32.
Hypothesis Hmax : 0 < max <= 65535.
Hypothesis Hmv : 0 <= mv <= size.
Hypothesis Hlen : length ws = Z.to_nat size.
Hypothesis Hws : if w then Forall is_u16 ws else ws = mwords mem0 addr (Z.to_nat size).
Hypothesis Hheld : ∀ m, w = true → held m → mem_get m buf (Z.to_nat size) = ws.
Let U (_ : Sys) : Prop := True.
Notation core := (core cs addr mode size max w buf None U mem0 log0 psz ws a).
Notation buffer := (buffer w buf held ws).
Notation running := (running precb postcb cs addr mode size max mv w buf None U mem0 log0 psz ws a).
Notation filled := (filled w buf None held ws).

Lemma plain_pre done t : running done t → filled done t → 0 <= done →
  ∃ t', (if done =? 0 then PreRdmaHook else mret ()) t = (Ret (), t') ∧ running done t' ∧ buffer done t'.
Proof.
  intros Hc Hb _. exists t. split; [|split; [done|apply Hb; by left]].
  destruct (done =? 0); [|done]. unfold PreRdmaHook. pose proof Hc as ((_ & Hd & _) & _). simpl in Hd. by rewrite Hd.
Qed.
(** [Post]: what the callback leaves at the end. *)
Variable Post : Sys → Prop.
Hypothesis Hpost : ∀ tp l, core (end_of size mv) mv (if mv =? size then client_pre size else []) tp → buffer mv tp →
  client_inv tp → (mv = size → reach addr mode size mv (v_port (view tp))) →
  ∃ g t2, postcb (end_of size mv) mv l 3 tp = (Ret (), t2) ∧ step g tp t2 ∧
    v_rdma (g (view tp)) = v_rdma (view tp) ∧ v_acts (g (view tp)) = v_acts (view tp) ∧ Post t2.
Definition ended (t : Sys) : Prop := ∃ t2,
  t = retired t2 <| sy_srv ::= λ s, s <| fActnList := [] |> |> ∧ Post t2.
Lemma plain_end done t :
  running done t → filled done t → 0 <= done <= mv → done < size →
  (if mv =? size then size <= done + max else mv < done + max) →
  ∃ t', call_action precb postcb t = (Ret (), t') ∧ ended t'.
Proof.
  intros Hc Hb Hd Hds He.
  destruct (handler_last precb postcb cs addr mode size max mv w buf None U held mem0 log0 psz ws a (λ _ _ _ _ _, I) Hsize Hmax Hmv Hlen Hws
    Hheld plain_pre done t Hc Hb Hd Hds He) as (tp & clist & extra & st0 & H1 & Hcp & Hbp & Hi & Hr & _).
  destruct (Hpost tp clist Hcp Hbp Hi Hr) as (g & t2 & H2 & E2 & Hg & Ha & HP).
  assert (Hhook : PostRdmaHook mv tp = (Ret (), tp)).
  { unfold PostRdmaHook. destruct Hcp as (_ & Hdk & _). simpl in Hdk. by rewrite Hdk. }
  assert (Hst : fStatus (v_rdma (view tp)) = end_of size mv) by (destruct Hcp as (-> & _); done).
  pose proof (finish_tail_run postcb 3 clist tp mv _ g tp t2 Hhook Hst (end_not_busy size mv) H2 E2 Hg) as H3.
  eexists. split; [eapply call_action_run; [apply Hc|rewrite H1; exact H3]|].
  exists t2. split; [|done]. assert (Hacts : fActnList (sy_srv t2) = [a]).
  { change (v_acts (view t2) = [a]). rewrite (proj1 E2), Ha. apply Hcp. }
  unfold retired. destruct t2 as [srv cpu us sd rd dk cl]. destruct srv. simpl in *. by rewrite Hacts.
Qed.
Lemma plain_run t : running 0 t → buffer 0 t →
  ∃ t', repeat_m (Z.to_nat (turns max size mv)) (call_action precb postcb) t = (Ret (), t') ∧ ended t'.
Proof.
  intros Hc Hb. eapply (actions_run precb postcb cs addr mode size max mv w buf None U held mem0 log0 psz ws a (λ _ _ _ _ _, I) Hsize Hmax Hmv
    Hlen Hws Hheld plain_pre ended plain_end _ 0); [done|by intros _|lia|lia|].
  rewrite !Z.sub_0_r. apply Z2Nat.id. unfold turns. destruct (mv =? size).
  - destruct (blocks_for_bound size max); lia.
  - pose proof (Z.div_pos mv max). lia.
Qed.
End PlainTransfer.

(** ** A disk transfer *)

Section DiskTransfer.
Context {S D V H A C : Type}.
Context `{!RlinkExec S, !Rbus D, !LinkLaws S D, !CpuBus D, !VirtDiskOps V, !VirtDiskSpec V}.
Notation Sys := (Rw11Sys S V H A C).
Context (precb : status → Z → Z → RlinkCommandList → M Sys RlinkCommandList).
Context (postcb : status → Z → RlinkCommandList → nat → M Sys ()).
Context `{!RdmaChunks precb postcb, !RdmaClient precb postcb}.
Variables (cs addr mode size max mv : Z) (d : Rw11RdmaDisk) (i : nat) (bsz : Z).
Variables (f : Z → list Z) (mem0 : Mem) (log0 : list (Z * Z)) (psz : Z) (ws : list Z) (a : A).
Let w := bool_decide (fFunc d = kFuncRead).
Let U (t : Sys) : Prop := disk_is t i (2 * bsz) f.
Hypothesis Hsize : 0 < size ∧ addr + 2 * size < 2 ^ 32.
Hypothesis Hmax : 0 < max <= 65535.
Hypothesis Hmv : 0 <= mv <= size.
Hypothesis Hlen : length ws = Z.to_nat size.
Hypothesis Hws : if w then Forall is_u16 ws else ws = mwords mem0 addr (Z.to_nat size).
Notation core := (core cs addr mode size max w (fBuf d) (Some d) U mem0 log0 psz ws a).
Let held (m : Mem) : Prop := mem_get m (fBuf d) (Z.to_nat size) = ws.
Notation buffer := (buffer w (fBuf d) held ws).
Notation running := (running precb postcb cs addr mode size max mv w (fBuf d) (Some d) U mem0 log0 psz ws a).
Notation filled := (filled w (fBuf d) (Some d) held ws).
Lemma units_step g (t t' : Sys) : step g t t' → U t → U t'.
Proof. intros (_ & _ & Hd). apply Hd. Qed.

Hypothesis Hdisk : fpUnit d = Some i ∧ 0 <= fLba d ∧ 0 < fNBlock d ∧ 0 < bsz.
Hypothesis Hread : w = true →
  let xs := pair_words (disk_bytes f (fLba d) (fNBlock d)) in
  ws = take (Z.to_nat size) xs ∧ (Z.to_nat size <= length xs)%nat.

(** Before the first chunk. *)
Lemma pre_turn done t :
  running done t → filled done t → 0 <= done →
  ∃ t', (if done =? 0 then PreRdmaHook else mret ()) t = (Ret (), t') ∧ running done t' ∧ buffer done t'.
Proof.
  intros (Hc & Hrch & Hinv) Hb Hd. destruct (Z.eqb_spec done 0) as [->|Hne]; [|exists t; split; [done|split; [by split|apply Hb; right; lia]]].
  pose proof Hc as (Hx & Hvd & Ha & Hmem & Hlog & Hbase & Hblk & Hdk & Hz). destruct Hdisk as (Hu & Hlba & Hnb & _).
  destruct (decide (fFunc d = kFuncRead)) as [Hf|Hf].
  - assert (Ew : w = true) by (by apply bool_decide_eq_true). destruct (Hread Ew) as [E Hl].
    destruct (PreRdmaHook_read d i _ f t Hvd Hf Hdk Hu Hlba Hnb) as (t' & H1 & E1).
    exists t'. split; [exact H1|]. pose proof E1 as [(Hv & Hmv' & Hdk') Hfr].
    split; [split; [|split; [by rewrite Hv|by eapply inv_frame]]|].
    + pose proof (step_up _ _ _ (proj1 E1) Hbase). unfold core. rewrite Hv, (proj1 (step_blk _ _ _ (proj1 E1))).
      cbn [update setter v_rdma v_port v_mem v_disk v_acts]. split_and!; try done. by apply Hdk'.
    + unfold buffer, held. rewrite Ew, Hv. cbn [update setter v_mem]. rewrite mem_get_put_take; [done| |done].
      rewrite <- E. by rewrite Ew in Hws.
  - assert (Ew : w = false) by (by apply bool_decide_eq_false). exists t. split; [|split; [by split|]].
    + unfold PreRdmaHook. simpl in Hvd. rewrite Hvd. by rewrite bool_decide_eq_true_2.
    + unfold buffer. by rewrite Ew.
Qed.

(** The transfer is done: of [size] words, [mv] are moved. *)
Definition final_disk : Z → list Z :=
  if bool_decide (fFunc d = kFuncWrite) && negb (mv =? 0)
  then store_write (2 * bsz) (fLba d) (blocks_for mv bsz) (words_bytes (take (Z.to_nat mv) ws ++ padding bsz mv)) f else f.
(** What the write check sees of it. *)
Definition checked (wc : option Z) : Prop :=
  fFunc d = kFuncWriteCheck → wc = mismatch f (fLba d) bsz mv (take (Z.to_nat mv) ws).
Definition final_log (wc : option Z) : list (Z * Z) :=
  log0 ++ (if mv =? size then client_pre size else []) ++ client_post (negb (mv =? size)) mv wc.
Definition finished (t : Sys) : Prop :=
  fStatus (v_rdma (view t)) = kStatusDone ∧ v_acts (view t) = [a] ∧
  cp_mem (v_port (view t)) = (if w then mput addr (take (Z.to_nat mv) ws) mem0 else mem0) ∧
  (∃ wc, checked wc ∧ cp_log (v_port (view t)) = final_log wc) ∧
  disk_is t i (2 * bsz) final_disk ∧ client_inv t.

Lemma check_exists (t : Sys) f' : v_disk (view t) = Some d → disk_is t i (2 * bsz) f' →
  check_is t mv (mismatch f' (fLba d) bsz mv (mem_get (v_mem (view t)) (fBuf d) (Z.to_nat mv))).
Proof.
  intros Hd Hdk. destruct Hdisk as (Hu & Hlba & Hnb & Hbsz). exists d, i, bsz, f'.
  split; [exact Hd|]. split_and!; try done. by destruct Hmv.
Qed.
Lemma post_turn st told t : core st mv told t → buffer mv t → client_inv t →
  ∃ t' wc, PostRdmaHook mv t = (Ret (), t') ∧ fStatus (v_rdma (view t')) = st ∧ v_acts (view t') = [a] ∧
    v_port (view t') = v_port (view t) ∧ disk_is t' i (2 * bsz) final_disk ∧ client_inv t' ∧ check_is t' mv wc ∧ checked wc.
Proof.
  intros (Hx & Hvd & Ha & Hmem & Hlog & Hbase & Hblk & Hdk & Hz) Hb Hinv. destruct Hdisk as (Hu & Hlba & Hnb & Hbsz).
  unfold final_disk, checked. destruct (decide (fFunc d = kFuncWrite ∧ mv ≠ 0)) as [[Hf Hne]|Hf].
  - rewrite bool_decide_eq_true_2, (proj2 (Z.eqb_neq _ _) Hne) by done. assert (Ew : w = false) by (unfold w; by rewrite Hf).
    destruct (PostRdmaHook_write d i bsz f mv t Hvd Hf Hdk Hu Hlba ltac:(lia) Hbsz) as (t' & H1 & Hv & Hfr & Hdk').
    eexists t', _. split; [exact H1|]. unfold buffer in Hb. rewrite Ew in Hb. rewrite Hb in Hdk'.
    split; [rewrite Hv; cbn [update setter v_rdma]; by rewrite Hx|]. split; [by rewrite Hv|]. split; [by rewrite Hv|].
    split; [exact Hdk'|]. split; [by eapply inv_frame|]. split; [eapply check_exists; [by rewrite Hv|exact Hdk']|].
    intros E. by rewrite E in Hf.
  - assert (Hnf : bool_decide (fFunc d = kFuncWrite) && negb (mv =? 0) = false).
    { case_bool_decide; [|done]. destruct (Z.eqb_spec mv 0); [done|]. exfalso. by apply Hf. }
    rewrite Hnf. eexists t, _. split.
    { unfold PostRdmaHook. simpl in Hvd. rewrite Hvd. destruct (Z.eqb_spec mv 0); [done|].
      rewrite (bool_decide_eq_true_2 (_ ≠ _)); [done|]. intros E. by apply Hf. }
    split; [by rewrite Hx|]. split; [done|]. split; [done|]. split; [done|]. split; [done|].
    split; [by eapply check_exists|]. intros E. f_equal. unfold buffer in Hb.
    assert (Ew : w = false) by (unfold w; by rewrite E). by rewrite Ew in Hb.
Qed.
Lemma handler_end done t :
  running done t → filled done t → 0 <= done <= mv → done < size →
  (if mv =? size then size <= done + max else mv < done + max) →
  ∃ t', RdmaHandler precb postcb t = (Ret 0, t') ∧ finished t'.
Proof.
  intros Hc Hb Hd Hds Hend.
  destruct (handler_last precb postcb cs addr mode size max mv w (fBuf d) (Some d) U held mem0 log0 psz ws a units_step Hsize Hmax Hmv Hlen Hws (λ _ _ H, H) pre_turn
    done t Hc Hb Hd Hds Hend) as (tp & clist & extra & st0 & H1 & Hcp & Hbp & Hi & _ & Hst & Hext & Hx).
  destruct (post_turn _ _ tp Hcp Hbp Hi) as (t3 & wc & H3 & F1 & F2 & F3 & F4 & F5 & F6 & F7).
  pose proof (end_not_busy size mv) as Hnb.
  destruct (postcb_law _ _ _ mv wc clist 3 extra t3 F5 Hst Hext Hx Hnb F6) as (t4 & H4 & Hi4 & E4).
  exists (retired t4). rewrite H1. split; [by apply (finish_tail_run postcb 3 clist tp mv _ _ t3 t4 H3 F1 Hnb H4 E4)|].
  destruct (retired_step t4) as [E5 Hf5].
  pose proof (step_trans _ _ _ _ _ E4 E5) as (Hv & _ & Hdk). pose proof Hcp as (_ & _ & _ & Hmp & Hlp & _).
  unfold finished. rewrite Hv. cbn [update setter v_rdma v_port v_mem v_disk v_acts].
  split; [done|]. split; [done|]. split; [rewrite F3; exact Hmp|]. split; [|split; [by apply Hdk|by eapply inv_frame]].
  exists wc. split; [done|]. unfold final_log. rewrite app_assoc, <- Hlp, <- F3. done.
Qed.

(** The transfer is done and its action is gone. *)
Definition gone (t : Sys) : Prop :=
  fStatus (sy_rdma t) = kStatusDone ∧ fActnList (sy_srv t) = [] ∧
  cp_mem (cport (sy_cpu t)) = (if w then mput addr (take (Z.to_nat mv) ws) mem0 else mem0) ∧
  (∃ wc, checked wc ∧ cp_log (cport (sy_cpu t)) = final_log wc) ∧
  disk_is t i (2 * bsz) final_disk ∧ client_inv t.
Lemma action_end done t :
  running done t → filled done t → 0 <= done <= mv → done < size →
  (if mv =? size then size <= done + max else mv < done + max) →
  ∃ t', call_action precb postcb t = (Ret (), t') ∧ gone t'.
Proof.
  intros Hc Hb Hd Hds He. destruct (handler_end done t Hc Hb Hd Hds He) as (t1 & H1 & Hs & Ha & Hm & Hlg & Hdk & Hi).
  eexists. split; [eapply call_action_run; [apply Hc|exact H1]|].
  pose proof (acts_step (next_acts 0) t1) as [(Hv & _ & Hdk') Hfr].
  split; [done|]. split; [|split; [exact Hm|split; [exact Hlg|split; [by apply Hdk'|by eapply inv_frame]]]].
  simpl in Ha. simpl. by rewrite Ha.
Qed.

Lemma disk_actions_run k done t :
  running done t → filled done t → 0 <= done <= mv → done < size →
  Z.of_nat k = turns max (size - done) (mv - done) →
  ∃ t', repeat_m k (call_action precb postcb) t = (Ret (), t') ∧ gone t'.
Proof.
  apply (actions_run precb postcb cs addr mode size max mv w (fBuf d) (Some d) U held mem0 log0 psz ws a units_step Hsize Hmax Hmv Hlen Hws (λ _ _ H, H) pre_turn).
  apply action_end.
Qed.
End DiskTransfer.

(** ** Queueing a transfer *)

Section Queue.
Context {S D V H A C : Type}.
Context `{!RlinkExec S, !Rbus D, !LinkLaws S D, !CpuBus D, !VirtDiskOps V, !VirtDiskSpec V}.
Notation Sys := (Rw11Sys S V H A C).

Lemma disk_part_step d (t : Sys) : is_Some (sy_disk t) →
  estep (λ v, v <| v_disk := Some d |>) t (t <| sy_disk := Some d |>).
Proof.
  intros Hd. split; (split; [done|split; [apply moved_refl|]]); [done|].
  split; [apply (kp_unit _ _ _ _ (units_refl t))|]. split; [done|intros _; by eexists].
Qed.
Lemma estep_disk g (t t' : Sys) : estep g t t' → is_Some (sy_disk t) → is_Some (sy_disk t').
Proof. intros [_ (_ & _ & Hk)]. apply (kp_disk _ _ _ _ Hk). Qed.

Lemma SetupDisk_ok size lba i fn pd bsz f (t : Sys) :
  is_Some (sy_disk t) → disk_is t i (2 * bsz) f →
  ∃ t' d m, SetupDisk size lba i fn pd t = (Ret (), t') ∧
    estep (λ v, v <| v_disk := Some d |> <| v_mem := m |>) t t' ∧
    fpUnit d = Some i ∧ fLba d = lba ∧ fNBlock d = blocks_for size bsz ∧ fFunc d = fn ∧ sy_srv t' = sy_srv t.
Proof.
  intros Hsd Hdisk. destruct (Hsd) as [d Hd]. unfold SetupDisk. rewrite Hd. autorewrite with run.
  set (d1 := d <| fpUnit := Some i |>). set (t1 := t <| sy_disk := Some d1 |>).
  assert (E1 : estep (λ v, v <| v_disk := Some d1 |>) t t1) by (by apply disk_part_step).
  rewrite (bind_Ret _ _ _ _ _ (unit_bszwrd_run d1 i (2 * bsz) f t1 (proj2 (proj2 (proj1 E1)) i _ f Hdisk) eq_refl)).
  replace (2 * bsz / 2) with bsz by (symmetry; rewrite Z.mul_comm; apply Z.div_mul; lia).
  set (d2 := d1 <| fNWord := size |> <| fNBlock := blocks_for size bsz |> <| fLba := lba |> <| fFunc := fn |>).
  destruct (fBufSize d2 <? blocks_for size bsz * bsz).
  - rewrite (bind_Ret _ _ _ _ _ (mem_read_run _ _ t1)).
    match goal with |- context [mem_write pd ?ws] => destruct (mem_write_step pd ws t1) as (t2 & H2 & E2 & _ & Hsrv) end.
    rewrite (bind_Ret _ _ _ _ _ H2). set (d3 := d2 <| fBuf := pd |> <| fBufSize := blocks_for size bsz * bsz |>).
    eexists (t2 <| sy_disk := Some d3 |>), d3, _. split; [reflexivity|]. split; [|done].
    eapply estep_eq; [eapply estep_trans; [eapply estep_trans; [exact E1|exact E2]|apply disk_part_step]|];
      [exact (estep_disk _ _ _ E2 (estep_disk _ _ _ E1 Hsd))|].
    cbn [update setter]. reflexivity.
  - eexists (t1 <| sy_disk := Some d2 |>), d2, (v_mem (view t)). split; [reflexivity|]. split; [|done].
    eapply estep_eq; [eapply estep_trans; [exact E1|apply disk_part_step; exact (estep_disk _ _ _ E1 Hsd)]|]. reflexivity.
Qed.

(** The size of the chunks. *)
Definition chunk_size (t : Sys) : Z :=
  if fChunksize (sy_rdma t) =? 0 then srv_blkprudent (sy_link t) else fChunksize (sy_rdma t).
Lemma SetupRdma_ok w addr buf size mode (t : Sys) :
  fStatus (sy_rdma t) = kStatusDone →
  ∃ t', SetupRdma w addr buf size mode t = (Ret (), t') ∧
    estep (λ v, v <| v_rdma := xfer (chunk_size t) kStatusBusy w addr mode buf size (chunk_size t) 0 |>) t t' ∧ sy_srv t' = sy_srv t.
Proof.
  intros Hst. unfold SetupRdma, IsActive. rewrite Hst. cbn [negb bool_decide decide].
  rewrite bool_decide_eq_true_2 by done. cbn [negb]. eexists. split; [apply rdma_run|].
  fold (chunk_size t). split; [|done]. eapply estep_eq; [by apply rdma_step|].
  unfold xfer. by rewrite Z.mul_0_r, Z.sub_0_r, !Z.add_0_r.
Qed.

(** A transfer of [size] words between [addr] and unit [i] can be queued. *)
Definition dma_ready (inv : Sys → Prop) (t : Sys) (addr mode size mv lba : Z) (i : nat) (bsz : Z) (f : Z → list Z) : Prop :=
  is_Some (sy_disk t) ∧ fStatus (sy_rdma t) = kStatusDone ∧ fActnList (sy_srv t) = [] ∧
  reach addr mode size mv (cport (sy_cpu t)) ∧ addr + 2 * size < 2 ^ 32 ∧ 0 < size ∧ 0 <= lba ∧ 0 < bsz ∧
  up t ∧ 0 < chunk_size t <= 65535 ∧ chunk_size t <= srv_blkmax (sy_link t) ∧
  disk_is t i (2 * bsz) f ∧ inv t.

Context (a : A) (precb : status → Z → Z → RlinkCommandList → M Sys RlinkCommandList).
Context (postcb : status → Z → RlinkCommandList → nat → M Sys ()).
Context `{!RdmaChunks precb postcb, !RdmaClient precb postcb}.

(** Behind [QueueWMem] or [QueueRMem], the transfer is on its way. *)
Lemma queue_start_ok ind w addr buf size mode mv od (U : Sys → Prop) ws (t : Sys) :
  (∀ g t t', step g t t' → U t → U t') → U t → sy_disk t = od → fStatus (sy_rdma t) = kStatusDone →
  fActnList (sy_srv t) = [] → reach addr mode size mv (cport (sy_cpu t)) → up t →
  chunk_size t <= srv_blkmax (sy_link t) → client_inv t →
  ∃ t', (rstat ind ;; SetupRdma w addr buf size mode ;; zoom sy_srv (QueueAction a)) t = (Ret (), t') ∧
    running precb postcb (chunk_size t) addr mode size (chunk_size t) mv w buf od U
      (cp_mem (cport (sy_cpu t))) (cp_log (cport (sy_cpu t))) (cp_size (cport (sy_cpu t))) ws a 0 t' ∧
    v_mem (view t') = v_mem (view t) ∧ frame t t'.
Proof.
  intros HU Hu Hod Hst Hacts Hreg Hbase Hmax Hinv. rewrite (bind_Ret _ _ _ _ _ (rstat_run ind t)).
  match goal with |- context [(SetupRdma _ _ _ _ _ ≫= _) ?x] => set (t2 := x) end.
  assert (E2 : estep (λ v, v) t t2) by apply rstat_step.
  assert (Hcs : chunk_size t2 = chunk_size t) by done.
  destruct (SetupRdma_ok w addr buf size mode t2 Hst) as (t3 & H3 & E3 & _).
  rewrite Hcs in E3. rewrite (bind_Ret _ _ _ _ _ H3).
  pose proof (estep_trans _ _ _ _ _ (estep_trans _ _ _ _ _ E2 E3) (acts_step (λ l, l ++ [a]) t3)) as E4.
  eexists (t3 <| sy_srv ::= λ s, s <| fActnList ::= λ l, l ++ [a] |> |>). split; [reflexivity|].
  pose proof E4 as [Es Hf]. pose proof Es as (Hv & _).
  split; [|split; [by rewrite Hv|exact Hf]]. split; [|split; [by rewrite Hv|by eapply inv_frame; [apply E4|]]].
  pose proof (step_up _ _ _ Es Hbase). pose proof (HU _ _ _ Es Hu).
  unfold core. rewrite Hv, (proj1 (step_blk _ _ _ Es)).
  cbn [update setter v_rdma v_port v_mem v_disk v_acts]. split_and!; try done.
  - simpl. by rewrite Hacts.
  - rewrite take_0. by destruct w.
  - by rewrite app_nil_r.
Qed.

(** The state behind [QueueDiskRead] and [QueueDiskWrite]. *)
Definition queued (fn : func) (addr size mode lba : Z) (i : nat) (pd : Z) : M Sys () :=
  SetupDisk size lba i fn pd ;;
  p ← buf_data;
  rstat (if bool_decide (fn = kFuncRead) then kStatNQueWMem else kStatNQueRMem) ;;
  SetupRdma (bool_decide (fn = kFuncRead)) addr p size mode ;; zoom sy_srv (QueueAction a).
(** Queueing returns for any request on a disk. *)
Lemma queued_returns fn addr mode size lba i pd bsz f (t : Sys) :
  is_Some (sy_disk t) → fStatus (sy_rdma t) = kStatusDone → disk_is t i (2 * bsz) f →
  ∃ t', queued fn addr size mode lba i pd t = (Ret (), t') ∧ frame t t' ∧
    (∀ j bs f, disk_is t j bs f → disk_is t' j bs f) ∧ is_Some (sy_disk t') ∧
    sy_srv t' = sy_srv t <| fActnList ::= λ l, l ++ [a] |> ∧
    fStatus (sy_rdma t') = kStatusBusy ∧ cport (sy_cpu t') = cport (sy_cpu t).
Proof.
  intros Hsd Hst Hdisk.
  destruct (SetupDisk_ok size lba i fn pd bsz f t Hsd Hdisk) as (t1 & d & m & H1 & E1 & _ & _ & _ & _ & Hs1).
  unfold queued. rewrite (bind_Ret _ _ _ _ _ H1). unfold buf_data. autorewrite with run.
  rewrite (bind_Ret _ _ _ _ _ (rstat_run _ t1)).
  match goal with |- context [(SetupRdma _ _ _ _ _ ≫= _) ?x] => set (t2 := x) end.
  pose proof (estep_trans _ _ _ _ _ E1 (rstat_step (if bool_decide (fn = kFuncRead) then kStatNQueWMem else kStatNQueRMem) t1)) as E2.
  fold t2 in E2.
  assert (Hst2 : fStatus (sy_rdma t2) = kStatusDone).
  { change (fStatus (v_rdma (view t2)) = kStatusDone). by destruct E2 as [[-> _] _]. }
  match goal with |- context [(SetupRdma ?w ?ad ?b ?s ?m ≫= _) _] =>
    destruct (SetupRdma_ok w ad b s m t2 Hst2) as (t3 & H3 & E3 & Hs3) end.
  rewrite (bind_Ret _ _ _ _ _ H3).
  pose proof (estep_trans _ _ _ _ _ (estep_trans _ _ _ _ _ E2 E3) (acts_step (λ l, l ++ [a]) t3)) as [(Hv & _ & Hdk) Hf].
  eexists. split; [reflexivity|]. split; [exact Hf|]. split; [exact Hdk|]. split; [|split; [|split]].
  - change (is_Some (v_disk (view (t3 <| sy_srv ::= λ s, s <| fActnList ::= λ l, l ++ [a] |> |>)))). rewrite Hv. by eexists.
  - assert (Hs : sy_srv t3 = sy_srv t) by (rewrite Hs3; exact Hs1). simpl. by rewrite Hs.
  - change (fStatus (v_rdma (view (t3 <| sy_srv ::= λ s, s <| fActnList ::= λ l, l ++ [a] |> |>))) = kStatusBusy). by rewrite Hv.
  - change (v_port (view (t3 <| sy_srv ::= λ s, s <| fActnList ::= λ l, l ++ [a] |> |>)) = v_port (view t)). by rewrite Hv.
Qed.
Lemma queue_ok fn addr mode size mv lba i pd bsz f (t : Sys) ws :
  dma_ready client_inv t addr mode size mv lba i bsz f →
  ∃ t' d, queued fn addr size mode lba i pd t = (Ret (), t') ∧
    running precb postcb (chunk_size t) addr mode size (chunk_size t) mv (bool_decide (fn = kFuncRead)) (fBuf d) (Some d)
      (λ t, disk_is t i (2 * bsz) f) (cp_mem (cport (sy_cpu t))) (cp_log (cport (sy_cpu t))) (cp_size (cport (sy_cpu t))) ws a 0 t' ∧
    fpUnit d = Some i ∧ fLba d = lba ∧ fNBlock d = blocks_for size bsz ∧ fFunc d = fn.
Proof.
  intros (Hsd & Hst & Hacts & Hreg & Haddr & Hsize & Hlba & Hbsz & Hbase & Hch & Hmax & Hdisk & Hinv).
  destruct (SetupDisk_ok size lba i fn pd bsz f t Hsd Hdisk) as (t1 & d & m & H1 & E1 & Hd1 & Hd2 & Hd3 & Hd4 & _).
  unfold queued. rewrite (bind_Ret _ _ _ _ _ H1). unfold buf_data. autorewrite with run.
  assert (Hd : sy_disk t1 = Some d) by (change (v_disk (view t1) = Some d); by destruct E1 as [[-> _] _]).
  rewrite Hd. pose proof E1 as [(Hv & _ & Hdk) Hf]. pose proof (step_blk _ _ _ (proj1 E1)) as [Hb1 Hb2].
  assert (Hcs : chunk_size t1 = chunk_size t).
  { unfold chunk_size. change (fChunksize (sy_rdma t1)) with (fChunksize (v_rdma (view t1))). by rewrite Hv, Hb2. }
  assert (Hp : cport (sy_cpu t1) = cport (sy_cpu t)) by (change (v_port (view t1) = v_port (view t)); by rewrite Hv).
  destruct (queue_start_ok (if bool_decide (fn = kFuncRead) then kStatNQueWMem else kStatNQueRMem) (bool_decide (fn = kFuncRead))
    addr (fBuf d) size mode mv (Some d) (λ t, disk_is t i (2 * bsz) f) ws t1) as (t2 & H2 & Hrun & _).
  - intros g u u' (_ & _ & Hu). apply Hu.
  - by apply Hdk.
  - exact Hd.
  - change (fStatus (v_rdma (view t1)) = kStatusDone). by rewrite Hv.
  - change (v_acts (view t1) = []). by rewrite Hv.
  - by rewrite Hp.
  - by eapply step_up; [apply E1|].
  - by rewrite Hcs, Hb1.
  - by eapply inv_frame.
  - rewrite Hcs, Hp in Hrun. by exists t2, d.
Qed.

Lemma length_disk_bytes (t : Sys) i bsz f lba n : disk_is t i (2 * bsz) f → 0 <= lba → 0 <= n → 0 < bsz →
  length (disk_bytes f lba n) = (2 * Z.to_nat (n * bsz))%nat.
Proof.
  intros (u & v & _ & _ & _ & Hok & Hbs & Hf) Hl Hn Hb. unfold disk_bytes, blocks.
  assert (Hlen : ∀ b, b ∈ seqZ lba n → length (f b) = (2 * Z.to_nat bsz)%nat).
  { intros b Hin. apply elem_of_seqZ in Hin. rewrite <- Hf by lia.
    destruct (vd_len v b Hok ltac:(lia)) as [_ E]. lia. }
  rewrite length_concat, map_map, (map_ext_in _ (λ _, (2 * Z.to_nat bsz)%nat)).
  2:{ intros b Hin. apply Hlen. by apply list_elem_of_In. }
  assert (Hsum : ∀ l : list Z, sum_list (map (λ _, (2 * Z.to_nat bsz)%nat) l) = (length l * (2 * Z.to_nat bsz))%nat).
  { induction l as [|x l IH]; simpl in *; lia. }
  etrans; [apply Hsum|]. rewrite length_seqZ. nia.
Qed.

(** The words a transfer moves. *)
Definition moves (fn : func) (addr size lba bsz : Z) (f : Z → list Z) (mem : Mem) : list Z :=
  if bool_decide (fn = kFuncRead) then take (Z.to_nat size) (pair_words (disk_bytes f lba (blocks_for size bsz)))
  else mwords mem addr (Z.to_nat size).
Lemma transfer_ok fn addr mode size mv lba i pd bsz f (t : Sys) :
  dma_ready client_inv t addr mode size mv lba i bsz f →
  (fn = kFuncRead → Forall is_u8 (disk_bytes f lba (blocks_for size bsz))) →
  let mem := cp_mem (cport (sy_cpu t)) in
  ∃ t1 t' d, queued fn addr size mode lba i pd t = (Ret (), t1) ∧
    repeat_m (Z.to_nat (turns (chunk_size t) size mv)) (call_action precb postcb) t1 = (Ret (), t') ∧
    gone precb postcb addr size mv d i bsz f mem (cp_log (cport (sy_cpu t))) (moves fn addr size lba bsz f mem) t' ∧ fFunc d = fn ∧ fLba d = lba.
Proof.
  intros Hr Hu8 mem. pose proof Hr as (_ & _ & _ & Hrch & Haddr & Hsize & Hlba & Hbsz & _ & Hch & _ & Hdisk & _).
  assert (Hmv : 0 <= mv <= size) by apply Hrch.
  destruct (blocks_for_bound size bsz Hsize Hbsz) as [Hb1 Hb2].
  set (xs := pair_words (disk_bytes f lba (blocks_for size bsz))).
  assert (Hxs : (Z.to_nat size <= length xs)%nat).
  { pose proof (length_disk_bytes t i bsz f lba (blocks_for size bsz) Hdisk Hlba (Z.lt_le_incl _ _ Hb1) Hbsz) as Hl.
    pose proof (length_pair_words (disk_bytes f lba (blocks_for size bsz))) as Hl2. fold xs in Hl2.
    rewrite Hl in Hl2. specialize (Hl2 (Nat.even_even _)). apply Nat.mul_cancel_l in Hl2; [lia|done]. }
  set (ws := moves fn addr size lba bsz f mem).
  assert (Hlen : length ws = Z.to_nat size).
  { unfold ws, moves. case_bool_decide; [rewrite length_take; fold xs; lia|apply length_mwords]. }
  assert (Hws : if bool_decide (fn = kFuncRead) then Forall is_u16 ws
                else ws = mwords mem addr (Z.to_nat size)).
  { unfold ws, moves. case_bool_decide; [|done]. by apply Forall_take, pair_words_u16, Hu8. }
  destruct (queue_ok fn addr mode size mv lba i pd bsz f t ws Hr) as
    (t1 & d & H1 & Hrun & Hd1 & Hd2 & Hd3 & Hd4).
  destruct (disk_actions_run precb postcb (chunk_size t) addr mode size (chunk_size t) mv d i bsz f mem (cp_log (cport (sy_cpu t))) (cp_size (cport (sy_cpu t))) ws a)
    with (k := Z.to_nat (turns (chunk_size t) size mv)) (done := 0) (t := t1) as (t' & H2 & Hg);
    rewrite ?Hd1, ?Hd2, ?Hd3, ?Hd4; try done; try lia.
  - intros Hrd. split; [|done]. unfold ws, moves. by rewrite Hrd.
  - intros [?|?]; [done|lia].
  - rewrite !Z.sub_0_r. apply Z2Nat.id. unfold turns. destruct (mv =? size).
    + destruct (blocks_for_bound size (chunk_size t)); lia.
    + pose proof (Z.div_pos mv (chunk_size t)). lia.
  - by exists t1, t', d.
Qed.
End Queue.

(** What the device is told about a transfer of [size] words of which [mv] were
    moved, when a write check finds [wc]. *)
Definition told_end {S D V H A C} `{!RlinkExec S, !Rbus D, !LinkLaws S D, !CpuBus D, !VirtDiskOps V, !VirtDiskSpec V}
    {precb : status → Z → Z → RlinkCommandList → M (Rw11Sys S V H A C) RlinkCommandList}
    {postcb : status → Z → RlinkCommandList → nat → M (Rw11Sys S V H A C) ()} `{!RdmaChunks precb postcb, !RdmaClient precb postcb}
    (size mv : Z) (wc : option Z) : list (Z * Z) :=
  (if mv =? size then client_pre size else []) ++ client_post (negb (mv =? size)) mv wc.

(** A disk read stores the words of the disk in memory.  Queued on an idle
    transfer, it needs one action of the server per chunk; then the transfer is
    idle again, the action is gone, the words of the blocks from [lba] on are
    in memory at [addr], all [size] of them, or the [mv] that fit below the end
    of memory; neither the rest of memory nor the disk has changed.  The device
    was told at the end, once, whether the transfer failed. *)
Theorem disk_read_dma {S D V H A C} `{!RlinkExec S, !Rbus D, !LinkLaws S D, !CpuBus D, !VirtDiskOps V, !VirtDiskSpec V}
    (precb : status → Z → Z → RlinkCommandList → M (Rw11Sys S V H A C) RlinkCommandList)
    (postcb : status → Z → RlinkCommandList → nat → M (Rw11Sys S V H A C) ()) `{!RdmaChunks precb postcb, !RdmaClient precb postcb}
    (a : A) (addr mode size mv lba : Z) (i : nat) (pd bsz : Z) (f : Z → list Z) (t : Rw11Sys S V H A C) :
  dma_ready client_inv t addr mode size mv lba i bsz f →
  Forall is_u8 (disk_bytes f lba (blocks_for size bsz)) →
  ∃ t1 t' wc, QueueDiskRead a addr size mode lba i pd t = (Ret (), t1) ∧
    repeat_m (Z.to_nat (turns (chunk_size t) size mv)) (call_action precb postcb) t1 = (Ret (), t') ∧
    fStatus (sy_rdma t') = kStatusDone ∧ fActnList (sy_srv t') = [] ∧
    cp_mem (cport (sy_cpu t')) =
      mput addr (take (Z.to_nat mv) (pair_words (disk_bytes f lba (blocks_for size bsz))))
        (cp_mem (cport (sy_cpu t))) ∧
    cp_log (cport (sy_cpu t')) = cp_log (cport (sy_cpu t)) ++ told_end size mv wc ∧
    disk_is t' i (2 * bsz) f ∧ client_inv t'.
Proof.
  intros Hr Hu8. assert (Hmv : 0 <= mv <= size) by (destruct Hr as (_ & _ & _ & Hrch & _); apply Hrch).
  destruct (transfer_ok a precb postcb kFuncRead addr mode size mv lba i pd bsz f t Hr (λ _, Hu8)) as
    (t1 & t' & d & H1 & H2 & (Hst & Ha & Hm & (wc & _ & Hlog) & Hd & Hi) & Hf & _).
  exists t1, t', wc. split; [exact H1|]. unfold final_disk in Hd. rewrite Hf in Hm, Hd.
  cbn [bool_decide decide] in Hm. rewrite bool_decide_eq_true_2 in Hm by done. unfold moves in Hm.
  rewrite bool_decide_eq_true_2, take_take, Nat.min_l in Hm by (done || lia). by split_and!.
Qed.

(** C38: A disk write stores words of memory on the disk.  Queued on an idle
    transfer, it needs one action of the server per chunk; then the transfer is
    idle again, the action is gone, memory is unchanged, and the blocks from
    [lba] on hold the words of memory at [addr], all [size] of them, or the [mv]
    that are below the end of memory, the last block filled with [0xdead]; all
    other blocks are as before.  The device was told at the end, once, whether
    the transfer failed. *)
Theorem disk_write_dma {S D V H A C} `{!RlinkExec S, !Rbus D, !LinkLaws S D, !CpuBus D, !VirtDiskOps V, !VirtDiskSpec V}
    (precb : status → Z → Z → RlinkCommandList → M (Rw11Sys S V H A C) RlinkCommandList)
    (postcb : status → Z → RlinkCommandList → nat → M (Rw11Sys S V H A C) ()) `{!RdmaChunks precb postcb, !RdmaClient precb postcb}
    (a : A) (addr mode size mv lba : Z) (i : nat) (pd bsz : Z) (f : Z → list Z) (t : Rw11Sys S V H A C) :
  dma_ready client_inv t addr mode size mv lba i bsz f →
  let ws := mwords (cp_mem (cport (sy_cpu t))) addr (Z.to_nat mv) ++ padding bsz mv in
  ∃ t1 t' wc, QueueDiskWrite a addr size mode lba i pd t = (Ret (), t1) ∧
    repeat_m (Z.to_nat (turns (chunk_size t) size mv)) (call_action precb postcb) t1 = (Ret (), t') ∧
    fStatus (sy_rdma t') = kStatusDone ∧ fActnList (sy_srv t') = [] ∧
    cp_mem (cport (sy_cpu t')) = cp_mem (cport (sy_cpu t)) ∧
    cp_log (cport (sy_cpu t')) = cp_log (cport (sy_cpu t)) ++ told_end size mv wc ∧
    disk_is t' i (2 * bsz) (if mv =? 0 then f else store_write (2 * bsz) lba (blocks_for mv bsz) (words_bytes ws) f) ∧
    client_inv t'.
Proof.
  intros Hr ws. assert (Hmv : 0 <= mv <= size) by (destruct Hr as (_ & _ & _ & Hrch & _); apply Hrch).
  destruct (transfer_ok a precb postcb kFuncWrite addr mode size mv lba i pd bsz f t Hr) as
    (t1 & t' & d & H1 & H2 & (Hst & Ha & Hm & (wc & _ & Hlog) & Hd & Hi) & Hf & Hl); [done|].
  exists t1, t', wc. split; [exact H1|]. unfold final_disk, moves in Hd. rewrite Hf in Hm, Hd. rewrite Hl in Hd.
  rewrite bool_decide_eq_true_2, (bool_decide_eq_false_2 (kFuncWrite = kFuncRead)), take_mwords in Hd by (done || lia).
  split_and!; try done. by destruct (mv =? 0).
Qed.

(** A write check compares the words of memory with the disk.  Queued on an
    idle transfer, it needs one action of the server per chunk, and changes
    neither memory nor disk; the device is told at the end, once, the place of
    the first word that differs among those moved, or that there is none. *)
Theorem disk_check_dma {S D V H A C} `{!RlinkExec S, !Rbus D, !LinkLaws S D, !CpuBus D, !VirtDiskOps V, !VirtDiskSpec V}
    (precb : status → Z → Z → RlinkCommandList → M (Rw11Sys S V H A C) RlinkCommandList)
    (postcb : status → Z → RlinkCommandList → nat → M (Rw11Sys S V H A C) ()) `{!RdmaChunks precb postcb, !RdmaClient precb postcb}
    (a : A) (addr mode size mv lba : Z) (i : nat) (pd bsz : Z) (f : Z → list Z) (t : Rw11Sys S V H A C) :
  dma_ready client_inv t addr mode size mv lba i bsz f →
  let wc := mismatch f lba bsz mv (mwords (cp_mem (cport (sy_cpu t))) addr (Z.to_nat mv)) in
  ∃ t1 t', QueueDiskWriteCheck a addr size mode lba i pd t = (Ret (), t1) ∧
    repeat_m (Z.to_nat (turns (chunk_size t) size mv)) (call_action precb postcb) t1 = (Ret (), t') ∧
    fStatus (sy_rdma t') = kStatusDone ∧ fActnList (sy_srv t') = [] ∧
    cp_mem (cport (sy_cpu t')) = cp_mem (cport (sy_cpu t)) ∧
    cp_log (cport (sy_cpu t')) = cp_log (cport (sy_cpu t)) ++ told_end size mv wc ∧
    disk_is t' i (2 * bsz) f ∧ client_inv t'.
Proof.
  intros Hr wc. assert (Hmv : 0 <= mv <= size) by (destruct Hr as (_ & _ & _ & Hrch & _); apply Hrch).
  destruct (transfer_ok a precb postcb kFuncWriteCheck addr mode size mv lba i pd bsz f t Hr) as
    (t1 & t' & d & H1 & H2 & (Hst & Ha & Hm & (wc' & Hwc & Hlog) & Hd & Hi) & Hf & Hl); [done|].
  exists t1, t'. split; [exact H1|]. unfold final_disk in Hd. rewrite Hf in Hm, Hd. rewrite (Hwc Hf), Hl in Hlog.
  unfold moves in Hlog. rewrite (bool_decide_eq_false_2 (kFuncWriteCheck = kFuncRead)), take_mwords in Hlog by (done || lia).
  by split_and!.
Qed.

(** A transfer without a controller behind it, over the real link with the
    control port of a cpu behind its core, and a disk with blocks of four bytes
    in a file. *)
#[local] Instance CpPort_inhabited : Inhabited CpPort := populate (mkCpPort 0 false false 3 false ∅ 0 []).
Definition wire_cpu : Rw11Cpu (RlinkLink (CorePort CpPort)) :=
  (Cpu_ctor "w11a" 0 (core_link (mkCpPort 0 false false 3 false ∅ 0x2000 []))) <| fMemSize := 0x2000 |>.
Notation demo_sys := (Rw11Sys (RlinkLink (CorePort CpPort)) (Rw11VirtDisk MemFile) () () ()).
Definition quiet_pre (_ : status) (_ _ : Z) (l : RlinkCommandList) : M demo_sys RlinkCommandList := mret l.
Definition quiet_post (_ : status) (_ : Z) (_ : RlinkCommandList) (_ : nat) : M demo_sys () := mret ().
#[local] Instance quiet_chunks : RdmaChunks quiet_pre quiet_post.
Proof.
  refine {| client_inv _ := True; client_ext _ _ := True; client_pre _ := [] |}; [done| |].
  - intros st nd nn l t _. exists [], t. split.
    { unfold quiet_pre. simpl. rewrite app_nil_r. by destruct l. }
    split; [apply step_id|]. split; [done|]. split; [|done]. split; [done|]. split; [done|]. split; [done|].
    split; [|intros m0 m d; by exists []].
    case_bool_decide; intros m0 m d; exists [], d; by rewrite logged_nil.
  - intros nd l ncmd extra t _ _ _. exists t. split; [done|]. split; [done|apply step_id].
Defined.
#[local] Instance quiet_client : RdmaClient quiet_pre quiet_post.
Proof.
  refine {| client_post _ _ _ := [] |}.
  intros st0 st babo nd wc l ncmd extra t _ _ _ _ _ _. exists t. split; [done|]. split; [done|].
  eapply step_eq; [apply step_id|]. cbn [update setter]. rewrite logged_nil. by destruct (view t).
Defined.
Definition demo_disk : Rw11VirtDisk MemFile :=
  VirtDiskFile (mem_disk 4 [1; 0; 2; 0; 3; 0; 4; 0; 5; 0; 6; 0; 7; 0; 8; 0]).
Definition demo_unit : Rw11UnitDisk (Rw11VirtDisk MemFile) :=
  mkUnitDisk (Some demo_disk) "rk05" true 1 1 8 4 8 false.
Definition demo_dma : demo_sys :=
  mkSys RlinkServer_ctor wire_cpu [demo_unit] true (RdmaDisk_ctor.1 <| fChunksize := 2 |>)
    (Some RdmaDisk_ctor.2) ().
Lemma demo_up : up demo_dma.
Proof.
  split; [done|]. change (sy_link demo_dma) with (core_link (mkCpPort 0 false false 3 false ∅ 0x2000 [])).
  cbv beta delta [link_ok Link_laws] iota. apply core_link_is_up.
Qed.
Lemma demo_ready : dma_ready (client_inv (precb := quiet_pre) (postcb := quiet_post)) demo_dma
    0x100 0xc0 5 5 1 0 2 (disk_block demo_disk).
Proof.
  split_and!; try done; try (apply Z.ltb_lt; by vm_compute); try (apply Z.leb_le; by vm_compute).
  - apply demo_up.
  - exists demo_unit, demo_disk. split_and!; try done. by apply mem_disk_ok.
Qed.
(** Two of five words are below the end of the memory. *)
Lemma demo_end : dma_ready (client_inv (precb := quiet_pre) (postcb := quiet_post)) demo_dma
    0x1ffc 0xc0 5 2 1 0 2 (disk_block demo_disk).
Proof.
  assert (Hl : cp_limit (addressed 0x1ffc 0xc0 (cport (sy_cpu demo_dma))) = 0x2000) by (by vm_compute).
  split_and!; try done; try (apply Z.ltb_lt; by vm_compute); try (apply Z.leb_le; by vm_compute).
  - split_and!; try done. cbv zeta. rewrite Hl. split_and!; [by right|done|done].
  - apply demo_up.
  - exists demo_unit, demo_disk. split_and!; try done. by apply mem_disk_ok.
Qed.
Lemma disk_read_dma_witness : ∃ t1 t' wc,
  QueueDiskRead () 0x1ffc 5 0xc0 1 0 500 demo_dma = (Ret (), t1) ∧
  repeat_m 2 (call_action quiet_pre quiet_post) t1 = (Ret (), t') ∧
  fStatus (sy_rdma t') = kStatusDone ∧ fActnList (sy_srv t') = [] ∧
  cp_mem (cport (sy_cpu t')) = mput 0x1ffc [3; 4] (cp_mem (cport (sy_cpu demo_dma))) ∧
  cp_log (cport (sy_cpu t')) = [] ++ told_end (precb := quiet_pre) (postcb := quiet_post) 5 2 wc ∧
  disk_is t' 0 (2 * 2) (disk_block demo_disk) ∧ True.
Proof.
  refine (disk_read_dma quiet_pre quiet_post () 0x1ffc 0xc0 5 2 1 0 500 2 (disk_block demo_disk) demo_dma demo_end _).
  repeat constructor; vm_compute; intros; congruence.
Defined.
Lemma disk_write_dma_witness : ∃ t1 t' wc,
  QueueDiskWrite () 0x100 5 0xc0 1 0 500 demo_dma = (Ret (), t1) ∧
  repeat_m 3 (call_action quiet_pre quiet_post) t1 = (Ret (), t') ∧
  fStatus (sy_rdma t') = kStatusDone ∧ fActnList (sy_srv t') = [] ∧
  cp_mem (cport (sy_cpu t')) = cp_mem (cport (sy_cpu demo_dma)) ∧
  cp_log (cport (sy_cpu t')) = [] ++ told_end (precb := quiet_pre) (postcb := quiet_post) 5 5 wc ∧
  disk_is t' 0 (2 * 2) (store_write (2 * 2) 1 3 (words_bytes [0; 0; 0; 0; 0; 0xdead]) (disk_block demo_disk)) ∧ True.
Proof.
  exact (disk_write_dma quiet_pre quiet_post () 0x100 0xc0 5 5 1 0 500 2 (disk_block demo_disk) demo_dma demo_ready).
Defined.
(** The memory is zero, the disk is not. *)
Lemma disk_check_dma_witness : ∃ t1 t',
  QueueDiskWriteCheck () 0x100 5 0xc0 1 0 500 demo_dma = (Ret (), t1) ∧
  repeat_m 3 (call_action quiet_pre quiet_post) t1 = (Ret (), t') ∧
  fStatus (sy_rdma t') = kStatusDone ∧ fActnList (sy_srv t') = [] ∧
  cp_mem (cport (sy_cpu t')) = cp_mem (cport (sy_cpu demo_dma)) ∧
  cp_log (cport (sy_cpu t')) = [] ++ told_end (precb := quiet_pre) (postcb := quiet_post) 5 5 (Some 0) ∧
  disk_is t' 0 (2 * 2) (disk_block demo_disk) ∧ True.
Proof.
  exact (disk_check_dma quiet_pre quiet_post () 0x100 0xc0 5 5 1 0 500 2 (disk_block demo_disk) demo_dma demo_ready).
Defined.
