(* ===== verification/Cntl.v ===== *)
(** * librw11/Rw11Cntl: what all controllers have

    A controller has a name, a base address on the ibus, an attention bit, and a
    command list that reads its registers when the device calls for attention.
    It lives in [Rw11Sys]: the cpu, the server, its units and its transfer are
    reached there, [fStarted] is [sy_started], and [sy_client] holds the fields
    of the class.  A type [C] of such fields gives access to the base class by
    [cn : C → Cntl].

    Trace levels and log lines are not modelled. *)

From Stdlib Require Import Ascii.
From S2P Require Import Prelude.
From S2P Require Import Rstats.
From S2P Require Import Command.
From S2P Require Import CommandList.
From S2P Require Import Connect.
From S2P Require Import Link.
From S2P Require Import Server.
From S2P Require Import VirtDisk.
From S2P Require Import UnitDisk.
From S2P Require Import Cpu.
From S2P Require Import Rdma.

Open Scope Z_scope.

(** ** Data *)

Definition kStatNAttnHdl : nat := 0.
Definition kStatNAttnNoAct : nat := 1.

Record Cntl := mkCntl {
  cn_fType : string;
  cn_fName : string;
  cn_fBase : Z;
  cn_fLam : Z;
  cn_fEnable : bool;
  cn_fProbe : Rw11Probe;
  cn_fPrimClist : RlinkCommandList;
  cn_fStats : Rstats }.
#[export] Instance eta_Cntl : Eta Cntl := λ c,
  mkCntl (cn_fType c) (cn_fName c) (cn_fBase c) (cn_fLam c) (cn_fEnable c) (cn_fProbe c)
    (cn_fPrimClist c) (cn_fStats c).
Definition cntl_stat_table : list (string * string) :=
  ([("NAttnHdl", "AttnHandler() calls"); ("NAttnNoAct", "AttnHandler() no action return")])%string.
(** [table]: the counters of the derived class. *)
Definition Cntl_ctor (type : string) (table : list (string * string)) : Cntl :=
  mkCntl type EmptyString 0 (-1) true (Probe_ctor 0 false false) RlinkCommandList_ctor
    (Define_all (cntl_stat_table ++ table)).
Definition ConfigCntl (name : string) (base lam probeoff : Z) (probeint proberem : bool) (c : Cntl) : Cntl :=
  c <| cn_fName := name |> <| cn_fBase := base |> <| cn_fLam := lam |>
    <| cn_fProbe ::= λ p, p <| pb_fAddr := u16 (base + probeoff) |> <| fProbeInt := probeint |>
                            <| fProbeRem := proberem |> |>.
(** [char('0' + index/10)]. *)
Definition digit (n : Z) : ascii := ascii_of_nat (Z.to_nat (u8 (48 + n))).
Definition UnitName (index : Z) (c : Cntl) : string :=
  (cn_fName c ++ (if (9 <? index)%Z then String (digit (index / 10)%Z) EmptyString else EmptyString) ++
   String (digit (index mod 10)%Z) EmptyString)%string.

(** ** Operations *)

Section Cntl.
Context {S V H A C : Type} `{!RlinkExec S}.
Context (cn : C → Cntl) `{!Setter cn}.
Notation Sys := (Rw11Sys S V H A C).
Notation Cpu := (Rw11Cpu S).

Definition cntl_of (t : Sys) : Cntl := cn (sy_client t).
Definition client (f : C → C) : M Sys () := modify (λ t, t <| sy_client ::= f |>).
Definition get_client {B} (f : C → B) : M Sys B := gets (λ t, f (sy_client t)).
Definition cstat (ind : nat) : M Sys () := client (λ c, c <| cn ::= λ c, c <| cn_fStats ::= inc ind 1 |> |>).

Definition SetEnable (ena : bool) : M Sys () := λ t,
  if sy_started t then (Exc (Rexception "Rw11Cntl::SetEnable" "only allowed before Start()"), t)
  else client (λ c, c <| cn ::= λ c, c <| cn_fEnable := ena |> |>) t.
Definition Probe : M Sys Rw11Probe := λ t,
  (dsc ← zoom sy_cpu (ProbeCntl (cn_fProbe (cntl_of t)));
   client (λ c, c <| cn ::= λ c, c <| cn_fProbe := dsc |> |>) ;;
   mret dsc) t.
(** [fStarted || fLam<0 || !fEnable || !fProbe.Found()]. *)
Definition bad_start (t : Sys) : bool :=
  sy_started t || (cn_fLam (cntl_of t) <? 0) || negb (cn_fEnable (cntl_of t)) ||
  negb (Found (cn_fProbe (cntl_of t))).
(** Unit by unit. *)
Fixpoint UnitSetupAll (setup : nat → M Sys ()) (i n : nat) : M Sys () :=
  match n with
  | O => mret ()
  | Datatypes.S n => setup i ;; UnitSetupAll setup (Datatypes.S i) n
  end.
(** A unit of the controller; the arrays of the code have fixed size. *)
Definition unit_at (i : nat) : M Sys (Rw11UnitDisk V) := λ t,
  match sy_units t !! i with
  | Some u => (Ret u, t)
  | None => (Exc (undefined "unit index out of range"), t)
  end.

(** ** Command lists *)

(** [Cpu().AddXxx(clist, ..)] on a list of the caller. *)
Definition add_cmds {B} (m : Cpu → M RlinkCommandList B) (l : RlinkCommandList) :
    M Sys (B * RlinkCommandList) := λ t,
  match m (sy_cpu t) l with
  | (Ret b, l) => (Ret (b, l), t)
  | (Exc e, _) => (Exc e, t)
  | (NoFuel, _) => (NoFuel, t)
  end.
(** [Cpu().AddWibr] of several registers. *)
Fixpoint AddWibrs (ws : list (Z * Z)) (c : Cpu) : M RlinkCommandList () :=
  match ws with
  | [] => mret ()
  | (a, v) :: ws => AddWibr a v c ;; AddWibrs ws c
  end.
(** [AllIAddrMapInsert(Name()+"..", Base()+k..)]. *)
Definition map_regs (regs : list (string * Z)) : M Sys () := λ t,
  zoom sy_cpu (insert_all AllIAddrMapInsert
    (map (λ '(n, off), (cn_fName (cntl_of t) ++ n, u16 (cn_fBase (cntl_of t) + off))%string) regs)) t.
(** The attention command and the registers of the primary list. *)
Fixpoint AddRibrs (regs : list Z) (c : Cpu) : M RlinkCommandList (list nat) :=
  match regs with
  | [] => mret []
  | r :: regs => i ← AddRibr r c; is_ ← AddRibrs regs c; mret (i :: is_)
  end.
Definition prim_list (offs : list Z) (t : Sys) : M RlinkCommandList (list nat) :=
  AddAttn ;; AddRibrs (map (λ off, u16 (cn_fBase (cntl_of t) + off)) offs) (sy_cpu t).
(** [Server().GetAttnInfo(args, fPrimClist)]. *)
Definition harvest (args : AttnArgs) : M Sys AttnArgs := λ t,
  ('(args, l) ← GetAttnInfo sy_link args (cn_fPrimClist (cntl_of t));
   client (λ c, c <| cn ::= λ c, c <| cn_fPrimClist := l |> |>) ;;
   mret args) t.
(** [fPrimClist[ind].Data()]. *)
Definition prim_data (ind : nat) : M Sys Z := λ t,
  match at_ ind (cn_fPrimClist (cntl_of t)) with
  | Ret x => (Ret (fData x), t)
  | Exc e => (Exc e, t)
  | NoFuel => (NoFuel, t)
  end.
End Cntl.

(** ** Rw11: the attention handler of the cpus, here of one *)

Section Rw11.
Context {S V H A C : Type} `{!RlinkExec S}.
Definition Rw11_AttnHandler (args : AttnArgs) : M (Rw11Sys S V H A C) AttnArgs :=
  args ← GetAttnInfo_default sy_link args;
  zoom sy_cpu W11AttnHandler ;;
  mret args.
End Rw11.
