(* ===== verification/Rk11.v ===== *)
(** * librw11/Rw11CntlRK11, Rw11UnitRK11: the disk controller RK11

    The device on the FPGA implements the registers; when the program in the
    PDP-11 sets the go bit it raises an attention, and this controller executes
    the function: it answers by register writes, or queues a disk transfer whose
    end is reported by the callbacks.

    [V]: the disk containers; [a]: the action bound to the transfer handler;
    [pd]: storage for a buffer that has to grow.  The log and the trace are not
    modelled. *)

From S2P Require Import Prelude.
From S2P Require Import Rstats.
From S2P Require Import Command.
From S2P Require Import CommandList.
From S2P Require Import Connect.
From S2P Require Import Link.
From S2P Require Import Server.
From S2P Require Import VirtDisk.
From S2P Require Import UnitDisk.
From S2P Require Import Cpu.
From S2P Require Import Rdma.
From S2P Require Import Cntl.

Open Scope Z_scope.

(** ** Constants *)

Definition kRKDS : Z := 0x0.
Definition kRKER : Z := 0x2.
Definition kRKCS : Z := 0x4.
Definition kRKWC : Z := 0x6.
Definition kRKBA : Z := 0x8.
Definition kRKDA : Z := 0xa.
Definition kRKMR : Z := 0xc.
Definition kProbeOff : Z := kRKCS.
Definition kProbeInt : bool := true.
Definition kProbeRem : bool := true.

Definition kRKDS_V_ID : Z := 13.
Definition kRKDS_M_HDEN : Z := 0x800.
Definition kRKDS_M_SOK : Z := 0x100.
Definition kRKDS_M_DRY : Z := 0x80.
Definition kRKDS_M_ADRY : Z := 0x40.
Definition kRKDS_M_WPS : Z := 0x20.
Definition kRKDS_B_SC : Z := 0xf.
Definition kRKER_M_DRE : Z := 0x8000.
Definition kRKER_M_OVR : Z := 0x4000.
Definition kRKER_M_WLO : Z := 0x2000.
Definition kRKER_M_PGE : Z := 0x800.
Definition kRKER_M_NXM : Z := 0x400.
Definition kRKER_M_NXD : Z := 0x80.
Definition kRKER_M_NXC : Z := 0x40.
Definition kRKER_M_NXS : Z := 0x20.
Definition kRKER_M_WCE : Z := 0x1.
Definition kRKCS_M_IBA : Z := 0x800.
Definition kRKCS_M_FMT : Z := 0x400.
Definition kRKCS_M_RWA : Z := 0x200.
Definition kRKCS_M_SSE : Z := 0x100.
Definition kRKCS_M_RDY : Z := 0x80.
Definition kRKCS_M_MEX : Z := 0x30.
Definition kRKCS_V_MEX : Z := 4.
Definition kRKCS_B_MEX : Z := 0x3.
Definition kRKCS_V_FUNC : Z := 1.
Definition kRKCS_B_FUNC : Z := 0x7.
Definition kRKCS_M_GO : Z := 0x1.
Definition kFUNC_CRESET : Z := 0.
Definition kFUNC_WRITE : Z := 1.
Definition kFUNC_READ : Z := 2.
Definition kFUNC_WCHK : Z := 3.
Definition kFUNC_SEEK : Z := 4.
Definition kFUNC_RCHK : Z := 5.
Definition kFUNC_DRESET : Z := 6.
Definition kFUNC_WLOCK : Z := 7.
Definition kRKDA_M_DRSEL : Z := 0xe000.
Definition kRKDA_V_DRSEL : Z := 13.
Definition kRKDA_B_DRSEL : Z := 0x7.
Definition kRKDA_V_CYL : Z := 5.
Definition kRKDA_B_CYL : Z := 0xff.
Definition kRKDA_V_SUR : Z := 4.
Definition kRKDA_B_SUR : Z := 0x1.
Definition kRKDA_B_SC : Z := 0xf.
Definition kRKMR_M_SBCLR : Z := 0x400.
Definition kRKMR_M_CRESET : Z := 0x200.
Definition kRKMR_M_FDONE : Z := 0x100.

Definition kStatNFuncCreset : nat := 2.
Definition kStatNFuncWrite : nat := 3.
Definition kStatNFuncRead : nat := 4.
Definition kStatNFuncWchk : nat := 5.
Definition kStatNFuncSeek : nat := 6.
Definition kStatNFuncRchk : nat := 7.
Definition kStatNFuncDreset : nat := 8.
Definition kStatNFuncWlock : nat := 9.

(** ** Data *)

Record RK11 := mkRK11 {
  rk_cntl : Cntl;
  fPC_rkwc : nat;
  fPC_rkba : nat;
  fPC_rkda : nat;
  fPC_rkmr : nat;
  fPC_rkcs : nat;
  fRd_rkcs : Z;
  fRd_rkda : Z;
  fRd_addr : Z;
  fRd_lba : Z;
  fRd_nwrd : Z;
  fRd_fu : Z;
  fRd_ovr : bool;
  fRkds : list Z }.      (** [Rw11UnitRK11::fRkds], by unit *)
#[export] Instance eta_RK11 : Eta RK11 := λ r,
  mkRK11 (rk_cntl r) (fPC_rkwc r) (fPC_rkba r) (fPC_rkda r) (fPC_rkmr r) (fPC_rkcs r) (fRd_rkcs r)
    (fRd_rkda r) (fRd_addr r) (fRd_lba r) (fRd_nwrd r) (fRd_fu r) (fRd_ovr r) (fRkds r).

Definition NUnit : nat := 8.
Definition UnitRK11_ctor {V} : Rw11UnitDisk V := mkUnitDisk None "rk05" true 203 2 12 512 (203 * 2 * 12) false.
Definition rk11_stat_table : list (string * string) :=
  ([("NFuncCreset", "func CRESET"); ("NFuncWrite", "func WRITE"); ("NFuncRead", "func READ");
    ("NFuncWchk", "func WCHK"); ("NFuncSeek", "func SEEK"); ("NFuncRchk", "func RCHK");
    ("NFuncDreset", "func DRESET"); ("NFuncWlock ", "func WLOCK")])%string.
Definition RK11_ctor : RK11 :=
  mkRK11 (Cntl_ctor "rk11" rk11_stat_table) 0 0 0 0 0 0 0 0 0 0 0 false (replicate NUnit 0).
(** The controller with its units and its transfer. *)
Definition CntlRK11_ctor {S V H A} (srv : RlinkServer H A) (cpu : Rw11Cpu S) : Rw11Sys S V H A RK11 :=
  mkSys srv cpu (replicate NUnit UnitRK11_ctor) false RdmaDisk_ctor.1 (Some RdmaDisk_ctor.2) RK11_ctor.

(** Bits [v] up of a register. *)
Definition field (r v m : Z) : Z := Z.land (Z.shiftr r v) m.

(** ** Operations *)

Section RK11.
Context {S V H A : Type} `{!RlinkExec S, !VirtDiskOps V}.
Notation Sys := (Rw11Sys S V H A RK11).
Notation Unit := (Rw11UnitDisk V).
Notation Cpu := (Rw11Cpu S).

Definition rstat_ (ind : nat) : M Sys () := cstat rk_cntl ind.
(** The ibus address of a register. *)
Definition rk_reg (rk : RK11) (off : Z) : Z := u16 (cn_fBase (rk_cntl rk) + off).
Definition rk_wibr (rk : RK11) (ws : list (Z * Z)) (c : Cpu) : M RlinkCommandList () :=
  AddWibrs (map (λ '(off, v), (rk_reg rk off, v)) ws) c.

Definition Config (name : string) (base lam : Z) : M Sys () :=
  client (λ r, r <| rk_cntl ::= ConfigCntl name base lam kProbeOff kProbeInt kProbeRem |>).

Definition unit_rkds (i : nat) : M Sys Z := λ t,
  match fRkds (sy_client t) !! i with
  | Some x => (Ret x, t)
  | None => (Exc (undefined "unit index out of range"), t)
  end.
Definition SetRkds (i : nat) (rkds : Z) : M Sys () := client (λ r, r <| fRkds ::= <[i := rkds]> |>).
(** [hasvirt]: a disk is attached. *)
Definition rkds_of (ind : Z) (hasvirt wprot : bool) : Z :=
  let rkds := u16 (Z.shiftl ind kRKDS_V_ID) in
  if hasvirt then
    let rkds := Z.lor (Z.lor (Z.lor (Z.lor rkds kRKDS_M_HDEN) kRKDS_M_SOK) kRKDS_M_DRY) kRKDS_M_ADRY in
    if wprot then Z.lor rkds kRKDS_M_WPS else rkds
  else rkds.
Definition UnitSetup (ind : nat) : M Sys () := λ t,
  (unit ← unit_at ind;
   let rkds := rkds_of (Z.of_nat ind) (HasVirt unit) (ufWProt unit) in
   SetRkds ind rkds ;;
   zoom sy_cpu (ExecWibr (rk_reg (sy_client t) kRKDS) rkds 0 0 0 0)) t.

(** [self]: the controller, as the data pointer of its attention handler [h]. *)
Definition Start (h : H) (self : Z) : M Sys () := λ t,
  if bad_start rk_cntl t
  then (Exc (Rexception "Rw11CntlRK11::Start" "Bad state: started, no lam, not enable, not found"), t)
  else
    (map_regs rk_cntl [(".ds", kRKDS); (".er", kRKER); (".cs", kRKCS); (".wc", kRKWC); (".ba", kRKBA);
                       (".da", kRKDA); (".mr", kRKMR)]%string ;;
     UnitSetupAll UnitSetup 0 NUnit ;;
     '(is_, l) ← (λ t, new_clist (prim_list rk_cntl [kRKWC; kRKBA; kRKDA; kRKMR; kRKCS] t) t);
     let pc := λ k, nth k is_ O in
     client (λ r, r <| rk_cntl ::= λ c, c <| cn_fPrimClist := l |> |> <| fPC_rkwc := pc 0%nat |>
                    <| fPC_rkba := pc 1%nat |> <| fPC_rkda := pc 2%nat |> <| fPC_rkmr := pc 3%nat |>
                    <| fPC_rkcs := pc 4%nat |>) ;;
     zoom sy_srv (AddAttnHandler h (u16 (Z.shiftl 1 (cn_fLam (rk_cntl (sy_client t))))) self) ;;
     modify (λ t, t <| sy_started := true |>)) t.

(** In the code in octal. *)
Definition BootCode (unit : Z) : list Z * Z * Z :=
  let start := 0x400 in
  ([0x444b; 0x15c6; start; 0x15c0; u16 unit; 0x1003; 0x00c3; 0x0cc3; 0x0cc3; 0x0cc3; 0x0cc3; 0x0cc3;
    0x15c1; 0xff0a; 0x10c9; 0x0a21; 0x15e1; 0xfe00; 0x15e1; 0x0005; 0x0a02; 0x0a03; 0x15c4; start + 16;
    0x0a05; 0x8bc9; 0x80fe; 0x8a09; 0x0a07], start, start + 2).

(** *** The answers to the device *)

Definition AddErrorExit (rk : RK11) (rker : Z) : Cpu → M RlinkCommandList () :=
  rk_wibr rk [(kRKER, rker); (kRKMR, kRKMR_M_FDONE)].
(** The registers behind a transfer of [ndone] words. *)
Definition exit_regs (rk : RK11) (unit : Unit) (ndone rker : Z) : list (Z * Z) :=
  let nblk := Nwrd2Nblk (u32 ndone) unit in
  let addr := u32 (fRd_addr rk + 2 * ndone) in
  let lba := fRd_lba rk + nblk in
  let nrest := u32 (fRd_nwrd rk - ndone) in
  let ba := Z.land addr 0xfffe in
  let mex := Z.land (Z.shiftr addr 16) 0x3 in
  let cs := Z.lor (Z.ldiff (fRd_rkcs rk) kRKCS_M_MEX) (Z.shiftl mex kRKCS_V_MEX) in
  let '(cy, hd, se) := Lba2Chs (u32 lba) unit in
  let da := u16 (Z.lor (Z.lor (Z.lor (Z.land (fRd_rkda rk) kRKDA_M_DRSEL) (Z.shiftl cy kRKDA_V_CYL))
                         (Z.shiftl hd kRKDA_V_SUR)) se) in
  let rker := if fRd_ovr rk then Z.lor rker kRKER_M_OVR else rker in
  (if negb (rker =? 0) then [(kRKER, rker)] else []) ++
  [(kRKWC, Z.land (u32 (- nrest)) 0xffff); (kRKBA, ba); (kRKDA, da)] ++
  (if negb (cs =? fRd_rkcs rk) then [(kRKCS, cs)] else []) ++
  [(kRKMR, kRKMR_M_FDONE)].
Definition AddNormalExit (rk : RK11) (unit : Unit) (ndone rker : Z) : Cpu → M RlinkCommandList () :=
  rk_wibr rk (exit_regs rk unit ndone rker).
Definition drive (rkda : Z) : Z := field rkda kRKDA_V_DRSEL kRKDA_B_DRSEL.
(** On the unit of the request. *)
Definition normal_exit (l : RlinkCommandList) (ndone rker : Z) : M Sys RlinkCommandList :=
  rk ← get_client id;
  unit ← unit_at (Z.to_nat (drive (fRd_rkda rk)));
  '(_, l) ← add_cmds (AddNormalExit rk unit ndone rker) l;
  mret l.

(** *** The callbacks of the transfer *)

Definition RdmaPreExecCB (stat : status) (nwdone nwnext : Z) (clist : RlinkCommandList) : M Sys RlinkCommandList :=
  fu ← get_client fRd_fu;
  if bool_decide (stat = kStatusBusyLast) && negb (fu =? kFUNC_WCHK) then
    '(_, clist) ← add_cmds (λ _, AddLabo) clist;
    normal_exit clist (nwdone + nwnext) 0
  else mret clist.
Definition RdmaPostExecCB (stat : status) (ndone : Z) (clist : RlinkCommandList) (ncmd : nat) : M Sys () :=
  if bool_decide (stat = kStatusBusy) then mret ()
  else
    fu ← get_client fRd_fu;
    cs ← get_client fRd_rkcs;
    '(ndone, rker) ← (if fu =? kFUNC_WCHK then
        nwcok ← WriteCheck ndone;
        mret (if negb (nwcok =? ndone)
              then (if negb (Z.land cs kRKCS_M_SSE =? 0) then nwcok else ndone, kRKER_M_WCE)
              else (ndone, 0))
      else mret (ndone, 0));
    let rker := if bool_decide (stat = kStatusFailRdma) then Z.lor rker kRKER_M_NXM else rker in
    let finish :=
      l ← normal_exit RlinkCommandList_ctor ndone rker;
      exec_list l ;; mret () in
    if (ncmd <? CommandList.Size clist)%nat then
      cmd ← cmd_of ncmd clist;
      if negb (Command cmd =? kCmdLabo) || (negb (rker =? 0) && (fData cmd =? 0))
      then throw (Rexception "Rw11CntlRK11::RdmaPostExecCB" "Bad state: Labo not found or missed abort")
      else if fData cmd =? 0 then mret () else finish
    else finish.

(** *** The attention handler *)

Section Attn.
Variables (a : A) (pd : Z).

(** Errors of the disk address. *)
Definition addr_error (cy se : Z) (unit : Unit) : Z :=
  Z.lor (if ufNSect unit <=? se then kRKER_M_NXS else 0) (if ufNCyl unit <=? cy then kRKER_M_NXC else 0).
(** General abort conditions. *)
Definition abort_error (fu rkcs : Z) (unit : Unit) : Z :=
  if negb (fu =? kFUNC_CRESET) && negb (HasVirt unit) then kRKER_M_NXD
  else if negb (fu =? kFUNC_WRITE) && negb (fu =? kFUNC_READ) &&
          negb (Z.land rkcs (Z.lor kRKCS_M_FMT kRKCS_M_RWA) =? 0) then kRKER_M_PGE
  else if negb (Z.land rkcs kRKCS_M_RWA =? 0) then kRKER_M_DRE
  else 0.
(** A list built and executed. *)
Definition answer (m : Cpu → M RlinkCommandList ()) : M Sys () :=
  '(_, l) ← add_cmds m RlinkCommandList_ctor;
  exec_list l ;; mret ().
Definition answer_regs (ws : list (Z * Z)) : M Sys () :=
  rk ← get_client id; answer (rk_wibr rk ws).
Definition error_exit (rker : Z) : M Sys () :=
  rk ← get_client id; answer (AddErrorExit rk rker).

(** The functions; [iba]: inhibit increment, which is not supported. *)
Definition iba_error (rkcs : Z) : Z := if negb (Z.land rkcs kRKCS_M_IBA =? 0) then kRKER_M_DRE else 0.
(** [AddErrorExit], or the function itself. *)
Definition unless_error (rker : Z) (m : M Sys ()) : M Sys () :=
  if negb (rker =? 0) then error_exit rker else m.
Definition do_function (fu rkcs addr nwrd lba cy se dr : Z) (unit : Unit) (rkds : Z) : M Sys () :=
  let i := Z.to_nat dr in
  let chs := addr_error cy se unit in
  if fu =? kFUNC_CRESET then
    rstat_ kStatNFuncCreset ;; answer_regs [(kRKMR, kRKMR_M_CRESET)]
  else if fu =? kFUNC_WRITE then
    rstat_ kStatNFuncWrite ;;
    unless_error (Z.lor (Z.lor chs (if ufWProt unit then kRKER_M_WLO else 0)) (iba_error rkcs))
      (QueueDiskWrite a addr nwrd kCPAH_M_UBM22 lba i pd)
  else if fu =? kFUNC_READ then
    rstat_ kStatNFuncRead ;;
    unless_error (Z.lor chs (iba_error rkcs)) (QueueDiskRead a addr nwrd kCPAH_M_UBM22 lba i pd)
  else if fu =? kFUNC_WCHK then
    rstat_ kStatNFuncWchk ;;
    unless_error (Z.lor chs (iba_error rkcs)) (QueueDiskWriteCheck a addr nwrd kCPAH_M_UBM22 lba i pd)
  else if fu =? kFUNC_SEEK then
    rstat_ kStatNFuncSeek ;;
    if negb (chs =? 0) then
      answer_regs [(kRKER, chs); (kRKMR, Z.lor kRKMR_M_SBCLR (Z.shiftl 1 dr)); (kRKMR, kRKMR_M_FDONE)]
    else
      let rkds := Z.lor (Z.ldiff rkds kRKDS_B_SC) se in
      SetRkds i rkds ;;
      answer_regs [(kRKMR, kRKMR_M_FDONE); (kRKDS, rkds); (kRKMR, Z.shiftl 1 dr)]
  else if fu =? kFUNC_RCHK then
    rstat_ kStatNFuncRchk ;;
    unless_error (Z.lor chs (iba_error rkcs))
      (l ← normal_exit RlinkCommandList_ctor nwrd 0; exec_list l ;; mret ())
  else if fu =? kFUNC_DRESET then
    rstat_ kStatNFuncDreset ;; answer_regs [(kRKMR, kRKMR_M_FDONE); (kRKMR, Z.shiftl 1 dr)]
  else if fu =? kFUNC_WLOCK then
    rstat_ kStatNFuncWlock ;;
    let rkds := Z.lor rkds kRKDS_M_WPS in
    SetRkds i rkds ;;
    modify (λ t, t <| sy_units ::= <[i := SetWProt true unit]> |>) ;;
    answer_regs [(kRKDS, rkds); (kRKMR, kRKMR_M_FDONE)]
  else mret ().

Definition AttnHandler (args : AttnArgs) : M Sys AttnArgs :=
  rstat_ kStatNAttnHdl ;;
  args ← harvest rk_cntl args;
  rk ← get_client id;
  rkwc ← prim_data rk_cntl (fPC_rkwc rk);
  rkba ← prim_data rk_cntl (fPC_rkba rk);
  rkda ← prim_data rk_cntl (fPC_rkda rk);
  rkcs ← prim_data rk_cntl (fPC_rkcs rk);
  let se := Z.land rkda kRKDA_B_SC in
  let hd := field rkda kRKDA_V_SUR kRKDA_B_SUR in
  let cy := field rkda kRKDA_V_CYL kRKDA_B_CYL in
  let dr := drive rkda in
  let fu := field rkcs kRKCS_V_FUNC kRKCS_B_FUNC in
  let mex := field rkcs kRKCS_V_MEX kRKCS_B_MEX in
  let addr := Z.lor (Z.shiftl mex 16) rkba in
  let nwrd := Z.land (Z.lnot rkwc) 0xffff + 1 in
  if Z.land rkcs kRKCS_M_GO =? 0 then mret args
  else if Z.of_nat NUnit <? dr
  then throw (Rexception "Rw11CntlRK11::AttnHandler" "Bad state: dr > NUnit()")
  else
    unit ← unit_at (Z.to_nat dr);
    let lba := Chs2Lba cy hd se unit in
    let nblk := Nwrd2Nblk nwrd unit in
    rkds ← unit_rkds (Z.to_nat dr);
    busy ← gets (λ t, IsActive (sy_rdma t));
    if negb (Z.land rkcs kRKCS_M_RDY =? 0) || busy then mret args
    else
      let rker := abort_error fu rkcs unit in
      if negb (rker =? 0) then
        answer_regs ([(kRKER, rker)] ++
          (if (fu =? kFUNC_SEEK) || (fu =? kFUNC_DRESET)
           then [(kRKMR, Z.lor kRKMR_M_SBCLR (Z.shiftl 1 dr))] else []) ++ [(kRKMR, kRKMR_M_FDONE)]) ;;
        mret args
      else
        let ovr := ufNBlock unit <? u32 (lba + nblk) in
        let nwrd := if ovr then u32 ((ufNBlock unit - lba) * (ufBlksize unit / 2)) else nwrd in
        client (λ r, r <| fRd_rkcs := rkcs |> <| fRd_rkda := rkda |> <| fRd_addr := addr |>
                       <| fRd_lba := lba |> <| fRd_nwrd := nwrd |> <| fRd_ovr := ovr |> <| fRd_fu := fu |>) ;;
        do_function fu rkcs addr nwrd lba cy se dr unit rkds ;;
        mret args.
End Attn.
End RK11.
