(* ===== verification/CntlSpec.v ===== *)
(** * Controllers and the registers of their devices

    [RegDev] is a bus with device registers beside the control port of the cpu:
    reads do not disturb it, and writes are seen by the device, in order, as the
    log of the port.  The lemmas say what the primary list of a controller
    reads and what a list of register writes does. *)

From S2P Require Import Prelude.
From S2P Require Import Rstats.
From S2P Require Import Command.
From S2P Require Import CommandList.
From S2P Require Import Connect.
From S2P Require Import Link.
From S2P Require Import Server.
From S2P Require Import VirtDisk.
From S2P Require Import UnitDisk.
From S2P Require Import Cpu.
From S2P Require Import CpuMem.
From S2P Require Import Rdma.
From S2P Require Import RdmaSpec.
From S2P Require Import Cntl.

Open Scope Z_scope.

(** ** Bits and arithmetic *)

Lemma lor_disjoint k a b : 0 <= k → 0 <= b < 2 ^ k → a mod 2 ^ k = 0 → Z.lor a b = a + b.
Proof.
  intros Hk Hb Ha. assert (E : Z.land a b = 0); [|pose proof (Z.add_lor_land a b); lia].
  apply Z.bits_inj'. intros i Hi. rewrite Z.land_spec, Z.bits_0. destruct (Z.lt_ge_cases i k) as [H|H].
  - rewrite <- (Z.mod_pow2_bits_low a k i), Ha, Z.bits_0 by done. done.
  - rewrite <- (Z.mod_small b (2 ^ k)), Z.mod_pow2_bits_high by lia. apply andb_false_r.
Qed.
Lemma field_mod r v k : 0 <= v → 0 <= k → Z.land (Z.shiftr r v) (Z.ones k) = r / 2 ^ v mod 2 ^ k.
Proof. intros Hv Hk. by rewrite Z.land_ones, Z.shiftr_div_pow2 by done. Qed.
Lemma land_shifted x k v : 0 <= k → 0 <= v → Z.land x (Z.shiftl (Z.ones k) v) = 2 ^ v * (x / 2 ^ v mod 2 ^ k).
Proof.
  intros Hk Hv. rewrite <- Z.land_ones, <- Z.shiftr_div_pow2 by done.
  rewrite (Z.mul_comm (2 ^ v)), <- Z.shiftl_mul_pow2, Z.shiftl_land by done.
  apply Z.bits_inj'. intros i Hi. rewrite !Z.land_spec. destruct (Z.lt_ge_cases i v).
  - rewrite (Z.shiftl_spec_low (Z.ones k)) by done. by rewrite !andb_false_r.
  - rewrite (Z.shiftl_spec (Z.shiftr x v)), Z.shiftr_spec, Z.sub_add by lia. done.
Qed.
Lemma ldiff_sub x m : Z.ldiff x m = x - Z.land x m.
Proof.
  pose proof (Z.add_lor_land (Z.ldiff x m) (Z.land x m)) as E. rewrite Z.lor_ldiff_and in E.
  assert (E0 : Z.land (Z.ldiff x m) (Z.land x m) = 0); [|lia].
  apply Z.bits_inj'. intros i _. rewrite !Z.land_spec, Z.ldiff_spec, Z.bits_0.
  by destruct (Z.testbit x i), (Z.testbit m i).
Qed.
(** A field of a register replaced. *)
Lemma replace_field x k v y : 0 <= k → 0 <= v → 0 <= y < 2 ^ k →
  Z.lor (Z.ldiff x (Z.shiftl (Z.ones k) v)) (Z.shiftl y v) = x + 2 ^ v * (y - x / 2 ^ v mod 2 ^ k).
Proof.
  intros Hk Hv Hy. set (m := Z.shiftl (Z.ones k) v).
  pose proof (Z.add_lor_land (Z.ldiff x m) (Z.shiftl y v)) as E.
  assert (E0 : Z.land (Z.ldiff x m) (Z.shiftl y v) = 0).
  { apply Z.bits_inj'. intros i Hi. unfold m. rewrite Z.land_spec, Z.ldiff_spec, Z.bits_0.
    destruct (Z.lt_ge_cases i v); [rewrite (Z.shiftl_spec_low y) by done; apply andb_false_r|].
    rewrite !Z.shiftl_spec by done. destruct (Z.lt_ge_cases (i - v) k).
    - rewrite Z.ones_spec_low by lia. by rewrite andb_false_r.
    - rewrite (testbit_high y k) by (done || lia). apply andb_false_r. }
  rewrite ldiff_sub in *. unfold m in *. rewrite land_shifted in * by done.
  rewrite (Z.shiftl_mul_pow2 y) in * by done. lia.
Qed.
Lemma lor_u16 x y : is_u16 x → is_u16 y → is_u16 (Z.lor x y).
Proof.
  intros Hx Hy. rewrite <- (u16_id x), <- (u16_id y) by done. unfold u16. rewrite <- Z.land_lor_distr_l. apply u16_range.
Qed.
Lemma flag_test r b : 0 <= b → negb (Z.land r (2 ^ b) =? 0) = Z.testbit r b.
Proof.
  intros Hb. rewrite <- (Z.shiftl_1_l b) by done. destruct (Z.testbit r b) eqn:E.
  - apply negb_true_iff, Z.eqb_neq. intros H. assert (Z.testbit (Z.land r (Z.shiftl 1 b)) b = true).
    { rewrite Z.land_spec, E, Z.shiftl_spec, Z.sub_diag by done. done. }
    rewrite H, Z.bits_0 in *. done.
  - apply negb_false_iff, Z.eqb_eq, Z.bits_inj'. intros i Hi. rewrite Z.land_spec, Z.bits_0.
    destruct (decide (i = b)) as [->|Hne]; [by rewrite E|].
    rewrite Z.shiftl_1_l, Z.pow2_bits_false by lia. apply andb_false_r.
Qed.

(** ** The device *)

Class RegDev (D : Type) `{!Rbus D, !CpuBus D} := {
  dev_reg : Z → Prop;           (** addresses of registers *)
  reg : Z → D → Z;              (** what a read delivers *)
  reg_range a d : is_u16 (reg a d);
  reg_addr a : dev_reg a → is_u16 a;
  reg_read_law a d : dev_reg a → ∃ st d', rb_read a d = ((st, reg a d), d') ∧
    port d' = port d ∧ ∀ b, reg b d' = reg b d;
  reg_attn_law d : ∃ st x d', rb_attn d = ((st, x), d') ∧ is_u16 x ∧ port d' = port d ∧ ∀ b, reg b d' = reg b d;
  reg_write_law a v d : dev_reg a → is_u16 v → ∃ st d', rb_write a v d = (st, d') ∧
    port d' = logged [(a, v)] (port d) }.

Lemma logged_app ws1 ws2 p : logged ws2 (logged ws1 p) = logged (ws1 ++ ws2) p.
Proof. unfold logged. simpl. by rewrite <- app_assoc. Qed.

Section Lists.
Context {D : Type} `{!Rbus D, !CpuBus D, !RegDev D}.

Definition is_rreg (a : Z) (c : RlinkCommand) : Prop := Command c = kCmdRreg ∧ fAddress c = a.
Lemma regs_read addrs : Forall dev_reg addrs → ∀ cs, Forall2 is_rreg addrs cs → ∀ m0 b m (d : D),
  ∃ cs' d', bus_run m0 b cs m d = (cs', m, d') ∧ port d' = port d ∧ (∀ a, reg a d' = reg a d) ∧
    Forall2 (λ a c, is_rreg a c ∧ fData c = reg a d) addrs cs'.
Proof.
  induction 1 as [|a addrs Ha _ IH]; intros cs Hcs m0 b m d.
  { apply Forall2_nil_inv_l in Hcs as ->. by exists [], d. }
  apply Forall2_cons_inv_l in Hcs as (c & cs1 & [Hc Hca] & Hcs & ->).
  destruct (reg_read_law a d Ha) as (st & d1 & Hr & Hp & Hq).
  destruct (IH cs1 Hcs m0 b m d1) as (cs' & d' & Hrun & Hp' & Hq' & Hall).
  exists (SetStatus st (SetData (reg a d) c) :: cs'), d'.
  split; [|split; [congruence|split; [intros a'; by rewrite Hq', Hq|]]].
  - rewrite bus_run_cons by (by rewrite Hc). unfold bus_cmd, cut_short. rewrite Hc. cbn [Z.eqb kCmdRreg Pos.eqb orb].
    change (Command (SetStatus st (SetData (reg a d) c))) with (Command c).
    rewrite Hca, Hr. cbn. by rewrite Hrun.
  - constructor; [done|]. eapply list.Forall2_impl; [exact Hall|]. intros x y [H1 H2]. split; [done|]. by rewrite H2.
Qed.

(** Writes of registers. *)
Definition wregs (ws : list (Z * Z)) : list RlinkCommand := map (λ '(a, v), wreg a v) ws.
Definition writable (w : Z * Z) : Prop := dev_reg w.1 ∧ is_u16 w.2.
Lemma wregs_quiet ws : Forall writable ws → quiet (D := D) ws (wregs ws).
Proof.
  induction 1 as [|[a v] ws [Ha Hv] _ IH]; intros m0 m d.
  { exists [], d. by rewrite logged_nil. }
  destruct (reg_write_law a v d Ha Hv) as (st & d1 & Hw & Hp).
  destruct (IH m0 m d1) as (cs & d' & Hrun & Hp').
  exists (SetStatus st (wreg a v) :: cs), d'. cbn [wregs map]. rewrite bus_wreg, Hw. fold (wregs ws). rewrite Hrun.
  split; [done|]. by rewrite Hp', Hp, logged_app.
Qed.
Lemma wregs_wf ws : Forall writable ws → Forall cmd_wf (wregs ws).
Proof.
  induction 1 as [|[a v] ws [Ha Hv] _ IH]; constructor; [|done]. apply wreg_wf; [by apply reg_addr|done].
Qed.
Lemma wregs_code ws : forallb bus_code (wregs ws) = true.
Proof. by induction ws as [|[a v] ws IH]. Qed.
(** Behind a list abort that does not fire. *)
Definition labo_cmd : RlinkCommand := fresh_command kCmdLabo 0 0 [] None 0.
Lemma labo_quiet ws cs : quiet (D := D) ws cs → quiet (D := D) ws (labo_cmd :: cs).
Proof.
  intros H m0 m d. destruct (H m0 m d) as (cs' & d' & Hrun & Hp).
  exists (SetStatus (rb_stat d) (SetData 0 labo_cmd) :: cs'), d'. split; [|done].
  cbn [bus_run]. change (Command labo_cmd =? kCmdLabo) with true. cbn iota. by rewrite Hrun.
Qed.
Lemma labo_aborts cs : aborts (D := D) (labo_cmd :: cs).
Proof.
  intros m0 m d. exists (SetStatus (rb_stat d) (SetData 1 labo_cmd) :: cs). cbn [bus_run].
  by change (Command labo_cmd =? kCmdLabo) with true.
Qed.
Lemma labo_wf : cmd_wf labo_cmd.
Proof. apply fresh_command_wf; try done. by intros [|]. Qed.

(** The primary list of a controller. *)
Record prim_ok (addrs : list Z) (l : RlinkCommandList) : Prop := {
  po_wf : Forall cmd_wf (fList l);
  po_cmds : ∃ c0 cs, fList l = c0 :: cs ∧ Command c0 = kCmdAttn ∧ Forall2 is_rreg addrs cs }.
Lemma prim_list_ok addrs l : prim_ok addrs l → Z.of_nat (length addrs) < 2 ^ 31 → list_ok l.
Proof.
  intros [Hw (c0 & cs & Hl & H0 & Hcs)] Hlen. split; [by rewrite Hl|done| |].
  - rewrite Hl. simpl. unfold bus_code at 1. rewrite H0. cbn [Z.leb]. clear -Hcs.
    induction Hcs as [|a c addrs cs [Hc _] _ IH]; simpl; [done|]. unfold bus_code at 1. by rewrite Hc.
  - rewrite Hl. apply Forall2_length in Hcs. simpl length. lia.
Qed.
End Lists.

(** ** The controller *)

Class FieldLaws {R E} (f : R → E) `{!Setter f} : Prop :=
  field_set g r : f (r <| f ::= g |>) = g (f r).
#[export] Instance sys_host {S V H A C} : HostLaws (@sy_srv S V H A C) sy_link.
Proof. by split. Qed.

Section Cntl.
Context {S D V H A C : Type}.
Context `{!RlinkExec S, !Rbus D, !LinkLaws S D, !CpuBus D, !RegDev D}.
Context (cn : C → Cntl) `{!Setter cn, !FieldLaws cn}.
Notation Sys := (Rw11Sys S V H A C).
Notation Cpu := (Rw11Cpu S).

(** The link after an execution that the port saw as [f]. *)
Record exec_link (f : CpPort → CpPort) (s s' : S) : Prop := {
  el_same : same_link s s';
  el_mem : srv_mem s' = srv_mem s;
  el_port : port (dev s') = f (port (dev s)) }.
Definition set_prim (l : RlinkCommandList) (t : Sys) : Sys :=
  t <| sy_client ::= λ c, c <| cn ::= λ k, k <| cn_fPrimClist := l |> |> |>.

(** The primary list is executed, its first command reads the attentions. *)
Lemma harvest_run args (t : Sys) c0 cs rs m d :
  let l := cn_fPrimClist (cntl_of cn t) in
  link_ok (sy_link t) → list_ok l → fList l = c0 :: cs → Command c0 = kCmdAttn →
  bus_run (srv_mem (sy_link t)) false (fList l) (srv_mem (sy_link t)) (dev (sy_link t)) = (rs, m, d) → rs ≠ [] →
  ∃ x s' l', harvest cn args t =
      (Ret (args <| fAttnHarvest := x |> <| fHarvestDone := true |>), set_prim l' (t <| sy_link := s' |>)) ∧
    Forall2 answered rs (fList l') ∧ Forall cmd_wf (fList l') ∧ srv_mem s' = m ∧ dev s' = d ∧ same_link (sy_link t) s'.
Proof.
  intros l Hup Hok Hl H0 Hrun Hne. pose proof (exec_throw_law l (sy_link t) Hup Hok) as Hx. rewrite Hrun in Hx.
  destruct Hx as (l' & s' & Hx & Ha & Hwf' & Hm & Hd & Hs). destruct rs as [|r rs]; [done|].
  apply Forall2_cons_inv_l in Ha as (c' & cs' & Hc' & Ha & Hl').
  exists (fData c'), s', l'. split; [|rewrite Hl' in *; split; [by constructor|done]].
  unfold harvest. fold l. unfold GetAttnInfo, at_ at 1. rewrite Hl. cbn [lookup list_lookup].
  rewrite H0. cbn [Z.eqb kCmdAttn Pos.eqb negb].
  unfold mbind, M_bind, zoom, of_outcome. rewrite Hx. unfold at_. rewrite Hl'. cbn [lookup list_lookup]. done.
Qed.
Lemma harvest_ok addrs args (t : Sys) :
  link_ok (sy_link t) → prim_ok addrs (cn_fPrimClist (cntl_of cn t)) → Forall dev_reg addrs →
  Z.of_nat (length addrs) < 2 ^ 31 →
  ∃ x s' l', harvest cn args t =
      (Ret (args <| fAttnHarvest := x |> <| fHarvestDone := true |>), set_prim l' (t <| sy_link := s' |>)) ∧
    exec_link (λ p, p) (sy_link t) s' ∧ (∀ a, reg a (dev s') = reg a (dev (sy_link t))) ∧ prim_ok addrs l' ∧
    ∀ i a, addrs !! i = Some a → ∃ c, fList l' !! Datatypes.S i = Some c ∧ fData c = reg a (dev (sy_link t)).
Proof.
  intros Hup Hprim Haddrs Hlen. pose proof Hprim as [Hwf (c0 & cs & Hl & H0 & Hcs)].
  destruct (reg_attn_law (dev (sy_link t))) as (st & x0 & d1 & Hat & _ & Hp1 & Hq1).
  destruct (regs_read addrs Haddrs cs Hcs (srv_mem (sy_link t)) false (srv_mem (sy_link t)) d1) as
    (cs1 & d2 & Hrun & Hp2 & Hq2 & Hall).
  destruct (harvest_run args t c0 cs (SetStatus st (SetData x0 c0) :: cs1) (srv_mem (sy_link t)) d2) as
    (x & s' & l' & Hx & Ha & Hwf' & Hm & Hd & Hs); try done; [by eapply prim_list_ok| |].
  { rewrite Hl, bus_run_cons by (by rewrite H0). unfold bus_cmd, cut_short. rewrite H0.
    cbn [Z.eqb kCmdAttn kCmdRreg kCmdWreg kCmdRblk kCmdWblk Pos.eqb orb]. by rewrite Hat, Hrun. }
  apply Forall2_cons_inv_l in Ha as (c' & cs' & (Hcmd & _) & Ha & Hl').
  assert (Hall' : Forall2 (λ a c, is_rreg a c ∧ fData c = reg a (dev (sy_link t))) addrs cs').
  { clear -Hall Ha Hq1. revert cs' Ha. induction Hall as [|a c addrs cs1 [[H1 H2] H3] _ IH]; intros cs' Ha.
    - by apply Forall2_nil_inv_l in Ha as ->.
    - apply Forall2_cons_inv_l in Ha as (c1 & cs2 & (A1 & A2 & A3 & _) & Ha & ->).
      constructor; [|by apply IH]. unfold is_rreg. by rewrite A1, A2, A3, H3, Hq1. }
  exists x, s', l'. split_and!; [done| |intros a; by rewrite Hd, Hq2, Hq1| |].
  - split; [done|done|]. by rewrite Hd, Hp2, Hp1.
  - split; [done|]. exists c', cs'. split; [done|]. split; [by rewrite Hcmd|].
    eapply list.Forall2_impl; [exact Hall'|]. by intros a c [? _].
  - intros i a Hi. destruct (Forall2_lookup_l _ _ _ _ _ Hall' Hi) as (c & Hc & _ & Hdc).
    exists c. by rewrite Hl'.
Qed.
Lemma prim_data_run (t : Sys) i c : fList (cn_fPrimClist (cntl_of cn t)) !! i = Some c →
  prim_data cn i t = (Ret (fData c), t).
Proof. intros Hc. unfold prim_data, at_. by rewrite Hc. Qed.

(** *** Register writes *)

Definition rb_of (c : Cpu) (ws : list (Z * Z)) : list (Z * Z) := map (λ '(a, v), (IbusRemoteAddr a c, v)) ws.
Lemma AddWibrs_run ws (c : Cpu) : Forall (λ w, bad_ibaddr w.1 = false) ws → ∀ l,
  AddWibrs ws c l = (Ret (), l <| fList ::= λ cs, cs ++ wregs (rb_of c ws) |>).
Proof.
  induction 1 as [|[a v] ws Ha _ IH]; intros l; cbn [AddWibrs].
  { simpl. rewrite app_nil_r. by destruct l. }
  unfold AddWibr, check_ibaddr, throw_if. cbn [fst] in Ha. rewrite Ha. autorewrite with run.
  rewrite (bind_Ret _ _ _ _ _ (AddWreg_run _ _ _)), IH. cbn. by rewrite <- app_assoc.
Qed.

(** Register writes as they are told to the device. *)
Definition told (c : Cpu) (ws : list (Z * Z)) : Prop :=
  Forall (λ w, bad_ibaddr w.1 = false) ws ∧ Forall writable (rb_of c ws) ∧ Z.of_nat (length ws) < 2 ^ 31.
Lemma exec_wregs ws (t : Sys) :
  link_ok (sy_link t) → Forall writable ws → ws ≠ [] → Z.of_nat (length ws) < 2 ^ 31 →
  ∃ l' s', exec_list (mkCommandList (wregs ws) (-1)) t = (Ret l', t <| sy_link := s' |>) ∧
    exec_link (logged ws) (sy_link t) s'.
Proof.
  intros Hup Hw Hne Hlen.
  assert (Hok : list_ok (mkCommandList (wregs ws) (-1))).
  { split; cbn [fList]; [by destruct ws as [|[]]|by apply wregs_wf|apply wregs_code|].
    unfold wregs. rewrite length_map. lia. }
  pose proof (exec_throw_law _ (sy_link t) Hup Hok) as Hx. cbn [fList] in Hx.
  destruct (wregs_quiet ws Hw (srv_mem (sy_link t)) (srv_mem (sy_link t)) (dev (sy_link t))) as (cs & d & Hrun & Hp).
  rewrite Hrun in Hx. destruct Hx as (l' & s' & Hx & _ & _ & Hm & Hd & Hs).
  exists l', s'. split; [|by split; rewrite ?Hd].
  unfold exec_list, Exec_, zoom. change (link (sy_cpu t)) with (sy_link t). by rewrite Hx.
Qed.
Lemma answer_ws ws (t : Sys) : link_ok (sy_link t) → told (sy_cpu t) ws → ws ≠ [] →
  ∃ s', ('(_, l) ← add_cmds (AddWibrs ws) RlinkCommandList_ctor; exec_list l ;; mret ()) t =
      (Ret (), t <| sy_link := s' |>) ∧
    exec_link (logged (rb_of (sy_cpu t) ws)) (sy_link t) s'.
Proof.
  intros Hup (H1 & H2 & H3) Hne.
  destruct (exec_wregs (rb_of (sy_cpu t) ws) t) as (l' & s' & Hx & Hs); [done|done|by destruct ws as [|[]]| |].
  { unfold rb_of. by rewrite length_map. }
  exists s'. split; [|done]. unfold add_cmds. unfold mbind at 1, M_bind at 1.
  rewrite AddWibrs_run by done. cbn beta iota. change (RlinkCommandList_ctor <| fList ::= _ |>) with
    (mkCommandList (wregs (rb_of (sy_cpu t) ws)) (-1)).
  by rewrite (bind_Ret _ _ _ _ _ Hx).
Qed.
End Cntl.

(** ** The registers of a controller *)

Section Regs.
Context {D : Type} `{!Rbus D, !CpuBus D, !RegDev D}.
(** A device with registers at [offs] from [base] on, on an ibus that is seen at
    [ib]. *)
Variables (ib base : Z) (offs : list Z).
Definition rb (off : Z) : Z := u16 (ib + Z.land (u16 (base + off)) 0x1fff / 2).
Definition at_rb (ws : list (Z * Z)) : list (Z * Z) := map (λ '(off, v), (rb off, v)) ws.
Definition present : Prop := Forall (λ off, bad_ibaddr (u16 (base + off)) = false ∧ dev_reg (rb off)) offs.
(** Registers that the controller may write. *)
Definition regs_ok (ws : list (Z * Z)) : Prop := Forall (λ w, w.1 ∈ offs ∧ is_u16 w.2) ws.
Lemma at_rb_app ws1 ws2 : at_rb (ws1 ++ ws2) = at_rb ws1 ++ at_rb ws2.
Proof. apply map_app. Qed.

Hypothesis Hdev : present.
Lemma reg_at off : off ∈ offs → bad_ibaddr (u16 (base + off)) = false ∧ dev_reg (rb off).
Proof. intros H1. unfold present in Hdev. rewrite list.Forall_forall in Hdev. by apply Hdev. Qed.
Lemma regs_at l : Forall (λ off, off ∈ offs) l → Forall dev_reg (map rb l).
Proof. intros Hl. apply Forall_map. eapply list.Forall_impl; [exact Hl|]. intros off Ho. by apply reg_at. Qed.
Lemma writable_at ws : regs_ok ws → Forall writable (at_rb ws).
Proof. induction 1 as [|[off v] ws [H1 H2] _ IH]; constructor; [|done]. split; [by apply reg_at|done]. Qed.
(** The same as the cpu sees them. *)
Lemma rb_of_at {S} (c : Rw11Cpu S) ws : fIBase c = ib →
  rb_of c (map (λ '(off, v), (u16 (base + off), v)) ws) = at_rb ws.
Proof.
  intros Hi. unfold rb_of, at_rb. rewrite map_map. apply map_ext. intros [off v]. unfold IbusRemoteAddr. by rewrite Hi.
Qed.
Lemma told_at {S} (c : Rw11Cpu S) ws : fIBase c = ib → regs_ok ws → Z.of_nat (length ws) < 2 ^ 31 →
  told (D := D) c (map (λ '(off, v), (u16 (base + off), v)) ws).
Proof.
  intros Hi Hws Hlen. split; [|split].
  - clear Hlen. induction Hws as [|[off v] ws [H1 H2] _ IH]; constructor; [|done]. by apply reg_at.
  - rewrite rb_of_at by done. by apply writable_at.
  - by rewrite length_map.
Qed.
End Regs.
