(* ===== verification/MemOps.v ===== *)
(** * Lists of memory accesses and register writes

    A command list of blocks of memory, list aborts and register writes, as
    controllers build them, and what it does when every block is in the memory:
    a function of the memory of the caller, the memory of the cpu and the log of
    the registers ([mops_run]). *)

From S2P Require Import Prelude.
From S2P Require Import Rstats.
From S2P Require Import Command.
From S2P Require Import CommandList.
From S2P Require Import Connect.
From S2P Require Import Link.
From S2P Require Import Server.
From S2P Require Import VirtDisk.
From S2P Require Import UnitDisk.
From S2P Require Import Cpu.
From S2P Require Import CpuMem.
From S2P Require Import Rdma.
From S2P Require Import RdmaSpec.
From S2P Require Import Cntl.
From S2P Require Import CntlSpec.

Open Scope Z_scope.

(** ** Operations *)

(** A block read from [addr] into the memory of the caller at [buf], or written
    from there; a list abort; a register of another device. *)
Inductive mop :=
| MRead (addr buf : Z) (n : nat)
| MWrite (addr buf : Z) (n : nat)
| MLabo
| MReg (a v : Z).
Definition mop_cmds (base : Z) (o : mop) : list RlinkCommand :=
  let lalh addr := [wreg (u16 (base + kCPAL)) (al_of addr); wreg (u16 (base + kCPAH)) (ah_of addr kCPAH_M_UBM22)] in
  let block c (n : nat) := match n with O => [] | _ => [c] end : list RlinkCommand in
  match o with
  | MRead addr buf n => lalh addr ++ block (rblk_ext (u16 (base + kCPMEMI)) buf n) n
  | MWrite addr buf n => lalh addr ++ block (wblk_ext (u16 (base + kCPMEMI)) buf n) n
  | MLabo => [labo_cmd]
  | MReg a v => [wreg a v]
  end.
Definition mlist (base : Z) (ops : list mop) : RlinkCommandList := mkCommandList (concat (map (mop_cmds base) ops)) (-1).

(** The memory of the caller, that of the cpu, and the register writes. *)
Record mst := mkMst { ms_mem : Mem; ms_core : gmap Z Z; ms_log : list (Z * Z) }.
#[export] Instance eta_mst : Eta mst := λ s, mkMst (ms_mem s) (ms_core s) (ms_log s).
(** [m0]: the memory of the caller when the list is sent. *)
Definition mop_run (m0 : Mem) (s : mst) (o : mop) : mst :=
  match o with
  | MRead addr buf n => s <| ms_mem ::= mem_put buf (mwords (ms_core s) addr n) |>
  | MWrite addr buf n => s <| ms_core ::= mput addr (mem_get m0 buf n) |>
  | MLabo => s
  | MReg a v => s <| ms_log ::= λ l, l ++ [(a, v)] |>
  end.
Definition mops_run (m0 : Mem) : list mop → mst → mst := fold_left (mop_run m0).

(** The words of a block are in a memory of [size] bytes, below the io page. *)
Definition in_core (size addr : Z) (n : nat) : Prop :=
  0 <= addr ∧ addr mod 2 = 0 ∧ addr + 2 * Z.of_nat n <= Z.min size 0x3e000 ∧ Z.of_nat n <= 65535.

Section MemOps.
Context {S D : Type} `{!RlinkExec S, !Rbus D, !LinkLaws S D, !CpuBus D, !RegDev D}.

Definition mop_ok (size : Z) (o : mop) : Prop :=
  match o with
  | MRead addr _ n | MWrite addr _ n => in_core size addr n
  | MLabo => True
  | MReg a v => dev_reg a ∧ is_u16 v
  end.

(** The port behind a list. *)
Definition port_at (core : gmap Z Z) (log : list (Z * Z)) (p p' : CpPort) : Prop :=
  cp_mem p' = core ∧ cp_log p' = log ∧ cp_size p' = cp_size p ∧ idle p'.

Lemma core_fits p size addr n : cp_size p = size → size <= 2 ^ 22 → in_core size addr n →
  fits (addressed addr kCPAH_M_UBM22 p) n ∧ 0 <= addr < 2 ^ 22.
Proof.
  intros Hs Hm (H0 & He & Hl & Hn). split; [|change (2 ^ 22) with 4194304; lia].
  split_and!; [done| |by rewrite <- Hs in Hm]. change (addr + 2 * Z.of_nat n <= Z.min (cp_size p) 0x3e000). by rewrite Hs.
Qed.
Lemma mop_bus m0 o rest m (d : D) :
  mop_ok (cp_size (port d)) o → idle (port d) → cp_size (port d) <= 2 ^ 22 →
  let s' := mop_run m0 (mkMst m (cp_mem (port d)) (cp_log (port d))) o in
  ∃ cs d', port_at (ms_core s') (ms_log s') (port d) (port d') ∧
    bus_run m0 false (mop_cmds cp_base o ++ rest) m d =
    (let '(cs2, m2, d2) := bus_run m0 false rest (ms_mem s') d' in (cs ++ cs2, m2, d2)).
Proof.
  intros Hok Hi Hs. destruct o as [addr buf n|addr buf n| |a v]; cbn [mop_cmds mop_ok mop_run] in *.
  - destruct (core_fits _ _ _ _ eq_refl Hs Hok) as [Hf Ha]. destruct Hok as (_ & He & _ & Hn).
    destruct (write_lalh addr kCPAH_M_UBM22 d Ha He) as (st1 & d1 & st2 & d2 & H1 & _ & H2 & _ & Hp2).
    change (port d2 = addressed addr kCPAH_M_UBM22 (port d)) in Hp2.
    cbn [app]. rewrite bus_wreg, H1, bus_wreg, H2. destruct n as [|n].
    { cbn [app]. exists [SetStatus st1 (wreg (u16 (cp_base + kCPAL)) (al_of addr));
        SetStatus st2 (wreg (u16 (cp_base + kCPAH)) (ah_of addr kCPAH_M_UBM22))], d2.
      split; [by rewrite Hp2|]. simpl. by destruct (bus_run _ _ _ _ _) as [[? ?] ?]. }
    cbn [app]. rewrite <- Hp2 in Hf. destruct (rblk_fits (Datatypes.S n) d2 0 Hf eq_refl) as (st3 & d3 & H3 & _ & [?|Hp3]); [done|].
    rewrite bus_rblk_ext, H3. cbn beta iota zeta. rewrite length_mwords, Nat.eqb_refl, Nat.sub_diag, app_nil_r. cbn [negb].
    eexists [_; _; _], d3. split; [by rewrite Hp3, Hp2|]. cbn [ms_mem update app].
    rewrite Hp2. change (cp_mem (addressed addr kCPAH_M_UBM22 (port d))) with (cp_mem (port d)).
    change (cp_addr (addressed addr kCPAH_M_UBM22 (port d))) with addr.
    by destruct (bus_run _ _ _ _ _) as [[? ?] ?].
  - destruct (core_fits _ _ _ _ eq_refl Hs Hok) as [Hf Ha]. destruct Hok as (_ & He & _ & Hn).
    destruct (write_lalh addr kCPAH_M_UBM22 d Ha He) as (st1 & d1 & st2 & d2 & H1 & _ & H2 & _ & Hp2).
    change (port d2 = addressed addr kCPAH_M_UBM22 (port d)) in Hp2.
    cbn [app]. rewrite bus_wreg, H1, bus_wreg, H2. destruct n as [|n].
    { cbn [app]. exists [SetStatus st1 (wreg (u16 (cp_base + kCPAL)) (al_of addr));
        SetStatus st2 (wreg (u16 (cp_base + kCPAH)) (ah_of addr kCPAH_M_UBM22))], d2.
      split; [by rewrite Hp2|]. simpl. by destruct (bus_run _ _ _ _ _) as [[? ?] ?]. }
    cbn [app]. set (ws := mem_get m0 buf (Datatypes.S n)). assert (Hlen : length ws = Datatypes.S n) by apply length_mem_get.
    rewrite <- Hp2, <- Hlen in Hf.
    destruct (wblk_fits ws d2 0 Hf) as (st3 & d3 & H3 & _ & [[Hnil _]|Hp3]);
      [by rewrite Hp2|apply mem_get_u16|done|by rewrite Hnil in Hlen|].
    rewrite bus_wblk_ext. fold ws. rewrite H3. cbn beta iota zeta. rewrite Hlen, Nat.eqb_refl. cbn [negb].
    eexists [_; _; _], d3. split; [by rewrite Hp3, Hp2|]. cbn [ms_mem update app].
    by destruct (bus_run _ _ _ _ _) as [[? ?] ?].
  - exists [SetStatus (rb_stat d) (SetData 0 labo_cmd)], d. split; [done|]. cbn [app bus_run].
    change (Command labo_cmd =? kCmdLabo) with true. cbn iota. by destruct (bus_run _ _ _ _ _) as [[? ?] ?].
  - destruct Hok as [Ha Hv]. destruct (reg_write_law a v d Ha Hv) as (st & d1 & Hw & Hp).
    exists [SetStatus st (wreg a v)], d1. split; [by rewrite Hp|]. cbn [app]. rewrite bus_wreg, Hw.
    by destruct (bus_run _ _ _ _ _) as [[? ?] ?].
Qed.
Lemma mops_bus m0 ops : ∀ m (d : D),
  Forall (mop_ok (cp_size (port d))) ops → idle (port d) → cp_size (port d) <= 2 ^ 22 →
  let s' := mops_run m0 ops (mkMst m (cp_mem (port d)) (cp_log (port d))) in
  ∃ cs d', bus_run m0 false (concat (map (mop_cmds cp_base) ops)) m d = (cs, ms_mem s', d') ∧
    port_at (ms_core s') (ms_log s') (port d) (port d').
Proof.
  induction ops as [|o ops IH]; intros m d Hok Hi Hs; [by exists [], d|].
  apply Forall_cons_iff in Hok as [Ho Hok]. destruct (mop_bus m0 o (concat (map (mop_cmds cp_base) ops)) m d Ho Hi Hs) as
    (cs & d1 & (P1 & P2 & P3 & P4) & Hrun).
  destruct (IH (ms_mem (mop_run m0 (mkMst m (cp_mem (port d)) (cp_log (port d))) o)) d1) as (cs2 & d2 & Hrun2 & Hp2).
  { by rewrite P3. } { done. } { by rewrite P3. }
  rewrite P1, P2 in *. exists (cs ++ cs2), d2. cbn [map concat]. rewrite Hrun, Hrun2.
  set (s1 := mop_run _ _ o) in *. change (mops_run m0 (o :: ops) (mkMst m (cp_mem (port d)) (cp_log (port d)))) with (mops_run m0 ops s1).
  destruct s1. split; [done|]. destruct Hp2 as (Q1 & Q2 & Q3 & Q4). split_and!; try done. congruence.
Qed.

Lemma mop_cmds_wf size base o : size <= 2 ^ 22 → mop_ok size o → Forall cmd_wf (mop_cmds base o).
Proof.
  intros Hs Ho. destruct o as [addr buf n|addr buf n| |a v]; cbn [mop_cmds mop_ok] in *.
  1,2: destruct Ho as (H0 & He & Hl & Hn); destruct (lalh_bits addr kCPAH_M_UBM22) as (H1 & H2 & _);
    [change (2 ^ 22) with 4194304; lia|done|]; cbn [app];
    (constructor; [apply wreg_wf; auto with w11|]); (constructor; [apply wreg_wf; auto with w11|]);
    destruct n; constructor; try done.
  - apply rblk_ext_wf; [auto with w11|lia].
  - apply wblk_ext_wf; [auto with w11|lia].
  - constructor; [apply labo_wf|done].
  - destruct Ho as [Ha Hv]. constructor; [|done]. apply wreg_wf; [by apply reg_addr|done].
Qed.
Lemma mop_cmds_code base o : forallb bus_code (mop_cmds base o) = true ∧ (length (mop_cmds base o) <= 3)%nat ∧
  mop_cmds base o ≠ [].
Proof. destruct o as [addr buf [|n]|addr buf [|n]| |a v]; split_and!; simpl; try done; lia. Qed.
Lemma mlist_ok size base ops : size <= 2 ^ 22 → Forall (mop_ok size) ops → ops ≠ [] → Z.of_nat (length ops) < 2 ^ 30 →
  list_ok (mlist base ops).
Proof.
  intros Hs Hok Hne Hlen. split; cbn [fList mlist].
  - destruct ops as [|o ops]; [done|]. cbn [map concat]. destruct (mop_cmds_code base o) as (_ & _ & Ho).
    by destruct (mop_cmds base o).
  - clear -Hs Hok. induction Hok as [|o ops Ho _ IH]; [constructor|]. cbn [map concat]. apply list.Forall_app.
    split; [by eapply mop_cmds_wf|done].
  - clear. induction ops as [|o ops IH]; [done|]. cbn [map concat]. rewrite forallb_app, IH.
    destruct (mop_cmds_code base o) as (-> & _ & _). done.
  - assert (Hl : (length (concat (map (mop_cmds base) ops)) <= 3 * length ops)%nat).
    { clear. induction ops as [|o ops IH]; [done|]. cbn [map concat length]. rewrite length_app.
      destruct (mop_cmds_code base o) as (_ & Ho & _). lia. }
    change (2 ^ 32) with 4294967296. change (2 ^ 30) with 1073741824 in Hlen. lia.
Qed.
End MemOps.

(** ** Controllers *)

Section Sys.
Context {S D V H A C : Type} `{!RlinkExec S, !Rbus D, !LinkLaws S D, !CpuBus D, !RegDev D}.
Notation Sys := (Rw11Sys S V H A C).
Notation Cpu := (Rw11Cpu S).

(** The link behind lists that were executed on [s0]. *)
Record link_at (s0 : S) (st : mst) (s : S) : Prop := {
  la_same : same_link s0 s;
  la_mem : srv_mem s = ms_mem st;
  la_port : port_at (ms_core st) (ms_log st) (port (dev s0)) (port (dev s)) }.
(** The link, and the controller. *)
Definition sys_at (t : Sys) (s : S) (d : C) : Sys := t <| sy_link := s |> <| sy_client := d |>.
Definition link_st (s : S) : mst := mkMst (srv_mem s) (cp_mem (port (dev s))) (cp_log (port (dev s))).

Lemma link_at_refl s : idle (port (dev s)) → link_at s (link_st s) s.
Proof. by split. Qed.
Lemma link_at_set s0 st s m : link_at s0 st s → link_at s0 (st <| ms_mem := m |>) (srv_set_mem m s).
Proof.
  intros [H1 H2 H3]. destruct (set_mem_law m s) as (E1 & E2 & E3). split; [by etrans|done|by rewrite E2].
Qed.
Lemma exec_mops s0 st s ops (t : Sys) d :
  link_at s0 st s → link_ok s0 → cp_size (port (dev s0)) <= 2 ^ 22 → fBase (sy_cpu t) = cp_base →
  Forall (mop_ok (cp_size (port (dev s0)))) ops → ops ≠ [] → Z.of_nat (length ops) < 2 ^ 30 →
  ∃ l s', exec_list (mlist cp_base ops) (sys_at t s d) = (Ret l, sys_at t s' d) ∧
    link_at s0 (mops_run (ms_mem st) ops st) s'.
Proof.
  intros [Hs Hm (P1 & P2 & P3 & P4)] Hup Hsz Hb Hok Hne Hlen. rewrite <- P3 in Hsz, Hok.
  pose proof (exec_throw_law (mlist cp_base ops) s (same_link_ok _ _ Hs Hup) (mlist_ok _ _ _ Hsz Hok Hne Hlen)) as Hx.
  destruct (mops_bus (srv_mem s) ops (srv_mem s) (dev s) Hok P4 Hsz) as (cs & d' & Hrun & Hp).
  cbn [fList mlist] in Hx. rewrite Hrun in Hx. destruct Hx as (l' & s' & Hx & _ & _ & Hm' & Hd & Hs').
  exists l', s'. split.
  - unfold exec_list, Exec_, zoom. change (link (sy_cpu (sys_at t s d))) with s. by rewrite Hx.
  - rewrite P1, P2, Hm in *. destruct st as [m0 core log]. split; [by etrans|by rewrite Hm'|]. rewrite Hd.
    destruct Hp as (Q1 & Q2 & Q3 & Q4). split_and!; try done. congruence.
Qed.

(** Lists are built operation by operation. *)
Lemma mlist_app base ops o : mlist base (ops ++ [o]) =
  mlist base ops <| fList ::= λ cs, cs ++ mop_cmds base o |>.
Proof. unfold mlist. rewrite map_app, concat_app. cbn. by rewrite app_nil_r. Qed.
Lemma AddMem_run meth (add : Z → nat → M RlinkCommandList nat) (cmd : Z → nat → RlinkCommand) addr buf n (c : Cpu) l :
  (∀ p k l, 0 < Z.of_nat k <= 65535 → add p k l = (Ret (Size l), l <| fList ::= λ cs, cs ++ [cmd p k] |>)) →
  0 <= n <= 65535 → n <= srv_blkmax (link c) →
  AddMem meth add addr buf n kCPAH_M_UBM22 true c l =
  (Ret (Size l), l <| fList ::= λ cs, cs ++ [wreg (u16 (fBase c + kCPAL)) (al_of addr);
    wreg (u16 (fBase c + kCPAH)) (ah_of addr kCPAH_M_UBM22)] ++ (match Z.to_nat n with O => [] | _ => [cmd buf (Z.to_nat n)] end) |>).
Proof.
  intros Hadd Hn Hmax. unfold AddMem, throw_if. rewrite (proj2 (Z.ltb_ge _ n)) by exact Hmax. cbn [andb].
  autorewrite with run. unfold AddLalh. autorewrite with run.
  rewrite (bind_Ret _ _ _ _ _ (AddWreg_run _ _ _)). autorewrite with run.
  rewrite (bind_Ret _ _ _ _ _ (AddWreg_run _ _ _)). autorewrite with run.
  destruct (Z.to_nat n) as [|k] eqn:E.
  - assert (n = 0) as -> by lia. cbn. by rewrite <- app_assoc.
  - cbn [blocks_loop]. rewrite (proj2 (Z.leb_gt n 0)) by lia. rewrite (proj2 (Z.ltb_ge _ n)) by lia. rewrite E.
    unfold mbind, M_bind. rewrite Hadd by lia. rewrite Z.sub_diag. destruct k; cbn; by rewrite <- !app_assoc.
Qed.
Lemma add_rmem (t : Sys) ops addr buf n : fBase (sy_cpu t) = cp_base → 0 <= n <= 65535 → n <= srv_blkmax (sy_link t) →
  add_cmds (AddRMem addr buf n kCPAH_M_UBM22 true) (mlist cp_base ops) t =
  (Ret (Size (mlist cp_base ops), mlist cp_base (ops ++ [MRead addr buf (Z.to_nat n)])), t).
Proof.
  intros Hb Hn Hmax. unfold add_cmds, AddRMem.
  rewrite (AddMem_run _ _ (rblk_ext (u16 (fBase (sy_cpu t) + kCPMEMI)))) by (done || apply AddRblk_ext_run).
  by rewrite mlist_app, Hb.
Qed.
Lemma add_wmem (t : Sys) ops addr buf n : fBase (sy_cpu t) = cp_base → 0 <= n <= 65535 → n <= srv_blkmax (sy_link t) →
  add_cmds (AddWMem addr buf n kCPAH_M_UBM22 true) (mlist cp_base ops) t =
  (Ret (Size (mlist cp_base ops), mlist cp_base (ops ++ [MWrite addr buf (Z.to_nat n)])), t).
Proof.
  intros Hb Hn Hmax. unfold add_cmds, AddWMem.
  rewrite (AddMem_run _ _ (wblk_ext (u16 (fBase (sy_cpu t) + kCPMEMI)))) by (done || apply AddWblk_ext_run).
  by rewrite mlist_app, Hb.
Qed.
Lemma add_labo (t : Sys) ops :
  add_cmds (λ _, AddLabo) (mlist cp_base ops) t = (Ret (Size (mlist cp_base ops), mlist cp_base (ops ++ [MLabo])), t).
Proof. unfold add_cmds. by rewrite mlist_app. Qed.
Lemma add_wibr (t : Sys) ops a v : bad_ibaddr a = false →
  add_cmds (AddWibr a v) (mlist cp_base ops) t =
  (Ret (Size (mlist cp_base ops), mlist cp_base (ops ++ [MReg (IbusRemoteAddr a (sy_cpu t)) v])), t).
Proof.
  intros Ha. unfold add_cmds, AddWibr, check_ibaddr, throw_if. rewrite Ha. autorewrite with run. by rewrite mlist_app.
Qed.
End Sys.
