(* ===== verification/PdpBus.v ===== *)
(** * A bus with a cpu and a device

    The control port of [CpuMem] and a few registers that hold what is written
    to them: a device for the examples of the controllers. *)

From S2P Require Import Prelude.
From S2P Require Import Command.
From S2P Require Import Connect.
From S2P Require Import Link.
From S2P Require Import Cpu.
From S2P Require Import CpuMem.
From S2P Require Import CntlSpec.

Open Scope Z_scope.

(** A bus with the control port of the cpu and seven registers of a device. *)
Record PdpBus := mkPdpBus { pb_port : CpPort; pb_regs : gmap Z Z }.
#[export] Instance eta_PdpBus : Eta PdpBus := λ d, mkPdpBus (pb_port d) (pb_regs d).
#[export] Instance PdpBus_inhabited : Inhabited PdpBus := populate (mkPdpBus (mkCpPort 0 false false 3 false ∅ 0 []) ∅).
Definition is_dev (a : Z) : bool := (0x4f80 <=? a) && (a <=? 0x4f86).
Definition pb_word (a : Z) (d : PdpBus) : Z := u16 (default 0 (pb_regs d !! a)).
#[export] Instance PdpBus_bus : Rbus PdpBus := {
  rb_read a d :=
    if is_dev a then ((0, pb_word a d), d)
    else let '(r, p) := rb_read a (pb_port d) in (r, d <| pb_port := p |>);
  rb_write a v d :=
    if is_dev a then (0, d <| pb_port ::= logged [(a, v)] |> <| pb_regs ::= <[a := v]> |>)
    else let '(st, p) := rb_write a v (pb_port d) in (st, d <| pb_port := p |>);
  rb_fill _ := 0;
  rb_attn d := ((0, 0), d);
  rb_stat _ := 0 }.
#[export] Instance PdpBus_widths : BusWidths PdpBus.
Proof.
  split; try done.
  - intros a d. simpl. destruct (is_dev a); [split; [done|apply u16_range]|].
    pose proof (bw_read a (pb_port d)) as Hw. simpl in Hw. by destruct (cp_read a (pb_port d)) as [[x p]|].
  - intros a v d. simpl. destruct (is_dev a); [done|].
    pose proof (bw_write a v (pb_port d)) as Hw. simpl in Hw. by destruct (cp_write a v (pb_port d)).
Qed.
Lemma port_off off : off ∈ [kCPAL; kCPAH; kCPMEMBE; kCPMEM; kCPMEMI] → u16 (0 + off) = off ∧ is_dev off = false.
Proof. intros Ho. repeat (apply elem_of_cons in Ho as [->|Ho]; [done|]). by apply elem_of_nil in Ho. Qed.
Lemma write_off off v p p' : cp_write off v p = Some p' → off ∈ [kCPAL; kCPAH; kCPMEMBE; kCPMEM; kCPMEMI].
Proof. unfold cp_write. repeat (case_match; [rewrite ?Z.eqb_eq in *; subst; intros _; set_solver|]). done. Qed.
Lemma read_off off p x : cp_read off p = Some x → off ∈ [kCPAL; kCPAH; kCPMEMBE; kCPMEM; kCPMEMI].
Proof. unfold cp_read. repeat (case_match; [rewrite ?Z.eqb_eq in *; subst; intros _; set_solver|]). done. Qed.
Lemma fail_off off : off = kCPMEM ∨ off = kCPMEMI → off ∈ [kCPAL; kCPAH; kCPMEMBE; kCPMEM; kCPMEMI].
Proof. intros [->| ->]; set_solver. Qed.
#[export] Instance PdpBus_cpu : CpuBus PdpBus.
Proof.
  refine {| cp_base := 0; port := pb_port |}.
  - intros off v d p _ Hw. destruct (port_off off (write_off _ _ _ _ Hw)) as [Ho Hr].
    exists 0, (d <| pb_port := p |>). simpl. by rewrite Ho, Hr, Hw.
  - intros off d x p Hw. destruct (port_off off (read_off _ _ _ Hw)) as [Ho Hr].
    exists 0, (d <| pb_port := p |>). simpl. by rewrite Ho, Hr, Hw.
  - intros off d Hoff Hp. destruct (port_off off (fail_off _ Hoff)) as [Ho Hr].
    exists kStat_M_RbErr, 0, (d <| pb_port := pb_port d |>). simpl. rewrite Ho, Hr.
    destruct Hoff as [-> | ->]; unfold cp_read; simpl; by rewrite Hp.
  - intros off v d Hoff Hp. destruct (port_off off (fail_off _ Hoff)) as [Ho Hr].
    exists kStat_M_RbErr, (d <| pb_port := pb_port d |>). simpl. rewrite Ho, Hr.
    destruct Hoff as [-> | ->]; unfold cp_write; simpl; by rewrite Hp.
Defined.
#[export] Instance PdpBus_dev : RegDev PdpBus.
Proof.
  refine {| dev_reg a := is_dev a = true; reg := pb_word |}.
  - intros a d. apply u16_range.
  - intros a Ha. unfold is_dev in Ha. unfold is_u16. lia.
  - intros a d Ha. exists 0, d. simpl. by rewrite Ha.
  - intros d. by exists 0, 0, d.
  - intros a v d Ha _. eexists 0, _. simpl. by rewrite Ha.
Defined.
