(* ===== verification/FifoBus.v ===== *)
(** * Registers with a fifo

    A device that collects characters delivers them one by one when its buffer
    register is read: a valid bit, the number of characters that wait, and the
    character; a read of an empty fifo is refused.  [FifoBus] states this for a
    bus; [FifoPdp], a pdp-11 with such a register, is an instance. *)

From S2P Require Import Prelude.
From S2P Require Import Command.
From S2P Require Import CommandList.
From S2P Require Import Connect.
From S2P Require Import Link.
From S2P Require Import Cpu.
From S2P Require Import CpuMem.
From S2P Require Import Rdma.
From S2P Require Import CntlSpec.
From S2P Require Import PdpBus.

Open Scope Z_scope.

(** ** The bus *)

(** Valid bit, fill, character. *)
Definition fifo_word (l : list Z) : Z := 0x8000 + 256 * Z.of_nat (length l) + hd 0 l.
Class FifoBus (D : Type) `{!Rbus D, !CpuBus D} := {
  fifo_reg : Z → Prop;
  fifo : Z → D → list Z;        (** what waits at a register, the first one first *)
  fifo_addr a : fifo_reg a → is_u16 a;
  fifo_size a d : (length (fifo a d) <= 127)%nat;
  fifo_u8 a d : Forall is_u8 (fifo a d);
  fifo_read_law a d : fifo_reg a → ∃ st x d', rb_read a d = ((st, x), d') ∧
    port d' = port d ∧ fifo a d' = tail (fifo a d) ∧
    if decide (fifo a d = []) then bad_stat st = true else bad_stat st = false ∧ x = fifo_word (fifo a d);
  fifo_attn_law d : ∃ st x d', rb_attn d = ((st, x), d') ∧ port d' = port d ∧ ∀ a, fifo a d' = fifo a d }.

(** What a block read of [n] words delivers. *)
Fixpoint fifo_words (n : nat) (l : list Z) : list Z :=
  match n, l with
  | S n, _ :: l' => fifo_word l :: fifo_words n l'
  | _, _ => []
  end.
Lemma length_fifo_words n l : length (fifo_words n l) = Nat.min n (length l).
Proof. revert l. induction n as [|n IH]; intros [|c l]; simpl; [done..|]. by rewrite IH. Qed.

Section Fifo.
Context {D : Type} `{!Rbus D, !CpuBus D, !FifoBus D}.

Lemma bus_rblk_fifo a : fifo_reg a → ∀ n st (d : D), ∃ st' d',
  bus_rblk a n st d = ((fifo_words n (fifo a d), st'), d') ∧ port d' = port d ∧ fifo a d' = drop n (fifo a d).
Proof.
  intros Ha n. induction n as [|n IH]; intros st d; cbn [bus_rblk]; [by exists st, d|].
  destruct (fifo_read_law a d Ha) as (st1 & x & d1 & E & Hp & Hf & Hs). rewrite E.
  destruct (fifo a d) as [|c l] eqn:El; cbn [tail] in Hf.
  - rewrite decide_True in Hs by done. rewrite Hs. by exists st1, d1.
  - rewrite decide_False in Hs by done. destruct Hs as [Hs ->]. rewrite Hs.
    destruct (IH st1 d1) as (st' & d' & E' & Hp' & Hf'). rewrite E'. exists st', d'. rewrite Hf', Hp', Hf. done.
Qed.
End Fifo.

(** The commands: blocks in the command. *)
Definition rblk (a : Z) (n : nat) : RlinkCommand := fresh_command kCmdRblk a 0 (replicate n 0) None 0.
Definition wblk (a : Z) (ws : list Z) : RlinkCommand := fresh_command kCmdWblk a 0 ws None 0.
Lemma AddRblk_run a n l : 0 < Z.of_nat n <= 65535 →
  AddRblk a n l = (Ret (length (fList l)), l <| fList ::= λ cs, cs ++ [rblk a n] |>).
Proof.
  intros Hn. apply bad_block_size_false in Hn. unfold AddRblk, Add_new, CmdRblk.
  unfold mbind, M_bind. rewrite SetCommand_new by done. unfold SetBlockRead, throw_if. by rewrite Hn.
Qed.
Lemma AddWblk_run a ws l : 0 < Z.of_nat (length ws) <= 65535 →
  AddWblk a ws l = (Ret (length (fList l)), l <| fList ::= λ cs, cs ++ [wblk a ws] |>).
Proof.
  intros Hn. apply bad_block_size_false in Hn. unfold AddWblk, Add_new, CmdWblk.
  unfold mbind, M_bind. rewrite SetCommand_new by done. unfold SetBlockWrite, throw_if. by rewrite Hn.
Qed.
Lemma rblk_wf a n : is_u16 a → 0 < Z.of_nat n <= 65535 → cmd_wf (rblk a n).
Proof.
  intros Ha Hn. apply fresh_command_wf; try done; [by apply Forall_replicate|]. intros _. by rewrite length_replicate.
Qed.
Lemma wblk_wf a ws : is_u16 a → Forall is_u16 ws → 0 < Z.of_nat (length ws) <= 65535 → cmd_wf (wblk a ws).
Proof. intros Ha Hw Hn. by apply fresh_command_wf. Qed.

(** A list executed. *)
Lemma exec_list_at {S D V H A C} `{!RlinkExec S, !Rbus D, !LinkLaws S D} l (t : Rw11Sys S V H A C) rs m d :
  link_ok (sy_link t) → list_ok l →
  bus_run (srv_mem (sy_link t)) false (fList l) (srv_mem (sy_link t)) (dev (sy_link t)) = (rs, m, d) →
  ∃ l' s', exec_list l t = (Ret l', t <| sy_link := s' |>) ∧ Forall2 answered rs (fList l') ∧ Forall cmd_wf (fList l') ∧
    srv_mem s' = m ∧ dev s' = d ∧ same_link (sy_link t) s'.
Proof.
  intros Hup Hok Hrun. pose proof (exec_throw_law l (sy_link t) Hup Hok) as Hx. rewrite Hrun in Hx.
  destruct Hx as (l' & s' & Hx & Ha & Hw & Hm & Hd & Hs). exists l', s'. split; [|by split_and!].
  unfold exec_list, Exec_, zoom. change (link (sy_cpu t)) with (sy_link t). by rewrite Hx.
Qed.

(** A register written. *)
Lemma exec_wibr_ok {S D V H A C} `{!RlinkExec S, !Rbus D, !LinkLaws S D, !CpuBus D, !RegDev D} ib base off v (t : Rw11Sys S V H A C) :
  link_ok (sy_link t) → fIBase (sy_cpu t) = ib → bad_ibaddr (u16 (base + off)) = false → dev_reg (rb ib base off) → is_u16 v →
  ∃ s', zoom sy_cpu (ExecWibr (u16 (base + off)) v 0 0 0 0) t = (Ret (), t <| sy_link := s' |>) ∧
    exec_link (logged [(rb ib base off, v)]) (sy_link t) s'.
Proof.
  intros Hup Hib Hb Hd Hv. destruct (exec_wregs [(rb ib base off, v)] t) as (l' & s' & Hx & Hs); [done| |done|done|].
  { apply list.Forall_cons_2; [by split|done]. }
  exists s'. split; [|done]. unfold exec_list, zoom in *.
  assert (E : IbusRemoteAddr (u16 (base + off)) (sy_cpu t) = rb ib base off) by (unfold IbusRemoteAddr, rb; by rewrite Hib).
  unfold ExecWibr, new_clist, AddWibr, check_ibaddr, throw_if. rewrite Hb, E.
  change (mkCommandList (wregs [(rb ib base off, v)]) (-1)) with (mkCommandList [wreg (rb ib base off) v] (-1)) in Hx.
  unfold mbind, M_bind. cbn -[Exec_ AddWreg wreg]. rewrite AddWreg_run. cbn -[Exec_ wreg].
  destruct (Exec_ _ (sy_cpu t)) as [[x|e|] c]; [|done..]. apply (f_equal snd) in Hx. exact (f_equal (pair (Ret ())) Hx).
Qed.

(** ** A pdp-11 with a fifo *)

(** At one of the registers of the device. *)
Definition fp_addr : Z := 0x4f81.
Record FifoPdp := mkFifoPdp { fp_bus : PdpBus; fp_fifo : list Z }.
#[export] Instance eta_FifoPdp : Eta FifoPdp := λ d, mkFifoPdp (fp_bus d) (fp_fifo d).
#[export] Instance FifoPdp_inhabited : Inhabited FifoPdp := populate (mkFifoPdp inhabitant []).
Definition fp_chars (d : FifoPdp) : list Z := take 127 (map u8 (fp_fifo d)).
#[export] Instance FifoPdp_bus : Rbus FifoPdp := {
  rb_read a d :=
    if a =? fp_addr then
      match fp_chars d with
      | [] => ((kStat_M_RbNak, 0), d)
      | _ => ((0, fifo_word (fp_chars d)), d <| fp_fifo := tail (fp_chars d) |>)
      end
    else let '(r, b) := rb_read a (fp_bus d) in (r, d <| fp_bus := b |>);
  rb_write a v d := let '(st, b) := rb_write a v (fp_bus d) in (st, d <| fp_bus := b |>);
  rb_fill _ := 0;
  rb_attn d := ((0, 0), d);
  rb_stat _ := 0 }.
Lemma fp_chars_u8 d : Forall is_u8 (fp_chars d).
Proof.
  unfold fp_chars. apply list.Forall_take, Forall_map. apply list.Forall_forall. intros x _. apply u8_range.
Qed.
Lemma fifo_word_u16 l : (length l <= 127)%nat → Forall is_u8 l → is_u16 (fifo_word l).
Proof.
  intros Hl Hu. unfold fifo_word, is_u16. change (2 ^ 16) with 65536.
  destruct Hu as [|c l Hc _]; cbn [hd length] in *; [lia|]. unfold is_u8 in Hc. change (2 ^ 8) with 256 in Hc. lia.
Qed.
Lemma fp_chars_size d : (length (fp_chars d) <= 127)%nat.
Proof. unfold fp_chars. rewrite length_take. lia. Qed.
Lemma fp_chars_tail d : fp_chars (d <| fp_fifo := tail (fp_chars d) |>) = tail (fp_chars d).
Proof.
  pose proof (fp_chars_u8 d) as Hu. pose proof (fp_chars_size d) as Hs. unfold fp_chars at 1. cbn [fp_fifo update setter].
  destruct (fp_chars d) as [|c l]; [done|]. cbn [tail length] in *. apply Forall_cons_iff in Hu as [_ Hu].
  rewrite take_ge by (rewrite length_map; lia). clear -Hu.
  induction Hu as [|x l Hx _ IH]; [done|]. cbn [map]. by rewrite IH, u8_id.
Qed.
#[export] Instance FifoPdp_widths : BusWidths FifoPdp.
Proof.
  split; try done.
  - intros a d. simpl. destruct (a =? fp_addr).
    + pose proof (fp_chars_size d) as Hs. pose proof (fp_chars_u8 d) as Hu. destruct (fp_chars d) as [|c l]; [done|].
      split; [done|]. by apply fifo_word_u16.
    + pose proof (bw_read a (fp_bus d)) as Hw. revert Hw. simpl. by case_match; [|case_match].
  - intros a v d. pose proof (bw_write a v (fp_bus d)) as Hw. revert Hw. simpl. by case_match; [|case_match].
Qed.
Lemma fp_other off : off ∈ [kCPAL; kCPAH; kCPMEMBE; kCPMEM; kCPMEMI] → (u16 (0 + off) =? fp_addr) = false.
Proof. intros Ho. repeat (apply elem_of_cons in Ho as [->|Ho]; [done|]). by apply elem_of_nil in Ho. Qed.
Lemma fp_bus_read a d : (a =? fp_addr) = false →
  rb_read a d = (let '(r, b) := rb_read a (fp_bus d) in (r, d <| fp_bus := b |>)).
Proof. intros Ha. cbn [rb_read FifoPdp_bus]. by rewrite Ha. Qed.
#[export] Instance FifoPdp_cpu : CpuBus FifoPdp.
Proof.
  refine {| cp_base := 0; port d := port (fp_bus d) |}.
  - intros off v d p Hv Hw. destruct (cp_write_law off v (fp_bus d) p Hv Hw) as (st & b & E & Hs & Hp). change cp_base with 0 in E.
    exists st, (d <| fp_bus := b |>). cbn [rb_write FifoPdp_bus]. by rewrite E.
  - intros off d x p Hw. destruct (cp_read_law off (fp_bus d) x p Hw) as (st & b & E & Hs & Hp). change cp_base with 0 in E.
    exists st, (d <| fp_bus := b |>). rewrite fp_bus_read by exact (fp_other _ (read_off _ _ _ Hw)). by rewrite E.
  - intros off d Hoff Hp. destruct (cp_read_fail off (fp_bus d) Hoff Hp) as (st & x & b & E & Hs & Hq). change cp_base with 0 in E.
    exists st, x, (d <| fp_bus := b |>). rewrite fp_bus_read by exact (fp_other _ (fail_off _ Hoff)). by rewrite E.
  - intros off v d Hoff Hp. destruct (cp_write_fail off v (fp_bus d) Hoff Hp) as (st & b & E & Hs & Hq). change cp_base with 0 in E.
    exists st, (d <| fp_bus := b |>). cbn [rb_write FifoPdp_bus]. by rewrite E.
Defined.
#[export] Instance FifoPdp_dev : RegDev FifoPdp.
Proof.
  refine {| dev_reg a := dev_reg (D := PdpBus) a ∧ (a =? fp_addr) = false; reg a d := reg a (fp_bus d) |}.
  - intros a d. apply reg_range.
  - intros a [Ha _]. by apply (reg_addr (D := PdpBus)).
  - intros a d [Ha Hf]. destruct (reg_read_law a (fp_bus d) Ha) as (st & b & E & Hp & Hr).
    exists st, (d <| fp_bus := b |>). rewrite fp_bus_read by done. by rewrite E.
  - intros d. by exists 0, 0, d.
  - intros a v d [Ha _] Hv. destruct (reg_write_law a v (fp_bus d) Ha Hv) as (st & b & E & Hp).
    exists st, (d <| fp_bus := b |>). cbn [rb_write FifoPdp_bus]. by rewrite E.
Defined.
#[export] Instance FifoPdp_fifo : FifoBus FifoPdp.
Proof.
  refine {| fifo_reg a := a = fp_addr; fifo a d := fp_chars d |}.
  - by intros a ->.
  - intros _ d. apply fp_chars_size.
  - intros _ d. apply fp_chars_u8.
  - intros a d ->. cbn [rb_read FifoPdp_bus]. rewrite Z.eqb_refl. destruct (fp_chars d) as [|c l] eqn:E.
    + exists kStat_M_RbNak, 0, d. rewrite E. by split_and!.
    + eexists 0, _, _. split; [reflexivity|]. split; [done|]. split; [|done]. pose proof (fp_chars_tail d) as Ht. rewrite E in Ht. exact Ht.
  - intros d. by exists 0, 0, d.
Defined.
