(* ===== verification/RkSpec.v ===== *)
(** * The RK11 executes the functions of its device

    The registers of the device say what to do, in the arithmetic of its manual
    ([rk_run]): the outcome is a sequence of register writes, or a transfer
    between memory and disk.  The attention handler refines it, over every link,
    bus and disk container; a transfer that it queues runs to its end and tells
    the device so. *)

From S2P Require Import Prelude.
From S2P Require Import Rstats.
From S2P Require Import AddrMap.
From S2P Require Import Command.
From S2P Require Import CommandList.
From S2P Require Import Connect.
From S2P Require Import ConnectDecode.
From S2P Require Import Link.
From S2P Require Import LinkCore.
From S2P Require Import Server.
From S2P Require Import FileFd.
From S2P Require Import VirtDisk.
From S2P Require Import UnitDisk.
From S2P Require Import Cpu.
From S2P Require Import CpuMem.
From S2P Require Import Rdma.
From S2P Require Import RdmaSpec.
From S2P Require Import Cntl.
From S2P Require Import CntlSpec.
From S2P Require Import Rk11.

Open Scope Z_scope.

(** ** The device *)

(** The registers of a request. *)
Record request := mkReq { q_wc : Z; q_ba : Z; q_da : Z; q_cs : Z }.
Definition q_ok (q : request) : Prop :=
  is_u16 (q_wc q) ∧ is_u16 (q_ba q) ∧ is_u16 (q_da q) ∧ is_u16 (q_cs q).
Definition q_go (q : request) : bool := Z.odd (q_cs q).
Definition q_ready (q : request) : bool := Z.testbit (q_cs q) 7.
Definition q_fu (q : request) : Z := q_cs q / 2 mod 8.
Definition q_addr (q : request) : Z := 65536 * (q_cs q / 16 mod 4) + q_ba q.
Definition q_n (q : request) : Z := 65536 - q_wc q.
Definition q_dr (q : request) : Z := q_da q / 8192.
Definition q_cy (q : request) : Z := q_da q / 32 mod 256.
Definition q_hd (q : request) : Z := q_da q / 16 mod 2.
Definition q_se (q : request) : Z := q_da q mod 16.
(** An RK05: 203 cylinders, 2 surfaces, 12 sectors of 256 words. *)
Definition q_lba (q : request) : Z := q_se q + 12 * (q_hd q + 2 * q_cy q).
Definition overrun (q : request) : bool := 4872 <? q_lba q + blocks_for (q_n q) 256.
(** A transfer ends at the end of the disk. *)
Definition q_size (q : request) : Z :=
  if overrun q then 256 * (4872 - q_lba q) else q_n q.

(** The registers behind a transfer of [n] words with error bits [err]. *)
Definition rk_exit (q : request) (n err : Z) : list (Z * Z) :=
  let addr := q_addr q + 2 * n in
  let lba := q_lba q + blocks_for n 256 in
  let mex := addr / 65536 mod 4 in
  let err := err + (if overrun q then 0x4000 else 0) in
  (if err =? 0 then [] else [(kRKER, err)]) ++
  [(kRKWC, (n - q_size q) mod 65536);
   (kRKBA, 2 * (addr / 2 mod 32768));
   (kRKDA, 8192 * q_dr q + 32 * (lba / 24) + 16 * (lba / 12 mod 2) + lba mod 12)] ++
  (if mex =? q_cs q / 16 mod 4 then [] else [(kRKCS, q_cs q + 16 * (mex - q_cs q / 16 mod 4))]) ++
  [(kRKMR, 0x100)].

(** A drive. *)
Record rk_unit := mkUv { uv_attached : bool; uv_wprot : bool; uv_rkds : Z }.
(** What the attention handler is to do. *)
Inductive outcome :=
| Dropped
| Told (ws : list (Z * Z)) (uv : rk_unit)
| Queued (fn : func).

(** Errors of the request, and of the disk address. *)
Definition req_error (q : request) (uv : rk_unit) : Z :=
  if negb (q_fu q =? 0) && negb (uv_attached uv) then 0x80
  else if negb (q_fu q =? 1) && negb (q_fu q =? 2) && (Z.testbit (q_cs q) 9 || Z.testbit (q_cs q) 10) then 0x800
  else if Z.testbit (q_cs q) 9 then 0x8000 else 0.
Definition seek_error (q : request) : Z :=
  (if 12 <=? q_se q then 0x20 else 0) + (if 203 <=? q_cy q then 0x40 else 0).
Definition xfer_error (q : request) (uv : rk_unit) : Z :=
  seek_error q + (if (q_fu q =? 1) && uv_wprot uv then 0x2000 else 0) +
  (if Z.testbit (q_cs q) 11 then 0x8000 else 0).

Definition rk_function (q : request) (uv : rk_unit) : outcome :=
  let seek_done := (kRKMR, 2 ^ q_dr q) in
  let fdone := (kRKMR, 0x100) in
  let xfer o := if xfer_error q uv =? 0 then o else Told [(kRKER, xfer_error q uv); fdone] uv in
  match q_fu q with
  | 0 => Told [(kRKMR, 0x200)] uv
  | 1 => xfer (Queued kFuncWrite)
  | 2 => xfer (Queued kFuncRead)
  | 3 => xfer (Queued kFuncWriteCheck)
  | 4 =>
      if seek_error q =? 0 then
        let ds := 16 * (uv_rkds uv / 16) + q_se q in
        Told [fdone; (kRKDS, ds); seek_done] (mkUv (uv_attached uv) (uv_wprot uv) ds)
      else Told [(kRKER, seek_error q); (kRKMR, 0x400 + 2 ^ q_dr q); fdone] uv
  | 5 => xfer (Told (rk_exit q (q_size q) 0) uv)
  | 6 => Told [fdone; seek_done] uv
  | _ =>
      let ds := uv_rkds uv + (if Z.testbit (uv_rkds uv) 5 then 0 else 0x20) in
      Told [(kRKDS, ds); fdone] (mkUv (uv_attached uv) true ds)
  end.
(** [busy]: a transfer is active. *)
Definition rk_run (q : request) (uv : rk_unit) (busy : bool) : outcome :=
  if negb (q_go q) || q_ready q || busy then Dropped
  else if req_error q uv =? 0 then rk_function q uv
  else Told ([(kRKER, req_error q uv)] ++
             (if (q_fu q =? 4) || (q_fu q =? 6) then [(kRKMR, 0x400 + 2 ^ q_dr q)] else []) ++
             [(kRKMR, 0x100)]) uv.

(** ** Requests *)

(** The fields of the controller hold the request. *)
Record requested (q : request) (rk : RK11) : Prop := {
  rq_cs : fRd_rkcs rk = q_cs q;
  rq_da : fRd_rkda rk = q_da q;
  rq_addr : fRd_addr rk = q_addr q;
  rq_lba : fRd_lba rk = q_lba q;
  rq_nwrd : fRd_nwrd rk = q_size q;
  rq_fu : fRd_fu rk = q_fu q;
  rq_ovr : fRd_ovr rk = overrun q }.
Record rk05 {V} (u : Rw11UnitDisk V) : Prop := {
  ge_cyl : ufNCyl u = 203;
  ge_head : ufNHead u = 2;
  ge_sect : ufNSect u = 12;
  ge_bsize : ufBlksize u = 512;
  ge_block : ufNBlock u = 4872 }.

Lemma q_ranges q : q_ok q →
  0 <= q_fu q < 8 ∧ 0 <= q_dr q < 8 ∧ 0 <= q_cy q < 256 ∧ 0 <= q_hd q < 2 ∧ 0 <= q_se q < 16 ∧
  0 <= q_addr q < 2 ^ 18 ∧ 0 < q_n q <= 65536.
Proof.
  intros (H1 & H2 & H3 & H4). unfold is_u16 in *. unfold q_fu, q_dr, q_cy, q_hd, q_se, q_addr, q_n.
  Z.div_mod_to_equations. lia.
Qed.
Lemma q_da_eq q : q_ok q → q_da q = 8192 * q_dr q + 32 * q_cy q + 16 * q_hd q + q_se q.
Proof.
  intros (H1 & H2 & H3 & H4). unfold is_u16 in *. unfold q_dr, q_cy, q_hd, q_se.
  Z.div_mod_to_equations. lia.
Qed.
Lemma Nwrd2Nblk_rk05 {V} (u : Rw11UnitDisk V) n : rk05 u → 0 <= n <= 65536 →
  Nwrd2Nblk n u = blocks_for n 256.
Proof.
  intros Hu Hn. unfold Nwrd2Nblk, blocks_for. rewrite (ge_bsize u Hu), (u32_id (2 * n)) by (unfold is_u32; lia).
  assert (E : (2 * n + 512 - 1) / 512 = (n + 256 - 1) / 256).
  { replace (2 * n + 512 - 1) with (1 + (n + 256 - 1) * 2) by lia. change 512 with (2 * 256).
    by rewrite <- Z.div_div, Z.div_add by lia. }
  rewrite E. clear E. apply u32_id. split; [apply Z.div_pos|apply Z.div_lt_upper_bound]; lia.
Qed.
(** A valid disk address, and what is transferred from there. *)
Lemma q_valid q : q_ok q → seek_error q = 0 →
  q_se q < 12 ∧ q_cy q < 203 ∧ 0 <= q_lba q < 4872 ∧ 0 < q_size q <= 65536 ∧
  q_lba q + blocks_for (q_size q) 256 <= 4872.
Proof.
  intros Hq He. destruct (q_ranges q Hq) as (_ & _ & Hcy & Hhd & Hse & _ & Hn).
  unfold seek_error in He. destruct (Z.leb_spec 12 (q_se q)); [by destruct (203 <=? q_cy q)|].
  destruct (Z.leb_spec 203 (q_cy q)); [done|].
  assert (0 <= q_lba q < 4872) by (unfold q_lba; lia).
  split_and!; try done; try lia; unfold q_size, overrun;
    destruct (Z.ltb_spec 4872 (q_lba q + blocks_for (q_n q) 256)) as [Ho|Ho]; try lia;
    unfold blocks_for in *; Z.div_mod_to_equations; lia.
Qed.

Lemma exit_regs_spec {V} (u : Rw11UnitDisk V) q rk n err :
  q_ok q → requested q rk → rk05 u → seek_error q = 0 → 0 <= n <= q_size q → Z.land err 0x4000 = 0 →
  exit_regs rk u n err = rk_exit q n err.
Proof.
  intros Hq Hrk Hu He Hn Herr. destruct (q_ranges q Hq) as (_ & Hdr & _ & _ & _ & Haddr & _).
  destruct (q_valid q Hq He) as (_ & _ & Hlba & Hsize & Hend).
  pose proof Hq as (_ & _ & Hda & Hcs). unfold is_u16 in Hda, Hcs.
  assert (Hblk : 0 <= blocks_for n 256 ∧ q_lba q + blocks_for n 256 <= 4872).
  { unfold blocks_for in *. Z.div_mod_to_equations. lia. }
  unfold exit_regs, rk_exit. destruct Hrk as [-> -> -> -> -> _ ->].
  rewrite (u32_id n), Nwrd2Nblk_rk05 by (unfold is_u32 in *; done || lia).
  rewrite (u32_id (q_addr q + 2 * n)), (u32_id (q_lba q + _)), (u32_id (q_size q - n)) by (unfold is_u32; lia).
  set (lba := q_lba q + blocks_for n 256) in *. set (addr := q_addr q + 2 * n).
  unfold Lba2Chs. rewrite (ge_sect u Hu), (ge_head u Hu). change (12 * 2) with 24.
  assert (Hb : 0 <= lba <= 4872) by lia. clearbody lba.
  assert (Hchs : 0 <= lba / 24 <= 203 ∧ 0 <= lba / 12 mod 2 < 2 ∧ 0 <= lba mod 12 < 12).
  { clear -Hb. Z.div_mod_to_equations. lia. }
  rewrite !(u16_id (_ / _)), !(u16_id (_ mod _)) by (unfold is_u16; lia).
  assert (Hmex : Z.land (Z.shiftr addr 16) 3 = addr / 65536 mod 4) by (by apply (field_mod addr 16 2)).
  rewrite Hmex. set (mex := addr / 65536 mod 4).
  assert (Hmx : 0 <= mex < 4) by (apply Z.mod_pos_bound; lia).
  assert (Hcs' : Z.lor (Z.ldiff (q_cs q) kRKCS_M_MEX) (Z.shiftl mex kRKCS_V_MEX) =
                 q_cs q + 16 * (mex - q_cs q / 16 mod 4)) by (by apply (replace_field (q_cs q) 2 4 mex)).
  assert (Hda' : u16 (Z.lor (Z.lor (Z.lor (Z.land (q_da q) kRKDA_M_DRSEL) (Z.shiftl (lba / 24) kRKDA_V_CYL))
             (Z.shiftl ((lba / 12) mod 2) kRKDA_V_SUR)) (lba mod 12)) =
    8192 * q_dr q + 32 * (lba / 24) + 16 * (lba / 12 mod 2) + lba mod 12).
  { change kRKDA_M_DRSEL with (Z.shiftl (Z.ones 3) 13). rewrite land_shifted by done.
    change (q_da q / 2 ^ 13) with (q_dr q). rewrite (Z.mod_small (q_dr q)) by done.
    rewrite !Z.shiftl_mul_pow2 by done. unfold kRKDA_V_CYL, kRKDA_V_SUR. clear -Hchs Hdr.
    change (2 ^ 13) with 8192. change (2 ^ 5) with 32. change (2 ^ 4) with 16.
    rewrite (lor_disjoint 13 (8192 * _)) by (lia || (change (2 ^ 13) with 8192; Z.div_mod_to_equations; lia)).
    rewrite (lor_disjoint 5 (_ + _ * 32)) by (lia || (change (2 ^ 5) with 32; Z.div_mod_to_equations; lia)).
    rewrite (lor_disjoint 4 (_ + _ * 16)) by (lia || (change (2 ^ 4) with 16; Z.div_mod_to_equations; lia)).
    rewrite u16_id; [lia|]. unfold is_u16. lia. }
  assert (Hba : Z.land addr 65534 = 2 * (addr / 2 mod 32768)) by (by apply (land_shifted addr 15 1)).
  assert (Hwc : Z.land (u32 (- (q_size q - n))) 0xffff = (n - q_size q) mod 65536).
  { unfold u32. rewrite <- Z.land_assoc. change (u16 (- (q_size q - n)) = (n - q_size q) mod 2 ^ 16).
    rewrite u16_mod. f_equal. lia. }
  assert (Hov : (if overrun q then Z.lor err kRKER_M_OVR else err) = err + (if overrun q then 0x4000 else 0)).
  { destruct (overrun q); [|lia]. pose proof (Z.add_lor_land err 0x4000) as E. unfold kRKER_M_OVR. lia. }
  rewrite Hcs', Hda', Hba, Hwc, Hov.
  f_equal; [by destruct (_ =? 0)|]. f_equal. f_equal.
  destruct (Z.eqb_spec mex (q_cs q / 16 mod 4)) as [E|E].
  - by rewrite (proj2 (Z.eqb_eq _ _)) by lia.
  - by rewrite (proj2 (Z.eqb_neq _ _)) by lia.
Qed.

(** The bits the code tests and the fields it extracts. *)
Lemma q_code q : q_ok q →
  Z.land (q_da q) kRKDA_B_SC = q_se q ∧ field (q_da q) kRKDA_V_SUR kRKDA_B_SUR = q_hd q ∧
  field (q_da q) kRKDA_V_CYL kRKDA_B_CYL = q_cy q ∧ drive (q_da q) = q_dr q ∧
  field (q_cs q) kRKCS_V_FUNC kRKCS_B_FUNC = q_fu q ∧
  Z.lor (Z.shiftl (field (q_cs q) kRKCS_V_MEX kRKCS_B_MEX) 16) (q_ba q) = q_addr q ∧
  Z.land (Z.lnot (q_wc q)) 0xffff + 1 = q_n q.
Proof.
  intros Hq. pose proof (q_ranges q Hq) as (_ & Hdr & _). pose proof Hq as (Hwc & Hba & Hda & Hcs).
  unfold is_u16 in *. unfold field. split_and!.
  - by apply (Z.land_ones _ 4).
  - by apply (field_mod _ 4 1).
  - by apply (field_mod _ 5 8).
  - unfold drive, field. etrans; [by apply (field_mod _ 13 3)|]. apply Z.mod_small. exact Hdr.
  - by apply (field_mod _ 1 3).
  - rewrite (lor_disjoint 16), Z.shiftl_mul_pow2 by (done || rewrite Z.shiftl_mul_pow2 by done; by apply Z.mod_mul).
    etrans; [apply f_equal2; [apply f_equal2; [by apply (field_mod _ 4 2)|done]|done]|].
    unfold q_addr. change (2 ^ 16) with 65536. change (2 ^ 4) with 16. change (2 ^ 2) with 4. lia.
  - etrans; [apply f_equal2; [apply (Z.land_ones _ 16); done|reflexivity]|].
    unfold q_n. replace (Z.lnot (q_wc q)) with (- q_wc q - 1) by (unfold Z.lnot; lia).
    change (2 ^ 16) with 65536 in *. clear -Hwc. Z.div_mod_to_equations. lia.
Qed.
Lemma q_flags q : q_ok q →
  negb (Z.land (q_cs q) kRKCS_M_GO =? 0) = q_go q ∧ negb (Z.land (q_cs q) kRKCS_M_RDY =? 0) = q_ready q ∧
  negb (Z.land (q_cs q) kRKCS_M_RWA =? 0) = Z.testbit (q_cs q) 9 ∧
  negb (Z.land (q_cs q) kRKCS_M_IBA =? 0) = Z.testbit (q_cs q) 11 ∧
  negb (Z.land (q_cs q) (Z.lor kRKCS_M_FMT kRKCS_M_RWA) =? 0) = (Z.testbit (q_cs q) 9 || Z.testbit (q_cs q) 10).
Proof.
  intros _. split_and!; [|by apply (flag_test _ 7)|by apply (flag_test _ 9)|by apply (flag_test _ 11)|].
  - unfold q_go. rewrite <- Z.bit0_odd. by apply (flag_test _ 0).
  - rewrite Z.land_lor_distr_r. rewrite <- (flag_test _ 9), <- (flag_test _ 10) by done.
    change (2 ^ 9) with kRKCS_M_RWA. change (2 ^ 10) with kRKCS_M_FMT.
    destruct (Z.eqb_spec (Z.land (q_cs q) kRKCS_M_FMT) 0) as [E1|E1],
             (Z.eqb_spec (Z.land (q_cs q) kRKCS_M_RWA) 0) as [E2|E2]; rewrite ?E1, ?E2; try done.
    + by rewrite Z.lor_0_l, (proj2 (Z.eqb_neq _ _) E2).
    + by rewrite Z.lor_0_r, (proj2 (Z.eqb_neq _ _) E1).
    + rewrite (proj2 (Z.eqb_neq _ _)); [done|]. intros H. by apply Z.lor_eq_0_iff in H as [? ?].
Qed.

(** ** The controller *)

Definition rk_offs : list Z := [kRKDS; kRKER; kRKCS; kRKWC; kRKBA; kRKDA; kRKMR].
Definition prim_offs : list Z := [kRKWC; kRKBA; kRKDA; kRKMR; kRKCS].

Section RK11.
Context {S D V H A : Type}.
Context `{!RlinkExec S, !Rbus D, !LinkLaws S D, !CpuBus D, !RegDev D, !VirtDiskOps V, !VirtDiskSpec V}.
Notation Sys := (Rw11Sys S V H A RK11).

(** The device is at [base] on an ibus that is seen at [ib]. *)
Variables (ib base : Z).
Notation rb := (rb ib base).
Notation at_rb := (at_rb ib base).
Notation regs_ok := (regs_ok rk_offs).
Definition rk_present : Prop := present ib base rk_offs.
Hypothesis Hdev : rk_present.

(** The controller is started. *)
Record rk_static (t : Sys) : Prop := {
  rs_up : up t;
  rs_base : cn_fBase (rk_cntl (sy_client t)) = base;
  rs_ib : fIBase (sy_cpu t) = ib;
  rs_units i : (i < 8)%nat → ∃ u, sy_units t !! i = Some u ∧ rk05 u;
  rs_rkds : length (fRkds (sy_client t)) = 8%nat ∧ Forall is_u16 (fRkds (sy_client t));
  rs_prim : prim_ok (map rb prim_offs) (cn_fPrimClist (rk_cntl (sy_client t)));
  rs_pc : fPC_rkwc (sy_client t) = 1%nat ∧ fPC_rkba (sy_client t) = 2%nat ∧ fPC_rkda (sy_client t) = 3%nat ∧
    fPC_rkcs (sy_client t) = 5%nat }.
Lemma frame_static t t' : frame t t' → rk_static t → rk_static t'.
Proof.
  intros (Hc & (s & Hs & Hl) & Hu) [[H1 H1'] H2 H3 H4 H5 H6 H7].
  split; rewrite ?Hc; try done.
  - split; [by rewrite Hs|]. unfold sy_link. rewrite Hs. by eapply same_link_ok.
  - by rewrite Hs.
  - intros i Hi. destruct (H4 i Hi) as (u & Hui & Hg). destruct (kp_unit _ _ _ _ Hu i u Hui) as (v & Hv & _).
    exists (u <| fupVirt := v |>). split; [done|]. by destruct Hg.
Qed.

Lemma prim_regs : Forall dev_reg (map rb prim_offs).
Proof. apply (regs_at _ _ _ Hdev). unfold prim_offs, rk_offs. repeat constructor; set_solver. Qed.
(** The writes as the code makes them. *)
Lemma rk_regs (t : Sys) (ws : list (Z * Z)) : rk_static t →
  map (λ '(off, v), (rk_reg (sy_client t) off, v)) ws = map (λ '(off, v), (u16 (base + off), v)) ws.
Proof. intros Hs. apply map_ext. intros [off v]. unfold rk_reg. by rewrite (rs_base t Hs). Qed.

(** *** Steps of the handler *)

(** Only the link and the fields of the controller change. *)
Record told_step (ws : list (Z * Z)) (t t' : Sys) : Prop := {
  ts_step : step (λ v, v <| v_port ::= logged (at_rb ws) |>) t t';
  ts_srv : sy_srv t' = sy_srv t;
  ts_units : sy_units t' = sy_units t }.
Lemma told_link ws (t : Sys) s' : exec_link (logged (at_rb ws)) (sy_link t) s' →
  told_step ws t (t <| sy_link := s' |>).
Proof.
  intros [H1 H2 H3]. split; [|done|done]. split_and!; [|by exists s'|done].
  unfold view. cbn [update setter v_port]. f_equal; [exact H3|exact H2].
Qed.
Lemma told_client ws (t t' : Sys) f : told_step ws t t' → told_step ws t (t' <| sy_client ::= f |>).
Proof. intros [(H1 & H2 & H3) H4 H5]. split; [|done|done]. by split_and!. Qed.
Lemma told_refl (t : Sys) : told_step [] t t.
Proof.
  split; [|done|done]. eapply step_eq; [apply step_id|]. cbn [update setter]. rewrite logged_nil. by destruct (view t).
Qed.
Lemma told_trans ws1 ws2 (t1 t2 t3 : Sys) : told_step ws1 t1 t2 → told_step ws2 t2 t3 → told_step (ws1 ++ ws2) t1 t3.
Proof.
  intros [H1 H2 H3] [H4 H5 H6]. split; [|congruence|congruence].
  eapply step_eq; [eapply step_trans; [exact H1|exact H4]|].
  cbn [update setter v_port]. unfold at_rb. rewrite map_app. f_equal. by rewrite <- logged_app.
Qed.

Lemma answer_regs_ok ws (t : Sys) : rk_static t → regs_ok ws → ws ≠ [] → Z.of_nat (length ws) < 2 ^ 31 →
  ∃ t', answer_regs ws t = (Ret (), t') ∧ told_step ws t t' ∧ sy_client t' = sy_client t ∧ rk_static t'.
Proof.
  intros Hs Hws Hne Hlen. pose proof (told_at ib base rk_offs Hdev (sy_cpu t) ws (rs_ib t Hs) Hws Hlen) as Htold.
  rewrite <- (rk_regs t ws Hs) in Htold.
  edestruct (answer_ws (map (λ '(off, v), (rk_reg (sy_client t) off, v)) ws) t) as (s' & Hx & Hl);
    [apply (rs_up t Hs)|exact Htold|by destruct ws|].
  rewrite (rk_regs t ws Hs), (rb_of_at ib base) in Hl by apply (rs_ib t Hs). exists (t <| sy_link := s' |>).
  split; [exact Hx|]. split; [by apply told_link|]. split; [done|].
  eapply frame_static; [|exact Hs]. split_and!; [done| |exact (units_refl t)]. exists s'. by destruct Hl.
Qed.

(** The controller can take a command; attached disks are in order. *)
Record rk_ready (t : Sys) : Prop := {
  rr_static : rk_static t;
  rr_disk : is_Some (sy_disk t);
  rr_units i u : (i < 8)%nat → sy_units t !! i = Some u → is_Some (fupVirt u) → ∃ f, disk_is t i 512 f }.
(** Drive [i] as the device sees it. *)
Definition drive_is (t : Sys) (i : nat) (uv : rk_unit) : Prop :=
  ∃ u, sy_units t !! i = Some u ∧ fRkds (sy_client t) !! i = Some (uv_rkds uv) ∧
    uv_attached uv = HasVirt u ∧ uv_wprot uv = ufWProt u.

Variables (a : A) (pd : Z).
(** The handler has done what the device asked for. *)
Definition performs (q : request) (o : outcome) (t t' : Sys) : Prop :=
  let i := Z.to_nat (q_dr q) in
  match o with
  | Dropped => told_step [] t t' ∧ fRkds (sy_client t') = fRkds (sy_client t)
  | Told ws uv =>
      step (λ v, v <| v_port ::= logged (at_rb ws) |>) t t' ∧ sy_srv t' = sy_srv t ∧ drive_is t' i uv ∧
      (∀ j uv', j ≠ i → drive_is t j uv' → drive_is t' j uv')
  | Queued fn => ∃ t1, told_step [] t t1 ∧ fRkds (sy_client t1) = fRkds (sy_client t) ∧
      rk_ready t1 ∧ requested q (sy_client t1) ∧ seek_error q = 0 ∧
      queued a fn (q_addr q) (q_size q) kCPAH_M_UBM22 (q_lba q) i pd t1 = (Ret (), t')
  end.

Lemma told_ready ws (t t' : Sys) : told_step ws t t' → rk_static t' → rk_ready t → rk_ready t'.
Proof.
  intros [(Hv & _ & Hd) _ Hu] Hs [_ H2 H3]. split; [done| |].
  - change (is_Some (v_disk (view t'))). by rewrite Hv.
  - intros i u H8 Hi Hsome. rewrite Hu in Hi. destruct (H3 i u H8 Hi Hsome) as (f & Hf). exists f. by apply Hd.
Qed.
Lemma told_drive ws (t t' : Sys) i uv : told_step ws t t' → fRkds (sy_client t') = fRkds (sy_client t) →
  drive_is t i uv → drive_is t' i uv.
Proof. intros [_ _ Hu] Hr (u & H1 & H2 & H3). exists u. by rewrite Hu, Hr. Qed.

Lemma set_client_static f (t : Sys) : (∀ r, rk_cntl (f r) = rk_cntl r ∧ fRkds (f r) = fRkds r ∧
    fPC_rkwc (f r) = fPC_rkwc r ∧ fPC_rkba (f r) = fPC_rkba r ∧ fPC_rkda (f r) = fPC_rkda r ∧
    fPC_rkcs (f r) = fPC_rkcs r) →
  rk_static t → rk_static (t <| sy_client ::= f |>).
Proof.
  intros Hf [H1 H2 H3 H4 H5 H6 H7]. destruct (Hf (sy_client t)) as (F1 & F2 & F3 & F4 & F5 & F6).
  split; cbn [sy_client update setter]; rewrite ?F1, ?F2, ?F3, ?F4, ?F5, ?F6; done.
Qed.
Lemma rk_stat_static ind (t : Sys) : rk_static t →
  rk_static (t <| sy_client ::= λ c, c <| rk_cntl ::= λ c, c <| cn_fStats ::= inc ind 1 |> |> |>).
Proof. intros [H1 H2 H3 H4 H5 H6 H7]. by split. Qed.

(** *** Errors and exits *)

Lemma addr_error_eq q (u : Rw11UnitDisk V) : rk05 u → addr_error (q_cy q) (q_se q) u = seek_error q.
Proof.
  intros Hu. unfold addr_error, seek_error. rewrite (ge_sect u Hu), (ge_cyl u Hu).
  by destruct (12 <=? q_se q), (203 <=? q_cy q).
Qed.
Lemma abort_error_eq q (u : Rw11UnitDisk V) uv : q_ok q → uv_attached uv = HasVirt u →
  abort_error (q_fu q) (q_cs q) u = req_error q uv.
Proof.
  intros Hq Ha. unfold abort_error, req_error. destruct (q_flags q Hq) as (_ & _ & -> & _ & ->). by rewrite Ha.
Qed.
Lemma iba_error_eq q : q_ok q → iba_error (q_cs q) = if Z.testbit (q_cs q) 11 then 0x8000 else 0.
Proof. intros Hq. unfold iba_error. by destruct (q_flags q Hq) as (_ & _ & _ & -> & _). Qed.
(** The error bits of the code are disjoint. *)
Lemma xfer_error_eq q uv : q_ok q →
  Z.lor (if q_fu q =? 1 then Z.lor (seek_error q) (if uv_wprot uv then kRKER_M_WLO else 0) else seek_error q)
    (iba_error (q_cs q)) = xfer_error q uv.
Proof.
  intros Hq. rewrite iba_error_eq by done. unfold xfer_error, seek_error.
  by destruct (12 <=? q_se q), (203 <=? q_cy q), (q_fu q =? 1), (uv_wprot uv), (Z.testbit (q_cs q) 11).
Qed.
Lemma seek_error_range q : is_u16 (seek_error q).
Proof. unfold seek_error. by destruct (12 <=? q_se q), (203 <=? q_cy q). Qed.
Lemma xfer_error_range q uv : is_u16 (xfer_error q uv).
Proof.
  unfold xfer_error, seek_error.
  by destruct (12 <=? q_se q), (203 <=? q_cy q), ((q_fu q =? 1) && uv_wprot uv), (Z.testbit (q_cs q) 11).
Qed.
Lemma xfer_error_seek q uv : xfer_error q uv = 0 → seek_error q = 0.
Proof.
  unfold xfer_error, seek_error.
  by destruct (12 <=? q_se q), (203 <=? q_cy q), ((q_fu q =? 1) && uv_wprot uv), (Z.testbit (q_cs q) 11).
Qed.
Lemma req_error_range q uv : is_u16 (req_error q uv).
Proof. unfold req_error. by repeat case_match. Qed.

Lemma rk_exit_regs q n err : q_ok q → seek_error q = 0 → 0 <= n <= q_size q → 0 <= err < 0x4000 →
  regs_ok (rk_exit q n err).
Proof.
  intros Hq He Hn Herr. destruct (q_ranges q Hq) as (_ & Hdr & _ & _ & _ & Haddr & _).
  destruct (q_valid q Hq He) as (_ & _ & Hlba & Hsize & Hend). pose proof Hq as (_ & _ & _ & Hcs).
  assert (Hblk : 0 <= q_lba q + blocks_for n 256 <= 4872).
  { unfold blocks_for in *. Z.div_mod_to_equations. lia. }
  unfold rk_exit, regs_ok. set (lba := q_lba q + blocks_for n 256) in *.
  assert (Hda : is_u16 (8192 * q_dr q + 32 * (lba / 24) + 16 * (lba / 12 mod 2) + lba mod 12)).
  { clear -Hblk Hdr. unfold is_u16. Z.div_mod_to_equations. lia. }
  assert (Hba : is_u16 (2 * ((q_addr q + 2 * n) / 2 mod 32768))).
  { unfold is_u16. pose proof (Z.mod_pos_bound ((q_addr q + 2 * n) / 2) 32768). lia. }
  assert (Hmx : is_u16 (q_cs q + 16 * ((q_addr q + 2 * n) / 65536 mod 4 - q_cs q / 16 mod 4))).
  { clear -Hcs. generalize ((q_addr q + 2 * n) / 65536). intros z. unfold is_u16 in *.
    pose proof (Z.mod_pos_bound z 4 ltac:(lia)). Z.div_mod_to_equations. lia. }
  apply Forall_app. split; [|apply Forall_app; split; [|apply Forall_app; split]].
  - destruct (_ =? 0); [done|]. constructor; [|done]. split; [set_solver|]. unfold is_u16. simpl. destruct (overrun q); lia.
  - repeat (apply list.Forall_cons_2; [split; [set_solver|cbn [snd]]|]); try done. by apply Z.mod_pos_bound.
  - destruct (_ =? _); [done|]. constructor; [|done]. split; [set_solver|done].
  - apply list.Forall_cons_2; [|done]. split; [set_solver|done].
Qed.

(** *** The functions *)

(** A counter and a list of writes. *)
Lemma stat_answer ind ws (t : Sys) : rk_static t → regs_ok ws → ws ≠ [] → Z.of_nat (length ws) < 2 ^ 31 →
  ∃ t', (rstat_ ind ;; answer_regs ws) t = (Ret (), t') ∧ told_step ws t t' ∧
    fRkds (sy_client t') = fRkds (sy_client t) ∧ rk_static t'.
Proof.
  intros Hs Hws Hne Hlen.
  destruct (answer_regs_ok ws _ (rk_stat_static ind t Hs) Hws Hne Hlen) as (t' & H1 & H2 & H3 & H4).
  exists t'. split; [exact H1|]. split; [|by rewrite H3].
  exact (told_trans [] ws _ _ _ (told_client [] _ _ _ (told_refl t)) H2).
Qed.
Lemma told_performs q ws uv (t t' : Sys) : told_step ws t t' → fRkds (sy_client t') = fRkds (sy_client t) →
  drive_is t (Z.to_nat (q_dr q)) uv → performs q (Told ws uv) t t'.
Proof.
  intros Ht Hr Hd. split; [apply (ts_step _ _ _ Ht)|]. split; [apply (ts_srv _ _ _ Ht)|].
  split; [by eapply told_drive|]. intros j uv' _. by apply (told_drive ws).
Qed.
Lemma error_exit_ok q rker uv (t : Sys) : rk_static t → is_u16 rker → drive_is t (Z.to_nat (q_dr q)) uv →
  ∃ t', error_exit rker t = (Ret (), t') ∧ performs q (Told [(kRKER, rker); (kRKMR, kRKMR_M_FDONE)] uv) t t' ∧
    told_step [(kRKER, rker); (kRKMR, kRKMR_M_FDONE)] t t' ∧ rk_static t'.
Proof.
  intros Hs Hr Hd. destruct (answer_regs_ok [(kRKER, rker); (kRKMR, kRKMR_M_FDONE)] t Hs) as (t' & H1 & H2 & H3 & H4);
    [|done|done|].
  - repeat (apply list.Forall_cons_2; [split; [set_solver|done]|]). done.
  - exists t'. split; [exact H1|]. split; [|done]. apply told_performs; [done|by rewrite H3|done].
Qed.
Definition unit05 : Rw11UnitDisk V := UnitRK11_ctor.
Lemma exit_regs_geom rk (u : Rw11UnitDisk V) n err : rk05 u → exit_regs rk u n err = exit_regs rk unit05 n err.
Proof.
  intros Hu. unfold exit_regs, Nwrd2Nblk, Lba2Chs. by rewrite (ge_sect u Hu), (ge_head u Hu), (ge_bsize u Hu).
Qed.
Lemma normal_exit_exit n err l (t : Sys) :
  rk_static t → is_u16 (fRd_rkda (sy_client t)) → regs_ok (exit_regs (sy_client t) unit05 n err) →
  normal_exit l n err t =
  (Ret (l <| fList ::= λ cs, cs ++ wregs (at_rb (exit_regs (sy_client t) unit05 n err)) |>), t).
Proof.
  intros Hs Hda Hok.
  assert (Hdr : 0 <= drive (fRd_rkda (sy_client t)) < 8).
  { unfold drive, field. rewrite (field_mod _ 13 3) by done. by apply Z.mod_pos_bound. }
  destruct (rs_units t Hs (Z.to_nat (drive (fRd_rkda (sy_client t)))) ltac:(lia)) as (u & Hu & Hg).
  unfold normal_exit, get_client. autorewrite with run. unfold id.
  unfold unit_at at 1. unfold mbind at 1, M_bind at 1. rewrite Hu.
  unfold add_cmds, AddNormalExit, rk_wibr. unfold mbind, M_bind.
  rewrite (exit_regs_geom _ u) by done.
  rewrite (rk_regs t _ Hs), AddWibrs_run; [by rewrite (rb_of_at ib base) by apply (rs_ib t Hs)|].
  apply (told_at ib base rk_offs Hdev (sy_cpu t)); [apply (rs_ib t Hs)|done|].
  unfold exit_regs. destruct (Lba2Chs _ _) as [[cy hd] se]. rewrite !length_app.
  destruct (negb (_ =? fRd_rkcs _)), (negb _); simpl; lia.
Qed.
Lemma normal_exit_run q n err l (t : Sys) :
  rk_static t → q_ok q → requested q (sy_client t) → seek_error q = 0 → 0 <= n <= q_size q → 0 <= err < 0x4000 →
  normal_exit l n err t = (Ret (l <| fList ::= λ cs, cs ++ wregs (at_rb (rk_exit q n err)) |>), t).
Proof.
  intros Hs Hq Hr He Hn Herr.
  assert (Hland : Z.land err 0x4000 = 0).
  { change 0x4000 with (Z.shiftl (Z.ones 1) 14). rewrite land_shifted, Z.div_small by (done || lia). done. }
  assert (E : exit_regs (sy_client t) unit05 n err = rk_exit q n err) by (by apply exit_regs_spec).
  rewrite normal_exit_exit; rewrite ?E; [done|done| |by apply rk_exit_regs].
  rewrite (rq_da _ _ Hr). apply Hq.
Qed.
Lemma RCHK_exit q uv (t : Sys) :
  rk_static t → q_ok q → requested q (sy_client t) → seek_error q = 0 → drive_is t (Z.to_nat (q_dr q)) uv →
  ∃ t', (l ← normal_exit RlinkCommandList_ctor (q_size q) 0; exec_list l ;; mret ()) t = (Ret (), t') ∧
    performs q (Told (rk_exit q (q_size q) 0) uv) t t' ∧ rk_static t' ∧ told_step (rk_exit q (q_size q) 0) t t'.
Proof.
  intros Hs Hq Hr He Hd. destruct (q_valid q Hq He) as (_ & _ & _ & Hsize & _).
  rewrite (bind_Ret _ _ _ _ _ (normal_exit_run q (q_size q) 0 _ t Hs Hq Hr He ltac:(lia) ltac:(lia))).
  change (RlinkCommandList_ctor <| fList ::= λ cs, cs ++ wregs ?x |>) with (mkCommandList (wregs x) (-1)).
  pose proof (rk_exit_regs q (q_size q) 0 Hq He ltac:(lia) ltac:(lia)) as Hok.
  assert (Hne : rk_exit q (q_size q) 0 ≠ []).
  { unfold rk_exit. by destruct (_ + _ =? 0). }
  edestruct (exec_wregs (at_rb (rk_exit q (q_size q) 0)) t) as (l' & s' & Hx & Hl).
  - apply (rs_up t Hs).
  - by apply (writable_at _ _ rk_offs).
  - by destruct (rk_exit q (q_size q) 0).
  - unfold at_rb. rewrite length_map. unfold rk_exit. rewrite !length_app. destruct (_ =? 0), (_ =? _); simpl; lia.
  - assert (Ht : told_step (rk_exit q (q_size q) 0) t (t <| sy_link := s' |>)) by (by apply told_link).
    eexists. split; [unfold mbind, M_bind; by rewrite Hx|]. split; [by apply told_performs|]. split; [|done].
    eapply frame_static; [|exact Hs]. split_and!; [done| |exact (units_refl t)]. exists s'. by destruct Hl.
Qed.

(** After steps the device does not see. *)
Lemma performs_after q o (t t1 t' : Sys) : told_step [] t t1 → fRkds (sy_client t1) = fRkds (sy_client t) →
  performs q o t1 t' → performs q o t t'.
Proof.
  intros Ht Hk. destruct o as [|ws uv|fn]; simpl.
  - intros [H1 H2]. split; [exact (told_trans [] [] _ _ _ Ht H1)|by rewrite H2].
  - intros (H1 & H2 & H3 & H4). split; [|split; [by rewrite H2, (ts_srv _ _ _ Ht)|split; [done|]]].
    + eapply step_eq; [eapply step_trans; [apply (ts_step _ _ _ Ht)|exact H1]|].
      cbn [update setter v_port]. f_equal. by rewrite logged_nil.
    + intros j uv' Hj Hd. apply H4; [done|]. by eapply told_drive.
  - intros (t2 & H1 & H2 & H3). exists t2. split; [exact (told_trans [] [] _ _ _ Ht H1)|]. by rewrite H2.
Qed.
(** What the server relies on. *)
Definition srv_kept (t t' : Sys) : Prop :=
  fAttnDsc (sy_srv t') = fAttnDsc (sy_srv t) ∧ fAttnPatt (sy_srv t') = fAttnPatt (sy_srv t).
Definition done_as (q : request) (o : outcome) (t t' : Sys) : Prop :=
  performs q o t t' ∧ rk_ready t' ∧ srv_kept t t'.
Lemma told_done q ws uv (t t' : Sys) : rk_ready t → told_step ws t t' → fRkds (sy_client t') = fRkds (sy_client t) →
  rk_static t' → drive_is t (Z.to_nat (q_dr q)) uv → done_as q (Told ws uv) t t'.
Proof.
  intros Hr Ht Hk Hs Hd. split; [by apply told_performs|]. split; [by eapply told_ready|].
  by split; rewrite (ts_srv _ _ _ Ht).
Qed.
Lemma frame_ready (t t' : Sys) : frame t t' → rk_ready t → rk_ready t'.
Proof.
  intros Hf [Hs Hsome Hu]. split; [by eapply frame_static|by apply Hf|].
  intros i u H8 Hi Hv. destruct (rs_units t Hs i H8) as (u0 & Hu0 & _).
  pose proof Hf as (_ & _ & [Hfu _]). destruct (Hfu i u0 Hu0) as (v & Hv' & Hn). rewrite Hi in Hv'. simplify_eq.
  destruct (Hu i u0 H8 Hu0) as (f & Hdk); [|by eapply frame_disk].
  destruct (fupVirt u0); [by eexists|]. simpl in Hn. subst v. by destruct Hv.
Qed.

Lemma transfer_done fn q uv (t : Sys) : rk_ready t → q_ok q → drive_is t (Z.to_nat (q_dr q)) uv →
  uv_attached uv = true → (seek_error q = 0 → requested q (sy_client t)) → fStatus (sy_rdma t) = kStatusDone →
  ∃ t', unless_error (xfer_error q uv)
      (queued a fn (q_addr q) (q_size q) kCPAH_M_UBM22 (q_lba q) (Z.to_nat (q_dr q)) pd) t = (Ret (), t') ∧
    done_as q (if xfer_error q uv =? 0 then Queued fn
               else Told [(kRKER, xfer_error q uv); (kRKMR, kRKMR_M_FDONE)] uv) t t'.
Proof.
  intros Hr Hq Hd Hat Hrq Hst. unfold unless_error. destruct (Z.eqb_spec (xfer_error q uv) 0) as [E|E]; cbn [negb].
  - apply xfer_error_seek in E. destruct (q_ranges q Hq) as (_ & Hdr & _).
    pose proof Hd as (u & Hu & _ & Ha & _).
    destruct (rr_units t Hr (Z.to_nat (q_dr q)) u ltac:(lia) Hu) as (f & Hf).
    { rewrite Hat in Ha. symmetry in Ha. by apply bool_decide_eq_true in Ha. }
    destruct (queued_returns a fn (q_addr q) kCPAH_M_UBM22 (q_size q) (q_lba q) (Z.to_nat (q_dr q)) pd 256 f t)
      as (t' & H1 & H2 & H3 & H4 & H5 & _); [apply (rr_disk t Hr)|done|done|].
    exists t'. split; [exact H1|]. split; [|split; [by eapply frame_ready|by split; rewrite H5]].
    exists t. split; [apply told_refl|]. by split_and!; auto.
  - destruct (error_exit_ok q (xfer_error q uv) uv t (rr_static t Hr) (xfer_error_range q uv) Hd) as (t' & H1 & H2 & H3 & H4).
    exists t'. split; [exact H1|]. split; [done|]. split; [by eapply told_ready|]. by split; rewrite (ts_srv _ _ _ H3).
Qed.

(** A change of a drive. *)
Definition set_drive (i : nat) (u : Rw11UnitDisk V) (uv : rk_unit) (t : Sys) : Sys :=
  t <| sy_client ::= λ r, r <| fRkds ::= <[i := uv_rkds uv]> |> |>
    <| sy_units ::= <[i := SetWProt (uv_wprot uv) u]> |>.
Section Drive.
Variables (i : nat) (u : Rw11UnitDisk V) (uv : rk_unit) (t : Sys).
Hypothesis Hr : rk_ready t.
Hypothesis Hi : (i < 8)%nat.
Hypothesis Hu : sy_units t !! i = Some u.
Hypothesis Huv : is_u16 (uv_rkds uv) ∧ uv_attached uv = HasVirt u.
Let t1 := set_drive i u uv t.
Lemma set_drive_is : drive_is t1 i uv ∧ ∀ j uv', j ≠ i → drive_is t j uv' → drive_is t1 j uv'.
Proof.
  destruct (rs_rkds t (rr_static t Hr)) as [Hl _]. split.
  - exists (SetWProt (uv_wprot uv) u). simpl. rewrite !list_lookup_insert_eq by (by (rewrite ?Hl || eapply lookup_lt_Some)).
    by destruct Huv.
  - intros j uv' Hj (u' & H1 & H2 & H3). exists u'. simpl. by rewrite !list_lookup_insert_ne.
Qed.
Lemma set_drive_step : step (λ v, v) t t1.
Proof.
  split_and!; [done|apply moved_refl|]. intros j bs f (u' & v & H1 & H2 & H3).
  destruct (decide (j = i)) as [->|Hj].
  - rewrite Hu in H1. simplify_eq. exists (SetWProt (uv_wprot uv) u'), v. simpl.
    by rewrite list_lookup_insert_eq by (by eapply lookup_lt_Some).
  - exists u', v. simpl. by rewrite list_lookup_insert_ne.
Qed.
Lemma set_drive_ready : rk_ready t1.
Proof.
  destruct Hr as [[H1 H2 H3 H4 [H5 H5'] H6 H7] H8 H9]. pose proof set_drive_step as (_ & _ & Hdk).
  assert (Hun : ∀ j u', sy_units t1 !! j = Some u' → ∃ u0, sy_units t !! j = Some u0 ∧ fupVirt u' = fupVirt u0).
  { intros j u'. simpl. destruct (decide (j = i)) as [->|Hj].
    - rewrite list_lookup_insert_eq by (by eapply lookup_lt_Some). intros [= <-]. by exists u.
    - rewrite list_lookup_insert_ne by done. by exists u'. }
  split; [split; try done| |].
  - intros j Hj. destruct (decide (j = i)) as [->|Hne].
    + exists (SetWProt (uv_wprot uv) u). simpl. rewrite list_lookup_insert_eq by (by eapply lookup_lt_Some).
      split; [done|]. destruct (H4 i Hj) as (u' & Hu' & Hg). rewrite Hu in Hu'. simplify_eq. by destruct Hg.
    + destruct (H4 j Hj) as (u' & Hu' & Hg). exists u'. simpl. by rewrite list_lookup_insert_ne.
  - simpl. rewrite length_insert. split; [done|]. apply Forall_insert; [done|apply Huv].
  - done.
  - intros j u' H10 Hj Hv. destruct (Hun j u' Hj) as (u0 & H11 & H12). rewrite H12 in Hv.
    destruct (H9 j u0 H10 H11 Hv) as (f & Hf). exists f. by apply Hdk.
Qed.
(** Then the device is told. *)
Lemma set_drive_done q ws (t' : Sys) : Z.to_nat (q_dr q) = i → told_step ws t1 t' →
  sy_client t' = sy_client t1 → rk_static t' → done_as q (Told ws uv) t t'.
Proof.
  intros Hq Ht Hc Hs. destruct set_drive_is as [Hd1 Hd2]. unfold done_as, performs. rewrite Hq.
  assert (Hk : fRkds (sy_client t') = fRkds (sy_client t1)) by (by rewrite Hc).
  split; [|split; [eapply told_ready; [exact Ht|done|apply set_drive_ready]|by split; rewrite (ts_srv _ _ _ Ht)]].
  split; [exact (step_trans _ _ _ _ _ set_drive_step (ts_step _ _ _ Ht))|].
  split; [by rewrite (ts_srv _ _ _ Ht)|]. split; [by eapply told_drive|].
  intros j uv' Hj Hd. eapply told_drive; [exact Ht|exact Hk|by apply Hd2].
Qed.
End Drive.

Lemma set_drive_same i (u : Rw11UnitDisk V) uv (t : Sys) : sy_units t !! i = Some u → uv_wprot uv = ufWProt u →
  set_drive i u uv t = t <| sy_client ::= λ r, r <| fRkds ::= <[i := uv_rkds uv]> |> |>.
Proof.
  intros Hu Hw. unfold set_drive. cbn [update setter sy_units]. unfold SetWProt. rewrite Hw.
  rewrite (list_insert_id (sy_units t)); [done|]. rewrite Hu. by destruct u.
Qed.
Lemma seek_ds x se : 0 <= se < 16 → Z.lor (Z.ldiff x kRKDS_B_SC) se = 16 * (x / 16) + se.
Proof.
  intros Hs. pose proof (replace_field x 4 0 se ltac:(lia) ltac:(lia) Hs) as E.
  rewrite !Z.shiftl_0_r in E. change (Z.ones 4) with kRKDS_B_SC in E. rewrite E.
  change (2 ^ 0) with 1. change (2 ^ 4) with 16. rewrite Z.div_1_r. Z.div_mod_to_equations. lia.
Qed.
Lemma wlock_ds x : Z.lor x kRKDS_M_WPS = x + (if Z.testbit x 5 then 0 else 0x20).
Proof.
  pose proof (Z.add_lor_land x kRKDS_M_WPS) as E. rewrite <- (flag_test x 5) by done.
  change (2 ^ 5) with kRKDS_M_WPS. change kRKDS_M_WPS with (Z.shiftl (Z.ones 1) 5) in *. rewrite land_shifted in * by done.
  change (2 ^ 5) with 32 in *. change (2 ^ 1) with 2 in *. change (Z.shiftl (Z.ones 1) 5) with 32 in *.
  pose proof (Z.mod_pos_bound (x / 32) 2 ltac:(lia)).
  destruct (Z.eqb_spec (32 * (x / 32 mod 2)) 0) as [E0|E0]; cbn [negb]; lia.
Qed.
Lemma seek_bit q : q_ok q → is_u16 (2 ^ q_dr q) ∧ is_u16 (0x400 + 2 ^ q_dr q) ∧
  Z.shiftl 1 (q_dr q) = 2 ^ q_dr q ∧ Z.lor kRKMR_M_SBCLR (2 ^ q_dr q) = 0x400 + 2 ^ q_dr q.
Proof.
  intros Hq. destruct (q_ranges q Hq) as (_ & Hdr & _).
  assert (Hd : q_dr q = 0 ∨ q_dr q = 1 ∨ q_dr q = 2 ∨ q_dr q = 3 ∨ q_dr q = 4 ∨ q_dr q = 5 ∨ q_dr q = 6 ∨ q_dr q = 7) by lia.
  destruct Hd as [->|[->|[->|[->|[->|[->|[->| ->]]]]]]]; by split_and!.
Qed.

Section Function.
Variables (q : request) (u : Rw11UnitDisk V) (uv : rk_unit) (n lba : Z) (t : Sys).
Hypothesis Hr : rk_ready t.
Hypothesis Hq : q_ok q.
Hypothesis Hd : drive_is t (Z.to_nat (q_dr q)) uv.
Hypothesis Hu : sy_units t !! Z.to_nat (q_dr q) = Some u.
Hypothesis Hreq : req_error q uv = 0.
Hypothesis Hvalid : seek_error q = 0 → requested q (sy_client t) ∧ n = q_size q ∧ lba = q_lba q.
Hypothesis Hst : fStatus (sy_rdma t) = kStatusDone.

(** The state with a function counted. *)
Definition counted (ind : nat) : Sys :=
  t <| sy_client ::= λ c, c <| rk_cntl ::= λ c, c <| cn_fStats ::= inc ind 1 |> |> |>.
Lemma counted_ready ind : rk_ready (counted ind).
Proof. split; [by apply rk_stat_static, rr_static|apply (rr_disk t Hr)|exact (rr_units t Hr)]. Qed.
Lemma counted_requested ind : seek_error q = 0 → requested q (sy_client (counted ind)).
Proof. intros He. destruct (Hvalid He) as [[H1 H2 H3 H4 H5 H6 H7] _]. by split. Qed.
Lemma counted_done ind o t' : done_as q o (counted ind) t' → done_as q o t t'.
Proof.
  intros (H1 & H2). split; [|done].
  apply (performs_after q o t (counted ind)); [apply told_client, told_refl|done|done].
Qed.
Lemma seek_done : q_fu q ≠ 0 → uv_attached uv = true.
Proof.
  intros Hf. unfold req_error in Hreq. rewrite (proj2 (Z.eqb_neq _ _) Hf) in Hreq. by destruct (uv_attached uv).
Qed.

Lemma xfer_branch fn ind : q_fu q ≠ 0 → ∃ t', (rstat_ ind ;; unless_error (xfer_error q uv)
      (queued a fn (q_addr q) n kCPAH_M_UBM22 lba (Z.to_nat (q_dr q)) pd)) t = (Ret (), t') ∧
    done_as q (if xfer_error q uv =? 0 then Queued fn
               else Told [(kRKER, xfer_error q uv); (kRKMR, kRKMR_M_FDONE)] uv) t t'.
Proof.
  intros Hf. destruct (transfer_done fn q uv (counted ind) (counted_ready ind) Hq Hd (seek_done Hf)
    (counted_requested ind) Hst) as (t' & H1 & H2).
  exists t'. split; [|by eapply counted_done].
  rewrite (bind_Ret _ _ _ _ _ (eq_refl : rstat_ ind t = (Ret (), counted ind))).
  unfold unless_error in *. destruct (Z.eqb_spec (xfer_error q uv) 0) as [E|E]; [|exact H1].
  apply xfer_error_seek in E. destruct (Hvalid E) as (_ & E1 & E2). rewrite E1, E2. exact H1.
Qed.
Lemma rchk_branch ind : q_fu q ≠ 0 → ∃ t', (rstat_ ind ;; unless_error (xfer_error q uv)
      (l ← normal_exit RlinkCommandList_ctor n 0; exec_list l ;; mret ())) t = (Ret (), t') ∧
    done_as q (if xfer_error q uv =? 0 then Told (rk_exit q (q_size q) 0) uv
               else Told [(kRKER, xfer_error q uv); (kRKMR, kRKMR_M_FDONE)] uv) t t'.
Proof.
  intros Hf. rewrite (bind_Ret _ _ _ _ _ (eq_refl : rstat_ ind t = (Ret (), counted ind))).
  pose proof (counted_ready ind) as Hr1. unfold unless_error.
  destruct (Z.eqb_spec (xfer_error q uv) 0) as [E|E]; cbn [negb].
  - apply xfer_error_seek in E. destruct (Hvalid E) as (_ & E1 & _). rewrite E1.
    destruct (RCHK_exit q uv (counted ind) (rr_static _ Hr1) Hq (counted_requested ind E) E Hd) as (t' & H1 & H2 & H3 & H4).
    exists t'. split; [exact H1|]. apply (counted_done ind). split; [done|]. split; [by eapply told_ready|].
    by split; rewrite (ts_srv _ _ _ H4).
  - destruct (error_exit_ok q (xfer_error q uv) uv (counted ind) (rr_static _ Hr1) (xfer_error_range q uv) Hd)
      as (t' & H1 & H2 & H3 & H4).
    exists t'. split; [exact H1|]. apply (counted_done ind). split; [done|]. split; [by eapply told_ready|].
    by split; rewrite (ts_srv _ _ _ H3).
Qed.
(** Only registers are written. *)
Lemma regs_branch ind ws : regs_ok ws → ws ≠ [] → Z.of_nat (length ws) < 2 ^ 31 →
  ∃ t', (rstat_ ind ;; answer_regs ws) t = (Ret (), t') ∧ done_as q (Told ws uv) t t'.
Proof.
  intros Hws Hne Hlen. destruct (stat_answer ind ws t (rr_static t Hr) Hws Hne Hlen) as (t' & H1 & H2 & H3 & H4).
  exists t'. split; [exact H1|]. by apply told_done.
Qed.
(** The drive changes, and registers are written. *)
Lemma drive_branch ind ws uv' m : regs_ok ws → ws ≠ [] → Z.of_nat (length ws) < 2 ^ 31 →
  is_u16 (uv_rkds uv') → uv_attached uv' = uv_attached uv →
  (∀ k : M Sys (), m k (counted ind) = k (set_drive (Z.to_nat (q_dr q)) u uv' (counted ind))) →
  ∃ t', (rstat_ ind ;; m (answer_regs ws)) t = (Ret (), t') ∧ done_as q (Told ws uv') t t'.
Proof.
  intros Hws Hne Hlen Hk Ha Hm. destruct (q_ranges q Hq) as (_ & Hdr & _).
  assert (Hau : uv_attached uv = HasVirt u).
  { destruct Hd as (u' & Hu' & _ & Hau & _). rewrite Hu in Hu'. by injection Hu' as <-. }
  rewrite (bind_Ret _ _ _ _ _ (eq_refl : rstat_ ind t = (Ret (), counted ind))), Hm.
  pose proof (set_drive_ready (Z.to_nat (q_dr q)) u uv' (counted ind) (counted_ready ind) Hu
    (conj Hk (eq_trans Ha Hau))) as Hr1.
  destruct (answer_regs_ok ws _ (rr_static _ Hr1) Hws Hne Hlen) as (t' & H1 & H2 & H3 & H4).
  exists t'. split; [exact H1|]. apply (counted_done ind).
  eapply (set_drive_done (Z.to_nat (q_dr q)) u); [apply counted_ready|lia|done|by rewrite Ha|done|done|done|done].
Qed.
End Function.

Ltac regs := repeat (apply list.Forall_cons_2; [split; [set_solver|cbn [snd]]|]); try done.

Lemma do_function_ok q u uv n lba rkds (t : Sys) :
  rk_ready t → q_ok q → drive_is t (Z.to_nat (q_dr q)) uv → sy_units t !! Z.to_nat (q_dr q) = Some u →
  fRkds (sy_client t) !! Z.to_nat (q_dr q) = Some rkds → req_error q uv = 0 →
  (seek_error q = 0 → requested q (sy_client t) ∧ n = q_size q ∧ lba = q_lba q) →
  fStatus (sy_rdma t) = kStatusDone →
  ∃ t', do_function a pd (q_fu q) (q_cs q) (q_addr q) n lba (q_cy q) (q_se q) (q_dr q) u rkds t = (Ret (), t') ∧
    done_as q (rk_function q uv) t t'.
Proof.
  intros Hr Hq Hd Hu Hrk Hreq Hvalid Hst. destruct (q_ranges q Hq) as (Hfu & Hdr & _ & _ & Hse & _).
  destruct (rs_units t (rr_static t Hr) (Z.to_nat (q_dr q)) ltac:(lia)) as (u' & Hu' & Hg).
  rewrite Hu in Hu'. injection Hu' as <-.
  pose proof (seek_error_range q) as Hser. destruct (seek_bit q Hq) as (Hb1 & Hb2 & Hb3 & Hb4).
  destruct Hd as (u' & Hu' & Hrk' & Hat & Hwp). rewrite Hu in Hu'. injection Hu' as <-.
  rewrite Hrk in Hrk'. injection Hrk' as ->.
  assert (Hd : drive_is t (Z.to_nat (q_dr q)) uv) by (by exists u).
  pose proof (xfer_error_eq q uv Hq) as Hxe. rewrite Hwp in Hxe.
  assert (Hds : is_u16 (uv_rkds uv)).
  { destruct (rs_rkds t (rr_static t Hr)) as [_ HF]. by eapply Forall_lookup_1 in HF; [|exact Hrk]. }
  pose proof (xfer_branch q uv n lba t Hr Hq Hd Hreq Hvalid Hst) as Hxb.
  pose proof (rchk_branch q uv n lba t Hr Hq Hd Hvalid) as Hrc.
  pose proof (regs_branch q uv t Hr Hd) as Hrb.
  pose proof (drive_branch q u uv t Hr Hq Hd Hu) as Hdb.
  unfold do_function, rk_function. rewrite (addr_error_eq q u Hg), Hb3, Hb4.
  assert (Hc : q_fu q = 0 ∨ q_fu q = 1 ∨ q_fu q = 2 ∨ q_fu q = 3 ∨ q_fu q = 4 ∨ q_fu q = 5 ∨ q_fu q = 6 ∨ q_fu q = 7) by lia.
  destruct Hc as [E|[E|[E|[E|[E|[E|[E|E]]]]]]]; rewrite E in *; cbn [Z.eqb Pos.eqb kFUNC_CRESET kFUNC_WRITE
    kFUNC_READ kFUNC_WCHK kFUNC_SEEK kFUNC_RCHK kFUNC_DRESET kFUNC_WLOCK] in *.
  - apply Hrb; [regs|done|done].
  - rewrite Hxe. by apply (Hxb kFuncWrite).
  - rewrite Hxe. by apply (Hxb kFuncRead).
  - rewrite Hxe. by apply (Hxb kFuncWriteCheck).
  - destruct (Z.eqb_spec (seek_error q) 0) as [E0|E0]; cbn [negb].
    + rewrite seek_ds by done. set (ds := 16 * (uv_rkds uv / 16) + q_se q).
      assert (is_u16 ds).
      { unfold ds. clear -Hds Hse. unfold is_u16 in *. Z.div_mod_to_equations. lia. }
      apply (Hdb kStatNFuncSeek _ (mkUv (uv_attached uv) (uv_wprot uv) ds)
        (λ k, SetRkds (Z.to_nat (q_dr q)) ds ;; k)); [regs|done..|]. intros k.
      by rewrite set_drive_same.
    + apply Hrb; [regs|done|done].
  - rewrite Hxe. by apply Hrc.
  - apply Hrb; [regs|done|done].
  - rewrite wlock_ds. set (ds := uv_rkds uv + (if Z.testbit (uv_rkds uv) 5 then 0 else 0x20)).
    assert (is_u16 ds).
    { unfold ds. rewrite <- wlock_ds. apply lor_u16; [done|]. by split. }
    by apply (Hdb kStatNFuncWlock _ (mkUv (uv_attached uv) true ds)
      (λ k, SetRkds (Z.to_nat (q_dr q)) ds ;; modify (λ t, t <| sy_units ::= <[Z.to_nat (q_dr q) := SetWProt true u]> |>) ;; k));
      [regs|..].
Qed.

(** *** The handler *)

(** The request in the registers of the device. *)
Definition request_of (t : Sys) : request :=
  let d := dev (sy_link t) in mkReq (reg (rb kRKWC) d) (reg (rb kRKBA) d) (reg (rb kRKDA) d) (reg (rb kRKCS) d).
Lemma request_of_ok (t : Sys) : q_ok (request_of t).
Proof. split_and!; apply reg_range. Qed.

(** The primary list is read. *)
Lemma primary_ok args (t : Sys) : rk_ready t → ∃ args' t', (rstat_ Cntl.kStatNAttnHdl ;; harvest rk_cntl args) t = (Ret args', t') ∧
  fHarvestDone args' = true ∧ told_step [] t t' ∧ rk_ready t' ∧ fRkds (sy_client t') = fRkds (sy_client t) ∧
  (∀ off k, (off, k) ∈ [(kRKWC, 1%nat); (kRKBA, 2%nat); (kRKDA, 3%nat); (kRKCS, 5%nat)] →
     ∃ c, fList (cn_fPrimClist (rk_cntl (sy_client t'))) !! k = Some c ∧ fData c = reg (rb off) (dev (sy_link t))).
Proof.
  intros Hr. set (t1 := counted t Cntl.kStatNAttnHdl). pose proof (counted_ready t Hr Cntl.kStatNAttnHdl) as Hr1. fold t1 in Hr1.
  destruct (harvest_ok rk_cntl (map rb prim_offs) args t1) as (x & s' & l' & Hx & Hl & _ & Hp & Hdata);
    [apply (rs_up _ (rr_static _ Hr1))|apply (rs_prim _ (rr_static _ Hr1))|apply prim_regs|done|].
  eexists _, _. split; [rewrite (bind_Ret _ _ _ _ _ (eq_refl : rstat_ Cntl.kStatNAttnHdl t = (Ret (), t1))); exact Hx|].
  split; [done|]. assert (Ht : told_step [] t1 (set_prim rk_cntl l' (t1 <| sy_link := s' |>))).
  { apply told_client, told_link. destruct Hl as [L1 L2 L3]. split; [done|done|]. by rewrite L3, logged_nil. }
  split; [|split; [|split; [done|]]].
  - exact (told_trans [] [] _ _ _ (told_client [] _ _ _ (told_refl t)) Ht).
  - eapply told_ready; [exact Ht| |exact Hr1].
    assert (Hs' : rk_static (t1 <| sy_link := s' |>)).
    { eapply frame_static; [|apply (rr_static _ Hr1)]. split_and!; [done| |exact (units_refl t1)]. exists s'. by destruct Hl. }
    destruct Hs' as [H1 H2 H3 H4 H5 H6 H7]. by split.
  - intros off k Hk. apply elem_of_cons in Hk as [[= -> ->]|Hk]; [by apply (Hdata 0%nat)|].
    apply elem_of_cons in Hk as [[= -> ->]|Hk]; [by apply (Hdata 1%nat)|].
    apply elem_of_cons in Hk as [[= -> ->]|Hk]; [by apply (Hdata 2%nat)|].
    apply list_elem_of_singleton in Hk as [= -> ->]. by apply (Hdata 4%nat).
Qed.

Lemma primary_data (t t' : Sys) k off : rk_static t' → (off, k) ∈ [(kRKWC, 1%nat); (kRKBA, 2%nat); (kRKDA, 3%nat); (kRKCS, 5%nat)] →
  (∀ off k, (off, k) ∈ [(kRKWC, 1%nat); (kRKBA, 2%nat); (kRKDA, 3%nat); (kRKCS, 5%nat)] →
     ∃ c, fList (cn_fPrimClist (rk_cntl (sy_client t'))) !! k = Some c ∧ fData c = reg (rb off) (dev (sy_link t))) →
  prim_data rk_cntl k t' = (Ret (reg (rb off) (dev (sy_link t))), t').
Proof. intros Hs Hk Hall. destruct (Hall off k Hk) as (c & Hc & Hd). rewrite <- Hd. by apply prim_data_run. Qed.

(** What the code computes for a valid disk address. *)
Lemma request_fields q (u : Rw11UnitDisk V) : q_ok q → rk05 u → seek_error q = 0 →
  let lba := Chs2Lba (q_cy q) (q_hd q) (q_se q) u in
  let ovr := ufNBlock u <? u32 (lba + Nwrd2Nblk (q_n q) u) in
  lba = q_lba q ∧ ovr = overrun q ∧
  (if ovr then u32 ((ufNBlock u - lba) * (ufBlksize u / 2)) else q_n q) = q_size q.
Proof.
  intros Hq Hg He lba ovr. destruct (q_ranges q Hq) as (_ & _ & _ & _ & _ & _ & Hn).
  destruct (q_valid q Hq He) as (_ & _ & Hl & _).
  assert (E1 : lba = q_lba q).
  { unfold lba, Chs2Lba. rewrite (ge_sect u Hg), (ge_head u Hg). apply u32_id. unfold is_u32. first [lia|unfold q_lba in Hl; lia]. }
  assert (Hb : 0 <= blocks_for (q_n q) 256 <= 256).
  { unfold blocks_for. clear -Hn. Z.div_mod_to_equations. lia. }
  assert (E2 : ovr = overrun q).
  { unfold ovr. rewrite (Nwrd2Nblk_rk05 u (q_n q) Hg ltac:(lia)), (ge_block u Hg), E1.
    rewrite u32_id; [done|]. unfold is_u32. lia. }
  split; [done|]. split; [done|]. unfold q_size. rewrite E2. destruct (overrun q); [|done].
  rewrite (ge_block u Hg), (ge_bsize u Hg), E1. change (512 / 2) with 256. rewrite u32_id by (unfold is_u32; lia). lia.
Qed.

(** The handler from the registers on. *)
Definition command (q : request) (args : AttnArgs) : M Sys AttnArgs :=
  if Z.land (q_cs q) kRKCS_M_GO =? 0 then mret args
  else if Z.of_nat NUnit <? q_dr q
  then throw (Rexception "Rw11CntlRK11::AttnHandler" "Bad state: dr > NUnit()")
  else
    unit ← unit_at (Z.to_nat (q_dr q));
    rkds ← unit_rkds (Z.to_nat (q_dr q));
    busy ← gets (λ t, IsActive (sy_rdma t));
    if negb (Z.land (q_cs q) kRKCS_M_RDY =? 0) || busy then mret args
    else
      let rker := abort_error (q_fu q) (q_cs q) unit in
      if negb (rker =? 0) then
        answer_regs ([(kRKER, rker)] ++
          (if (q_fu q =? kFUNC_SEEK) || (q_fu q =? kFUNC_DRESET)
           then [(kRKMR, Z.lor kRKMR_M_SBCLR (Z.shiftl 1 (q_dr q)))] else []) ++ [(kRKMR, kRKMR_M_FDONE)]) ;;
        mret args
      else
        let lba := Chs2Lba (q_cy q) (q_hd q) (q_se q) unit in
        let ovr := ufNBlock unit <? u32 (lba + Nwrd2Nblk (q_n q) unit) in
        let nwrd := if ovr then u32 ((ufNBlock unit - lba) * (ufBlksize unit / 2)) else q_n q in
        client (λ r, r <| fRd_rkcs := q_cs q |> <| fRd_rkda := q_da q |> <| fRd_addr := q_addr q |>
                       <| fRd_lba := lba |> <| fRd_nwrd := nwrd |> <| fRd_ovr := ovr |> <| fRd_fu := q_fu q |>) ;;
        do_function a pd (q_fu q) (q_cs q) (q_addr q) nwrd lba (q_cy q) (q_se q) (q_dr q) unit rkds ;;
        mret args.
Lemma command_ok q u uv rkds args (t : Sys) : rk_ready t → q_ok q → drive_is t (Z.to_nat (q_dr q)) uv →
  sy_units t !! Z.to_nat (q_dr q) = Some u → fRkds (sy_client t) !! Z.to_nat (q_dr q) = Some rkds →
  ∃ t', command q args t = (Ret args, t') ∧ done_as q (rk_run q uv (IsActive (sy_rdma t))) t t'.
Proof.
  intros Hr Hq Hd Hu Hrk. destruct (q_ranges q Hq) as (_ & Hdr & Hcy & Hhd & Hse & _ & Hn).
  destruct (rs_units t (rr_static t Hr) (Z.to_nat (q_dr q)) ltac:(lia)) as (u' & Hu' & Hg).
  rewrite Hu in Hu'. injection Hu' as <-.
  assert (Hat : uv_attached uv = HasVirt u).
  { destruct Hd as (u' & Hu' & _ & Hat & _). rewrite Hu in Hu'. by injection Hu' as <-. }
  destruct (q_flags q Hq) as (Hgo & Hrdy & _ & _ & _).
  assert (Hdrop : done_as q Dropped t t).
  { split; [split; [apply told_refl|done]|]. by split. }
  unfold command, rk_run. rewrite <- Hgo, negb_involutive.
  destruct (Z.land (q_cs q) kRKCS_M_GO =? 0); cbn [orb]; [by exists t|].
  rewrite (proj2 (Z.ltb_ge _ _)) by (change (Z.of_nat NUnit) with 8; lia).
  unfold unit_at at 1. unfold mbind at 1, M_bind at 1. rewrite Hu.
  unfold unit_rkds at 1. unfold mbind at 1, M_bind at 1. rewrite Hrk. autorewrite with run.
  rewrite Hrdy. destruct (q_ready q || IsActive (sy_rdma t)) eqn:Hb; [by exists t|].
  assert (Hst : fStatus (sy_rdma t) = kStatusDone).
  { apply orb_false_iff in Hb as [_ Hb]. unfold IsActive in Hb. apply negb_false_iff in Hb.
    by apply bool_decide_eq_true in Hb. }
  rewrite (abort_error_eq q u uv Hq Hat). destruct (Z.eqb_spec (req_error q uv) 0) as [E|E]; cbn [negb].
  - set (lba := Chs2Lba _ _ _ u). set (ovr := ufNBlock u <? _). set (nwrd := if ovr then _ else q_n q).
    match goal with |- context [client ?f] => set (g := f) end.
    rewrite (bind_Ret _ _ _ _ _ (eq_refl : client g t = (Ret (), t <| sy_client ::= g |>))).
    set (t1 := t <| sy_client ::= g |>).
    assert (Ht1 : told_step [] t t1) by apply told_client, told_refl.
    assert (Hr1 : rk_ready t1).
    { eapply told_ready; [exact Ht1| |done]. apply set_client_static; [|by apply rr_static]. by intros r. }
    assert (Hv : seek_error q = 0 → requested q (sy_client t1) ∧ nwrd = q_size q ∧ lba = q_lba q).
    { intros He. destruct (request_fields q u Hq Hg He) as (F1 & F2 & F3).
      split; [|by split]. by split. }
    destruct (do_function_ok q u uv nwrd lba rkds t1 Hr1 Hq Hd Hu Hrk E Hv Hst) as (t' & H1 & H2 & H3).
    exists t'. rewrite (bind_Ret _ _ _ _ _ H1). split; [done|]. split; [|done]. by apply (performs_after q _ t t1).
  - destruct (seek_bit q Hq) as (Hb1 & Hb2 & Hb3 & Hb4). rewrite Hb3, Hb4.
    match goal with |- context [answer_regs ?w] => set (ws := w) end.
    assert (Hws : regs_ok ws ∧ ws ≠ [] ∧ Z.of_nat (length ws) < 2 ^ 31).
    { pose proof (req_error_range q uv). unfold ws. destruct ((q_fu q =? kFUNC_SEEK) || (q_fu q =? kFUNC_DRESET)); (split; [cbn [app]; regs|split; [done|reflexivity]]). }
    destruct Hws as (W1 & W2 & W3).
    destruct (answer_regs_ok ws t (rr_static t Hr) W1 W2 W3) as (t' & H1 & H2 & H3 & H4).
    exists t'. rewrite (bind_Ret _ _ _ _ _ H1). split; [done|].
    apply (told_done q ws uv t t'); [done|done|by rewrite H3|done|done].
Qed.

Lemma AttnHandler_ok args (t : Sys) : rk_ready t → ∃ args' t' uv, AttnHandler a pd args t = (Ret args', t') ∧
  fHarvestDone args' = true ∧ drive_is t (Z.to_nat (q_dr (request_of t))) uv ∧
  done_as (request_of t) (rk_run (request_of t) uv (IsActive (sy_rdma t))) t t'.
Proof.
  intros Hr. pose proof (request_of_ok t) as Hq. set (q := request_of t) in *.
  destruct (primary_ok args t Hr) as (args' & t1 & H1 & Hh & Ht1 & Hr1 & Hk1 & Hdata).
  pose proof (rr_static _ Hr1) as Hs1. destruct (rs_pc _ Hs1) as (Hp1 & Hp2 & Hp3 & Hp4).
  destruct (q_ranges q Hq) as (_ & Hdr & _).
  unfold AttnHandler. rewrite <- bind_assoc, (bind_Ret _ _ _ _ _ H1).
  unfold get_client. autorewrite with run. unfold id. rewrite Hp1, Hp2, Hp3, Hp4.
  rewrite (bind_Ret _ _ _ _ _ (primary_data t t1 1 kRKWC Hs1 ltac:(set_solver) Hdata)).
  rewrite (bind_Ret _ _ _ _ _ (primary_data t t1 2 kRKBA Hs1 ltac:(set_solver) Hdata)).
  rewrite (bind_Ret _ _ _ _ _ (primary_data t t1 3 kRKDA Hs1 ltac:(set_solver) Hdata)).
  rewrite (bind_Ret _ _ _ _ _ (primary_data t t1 5 kRKCS Hs1 ltac:(set_solver) Hdata)).
  change (reg (rb kRKWC) (dev (sy_link t))) with (q_wc q). change (reg (rb kRKBA) (dev (sy_link t))) with (q_ba q).
  change (reg (rb kRKDA) (dev (sy_link t))) with (q_da q). change (reg (rb kRKCS) (dev (sy_link t))) with (q_cs q).
  destruct (q_code q Hq) as (-> & -> & -> & -> & -> & -> & ->).
  (* the drive *)
  destruct (rs_units t1 Hs1 (Z.to_nat (q_dr q)) ltac:(lia)) as (u & Hu & Hg).
  destruct (rs_rkds t1 Hs1) as [Hl8 _].
  destruct (lookup_lt_is_Some_2 (fRkds (sy_client t1)) (Z.to_nat (q_dr q))) as [rkds Hrk]; [lia|].
  set (uv := mkUv (HasVirt u) (ufWProt u) rkds).
  assert (Hd1 : drive_is t1 (Z.to_nat (q_dr q)) uv) by (by exists u).
  assert (Hd : drive_is t (Z.to_nat (q_dr q)) uv).
  { exists u. rewrite <- (ts_units _ _ _ Ht1), <- Hk1. by split_and!. }
  assert (Hact : IsActive (sy_rdma t) = IsActive (sy_rdma t1)).
  { change (IsActive (v_rdma (view t)) = IsActive (v_rdma (view t1))). by rewrite (proj1 (ts_step _ _ _ Ht1)). }
  rewrite Hact. destruct (command_ok q u uv rkds args' t1 Hr1 Hq Hd1 Hu Hrk) as (t' & H2 & H3 & H4 & H5).
  exists args', t', uv. split; [exact H2|]. split; [done|]. split; [done|]. split; [by eapply performs_after|].
  split; [done|]. by split; [rewrite (proj1 H5)|rewrite (proj2 H5)]; rewrite (ts_srv _ _ _ Ht1).
Qed.

(** *** The callbacks *)

Lemma frame_srv g (t : Sys) : frame t (t <| sy_srv ::= g |>).
Proof. split; [done|split; [apply moved_refl|exact (units_refl t)]]. Qed.
Lemma frame_lnk s (t : Sys) : same_link (sy_link t) s → frame t (t <| sy_link := s |>).
Proof. intros Hs. split; [done|split; [by exists s|exact (units_refl t)]]. Qed.

Section Client.
Variables (rk0 : RK11) (q : request).
Hypothesis Hq : q_ok q.
Hypothesis Hrk0 : requested q rk0.

(** The registers behind [n] words, as the code computes them for any [n]. *)
Definition exit_of (n err : Z) : list (Z * Z) := exit_regs rk0 unit05 n err.
Lemma exit_of_ok n err : is_u16 err → regs_ok (exit_of n err).
Proof.
  intros Herr. unfold exit_of, exit_regs. destruct Hrk0 as [-> -> -> -> -> _ ->]. destruct (Lba2Chs _ _) as [[cy hd] se].
  pose proof Hq as (_ & _ & _ & Hcs).
  apply Forall_app. split; [|apply Forall_app; split; [|apply Forall_app; split]].
  - assert (He : is_u16 (if overrun q then Z.lor err kRKER_M_OVR else err)).
    { destruct (overrun q); [|done]. by apply lor_u16. }
    destruct (negb _); [|done]. regs.
  - regs; [apply u16_range| |apply u16_range].
    change 0xfffe with (Z.shiftl (Z.ones 15) 1). rewrite land_shifted by done. unfold is_u16.
    pose proof (Z.mod_pos_bound (u32 (q_addr q + 2 * n) / 2 ^ 1) (2 ^ 15)). lia.
  - destruct (negb _); [|done]. regs.
    change kRKCS_M_MEX with (Z.shiftl (Z.ones 2) 4). change kRKCS_V_MEX with 4.
    rewrite (field_mod _ 16 2) by done. generalize (Z.mod_pos_bound (u32 (q_addr q + 2 * n) / 2 ^ 16) (2 ^ 2) eq_refl).
    generalize (u32 (q_addr q + 2 * n) / 2 ^ 16 mod 2 ^ 2). intros y Hy.
    rewrite replace_field by done. clear -Hcs Hy. unfold is_u16 in *.
    change (2 ^ 4) with 16. change (2 ^ 2) with 4 in *. Z.div_mod_to_equations. lia.
  - regs.
Qed.
Lemma exit_of_length n err : exit_of n err ≠ [] ∧ Z.of_nat (length (exit_of n err)) < 10.
Proof.
  unfold exit_of, exit_regs. destruct (Lba2Chs _ _) as [[cy hd] se]. split.
  - by destruct (negb _).
  - rewrite !length_app. destruct (negb (_ =? fRd_rkcs _)), (negb _); simpl; lia.
Qed.

(** What a transfer tells the device: [fused] to the last chunk, unless it is a
    write check, or behind it.  A write check that finds a difference is a
    write check error, which stops the transfer when the request says so. *)
Definition fused : bool := negb (q_fu q =? 3).
Definition check_count (n : Z) (wc : option Z) : Z :=
  if (q_fu q =? 3) && Z.testbit (q_cs q) 8 then default n wc else n.
Definition check_error (fail : bool) (wc : option Z) : Z :=
  (if (q_fu q =? 3) && bool_decide (is_Some wc) then 1 else 0) + (if fail then 0x400 else 0).
Definition rk_pre (n : Z) : list (Z * Z) := if fused then exit_of n 0 else [].
Definition rk_post (fail : bool) (n : Z) (wc : option Z) : list (Z * Z) :=
  if fused && negb fail then [] else exit_of (check_count n wc) (check_error fail wc).
Lemma check_error_range fail wc : is_u16 (check_error fail wc).
Proof. unfold check_error. destruct (_ && _), fail; by split. Qed.

Definition rk_inv (t : Sys) : Prop := sy_client t = rk0 ∧ rk_ready t.
(** The extension of a chunk. *)
Definition rk_ext (st : status) (extra : list RlinkCommand) : Prop :=
  if bool_decide (st = kStatusBusyLast) && fused then ∃ tail, extra = labo_cmd :: tail else extra = [].
Lemma RdmaPreExecCB_ok st nd nn l (t : Sys) : rk_inv t → ∃ extra t',
  RdmaPreExecCB st nd nn l t = (Ret (l <| fList ::= λ cs, cs ++ extra |>), t') ∧ step (λ v, v) t t' ∧ rk_inv t' ∧
  ext_ok (D := D) (if bool_decide (st = kStatusBusyLast) then at_rb (rk_pre (nd + nn)) else []) extra ∧
  rk_ext st extra.
Proof.
  intros [Hc Hr]. pose proof (rr_static t Hr) as Hs. unfold RdmaPreExecCB, get_client, rk_ext, rk_pre. autorewrite with run.
  rewrite Hc, (rq_fu _ _ Hrk0). change (negb (q_fu q =? kFUNC_WCHK)) with fused.
  destruct (bool_decide (st = kStatusBusyLast) && fused) eqn:E.
  - apply andb_true_iff in E as [-> ->].
    unfold add_cmds. unfold mbind at 1, M_bind at 1.
    change (AddLabo l) with (Ret (CommandList.Size l), l <| fList ::= λ cs, cs ++ [labo_cmd] |>). cbn beta iota.
    rewrite normal_exit_exit; rewrite ?Hc; [|done|rewrite (rq_da _ _ Hrk0); apply Hq|by apply exit_of_ok].
    fold (exit_of (nd + nn) 0).
    exists (labo_cmd :: wregs (at_rb (exit_of (nd + nn) 0))), t. split; [simpl; by rewrite <- app_assoc|].
    pose proof (writable_at _ _ rk_offs Hdev _ (exit_of_ok (nd + nn) 0 ltac:(done))) as Hw.
    split; [apply step_id|]. split; [done|]. split; [|by eexists].
    split; [constructor; [apply labo_wf|by apply wregs_wf]|]. split; [apply wregs_code|].
    split; [|split; [by apply labo_quiet, wregs_quiet|apply labo_aborts]].
    pose proof (exit_of_length (nd + nn) 0). simpl length. unfold wregs, at_rb. rewrite !length_map. lia.
  - exists [], t. split; [simpl; rewrite app_nil_r; by destruct l|]. split; [apply step_id|]. split; [done|].
    split; [|done]. split; [done|]. split; [done|]. split; [done|].
    assert (Hn : (if bool_decide (st = kStatusBusyLast) then at_rb (if fused then exit_of (nd + nn) 0 else []) else []) = []).
    { by destruct (bool_decide (st = kStatusBusyLast)), fused. }
    rewrite Hn. split; [|intros m0 m d; by exists []]. intros m0 m d. exists [], d. by rewrite logged_nil.
Qed.

(** The registers are written. *)
Lemma finish_ok n err (t : Sys) : rk_inv t → is_u16 err →
  ∃ t', (l ← normal_exit RlinkCommandList_ctor n err; exec_list l ;; mret ()) t = (Ret (), t') ∧ rk_inv t' ∧
    step (λ v, v <| v_port ::= logged (at_rb (exit_of n err)) |>) t t'.
Proof.
  intros [Hc Hr] Herr. pose proof (rr_static t Hr) as Hs. pose proof (exit_of_ok n err Herr) as Hok.
  pose proof (exit_of_length n err) as [Hne Hlen].
  assert (Hn : normal_exit RlinkCommandList_ctor n err t =
      (Ret (mkCommandList (wregs (at_rb (exit_of n err))) (-1)), t)).
  { rewrite normal_exit_exit; rewrite ?Hc; [done|done|rewrite (rq_da _ _ Hrk0); apply Hq|done]. }
  rewrite (bind_Ret _ _ _ _ _ Hn).
  edestruct (exec_wregs (at_rb (exit_of n err)) t) as (l' & s' & Hx & Hl).
  - apply (rs_up t Hs).
  - by apply (writable_at _ _ rk_offs).
  - by destruct (exit_of n err).
  - unfold at_rb. rewrite length_map. lia.
  - rewrite (bind_Ret _ _ _ _ _ Hx). eexists. split; [reflexivity|].
    split; [split; [done|eapply frame_ready; [apply frame_lnk; by destruct Hl|done]]|].
    apply (ts_step _ _ _ (told_link _ _ _ Hl)).
Qed.
(** The first command behind the chunk. *)
Lemma labo_answer babo tail ncmd l : executed (D := D) babo (labo_cmd :: tail) (drop ncmd (fList l)) →
  ∃ c, fList l !! ncmd = Some c ∧ Command c = kCmdLabo ∧ fData c = Z.b2z babo.
Proof.
  intros (m0 & m & d & cs1 & d1 & Hrun & Ha). cbn [bus_run] in Hrun.
  change (Command labo_cmd =? kCmdLabo) with true in Hrun. cbn iota in Hrun.
  assert (Hc : ∃ cs, cs1 = SetStatus (rb_stat d) (SetData (Z.b2z babo) labo_cmd) :: cs).
  { destruct babo; [simplify_eq; by eexists|].
    destruct (bus_run m0 false tail m d) as [[cs2 m2] d2]. simplify_eq. by eexists. }
  destruct Hc as (cs & ->). apply Forall2_cons_inv_l in Ha as (c & cs' & (H1 & _ & H2 & _) & _ & Hd).
  exists c. split; [|by rewrite H1, H2]. rewrite <- (Nat.add_0_r ncmd), <- lookup_drop. by rewrite Hd.
Qed.

(** The bookkeeping of [RdmaPostExecCB]. *)
Lemma check_run nd wc (t : Sys) : rk_inv t → check_is t nd wc → ∃ t',
  (if q_fu q =? kFUNC_WCHK then
     nwcok ← WriteCheck nd;
     mret (if negb (nwcok =? nd)
           then (if negb (Z.land (q_cs q) kRKCS_M_SSE =? 0) then nwcok else nd, kRKER_M_WCE) else (nd, 0))
   else mret (nd, 0)) t = (Ret (check_count nd wc, check_error false wc), t') ∧ step (λ v, v) t t' ∧ rk_inv t'.
Proof.
  intros [Hc Hr] Hck. unfold check_count, check_error. change kFUNC_WCHK with 3.
  destruct (q_fu q =? 3); cbn [andb]; [|exists t; split; [done|split; [apply step_id|done]]].
  destruct (WriteCheck_ok nd wc t Hck) as (t' & H1 & [E1 Hf] & Hb). exists t'. rewrite (bind_Ret _ _ _ _ _ H1).
  split; [|split; [exact E1|split; [by rewrite (proj1 Hf)|by eapply frame_ready]]].
  unfold mret, M_ret. do 2 f_equal. rewrite (flag_test (q_cs q) 8 ltac:(done) : negb (Z.land (q_cs q) kRKCS_M_SSE =? 0) = _).
  generalize (Z.testbit (q_cs q) 8). intros b. destruct wc as [i|]; simpl.
  - specialize (Hb i eq_refl). rewrite (proj2 (Z.eqb_neq i nd)) by lia. by destruct b.
  - rewrite Z.eqb_refl. by destruct b.
Qed.
Lemma RdmaPostExecCB_busy nd l ncmd (t : Sys) : RdmaPostExecCB kStatusBusy nd l ncmd t = (Ret (), t).
Proof. unfold RdmaPostExecCB. by rewrite bool_decide_eq_true_2. Qed.
Lemma RdmaPostExecCB_ok st0 st babo nd wc l ncmd extra (t : Sys) :
  rk_inv t → chunk_status st0 st babo → rk_ext st0 extra → executed (D := D) babo extra (drop ncmd (fList l)) →
  st ≠ kStatusBusy → check_is t nd wc → ∃ t', RdmaPostExecCB st nd l ncmd t = (Ret (), t') ∧ rk_inv t' ∧
    step (λ v, v <| v_port ::= logged (at_rb (rk_post babo nd wc)) |>) t t'.
Proof.
  intros Hi Hst Hext Hx Hne Hck. unfold RdmaPostExecCB. rewrite bool_decide_eq_false_2 by done.
  unfold get_client. autorewrite with run. destruct Hi as [Hc Hr]. rewrite Hc, (rq_fu _ _ Hrk0), (rq_cs _ _ Hrk0).
  destruct (check_run nd wc t (conj Hc Hr) Hck) as (t1 & H1 & E1 & Hi1). rewrite (bind_Ret _ _ _ _ _ H1).
  assert (Her : (if bool_decide (st = kStatusFailRdma) then Z.lor (check_error false wc) kRKER_M_NXM else check_error false wc) =
    check_error babo wc).
  { clear -Hst Hne. destruct Hst; [done| |]; unfold check_error; by destruct (_ && _). }
  rewrite Her. destruct (finish_ok (check_count nd wc) (check_error babo wc) t1 Hi1 (check_error_range _ _)) as (t2 & H2 & Hi2 & E2).
  assert (E12 : step (λ v, v <| v_port ::= logged (at_rb (exit_of (check_count nd wc) (check_error babo wc))) |>) t t2).
  { exact (step_trans _ _ _ _ _ E1 E2). }
  unfold rk_ext in Hext. destruct (bool_decide (st0 = kStatusBusyLast) && fused) eqn:Ef.
  - apply andb_true_iff in Ef as [Ef0 Ef]. destruct Hext as (tail & ->).
    destruct (labo_answer babo tail ncmd l Hx) as (c & Hl & Hcc & Hcd).
    rewrite (proj2 (Nat.ltb_lt _ _)) by (by eapply lookup_lt_Some).
    unfold cmd_of at 1, at_ at 1. unfold mbind at 1, M_bind at 1. rewrite Hl, Hcc, Hcd. unfold rk_post. rewrite Ef.
    destruct babo; cbn [andb negb Z.b2z Z.eqb orb kCmdLabo Pos.eqb].
    + rewrite andb_false_r. exists t2. by split.
    + assert (Hz : check_error false wc = 0) by (unfold check_error; unfold fused in Ef; by destruct (q_fu q =? 3)).
      rewrite Hz. exists t1. split; [done|]. split; [done|].
      eapply step_eq; [exact E1|]. cbn [update setter]. rewrite logged_nil. by destruct (view t).
  - subst extra. destruct Hx as (m0 & m & d & cs1 & d1 & Hrun & Ha). cbn [bus_run] in Hrun. simplify_eq.
    apply Forall2_nil_inv_l in Ha.
    assert (Hn : (ncmd <? CommandList.Size l)%nat = false).
    { apply Nat.ltb_ge. unfold CommandList.Size. assert (length (drop ncmd (fList l)) = 0%nat) by (by rewrite Ha).
      rewrite length_drop in *. lia. }
    rewrite Hn. exists t2. split; [exact H2|]. split; [done|]. unfold rk_post.
    assert (Hp : fused && negb babo = false); [|by rewrite Hp].
    destruct babo; [by rewrite andb_false_r|]. rewrite andb_true_r.
    clear -Hst Hne Ef. inversion Hst as [| |]; subst; [done|exact Ef].
Qed.
#[export] Instance rk_chunks : RdmaChunks (RdmaPreExecCB (S := S) (V := V) (H := H) (A := A)) RdmaPostExecCB.
Proof.
  refine {| client_inv := rk_inv; client_ext := rk_ext; client_pre n := at_rb (rk_pre n) |}.
  - intros t t' Hf [H1 H2]. split; [by rewrite (proj1 Hf)|by eapply frame_ready].
  - apply RdmaPreExecCB_ok.
  - intros nd l ncmd extra t Hi _ _. exists t. split; [apply RdmaPostExecCB_busy|]. split; [done|apply step_id].
Defined.
#[export] Instance rk_rdma : RdmaClient (RdmaPreExecCB (S := S) (V := V) (H := H) (A := A)) RdmaPostExecCB.
Proof. refine {| client_post b n wc := at_rb (rk_post b n wc) |}. apply RdmaPostExecCB_ok. Defined.
End Client.
End RK11.
