(* ===== verification/RkDisk.v ===== *)
(** * What the RK11 does for its device, end to end

    The attention handler refines the specification of the device; every
    command is completed, once; a disk transfer, from the attention to the last
    action of the server, moves the words between memory and disk and leaves the
    registers behind as the manual says; the server can call the handler at any
    time.  A pdp-11 with one disk shows that the hypotheses can hold. *)

From S2P Require Import Prelude.
From S2P Require Import Rstats.
From S2P Require Import AddrMap.
From S2P Require Import Command.
From S2P Require Import CommandList.
From S2P Require Import Connect.
From S2P Require Import ConnectDecode.
From S2P Require Import Link.
From S2P Require Import LinkCore.
From S2P Require Import Server.
From S2P Require Import FileFd.
From S2P Require Import VirtDisk.
From S2P Require Import UnitDisk.
From S2P Require Import Cpu.
From S2P Require Import CpuMem.
From S2P Require Import Rdma.
From S2P Require Import RdmaSpec.
From S2P Require Import Cntl.
From S2P Require Import CntlSpec.
From S2P Require Import PdpBus.
From S2P Require Import Rk11.
From S2P Require Import RkSpec.

Open Scope Z_scope.

(** A write that completes a function: FDONE, or the reset of the controller. *)
Definition completes (w : Z * Z) : bool := (w.1 =? kRKMR) && ((w.2 =? 0x100) || (w.2 =? 0x200)).
Definition completions (ws : list (Z * Z)) : nat := length (List.filter completes ws).
(** A valid transfer from or to an attached drive. *)
Record transfer (q : request) (fu : Z) : Prop := {
  tr_go : q_go q = true;
  tr_ready : q_ready q = false;
  tr_fu : q_fu q = fu;
  tr_rwa : Z.testbit (q_cs q) 9 = false;
  tr_fmt : fu = 3 → Z.testbit (q_cs q) 10 = false;
  tr_iba : Z.testbit (q_cs q) 11 = false;
  tr_se : q_se q < 12;
  tr_cy : q_cy q < 203 }.

(** The functions that transfer: WRITE, READ and WRITE CHECK. *)
Definition fn_of (fu : Z) : func := if fu =? 1 then kFuncWrite else if fu =? 2 then kFuncRead else kFuncWriteCheck.
(** The registers behind a transfer that moved [mv] words: [wc] is the first
    difference a write check found. *)
Definition rk_end (q : request) (mv : Z) (wc : option Z) : list (Z * Z) :=
  rk_exit q (check_count q mv wc) (check_error q (negb (mv =? q_size q)) wc).

Lemma completions_app ws1 ws2 : completions (ws1 ++ ws2) = (completions ws1 + completions ws2)%nat.
Proof. unfold completions. by rewrite List.filter_app, length_app. Qed.
Lemma rk_exit_completes q n err : completions (rk_exit q n err) = 1%nat.
Proof.
  unfold rk_exit. rewrite !completions_app. by destruct (_ =? 0), (_ =? _).
Qed.
Lemma bit_completes q x : q_ok q → x = 2 ^ q_dr q ∨ x = 0x400 + 2 ^ q_dr q → completions [(kRKMR, x)] = 0%nat.
Proof.
  intros Hq Hx. destruct (q_ranges q Hq) as (_ & Hdr & _).
  assert (Hd : q_dr q = 0 ∨ q_dr q = 1 ∨ q_dr q = 2 ∨ q_dr q = 3 ∨ q_dr q = 4 ∨ q_dr q = 5 ∨ q_dr q = 6 ∨ q_dr q = 7) by lia.
  destruct Hx as [->| ->]; by destruct Hd as [->|[->|[->|[->|[->|[->|[->| ->]]]]]]].
Qed.
Lemma rk_run_completes q uv ws uv' : q_ok q → rk_run q uv false = Told ws uv' → completions ws = 1%nat.
Proof.
  intros Hq. pose proof (bit_completes q _ Hq (or_introl eq_refl)) as Hb1.
  pose proof (bit_completes q _ Hq (or_intror eq_refl)) as Hb2.
  pose proof (λ w1 w2 ws, completions_app [w1] (w2 :: ws)) as Hc. cbn [app] in Hc.
  unfold rk_run. destruct (negb (q_go q) || q_ready q || false); [done|].
  destruct (req_error q uv =? 0).
  - unfold rk_function. repeat case_match; intros [= <- <-]; try apply rk_exit_completes; rewrite ?Hc, ?Hb1, ?Hb2; done.
  - intros [= <- _]. destruct (_ || _); cbn [app]; rewrite ?Hc, ?Hb2; done.
Qed.

Section Disk.
Context {S D V H A : Type}.
Context `{!RlinkExec S, !Rbus D, !LinkLaws S D, !CpuBus D, !RegDev D, !VirtDiskOps V, !VirtDiskSpec V}.
Notation Sys := (Rw11Sys S V H A RK11).
Variables (ib base : Z).
Hypothesis Hdev : rk_present ib base.
Variables (a : A) (pd : Z).
Notation req t := (request_of ib base t).

Lemma drive_is_fun (t : Sys) i uv1 uv2 : drive_is t i uv1 → drive_is t i uv2 → uv1 = uv2.
Proof.
  intros (u1 & H1 & H2 & H3 & H4) (u2 & H5 & H6 & H7 & H8). simplify_eq.
  destruct uv1, uv2. simpl in *. congruence.
Qed.
Lemma attached_of (t : Sys) i bs f uv : disk_is t i bs f → drive_is t i uv → uv_attached uv = true.
Proof.
  intros (u & v & Hu & Hv & _) (u' & Hu' & _ & -> & _). simplify_eq. unfold HasVirt. by rewrite Hv.
Qed.
Lemma transfer_error q uv : q_ok q → q_se q < 12 → q_cy q < 203 → Z.testbit (q_cs q) 11 = false →
  (q_fu q = 1 → uv_wprot uv = false) → xfer_error q uv = 0.
Proof.
  intros Hq Hs Hc Hi Hw. unfold xfer_error, seek_error.
  rewrite (proj2 (Z.leb_gt _ _) Hs), (proj2 (Z.leb_gt _ _) Hc), Hi.
  destruct (Z.eqb_spec (q_fu q) 1) as [E|E]; [|done]. by rewrite Hw.
Qed.
Lemma transfer_queued q fu uv : q_ok q → transfer q fu → 1 <= fu <= 3 →
  uv_attached uv = true → (fu = 1 → uv_wprot uv = false) → rk_run q uv false = Queued (fn_of fu).
Proof.
  intros Hq [Hgo Hrdy Hfu Hrwa Hfmt Hiba Hse Hcy] Hfn Hat Hw. unfold rk_run. rewrite Hgo, Hrdy. cbn [negb orb].
  assert (Hc : fu = 1 ∨ fu = 2 ∨ fu = 3) by lia.
  assert (E : req_error q uv = 0).
  { unfold req_error. rewrite Hat, andb_false_r, Hfu, Hrwa. destruct Hc as [->|[->| ->]]; [done..|]. by rewrite Hfmt. }
  rewrite E. assert (Hx : xfer_error q uv = 0).
  { apply transfer_error; try done. by rewrite Hfu. }
  unfold rk_function. rewrite Hfu, Hx. by destruct Hc as [->|[->| ->]].
Qed.

Lemma queued_attached q uv b fn : rk_run q uv b = Queued fn → uv_attached uv = true.
Proof.
  unfold rk_run. destruct (_ || b); [done|]. destruct (Z.eqb_spec (req_error q uv) 0) as [E|E]; [|done].
  unfold req_error in E. unfold rk_function. destruct (uv_attached uv); [done|]. rewrite andb_true_r in E.
  destruct (Z.eqb_spec (q_fu q) 0) as [->|]; [done|]. simpl in E. discriminate E.
Qed.
Lemma attached_disk (t : Sys) dr uv : rk_ready ib base t → 0 <= dr < 8 → drive_is t (Z.to_nat dr) uv →
  uv_attached uv = true → ∃ f, disk_is t (Z.to_nat dr) 512 f.
Proof.
  intros Hr Hdr (u & Hu & _ & Ha & _) Hat. eapply (rr_units _ _ _ Hr); [|done|]; [lia|].
  rewrite Hat in Ha. symmetry in Ha. by apply bool_decide_eq_true in Ha.
Qed.
Lemma idle_status r : IsActive r = false → Rdma.fStatus r = kStatusDone.
Proof. unfold IsActive. intros E. apply negb_false_iff in E. by apply bool_decide_eq_true in E. Qed.
Lemma logged_id (v : View A) : v <| v_port ::= logged (at_rb ib base []) |> = v.
Proof. cbn [update setter]. rewrite logged_nil. by destruct v. Qed.
(** What the client of the transfer tells is what the manual says. *)
Lemma told_exit q rk0 mv wc : q_ok q → requested q rk0 → seek_error q = 0 → 0 <= mv <= q_size q →
  (q_fu q = 3 → ∀ i, wc = Some i → 0 <= i < mv) →
  (if mv =? q_size q then at_rb ib base (rk_pre (V := V) rk0 q (q_size q)) else []) ++
    at_rb ib base (rk_post (V := V) rk0 q (negb (mv =? q_size q)) mv wc) = at_rb ib base (rk_end q mv wc).
Proof.
  intros Hq Hrk Hse Hmv Hwc.
  assert (Hx : ∀ n err, 0 <= n <= q_size q → Z.land err 0x4000 = 0 → exit_of (V := V) rk0 n err = rk_exit q n err).
  { intros n err Hn He. by apply exit_regs_spec. }
  assert (Hn : 0 <= check_count q mv wc <= q_size q).
  { unfold check_count. destruct (Z.eqb_spec (q_fu q) 3) as [E|E]; [|done]. destruct (Z.testbit _ _); [|done].
    destruct wc as [i|]; [|done]. specialize (Hwc E i eq_refl). simpl. lia. }
  assert (He : ∀ b, Z.land (check_error q b wc) 0x4000 = 0).
  { intros b. unfold check_error. by destruct (_ && _), b. }
  unfold rk_end, rk_pre, rk_post. destruct (Z.eqb_spec mv (q_size q)) as [->|Hne]; cbn [negb];
    rewrite ?andb_false_r, ?andb_true_r; [|by rewrite Hx].
  unfold fused. destruct (Z.eqb_spec (q_fu q) 3) as [E|E]; cbn [negb]; [by rewrite Hx|].
  rewrite Hx by (done || lia). unfold check_count, check_error. rewrite (proj2 (Z.eqb_neq _ _) E). apply app_nil_r.
Qed.
(** From the attention to the last action. *)
Lemma transfer_run fu mv args f (t : Sys) :
  rk_ready ib base t → let q := req t in transfer q fu → 1 <= fu <= 3 →
  let i := Z.to_nat (q_dr q) in disk_is t i 512 f → (∀ uv, fu = 1 → drive_is t i uv → uv_wprot uv = false) →
  (fu = 2 → Forall is_u8 (disk_bytes f (q_lba q) (blocks_for (q_size q) 256))) →
  IsActive (sy_rdma t) = false → fActnList (sy_srv t) = [] →
  0 < chunk_size t <= 65535 → chunk_size t <= srv_blkmax (sy_link t) →
  reach (q_addr q) kCPAH_M_UBM22 (q_size q) mv (cport (sy_cpu t)) →
  let mem := cp_mem (cport (sy_cpu t)) in
  let ws := moves (fn_of fu) (q_addr q) (q_size q) (q_lba q) 256 f mem in
  ∃ args' t1 t' d wc, AttnHandler a pd args t = (Ret args', t1) ∧
    repeat_m (Z.to_nat (turns (chunk_size t) (q_size q) mv)) (call_action RdmaPreExecCB RdmaPostExecCB) t1 = (Ret (), t') ∧
    rk_ready ib base t' ∧ IsActive (sy_rdma t') = false ∧ fActnList (sy_srv t') = [] ∧
    cp_mem (cport (sy_cpu t')) =
      (if bool_decide (fn_of fu = kFuncRead) then mput (q_addr q) (take (Z.to_nat mv) ws) mem else mem) ∧
    cp_log (cport (sy_cpu t')) = cp_log (cport (sy_cpu t)) ++ at_rb ib base (rk_end q mv wc) ∧
    (fu = 3 → wc = mismatch f (q_lba q) 256 mv (take (Z.to_nat mv) ws)) ∧
    disk_is t' i 512 (final_disk mv d 256 f ws) ∧ fFunc d = fn_of fu ∧ fLba d = q_lba q.
Proof.
  intros Hr q Htr Hfn i Hd Hw Hu8 Hact Hactn Hcs Hcm Hreg mem ws.
  destruct (AttnHandler_ok ib base Hdev a pd args t Hr) as (args' & t1 & uv & H1 & _ & Hdr & Hperf & Hr1 & Hsrv).
  fold q i in Hdr, Hperf. rewrite Hact in Hperf. pose proof (request_of_ok ib base t) as Hq. fold q in Hq.
  rewrite (transfer_queued q fu uv Hq Htr Hfn (attached_of _ _ _ _ _ Hd Hdr) (λ E, Hw uv E Hdr)) in Hperf.
  destruct Hperf as (t2 & Htold & _ & Hr2 & Hrq & Hse & Hqd).
  destruct (q_valid q Hq Hse) as (_ & _ & Hlba & Hsize & _). destruct (q_ranges q Hq) as (_ & _ & _ & _ & _ & Haddr & _).
  set (ch := rk_chunks ib base Hdev (sy_client t2) q Hq Hrq : RdmaChunks (S := S) (V := V) (H := H) (A := A) RdmaPreExecCB RdmaPostExecCB).
  set (cl := rk_rdma ib base Hdev (sy_client t2) q Hq Hrq : RdmaClient (S := S) (V := V) (H := H) (A := A) RdmaPreExecCB RdmaPostExecCB (RdmaChunks0 := ch)).
  pose proof (ts_step _ _ _ _ _ Htold) as Hstep. pose proof Hstep as (Hv & Hmv & Hdk).
  assert (Hp : cport (sy_cpu t2) = cport (sy_cpu t)).
  { change (v_port (view t2) = v_port (view t)). rewrite Hv. apply logged_nil. }
  assert (Hst : fStatus (sy_rdma t2) = kStatusDone).
  { change (fStatus (v_rdma (view t2)) = kStatusDone). rewrite Hv. by apply idle_status. }
  destruct (step_blk _ _ _ Hstep) as [Hbm Hbp].
  assert (Hck : chunk_size t2 = chunk_size t).
  { unfold chunk_size. change (fChunksize (sy_rdma t2)) with (fChunksize (v_rdma (view t2))). by rewrite Hv, Hbp. }
  assert (Hdma : dma_ready (client_inv (RdmaChunks := ch)) t2 (q_addr q) kCPAH_M_UBM22 (q_size q) mv (q_lba q) i 256 f).
  { unfold dma_ready. rewrite Hp, Hck, Hbm. split; [apply (rr_disk _ _ _ Hr2)|]. split; [done|].
    split; [by rewrite (ts_srv _ _ _ _ _ Htold)|]. split; [done|]. split; [lia|]. split; [lia|]. split; [lia|]. split; [lia|].
    split; [apply (rs_up _ _ _ (rr_static _ _ _ Hr2))|]. split; [done|]. split; [done|]. split; [by apply Hdk|by split]. }
  assert (Hu8' : fn_of fu = kFuncRead → Forall is_u8 (disk_bytes f (q_lba q) (blocks_for (q_size q) 256))).
  { intros E. apply Hu8. assert (Hc : fu = 1 ∨ fu = 2 ∨ fu = 3) by lia. by destruct Hc as [->|[->| ->]]. }
  destruct (transfer_ok a RdmaPreExecCB RdmaPostExecCB (fn_of fu) (q_addr q) kCPAH_M_UBM22 (q_size q) mv (q_lba q) i pd 256 f t2 Hdma Hu8')
    as (t3 & t' & d & H3 & H4 & (G1 & G2 & G3 & (wc & Gc & G4) & G5 & G6) & Hfd & Hld).
  rewrite Hp, Hck in *. unfold i in H3. rewrite Hqd in H3. injection H3 as <-.
  assert (Hwc : fu = 3 → wc = mismatch f (q_lba q) 256 mv (take (Z.to_nat mv) ws)).
  { intros E. rewrite <- Hld. apply Gc. by rewrite Hfd, E. }
  exists args', t1, t', d, wc. split; [done|]. split; [exact H4|]. split; [apply G6|].
  split; [unfold IsActive; by rewrite G1|]. split; [done|]. rewrite Hfd in G3. split; [exact G3|].
  split; [|by split].
  assert (Hmv' : 0 <= mv <= q_size q) by apply Hreg.
  change (cp_log (v_port (view t')) = cp_log (cport (sy_cpu t)) ++ at_rb ib base (rk_end q mv wc)).
  rewrite <- (told_exit q (sy_client t2) mv wc Hq Hrq Hse Hmv'); [exact G4|].
  intros E k Hk. rewrite (tr_fu _ _ Htr) in E. apply (mismatch_bound f (q_lba q) 256 mv (take (Z.to_nat mv) ws)); [lia|].
  by rewrite <- Hwc.
Qed.

(** *** Under the server *)

Lemma ready_host : HostInv sy_srv sy_link (rk_ready ib base : Sys → Prop).
Proof.
  split.
  - intros t Hr. apply (rs_up _ _ _ (rr_static _ _ _ Hr)).
  - intros g t _ Hr. by eapply frame_ready; [apply frame_srv|].
  - intros s t Hr [Hs _ _]. by eapply frame_ready; [apply frame_lnk|].
Qed.
Lemma handler_behaves (handler : H → AttnArgs → M Sys AttnArgs) h :
  handler h = AttnHandler a pd → behaves sy_srv (rk_ready ib base) handler h.
Proof.
  intros Hh args t Hr. rewrite Hh.
  destruct (AttnHandler_ok ib base Hdev a pd args t Hr) as (args' & t' & uv & H1 & _ & _ & _ & Hr' & H2 & H3).
  by exists args', t'.
Qed.

(** The handler of the cpus, which the program registers first. *)
Lemma W11AttnHandler_ok (c : Rw11Cpu S) : link_ok (link c) → ∃ s act stat,
  W11AttnHandler c = (Ret (), c <| link := s |> <| fCpuAct := act |> <| fCpuStat := stat |>) ∧ same_link (link c) s.
Proof.
  intros Hup. set (c0 := fresh_command kCmdRreg (u16 (fBase c + kCPSTAT)) 0 [] None 0). set (l := mkCommandList [c0] (-1)).
  assert (Hl : list_ok l).
  { split; [done| |done|done]. constructor; [|done]. apply fresh_command_wf; try done; [apply u16_range|]. by intros [|]. }
  pose proof (exec_throw_law l (link c) Hup Hl) as Hx.
  destruct (bus_run _ _ _ _ _) as [[rs m] d] eqn:E. destruct Hx as (l' & s' & Hx & Ha & _ & _ & _ & Hs).
  assert (Hl' : ∃ c1 cs, fList l' = c1 :: cs).
  { change (fList l) with [c0] in E. rewrite bus_run_cons in E by done. destruct (bus_cmd _ _ _ _) as [[? ?] ?].
    destruct (bus_run _ _ _ _ _) as [[? ?] ?]. injection E as <- <- <-. apply Forall2_cons_inv_l in Ha as (c1 & cs & _ & _ & ->). by eexists _, _. }
  destruct Hl' as (c1 & cs & Hl').
  set (c2 := c <| link := s' |>). exists s'.
  assert (Hw : W11AttnHandler c = SetCpuActDown (fData c1) c2).
  { unfold W11AttnHandler, new_clist. change (AddRreg (u16 (fBase c + kCPSTAT)) RlinkCommandList_ctor) with (Ret (A := nat) O, l).
    unfold mbind, M_bind, Exec_, zoom. cbn beta iota. rewrite Hx. cbn beta iota. unfold cmd_at, at_. rewrite Hl'. done. }
  rewrite Hw. unfold SetCpuActDown, modify. destruct (_ || _); [by eexists _, _|].
  exists (fCpuAct c2), (fCpuStat c2). split; [|done]. by destruct c.
Qed.
Lemma cluster_behaves (handler : H → AttnArgs → M Sys AttnArgs) h :
  handler h = Rw11_AttnHandler → behaves sy_srv (rk_ready ib base) handler h.
Proof.
  intros Hh args t Hr. pose proof ready_host as Hhost. rewrite Hh. unfold Rw11_AttnHandler.
  destruct (GetAttnInfo_default_ok sy_srv sy_link (rk_ready ib base) args t) as (args' & t1 & H1 & Hs1 & _ & Hr1).
  { apply (rs_up _ _ _ (rr_static _ _ _ Hr)). }
  specialize (Hr1 Hr). rewrite (bind_Ret _ _ _ _ _ H1).
  destruct (W11AttnHandler_ok (sy_cpu t1)) as (s & act & stat & H2 & Hs); [apply (rs_up _ _ _ (rr_static _ _ _ Hr1))|].
  eexists args', _. split; [unfold mbind, M_bind, zoom; rewrite H2; reflexivity|]. split; [by rewrite <- Hs1|]. split; [by rewrite <- Hs1|].
  destruct Hr1 as [[[U1 U2] R2 R3 R4 R5 R6 R7] R8 R9]. split; [|done|exact R9]. split; try done. split; [done|].
  by eapply same_link_ok.
Qed.

(** What an attention harvest behind the handler leaves alone. *)
Record settled (t t' : Sys) : Prop := {
  se_ready : rk_ready ib base t';
  se_port : cport (sy_cpu t') = cport (sy_cpu t);
  se_rdma : sy_rdma t' = sy_rdma t ∧ sy_disk t' = sy_disk t;
  se_units : sy_units t' = sy_units t ∧ sy_client t' = sy_client t;
  se_actns : fActnList (sy_srv t') = fActnList (sy_srv t) }.
Lemma settled_host (t : Sys) : HostInv sy_srv sy_link (settled t).
Proof.
  split.
  - intros u Hs. apply (rs_up _ _ _ (rr_static _ _ _ (se_ready _ _ Hs))).
  - intros g u Hg [H1 H2 H3 H4 H5]. split; [by eapply frame_ready; [apply frame_srv|]|done..|].
    etrans; [apply Hg|done].
  - intros s u [H1 H2 H3 H4 H5] [Hs Hm Hd]. split; [by eapply frame_ready; [apply frame_lnk|]| |done..].
    rewrite <- H2. unfold cport. simpl. rewrite Hd.
    destruct (reg_attn_law (dev (link (sy_cpu u)))) as (st & x & d & E & _ & Hp & _).
    change (dev (sy_link u)) with (dev (link (sy_cpu u))). by rewrite E.
Qed.
(** The handlers called for an attention of the device: others may come before
    and behind. *)
Record attended (handler : H → AttnArgs → M Sys AttnArgs) (patt : Z) (pre post : list (AttnDsc H)) (t t' : Sys) : Prop := {
  an_run : ∃ tr1 tr2 ta tb uv, serves handler patt pre t tr1 ta ∧ rk_ready ib base ta ∧
    drive_is ta (Z.to_nat (q_dr (req ta))) uv ∧
    performs ib base a pd (req ta) (rk_run (req ta) uv (IsActive (sy_rdma ta))) ta tb ∧
    serves handler patt post tb tr2 t' }.
Lemma serves_app handler patt (pre post : list (AttnDsc H)) (t t' : Sys) tr :
  serves handler patt (pre ++ post) t tr t' → ∃ tr1 t1 tr2, serves handler patt pre t tr1 t1 ∧ serves handler patt post t1 tr2 t'.
Proof.
  revert t tr. induction pre as [|d pre IH]; intros t tr Hs; [exists [], t, tr; by split; [constructor|]|].
  inversion Hs as [|? ? ? ? ? Hm Hs'|? ? ? ? ? ? ? Hm Hh Hs']; subst;
    destruct (IH _ _ Hs') as (tr1 & ti & tr2 & H1 & H2); eexists _, ti, tr2; (split; [|exact H2]).
  - by constructor.
  - by econstructor.
Qed.
Lemma serves_ready handler patt ds (t t' : Sys) tr : serves handler patt ds t tr t' →
  Forall (λ d, behaves sy_srv (rk_ready ib base) handler (fHandler d)) ds → rk_ready ib base t → rk_ready ib base t'.
Proof.
  induction 1 as [| |d ds t args t1 tr t' _ Hh _ IH]; intros Hb Hr; [done|apply Forall_cons_iff in Hb as [_ Hb]; auto|].
  apply Forall_cons_iff in Hb as [Hd Hb]. destruct (Hd (AttnArgs_ctor patt (fMask (fId d))) t Hr) as (args' & t2 & Hh' & _ & _ & Hr2).
  rewrite Hh in Hh'. injection Hh' as _ <-. auto.
Qed.
Lemma attention_run (handler : H → AttnArgs → M Sys AttnArgs) h id pre post n (t : Sys) :
  rk_ready ib base t → handler h = AttnHandler a pd → fAttnDsc (sy_srv t) = pre ++ mkAttnDsc h id :: post →
  Forall (λ d, behaves sy_srv (rk_ready ib base) handler (fHandler d)) (pre ++ post) →
  let patt := Z.lor (fAttnPatt (sy_srv t)) (fAttnNotiPatt (sy_srv t)) in
  Z.land patt (fMask id) ≠ 0 → (length (fAttnDsc (sy_srv t)) <= n)%nat →
  ∃ t2 t', CallAttnHandler sy_srv sy_link handler n t = (Ret (), t') ∧
    attended handler patt pre post (t <| sy_srv ::= λ s, count_bits (take_notify s) |>) t2 ∧ settled t2 t'.
Proof.
  intros Hr Hh Hd Hb patt Hp Hn. set (t1 := t <| sy_srv ::= λ s, count_bits (take_notify s) |>).
  assert (Hr1 : rk_ready ib base t1) by (eapply frame_ready; [apply frame_srv|done]).
  assert (Hd1 : fAttnDsc (sy_srv t1) = pre ++ mkAttnDsc h id :: post) by (etrans; [apply take_notify_lists|done]).
  assert (Hp1 : fAttnPatt (sy_srv t1) = patt).
  { destruct (count_bits_keeps (take_notify (sy_srv t))) as (_ & _ & E & _). destruct (take_notify_patt (sy_srv t)) as (_ & E' & _).
    etrans; [exact E|exact E']. }
  apply Forall_app in Hb as [Hb1 Hb2]. pose proof ready_host as Hready.
  destruct (attn_loop_ok sy_srv (rk_ready ib base) handler (pre ++ mkAttnDsc h id :: post) [] t1 n 0 0)
    as (tr & t2 & Hl & Hs & _ & _ & Hr2); [done|done|by rewrite <- Hd|..].
  { apply Forall_app. split; [done|]. constructor; [by apply handler_behaves|done]. }
  rewrite Hp1 in Hs. exists t2. unfold CallAttnHandler. autorewrite with run. change (update sy_srv _ t) with t1.
  simpl length in Hl. rewrite (bind_Ret _ _ _ _ _ Hl). autorewrite with run.
  set (t3 := t2 <| sy_srv ::= λ s, s <| fAttnPatt ::= λ p, Z.ldiff p (Server.done_of tr 0) |> |>).
  assert (Hr3 : rk_ready ib base t3) by (eapply frame_ready; [apply frame_srv|done]).
  pose proof (settled_host t2) as Hhost.
  destruct (attn_default_ok sy_srv sy_link (settled t2) (next_of tr 0) t3) as (hv & t' & Hdf & _ & _ & _ & _ & Hset).
  { apply (rs_up _ _ _ (rr_static _ _ _ Hr3)). }
  exists t'. split; [exact Hdf|]. split; [|by apply Hset]. split.
  destruct (serves_app _ _ _ _ _ _ _ Hs) as (tr1 & ta & tr2 & Hs1 & Hs2). pose proof (serves_ready _ _ _ _ _ _ Hs1 Hb1 Hr1) as Hra.
  inversion Hs2 as [|? ? ? ? ? Hm _|? ? ? args tb ? ? Hm Hcall Hs3]; subst; [done|].
  cbn [fHandler fId] in Hcall. rewrite Hh in Hcall.
  destruct (AttnHandler_ok ib base Hdev a pd (AttnArgs_ctor patt (fMask id)) ta Hra) as (args' & tb' & uv & H1 & _ & Hdr & Hperf & _).
  rewrite Hcall in H1. injection H1 as _ <-. by eexists tr1, _, ta, tb, uv.
Qed.
End Disk.

(** C1: The controller does what the device asks for.  The attention handler of
    the RK11 returns with the attentions harvested, having done exactly what the
    specification [rk_run] of the device says for the registers it finds and
    the drive they select: nothing when there is no command or a transfer is
    active; otherwise the register writes of the outcome in their order and the
    change of the drive, or the transfer of the request queued.  The controller
    is ready again, and the server is left alone. *)
Theorem rk_attn_refines {S D V H A} `{!RlinkExec S, !Rbus D, !LinkLaws S D, !CpuBus D, !RegDev D, !VirtDiskOps V, !VirtDiskSpec V}
    (ib base : Z) (a : A) (pd : Z) (args : AttnArgs) (t : Rw11Sys S V H A RK11) :
  rk_present (D := D) ib base → rk_ready ib base t →
  let q := request_of ib base t in
  ∃ args' t' uv, AttnHandler a pd args t = (Ret args', t') ∧ fHarvestDone args' = true ∧
    drive_is t (Z.to_nat (q_dr q)) uv ∧
    performs ib base a pd q (rk_run q uv (IsActive (sy_rdma t))) t t' ∧
    rk_ready ib base t' ∧ srv_kept t t'.
Proof.
  intros Hdev Hr q. destruct (AttnHandler_ok ib base Hdev a pd args t Hr) as (args' & t' & uv & H1 & H2 & H3 & H4 & H5 & H6).
  exists args', t', uv. by split_and!.
Qed.

(** C23: Every accepted command is completed once.  Either the handler writes
    registers, and exactly one of the writes says that the function is done;
    or it writes none, and the transfer is active, its action queued. *)
Theorem rk_completes_once {S D V H A} `{!RlinkExec S, !Rbus D, !LinkLaws S D, !CpuBus D, !RegDev D, !VirtDiskOps V, !VirtDiskSpec V}
    (ib base : Z) (a : A) (pd : Z) (args : AttnArgs) (t : Rw11Sys S V H A RK11) :
  rk_present (D := D) ib base → rk_ready ib base t →
  q_go (request_of ib base t) = true → q_ready (request_of ib base t) = false → IsActive (sy_rdma t) = false →
  ∃ args' t' ws, AttnHandler a pd args t = (Ret args', t') ∧
    cp_log (cport (sy_cpu t')) = cp_log (cport (sy_cpu t)) ++ at_rb ib base ws ∧
    if IsActive (sy_rdma t') then ws = [] ∧ fActnList (sy_srv t') = fActnList (sy_srv t) ++ [a]
    else completions ws = 1%nat ∧ fActnList (sy_srv t') = fActnList (sy_srv t).
Proof.
  intros Hdev Hr Hgo Hrdy Hact. set (q := request_of ib base t) in *.
  destruct (AttnHandler_ok ib base Hdev a pd args t Hr) as (args' & t' & uv & H1 & _ & H3 & H4 & H5 & H6).
  pose proof (request_of_ok ib base t) as Hq. fold q in H3, H4, Hq. rewrite Hact in H4. exists args', t'.
  destruct (rk_run q uv false) as [|ws uv'|fn] eqn:E.
  - exfalso. unfold rk_run in E. rewrite Hgo, Hrdy in E. cbn [negb orb] in E.
    destruct (req_error q uv =? 0); [|done]. unfold rk_function in E. by repeat case_match.
  - exists ws. split; [done|]. destruct H4 as ((Hv & _) & Hs & _).
    assert (Ha : IsActive (sy_rdma t') = false).
    { change (IsActive (v_rdma (view t')) = false). by rewrite Hv. }
    split; [change (cp_log (v_port (view t')) = cp_log (v_port (view t)) ++ at_rb ib base ws); by rewrite Hv|].
    rewrite Ha. split; [|by rewrite Hs]. by eapply rk_run_completes.
  - exists []. split; [done|]. destruct H4 as (t1 & Ht & Hk & Hr1 & _ & _ & Hqd).
    (* the drive *)
    destruct (ts_step _ _ _ _ _ Ht) as (Hv & _). rewrite logged_id in Hv.
    destruct (attached_disk ib base t1 (q_dr q) uv Hr1) as (f & Hdk).
    { by apply q_ranges. }
    { by apply (told_drive ib base [] t). }
    { by eapply queued_attached. }
    destruct (queued_returns a fn (q_addr q) kCPAH_M_UBM22 (q_size q) (q_lba q) (Z.to_nat (q_dr q)) pd 256 f t1)
      as (t2 & Q1 & _ & _ & _ & Q5 & Q6 & Q7).
    { apply (rr_disk _ _ _ Hr1). }
    { change (fStatus (v_rdma (view t1)) = kStatusDone). rewrite Hv. by apply idle_status. } { done. }
    rewrite Hqd in Q1. injection Q1 as <-. rewrite Q7. unfold IsActive. rewrite Q6, Q5, (ts_srv _ _ _ _ _ Ht).
    split; [|by split].
    change (cp_log (v_port (view t1)) = cp_log (v_port (view t)) ++ []). by rewrite Hv, app_nil_r.
Qed.

(** What a transfer needs; [mv] of its words are in the memory. *)
Record transfer_ready {S D V H A} `{!RlinkExec S, !Rbus D, !LinkLaws S D, !CpuBus D, !RegDev D, !VirtDiskOps V, !VirtDiskSpec V}
    (ib base : Z) (t : Rw11Sys S V H A RK11) (q : request) (mv : Z) (f : Z → list Z) : Prop := {
  tf_ready : rk_ready ib base t;
  tf_request : q = request_of ib base t;
  tf_disk : disk_is t (Z.to_nat (q_dr q)) 512 f;
  tf_idle : IsActive (sy_rdma t) = false ∧ fActnList (sy_srv t) = [];
  tf_chunk : 0 < chunk_size t <= 65535 ∧ chunk_size t <= srv_blkmax (sy_link t);
  tf_memory : reach (q_addr q) kCPAH_M_UBM22 (q_size q) mv (cport (sy_cpu t)) }.
(** The error bits of a transfer: NXM, when it reached the end of memory. *)
Definition nxm (q : request) (mv : Z) : Z := if mv =? q_size q then 0 else 0x400.
Lemma rk_end_moved q mv wc : q_fu q ≠ 3 → rk_end q mv wc = rk_exit q mv (nxm q mv).
Proof.
  intros E. unfold rk_end, check_count, check_error, nxm. rewrite (proj2 (Z.eqb_neq _ _) E). by destruct (mv =? q_size q).
Qed.

(** C5: A READ command of the device is executed to its end.  From the attention
    over one action of the server per chunk: then the words of the disk, from
    the block that cylinder, surface and sector name, are in memory at the
    address of the request, as many as the word count says, or up to the end of
    the disk or of memory; the disk is unchanged; the device was told once, with
    the registers behind the words moved, non-existent memory reported when
    some were not, and the controller is ready. *)
Theorem rk_read_command {S D V H A} `{!RlinkExec S, !Rbus D, !LinkLaws S D, !CpuBus D, !RegDev D, !VirtDiskOps V, !VirtDiskSpec V}
    (ib base : Z) (a : A) (pd : Z) (args : AttnArgs) (t : Rw11Sys S V H A RK11) (q : request) (mv : Z) (f : Z → list Z) :
  rk_present (D := D) ib base → transfer_ready ib base t q mv f → transfer q 2 →
  Forall is_u8 (disk_bytes f (q_lba q) (blocks_for (q_size q) 256)) →
  ∃ args' t1 t', AttnHandler a pd args t = (Ret args', t1) ∧
    repeat_m (Z.to_nat (turns (chunk_size t) (q_size q) mv)) (call_action RdmaPreExecCB RdmaPostExecCB) t1 = (Ret (), t') ∧
    rk_ready ib base t' ∧ IsActive (sy_rdma t') = false ∧ fActnList (sy_srv t') = [] ∧
    cp_mem (cport (sy_cpu t')) =
      mput (q_addr q) (take (Z.to_nat mv) (pair_words (disk_bytes f (q_lba q) (blocks_for (q_size q) 256))))
        (cp_mem (cport (sy_cpu t))) ∧
    cp_log (cport (sy_cpu t')) = cp_log (cport (sy_cpu t)) ++ at_rb ib base (rk_exit q mv (nxm q mv)) ∧
    disk_is t' (Z.to_nat (q_dr q)) 512 f.
Proof.
  intros Hdev [Hr -> Hd [Hi Ha] [Hc1 Hc2] Hm] Htr Hu8. assert (Hmv : (Z.to_nat mv <= Z.to_nat (q_size (request_of ib base t)))%nat).
  { destruct Hm as (_ & _ & _ & _ & Hmv & _). lia. }
  destruct (transfer_run ib base Hdev a pd 2 mv args f t) as (args' & t1 & t' & d & wc & H1 & H2 & H3 & H4 & H5 & H6 & H7 & _ & H8 & H9 & _);
    try done.
  exists args', t1, t'. rewrite rk_end_moved in H7 by (by rewrite (tr_fu _ _ Htr)).
  unfold final_disk in H8. rewrite H9 in H8. unfold moves, fn_of in H6. rewrite bool_decide_eq_true_2, take_take, Nat.min_l in H6 by done.
  do 5 (split; [done|]). by split.
Qed.

(** C6: A WRITE command of the device is executed to its end, on a drive that is
    not write protected.  The blocks of the disk from the address of the request
    on hold the words of memory, up to its end, the last block filled with
    [0xdead], all other blocks and memory are as before; the device was told
    once, with the registers behind the words moved, non-existent memory
    reported when some were not, and the controller is ready. *)
Theorem rk_write_command {S D V H A} `{!RlinkExec S, !Rbus D, !LinkLaws S D, !CpuBus D, !RegDev D, !VirtDiskOps V, !VirtDiskSpec V}
    (ib base : Z) (a : A) (pd : Z) (args : AttnArgs) (t : Rw11Sys S V H A RK11) (q : request) (mv : Z) (f : Z → list Z) :
  rk_present (D := D) ib base → transfer_ready ib base t q mv f → transfer q 1 →
  (∀ uv, drive_is t (Z.to_nat (q_dr q)) uv → uv_wprot uv = false) →
  let ws := mwords (cp_mem (cport (sy_cpu t))) (q_addr q) (Z.to_nat mv) in
  ∃ args' t1 t', AttnHandler a pd args t = (Ret args', t1) ∧
    repeat_m (Z.to_nat (turns (chunk_size t) (q_size q) mv)) (call_action RdmaPreExecCB RdmaPostExecCB) t1 = (Ret (), t') ∧
    rk_ready ib base t' ∧ IsActive (sy_rdma t') = false ∧ fActnList (sy_srv t') = [] ∧
    cp_mem (cport (sy_cpu t')) = cp_mem (cport (sy_cpu t)) ∧
    cp_log (cport (sy_cpu t')) = cp_log (cport (sy_cpu t)) ++ at_rb ib base (rk_exit q mv (nxm q mv)) ∧
    disk_is t' (Z.to_nat (q_dr q)) 512
      (if mv =? 0 then f else store_write 512 (q_lba q) (blocks_for mv 256) (words_bytes (ws ++ padding 256 mv)) f).
Proof.
  intros Hdev [Hr -> Hd [Hi Ha] [Hc1 Hc2] Hm] Htr Hw ws. assert (Hmv : (Z.to_nat mv <= Z.to_nat (q_size (request_of ib base t)))%nat).
  { destruct Hm as (_ & _ & _ & _ & Hmv & _). lia. }
  destruct (transfer_run ib base Hdev a pd 1 mv args f t) as (args' & t1 & t' & d & wc & H1 & H2 & H3 & H4 & H5 & H6 & H7 & _ & H8 & H9 & H10);
    try done.
  { intros uv _. apply Hw. }
  exists args', t1, t'. rewrite rk_end_moved in H7 by (by rewrite (tr_fu _ _ Htr)).
  unfold final_disk, moves in H8. rewrite H9, H10 in H8. unfold fn_of in H8.
  rewrite bool_decide_eq_true_2, (bool_decide_eq_false_2 (kFuncWrite = kFuncRead)), take_mwords in H8 by done.
  do 5 (split; [done|]). split; [done|]. split; [done|]. by destruct (mv =? 0).
Qed.

(** C22: A WRITE CHECK command of the device is executed to its end.  Memory and
    disk are unchanged; the device was told once: a write check error when a
    word of memory, of those below its end, differs from the disk, with the
    registers at the first such word if the request stops on a soft error, else
    behind the words compared; non-existent memory when some words were not;
    and the controller is ready. *)
Theorem rk_check_command {S D V H A} `{!RlinkExec S, !Rbus D, !LinkLaws S D, !CpuBus D, !RegDev D, !VirtDiskOps V, !VirtDiskSpec V}
    (ib base : Z) (a : A) (pd : Z) (args : AttnArgs) (t : Rw11Sys S V H A RK11) (q : request) (mv : Z) (f : Z → list Z) :
  rk_present (D := D) ib base → transfer_ready ib base t q mv f → transfer q 3 →
  let wc := mismatch f (q_lba q) 256 mv (mwords (cp_mem (cport (sy_cpu t))) (q_addr q) (Z.to_nat mv)) in
  ∃ args' t1 t', AttnHandler a pd args t = (Ret args', t1) ∧
    repeat_m (Z.to_nat (turns (chunk_size t) (q_size q) mv)) (call_action RdmaPreExecCB RdmaPostExecCB) t1 = (Ret (), t') ∧
    rk_ready ib base t' ∧ IsActive (sy_rdma t') = false ∧ fActnList (sy_srv t') = [] ∧
    cp_mem (cport (sy_cpu t')) = cp_mem (cport (sy_cpu t)) ∧
    cp_log (cport (sy_cpu t')) = cp_log (cport (sy_cpu t)) ++ at_rb ib base
      (rk_exit q (if Z.testbit (q_cs q) 8 then default mv wc else mv) ((if wc then 1 else 0) + nxm q mv)) ∧
    disk_is t' (Z.to_nat (q_dr q)) 512 f.
Proof.
  intros Hdev [Hr -> Hd [Hi Ha] [Hc1 Hc2] Hm] Htr wc. assert (Hmv : (Z.to_nat mv <= Z.to_nat (q_size (request_of ib base t)))%nat).
  { destruct Hm as (_ & _ & _ & _ & Hmv & _). lia. }
  destruct (transfer_run ib base Hdev a pd 3 mv args f t) as (args' & t1 & t' & d & wc' & H1 & H2 & H3 & H4 & H5 & H6 & H7 & Hwc & H8 & H9 & _);
    try done.
  exists args', t1, t'. specialize (Hwc eq_refl). unfold moves, fn_of in Hwc. cbn [Z.eqb Pos.eqb] in Hwc.
  rewrite (bool_decide_eq_false_2 (kFuncWriteCheck = kFuncRead)), take_mwords in Hwc by done. fold wc in Hwc. rewrite Hwc in H7.
  unfold rk_end, check_count, check_error in H7. rewrite (tr_fu _ _ Htr) in H7. cbn [Z.eqb Pos.eqb andb] in H7.
  unfold final_disk in H8. rewrite H9 in H8.
  do 5 (split; [done|]). split; [done|]. split; [|done]. rewrite H7. unfold nxm. by destruct wc, (mv =? _).
Qed.

(** C24: The server brings an attention to the controller.  Let the handler of the
    RK11 be registered once among other handlers that behave (they return, leave
    handlers and pattern alone and the RK11 usable), and let the pattern, notified
    bits included, have its bit.  Then a call of the attention handlers returns;
    the handlers with a pending bit have run in their order, and the RK11, when
    its turn came, has done exactly what the device asks for; the bookkeeping and
    the harvest of the server behind them change neither the transfer, the drives,
    the memory and registers of the device, nor the queued actions. *)
Theorem rk_attention_served {S D V H A} `{!RlinkExec S, !Rbus D, !LinkLaws S D, !CpuBus D, !RegDev D, !VirtDiskOps V, !VirtDiskSpec V}
    (ib base : Z) (a : A) (pd : Z) (handler : H → AttnArgs → M (Rw11Sys S V H A RK11) AttnArgs) (h : H) (id : AttnId)
    (pre post : list (AttnDsc H)) (n : nat) (t : Rw11Sys S V H A RK11) :
  rk_present (D := D) ib base → rk_ready ib base t → handler h = AttnHandler a pd →
  fAttnDsc (sy_srv t) = pre ++ mkAttnDsc h id :: post →
  Forall (λ d, behaves sy_srv (rk_ready ib base) handler (fHandler d)) (pre ++ post) →
  let patt := Z.lor (fAttnPatt (sy_srv t)) (fAttnNotiPatt (sy_srv t)) in
  Z.land patt (fMask id) ≠ 0 → (length (fAttnDsc (sy_srv t)) <= n)%nat →
  ∃ tr1 tr2 ta tb uv t2 t', CallAttnHandler sy_srv sy_link handler n t = (Ret (), t') ∧
    serves handler patt pre (t <| sy_srv ::= λ s, count_bits (take_notify s) |>) tr1 ta ∧ rk_ready ib base ta ∧
    let q := request_of ib base ta in
    drive_is ta (Z.to_nat (q_dr q)) uv ∧
    performs ib base a pd q (rk_run q uv (IsActive (sy_rdma ta))) ta tb ∧
    serves handler patt post tb tr2 t2 ∧ settled ib base t2 t'.
Proof.
  intros Hdev Hr Hh Hd Hb patt Hp Hn.
  destruct (attention_run ib base Hdev a pd handler h id pre post n t Hr Hh Hd Hb Hp Hn) as
    (t2 & t' & H1 & [(tr1 & tr2 & ta & tb & uv & H2 & H3 & H4 & H5 & H6)] & H7).
  by exists tr1, tr2, ta, tb, uv, t2, t'.
Qed.

(** ** A pdp-11 with an RK05 *)

(** Drive 0 holds a disk, drives 1 to 7 are empty; the registers ask for three
    words from block 1 at address 4096, READ or WRITE. *)
Definition pdp_disk : Rw11VirtDisk MemFile := VirtDiskFile (mem_disk 512 (replicate 512 0 ++ [1; 2; 3; 4; 5; 6; 7; 8])).
Definition pdp_units : list (Rw11UnitDisk (Rw11VirtDisk MemFile)) :=
  (UnitRK11_ctor <| fupVirt := Some pdp_disk |>) :: replicate 7 UnitRK11_ctor.
Definition pdp_bus (ba cs : Z) : PdpBus :=
  mkPdpBus (mkCpPort 0 false false 3 false {[0x1000 := 0x201; 0x1002 := 8; 0x1004 := 9]} 0x2000 [])
    (list_to_map [(0x4f82, cs); (0x4f83, 65533); (0x4f84, ba); (0x4f85, 1)]).
Definition pdp_prim : RlinkCommandList :=
  mkCommandList (fresh_command kCmdAttn 0 0 [] None 0 ::
    map (λ off, fresh_command kCmdRreg (rb 0x4000 0xff00 off) 0 [] None 0) prim_offs) (-1).
Definition pdp_rk : RK11 :=
  RK11_ctor <| rk_cntl ::= (λ c, c <| cn_fBase := 0xff00 |> <| cn_fPrimClist := pdp_prim |>) |>
    <| fPC_rkwc := 1%nat |> <| fPC_rkba := 2%nat |> <| fPC_rkda := 3%nat |> <| fPC_rkmr := 4%nat |> <| fPC_rkcs := 5%nat |>.
Definition pdp_at (ba cs : Z) : Rw11Sys (RlinkLink (CorePort PdpBus)) (Rw11VirtDisk MemFile) () () RK11 :=
  mkSys (RlinkServer_ctor <| fAttnDsc := [mkAttnDsc () (mkAttnId 0x10 10)] |> <| fAttnPatt := 0x10 |>)
    ((Cpu_ctor "w11a" 0 (core_link (pdp_bus ba cs))) <| fMemSize := 0x2000 |>) pdp_units true
    (RdmaDisk_ctor.1 <| fChunksize := 2 |>) (Some RdmaDisk_ctor.2) pdp_rk.
Notation pdp := (pdp_at 0x1000).
Lemma pdp_present : rk_present (D := PdpBus) 0x4000 0xff00.
Proof. unfold rk_present, present, rk_offs. repeat (apply list.Forall_cons_2; [by split|]). done. Qed.
Lemma pdp_disk_is ba cs : disk_is (pdp_at ba cs) 0 512 (disk_block pdp_disk).
Proof. exists (UnitRK11_ctor <| fupVirt := Some pdp_disk |>), pdp_disk. split_and!; try done. by apply mem_disk_ok. Qed.
Lemma pdp_ready ba cs : rk_ready 0x4000 0xff00 (pdp_at ba cs).
Proof.
  split; [split|by eexists|].
  - split; [done|]. apply core_link_is_up.
  - done.
  - done.
  - intros i Hi. do 8 (destruct i as [|i]; [eexists; split; [reflexivity|done]|]). lia.
  - split; [done|]. by repeat constructor.
  - split; [|eexists _, _; split; [reflexivity|split; [done|by repeat constructor]]].
    repeat (apply list.Forall_cons_2; [apply fresh_command_wf; try done; by intros [|]|]). done.
  - done.
  - intros i u Hi Hu [v Hv]. destruct i as [|i]; [|by do 7 (destruct i as [|i]; [simpl in Hu; by simplify_eq|])].
    exists (disk_block pdp_disk). apply pdp_disk_is.
Qed.
Lemma pdp_transfer_ready ba cs mv : let q := request_of 0x4000 0xff00 (pdp_at ba cs) in
  reach (q_addr q) kCPAH_M_UBM22 (q_size q) mv (cport (sy_cpu (pdp_at ba cs))) →
  transfer_ready 0x4000 0xff00 (pdp_at ba cs) q mv (disk_block pdp_disk).
Proof. intros q Hr. by split; [apply pdp_ready|done|apply pdp_disk_is|done|done|]. Qed.
(** A drive reset of the drive with the disk. *)
Lemma rk_attn_refines_witness : ∃ args' t' uv,
  AttnHandler () 500 (AttnArgs_ctor 0x10 0x10) (pdp 13) = (Ret args', t') ∧ drive_is (pdp 13) 0 uv ∧
  performs 0x4000 0xff00 () 500 (mkReq 65533 0x1000 1 13) (Told [(kRKMR, 0x100); (kRKMR, 1)] uv) (pdp 13) t' ∧
  rk_ready 0x4000 0xff00 t'.
Proof.
  destruct (rk_attn_refines 0x4000 0xff00 () 500 (AttnArgs_ctor 0x10 0x10) (pdp 13) pdp_present (pdp_ready 0x1000 13))
    as (args' & t' & uv & H1 & _ & H2 & H3 & H4 & _).
  exists args', t', uv. split; [exact H1|]. split; [exact H2|]. split; [|exact H4].
  assert (Ha : uv_attached uv = true) by (by destruct H2 as (u & [= <-] & _ & -> & _)).
  destruct uv as [at_ wp ds]. simpl in Ha. subst at_. exact H3.
Defined.
(** A seek. *)
Lemma rk_completes_once_witness : ∃ args' t' ws,
  AttnHandler () 500 (AttnArgs_ctor 0x10 0x10) (pdp 9) = (Ret args', t') ∧
  cp_log (cport (sy_cpu t')) = [] ++ at_rb 0x4000 0xff00 ws ∧
  if IsActive (sy_rdma t') then ws = [] ∧ fActnList (sy_srv t') = [()]
  else completions ws = 1%nat ∧ fActnList (sy_srv t') = [].
Proof.
  exact (rk_completes_once 0x4000 0xff00 () 500 (AttnArgs_ctor 0x10 0x10) (pdp 9) pdp_present (pdp_ready 0x1000 9)
    eq_refl eq_refl eq_refl).
Defined.
(** The last of the three words is behind the end of memory. *)
Lemma rk_read_command_witness : ∃ args' t1 t',
  AttnHandler () 500 (AttnArgs_ctor 0x10 0x10) (pdp_at 0x1ffc 5) = (Ret args', t1) ∧
  repeat_m 2 (call_action RdmaPreExecCB RdmaPostExecCB) t1 = (Ret (), t') ∧
  rk_ready 0x4000 0xff00 t' ∧ IsActive (sy_rdma t') = false ∧ fActnList (sy_srv t') = [] ∧
  cp_mem (cport (sy_cpu t')) = mput 0x1ffc [0x201; 0x403] (cp_mem (pb_port (pdp_bus 0x1ffc 5))) ∧
  cp_log (cport (sy_cpu t')) =
    [(0x4f81, 0x400); (0x4f83, 0xffff); (0x4f84, 0x2000); (0x4f85, 2); (0x4f86, 0x100)] ∧
  disk_is t' 0 512 (disk_block pdp_disk).
Proof.
  refine (rk_read_command 0x4000 0xff00 () 500 (AttnArgs_ctor 0x10 0x10) (pdp_at 0x1ffc 5)
    (request_of 0x4000 0xff00 (pdp_at 0x1ffc 5)) 2
    (disk_block pdp_disk) pdp_present (pdp_transfer_ready 0x1ffc 5 2 _) _ _).
  - split_and!; try done. split; [by right|by split].
  - by split.
  - apply (bool_decide_unpack _). vm_compute. exact I.
Defined.
Lemma rk_write_command_witness : ∃ args' t1 t',
  AttnHandler () 500 (AttnArgs_ctor 0x10 0x10) (pdp 3) = (Ret args', t1) ∧
  repeat_m 2 (call_action RdmaPreExecCB RdmaPostExecCB) t1 = (Ret (), t') ∧
  rk_ready 0x4000 0xff00 t' ∧ IsActive (sy_rdma t') = false ∧ fActnList (sy_srv t') = [] ∧
  cp_mem (cport (sy_cpu t')) = cp_mem (pb_port (pdp_bus 0x1000 3)) ∧
  cp_log (cport (sy_cpu t')) = [(0x4f83, 0); (0x4f84, 0x1006); (0x4f85, 2); (0x4f86, 0x100)] ∧
  disk_is t' 0 512 (store_write 512 1 1 (words_bytes ([0x201; 8; 9] ++ replicate 253 0xdead)) (disk_block pdp_disk)).
Proof.
  refine (rk_write_command 0x4000 0xff00 () 500 (AttnArgs_ctor 0x10 0x10) (pdp 3) (request_of 0x4000 0xff00 (pdp 3)) 3
    (disk_block pdp_disk) pdp_present (pdp_transfer_ready 0x1000 3 3 _) _ _).
  - split_and!; try done. by vm_compute.
  - by split.
  - intros uv (u & [= <-] & _ & _ & ->). done.
Defined.
(** The second word differs, and the request stops there. *)
Lemma rk_check_command_witness : ∃ args' t1 t',
  AttnHandler () 500 (AttnArgs_ctor 0x10 0x10) (pdp 0x107) = (Ret args', t1) ∧
  repeat_m 2 (call_action RdmaPreExecCB RdmaPostExecCB) t1 = (Ret (), t') ∧
  rk_ready 0x4000 0xff00 t' ∧ IsActive (sy_rdma t') = false ∧ fActnList (sy_srv t') = [] ∧
  cp_mem (cport (sy_cpu t')) = cp_mem (pb_port (pdp_bus 0x1000 0x107)) ∧
  cp_log (cport (sy_cpu t')) = [(0x4f81, 1); (0x4f83, 0xfffe); (0x4f84, 0x1002); (0x4f85, 2); (0x4f86, 0x100)] ∧
  disk_is t' 0 512 (disk_block pdp_disk).
Proof.
  refine (rk_check_command 0x4000 0xff00 () 500 (AttnArgs_ctor 0x10 0x10) (pdp 0x107) (request_of 0x4000 0xff00 (pdp 0x107)) 3
    (disk_block pdp_disk) pdp_present (pdp_transfer_ready 0x1000 0x107 3 _) _).
  - split_and!; try done. by vm_compute.
  - by split.
Defined.
(** The handlers of the program: the cpus first, then the RK11; both are called. *)
Definition two_handlers : list (AttnDsc bool) := [mkAttnDsc false (mkAttnId 1 9); mkAttnDsc true (mkAttnId 0x10 10)].
Definition pdp_handler (h : bool) : AttnArgs → M (Rw11Sys (RlinkLink (CorePort PdpBus)) (Rw11VirtDisk MemFile) bool () RK11) AttnArgs :=
  if h then AttnHandler () 500 else Rw11_AttnHandler.
(** The same program with other handlers. *)
Definition reserved {S V H H' A A'} (srv : RlinkServer H' A') (t : Rw11Sys S V H A RK11) : Rw11Sys S V H' A' RK11 :=
  mkSys srv (sy_cpu t) (sy_units t) (sy_started t) (sy_rdma t) (sy_disk t) (sy_client t).
Lemma reserved_ready {S D V H H' A A'} `{!RlinkExec S, !Rbus D, !LinkLaws S D, !CpuBus D, !RegDev D, !VirtDiskOps V, !VirtDiskSpec V}
    ib base (srv : RlinkServer H' A') (t : Rw11Sys S V H A RK11) : rk_ready (D := D) ib base t → rk_ready ib base (reserved srv t).
Proof. intros [[[U1 U2] R2 R3 R4 R5 R6 R7] R8 R9]. by split; [split|..]. Qed.
Definition pdp_two : Rw11Sys (RlinkLink (CorePort PdpBus)) (Rw11VirtDisk MemFile) bool () RK11 :=
  reserved (RlinkServer_ctor <| fAttnDsc := two_handlers |> <| fAttnPatt := 0x11 |>) (pdp 13).
Lemma rk_attention_served_witness : ∃ tr ta tb uv t',
  CallAttnHandler sy_srv sy_link pdp_handler 2 pdp_two = (Ret (), t') ∧
  serves pdp_handler 0x11 [mkAttnDsc false (mkAttnId 1 9)] (pdp_two <| sy_srv ::= λ s, count_bits (take_notify s) |>) tr ta ∧
  performs 0x4000 0xff00 () 500 (request_of 0x4000 0xff00 ta) (rk_run (request_of 0x4000 0xff00 ta) uv (IsActive (sy_rdma ta))) ta tb ∧
  settled 0x4000 0xff00 tb t'.
Proof.
  pose proof (reserved_ready 0x4000 0xff00 _ (pdp 13) (pdp_ready 0x1000 13) : rk_ready 0x4000 0xff00 pdp_two) as Hr.
  destruct (rk_attention_served 0x4000 0xff00 () 500 pdp_handler true (mkAttnId 0x10 10) [mkAttnDsc false (mkAttnId 1 9)] [] 2
    pdp_two pdp_present Hr eq_refl eq_refl) as (tr & tr2 & ta & tb & uv & t2 & t' & H1 & H2 & _ & _ & H3 & H4 & H5).
  - constructor; [|done]. by apply (cluster_behaves 0x4000 0xff00).
  - done.
  - done.
  - inversion H4; subst. exists tr, ta, t2, uv, t'. split; [exact H1|]. split; [exact H2|]. split; [exact H3|exact H5].
Defined.
