(* ===== verification/Reth.v ===== *)
(** * librw11/RethTools, RethBuf, Rw11VirtEthTap: ethernet addresses and frames

    A mac address is a 48 bit number, its first byte the lowest.  A frame buffer
    is storage in the memory of the caller ([Mem], words) with a size; its bytes
    are the two halves of the words.  [VirtEth] is the interface of an ethernet
    device as the controller uses it, [Rw11VirtEthTap] the device of the code,
    a file descriptor of the system.  Texts for the log are not modelled. *)

From Stdlib Require Import Ascii.
From S2P Require Import Prelude.
From S2P Require Import Rstats.
From S2P Require Import Rtime.
From S2P Require Import FileFd.
From S2P Require Import Rtools.

#[local] Open Scope string_scope.
Open Scope Z_scope.

(** ** Texts of mac addresses *)

Definition codes : list ascii := String.list_ascii_of_string "0123456789abcdef".
Definition hex_code (n : Z) : ascii := nth (Z.to_nat (Z.land n 0x0f)) codes "0"%char.
(** The loop over the bytes; [n]: turns left. *)
Fixpoint mac_text (n : nat) (first : bool) (mac : Z) : string :=
  match n with
  | O => EmptyString
  | S n =>
      let byte := Z.land mac 0xff in
      (if first then EmptyString else ":") ++
      String (hex_code (Z.shiftr byte 4)) (String (hex_code byte) (mac_text n false (Z.shiftr mac 8)))
  end.
Definition Mac2String (mac : Z) : string := mac_text 6 true mac.

Definition char_at (i : nat) (s : string) : ascii := default "000"%char (String.get i s).
(** The loop over the bytes, [ib] up. *)
Fixpoint mac_parse (n ib : nat) (str : string) (mac : Z) : Z + RerrMsg :=
  match n with
  | O => inl mac
  | S n =>
      match String2Long16 (String.substring (3 * ib) 2 str) with
      | inr e => inr e
      | inl byte =>
          let mac := Z.lor mac (Z.shiftl (Z.land byte 0xff) (8 * Z.of_nat ib)) in
          let delim := char_at (3 * ib - 1) str in
          if (0 <? ib)%nat && bool_decide (delim ≠ ":"%char ∧ delim ≠ "-"%char)
          then inr (mkRerrMsg "RethTools::String2Mac" ("invalid delimiter '" ++ String delim "'"))
          else mac_parse n (S ib) str mac
      end
  end.
Definition String2Mac (str : string) : Z + RerrMsg :=
  if negb (String.length str =? 17)%nat
  then inr (mkRerrMsg "RethTools::String2Mac" ("invalid string size for '" ++ str ++ "'"))
  else mac_parse 6 0 str 0.
(** The overload that throws. *)
Definition String2Mac_throw (str : string) : outcome Z :=
  match String2Mac str with
  | inl mac => Ret mac
  | inr e => Exc (Rexception (em_meth e) (em_text e))
  end.

(** ** Mac addresses as words *)

Definition Mac2WList (mac : Z) : list Z :=
  [Z.land mac 0xffff; Z.land (Z.shiftr mac 16) 0xffff; Z.land (Z.shiftr mac 32) 0xffff].
Definition WList2Mac (w : list Z) : Z :=
  Z.lor (Z.lor (nth 0 w 0) (Z.shiftl (nth 1 w 0) 16)) (Z.shiftl (nth 2 w 0) 32).
Definition Bytes2Word (byte0 byte1 : Z) : Z := u16 (Z.lor (Z.shiftl byte1 8) byte0).

(** ** Frame buffers *)

Definition kMaxSize : Z := 1514.
Definition kMinSize : Z := 60.
Definition kCrcSize : Z := 4.
Definition kEOffDstMac : Z := 0.
Definition kEOffSrcMac : Z := 6.
Definition kEOffEType : Z := 12.
Definition kETypeIPv4 : Z := 0x0800.
Definition kETypeARP : Z := 0x0806.

Record RethBuf := mkRethBuf {
  rb_fTime : Rtime;
  rb_fSize : Z;
  rb_fBuf : Z }.      (** where its words are *)
#[export] Instance eta_RethBuf : Eta RethBuf := λ b, mkRethBuf (rb_fTime b) (rb_fSize b) (rb_fBuf b).
Definition RethBuf_ctor (p : Z) : RethBuf := mkRethBuf Rtime_ctor 0 p.
Definition SetSize (size : Z) (b : RethBuf) : RethBuf := b <| rb_fSize := u16 size |>.
Definition SetTime (time : Rtime) (b : RethBuf) : RethBuf := b <| rb_fTime := time |>.

(** [Buf16()[i]] and [Buf8()[i]]. *)
Definition Buf16 (m : Mem) (b : RethBuf) (i : Z) : Z := u16 (default 0 (m !! (rb_fBuf b + i))).
Definition GetB (boff : Z) (m : Mem) (b : RethBuf) : Z :=
  let w := Buf16 m b (boff / 2) in if Z.even boff then lo8 w else hi8 w.
(** Network order. *)
Definition GetS (boff : Z) (m : Mem) (b : RethBuf) : Z := Z.lor (Z.shiftl (GetB boff m b) 8) (GetB (boff + 1) m b).
Definition GetL (boff : Z) (m : Mem) (b : RethBuf) : Z :=
  Z.lor (Z.shiftl (GetS boff m b) 16) (GetS (boff + 2) m b).
Definition ntohs (w : Z) : Z := word_of (hi8 w) (lo8 w).
Definition EType (m : Mem) (b : RethBuf) : Z := ntohs (Buf16 m b (kEOffEType / 2)).
Definition SetMacDestination (mac : Z) (b : RethBuf) (m : Mem) : Mem :=
  mem_put (rb_fBuf b + kEOffDstMac / 2) (Mac2WList mac) m.
Definition SetMacSource (mac : Z) (b : RethBuf) (m : Mem) : Mem :=
  mem_put (rb_fBuf b + kEOffSrcMac / 2) (Mac2WList mac) m.
Definition mac_at (off : Z) (m : Mem) (b : RethBuf) : Z :=
  WList2Mac (map (λ i, Buf16 m b (off / 2 + i)) [0; 1; 2]).
Definition MacDestination : Mem → RethBuf → Z := mac_at kEOffDstMac.
Definition MacSource : Mem → RethBuf → Z := mac_at kEOffSrcMac.
Definition IsMcast (m : Mem) (b : RethBuf) : bool := negb (Z.land (GetB 0 m b) 0x1 =? 0).
Definition IsBcast (m : Mem) (b : RethBuf) : bool :=
  (Buf16 m b 0 =? 0xffff) && (Buf16 m b 1 =? 0xffff) && (Buf16 m b 2 =? 0xffff).

(** [n] bytes of the buffer. *)
Definition frame_bytes (n : Z) (m : Mem) (b : RethBuf) : list Z :=
  map (λ i, GetB (Z.of_nat i) m b) (seq 0 (Z.to_nat n)).
(** Bytes stored from offset [off] on. *)
Fixpoint put_bytes (off : Z) (bs : list Z) (b : RethBuf) (m : Mem) : Mem :=
  match bs with
  | [] => m
  | x :: bs =>
      let w := Buf16 m b (off / 2) in
      put_bytes (off + 1) bs b
        (<[rb_fBuf b + off / 2 := if Z.even off then word_of x (hi8 w) else word_of (lo8 w) x]> m)
  end.
(** [memset(Buf8()+Size(), 0, kMinSize-Size())] and [SetSize(kMinSize)]. *)
Definition pad_frame (b : RethBuf) (m : Mem) : Mem :=
  put_bytes (rb_fSize b) (replicate (Z.to_nat (kMinSize - rb_fSize b)) 0) b m.

(** ** The device *)

(** An attached ethernet device: it sends the bytes of a frame. *)
Class VirtEth (E : Type) := eth_Snd : list Z → E → (() + RerrMsg) * E.

Definition kStatNVTRcvPoll : nat := 0.
Definition kStatNVTSnd : nat := 1.
Definition kStatNVTRcvByt : nat := 2.
Definition kStatNVTSndByt : nat := 3.
Definition eth_stat_table : list (string * string) :=
  [("NVTRcvPoll", "VT RcvPollHandler() calls"); ("NVTSnd", "VT Snd() calls");
   ("NVTRcvByt", "VT bytes received"); ("NVTSndByt", "VT bytes send")].
Record Rw11VirtEthTap (F : Type) := mkEthTap {
  te_fFd : Z;
  te_fStats : Rstats;
  te_sys : F }.
Arguments mkEthTap {F}.
Arguments te_fFd {F} _. Arguments te_fStats {F} _. Arguments te_sys {F} _.
#[export] Instance eta_EthTap {F} : Eta (Rw11VirtEthTap F) := λ t, mkEthTap (te_fFd t) (te_fStats t) (te_sys t).

Section EthTap.
Context {F : Type} `{!PosixFile F}.
Notation Tap := (Rw11VirtEthTap F).

Definition VirtEthTap_ctor (f : F) : Tap := mkEthTap (-1) (Define_all eth_stat_table) f.
Definition tap_stat (ind : nat) (val : Z) (t : Tap) : Tap := t <| te_fStats ::= inc ind val |>.
(** [bs]: the bytes of the frame. *)
Definition Snd (bs : list Z) (t : Tap) : (() + RerrMsg) * Tap :=
  let t := tap_stat kStatNVTSnd 1 t in
  let '(irc, f) := posix_write (te_fFd t) bs (te_sys t) in
  let t := t <| te_sys := f |> in
  if negb (irc =? Z.of_nat (length bs))
  then (inr (mkRerrMsg "Rw11VirtEthTap::Snd" ("write() failed: " ++ posix_errno f)), t)
  else (inl (), tap_stat kStatNVTSndByt (Z.of_nat (length bs)) t).
#[export] Instance EthTap_eth : VirtEth Tap := Snd.
(** A frame is read into a new buffer at [p], of the memory [m] of the caller;
    [None]: nothing was read.  The result is the code and the frame for the
    callback. *)
Definition RcvPollHandler (revents events : Z) (p : Z) (now : Rtime) (m : Mem) (t : Tap) :
    (Z * option RethBuf) * Mem * Tap :=
  let t := tap_stat kStatNVTRcvPoll 1 t in
  if negb (Z.ldiff revents events =? 0) then ((-1, None), m, t)
  else
    let '((irc, bs), f) := posix_read (te_fFd t) kMaxSize (te_sys t) in
    let t := t <| te_sys := f |> in
    if 0 <? irc then
      let b := SetTime now (SetSize irc (RethBuf_ctor p)) in
      ((0, Some b), put_bytes 0 bs b m, tap_stat kStatNVTRcvByt irc t)
    else ((0, None), m, t).
End EthTap.

(** ** Texts and words of a mac address *)

Lemma mod_extend x k n : 0 <= k → 0 <= n →
  Z.lor (x mod 2 ^ k) (Z.shiftl (Z.land (Z.shiftr x k) (Z.ones n)) k) = x mod 2 ^ (k + n).
Proof.
  intros Hk Hn. rewrite <- !Z.land_ones by lia. apply Z.bits_inj'. intros i Hi.
  rewrite Z.lor_spec, !Z.land_spec. destruct (Z.lt_ge_cases i k) as [H|H].
  - rewrite Z.shiftl_spec_low by done. rewrite !Z.ones_spec_low by lia. by rewrite !andb_true_r, orb_false_r.
  - rewrite Z.shiftl_spec, Z.land_spec, Z.shiftr_spec, Z.sub_add by lia.
    rewrite (Z.ones_spec_high k) by lia. rewrite andb_false_r, orb_false_l. f_equal.
    destruct (Z.lt_ge_cases i (k + n)); [by rewrite !Z.ones_spec_low by lia|by rewrite !Z.ones_spec_high by lia].
Qed.
Lemma WList2Mac_Mac2WList mac : 0 <= mac < 2 ^ 48 → WList2Mac (Mac2WList mac) = mac.
Proof.
  intros Hm. unfold WList2Mac, Mac2WList. cbn [nth]. change (Z.land mac 0xffff) with (Z.land mac (Z.ones 16)). rewrite (Z.land_ones mac 16) by done.
  pose proof (mod_extend mac 16 16 ltac:(done) ltac:(done)) as E1. change (Z.ones 16) with 0xffff in E1. rewrite E1.
  pose proof (mod_extend mac 32 16 ltac:(done) ltac:(done)) as E2. change (Z.ones 16) with 0xffff in E2.
  change (16 + 16) with 32. rewrite E2. by apply Z.mod_small.
Qed.
Lemma Mac2WList_u16 mac : Forall is_u16 (Mac2WList mac).
Proof. repeat constructor; apply u16_range. Qed.

Lemma hex_pair byte : 0 <= byte < 256 →
  String2Long16 (String (hex_code (Z.shiftr byte 4)) (String (hex_code byte) EmptyString)) = inl byte.
Proof.
  intros Hb. assert (H : below 256 (λ b, match String2Long16
    (String (hex_code (Z.shiftr b 4)) (String (hex_code b) EmptyString)) with inl v => v =? b | _ => false end) = true)
    by (by vm_compute).
  pose proof (below_spec 256 _ H byte Hb) as Hv. cbn beta in Hv. destruct (String2Long16 _) as [v|e]; [|done].
  by apply Z.eqb_eq in Hv as ->.
Qed.
(** One turn of the parser. *)
Lemma mac_parse_step n ib str mac : 0 <= mac →
  let byte := Z.land (Z.shiftr mac (8 * Z.of_nat ib)) 0xff in
  String.substring (3 * ib) 2 str = String (hex_code (Z.shiftr byte 4)) (String (hex_code byte) EmptyString) →
  ib = O ∨ char_at (3 * ib - 1) str = ":"%char →
  mac_parse (S n) ib str (mac mod 2 ^ (8 * Z.of_nat ib)) = mac_parse n (S ib) str (mac mod 2 ^ (8 * Z.of_nat (S ib))).
Proof.
  intros Hm byte Hs Hd. cbn [mac_parse]. rewrite Hs, hex_pair.
  2:{ unfold byte. pose proof (u8_range (Z.shiftr mac (8 * Z.of_nat ib))) as H. exact H. }
  assert (E : (0 <? ib)%nat && bool_decide (char_at (3 * ib - 1) str ≠ ":"%char ∧ char_at (3 * ib - 1) str ≠ "-"%char) = false).
  { destruct Hd as [->| ->]; [done|]. rewrite bool_decide_eq_false_2 by (by intros [? _]). by rewrite andb_false_r. }
  rewrite E. f_equal. unfold byte. rewrite <- Z.land_assoc, Z.land_diag.
  change 0xff with (Z.ones 8). rewrite mod_extend by lia. f_equal. f_equal. lia.
Qed.
Lemma Mac2String_pair mac ib : (ib < 6)%nat →
  let byte := Z.land (Z.shiftr mac (8 * Z.of_nat ib)) 0xff in
  String.substring (3 * ib) 2 (Mac2String mac) =
  String (hex_code (Z.shiftr byte 4)) (String (hex_code byte) EmptyString).
Proof.
  intros Hi byte. unfold byte, Mac2String. cbn [mac_text]. rewrite !Z.shiftr_shiftr by lia.
  do 6 (destruct ib as [|ib]; [reflexivity|]). lia.
Qed.
(** The text of a mac address is parsed back to it. *)
Theorem String2Mac_Mac2String mac : 0 <= mac < 2 ^ 48 → String2Mac (Mac2String mac) = inl mac.
Proof.
  intros Hm. unfold String2Mac. change (String.length (Mac2String mac) =? 17)%nat with true. cbn [negb].
  assert (H0 : mac_parse 6 0 (Mac2String mac) 0 = mac_parse 6 0 (Mac2String mac) (mac mod 2 ^ (8 * Z.of_nat 0))).
  { by rewrite Z.mod_1_r. }
  rewrite H0, !mac_parse_step; try (apply Mac2String_pair; lia); try lia; try (by right); try (by left).
  cbn [mac_parse]. f_equal. by apply Z.mod_small.
Qed.
Lemma String2Mac_Mac2String_witness : 0 <= 0x2b0008 < 2 ^ 48 ∧ String2Mac (Mac2String 0x2b0008) = inl 0x2b0008.
Proof. split; [by split|]. by apply String2Mac_Mac2String. Defined.

(** ** Bytes of a frame *)

Lemma mem_put_lookup ws : ∀ p m q,
  mem_put p ws m !! q = if (p <=? q) && (q <? p + Z.of_nat (length ws)) then ws !! Z.to_nat (q - p) else m !! q.
Proof.
  induction ws as [|w ws IH]; intros p m q; simpl mem_put.
  { destruct (Z.leb_spec p q), (Z.ltb_spec q (p + Z.of_nat (@length Z []))); simpl in *; try done; lia. }
  rewrite IH. change (length (w :: ws)) with (S (length ws)).
  destruct (Z.leb_spec (p + 1) q), (Z.ltb_spec q (p + 1 + Z.of_nat (length ws))),
    (Z.leb_spec p q), (Z.ltb_spec q (p + Z.of_nat (S (length ws)))); simpl; try lia.
  - replace (Z.to_nat (q - p)) with (S (Z.to_nat (q - (p + 1)))) by lia. done.
  - rewrite lookup_insert_ne by lia. done.
  - assert (q = p) as -> by lia. by rewrite lookup_insert_eq, Z.sub_diag.
  - rewrite lookup_insert_ne by lia. done.
Qed.
Lemma Buf16_put k ws i (b : RethBuf) m : Forall is_u16 ws →
  Buf16 (mem_put (rb_fBuf b + k) ws m) b i =
  if (k <=? i) && (i <? k + Z.of_nat (length ws)) then nth (Z.to_nat (i - k)) ws 0 else Buf16 m b i.
Proof.
  intros Hw. unfold Buf16. rewrite mem_put_lookup.
  assert (E : ((rb_fBuf b + k <=? rb_fBuf b + i) && (rb_fBuf b + i <? rb_fBuf b + k + Z.of_nat (length ws))) =
    ((k <=? i) && (i <? k + Z.of_nat (length ws)))).
  { apply eq_iff_eq_true. rewrite !andb_true_iff, !Z.leb_le, !Z.ltb_lt. lia. }
  rewrite E. destruct (Z.leb_spec k i), (Z.ltb_spec i (k + Z.of_nat (length ws))); cbn [andb]; try done.
  replace (rb_fBuf b + i - (rb_fBuf b + k)) with (i - k) by lia.
  destruct (lookup_lt_is_Some_2 ws (Z.to_nat (i - k))) as [w Hi]; [lia|].
  rewrite Hi. simpl. rewrite (nth_lookup_Some _ _ _ _ Hi). apply u16_id. by eapply Forall_lookup_1 in Hw.
Qed.
Lemma words_bytes_nth ws (j : nat) : (j < 2 * length ws)%nat →
  nth j (words_bytes ws) 0 = let w := nth (j / 2) ws 0 in if Nat.even j then lo8 w else hi8 w.
Proof.
  revert j. induction ws as [|w ws IH]; intros j Hj; simpl in Hj; [lia|].
  destruct j as [|[|j]]; [done|done|].
  change (words_bytes (w :: ws)) with (lo8 w :: hi8 w :: words_bytes ws). cbn [nth]. rewrite IH by lia.
  replace (S (S j) / 2)%nat with (S (j / 2)); [done|].
  replace (S (S j)) with (j + 1 * 2)%nat by lia. rewrite Nat.div_add by lia. lia.
Qed.
Lemma half_even j : 0 <= j → Z.even j = Nat.even (Z.to_nat j) ∧ Z.to_nat (j / 2) = (Z.to_nat j / 2)%nat.
Proof.
  intros Hj. rewrite <- (Z2Nat.id j) at 1 3 by done. generalize (Z.to_nat j). intros n. split.
  - apply eq_iff_eq_true. rewrite Z.even_spec, Nat.even_spec. split.
    + intros [x Hx]. exists (Z.to_nat x). lia.
    + intros [x ->]. exists (Z.of_nat x). lia.
  - change 2 with (Z.of_nat 2). by rewrite <- Nat2Z.inj_div, Nat2Z.id.
Qed.
Lemma GetB_put k ws j (b : RethBuf) m : Forall is_u16 ws → 0 <= k → 0 <= j →
  GetB j (mem_put (rb_fBuf b + k) ws m) b =
  if (2 * k <=? j) && (j <? 2 * k + 2 * Z.of_nat (length ws)) then nth (Z.to_nat (j - 2 * k)) (words_bytes ws) 0
  else GetB j m b.
Proof.
  intros Hw Hk Hj. unfold GetB. rewrite Buf16_put by done.
  assert (E : ((k <=? j / 2) && (j / 2 <? k + Z.of_nat (length ws))) =
    ((2 * k <=? j) && (j <? 2 * k + 2 * Z.of_nat (length ws)))).
  { apply eq_iff_eq_true. rewrite !andb_true_iff, !Z.leb_le, !Z.ltb_lt. Z.div_mod_to_equations. lia. }
  rewrite E. destruct (Z.leb_spec (2 * k) j), (Z.ltb_spec j (2 * k + 2 * Z.of_nat (length ws))); cbn [andb]; try done.
  rewrite words_bytes_nth by lia. cbv zeta.
  destruct (half_even (j - 2 * k) ltac:(lia)) as [H1 H2].
  rewrite <- H1, <- H2. replace (Z.even (j - 2 * k)) with (Z.even j).
  - do 3 f_equal. replace (j - 2 * k) with (j + (- k) * 2) by lia. rewrite Z.div_add by lia. f_equal; f_equal; lia.
  - rewrite Z.even_sub. replace (Z.even (2 * k)) with true by (symmetry; apply Z.even_spec; by exists k). by destruct (Z.even j).
Qed.
Lemma Buf16_insert k v i (b : RethBuf) m : is_u16 v →
  Buf16 (<[rb_fBuf b + k := v]> m) b i = if decide (i = k) then v else Buf16 m b i.
Proof.
  intros Hv. unfold Buf16. destruct (decide (i = k)) as [->|Hne].
  - rewrite lookup_insert_eq. simpl. by apply u16_id.
  - by rewrite lookup_insert_ne by lia.
Qed.
(** A byte stored. *)
Lemma GetB_store off x j (b : RethBuf) m : is_u8 x → 0 <= off → 0 <= j →
  let w := Buf16 m b (off / 2) in
  GetB j (<[rb_fBuf b + off / 2 := if Z.even off then word_of x (hi8 w) else word_of (lo8 w) x]> m) b =
  if decide (j = off) then x else GetB j m b.
Proof.
  intros Hx Ho Hj w. pose proof (lo8_range w) as Hl. pose proof (hi8_range w) as Hh.
  unfold GetB. rewrite Buf16_insert by (destruct (Z.even off); by apply word_of_range).
  destruct (decide (j = off)) as [->|Hne].
  - rewrite decide_True by done. destruct (Z.even off); [by rewrite lo8_word_of|by rewrite hi8_word_of].
  - destruct (decide (j / 2 = off / 2)) as [E|E]; [|done].
    assert (Hpar : Z.even j = negb (Z.even off)).
    { pose proof (Zmod_even j). pose proof (Zmod_even off).
      destruct (Z.even j), (Z.even off); try done; Z.div_mod_to_equations; lia. }
    rewrite Hpar, E. fold w. destruct (Z.even off); cbn [negb]; [by rewrite hi8_word_of|by rewrite lo8_word_of].
Qed.
Lemma GetB_put_bytes bs : ∀ off j (b : RethBuf) m, Forall is_u8 bs → 0 <= off → 0 <= j →
  GetB j (put_bytes off bs b m) b =
  if (off <=? j) && (j <? off + Z.of_nat (length bs)) then nth (Z.to_nat (j - off)) bs 0 else GetB j m b.
Proof.
  induction bs as [|x bs IH]; intros off j b m Hbs Ho Hj; cbn [put_bytes].
  { destruct (Z.leb_spec off j), (Z.ltb_spec j (off + Z.of_nat (@length Z []))); simpl in *; try done; lia. }
  apply Forall_cons_iff in Hbs as [Hx Hbs]. rewrite IH, GetB_store by (done || lia).
  change (length (x :: bs)) with (S (length bs)).
  destruct (decide (j = off)) as [->|Hne].
  - rewrite Z.sub_diag. destruct (Z.leb_spec (off + 1) off), (Z.leb_spec off off),
      (Z.ltb_spec off (off + Z.of_nat (S (length bs)))); simpl; try done; lia.
  - destruct (Z.leb_spec (off + 1) j), (Z.ltb_spec j (off + 1 + Z.of_nat (length bs))),
      (Z.leb_spec off j), (Z.ltb_spec j (off + Z.of_nat (S (length bs)))); simpl; try done; try lia.
    replace (Z.to_nat (j - off)) with (S (Z.to_nat (j - (off + 1)))) by lia. done.
Qed.
Lemma frame_bytes_eq n m b l : length l = Z.to_nat n → (∀ i, 0 <= i < n → GetB i m b = nth (Z.to_nat i) l 0) →
  frame_bytes n m b = l.
Proof.
  intros Hl H. unfold frame_bytes. apply (nth_ext _ _ (GetB (Z.of_nat (Z.to_nat n)) m b) 0).
  - by rewrite length_map, length_seq.
  - intros k Hk. rewrite length_map, length_seq in Hk.
    rewrite (map_nth (λ i, GetB (Z.of_nat i) m b) _ (Z.to_nat n)), seq_nth by done. simpl.
    rewrite H by lia. by rewrite Nat2Z.id.
Qed.
(** A text that is accepted is a number of 48 bits. *)
Lemma mac_parse_range n : ∀ ib str mac v, (n + ib = 6)%nat → 0 <= mac < 2 ^ (8 * Z.of_nat ib) →
  mac_parse n ib str mac = inl v → 0 <= v < 2 ^ 48.
Proof.
  induction n as [|n IH]; intros ib str mac v Hn Hm; cbn [mac_parse].
  { intros [= <-]. by replace ib with 6%nat in Hm by lia. }
  destruct (String2Long16 _) as [x|e]; [|done]. destruct (_ && _); [done|]. apply IH; [lia|].
  change 0xff with (Z.ones 8). rewrite Z.land_ones by done. pose proof (Z.mod_pos_bound x (2 ^ 8) ltac:(done)) as Hx.
  set (k := 8 * Z.of_nat ib) in *. replace (8 * Z.of_nat (S ib)) with (k + 8) by lia.
  assert (Hk : 0 <= k) by lia. rewrite Z.pow_add_r by lia.
  rewrite <- (Z.mod_small mac (2 ^ k)), <- Z.land_ones by lia.
  assert (E : Z.lor (Z.land mac (Z.ones k)) (Z.shiftl (x mod 2 ^ 8) k) = mac + x mod 2 ^ 8 * 2 ^ k).
  { rewrite Z.land_ones, (Z.mod_small mac) by done. rewrite Z.shiftl_mul_pow2 by done.
    pose proof (Z.add_lor_land mac (x mod 2 ^ 8 * 2 ^ k)) as Ha. assert (H0 : Z.land mac (x mod 2 ^ 8 * 2 ^ k) = 0); [|lia].
    rewrite <- (Z.mod_small mac (2 ^ k)), <- Z.land_ones, <- Z.land_assoc by done.
    rewrite (Z.land_comm (Z.ones k)), Z.land_ones, Z.mod_mul by lia. apply Z.land_0_r. }
  rewrite E. nia.
Qed.
Lemma String2Mac_range str v : String2Mac_throw str = Ret v → 0 <= v < 2 ^ 48.
Proof.
  unfold String2Mac_throw, String2Mac. destruct (negb _); [done|].
  destruct (mac_parse 6 0 str 0) as [x|e] eqn:E; [|done]. intros [= <-]. by eapply (mac_parse_range 6 0).
Qed.
