(* ===== verification/Deuna.v ===== *)
(** * librw11/Rw11CntlDEUNA, Rw11UnitDEUNA: the ethernet controller

    The program in the PDP-11 gives port commands by a register, and a port
    control block in memory for the functions of the device; frames are exchanged
    by two rings of descriptors in memory, whose entries the host owns or the
    device.  The controller reads the descriptors with each attention and works
    on the rings by two actions of the server, one frame per turn.

    The arrays of the class that command lists refer to, and those of local
    variables, are in the memory of the caller, from [self] on ([oPcb] to
    [oNew]).  [Rw11Sys] has a place for the units and the transfer of a disk
    controller, which this one does not use: its unit is [de_virt].  [a_tx] and
    [a_rx] are the actions bound to the ring handlers.  The random generator is
    a sequence of numbers, the clocks are fields.  Poll handlers, locks, the log
    and the trace are not modelled. *)

From Stdlib Require Import QArith.QArith.
From S2P Require Import Prelude.
From S2P Require Import Rstats.
From S2P Require Import Rtime.
From S2P Require Import Command.
From S2P Require Import CommandList.
From S2P Require Import Connect.
From S2P Require Import Link.
From S2P Require Import Server.
From S2P Require Import FileFd.
From S2P Require Import VirtDisk.
From S2P Require Import UnitDisk.
From S2P Require Import Cpu.
From S2P Require Import Rdma.
From S2P Require Import Cntl.
From S2P Require Import Reth.

Open Scope Z_scope.

(** ** Constants *)

Definition kPR0 : Z := 0x0.
Definition kPR1 : Z := 0x2.
Definition kPR2 : Z := 0x4.
Definition kPR3 : Z := 0x6.
Definition kProbeOff : Z := kPR0.
Definition kProbeInt : bool := true.
Definition kProbeRem : bool := true.

Definition kPR0_M_PCEI : Z := 0x4000.
Definition kPR0_M_RXI : Z := 0x2000.
Definition kPR0_M_TXI : Z := 0x1000.
Definition kPR0_M_DNI : Z := 0x800.
Definition kPR0_M_RSET : Z := 0x20.
Definition kPR0_M_BRST : Z := 0x10.
Definition kPR0_M_PCMD : Z := 0xf.
Definition kPR0_V_PCMDBP : Z := 12.
Definition kPR0_B_PCMDBP : Z := 0xf.
Definition kPR0_M_PDMDWB : Z := 0x400.
Definition kPR0_M_PCWWB : Z := 0x100.
Definition kPCMD_NOOP : Z := 0.
Definition kPCMD_GETPCBB : Z := 1.
Definition kPCMD_GETCMD : Z := 2.
Definition kPCMD_SELFTST : Z := 3.
Definition kPCMD_START : Z := 4.
Definition kPCMD_BOOT : Z := 5.
Definition kPCMD_PDMD : Z := 8.
Definition kPCMD_HALT : Z := 14.
Definition kPCMD_STOP : Z := 15.
Definition kPR1_M_XPWR : Z := 0x8000.
Definition kPR1_M_ICAB : Z := 0x4000.
Definition kPR1_M_PCTO : Z := 0x80.
Definition kPR1_M_DELUA : Z := 0x10.
Definition kSTATE_RESET : Z := 0.
Definition kSTATE_READY : Z := 2.
Definition kSTATE_RUN : Z := 3.
Definition kSTATE_PHALT : Z := 8.
Definition kPC0_M_FUNC : Z := 0xff.
Definition kPC0_M_MBZ : Z := 0xff00.
Definition kFUNC_NOOP : Z := 0.
Definition kFUNC_RDPA : Z := 2.
Definition kFUNC_RPA : Z := 4.
Definition kFUNC_WPA : Z := 5.
Definition kFUNC_RMAL : Z := 6.
Definition kFUNC_WMAL : Z := 7.
Definition kFUNC_RRF : Z := 8.
Definition kFUNC_WRF : Z := 9.
Definition kFUNC_RCTR : Z := 10.
Definition kFUNC_RCCTR : Z := 11.
Definition kFUNC_RMODE : Z := 12.
Definition kFUNC_WMODE : Z := 13.
Definition kFUNC_RSTAT : Z := 14.
Definition kFUNC_RCSTAT : Z := 15.
Definition kFUNC_RSID : Z := 18.
Definition kFUNC_WSID : Z := 19.
Definition kSTAT_M_RRNG : Z := 0x200.
Definition kSTAT_M_TRNG : Z := 0x100.
Definition kMODE_M_PROM : Z := 0x8000.
Definition kMODE_M_TPAD : Z := 0x1000.
Definition kMODE_M_MBZ_DEUNA : Z := 0x05f2.
Definition kMODE_M_MBZ_DELUA : Z := 0x05b2.
Definition kTXR2_M_OWN : Z := 0x8000.
Definition kTXR2_M_MTCH : Z := 0x2000.
Definition kTXR2_M_STF : Z := 0x200.
Definition kTXR2_M_ENF : Z := 0x100.
Definition kTXR2_M_SEGB : Z := 0x3.
Definition kTXR3_M_BUFL : Z := 0x8000.
Definition kRXR2_M_OWN : Z := 0x8000.
Definition kRXR2_M_STF : Z := 0x200.
Definition kRXR2_M_ENF : Z := 0x100.
Definition kRXR2_M_SEGB : Z := 0x3.
Definition kRXR3_M_BUFL : Z := 0x8000.
Definition kUBA_M : Z := 0x3fffe.
Definition kDimMcast : Z := 10.
Definition kDimCtrDeuna : Z := 32.
Definition kDimCtrDelua : Z := 34.
Definition kDimCtr : Z := 34.
Definition kDimPlt : Z := 100.

Definition kStatNPcmdNoop : nat := 2.
Definition kStatNPcmdGetpcbb : nat := 3.
Definition kStatNPcmdGetcmd : nat := 4.
Definition kStatNPcmdSelftst : nat := 5.
Definition kStatNPcmdStart : nat := 6.
Definition kStatNPcmdPdmd : nat := 7.
Definition kStatNPcmdStop : nat := 8.
Definition kStatNPcmdHalt : nat := 9.
Definition kStatNPcmdRsrvd : nat := 10.
Definition kStatNPcmdUimpl : nat := 11.
Definition kStatNPcmdWBPdmd : nat := 12.
Definition kStatNPcmdWBOther : nat := 13.
Definition kStatNPdmdRestart : nat := 14.
Definition kStatNFuncNoop : nat := 15.
Definition kStatNFuncRdpa : nat := 16.
Definition kStatNFuncRpa : nat := 17.
Definition kStatNFuncWpa : nat := 18.
Definition kStatNFuncRmal : nat := 19.
Definition kStatNFuncWmal : nat := 20.
Definition kStatNFuncRrf : nat := 21.
Definition kStatNFuncWrf : nat := 22.
Definition kStatNFuncRctr : nat := 23.
Definition kStatNFuncRcctr : nat := 24.
Definition kStatNFuncRmode : nat := 25.
Definition kStatNFuncWmode : nat := 26.
Definition kStatNFuncRstat : nat := 27.
Definition kStatNFuncRcstat : nat := 28.
Definition kStatNFuncRsid : nat := 29.
Definition kStatNFuncWsid : nat := 30.
Definition kStatNFuncUimpl : nat := 31.
Definition kStatNRxFraSeen : nat := 32.
Definition kStatNRxFraFDst : nat := 33.
Definition kStatNRxFraFBcast : nat := 34.
Definition kStatNRxFraFMcast : nat := 35.
Definition kStatNRxFraFProm : nat := 36.
Definition kStatNRxFraFUDrop : nat := 37.
Definition kStatNRxFraFMDrop : nat := 38.
Definition kStatNRxFraQLDrop : nat := 39.
Definition kStatNRxFraNRDrop : nat := 40.
Definition kStatNRxFraETDrop : nat := 41.
Definition kStatNRxFraLoss : nat := 42.
Definition kStatNRxFra : nat := 43.
Definition kStatNRxFraMcast : nat := 44.
Definition kStatNRxFraBcast : nat := 45.
Definition kStatNRxByt : nat := 46.
Definition kStatNRxBytMcast : nat := 47.
Definition kStatNRxFraPad : nat := 50.
Definition kStatNTxFra : nat := 51.
Definition kStatNTxFraMcast : nat := 52.
Definition kStatNTxFraBcast : nat := 53.
Definition kStatNTxByt : nat := 54.
Definition kStatNTxBytMcast : nat := 55.
Definition kStatNTxFraPad : nat := 57.
Definition kStatNTxFraLoss : nat := 58.

Definition deuna_stat_table : list (string * string) :=
  ([("NPcmdNoop", "pcmd NOOP (spurious)"); ("NPcmdGetpcbb", "pcmd GETPCBB"); ("NPcmdGetcmd", "pcmd GETCMD");
   ("NPcmdSelftst", "pcmd SELFTST"); ("NPcmdStart", "pcmd START"); ("NPcmdPdmd", "pcmd PDMD");
   ("NPcmdStop", "pcmd STOP"); ("NPcmdHalt", "pcmd HALT"); ("NPcmdRsrvd", "pcmd reserved");
   ("NPcmdUimpl", "pcmd not implemented"); ("NPcmdWBPdmd", "pcmd write w/ busy: pdmd");
   ("NPcmdWBOther", "pcmd write w/ busy: other"); ("NPdmdRestart", "pcmd pdmd restart");
   ("NFuncNoop", "func NOOP"); ("NFuncRdpa", "func RDPA"); ("NFuncRpa", "func PRA"); ("NFuncWpa", "func WPA");
   ("NFuncRmal", "func RMAL"); ("NFuncWmal", "func WMAL"); ("NFuncRrf", "func RRF"); ("NFuncWrf", "func WRF");
   ("NFuncRctr", "func RCTR"); ("NFuncRcctr", "func RCCTR"); ("NFuncRmode", "func RMODE");
   ("NFuncWmode", "func WMODE"); ("NFuncRstat", "func RSTAT"); ("NFuncRcstat", "func RCSTAT");
   ("NFuncRsid", "func RSID"); ("NFuncWsid", "func WSID"); ("NFuncUimpl", "func not implemented");
   ("NRxFraSeen", "in frames seen"); ("NRxFraFDst", "in frames match dst mac");
   ("NRxFraFBcast", "in frames match bcast"); ("NRxFraFMcast", "in frames match mcast");
   ("NRxFraFProm", "in frames promiscous"); ("NRxFraFUDrop", "in frames drop miss mac");
   ("NRxFraFMDrop", "in frames drop miss mcast"); ("NRxFraQLDrop", "in frames drop queue lim");
   ("NRxFraNRDrop", "in frames drop not running"); ("NRxFraETDrop", "in frames drop etf miss");
   ("NRxFraLoss", "in frames loss"); ("NRxFra", "rcvd frames"); ("NRxFraMcast", "rcvd bcast+mcast frames");
   ("NRxFraBcast", "rcvd bcast frames"); ("NRxByt", "rcvd bytes"); ("NRxBytMcast", "rcvd mcast bytes");
   ("NRxFraLoInt", "lost frames int err "); ("NRxFraLoBuf", "lost frames buffer");
   ("NRxFraPad", "rcvd padded frames"); ("NTxFra", "xmit frames"); ("NTxFraMcast", "xmit bcast+mcast frames");
   ("NTxFraBcast", "xmit bcast frames"); ("NTxByt", "xmit bytes"); ("NTxBytMcast", "xmit mcast bytes");
   ("NTxFraAbort", "xmit aborted frames"); ("NTxFraPad", "xmit padded frames");
   ("NTxFraLoss", "xmit frames loss"); ("NFraLoop", "loopback frames")])%string.

(** ** Data *)

Inductive s_tx := kStateTxIdle | kStateTxBusy.
Inductive s_rx := kStateRxIdle | kStateRxBusy | kStateRxPoll.
#[export] Instance s_tx_eq : EqDecision s_tx.
Proof. solve_decision. Defined.
#[export] Instance s_rx_eq : EqDecision s_rx.
Proof. solve_decision. Defined.

(** Indices in the primary list. *)
Record PrimPC := mkPrimPC {
  fPC_rdpr0 : nat;
  fPC_rdpcb : nat;
  fPC_lapcb : nat;
  fPC_rdtxdsccur : nat;
  fPC_latxdsccur : nat;
  fPC_rdtxdscnxt : nat;
  fPC_latxdscnxt : nat;
  fPC_rdrxdsccur : nat;
  fPC_larxdsccur : nat;
  fPC_rdrxdscnxt : nat }.
#[export] Instance eta_PrimPC : Eta PrimPC := λ p,
  mkPrimPC (fPC_rdpr0 p) (fPC_rdpcb p) (fPC_lapcb p) (fPC_rdtxdsccur p) (fPC_latxdsccur p) (fPC_rdtxdscnxt p)
    (fPC_latxdscnxt p) (fPC_rdrxdsccur p) (fPC_larxdsccur p) (fPC_rdrxdscnxt p).
Definition no_pc : PrimPC := mkPrimPC 0 0 0 0 0 0 0 0 0 0.
(** Format of a ring ([f.xRingBase], [f.xRingSize], [f.xRingELen]) and its index. *)
Record Ring := mkRing { rg_base : Z; rg_size : Z; rg_elen : Z; rg_index : Z }.
#[export] Instance eta_Ring : Eta Ring := λ r, mkRing (rg_base r) (rg_size r) (rg_elen r) (rg_index r).
(** The counters of the device. *)
Record Ctr := mkCtr {
  fCtrTimeCleared : Rtime;
  fCtrRxFra : Z;
  fCtrRxFraMcast : Z;
  fCtrRxByt : Z;
  fCtrRxBytMcast : Z;
  fCtrRxFraLoInt : Z;
  fCtrRxFraLoBuf : Z;
  fCtrTxFra : Z;
  fCtrTxFraMcast : Z;
  fCtrTxByt : Z;
  fCtrTxBytMcast : Z;
  fCtrTxFraAbort : Z;
  fCtrFraLoop : Z }.
#[export] Instance eta_Ctr : Eta Ctr := λ c,
  mkCtr (fCtrTimeCleared c) (fCtrRxFra c) (fCtrRxFraMcast c) (fCtrRxByt c) (fCtrRxBytMcast c) (fCtrRxFraLoInt c)
    (fCtrRxFraLoBuf c) (fCtrTxFra c) (fCtrTxFraMcast c) (fCtrTxByt c) (fCtrTxBytMcast c) (fCtrTxFraAbort c)
    (fCtrFraLoop c).
(** [RtimerFd]: open, and the interval it is set to. *)
Record Timer := mkTimer { tm_open : bool; tm_set : option Rtime }.
#[export] Instance eta_Timer : Eta Timer := λ t, mkTimer (tm_open t) (tm_set t).

(** A [float]; comparisons with a NaN are false. *)
Inductive Float := FNan | FInf (neg : bool) | FFin (q : Q).
Definition Qlt_bool (x y : Q) : bool := negb (Qle_bool y x).
Definition Flt_bool (x y : Float) : bool :=
  match x, y with
  | FFin a, FFin b => Qlt_bool a b
  | FInf s, FInf t => s && negb t
  | FInf s, FFin _ => s
  | FFin _, FInf t => negb t
  | _, _ => false
  end.

Record DEUNA (E : Type) := mkDEUNA {
  de_cntl : Cntl;
  de_virt : option E;               (** what is attached to the unit *)
  de_pc : PrimPC;
  fPcbbValid : bool;
  fPcbb : Z;
  fRingValid : bool;
  fTxRing : Ring;
  fRxRing : Ring;
  fMacDefault : Z;
  fMacList : list Z;                (** physical, broadcast, multicast *)
  fMcastCnt : Z;
  fEtfEnable : bool;
  fEtfTrace : bool;
  fTxLoss : Float;
  fRxLoss : Float;
  fPr0Last : Z;
  fPr1Pcto : bool;
  fPr1Delua : bool;
  fPr1State : Z;
  fRunning : bool;
  fMode : Z;
  fStatus : Z;
  fTxRingState : s_tx;
  fTxBuf : RethBuf;
  fTxBufOffset : Z;
  fRxRingState : s_rx;
  fRxPollTime : Rtime;
  fRxQueLimit : Z;
  fRxPollTimer : Timer;
  fRxBufQueue : list RethBuf;
  fRxBufCurr : option RethBuf;
  fRxBufOffset : Z;
  de_ctr : Ctr;
  fRan : nat → Q;                   (** what the generator delivers *)
  fRanPos : nat;
  de_mono : Rtime;                  (** the monotonic clock *)
  de_real : Rtime }.                (** the clock *)
Arguments mkDEUNA {E}.
Arguments de_cntl {E} _. Arguments de_virt {E} _. Arguments de_pc {E} _. Arguments fPcbbValid {E} _.
Arguments fPcbb {E} _. Arguments fRingValid {E} _. Arguments fTxRing {E} _. Arguments fRxRing {E} _.
Arguments fMacDefault {E} _. Arguments fMacList {E} _. Arguments fMcastCnt {E} _. Arguments fEtfEnable {E} _.
Arguments fEtfTrace {E} _. Arguments fTxLoss {E} _. Arguments fRxLoss {E} _. Arguments fPr0Last {E} _.
Arguments fPr1Pcto {E} _. Arguments fPr1Delua {E} _. Arguments fPr1State {E} _. Arguments fRunning {E} _.
Arguments fMode {E} _. Arguments fStatus {E} _. Arguments fTxRingState {E} _. Arguments fTxBuf {E} _.
Arguments fTxBufOffset {E} _. Arguments fRxRingState {E} _. Arguments fRxPollTime {E} _.
Arguments fRxQueLimit {E} _. Arguments fRxPollTimer {E} _. Arguments fRxBufQueue {E} _.
Arguments fRxBufCurr {E} _. Arguments fRxBufOffset {E} _. Arguments de_ctr {E} _. Arguments fRan {E} _ _.
Arguments fRanPos {E} _. Arguments de_mono {E} _. Arguments de_real {E} _.
#[export] Instance eta_DEUNA {E} : Eta (DEUNA E) := λ d,
  mkDEUNA (de_cntl d) (de_virt d) (de_pc d) (fPcbbValid d) (fPcbb d) (fRingValid d) (fTxRing d) (fRxRing d)
    (fMacDefault d) (fMacList d) (fMcastCnt d) (fEtfEnable d) (fEtfTrace d) (fTxLoss d) (fRxLoss d) (fPr0Last d)
    (fPr1Pcto d) (fPr1Delua d) (fPr1State d) (fRunning d) (fMode d) (fStatus d) (fTxRingState d) (fTxBuf d)
    (fTxBufOffset d) (fRxRingState d) (fRxPollTime d) (fRxQueLimit d) (fRxPollTimer d) (fRxBufQueue d)
    (fRxBufCurr d) (fRxBufOffset d) (de_ctr d) (fRan d) (fRanPos d) (de_mono d) (de_real d).

(** Offsets of the arrays. *)
Definition oPcb : Z := 0.
Definition oTxDscCurPC : Z := 4.
Definition oTxDscNxtPC : Z := 8.
Definition oRxDscCurPC : Z := 12.
Definition oRxDscNxtPC : Z := 16.
Definition oTxDscCur : Z := 20.
Definition oTxDscNxt : Z := 24.
Definition oRxDscCur : Z := 28.
Definition oRxDscNxt : Z := 32.
Definition oTxBuf : Z := 36.         (** 759 words *)
Definition oUdb : Z := 800.          (** local: 100 words *)
Definition oCurNew : Z := 900.       (** local *)
Definition oNxtNew : Z := 904.       (** local *)

(** ** Helpers *)

Definition Wlist2UBAddrLen (w0 w1 : Z) : Z * Z :=
  (Z.lor w0 (Z.shiftl (Z.land w1 0xff) 16), Z.land (Z.shiftr w1 8) 0xff).
Definition UBAddrLen2Wlist (addr len : Z) : list Z :=
  [u16 addr; u16 (Z.lor (Z.shiftr addr 16) (Z.shiftl (Z.land len 0xff) 8))].
Definition RingIndexNext (index size inc : Z) : Z :=
  let next := u16 (index + inc) in if size <=? next then u16 (next - size) else next.
Definition RingNext (inc : Z) (r : Ring) : Z := RingIndexNext (rg_index r) (rg_size r) inc.
Definition RingDscAddr (index : Z) (r : Ring) : Z := u32 (rg_base r + 2 * rg_elen r * index).
(** A saturating counter of 32 bits. *)
Definition add_sat (inc stat : Z) : Z :=
  let s := u32 (stat + inc) in if s <? inc then 0xffffffff else s.
(** The 16 bit variant, which the code has and does not use. *)
Definition UpdateStat16 (inc stat : Z) : Z :=
  let s := u32 (stat + inc) in if (s <? inc) || (0xffff <? s) then 0xffff else s.
Definition no_ring : Ring := mkRing 0 0 0 0.

Definition MacFilter {E} (mac : Z) (d : DEUNA E) : Z :=
  match list_find (eq mac) (take (Z.to_nat (2 + fMcastCnt d)) (fMacList d)) with
  | Some (i, _) => Z.of_nat i
  | None => -1
  end.
Definition GetPr1 {E} (d : DEUNA E) : Z :=
  let pr1 := if fPr1Pcto d then Z.lor (fPr1State d) kPR1_M_PCTO else fPr1State d in
  if fPr1Delua d then Z.lor pr1 kPR1_M_DELUA
  else match de_virt d with None => Z.lor pr1 (Z.lor kPR1_M_XPWR kPR1_M_ICAB) | Some _ => pr1 end.
Definition ClearMacList {E} (d : DEUNA E) : DEUNA E :=
  d <| fMacList := [fMacDefault d; 0xffffffffffff] ++ replicate 10 0 |> <| fMcastCnt := 0 |>.
Definition ClearCtr {E} (d : DEUNA E) : DEUNA E :=
  d <| de_ctr := mkCtr (de_mono d) 0 0 0 0 0 0 0 0 0 0 0 0 |>.
Definition ClearStatus {E} (d : DEUNA E) : DEUNA E := d <| fStatus := 0 |>.
Definition kMacDEC : Z := 0x2b0008.      (** 08:00:2b:00:00:00 *)
(** [self]: where the arrays are; [ran]: the generator; [mono], [real]: the
    clocks. *)
Definition DEUNA_ctor {E} (self : Z) (ran : nat → Q) (mono real : Rtime) : DEUNA E :=
  ClearCtr (ClearMacList
    (mkDEUNA (Cntl_ctor "deuna" deuna_stat_table) None no_pc false 0 false no_ring no_ring kMacDEC [] 0 false false
       (FFin 0%Q) (FFin 0%Q) 0 false false kSTATE_RESET false 0 0 kStateTxIdle (RethBuf_ctor (self + oTxBuf)) 0 kStateRxIdle
       (mkRtime 0 10000000) 64 (mkTimer false None) [] None 0
       (mkCtr Rtime_ctor 0 0 0 0 0 0 0 0 0 0 0 0) ran 0 mono real)).

(** ** Operations *)

Section DEUNA.
Context {S V H A E : Type} `{!RlinkExec S, !VirtEth E}.
Notation Sys := (Rw11Sys S V H A (DEUNA E)).
Notation Cpu := (Rw11Cpu S).
Context (self : Z) (a_tx a_rx : A).

Definition dstat (ind : nat) : M Sys () := cstat de_cntl ind.
Definition dstat_by (ind : nat) (val : Z) : M Sys () :=
  client (λ d, d <| de_cntl ::= λ c, c <| cn_fStats ::= inc ind val |> |>).
Definition de_reg (d : DEUNA E) (off : Z) : Z := u16 (cn_fBase (de_cntl d) + off).
Definition mem_of (t : Sys) : Mem := srv_mem (sy_link t).
Definition mem_upd (f : Mem → Mem) : M Sys () := modify (update sy_link (λ s, srv_set_mem (f (srv_mem s)) s)).
(** An array of the class. *)
Definition array (off : Z) (n : Z) : M Sys (list Z) := mem_read (self + off) n.
Definition set_array (off : Z) (ws : list Z) : M Sys () := mem_write (self + off) ws.
(** [AddRMem] and [AddWMem] with an array. *)
Definition rmem (addr off size : Z) : Cpu → M RlinkCommandList nat :=
  AddRMem addr (self + off) size kCPAH_M_UBM22 true.
Definition wmem (addr off size : Z) : Cpu → M RlinkCommandList nat :=
  AddWMem addr (self + off) size kCPAH_M_UBM22 true.
Definition UpdateStat32 (f : Ctr → Z) `{!Setter f} (ind : nat) (inc : Z) : M Sys () :=
  dstat_by ind inc ;; client (λ d, d <| de_ctr ::= λ c, c <| f ::= add_sat inc |> |>).
Definition rand : M Sys Q := λ t,
  (Ret (fRan (sy_client t) (fRanPos (sy_client t))), t <| sy_client ::= λ d, d <| fRanPos ::= Datatypes.S |> |>).

(** *** Configuration *)

Definition Config (name : string) (base lam : Z) : M Sys () :=
  client (λ d, d <| de_cntl ::= ConfigCntl name base lam kProbeOff kProbeInt kProbeRem |>).
Definition UnitSetup (ind : nat) : M Sys () := λ t,
  zoom sy_cpu (ExecWibr (de_reg (sy_client t) kPR1) (GetPr1 (sy_client t)) 0 0 0 0) t.
Definition HasVirt (d : DEUNA E) : bool := bool_decide (is_Some (de_virt d)).
Definition SetType (type : string) : M Sys () :=
  d ← get_client id;
  throw_if (negb (fPr1State d =? kSTATE_READY) || HasVirt d)
    "Rw11CntlDEUNA::SetType" "Bad state: not in READY state or attached" ;;
  let set delua :=
    client (λ d, d <| fPr1Delua := delua |> <| de_cntl ::= λ c, c <| cn_fType := type |> |>) ;; UnitSetup 0 in
  if bool_decide (type = "deuna"%string) then set false
  else if bool_decide (type = "delua"%string) then set true
  else throw (Rexception "Rw11CntlDEUNA::SetType" "Bad args: only deuna or delua supported").
(** [rnd]: eight bytes of [/dev/urandom], or the exception for a failed read. *)
Definition SetMacDefault (mac : string) (rnd : outcome Z) : M Sys () :=
  let rest n := String.substring n (String.length mac - n) mac in
  bmac ← (λ t, ((if bool_decide (mac = "random"%string) then
      match rnd with
      | Ret bmac => Ret (Z.lor (Z.ldiff bmac 0x1) 0x2)
      | o => o
      end
    else String2Mac_throw
      (if bool_decide (String.substring 0 4 mac = "dec:"%string) then ("08:00:0b:" ++ rest 4%nat)%string
       else if bool_decide (String.substring 0 6 mac = "retro:"%string) then ("52:65:74:72:6f:" ++ rest 6%nat)%string
       else mac)), t));
  throw_if (negb (Z.land bmac 0x1 =? 0)) "Rw11CntlDEUNA::SetMacDefault" "Bad args: mcast address given, lsb not 0" ;;
  client (λ d,
    (if (fPr1State d =? kSTATE_READY) && negb (HasVirt d) && (nth 0 (fMacList d) 0 =? fMacDefault d)
     then d <| fMacList ::= <[0%nat := bmac]> |> else d) <| fMacDefault := bmac |>).
Definition MacDefault (t : Sys) : string := Mac2String (fMacDefault (sy_client t)).
Definition SetRxPollTime (time : Rtime) : M Sys () :=
  throw_if (negb (IsPositive time)) "Rw11CntlDEUNA::SetRxPollTime" "Bad args: time <= 0" ;;
  client (λ d, d <| fRxPollTime := time |>).
Definition SetRxQueLimit (rxqlim : Z) : M Sys () :=
  throw_if (rxqlim <=? 0) "Rw11CntlDEUNA::SetRxQueLimit" "Bad args: rxqlim <= 0" ;;
  client (λ d, d <| fRxQueLimit := rxqlim |>).
Definition bad_loss (x : Float) : bool := Flt_bool x (FFin 0) || Flt_bool (FFin (9 # 10)) x.
Definition SetTxLoss (txloss : Float) : M Sys () :=
  throw_if (bad_loss txloss) "Rw11CntlDEUNA::SetTxLoss" "Bad args: not in [0.0,0.9]" ;;
  client (λ d, d <| fTxLoss := txloss |>).
Definition SetRxLoss (rxloss : Float) : M Sys () :=
  throw_if (bad_loss rxloss) "Rw11CntlDEUNA::SetRxLoss" "Bad args: not in [0.0,0.9]" ;;
  client (λ d, d <| fRxLoss := rxloss |>).
Definition SetEtfEnable (etfena : bool) : M Sys () := client (λ d, d <| fEtfEnable := etfena |>).
Definition SetEtfTrace (etftra : bool) : M Sys () := client (λ d, d <| fEtfTrace := etftra |>).

(** *** The primary list *)

(** The attention, the command register, the port control block, and when
    running two descriptors of each ring; their addresses are set before each
    use. *)
Definition prim_clist (d : DEUNA E) (c : Cpu) : M RlinkCommandList PrimPC :=
  AddAttn ;;
  pr0 ← AddRibr (de_reg d kPR0) c;
  let pc := no_pc <| fPC_rdpr0 := pr0 |> in
  if negb (fPcbbValid d) then mret pc
  else
    rdpcb ← rmem (fPcbb d) oPcb 4 c;
    lapcb ← AddLabo;
    let pc := pc <| fPC_rdpcb := rdpcb |> <| fPC_lapcb := lapcb |> in
    if negb (fRunning d) then mret pc
    else
      rdtc ← rmem kUBA_M oTxDscCurPC 3 c;
      latc ← AddLabo;
      rdtn ← rmem kUBA_M oTxDscNxtPC 3 c;
      latn ← AddLabo;
      rdrc ← rmem kUBA_M oRxDscCurPC 3 c;
      larc ← AddLabo;
      rdrn ← rmem kUBA_M oRxDscCurPC 3 c;
      mret (pc <| fPC_rdtxdsccur := rdtc |> <| fPC_latxdsccur := latc |> <| fPC_rdtxdscnxt := rdtn |>
               <| fPC_latxdscnxt := latn |> <| fPC_rdrxdsccur := rdrc |> <| fPC_larxdsccur := larc |>
               <| fPC_rdrxdscnxt := rdrn |>).
Definition SetupPrimClist : M Sys () := λ t,
  ('(pc, l) ← new_clist (prim_clist (sy_client t) (sy_cpu t));
   client (λ d, d <| de_cntl ::= λ c, c <| cn_fPrimClist := l |> |> <| de_pc := pc |>)) t.
(** [cpu.ModLalh(fPrimClist, ind, addr, kCPAH_M_UBM22)]. *)
Definition mod_lalh (ind : nat) (addr : Z) : M Sys () := λ t,
  let '(o, l) := ModLalh ind addr kCPAH_M_UBM22 (sy_cpu t) (cn_fPrimClist (cntl_of de_cntl t)) in
  (o, t <| sy_client ::= λ d, d <| de_cntl ::= λ c, c <| cn_fPrimClist := l |> |> |>).

(** [h]: the attention handler; [cdata]: the controller. *)
Definition Start (h : H) (cdata : Z) : M Sys () := λ t,
  if bad_start de_cntl t
  then (Exc (Rexception "Rw11CntlDEUNA::Start" "Bad state: started, no lam, not enabled, not found"), t)
  else
    (map_regs de_cntl [(".pr0", kPR0); (".pr1", kPR1); (".pr2", kPR2); (".pr3", kPR3)]%string ;;
     SetupPrimClist ;;
     client (λ d, d <| fPr1State := kSTATE_READY |>) ;;
     UnitSetupAll UnitSetup 0 1 ;;
     zoom sy_srv (AddAttnHandler h (u16 (Z.shiftl 1 (cn_fLam (de_cntl (sy_client t))))) cdata) ;;
     modify (λ t, t <| sy_started := true |>)) t.

(** *** The poll timer *)

Definition timer (f : Timer → Timer) : M Sys () := client (λ d, d <| fRxPollTimer ::= f |>).
Definition timer_open (meth : string) : M Sys () :=
  tm ← get_client fRxPollTimer;
  throw_if (negb (tm_open tm)) ("Rw11CntlDEUNA::fRxPollTimer." ++ meth)%string "bad state: not open".
Definition TimerCancel : M Sys () := timer_open "Cancel()" ;; timer (λ tm, tm <| tm_set := None |>).
Definition TimerSetRelative (dt : Rtime) : M Sys () :=
  timer_open "SetRelative()" ;;
  throw_if (negb (IsPositive dt)) "Rw11CntlDEUNA::fRxPollTimer.SetRelative()" "bad value: dt zero or negative " ;;
  timer (λ tm, tm <| tm_set := Some dt |>).

(** *** The rings *)

Definition SetRingDsc (dst src : Z) : M Sys () := ws ← array src 4; set_array dst ws.
Definition own (dsc2 : Z) : bool := negb (Z.land dsc2 kTXR2_M_OWN =? 0).
(** The overload with descriptors. *)
Definition StartTxRing_dsc (cur nxt : Z) : M Sys () :=
  st ← get_client fTxRingState;
  if bool_decide (st ≠ kStateTxIdle) then mret ()
  else
    SetRingDsc oTxDscCur cur ;; SetRingDsc oTxDscNxt nxt ;;
    pc ← array oTxDscCurPC 3;
    if own (nth 2 pc 0) then
      client (λ d, d <| fTxRingState := kStateTxBusy |>) ;; zoom sy_srv (QueueAction a_tx)
    else mret ().
Definition StartRxRing_dsc (cur nxt : Z) : M Sys () :=
  st ← get_client fRxRingState;
  if bool_decide (st ≠ kStateRxIdle) then mret ()
  else
    SetRingDsc oRxDscCur cur ;; SetRingDsc oRxDscNxt nxt ;;
    dsc ← array oRxDscCur 3;
    queue ← get_client fRxBufQueue;
    if bool_decide (queue ≠ []) && own (nth 2 dsc 0) then
      client (λ d, d <| fRxRingState := kStateRxBusy |>) ;; zoom sy_srv (QueueAction a_rx)
    else mret ().
(** The two descriptors at the index of a ring. *)
Definition read_dsc (ring : Ring) : M Sys () :=
  '(_, l) ← add_cmds (rmem (RingDscAddr (rg_index ring) ring) oCurNew 3) RlinkCommandList_ctor;
  '(_, l) ← add_cmds (rmem (RingDscAddr (RingNext 1 ring) ring) oNxtNew 3) l;
  exec_list l ;; mret ().
Definition StartTxRing : M Sys () :=
  ring ← get_client fTxRing; read_dsc ring ;; StartTxRing_dsc oCurNew oNxtNew.
Definition StartRxRing : M Sys () :=
  ring ← get_client fRxRing; read_dsc ring ;; StartRxRing_dsc oCurNew oNxtNew.
Definition StopTxRing : M Sys () := client (λ d, d <| fTxRingState := kStateTxIdle |>).
Definition StopRxRing : M Sys () :=
  st ← get_client fRxRingState;
  (if bool_decide (st = kStateRxPoll) then TimerCancel else mret ()) ;;
  client (λ d, d <| fRxRingState := kStateRxIdle |>).

(** *** States of the device *)

Definition Reset : M Sys () :=
  client (λ d, d <| fRunning := false |>) ;;
  StopTxRing ;; StopRxRing ;;
  client (λ d, d <| fPcbbValid := false |> <| fPcbb := 0 |> <| fRingValid := false |> <| fTxRing := no_ring |>
                 <| fRxRing := no_ring |> <| fMacList ::= <[0%nat := fMacDefault d]> |> <| fMcastCnt := 0 |>
                 <| fPr1Pcto := false |> <| fPr1State := kSTATE_READY |>) ;;
  SetupPrimClist ;;
  client ClearStatus ;; client ClearCtr.
Definition SetRunning (run : bool) : M Sys () :=
  running ← get_client fRunning;
  if bool_decide (running = run) then mret ()
  else
    (if run then
       timer (λ tm, tm <| tm_open := true |>) ;;
       client (λ d, d <| fRunning := true |> <| fPr1State := kSTATE_RUN |>
                      <| fTxRing ::= λ r, r <| rg_index := 0 |> |> <| fTxBufOffset := 0 |>
                      <| fRxRing ::= λ r, r <| rg_index := 0 |> |> <| fRxBufOffset := 0 |>) ;;
       StartTxRing ;; StartRxRing
     else
       client (λ d, d <| fRunning := false |>) ;;
       StopTxRing ;; StopRxRing ;;
       client (λ d, d <| fPr1State := kSTATE_READY |>)) ;;
    SetupPrimClist.

(** *** Functions of the port control block *)

(** A list with one block of [udb], executed. *)
Definition exec_udb (m : Cpu → M RlinkCommandList nat) : M Sys () :=
  '(_, l) ← add_cmds m RlinkCommandList_ctor; exec_list l ;; mret ().
Definition write_udb (addr : Z) (ws : list Z) (n : Z) : M Sys () :=
  set_array oUdb ws ;; exec_udb (wmem addr oUdb n).
(** Words 1 up of the port control block, behind its base. *)
Definition write_pcb (ws : list Z) (l : RlinkCommandList) : M Sys (bool * RlinkCommandList) :=
  set_array (oPcb + 1) ws ;;
  pcbb ← get_client fPcbb;
  '(_, l) ← add_cmds (wmem (u32 (pcbb + 2)) (oPcb + 1) (Z.of_nat (length ws))) l;
  mret (true, l).
Definition words3 (ws : list Z) (i : nat) : list Z := take 3 (drop (3 * i) ws).
(** The addresses of a multicast list; [None]: one is not a multicast address.
    Those in front of it are stored. *)
Fixpoint store_macs (macs : list Z) (i : nat) : M Sys bool :=
  match macs with
  | [] => mret true
  | mac :: macs =>
      if Z.land mac 0x1 =? 0 then mret false
      else client (λ d, d <| fMacList ::= <[(2 + i)%nat := mac]> |>) ;; store_macs macs (Datatypes.S i)
  end.
(** The multicast addresses replaced by [n] at [addr]. *)
Definition set_mcasts (addr n : Z) : M Sys bool :=
  client (λ d, d <| fMcastCnt := 0 |> <| fMacList ::= λ l, take 2 l ++ replicate 10 0 |>) ;;
  if n =? 0 then mret true
  else
    exec_udb (rmem addr oUdb (3 * n)) ;;
    udb ← array oUdb (3 * n);
    ok ← store_macs (map (λ i, WList2Mac (words3 udb i)) (seq 0 (Z.to_nat n))) 0;
    (if (ok : bool) then client (λ d, d <| fMcastCnt := n |>) else mret ()) ;; mret ok.
Definition ctr_words (d : DEUNA E) (ctrlen : Z) : list Z :=
  let c := de_ctr d in
  let dt := op_minus (de_mono d) (fCtrTimeCleared c) in
  let two x := [Z.land x 0xffff; u16 (Z.shiftr x 16)] in
  [ctrlen; if tv_sec dt <? 0xffff then u16 (tv_sec dt) else 0xffff] ++
  two (fCtrRxFra c) ++ two (fCtrRxFraMcast c) ++ [0; 0] ++
  two (fCtrRxByt c) ++ two (fCtrRxBytMcast c) ++ [u16 (fCtrRxFraLoInt c); u16 (fCtrRxFraLoBuf c)] ++
  two (fCtrTxFra c) ++ two (fCtrTxFraMcast c) ++ replicate 6 0 ++
  two (fCtrTxByt c) ++ two (fCtrTxBytMcast c) ++ [0; u16 (fCtrTxFraAbort c)] ++ replicate 4 0.
Definition sid_words (mac : Z) : list Z :=
  replicate 11 0 ++ [0x260; 28; 7; 0; 1; 0x0303; 0; 2; 0x0502; 0x0700] ++ Mac2WList mac ++
  [0x64; 11 * 256 + 1] ++ replicate 74 0.

Definition ExecGetcmd (l : RlinkCommandList) : M Sys (bool * RlinkCommandList) :=
  d ← get_client id;
  if (fPC_rdpcb (de_pc d) =? 0)%nat then client (λ d, d <| fPr1Pcto := true |>) ;; mret (false, l)
  else
    pcb ← array oPcb 4;
    let w i := nth i pcb 0 in
    let func := Z.land (w 0%nat) kPC0_M_FUNC in
    let result b : M Sys (bool * RlinkCommandList) := mret (b, l) in
    if negb (Z.land (w 0%nat) kPC0_M_MBZ =? 0) then result false
    else
      let '(udbb, pr2len) := Wlist2UBAddrLen (w 1%nat) (w 2%nat) in
      let udbb_ok := Z.ldiff udbb kUBA_M =? 0 in
      if func =? kFUNC_NOOP then dstat kStatNFuncNoop ;; result true
      else if func =? kFUNC_RDPA then dstat kStatNFuncRdpa ;; write_pcb (Mac2WList (fMacDefault d)) l
      else if func =? kFUNC_RPA then dstat kStatNFuncRpa ;; write_pcb (Mac2WList (nth 0 (fMacList d) 0)) l
      else if func =? kFUNC_WPA then
        dstat kStatNFuncWpa ;;
        let mac := WList2Mac (drop 1 pcb) in
        if negb (Z.land mac 0x1 =? 0) then result false
        else client (λ d, d <| fMacList ::= <[0%nat := mac]> |>) ;; result true
      else if func =? kFUNC_RMAL then
        dstat kStatNFuncRmal ;;
        if negb udbb_ok || (kDimMcast <? pr2len) then result false
        else if pr2len =? 0 then result true
        else
          write_udb udbb (concat (map Mac2WList (take (Z.to_nat pr2len) (drop 2 (fMacList d))))) (3 * pr2len) ;;
          result true
      else if func =? kFUNC_WMAL then
        dstat kStatNFuncWmal ;;
        if negb udbb_ok || (kDimMcast <? pr2len) then result false
        else
          ok ← set_mcasts udbb pr2len; result ok
      else if func =? kFUNC_RRF then
        dstat kStatNFuncRrf ;;
        if negb udbb_ok then result false
        else
          let fmt r := UBAddrLen2Wlist (rg_base r) (rg_elen r) ++ [rg_size r] in
          write_udb udbb (fmt (fTxRing d) ++ fmt (fRxRing d)) 6 ;; result true
      else if func =? kFUNC_WRF then
        dstat kStatNFuncWrf ;;
        if negb udbb_ok then result false
        else
          exec_udb (rmem udbb oUdb 6) ;;
          udb ← array oUdb 6;
          let u i := nth i udb 0 in
          let '(txbase, txelen) := Wlist2UBAddrLen (u 0%nat) (u 1%nat) in
          let '(rxbase, rxelen) := Wlist2UBAddrLen (u 3%nat) (u 4%nat) in
          if negb (Z.ldiff txbase kUBA_M =? 0) || (u 2%nat <=? 1) ||
             negb (Z.ldiff rxbase kUBA_M =? 0) || (u 5%nat <=? 1) then result false
          else
            client (λ d, d <| fRingValid := true |>
              <| fTxRing ::= λ r, mkRing txbase (u 2%nat) txelen (rg_index r) |>
              <| fRxRing ::= λ r, mkRing rxbase (u 5%nat) rxelen (rg_index r) |>) ;;
            result true
      else if (func =? kFUNC_RCTR) || (func =? kFUNC_RCCTR) then
        dstat (if func =? kFUNC_RCCTR then kStatNFuncRcctr else kStatNFuncRctr) ;;
        if negb udbb_ok || negb (pr2len =? 0) then result false
        else
          let ctrlen := w 3%nat in
          if negb (Z.land ctrlen 0x1 =? 0) then result false
          else if ctrlen =? 0 then result true
          else
            let ctrmax := if fPr1Delua d then kDimCtrDelua else kDimCtrDeuna in
            let ctrlen := if ctrmax <? ctrlen then ctrmax else ctrlen in
            write_udb udbb (ctr_words d ctrlen) ctrlen ;;
            (if func =? kFUNC_RCCTR then client ClearCtr else mret ()) ;;
            result true
      else if func =? kFUNC_RMODE then dstat kStatNFuncRmode ;; write_pcb [fMode d] l
      else if func =? kFUNC_WMODE then
        dstat kStatNFuncWmode ;;
        if negb (Z.land (w 1%nat) (if fPr1Delua d then kMODE_M_MBZ_DELUA else kMODE_M_MBZ_DEUNA) =? 0)
        then result false
        else client (λ d, d <| fMode := w 1%nat |>) ;; result true
      else if (func =? kFUNC_RSTAT) || (func =? kFUNC_RCSTAT) then
        dstat (if func =? kFUNC_RCSTAT then kStatNFuncRcstat else kStatNFuncRstat) ;;
        r ← write_pcb [fStatus d; Bytes2Word kDimMcast (u16 (fMcastCnt d));
                       if fPr1Delua d then kDimCtrDelua else kDimCtrDeuna] l;
        (if func =? kFUNC_RCSTAT then client ClearStatus else mret ()) ;;
        mret r
      else if func =? kFUNC_RSID then
        dstat kStatNFuncRsid ;;
        if negb udbb_ok || negb (pr2len =? 0) then result false
        else
          let pltlen := w 3%nat in
          if negb (Z.land pltlen 0x1 =? 0) then result false
          else if pltlen =? 0 then result true
          else if kDimPlt <? pltlen then result false
          else write_udb udbb (sid_words (nth 0 (fMacList d) 0)) pltlen ;; result true
      else if func =? kFUNC_WSID then dstat kStatNFuncWsid ;; result false
      else dstat kStatNFuncUimpl ;; result false.

(** *** The ring handlers *)

(** Counters of a frame, transmitted or received. *)
Definition count_frame (fra mfra byt mbyt : Ctr → Z) `{!Setter fra, !Setter mfra, !Setter byt, !Setter mbyt}
    (sfra smfra sbyt smbyt sbcast : nat) (b : RethBuf) : M Sys () :=
  m ← gets mem_of;
  UpdateStat32 fra sfra 1 ;;
  UpdateStat32 byt sbyt (rb_fSize b) ;;
  if IsMcast m b then
    UpdateStat32 mfra smfra 1 ;;
    UpdateStat32 mbyt smbyt (rb_fSize b) ;;
    if IsBcast m b then dstat sbcast else mret ()
  else mret ().
(** The buffer address of a descriptor. *)
Definition seg_base (w1 w2 : Z) : Z := Z.lor w1 (Z.shiftl (Z.land w2 0xff) 16).
(** The status words of the descriptor at [off] are written behind [l]; the next
    two are read, and the host is told. *)
Definition dsc_done (off : Z) (ring : Ring) (d : DEUNA E) (pr0out : Z) (l : RlinkCommandList) : M Sys RlinkCommandList :=
  '(_, l) ← add_cmds (wmem (u32 (RingDscAddr (rg_index ring) ring + 4)) (off + 2) 2) l;
  '(_, l) ← add_cmds (λ _, AddLabo) l;
  '(_, l) ← add_cmds (rmem (RingDscAddr (RingNext 1 ring) ring) oCurNew 3) l;
  '(_, l) ← add_cmds (λ _, AddLabo) l;
  '(_, l) ← add_cmds (rmem (RingDscAddr (RingNext 2 ring) ring) oNxtNew 3) l;
  '(_, l) ← add_cmds (λ _, AddLabo) l;
  '(_, l) ← add_cmds (AddWibr (de_reg d kPR0) pr0out) l;
  mret l.
(** Bits set in a word of the memory. *)
Definition set_bits (off bits : Z) : M Sys () := ws ← array off 1; set_array off (map (Z.lor bits) ws).

(** The frame in [fTxBuf] is made ready. *)
Definition tx_final (d : DEUNA E) : M Sys () :=
  b ← get_client fTxBuf;
  mem_upd (SetMacSource (nth 0 (fMacList d) 0) b) ;;
  if rb_fSize b <? kMinSize then
    mem_upd (pad_frame b) ;;
    client (λ d, d <| fTxBuf ::= SetSize kMinSize |>) ;;
    dstat kStatNTxFraPad ;;
    if Z.land (fMode d) kMODE_M_TPAD =? 0 then set_bits (oTxDscCur + 3) kTXR3_M_BUFL else mret ()
  else mret ().
Definition tx_send : M Sys () :=
  d ← get_client id;
  m ← gets mem_of;
  match de_virt d with
  | None => mret ()
  | Some v =>
      lost ← (if Flt_bool (FFin 0) (fTxLoss d) then ran ← rand; mret (Flt_bool (FFin ran) (fTxLoss d)) else mret false);
      if (lost : bool) then dstat kStatNTxFraLoss
      else client (λ d, d <| de_virt := Some (eth_Snd (frame_bytes (rb_fSize (fTxBuf d)) m (fTxBuf d)) v).2 |>)
  end.
(** A turn with the ring running. *)
Definition TxRingTurn (d : DEUNA E) : M Sys Z :=
  dsc ← array oTxDscCur 4;
  let w i := nth i dsc 0 in
  if negb (own (w 2%nat)) then mret 0
  else
    (if fTxBufOffset d =? 0
     then client (λ d, d <| fTxBuf ::= λ b, SetTime (de_real d) (b <| rb_fSize := 0 |>) |>) else mret ()) ;;
    let dsc2 := Z.land (w 2%nat) (Z.lor (Z.lor kTXR2_M_SEGB kTXR2_M_STF) kTXR2_M_ENF) in
    let slen := w 0%nat in
    let long := kMaxSize <? slen in
    let tsize := if long then kMaxSize else slen in
    set_array (oTxDscCur + 2) [dsc2; if long then kTXR3_M_BUFL else 0] ;;
    exec_udb (rmem (seg_base (w 1%nat) dsc2) oTxBuf ((tsize + 1) / 2)) ;;
    client (λ d, d <| fTxBuf ::= SetSize tsize |>) ;;
    l ← dsc_done oTxDscCur (fTxRing d) d kPR0_M_TXI RlinkCommandList_ctor;
    tx_final d ;;
    b ← get_client fTxBuf;
    m ← gets mem_of;
    (if 0 <? MacFilter (MacDestination m b) d then set_bits (oTxDscCur + 2) kTXR2_M_MTCH else mret ()) ;;
    count_frame fCtrTxFra fCtrTxFraMcast fCtrTxByt fCtrTxBytMcast
      kStatNTxFra kStatNTxFraMcast kStatNTxByt kStatNTxBytMcast kStatNTxFraBcast b ;;
    tx_send ;;
    exec_list l ;;
    client (λ d, d <| fTxRing ::= λ r, r <| rg_index := RingNext 1 r |> |>) ;;
    SetRingDsc oTxDscCur oCurNew ;; SetRingDsc oTxDscNxt oNxtNew ;;
    cur ← array oTxDscCur 3;
    if own (nth 2 cur 0) then client (λ d, d <| fTxRingState := kStateTxBusy |>) ;; mret 1
    else mret 0.

Definition TxRingHandler : M Sys Z :=
  client (λ d, d <| fTxRingState := kStateTxIdle |>) ;;
  d ← get_client id;
  if negb (fRunning d) then mret 0 else TxRingTurn d.

(** The frame to deliver; a new one is taken from the queue. *)
Definition rx_frame : M Sys (option RethBuf) :=
  d ← get_client id;
  if fRxBufOffset d =? 0 then
    match fRxBufQueue d with
    | [] => mret None
    | b :: q => client (λ d, d <| fRxBufCurr := Some b |> <| fRxBufQueue := q |>) ;; mret (Some b)
    end
  else match fRxBufCurr d with
       | Some b => mret (Some b)
       | None => throw (undefined "null pointer")
       end.
Definition rx_pad (b : RethBuf) : M Sys RethBuf :=
  if rb_fSize b <? kMinSize then
    mem_upd (pad_frame b) ;;
    let b := SetSize kMinSize b in
    client (λ d, d <| fRxBufCurr := Some b |>) ;; dstat kStatNRxFraPad ;; mret b
  else mret b.
Definition RxRingTurn (d : DEUNA E) : M Sys Z :=
  dsc ← array oRxDscCur 4;
  let w i := nth i dsc 0 in
  if negb (own (w 2%nat)) then mret 0
  else
    ob ← rx_frame;
    match ob with
    | None => mret 0
    | Some b =>
        b ← rx_pad b;
        let dsc2 := Z.land (w 2%nat) kRXR2_M_SEGB in
        let slen := w 0%nat in
        let long := slen <? rb_fSize b in
        let tsize := if long then slen else rb_fSize b in
        set_array (oRxDscCur + 2)
          [Z.lor dsc2 (Z.lor kRXR2_M_STF kRXR2_M_ENF);
           Z.lor (if long then kRXR3_M_BUFL else 0) (u16 (tsize + kCrcSize))] ;;
        '(_, l) ← add_cmds (AddWMem (seg_base (w 1%nat) dsc2) (rb_fBuf b) ((tsize + 1) / 2) kCPAH_M_UBM22 true)
                    RlinkCommandList_ctor;
        '(_, l) ← add_cmds (λ _, AddLabo) l;
        l ← dsc_done oRxDscCur (fRxRing d) d kPR0_M_RXI l;
        count_frame fCtrRxFra fCtrRxFraMcast fCtrRxByt fCtrRxBytMcast
          kStatNRxFra kStatNRxFraMcast kStatNRxByt kStatNRxBytMcast kStatNRxFraBcast b ;;
        exec_list l ;;
        client (λ d, d <| fRxRing ::= λ r, r <| rg_index := RingNext 1 r |> |>) ;;
        SetRingDsc oRxDscCur oCurNew ;; SetRingDsc oRxDscNxt oNxtNew ;;
        queue ← get_client fRxBufQueue;
        cur ← array oRxDscCur 3;
        if bool_decide (queue = []) then mret 0
        else if negb (own (nth 2 cur 0)) then
          client (λ d, d <| fRxRingState := kStateRxPoll |>) ;;
          time ← get_client fRxPollTime;
          TimerSetRelative time ;;
          mret 0
        else client (λ d, d <| fRxRingState := kStateRxBusy |>) ;; mret 1
    end.
Definition RxRingHandler : M Sys Z :=
  client (λ d, d <| fRxRingState := kStateRxIdle |>) ;;
  d ← get_client id;
  if negb (fRunning d) then mret 0 else RxRingTurn d.
(** [cnt]: expirations of the timer. *)
Definition RxPollHandler (revents events cnt : Z) : M Sys Z :=
  if negb (Z.ldiff revents events =? 0) then mret (-1)
  else
    timer_open "Read()" ;;
    d ← get_client id;
    if negb (fRunning d) || bool_decide (fRxRingState d ≠ kStateRxPoll) || (cnt =? 0) then mret 0
    else
      client (λ d, d <| fRxRingState := kStateRxIdle |>) ;;
      StartRxRing ;; mret 0.

(** A frame from the device. *)
Definition RcvCallback (pbuf : RethBuf) : M Sys bool :=
  dstat kStatNRxFraSeen ;;
  d ← get_client id;
  m ← gets mem_of;
  let etype := EType m pbuf in
  if negb (fRunning d) then dstat kStatNRxFraNRDrop ;; mret true
  else if fEtfEnable d && negb ((etype =? 0x0800) || (etype =? 0x0806)) then dstat kStatNRxFraETDrop ;; mret true
  else
    lost ← (if Flt_bool (FFin 0) (fRxLoss d) then ran ← rand; mret (Flt_bool (FFin ran) (fRxLoss d)) else mret false);
    if (lost : bool) then dstat kStatNRxFraLoss ;; mret true
    else
      let matchdst := MacFilter (MacDestination m pbuf) d in
      if (matchdst <? 0) && (Z.land (fMode d) kMODE_M_PROM =? 0) then
        dstat (if negb (Z.land matchdst 0x1 =? 0) then kStatNRxFraFMDrop else kStatNRxFraFUDrop) ;; mret true
      else
        dstat (if matchdst <? 0 then kStatNRxFraFProm else if matchdst =? 0 then kStatNRxFraFDst
               else if matchdst =? 1 then kStatNRxFraFBcast else kStatNRxFraFMcast) ;;
        if fRxQueLimit d <=? Z.of_nat (length (fRxBufQueue d)) then dstat kStatNRxFraQLDrop ;; mret true
        else
          client (λ d, d <| fRxBufQueue ::= λ q, q ++ [pbuf] |>) ;;
          (if bool_decide (fTxRingState d = kStateTxIdle) then StartRxRing else mret ()) ;;
          mret true.

(** *** The attention handler *)

(** Two registers, written behind [l]. *)
Definition answer_pr (pr0out : Z) (l : RlinkCommandList) : M Sys () :=
  d ← get_client id;
  '(_, l) ← add_cmds (AddWibr (de_reg d kPR1) (GetPr1 d)) l;
  '(_, l) ← add_cmds (AddWibr (de_reg d kPR0) pr0out) l;
  exec_list l ;; mret ().
Definition getpcbb : M Sys () :=
  d ← get_client id;
  '(ipr2, l) ← add_cmds (AddRibr (de_reg d kPR2)) RlinkCommandList_ctor;
  '(ipr3, l) ← add_cmds (AddRibr (de_reg d kPR3)) l;
  '(_, l) ← add_cmds (AddWibr (de_reg d kPR1) (GetPr1 d)) l;
  '(_, l) ← add_cmds (AddWibr (de_reg d kPR0) kPR0_M_DNI) l;
  l ← exec_list l;
  pr2 ← cmd_of ipr2 l;
  pr3 ← cmd_of ipr3 l;
  client (λ d, d <| fPcbb := Z.land (Z.lor (fData pr2) (u32 (Z.shiftl (fData pr3) 16))) kUBA_M |>
                 <| fPcbbValid := true |>) ;;
  SetupPrimClist.
(** The port commands: what is answered in [PR0], and the list in front of the
    answer; [None]: no answer here. *)
Definition port_command (pcmd : Z) : M Sys (option (Z * RlinkCommandList)) :=
  let answer pr0out : M Sys (option (Z * RlinkCommandList)) := mret (Some (pr0out, RlinkCommandList_ctor)) in
  d ← get_client id;
  if pcmd =? kPCMD_NOOP then dstat kStatNPcmdNoop ;; mret None
  else if pcmd =? kPCMD_GETPCBB then dstat kStatNPcmdGetpcbb ;; getpcbb ;; mret None
  else if pcmd =? kPCMD_GETCMD then
    dstat kStatNPcmdGetcmd ;;
    '(ok, l) ← ExecGetcmd RlinkCommandList_ctor;
    mret (Some (if ok : bool then kPR0_M_DNI else kPR0_M_PCEI, l))
  else if pcmd =? kPCMD_SELFTST then dstat kStatNPcmdSelftst ;; Reset ;; mret None
  else if pcmd =? kPCMD_START then
    dstat kStatNPcmdStart ;;
    if fPr1State d =? kSTATE_RUN then answer kPR0_M_DNI
    else if (fPr1State d =? kSTATE_READY) && fRingValid d then SetRunning true ;; answer kPR0_M_DNI
    else answer kPR0_M_PCEI
  else if pcmd =? kPCMD_BOOT then dstat kStatNPcmdUimpl ;; answer kPR0_M_PCEI
  else if pcmd =? kPCMD_PDMD then
    dstat kStatNPcmdPdmd ;;
    (if fRunning d then
       (if bool_decide (fRxRingState d = kStateRxPoll)
        then TimerCancel ;; client (λ d, d <| fRxRingState := kStateRxIdle |>) else mret ()) ;;
       StartTxRing_dsc oTxDscCurPC oTxDscNxtPC ;;
       StartRxRing_dsc oRxDscCurPC oRxDscNxtPC
     else mret ()) ;;
    answer kPR0_M_DNI
  else if pcmd =? kPCMD_HALT then
    (if fPr1Delua d then
       dstat kStatNPcmdHalt ;; SetRunning false ;; client (λ d, d <| fPr1State := kSTATE_PHALT |>)
     else dstat kStatNPcmdRsrvd) ;;
    answer kPR0_M_DNI
  else if pcmd =? kPCMD_STOP then
    dstat kStatNPcmdStop ;;
    (if fPr1State d =? kSTATE_RUN then SetRunning false else mret ()) ;;
    answer kPR0_M_PCEI
  else dstat kStatNPcmdRsrvd ;; answer kPR0_M_DNI.
(** The descriptors of the rings are read with the attention. *)
Definition set_dsc_addrs : M Sys () :=
  d ← get_client id;
  let pc := de_pc d in
  if (0 <? fPC_rdtxdsccur pc)%nat then
    mod_lalh (fPC_rdtxdsccur pc) (RingDscAddr (rg_index (fTxRing d)) (fTxRing d)) ;;
    mod_lalh (fPC_rdtxdscnxt pc) (RingDscAddr (RingNext 1 (fTxRing d)) (fTxRing d)) ;;
    mod_lalh (fPC_rdrxdsccur pc) (RingDscAddr (rg_index (fRxRing d)) (fRxRing d)) ;;
    mod_lalh (fPC_rdrxdscnxt pc) (RingDscAddr (RingNext 1 (fRxRing d)) (fRxRing d))
  else mret ().
Definition AttnHandler (args : AttnArgs) : M Sys AttnArgs :=
  dstat Cntl.kStatNAttnHdl ;;
  set_dsc_addrs ;;
  args ← harvest de_cntl args;
  pc ← get_client de_pc;
  pr0 ← prim_data de_cntl (fPC_rdpr0 pc);
  client (λ d, d <| fPr0Last := pr0 |>) ;;
  let bit b := negb (Z.land pr0 b =? 0) in
  let rset := bit kPR0_M_RSET in
  let brst := bit kPR0_M_BRST in
  let pcmd := Z.land (Z.shiftr pr0 kPR0_V_PCMDBP) kPR0_B_PCMDBP in
  (if bit kPR0_M_PCWWB
   then dstat (if Z.land pr0 kPR0_M_PCMD =? kPCMD_PDMD then kStatNPcmdWBPdmd else kStatNPcmdWBOther) else mret ()) ;;
  (if bit kPR0_M_PDMDWB then dstat kStatNPdmdRestart else mret ()) ;;
  client (λ d, d <| fPr1Pcto := false |>) ;;
  if rset || brst then
    Reset ;;
    answer_pr (Z.lor (if rset then Z.lor kPR0_M_RSET kPR0_M_DNI else 0) (if brst then kPR0_M_BRST else 0))
      RlinkCommandList_ctor ;;
    mret args
  else
    o ← port_command pcmd;
    match o with
    | None => mret args
    | Some (pr0out, l) => answer_pr pr0out l ;; mret args
    end.

(** *** Rw11UnitDEUNA *)

Definition AttachDone : M Sys () := UnitSetup 0.
Definition DetachDone : M Sys () := UnitSetup 0.
End DEUNA.
