(* ===== verification/DeunaInv.v ===== *)
(** * The invariant of the ethernet controller

    [deuna_wf] says what the fields of the controller hold at all times; every
    operation keeps it, whatever the link answers and however the operation
    ends ([keeps]); the states that calls and the environment reach from the
    constructor ([deuna_reach]) satisfy it. *)

From Stdlib Require Import QArith.QArith.
From S2P Require Import Prelude.
From S2P Require Import Rstats.
From S2P Require Import Rtime.
From S2P Require Import Command.
From S2P Require Import CommandList.
From S2P Require Import Connect.
From S2P Require Import Link.
From S2P Require Import LinkCore.
From S2P Require Import Server.
From S2P Require Import FileFd.
From S2P Require Import VirtDisk.
From S2P Require Import UnitDisk.
From S2P Require Import Cpu.
From S2P Require Import CpuMem.
From S2P Require Import Rdma.
From S2P Require Import RdmaSpec.
From S2P Require Import Cntl.
From S2P Require Import CntlSpec.
From S2P Require Import Reth.
From S2P Require Import Deuna.

Open Scope Z_scope.

Create HintDb calm.
Create HintDb keeps.

(** ** The invariant *)

Definition is_u64 (z : Z) : Prop := 0 <= z < 2 ^ 64.
(** A base is an even 18 bit address. *)
Definition is_uba (z : Z) : Prop := 0 <= z ∧ Z.ldiff z kUBA_M = 0.
Record ring_ok (r : Ring) : Prop := {
  ro_base : is_uba (rg_base r);
  ro_size : 1 < rg_size r < 2 ^ 16;
  ro_elen : is_u8 (rg_elen r) }.
Definition is_mcast (mac : Z) : Prop := Z.land mac 1 = 1.
Record ctr_ok (c : Ctr) : Prop := {
  co_1 : is_u32 (fCtrRxFra c);
  co_2 : is_u32 (fCtrRxFraMcast c);
  co_3 : is_u32 (fCtrRxByt c);
  co_4 : is_u32 (fCtrRxBytMcast c);
  co_5 : is_u32 (fCtrTxFra c);
  co_6 : is_u32 (fCtrTxFraMcast c);
  co_7 : is_u32 (fCtrTxByt c);
  co_8 : is_u32 (fCtrTxBytMcast c) }.
(** The physical address, the broadcast address and ten places for multicast
    addresses, of which [n] are in use. *)
Record macs_ok (l : list Z) (n : Z) : Prop := {
  mo_len : length l = 12%nat;
  mo_u64 : Forall is_u64 l;
  mo_phys : Z.land (nth 0 l 0) 1 = 0;
  mo_bcast : nth 1 l 0 = 0xffffffffffff;
  mo_cnt : 0 <= n <= kDimMcast;
  mo_mcast : Forall is_mcast (take (Z.to_nat n) (drop 2 l)) }.
Definition frame_ok (b : RethBuf) : Prop := 0 <= rb_fSize b <= kMaxSize.
(** A NaN passes the checks. *)
Definition loss_ok (x : Float) : Prop :=
  match x with FNan => True | FInf _ => False | FFin q => (0 <= q)%Q ∧ (q <= 9 # 10)%Q end.

Record deuna_wf {E} (d : DEUNA E) : Prop := {
  wf_state : fPr1State d ∈ [kSTATE_RESET; kSTATE_READY; kSTATE_RUN; kSTATE_PHALT];
  wf_run : fRunning d = true ↔ fPr1State d = kSTATE_RUN;
  wf_ring : fRunning d = true → fRingValid d = true;
  wf_format : fRingValid d = true → ring_ok (fTxRing d) ∧ ring_ok (fRxRing d);
  wf_index : is_u16 (rg_index (fTxRing d)) ∧ is_u16 (rg_index (fRxRing d));
  wf_open : fRunning d = true → tm_open (fRxPollTimer d) = true;
  wf_poll : fRxRingState d = kStateRxPoll → fRunning d = true;
  wf_timer : ∀ dt, tm_set (fRxPollTimer d) = Some dt → IsPositive dt = true;
  wf_dpa : is_u64 (fMacDefault d) ∧ Z.land (fMacDefault d) 1 = 0;
  wf_macs : macs_ok (fMacList d) (fMcastCnt d);
  wf_ctr : ctr_ok (de_ctr d);
  wf_pcbb : is_uba (fPcbb d);
  wf_mode : is_u16 (fMode d);
  wf_off : fTxBufOffset d = 0 ∧ fRxBufOffset d = 0;
  wf_frames : frame_ok (fTxBuf d) ∧ Forall frame_ok (fRxBufQueue d);
  wf_conf : IsPositive (fRxPollTime d) = true ∧ 0 < fRxQueLimit d ∧ loss_ok (fTxLoss d) ∧ loss_ok (fRxLoss d) }.

Lemma DEUNA_ctor_wf {E} self ran mono real : deuna_wf (DEUNA_ctor (E := E) self ran mono real).
Proof. split; simpl; try done; repeat constructor; done. Qed.

(** ** Address lists *)

Lemma lor_range n x y : 0 <= n → 0 <= x < 2 ^ n → 0 <= y < 2 ^ n → 0 <= Z.lor x y < 2 ^ n.
Proof.
  intros Hn Hx Hy. rewrite <- (Z.mod_small x (2 ^ n)), <- (Z.mod_small y (2 ^ n)) by done.
  rewrite <- !Z.land_ones, <- Z.land_lor_distr_l, Z.land_ones by done. apply Z.mod_pos_bound. lia.
Qed.

Lemma lsb_cases x : Z.land x 1 = 0 ∨ Z.land x 1 = 1.
Proof. pose proof (Z.land_ones x 1 ltac:(done)) as E. change (Z.ones 1) with 1 in E. rewrite E. pose proof (Z.mod_pos_bound x (2 ^ 1)). lia. Qed.
Lemma lsb_mcast x : (Z.land x 0x1 =? 0) = false → is_mcast x.
Proof. intros Hx%Z.eqb_neq. by destruct (lsb_cases x). Qed.
Lemma lsb_unicast x : negb (Z.land x 0x1 =? 0) = false → Z.land x 1 = 0.
Proof. by intros Hx%negb_false_iff%Z.eqb_eq. Qed.
Lemma macs_ok_phys l n mac : macs_ok l n → is_u64 mac → Z.land mac 1 = 0 → macs_ok (<[0%nat := mac]> l) n.
Proof.
  intros [Hl Hu Hp Hb Hc Hm] Hmac H1. destruct l as [|x l]; [done|]. split; simpl in *; try done.
  apply Forall_cons_iff in Hu as [_ Hu]. by constructor.
Qed.
Lemma macs_ok_store l n i mac : macs_ok l n → (i < 10)%nat → is_u64 mac → is_mcast mac →
  macs_ok (<[(2 + i)%nat := mac]> l) n.
Proof.
  intros [Hl Hu Hp Hb Hc Hm] Hi Hmac H1. destruct l as [|x [|y l]]; [done..|]. split; simpl in *; try done.
  - by rewrite length_insert.
  - apply Forall_cons_iff in Hu as [? Hu]. apply Forall_cons_iff in Hu as [? Hu].
    do 2 (constructor; [done|]). by apply Forall_insert.
  - rewrite drop_0 in *. destruct (decide (i < Z.to_nat n)%nat) as [Hn|Hn].
    + rewrite take_insert_lt by done. by apply Forall_insert.
    + by rewrite take_insert_ge by lia.
Qed.
Lemma macs_ok_next l i mac : macs_ok l (Z.of_nat i) → (i < 10)%nat → is_u64 mac → is_mcast mac →
  macs_ok (<[(2 + i)%nat := mac]> l) (Z.of_nat (S i)).
Proof.
  intros Hok Hi Hmac H1. pose proof (macs_ok_store _ _ _ _ Hok Hi Hmac H1) as [Hl Hu Hp Hb Hc Hm].
  split; [done..|unfold kDimMcast; lia|]. destruct l as [|x [|y l]]; [done..|]. simpl in Hl |- *.
  replace (Z.to_nat (Z.of_nat (S i))) with (S i) by lia. rewrite Nat2Z.id, drop_0 in *.
  rewrite (take_S_r _ _ mac) by (apply list_lookup_insert_eq; rewrite length_insert in Hl; lia).
  apply list.Forall_app. split; [done|]. by constructor.
Qed.
Lemma macs_ok_clear l n : macs_ok l n → macs_ok (take 2 l ++ replicate 10 0) 0.
Proof.
  intros [Hl Hu Hp Hb Hc Hm]. destruct l as [|x [|y l]]; [done..|]. split; simpl in *; try done.
  apply Forall_cons_iff in Hu as [? Hu]. apply Forall_cons_iff in Hu as [? Hu].
  do 2 (constructor; [done|]). repeat (constructor; [done|]). constructor.
Qed.
Lemma macs_ok_none l n : macs_ok l n → macs_ok l 0.
Proof. intros []. by split. Qed.

(** ** Programs that keep it *)

Section Deuna.
Context {S V H A E : Type} `{!RlinkExec S, !VirtEth E}.
Notation Sys := (Rw11Sys S V H A (DEUNA E)).
Notation Cpu := (Rw11Cpu S).
Context (self : Z) (a_tx a_rx : A).

Context (st run : bool).

(** Running only when started; [st]: whether it is; [run]: it is running. *)
Record inv (t : Sys) : Prop := {
  inv_wf : deuna_wf (sy_client t);
  inv_started : sy_started t = st ∧ (fRunning (sy_client t) = true → st = true);
  inv_run : run = true → fRunning (sy_client t) = true }.
(** From [P], [Q] holds of a value returned; the invariant of every other end. *)
Definition hoare {B} (P : Sys → Prop) (m : M Sys B) (Q : B → Sys → Prop) : Prop :=
  ∀ t, P t → match m t with (Ret b, t') => Q b t' | (_, t') => inv t' end.
Definition keeps {B} (m : M Sys B) : Prop := hoare inv m (λ _, inv).

Lemma hoare_bind {B C} P R Q (m : M Sys B) (k : B → M Sys C) :
  hoare P m R → (∀ b, hoare (R b) (k b) Q) → hoare P (m ≫= k) Q.
Proof.
  intros Hm Hk t Ht. specialize (Hm t Ht). unfold mbind, M_bind. destruct (m t) as [[b|e|] t']; [|done|done].
  by apply Hk.
Qed.
Lemma hoare_weaken {B} (P P' : Sys → Prop) (Q Q' : B → Sys → Prop) m :
  hoare P' m Q' → (∀ t, P t → P' t) → (∀ b t, Q' b t → Q b t) → hoare P m Q.
Proof. intros Hm HP HQ t Ht. specialize (Hm t (HP t Ht)). destruct (m t) as [[b|e|] t']; [by apply HQ|done|done]. Qed.
Lemma keeps_bind {B C} (m : M Sys B) (k : B → M Sys C) : keeps m → (∀ b, keeps (k b)) → keeps (m ≫= k).
Proof. apply hoare_bind. Qed.
Lemma hoare_get {B C} P (f : DEUNA E → B) (k : B → M Sys C) Q :
  (∀ d, hoare (λ t, P t ∧ sy_client t = d) (k (f d)) Q) → hoare P (get_client f ≫= k) Q.
Proof. intros Hk t Ht. by apply (Hk (sy_client t)). Qed.
Lemma keeps_ret {B} (b : B) : keeps (mret b).
Proof. by intros t Ht. Qed.
Lemma keeps_throw {B} e : keeps (throw e : M Sys B).
Proof. by intros t Ht. Qed.
Lemma keeps_throw_if b meth text : keeps (throw_if b meth text).
Proof. destruct b; by intros t Ht. Qed.
(** The value read is that of a controller in order. *)
Lemma keeps_get {B C} (f : DEUNA E → B) (k : B → M Sys C) :
  (∀ d, deuna_wf d → keeps (k (f d))) → keeps (get_client f ≫= k).
Proof. intros Hk t Ht. apply (Hk (sy_client t)); [by destruct Ht|done]. Qed.
Lemma keeps_array off n {C} (k : list Z → M Sys C) :
  (∀ ws, Forall is_u16 ws → length ws = Z.to_nat n → keeps (k ws)) → keeps (array self off n ≫= k).
Proof. intros Hk t Ht. apply Hk; [apply mem_get_u16|apply length_mem_get|done]. Qed.
Lemma keeps_client (f : DEUNA E → DEUNA E) :
  (∀ d, deuna_wf d → (run = true → fRunning d = true) → deuna_wf (f d)) →
  (∀ d, fRunning (f d) = fRunning d) → keeps (client f).
Proof. intros Hf Hr t [H1 H2 H3]. split; simpl; [by apply Hf|by rewrite Hr|by rewrite Hr]. Qed.

(** The rest of the controller is as it was. *)
Definition dev_eq (d d' : DEUNA E) : Prop := d' <| de_cntl := de_cntl d |> <| de_pc := de_pc d |> = d.
Lemma dev_eq_refl d : dev_eq d d.
Proof. by destruct d. Qed.
Lemma dev_eq_trans d1 d2 d3 : dev_eq d1 d2 → dev_eq d2 d3 → dev_eq d1 d3.
Proof. intros <- <-. reflexivity. Qed.
Lemma dev_eq_wf d d' : dev_eq d d' → deuna_wf d → deuna_wf d' ∧ fRunning d' = fRunning d.
Proof. intros <- []. by split. Qed.
Record calm {B} (m : M Sys B) : Prop := {
  cm_dev t : dev_eq (sy_client t) (sy_client (m t).2);
  cm_started t : sy_started (m t).2 = sy_started t }.
Lemma calm_keeps {B} (m : M Sys B) : calm m → keeps m.
Proof.
  intros [Hd Hs] t [Hw Hr Hi]. specialize (Hd t). specialize (Hs t). apply dev_eq_wf in Hd as [H1 H2]; [|done].
  assert (inv (m t).2) by (split; [done|by rewrite H2, Hs|by rewrite H2]). by destruct (m t) as [[b|e|] t'].
Qed.
Lemma calm_bind {B C} (m : M Sys B) (k : B → M Sys C) : calm m → (∀ b, calm (k b)) → calm (m ≫= k).
Proof.
  intros [Hd Hs] Hk. split; intros t; specialize (Hd t); specialize (Hs t); unfold mbind, M_bind;
    destruct (m t) as [[b|e|] t']; try done; destruct (Hk b) as [Hd' Hs'].
  - by eapply dev_eq_trans.
  - by rewrite Hs'.
Qed.
Lemma calm_ret {B} (b : B) : calm (mret b).
Proof. split; intros t; [apply dev_eq_refl|done]. Qed.
Lemma calm_throw {B} e : calm (throw e : M Sys B).
Proof. split; intros t; [apply dev_eq_refl|done]. Qed.
Lemma calm_gets {B} (f : Sys → B) : calm (gets f).
Proof. split; intros t; [apply dev_eq_refl|done]. Qed.
Lemma calm_client (f : DEUNA E → DEUNA E) : (∀ d, dev_eq d (f d)) → calm (client f).
Proof. intros Hf. split; intros t; [apply Hf|done]. Qed.
Lemma calm_cpu {B} (m : M Cpu B) : calm (zoom sy_cpu m : M Sys B).
Proof. split; intros t; unfold zoom; destruct (m (sy_cpu t)); [apply dev_eq_refl|done]. Qed.
Lemma calm_srv {B} (m : M (RlinkServer H A) B) : calm (zoom sy_srv m : M Sys B).
Proof. split; intros t; unfold zoom; destruct (m (sy_srv t)); [apply dev_eq_refl|done]. Qed.
Lemma calm_add {B} (m : Cpu → M RlinkCommandList B) l : calm (add_cmds m l : M Sys _).
Proof. split; intros t; unfold add_cmds; destruct (m (sy_cpu t) l) as [[b|e|] l']; try done; apply dev_eq_refl. Qed.
Lemma calm_mem f : calm (mem_upd f : M Sys _).
Proof. split; intros t; [apply dev_eq_refl|done]. Qed.
Lemma calm_set_array off ws : calm (set_array self off ws : M Sys _).
Proof. split; intros t; [apply dev_eq_refl|done]. Qed.
Lemma calm_cmd_of i l : calm (cmd_of i l : M Sys _).
Proof. split; intros t; [apply dev_eq_refl|done]. Qed.
Lemma calm_stat i : calm (dstat i : M Sys _).
Proof. apply calm_client. intros []; done. Qed.
Lemma calm_stat_by i n : calm (dstat_by i n : M Sys _).
Proof. apply calm_client. intros []; done. Qed.

(** A calm program, part by part. *)
Local Ltac calm := repeat first
  [ intros ? | progress cbv beta
  | apply calm_ret | apply calm_throw | apply calm_gets | apply calm_cpu | apply calm_srv | apply calm_add
  | apply calm_mem | apply calm_set_array | apply calm_cmd_of | apply calm_stat | apply calm_stat_by
  | apply calm_bind | match goal with |- calm (match ?x with _ => _ end) => destruct x end ].

Lemma calm_array off n : calm (array self off n : M Sys _).
Proof. apply calm_gets. Qed.
Lemma calm_exec l : calm (exec_list l : M Sys _).
Proof. apply calm_cpu. Qed.
Lemma calm_unit i : calm (UnitSetup i : M Sys _).
Proof. split; intros t; unfold UnitSetup; apply (calm_cpu _). Qed.
Lemma calm_set_dsc dst src : calm (SetRingDsc self dst src : M Sys _).
Proof. unfold SetRingDsc. calm; apply calm_array. Qed.
Lemma calm_prim : calm (SetupPrimClist self : M Sys _).
Proof.
  split; intros t; unfold SetupPrimClist, new_clist, mbind, M_bind;
    destruct (prim_clist _ _ _ _) as [[b|e|] l]; try done; simpl; by destruct (sy_client t).
Qed.
Lemma calm_lalh i a : calm (mod_lalh i a : M Sys _).
Proof. split; intros t; unfold mod_lalh; destruct (ModLalh _ _ _ _ _) as [o l]; [simpl; by destruct (sy_client t)|done]. Qed.
Lemma calm_set_addrs : calm (set_dsc_addrs : M Sys _).
Proof. unfold set_dsc_addrs, get_client. calm; apply calm_lalh. Qed.
Lemma calm_prim_data i : calm (prim_data de_cntl i : M Sys _).
Proof. split; intros t; unfold prim_data; destruct (at_ i _) as [b|e|]; try done; apply dev_eq_refl. Qed.
Lemma calm_link {B} (m : M S B) : calm (zoom sy_link m : M Sys B).
Proof. split; intros t; unfold zoom; destruct (m (sy_link t)); [apply dev_eq_refl|done]. Qed.
Lemma calm_attn args l : calm (GetAttnInfo sy_link args l : M Sys _).
Proof.
  assert (Ho : ∀ B (o : outcome B), calm (of_outcome o : M Sys B)) by (split; intros t; [apply dev_eq_refl|done]).
  unfold GetAttnInfo. destruct (at_ 0 l) as [c|e|]; [|apply (calm_throw e)|by split; intros t; [apply dev_eq_refl|]].
  destruct (negb _); [apply (calm_throw (Rexception _ _))|].
  apply (calm_bind _ _); [apply calm_link|intros cl]. apply calm_bind; [apply Ho|intros c0; apply calm_ret].
Qed.
Lemma calm_harvest args : calm (harvest de_cntl args : M Sys _).
Proof.
  assert (Hc : ∀ t0 : Sys, calm ('(args, l) ← GetAttnInfo sy_link args (cn_fPrimClist (cntl_of de_cntl t0));
    client (λ c, c <| de_cntl ::= λ c, c <| cn_fPrimClist := l |> |>) ;; mret args : M Sys _)).
  { intros t0. calm; [apply calm_attn|]. apply calm_client. by intros []. }
  split; intros t; apply (Hc t).
Qed.
Lemma calm_read_dsc ring : calm (read_dsc self ring : M Sys _).
Proof. unfold read_dsc. calm; apply calm_exec. Qed.
Lemma calm_exec_udb m : calm (exec_udb m : M Sys _).
Proof. unfold exec_udb. calm; apply calm_exec. Qed.
Lemma calm_write_udb addr ws n : calm (write_udb self addr ws n : M Sys _).
Proof. unfold write_udb. calm; apply calm_exec_udb. Qed.
Lemma calm_write_pcb ws l : calm (write_pcb self ws l : M Sys _).
Proof. unfold write_pcb, get_client. calm. Qed.
Lemma calm_dsc_done off ring d pr0out l : calm (dsc_done self off ring d pr0out l : M Sys _).
Proof. unfold dsc_done. calm. Qed.
Lemma calm_set_bits off bits : calm (set_bits self off bits : M Sys _).
Proof. unfold set_bits. calm; apply calm_array. Qed.
Lemma calm_answer pr0out l : calm (answer_pr pr0out l : M Sys _).
Proof. unfold answer_pr, get_client. calm; apply calm_exec. Qed.
Lemma calm_open meth : calm (timer_open meth : M Sys _).
Proof. unfold timer_open, get_client, throw_if. calm. Qed.

#[local] Hint Resolve calm_ret calm_throw calm_gets calm_cpu calm_srv calm_add calm_mem calm_set_array calm_cmd_of
  calm_stat calm_stat_by calm_array calm_exec calm_unit calm_set_dsc calm_prim calm_lalh calm_set_addrs
  calm_prim_data calm_harvest calm_read_dsc calm_exec_udb calm_write_udb calm_write_pcb calm_dsc_done
  calm_set_bits calm_answer calm_open : calm.
(** An update of the controller. *)
Local Ltac wf := let d0 := fresh "d" in intros d0 [] ?; split; simpl in *; try done.
(** A program that keeps the invariant, part by part. *)
Local Ltac keep := repeat first
  [ progress cbv beta | assumption
  | apply keeps_ret | apply keeps_throw | apply keeps_throw_if
  | solve [apply calm_keeps; auto with calm nocore] | solve [auto with keeps nocore]
  | apply keeps_get; intros ? ? | apply keeps_array; intros ? ? ?
  | apply keeps_bind; [|intros ?]
  | apply keeps_client; [|done]
  | match goal with |- keeps (match ?x with _ => _ end) => destruct x eqn:? end ].

Lemma keeps_timer f : (∀ tm, tm_open (f tm) = tm_open tm) →
  (∀ tm dt, (∀ dt, tm_set tm = Some dt → IsPositive dt = true) → tm_set (f tm) = Some dt → IsPositive dt = true) →
  keeps (timer f : M Sys _).
Proof. intros Ho Hs. unfold timer. keep. wf; [by rewrite Ho|]. intros dt. by apply Hs. Qed.
Lemma keeps_cancel : keeps (TimerCancel : M Sys _).
Proof. unfold TimerCancel. apply keeps_bind; [keep|intros _]. by apply keeps_timer. Qed.
#[local] Hint Resolve keeps_cancel : keeps.
Lemma keeps_relative dt : keeps (TimerSetRelative dt : M Sys _).
Proof.
  unfold TimerSetRelative, throw_if. apply keeps_bind; [keep|intros _].
  destruct (IsPositive dt) eqn:Hp; simpl; [|by intros t Ht]. apply keeps_bind; [keep|intros _]. apply keeps_timer; [done|]. simpl. by intros tm dt' _ [= <-].
Qed.
#[local] Hint Resolve keeps_relative : keeps.
Lemma keeps_start_tx_dsc cur nxt : keeps (StartTxRing_dsc self a_tx cur nxt : M Sys _).
Proof. unfold StartTxRing_dsc. keep. wf. Qed.
#[local] Hint Resolve keeps_start_tx_dsc : keeps.
Lemma keeps_start_rx_dsc cur nxt : keeps (StartRxRing_dsc self a_rx cur nxt : M Sys _).
Proof. unfold StartRxRing_dsc. keep. wf. Qed.
#[local] Hint Resolve keeps_start_rx_dsc : keeps.
Lemma keeps_start_tx : keeps (StartTxRing self a_tx : M Sys _).
Proof. unfold StartTxRing. keep. Qed.
#[local] Hint Resolve keeps_start_tx : keeps.
Lemma keeps_start_rx : keeps (StartRxRing self a_rx : M Sys _).
Proof. unfold StartRxRing. keep. Qed.
#[local] Hint Resolve keeps_start_rx : keeps.
Lemma keeps_stop_tx : keeps (StopTxRing : M Sys _).
Proof. unfold StopTxRing. keep. wf. Qed.
#[local] Hint Resolve keeps_stop_tx : keeps.
Lemma keeps_stop_rx : keeps (StopRxRing : M Sys _).
Proof. unfold StopRxRing. keep; wf. Qed.
#[local] Hint Resolve keeps_stop_rx : keeps.

(** *** States of the device *)

(** The rings are stopped in any case. *)
Lemma stopped (t : Sys) : inv t → ∃ d',
  (∀ B (k : M Sys B), (client (λ d, d <| fRunning := false |>) ;; StopTxRing ;; StopRxRing ;; k) t =
    k (t <| sy_client := d' |>)) ∧
  d' <| fRunning := fRunning (sy_client t) |> <| fTxRingState := fTxRingState (sy_client t) |>
     <| fRxRingState := fRxRingState (sy_client t) |> <| fRxPollTimer := fRxPollTimer (sy_client t) |> = sy_client t ∧
  fRunning d' = false ∧ fTxRingState d' = kStateTxIdle ∧ fRxRingState d' = kStateRxIdle ∧
  ∀ dt, tm_set (fRxPollTimer d') = Some dt → tm_set (fRxPollTimer (sy_client t)) = Some dt.
Proof.
  intros [Hw _ _]. destruct t as [srv cpu us sta rd dk d]. simpl in *. pose proof (wf_poll _ Hw) as Hp. pose proof (wf_open _ Hw) as Hto.
  destruct (decide (fRxRingState d = kStateRxPoll)) as [Hs|Hs].
  - pose proof (Hto (Hp Hs)) as Ho. eexists. split.
    { intros B k. unfold StopRxRing, TimerCancel, timer_open, StopTxRing, get_client, gets, client, modify, timer, throw_if.
      unfold mbind, M_bind, mret, M_ret. simpl. rewrite Hs. simpl. rewrite Ho. simpl. reflexivity. }
    split_and!; try done. by destruct d.
  - eexists. split.
    { intros B k. unfold StopRxRing, StopTxRing, get_client, gets, client, modify, mbind, M_bind, mret, M_ret. simpl.
      rewrite bool_decide_eq_false_2 by done. simpl. reflexivity. }
    split_and!; try done. by destruct d.
Qed.
Lemma keeps_reset : run = false → keeps (Reset self : M Sys _).
Proof.
  intros Hrun t Ht. destruct (stopped t Ht) as (d' & Hk & Hd & Hr & Htx & Hrx & Hts). unfold Reset. rewrite Hk.
  assert (Hrest : keeps (SetupPrimClist self ;; client ClearStatus ;; client ClearCtr : M Sys _)).
  { keep; wf. }
  apply Hrest. destruct Ht as [Hw [Hst _] _]. rewrite <- Hd in Hw. destruct Hw.
  split; [split|split|]; simpl in *; rewrite ?Hr, ?Hrx, ?Hrun; try done.
  - constructor. by left.
  - naive_solver.
  - apply macs_ok_phys; [by eapply macs_ok_none| |]; naive_solver.
Qed.
#[local] Hint Resolve keeps_reset : keeps.
Lemma stop_running : run = false → hoare inv (SetRunning self a_tx a_rx false : M Sys _)
  (λ _ t, inv t ∧ fRunning (sy_client t) = false).
Proof.
  intros Hrun t Ht. unfold SetRunning, get_client, gets. unfold mbind at 1, M_bind at 1.
  destruct (bool_decide _) eqn:Hb; [by apply bool_decide_eq_true in Hb|].
  destruct (stopped t Ht) as (d' & Hk & Hd & Hr & Htx & Hrx & Hts). cbn iota.
  unfold mbind at 1, M_bind at 1. rewrite Hk. cbn iota beta delta [client modify].
  set (t1 := update _ _ _). assert (Ht1 : inv t1 ∧ fRunning (sy_client t1) = false).
  { split; [|done]. destruct Ht as [Hw [Hst _] _]. rewrite <- Hd in Hw. destruct Hw.
    split; [split|split|]; simpl in *; rewrite ?Hr, ?Hrx, ?Hrun; try done; [by do 2 constructor|naive_solver]. }
  destruct Ht1 as [Ht1 Hr1]. pose proof (calm_keeps _ calm_prim _ Ht1) as Hi. destruct calm_prim as [Hc _].
  specialize (Hc t1). destruct (SetupPrimClist self t1) as [[[]|e|] t2]; [|done|done]. split; [done|].
  apply dev_eq_wf in Hc as [_ Hc]; [|by destruct Ht1]. simpl in Hc. by rewrite Hc.
Qed.
Lemma keeps_stop : run = false → keeps (SetRunning self a_tx a_rx false : M Sys _).
Proof. intros Hrun. eapply hoare_weaken; [by apply stop_running|done|]. by intros ? ? []. Qed.
#[local] Hint Resolve keeps_stop : keeps.
Definition ready (t : Sys) : Prop := inv t ∧ fRingValid (sy_client t) = true ∧ st = true.
Lemma ready_run : hoare (λ t, ready t ∧ tm_open (fRxPollTimer (sy_client t)) = true)
  (client (λ d, d <| fRunning := true |> <| fPr1State := kSTATE_RUN |>
    <| fTxRing ::= λ r, r <| rg_index := 0 |> |> <| fTxBufOffset := 0 |>
    <| fRxRing ::= λ r, r <| rg_index := 0 |> |> <| fRxBufOffset := 0 |>)) (λ _, inv).
Proof.
  intros t (([Hw [Hr _] _] & Hv & Hs) & Ho). destruct Hw. split; [split|split|]; simpl in *; try done.
  - by do 3 constructor.
  - intros _. destruct (wf_format0 Hv) as [[] []]. by split.
Qed.
Lemma start_running : hoare ready (SetRunning self a_tx a_rx true : M Sys _) (λ _, inv).
Proof.
  unfold SetRunning. apply hoare_get. intros d. destruct (bool_decide _); [by intros t [[]]|].
  apply (hoare_weaken _ ready _ (λ _, inv)); [|by intros t []|done].
  apply (hoare_bind _ (λ _, inv)); [|intros _; keep].
  apply (hoare_bind _ (λ _ t, ready t ∧ tm_open (fRxPollTimer (sy_client t)) = true)).
  { intros t ([Hw Hr] & Hv & Hs). split; [|done]. split; [|done]. split; [|done..]. destruct Hw. by split. }
  intros _. apply (hoare_bind _ (λ _, inv)); [apply ready_run|]. intros _. keep.
Qed.

(** *** Port commands *)

Lemma is_uba_land x : is_uba (Z.land x kUBA_M).
Proof.
  split; [apply Z.land_nonneg; by right|]. apply Z.bits_inj'. intros i _.
  rewrite Z.ldiff_spec, Z.land_spec, Z.bits_0. by destruct (Z.testbit x i), (Z.testbit kUBA_M i).
Qed.
Lemma keeps_getpcbb : keeps (getpcbb self : M Sys _).
Proof. unfold getpcbb. keep. wf. apply is_uba_land. Qed.
#[local] Hint Resolve keeps_getpcbb : keeps.

Lemma is_u64_mac ws : Forall is_u16 ws → is_u64 (WList2Mac ws).
Proof.
  intros Hw. assert (Hn : ∀ i, is_u16 (nth i ws 0)).
  { intros i. destruct (nth_in_or_default i ws 0) as [Hi| ->]; [|done]. by eapply Forall_forall in Hw. }
  unfold WList2Mac. assert (Hs : ∀ x k, is_u16 x → 0 <= k <= 48 → is_u64 (Z.shiftl x k)).
  { intros x k [Hx1 Hx2] Hk. unfold is_u64. rewrite Z.shiftl_mul_pow2 by lia.
    assert (2 ^ 16 * 2 ^ k <= 2 ^ 64) by (rewrite <- Z.pow_add_r by lia; apply Z.pow_le_mono_r; lia).
    assert (0 < 2 ^ k) by (apply Z.pow_pos_nonneg; lia). nia. }
  assert (Hl : ∀ x y, is_u64 x → is_u64 y → is_u64 (Z.lor x y)).
  { intros x y Hx Hy. by apply (lor_range 64). }
  do 2 (apply Hl; [|by apply Hs]). rewrite <- (Z.shiftl_0_r (nth 0 ws 0)). by apply Hs.
Qed.
Lemma store_macs_ok macs : ∀ i, Forall is_u64 macs → (i + length macs <= 10)%nat →
  hoare (λ t, inv t ∧ macs_ok (fMacList (sy_client t)) (Z.of_nat i)) (store_macs macs i : M Sys _)
    (λ ok t, inv t ∧ (ok = true → macs_ok (fMacList (sy_client t)) (Z.of_nat (i + length macs)))).
Proof.
  induction macs as [|mac macs IH]; intros i Hu Hl; cbn [store_macs].
  { intros t [Ht Hm]. by rewrite Nat.add_0_r. }
  apply Forall_cons_iff in Hu as [Hmac Hu]. simpl length in *. destruct (_ =? 0) eqn:E0; [by intros t []|].
  apply lsb_mcast in E0. replace (i + Datatypes.S (length macs))%nat with (Datatypes.S i + length macs)%nat by lia.
  apply (hoare_bind _ (λ _ t, inv t ∧ macs_ok (fMacList (sy_client t)) (Z.of_nat (Datatypes.S i))));
    [|intros _; apply IH; [done|lia]]. intros t [[Hw Hr] Hm]. split; [split; [|done..]|].
  - destruct Hw. split; simpl in *; try done. by apply macs_ok_store; [..|lia| |].
  - simpl. by apply macs_ok_next; [|lia| |].
Qed.
Lemma keeps_mcasts addr n : 0 <= n <= 10 → keeps (set_mcasts self addr n : M Sys _).
Proof.
  intros Hn. unfold set_mcasts. apply keeps_bind.
  { apply keeps_client; [|done]. wf. by eapply macs_ok_clear. }
  intros _. destruct (n =? 0); [keep|]. apply keeps_bind; [keep|intros _]. apply keeps_array. intros ws Hw Hlen.
  eapply hoare_bind; [eapply hoare_weaken; [apply (store_macs_ok _ 0)| |done]|].
  - apply Forall_forall. intros x (i & <- & _)%in_map_iff. apply is_u64_mac. unfold words3. by apply Forall_take, Forall_drop.
  - rewrite length_map, length_seq. lia.
  - intros t Ht. split; [done|]. eapply macs_ok_none. by destruct Ht as [[] _].
  - intros ok. rewrite length_map, length_seq. simpl. rewrite Z2Nat.id by lia.
    apply (hoare_bind _ (λ _, inv)); [|intros _; keep]. destruct ok; [|by intros t []].
    intros t [[Hi Hr] Hm]. specialize (Hm eq_refl). split; [|done..]. destruct Hi. by split.
Qed.
Lemma len_range w0 w1 addr len : Wlist2UBAddrLen w0 w1 = (addr, len) → is_u8 len.
Proof. intros [= _ <-]. apply u8_range. Qed.
Lemma uba_range w0 w1 addr len : is_u16 w0 → Wlist2UBAddrLen w0 w1 = (addr, len) → 0 <= addr.
Proof.
  intros [Hw _] [= <- _]. apply Z.lor_nonneg. split; [done|]. apply Z.shiftl_nonneg, Z.land_nonneg. by right.
Qed.
Lemma nth_u16 ws i : Forall is_u16 ws → is_u16 (nth i ws 0).
Proof.
  intros Hw. destruct (nth_in_or_default i ws 0) as [Hi| ->]; [|done]. by eapply Forall_forall in Hw.
Qed.
#[local] Opaque set_mcasts.
Lemma keeps_getcmd l : keeps (ExecGetcmd self l : M Sys _).
Proof.
  unfold ExecGetcmd. cbv zeta. keep.
  - wf.
  - wf. apply macs_ok_phys; [done| |by apply lsb_unicast]. by apply is_u64_mac, Forall_drop.
  - apply keeps_mcasts. eapply len_range in Heqp as [Hl _]. apply orb_false_iff in Heqb7 as [_ Hm%Z.ltb_ge]. by split.
  - wf; intros _. match goal with Ho : _ || (nth 5 ws0 0 <=? 1) = false |- _ =>
      apply orb_false_iff in Ho as [[[Ht1 Ht2%Z.leb_gt]%orb_false_iff Hr1]%orb_false_iff Hr2%Z.leb_gt] end.
    pose proof (λ i, nth_u16 ws0 i H3) as Hu.
    apply negb_false_iff, Z.eqb_eq in Ht1, Hr1.
    split; (split; simpl; [split; [by eapply uba_range; [apply Hu|]|done]|split; [lia|apply Hu]|by eapply len_range]).
  - wf.
  - wf. by apply nth_u16.
  - wf.
Qed.
#[local] Transparent set_mcasts.
#[local] Hint Resolve keeps_getcmd : keeps.
Lemma keeps_from {B} P (m : M Sys B) : keeps m → (∀ t, P t → inv t) → hoare P m (λ _, inv).
Proof. intros Hm HP. by eapply hoare_weaken. Qed.
Lemma keeps_halt : run = false → keeps (SetRunning self a_tx a_rx false ;; client (λ d, d <| fPr1State := kSTATE_PHALT |>) : M Sys _).
Proof.
  intros Hrun. apply (hoare_bind _ _ _ _ _ (stop_running Hrun)). intros _ t [[Hw [Hs Hr] _] Hf].
  split; [|by split|by rewrite Hrun]. destruct Hw. split; simpl in *; try done; [by do 4 constructor|by rewrite Hf].
Qed.
#[local] Hint Resolve keeps_halt : keeps.
Lemma keeps_port pcmd : st = true → run = false → keeps (port_command self a_tx a_rx pcmd : M Sys _).
Proof.
  intros Hst Hrun. unfold port_command. cbv zeta. apply hoare_get. intros d.
  destruct (pcmd =? kPCMD_START) eqn:Hp.
  - apply Z.eqb_eq in Hp as ->. cbn [Z.eqb kPCMD_START kPCMD_NOOP kPCMD_GETPCBB kPCMD_GETCMD kPCMD_SELFTST Pos.eqb id].
    apply (hoare_bind _ (λ _ t, inv t ∧ fRingValid (sy_client t) = fRingValid d)).
    { intros t [[Hw Hs] <-]. split; [|done]. by split; [destruct Hw|..]. }
    intros _. destruct (fPr1State d =? kSTATE_RUN); [by intros t []|].
    destruct ((fPr1State d =? kSTATE_READY) && fRingValid d) eqn:Hv; [|by intros t []].
    apply andb_true_iff in Hv as [_ Hv]. apply (hoare_bind _ (λ _, inv)); [|intros _; keep].
    eapply hoare_weaken; [apply start_running| |done]. intros t [Ht Hr]. split_and!; [done| |done]. by rewrite Hr.
  - apply keeps_from; [|by intros t []]. keep; wf.
Qed.
Lemma keeps_attn args : st = true → run = false → keeps (AttnHandler self a_tx a_rx args : M Sys _).
Proof.
  intros Hst Hrun. pose proof (λ p, keeps_port p Hst Hrun) as Hport. unfold AttnHandler. cbv zeta. keep; wf.
Qed.

(** *** Frames *)

Lemma keeps_tx_final d : keeps (tx_final self d : M Sys _).
Proof. unfold tx_final. keep. wf. by destruct wf_frames0. Qed.
#[local] Hint Resolve keeps_tx_final : keeps.
Lemma keeps_rand : keeps (rand : M Sys _).
Proof. intros t [[] ? ?]. by split. Qed.
#[local] Hint Resolve keeps_rand : keeps.
Lemma keeps_tx_send : keeps (tx_send : M Sys _).
Proof. unfold tx_send. keep. wf. Qed.
#[local] Hint Resolve keeps_tx_send : keeps.

Lemma add_sat_range inc x : is_u32 (add_sat inc x).
Proof. unfold add_sat. destruct (_ <? inc); [done|apply u32_range]. Qed.
Lemma keeps_stat32 f `{!Setter f} ind n : (∀ g c, (∀ x, is_u32 (g x)) → ctr_ok c → ctr_ok (c <| f ::= g |>)) →
  keeps (UpdateStat32 f ind n : M Sys _).
Proof. intros Hf. unfold UpdateStat32. keep. wf. apply Hf; [apply add_sat_range|done]. Qed.
#[local] Opaque UpdateStat32.
Lemma keeps_count_tx b : keeps (count_frame fCtrTxFra fCtrTxFraMcast fCtrTxByt fCtrTxBytMcast
  kStatNTxFra kStatNTxFraMcast kStatNTxByt kStatNTxBytMcast kStatNTxFraBcast b : M Sys _).
Proof. unfold count_frame. keep; (apply keeps_stat32; intros g c Hg []; split; simpl; done || apply Hg). Qed.
Lemma keeps_count_rx b : keeps (count_frame fCtrRxFra fCtrRxFraMcast fCtrRxByt fCtrRxBytMcast
  kStatNRxFra kStatNRxFraMcast kStatNRxByt kStatNRxBytMcast kStatNRxFraBcast b : M Sys _).
Proof. unfold count_frame. keep; (apply keeps_stat32; intros g c Hg []; split; simpl; done || apply Hg). Qed.
#[local] Transparent UpdateStat32.
#[local] Hint Resolve keeps_count_tx keeps_count_rx : keeps.
Lemma RingNext_range n r : is_u16 (RingNext n r).
Proof. unfold RingNext, RingIndexNext. destruct (_ <=? _); apply u16_range. Qed.
Lemma keeps_index_tx : keeps (client (λ d, d <| fTxRing ::= λ r, r <| rg_index := RingNext 1 r |> |>)).
Proof.
  apply keeps_client; [|done]. wf; [|split; [apply RingNext_range|apply wf_index0]].
  intros Hv. destruct (wf_format0 Hv) as [[] []]. by split.
Qed.
Lemma keeps_index_rx : keeps (client (λ d, d <| fRxRing ::= λ r, r <| rg_index := RingNext 1 r |> |>)).
Proof.
  apply keeps_client; [|done]. wf; [|split; [apply wf_index0|apply RingNext_range]].
  intros Hv. destruct (wf_format0 Hv) as [[] []]. by split.
Qed.
#[local] Hint Resolve keeps_index_tx keeps_index_rx : keeps.
Lemma keeps_tx_turn d : keeps (TxRingTurn self d : M Sys _).
Proof.
  unfold TxRingTurn. cbv zeta. keep.
  - wf. by destruct wf_frames0.
  - wf. split; [|by destruct wf_frames0]. unfold frame_ok. simpl. pose proof (nth_u16 ws 0 H0) as Hn.
    destruct (Z.ltb_spec kMaxSize (nth 0 ws 0)); [done|]. rewrite u16_id by done. unfold is_u16 in *. lia.
  - wf.
Qed.
#[local] Hint Resolve keeps_tx_turn : keeps.
Lemma keeps_tx : keeps (TxRingHandler self : M Sys _).
Proof. unfold TxRingHandler. keep; wf. Qed.
Lemma queue_tail (d : DEUNA E) b q : deuna_wf d → fRxBufQueue d = b :: q → Forall frame_ok q.
Proof. intros [] Hq. rewrite Hq in wf_frames0. by destruct wf_frames0 as [_ [_ ?]%Forall_cons_iff]. Qed.
Lemma keeps_rx_turn d : run = true → keeps (RxRingTurn self d : M Sys _).
Proof.
  intros Hrun. unfold RxRingTurn, rx_frame, rx_pad. cbv zeta. keep; wf; [|auto].
  split; [by destruct wf_frames0|]. by eapply queue_tail.
Qed.
Lemma keeps_rcv b : frame_ok b → keeps (RcvCallback self a_rx b : M Sys _).
Proof.
  intros Hb. unfold RcvCallback. cbv zeta. keep; wf. destruct wf_frames0. split; [done|].
  apply list.Forall_app. split; [done|]. by constructor.
Qed.
Lemma keeps_poll revents events cnt : keeps (RxPollHandler self a_rx revents events cnt : M Sys _).
Proof. unfold RxPollHandler. keep; wf. Qed.

(** *** Configuration *)

Lemma keeps_config name base lam : keeps (Config name base lam : M Sys _).
Proof. unfold Config. keep. wf. Qed.
Lemma keeps_type type : keeps (SetType type : M Sys _).
Proof. unfold SetType. cbv zeta. keep; wf. Qed.
Lemma keeps_poll_time time : keeps (SetRxPollTime time : M Sys _).
Proof.
  unfold SetRxPollTime, throw_if. destruct (IsPositive time) eqn:Hp; simpl; [|keep].
  apply keeps_bind; [keep|intros _]. keep. wf. by destruct wf_conf0.
Qed.
Lemma keeps_que_limit n : keeps (SetRxQueLimit n : M Sys _).
Proof.
  unfold SetRxQueLimit, throw_if. destruct (Z.leb_spec n 0); [keep|]. apply keeps_bind; [keep|intros _].
  keep. wf. destruct wf_conf0 as (? & ? & ?). done.
Qed.
Lemma loss_checked x : bad_loss x = false → loss_ok x.
Proof.
  destruct x as [|[]|q]; try done. unfold bad_loss, Flt_bool, Qlt_bool.
  intros [H1%negb_false_iff H2%negb_false_iff]%orb_false_iff. split; by apply Qle_bool_iff.
Qed.
Lemma keeps_tx_loss x : keeps (SetTxLoss x : M Sys _).
Proof.
  unfold SetTxLoss, throw_if. destruct (bad_loss x) eqn:Hx; [keep|]. apply loss_checked in Hx.
  apply keeps_bind; [keep|intros _]. keep. wf. by destruct wf_conf0 as (? & ? & ? & ?).
Qed.
Lemma keeps_rx_loss x : keeps (SetRxLoss x : M Sys _).
Proof.
  unfold SetRxLoss, throw_if. destruct (bad_loss x) eqn:Hx; [keep|]. apply loss_checked in Hx.
  apply keeps_bind; [keep|intros _]. keep. wf. by destruct wf_conf0 as (? & ? & ? & ?).
Qed.
Lemma keeps_etf b : keeps (SetEtfEnable b : M Sys _) ∧ keeps (SetEtfTrace b : M Sys _).
Proof. unfold SetEtfEnable, SetEtfTrace. split; keep; wf. Qed.
Lemma keeps_mac_default mac rnd : (∀ b, rnd = Ret b → is_u64 b) → keeps (SetMacDefault mac rnd : M Sys _).
Proof.
  intros Hrnd. unfold SetMacDefault. cbv zeta.
  apply (hoare_bind _ (λ b t, inv t ∧ is_u64 b)).
  { intros t Ht. destruct (bool_decide _).
    - destruct rnd as [b|e|]; [|done..]. split; [done|]. apply (lor_range 64); [done| |done].
      pose proof (Hrnd b eq_refl) as []. pose proof (lsb_cases b).
      split; [apply Z.ldiff_nonneg; by left|rewrite ldiff_sub; lia].
    - destruct (String2Mac_throw _) as [b|e|] eqn:Hs; [|done..]. split; [done|].
      apply String2Mac_range in Hs. unfold is_u64. lia. }
  intros b. unfold throw_if. destruct (negb _) eqn:Hl; [by intros t []|]. apply lsb_unicast in Hl.
  intros t [Ht Hb]. apply (keeps_client (λ d, (if (fPr1State d =? kSTATE_READY) && negb (HasVirt d) && (nth 0 (fMacList d) 0 =? fMacDefault d)
     then d <| fMacList ::= <[0%nat := b]> |> else d) <| fMacDefault := b |>)); [| |done].
  - intros d Hw _. destruct (_ && _); destruct Hw; split; simpl in *; try done. by apply macs_ok_phys.
  - intros d. by destruct (_ && _).
Qed.
Lemma calm_regs regs : calm (map_regs de_cntl regs : M Sys _).
Proof. split; intros t; unfold map_regs; apply (calm_cpu _). Qed.
#[local] Hint Resolve calm_regs : calm.
Lemma start_ok h cdata : st = false → run = false →
  hoare inv (Start self h cdata : M Sys _) (λ _ t, deuna_wf (sy_client t) ∧ sy_started t = true).
Proof.
  intros Hst Hrun t Ht. unfold Start. destruct (bad_start _ t); [done|]. set (mask := u16 _). clearbody mask.
  revert t Ht. apply (hoare_bind _ (λ _, inv)); [keep|intros _]. apply (hoare_bind _ (λ _, inv)); [keep|intros _].
  apply (hoare_bind _ (λ _, inv)).
  { intros t [Hw [Hs Hr] Hi]. assert (Hf : fRunning (sy_client t) = false) by (destruct (fRunning _); naive_solver).
    split; [|done..]. destruct Hw. split; simpl in *; try done; [by do 2 constructor|by rewrite Hf]. }
  intros _. apply (hoare_bind _ (λ _, inv)); [unfold UnitSetupAll; keep|intros _].
  apply (hoare_bind _ (λ _, inv)); [keep|intros _]. intros t [Hw _ _]. by split.
Qed.
Lemma keeps_enable ena : keeps (SetEnable de_cntl ena : M Sys _).
Proof. intros t Ht. unfold SetEnable. destruct (sy_started t); [done|]. destruct Ht as [[] Hs Hr]. by split. Qed.
Lemma keeps_probe : keeps (Probe de_cntl : M Sys _).
Proof.
  intros t Ht. unfold Probe. revert Ht. generalize (ProbeCntl (cn_fProbe (cntl_of de_cntl t)) : M Cpu _). intros m.
  revert t. fold (hoare (B := Rw11Probe) inv (dsc ← zoom sy_cpu m;
    client (λ c : DEUNA E, c <| de_cntl ::= λ c, c <| cn_fProbe := dsc |> |>) ;; mret dsc) (λ _, inv)).
  apply keeps_bind; [keep|intros dsc]. keep. wf.
Qed.
End Deuna.

(** ** The states reached *)

Section Reach.
Context {S V H A E : Type} `{!RlinkExec S, !VirtEth E}.
Notation Sys := (Rw11Sys S V H A (DEUNA E)).
Context (self : Z) (a_tx a_rx : A).

(** The calls of the rest of the program. *)
Inductive call :=
| CConfig (name : string) (base lam : Z)
| CEnable (ena : bool)
| CProbe
| CType (type : string)
| CMacDefault (mac : string) (rnd : outcome Z)
| CPollTime (time : Rtime)
| CQueLimit (n : Z)
| CTxLoss (x : Float)
| CRxLoss (x : Float)
| CEtfEnable (b : bool)
| CEtfTrace (b : bool)
| CStart (h : H) (cdata : Z)
| CAttach
| CDetach
| CAttn (args : AttnArgs)
| CTx
| CRx
| CPoll (revents events cnt : Z)
| CRcv (b : RethBuf).
Definition run_call (c : call) : M Sys () :=
  match c with
  | CConfig name base lam => Config name base lam
  | CEnable ena => SetEnable de_cntl ena
  | CProbe => Probe de_cntl ;; mret ()
  | CType type => SetType type
  | CMacDefault mac rnd => SetMacDefault mac rnd
  | CPollTime time => SetRxPollTime time
  | CQueLimit n => SetRxQueLimit n
  | CTxLoss x => SetTxLoss x
  | CRxLoss x => SetRxLoss x
  | CEtfEnable b => SetEtfEnable b
  | CEtfTrace b => SetEtfTrace b
  | CStart h cdata => Start self h cdata
  | CAttach => AttachDone
  | CDetach => DetachDone
  | CAttn args => AttnHandler self a_tx a_rx args ;; mret ()
  | CTx => TxRingHandler self ;; mret ()
  | CRx => RxRingHandler self ;; mret ()
  | CPoll revents events cnt => RxPollHandler self a_rx revents events cnt ;; mret ()
  | CRcv b => RcvCallback self a_rx b ;; mret ()
  end.
(** What the callers respect: the handler is registered by [Start], a random
    number has eight bytes, a frame fits its buffer. *)
Definition call_ok (t : Sys) (c : call) : Prop :=
  match c with
  | CMacDefault _ rnd => ∀ b, rnd = Ret b → is_u64 b
  | CAttn _ => sy_started t = true
  | CRcv b => frame_ok b
  | _ => True
  end.
(** A call, however it ends, or a change of anything else: the link, the memory,
    the server, the clocks and the device of the unit. *)
Inductive deuna_step : Sys → Sys → Prop :=
| step_call t c : call_ok t c → deuna_step t (run_call c t).2
| step_env t t' v mono real :
    sy_client t' = sy_client t <| de_virt := v |> <| de_mono := mono |> <| de_real := real |> →
    sy_started t' = sy_started t → deuna_step t t'.
Definition deuna_ok (t : Sys) : Prop :=
  deuna_wf (sy_client t) ∧ (fRunning (sy_client t) = true → sy_started t = true).

Lemma ok_inv t : deuna_ok t → inv (sy_started t) false t.
Proof. intros [Hw Hr]. by split. Qed.
Lemma inv_ok st run t : inv st run t → deuna_ok t.
Proof. intros [Hw [Hs Hr] _]. split; [done|]. rewrite Hs. done. Qed.
Lemma keeps_ok {B} st run (m : M Sys B) t : keeps st run m → inv st run t → deuna_ok (m t).2.
Proof. intros Hm Ht. specialize (Hm t Ht). destruct (m t) as [[b|e|] t']; by eapply inv_ok. Qed.
Lemma keeps_rx st : keeps st false (RxRingHandler self : M Sys _).
Proof.
  unfold RxRingHandler. apply keeps_bind.
  { apply keeps_client; [|done]. intros d [] _. by split. }
  intros _. apply hoare_get. intros d. destruct (fRunning (id d)) eqn:Hr; cbn [negb]; [|by intros t []].
  intros t [[Hw Hs _] <-]. pose proof (keeps_rx_turn self st true (sy_client t) eq_refl t) as Hk.
  change (id (sy_client t)) with (sy_client t) in *.
  assert (Hi : inv st true t) by (by split). specialize (Hk Hi).
  destruct (RxRingTurn self (sy_client t) t) as [[b|e|] t']; destruct Hk; by split.
Qed.
Lemma keeps_void {B} st run (m : M Sys B) : keeps st run m → keeps st run (m ;; mret ()).
Proof. intros Hm. apply keeps_bind; [done|intros _; apply keeps_ret]. Qed.
Lemma start_step h cdata t : deuna_ok t → deuna_ok (Start self h cdata t).2.
Proof.
  intros Ht. pose proof (ok_inv _ Ht) as Hi. destruct (sy_started t) eqn:Hs.
  - unfold Start, bad_start. by rewrite Hs.
  - pose proof (start_ok self false false h cdata eq_refl eq_refl t Hi) as Hk.
    destruct (Start self h cdata t) as [[b|e|] t']; [|by eapply inv_ok..]. by destruct Hk.
Qed.
Lemma run_call_ok t c : deuna_ok t → call_ok t c → deuna_ok (run_call c t).2.
Proof.
  intros Ht Hc. pose proof (ok_inv _ Ht) as Hi.
  assert (K : ∀ B (m : M Sys B), keeps (sy_started t) false m → deuna_ok (m t).2) by (intros; by eapply keeps_ok).
  destruct c; cbn [run_call call_ok] in *.
  - apply K, keeps_config.
  - apply K, keeps_enable.
  - apply K, keeps_void, keeps_probe.
  - apply K, keeps_type.
  - by apply K, keeps_mac_default.
  - apply K, keeps_poll_time.
  - apply K, keeps_que_limit.
  - apply K, keeps_tx_loss.
  - apply K, keeps_rx_loss.
  - apply K, keeps_etf.
  - apply K, keeps_etf.
  - by apply start_step.
  - apply K, calm_keeps, calm_unit.
  - apply K, calm_keeps, calm_unit.
  - by apply K, keeps_void, keeps_attn.
  - apply K, keeps_void, keeps_tx.
  - apply K, keeps_void, keeps_rx.
  - apply K, keeps_void, keeps_poll.
  - by apply K, keeps_void, keeps_rcv.
Qed.
Lemma step_ok t t' : deuna_step t t' → deuna_ok t → deuna_ok t'.
Proof.
  intros [t0 c Hc|t0 t1 v mono real Hd Hs] Ht; [by apply run_call_ok|]. destruct Ht as [[] Hr].
  split; [|by rewrite Hd, Hs]. rewrite Hd. by split.
Qed.
(** C13: In every state that calls of the controller and changes of its surroundings
    reach from the constructor, whatever the link answers and however the calls
    end, the fields are in order: it runs exactly in state RUN, with rings of at
    least two entries at even 18 bit addresses; it waits for the poll timer only
    with the timer open; the physical address is no multicast address and those
    of the list are; counters, rates and sizes are in their ranges. *)
Theorem deuna_reach ran mono real t t' :
  sy_client t = DEUNA_ctor self ran mono real → sy_started t = false → rtc deuna_step t t' →
  deuna_wf (sy_client t') ∧ (fRunning (sy_client t') = true → sy_started t' = true).
Proof.
  intros Hd Hs Hr. assert (Ht : deuna_ok t) by (split; rewrite Hd; [apply DEUNA_ctor_wf|done]).
  clear Hd Hs. induction Hr as [t|t t1 t2 H1 _ IH]; [done|]. by apply IH, (step_ok t).
Qed.
End Reach.

(** ** A controller after some calls *)

(** A device that takes every frame. *)
#[local] Instance open_eth : VirtEth () := λ _ v, (inl (), v).
Definition hub : Rw11Sys (RlinkLink (CorePort CpPort)) () () nat (DEUNA ()) :=
  mkSys RlinkServer_ctor (Cpu_ctor "w11a" 0 (core_link (mkCpPort 0 false false 3 false ∅ 0x4000 []))) [] false Rdma_ctor None (DEUNA_ctor 0x10000 (λ _, 0%Q) Rtime_ctor Rtime_ctor).
Definition hub_calls : list (call (H := ())) :=
  [CMacDefault "08:00:2b:12:34:56" (Ret 0); CQueLimit 5; CQueLimit 0; CPollTime (mkRtime 0 20000000); CRcv (mkRethBuf Rtime_ctor 60 0x20000)].
Definition hub_end : Rw11Sys (RlinkLink (CorePort CpPort)) () () nat (DEUNA ()) :=
  foldl (λ t c, (run_call 0x10000 1%nat 2%nat c t).2) hub hub_calls.
Lemma deuna_reach_witness : deuna_wf (sy_client hub_end) ∧
  fMacDefault (sy_client hub_end) = 0x563412_2b0008 ∧ fRxQueLimit (sy_client hub_end) = 5 ∧
  fRxBufQueue (sy_client hub_end) = [].
Proof.
  split_and!; [|vm_compute; reflexivity..].
  apply (deuna_reach 0x10000 1%nat 2%nat (λ _, 0%Q) Rtime_ctor Rtime_ctor hub hub_end eq_refl eq_refl).
  unfold hub_end, hub_calls. cbn [foldl].
  do 5 (eapply rtc_r; [|apply step_call; simpl; try done; by intros b [= <-]]). apply rtc_refl.
Defined.
