(* ===== verification/DeunaRing.v ===== *)
(** * The rings of the ethernet controller

    What a turn of the transmit ring and a turn of the receive ring do, on a link
    with the memory of a cpu and the registers of the device ([MemOps]): the
    frame that is sent or stored, the descriptor as it is given back, the
    interrupt that is told, and the descriptors of the next turn. *)

From Stdlib Require Import QArith.QArith.
From S2P Require Import Prelude.
From S2P Require Import Rstats.
From S2P Require Import Rtime.
From S2P Require Import Command.
From S2P Require Import CommandList.
From S2P Require Import Connect.
From S2P Require Import ConnectDecode.
From S2P Require Import Link.
From S2P Require Import LinkCore.
From S2P Require Import Server.
From S2P Require Import FileFd.
From S2P Require Import VirtDisk.
From S2P Require Import UnitDisk.
From S2P Require Import Cpu.
From S2P Require Import CpuMem.
From S2P Require Import Rdma.
From S2P Require Import RdmaSpec.
From S2P Require Import Cntl.
From S2P Require Import CntlSpec.
From S2P Require Import PdpBus.
From S2P Require Import MemOps.
From S2P Require Import Reth.
From S2P Require Import Deuna.
From S2P Require Import DeunaInv.

Open Scope Z_scope.

(** ** The memory of the caller *)

Lemma mem_get_ext n : ∀ m m' p, (∀ q, p <= q < p + Z.of_nat n → m !! q = m' !! q) → mem_get m p n = mem_get m' p n.
Proof.
  induction n as [|n IH]; intros m m' p Hm; [done|]. cbn [mem_get]. rewrite (Hm p) by lia. f_equal.
  apply IH. intros q Hq. apply Hm. lia.
Qed.
Lemma mem_get_other m p n q ws : p + Z.of_nat n <= q ∨ q + Z.of_nat (length ws) <= p →
  mem_get (mem_put q ws m) p n = mem_get m p n.
Proof.
  intros Hd. apply mem_get_ext. intros x Hx. rewrite mem_put_lookup.
  destruct (Z.leb_spec q x), (Z.ltb_spec x (q + Z.of_nat (length ws))); cbn [andb]; try done; lia.
Qed.
Lemma mem_get_lookup n : ∀ m p i, (i < n)%nat → mem_get m p n !! i = Some (u16 (default 0 (m !! (p + Z.of_nat i)))).
Proof.
  induction n as [|n IH]; intros m p [|i] Hi; cbn [mem_get lookup list_lookup]; try lia; [by rewrite Z.add_0_r|].
  change (mem_get m (p + 1) n !! i = Some (u16 (default 0 (m !! (p + Z.of_nat (S i)))))).
  rewrite IH by lia. do 4 f_equal. lia.
Qed.
(** Bytes of a frame do not reach behind its buffer. *)
Lemma put_bytes_other bs : ∀ off (b : RethBuf) m q, 0 <= off →
  q < rb_fBuf b ∨ rb_fBuf b + (off + Z.of_nat (length bs) + 1) / 2 <= q → put_bytes off bs b m !! q = m !! q.
Proof.
  induction bs as [|x bs IH]; intros off b m q Ho Hq; cbn [put_bytes]; [done|].
  change (length (x :: bs)) with (S (length bs)) in Hq.
  rewrite IH; [|lia|Z.div_mod_to_equations; lia]. rewrite lookup_insert_ne; [done|].
  intros <-. Z.div_mod_to_equations. lia.
Qed.

(** ** Frames *)

Definition mac_bytes (mac : Z) : list Z := words_bytes (Mac2WList mac).
(** The frame of [n] bytes of a descriptor: with this physical address as its
    source, and zeros up to the least size. *)
Definition tx_frame (mac n : Z) (raw : list Z) : list Z :=
  let f := take (Z.to_nat n) (take 6 raw ++ mac_bytes mac ++ drop 12 raw) in
  f ++ replicate (60 - length f) 0.
Lemma words_bytes_length ws : length (words_bytes ws) = (2 * length ws)%nat.
Proof. induction ws as [|w ws IH]; [done|]. change (length (words_bytes (w :: ws))) with (2 + length (words_bytes ws))%nat. simpl length. lia. Qed.
Lemma tx_frame_length mac n raw : 0 <= n <= Z.of_nat (length raw) →
  length (tx_frame mac n raw) = Z.to_nat (Z.max n 60).
Proof.
  intros Hn. unfold tx_frame. rewrite length_app, length_replicate, length_take, !length_app, length_take, length_drop.
  unfold mac_bytes. rewrite words_bytes_length. change (length (Mac2WList mac)) with 3%nat. lia.
Qed.
Lemma nth_app (l1 l2 : list Z) i : nth i (l1 ++ l2) 0 = if (i <? length l1)%nat then nth i l1 0 else nth (i - length l1) l2 0.
Proof. destruct (Nat.ltb_spec i (length l1)); [by apply app_nth1|by apply app_nth2]. Qed.
Lemma nth_take_if (l : list Z) n i : nth i (take n l) 0 = if (i <? n)%nat then nth i l 0 else 0.
Proof.
  destruct (Nat.ltb_spec i n) as [Hi|Hi].
  - revert l i Hi. induction n as [|n IH]; intros [|x l] [|i] Hi; simpl; try lia; try done. apply IH. lia.
  - apply nth_overflow. rewrite length_take. lia.
Qed.
Lemma tx_frame_nth mac n raw i : 0 <= n <= Z.of_nat (length raw) →
  nth i (tx_frame mac n raw) 0 =
  if (Z.of_nat i <? n) then if (6 <=? i)%nat && (i <? 12)%nat then nth (i - 6) (mac_bytes mac) 0 else nth i raw 0 else 0.
Proof.
  intros Hn. unfold tx_frame. rewrite nth_app, nth_take_if, nth_replicate, length_take, !length_app.
  assert (Hm : length (mac_bytes mac) = 6%nat) by apply words_bytes_length.
  rewrite Hm, length_take, length_drop, !nth_app, Hm, nth_take_if, nth_drop, length_take.
  destruct (Z.ltb_spec (Z.of_nat i) n) as [Hi|Hi].
  2:{ repeat (case_match; rewrite ?Nat.ltb_lt, ?Nat.ltb_ge in *; try lia; try done). }
  destruct (Nat.leb_spec 6 i), (Nat.ltb_spec i 12); cbn [andb].
  all: repeat (case_match; rewrite ?Nat.ltb_lt, ?Nat.ltb_ge in *; try lia; try done).
  all: f_equal; lia.
Qed.
(** The buffer holds it. *)
Lemma tx_frame_mem mac n ws (b : RethBuf) m : 0 <= n <= 2 * Z.of_nat (length ws) → Forall is_u16 ws →
  let m1 := SetMacSource mac b (mem_put (rb_fBuf b) ws m) in
  let m2 := if n <? 60 then put_bytes n (replicate (Z.to_nat (60 - n)) 0) b m1 else m1 in
  frame_bytes (Z.max n 60) m2 b = tx_frame mac n (words_bytes ws).
Proof.
  intros Hn Hw m1 m2. assert (Hl : 0 <= n <= Z.of_nat (length (words_bytes ws))) by (rewrite words_bytes_length; lia).
  apply frame_bytes_eq; [by apply tx_frame_length|]. intros i Hi. rewrite tx_frame_nth by done. rewrite Z2Nat.id by lia.
  assert (H1 : GetB i m1 b = if (6 <=? i) && (i <? 12) then nth (Z.to_nat (i - 6)) (mac_bytes mac) 0
    else if i <? 2 * Z.of_nat (length ws) then nth (Z.to_nat i) (words_bytes ws) 0 else GetB i m b).
  { unfold m1, SetMacSource. change (kEOffSrcMac / 2) with 3. rewrite GetB_put by (lia || apply Mac2WList_u16).
    change (2 * 3) with 6. change (6 + 2 * Z.of_nat (length (Mac2WList mac))) with 12.
    destruct ((6 <=? i) && (i <? 12)); [done|]. rewrite <- (Z.add_0_r (rb_fBuf b)) at 1. rewrite GetB_put by (done || lia).
    change (2 * 0) with 0. rewrite Z.add_0_l, Z.sub_0_r, (proj2 (Z.leb_le 0 i)) by lia. done. }
  assert (H2 : (6 <=? i) && (i <? 12) = (6 <=? Z.to_nat i)%nat && (Z.to_nat i <? 12)%nat).
  { apply eq_iff_eq_true. rewrite !andb_true_iff, Z.leb_le, Z.ltb_lt, Nat.leb_le, Nat.ltb_lt. lia. }
  assert (H3 : GetB i m2 b = if i <? n then GetB i m1 b else 0).
  { unfold m2. destruct (Z.ltb_spec n 60).
    - rewrite GetB_put_bytes by (lia || by apply Forall_replicate). rewrite length_replicate, nth_replicate.
      destruct (Z.leb_spec n i), (Z.ltb_spec i (n + Z.of_nat (Z.to_nat (60 - n)))), (Z.ltb_spec i n); simpl; done || lia.
    - by rewrite (proj2 (Z.ltb_lt i n)) by lia. }
  rewrite H3, H1, <- H2. destruct (i <? n) eqn:Hin; [|done]. apply Z.ltb_lt in Hin.
  destruct ((6 <=? i) && (i <? 12)); [f_equal; lia|]. by rewrite (proj2 (Z.ltb_lt i (2 * _))) by lia.
Qed.

(** What a frame says of itself. *)
Definition frame_dst (f : list Z) : Z :=
  WList2Mac [word_of (nth 0 f 0) (nth 1 f 0); word_of (nth 2 f 0) (nth 3 f 0); word_of (nth 4 f 0) (nth 5 f 0)].
Definition frame_mcast (f : list Z) : bool := negb (Z.land (nth 0 f 0) 0x1 =? 0).
Lemma frame_bytes_nth n m b i : (i < Z.to_nat n)%nat → nth i (frame_bytes n m b) 0 = GetB (Z.of_nat i) m b.
Proof.
  intros Hi. unfold frame_bytes. rewrite (nth_indep _ 0 (GetB (Z.of_nat 0) m b)) by (by rewrite length_map, length_seq).
  rewrite (map_nth (λ i, GetB (Z.of_nat i) m b)), seq_nth by done. done.
Qed.
Lemma Buf16_bytes m b i : 0 <= i → Buf16 m b i = word_of (GetB (2 * i) m b) (GetB (2 * i + 1) m b).
Proof.
  intros Hi. unfold GetB. replace (2 * i / 2) with i by (Z.div_mod_to_equations; lia).
  replace ((2 * i + 1) / 2) with i by (Z.div_mod_to_equations; lia).
  rewrite Z.even_add, Z.even_mul. cbn [Z.even orb xorb Bool.eqb]. rewrite word_of_lo_hi; [done|apply u16_range].
Qed.
Lemma frame_says n m b : 6 <= n →
  MacDestination m b = frame_dst (frame_bytes n m b) ∧ IsMcast m b = frame_mcast (frame_bytes n m b).
Proof.
  intros Hn. unfold frame_dst, frame_mcast. rewrite !frame_bytes_nth by lia. split; [|done].
  unfold MacDestination, mac_at. cbn [map]. change (kEOffDstMac / 2) with 0. by rewrite !Z.add_0_l, !Buf16_bytes.
Qed.
Lemma frame_bytes_ext n m m' (b : RethBuf) : (∀ q, rb_fBuf b <= q → m !! q = m' !! q) → frame_bytes n m b = frame_bytes n m' b.
Proof.
  intros Hm. unfold frame_bytes. apply map_ext. intros i. unfold GetB, Buf16.
  rewrite Hm; [done|]. Z.div_mod_to_equations. lia.
Qed.
Lemma mem_put_other q ws m x : x < q ∨ q + Z.of_nat (length ws) <= x → mem_put q ws m !! x = m !! x.
Proof.
  intros Hx. rewrite mem_put_lookup. destruct (Z.leb_spec q x), (Z.ltb_spec x (q + Z.of_nat (length ws))); cbn [andb]; done || lia.
Qed.

(** ** Programs on a link in order *)

Section Runs.
Context {S D V H A E : Type} `{!RlinkExec S, !Rbus D, !LinkLaws S D, !CpuBus D, !RegDev D, !VirtEth E}.
Notation Sys := (Rw11Sys S V H A (DEUNA E)).
Notation Cpu := (Rw11Cpu S).
Context (self : Z) (a_tx a_rx : A) (t0 : Sys).

(** The link is up, and its cpu is this one. *)
Record link_ready : Prop := {
  lr_up : link_ok (sy_link t0);
  lr_idle : idle (cport (sy_cpu t0));
  lr_size : cp_size (cport (sy_cpu t0)) <= 2 ^ 22;
  lr_base : fBase (sy_cpu t0) = cp_base;
  lr_blk : 800 <= srv_blkmax (sy_link t0) <= 65535 }.
Context (Hr : link_ready).
Notation csize := (cp_size (cport (sy_cpu t0))).

(** From [st] and [d], [m] returns [b] with [st'] and [d']. *)
Definition is_at (st : mst) (d : DEUNA E) (t : Sys) : Prop := ∃ s, t = sys_at t0 s d ∧ link_at (sy_link t0) st s.
Definition runs {B} (m : M Sys B) (st : mst) (d : DEUNA E) (b : B) (st' : mst) (d' : DEUNA E) : Prop :=
  returns (λ x, is_at x.1 x.2) m (st, d) b (st', d').

Lemma runs_ret {B} (b : B) st d : runs (mret b) st d b st d.
Proof. apply returns_ret. Qed.
Lemma runs_bind {B B'} (m : M Sys B) (k : B → M Sys B') st d b st1 d1 b' st' d' :
  runs m st d b st1 d1 → runs (k b) st1 d1 b' st' d' → runs (m ≫= k) st d b' st' d'.
Proof. apply returns_bind. Qed.
Lemma runs_client f st d : runs (client f) st d () st (f d).
Proof. intros t (s & -> & Hs). cbn [fst snd] in *. exists (sys_at t0 s (f d)). split; [done|]. by exists s. Qed.
Lemma runs_get {B} (f : DEUNA E → B) st d : runs (get_client f) st d (f d) st d.
Proof. intros t (s & -> & Hs). cbn [fst snd] in *. exists (sys_at t0 s d). split; [done|]. by exists s. Qed.
Lemma runs_mem_of st d : runs (gets mem_of) st d (ms_mem st) st d.
Proof.
  intros t (s & -> & Hs). cbn [fst snd] in *. exists (sys_at t0 s d). split; [|by exists s].
  unfold gets, mem_of. change (sy_link (sys_at t0 s d)) with s. by rewrite (la_mem _ _ _ Hs).
Qed.
Lemma runs_array off n st d : runs (array self off n) st d (mem_get (ms_mem st) (self + off) (Z.to_nat n)) st d.
Proof.
  intros t (s & -> & Hs). cbn [fst snd] in *. exists (sys_at t0 s d). split; [|by exists s].
  unfold array, mem_read, gets. change (sy_link (sys_at t0 s d)) with s. by rewrite (la_mem _ _ _ Hs).
Qed.
Lemma runs_mem_upd f st d : runs (mem_upd f) st d () (st <| ms_mem ::= f |>) d.
Proof.
  intros t (s & -> & Hs). cbn [fst snd] in *. exists (sys_at t0 (srv_set_mem (f (srv_mem s)) s) d). split; [done|].
  exists (srv_set_mem (f (srv_mem s)) s). split; [done|].
  pose proof (link_at_set _ _ _ (f (srv_mem s)) Hs) as Hl. by rewrite (la_mem _ _ _ Hs) in *.
Qed.
Lemma runs_set_array off ws st d : runs (set_array self off ws) st d () (st <| ms_mem ::= mem_put (self + off) ws |>) d.
Proof. apply runs_mem_upd. Qed.
Lemma runs_set_dsc dst src st d : runs (SetRingDsc self dst src) st d ()
  (st <| ms_mem ::= λ m, mem_put (self + dst) (mem_get m (self + src) 4) m |>) d.
Proof. unfold SetRingDsc. eapply runs_bind; [apply runs_array|apply runs_set_array]. Qed.
Lemma runs_set_bits off bits st d : runs (set_bits self off bits) st d ()
  (st <| ms_mem ::= λ m, mem_put (self + off) (map (Z.lor bits) (mem_get m (self + off) 1)) m |>) d.
Proof. unfold set_bits. eapply runs_bind; [apply runs_array|apply runs_set_array]. Qed.
Lemma runs_dstat i st d : runs (dstat i) st d () st (d <| de_cntl ::= λ c, c <| cn_fStats ::= inc i 1 |> |>).
Proof. apply runs_client. Qed.

Lemma ready_blk s st : link_at (sy_link t0) st s → srv_blkmax s = srv_blkmax (sy_link t0).
Proof. intros Hs. by apply (same_link_blk _ _ (la_same _ _ _ Hs)). Qed.
Lemma runs_rmem addr off n ops st d : 0 <= n <= 800 →
  runs (add_cmds (rmem self addr off n) (mlist cp_base ops)) st d
    (CommandList.Size (mlist cp_base ops), mlist cp_base (ops ++ [MRead addr (self + off) (Z.to_nat n)])) st d.
Proof.
  intros Hn t (s & -> & Hs). exists (sys_at t0 s d). split; [|by exists s]. pose proof (lr_blk Hr) as Hb.
  apply add_rmem; [apply (lr_base Hr)|lia|]. change (sy_link (sys_at t0 s d)) with s. rewrite (ready_blk _ _ Hs). lia.
Qed.
Lemma runs_add_wmem addr buf n ops st d : 0 <= n <= 800 →
  runs (add_cmds (AddWMem addr buf n kCPAH_M_UBM22 true) (mlist cp_base ops)) st d
    (CommandList.Size (mlist cp_base ops), mlist cp_base (ops ++ [MWrite addr buf (Z.to_nat n)])) st d.
Proof.
  intros Hn t (s & -> & Hs). exists (sys_at t0 s d). split; [|by exists s]. pose proof (lr_blk Hr) as Hb.
  apply add_wmem; [apply (lr_base Hr)|lia|]. change (sy_link (sys_at t0 s d)) with s. rewrite (ready_blk _ _ Hs). lia.
Qed.
Lemma runs_labo ops st d : runs (add_cmds (λ _, AddLabo) (mlist cp_base ops)) st d
    (CommandList.Size (mlist cp_base ops), mlist cp_base (ops ++ [MLabo])) st d.
Proof. intros t (s & -> & Hs). cbn [fst snd] in *. exists (sys_at t0 s d). split; [apply add_labo|by exists s]. Qed.
Lemma runs_wibr a v ops st d : bad_ibaddr a = false → runs (add_cmds (AddWibr a v) (mlist cp_base ops)) st d
    (CommandList.Size (mlist cp_base ops), mlist cp_base (ops ++ [MReg (IbusRemoteAddr a (sy_cpu t0)) v])) st d.
Proof. intros Ha t (s & -> & Hs). exists (sys_at t0 s d). split; [exact (add_wibr (sys_at t0 s d) ops a v Ha)|by exists s]. Qed.
Lemma runs_exec ops {B} (k : M Sys B) st d b st' d' :
  Forall (mop_ok csize) ops → ops ≠ [] → Z.of_nat (length ops) < 2 ^ 30 →
  runs k (mops_run (ms_mem st) ops st) d b st' d' → runs (exec_list (mlist cp_base ops) ≫= λ _, k) st d b st' d'.
Proof.
  intros Hok Hne Hlen Hk t (s & -> & Hs). destruct Hr as [R1 R2 R3 R4 R5].
  destruct (exec_mops _ _ _ ops t0 d Hs R1 R3 R4 Hok Hne Hlen) as (l & s' & Hx & Hs').
  rewrite (bind_Ret _ _ _ _ _ Hx). apply Hk. by exists s'.
Qed.
Lemma runs_exec_udb m ops {B} (k : M Sys B) st d b st' d' :
  runs (add_cmds m RlinkCommandList_ctor) st d (O, mlist cp_base ops) st d →
  Forall (mop_ok csize) ops → ops ≠ [] → Z.of_nat (length ops) < 2 ^ 30 →
  runs k (mops_run (ms_mem st) ops st) d b st' d' → runs (exec_udb m ≫= λ _, k) st d b st' d'.
Proof.
  intros Hm Hok Hne Hlen Hk. eapply runs_bind; [|exact Hk]. unfold exec_udb.
  eapply runs_bind; [exact Hm|]. cbn beta iota. apply runs_exec; [done..|]. apply runs_ret.
Qed.

(** ** The transmit ring *)

Definition pad_bits (d : DEUNA E) : Z := if Z.land (fMode d) kMODE_M_TPAD =? 0 then kTXR3_M_BUFL else 0.
(** The buffer of a frame made ready. *)
Definition final_mem (d : DEUNA E) (b : RethBuf) (m : Mem) : Mem :=
  let m := SetMacSource (nth 0 (fMacList d) 0) b m in
  if rb_fSize b <? kMinSize then
    let m := pad_frame b m in
    if Z.land (fMode d) kMODE_M_TPAD =? 0
    then mem_put (self + (oTxDscCur + 3)) (map (Z.lor kTXR3_M_BUFL) (mem_get m (self + (oTxDscCur + 3)) 1)) m else m
  else m.
Definition final_dev (d : DEUNA E) : DEUNA E :=
  if rb_fSize (fTxBuf d) <? kMinSize
  then d <| fTxBuf ::= SetSize kMinSize |> <| de_cntl ::= λ c, c <| cn_fStats ::= inc kStatNTxFraPad 1 |> |> else d.
Lemma runs_final d0 st d : runs (tx_final self d0) st d () (st <| ms_mem ::= final_mem d0 (fTxBuf d) |>) (final_dev d).
Proof.
  unfold tx_final, final_mem, final_dev. eapply runs_bind; [apply runs_get|].
  eapply runs_bind; [apply runs_mem_upd|]. destruct (rb_fSize (fTxBuf d) <? kMinSize); [|apply runs_ret].
  eapply runs_bind; [apply runs_mem_upd|]. eapply runs_bind; [apply runs_client|]. eapply runs_bind; [apply runs_dstat|].
  destruct (_ =? 0); [apply runs_set_bits|apply runs_ret].
Qed.
(** Counters of a frame. *)
Definition counted (fra mfra byt mbyt : Ctr → Z) `{!Setter fra, !Setter mfra, !Setter byt, !Setter mbyt}
    (n : Z) (mc : bool) (c : Ctr) : Ctr :=
  let c := c <| fra ::= add_sat 1 |> <| byt ::= add_sat n |> in
  if mc then c <| mfra ::= add_sat 1 |> <| mbyt ::= add_sat n |> else c.
Definition stat_dev (i : nat) (n : Z) (d : DEUNA E) : DEUNA E := d <| de_cntl ::= λ c, c <| cn_fStats ::= inc i n |> |>.
Definition stat32_dev (f : Ctr → Z) `{!Setter f} (i : nat) (n : Z) (d : DEUNA E) : DEUNA E :=
  stat_dev i n d <| de_ctr ::= λ c, c <| f ::= add_sat n |> |>.
Definition counted_dev (fra mfra byt mbyt : Ctr → Z) `{!Setter fra, !Setter mfra, !Setter byt, !Setter mbyt}
    (s1 s2 s3 s4 s5 : nat) (b : RethBuf) (m : Mem) (d : DEUNA E) : DEUNA E :=
  let d := stat32_dev byt s3 (rb_fSize b) (stat32_dev fra s1 1 d) in
  if IsMcast m b then
    let d := stat32_dev mbyt s4 (rb_fSize b) (stat32_dev mfra s2 1 d) in
    if IsBcast m b then stat_dev s5 1 d else d
  else d.
Lemma runs_stat32 (f : Ctr → Z) `{!Setter f} i n st d : runs (UpdateStat32 f i n) st d () st (stat32_dev f i n d).
Proof. unfold UpdateStat32. eapply runs_bind; [apply runs_client|exact (runs_client _ _ _)]. Qed.
Lemma runs_count (fra mfra byt mbyt : Ctr → Z) `{!Setter fra, !Setter mfra, !Setter byt, !Setter mbyt} s1 s2 s3 s4 s5 b st d :
  runs (count_frame fra mfra byt mbyt s1 s2 s3 s4 s5 b) st d () st
    (counted_dev fra mfra byt mbyt s1 s2 s3 s4 s5 b (ms_mem st) d).
Proof.
  unfold count_frame, counted_dev. eapply runs_bind; [apply runs_mem_of|].
  eapply runs_bind; [apply runs_stat32|]. eapply runs_bind; [apply runs_stat32|].
  destruct (IsMcast _ _); [|apply runs_ret]. eapply runs_bind; [apply runs_stat32|].
  eapply runs_bind; [apply runs_stat32|]. destruct (IsBcast _ _); [apply runs_dstat|apply runs_ret].
Qed.
(** The frame is sent, unless it is chosen to be lost. *)
Definition lost (loss : Float) (d : DEUNA E) : bool := Flt_bool (FFin 0) loss && Flt_bool (FFin (fRan d (fRanPos d))) loss.
Definition sent_dev (m : Mem) (d : DEUNA E) : DEUNA E :=
  match de_virt d with
  | None => d
  | Some v =>
      let d1 := if Flt_bool (FFin 0) (fTxLoss d) then d <| fRanPos ::= Datatypes.S |> else d in
      if lost (fTxLoss d) d then stat_dev kStatNTxFraLoss 1 d1
      else d1 <| de_virt := Some (eth_Snd (frame_bytes (rb_fSize (fTxBuf d)) m (fTxBuf d)) v).2 |>
  end.
Lemma runs_rand st d : runs rand st d (fRan d (fRanPos d)) st (d <| fRanPos ::= Datatypes.S |>).
Proof. intros t (s & -> & Hs). cbn [fst snd] in *. eexists. split; [reflexivity|]. by exists s. Qed.
Lemma runs_send st d : runs tx_send st d () st (sent_dev (ms_mem st) d).
Proof.
  unfold tx_send, sent_dev, lost. eapply runs_bind; [apply runs_get|]. eapply runs_bind; [apply runs_mem_of|].
  change (id d) with d. destruct (de_virt d) as [v|]; [|apply runs_ret]. destruct (Flt_bool (FFin 0) (fTxLoss d)).
  - eapply runs_bind; [eapply runs_bind; [apply runs_rand|apply runs_ret]|]. cbn [andb].
    destruct (Flt_bool (FFin (fRan d (fRanPos d))) (fTxLoss d)); [apply runs_dstat|exact (runs_client _ _ _)].
  - eapply runs_bind; [apply runs_ret|]. cbn [andb]. exact (runs_client _ _ _).
Qed.

(** The commands that give a descriptor back. *)
Definition done_ops (off : Z) (ring : Ring) (d : DEUNA E) (pr0out : Z) : list mop :=
  [MWrite (u32 (RingDscAddr (rg_index ring) ring + 4)) (self + (off + 2)) 2; MLabo;
   MRead (RingDscAddr (RingNext 1 ring) ring) (self + oCurNew) 3; MLabo;
   MRead (RingDscAddr (RingNext 2 ring) ring) (self + oNxtNew) 3; MLabo;
   MReg (IbusRemoteAddr (de_reg d kPR0) (sy_cpu t0)) pr0out].
Lemma runs_done off ring d0 pr0out ops st d : bad_ibaddr (de_reg d0 kPR0) = false →
  runs (dsc_done self off ring d0 pr0out (mlist cp_base ops)) st d
    (mlist cp_base (ops ++ done_ops off ring d0 pr0out)) st d.
Proof.
  intros Ha. unfold dsc_done, done_ops.
  eapply runs_bind; [apply runs_add_wmem; lia|]. cbn beta iota. eapply runs_bind; [apply runs_labo|]. cbn beta iota.
  eapply runs_bind; [apply runs_rmem; lia|]. cbn beta iota. eapply runs_bind; [apply runs_labo|]. cbn beta iota.
  eapply runs_bind; [apply runs_rmem; lia|]. cbn beta iota. eapply runs_bind; [apply runs_labo|]. cbn beta iota.
  eapply runs_bind; [by apply runs_wibr|]. cbn beta iota. rewrite <- !app_assoc. apply runs_ret.
Qed.

(** The descriptors of a ring are in the memory, its index is one of them, and
    the device can be told. *)
Record ring_in (ring : Ring) (d : DEUNA E) : Prop := {
  ri_size : 1 < rg_size ring < 2 ^ 15;
  ri_index : 0 <= rg_index ring < rg_size ring;
  ri_core i : 0 <= i < rg_size ring → in_core csize (RingDscAddr i ring) 4;
  ri_ibus : bad_ibaddr (de_reg d kPR0) = false;
  ri_reg : dev_reg (IbusRemoteAddr (de_reg d kPR0) (sy_cpu t0)) }.
Lemma RingNext_in k ring : 1 < rg_size ring < 2 ^ 15 → 0 <= rg_index ring < rg_size ring → 0 <= k <= rg_size ring →
  RingNext k ring = (rg_index ring + k) mod rg_size ring ∧ 0 <= RingNext k ring < rg_size ring.
Proof.
  intros Hs Hi Hk. unfold RingNext, RingIndexNext. change (2 ^ 15) with 32768 in *.
  rewrite u16_id by (unfold is_u16; lia). destruct (Z.leb_spec (rg_size ring) (rg_index ring + k)).
  - rewrite u16_id by (unfold is_u16; lia). split; [|lia].
    apply (Z.mod_unique _ _ 1); lia.
  - split; [symmetry; apply Z.mod_small; lia|lia].
Qed.
Lemma in_core_part size addr n off k : in_core size addr n → 0 <= off → off mod 2 = 0 →
  off + 2 * Z.of_nat k <= 2 * Z.of_nat n → in_core size (addr + off) k.
Proof. intros (H0 & He & Hl & Hn) Ho He' Hk. split_and!; [lia|Z.div_mod_to_equations; lia|lia|lia]. Qed.
Lemma in_core_u32 size addr n : in_core size addr n → u32 addr = addr.
Proof.
  intros (H0 & _ & Hl & _). unfold u32. change 0xffffffff with (Z.ones 32). rewrite Z.land_ones by done.
  apply Z.mod_small. change (2 ^ 32) with 4294967296. lia.
Qed.
Lemma done_ok off ring d pr0out : ring_in ring d → is_u16 pr0out →
  Forall (mop_ok csize) (done_ops off ring d pr0out) ∧
  u32 (RingDscAddr (rg_index ring) ring + 4) = RingDscAddr (rg_index ring) ring + 4.
Proof.
  intros [Hs Hi Hc Hib Hreg] Hp. pose proof (RingNext_in 1 ring Hs Hi ltac:(lia)) as [_ H1].
  pose proof (RingNext_in 2 ring Hs Hi ltac:(lia)) as [_ H2].
  assert (Hw : in_core csize (RingDscAddr (rg_index ring) ring + 4) 2) by (by apply (in_core_part _ _ 4); [apply Hc| | |]).
  assert (H3 : ∀ i, 0 <= i < rg_size ring → in_core csize (RingDscAddr i ring) 3).
  { intros i Hin. rewrite <- (Z.add_0_r (RingDscAddr i ring)). apply (in_core_part _ _ 4); [by apply Hc|done..]. }
  pose proof (in_core_u32 _ _ _ Hw) as Hu. split; [|done]. unfold done_ops. rewrite Hu.
  repeat (apply list.Forall_cons_2; [first [exact Hw|exact I|by apply H3|by split]|]). constructor.
Qed.

(** The link when a descriptor was given back, and the next two are in place. *)
Definition done_st (off : Z) (ring : Ring) (d : DEUNA E) (pr0out : Z) (st : mst) : mst :=
  mops_run (ms_mem st) (done_ops off ring d pr0out) st.
Definition next_mem (off : Z) (m : Mem) : Mem :=
  let m := mem_put (self + off) (mem_get m (self + oCurNew) 4) m in
  mem_put (self + (off + 4)) (mem_get m (self + oNxtNew) 4) m.
Lemma mem_get_3 m p : mem_get m p 3 = take 3 (mem_get m p 4).
Proof. done. Qed.
Lemma done_next off ring d pr0out st : ring_in ring d → 0 <= off <= 100 →
  let core := mput (RingDscAddr (rg_index ring) ring + 4) (mem_get (ms_mem st) (self + (off + 2)) 2) (ms_core st) in
  let st' := done_st off ring d pr0out st <| ms_mem ::= next_mem off |> in
  ms_core st' = core ∧
  ms_log st' = ms_log st ++ [(IbusRemoteAddr (de_reg d kPR0) (sy_cpu t0), pr0out)] ∧
  mem_get (ms_mem st') (self + off) 3 = mwords core (RingDscAddr (RingNext 1 ring) ring) 3 ∧
  mem_get (ms_mem st') (self + (off + 4)) 3 = mwords core (RingDscAddr (RingNext 2 ring) ring) 3.
Proof.
  intros Hin Hoff core st'. destruct (done_ok off ring d 0 Hin) as [_ Hu]; [done|].
  assert (Hst : done_st off ring d pr0out st = mkMst
    (mem_put (self + oNxtNew) (mwords core (RingDscAddr (RingNext 2 ring) ring) 3)
      (mem_put (self + oCurNew) (mwords core (RingDscAddr (RingNext 1 ring) ring) 3) (ms_mem st)))
    core (ms_log st ++ [(IbusRemoteAddr (de_reg d kPR0) (sy_cpu t0), pr0out)])).
  { unfold done_st, done_ops. rewrite Hu. reflexivity. }
  set (A1 := mwords core (RingDscAddr (RingNext 1 ring) ring) 3) in *.
  set (A2 := mwords core (RingDscAddr (RingNext 2 ring) ring) 3) in *.
  assert (L1 : length A1 = 3%nat) by apply length_mwords. assert (L2 : length A2 = 3%nat) by apply length_mwords.
  assert (U1 : Forall is_u16 A1) by apply mwords_u16. assert (U2 : Forall is_u16 A2) by apply mwords_u16.
  unfold st'. rewrite Hst. cbn [ms_core ms_log ms_mem update]. split; [done|]. split; [done|].
  unfold next_mem. set (m := mem_put (self + oNxtNew) A2 _).
  assert (G1 : mem_get m (self + oCurNew) 3 = A1).
  { unfold m. rewrite mem_get_other by (unfold oCurNew, oNxtNew; lia). rewrite <- L1. by apply mem_get_put. }
  assert (G2 : mem_get m (self + oNxtNew) 3 = A2) by (unfold m; rewrite <- L2; by apply mem_get_put).
  set (c1 := mem_get m (self + oCurNew) 4). set (m1 := mem_put (self + off) c1 m).
  assert (Lc : length c1 = 4%nat) by apply length_mem_get. assert (Uc : Forall is_u16 c1) by apply mem_get_u16.
  set (c2 := mem_get m1 (self + oNxtNew) 4).
  assert (Lc2 : length c2 = 4%nat) by apply length_mem_get. assert (Uc2 : Forall is_u16 c2) by apply mem_get_u16.
  split.
  - rewrite mem_get_other by lia. rewrite mem_get_3. unfold m1. rewrite <- Lc, mem_get_put by done. exact G1.
  - rewrite mem_get_3. rewrite <- Lc2, mem_get_put by done. unfold c2. rewrite <- mem_get_3. unfold m1.
    rewrite mem_get_other by (unfold oNxtNew; lia). exact G2.
Qed.
(** A descriptor of the transmit ring: its words, and the frame it names. *)
Definition tx_dsc2 (w2 : Z) : Z := Z.land w2 (Z.lor (Z.lor kTXR2_M_SEGB kTXR2_M_STF) kTXR2_M_ENF).
Definition tx_size (w0 : Z) : Z := if kMaxSize <? w0 then kMaxSize else w0.
Definition tx_words (w0 : Z) : Z := (tx_size w0 + 1) / 2.
Record tx_in (st : mst) (d : DEUNA E) (w0 w1 w2 w3 : Z) : Prop := {
  ti_ring : ring_in (fTxRing d) d;
  ti_dsc : mem_get (ms_mem st) (self + oTxDscCur) 4 = [w0; w1; w2; w3];
  ti_own : own w2 = true;
  ti_seg : in_core csize (seg_base w1 (tx_dsc2 w2)) (Z.to_nat (tx_words w0));
  ti_off : fTxBufOffset d = 0;
  ti_buf : rb_fBuf (fTxBuf d) = self + oTxBuf }.
Definition tx_loaded (d : DEUNA E) (w0 : Z) : DEUNA E :=
  d <| fTxBuf ::= λ b, SetTime (de_real d) (b <| rb_fSize := 0 |>) |> <| fTxBuf ::= SetSize (tx_size w0) |>.
(** The memory of the caller with the frame ready, and the status words of the
    descriptor. *)
Definition tx_mem1 (core : gmap Z Z) (d : DEUNA E) (w0 w1 w2 : Z) (m : Mem) : Mem :=
  final_mem d (fTxBuf (tx_loaded d w0))
    (mem_put (self + oTxBuf) (mwords core (seg_base w1 (tx_dsc2 w2)) (Z.to_nat (tx_words w0)))
       (mem_put (self + (oTxDscCur + 2)) [tx_dsc2 w2; if kMaxSize <? w0 then kTXR3_M_BUFL else 0] m)).
Definition tx_mem2 (core : gmap Z Z) (d : DEUNA E) (w0 w1 w2 : Z) (m : Mem) : Mem :=
  let m := tx_mem1 core d w0 w1 w2 m in
  if 0 <? MacFilter (MacDestination m (fTxBuf (final_dev (tx_loaded d w0)))) d
  then mem_put (self + (oTxDscCur + 2)) (map (Z.lor kTXR2_M_MTCH) (mem_get m (self + (oTxDscCur + 2)) 1)) m else m.
Lemma tx_range w0 : is_u16 w0 → 0 <= tx_size w0 <= kMaxSize ∧ 0 <= tx_words w0 <= 757 ∧ tx_size w0 <= 2 * tx_words w0.
Proof.
  intros [Hw _]. unfold tx_words, tx_size, kMaxSize. destruct (Z.ltb_spec 1514 w0); Z.div_mod_to_equations; lia.
Qed.
Lemma tx_in_w0 st d w0 w1 w2 w3 : tx_in st d w0 w1 w2 w3 → is_u16 w0.
Proof.
  intros [_ Hd]. pose proof (mem_get_u16 (ms_mem st) (self + oTxDscCur) 4) as Hu. rewrite Hd in Hu. by inversion Hu.
Qed.
(** The status word of a descriptor that is given back. *)
Definition tx_stat3 (w0 : Z) (d : DEUNA E) : Z :=
  if kMaxSize <? w0 then kTXR3_M_BUFL else if tx_size w0 <? kMinSize then pad_bits d else 0.
Definition tx_raw (core : gmap Z Z) (w0 w1 w2 : Z) : list Z :=
  words_bytes (mwords core (seg_base w1 (tx_dsc2 w2)) (Z.to_nat (tx_words w0))).
Definition tx_sends (core : gmap Z Z) (d : DEUNA E) (w0 w1 w2 : Z) : list Z :=
  tx_frame (nth 0 (fMacList d) 0) (tx_size w0) (tx_raw core w0 w1 w2).
Definition tx_buf (d : DEUNA E) (w0 : Z) : RethBuf := fTxBuf (final_dev (tx_loaded d w0)).
Lemma tx_buf_ok d w0 : is_u16 w0 → rb_fBuf (tx_buf d w0) = rb_fBuf (fTxBuf d) ∧
  rb_fSize (fTxBuf (tx_loaded d w0)) = tx_size w0 ∧ rb_fSize (tx_buf d w0) = Z.max (tx_size w0) 60.
Proof.
  intros Hw. pose proof (tx_range w0 Hw) as (Hsz & _). unfold tx_buf.
  assert (Hu : rb_fSize (fTxBuf (tx_loaded d w0)) = tx_size w0) by (apply u16_id; unfold is_u16, kMaxSize in *; lia).
  split; [unfold final_dev; by destruct (_ <? kMinSize)|]. split; [done|].
  unfold final_dev. rewrite Hu. unfold kMinSize. destruct (Z.ltb_spec (tx_size w0) 60).
  - change (60 = Z.max (tx_size w0) 60). lia.
  - rewrite Hu. lia.
Qed.
(** The memory with the status words as they are at first, and with the frame. *)
Definition tx_mem0 (w0 w2 : Z) (m : Mem) : Mem :=
  mem_put (self + (oTxDscCur + 2)) [tx_dsc2 w2; if kMaxSize <? w0 then kTXR3_M_BUFL else 0] m.
Definition tx_padded (core : gmap Z Z) (d : DEUNA E) (w0 w1 w2 : Z) (m : Mem) : Mem :=
  let b := tx_buf d w0 in
  let m := SetMacSource (nth 0 (fMacList d) 0) b
    (mem_put (rb_fBuf b) (mwords core (seg_base w1 (tx_dsc2 w2)) (Z.to_nat (tx_words w0))) (tx_mem0 w0 w2 m)) in
  if tx_size w0 <? 60 then put_bytes (tx_size w0) (replicate (Z.to_nat (60 - tx_size w0)) 0) b m else m.
Lemma put_bytes_buf bs : ∀ off b b' m, rb_fBuf b = rb_fBuf b' → put_bytes off bs b m = put_bytes off bs b' m.
Proof. induction bs as [|x bs IH]; intros off b b' m Hb; [done|]. cbn [put_bytes]. unfold Buf16. rewrite Hb. by apply IH. Qed.
Lemma tx_mem1_eq core d w0 w1 w2 m : is_u16 w0 → rb_fBuf (fTxBuf d) = self + oTxBuf →
  let mb := tx_padded core d w0 w1 w2 m in
  tx_mem1 core d w0 w1 w2 m = if (tx_size w0 <? 60) && (Z.land (fMode d) kMODE_M_TPAD =? 0)
    then mem_put (self + (oTxDscCur + 3)) (map (Z.lor kTXR3_M_BUFL) (mem_get mb (self + (oTxDscCur + 3)) 1)) mb else mb.
Proof.
  intros Hw Hbuf. destruct (tx_buf_ok d w0 Hw) as (Hb & Hl & _). rewrite Hbuf in Hb.
  unfold tx_mem1, final_mem, tx_padded, SetMacSource, pad_frame, tx_mem0. rewrite Hl, Hb. unfold kMinSize.
  change (rb_fBuf (fTxBuf (tx_loaded d w0))) with (rb_fBuf (fTxBuf d)). rewrite Hbuf.
  destruct (tx_size w0 <? 60); [|done]. cbn [andb].
  rewrite !(put_bytes_buf _ _ (fTxBuf (tx_loaded d w0)) (tx_buf d w0)); [done|].
  rewrite Hb. exact Hbuf.
Qed.
Lemma land_u16 x c : is_u16 c → is_u16 (Z.land x c).
Proof. intros Hc. rewrite <- (u16_id c) by done. unfold u16. rewrite Z.land_assoc. apply u16_range. Qed.
Lemma tx_mem1_ok core d w0 w1 w2 m : is_u16 w0 → rb_fBuf (fTxBuf d) = self + oTxBuf →
  let m1 := tx_mem1 core d w0 w1 w2 m in
  frame_bytes (rb_fSize (tx_buf d w0)) m1 (tx_buf d w0) = tx_sends core d w0 w1 w2 ∧
  mem_get m1 (self + (oTxDscCur + 2)) 2 = [tx_dsc2 w2; tx_stat3 w0 d].
Proof.
  intros Hw Hbuf m1. pose proof (tx_range w0 Hw) as (Hsz & Hwd & Hodd).
  destruct (tx_buf_ok d w0 Hw) as (Hb & _ & Hs). rewrite Hbuf in Hb. pose proof (tx_mem1_eq core d w0 w1 w2 m Hw Hbuf) as Hm1.
  fold m1 in Hm1. set (mb := tx_padded core d w0 w1 w2 m) in *. cbv zeta in Hm1.
  set (ws := mwords core (seg_base w1 (tx_dsc2 w2)) (Z.to_nat (tx_words w0))).
  assert (Hlw : length ws = Z.to_nat (tx_words w0)) by apply length_mwords.
  assert (Hfr : frame_bytes (Z.max (tx_size w0) 60) mb (tx_buf d w0) = tx_sends core d w0 w1 w2).
  { apply tx_frame_mem; [fold ws; lia|apply mwords_u16]. }
  assert (Hlow : ∀ x, x < self + oTxBuf → mb !! x = tx_mem0 w0 w2 m !! x).
  { intros x Hx. unfold mb, tx_padded. set (ma := SetMacSource _ _ _). assert (Ha : ma !! x = tx_mem0 w0 w2 m !! x).
    { unfold ma, SetMacSource. rewrite Hb. change (kEOffSrcMac / 2) with 3. rewrite !mem_put_other by lia. done. }
    destruct (_ <? 60); [|done]. rewrite put_bytes_other; [done|lia|left; by rewrite Hb]. }
  set (stat := if kMaxSize <? w0 then kTXR3_M_BUFL else 0) in *.
  assert (Hst : mem_get mb (self + (oTxDscCur + 2)) 2 = [tx_dsc2 w2; stat]).
  { rewrite (mem_get_ext 2 mb (tx_mem0 w0 w2 m)); [|intros x Hx; apply Hlow; unfold oTxBuf, oTxDscCur in *; lia].
    apply (mem_get_put [_; _]). constructor; [by apply land_u16|]. constructor; [|done]. unfold stat. by destruct (_ <? w0). }
  assert (Hst3 : mem_get mb (self + (oTxDscCur + 3)) 1 = [stat]).
  { cbn [mem_get] in Hst |- *. replace (self + (oTxDscCur + 2) + 1) with (self + (oTxDscCur + 3)) in Hst by lia. by injection Hst as _ ->. }
  rewrite Hs, Hm1, Hst3. unfold tx_stat3, pad_bits, kMinSize. cbn [map].
  destruct (tx_size w0 <? 60), (Z.land (fMode d) kMODE_M_TPAD =? 0); cbn [andb]; try by split. split.
  - rewrite (frame_bytes_ext _ _ mb); [done|]. intros q Hq. rewrite Hb in Hq. apply mem_put_other.
    right. unfold oTxBuf, oTxDscCur in *. simpl length. lia.
  - assert (El : Z.lor kTXR3_M_BUFL stat = kTXR3_M_BUFL) by (unfold stat; by destruct (_ <? w0)). rewrite El.
    cbn [mem_get mem_put] in Hst |- *. injection Hst as E1 _. rewrite lookup_insert_ne, E1 by lia.
    replace (self + (oTxDscCur + 2) + 1) with (self + (oTxDscCur + 3)) by lia. rewrite lookup_insert_eq.
    by destruct (_ <? w0).
Qed.
(** A match with the address lists is marked. *)
Definition tx_match (core : gmap Z Z) (d : DEUNA E) (w0 w1 w2 : Z) : Z :=
  if 0 <? MacFilter (frame_dst (tx_sends core d w0 w1 w2)) d then kTXR2_M_MTCH else 0.
Lemma tx_mem2_ok core d w0 w1 w2 m : is_u16 w0 → rb_fBuf (fTxBuf d) = self + oTxBuf →
  let m2 := tx_mem2 core d w0 w1 w2 m in
  frame_bytes (rb_fSize (tx_buf d w0)) m2 (tx_buf d w0) = tx_sends core d w0 w1 w2 ∧
  mem_get m2 (self + (oTxDscCur + 2)) 2 = [Z.lor (tx_match core d w0 w1 w2) (tx_dsc2 w2); tx_stat3 w0 d] ∧
  IsMcast m2 (tx_buf d w0) = frame_mcast (tx_sends core d w0 w1 w2).
Proof.
  intros Hw Hbuf m2. destruct (tx_buf_ok d w0 Hw) as (Hb & _ & Hs). rewrite Hbuf in Hb.
  destruct (tx_mem1_ok core d w0 w1 w2 m Hw Hbuf) as [Hf Hst]. set (m1 := tx_mem1 core d w0 w1 w2 m) in *.
  destruct (frame_says (rb_fSize (tx_buf d w0)) m1 (tx_buf d w0) ltac:(lia)) as [Hd _]. rewrite Hf in Hd.
  assert (Hm2 : m2 = if 0 <? MacFilter (frame_dst (tx_sends core d w0 w1 w2)) d
    then mem_put (self + (oTxDscCur + 2)) (map (Z.lor kTXR2_M_MTCH) (mem_get m1 (self + (oTxDscCur + 2)) 1)) m1 else m1).
  { unfold m2, tx_mem2. fold m1. change (fTxBuf (final_dev (tx_loaded d w0))) with (tx_buf d w0). by rewrite Hd. }
  assert (Hf2 : frame_bytes (rb_fSize (tx_buf d w0)) m2 (tx_buf d w0) = tx_sends core d w0 w1 w2).
  { rewrite Hm2. destruct (0 <? _); [|done]. rewrite (frame_bytes_ext _ _ m1); [done|]. intros q Hq. rewrite Hb in Hq.
    apply mem_put_other. right. unfold oTxBuf, oTxDscCur in *. simpl length. lia. }
  split; [done|]. split; [|by rewrite <- Hf2; apply frame_says; lia].
  rewrite Hm2. unfold tx_match. destruct (0 <? _); [|by rewrite Hst, Z.lor_0_l].
  cbn [mem_get mem_put map] in Hst |- *. injection Hst as E1 E2. rewrite E1.
  rewrite lookup_insert_eq, lookup_insert_ne, E2 by lia. f_equal. cbn [default from_option]. apply u16_id, lor_u16; [done|by apply land_u16].
Qed.
(** The controller behind a turn: nothing but the statistics, the device, the
    buffer, the counters, the index and the state of the ring has changed. *)
Definition tx_rest (d d' : DEUNA E) : Prop :=
  d' <| de_cntl := de_cntl d |> <| de_virt := de_virt d |> <| fTxBuf := fTxBuf d |> <| de_ctr := de_ctr d |>
     <| fTxRing ::= λ r, r <| rg_index := rg_index (fTxRing d) |> |> <| fTxRingState := fTxRingState d |>
     <| fRanPos := fRanPos d |> = d.
Definition tx_dev (core : gmap Z Z) (d : DEUNA E) (w0 w1 w2 : Z) (m : Mem) : DEUNA E :=
  let b := tx_buf d w0 in
  sent_dev m (counted_dev fCtrTxFra fCtrTxFraMcast fCtrTxByt fCtrTxBytMcast
    kStatNTxFra kStatNTxFraMcast kStatNTxByt kStatNTxBytMcast kStatNTxFraBcast b m (final_dev (tx_loaded d w0)))
  <| fTxRing ::= λ r, r <| rg_index := RingNext 1 r |> |>.
Lemma tx_dev_ok core d w0 w1 w2 m : is_u16 w0 → rb_fBuf (fTxBuf d) = self + oTxBuf →
  let f := tx_sends core d w0 w1 w2 in let m2 := tx_mem2 core d w0 w1 w2 m in let d' := tx_dev core d w0 w1 w2 m2 in
  de_virt d' = (match de_virt d with
                | None => None | Some v => Some (if lost (fTxLoss d) d then v else (eth_Snd f v).2) end) ∧
  de_ctr d' = counted fCtrTxFra fCtrTxFraMcast fCtrTxByt fCtrTxBytMcast (Z.max (tx_size w0) 60) (frame_mcast f) (de_ctr d) ∧
  rg_index (fTxRing d') = RingNext 1 (fTxRing d) ∧ fTxRingState d' = fTxRingState d ∧ tx_rest d d'.
Proof.
  intros Hw Hbuf f m2 d'. destruct (tx_buf_ok d w0 Hw) as (_ & _ & Hs).
  destruct (tx_mem2_ok core d w0 w1 w2 m Hw Hbuf) as (Hf & _ & Hm). fold m2 f in Hf, Hm.
  set (d1 := counted_dev fCtrTxFra fCtrTxFraMcast fCtrTxByt fCtrTxBytMcast
    kStatNTxFra kStatNTxFraMcast kStatNTxByt kStatNTxBytMcast kStatNTxFraBcast (tx_buf d w0) m2 (final_dev (tx_loaded d w0))).
  assert (H1 : de_virt d1 = de_virt d ∧ fTxLoss d1 = fTxLoss d ∧ fRan d1 = fRan d ∧ fRanPos d1 = fRanPos d ∧
    fTxBuf d1 = tx_buf d w0 ∧ fTxRing d1 = fTxRing d ∧ fTxRingState d1 = fTxRingState d ∧ tx_rest d d1 ∧
    de_ctr d1 = counted fCtrTxFra fCtrTxFraMcast fCtrTxByt fCtrTxBytMcast (Z.max (tx_size w0) 60) (frame_mcast f) (de_ctr d)).
  { rewrite <- Hm, <- Hs. unfold d1, counted_dev, counted, tx_buf, tx_rest, final_dev, tx_loaded.
    destruct (IsMcast _ _); [destruct (IsBcast _ _)|]; destruct (_ <? kMinSize); split_and!; try done;
      destruct d as [? ? ? ? ? ? [] ? ? ? ? ? ? ? ? ? ? ? ? ? ? ? ? ? ? ? ? ? ? ? ? ? ? ? ? ? ?]; reflexivity. }
  destruct H1 as (V1 & V2 & V3 & V4 & V5 & V6 & V7 & V8 & V9).
  assert (Hl : lost (fTxLoss d1) d1 = lost (fTxLoss d) d) by (unfold lost; by rewrite V2, V3, V4).
  unfold d', tx_dev, sent_dev. fold d1. rewrite V1, Hl, V2. clearbody d1. destruct (de_virt d) as [v|].
  - rewrite V5, Hf. destruct (lost (fTxLoss d) d), (Flt_bool (FFin 0) (fTxLoss d)); split_and!; try done; simpl; by rewrite ?V1, ?V6, ?V7, ?V9.
  - split_and!; try done; simpl; by rewrite V6.
Qed.

Definition reg_pr0 (d : DEUNA E) : Z := IbusRemoteAddr (de_reg d kPR0) (sy_cpu t0).
(** A turn gives the descriptor back with its status, tells the interrupt, and
    loads the next two. *)
Record given_back (off : Z) (ring : Ring) (status : list Z) (d : DEUNA E) (pr0out : Z) (core : gmap Z Z) (st st' : mst) : Prop := {
  gb_core : ms_core st' = mput (RingDscAddr (rg_index ring) ring + 4) status core;
  gb_log : ms_log st' = ms_log st ++ [(reg_pr0 d, pr0out)];
  gb_cur : mem_get (ms_mem st') (self + off) 3 = mwords (ms_core st') (RingDscAddr (RingNext 1 ring) ring) 3;
  gb_nxt : mem_get (ms_mem st') (self + (off + 4)) 3 = mwords (ms_core st') (RingDscAddr (RingNext 2 ring) ring) 3 }.
Lemma runs_tx_turn st d w0 w1 w2 w3 : tx_in st d w0 w1 w2 w3 →
  let core := ms_core st in
  let m2 := tx_mem2 core d w0 w1 w2 (ms_mem st) in
  let d2 := tx_dev core d w0 w1 w2 m2 in
  ∃ st', given_back oTxDscCur (fTxRing d) [Z.lor (tx_match core d w0 w1 w2) (tx_dsc2 w2); tx_stat3 w0 d] d kPR0_M_TXI core st st' ∧
  if own (nth 2 (mem_get (ms_mem st') (self + oTxDscCur) 3) 0)
  then runs (TxRingTurn self d) st d 1 st' (d2 <| fTxRingState := kStateTxBusy |>)
  else runs (TxRingTurn self d) st d 0 st' d2.
Proof.
  intros Hin core m2 d2. pose proof (tx_in_w0 _ _ _ _ _ _ Hin) as Hw. pose proof (tx_range w0 Hw) as (Hsz & Hwd & Hodd).
  destruct Hin as [Hring Hdsc Hown Hseg Hoff Hbuf].
  set (st2 := st <| ms_mem ::= tx_mem2 core d w0 w1 w2 |>).
  destruct (tx_mem2_ok core d w0 w1 w2 (ms_mem st) Hw Hbuf) as (_ & Hst & _).
  destruct (done_next oTxDscCur (fTxRing d) d kPR0_M_TXI st2 Hring) as (N1 & N2 & N3 & N4); [by unfold oTxDscCur|].
  set (st' := done_st oTxDscCur (fTxRing d) d kPR0_M_TXI st2 <| ms_mem ::= next_mem oTxDscCur |>) in *.
  fold m2 in Hst. change (ms_mem st2) with m2 in N1, N3, N4. change (ms_core st2) with core in N1, N3, N4.
  rewrite Hst in N1, N3, N4. exists st'. split; [by split; rewrite ?N1|].
  set (turn := TxRingTurn self d).
  assert (Hrun : ∀ r d3, runs (if own (nth 2 (mem_get (ms_mem st') (self + oTxDscCur) 3) 0)
      then client (λ d, d <| fTxRingState := kStateTxBusy |>) ;; mret 1 else mret 0 : M Sys Z) st' d2 r st' d3 →
    runs turn st d r st' d3).
  { intros r d3 Hk. unfold turn, TxRingTurn.
    eapply runs_bind; [apply runs_array|]. change (Z.to_nat 4) with 4%nat. rewrite Hdsc. cbn [nth]. cbv zeta. rewrite Hown. cbn [negb].
    rewrite Hoff. cbn [Z.eqb]. eapply runs_bind; [apply runs_client|]. fold (tx_dsc2 w2) (tx_size w0) (tx_words w0).
    eapply runs_bind; [apply runs_set_array|].
    eapply (runs_exec_udb _ [MRead _ _ _]); [apply (runs_rmem _ _ _ []); lia|by apply list.Forall_cons_2|done|done|].
    eapply runs_bind; [apply runs_client|]. eapply runs_bind; [apply (runs_done _ _ _ _ []), Hring|].
    eapply runs_bind; [apply runs_final|]. eapply runs_bind; [apply runs_get|]. eapply runs_bind; [apply runs_mem_of|].
    eapply (runs_bind _ _ _ _ () st2).
    { match goal with |- runs (if ?c then _ else _) ?s ?e _ _ _ => set (cond := c); set (s1 := s); set (e1 := e) end.
      assert (Hs2 : st2 = if cond then s1 <| ms_mem ::= λ m, mem_put (self + (oTxDscCur + 2))
        (map (Z.lor kTXR2_M_MTCH) (mem_get m (self + (oTxDscCur + 2)) 1)) m |> else s1).
      { change s1 with (st <| ms_mem ::= tx_mem1 core d w0 w1 w2 |>). unfold st2, tx_mem2.
        change (0 <? MacFilter (MacDestination (tx_mem1 core d w0 w1 w2 (ms_mem st)) (fTxBuf (final_dev (tx_loaded d w0)))) d)
          with cond. cbn. change cond with (0 <? MacFilter (MacDestination (tx_mem1 core d w0 w1 w2 (ms_mem st)) (tx_buf d w0)) d).
        by destruct (0 <? _). }
      rewrite Hs2. destruct cond; [apply runs_set_bits|apply runs_ret]. }
    eapply runs_bind; [apply runs_count|]. eapply runs_bind; [apply runs_send|].
    apply runs_exec; [by apply done_ok|done|done|]. eapply runs_bind; [apply runs_client|].
    eapply runs_bind; [apply runs_set_dsc|]. eapply runs_bind; [apply runs_set_dsc|].
    eapply runs_bind; [apply runs_array|]. exact Hk. }
  destruct (own (nth 2 (mem_get _ _ 3) 0)); apply Hrun; [|apply runs_ret]. eapply runs_bind; [apply runs_client|apply runs_ret].
Qed.

(** ** The receive ring *)

Definition rx_dsc2 (w2 : Z) : Z := Z.land w2 kRXR2_M_SEGB.
(** The size of a frame with the padding, and how much of it fits. *)
Definition rx_len (b : RethBuf) : Z := Z.max (rb_fSize b) 60.
Definition rx_size (w0 : Z) (b : RethBuf) : Z := if w0 <? rx_len b then w0 else rx_len b.
Definition rx_words (w0 : Z) (b : RethBuf) : Z := (rx_size w0 b + 1) / 2.
Definition rx_stat3 (w0 : Z) (b : RethBuf) : Z :=
  Z.lor (if w0 <? rx_len b then kRXR3_M_BUFL else 0) (u16 (rx_size w0 b + kCrcSize)).
Definition rx_status (w0 w2 : Z) (b : RethBuf) : list Z :=
  [Z.lor (rx_dsc2 w2) (Z.lor kRXR2_M_STF kRXR2_M_ENF); rx_stat3 w0 b].
Record rx_in (st : mst) (d : DEUNA E) (b : RethBuf) (q : list RethBuf) (w0 w1 w2 w3 : Z) : Prop := {
  xi_ring : ring_in (fRxRing d) d;
  xi_dsc : mem_get (ms_mem st) (self + oRxDscCur) 4 = [w0; w1; w2; w3];
  xi_own : own w2 = true;
  xi_seg : in_core csize (seg_base w1 (rx_dsc2 w2)) (Z.to_nat (rx_words w0 b));
  xi_off : fRxBufOffset d = 0;
  xi_queue : fRxBufQueue d = b :: q;
  xi_frame : frame_ok b;
  xi_apart : rb_fBuf b + 757 <= self ∨ self + 1000 <= rb_fBuf b;
  xi_timer : tm_open (fRxPollTimer d) = true ∧ IsPositive (fRxPollTime d) = true }.
(** The frame, in the state of the controller and in the memory. *)
Definition rx_padbuf (b : RethBuf) : RethBuf := if rb_fSize b <? kMinSize then SetSize kMinSize b else b.
Definition rx_padmem (b : RethBuf) (m : Mem) : Mem := if rb_fSize b <? kMinSize then pad_frame b m else m.
Definition rx_taken (b : RethBuf) (q : list RethBuf) (d : DEUNA E) : DEUNA E :=
  let d := d <| fRxBufCurr := Some b |> <| fRxBufQueue := q |> in
  if rb_fSize b <? kMinSize then stat_dev kStatNRxFraPad 1 (d <| fRxBufCurr := Some (SetSize kMinSize b) |>) else d.
Definition rx_mem (b : RethBuf) (w0 w2 : Z) (m : Mem) : Mem :=
  mem_put (self + (oRxDscCur + 2)) (rx_status w0 w2 b) (rx_padmem b m).
Definition rx_dev (b : RethBuf) (q : list RethBuf) (m : Mem) (d : DEUNA E) : DEUNA E :=
  counted_dev fCtrRxFra fCtrRxFraMcast fCtrRxByt fCtrRxBytMcast
    kStatNRxFra kStatNRxFraMcast kStatNRxByt kStatNRxBytMcast kStatNRxFraBcast (rx_padbuf b) m (rx_taken b q d)
  <| fRxRing ::= λ r, r <| rg_index := RingNext 1 r |> |>.
Definition rx_seg (b : RethBuf) (w0 w1 w2 : Z) : mop :=
  MWrite (seg_base w1 (rx_dsc2 w2)) (rb_fBuf b) (Z.to_nat (rx_words w0 b)).
(** What follows a turn. *)
Definition rx_next (q : list RethBuf) (dsc : list Z) (d : DEUNA E) : Z * DEUNA E :=
  if bool_decide (q = []) then (0, d)
  else if own (nth 2 dsc 0) then (1, d <| fRxRingState := kStateRxBusy |>)
  else (0, d <| fRxRingState := kStateRxPoll |> <| fRxPollTimer ::= λ tm, tm <| tm_set := Some (fRxPollTime d) |> |>).
Lemma runs_pad b st d : runs (rx_pad b) st d (rx_padbuf b) (st <| ms_mem ::= rx_padmem b |>)
  (if rb_fSize b <? kMinSize then stat_dev kStatNRxFraPad 1 (d <| fRxBufCurr := Some (SetSize kMinSize b) |>) else d).
Proof.
  unfold rx_pad, rx_padbuf, rx_padmem. destruct (_ <? kMinSize); [|destruct st; apply runs_ret].
  eapply runs_bind; [apply runs_mem_upd|]. eapply runs_bind; [apply runs_client|].
  eapply runs_bind; [apply runs_dstat|]. apply runs_ret.
Qed.
Lemma runs_relative dt st d : tm_open (fRxPollTimer d) = true → IsPositive dt = true →
  runs (TimerSetRelative dt) st d () st (d <| fRxPollTimer ::= λ tm, tm <| tm_set := Some dt |> |>).
Proof.
  intros Ho Hp. unfold TimerSetRelative, timer_open, timer, throw_if. rewrite Hp.
  eapply runs_bind; [eapply runs_bind; [apply runs_get|]; rewrite Ho; apply runs_ret|].
  eapply runs_bind; [apply runs_ret|]. exact (runs_client _ _ _).
Qed.
Lemma rx_range w0 b : is_u16 w0 → frame_ok b → rb_fSize (rx_padbuf b) = rx_len b ∧ 60 <= rx_len b <= kMaxSize ∧
  0 <= rx_size w0 b <= rx_len b ∧ 0 <= rx_words w0 b <= 757 ∧ rx_size w0 b <= 2 * rx_words w0 b.
Proof.
  intros [Hw _] Hf. unfold frame_ok, rx_words, rx_size, rx_len, rx_padbuf, kMaxSize, kMinSize in *.
  split; [destruct (Z.ltb_spec (rb_fSize b) 60); [change (60 = Z.max (rb_fSize b) 60)|]; lia|].
  destruct (Z.ltb_spec w0 (Z.max (rb_fSize b) 60)); Z.div_mod_to_equations; lia.
Qed.
Lemma runs_rx_frame st d b q : fRxBufOffset d = 0 → fRxBufQueue d = b :: q →
  runs rx_frame st d (Some b) st (d <| fRxBufCurr := Some b |> <| fRxBufQueue := q |>).
Proof.
  intros Ho Hq. unfold rx_frame. eapply runs_bind; [apply runs_get|]. change (id d) with d. rewrite Ho, Hq. cbn [Z.eqb].
  eapply runs_bind; [apply runs_client|]. apply runs_ret.
Qed.
Lemma rx_status_u16 w0 w2 b : Forall is_u16 (rx_status w0 w2 b).
Proof.
  constructor; [apply lor_u16; [by apply land_u16|done]|]. constructor; [|done].
  unfold rx_stat3. apply lor_u16; [by destruct (_ <? _)|apply u16_range].
Qed.
Lemma runs_rx_turn st d b q w0 w1 w2 w3 : rx_in st d b q w0 w1 w2 w3 →
  let m2 := rx_mem b w0 w2 (ms_mem st) in
  let words := mem_get m2 (rb_fBuf b) (Z.to_nat (rx_words w0 b)) in
  let d2 := rx_dev b q m2 d in
  ∃ st', given_back oRxDscCur (fRxRing d) (rx_status w0 w2 b) d kPR0_M_RXI
      (mput (seg_base w1 (rx_dsc2 w2)) words (ms_core st)) st st' ∧
    let '(r, d3) := rx_next q (mem_get (ms_mem st') (self + oRxDscCur) 3) d2 in runs (RxRingTurn self d) st d r st' d3.
Proof.
  intros Hin m2 words d2. destruct Hin as [Hring Hdsc Hown Hseg Hoff Hq Hfr Hap [Hto Hpt]].
  assert (Hw : is_u16 w0) by (pose proof (mem_get_u16 (ms_mem st) (self + oRxDscCur) 4) as Hu; rewrite Hdsc in Hu; by inversion Hu).
  destruct (rx_range w0 b Hw Hfr) as (Hlen & Hl & Hs & Hwd & Hodd).
  set (core1 := mput (seg_base w1 (rx_dsc2 w2)) words (ms_core st)).
  set (st3 := st <| ms_mem := m2 |> <| ms_core := core1 |>).
  destruct (done_next oRxDscCur (fRxRing d) d kPR0_M_RXI st3 Hring) as (N1 & N2 & N3 & N4); [by unfold oRxDscCur|].
  change (ms_core st3) with core1 in N1, N3, N4.
  assert (Hst : mem_get (ms_mem st3) (self + (oRxDscCur + 2)) 2 = rx_status w0 w2 b) by apply mem_get_put, rx_status_u16.
  rewrite Hst in N1, N3, N4.
  set (st' := done_st oRxDscCur (fRxRing d) d kPR0_M_RXI st3 <| ms_mem ::= next_mem oRxDscCur |>) in *.
  exists st'. split; [by split; rewrite ?N1|]. set (turn := RxRingTurn self d).
  assert (Hrun : ∀ r d3, runs (if bool_decide (q = []) then mret 0
      else if negb (own (nth 2 (mem_get (ms_mem st') (self + oRxDscCur) 3) 0)) then
        client (λ d, d <| fRxRingState := kStateRxPoll |>) ;; time ← get_client fRxPollTime; TimerSetRelative time ;; mret 0
      else client (λ d, d <| fRxRingState := kStateRxBusy |>) ;; mret 1 : M Sys Z) st' d2 r st' d3 →
    runs turn st d r st' d3).
  { intros r d3 Hk. unfold turn, RxRingTurn.
    eapply runs_bind; [apply runs_array|]. change (Z.to_nat 4) with 4%nat. rewrite Hdsc. cbn [nth]. cbv zeta. rewrite Hown. cbn [negb].
    eapply runs_bind; [by apply runs_rx_frame|]. cbn iota. eapply runs_bind; [apply runs_pad|]. rewrite Hlen.
    fold (rx_dsc2 w2) (rx_size w0 b). fold (rx_stat3 w0 b) (rx_words w0 b). fold (rx_status w0 w2 b).
    eapply runs_bind; [apply runs_set_array|].
    eapply runs_bind; [apply (runs_add_wmem _ _ _ []); lia|]. cbn beta iota. eapply runs_bind; [apply runs_labo|]. cbn beta iota.
    eapply runs_bind; [apply runs_done, Hring|]. eapply runs_bind; [apply runs_count|].
    assert (Hb : rb_fBuf (rx_padbuf b) = rb_fBuf b) by (unfold rx_padbuf; by destruct (_ <? kMinSize)). rewrite Hb.
    apply runs_exec; [|done|done|].
    { cbn [app]. apply list.Forall_cons_2; [exact Hseg|]. apply list.Forall_cons_2; [done|]. by apply done_ok. }
    match goal with |- runs _ ?s _ _ _ _ => change s with (done_st oRxDscCur (fRxRing d) d kPR0_M_RXI st3) end.
    match goal with |- runs _ _ (counted_dev _ _ _ _ _ _ _ _ _ _ ?m ?x) _ _ _ => change m with m2; change x with (rx_taken b q d) end.
    eapply runs_bind; [apply runs_client|].
    eapply runs_bind; [apply runs_set_dsc|]. eapply runs_bind; [apply runs_set_dsc|]. fold (rx_dev b q m2 d). fold d2.
    eapply runs_bind; [apply runs_get|]. eapply runs_bind; [apply runs_array|].
    assert (Hq2 : fRxBufQueue d2 = q).
    { unfold d2, rx_dev, counted_dev, rx_taken. destruct (IsMcast _ _); [destruct (IsBcast _ _)|]; by destruct (_ <? kMinSize). }
    rewrite Hq2. exact Hk. }
  unfold rx_next. destruct (bool_decide (q = [])); [apply Hrun, runs_ret|].
  destruct (own (nth 2 (mem_get _ _ 3) 0)); apply Hrun; cbn [negb].
  - eapply runs_bind; [apply runs_client|apply runs_ret].
  - eapply runs_bind; [apply runs_client|]. eapply runs_bind; [apply runs_get|].
    assert (Hd2 : tm_open (fRxPollTimer d2) = true ∧ fRxPollTime d2 = fRxPollTime d).
    { unfold d2, rx_dev, counted_dev, rx_taken. destruct (IsMcast _ _); [destruct (IsBcast _ _)|]; by destruct (_ <? kMinSize). }
    destruct Hd2 as [Ho2 Ht2]. eapply runs_bind; [apply runs_relative|apply runs_ret]; [done|].
    change (IsPositive (fRxPollTime d2) = true). by rewrite Ht2.
Qed.

(** The bytes of a received frame, with zeros up to the least size. *)
Definition rx_bytes (m : Mem) (b : RethBuf) : list Z :=
  let f := frame_bytes (rb_fSize b) m b in f ++ replicate (60 - length f) 0.
Lemma rx_bytes_length m b : frame_ok b → Z.of_nat (length (rx_bytes m b)) = rx_len b.
Proof.
  intros [Hf _]. unfold rx_bytes, rx_len, frame_bytes. rewrite length_app, length_replicate, length_map, length_seq. lia.
Qed.
Lemma rx_bytes_nth m b i : frame_ok b → nth i (rx_bytes m b) 0 = if Z.of_nat i <? rb_fSize b then GetB (Z.of_nat i) m b else 0.
Proof.
  intros [Hf _]. unfold rx_bytes. assert (Hl : length (frame_bytes (rb_fSize b) m b) = Z.to_nat (rb_fSize b)).
  { unfold frame_bytes. by rewrite length_map, length_seq. }
  rewrite nth_app, Hl, nth_replicate. destruct (Z.ltb_spec (Z.of_nat i) (rb_fSize b)).
  - rewrite (proj2 (Nat.ltb_lt _ _)) by lia. by apply frame_bytes_nth; lia.
  - by rewrite (proj2 (Nat.ltb_ge _ _)) by lia.
Qed.
Lemma rx_mem_byte w0 w2 m b i : frame_ok b → rb_fBuf b + 757 <= self ∨ self + 1000 <= rb_fBuf b →
  (Z.of_nat i < rx_len b) → GetB (Z.of_nat i) (rx_mem b w0 w2 m) b = nth i (rx_bytes m b) 0.
Proof.
  intros Hf Hap Hi. rewrite rx_bytes_nth by done. destruct Hf as [Hf1 Hf2]. unfold rx_len, kMaxSize in *.
  assert (Hp : GetB (Z.of_nat i) (rx_mem b w0 w2 m) b = GetB (Z.of_nat i) (rx_padmem b m) b).
  { unfold GetB, Buf16, rx_mem. rewrite mem_put_other; [done|]. change (length (rx_status w0 w2 b)) with 2%nat.
    unfold oRxDscCur. destruct Hap; Z.div_mod_to_equations; lia. }
  rewrite Hp. unfold rx_padmem, pad_frame, kMinSize. destruct (Z.ltb_spec (rb_fSize b) 60).
  - rewrite GetB_put_bytes by (lia || by apply Forall_replicate). rewrite length_replicate, nth_replicate.
    destruct (Z.leb_spec (rb_fSize b) (Z.of_nat i)), (Z.ltb_spec (Z.of_nat i) (rb_fSize b + Z.of_nat (Z.to_nat (60 - rb_fSize b)))),
      (Z.ltb_spec (Z.of_nat i) (rb_fSize b)); cbn [andb]; done || lia.
  - by rewrite (proj2 (Z.ltb_lt _ _)) by lia.
Qed.
Lemma words_bytes_get k : ∀ m (b : RethBuf) i, (i < 2 * k)%nat →
  nth i (words_bytes (mem_get m (rb_fBuf b) k)) 0 = GetB (Z.of_nat i) m b.
Proof.
  intros m b i Hi. rewrite words_bytes_nth by (by rewrite length_mem_get). unfold GetB.
  destruct (half_even (Z.of_nat i) ltac:(lia)) as [H1 H2]. rewrite H1, Nat2Z.id. cbv zeta.
  assert (Hn : nth (i / 2) (mem_get m (rb_fBuf b) k) 0 = Buf16 m b (Z.of_nat i / 2)).
  { rewrite Nat2Z.id in H2. unfold Buf16. rewrite (nth_lookup_Some _ _ _ (u16 (default 0 (m !! (rb_fBuf b + Z.of_nat (i / 2)))))).
    - do 4 f_equal. rewrite <- H2. rewrite Z2Nat.id; [done|]. Z.div_mod_to_equations. lia.
    - apply mem_get_lookup. apply Nat.div_lt_upper_bound; lia. }
  by rewrite Hn.
Qed.
Lemma rx_words_ok w0 w2 m b : is_u16 w0 → frame_ok b → rb_fBuf b + 757 <= self ∨ self + 1000 <= rb_fBuf b →
  let m2 := rx_mem b w0 w2 m in let n := Z.to_nat (rx_size w0 b) in
  take n (words_bytes (mem_get m2 (rb_fBuf b) (Z.to_nat (rx_words w0 b)))) = take n (rx_bytes m b) ∧
  IsMcast m2 (rx_padbuf b) = frame_mcast (rx_bytes m b).
Proof.
  intros Hw Hf Hap m2 n. destruct (rx_range w0 b Hw Hf) as (_ & Hl & Hs & Hwd & Hodd). split.
  - apply (nth_ext _ _ 0 0).
    + rewrite !length_take, words_bytes_length, length_mem_get. pose proof (rx_bytes_length m b Hf). lia.
    + intros i. rewrite length_take, words_bytes_length, length_mem_get. intros Hi.
      rewrite !nth_take_if. destruct (Nat.ltb_spec i n) as [Hn|Hn]; [|done].
      rewrite words_bytes_get by lia. apply rx_mem_byte; [done..|lia].
  - unfold IsMcast, frame_mcast. rewrite <- (rx_mem_byte w0 w2) by (done || lia). unfold GetB, Buf16, rx_padbuf.
    by destruct (_ <? kMinSize).
Qed.
Definition rx_rest (d d' : DEUNA E) : Prop :=
  d' <| de_cntl := de_cntl d |> <| de_ctr := de_ctr d |> <| fRxRing ::= λ r, r <| rg_index := rg_index (fRxRing d) |> |>
     <| fRxRingState := fRxRingState d |> <| fRxBufQueue := fRxBufQueue d |> <| fRxBufCurr := fRxBufCurr d |>
     <| fRxPollTimer := fRxPollTimer d |> = d.
Lemma rx_dev_ok b q w0 w2 m d : is_u16 w0 → frame_ok b → rb_fBuf b + 757 <= self ∨ self + 1000 <= rb_fBuf b →
  let d' := rx_dev b q (rx_mem b w0 w2 m) d in
  fRxBufQueue d' = q ∧ rg_index (fRxRing d') = RingNext 1 (fRxRing d) ∧
  de_ctr d' = counted fCtrRxFra fCtrRxFraMcast fCtrRxByt fCtrRxBytMcast (Z.of_nat (length (rx_bytes m b)))
    (frame_mcast (rx_bytes m b)) (de_ctr d) ∧
  fRxRingState d' = fRxRingState d ∧ fRxPollTimer d' = fRxPollTimer d ∧ fRxPollTime d' = fRxPollTime d ∧ rx_rest d d'.
Proof.
  intros Hw Hf Hap d'. destruct (rx_words_ok w0 w2 m b Hw Hf Hap) as [_ Hm]. destruct (rx_range w0 b Hw Hf) as (Hs & _).
  rewrite (rx_bytes_length m b Hf), <- Hm, <- Hs. unfold d', rx_dev, counted_dev, counted, rx_taken, rx_rest.
  destruct (IsMcast _ _); [destruct (IsBcast _ _)|]; destruct (_ <? kMinSize); split_and!; try done;
    destruct d as [? ? ? ? ? ? ? [] ? ? ? ? ? ? ? ? ? ? ? ? ? ? ? ? ? ? ? ? ? ? ? ? ? ? ? ? ?]; reflexivity.
Qed.
End Runs.

(** ** The handlers *)

Section Handlers.
Context {S D V H A E : Type} `{!RlinkExec S, !Rbus D, !LinkLaws S D, !CpuBus D, !RegDev D, !VirtEth E}.
Notation Sys := (Rw11Sys S V H A (DEUNA E)).
Context (self : Z) (a_tx a_rx : A).

(** The descriptor at the index of [ring] was given back with [status], the
    program was told, and the next two descriptors are loaded. *)
Record turned (off : Z) (ring : Ring) (status : list Z) (pr0out : Z) (core : gmap Z Z) (t t' : Sys) : Prop := {
  tn_core : cp_mem (cport (sy_cpu t')) = mput (RingDscAddr (rg_index ring) ring + 4) status core;
  tn_log : cp_log (cport (sy_cpu t')) = cp_log (cport (sy_cpu t)) ++ [(reg_pr0 t (sy_client t), pr0out)];
  tn_cur : mem_get (mem_of t') (self + off) 3 =
    mwords (cp_mem (cport (sy_cpu t'))) (RingDscAddr ((rg_index ring + 1) mod rg_size ring) ring) 3;
  tn_nxt : mem_get (mem_of t') (self + (off + 4)) 3 =
    mwords (cp_mem (cport (sy_cpu t'))) (RingDscAddr ((rg_index ring + 2) mod rg_size ring) ring) 3;
  tn_link : link_ready t' }.
Lemma turned_of off ring status pr0out core (t : Sys) d st' d' t' : link_ready t → ring_in t ring (sy_client t) →
  de_cntl d = de_cntl (sy_client t) →
  given_back self t off ring status d pr0out core (link_st (sy_link t)) st' → is_at t st' d' t' →
  turned off ring status pr0out core t t' ∧ sy_client t' = d'.
Proof.
  intros [R1 R2 R3 R4 R5] [I1 I2 _ _ _] Hd [G1 G2 G3 G4] (s & -> & [L1 L2 (P1 & P2 & P3 & P4)]). split; [|done].
  destruct (RingNext_in 1 ring I1 I2 ltac:(lia)) as [E1 _]. destruct (RingNext_in 2 ring I1 I2 ltac:(lia)) as [E2 _].
  rewrite E1 in G3. rewrite E2 in G4.
  assert (Hc : cport (sy_cpu (sys_at t s d')) = port (dev s)) by done.
  assert (Hm : mem_of (sys_at t s d') = ms_mem st') by exact L2.
  split; rewrite ?Hc, ?Hm, ?P1; try done.
  - rewrite P2, G2. unfold reg_pr0, de_reg. by rewrite Hd.
  - split; [by eapply same_link_ok|done|by rewrite Hc, P3|done|].
    change (sy_link (sys_at t s d')) with s. destruct (same_link_blk _ _ L1) as [-> _]. done.
Qed.

(** C11: A turn of the transmit ring with a descriptor that the host gave away: the
    bytes of its buffer, with the physical address as their source and zeros up
    to 60 bytes, are sent, unless the frame is chosen to be lost; the status is
    written behind the descriptor and the transmit interrupt is told, the index
    goes to the next entry, the next descriptors are loaded, the counters
    count the frame, and the ring stays busy exactly when the device owns the
    next descriptor. *)
Theorem TxRing_sends (t : Sys) w0 w1 w2 w3 :
  let d := sy_client t in
  let core := cp_mem (cport (sy_cpu t)) in
  link_ready t → fRunning d = true → tx_in self t (link_st (sy_link t)) d w0 w1 w2 w3 →
  let f := tx_sends core d w0 w1 w2 in
  ∃ r t', TxRingHandler self t = (Ret r, t') ∧
    turned oTxDscCur (fTxRing d) [Z.lor (tx_match core d w0 w1 w2) (tx_dsc2 w2); tx_stat3 w0 d] kPR0_M_TXI core t t' ∧
    de_virt (sy_client t') = (match de_virt d with
      | None => None | Some v => Some (if lost (fTxLoss d) d then v else (eth_Snd f v).2) end) ∧
    rg_index (fTxRing (sy_client t')) = (rg_index (fTxRing d) + 1) mod rg_size (fTxRing d) ∧
    de_ctr (sy_client t') = counted fCtrTxFra fCtrTxFraMcast fCtrTxByt fCtrTxBytMcast
      (Z.of_nat (length f)) (frame_mcast f) (de_ctr d) ∧
    (r, fTxRingState (sy_client t')) = (if own (nth 2 (mem_get (mem_of t') (self + oTxDscCur) 3) 0)
      then (1, kStateTxBusy) else (0, kStateTxIdle)) ∧
    tx_rest d (sy_client t').
Proof.
  intros d core Hr Hrun Hin f. set (d0 := d <| fTxRingState := kStateTxIdle |>).
  set (t1 := t <| sy_client ::= λ d, d <| fTxRingState := kStateTxIdle |> |>).
  assert (Hin0 : tx_in self t (link_st (sy_link t)) d0 w0 w1 w2 w3) by (destruct Hin as [[] ? ? ? ? ?]; by split).
  pose proof (tx_in_w0 _ _ _ _ _ _ _ _ Hin0) as Hw. pose proof (tx_range w0 Hw) as (Hsz & Hwd & Hodd).
  destruct (runs_tx_turn self t Hr _ _ _ _ _ _ Hin0) as (st' & Hg & Hrt). cbv zeta in Hrt.
  set (core' := ms_core (link_st (sy_link t))) in *. set (m2 := tx_mem2 self core' d0 w0 w1 w2 _) in *.
  destruct (tx_dev_ok self core' d0 w0 w1 w2 (ms_mem (link_st (sy_link t))) Hw) as (F1 & F2 & F3 & F4 & F5);
    [by destruct Hin|]. fold m2 in F1, F2, F3, F4, F5.
  assert (Hlen : Z.of_nat (length f) = Z.max (tx_size w0) 60).
  { unfold f, tx_sends. rewrite tx_frame_length; [lia|]. unfold tx_raw. rewrite words_bytes_length, length_mwords. lia. }
  assert (Hnext : RingNext 1 (fTxRing d) = (rg_index (fTxRing d) + 1) mod rg_size (fTxRing d)).
  { destruct Hin as [[I1 I2 _ _ _] _]. by apply RingNext_in; [..|lia]. }
  assert (Ht1 : is_at t (link_st (sy_link t)) d0 t1).
  { exists (sy_link t). split; [|apply link_at_refl, Hr]. unfold t1, sys_at. destruct t as [? [] ? ? ? ? ?]. reflexivity. }
  set (d2 := tx_dev core' d0 w0 w1 w2 m2) in *.
  assert (Hid : d2 <| fTxRingState := kStateTxIdle |> = d2).
  { change kStateTxIdle with (fTxRingState d0). rewrite <- F4. by destruct d2. }
  assert (Hres : ∃ r x t', TxRingTurn self d0 t1 = (Ret r, t') ∧ is_at t st' (d2 <| fTxRingState := x |>) t' ∧
    (r, x) = (if own (nth 2 (mem_get (ms_mem st') (self + oTxDscCur) 3) 0) then (1, kStateTxBusy) else (0, kStateTxIdle))).
  { destruct (own (nth 2 (mem_get (ms_mem st') (self + oTxDscCur) 3) 0));
      destruct (Hrt _ Ht1) as (t' & E1 & E2); eexists _, _, t'; split_and!; [exact E1|exact E2|done|exact E1| |done].
    by rewrite Hid. }
  clearbody d2. destruct Hres as (r & x & t' & E1 & E2 & E3).
  destruct (turned_of _ _ _ _ _ t d0 st' _ t' Hr ltac:(by destruct Hin) eq_refl Hg E2) as [Ht Hd'].
  exists r, t'. split_and!.
  - change (TxRingHandler self t) with ((if negb (fRunning d) then mret 0 else TxRingTurn self d0) t1).
    rewrite Hrun. exact E1.
  - exact Ht.
  - rewrite Hd'. exact F1.
  - rewrite Hd', <- Hnext. exact F3.
  - rewrite Hd', Hlen. exact F2.
  - rewrite Hd'. destruct E2 as (s & -> & [_ L2 _]). change (mem_of (sys_at t s _)) with (srv_mem s). by rewrite L2.
  - rewrite Hd'. apply (f_equal (λ z, z <| fTxRingState := fTxRingState d |>)) in F5. unfold tx_rest in *.
    etransitivity; [exact F5|]. unfold d0. by destruct d.
Qed.

(** C12: A turn of the receive ring with a frame in the queue and a descriptor that
    the host gave away: the frame, with zeros up to 60 bytes, is stored in the
    buffer of the descriptor as far as it fits, the descriptor is given back with
    the size and the receive interrupt is told, the frame leaves the queue, the
    index goes to the next entry and the next descriptors are loaded; then the
    ring is idle without a frame, busy when the device owns the next descriptor,
    and otherwise waits for the poll timer, which is set. *)
Theorem RxRing_delivers (t : Sys) b q w0 w1 w2 w3 :
  let d := sy_client t in
  let core := cp_mem (cport (sy_cpu t)) in
  link_ready t → fRunning d = true → rx_in self t (link_st (sy_link t)) d b q w0 w1 w2 w3 →
  let f := rx_bytes (mem_of t) b in
  let n := Z.to_nat (rx_size w0 b) in
  ∃ r t' ws, RxRingHandler self t = (Ret r, t') ∧
    length ws = Z.to_nat (rx_words w0 b) ∧ take n (words_bytes ws) = take n f ∧
    turned oRxDscCur (fRxRing d) (rx_status w0 w2 b) kPR0_M_RXI (mput (seg_base w1 (rx_dsc2 w2)) ws core) t t' ∧
    fRxBufQueue (sy_client t') = q ∧
    rg_index (fRxRing (sy_client t')) = (rg_index (fRxRing d) + 1) mod rg_size (fRxRing d) ∧
    de_ctr (sy_client t') = counted fCtrRxFra fCtrRxFraMcast fCtrRxByt fCtrRxBytMcast
      (Z.of_nat (length f)) (frame_mcast f) (de_ctr d) ∧
    (r, fRxRingState (sy_client t'), tm_set (fRxPollTimer (sy_client t'))) =
      (if bool_decide (q = []) then (0, kStateRxIdle, tm_set (fRxPollTimer d))
       else if own (nth 2 (mem_get (mem_of t') (self + oRxDscCur) 3) 0) then (1, kStateRxBusy, tm_set (fRxPollTimer d))
       else (0, kStateRxPoll, Some (fRxPollTime d))) ∧
    rx_rest d (sy_client t').
Proof.
  intros d core Hr Hrun Hin f n. set (d0 := d <| fRxRingState := kStateRxIdle |>).
  set (t1 := t <| sy_client ::= λ d, d <| fRxRingState := kStateRxIdle |> |>).
  assert (Hin0 : rx_in self t (link_st (sy_link t)) d0 b q w0 w1 w2 w3) by (destruct Hin as [[] ? ? ? ? ? ? ? ?]; by split).
  assert (Hw : is_u16 w0).
  { pose proof (mem_get_u16 (ms_mem (link_st (sy_link t))) (self + oRxDscCur) 4) as Hu. rewrite (xi_dsc _ _ _ _ _ _ _ _ _ _ Hin) in Hu. by inversion Hu. }
  destruct Hin as [Hring _ _ _ _ _ Hf Hap _].
  destruct (runs_rx_turn self t Hr _ _ _ _ _ _ _ _ Hin0) as (st' & Hg & Hrt).
  destruct (rx_words_ok self w0 w2 (ms_mem (link_st (sy_link t))) b Hw Hf Hap) as [Hws _].
  destruct (rx_dev_ok self b q w0 w2 (ms_mem (link_st (sy_link t))) d0 Hw Hf Hap) as (F1 & F2 & F3 & F4 & F5 & F6 & F7).
  set (words := mem_get _ (rb_fBuf b) _) in *. set (d2 := rx_dev b q _ d0) in *. clearbody d2.
  assert (Ht1 : is_at t (link_st (sy_link t)) d0 t1).
  { exists (sy_link t). split; [|apply link_at_refl, Hr]. unfold t1, sys_at. destruct t as [? [] ? ? ? ? ?]. reflexivity. }
  destruct (rx_next q (mem_get (ms_mem st') (self + oRxDscCur) 3) d2) as [r d3] eqn:En.
  destruct (Hrt _ Ht1) as (t' & E1 & E2). cbn [fst snd] in E2.
  destruct (turned_of _ _ _ _ _ t d0 st' _ t' Hr Hring eq_refl Hg E2) as [Ht Hd'].
  assert (Hm : mem_of t' = ms_mem st') by (destruct E2 as (s & -> & [_ L2 _]); exact L2).
  assert (Hd3 : fRxBufQueue d3 = q ∧ fRxRing d3 = fRxRing d2 ∧ de_ctr d3 = de_ctr d2 ∧ rx_rest d d3 ∧
    (r, fRxRingState d3, tm_set (fRxPollTimer d3)) =
      (if bool_decide (q = []) then (0, kStateRxIdle, tm_set (fRxPollTimer d))
       else if own (nth 2 (mem_get (ms_mem st') (self + oRxDscCur) 3) 0) then (1, kStateRxBusy, tm_set (fRxPollTimer d))
       else (0, kStateRxPoll, Some (fRxPollTime d)))).
  { apply (f_equal (λ z, z <| fRxRingState := fRxRingState d |>)) in F7.
    assert (F8 : d0 <| fRxRingState := fRxRingState d |> = d) by (unfold d0; by destruct d). rewrite F8 in F7.
    clear -F1 F4 F5 F6 F7 En. unfold rx_next in En. destruct (bool_decide (q = [])); [|destruct (own _)]; injection En as <- <-;
      split_and!; try done; simpl; by rewrite ?F4, ?F5, ?F6. }
  destruct Hd3 as (G1 & G2 & G3 & G4 & G5). exists r, t', words. rewrite Hd', Hm. split_and!; try done.
  - change (RxRingHandler self t) with ((if negb (fRunning d) then mret 0 else RxRingTurn self d0) t1).
    rewrite Hrun. exact E1.
  - apply length_mem_get.
  - rewrite G2, F2. destruct Hring as [I1 I2 _ _ _]. by apply RingNext_in; [..|lia].
  - by rewrite G3, F3.
Qed.
End Handlers.

(** ** An ethernet controller *)

(** A device that keeps what is sent. *)
#[export] Instance sent_eth : VirtEth (list (list Z)) := λ f v, (inl (), v ++ [f]).
Notation Wire := (list (list Z)).
Definition lan_self : Z := 0x10000.
Definition lan_mac : Z := 0x563412_2b0008.
(** It runs, with rings of two entries at 0x1000 and 0x1100; a frame is in the
    queue, and one in the memory. *)
Definition lan_frame : RethBuf := mkRethBuf Rtime_ctor 14 0x20000.
Definition lan_dev : DEUNA Wire :=
  DEUNA_ctor lan_self (λ _, 0%Q) Rtime_ctor Rtime_ctor
    <| de_cntl ::= (λ c, c <| cn_fBase := 0xff00 |>) |> <| de_virt := Some [] |> <| fPr1State := kSTATE_RUN |>
    <| fRunning := true |> <| fRingValid := true |> <| fTxRing := mkRing 0x1000 2 4 1 |> <| fRxRing := mkRing 0x1100 2 4 0 |>
    <| fMacList ::= <[0%nat := lan_mac]> |> <| fRxPollTimer := mkTimer true None |> <| fRxBufQueue := [lan_frame; lan_frame] |>.
Definition lan_bus : PdpBus := mkPdpBus
  (mkCpPort 0 false false 3 false (mput 0x2000 [0xffff; 0xffff; 0xffff; 1; 2; 3; 0x0608]
    (mput 0x1000 [20; 0x2000; 0x8300; 0; 14; 0x2000; 0x8300; 0] ∅)) 0x4000 []) ∅.
Definition lan_mem : Mem :=
  mem_put 0x20000 [0xffff; 0xffff; 0xffff; 1; 2; 3; 0x0608]
    (mem_put (lan_self + oTxDscCur) [14; 0x2000; 0x8300; 0]
      (mem_put (lan_self + oRxDscCur) [50; 0x3000; 0x8000; 0] ∅)).
Definition lan : Rw11Sys (RlinkLink (CorePort PdpBus)) () () nat (DEUNA Wire) :=
  mkSys RlinkServer_ctor
    ((Cpu_ctor "w11a" 0 (srv_set_mem lan_mem (core_link lan_bus))) <| fMemSize := 0x4000 |>) [] true Rdma_ctor None lan_dev.
Lemma lan_ready : link_ready lan.
Proof.
  destruct (set_mem_law lan_mem (core_link lan_bus)) as (_ & _ & Hs).
  split; [apply (same_link_ok _ _ Hs), core_link_is_up|..].
  - by vm_compute.
  - by vm_compute.
  - done.
  - by vm_compute.
Qed.
Lemma lan_ring ring : ring = mkRing 0x1000 2 4 1 ∨ ring = mkRing 0x1100 2 4 0 → ring_in lan ring lan_dev.
Proof.
  intros [-> | ->]; split; try done; simpl;
    intros i Hi; simpl in Hi; assert (i = 0 ∨ i = 1) as [-> | ->] by lia; done.
Qed.
(** A frame of 14 bytes to all: it is padded, and sent from the physical
    address. *)
Lemma TxRing_sends_witness : ∃ r t', TxRingHandler lan_self lan = (Ret r, t') ∧
  de_virt (sy_client t') = Some [[0xff; 0xff; 0xff; 0xff; 0xff; 0xff; 8; 0; 0x2b; 0x12; 0x34; 0x56; 8; 6] ++ replicate 46 0] ∧
  turned lan_self oTxDscCur (mkRing 0x1000 2 4 1) [0x2300; 0x8000] kPR0_M_TXI (cp_mem (cport (sy_cpu lan))) lan t' ∧
  (r, fTxRingState (sy_client t')) = (1, kStateTxBusy).
Proof.
  destruct (TxRing_sends lan_self lan 14 0x2000 0x8300 0 lan_ready eq_refl) as (r & t' & H1 & H2 & H3 & _ & _ & H4 & _).
  { split; [apply lan_ring; by left|by vm_compute|done|by vm_compute|done|done]. }
  exists r, t'. split; [exact H1|]. split; [rewrite H3; vm_compute; reflexivity|]. split; [exact H2|].
  rewrite H4. destruct H2 as [C1 _ C3 _ _]. rewrite C3, C1. vm_compute. reflexivity.
Defined.

(** A frame of 14 bytes for a buffer of 50: it fits neither padded nor with its
    checksum, and the device does not own the next descriptor. *)
Lemma RxRing_delivers_witness : ∃ r t' ws, RxRingHandler lan_self lan = (Ret r, t') ∧
  take 50 (words_bytes ws) = [0xff; 0xff; 0xff; 0xff; 0xff; 0xff; 1; 0; 2; 0; 3; 0; 8; 6] ++ replicate 36 0 ∧
  fRxBufQueue (sy_client t') = [lan_frame] ∧
  rg_index (fRxRing (sy_client t')) = 1 ∧
  (r, fRxRingState (sy_client t'), tm_set (fRxPollTimer (sy_client t'))) = (0, kStateRxPoll, Some (fRxPollTime lan_dev)).
Proof.
  destruct (RxRing_delivers lan_self lan lan_frame [lan_frame] 50 0x3000 0x8000 0 lan_ready eq_refl)
    as (r & t' & ws & H1 & H2 & H3 & H4 & H5 & H6 & _ & H7 & _).
  { split; [apply lan_ring; by right|by vm_compute|done|by vm_compute|done|done|by vm_compute|by right; vm_compute|by split]. }
  change (Z.to_nat (rx_size 50 lan_frame)) with 50%nat in H3. exists r, t', ws.
  split; [exact H1|]. split; [rewrite H3; vm_compute; reflexivity|]. split; [exact H5|]. split; [exact H6|].
  rewrite H7. destruct H4 as [C1 _ C3 _ _]. rewrite C3, C1.
  change (nth 2 (mwords ?m _ 3) 0) with (u16 (default 0 (m !! 0x110c))).
  rewrite !mput_other; [vm_compute; reflexivity|change (seg_base _ _) with 0x3000; lia|].
  change (RingDscAddr _ _ + 4) with 0x1104. change (length _) with 2%nat. lia.
Defined.
