(* ===== verification/Tm11.v ===== *)
(** * librw11/Rw11CntlTM11, Rw11UnitTM11, Rw11UnitTapeBase: the tape controller TM11

    The controller of four tape drives.  Spacing, file marks and rewinding are
    done by the attention handler.  A record that is read goes through a buffer
    and is then stored in the memory of the cpu by a transfer; a record that is
    written is first read from there, and goes to the tape in the callback at the
    end of the transfer.

    [F]: the files of the containers; [a]: the action bound to the transfer
    handler; [pd]: storage for the buffer when it has to grow.  The units are
    fields of the controller; [sy_disk] is [None], the transfer is a plain
    [Rw11Rdma].  The log and the trace are not modelled. *)

From S2P Require Import Prelude.
From S2P Require Import Rstats.
From S2P Require Import Command.
From S2P Require Import CommandList.
From S2P Require Import Connect.
From S2P Require Import Link.
From S2P Require Import Server.
From S2P Require Import FileFd.
From S2P Require Import Url.
From S2P Require Import VirtDisk.
From S2P Require Import UnitDisk.
From S2P Require Import VirtTape.
From S2P Require Import Cpu.
From S2P Require Import Rdma.
From S2P Require Import Cntl.

Open Scope Z_scope.

(** ** Constants *)

Definition kTMSR : Z := 0x0.
Definition kTMCR : Z := 0x2.
Definition kTMBC : Z := 0x4.
Definition kTMBA : Z := 0x6.
Definition kTMDB : Z := 0x8.
Definition kTMRL : Z := 0xa.
Definition kProbeOff : Z := kTMCR.
Definition kProbeInt : bool := true.
Definition kProbeRem : bool := true.

Definition kTMCR_V_UNIT : Z := 8.
Definition kTMCR_B_UNIT : Z := 0x7.
Definition kTMCR_M_RDY : Z := 0x80.
Definition kTMCR_V_EA : Z := 4.
Definition kTMCR_B_EA : Z := 0x3.
Definition kTMCR_V_FUNC : Z := 1.
Definition kTMCR_B_FUNC : Z := 0x7.
Definition kFUNC_UNLOAD : Z := 0.
Definition kFUNC_READ : Z := 1.
Definition kFUNC_WRITE : Z := 2.
Definition kFUNC_WEOF : Z := 3.
Definition kFUNC_SFORW : Z := 4.
Definition kFUNC_SBACK : Z := 5.
Definition kFUNC_WEIRG : Z := 6.
Definition kFUNC_REWIND : Z := 7.
Definition kRFUNC_WUNIT : Z := 1.
Definition kRFUNC_DONE : Z := 2.
Definition kTMCR_V_RUNIT : Z := 4.
Definition kTMCR_M_RICMD : Z := 0x8000.
Definition kTMCR_M_RPAE : Z := 0x1000.
Definition kTMCR_M_RRLE : Z := 0x200.
Definition kTMCR_M_RBTE : Z := 0x100.
Definition kTMCR_M_RNXM : Z := 0x80.
Definition kTMCR_M_REAENA : Z := 0x40.
Definition kTMCR_V_REA : Z := 4.
Definition kTMRL_M_EOF : Z := 0x400.
Definition kTMRL_M_EOT : Z := 0x200.
Definition kTMRL_M_ONL : Z := 0x100.
Definition kTMRL_M_BOT : Z := 0x80.
Definition kTMRL_M_WRL : Z := 0x40.

Definition kStatNFuncUnload : nat := 2.
Definition kStatNFuncRead : nat := 3.
Definition kStatNFuncWrite : nat := 4.
Definition kStatNFuncWeof : nat := 5.
Definition kStatNFuncSforw : nat := 6.
Definition kStatNFuncSback : nat := 7.
Definition kStatNFuncWrteg : nat := 8.
Definition kStatNFuncRewind : nat := 9.

(** ** Data *)

(** [tm_fBuf], [tm_fBufSize]: the storage of the vector [fBuf] in the memory of
    the program, and its size in words. *)
Record TM11 (F : Type) := mkTM11 {
  tm_cntl : Cntl;
  fPC_tmcr : nat;
  fPC_tmsr : nat;
  fPC_tmbc : nat;
  fPC_tmba : nat;
  fRd_tmcr : Z;
  fRd_tmsr : Z;
  fRd_tmbc : Z;
  fRd_tmba : Z;
  fRd_addr : Z;
  fRd_nwrd : Z;
  fRd_fu : Z;
  fRd_rddone : Z;
  fRd_opcode : OpCode;
  tm_fBuf : Z;
  tm_fBufSize : Z;
  tm_units : list (Rw11UnitTape F);
  fTmds : list Z }.      (** [Rw11UnitTM11::fTmds], by unit *)
Arguments mkTM11 {F}. Arguments tm_cntl {F} _. Arguments fPC_tmcr {F} _. Arguments fPC_tmsr {F} _.
Arguments fPC_tmbc {F} _. Arguments fPC_tmba {F} _. Arguments fRd_tmcr {F} _. Arguments fRd_tmsr {F} _.
Arguments fRd_tmbc {F} _. Arguments fRd_tmba {F} _. Arguments fRd_addr {F} _. Arguments fRd_nwrd {F} _.
Arguments fRd_fu {F} _. Arguments fRd_rddone {F} _. Arguments fRd_opcode {F} _. Arguments tm_fBuf {F} _.
Arguments tm_fBufSize {F} _. Arguments tm_units {F} _. Arguments fTmds {F} _.
#[export] Instance eta_TM11 {F} : Eta (TM11 F) := λ r,
  mkTM11 (tm_cntl r) (fPC_tmcr r) (fPC_tmsr r) (fPC_tmbc r) (fPC_tmba r) (fRd_tmcr r) (fRd_tmsr r) (fRd_tmbc r)
    (fRd_tmba r) (fRd_addr r) (fRd_nwrd r) (fRd_fu r) (fRd_rddone r) (fRd_opcode r) (tm_fBuf r) (tm_fBufSize r)
    (tm_units r) (fTmds r).

Definition NUnit : nat := 4.
Definition UnitTM11_ctor {F} : Rw11UnitTape F := mkUnitTape None "tu10" true false 0.
Definition tm11_stat_table : list (string * string) :=
  ([("NFuncUnload", "func UNLOAD"); ("NFuncRead", "func READ"); ("NFuncWrite", "func WRITE");
    ("NFuncWeof", "func WEOF"); ("NFuncSforw", "func SFORW"); ("NFuncSback", "func SBACK");
    ("NFuncWrteg", "func WRTEG"); ("NFuncRewind", "func REWIND")])%string.
Definition TM11_ctor {F} : TM11 F :=
  mkTM11 (Cntl_ctor "tm11" tm11_stat_table) 0 0 0 0 0 0 0 0 0 0 0 0 kOpCodeOK 0 0
    (replicate NUnit UnitTM11_ctor) (replicate NUnit 0).
(** The controller with its transfer. *)
Definition CntlTM11_ctor {S V H A F} (srv : RlinkServer H A) (cpu : Rw11Cpu S) : Rw11Sys S V H A (TM11 F) :=
  mkSys srv cpu [] false Rdma_ctor None TM11_ctor.

(** Bits [v] up of a register. *)
Definition field (r v m : Z) : Z := Z.land (Z.shiftr r v) m.

(** ** The buffer *)

(** Bytes in the memory of the program, the low byte of a word first; a byte at
    the end leaves the high byte of its word. *)
Definition load_bytes (p n : Z) (m : Mem) : list Z :=
  take (Z.to_nat n) (words_bytes (mem_get m p (Z.to_nat ((n + 1) / 2)))).
Definition store_bytes (p : Z) (bs : list Z) (m : Mem) : Mem :=
  let old := words_bytes (mem_get m p ((length bs + 1) / 2)) in
  mem_put p (pair_words (bs ++ drop (length bs) old)) m.

(** ** Operations *)

Section TM11.
Context {S V H A F : Type} `{!RlinkExec S, !PosixFile F}.
Notation Sys := (Rw11Sys S V H A (TM11 F)).
Notation Unit := (Rw11UnitTape F).
Notation Cpu := (Rw11Cpu S).

Definition tstat_ (ind : nat) : M Sys () := cstat tm_cntl ind.
(** The ibus address of a register. *)
Definition tm_reg (tm : TM11 F) (off : Z) : Z := u16 (cn_fBase (tm_cntl tm) + off).
Definition tm_wibr (tm : TM11 F) (ws : list (Z * Z)) (c : Cpu) : M RlinkCommandList () :=
  AddWibrs (map (λ '(off, v), (tm_reg tm off, v)) ws) c.

Definition Config (name : string) (base lam : Z) : M Sys () :=
  client (λ r, r <| tm_cntl ::= ConfigCntl name base lam kProbeOff kProbeInt kProbeRem |>).

(** *** Units *)

Definition tape_at (i : nat) : M Sys Unit := λ t,
  match tm_units (sy_client t) !! i with
  | Some u => (Ret u, t)
  | None => (Exc (undefined "unit index out of range"), t)
  end.
Definition set_unit (i : nat) (u : Unit) : M Sys () := client (λ r, r <| tm_units ::= <[i := u]> |>).
Definition SetTmds (i : nat) (tmds : Z) : M Sys () := client (λ r, r <| fTmds ::= <[i := tmds]> |>).
(** A call of the unit; a failure is only logged. *)
Definition call_unit (i : nat) (m : Unit → result * Unit) : M Sys (bool * OpCode * Z * list Z) :=
  unit ← tape_at i;
  let '((r, (op, nd, d)), unit) := m unit in
  set_unit i unit ;;
  match r with
  | Ret (inl ()) => mret (true, op, nd, d)
  | Ret (inr e) => mret (false, op, nd, d)
  | Exc e => throw e
  | NoFuel => λ t, (NoFuel, t)
  end.

(** What the device shows of a tape. *)
Definition virt_tmds (v : TapeTap F) : Z :=
  Z.lor (Z.lor kTMRL_M_ONL (if fWProt v then kTMRL_M_WRL else 0)) (if fBot v then kTMRL_M_BOT else 0).
Definition exit_tmds (v : TapeTap F) : Z := Z.lor (virt_tmds v) (if fEot v then kTMRL_M_EOT else 0).
(** Select the unit whose status is written next. *)
Definition wunit (unum : Z) : Z :=
  Z.lor (u16 (Z.shiftl unum kTMCR_V_RUNIT)) (Z.shiftl kRFUNC_WUNIT kTMCR_V_FUNC).
Definition rdone (tmcr : Z) : Z := Z.lor tmcr (Z.shiftl kRFUNC_DONE kTMCR_V_FUNC).

Definition UnitSetup (ind : nat) : M Sys () := λ t,
  (unit ← tape_at ind;
   let tmds := match fupVirt unit with Some v => virt_tmds v | None => 0 end in
   SetTmds ind tmds ;;
   zoom sy_cpu (ExecWibr (tm_reg (sy_client t) kTMCR) (wunit (Z.of_nat ind))
                  (tm_reg (sy_client t) kTMRL) tmds 0 0)) t.

(** [Rw11UnitVirt::Detach] and [Attach] with the hooks of [Rw11UnitTapeBase]. *)
Definition Detach (i : nat) : M Sys () :=
  unit ← tape_at i;
  if HasVirt unit then set_unit i (unit <| fupVirt := None |>) ;; UnitSetup i else mret ().
Definition AttachDone (i : nat) (v : TapeTap F) : M Sys () :=
  unit ← tape_at i;
  let v := if negb (ufCapacity unit =? 0) && (fCapacity v =? 0) then SetCapacity (ufCapacity unit) v else v in
  set_unit i (unit <| fupVirt := Some v |>) ;; UnitSetup i.
Definition Attach (i : nat) (url : string) (f : F) : M Sys (() + RerrMsg) :=
  Detach i ;;
  unit ← tape_at i;
  if negb (ufEnabled unit) then mret (inr (mkRerrMsg "Rw11UnitVirt::Attach" "unit not enabled"))
  else
    match New url f with
    | Ret (inl v) => AttachDone i v ;; mret (inl ())
    | Ret (inr e) => mret (inr e)
    | Exc e => throw e
    | NoFuel => λ t, (NoFuel, t)
    end.

(** [self]: the controller, as the data pointer of its attention handler [h]. *)
Definition Start (h : H) (self : Z) : M Sys () := λ t,
  if bad_start tm_cntl t
  then (Exc (Rexception "Rw11CntlTM11::Start" "Bad state: started, no lam, not enable, not found"), t)
  else
    (map_regs tm_cntl [(".sr", kTMSR); (".cr", kTMCR); (".bc", kTMBC); (".ba", kTMBA); (".db", kTMDB);
                       (".rl", kTMRL)]%string ;;
     UnitSetupAll UnitSetup 0 NUnit ;;
     '(is_, l) ← (λ t, new_clist (prim_list tm_cntl [kTMCR; kTMSR; kTMBC; kTMBA] t) t);
     let pc := λ k, nth k is_ O in
     client (λ r, r <| tm_cntl ::= λ c, c <| cn_fPrimClist := l |> |> <| fPC_tmcr := pc 0%nat |>
                    <| fPC_tmsr := pc 1%nat |> <| fPC_tmbc := pc 2%nat |> <| fPC_tmba := pc 3%nat |>) ;;
     zoom sy_srv (AddAttnHandler h (u16 (Z.shiftl 1 (cn_fLam (tm_cntl (sy_client t))))) self) ;;
     modify (λ t, t <| sy_started := true |>)) t.

(** In the code in octal. *)
Definition BootCode (unit : Z) : list Z * Z * Z :=
  let start := 0x400 in
  ([0x4d54; 0x15c6; start; 0x15c0; u16 unit; 0x15c1; 0xf556; 0x0a09; 0x15e1; 0xffff; 0x1002; 0x00c2; 0x65c2;
    0x6009; 0x10a1; 0x8bc9; 0x80fe; 0x1002; 0x00c2; 0x65c2; 0x6003; 0x1089; 0x8bc9; 0x80fe; 0x0a02; 0x0a03;
    0x15c4; start + 16; 0x0a05; 0x0a07], start, start + 2).

(** *** The answers to the device *)

Definition AddErrorExit (tm : TM11 F) (tmcr : Z) : Cpu → M RlinkCommandList () := tm_wibr tm [(kTMCR, rdone tmcr)].
Definition unit_of (tmcr : Z) : Z := field tmcr kTMCR_V_UNIT kTMCR_B_UNIT.
(** The status behind a function that is done at once, and the error bits. *)
Definition fast_tmds (unit : Unit) (op : OpCode) : Z :=
  Z.lor (match fupVirt unit with Some v => exit_tmds v | None => 0 end)
    (match op with kOpCodeEof => kTMRL_M_EOF | _ => 0 end).
Definition fast_tmcr (op : OpCode) : Z :=
  match op with kOpCodeOK | kOpCodeBot | kOpCodeEof => 0 | _ => kTMCR_M_RBTE end.
Definition fast_regs (tm : TM11 F) (unit : Unit) (op : OpCode) (nd : Z) : list (Z * Z) :=
  [(kTMCR, wunit (unit_of (fRd_tmcr tm))); (kTMRL, fast_tmds unit op)] ++
  (if nd =? 0 then [] else [(kTMBC, u16 (fRd_tmbc tm + u16 nd))]) ++
  [(kTMCR, rdone (fast_tmcr op))].
Definition AddFastExit (op : OpCode) (nd : Z) (l : RlinkCommandList) : M Sys RlinkCommandList :=
  tm ← get_client id;
  let i := Z.to_nat (unit_of (fRd_tmcr tm)) in
  unit ← tape_at i;
  SetTmds i (fast_tmds unit op) ;;
  '(_, l) ← add_cmds (tm_wibr tm (fast_regs tm unit op nd)) l;
  mret l.

(** [unit.VirtWriteRecord(nbyt, fBuf.data(), ..)]. *)
Definition write_record (i : nat) (nbyt : Z) : M Sys () :=
  tm ← get_client id;
  if 2 * tm_fBufSize tm <? nbyt then throw (undefined "read behind the buffer")
  else
    bytes ← gets (λ t, load_bytes (tm_fBuf tm) nbyt (srv_mem (sy_link t)));
    call_unit i (VirtWriteRecord bytes) ;;
    mret ().
(** The last byte of a record of odd length; [kCPMEM] is the address without
    [fBase]. *)
Definition trailing_byte (tm : TM11 F) (ndone w : Z) (c : Cpu) : M RlinkCommandList () :=
  AddLalh (u32 (fRd_addr tm + 2 * ndone)) kCPAH_M_UBM22 c ;;
  AddMembe kCPMEMBE_M_BE0 false c ;;
  AddWreg kCPMEM w ;;
  mret ().
(** A transfer of [ndone] words for READ: address, byte count, error bits, and the
    trailing byte.  [odd]: the record read has odd length. *)
Definition read_exit (tm : TM11 F) (ndone tmcr : Z) (l : RlinkCommandList) : M Sys (Z * Z * Z * RlinkCommandList) :=
  let odd := negb (Z.land (fRd_rddone tm) 1 =? 0) in
  let addr := u32 (fRd_addr tm + 2 * ndone) in
  let tmbc := u16 (fRd_tmbc tm + 2 * u16 ndone) in
  let addr := if odd then u32 (addr + 1) else addr in
  let tmbc := if odd then u16 (tmbc + 1) else tmbc in
  match fRd_opcode tm with
  | kOpCodeOK =>
      if odd then
        if tm_fBufSize tm <=? ndone then throw (undefined "read behind the buffer")
        else
          ws ← mem_read (tm_fBuf tm + ndone) 1;
          '(_, l) ← add_cmds (trailing_byte tm ndone (nth 0 ws 0)) l;
          mret (addr, tmbc, tmcr, l)
      else mret (addr, tmbc, tmcr, l)
  | kOpCodeRecLenErr => mret (addr, tmbc, Z.lor tmcr kTMCR_M_RRLE, l)
  | kOpCodeBadParity => mret (addr, tmbc, Z.lor tmcr kTMCR_M_RPAE, l)
  | _ => mret (addr, tmbc, Z.lor tmcr kTMCR_M_RBTE, l)
  end.
(** The same for WRITE; the number of bytes is a [size_t]. *)
Definition write_exit (tm : TM11 F) (i : nat) (ndone tmcr : Z) (l : RlinkCommandList) : M Sys (Z * Z * Z * RlinkCommandList) :=
  let odd := negb (Z.land (fRd_tmbc tm) 1 =? 0) in
  let addr := u32 (fRd_addr tm + 2 * ndone) in
  let tmbc := u16 (fRd_tmbc tm + 2 * u16 ndone) in
  let addr := if odd then u32 (addr - 1) else addr in
  let tmbc := if odd then u16 (tmbc - 1) else tmbc in
  let nbyt := if odd then (2 * ndone - 1) mod 2 ^ 64 else 2 * ndone in
  write_record i nbyt ;;
  mret (addr, tmbc, tmcr, l).
Definition normal_regs (tm : TM11 F) (v : TapeTap F) (addr tmbc tmcr : Z) : list (Z * Z) :=
  let tmba := Z.land addr 0xfffe in
  let ea := Z.land (Z.shiftr addr 16) 0x3 in
  [(kTMCR, wunit (unit_of (fRd_tmcr tm))); (kTMRL, exit_tmds v); (kTMBC, tmbc); (kTMBA, tmba);
   (kTMCR, rdone (Z.lor tmcr (Z.lor kTMCR_M_REAENA (Z.shiftl ea kTMCR_V_REA))))].
(** The status is that of the tape behind the function; [Virt] is not guarded. *)
Definition AddNormalExit (ndone tmcr : Z) (l : RlinkCommandList) : M Sys RlinkCommandList :=
  tm ← get_client id;
  let i := Z.to_nat (unit_of (fRd_tmcr tm)) in
  '(addr, tmbc, tmcr, l) ← (if fRd_fu tm =? kFUNC_READ then read_exit tm ndone tmcr l
                            else write_exit tm i ndone tmcr l);
  unit ← tape_at i;
  match fupVirt unit with
  | None => throw (undefined "null pointer")
  | Some v =>
      SetTmds i (exit_tmds v) ;;
      '(_, l) ← add_cmds (tm_wibr tm (normal_regs tm v addr tmbc tmcr)) l;
      mret l
  end.

(** *** The callbacks of the transfer *)

Definition RdmaPreExecCB (stat : status) (nwdone nwnext : Z) (clist : RlinkCommandList) : M Sys RlinkCommandList :=
  mret clist.
Definition RdmaPostExecCB (stat : status) (ndone : Z) (clist : RlinkCommandList) (ncmd : nat) : M Sys () :=
  if bool_decide (stat = kStatusBusy) then mret ()
  else
    let tmcr := if bool_decide (stat = kStatusFailRdma) then kTMCR_M_RNXM else 0 in
    l ← AddNormalExit ndone tmcr RlinkCommandList_ctor;
    exec_list l ;; mret ().

(** *** The attention handler *)

Section Attn.
Variables (a : A) (pd : Z).

(** [if (fBuf.size() < n) fBuf.resize(n)]. *)
Definition buf_resize (n : Z) : M Sys () :=
  tm ← get_client id;
  if tm_fBufSize tm <? n then
    old ← mem_read (tm_fBuf tm) (tm_fBufSize tm);
    mem_write pd (old ++ replicate (Z.to_nat (n - tm_fBufSize tm)) 0) ;;
    client (λ r, r <| tm_fBuf := pd |> <| tm_fBufSize := n |>)
  else mret ().
Definition buf_store (bs : list Z) : M Sys () :=
  p ← get_client tm_fBuf;
  modify (update sy_link (λ s, srv_set_mem (store_bytes p bs (srv_mem s)) s)).
(** A list built and executed. *)
Definition error_exit (tmcr : Z) : M Sys () :=
  tm ← get_client id;
  '(_, l) ← add_cmds (AddErrorExit tm tmcr) RlinkCommandList_ctor;
  exec_list l ;; mret ().
Definition fast_exit (op : OpCode) (nd : Z) : M Sys () :=
  l ← AddFastExit op nd RlinkCommandList_ctor;
  exec_list l ;; mret ().

Definition do_read (i : nat) (addr nbyt : Z) : M Sys () :=
  tstat_ kStatNFuncRead ;;
  buf_resize ((nbyt + 1) / 2) ;;
  '(rc, op, nd, d) ← call_unit i (VirtReadRecord nbyt);
  buf_store d ;;
  client (λ r, r <| fRd_rddone := nd |> <| fRd_opcode := op |>) ;;
  if negb rc || (nd =? 0) then fast_exit op 0
  else
    p ← get_client tm_fBuf;
    QueueWMem a addr p (nd / 2) kCPAH_M_UBM22.
Definition do_write (stat : nat) (addr nbyt : Z) : M Sys () :=
  tstat_ stat ;;
  buf_resize ((nbyt + 1) / 2) ;;
  p ← get_client tm_fBuf;
  QueueRMem a addr p ((nbyt + 1) / 2) kCPAH_M_UBM22.
(** WEOF has no opcode of its own. *)
Definition do_function (i : nat) (fu addr nbyt : Z) : M Sys () :=
  if fu =? kFUNC_UNLOAD then
    tstat_ kStatNFuncUnload ;; Detach i ;; fast_exit kOpCodeOK 0
  else if fu =? kFUNC_READ then do_read i addr nbyt
  else if (fu =? kFUNC_WRITE) || (fu =? kFUNC_WEIRG) then
    do_write (if fu =? kFUNC_WRITE then kStatNFuncWrite else kStatNFuncWrteg) addr nbyt
  else if fu =? kFUNC_WEOF then
    tstat_ kStatNFuncWeof ;; call_unit i VirtWriteEof ;; fast_exit kOpCodeOK 0
  else if fu =? kFUNC_SFORW then
    tstat_ kStatNFuncSforw ;; '(_, op, nd, _) ← call_unit i (VirtSpaceForw nbyt); fast_exit op nd
  else if fu =? kFUNC_SBACK then
    tstat_ kStatNFuncSback ;; '(_, op, nd, _) ← call_unit i (VirtSpaceBack nbyt); fast_exit op nd
  else if fu =? kFUNC_REWIND then
    tstat_ kStatNFuncRewind ;; '(_, op, _, _) ← call_unit i VirtRewind; fast_exit op 0
  else mret ().

(** A zero count is 64k bytes. *)
Definition nbyt_of (tmbc : Z) : Z := Z.land (Z.lnot tmbc) 0xffff + 1.
Definition write_function (fu : Z) : bool := (fu =? kFUNC_WRITE) || (fu =? kFUNC_WEIRG) || (fu =? kFUNC_WEOF).
(** The request in the registers. *)
Definition serve (tmcr tmsr tmbc tmba : Z) : M Sys () :=
  let unum := unit_of tmcr in
  let ea := field tmcr kTMCR_V_EA kTMCR_B_EA in
  let fu := field tmcr kTMCR_V_FUNC kTMCR_B_FUNC in
  let addr := Z.lor (Z.shiftl ea 16) tmba in
  let nbyt := nbyt_of tmbc in
  busy ← gets (λ t, IsActive (sy_rdma t));
  if negb (Z.land tmcr kTMCR_M_RDY =? 0) || busy then mret ()
  else if Z.of_nat NUnit <=? unum then error_exit kTMCR_M_RICMD
  else
    unit ← tape_at (Z.to_nat unum);
    match fupVirt unit with
    | None => error_exit kTMCR_M_RICMD
    | Some v =>
        if write_function fu && fWProt v then error_exit kTMCR_M_RICMD
        else
          client (λ r, r <| fRd_tmcr := tmcr |> <| fRd_tmsr := tmsr |> <| fRd_tmbc := tmbc |> <| fRd_tmba := tmba |>
                         <| fRd_addr := addr |> <| fRd_fu := fu |>) ;;
          do_function (Z.to_nat unum) fu addr nbyt
    end.
Definition AttnHandler (args : AttnArgs) : M Sys AttnArgs :=
  tstat_ kStatNAttnHdl ;;
  args ← harvest tm_cntl args;
  tm ← get_client id;
  tmcr ← prim_data tm_cntl (fPC_tmcr tm);
  tmsr ← prim_data tm_cntl (fPC_tmsr tm);
  tmbc ← prim_data tm_cntl (fPC_tmbc tm);
  tmba ← prim_data tm_cntl (fPC_tmba tm);
  serve tmcr tmsr tmbc tmba ;;
  mret args.
End Attn.
End TM11.
