(* ===== verification/TmSpec.v ===== *)
(** * The tape controller: registers and steps

    The registers of the TM11 in arithmetic, the steps of its handler and of its
    callback on a described state, and the functions without a transfer: they move
    the tape as its specification ([TapeSpec]) says, and report it. *)

From S2P Require Import Prelude.
From S2P Require Import Rstats.
From S2P Require Import Command.
From S2P Require Import CommandList.
From S2P Require Import Connect.
From S2P Require Import Link.
From S2P Require Import LinkCore.
From S2P Require Import Server.
From S2P Require Import FileFd.
From S2P Require Import Url.
From S2P Require Import VirtDisk.
From S2P Require Import UnitDisk.
From S2P Require Import VirtTape.
From S2P Require Import TapeSpec.
From S2P Require Import Cpu.
From S2P Require Import CpuMem.
From S2P Require Import Rdma.
From S2P Require Import RdmaSpec.
From S2P Require Import Cntl.
From S2P Require Import CntlSpec.
From S2P Require Import MemOps.
From S2P Require Import PdpBus.
From S2P Require Import Tm11.

Open Scope Z_scope.

(** ** The registers *)

(** A request: control, byte count and bus address. *)
Record tm_req := mkReq { q_cr : Z; q_bc : Z; q_ba : Z }.
Definition q_ok (q : tm_req) : Prop := is_u16 (q_cr q) ∧ is_u16 (q_bc q) ∧ is_u16 (q_ba q).
Definition q_un (q : tm_req) : Z := q_cr q / 256 mod 8.
Definition q_fu (q : tm_req) : Z := q_cr q / 2 mod 8.
Definition q_addr (q : tm_req) : Z := 65536 * (q_cr q / 16 mod 4) + q_ba q.
(** Bytes or records. *)
Definition q_n (q : tm_req) : Z := 65536 - q_bc q.
Definition q_ready (q : tm_req) : bool := Z.testbit (q_cr q) 7.

(** The status of a drive with a tape. *)
Definition ds_of {F} (v : TapeTap F) (eof : bool) : Z :=
  0x100 + (if fWProt v then 0x40 else 0) + (if fBot v then 0x80 else 0) + (if fEot v then 0x200 else 0) +
  (if eof then 0x400 else 0).
(** The answer to a function that moved the tape by [nd] records. *)
Definition bad_op (op : OpCode) : bool := bool_decide (op ∉ [kOpCodeOK; kOpCodeBot; kOpCodeEof]).
Definition told_fast (q : tm_req) (ds : Z) (op : OpCode) (nd : Z) : list (Z * Z) :=
  [(kTMCR, 16 * q_un q + 2); (kTMRL, ds)] ++
  (if nd =? 0 then [] else [(kTMBC, (q_bc q + nd) mod 65536)]) ++
  [(kTMCR, if bad_op op then 0x104 else 4)].
(** The answer to a transfer of [n] bytes. *)
Definition told_dma (q : tm_req) (ds n err : Z) : list (Z * Z) :=
  let addr := q_addr q + n in
  [(kTMCR, 16 * q_un q + 2); (kTMRL, ds); (kTMBC, (q_bc q + n) mod 65536); (kTMBA, 2 * (addr / 2 mod 32768));
   (kTMCR, 0x44 + 16 * (addr / 65536 mod 4) + err)].
(** A command that is refused. *)
Definition told_refused : list (Z * Z) := [(kTMCR, 0x8004)].

Lemma tm_q_ranges q : q_ok q → 0 <= q_un q < 8 ∧ 0 <= q_fu q < 8 ∧ 0 <= q_addr q < 2 ^ 18 ∧ 0 < q_n q <= 65536.
Proof.
  intros (H1 & H2 & H3). unfold is_u16 in *. unfold q_un, q_fu, q_addr, q_n.
  change (2 ^ 18) with 262144. Z.div_mod_to_equations. lia.
Qed.
(** The fields the code extracts. *)
Lemma tm_q_code q : q_ok q →
  unit_of (q_cr q) = q_un q ∧ field (q_cr q) kTMCR_V_FUNC kTMCR_B_FUNC = q_fu q ∧
  Z.lor (Z.shiftl (field (q_cr q) kTMCR_V_EA kTMCR_B_EA) 16) (q_ba q) = q_addr q ∧
  nbyt_of (q_bc q) = q_n q ∧ negb (Z.land (q_cr q) kTMCR_M_RDY =? 0) = q_ready q.
Proof.
  intros (H1 & H2 & H3). unfold is_u16 in *. unfold unit_of, field. split_and!.
  - by apply (field_mod _ 8 3).
  - by apply (field_mod _ 1 3).
  - rewrite (lor_disjoint 16), Z.shiftl_mul_pow2 by (done || rewrite Z.shiftl_mul_pow2 by done; by apply Z.mod_mul).
    etrans; [apply f_equal2; [apply f_equal2; [by apply (field_mod _ 4 2)|done]|done]|].
    unfold q_addr. change (2 ^ 16) with 65536. change (2 ^ 4) with 16. change (2 ^ 2) with 4. lia.
  - unfold nbyt_of. etrans; [apply f_equal2; [apply (Z.land_ones _ 16); done|reflexivity]|].
    unfold q_n. replace (Z.lnot (q_bc q)) with (- q_bc q - 1) by (unfold Z.lnot; lia).
    change (2 ^ 16) with 65536 in *. clear -H2. Z.div_mod_to_equations. lia.
  - by apply (flag_test _ 7).
Qed.

(** What the code writes. *)
Lemma wunit_eq un : 0 <= un < 8 → wunit un = 16 * un + 2.
Proof.
  intros H. unfold wunit. change (Z.shiftl kRFUNC_WUNIT kTMCR_V_FUNC) with 2. rewrite Z.shiftl_mul_pow2 by done.
  change (2 ^ kTMCR_V_RUNIT) with 16. rewrite u16_id by (unfold is_u16; lia).
  rewrite (lor_disjoint 4); [lia|done|done|]. change (2 ^ 4) with 16. by apply Z.mod_mul.
Qed.
Lemma exit_tmds_eq {F} (v : TapeTap F) : exit_tmds v = ds_of v false.
Proof. unfold exit_tmds, virt_tmds, ds_of. by destruct (fWProt v), (fBot v), (fEot v). Qed.
Lemma ds_range {F} (v : TapeTap F) eof : is_u16 (ds_of v eof).
Proof. unfold ds_of. by destruct (fWProt v), (fBot v), (fEot v), eof. Qed.
Lemma fast_tmds_eq {F} (u : Rw11UnitTape F) v op : fupVirt u = Some v →
  fast_tmds u op = ds_of v (bool_decide (op = kOpCodeEof)).
Proof.
  intros Hu. unfold fast_tmds. rewrite Hu, exit_tmds_eq. unfold ds_of.
  by destruct (fWProt v), (fBot v), (fEot v), op.
Qed.
Lemma fast_tmcr_eq op : rdone (fast_tmcr op) = if bad_op op then 0x104 else 4.
Proof. by destruct op. Qed.
Lemma fast_regs_eq {F} q (tm : TM11 F) u v op nd : q_ok q → fRd_tmcr tm = q_cr q → fRd_tmbc tm = q_bc q → fupVirt u = Some v →
  0 <= nd →
  fast_regs tm u op nd = told_fast q (ds_of v (bool_decide (op = kOpCodeEof))) op nd.
Proof.
  intros Hq H1 H2 Hu Hn. unfold fast_regs, told_fast. destruct (tm_q_code q Hq) as (E & _). destruct (tm_q_ranges q Hq) as (Hun & _).
  rewrite H1, H2, E, wunit_eq, (fast_tmds_eq u v), fast_tmcr_eq by done. do 2 f_equal. destruct (nd =? 0); [done|].
  do 2 f_equal. rewrite !u16_mod. change (2 ^ 16) with 65536. by rewrite Z.add_mod_idemp_r.
Qed.
Definition dma_err (nxm perr : bool) : Z := (if nxm then 0x80 else 0) + (if perr then 0x1000 else 0).
Lemma normal_regs_eq {F} q (tm : TM11 F) v n nxm perr : q_ok q → fRd_tmcr tm = q_cr q → 0 <= n <= 65536 →
  normal_regs tm v (q_addr q + n) ((q_bc q + n) mod 65536) (dma_err nxm perr) =
  told_dma q (ds_of v false) n (dma_err nxm perr).
Proof.
  intros Hq H1 Hn. unfold normal_regs, told_dma. destruct (tm_q_code q Hq) as (E & _). destruct (tm_q_ranges q Hq) as (Hun & _ & Ha & _).
  rewrite H1, E, wunit_eq, exit_tmds_eq by done. do 3 f_equal.
  assert (E1 : Z.land (q_addr q + n) 0xfffe = 2 * ((q_addr q + n) / 2 mod 32768)).
  { change 0xfffe with (Z.shiftl (Z.ones 15) 1). by rewrite land_shifted. }
  assert (E2 : Z.land (Z.shiftr (q_addr q + n) 16) 3 = (q_addr q + n) / 65536 mod 4).
  { by apply (field_mod _ 16 2). }
  rewrite E1, E2. f_equal. generalize (Z.mod_pos_bound ((q_addr q + n) / 65536) 4 eq_refl).
  generalize ((q_addr q + n) / 65536 mod 4). intros ea Hea. f_equal. f_equal.
  assert (Hc : ea = 0 ∨ ea = 1 ∨ ea = 2 ∨ ea = 3) by lia.
  by destruct Hc as [->|[->|[->| ->]]], nxm, perr.
Qed.

(** ** The controller *)

Definition tm_offs : list Z := [kTMSR; kTMCR; kTMBC; kTMBA; kTMRL].
Definition prim_offs : list Z := [kTMCR; kTMSR; kTMBC; kTMBA].

Section TM11.
Context {S D V H A F : Type}.
Context `{!RlinkExec S, !Rbus D, !LinkLaws S D, !CpuBus D, !RegDev D, !VirtDiskOps V, !VirtDiskSpec V, !PosixFile F, !PosixFileLaws F}.
Notation Sys := (Rw11Sys S V H A (TM11 F)).

(** The device is at [base] on an ibus that is seen at [ib]. *)
Variables (ib base : Z).
Notation rb := (rb ib base).
Notation at_rb := (at_rb ib base).
Notation regs_ok := (regs_ok tm_offs).
Definition tm_present : Prop := present ib base tm_offs.
Hypothesis Hdev : tm_present.

(** The controller is started. *)
Record tm_fields (c : TM11 F) : Prop := {
  tf_base : cn_fBase (tm_cntl c) = base;
  tf_units : length (tm_units c) = 4%nat;
  tf_tmds : length (fTmds c) = 4%nat;
  tf_prim : prim_ok (map rb prim_offs) (cn_fPrimClist (tm_cntl c));
  tf_pc : fPC_tmcr c = 1%nat ∧ fPC_tmsr c = 2%nat ∧ fPC_tmbc c = 3%nat ∧ fPC_tmba c = 4%nat }.
Record tm_ready (t : Sys) : Prop := {
  tr_up : up t;
  tr_ib : fIBase (sy_cpu t) = ib;
  tr_disk : sy_disk t = None;
  tr_fields : tm_fields (sy_client t) }.

(** *** Steps *)

(** The memory of the caller, the port of the cpu, and the controller; all else is
    as in [t0]. *)
Record tst := mkTst { x_mem : Mem; x_port : CpPort; x_c : TM11 F }.
#[export] Instance eta_tst : Eta tst := λ x, mkTst (x_mem x) (x_port x) (x_c x).
Section Steps.
Variable t0 : Sys.
Definition tm_at (x : tst) (t : Sys) : Prop := ∃ s,
  t = sys_at t0 s (x_c x) ∧ same_link (sy_link t0) s ∧ srv_mem s = x_mem x ∧ port (dev s) = x_port x.
Notation does := (returns tm_at).

Lemma does_get {B} (f : TM11 F → B) x : does (get_client f) x (f (x_c x)) x.
Proof. intros t (s & -> & Hs). exists (sys_at t0 s (x_c x)). split; [done|by exists s]. Qed.
Lemma does_client f x : does (client f) x () (x <| x_c ::= f |>).
Proof. intros t (s & -> & Hs). exists (sys_at t0 s (f (x_c x))). split; [done|by exists s]. Qed.
Lemma does_mem_read p n x : does (mem_read p n) x (mem_get (x_mem x) p (Z.to_nat n)) x.
Proof.
  intros t (s & -> & Hs & Hm & Hp). exists (sys_at t0 s (x_c x)). split; [|by exists s].
  unfold mem_read, gets. change (sy_link (sys_at t0 s (x_c x))) with s. by rewrite Hm.
Qed.
Lemma does_mem_upd f x : does (modify (update sy_link (λ s, srv_set_mem (f (srv_mem s)) s))) x () (x <| x_mem ::= f |>).
Proof.
  intros t (s & -> & Hs & Hm & Hp). exists (sys_at t0 (srv_set_mem (f (srv_mem s)) s) (x_c x)). split; [done|].
  destruct (set_mem_law (f (srv_mem s)) s) as (E1 & E2 & E3). eexists. split; [reflexivity|].
  split; [by etrans|]. split; [by rewrite E1, Hm|by rewrite E2].
Qed.
Lemma does_mem_write p ws x : does (mem_write p ws) x () (x <| x_mem ::= mem_put p ws |>).
Proof. apply does_mem_upd. Qed.
Lemma does_tape i u x : tm_units (x_c x) !! i = Some u → does (tape_at i) x u x.
Proof.
  intros Hu t (s & -> & Hs). exists (sys_at t0 s (x_c x)). split; [|by exists s].
  unfold tape_at. change (sy_client (sys_at t0 s (x_c x))) with (x_c x). by rewrite Hu.
Qed.
(** A call of a unit that succeeds. *)
Definition set_tape (i : nat) (u : Rw11UnitTape F) (c : TM11 F) : TM11 F := c <| tm_units ::= <[i := u]> |>.
Lemma does_call i m u op nd d u' x : tm_units (x_c x) !! i = Some u → m u = ((Ret (inl ()), (op, nd, d)), u') →
  does (call_unit i m) x (true, op, nd, d) (x <| x_c ::= set_tape i u' |>).
Proof.
  intros Hu Hm. unfold call_unit. eapply returns_bind; [by apply does_tape|]. rewrite Hm.
  eapply returns_bind; [apply does_client|apply returns_ret].
Qed.

Hypothesis Hup : up t0.
Hypothesis Hib : fIBase (sy_cpu t0) = ib.
Lemma does_add (tm : TM11 F) ws l x : cn_fBase (tm_cntl tm) = base → regs_ok ws → Z.of_nat (length ws) < 2 ^ 31 →
  does (add_cmds (tm_wibr tm ws) l) x ((), l <| fList ::= λ cs, cs ++ wregs (at_rb ws) |>) x.
Proof.
  intros Hb Hws Hlen t (s & -> & Hs). exists (sys_at t0 s (x_c x)). split; [|by exists s].
  unfold add_cmds, tm_wibr.
  assert (E : map (λ '(off, v), (tm_reg tm off, v)) ws = map (λ '(off, v), (u16 (base + off), v)) ws).
  { apply map_ext. intros [off v]. unfold tm_reg. by rewrite Hb. }
  assert (Hi : fIBase (sy_cpu (sys_at t0 s (x_c x))) = ib) by exact Hib.
  rewrite E, AddWibrs_run by (by apply (told_at ib base tm_offs Hdev (sy_cpu t0))).
  by rewrite (rb_of_at ib base) by exact Hi.
Qed.
Lemma does_exec ws x : regs_ok ws → ws ≠ [] → Z.of_nat (length ws) < 2 ^ 31 →
  does (exec_list (mkCommandList (wregs (at_rb ws)) (-1)) ;; mret ()) x () (x <| x_port ::= logged (at_rb ws) |>).
Proof.
  intros Hws Hne Hlen t (s & -> & Hs & Hm & Hp).
  edestruct (exec_wregs (at_rb ws) (sys_at t0 s (x_c x))) as (l' & s' & Hx & [Hl1 Hl2 Hl3]).
  - eapply same_link_ok; [exact Hs|apply Hup].
  - by apply (writable_at _ _ tm_offs Hdev).
  - by destruct ws.
  - unfold CntlSpec.at_rb. by rewrite length_map.
  - change (sy_link (sys_at t0 s (x_c x))) with s in *.
    exists (sys_at t0 s' (x_c x)). rewrite (bind_Ret _ _ _ _ _ Hx). split; [done|]. exists s'.
    split; [done|]. split; [by etrans|]. split; [by rewrite Hl2|]. by rewrite Hl3, Hp.
Qed.
End Steps.

(** *** Answers *)

Definition set_tmds (i : nat) (ds : Z) (c : TM11 F) : TM11 F := c <| fTmds ::= <[i := ds]> |>.
Lemma set_fields f (c : TM11 F) : tm_cntl (f c) = tm_cntl c → length (tm_units (f c)) = length (tm_units c) →
  length (fTmds (f c)) = length (fTmds c) →
  (fPC_tmcr (f c), fPC_tmsr (f c), fPC_tmbc (f c), fPC_tmba (f c)) = (fPC_tmcr c, fPC_tmsr c, fPC_tmbc c, fPC_tmba c) →
  tm_fields c → tm_fields (f c).
Proof. intros E1 E2 E3 E4 [H1 H2 H3 H4 H5]. injection E4 as E4 E5 E6 E7. split; rewrite ?E1, ?E2, ?E3, ?E4, ?E5, ?E6, ?E7; done. Qed.
Lemma set_tape_fields i u c : tm_fields c → tm_fields (set_tape i u c).
Proof. apply set_fields; try done. apply length_insert. Qed.
Lemma set_tmds_fields i ds c : tm_fields c → tm_fields (set_tmds i ds c).
Proof. apply set_fields; try done. apply length_insert. Qed.
Lemma told_fast_ok q (v : TapeTap F) eof op nd : q_ok q →
  regs_ok (told_fast q (ds_of v eof) op nd) ∧ told_fast q (ds_of v eof) op nd ≠ [] ∧
  Z.of_nat (length (told_fast q (ds_of v eof) op nd)) < 2 ^ 31.
Proof.
  intros Hq. destruct (tm_q_ranges q Hq) as (Hun & _). unfold told_fast. split; [|split; [by destruct (nd =? 0)|by destruct (nd =? 0)]].
  unfold CntlSpec.regs_ok, tm_offs. apply Forall_app. split; [|apply Forall_app; split].
  - repeat (apply list.Forall_cons_2; [split; [set_solver|cbn [snd]]|]); [unfold is_u16; lia|apply ds_range|done].
  - destruct (nd =? 0); [done|]. apply list.Forall_cons_2; [|done]. split; [set_solver|]. unfold is_u16. cbn [snd].
    apply Z.mod_pos_bound. lia.
  - apply list.Forall_cons_2; [|done]. split; [set_solver|]. by destruct (bad_op op).
Qed.
Lemma told_dma_ok q (v : TapeTap F) n nxm perr : q_ok q → 
  regs_ok (told_dma q (ds_of v false) n (dma_err nxm perr)).
Proof.
  intros Hq. destruct (tm_q_ranges q Hq) as (Hun & _). unfold told_dma, CntlSpec.regs_ok, tm_offs.
  pose proof (Z.mod_pos_bound ((q_addr q + n) / 65536) 4 eq_refl).
  pose proof (Z.mod_pos_bound ((q_addr q + n) / 2) 32768 eq_refl).
  pose proof (Z.mod_pos_bound (q_bc q + n) 65536 eq_refl).
  pose proof (ds_range v false). unfold dma_err, is_u16 in *.
  repeat (apply list.Forall_cons_2; [split; [set_solver|cbn [snd]; unfold is_u16; destruct nxm, perr; lia]|]). done.
Qed.

Section Answers.
Variable t0 : Sys.
Hypothesis Hup : up t0.
Hypothesis Hib : fIBase (sy_cpu t0) = ib.
Notation does := (returns (tm_at t0)).
(** The request is stored in the controller. *)
Record stored (q : tm_req) (c : TM11 F) : Prop := {
  st_cr : fRd_tmcr c = q_cr q;
  st_bc : fRd_tmbc c = q_bc q;
  st_addr : fRd_addr c = q_addr q;
  st_fu : fRd_fu c = q_fu q }.

Lemma does_error tmcr x : tm_fields (x_c x) → is_u16 (rdone tmcr) →
  does (error_exit tmcr) x () (x <| x_port ::= logged (at_rb [(kTMCR, rdone tmcr)]) |>).
Proof.
  intros Hf Hr. assert (Hok : regs_ok [(kTMCR, rdone tmcr)]).
  { apply list.Forall_cons_2; [|done]. split; [unfold tm_offs; set_solver|done]. }
  unfold error_exit. eapply returns_bind; [apply does_get|].
  eapply returns_bind; [apply does_add; [done|apply (tf_base _ Hf)|done|done]|]. cbn beta iota.
  by apply (does_exec t0 Hup [(kTMCR, rdone tmcr)]).
Qed.
Lemma does_fast q op nd u v x : q_ok q → tm_fields (x_c x) → stored q (x_c x) → 0 <= nd →
  tm_units (x_c x) !! Z.to_nat (q_un q) = Some u → fupVirt u = Some v →
  let ds := ds_of v (bool_decide (op = kOpCodeEof)) in
  does (fast_exit op nd) x () (x <| x_c ::= set_tmds (Z.to_nat (q_un q)) ds |> <| x_port ::= logged (at_rb (told_fast q ds op nd)) |>).
Proof.
  intros Hq Hf [S1 S2 _ _] Hn Hu Hv ds. destruct (tm_q_code q Hq) as (E & _).
  destruct (told_fast_ok q v (bool_decide (op = kOpCodeEof)) op nd Hq) as (K1 & K2 & K3).
  unfold fast_exit. eapply returns_bind.
  { unfold AddFastExit. eapply returns_bind; [apply does_get|]. unfold id. rewrite S1, E.
    eapply returns_bind; [by apply does_tape|]. eapply returns_bind; [apply does_client|].
    rewrite (fast_regs_eq q (x_c x) u v), (fast_tmds_eq u v) by done.
    eapply returns_bind; [apply does_add; [done|apply (tf_base _ Hf)|done|done]|]. cbn beta iota. apply returns_ret. }
  exact (does_exec t0 Hup _ (x <| x_c ::= set_tmds (Z.to_nat (q_un q)) ds |>) K1 K2 K3).
Qed.
End Answers.

(** *** The buffer *)

Definition counted (i : nat) (c : TM11 F) : TM11 F := c <| tm_cntl ::= λ k, k <| cn_fStats ::= inc i 1 |> |>.
Lemma counted_fields i c : tm_fields c → tm_fields (counted i c).
Proof. intros [H1 H2 H3 H4 H5]. by split. Qed.
Definition resized (pd n : Z) (x : tst) : tst :=
  if tm_fBufSize (x_c x) <? n then
    x <| x_mem ::= λ m, mem_put pd (mem_get m (tm_fBuf (x_c x)) (Z.to_nat (tm_fBufSize (x_c x))) ++
                                    replicate (Z.to_nat (n - tm_fBufSize (x_c x))) 0) m |>
      <| x_c ::= λ r, r <| tm_fBuf := pd |> <| tm_fBufSize := n |> |>
  else x.
Lemma does_resize t0 pd n x : returns (tm_at t0) (buf_resize pd n) x () (resized pd n x).
Proof.
  unfold buf_resize, resized. eapply returns_bind; [apply does_get|]. unfold id.
  destruct (tm_fBufSize (x_c x) <? n); [|apply returns_ret].
  eapply returns_bind; [apply does_mem_read|]. eapply returns_bind; [apply does_mem_write|]. exact (does_client t0 _ _).
Qed.
(** What the resize leaves alone. *)
Lemma resized_keeps pd n x (c := x_c x) (x' := resized pd n x) : x_port x' = x_port x ∧ n <= tm_fBufSize (x_c x') ∧
  tm_units (x_c x') = tm_units c ∧ fTmds (x_c x') = fTmds c ∧ (tm_fields c → tm_fields (x_c x')) ∧
  (∀ q, stored q c → stored q (x_c x')).
Proof.
  unfold x', c, resized. destruct (Z.ltb_spec (tm_fBufSize (x_c x)) n); [|by split_and!].
  split; [done|]. split; [simpl; lia|]. split; [done|]. split; [done|]. split.
  - intros [H1 H2 H3 H4 H5]. by split.
  - intros q [H1 H2 H3 H4]. by split.
Qed.

Lemma does_store t0 bs x : returns (tm_at t0) (buf_store bs) x () (x <| x_mem ::= store_bytes (tm_fBuf (x_c x)) bs |>).
Proof. unfold buf_store. eapply returns_bind; [apply does_get|]. exact (does_mem_upd t0 (store_bytes (tm_fBuf (x_c x)) bs) x). Qed.

(** *** Functions without a transfer *)

Definition tape_fun (q : tm_req) (st : tape_state) : option tape_op :=
  if q_fu q =? 3 then Some TEof
  else if q_fu q =? 4 then Some (TForw (q_n q))
  else if q_fu q =? 5 then Some (TBack (q_n q))
  else if q_fu q =? 7 then Some TRewind
  else if q_fu q =? 1 then match st.2 with Rec _ _ :: _ => None | _ => Some TRead end
  else None.
(** What the device is told of it: WEOF has no opcode, and only spacing counts. *)
Definition fun_out (o : tape_op) (r : OpCode * Z * list Z) : OpCode * Z :=
  match o with
  | TEof => (kOpCodeOK, 0)
  | TForw _ | TBack _ => (r.1.1, r.1.2)
  | _ => (r.1.1, 0)
  end.
Lemma sforw_count a : ∀ n rb, 0 <= (sforw a n rb).1.2.
Proof.
  induction a as [|[p d|] a IH]; intros n rb; simpl; destruct (n <=? 0); simpl; try lia.
  specialize (IH (n - 1) (Rec p d :: rb)). destruct (sforw a (n - 1) (Rec p d :: rb)) as [[op k] st]. simpl in *. lia.
Qed.
Lemma sback_count b : ∀ n a, 0 <= (sback b n a).1.2.
Proof.
  induction b as [|[p d|] b IH]; intros n a; simpl; destruct (n <=? 0); simpl; try lia.
  specialize (IH (n - 1) (Rec p d :: a)). destruct (sback b (n - 1) (Rec p d :: a)) as [[op k] st]. simpl in *. lia.
Qed.
Lemma fun_out_count o st : 0 <= (fun_out o (spec_op o st).1).2.
Proof.
  destruct st as [rb a], o as [|d| |n|n|]; simpl; try done.
  - pose proof (sforw_count a n rb). by destruct (sforw a n rb) as [[op k] st].
  - pose proof (sback_count rb n a). by destruct (sback rb n a) as [[op k] st].
Qed.

Lemma spec_eof st : (spec_op TEof st).1 = (kOpCodeBadFormat, 0, []).
Proof. by destruct st. Qed.
Lemma spec_rewind st : (spec_op TRewind st).1 = (kOpCodeOK, 0, []).
Proof. by destruct st. Qed.

Section Function.
Variable t0 : Sys.
Hypothesis Hup : up t0.
Hypothesis Hib : fIBase (sy_cpu t0) = ib.
Variables (a : A) (pd : Z) (q : tm_req) (w p : bool) (st : tape_state) (o : tape_op).
Hypothesis Hq : q_ok q.
Hypothesis Hfun : tape_fun q st = Some o.
Hypothesis Hw : o = TEof → w = true.
Let i := Z.to_nat (q_un q).
Let out := fun_out o (spec_op o st).1.
Let st' := (spec_op o st).2.

(** Behind the call of the unit. *)
Record fun_done (x x' : tst) (u' : Rw11UnitTape F) (v' : TapeTap F) : Prop := {
  fd_virt : fupVirt u' = Some v';
  fd_tape : mounted w p u' st';
  fd_port : x_port x' = logged (at_rb (told_fast q (ds_of v' (bool_decide (out.1 = kOpCodeEof))) out.1 out.2)) (x_port x);
  fd_units : tm_units (x_c x') = <[i := u']> (tm_units (x_c x));
  fd_tmds : fTmds (x_c x') = <[i := ds_of v' (bool_decide (out.1 = kOpCodeEof))]> (fTmds (x_c x));
  fd_fields : tm_fields (x_c x') }.
Lemma mounted_virt u s : mounted w p u s → ∃ v, fupVirt u = Some v.
Proof. intros (v & tail & Hv & _). by exists v. Qed.
Lemma fast_done x u' op nd : out = (op, nd) → tm_fields (x_c x) → stored q (x_c x) → mounted w p u' st' →
  (i < length (tm_units (x_c x)))%nat → tm_units (x_c x) !! i = Some u' →
  ∃ x' v', returns (tm_at t0) (fast_exit op nd) x () x' ∧ fun_done x x' u' v'.
Proof.
  intros Ho Hf Hs Hm Hi Hu. destruct (mounted_virt u' _ Hm) as (v' & Hv).
  pose proof (fun_out_count o st) as Hn. fold out in Hn. rewrite Ho in Hn.
  eexists _, v'. split; [by apply (does_fast t0 Hup Hib q op nd u' v')|].
  split; rewrite ?Ho; try done.
  - simpl. symmetry. by apply list_insert_id.
  - by apply set_tmds_fields.
Qed.
Lemma tape_function_ok x u : tm_fields (x_c x) → stored q (x_c x) → tm_units (x_c x) !! i = Some u → mounted w p u st →
  ∃ x' u' v', returns (tm_at t0) (do_function a pd i (q_fu q) (q_addr q) (q_n q)) x () x' ∧ fun_done x x' u' v'.
Proof.
  intros Hf Hs Hu Hm.
  destruct (unit_op_does w p (q_n q) u st o) as (u' & Hop & Hm'); [|done| |].
  { intros ->. unfold tape_fun in Hfun. unfold holds_next. repeat case_match; done. }
  { destruct o; simpl; auto. unfold tape_fun in Hfun. by repeat case_match. }
  fold st' in Hm'.
  (* a counter, a call and the answer *)
  assert (Hcall : ∀ ind m op nd d op' nd' k, m u = ((Ret (inl ()), (op, nd, d)), u') → out = (op', nd') →
    k (true, op, nd, d) = fast_exit op' nd' →
    ∃ x' u' v', returns (tm_at t0) (tstat_ ind ;; call_unit i m ≫= k) x () x' ∧ fun_done x x' u' v').
  { intros ind m op nd d op' nd' k Hmu Ho Hk.
    assert (Hi : (i < length (tm_units (x_c x)))%nat) by (by eapply lookup_lt_Some).
    set (x2 := x <| x_c ::= counted ind |> <| x_c ::= set_tape i u' |>).
    destruct (fast_done x2 u' op' nd' Ho) as (x' & v' & H1 & [D1 D2 D3 D4 D5 D6]).
    - by apply set_tape_fields, counted_fields.
    - by destruct Hs.
    - done.
    - simpl. by rewrite length_insert.
    - simpl. by rewrite list_lookup_insert_eq.
    - exists x', u', v'. split.
      + eapply returns_bind; [exact (does_client t0 (counted ind) x)|].
        eapply returns_bind; [by apply (does_call t0 i m u)|]. rewrite Hk. exact H1.
      + split; try done. rewrite D4. simpl. by rewrite list_insert_insert_eq. }
  (* READ in front of a mark or at the end *)
  assert (Hread : ∀ op, out = (op, 0) → VirtReadRecord (q_n q) u = ((Ret (inl ()), (op, 0, [])), u') →
    ∃ x' u' v', returns (tm_at t0) (do_read a pd i (q_addr q) (q_n q)) x () x' ∧ fun_done x x' u' v').
  { intros op Ho Hmu. destruct (resized_keeps pd ((q_n q + 1) / 2) (x <| x_c ::= counted kStatNFuncRead |>)) as (R1 & _ & R2 & R3 & R4 & R5).
    set (x1 := resized pd _ _) in *.
    set (x2 := x1 <| x_c ::= set_tape i u' |>).
    set (x3 := x2 <| x_mem ::= store_bytes (tm_fBuf (x_c x2)) [] |> <| x_c ::= λ r, r <| fRd_rddone := 0 |> <| fRd_opcode := op |> |>).
    assert (Hi : (i < length (tm_units (x_c x1)))%nat) by (rewrite R2; by eapply lookup_lt_Some).
    destruct (fast_done x3 u' op 0 Ho) as (x' & v' & H1 & [D1 D2 D3 D4 D5 D6]).
    - assert (Hf1 : tm_fields (x_c x1)) by (by apply R4, counted_fields).
      destruct (set_tape_fields i u' _ Hf1) as [F1 F2 F3 F4 F5]. by split.
    - assert (Hs1 : stored q (x_c x1)) by (apply R5; by destruct Hs). by destruct Hs1.
    - done.
    - simpl. by rewrite length_insert.
    - simpl. by rewrite list_lookup_insert_eq.
    - exists x', u', v'. split.
      + unfold do_read. eapply returns_bind; [exact (does_client t0 (counted kStatNFuncRead) x)|].
        eapply returns_bind; [apply does_resize|]. fold x1.
        eapply returns_bind; [apply (does_call t0 i (VirtReadRecord (q_n q)) u op 0 []); [by rewrite R2|exact Hmu]|].
        cbn beta iota. eapply returns_bind; [apply does_store|]. eapply returns_bind; [apply does_client|]. exact H1.
      + split; try done.
        * rewrite D3. simpl. by rewrite R1.
        * rewrite D4. simpl. by rewrite list_insert_insert_eq, R2.
        * rewrite D5. simpl. by rewrite R3. }
  unfold tape_fun in Hfun. unfold do_function.
  change kFUNC_UNLOAD with 0. change kFUNC_READ with 1. change kFUNC_WRITE with 2. change kFUNC_WEIRG with 6.
  change kFUNC_WEOF with 3. change kFUNC_SFORW with 4. change kFUNC_SBACK with 5. change kFUNC_REWIND with 7.
  assert (Hres : ∀ o', Some o' = Some o → unit_op (q_n q) o' u = ((Ret (inl ()), (spec_op o' st).1), u') ∧
    out = fun_out o' (spec_op o' st).1) by (by intros o' [= ->]).
  destruct (Z.eqb_spec (q_fu q) 3) as [->|_].
  { destruct (Hres TEof Hfun) as [E1 E2]. rewrite spec_eof in E1, E2. cbn [Z.eqb Pos.eqb orb].
    by apply (Hcall kStatNFuncWeof VirtWriteEof kOpCodeBadFormat 0 [] kOpCodeOK 0 (λ _, fast_exit kOpCodeOK 0)). }
  destruct (Z.eqb_spec (q_fu q) 4) as [->|_].
  { destruct (Hres _ Hfun) as [E1 E2]. cbn [Z.eqb Pos.eqb orb].
    destruct ((spec_op (TForw (q_n q)) st).1) as [[op nd] d] eqn:E.
    by apply (Hcall kStatNFuncSforw (VirtSpaceForw (q_n q)) op nd d op nd (λ '(_, op, nd, _), fast_exit op nd)). }
  destruct (Z.eqb_spec (q_fu q) 5) as [->|_].
  { destruct (Hres _ Hfun) as [E1 E2]. cbn [Z.eqb Pos.eqb orb].
    destruct ((spec_op (TBack (q_n q)) st).1) as [[op nd] d] eqn:E.
    by apply (Hcall kStatNFuncSback (VirtSpaceBack (q_n q)) op nd d op nd (λ '(_, op, nd, _), fast_exit op nd)). }
  destruct (Z.eqb_spec (q_fu q) 7) as [->|_].
  { destruct (Hres _ Hfun) as [E1 E2]. rewrite spec_rewind in E1, E2. cbn [Z.eqb Pos.eqb orb].
    by apply (Hcall kStatNFuncRewind VirtRewind kOpCodeOK 0 [] kOpCodeOK 0 (λ '(_, op, _, _), fast_exit op 0)). }
  destruct (Z.eqb_spec (q_fu q) 1) as [->|_]; [|done]. cbn [Z.eqb].
  assert (Hrd : ∃ op, (spec_op TRead st).1 = (op, 0, []) ∧ Some TRead = Some o).
  { clear -Hfun. destruct st as [rb [|[pe d|] ah]]; simpl in *; [by eexists|done|by eexists]. }
  destruct Hrd as (op & E & Ho). destruct (Hres _ Ho) as [E1 E2]. rewrite E in E1, E2. by apply (Hread op).
Qed.
End Function.
End TM11.
