(* ===== verification/TmTape.v ===== *)
(** * What the TM11 does for its device, end to end

    The attention handler takes the request from the registers; functions without
    a transfer, refusals, and the transfers of READ and WRITE, from the attention
    to the last action of the server.  A pdp-11 with a tape shows that the
    hypotheses can hold. *)

From S2P Require Import Prelude.
From S2P Require Import Rstats.
From S2P Require Import AddrMap.
From S2P Require Import Command.
From S2P Require Import CommandList.
From S2P Require Import Connect.
From S2P Require Import ConnectDecode.
From S2P Require Import Link.
From S2P Require Import LinkCore.
From S2P Require Import Server.
From S2P Require Import FileFd.
From S2P Require Import Url.
From S2P Require Import VirtDisk.
From S2P Require Import UnitDisk.
From S2P Require Import VirtTape.
From S2P Require Import TapeSpec.
From S2P Require Import Cpu.
From S2P Require Import CpuMem.
From S2P Require Import Rdma.
From S2P Require Import RdmaSpec.
From S2P Require Import Cntl.
From S2P Require Import CntlSpec.
From S2P Require Import MemOps.
From S2P Require Import PdpBus.
From S2P Require Import Tm11.
From S2P Require Import TmSpec.

Open Scope Z_scope.

(** A tape at its begin shows it. *)
Lemma head_of_zero pd rb : (Z.of_nat (head_of pd rb) =? 0) = bool_decide (rb = []).
Proof.
  destruct rb as [|x rb]; [done|]. rewrite bool_decide_eq_false_2 by done. apply Z.eqb_neq.
  rewrite head_of_cons. destruct x; simpl; lia.
Qed.

Section Attention.
Context {S D V H A F : Type}.
Context `{!RlinkExec S, !Rbus D, !LinkLaws S D, !CpuBus D, !RegDev D, !VirtDiskOps V, !VirtDiskSpec V, !PosixFile F, !PosixFileLaws F}.
Notation Sys := (Rw11Sys S V H A (TM11 F)).
Variables (ib base : Z).
Notation rb := (rb ib base).
Notation at_rb := (at_rb ib base).
Hypothesis Hdev : tm_present (D := D) ib base.
Variables (a : A) (pd : Z).

Lemma mounted_bot w pdo (u : Rw11UnitTape F) v st : mounted w pdo u st → fupVirt u = Some v → fBot v = bool_decide (st.1 = []).
Proof.
  intros (v' & tail & Hv & _ & R) E. simplify_eq. destruct (rep_at _ _ _ _ R) as (_ & Hp & _ & ->).
  by rewrite Hp, head_of_zero.
Qed.

(** The request in the registers. *)
Definition request_of (t : Sys) : tm_req :=
  let r off := reg (rb off) (dev (sy_link t)) in mkReq (r kTMCR) (r kTMBC) (r kTMBA).
Lemma tm_request_of_ok t : q_ok (request_of t).
Proof. split_and!; apply reg_range. Qed.

(** The tapes and the buffer are as before. *)
Record same_tapes (c c' : TM11 F) : Prop := {
  sa_units : tm_units c' = tm_units c;
  sa_tmds : fTmds c' = fTmds c;
  sa_buf : tm_fBuf c' = tm_fBuf c ∧ tm_fBufSize c' = tm_fBufSize c }.
Lemma tm_regs : Forall dev_reg (map rb prim_offs).
Proof. apply (regs_at _ _ _ Hdev). unfold prim_offs, tm_offs. repeat constructor; set_solver. Qed.

(** The handler up to the request. *)
Lemma attention_ok args (t : Sys) : tm_ready ib base t → let q := request_of t in
  ∃ args' x tmsr t1, tm_at t x t1 ∧ x_mem x = srv_mem (sy_link t) ∧ x_port x = port (dev (sy_link t)) ∧
    tm_fields ib base (x_c x) ∧ same_tapes (sy_client t) (x_c x) ∧
    AttnHandler a pd args t = (serve a pd (q_cr q) tmsr (q_bc q) (q_ba q) ;; mret args') t1.
Proof.
  intros [Hup Hib Hdk Hf] q. set (t0 := t <| sy_client ::= counted Cntl.kStatNAttnHdl |>).
  pose proof (counted_fields ib base Cntl.kStatNAttnHdl _ Hf) as Hf0.
  destruct (harvest_ok tm_cntl (map rb prim_offs) args t0) as (x & s' & l' & Hx & [L1 L2 L3] & _ & Hp & Hdata);
    [apply Hup|apply (tf_prim _ _ _ Hf0)|apply tm_regs|done|].
  set (t1 := set_prim tm_cntl l' (t0 <| sy_link := s' |>)) in *.
  assert (Hpd : ∀ i off, prim_offs !! i = Some off → prim_data tm_cntl (Datatypes.S i) t1 = (Ret (reg (rb off) (dev (sy_link t))), t1)).
  { intros i off Hi. destruct (Hdata i (rb off)) as (c & Hc & Hd); [by rewrite list_lookup_fmap, Hi|].
    rewrite <- (Hd : fData c = reg (rb off) (dev (sy_link t))). by apply prim_data_run. }
  eexists _, (mkTst (srv_mem (sy_link t)) (port (dev (sy_link t))) (sy_client t1)), (reg (rb kTMSR) (dev (sy_link t))), t1.
  split; [by exists s'|]. split; [done|]. split; [done|]. split.
  { destruct Hf0 as [H1 H2 H3 H4 H5]. by split. }
  split; [done|].
  unfold AttnHandler. rewrite (bind_Ret _ _ _ _ _ (eq_refl : tstat_ Cntl.kStatNAttnHdl t = (Ret (), t0))).
  rewrite (bind_Ret _ _ _ _ _ Hx).
  assert (Hg : get_client (id : TM11 F → _) t1 = (Ret (sy_client t1), t1)) by done.
  rewrite (bind_Ret _ _ _ _ _ Hg). clear Hg.
  destruct (tf_pc _ _ _ Hf) as (P1 & P2 & P3 & P4).
  change (fPC_tmcr (sy_client t1)) with (fPC_tmcr (sy_client t)). change (fPC_tmsr (sy_client t1)) with (fPC_tmsr (sy_client t)).
  change (fPC_tmbc (sy_client t1)) with (fPC_tmbc (sy_client t)). change (fPC_tmba (sy_client t1)) with (fPC_tmba (sy_client t)).
  rewrite P1, P2, P3, P4.
  rewrite (bind_Ret _ _ _ _ _ (Hpd 0%nat _ eq_refl)), (bind_Ret _ _ _ _ _ (Hpd 1%nat _ eq_refl)),
    (bind_Ret _ _ _ _ _ (Hpd 2%nat _ eq_refl)), (bind_Ret _ _ _ _ _ (Hpd 3%nat _ eq_refl)). done.
Qed.

(** *** The request *)

Definition request_set (q : tm_req) (tmsr : Z) (c : TM11 F) : TM11 F :=
  c <| fRd_tmcr := q_cr q |> <| fRd_tmsr := tmsr |> <| fRd_tmbc := q_bc q |> <| fRd_tmba := q_ba q |>
    <| fRd_addr := q_addr q |> <| fRd_fu := q_fu q |>.
Lemma request_set_ok q tmsr c : tm_fields ib base c → tm_fields ib base (request_set q tmsr c) ∧
  stored q (request_set q tmsr c) ∧ same_tapes c (request_set q tmsr c).
Proof. intros [H1 H2 H3 H4 H5]. by split_and!. Qed.
(** The drive that a request selects; [None]: it cannot do what is asked. *)
Definition writes (q : tm_req) : bool := (q_fu q =? 2) || (q_fu q =? 6) || (q_fu q =? 3).
Definition selected (q : tm_req) (c : TM11 F) : option (Rw11UnitTape F) :=
  if 4 <=? q_un q then None
  else
    u ← tm_units c !! Z.to_nat (q_un q);
    match fupVirt u with
    | None => None
    | Some v => if writes q && fWProt v then None else Some u
    end.

Section Serve.
Variable t0 : Sys.
Hypothesis Hup : up t0.
Hypothesis Hib : fIBase (sy_cpu t0) = ib.
Variables (q : tm_req) (tmsr : Z).
Hypothesis Hq : q_ok q.
Notation serve := (serve a pd (q_cr q) tmsr (q_bc q) (q_ba q)).

Lemma does_busy x : returns (tm_at t0) (gets (λ t : Sys, IsActive (sy_rdma t))) x (IsActive (sy_rdma t0)) x.
Proof. intros t (s & -> & Hs). exists (sys_at t0 s (x_c x)). split; [done|by exists s]. Qed.
Lemma serve_dropped x : q_ready q || IsActive (sy_rdma t0) = true → returns (tm_at t0) serve x () x.
Proof.
  intros Hb. destruct (tm_q_code q Hq) as (_ & _ & _ & _ & E). unfold Tm11.serve.
  eapply returns_bind; [apply does_busy|]. rewrite E, Hb. apply returns_ret.
Qed.
Hypothesis Hgo : q_ready q || IsActive (sy_rdma t0) = false.
Lemma serve_refused x : tm_fields ib base (x_c x) → selected q (x_c x) = None →
  returns (tm_at t0) serve x () (x <| x_port ::= logged (at_rb told_refused) |>).
Proof.
  intros Hf Hsel. destruct (tm_q_code q Hq) as (E1 & E2 & _ & _ & E5). destruct (tm_q_ranges q Hq) as (Hun & _).
  assert (Herr : returns (tm_at t0) (error_exit kTMCR_M_RICMD) x () (x <| x_port ::= logged (at_rb told_refused) |>)).
  { by apply (does_error ib base Hdev t0 Hup Hib kTMCR_M_RICMD x). }
  unfold Tm11.serve. eapply returns_bind; [apply does_busy|]. rewrite E1, E2, E5, Hgo.
  change (Z.of_nat NUnit) with 4. unfold selected in Hsel. destruct (4 <=? q_un q) eqn:E; [exact Herr|].
  assert (Hi : (Z.to_nat (q_un q) < length (tm_units (x_c x)))%nat).
  { apply Z.leb_gt in E. rewrite (tf_units _ _ _ Hf). lia. }
  destruct (lookup_lt_is_Some_2 _ _ Hi) as [u Hu]. rewrite Hu in Hsel.
  eapply returns_bind; [by apply does_tape|]. simpl in Hsel. destruct (fupVirt u) as [v|]; [|exact Herr].
  change (write_function (q_fu q)) with (writes q). by destruct (writes q && fWProt v).
Qed.
Lemma serve_run x u t : tm_at t0 x t → selected q (x_c x) = Some u →
  ∃ t', tm_at t0 (x <| x_c ::= request_set q tmsr |>) t' ∧ tm_units (x_c x) !! Z.to_nat (q_un q) = Some u ∧
    serve t = do_function a pd (Z.to_nat (q_un q)) (q_fu q) (q_addr q) (q_n q) t'.
Proof.
  intros Ht Hsel. destruct (tm_q_code q Hq) as (E1 & E2 & E3 & E4 & E5).
  unfold selected in Hsel. destruct (4 <=? q_un q) eqn:E; [done|].
  destruct (tm_units (x_c x) !! Z.to_nat (q_un q)) as [u'|] eqn:Hu; [|done]. simpl in Hsel.
  destruct (fupVirt u') as [v|] eqn:Hv; [|done]. destruct (writes q && fWProt v) eqn:Ew; [done|]. injection Hsel as ->.
  destruct (does_busy x t Ht) as (t1 & H1 & Ht1). destruct (does_tape t0 _ u x Hu t1 Ht1) as (t2 & H2 & Ht2).
  destruct (does_client t0 (request_set q tmsr) x t2 Ht2) as (t3 & H3 & Ht3). exists t3. split; [exact Ht3|]. split; [done|].
  unfold Tm11.serve. rewrite (bind_Ret _ _ _ _ _ H1). rewrite E1, E2, E3, E4, E5, Hgo.
  change (Z.of_nat NUnit) with 4. rewrite E, (bind_Ret _ _ _ _ _ H2), Hv.
  change (write_function (q_fu q)) with (writes q). rewrite Ew. exact (bind_Ret _ _ _ _ _ H3).
Qed.
End Serve.

(** The state behind the handler when there was no transfer. *)
Lemma tm_at_ready (t : Sys) x t' : tm_ready ib base t → tm_at t x t' → tm_fields ib base (x_c x) → tm_ready ib base t'.
Proof.
  intros [[H1 H1'] H2 H3 _] (s & -> & Hs & _) Hf. split; [|done|done|done].
  split; [done|]. by eapply same_link_ok.
Qed.
End Attention.

(** C9: Functions of the device that move the tape without a transfer.  For WEOF,
    SFORW, SBACK, REWIND, and READ in front of a file mark or at the end of the
    tape, the attention handler returns; the tape of the selected drive has moved
    as the operation on a sequence of records and marks says, the device was told
    the status of the tape there (with BOT exactly at its begin, and the file mark
    that was met), the byte count advanced by the records passed, and an error
    unless the operation ended at a mark or the begin; the stored status of the
    drive is the one told; memory, the transfer and the server are as before, and
    the controller is ready. *)
Theorem tm_function {S D V H A F} `{!RlinkExec S, !Rbus D, !LinkLaws S D, !CpuBus D, !RegDev D, !VirtDiskOps V, !VirtDiskSpec V, !PosixFile F, !PosixFileLaws F}
    (ib base : Z) (a : A) (pd : Z) (args : AttnArgs) (t : Rw11Sys S V H A (TM11 F)) (q : tm_req) (u : Rw11UnitTape F)
    (w p : bool) (st : tape_state) (o : tape_op) :
  tm_present (D := D) ib base → tm_ready ib base t → q = request_of ib base t →
  q_ready q = false → IsActive (sy_rdma t) = false → selected q (sy_client t) = Some u →
  mounted w p u st → tape_fun q st = Some o → (o = TEof → w = true) →
  let i := Z.to_nat (q_un q) in
  let op := (fun_out o (spec_op o st).1).1 in
  let st' := (spec_op o st).2 in
  ∃ args' t' u' v', AttnHandler a pd args t = (Ret args', t') ∧ tm_ready ib base t' ∧
    tm_units (sy_client t') = <[i := u']> (tm_units (sy_client t)) ∧ fupVirt u' = Some v' ∧ mounted w p u' st' ∧
    fBot v' = bool_decide (st'.1 = []) ∧
    let ds := ds_of v' (bool_decide (op = kOpCodeEof)) in
    fTmds (sy_client t') = <[i := ds]> (fTmds (sy_client t)) ∧
    cport (sy_cpu t') =
      logged (at_rb ib base (told_fast q ds op (fun_out o (spec_op o st).1).2)) (cport (sy_cpu t)) ∧
    sy_rdma t' = sy_rdma t ∧ sy_srv t' = sy_srv t.
Proof.
  intros Hdev Hr -> Hrdy Hact Hsel Hm Hfun Hw i op st'. set (q := request_of ib base t) in *.
  destruct (attention_ok ib base Hdev a pd args t Hr) as (args' & x & tmsr & t1 & Hx & Hxm & Hxp & Hf & [Su St _] & Hatt).
  fold q in Hatt. pose proof (tm_request_of_ok ib base t) as Hq. fold q in Hq. pose proof Hr as [Hup Hib _ _].
  assert (Hgo : q_ready q || IsActive (sy_rdma t) = false) by (by rewrite Hrdy).
  unfold selected in Hsel. rewrite <- Su in Hsel. fold (selected q (x_c x)) in Hsel.
  destruct (serve_run a pd t q tmsr Hq Hgo x u t1 Hx Hsel) as (t2 & Ht2 & Hu & Hs).
  destruct (request_set_ok ib base q tmsr _ Hf) as (Hf2 & Hst2 & [Su2 St2 _]).
  destruct (tape_function_ok ib base Hdev t Hup Hib a pd q w p st o Hq Hfun Hw (x <| x_c ::= request_set q tmsr |>) u)
    as (x' & u' & v' & Hrun & [D1 D2 D3 D4 D5 D6]); [done|done|by etrans|done|].
  destruct (Hrun t2 Ht2) as (t' & H1 & Ht'). pose proof (tm_at_ready ib base t x' t' Hr Ht' D6) as Hr'.
  destruct Ht' as (s & -> & _ & _ & Hp).
  exists args', (sys_at t s (x_c x')), u', v'.
  split; [rewrite Hatt, (bind_Ret _ _ _ _ _ (eq_trans Hs H1)); done|]. split; [done|].
  split; [change (tm_units (x_c x') = <[i := u']> (tm_units (sy_client t))); rewrite D4; cbn [x_c update setter]; by rewrite Su2, Su|].
  split; [done|]. split; [done|]. split; [by eapply mounted_bot|].
  split; [change (fTmds (x_c x') = <[i := ds_of v' (bool_decide (op = kOpCodeEof))]> (fTmds (sy_client t)));
    rewrite D5; cbn [x_c update setter]; by rewrite St2, St|].
  split; [|done]. change (port (dev s) = logged (at_rb ib base (told_fast q (ds_of v' (bool_decide (op = kOpCodeEof))) op
    (fun_out o (spec_op o st).1).2)) (port (dev (sy_link t)))). by rewrite Hp, D3, <- Hxp.
Qed.

(** C10: What the controller does not do.  A request while the device is ready or
    a transfer is active is dropped; a drive that does not exist or has no tape,
    and a function that writes on a protected tape, are refused with an illegal
    command, told once; tapes, buffer, memory, transfer and server are as
    before. *)
Theorem tm_refused {S D V H A F} `{!RlinkExec S, !Rbus D, !LinkLaws S D, !CpuBus D, !RegDev D, !VirtDiskOps V, !VirtDiskSpec V, !PosixFile F, !PosixFileLaws F}
    (ib base : Z) (a : A) (pd : Z) (args : AttnArgs) (t : Rw11Sys S V H A (TM11 F)) :
  tm_present (D := D) ib base → tm_ready ib base t →
  let q := request_of ib base t in let dropped := q_ready q || IsActive (sy_rdma t) in
  dropped = true ∨ selected q (sy_client t) = None →
  ∃ args' t', AttnHandler a pd args t = (Ret args', t') ∧ tm_ready ib base t' ∧
    cport (sy_cpu t') = logged (at_rb ib base (if dropped then [] else told_refused)) (cport (sy_cpu t)) ∧
    same_tapes (sy_client t) (sy_client t') ∧ srv_mem (sy_link t') = srv_mem (sy_link t) ∧
    sy_rdma t' = sy_rdma t ∧ sy_srv t' = sy_srv t.
Proof.
  intros Hdev Hr q dropped Hc.
  destruct (attention_ok ib base Hdev a pd args t Hr) as (args' & x & tmsr & t1 & Hx & Hxm & Hxp & Hf & Hsame & Hatt).
  fold q in Hatt. pose proof (tm_request_of_ok ib base t) as Hq. fold q in Hq. pose proof Hr as [Hup Hib _ _].
  assert (Hrun : returns (tm_at t) (serve a pd (q_cr q) tmsr (q_bc q) (q_ba q)) x ()
    (x <| x_port ::= logged (at_rb ib base (if dropped then [] else told_refused)) |>)).
  { destruct dropped eqn:E.
    - cbn [update setter]. rewrite logged_nil. destruct x. by apply serve_dropped.
    - destruct Hc as [|Hc]; [done|]. apply (serve_refused ib base Hdev); try done.
      destruct Hsame as [Su _ _]. unfold selected in *. by rewrite Su. }
  destruct (Hrun t1 Hx) as (t' & H1 & Ht'). pose proof (tm_at_ready ib base t _ t' Hr Ht' Hf) as Hr'.
  destruct Ht' as (s & -> & _ & Hm & Hp). exists args', (sys_at t s (x_c x)).
  split; [rewrite Hatt, (bind_Ret _ _ _ _ _ H1); done|]. split; [done|].
  split; [etrans; [exact Hp|]; cbn [x_port update setter]; by rewrite Hxp|].
  split; [done|]. split; [|done]. by etrans.
Qed.

(** ** A pdp-11 with a tape *)

(** Drive 0 has a tape with a record of three bytes and a file mark; the registers
    hold a request. *)
Definition tape_items : list item := [Rec false [1; 2; 3]; Mark].
Definition tape_unit : Rw11UnitTape MemFile :=
  UnitTM11_ctor <| fupVirt := Some (new_tape "new.tap" (encs false tape_items)) |>.
Definition tape_bus (cr bc ba : Z) : PdpBus :=
  mkPdpBus (mkCpPort 0 false false 3 false {[0x1000 := 0x201; 0x1002 := 8; 0x1004 := 9]} 0x2000 [])
    (list_to_map [(0x4f81, cr); (0x4f82, bc); (0x4f83, ba)]).
Definition tape_prim : RlinkCommandList :=
  mkCommandList (fresh_command kCmdAttn 0 0 [] None 0 ::
    map (λ off, fresh_command kCmdRreg (rb 0x4000 0xff00 off) 0 [] None 0) prim_offs) (-1).
Definition tape_tm : TM11 MemFile :=
  TM11_ctor <| tm_cntl ::= (λ c, c <| cn_fBase := 0xff00 |> <| cn_fPrimClist := tape_prim |>) |>
    <| fPC_tmcr := 1%nat |> <| fPC_tmsr := 2%nat |> <| fPC_tmbc := 3%nat |> <| fPC_tmba := 4%nat |>
    <| tm_units := tape_unit :: replicate 3 UnitTM11_ctor |>.
Definition tape_sys (cr bc ba : Z) : Rw11Sys (RlinkLink (CorePort PdpBus)) (Rw11VirtDisk MemFile) () () (TM11 MemFile) :=
  mkSys RlinkServer_ctor ((Cpu_ctor "w11a" 0 (core_link (tape_bus cr bc ba))) <| fMemSize := 0x2000 |>) [] true
    (Rdma_ctor <| fChunksize := 2 |>) None tape_tm.
Lemma tape_present : tm_present (D := PdpBus) 0x4000 0xff00.
Proof. unfold tm_present, present, tm_offs. repeat (apply list.Forall_cons_2; [by split|]). done. Qed.
Lemma tape_ready cr bc ba : tm_ready 0x4000 0xff00 (tape_sys cr bc ba).
Proof.
  split; [|done|done|split; try done].
  - split; [done|]. apply core_link_is_up.
  - split; [|eexists _, _; split; [reflexivity|split; [done|by repeat constructor]]].
    repeat (apply list.Forall_cons_2; [apply fresh_command_wf; try done; by intros [|]|]). done.
Qed.
Lemma tape_mounted : mounted true false tape_unit ([], tape_items).
Proof.
  exists (new_tape "new.tap" (encs false tape_items)), []. split; [done|]. split; [done|]. split.
  - split_and!; done.
  - by left.
  - apply list.Forall_cons_2; [simpl; split; [lia|done]|]. by apply list.Forall_cons_2.
  - done.
  - done.
  - done.
  - by right.
  - done.
Qed.
(** A record forward. *)
Lemma tm_function_witness : ∃ args' t' u' v',
  AttnHandler () 500 (AttnArgs_ctor 0x10 0x10) (tape_sys 8 0xffff 0) = (Ret args', t') ∧ tm_ready 0x4000 0xff00 t' ∧
  tm_units (sy_client t') = u' :: replicate 3 UnitTM11_ctor ∧ fupVirt u' = Some v' ∧
  mounted true false u' ([Rec false [1; 2; 3]], [Mark]) ∧ fBot v' = false ∧
  fTmds (sy_client t') = [ds_of v' false; 0; 0; 0] ∧
  cport (sy_cpu t') = logged (at_rb 0x4000 0xff00 [(kTMCR, 2); (kTMRL, ds_of v' false); (kTMBC, 0); (kTMCR, 4)])
    (pb_port (tape_bus 8 0xffff 0)) ∧
  sy_rdma t' = Rdma_ctor <| fChunksize := 2 |> ∧ sy_srv t' = RlinkServer_ctor.
Proof.
  exact (tm_function 0x4000 0xff00 () 500 (AttnArgs_ctor 0x10 0x10) (tape_sys 8 0xffff 0) (mkReq 8 0xffff 0) tape_unit true false
    ([], tape_items) (TForw 1) tape_present (tape_ready 8 0xffff 0) eq_refl eq_refl eq_refl eq_refl tape_mounted eq_refl (λ _, eq_refl)).
Defined.
(** Drive 1 has no tape. *)
Lemma tm_refused_witness : ∃ args' t',
  AttnHandler () 500 (AttnArgs_ctor 0x10 0x10) (tape_sys 0x102 0xfff0 0) = (Ret args', t') ∧ tm_ready 0x4000 0xff00 t' ∧
  cport (sy_cpu t') = logged [(0x4f81, 0x8004)] (pb_port (tape_bus 0x102 0xfff0 0)) ∧
  same_tapes tape_tm (sy_client t') ∧ srv_mem (sy_link t') = srv_mem (sy_link (tape_sys 0x102 0xfff0 0)) ∧
  sy_rdma t' = Rdma_ctor <| fChunksize := 2 |> ∧ sy_srv t' = RlinkServer_ctor.
Proof.
  exact (tm_refused 0x4000 0xff00 () 500 (AttnArgs_ctor 0x10 0x10) (tape_sys 0x102 0xfff0 0) tape_present (tape_ready 0x102 0xfff0 0)
    (or_intror eq_refl)).
Defined.
