(* ===== verification/TmDma.v ===== *)
(** * The transfers of the TM11: READ and WRITE

    The buffer of the controller as bytes, the callback at the end of a transfer,
    and the theorems on whole commands: READ stores a record of the tape in the
    memory of the cpu, the last byte of an odd record too; WRITE makes a record
    of the words there. *)

From S2P Require Import Prelude.
From S2P Require Import Rstats.
From S2P Require Import AddrMap.
From S2P Require Import Command.
From S2P Require Import CommandList.
From S2P Require Import Connect.
From S2P Require Import ConnectDecode.
From S2P Require Import Link.
From S2P Require Import LinkCore.
From S2P Require Import Server.
From S2P Require Import FileFd.
From S2P Require Import Url.
From S2P Require Import VirtDisk.
From S2P Require Import UnitDisk.
From S2P Require Import VirtTape.
From S2P Require Import TapeSpec.
From S2P Require Import Cpu.
From S2P Require Import CpuMem.
From S2P Require Import Rdma.
From S2P Require Import RdmaSpec.
From S2P Require Import Cntl.
From S2P Require Import CntlSpec.
From S2P Require Import MemOps.
From S2P Require Import PdpBus.
From S2P Require Import Tm11.
From S2P Require Import TmSpec.
From S2P Require Import TmTape.

Open Scope Z_scope.

(** ** The buffer *)

Lemma odd_land x : negb (Z.land x 1 =? 0) = Z.odd x.
Proof. rewrite <- Z.bit0_odd. by apply (flag_test _ 0). Qed.
Lemma pair_words_app k : ∀ xs ys, length xs = (2 * k)%nat → pair_words (xs ++ ys) = pair_words xs ++ pair_words ys.
Proof.
  induction k as [|k IH]; intros xs ys Hk; [by destruct xs|].
  destruct xs as [|x1 [|x2 xs]]; simpl in Hk; [lia|lia|]. cbn [app pair_words]. by rewrite IH by lia.
Qed.
(** Words of a record; the last word of an odd one has its last byte below. *)
Definition record_words (d old : list Z) : list Z := pair_words (d ++ drop (length d) old).
Lemma record_words_take d old : take (length d / 2) (record_words d old) = pair_words d.
Proof.
  set (k := (length d / 2)%nat). unfold record_words.
  rewrite <- (take_drop (2 * k) d) at 1 3. rewrite <- app_assoc.
  assert (Hk : (2 * k <= length d)%nat) by (apply Nat.Div0.mul_div_le).
  assert (Hl : length (take (2 * k) d) = (2 * k)%nat) by (rewrite length_take; lia).
  assert (Hp : length (pair_words (take (2 * k) d)) = k).
  { pose proof (length_pair_words (take (2 * k) d)) as E. rewrite Hl, Nat.even_mul in E. specialize (E eq_refl). lia. }
  rewrite !(pair_words_app k) by done. rewrite take_app_length' by done.
  assert (Hd : (length (drop (2 * k) d) <= 1)%nat).
  { rewrite length_drop. pose proof (Nat.div_mod_eq (length d) 2) as E. fold k in E.
    pose proof (Nat.mod_upper_bound (length d) 2). lia. }
  destruct (drop (2 * k) d) as [|b [|? ?]]; [by rewrite app_nil_r|by rewrite (pair_words_app k), app_nil_r by done|simpl in Hd; lia].
Qed.
Lemma record_words_last d old b : Nat.odd (length d) = true → length old = (length d + 1)%nat → list.last d = Some b → is_u8 b →
  ∃ w, record_words d old !! (length d / 2)%nat = Some w ∧ lo8 w = b.
Proof.
  intros Ho Hl Hb Hu. apply last_Some in Hb as (d' & ->). rewrite length_app in Ho, Hl. cbn [length] in Ho, Hl.
  rewrite Nat.add_1_r, Nat.odd_succ in Ho. apply Nat.even_spec in Ho as (k & Hk).
  unfold record_words. rewrite <- app_assoc, (pair_words_app k) by done.
  assert (Hp : length (pair_words d') = k).
  { pose proof (length_pair_words d') as E. rewrite Hk, Nat.even_mul in E. specialize (E eq_refl). lia. }
  assert (E : (length (d' ++ [b]) / 2)%nat = k).
  { rewrite length_app, Hk. cbn [length]. rewrite Nat.add_comm, Nat.mul_comm, Nat.div_add by lia. done. }
  rewrite E. destruct (drop (length (d' ++ [b])) old) as [|h [|? ?]] eqn:Ed.
  - apply (f_equal length) in Ed. rewrite length_drop, length_app in Ed. cbn [length] in Ed. lia.
  - exists (word_of b h). cbn [app pair_words]. split; [by apply list_lookup_middle|by apply lo8_word_of].
  - apply (f_equal length) in Ed. rewrite length_drop, length_app in Ed. cbn [length] in Ed. lia.
Qed.
(** What [buf_store] leaves in the buffer. *)
Lemma store_bytes_get p d m : Forall is_u8 d → let k := ((length d + 1) / 2)%nat in
  mem_get (store_bytes p d m) p k = record_words d (words_bytes (mem_get m p k)) ∧
  length (record_words d (words_bytes (mem_get m p k))) = k ∧ Forall is_u16 (record_words d (words_bytes (mem_get m p k))).
Proof.
  intros Hd k. set (old := words_bytes (mem_get m p k)).
  assert (Hold : length old = (2 * k)%nat) by (unfold old; by rewrite length_words_bytes, length_mem_get).
  assert (Hk : (length d <= 2 * k)%nat).
  { unfold k. pose proof (Nat.div_mod_eq (length d + 1) 2). pose proof (Nat.mod_upper_bound (length d + 1) 2). lia. }
  assert (Hlen : length (record_words d old) = k).
  { pose proof (length_pair_words (d ++ drop (length d) old)) as E. rewrite length_app, length_drop, Hold in E.
    replace (length d + (2 * k - length d))%nat with (2 * k)%nat in E by lia. rewrite Nat.even_mul in E. specialize (E eq_refl).
    unfold record_words. lia. }
  assert (Hu : Forall is_u16 (record_words d old)).
  { apply pair_words_u16, list.Forall_app. split; [done|]. apply Forall_drop. apply words_bytes_u8. }
  split; [|by split]. unfold store_bytes. fold k old. fold (record_words d old). rewrite <- Hlen at 1. by apply mem_get_put.
Qed.

Section Transfer.
Context {S D V H A F : Type}.
Context `{!RlinkExec S, !Rbus D, !LinkLaws S D, !CpuBus D, !RegDev D, !VirtDiskOps V, !VirtDiskSpec V, !PosixFile F, !PosixFileLaws F}.
Notation Sys := (Rw11Sys S V H A (TM11 F)).
Variables (ib base : Z).
Notation at_rb := (at_rb ib base).
Notation regs_ok := (regs_ok tm_offs).
Hypothesis Hdev : tm_present (D := D) ib base.

(** *** The last byte of an odd record *)

Definition last_cmds (addr w : Z) : list RlinkCommand :=
  [wreg (u16 (cp_base (D := D) + kCPAL)) (al_of addr); wreg (u16 (cp_base (D := D) + kCPAH)) (ah_of addr kCPAH_M_UBM22);
   wreg (u16 (cp_base (D := D) + kCPMEMBE)) 1; wreg kCPMEM w].
(** A byte is stored when its address is in the memory. *)
Definition put_byte (lim addr b : Z) (m : gmap Z Z) : gmap Z Z :=
  if addr <? lim then <[addr := word_of b (hi8 (mword m addr))]> m else m.
Record put_last (addr b : Z) (p p' : CpPort) : Prop := {
  pl_mem : cp_mem p' = put_byte (cp_limit (addressed addr kCPAH_M_UBM22 p)) addr b (cp_mem p);
  pl_log : cp_log p' = cp_log p }.
Lemma last_bus addr w (d : D) m0 m rest : cp_base (D := D) = 0 → 0 <= addr < 2 ^ 22 → addr mod 2 = 0 → is_u16 w →
  ∃ cs d', bus_run m0 false (last_cmds addr w ++ rest) m d =
    (let '(cs2, m2, d2) := bus_run m0 false rest m d' in (cs ++ cs2, m2, d2)) ∧ put_last addr (lo8 w) (port d) (port d').
Proof.
  intros Hb Ha He Hw. destruct (write_lalh addr kCPAH_M_UBM22 d Ha He) as (st1 & d1 & st2 & d2 & H1 & _ & H2 & _ & Hp2).
  change (port d2 = addressed addr kCPAH_M_UBM22 (port d)) in Hp2.
  destruct (cp_write_law kCPMEMBE 1 d2 (port d2 <| cp_be := 1 |> <| cp_stick := false |>)) as (st3 & d3 & H3 & _ & Hp3); [done|done|].
  assert (Hlast : ∃ st4 d4, rb_write kCPMEM w d3 = (st4, d4) ∧ put_last addr (lo8 w) (port d) (port d4)).
  { assert (E : u16 (cp_base (D := D) + kCPMEM) = kCPMEM) by (by rewrite Hb).
    destruct (cp_ok (port d3)) eqn:Hok.
    - destruct (cp_write_law kCPMEM w d3 (cp_store w (port d3)) Hw) as (st4 & d4 & H4 & _ & Hp4).
      { unfold cp_write. cbn [Z.eqb Pos.eqb kCPMEM kCPAL kCPAH kCPMEMBE]. by rewrite Hok. }
      rewrite E in H4. exists st4, d4. split; [done|]. unfold cp_ok in Hok. rewrite Hp3, Hp2 in Hok, Hp4. rewrite Hp4. split; [|done].
      unfold put_byte. change (addr <? cp_limit (addressed addr kCPAH_M_UBM22 (port d)) = true) in Hok. by rewrite Hok.
    - destruct (cp_write_fail kCPMEM w d3) as (st4 & d4 & H4 & _ & M1 & _ & M3); [by left|done|].
      rewrite E in H4. exists st4, d4. split; [done|]. unfold cp_ok in Hok. rewrite Hp3, Hp2 in *. split; [|done].
      unfold put_byte. change (addr <? cp_limit (addressed addr kCPAH_M_UBM22 (port d)) = false) in Hok. by rewrite Hok. }
  destruct Hlast as (st4 & d4 & H4 & Hput).
  eexists [_; _; _; _], d4. split; [|exact Hput]. cbn [last_cmds app].
  rewrite bus_wreg, H1, bus_wreg, H2, bus_wreg, H3, bus_wreg, H4. by destruct (bus_run _ _ _ _ _) as [[? ?] ?].
Qed.
Lemma last_wf addr w : 0 <= addr < 2 ^ 22 → addr mod 2 = 0 → is_u16 w → Forall cmd_wf (last_cmds addr w).
Proof.
  intros Ha He Hw. destruct (lalh_bits addr kCPAH_M_UBM22 Ha He) as (H1 & H2 & _).
  repeat (apply list.Forall_cons_2; [apply wreg_wf; first [assumption|apply u16_range|by split]|]). done.
Qed.
(** The list that ends a transfer. *)
Lemma exec_answer (t0 : Sys) pre ws (P : CpPort → Prop) x t :
  up t0 → Forall cmd_wf pre → forallb bus_code pre = true → (length pre <= 4)%nat →
  regs_ok ws → ws ≠ [] → Z.of_nat (length ws) < 2 ^ 31 →
  (∀ (d : D) m0 m rest, port d = x_port x → ∃ cs d', bus_run m0 false (pre ++ rest) m d =
    (let '(cs2, m2, d2) := bus_run m0 false rest m d' in (cs ++ cs2, m2, d2)) ∧ P (port d')) →
  tm_at t0 x t → ∃ p t', (exec_list (mkCommandList (pre ++ wregs (at_rb ws)) (-1)) ;; mret ()) t = (Ret (), t') ∧
    P p ∧ tm_at t0 (x <| x_port := logged (at_rb ws) p |>) t'.
Proof.
  intros Hup Hwf Hcode Hlen Hws Hne Hl Hpre (s & -> & Hs & Hm & Hp).
  assert (Hw : Forall writable (at_rb ws)) by (by apply (writable_at _ _ tm_offs Hdev)).
  assert (Hok : list_ok (mkCommandList (pre ++ wregs (at_rb ws)) (-1))).
  { split; cbn [fList].
    - destruct ws as [|[off v] ws]; [done|]. intros E. by apply app_nil in E as [_ ?].
    - apply list.Forall_app. split; [done|by apply wregs_wf].
    - by rewrite forallb_app, Hcode, wregs_code.
    - unfold wregs, CntlSpec.at_rb. rewrite length_app, !length_map. change (2 ^ 32) with 4294967296. change (2 ^ 31) with 2147483648 in Hl. lia. }
  pose proof (exec_throw_law _ s (same_link_ok _ _ Hs (proj2 Hup)) Hok) as Hx. cbn [fList] in Hx.
  destruct (Hpre (dev s) (srv_mem s) (srv_mem s) (wregs (at_rb ws)) Hp) as (cs & d1 & Hrun & HP).
  destruct (wregs_quiet (at_rb ws) Hw (srv_mem s) (srv_mem s) d1) as (cs2 & d2 & Hrun2 & Hp2).
  rewrite Hrun, Hrun2 in Hx. destruct Hx as (l' & s' & Hx & _ & _ & Hm' & Hd & Hs').
  exists (port d1), (sys_at t0 s' (x_c x)).
  assert (Hx' : exec_list (mkCommandList (pre ++ wregs (at_rb ws)) (-1)) (sys_at t0 s (x_c x)) = (Ret l', sys_at t0 s' (x_c x))).
  { unfold exec_list, Exec_, zoom. change (link (sy_cpu (sys_at t0 s (x_c x)))) with s. by rewrite Hx. }
  rewrite (bind_Ret _ _ _ _ _ Hx'). split; [done|]. split; [done|]. exists s'.
  split; [done|]. split; [by etrans|]. split; [by rewrite Hm'|]. by rewrite Hd, Hp2.
Qed.

(** *** The registers behind a transfer *)

Definition odd_of (n : Z) : Z := if Z.odd n then 1 else 0.
Lemma odd_range n : 0 <= odd_of n <= 1.
Proof. unfold odd_of. destruct (Z.odd n); lia. Qed.
Definition tmcr_of (nxm : bool) : Z := if nxm then kTMCR_M_RNXM else 0.
Lemma counts q n mv o : q_ok q → 0 <= mv → 0 <= o <= 1 → n = 2 * mv + o → n <= 65536 →
  u32 (q_addr q + 2 * mv) = q_addr q + 2 * mv ∧ u32 (q_addr q + 2 * mv + o) = q_addr q + n ∧
  u16 (q_bc q + 2 * u16 mv) = (q_bc q + 2 * mv) mod 65536 ∧
  u16 ((q_bc q + 2 * mv) mod 65536 + o) = (q_bc q + n) mod 65536.
Proof.
  intros Hq Hm Ho -> Hn. destruct (tm_q_ranges q Hq) as (_ & _ & Ha & _). change (2 ^ 18) with 262144 in Ha.
  rewrite !u32_id by (unfold is_u32; change (2 ^ 32) with 4294967296; lia).
  rewrite (u16_id mv) by (unfold is_u16; change (2 ^ 16) with 65536; lia). rewrite !u16_mod. change (2 ^ 16) with 65536.
  split_and!; try lia. rewrite Z.add_mod_idemp_l by done. f_equal. lia.
Qed.
(** The commands in front of the answer to READ. *)
Definition read_pre (q : tm_req) (d : list Z) (perr : bool) (mv w : Z) : list RlinkCommand :=
  if Z.odd (Z.of_nat (length d)) && negb perr then last_cmds (q_addr q + 2 * mv) w else [].
Definition record_op (perr : bool) : OpCode := if perr then kOpCodeBadParity else kOpCodeOK.

Section Exit.
Variable t0 : Sys.
Hypothesis Hup : up t0.
Hypothesis Hib : fIBase (sy_cpu t0) = ib.
Variables (q : tm_req) (c : TM11 F) (mv : Z) (nxm : bool).
Hypothesis Hq : q_ok q.
Hypothesis Hst : stored q c.
Hypothesis Hmv : 0 <= mv.
Notation does := (returns (tm_at t0)).

Lemma read_exit_ok d perr x (n := 2 * mv + odd_of (Z.of_nat (length d))) :
  fRd_rddone c = Z.of_nat (length d) → fRd_opcode c = record_op perr → n <= 65536 →
  (Z.odd (Z.of_nat (length d)) = true → mv < tm_fBufSize c) →
  let w := nth 0 (mem_get (x_mem x) (tm_fBuf c + mv) 1) 0 in
  does (read_exit c mv (tmcr_of nxm) RlinkCommandList_ctor) x
    (q_addr q + n, (q_bc q + n) mod 65536, dma_err nxm perr, mkCommandList (read_pre q d perr mv w) (-1)) x.
Proof.
  intros Hd Ho Hn Hbuf w. destruct Hst as [S1 S2 S3 S4].
  destruct (counts q n mv _ Hq Hmv (odd_range _) eq_refl Hn)
    as (E1 & E2 & E3 & E4).
  unfold read_exit. rewrite Hd, Ho, S2, S3, odd_land, E3. unfold read_pre, n, odd_of in *.
  destruct (Z.odd (Z.of_nat (length d))) eqn:Eo; cbn [andb].
  - rewrite E1, E2, E4. destruct perr; cbn [record_op negb].
    + assert (E : Z.lor (tmcr_of nxm) kTMCR_M_RPAE = dma_err nxm true) by (by destruct nxm). rewrite E. apply returns_ret.
    + rewrite (proj2 (Z.leb_gt _ _) (Hbuf eq_refl)).
      assert (Hl : does (add_cmds (trailing_byte c mv w) RlinkCommandList_ctor) x
        ((), mkCommandList (last_cmds (q_addr q + 2 * mv) w) (-1)) x).
      { intros t (s & -> & Hs). exists (sys_at t0 s (x_c x)). split; [|by exists s].
        unfold add_cmds, trailing_byte. rewrite S3, E1. unfold AddLalh, AddMembe. autorewrite with run.
        change (fBase (sy_cpu (sys_at t0 s (x_c x)))) with (fBase (sy_cpu t0)). by rewrite (proj1 Hup). }
      eapply returns_bind; [apply does_mem_read|]. change (Z.to_nat 1) with 1%nat. fold w.
      eapply returns_bind; [exact Hl|]. cbn beta iota.
      assert (E : tmcr_of nxm = dma_err nxm false) by (by destruct nxm). rewrite E. apply returns_ret.
  - rewrite Z.add_0_r in *. rewrite E1.
    destruct perr; cbn [record_op].
    + assert (E : Z.lor (tmcr_of nxm) kTMCR_M_RPAE = dma_err nxm true) by (by destruct nxm). rewrite E. apply returns_ret.
    + assert (E : tmcr_of nxm = dma_err nxm false) by (by destruct nxm). rewrite E. apply returns_ret.
Qed.
(** [WRITE]: the record goes to the tape. *)
Lemma load_bytes_get p n m : 0 <= n → load_bytes p n m = take (Z.to_nat n) (words_bytes (mem_get m p (Z.to_nat ((n + 1) / 2)))).
Proof. done. Qed.
Lemma write_exit_ok i u u' bs x (n := 2 * mv - odd_of (q_bc q)) :
  0 <= n <= 65536 → 2 * mv <= 2 * tm_fBufSize c → x_c x = c → tm_units c !! i = Some u →
  bs = take (Z.to_nat n) (words_bytes (mem_get (x_mem x) (tm_fBuf c) (Z.to_nat mv))) →
  VirtWriteRecord bs u = ((Ret (inl ()), (kOpCodeOK, 0, [])), u') →
  does (write_exit c i mv (tmcr_of nxm) RlinkCommandList_ctor) x
    (q_addr q + n, (q_bc q + n) mod 65536, dma_err nxm false, RlinkCommandList_ctor) (x <| x_c ::= set_tape i u' |>).
Proof.
  intros Hn Hbuf Hx Hu Hbs Hw. destruct Hst as [S1 S2 S3 S4]. pose proof (odd_range (q_bc q)) as Ho.
  destruct (tm_q_ranges q Hq) as (_ & _ & Ha & _). change (2 ^ 18) with 262144 in Ha.
  assert (Hrec : does (write_record i n) x () (x <| x_c ::= set_tape i u' |>)).
  { unfold write_record. eapply returns_bind; [apply does_get|]. rewrite Hx. unfold id.
    rewrite (proj2 (Z.ltb_ge _ _)) by lia.
    assert (Hg : does (gets (λ t : Sys, load_bytes (tm_fBuf c) n (srv_mem (sy_link t)))) x bs x).
    { intros t (s & -> & Hs & Hm & Hp). exists (sys_at t0 s (x_c x)). split; [|by exists s].
      unfold gets. change (sy_link (sys_at t0 s (x_c x))) with s. rewrite Hm, load_bytes_get, Hbs by lia.
      assert (E : (n + 1) / 2 = mv); [|by rewrite E]. unfold n, odd_of in *. clear -Ho. destruct (Z.odd (q_bc q)); Z.div_mod_to_equations; lia. }
    eapply returns_bind; [exact Hg|]. eapply returns_bind; [apply (does_call t0 i _ u kOpCodeOK 0 [] u'); [by rewrite Hx|done]|].
    apply returns_ret. }
  assert (E1 : u32 (q_addr q + 2 * mv) = q_addr q + 2 * mv) by (apply u32_id; unfold is_u32; change (2 ^ 32) with 4294967296; lia).
  assert (E2 : u32 (q_addr q + 2 * mv - odd_of (q_bc q)) = q_addr q + n).
  { unfold n. rewrite u32_id; [lia|]. unfold is_u32. change (2 ^ 32) with 4294967296. lia. }
  assert (E3 : u16 (q_bc q + 2 * u16 mv) = (q_bc q + 2 * mv) mod 65536).
  { rewrite (u16_id mv) by (unfold is_u16; change (2 ^ 16) with 65536; lia). by rewrite u16_mod. }
  assert (E4 : u16 ((q_bc q + 2 * mv) mod 65536 - odd_of (q_bc q)) = (q_bc q + n) mod 65536).
  { rewrite u16_mod. change (2 ^ 16) with 65536. rewrite Zminus_mod_idemp_l. unfold n. f_equal. lia. }
  assert (E5 : tmcr_of nxm = dma_err nxm false) by (by destruct nxm).
  unfold write_exit. rewrite S2, S3, odd_land, E1, E3, E5.
  clear Hbs. revert Hn E2 E4 Hrec. unfold n, odd_of. clear n. destruct (Z.odd (q_bc q)); intros Hn E2 E4 Hrec.
  - rewrite E2, E4, (Z.mod_small _ (2 ^ 64)) by (change (2 ^ 64) with 18446744073709551616; lia).
    eapply returns_bind; [exact Hrec|]. apply returns_ret.
  - rewrite !Z.sub_0_r in *. eapply returns_bind; [exact Hrec|]. apply returns_ret.
Qed.

(** The answer to the device. *)
Lemma normal_exit_ok x x1 n perr pre v' u' : let i := Z.to_nat (q_un q) in
  x_c x = c → tm_fields ib base c → 0 <= n <= 65536 →
  does (if fRd_fu c =? kFUNC_READ then read_exit c mv (tmcr_of nxm) RlinkCommandList_ctor
        else write_exit c i mv (tmcr_of nxm) RlinkCommandList_ctor) x
    (q_addr q + n, (q_bc q + n) mod 65536, dma_err nxm perr, mkCommandList pre (-1)) x1 →
  tm_units (x_c x1) !! i = Some u' → fupVirt u' = Some v' →
  does (AddNormalExit mv (tmcr_of nxm) RlinkCommandList_ctor) x
    (mkCommandList (pre ++ wregs (at_rb (told_dma q (ds_of v' false) n (dma_err nxm perr)))) (-1))
    (x1 <| x_c ::= set_tmds i (ds_of v' false) |>).
Proof.
  intros i Hx Hf Hn Hex Hu Hv. destruct (tm_q_code q Hq) as (E & _). pose proof (st_cr _ _ Hst) as S1.
  unfold AddNormalExit. eapply returns_bind; [apply does_get|]. rewrite Hx. unfold id. rewrite S1, E. fold i.
  eapply returns_bind; [exact Hex|]. cbn beta iota.
  eapply returns_bind; [by apply does_tape|]. rewrite Hv. eapply returns_bind; [apply does_client|].
  rewrite (normal_regs_eq q c v' n nxm perr Hq S1 Hn), exit_tmds_eq.
  eapply returns_bind; [apply (does_add ib base Hdev t0 Hib); [apply (tf_base _ _ _ Hf)|by apply (told_dma_ok ib base)|done]|].
  cbn beta iota. apply returns_ret.
Qed.
End Exit.

(** *** The transfer *)

Lemma tm_at_step (t : Sys) x t' : tm_at t x t' → step (λ v, v <| v_port := x_port x |> <| v_mem := x_mem x |>) t t'.
Proof.
  intros (s & -> & Hs & Hm & Hp). split; [|split; [by exists s|done]].
  unfold view, cport. cbn [update setter v_port v_mem]. by rewrite <- Hm, <- Hp.
Qed.
(** The controller does not change on the way. *)
Definition tm_chunks (c : TM11 F) : RdmaChunks (S := S) (V := V) (H := H) (A := A) RdmaPreExecCB RdmaPostExecCB.
Proof.
  refine {| client_inv (t : Sys) := sy_client t = c ∧ fIBase (sy_cpu t) = ib; client_ext _ extra := extra = []; client_pre _ := [] |}.
  - intros t t' (Hc & (s & Hs & _) & _) [<- <-]. by rewrite Hc, Hs.
  - intros st nd nn l t Hi. exists [], t. split.
    { unfold RdmaPreExecCB. simpl. rewrite app_nil_r. by destruct l. }
    split; [apply step_id|]. split; [done|]. split; [|done]. split; [done|]. split; [done|]. split; [done|].
    split; [|intros m0 m d; by exists []].
    case_bool_decide; intros m0 m d; exists [], d; by rewrite logged_nil.
  - intros nd l ncmd extra t Hi _ _. exists t. split; [done|]. split; [done|apply step_id].
Defined.

(** At the last callback. *)
Record moved_to (c : TM11 F) (mem : Mem) (log : list (Z * Z)) (psz : Z) (t : Sys) : Prop := {
  mt_up : up t;
  mt_ib : fIBase (sy_cpu t) = ib;
  mt_disk : sy_disk t = None;
  mt_client : sy_client t = c;
  mt_mem : cp_mem (cport (sy_cpu t)) = mem;
  mt_log : cp_log (cport (sy_cpu t)) = log;
  mt_size : cp_size (cport (sy_cpu t)) = psz }.
(** Behind the transfer. *)
Record finished (x : tst) (t : Sys) : Prop := {
  fi_up : up t;
  fi_ib : fIBase (sy_cpu t) = ib;
  fi_disk : sy_disk t = None;
  fi_client : sy_client t = x_c x;
  fi_port : cport (sy_cpu t) = x_port x;
  fi_idle : IsActive (sy_rdma t) = false;
  fi_acts : fActnList (sy_srv t) = [] }.
Lemma finished_ready x t : finished x t → tm_fields ib base (x_c x) → tm_ready ib base t.
Proof. intros [H1 H2 H3 H4 _ _ _] Hf. split; [done|done|done|]. by rewrite H4. Qed.

(** What a transfer needs; [mv] of its [size] words are in the memory. *)
Record dma_ok (t : Sys) (addr size mv : Z) : Prop := {
  do_idle : IsActive (sy_rdma t) = false ∧ fActnList (sy_srv t) = [];
  do_chunk : 0 < chunk_size t <= 65535 ∧ chunk_size t <= srv_blkmax (sy_link t);
  do_reach : reach addr kCPAH_M_UBM22 size mv (cport (sy_cpu t)) }.

Lemma dma_run (t : Sys) (a : A) (ind : nat) (w : bool) (addr buf size mv : Z) (held : Mem → Prop) (ws : list Z) (Post : tst → Prop) :
  let c := sy_client t in let p := cport (sy_cpu t) in
  tm_ready ib base t → dma_ok t addr size mv → 0 < size ∧ addr + 2 * size < 2 ^ 32 → length ws = Z.to_nat size →
  (if w then Forall is_u16 ws else ws = mwords (cp_mem p) addr (Z.to_nat size)) →
  (∀ m, w = true → held m → mem_get m buf (Z.to_nat size) = ws) → (w = true → held (srv_mem (sy_link t))) →
  (∀ tp l, moved_to c (if w then mput addr (take (Z.to_nat mv) ws) (cp_mem p) else cp_mem p) (cp_log p) (cp_size p) tp →
    buffer w buf held ws mv tp →
    ∃ x t2, RdmaPostExecCB (end_of size mv) mv l 3 tp = (Ret (), t2) ∧ tm_at tp x t2 ∧ Post x) →
  ∃ t1 t' x, (rstat ind ;; SetupRdma w addr buf size kCPAH_M_UBM22 ;; zoom sy_srv (QueueAction a)) t = (Ret (), t1) ∧
    repeat_m (Z.to_nat (turns (chunk_size t) size mv)) (call_action RdmaPreExecCB RdmaPostExecCB) t1 = (Ret (), t') ∧
    finished x t' ∧ Post x.
Proof.
  intros c p [Hup Hib Hdk Hf] [[Hact Hacts] [Hc1 Hc2] Hreg] Hsize Hlen Hws Hheld Hbuf Hpost.
  assert (Hmv : 0 <= mv <= size) by apply Hreg.
  assert (Hst : fStatus (sy_rdma t) = kStatusDone).
  { unfold IsActive in Hact. apply negb_false_iff in Hact. by apply bool_decide_eq_true in Hact. }
  pose (ch := tm_chunks c).
  destruct (queue_start_ok a RdmaPreExecCB RdmaPostExecCB ind w addr buf size kCPAH_M_UBM22 mv None (λ _ : Sys, True) ws t)
    as (t1 & H1 & Hrun & Hmem & _); try done.
  destruct (plain_run RdmaPreExecCB RdmaPostExecCB (chunk_size t) addr kCPAH_M_UBM22 size (chunk_size t) mv w buf held
    (cp_mem p) (cp_log p) (cp_size p) ws a Hsize Hc1 Hmv Hlen Hws Hheld
    (λ t2 : Sys, ∃ tp x, moved_to c (if w then mput addr (take (Z.to_nat mv) ws) (cp_mem p) else cp_mem p) (cp_log p) (cp_size p) tp ∧
       v_acts (view tp) = [a] ∧ tm_at tp x t2 ∧ Post x)) with (t := t1) as (t' & H2 & (t2 & Ht2 & (tp & x & Hmt & Hta & Hat & HP))).
  - intros tp l (Cx & Cd & Ca & Cm & Cl & Cu & Cb & _ & Cz) Hb [Ci1 Ci2] _.
    assert (Hmt : moved_to c (if w then mput addr (take (Z.to_nat mv) ws) (cp_mem p) else cp_mem p) (cp_log p) (cp_size p) tp).
    { split; try done. etrans; [exact Cl|]. rewrite <- (app_nil_r (cp_log p)) at 2. by destruct (mv =? size). }
    destruct (Hpost tp l Hmt Hb) as (x & t2 & H2 & Hat & HP).
    eexists _, t2. split; [exact H2|]. split; [by apply tm_at_step|]. split; [done|]. split; [done|]. by exists tp, x.
  - exact Hrun.
  - unfold buffer. destruct w; [rewrite Hmem; by apply Hbuf|done].
  - exists t1, t', x. split; [exact H1|]. split; [exact H2|]. split; [|done].
    destruct Hat as (s & -> & Hs & Hm & Hp). destruct Hmt as [[M1 M1'] M2 M3 M4 M5 M6 M7].
    rewrite Ht2. split; try done. split; [done|]. by eapply same_link_ok.
Qed.

(** The callback at the end, with the commands [pre] in front of the answer. *)
Lemma callback_ok (tp : Sys) c q mv size pre perr n x1 u' v' (P : CpPort → Prop) l :
  let x := mkTst (srv_mem (sy_link tp)) (port (dev (sy_link tp))) c in
  let nxm := negb (mv =? size) in let i := Z.to_nat (q_un q) in
  up tp → fIBase (sy_cpu tp) = ib → sy_client tp = c → q_ok q → stored q c → tm_fields ib base c → 0 <= n <= 65536 →
  returns (tm_at tp) (if fRd_fu c =? kFUNC_READ then read_exit c mv (tmcr_of nxm) RlinkCommandList_ctor
      else write_exit c i mv (tmcr_of nxm) RlinkCommandList_ctor) x
    (q_addr q + n, (q_bc q + n) mod 65536, dma_err nxm perr, mkCommandList pre (-1)) x1 →
  x_port x1 = x_port x → tm_units (x_c x1) !! i = Some u' → fupVirt u' = Some v' →
  Forall cmd_wf pre → forallb bus_code pre = true → (length pre <= 4)%nat →
  (∀ (d : D) m0 m rest, port d = x_port x → ∃ cs d', bus_run m0 false (pre ++ rest) m d =
    (let '(cs2, m2, d2) := bus_run m0 false rest m d' in (cs ++ cs2, m2, d2)) ∧ P (port d')) →
  let ds := ds_of v' false in
  ∃ p t2, RdmaPostExecCB (end_of size mv) mv l 3 tp = (Ret (), t2) ∧ P p ∧
    tm_at tp (x1 <| x_c ::= set_tmds i ds |> <| x_port := logged (at_rb (told_dma q ds n (dma_err nxm perr))) p |>) t2.
Proof.
  intros x nxm i Hup Hib Hc Hq Hst Hf Hn Hex Hport Hu Hv Hwf Hcode Hlen HP ds.
  assert (Hx : tm_at tp x tp).
  { exists (sy_link tp). split; [|done]. unfold x, sys_at. cbn [x_c]. rewrite <- Hc. destruct tp as [srv cpu us sd rd dk cl]. by destruct cpu. }
  destruct (normal_exit_ok tp Hib q c mv nxm Hq Hst x x1 n perr pre v' u' eq_refl Hf Hn Hex Hu Hv tp Hx) as (t1 & H1 & Ht1).
  destruct (exec_answer tp pre (told_dma q ds n (dma_err nxm perr)) P (x1 <| x_c ::= set_tmds i ds |>) t1) as (p & t2 & H2 & Hp & Ht2); try done.
  { by apply (told_dma_ok ib base). }
  { cbn [x_port update setter]. by rewrite Hport. }
  exists p, t2. split; [|by split].
  unfold RdmaPostExecCB. rewrite bool_decide_eq_false_2 by apply end_not_busy.
  assert (E : (if bool_decide (end_of size mv = kStatusFailRdma) then kTMCR_M_RNXM else 0) = tmcr_of nxm).
  { unfold end_of, nxm. by destruct (mv =? size). }
  cbv zeta. rewrite E, (bind_Ret _ _ _ _ _ H1). exact H2.
Qed.
End Transfer.

Section Commands.
Context {S D V H A F : Type}.
Context `{!RlinkExec S, !Rbus D, !LinkLaws S D, !CpuBus D, !RegDev D, !VirtDiskOps V, !VirtDiskSpec V, !PosixFile F, !PosixFileLaws F}.
Notation Sys := (Rw11Sys S V H A (TM11 F)).
Variables (ib base : Z).
Hypothesis Hdev : tm_present (D := D) ib base.
Variables (a : A) (pd : Z).

(** *** READ *)

(** A record is in the buffer. *)
Record staged (q : tm_req) (x x' : tst) (u' : Rw11UnitTape F) (perr : bool) (d old : list Z) : Prop := {
  sg_port : x_port x' = x_port x;
  sg_units : tm_units (x_c x') = <[Z.to_nat (q_un q) := u']> (tm_units (x_c x));
  sg_tmds : fTmds (x_c x') = fTmds (x_c x);
  sg_fields : tm_fields ib base (x_c x');
  sg_stored : stored q (x_c x');
  sg_done : fRd_rddone (x_c x') = Z.of_nat (length d) ∧ fRd_opcode (x_c x') = record_op perr;
  sg_size : (q_n q + 1) / 2 <= tm_fBufSize (x_c x');
  sg_old : length old = (2 * ((length d + 1) / 2))%nat;
  sg_buf : mem_get (x_mem x') (tm_fBuf (x_c x')) ((length d + 1) / 2) = record_words d old;
  sg_words : length (record_words d old) = ((length d + 1) / 2)%nat ∧ Forall is_u16 (record_words d old) }.
Lemma read_staged (t0 : Sys) q x t u w p rb perr d ah :
  tm_at t0 x t → tm_fields ib base (x_c x) → stored q (x_c x) → tm_units (x_c x) !! Z.to_nat (q_un q) = Some u →
  mounted w p u (rb, Rec perr d :: ah) → 0 < Z.of_nat (length d) <= q_n q → Forall is_u8 d →
  ∃ x' t' u' old, tm_at t0 x' t' ∧ staged q x x' u' perr d old ∧ mounted w p u' (Rec perr d :: rb, ah) ∧
    do_read a pd (Z.to_nat (q_un q)) (q_addr q) (q_n q) t =
      QueueWMem a (q_addr q) (tm_fBuf (x_c x')) (Z.of_nat (length d) / 2) kCPAH_M_UBM22 t'.
Proof.
  intros Ht Hf Hs Hu Hm Hd Hu8. set (i := Z.to_nat (q_un q)) in *.
  destruct (unit_op_does w p (q_n q) u (rb, Rec perr d :: ah) TRead) as (u' & Hop & Hm'); [intros _; unfold holds_next; cbn [snd]; lia|done|done|].
  simpl in Hop, Hm'. fold (record_op perr) in Hop.
  set (x2 := x <| x_c ::= counted kStatNFuncRead |>).
  destruct (resized_keeps ib base pd ((q_n q + 1) / 2) x2) as (R1 & R0 & R2 & R3 & R4 & R5).
  set (x3 := resized pd ((q_n q + 1) / 2) x2) in *. set (x4 := x3 <| x_c ::= set_tape i u' |>).
  set (x5 := x4 <| x_mem ::= store_bytes (tm_fBuf (x_c x4)) d |>).
  set (x6 := x5 <| x_c ::= λ r, r <| fRd_rddone := Z.of_nat (length d) |> <| fRd_opcode := record_op perr |> |>).
  destruct (does_client t0 (counted kStatNFuncRead) x t Ht) as (t2 & H2 & Ht2).
  destruct (does_resize t0 pd ((q_n q + 1) / 2) x2 t2 Ht2) as (t3 & H3 & Ht3).
  destruct (does_call t0 i (VirtReadRecord (q_n q)) u (record_op perr) (Z.of_nat (length d)) d u' x3) with (s := t3) as (t4 & H4 & Ht4);
    [by rewrite R2|exact Hop|exact Ht3|].
  destruct (does_store t0 d x4 t4 Ht4) as (t5 & H5 & Ht5).
  destruct (does_client t0 (λ r, r <| fRd_rddone := Z.of_nat (length d) |> <| fRd_opcode := record_op perr |>) x5 t5 Ht5) as (t6 & H6 & Ht6).
  destruct (does_get t0 tm_fBuf x6 t6 Ht6) as (t7 & H7 & Ht7).
  set (old := words_bytes (mem_get (x_mem x4) (tm_fBuf (x_c x4)) ((length d + 1) / 2))).
  destruct (store_bytes_get (tm_fBuf (x_c x4)) d (x_mem x4) Hu8) as (B1 & B2 & B3). fold old in B1, B2, B3.
  exists x6, t7, u', old. split; [exact Ht7|]. split; [|split; [exact Hm'|]].
  - assert (Hf3 : tm_fields ib base (x_c x3)) by (by apply R4, counted_fields).
    assert (Hs3 : stored q (x_c x3)) by (apply R5; by destruct Hs).
    split; try done.
    + simpl. by rewrite R2.
    + destruct (set_tape_fields ib base i u' _ Hf3) as [F1 F2 F3 F4 F5]. by split.
    + by destruct Hs3.
    + unfold old. by rewrite length_words_bytes, length_mem_get.
  - unfold do_read. rewrite (bind_Ret _ _ _ _ _ H2), (bind_Ret _ _ _ _ _ H3), (bind_Ret _ _ _ _ _ H4). cbn beta iota.
    rewrite (bind_Ret _ _ _ _ _ H5), (bind_Ret _ _ _ _ _ H6). cbn [negb orb].
    rewrite (proj2 (Z.eqb_neq _ _)) by lia. by rewrite (bind_Ret _ _ _ _ _ H7).
Qed.

(** The memory behind READ; [lim]: its end. *)
Definition read_memory (lim addr : Z) (d : list Z) (perr : bool) (mv : Z) (m : gmap Z Z) : gmap Z Z :=
  let m := mput addr (take (Z.to_nat mv) (pair_words d)) m in
  match list.last d with
  | Some b => if Z.odd (Z.of_nat (length d)) && negb perr then put_byte lim (addr + 2 * mv) b m else m
  | None => m
  end.
Lemma put_byte_none lim addr b m : lim <= addr → put_byte lim addr b m = m.
Proof. intros H1. unfold put_byte. by rewrite (proj2 (Z.ltb_ge _ _) H1). Qed.
(** The commands in front of the answer do that. *)
Lemma read_pre_ok q d old perr mv w (p : CpPort) (lim := Z.min (cp_size p) 0x3e000) m0 :
  let size := Z.of_nat (length d) / 2 in
  q_ok q → q_addr q mod 2 = 0 → 0 <= mv <= size → Z.of_nat (length d) <= 65536 → 0 < Z.of_nat (length d) → Forall is_u8 d →
  length old = (2 * ((length d + 1) / 2))%nat → is_u16 w →
  (Z.odd (Z.of_nat (length d)) = true → cp_base (D := D) = 0) →
  (mv = size → Z.odd (Z.of_nat (length d)) = true → record_words d old !! Z.to_nat mv = Some w) → (mv ≠ size → lim <= q_addr q + 2 * mv) →
  cp_mem p = mput (q_addr q) (take (Z.to_nat mv) (pair_words d)) m0 →
  let pre := read_pre (D := D) q d perr mv w in
  Forall cmd_wf pre ∧ forallb bus_code pre = true ∧ (length pre <= 4)%nat ∧
  (∀ (d1 : D) ma mb rest, port d1 = p → ∃ cs d', bus_run ma false (pre ++ rest) mb d1 =
    (let '(cs2, m2, d2) := bus_run ma false rest mb d' in (cs ++ cs2, m2, d2)) ∧
    cp_mem (port d') = read_memory lim (q_addr q) d perr mv m0 ∧ cp_log (port d') = cp_log p).
Proof.
  intros size Hq He Hmv Hle Hpos Hu8 Hold Hw Hb Hin Hout Hmem pre. unfold pre, read_pre. clear pre.
  destruct (tm_q_ranges q Hq) as (_ & _ & Ha & _). change (2 ^ 18) with 262144 in Ha.
  destruct (list.last d) as [b|] eqn:El; [|apply list.last_None in El as ->; simpl in Hpos; lia].
  unfold read_memory. rewrite El. destruct (Z.odd (Z.of_nat (length d)) && negb perr) eqn:Eo; cycle 1.
  { split_and!; [done|done|simpl; lia|]. intros d1 ma mb rest Hp. exists [], d1. cbn [app]. rewrite Hp, Hmem.
    split; [|done]. by destruct (bus_run _ _ _ _ _) as [[? ?] ?]. }
  apply andb_true_iff in Eo as [Eo _].
  assert (Hsz : 2 * size <= 65536) by (unfold size; clear -Hle; Z.div_mod_to_equations; lia).
  assert (Hadr : 0 <= q_addr q + 2 * mv < 2 ^ 22) by (change (2 ^ 22) with 4194304; lia).
  assert (Hev : (q_addr q + 2 * mv) mod 2 = 0) by (by rewrite Z.mul_comm, Z_mod_plus_full).
  split; [by apply last_wf|]. split; [done|]. split; [simpl; lia|].
  intros d1 ma mb rest Hp. destruct (last_bus (q_addr q + 2 * mv) w d1 ma mb rest (Hb Eo) Hadr Hev Hw) as (cs & d' & Hrun & [Pm Pl]).
  exists cs, d'. split; [exact Hrun|]. rewrite Hp in Pm, Pl. split; [|done]. rewrite Pm, Hmem.
  change (cp_limit (addressed (q_addr q + 2 * mv) kCPAH_M_UBM22 p)) with lim.
  destruct (decide (mv = size)) as [Em|Em]; [|by rewrite !put_byte_none by (by apply Hout)].
  specialize (Hin Em Eo). f_equal.
  assert (Ho : Nat.odd (length d) = true).
  { apply Nat.odd_spec. apply Z.odd_spec in Eo as (k & Hk). exists (Z.to_nat k). lia. }
  assert (Hl : length old = (length d + 1)%nat).
  { rewrite Hold. apply Nat.odd_spec in Ho as (k & ->). replace (2 * k + 1 + 1)%nat with ((k + 1) * 2)%nat by lia. rewrite Nat.div_mul by lia. lia. }
  destruct (record_words_last d old b Ho Hl El) as (w' & Hw' & Hlo).
  { eapply Forall_lookup_1; [exact Hu8|]. by rewrite last_lookup in El. }
  assert (Ei : Z.to_nat mv = (length d / 2)%nat) by (rewrite Em; unfold size; rewrite Z2Nat.inj_div, Nat2Z.id by lia; done).
  rewrite Ei, Hw' in Hin. by injection Hin as <-.
Qed.

(** The controller in [t] and [t'] differs at most by what a handler does on the
    way. *)
Lemma dma_ok_at (t : Sys) x t' addr size mv : tm_at t x t' → x_port x = cport (sy_cpu t) → dma_ok t addr size mv →
  dma_ok t' addr size mv ∧ chunk_size t' = chunk_size t.
Proof.
  intros (s & -> & Hs & _ & Hp) Hx [H1 [H2 H3] H4]. destruct (same_link_blk _ _ Hs) as [B1 B2].
  assert (Hc : chunk_size (sys_at t s (x_c x)) = chunk_size t).
  { unfold chunk_size. change (sy_link (sys_at t s (x_c x))) with s. by rewrite B2. }
  split; [|done]. split; [done| |].
  - rewrite Hc. change (sy_link (sys_at t s (x_c x))) with s. by rewrite B1.
  - change (cport (sy_cpu (sys_at t s (x_c x)))) with (port (dev s)). by rewrite Hp, Hx.
Qed.
(** Words and bytes of a record. *)
Lemma record_sizes (d : list Z) mv qn (len := Z.of_nat (length d)) (size := len / 2) (k := ((length d + 1) / 2)%nat) :
  2 <= len <= qn → 0 <= mv <= size →
  0 < size ∧ 2 * size <= len ∧ 0 <= 2 * mv + odd_of len <= len ∧ Z.to_nat size = (length d / 2)%nat ∧ (Z.to_nat size <= k)%nat ∧
  (Z.odd len = true → k = Datatypes.S (Z.to_nat size) ∧ size < (qn + 1) / 2).
Proof.
  intros H1 H2. assert (E : Z.of_nat k = (len + 1) / 2) by (unfold k; rewrite Nat2Z.inj_div, Nat2Z.inj_add; done).
  assert (E2 : Z.to_nat size = (length d / 2)%nat) by (unfold size, len; rewrite Z2Nat.inj_div, Nat2Z.id by lia; done).
  pose proof (Zmod_odd len) as Ho. unfold odd_of. clearbody k. unfold size in *. clearbody len.
  destruct (Z.odd len); split_and!; try done; try (intros _; split); Z.div_mod_to_equations; lia.
Qed.
Lemma read_post (tp : Sys) l q x x' u' v' perr d old mv cp :
  let i := Z.to_nat (q_un q) in let len := Z.of_nat (length d) in let size := len / 2 in let n := 2 * mv + odd_of len in
  q_ok q → q_fu q = 1 → staged q x x' u' perr d old → (i < length (tm_units (x_c x)))%nat → fupVirt u' = Some v' →
  2 <= len <= q_n q → Forall is_u8 d → (Z.odd len = true → cp_base (D := D) = 0) → reach (q_addr q) kCPAH_M_UBM22 size mv cp →
  moved_to ib (x_c x') (mput (q_addr q) (take (Z.to_nat mv) (pair_words d)) (cp_mem cp)) (cp_log cp) (cp_size cp) tp →
  mem_get (srv_mem (sy_link tp)) (tm_fBuf (x_c x')) ((length d + 1) / 2) = record_words d old →
  ∃ y t2, RdmaPostExecCB (end_of size mv) mv l 3 tp = (Ret (), t2) ∧ tm_at tp y t2 ∧
    x_c y = set_tmds i (ds_of v' false) (x_c x') ∧
    cp_mem (x_port y) = read_memory (Z.min (cp_size cp) 0x3e000) (q_addr q) d perr mv (cp_mem cp) ∧
    cp_log (x_port y) = cp_log cp ++ at_rb ib base (told_dma q (ds_of v' false) n (dma_err (negb (mv =? size)) perr)).
Proof.
  intros i len size n Hq Hfu [_ G2 _ G4 G5 [G6 G6'] G7 G8 _ [G10 _]] Hi Hv' Hlen Hu8 Hb (_ & Hev & _ & _ & Hmv & Hlim) [M1 M2 M3 M4 M5 M6 M7] Hbuf.
  destruct (record_sizes d mv (q_n q) Hlen Hmv) as (Z1 & Z2 & Z3 & Z4 & Z5 & Z6). fold len n size in Z1, Z2, Z3, Z4, Z5, Z6.
  destruct (tm_q_ranges q Hq) as (_ & _ & _ & Hn).
  set (wd := nth 0 (mem_get (srv_mem (sy_link tp)) (tm_fBuf (x_c x') + mv) 1) 0).
  destruct (read_pre_ok q d old perr mv wd (cport (sy_cpu tp)) (cp_mem cp)) as (P1 & P2 & P3 & P4); try done; try lia.
  - apply u16_range.
  - intros Em Ho. change (mv = size) in Em. destruct (Z6 Ho) as [Hk _].
    pose proof (mem_get_sub _ (tm_fBuf (x_c x')) _ 1 (Z.to_nat mv) _ Hbuf) as E. rewrite Z2Nat.id in E by lia.
    unfold wd. rewrite E by lia. destruct (lookup_lt_is_Some_2 (record_words d old) (Z.to_nat mv)) as [z Hz]; [lia|].
    rewrite Hz. f_equal. by rewrite (drop_S _ _ _ Hz).
  - intros Hne. change (mv ≠ size) in Hne. rewrite M7. apply Z.eqb_neq in Hne. rewrite Hne in Hlim. apply Hlim.
  - rewrite M7, M6 in P4. set (xt := mkTst (srv_mem (sy_link tp)) (port (dev (sy_link tp))) (x_c x')).
    destruct (callback_ok ib base Hdev tp (x_c x') q mv size (read_pre (D := D) q d perr mv wd) perr n xt u' v'
        (λ p, cp_mem p = read_memory (Z.min (cp_size cp) 0x3e000) (q_addr q) d perr mv (cp_mem cp) ∧ cp_log p = cp_log cp) l
        M1 M2 M4 Hq G5 G4) as (pp & t5 & C1 & [C2 C3] & C4); try done; [lia| | |].
    + rewrite (st_fu _ _ G5), Hfu. change (1 =? kFUNC_READ) with true. cbn iota.
      apply (read_exit_ok tp M1 q (x_c x') mv (negb (mv =? size)) Hq G5 (proj1 Hmv) d perr); [done|done|fold len n; lia|].
      fold len. intros Ho. destruct (Z6 Ho). lia.
    + cbn [x_c]. unfold xt. cbn [x_c]. rewrite G2. apply list_lookup_insert_eq. exact Hi.
    + eexists _, t5. split; [exact C1|]. split; [exact C4|]. split; [done|]. cbn [x_port update setter].
      split; [exact C2|]. unfold logged. cbn [cp_log update setter]. by rewrite C3.
Qed.

(** From the attention to the last action. *)
Lemma start_command args (t : Sys) u :
  let q := request_of ib base t in let i := Z.to_nat (q_un q) in
  tm_ready ib base t → q_ready q = false → IsActive (sy_rdma t) = false → selected q (sy_client t) = Some u →
  ∃ args' x t2, tm_at t x t2 ∧ x_port x = cport (sy_cpu t) ∧ tm_fields ib base (x_c x) ∧ stored q (x_c x) ∧
    tm_units (x_c x) !! i = Some u ∧ tm_units (x_c x) = tm_units (sy_client t) ∧ fTmds (x_c x) = fTmds (sy_client t) ∧
    AttnHandler a pd args t = (do_function a pd i (q_fu q) (q_addr q) (q_n q) ;; mret args') t2.
Proof.
  intros q i Hr Hrdy Hact Hsel.
  destruct (attention_ok ib base Hdev a pd args t Hr) as (args' & x & tmsr & t1 & Hx & Hxm & Hxp & Hf & [Su St _] & Hatt).
  fold q in Hatt. pose proof (tm_request_of_ok ib base t) as Hq. fold q in Hq.
  assert (Hgo : q_ready q || IsActive (sy_rdma t) = false) by (by rewrite Hrdy).
  unfold selected in Hsel. rewrite <- Su in Hsel. fold (selected q (x_c x)) in Hsel.
  destruct (serve_run a pd t q tmsr Hq Hgo x u t1 Hx Hsel) as (t2 & Ht2 & Hu & Hs).
  destruct (request_set_ok ib base q tmsr _ Hf) as (Hf2 & Hst2 & _).
  exists args', (x <| x_c ::= request_set q tmsr |>), t2. split_and!; try done.
  rewrite Hatt. unfold mbind, M_bind. by rewrite Hs.
Qed.
Lemma tm_at_sys (t : Sys) x t' : tm_at t x t' → x_port x = cport (sy_cpu t) →
  sy_client t' = x_c x ∧ cport (sy_cpu t') = cport (sy_cpu t) ∧ srv_mem (sy_link t') = x_mem x.
Proof. intros (s & -> & _ & Hm & Hp) Hx. split_and!; [done| |done]. etrans; [exact Hp|done]. Qed.
Lemma read_run args (t : Sys) u w p rb perr d ah mv :
  let q := request_of ib base t in let i := Z.to_nat (q_un q) in let len := Z.of_nat (length d) in let size := len / 2 in
  tm_ready ib base t → q_ready q = false → selected q (sy_client t) = Some u → q_fu q = 1 →
  mounted w p u (rb, Rec perr d :: ah) → 2 <= len <= q_n q → Forall is_u8 d →
  (Z.odd len = true → cp_base (D := D) = 0) → dma_ok t (q_addr q) size mv →
  let cp := cport (sy_cpu t) in
  ∃ args' t1 t' u' v' y, AttnHandler a pd args t = (Ret args', t1) ∧
    repeat_m (Z.to_nat (turns (chunk_size t) size mv)) (call_action RdmaPreExecCB RdmaPostExecCB) t1 = (Ret (), t') ∧
    finished ib y t' ∧ tm_fields ib base (x_c y) ∧ fupVirt u' = Some v' ∧ mounted w p u' (Rec perr d :: rb, ah) ∧
    tm_units (x_c y) = <[i := u']> (tm_units (sy_client t)) ∧ fTmds (x_c y) = <[i := ds_of v' false]> (fTmds (sy_client t)) ∧
    cp_mem (x_port y) = read_memory (Z.min (cp_size cp) 0x3e000) (q_addr q) d perr mv (cp_mem cp) ∧
    cp_log (x_port y) = cp_log cp ++ at_rb ib base
      (told_dma q (ds_of v' false) (2 * mv + odd_of len) (dma_err (negb (mv =? size)) perr)).
Proof.
  intros q i len size Hr Hrdy Hsel Hfu Hm Hlen Hu8 Hb Hdma cp. pose proof Hdma as [[Hact _] _ Hreg].
  destruct (start_command args t u Hr Hrdy Hact Hsel) as (args' & x & t2 & Ht2 & Hxp & Hf & Hst & Hu & Su & St & Hatt).
  pose proof (tm_request_of_ok ib base t) as Hq. fold q i in Hq, Hst, Hu, Hatt. destruct (tm_q_ranges q Hq) as (_ & _ & Ha & Hn).
  change (2 ^ 18) with 262144 in Ha. assert (Hmv : 0 <= mv <= size) by apply Hreg.
  destruct (record_sizes d mv (q_n q) Hlen Hmv) as (Z1 & Z2 & Z3 & Z4 & Z5 & _). fold len size in Z1, Z2, Z3, Z4, Z5.
  destruct (read_staged t q x t2 u w p rb perr d ah) as (x3 & t3 & u' & old & Ht3 & Hsg & Hm' & Hdo);
    [done|done|done|done|done|lia|done|]. fold i len size in Hdo. pose proof Hsg as [G1 G2 G3 G4 _ _ _ _ G9 [G10 G11]].
  destruct (mounted_virt w p u' _ Hm') as (v' & Hv').
  assert (Hp3 : x_port x3 = cport (sy_cpu t)) by (by rewrite G1).
  destruct (dma_ok_at t x3 t3 _ _ _ Ht3 Hp3 Hdma) as [Hdma3 Hck].
  destruct (tm_at_sys t x3 t3 Ht3 Hp3) as (Hc3 & Hcp3 & Hm3).
  destruct (dma_run ib base Hdev t3 a kStatNQueWMem true (q_addr q) (tm_fBuf (x_c x3)) size mv
    (λ m, mem_get m (tm_fBuf (x_c x3)) ((length d + 1) / 2) = record_words d old) (pair_words d)
    (λ y, x_c y = set_tmds i (ds_of v' false) (x_c x3) ∧
       cp_mem (x_port y) = read_memory (Z.min (cp_size cp) 0x3e000) (q_addr q) d perr mv (cp_mem cp) ∧
       cp_log (x_port y) = cp_log cp ++ at_rb ib base
         (told_dma q (ds_of v' false) (2 * mv + odd_of len) (dma_err (negb (mv =? size)) perr))))
    as (t4 & t' & y & H4 & H5 & Hfin & Y1 & Y2 & Y3); rewrite ?Hm3, ?Hc3, ?Hcp3; try done.
  - by apply (tm_at_ready ib base t x3).
  - split; [done|]. change (2 ^ 32) with 4294967296. lia.
  - rewrite <- (record_words_take d old), length_take, G10. lia.
  - rewrite <- (record_words_take d old). by apply Forall_take.
  - intros m _ Hh. pose proof (mem_get_sub m (tm_fBuf (x_c x3)) _ (Z.to_nat size) 0 _ Hh) as E. rewrite Z.add_0_r, drop_0 in E.
    rewrite E, <- (record_words_take d old) by lia. by rewrite Z4.
  - intros tp l Hmt Hbuf. apply (read_post tp l q x x3 u' v' perr d old mv cp); try done. by eapply lookup_lt_Some.
  - exists args', t4, t', u', v', y. split.
    { rewrite Hatt. unfold mbind, M_bind, do_function. rewrite Hfu. cbn [Z.eqb Pos.eqb kFUNC_UNLOAD kFUNC_READ].
      rewrite Hdo. unfold QueueWMem. by rewrite H4. }
    rewrite <- Hck. split; [exact H5|]. split; [done|]. rewrite Y1. split; [by apply set_tmds_fields|].
    cbn [tm_units fTmds set_tmds update setter]. by rewrite G2, G3, Su, St.
Qed.

(** *** WRITE *)

Lemma write_staged (t0 : Sys) stat q x t :
  tm_at t0 x t → tm_fields ib base (x_c x) → stored q (x_c x) →
  ∃ x' t', tm_at t0 x' t' ∧ x_port x' = x_port x ∧ tm_units (x_c x') = tm_units (x_c x) ∧ fTmds (x_c x') = fTmds (x_c x) ∧
    tm_fields ib base (x_c x') ∧ stored q (x_c x') ∧ (q_n q + 1) / 2 <= tm_fBufSize (x_c x') ∧
    do_write a pd stat (q_addr q) (q_n q) t = QueueRMem a (q_addr q) (tm_fBuf (x_c x')) ((q_n q + 1) / 2) kCPAH_M_UBM22 t'.
Proof.
  intros Ht Hf Hs. set (x2 := x <| x_c ::= counted stat |>).
  destruct (resized_keeps ib base pd ((q_n q + 1) / 2) x2) as (R1 & R0 & R2 & R3 & R4 & R5).
  set (x3 := resized pd ((q_n q + 1) / 2) x2) in *.
  destruct (does_client t0 (counted stat) x t Ht) as (t2 & H2 & Ht2).
  destruct (does_resize t0 pd ((q_n q + 1) / 2) x2 t2 Ht2) as (t3 & H3 & Ht3).
  destruct (does_get t0 tm_fBuf x3 t3 Ht3) as (t4 & H4 & Ht4).
  exists x3, t4. split; [done|]. split; [done|]. split; [done|]. split; [done|]. split; [by apply R4, counted_fields|].
  split; [apply R5; by destruct Hs|]. split; [done|].
  unfold do_write. by rewrite (bind_Ret _ _ _ _ _ H2), (bind_Ret _ _ _ _ _ H3), (bind_Ret _ _ _ _ _ H4).
Qed.
(** The bytes of a record that is written: [mv] words, without the last byte of an
    odd count. *)
Definition write_count (q : tm_req) (mv : Z) : Z := 2 * mv - odd_of (q_bc q).
Definition write_bytes (q : tm_req) (mv : Z) (m : gmap Z Z) : list Z :=
  take (Z.to_nat (write_count q mv)) (words_bytes (mwords m (q_addr q) (Z.to_nat mv))).
Lemma write_sizes q mv p m : q_ok q → 0 <= mv <= (q_n q + 1) / 2 → item_ok p (Rec false (write_bytes q mv m)) →
  0 < mv ∧ 0 < write_count q mv <= 65536 ∧ 0 < (q_n q + 1) / 2 <= 32768.
Proof.
  intros Hq Hmv [Hl _]. destruct (tm_q_ranges q Hq) as (_ & _ & _ & Hn). unfold write_bytes in Hl.
  rewrite length_take, length_words_bytes, length_mwords in Hl. pose proof (odd_range (q_bc q)) as Ho.
  assert (E : odd_of (q_bc q) = q_n q mod 2).
  { pose proof (Zmod_odd (q_bc q)) as E. unfold odd_of. rewrite <- E. unfold q_n. clear. Z.div_mod_to_equations. lia. }
  unfold write_count in *. rewrite E in *. clear E. Z.div_mod_to_equations. lia.
Qed.
Lemma write_post (tp : Sys) l q c u p st mv cp (size := (q_n q + 1) / 2) :
  let i := Z.to_nat (q_un q) in let bs := write_bytes q mv (cp_mem cp) in
  q_ok q → q_fu q = 2 ∨ q_fu q = 6 → tm_fields ib base c → stored q c → size <= tm_fBufSize c →
  tm_units c !! i = Some u → mounted true p u st → item_ok p (Rec false bs) → 0 <= mv <= size →
  moved_to ib c (cp_mem cp) (cp_log cp) (cp_size cp) tp →
  mem_get (srv_mem (sy_link tp)) (tm_fBuf c) (Z.to_nat mv) = mwords (cp_mem cp) (q_addr q) (Z.to_nat mv) →
  ∃ y t2 u' v', RdmaPostExecCB (end_of size mv) mv l 3 tp = (Ret (), t2) ∧ tm_at tp y t2 ∧
    fupVirt u' = Some v' ∧ mounted true p u' (Rec false bs :: st.1, []) ∧
    x_c y = set_tmds i (ds_of v' false) (set_tape i u' c) ∧ cp_mem (x_port y) = cp_mem cp ∧
    cp_log (x_port y) = cp_log cp ++ at_rb ib base
      (told_dma q (ds_of v' false) (write_count q mv) (dma_err (negb (mv =? size)) false)).
Proof.
  intros i bs Hq Hfu Hf Hst Hbuf Hu Hm Hok Hmv [M1 M2 M3 M4 M5 M6 M7] Hmem.
  destruct (write_sizes q mv p (cp_mem cp) Hq Hmv Hok) as (Z1 & Z2 & Z3).
  destruct (unit_op_does true p 0 u st (TWrite bs)) as (u' & Hop & Hm'); [done|done|done|].
  assert (Hspec : spec_op (TWrite bs) st = ((kOpCodeOK, 0, []), (Rec false bs :: st.1, []))) by (by destruct st).
  rewrite Hspec in Hop, Hm'. cbn [fst snd] in Hop, Hm'. destruct (mounted_virt true p u' _ Hm') as (v' & Hv').
  set (xt := mkTst (srv_mem (sy_link tp)) (port (dev (sy_link tp))) c).
  destruct (callback_ok ib base Hdev tp c q mv size [] false (write_count q mv) (xt <| x_c ::= set_tape i u' |>) u' v'
      (λ p, cp_mem p = cp_mem cp ∧ cp_log p = cp_log cp) l M1 M2 M4 Hq Hst Hf) as (pp & t5 & C1 & [C2 C3] & C4); try done.
  - lia.
  - rewrite (st_fu _ _ Hst). assert (E : (q_fu q =? kFUNC_READ) = false) by (by destruct Hfu as [-> | ->]). rewrite E.
    apply (write_exit_ok tp q c mv (negb (mv =? size)) Hq Hst (proj1 Hmv) i u u' bs xt); try done; [unfold write_count in Z2; lia|lia|].
    unfold bs, write_bytes. cbn [x_mem xt]. by rewrite Hmem.
  - cbn [x_c tm_units set_tape update setter xt]. apply list_lookup_insert_eq. by eapply lookup_lt_Some.
  - simpl. lia.
  - intros d m0 m rest Hp. exists [], d. cbn [app]. split; [by destruct (bus_run _ _ _ _ _) as [[? ?] ?]|]. rewrite Hp. by split.
  - eexists _, t5, u', v'. split; [exact C1|]. split; [exact C4|]. split; [done|]. split; [done|]. split; [done|].
    cbn [x_port update setter]. split; [exact C2|]. unfold logged. cbn [cp_log update setter]. by rewrite C3.
Qed.
Lemma write_run args (t : Sys) u p st mv :
  let q := request_of ib base t in let i := Z.to_nat (q_un q) in let size := (q_n q + 1) / 2 in
  let cp := cport (sy_cpu t) in let bs := write_bytes q mv (cp_mem cp) in
  tm_ready ib base t → q_ready q = false → selected q (sy_client t) = Some u → q_fu q = 2 ∨ q_fu q = 6 →
  mounted true p u st → item_ok p (Rec false bs) → dma_ok t (q_addr q) size mv →
  ∃ args' t1 t' u' v' y, AttnHandler a pd args t = (Ret args', t1) ∧
    repeat_m (Z.to_nat (turns (chunk_size t) size mv)) (call_action RdmaPreExecCB RdmaPostExecCB) t1 = (Ret (), t') ∧
    finished ib y t' ∧ tm_fields ib base (x_c y) ∧ fupVirt u' = Some v' ∧ mounted true p u' (Rec false bs :: st.1, []) ∧
    tm_units (x_c y) = <[i := u']> (tm_units (sy_client t)) ∧ fTmds (x_c y) = <[i := ds_of v' false]> (fTmds (sy_client t)) ∧
    cp_mem (x_port y) = cp_mem cp ∧
    cp_log (x_port y) = cp_log cp ++ at_rb ib base
      (told_dma q (ds_of v' false) (write_count q mv) (dma_err (negb (mv =? size)) false)).
Proof.
  intros q i size cp bs Hr Hrdy Hsel Hfu Hm Hok Hdma. pose proof Hdma as [[Hact _] _ Hreg].
  destruct (start_command args t u Hr Hrdy Hact Hsel) as (args' & x & t2 & Ht2 & Hxp & Hf & Hst & Hu & Su & St & Hatt).
  pose proof (tm_request_of_ok ib base t) as Hq. fold q i in Hq, Hst, Hu, Hatt. destruct (tm_q_ranges q Hq) as (_ & _ & Ha & Hn).
  change (2 ^ 18) with 262144 in Ha. assert (Hmv : 0 <= mv <= size) by apply Hreg.
  destruct (write_sizes q mv p (cp_mem cp) Hq Hmv Hok) as (Z1 & Z2 & Z3). fold size in Z3.
  destruct (write_staged t (if q_fu q =? kFUNC_WRITE then kStatNFuncWrite else kStatNFuncWrteg) q x t2 Ht2 Hf Hst)
    as (x3 & t3 & Ht3 & G1 & G2 & G3 & G4 & G5 & G6 & Hdo). fold size in Hdo, G6.
  assert (Hp3 : x_port x3 = cport (sy_cpu t)) by (by rewrite G1).
  destruct (dma_ok_at t x3 t3 _ _ _ Ht3 Hp3 Hdma) as [Hdma3 Hck].
  destruct (tm_at_sys t x3 t3 Ht3 Hp3) as (Hc3 & Hcp3 & Hm3).
  destruct (dma_run ib base Hdev t3 a kStatNQueRMem false (q_addr q) (tm_fBuf (x_c x3)) size mv (λ _, True)
    (mwords (cp_mem cp) (q_addr q) (Z.to_nat size))
    (λ y, ∃ u' v', fupVirt u' = Some v' ∧ mounted true p u' (Rec false bs :: st.1, []) ∧
       x_c y = set_tmds i (ds_of v' false) (set_tape i u' (x_c x3)) ∧ cp_mem (x_port y) = cp_mem cp ∧
       cp_log (x_port y) = cp_log cp ++ at_rb ib base
         (told_dma q (ds_of v' false) (write_count q mv) (dma_err (negb (mv =? size)) false))))
    as (t4 & t' & y & H4 & H5 & Hfin & u' & v' & Hv' & Hm' & Y1 & Y2 & Y3); rewrite ?Hm3, ?Hc3, ?Hcp3; try done.
  - by apply (tm_at_ready ib base t x3).
  - split; [lia|]. change (2 ^ 32) with 4294967296. lia.
  - by rewrite length_mwords.
  - intros tp l Hmt Hbuf. unfold buffer in Hbuf. rewrite take_mwords in Hbuf by lia.
    destruct (write_post tp l q (x_c x3) u p st mv cp) as (y & t5 & u' & v' & W1 & W2 & W3 & W4 & W5 & W6 & W7); try done.
    { by rewrite G2. }
    exists y, t5. split; [exact W1|]. split; [done|]. by exists u', v'.
  - exists args', t4, t', u', v', y. split.
    { rewrite Hatt. unfold mbind, M_bind, do_function.
      assert (E1 : (q_fu q =? kFUNC_UNLOAD) = false ∧ (q_fu q =? kFUNC_READ) = false ∧ ((q_fu q =? kFUNC_WRITE) || (q_fu q =? kFUNC_WEIRG)) = true).
      { by destruct Hfu as [-> | ->]. }
      destruct E1 as (-> & -> & ->). rewrite Hdo. unfold QueueRMem. by rewrite H4. }
    rewrite <- Hck. split; [exact H5|]. split; [done|]. rewrite Y1.
    split; [by apply set_tmds_fields, set_tape_fields|].
    cbn [tm_units fTmds set_tmds set_tape update setter]. by rewrite G2, G3, Su, St.
Qed.
End Commands.

(** C7: A READ command of the tape is executed to its end.  In front of a record
    of at least two bytes that is not longer than the byte count: from the
    attention over one action of the server per chunk; then the words of the
    record, or those that are below the end of memory, are in memory at the
    address of the request, and the last byte of an odd record behind them, unless
    it is beyond the end of memory or the record has a parity error; the rest of
    memory is as before; the tape stands behind the record; the device was told
    once, with the status of the tape, address and byte count behind the bytes
    moved, non-existent memory when words were not, and the parity error; the
    stored status of the drive is that told, and the controller is ready.  The
    trailing byte is written with the address of the register in the window of the
    cpu, which is that of its first window. *)
Theorem tm_read_command {S D V H A F} `{!RlinkExec S, !Rbus D, !LinkLaws S D, !CpuBus D, !RegDev D, !VirtDiskOps V, !VirtDiskSpec V, !PosixFile F, !PosixFileLaws F}
    (ib base : Z) (a : A) (pd : Z) (args : AttnArgs) (t : Rw11Sys S V H A (TM11 F)) (q : tm_req) (u : Rw11UnitTape F)
    (w p : bool) (rb ah : list item) (perr : bool) (d : list Z) (mv : Z) :
  tm_present (D := D) ib base → tm_ready ib base t → q = request_of ib base t →
  q_ready q = false → selected q (sy_client t) = Some u → q_fu q = 1 → mounted w p u (rb, Rec perr d :: ah) →
  let len := Z.of_nat (length d) in let size := len / 2 in
  2 <= len <= q_n q → Forall is_u8 d → (Z.odd len = true → cp_base (D := D) = 0) → dma_ok t (q_addr q) size mv →
  let i := Z.to_nat (q_un q) in let cp := cport (sy_cpu t) in let lim := Z.min (cp_size cp) 0x3e000 in
  ∃ args' t1 t' u' v', AttnHandler a pd args t = (Ret args', t1) ∧
    repeat_m (Z.to_nat (turns (chunk_size t) size mv)) (call_action RdmaPreExecCB RdmaPostExecCB) t1 = (Ret (), t') ∧
    tm_ready ib base t' ∧ IsActive (sy_rdma t') = false ∧ fActnList (sy_srv t') = [] ∧
    tm_units (sy_client t') = <[i := u']> (tm_units (sy_client t)) ∧ fupVirt u' = Some v' ∧
    mounted w p u' (Rec perr d :: rb, ah) ∧ fTmds (sy_client t') = <[i := ds_of v' false]> (fTmds (sy_client t)) ∧
    cp_mem (cport (sy_cpu t')) = read_memory lim (q_addr q) d perr mv (cp_mem cp) ∧
    cp_log (cport (sy_cpu t')) = cp_log cp ++ at_rb ib base
      (told_dma q (ds_of v' false) (2 * mv + odd_of len) (dma_err (negb (mv =? size)) perr)).
Proof.
  intros Hdev Hr -> Hrdy Hsel Hfu Hm len size Hlen Hu8 Hb Hdma i cp lim.
  destruct (read_run ib base Hdev a pd args t u w p rb perr d ah mv) as
    (args' & t1 & t' & u' & v' & y & H1 & H2 & Hfin & Hf & Hv & Hm' & Hu & Ht & Hmem & Hlog); try done.
  exists args', t1, t', u', v'. pose proof (finished_ready ib base y t' Hfin Hf) as Hr'.
  destruct Hfin as [F1 F2 F3 F4 F5 F6 F7]. rewrite F4, F5. by split_and!.
Qed.


(** ** A record read, a record written *)

Lemma tape_dma cr bc ba size mv : reach ba kCPAH_M_UBM22 size mv (cport (sy_cpu (tape_sys cr bc ba))) → dma_ok (tape_sys cr bc ba) ba size mv.
Proof. intros Hr. by split. Qed.
(** Three bytes to 0x1000: a word, and the low byte of the next one. *)
Lemma tm_read_command_witness : ∃ args' t1 t' u' v',
  AttnHandler () 500 (AttnArgs_ctor 0x10 0x10) (tape_sys 2 0xfff6 0x1000) = (Ret args', t1) ∧
  repeat_m 1 (call_action RdmaPreExecCB RdmaPostExecCB) t1 = (Ret (), t') ∧
  tm_ready 0x4000 0xff00 t' ∧ IsActive (sy_rdma t') = false ∧ fActnList (sy_srv t') = [] ∧
  tm_units (sy_client t') = u' :: replicate 3 UnitTM11_ctor ∧ fupVirt u' = Some v' ∧
  mounted true false u' ([Rec false [1; 2; 3]], [Mark]) ∧ fTmds (sy_client t') = [ds_of v' false; 0; 0; 0] ∧
  cp_mem (cport (sy_cpu t')) = <[0x1002 := 3]> (<[0x1000 := 0x201]> (cp_mem (pb_port (tape_bus 2 0xfff6 0x1000)))) ∧
  cp_log (cport (sy_cpu t')) = at_rb 0x4000 0xff00
    [(kTMCR, 2); (kTMRL, ds_of v' false); (kTMBC, 0xfff9); (kTMBA, 0x1002); (kTMCR, 0x44)].
Proof.
  refine (tm_read_command 0x4000 0xff00 () 500 (AttnArgs_ctor 0x10 0x10) (tape_sys 2 0xfff6 0x1000) (mkReq 2 0xfff6 0x1000) tape_unit
    true false [] [Mark] false [1; 2; 3] 1 tape_present (tape_ready 2 0xfff6 0x1000) eq_refl eq_refl eq_refl eq_refl tape_mounted _ _ (λ _, eq_refl)
    (tape_dma 2 0xfff6 0x1000 1 1 _)).
  - split; by vm_compute.
  - apply (bool_decide_unpack _). vm_compute. exact I.
  - by split_and!.
Defined.
