(* ===== verification/Lp11.v ===== *)
(** * librw11/Rw11CntlLP11, Rw11UnitLP11: the line printer LP11

    The device collects the characters of the PDP-11 in a fifo and raises an
    attention when the first one enters it.  The controller reads them, by a block
    read that ends when the fifo is empty, and writes them to the stream of its
    unit.  When it sees that the fifo was not emptied, it queues itself as an
    action of the server.  A device without a fifo delivers a single character.

    [a]: the action bound to [RcvHandler].  The log and the trace are not
    modelled. *)

From S2P Require Import Prelude.
From S2P Require Import Rstats.
From S2P Require Import FileFd.
From S2P Require Import Rtools.
From S2P Require Import Command.
From S2P Require Import CommandList.
From S2P Require Import Connect.
From S2P Require Import Link.
From S2P Require Import Server.
From S2P Require Import Stream.
From S2P Require Import Cpu.
From S2P Require Import Rdma.
From S2P Require Import Cntl.

Open Scope Z_scope.

(** ** Constants *)

Definition kCSR : Z := 0.
Definition kBUF : Z := 2.
Definition kProbeOff : Z := kCSR.
Definition kProbeInt : bool := true.
Definition kProbeRem : bool := true.
Definition kFifoMaxSize : Z := 127.
Definition kCSR_M_ERROR : Z := 0x8000.
Definition kCSR_V_RLIM : Z := 12.
Definition kCSR_B_RLIM : Z := 7.
Definition kCSR_V_TYPE : Z := 8.
Definition kCSR_B_TYPE : Z := 7.
Definition kBUF_M_VAL : Z := 0x8000.
Definition kBUF_V_FUSE : Z := 8.
Definition kBUF_B_FUSE : Z := 0x7f.
Definition kBUF_M_DATA : Z := 0x7f.

Definition kStatNQue : nat := 2.
Definition kStatNNull : nat := 3.
Definition kStatNChar : nat := 4.
Definition kStatNLine : nat := 5.
Definition kStatNPage : nat := 6.

(** ** Data *)

Record LP11 (F : Type) := mkLP11 {
  lp_cntl : Cntl;
  fPC_buf : nat;
  fRlim : Z;
  fItype : Z;
  fFsize : Z;
  fRblkSize : Z;
  fQueBusy : bool;
  lp_unit : Rw11UnitStream F }.
Arguments mkLP11 {F}. Arguments lp_cntl {F} _. Arguments fPC_buf {F} _. Arguments fRlim {F} _.
Arguments fItype {F} _. Arguments fFsize {F} _. Arguments fRblkSize {F} _. Arguments fQueBusy {F} _.
Arguments lp_unit {F} _.
#[export] Instance eta_LP11 {F} : Eta (LP11 F) := λ r,
  mkLP11 (lp_cntl r) (fPC_buf r) (fRlim r) (fItype r) (fFsize r) (fRblkSize r) (fQueBusy r) (lp_unit r).

Definition lp11_stat_table : list (string * string) :=
  ([("NQue", "rblk queued"); ("NNull", "null char send"); ("NChar", "char send (non-null)");
    ("NLine", "lines send"); ("NPage", "pages send")])%string.
Definition UnitLP11_ctor {F} : Rw11UnitStream F := UnitStream_ctor "?wonly".
Definition LP11_ctor {F} : LP11 F := mkLP11 (Cntl_ctor "lp11" lp11_stat_table) 0 0 0 0 4 false UnitLP11_ctor.
Definition Buffered {F} (lp : LP11 F) : bool := 0 <? fFsize lp.

(** ** Operations *)

Section LP11.
Context {S V H A F : Type} `{!RlinkExec S, !StdioFile F, !PosixNames F}.
Notation Sys := (Rw11Sys S V H A (LP11 F)).
Notation Unit := (Rw11UnitStream F).

Definition lstat (ind : nat) : M Sys () := cstat lp_cntl ind.
(** The ibus address of a register. *)
Definition lp_reg (lp : LP11 F) (off : Z) : Z := u16 (cn_fBase (lp_cntl lp) + off).
Definition Config (name : string) (base lam : Z) : M Sys () :=
  client (λ r, r <| lp_cntl ::= ConfigCntl name base lam kProbeOff kProbeInt kProbeRem |>).

(** *** The unit *)

Definition online (u : Unit) : bool :=
  match us_fupVirt u with Some v => negb (Error v) | None => false end.
Definition csr_of (lp : LP11 F) : Z :=
  Z.lor (if online (lp_unit lp) then 0 else kCSR_M_ERROR)
    (u16 (Z.shiftl (Z.land (fRlim lp) kCSR_B_RLIM) kCSR_V_RLIM)).
(** There is one unit. *)
Definition UnitSetup (ind : nat) : M Sys () := λ t,
  if (0 <? ind)%nat then (Exc (undefined "unit index out of range"), t)
  else zoom sy_cpu (ExecWibr (lp_reg (sy_client t) kCSR) (csr_of (sy_client t)) 0 0 0 0) t.
Definition SetRlim (rlim : Z) : M Sys () :=
  if kCSR_B_RLIM <? rlim then throw (Rexception "Rw11CntlLP11::SetRlim" "Bad args: rlim too large")
  else client (λ r, r <| fRlim := rlim |>) ;; UnitSetup 0.
(** A call of the unit; its message is only logged. *)
Definition call_unit {B} (m : E Unit B) : M Sys (B + RerrMsg) := λ t,
  let '(r, u) := m (lp_unit (sy_client t)) in (r, t <| sy_client ::= λ r, r <| lp_unit := u |> |>).
(** [Rw11UnitVirt::Detach] and [Attach] with the hooks of [Rw11UnitStreamBase]; the
    unit is always enabled. *)
Definition set_virt (v : option (Rw11VirtStream F)) : M Sys () :=
  client (λ r, r <| lp_unit ::= λ u, u <| us_fupVirt := v |> |>) ;; UnitSetup 0.
Definition Detach : M Sys () :=
  has ← get_client (λ r, HasVirt (lp_unit r));
  if (has : bool) then set_virt None else mret ().
Definition Attach (url : string) (f : F) : M Sys (() + RerrMsg) :=
  Detach ;;
  opts ← get_client (λ r, us_fAttachOpts (lp_unit r));
  match New opts url f with
  | Ret (inl v) => set_virt (Some v) ;; mret (inl ())
  | Ret (inr e) => mret (inr e)
  | Exc e => throw e
  | NoFuel => λ t, (NoFuel, t)
  end.

(** *** Characters *)

Definition WriteChar (ochr : Z) : M Sys () :=
  if ochr =? 0 then lstat kStatNNull
  else
    lstat kStatNChar ;;
    rc ← call_unit (VirtWrite [ochr]);
    (match rc with inl _ => mret () | inr _ => UnitSetup 0 end) ;;
    if ochr =? 12 then lstat kStatNPage ;; call_unit VirtFlush ;; mret ()
    else if ochr =? 10 then lstat kStatNLine
    else mret ().
Definition ProcessUnbuf (buf : Z) : M Sys () :=
  if negb (Z.land buf kBUF_M_VAL =? 0) then WriteChar (Z.land buf kBUF_M_DATA) else mret ().

(** *** The fifo *)

(** The list commands of the fifo: an empty fifo is no error. *)
Definition kFifoMask : Z := Z.lor kStat_M_RbTout kStat_M_RbNak.
Definition expect_at (ind : nat) (l : RlinkCommandList) : RlinkCommandList :=
  l <| fList ::= alter (SetExpectStatus 0 kFifoMask) ind |>.
(** [buf], with the smallest and the largest fill seen. *)
Fixpoint buf_loop (pbuf : list Z) (fumin fumax : Z) : M Sys (Z * Z) :=
  match pbuf with
  | [] => mret (fumin, fumax)
  | w :: pbuf =>
      let fuse := Z.land (Z.shiftr w kBUF_V_FUSE) kBUF_B_FUSE in
      WriteChar (Z.land w kBUF_M_DATA) ;;
      buf_loop pbuf (Z.min fumin fuse) (Z.max fumax fuse)
  end.
(** A method of a command of the primary list. *)
Definition on_prim (ind : nat) (m : M RlinkCommand ()) : M Sys () := λ t,
  match fList (cn_fPrimClist (cntl_of lp_cntl t)) !! ind with
  | None => (Exc out_of_range, t)
  | Some c =>
      let '(r, c) := m c in
      (r, t <| sy_client ::= λ r, r <| lp_cntl ::= λ k, k <| cn_fPrimClist ::= λ l,
              l <| fList ::= <[ind := c]> |> |> |> |>)
  end.

Section Handlers.
Variable a : A.

Definition ProcessBuf (cmd : RlinkCommand) (prim : bool) : M Sys () :=
  m ← gets (λ t, srv_mem (sy_link t));
  let done := fBlockDone cmd in
  let pbuf := block_read m done cmd in
  '(fumin, fumax) ← buf_loop pbuf (if (0 <? done)%nat then kFifoMaxSize else 0) 0;
  client (λ r, r <| fRblkSize := Z.max 4 (Z.max (u16 (Z.of_nat done)) fumax) |>) ;;
  (if 1 <? fumin then
     busy ← get_client fQueBusy;
     if (busy : bool) then mret ()
     else
       lstat kStatNQue ;; client (λ r, r <| fQueBusy := true |>) ;;
       zoom sy_srv (QueueAction a)
   else mret ()) ;;
  if prim then
    lp ← get_client id;
    on_prim (fPC_buf lp) (SetBlockRead (Z.to_nat (fRblkSize lp)))
  else mret ().
Definition AttnHandler (args : AttnArgs) : M Sys AttnArgs :=
  lstat Cntl.kStatNAttnHdl ;;
  args ← harvest lp_cntl args;
  lp ← get_client id;
  (if Buffered lp then
     cmd ← cmd_of (fPC_buf lp) (cn_fPrimClist (lp_cntl lp));
     ProcessBuf cmd true
   else
     buf ← prim_data lp_cntl (fPC_buf lp);
     ProcessUnbuf buf) ;;
  mret args.
Definition RcvHandler : M Sys Z :=
  client (λ r, r <| fQueBusy := false |>) ;;
  lp ← get_client id;
  '(_, l) ← add_cmds (AddRbibr (lp_reg lp kBUF) (Z.to_nat (fRblkSize lp))) RlinkCommandList_ctor;
  l ← exec_list (expect_at 0 l);
  cmd ← cmd_of 0 l;
  ProcessBuf cmd false ;;
  mret 0.
End Handlers.

(** *** Start *)

(** [fProbe.DataRem()]; [int] arithmetic. *)
Definition set_type : M Sys () :=
  client (λ r, let ty := Z.land (Z.shiftr (fDataRem (cn_fProbe (lp_cntl r))) kCSR_V_TYPE) kCSR_B_TYPE in
    r <| fItype := ty |> <| fFsize := u16 (Z.shiftl 1 ty - 1) |>).
Definition lp_prim (lp : LP11 F) (c : Rw11Cpu S) : M RlinkCommandList nat :=
  AddAttn ;;
  if Buffered lp then
    i ← AddRbibr (lp_reg lp kBUF) (Z.to_nat (fRblkSize lp)) c;
    modify (expect_at i) ;; mret i
  else AddRibr (lp_reg lp kBUF) c.
(** [self]: the controller, as the data pointer of its attention handler [h]. *)
Definition Start (h : H) (self : Z) : M Sys () := λ t,
  if bad_start lp_cntl t
  then (Exc (Rexception "Rw11CntlLP11::Start" "Bad state: started, no lam, not enable, not found"), t)
  else
    (map_regs lp_cntl [(".csr", kCSR); (".buf", kBUF)]%string ;;
     set_type ;;
     UnitSetupAll UnitSetup 0 1 ;;
     '(i, l) ← (λ t, new_clist (lp_prim (sy_client t) (sy_cpu t)) t);
     client (λ r, r <| lp_cntl ::= λ c, c <| cn_fPrimClist := l |> |> <| fPC_buf := i |>) ;;
     zoom sy_srv (AddAttnHandler h (u16 (Z.shiftl 1 (cn_fLam (lp_cntl (sy_client t))))) self) ;;
     modify (λ t, t <| sy_started := true |>)) t.
End LP11.
(** The controller with its server and cpu. *)
Definition CntlLP11_ctor {S V H A F} (srv : RlinkServer H A) (cpu : Rw11Cpu S) : Rw11Sys S V H A (LP11 F) :=
  mkSys srv cpu [] false Rdma_ctor None LP11_ctor.
