(* ===== verification/LpSpec.v ===== *)
(** * What the line printer prints

    The characters of the fifo reach the stream of the unit in order, whatever the
    order of attentions and actions; what waits for an action is never lost. *)

From S2P Require Import Prelude.
From S2P Require Import Rstats.
From S2P Require Import FileFd.
From S2P Require Import Url.
From S2P Require Import Rtools.
From S2P Require Import AddrMap.
From S2P Require Import Command.
From S2P Require Import CommandList.
From S2P Require Import Connect.
From S2P Require Import Link.
From S2P Require Import LinkCore.
From S2P Require Import Server.
From S2P Require Import Stream.
From S2P Require Import Cpu.
From S2P Require Import CpuMem.
From S2P Require Import Rdma.
From S2P Require Import Cntl.
From S2P Require Import CntlSpec.
From S2P Require Import PdpBus.
From S2P Require Import FifoBus.
From S2P Require Import Lp11.

Open Scope Z_scope.

(** ** Characters *)

(** The printer has seven bits, and leaves NUL out. *)
Definition paper (l : list Z) : list Z := filter (λ c, c ≠ 0) (map (λ c, c mod 128) l).
Lemma paper_app l1 l2 : paper (l1 ++ l2) = paper l1 ++ paper l2.
Proof. unfold paper. by rewrite map_app, list.filter_app. Qed.
Lemma fifo_word_fields c l : is_u8 c → (length (c :: l) <= 127)%nat →
  Z.land (fifo_word (c :: l)) kBUF_M_DATA = c mod 128 ∧
  Z.land (Z.shiftr (fifo_word (c :: l)) kBUF_V_FUSE) kBUF_B_FUSE = Z.of_nat (length (c :: l)).
Proof.
  unfold is_u8, fifo_word. cbn [hd]. change (2 ^ 8) with 256. set (n := length (c :: l)). intros Hc Hn. split.
  - etrans; [apply (Z.land_ones _ 7); done|]. change (2 ^ 7) with 128. Z.div_mod_to_equations. lia.
  - etrans; [apply (field_mod _ 8 7); done|]. change (2 ^ 8) with 256. change (2 ^ 7) with 128. Z.div_mod_to_equations. lia.
Qed.

Section LP11.
Context {S D V H A F : Type}.
Context `{!RlinkExec S, !Rbus D, !LinkLaws S D, !CpuBus D, !RegDev D, !FifoBus D, !StdioFile F, !StdioLaws F}.
Notation Sys := (Rw11Sys S V H A (LP11 F)).
Notation Unit := (Rw11UnitStream F).

(** *** The loop over a block *)

Definition char_stats (c : Z) (s : Rstats) : Rstats :=
  if c =? 0 then inc kStatNNull 1 s
  else
    let s := inc kStatNChar 1 s in
    if c =? 12 then inc kStatNPage 1 s else if c =? 10 then inc kStatNLine 1 s else s.
(** The controller with characters counted and another state of the unit. *)
Definition printed (l : list Z) (u : Unit) (c : LP11 F) : LP11 F :=
  c <| lp_unit := u |> <| lp_cntl ::= λ k, k <| cn_fStats ::= λ s, fold_left (λ s c, char_stats (c mod 128) s) l s |> |>.
Definition with_client (t : Sys) (c : LP11 F) : Sys := t <| sy_client := c |>.

Lemma WriteChar_ok (t : Sys) c data : prints_at (lp_unit (sy_client t)) data → ∃ u,
  WriteChar (c mod 128) t = (Ret (), with_client t (printed [c] u (sy_client t))) ∧ prints_at u (data ++ paper [c]).
Proof.
  intros Hp. unfold WriteChar, paper, printed, char_stats. cbn [map fold_left].
  rewrite list.filter_cons. destruct (Z.eqb_spec (c mod 128) 0) as [E|E].
  { rewrite decide_False by (intros H1; by apply H1). exists (lp_unit (sy_client t)). rewrite app_nil_r. split; [|done].
    by destruct t as [? ? ? ? ? ? [[] ? ? ? ? ? ? ?]]. }
  rewrite decide_True by done. set (x := c mod 128) in *.
  destruct (VirtWrite_ok _ _ [x] Hp) as (u & Hw & Hp1).
  set (t1 := t <| sy_client ::= λ r, r <| lp_cntl ::= λ k, k <| cn_fStats ::= inc kStatNChar 1 |> |> |>).
  assert (H1 : call_unit (VirtWrite [x]) t1 = (Ret (inl ()), t1 <| sy_client ::= λ r, r <| lp_unit := u |> |>)).
  { unfold call_unit. change (lp_unit (sy_client t1)) with (lp_unit (sy_client t)). by rewrite Hw. }
  set (t2 := t1 <| sy_client ::= λ r, r <| lp_unit := u |> |>) in *.
  rewrite (bind_Ret _ _ _ _ _ (eq_refl : lstat kStatNChar t = (Ret (), t1))), (bind_Ret _ _ _ _ _ H1).
  rewrite bind_mret. destruct (Z.eqb_spec x 12) as [->|Ef].
  - set (t3 := t2 <| sy_client ::= λ r, r <| lp_cntl ::= λ k, k <| cn_fStats ::= inc kStatNPage 1 |> |> |>).
    destruct (VirtFlush_ok _ _ Hp1) as (u' & Hf & Hp2). exists u'. split; [|done].
    rewrite (bind_Ret _ _ _ _ _ (eq_refl : lstat kStatNPage t2 = (Ret (), t3))).
    assert (H2 : call_unit VirtFlush t3 = (Ret (inl ()), t3 <| sy_client ::= λ r, r <| lp_unit := u' |> |>)).
    { unfold call_unit. change (lp_unit (sy_client t3)) with u. by rewrite Hf. }
    by rewrite (bind_Ret _ _ _ _ _ H2).
  - exists u. split; [|done]. by destruct (x =? 10).
Qed.
Lemma printed_app l1 l2 u1 u2 c : printed l2 u2 (printed l1 u1 c) = printed (l1 ++ l2) u2 c.
Proof. unfold printed. cbn. by rewrite fold_left_app. Qed.

Lemma printed_nil (t : Sys) : with_client t (printed [] (lp_unit (sy_client t)) (sy_client t)) = t.
Proof. by destruct t as [? ? ? ? ? ? [[] ? ? ? ? ? ? ?]]. Qed.

(** The fill seen when [n] words are read from a fifo. *)
Definition fuse_range (n : nat) (l : list Z) (lo hi : Z) : Z * Z :=
  if decide (take n l = []) then (lo, hi)
  else (Z.min lo (Z.of_nat (length l - length (take n l) + 1)), Z.max hi (Z.of_nat (length l))).
Lemma fuse_range_cons n c l lo hi : fuse_range (Datatypes.S n) (c :: l) lo hi =
  fuse_range n l (Z.min lo (Z.of_nat (length (c :: l)))) (Z.max hi (Z.of_nat (length (c :: l)))).
Proof.
  unfold fuse_range. cbn [take]. rewrite decide_False by done. pose proof (length_take l n) as Ht.
  destruct (decide (take n l = [])) as [E|E].
  - rewrite E. cbn [length]. f_equal; lia.
  - assert (0 < length (take n l))%nat by (destruct (take n l); simpl; [done|lia]).
    cbn [length] in *. f_equal; lia.
Qed.
(** The loop; [P]: the state when the characters were written. *)
Lemma buf_loop_run (P : list Z → Sys → Prop) :
  (∀ cs c t, P cs t → ∃ t1, WriteChar (c mod 128) t = (Ret (), t1) ∧ P (cs ++ [c]) t1) →
  ∀ l, Forall is_u8 l → (length l <= 127)%nat → ∀ n t cs, P cs t →
  ∃ t', (∀ lo hi, buf_loop (fifo_words n l) lo hi t = (Ret (fuse_range n l lo hi), t')) ∧ P (cs ++ take n l) t'.
Proof.
  intros Hstep l Hu. induction Hu as [|c l Hc Hu IH]; intros Hl n t cs Hp.
  { exists t. rewrite take_nil, app_nil_r. split; [|done]. intros lo hi. unfold fuse_range.
    rewrite take_nil, decide_True by done. by destruct n. }
  destruct n as [|n]; cbn [take fifo_words buf_loop].
  { exists t. rewrite app_nil_r. split; [|done]. intros lo hi. unfold fuse_range. by rewrite decide_True by done. }
  destruct (fifo_word_fields c l Hc Hl) as [-> ->]. destruct (Hstep cs c t Hp) as (t1 & H1 & Hp1).
  destruct (IH ltac:(simpl in Hl; lia) n t1 _ Hp1) as (t2 & H2 & Hp2). exists t2. split.
  - intros lo hi. by rewrite (bind_Ret _ _ _ _ _ H1), fuse_range_cons, H2.
  - by rewrite <- app_assoc in Hp2.
Qed.

(** *** The handling of a block *)

Variable a : A.
Definition client_static (c c' : LP11 F) : Prop :=
  (fPC_buf c', fRlim c', fItype c', fFsize c', cn_fBase (lp_cntl c')) =
  (fPC_buf c, fRlim c, fItype c, fFsize c, cn_fBase (lp_cntl c)).
(** What [ProcessBuf] does behind the loop, when [l] was in the fifo and [rest] is
    left. *)
Record processed (prim : bool) (l rest : list Z) (t t' : Sys) : Prop := {
  pr_cpu : sy_cpu t' = sy_cpu t;
  pr_srv : sy_srv t' = (if bool_decide (rest ≠ []) && negb (fQueBusy (sy_client t))
                        then sy_srv t <| fActnList ::= λ l, l ++ [a] |> else sy_srv t);
  pr_busy : fQueBusy (sy_client t') = fQueBusy (sy_client t) || bool_decide (rest ≠ []);
  pr_size : fRblkSize (sy_client t') = Z.max 4 (Z.of_nat (length l));
  pr_unit : lp_unit (sy_client t') = lp_unit (sy_client t);
  pr_static : client_static (sy_client t) (sy_client t');
  pr_prim : ∀ c1, fList (cn_fPrimClist (lp_cntl (sy_client t))) !! fPC_buf (sy_client t) = Some c1 →
    fList (cn_fPrimClist (lp_cntl (sy_client t'))) =
    (if prim then <[fPC_buf (sy_client t) := (SetBlockRead (Z.to_nat (fRblkSize (sy_client t'))) c1).2]>
                    (fList (cn_fPrimClist (lp_cntl (sy_client t))))
     else fList (cn_fPrimClist (lp_cntl (sy_client t)))) }.

Lemma block_size_ok n : 4 <= Z.of_nat n <= 127 → bad_block_size n = false.
Proof. intros Hn. apply bad_block_size_false. lia. Qed.
(** [t1]: the state behind the loop. *)
Lemma ProcessBuf_run (t t1 : Sys) cmd prim n l :
  fpBlockExt cmd = None → fBlockDone cmd = length (take n l) → take (length (take n l)) (fBlock cmd) = fifo_words n l →
  (4 <= n)%nat → (length l <= 127)%nat → is_Some (fList (cn_fPrimClist (lp_cntl (sy_client t1))) !! fPC_buf (sy_client t1)) →
  (∀ lo hi, buf_loop (fifo_words n l) lo hi t = (Ret (fuse_range n l lo hi), t1)) →
  ∃ t', ProcessBuf a cmd prim t = (Ret (), t') ∧ processed prim l (drop n l) t1 t'.
Proof.
  intros Hext Hdone Hblk Hn Hl [c1 Hc1] Hloop. set (done := length (take n l)) in *.
  assert (Hdn : (done = Nat.min n (length l))%nat) by apply length_take.
  assert (Hrest : bool_decide (drop n l ≠ []) = (done <? length l)%nat).
  { apply eq_true_iff_eq. rewrite bool_decide_eq_true, Nat.ltb_lt, <- length_zero_iff_nil, length_drop. lia. }
  set (size := Z.max 4 (Z.of_nat (length l))).
  assert (H2 : ∃ lo hi, buf_loop (fifo_words n l) (if (0 <? done)%nat then kFifoMaxSize else 0) 0 t = (Ret (lo, hi), t1) ∧
    (1 <? lo) = (done <? length l)%nat ∧ Z.max 4 (Z.max (u16 (Z.of_nat done)) hi) = size).
  { rewrite Hloop, u16_id by (unfold is_u16; lia). unfold size, fuse_range. fold done. destruct (decide (take n l = [])) as [E0|E0].
    - assert (El : l = []) by (destruct l; [done|]; by destruct n; [lia|]). rewrite El in *.
      exists 0, 0. rewrite Hdn, Nat.min_0_r. done.
    - assert (0 < done)%nat by (unfold done; destruct (take n l); [done|simpl; lia]).
      eexists _, _. split; [reflexivity|]. rewrite (proj2 (Nat.ltb_lt _ _)) by done. unfold kFifoMaxSize. split; [|lia].
      apply eq_true_iff_eq. rewrite Z.ltb_lt, Nat.ltb_lt. lia. }
  destruct H2 as (lo & hi & H1 & Hlo & Hsize).
  unfold ProcessBuf. rewrite bind_gets. unfold block_read. rewrite Hext, Hdone, Hblk. rewrite (bind_Ret _ _ _ _ _ H1).
  cbn beta iota. rewrite Hsize, Hlo, <- Hrest. set (more := bool_decide (drop n l ≠ [])).
  set (t2 := t1 <| sy_client ::= λ r, r <| fRblkSize := size |> |>).
  set (busy := fQueBusy (sy_client t1)).
  set (t3 := if more && negb busy then t2 <| sy_client ::= λ r, r <| lp_cntl ::= λ k, k <| cn_fStats ::= inc kStatNQue 1 |> |>
      <| fQueBusy := true |> |> <| sy_srv ::= λ s, s <| fActnList ::= λ l, l ++ [a] |> |> else t2).
  assert (H3 : (if (more : bool) then
     busy ← get_client fQueBusy;
     if (busy : bool) then mret ()
     else
       lstat kStatNQue ;; client (λ r, r <| fQueBusy := true |>) ;;
       zoom sy_srv (QueueAction a)
   else mret ()) t2 = (Ret (), t3)).
  { unfold t3, busy. destruct more; [|done]. destruct t1 as [? ? ? ? ? ? [? ? ? ? ? ? qb ?]]. by destruct qb. }
  rewrite (bind_Ret _ _ _ _ _ (eq_refl : client _ t1 = (Ret (), t2))), (bind_Ret _ _ _ _ _ H3).
  assert (Hpr : processed false l (drop n l) t1 t3).
  { split; fold more busy; unfold t3; try (by destruct (more && negb busy)).
    change (fQueBusy (sy_client t1)) with busy. assert (E2 : fQueBusy (sy_client t2) = busy) by done.
    destruct more, busy; cbn [negb andb orb]; by rewrite ?E2. }
  destruct prim; [|by exists t3]. rewrite (bind_Ret _ _ _ _ _ (eq_refl : get_client id t3 = (Ret (sy_client t3), t3))).
  destruct Hpr as [P1 P2 P3 P4 P5 P6 P7]. injection P6 as Ep Er Ei Ef Eb.
  assert (Hs : SetBlockRead (Z.to_nat (fRblkSize (sy_client t3))) c1 =
    (Ret (), (SetBlockRead (Z.to_nat (fRblkSize (sy_client t3))) c1).2)).
  { unfold SetBlockRead, throw_if. rewrite block_size_ok; [done|]. rewrite P4. lia. }
  eexists. split; [unfold on_prim, cntl_of; rewrite Ep, (P7 c1 Hc1), Hc1, Hs; reflexivity|].
  split; [exact P1|exact P2|exact P3|exact P4|exact P5|unfold client_static; cbn; congruence|].
  intros c1' Hc1'. assert (c1' = c1) as -> by congruence.
  change (<[fPC_buf (sy_client t1) := (SetBlockRead (Z.to_nat (fRblkSize (sy_client t3))) c1).2]>
    (fList (cn_fPrimClist (lp_cntl (sy_client t3)))) = <[fPC_buf (sy_client t1) := (SetBlockRead (Z.to_nat (fRblkSize (sy_client t3))) c1).2]>
    (fList (cn_fPrimClist (lp_cntl (sy_client t1))))). by rewrite (P7 c1 Hc1).
Qed.

(** *** The block read *)

(** The device is at [base] on an ibus that is seen at [ib]. *)
Variables (ib base : Z).
Let buf : Z := rb ib base kBUF.
Definition lp_present : Prop := bad_ibaddr (u16 (base + kBUF)) = false ∧ fifo_reg (rb ib base kBUF).
Hypothesis Hdev : lp_present.

(** A block read of the fifo, and what it is when it was executed. *)
Record fifo_read (n : nat) (c : RlinkCommand) : Prop := {
  fr_code : Command c = kCmdRblk;
  fr_addr : fAddress c = buf;
  fr_ext : fpBlockExt c = None;
  fr_size : length (fBlock c) = n;
  fr_wf : cmd_wf c }.
Record fifo_done (n : nat) (l : list Z) (c : RlinkCommand) : Prop := {
  fd_read : fifo_read n c;
  fd_done : fBlockDone c = length (take n l);
  fd_words : take (length (take n l)) (fBlock c) = fifo_words n l }.
Lemma fifo_read_run n c b m0 m (d : D) : fifo_read n c → ∃ c' d',
  bus_run m0 b [c] m d = ([c'], m, d') ∧ port d' = port d ∧ fifo buf d' = drop n (fifo buf d) ∧
  ∀ c2, answered c' c2 → cmd_wf c2 → fifo_done n (fifo buf d) c2.
Proof.
  intros [H1 H2 H3 H4 H5]. destruct Hdev as [_ Hf]. destruct (bus_rblk_fifo buf Hf n 0 d) as (st & d' & E & Hp & Hd).
  assert (Hs : BlockSize c = n) by (unfold BlockSize, HasBlockExt; by rewrite H3).
  set (ws := fifo_words n (fifo buf d)) in *.
  exists (SetStatus st (SetBlockDone (Z.of_nat (length ws)) (c <| fBlock := ws ++ replicate (n - length ws) (rb_fill d) |>))), d'.
  split_and!; [|done|done|].
  - rewrite bus_run_cons by (by rewrite H1). unfold bus_cmd. rewrite H1, H2, Hs. cbn [Z.eqb kCmdRreg kCmdWreg kCmdRblk Pos.eqb].
    rewrite E. unfold block_write. by rewrite H3.
  - intros c2 (A1 & A2 & _ & _ & A5 & A6 & A7 & _) Hw.
    assert (Hl : length ws = length (take n (fifo buf d))) by (unfold ws; by rewrite length_fifo_words, length_take).
    split; [split; [by rewrite A1|by rewrite A2|by rewrite A7| |done]| |].
    + rewrite A5. cbn. rewrite length_app, length_replicate. rewrite Hl, length_take. lia.
    + rewrite A6. cbn. by rewrite Nat2Z.id, Hl.
    + rewrite A5, <- Hl. cbn. by rewrite take_app_length.
Qed.

(** The primary list: attentions, and a block read. *)
Definition prim_fifo (n : nat) (l : RlinkCommandList) : Prop := ∃ c0 c1,
  fList l = [c0; c1] ∧ Command c0 = kCmdAttn ∧ cmd_wf c0 ∧ fifo_read n c1.
Lemma prim_fifo_ok n l : prim_fifo n l → list_ok l.
Proof.
  intros (c0 & c1 & Hl & H0 & Hw & [H1 _ _ _ Hw1]). split; rewrite Hl; [done| | |done].
  { apply list.Forall_cons_2; [done|]. by apply list.Forall_cons_2. }
  simpl. unfold bus_code. by rewrite H0, H1.
Qed.

(** *** The handlers *)

(** The action is queued exactly when the controller says so. *)
Definition queued (q : bool) (l : list A) : Prop :=
  if q then ∃ l1 l2, l = l1 ++ a :: l2 ∧ a ∉ l1 ∧ a ∉ l2 else a ∉ l.
(** A started printer with a fifo. *)
Record lp_run (t : Sys) : Prop := {
  lk_up : link_ok (sy_link t);
  lk_ib : fIBase (sy_cpu t) = ib;
  lk_base : cn_fBase (lp_cntl (sy_client t)) = base;
  lk_pc : fPC_buf (sy_client t) = 1%nat;
  lk_fifo : Buffered (sy_client t) = true;
  lk_size : 4 <= fRblkSize (sy_client t) <= 127;
  lk_prim : ∃ n, (4 <= n <= 127)%nat ∧ prim_fifo n (cn_fPrimClist (lp_cntl (sy_client t))) }.
(** Its stream ends with [data]. *)
Definition lp_core (data : list Z) (t : Sys) : Prop := lp_run t ∧ prints_at (lp_unit (sy_client t)) data.
Definition lp_ok (data : list Z) (t : Sys) : Prop :=
  lp_core data t ∧ queued (fQueBusy (sy_client t)) (fActnList (sy_srv t)).
Definition waits (t : Sys) : list Z := fifo buf (dev (sy_link t)).

Lemma queued_add (more q : bool) (v : RlinkServer H A) : queued q (fActnList v) →
  queued (q || more) (fActnList (if more && negb q then v <| fActnList ::= λ l, l ++ [a] |> else v)).
Proof. destruct more, q; cbn [andb negb orb]; try done. intros Hq. exists (fActnList v), []. by split_and!; [|done|apply not_elem_of_nil]. Qed.
Lemma resized_read n m c : fifo_read n c → (4 <= m <= 127)%nat → fifo_read m (SetBlockRead m c).2.
Proof.
  intros [H1 H2 H3 H4 [W1 W2 W3 W4 W5 W6 W7]] Hm. unfold SetBlockRead, throw_if. rewrite block_size_ok by lia.
  split; [done|done|done|apply (length_replicate m 0)|]. split; try done.
  - by apply Forall_replicate.
  - intros _. change (0 < Z.of_nat (length (replicate m 0)) <= 65535). rewrite length_replicate. lia.
Qed.
(** The loop leaves the registers of the controller and its primary list alone. *)
Record loop_same (t t1 : Sys) : Prop := {
  ls_prim : cn_fPrimClist (lp_cntl (sy_client t1)) = cn_fPrimClist (lp_cntl (sy_client t));
  ls_static : client_static (sy_client t) (sy_client t1);
  ls_busy : fQueBusy (sy_client t1) = fQueBusy (sy_client t);
  ls_size : fRblkSize (sy_client t1) = fRblkSize (sy_client t);
  ls_srv : sy_srv t1 = sy_srv t;
  ls_ib : fIBase (sy_cpu t1) = fIBase (sy_cpu t);
  ls_link : same_link (sy_link t) (sy_link t1) }.
Lemma lp_run_same (t t1 : Sys) : loop_same t t1 → lp_run t → lp_run t1.
Proof.
  intros [L1 L2 L3 L4 L5 L6 L7] [K1 K2 K3 K4 K5 K6 K7]. injection L2 as Ep Er Ei Ef Eb.
  split; [by eapply same_link_ok|by rewrite L6|by rewrite Eb|by rewrite Ep|unfold Buffered in *; by rewrite Ef|by rewrite L4|by rewrite L1].
Qed.
(** A block [cmd] that was read of [l] is handled; [t1]: behind the loop. *)
Lemma handled prim n l (t t1 : Sys) c0 c1 k cmd :
  lp_run t → (length l <= 127)%nat → (4 <= n <= 127)%nat → (4 <= k <= 127)%nat →
  fList (cn_fPrimClist (lp_cntl (sy_client t))) = [c0; c1] → Command c0 = kCmdAttn → cmd_wf c0 → fifo_read k c1 →
  fifo_done n l cmd → (∀ lo hi, buf_loop (fifo_words n l) lo hi t = (Ret (fuse_range n l lo hi), t1)) → loop_same t t1 →
  ∃ t', ProcessBuf a cmd prim t = (Ret (), t') ∧ lp_run t' ∧ sy_cpu t' = sy_cpu t1 ∧ lp_unit (sy_client t') = lp_unit (sy_client t1) ∧
    fRlim (sy_client t') = fRlim (sy_client t) ∧
    sy_srv t' = (if bool_decide (drop n l ≠ []) && negb (fQueBusy (sy_client t))
                 then sy_srv t <| fActnList ::= λ l, l ++ [a] |> else sy_srv t) ∧
    fQueBusy (sy_client t') = fQueBusy (sy_client t) || bool_decide (drop n l ≠ []) ∧
    fRblkSize (sy_client t') = Z.max 4 (Z.of_nat (length l)).
Proof.
  intros Hk Hl Hn Hkk Hc Hc0 Hw0 Hr [[F1 F2 F3 F4 F5] F6 F7] Hloop Hs. pose proof (lp_run_same t t1 Hs Hk) as Hk1.
  rewrite <- (ls_prim _ _ Hs) in Hc. assert (H1 : fList (cn_fPrimClist (lp_cntl (sy_client t1))) !! fPC_buf (sy_client t1) = Some c1).
  { by rewrite (lk_pc _ Hk1), Hc. }
  destruct (ProcessBuf_run t t1 cmd prim n l) as (t' & Hx & [P1 P2 P3 P4 P5 P6 P7]); [done..|lia|done|by exists c1|done|].
  specialize (P7 c1 H1). rewrite (lk_pc _ Hk1), Hc in P7. injection P6 as Ep Er Ei Ef Eb.
  destruct Hs as [L1 L2 L3 L4 L5 L6 L7]. injection L2 as Lp Lr Li Lf Lb. rewrite L3 in P3, P2. rewrite L5 in P2.
  exists t'. split; [done|]. split; [|split_and!; [done|done|congruence|done|done|done]].
  destruct Hk1 as [K1 K2 K3 K4 K5 K6 K7]. split; try congruence.
  - unfold sy_link. by rewrite P1.
  - unfold Buffered in *. by rewrite Ef.
  - rewrite P4. lia.
  - destruct prim; [exists (Z.to_nat (fRblkSize (sy_client t')))|exists k].
    + split; [lia|]. eexists c0, _. rewrite P7. split; [done|]. split; [done|]. split; [done|].
      apply resized_read with k; [done|lia].
    + split; [done|]. exists c0, c1. by rewrite P7.
Qed.

(** The attention handler up to the block. *)
Lemma attn_fetch args (t : Sys) : lp_run t → ∃ args' t1 e0 e1 n,
  AttnHandler a args t = (ProcessBuf a e1 true ;; mret args') t1 ∧ (4 <= n <= 127)%nat ∧ lp_run t1 ∧
  fList (cn_fPrimClist (lp_cntl (sy_client t1))) = [e0; e1] ∧ Command e0 = kCmdAttn ∧ cmd_wf e0 ∧
  fifo_done n (waits t) e1 ∧ waits t1 = drop n (waits t) ∧ cport (sy_cpu t1) = cport (sy_cpu t) ∧
  lp_unit (sy_client t1) = lp_unit (sy_client t) ∧ fQueBusy (sy_client t1) = fQueBusy (sy_client t) ∧
  fRlim (sy_client t1) = fRlim (sy_client t) ∧ sy_srv t1 = sy_srv t.
Proof.
  intros [K1 K2 K3 K4 K5 K6 (n & Hn & c0 & c1 & Hl & H0 & Hw0 & Hr)].
  set (t0 := t <| sy_client ::= λ r, r <| lp_cntl ::= λ c, c <| cn_fStats ::= inc Cntl.kStatNAttnHdl 1 |> |> |>).
  destruct (fifo_attn_law (dev (sy_link t))) as (st & x0 & d1 & Hat & Hp1 & Hf1).
  destruct (fifo_read_run n c1 false (srv_mem (sy_link t)) (srv_mem (sy_link t)) d1 Hr) as (c1' & d2 & Hrun & Hp2 & Hf2 & Hd).
  destruct (harvest_run lp_cntl args t0 c0 [c1] [SetStatus st (SetData x0 c0); c1'] (srv_mem (sy_link t)) d2) as
    (x & s' & l' & Hx & Ha & Hwf & Hm & Hdev' & Hs); try done.
  { apply (prim_fifo_ok n). by exists c0, c1. }
  { change (cn_fPrimClist (cntl_of lp_cntl t0)) with (cn_fPrimClist (lp_cntl (sy_client t))). rewrite Hl.
    change (sy_link t0) with (sy_link t). rewrite bus_run_cons by (by rewrite H0). unfold bus_cmd, cut_short. rewrite H0.
    cbn [Z.eqb kCmdAttn kCmdRreg kCmdWreg kCmdRblk kCmdWblk Pos.eqb orb]. by rewrite Hat, Hrun. }
  apply Forall2_cons_inv_l in Ha as (e0 & es & (A0 & _) & Ha & Hl'). apply Forall2_cons_inv_l in Ha as (e1 & es' & Ha1 & Ha & ->).
  apply Forall2_nil_inv_l in Ha as ->. rewrite Hl' in Hwf. apply Forall_cons_iff in Hwf as [W0 Hwf]. apply Forall_cons_iff in Hwf as [W1 _].
  pose proof (Hd e1 Ha1 W1) as Hdone. rewrite Hf1 in Hdone, Hf2. fold (waits t) in Hdone.
  set (t1 := set_prim lp_cntl l' (t0 <| sy_link := s' |>)) in *.
  exists (args <| fAttnHarvest := x |> <| fHarvestDone := true |>), t1, e0, e1, n.
  destruct Hn as [Hn1 Hn2]. split; [|split_and!; try done].
  - unfold AttnHandler. rewrite (bind_Ret _ _ _ _ _ (eq_refl : lstat Cntl.kStatNAttnHdl t = (Ret (), t0))).
    rewrite (bind_Ret _ _ _ _ _ Hx). rewrite (bind_Ret _ _ _ _ _ (eq_refl : get_client id t1 = (Ret (sy_client t1), t1))).
    change (Buffered (sy_client t1)) with (Buffered (sy_client t)). rewrite K5. cbn beta iota.
    assert (Hcmd : cmd_of (fPC_buf (sy_client t1)) (cn_fPrimClist (lp_cntl (sy_client t1))) t1 = (Ret e1, t1)).
    { unfold cmd_of, at_. change (fPC_buf (sy_client t1)) with (fPC_buf (sy_client t)). rewrite K4.
      change (cn_fPrimClist (lp_cntl (sy_client t1))) with l'. by rewrite Hl'. }
    by rewrite bind_assoc, (bind_Ret _ _ _ _ _ Hcmd).
  - split; try done; [by eapply same_link_ok|]. exists n. split; [done|]. exists e0, e1. split; [done|].
    split; [by rewrite A0|]. split; [done|apply Hdone].
  - by rewrite A0.
  - unfold waits. change (sy_link t1) with s'. by rewrite Hdev', Hf2.
  - change (port (dev s') = port (dev (sy_link t))). by rewrite Hdev', Hp2, Hp1.
Qed.

(** The loop of a printer with a stream. *)
Lemma loop_online n l (t : Sys) data : Forall is_u8 l → (length l <= 127)%nat → prints_at (lp_unit (sy_client t)) data →
  ∃ t1, (∀ lo hi, buf_loop (fifo_words n l) lo hi t = (Ret (fuse_range n l lo hi), t1)) ∧ loop_same t t1 ∧
    sy_cpu t1 = sy_cpu t ∧ prints_at (lp_unit (sy_client t1)) (data ++ paper (take n l)).
Proof.
  intros Hu Hl Hp.
  destruct (buf_loop_run (λ cs t', ∃ u, t' = with_client t (printed cs u (sy_client t)) ∧ prints_at u (data ++ paper cs)))
    with (l := l) (n := n) (t := t) (cs := @nil Z) as (t' & H1 & u & -> & H2); try done.
  - intros cs c t' (u & -> & Hu'). destruct (WriteChar_ok (with_client t (printed cs u (sy_client t))) c _ Hu') as (u' & H1 & H2).
    eexists. split; [exact H1|]. exists u'. split; [|by rewrite paper_app, app_assoc].
    cbn [sy_client with_client update setter]. by rewrite printed_app.
  - exists (lp_unit (sy_client t)). by rewrite printed_nil, app_nil_r.
  - exists (with_client t (printed (take n l) u (sy_client t))). by split_and!.
Qed.
(** What the attention handler does: the fifo is printed up to the size of the block,
    and an action is queued exactly when something is left. *)
Lemma attn_ok args (t : Sys) data : lp_ok data t → ∃ args' t' n, AttnHandler a args t = (Ret args', t') ∧
  (4 <= n)%nat ∧ lp_ok (data ++ paper (take n (waits t))) t' ∧ waits t' = drop n (waits t) ∧
  cport (sy_cpu t') = cport (sy_cpu t) ∧ fRblkSize (sy_client t') = Z.max 4 (Z.of_nat (length (waits t))) ∧
  fQueBusy (sy_client t') = fQueBusy (sy_client t) || bool_decide (waits t' ≠ []).
Proof.
  intros [[Hk Hp] Hq]. destruct (attn_fetch args t Hk) as (args' & t1 & e0 & e1 & n & Hx & Hn & Hk1 & Hl & H0 & W0 & Hd & Hw & Hc & Eu & Eq & _ & Ev).
  pose proof (fifo_size buf (dev (sy_link t))) as Hsz. pose proof (fifo_u8 buf (dev (sy_link t))) as Hu. fold (waits t) in Hsz, Hu.
  rewrite <- Eu in Hp. destruct (loop_online n (waits t) t1 data Hu Hsz Hp) as (t2 & Hloop & Hs & Hcpu & Hp2).
  destruct (lk_prim _ Hk1) as (k & Hkk & c0 & c1 & Hl1 & _ & _ & Hr). rewrite Hl in Hl1. injection Hl1 as <- <-.
  destruct (handled true n (waits t) t1 t2 e0 e1 k e1) as (t' & Hx' & Hk' & Hc' & Hu' & _ & Hv' & Hb' & Hs'); try done.
  assert (Hw' : waits t' = drop n (waits t)) by (rewrite <- Hw; unfold waits, sy_link; by rewrite Hc', Hcpu).
  exists args', t', n. split; [by rewrite Hx, (bind_Ret _ _ _ _ _ Hx')|]. split; [lia|].
  split; [split; [split; [done|by rewrite Hu']|]|].
  - rewrite Hv', Hb', Eq, Ev. by apply (queued_add _ (fQueBusy (sy_client t))).
  - split; [done|]. split; [by rewrite Hc', Hcpu|]. split; [done|]. by rewrite Hb', Eq, Hw'.
Qed.

(** What the action does: it prints as much as the fifo held when it was last
    read. *)
Lemma rcv_ok (t : Sys) data : lp_core data t → let n := Z.to_nat (fRblkSize (sy_client t)) in
  ∃ t', RcvHandler a t = (Ret 0, t') ∧ lp_core (data ++ paper (take n (waits t))) t' ∧ waits t' = drop n (waits t) ∧
    cport (sy_cpu t') = cport (sy_cpu t) ∧
    sy_srv t' = (if bool_decide (waits t' ≠ []) then sy_srv t <| fActnList ::= λ l, l ++ [a] |> else sy_srv t) ∧
    fQueBusy (sy_client t') = bool_decide (waits t' ≠ []) ∧
    fRblkSize (sy_client t') = Z.max 4 (Z.of_nat (length (waits t))).
Proof.
  intros [[K1 K2 K3 K4 K5 K6 (k & Hn & c0 & c1 & Hl & H0 & Hw0 & Hr)] K8] n.
  set (t0 := t <| sy_client ::= λ r, r <| fQueBusy := false |> |>).
  assert (Hnz : 0 < Z.of_nat n <= 65535) by lia.
  set (e := SetExpectStatus 0 kFifoMask (rblk buf n)).
  assert (He : fifo_read n e).
  { assert (Hw : cmd_wf (rblk buf n)) by (apply rblk_wf; [apply fifo_addr, Hdev|done]).
    split; [done|done|done|apply (length_replicate n 0)|]. by destruct Hw. }
  assert (Hadd : add_cmds (AddRbibr (lp_reg (sy_client t0) kBUF) n) RlinkCommandList_ctor t0 =
    (Ret (O, mkCommandList [rblk buf n] (-1)), t0)).
  { unfold add_cmds, AddRbibr, check_ibaddr, throw_if, lp_reg. change (cn_fBase (lp_cntl (sy_client t0))) with (cn_fBase (lp_cntl (sy_client t))).
    rewrite K3. destruct Hdev as [-> _]. rewrite bind_mret.
    assert (E : IbusRemoteAddr (u16 (base + kBUF)) (sy_cpu t0) = buf).
    { unfold IbusRemoteAddr, buf, rb. change (fIBase (sy_cpu t0)) with (fIBase (sy_cpu t)). by rewrite K2. }
    by rewrite E, AddRblk_run. }
  destruct (fifo_read_run n e false (srv_mem (sy_link t)) (srv_mem (sy_link t)) (dev (sy_link t)) He) as (c' & d2 & Hrun & Hp2 & Hf2 & Hd).
  destruct (exec_list_at (mkCommandList [e] (-1)) t0 [c'] (srv_mem (sy_link t)) d2) as (l' & s' & Hx & Ha & Hwf & Hm & Hdev' & Hs); try done.
  { split; cbn [fList]; [done|by apply list.Forall_cons_2; [apply He|]|done|done]. }
  apply Forall2_cons_inv_l in Ha as (e1 & es & Ha1 & Ha & Hl'). apply Forall2_nil_inv_l in Ha as ->.
  rewrite Hl' in Hwf. apply Forall_cons_iff in Hwf as [W1 _]. pose proof (Hd e1 Ha1 W1) as Hdone.
  set (t1 := t0 <| sy_link := s' |>) in *.
  assert (Hk1 : lp_run t1).
  { split; try done; [by eapply same_link_ok|]. exists k. split; [done|]. by exists c0, c1. }
  pose proof (fifo_size buf (dev (sy_link t))) as Hsz. pose proof (fifo_u8 buf (dev (sy_link t))) as Hu.
  destruct (loop_online n (waits t) t1 data Hu Hsz K8) as (t2 & Hloop & Hsame & Hcpu & Hpr).
  destruct (handled false n (waits t) t1 t2 c0 c1 k e1) as (t' & Hp & Hk' & Hc' & Hu' & _ & Hv' & Hb' & Hs'); try done; [lia|].
  assert (Hw' : waits t' = drop n (waits t)).
  { unfold waits at 1, sy_link. rewrite Hc', Hcpu. change (fifo buf (dev s') = drop n (waits t)). by rewrite Hdev', Hf2. }
  exists t'. split; [|split; [split; [done|by rewrite Hu']|split_and!; [done| | | |done]]].
  - unfold RcvHandler. rewrite (bind_Ret _ _ _ _ _ (eq_refl : client _ t = (Ret (), t0))).
    rewrite (bind_Ret _ _ _ _ _ (eq_refl : get_client id t0 = (Ret (sy_client t0), t0))).
    change (Z.to_nat (fRblkSize (sy_client t0))) with n. rewrite (bind_Ret _ _ _ _ _ Hadd). cbn beta iota.
    change (expect_at 0 (mkCommandList [rblk buf n] (-1))) with (mkCommandList [e] (-1)).
    rewrite (bind_Ret _ _ _ _ _ Hx).
    assert (Hcmd : cmd_of 0 l' t1 = (Ret e1, t1)) by (unfold cmd_of, at_; by rewrite Hl').
    by rewrite (bind_Ret _ _ _ _ _ Hcmd), (bind_Ret _ _ _ _ _ Hp).
  - unfold cport. rewrite Hc', Hcpu. change (port (dev s') = port (dev (sy_link t))). by rewrite Hdev', Hp2.
  - rewrite Hv', Hw'. change (fQueBusy (sy_client t1)) with false. by rewrite andb_true_r.
  - by rewrite Hb', Hw'.
Qed.

(** ** The printer at work *)

(** [action]: the actions of the server. *)
Variable action : A → M Sys Z.
Hypothesis Haction : action a = RcvHandler a.
Lemma action_ok (t : Sys) data l : lp_ok data t → fActnList (sy_srv t) = a :: l →
  ∃ t', CallActnHandler sy_srv action t = (Ret (), t') ∧ ∃ n, (4 <= n)%nat ∧ lp_ok (data ++ paper (take n (waits t))) t' ∧
    waits t' = drop n (waits t).
Proof.
  intros [Hk Hq] Hl. destruct (rcv_ok t data Hk) as (t1 & Hx & Hk1 & Hw & Hp & Hv & Hb & Hs).
  unfold CallActnHandler. rewrite Hl, Haction, (bind_Ret _ _ _ _ _ Hx). eexists. split; [reflexivity|].
  exists (Z.to_nat (fRblkSize (sy_client t))). split; [destruct (lk_size _ (proj1 Hk)); lia|].
  assert (Hal : a ∉ l).
  { rewrite Hl in Hq. destruct (fQueBusy (sy_client t)).
    - destruct Hq as (l1 & l2 & E & H1 & H2). destruct l1 as [|b l1]; [by injection E as ->|].
      injection E as -> _. exfalso. apply H1. by left.
    - exfalso. apply Hq. by left. }
  split; [|done]. split; [by destruct Hk1 as [[] ?]|].
  change (queued (fQueBusy (sy_client t1)) (match fActnList (sy_srv t1) with [] => [] | b :: l => if 0 <? 0 then l ++ [b] else l end)).
  rewrite Hb, Hv. destruct (bool_decide (waits t1 ≠ [])).
  - change (fActnList (sy_srv t <| fActnList ::= λ l, l ++ [a] |>)) with (fActnList (sy_srv t) ++ [a]). rewrite Hl.
    exists l, []. by split_and!; [|done|apply not_elem_of_nil].
  - by rewrite Hl.
Qed.

(** The steps of the system: the device takes a character, the handlers run, and
    anything else that leaves the controller and the fifo alone.  The list: what
    the device was given. *)
Inductive lp_step : list Z * Sys → list Z * Sys → Prop :=
| lp_char c w t s : same_link (sy_link t) s → fifo buf (dev s) = waits t ++ [c] →
    lp_step (w, t) (w ++ [c], t <| sy_link := s |>)
| lp_attn args args' w t t' : AttnHandler a args t = (Ret args', t') → lp_step (w, t) (w, t')
| lp_action l w t t' : fActnList (sy_srv t) = a :: l → CallActnHandler sy_srv action t = (Ret (), t') →
    lp_step (w, t) (w, t')
| lp_other w t t' : sy_client t' = sy_client t → fIBase (sy_cpu t') = fIBase (sy_cpu t) →
    same_link (sy_link t) (sy_link t') → waits t' = waits t →
    (∀ q, queued q (fActnList (sy_srv t)) → queued q (fActnList (sy_srv t'))) → lp_step (w, t) (w, t').

(** [t0]: where it began, with the stream at [data]. *)
Definition lp_inv (data : list Z) (t0 : Sys) (x : list Z * Sys) : Prop :=
  ∃ done, waits t0 ++ x.1 = done ++ waits x.2 ∧ lp_ok (data ++ paper done) x.2.
Lemma lp_inv_print data (t0 t t' : Sys) w done n : waits t0 ++ w = done ++ waits t →
  lp_ok ((data ++ paper done) ++ paper (take n (waits t))) t' → waits t' = drop n (waits t) →
  lp_inv data t0 (w, t').
Proof.
  intros H1 Hok Hw. exists (done ++ take n (waits t)). cbn [fst snd] in *. split.
  - by rewrite Hw, <- app_assoc, take_drop.
  - by rewrite paper_app, app_assoc.
Qed.
Lemma lp_step_inv data t0 x y : lp_step x y → lp_inv data t0 x → lp_inv data t0 y.
Proof.
  intros [c w t s Hs Hc|args args' w t t' Hx|l w t t' Hl Hx|w t t' Hc Hi Hs Hw Hq] (done & H1 & Hok); cbn [fst snd] in *.
  - destruct Hok as [[[K1 K2 K3 K4 K5 K6 K7] K8] Kq]. exists done. cbn [fst snd]. split.
    + rewrite app_assoc, H1, <- app_assoc. f_equal. symmetry. exact Hc.
    + split; [|done]. split; [|done]. split; try done. by eapply same_link_ok.
  - destruct (attn_ok args t _ Hok) as (args1 & t1 & n & Hx1 & _ & Hok1 & Hw & _).
    rewrite Hx in Hx1. injection Hx1 as _ <-. by eapply lp_inv_print.
  - destruct (action_ok t _ l Hok Hl) as (t1 & Hx1 & n & _ & Hok1 & Hw).
    rewrite Hx in Hx1. injection Hx1 as <-. by eapply lp_inv_print.
  - destruct Hok as [[[K1 K2 K3 K4 K5 K6 K7] K8] Kq]. exists done. cbn [fst snd]. split; [by rewrite Hw|].
    split; [|rewrite Hc; by apply Hq]. split; [|by rewrite Hc].
    split; rewrite ?Hc; try done; [by eapply same_link_ok|congruence].
Qed.
Lemma lp_run_inv data t0 x y : rtc lp_step x y → lp_inv data t0 x → lp_inv data t0 y.
Proof. induction 1 as [|x y z Hs _ IH]; [done|]. intros Hi. by eapply IH, lp_step_inv. Qed.
(** *** Without a stream *)

(** A character is counted by the unit. *)
Definition dropped (u : Unit) : Unit := ustat kStatNPreAttDrop 1 u.
(** The error bit, and the rate limit. *)
Definition csr_off (rlim : Z) : Z := 0x8000 + 4096 * (rlim mod 8).
Lemma csr_of_off (c : LP11 F) : us_fupVirt (lp_unit c) = None → csr_of c = csr_off (fRlim c) ∧ is_u16 (csr_off (fRlim c)).
Proof.
  intros Hv. unfold csr_of, online, csr_off. rewrite Hv.
  assert (E : Z.land (fRlim c) kCSR_B_RLIM = fRlim c mod 8) by (apply (Z.land_ones _ 3); done). rewrite E.
  assert (Hr : 0 <= fRlim c mod 8 < 8) by (apply Z.mod_pos_bound; done). revert Hr. generalize (fRlim c mod 8). intros x Hx.
  assert (H8 : x = 0 ∨ x = 1 ∨ x = 2 ∨ x = 3 ∨ x = 4 ∨ x = 5 ∨ x = 6 ∨ x = 7) by lia.
  by destruct_or! H8; subst.
Qed.
Definition csr_present : Prop := bad_ibaddr (u16 (base + kCSR)) = false ∧ dev_reg (rb ib base kCSR).
Hypothesis Hcsr : csr_present.
(** The state when [k] characters were dropped. *)
Record dropping (t : Sys) (k : nat) (t' : Sys) : Prop := {
  dr_same : loop_same t t';
  dr_unit : lp_unit (sy_client t') = Nat.iter k dropped (lp_unit (sy_client t));
  dr_port : cport (sy_cpu t') = logged (replicate k (rb ib base kCSR, csr_off (fRlim (sy_client t)))) (cport (sy_cpu t)) }.
Lemma iter_dropped_virt k (u : Unit) : us_fupVirt (Nat.iter k dropped u) = us_fupVirt u.
Proof. by induction k. Qed.
Lemma loop_same_trans (t t1 t2 : Sys) : loop_same t t1 → loop_same t1 t2 → loop_same t t2.
Proof.
  intros [L1 L2 L3 L4 L5 L6 L7] [M1 M2 M3 M4 M5 M6 M7]. unfold client_static in *. split; try congruence. by etrans.
Qed.
Lemma dropping_trans (t t1 t2 : Sys) j k : dropping t j t1 → dropping t1 k t2 → dropping t (j + k) t2.
Proof.
  intros [A1 A2 A3] [B1 B2 B3]. split; [by eapply loop_same_trans| |].
  - rewrite B2, A2, Nat.add_comm. symmetry. apply Nat.iter_add.
  - rewrite B3, A3, logged_app, replicate_add. injection (ls_static _ _ A1) as _ -> _ _ _. done.
Qed.
Lemma dropping_refl (t : Sys) : dropping t 0 t.
Proof. split; [by split|done|symmetry; apply logged_nil]. Qed.
Lemma WriteChar_off (t : Sys) c : lp_run t → us_fupVirt (lp_unit (sy_client t)) = None →
  ∃ t1, WriteChar (c mod 128) t = (Ret (), t1) ∧ dropping t (length (paper [c])) t1.
Proof.
  intros Hk Hv. unfold WriteChar, paper. cbn [map]. rewrite list.filter_cons. destruct (Z.eqb_spec (c mod 128) 0) as [E|E].
  { rewrite decide_False by (intros H1; by apply H1). eexists. split; [reflexivity|]. split; [by split|done|symmetry; apply logged_nil]. }
  rewrite decide_True by done. set (x := c mod 128) in *. change (length (x :: filter (λ c, c ≠ 0) [])) with 1%nat.
  set (t1 := t <| sy_client ::= λ r, r <| lp_cntl ::= λ k, k <| cn_fStats ::= inc kStatNChar 1 |> |> |>).
  set (t2 := t1 <| sy_client ::= λ r, r <| lp_unit := dropped (lp_unit (sy_client t)) |> |>).
  assert (H1 : ∃ e, call_unit (VirtWrite [x]) t1 = (Ret (inr e), t2)).
  { unfold call_unit, VirtWrite, on_virt. change (lp_unit (sy_client t1)) with (lp_unit (sy_client t)). rewrite Hv. by eexists. }
  destruct H1 as [e H1]. destruct (csr_of_off (sy_client t2) Hv) as [Hcs Hu16].
  destruct (exec_wibr_ok ib base kCSR _ t2 (lk_up _ Hk) (lk_ib _ Hk) (proj1 Hcsr) (proj2 Hcsr) Hu16) as (s' & Hx & [E1 E2 E3]).
  set (t3 := t2 <| sy_link := s' |>) in *.
  assert (H2 : UnitSetup 0 t2 = (Ret (), t3)).
  { unfold UnitSetup. cbn [Nat.ltb Nat.leb]. unfold lp_reg. change (cn_fBase (lp_cntl (sy_client t2))) with (cn_fBase (lp_cntl (sy_client t))).
    rewrite (lk_base _ Hk), Hcs. exact Hx. }
  rewrite (bind_Ret _ _ _ _ _ (eq_refl : lstat kStatNChar t = (Ret (), t1))), (bind_Ret _ _ _ _ _ H1). cbn beta iota.
  rewrite (bind_Ret _ _ _ _ _ H2).
  assert (Hd : dropping t 1 t3) by (by split; [split|..]).
  destruct (x =? 12); [|destruct (x =? 10); (eexists; split; [reflexivity|]); [|exact Hd]; by destruct Hd as [[] ? ?]; split].
  set (t4 := t3 <| sy_client ::= λ r, r <| lp_cntl ::= λ k, k <| cn_fStats ::= inc kStatNPage 1 |> |> |>).
  rewrite (bind_Ret _ _ _ _ _ (eq_refl : lstat kStatNPage t3 = (Ret (), t4))).
  exists t4. split; [|by destruct Hd as [[] ? ?]; split].
  unfold mbind, M_bind, call_unit, VirtFlush, on_virt.
  change (us_fupVirt (lp_unit (sy_client t4))) with (us_fupVirt (lp_unit (sy_client t))). by rewrite Hv.
Qed.
Lemma loop_off n l (t : Sys) : Forall is_u8 l → (length l <= 127)%nat → lp_run t → us_fupVirt (lp_unit (sy_client t)) = None →
  ∃ t1, (∀ lo hi, buf_loop (fifo_words n l) lo hi t = (Ret (fuse_range n l lo hi), t1)) ∧ dropping t (length (paper (take n l))) t1.
Proof.
  intros Hu Hl Hk Hv.
  destruct (buf_loop_run (λ cs t', dropping t (length (paper cs)) t'))
    with (l := l) (n := n) (t := t) (cs := @nil Z) as (t' & H1 & H2); try done; [|apply dropping_refl|by exists t'].
  intros cs c t' Hd. destruct (WriteChar_off t' c) as (t1 & H1 & H2).
  { eapply lp_run_same; [exact (dr_same _ _ _ Hd)|done]. }
  { by rewrite (dr_unit _ _ _ Hd), iter_dropped_virt. }
  exists t1. split; [done|]. rewrite paper_app, length_app. by eapply dropping_trans.
Qed.
(** The attention handler. *)
Lemma attn_off args (t : Sys) : lp_run t → us_fupVirt (lp_unit (sy_client t)) = None → ∃ args' t' n l,
  AttnHandler a args t = (Ret args', t') ∧ (4 <= n <= 127)%nat ∧ l = paper (take n (waits t)) ∧ lp_run t' ∧
  lp_unit (sy_client t') = Nat.iter (length l) dropped (lp_unit (sy_client t)) ∧
  cport (sy_cpu t') = logged (replicate (length l) (rb ib base kCSR, csr_off (fRlim (sy_client t)))) (cport (sy_cpu t)).
Proof.
  intros Hk Hv. destruct (attn_fetch args t Hk) as (args' & t1 & e0 & e1 & n & Hx & Hn & Hk1 & Hl & H0 & W0 & Hd & Hw & Hc & Eu & _ & Er & _).
  pose proof (fifo_size buf (dev (sy_link t))) as Hsz. pose proof (fifo_u8 buf (dev (sy_link t))) as Hu. fold (waits t) in Hsz, Hu.
  rewrite <- Eu in Hv. destruct (loop_off n (waits t) t1 Hu Hsz Hk1 Hv) as (t2 & Hloop & [Hs D2 D3]).
  destruct (lk_prim _ Hk1) as (k & Hkk & c0 & c1 & Hl1 & _ & _ & Hr). rewrite Hl in Hl1. injection Hl1 as <- <-.
  destruct (handled true n (waits t) t1 t2 e0 e1 k e1) as (t' & Hx' & Hk' & Hc' & Hu' & _); try done.
  exists args', t', n, (paper (take n (waits t))). split; [by rewrite Hx, (bind_Ret _ _ _ _ _ Hx')|].
  split; [done|]. split; [done|]. split; [done|]. split; [by rewrite Hu', D2, Eu|]. by rewrite Hc', D3, Hc, Er.
Qed.
End LP11.

(** ** Theorems *)

(** C14: The printer loses nothing.  From a started printer with an attached stream,
    in whatever order the device takes characters, between the command lists, and
    the attention handler and the action run, with anything else in between: what was given to the device is what
    was printed followed by what waits in the fifo, the stream ends with exactly the
    printed characters in order (seven bits, without NULs), the action is in the
    list of the server exactly when the controller says so, and the handlers
    return. *)
Theorem lp_prints {S D V H A F} `{!RlinkExec S, !Rbus D, !LinkLaws S D, !CpuBus D, !RegDev D, !FifoBus D, !StdioFile F, !StdioLaws F}
    (ib base : Z) (a : A) (action : A → M (Rw11Sys S V H A (LP11 F)) Z) (data w : list Z) (t0 t : Rw11Sys S V H A (LP11 F)) :
  lp_present (D := D) ib base → action a = RcvHandler a → lp_ok a ib base data t0 →
  rtc (lp_step a ib base action) ([], t0) (w, t) →
  ∃ done, waits ib base t0 ++ w = done ++ waits ib base t ∧ lp_ok a ib base (data ++ paper done) t ∧
    (∀ args, ∃ args' t', AttnHandler a args t = (Ret args', t')) ∧
    (∀ l, fActnList (sy_srv t) = a :: l → ∃ t', CallActnHandler sy_srv action t = (Ret (), t')).
Proof.
  intros Hdev Hact H0 Hr. assert (Hinv : lp_inv a ib base data t0 (w, t)).
  { assert (Hi : lp_inv a ib base data t0 ([], t0)).
    { exists []. cbn [fst snd]. rewrite !app_nil_r. by split. }
    by apply (lp_run_inv a ib base Hdev action Hact data t0 _ _ Hr). }
  destruct Hinv as (done & H1 & Hok). exists done. split; [done|]. split; [done|]. split.
  - intros args. destruct (attn_ok a ib base Hdev args t _ Hok) as (args' & t' & n & Hx & _). by exists args', t'.
  - intros l Hl. destruct (action_ok a ib base Hdev action Hact t _ l Hok Hl) as (t' & Hx & _). by exists t'.
Qed.

(** C15: The printer catches up.  When no character comes in between, the attention
    handler and one run of the action print all that waits; the action is queued,
    behind what the server has to do, unless the fifo is already empty. *)
Theorem lp_drains {S D V H A F} `{!RlinkExec S, !Rbus D, !LinkLaws S D, !CpuBus D, !RegDev D, !FifoBus D, !StdioFile F, !StdioLaws F}
    (ib base : Z) (a : A) (args : AttnArgs) (data : list Z) (t : Rw11Sys S V H A (LP11 F)) :
  lp_present (D := D) ib base → lp_ok a ib base data t →
  ∃ args' t1 t2, AttnHandler a args t = (Ret args', t1) ∧
    (waits ib base t1 ≠ [] → a ∈ fActnList (sy_srv t1)) ∧
    RcvHandler a t1 = (Ret 0, t2) ∧ waits ib base t2 = [] ∧ fQueBusy (sy_client t2) = false ∧
    prints_at (lp_unit (sy_client t2)) (data ++ paper (waits ib base t)) ∧ sy_srv t2 = sy_srv t1 ∧
    cport (sy_cpu t2) = cport (sy_cpu t).
Proof.
  intros Hdev Hok. destruct (attn_ok a ib base Hdev args t data Hok) as (args' & t1 & n & H1 & Hn & [Hk1 Hq1] & Hw1 & Hc1 & Hs1 & Hb1).
  destruct (rcv_ok a ib base Hdev t1 _ Hk1) as (t2 & H2 & Hk2 & Hw2 & Hc2 & Hv2 & Hb2 & _).
  assert (Hd : drop (Z.to_nat (fRblkSize (sy_client t1))) (waits ib base t1) = []).
  { apply drop_ge. rewrite Hw1, length_drop. lia. }
  rewrite Hd in Hw2. rewrite Hw2 in Hv2, Hb2.
  exists args', t1, t2. split_and!; try done.
  - intros Hne. rewrite Hb1, bool_decide_eq_true_2, orb_true_r in Hq1 by done. destruct Hq1 as (l1 & l2 & -> & _).
    apply elem_of_app. right. by left.
  - pose proof (proj2 Hk2) as Hp. rewrite Hw1 in Hp.
    rewrite (take_ge (drop n _)) in Hp by (rewrite length_drop; lia).
    by rewrite <- app_assoc, <- paper_app, take_drop in Hp.
  - by rewrite Hc2.
Qed.

(** C16: A printer without a stream.  The characters that the attention handler reads
    are dropped: for each that would be printed the unit counts one, and the device
    is told once that the printer is in error, with its rate limit kept; the handler
    returns and the controller works on. *)
Theorem lp_offline {S D V H A F} `{!RlinkExec S, !Rbus D, !LinkLaws S D, !CpuBus D, !RegDev D, !FifoBus D, !StdioFile F}
    (ib base : Z) (a : A) (args : AttnArgs) (t : Rw11Sys S V H A (LP11 F)) :
  lp_present (D := D) ib base → csr_present (D := D) ib base → lp_run (D := D) ib base t → us_fupVirt (lp_unit (sy_client t)) = None →
  ∃ args' t' n l, AttnHandler a args t = (Ret args', t') ∧ (4 <= n <= 127)%nat ∧ l = paper (take n (waits ib base t)) ∧
    lp_run ib base t' ∧ lp_unit (sy_client t') = Nat.iter (length l) dropped (lp_unit (sy_client t)) ∧
    cport (sy_cpu t') = logged (replicate (length l) (rb ib base kCSR, csr_off (fRlim (sy_client t)))) (cport (sy_cpu t)).
Proof. intros Hdev Hcsr Hk Hv. by apply attn_off. Qed.

(** ** A pdp-11 with a printer *)

(** The printer at 0xff00, its fifo with [cs] in it, and its unit. *)
Definition lp_device (cs : list Z) : FifoPdp :=
  mkFifoPdp (mkPdpBus (mkCpPort 0 false false 3 false ∅ 0x2000 []) ∅) cs.
Definition lp_paper : Rw11UnitStream StdFile :=
  UnitLP11_ctor <| us_fupVirt := Some (VirtStream_ctor (mkStdFile (mkSfile [] 0 true false)) <| fOStream := true |> <| fFile := 1 |>) |>.
Definition lp_list : RlinkCommandList :=
  mkCommandList [fresh_command kCmdAttn 0 0 [] None 0; SetExpectStatus 0 kFifoMask (rblk 0x4f81 4)] (-1).
Definition lp_ctl (u : Rw11UnitStream StdFile) : LP11 StdFile :=
  LP11_ctor <| lp_cntl ::= (λ c, c <| cn_fBase := 0xff00 |> <| cn_fPrimClist := lp_list |>) |>
    <| fPC_buf := 1%nat |> <| fFsize := 127 |> <| fRlim := 3 |> <| lp_unit := u |>.
Definition lp_demo (cs : list Z) (u : Rw11UnitStream StdFile) : Rw11Sys (RlinkLink (CorePort FifoPdp)) () () () (LP11 StdFile) :=
  mkSys RlinkServer_ctor (Cpu_ctor "w11a" 0 (core_link (lp_device cs))) [] true Rdma_ctor None (lp_ctl u).
Lemma lp_demo_present : lp_present (D := FifoPdp) 0x4000 0xff00.
Proof. by split. Qed.
Lemma lp_demo_csr : csr_present (D := FifoPdp) 0x4000 0xff00.
Proof. by split; [|split; [split|]]. Qed.
Lemma lp_demo_run cs u : lp_run (D := FifoPdp) 0x4000 0xff00 (lp_demo cs u).
Proof.
  split; try done; [apply core_link_is_up|]. exists 4%nat. split; [lia|]. eexists _, _. split; [reflexivity|]. split; [done|]. split.
  - apply fresh_command_wf; try done. by intros [|].
  - assert (Hw : cmd_wf (rblk 0x4f81 4)) by (apply rblk_wf; [done|lia]). split; [done|done|done|done|]. by destruct Hw.
Qed.
Lemma lp_demo_ok cs : lp_ok () 0x4000 0xff00 [] (lp_demo cs lp_paper).
Proof.
  split; [|apply not_elem_of_nil]. split; [apply lp_demo_run|]. exists false. eexists. split; [reflexivity|]. by split_and!.
Qed.
Lemma core_link_same {D} `{!Rbus D} (d d' : D) : core_same (core_link d) (core_link d').
Proof.
  split; [|intros _; exact (core_link_is_up d')].
  by vm_compute.
Qed.
Lemma lp_demo_char cs u w c : fp_chars (lp_device (cs ++ [c])) = fp_chars (lp_device cs) ++ [c] →
  lp_step () 0x4000 0xff00 (λ _, RcvHandler ()) (w, lp_demo cs u) (w ++ [c], lp_demo (cs ++ [c]) u).
Proof.
  intros Hc. apply (lp_char () 0x4000 0xff00 (λ _, RcvHandler ()) c w (lp_demo cs u) (core_link (lp_device (cs ++ [c])))).
  - apply core_link_same.
  - exact Hc.
Qed.

(** Two characters come, and an attention. *)
Lemma lp_prints_witness : ∃ args t' done,
  AttnHandler () (AttnArgs_ctor 0x100 0x100) (lp_demo [72; 105] lp_paper) = (Ret args, t') ∧
  [72; 105] = done ++ waits 0x4000 0xff00 t' ∧ lp_ok () 0x4000 0xff00 (paper done) t'.
Proof.
  destruct (attn_ok () 0x4000 0xff00 lp_demo_present (AttnArgs_ctor 0x100 0x100) (lp_demo [72; 105] lp_paper) [] (lp_demo_ok _))
    as (args & t' & _ & Hx & _).
  destruct (lp_prints 0x4000 0xff00 () (λ _, RcvHandler ()) [] [72; 105] (lp_demo [] lp_paper) t' lp_demo_present eq_refl (lp_demo_ok _))
    as (done & H1 & H2 & _).
  - eapply rtc_l; [apply (lp_demo_char [] lp_paper [] 72); reflexivity|].
    eapply rtc_l; [apply (lp_demo_char [72] lp_paper [72] 105); reflexivity|].
    apply rtc_once. by eapply lp_attn.
  - exists args, t', done. split; [exact Hx|]. split; [exact H1|exact H2].
Defined.
(** Six characters, a NUL among them, are more than the first block. *)
Lemma lp_drains_witness : ∃ args t1 t2,
  AttnHandler () (AttnArgs_ctor 0x100 0x100) (lp_demo [72; 0; 105; 33; 13; 10] lp_paper) = (Ret args, t1) ∧
  RcvHandler () t1 = (Ret 0, t2) ∧ waits 0x4000 0xff00 t2 = [] ∧ prints_at (lp_unit (sy_client t2)) [72; 105; 33; 13; 10].
Proof.
  destruct (lp_drains 0x4000 0xff00 () (AttnArgs_ctor 0x100 0x100) [] (lp_demo [72; 0; 105; 33; 13; 10] lp_paper)
    lp_demo_present (lp_demo_ok _)) as (args & t1 & t2 & H1 & _ & H2 & H3 & _ & H4 & _).
  exists args, t1, t2. split; [exact H1|]. split; [exact H2|]. split; [exact H3|exact H4].
Defined.
(** Four of them without a stream: the error bit is told three times. *)
Lemma lp_offline_witness : ∃ args t' n,
  AttnHandler () (AttnArgs_ctor 0x100 0x100) (lp_demo [72; 0; 105; 33] UnitLP11_ctor) = (Ret args, t') ∧ (4 <= n <= 127)%nat ∧
  lp_unit (sy_client t') = dropped (dropped (dropped UnitLP11_ctor)) ∧
  cp_log (cport (sy_cpu t')) = [(0x4f80, 0xb000); (0x4f80, 0xb000); (0x4f80, 0xb000)].
Proof.
  destruct (lp_offline 0x4000 0xff00 () (AttnArgs_ctor 0x100 0x100) (lp_demo [72; 0; 105; 33] UnitLP11_ctor)
    lp_demo_present lp_demo_csr (lp_demo_run _ _) eq_refl) as (args & t' & n & l & H1 & Hn & -> & _ & H2 & H3).
  change (waits 0x4000 0xff00 (lp_demo [72; 0; 105; 33] UnitLP11_ctor)) with [72; 0; 105; 33] in H2, H3.
  rewrite take_ge in H2, H3 by (simpl; lia).
  exists args, t', n. split; [exact H1|]. split; [exact Hn|]. split; [exact H2|]. rewrite H3. reflexivity.
Defined.
